(* ===== verification/_CoqProject ===== *)
-Q . S2P
Prelude.v
PyFloat.v
Py.v
PyTime.v
Store.v
ListStore.v
Guard.v
Inventory.v
Uow.v
Frame.v
Lifecycle.v
LifecycleSpec.v
CircuitBreaker.v
PinAuth.v
Adjustments.v
ConnPool.v
StateMachines.v
RefreshToken.v
Redis.v
Locks.v
RateLimiter.v
Json.v
PyDecimal.v
Cache.v
AuthLimits.v
Flags.v
LogicGuard.v
Quantity.v
Variance.v
CountLines.v
ProjectionWriter.v
CountLineSpec.v
ProjectionCore.v
ProjectionSpec.v
Events.v
ApprovalEngine.v
Observations.v
ApprovalSpec.v
UnknownItems.v
UnknownItemSpec.v
EventMirror.v
SyncConflicts.v
SyncConflictSpec.v
SyncBatch.v
SyncBatchSpec.v
LineTransition.v
LineActions.v
LineActionSpec.v
LineCreation.v
LineCreationSpec.v
SessionRoutes.v
SessionRoutesSpec.v
