(* ===== verification/Prelude.v ===== *)
(** * Verification of the stock-verification backend

    The program (src/backend, Python, FastAPI over MongoDB, with a read-only
    SQL Server behind it) lets staff count stock.  A session is opened for a
    warehouse; staff record count lines in it; supervisors review and approve
    them; the session is finalized, which seals its lines; differences are
    written off by inventory adjustments.  Every write goes through a guard, is
    versioned, runs in a unit of work and is audited.  This development models
    the services that carry those rules and proves what they promise.

    ** The parts and the files that model them

    Foundations:
    - [Prelude]: tactics, hint databases, lemmas on lists and on association
      lists (Python dicts: insertion-ordered, one entry per key).
    - [PyFloat], [PyDecimal]: binary64 floats ([SpecFloat], no axioms) and
      [decimal.Decimal] as the code uses them.
    - [Py]: dynamically typed values [val] (the dicts of the services), [str]
      methods, truthiness, conversions, exceptions [exn], results [outcome] and
      the monad [M] in which the handlers are written ([do], [run]).
    - [Store]: MongoDB as the class [Mongo] with its laws [MongoLaws]; the
      [world] of a request (collections, write authority, guards, clock ticks,
      events).  [ListStore] is an instance, for the witnesses.  [Redis] is the
      same for the Redis server, with [RedisMap].
    - [Frame]: which collections a computation may change.
    - [Json]: [json.dumps] and [json.loads].  [PyTime]: datetimes from text.

    Core of the application, each file naming its sources:
    - [Guard] (services/governance_guard.py): session statuses, the checks of a
      write, write authorities and the guarded collections.
    - [Uow] (core/uow.py): the unit of work.  A write that the code issues
      without the session of the transaction is recorded in the world
      ([w_unsessioned], [db_insert_one_unsessioned] of [Guard]); [rollback] goes
      back to the database of the start and replays those writes.
    - [Inventory] (services/canonical_inventory.py): what counts as reviewed,
      locked, superseded or blocking.
    - [Lifecycle], [LifecycleSpec] (services/session_lifecycle_service.py,
      services/concurrency.py, services/governance_audit_service.py): sessions,
      versioned updates, finalization, recount requests.
    - [StateMachines] (services/session_state_machine.py,
      services/count_state_machine.py).
    - [Quantity] (services/validation_service.py), [Variance]
      (services/variance_service.py): the rules of a counted quantity and the
      thresholds of its variance.
    - [CountLines], [CountLineSpec] (services/count_line_write_service.py,
      services/count_lines/*.py, repositories/*.py): the one way a count line
      is written.  [process_write] runs the checks ([before_write]: [Guard],
      [Quantity], [Variance]), the write, and what follows it ([after_write]:
      validation, session totals through [Lifecycle], projections, audit)
      inside [Uow].
    - [Adjustments] (services/inventory_adjustment_service.py): proposals,
      authorization by an override token of [PinAuth], the ledger.
    - [Flags], [LogicGuard] (services/feature_flags.py, flag_resolver.py,
      logic_guard.py): which version of the business logic a request runs, and
      the pin of a session to it.
    - [LineTransition] (services/count_state_machine.py): the state of a count
      line, changed through [CountLines].
    - [UnknownItems], [UnknownItemSpec] (services/unknown_item_service.py): items
      without a master record, attached, escalated, mapped or dismissed.
    - [ApprovalEngine], [Observations], [ApprovalSpec]
      (services/approval_engine.py, recount_service.py, sql_variance_engine.py,
      api/approval_api.py, the observations of api/count_lines_routes.py):
      automatic approval, supervisor decisions, recounts.
    - [SyncConflicts], [SyncConflictSpec] (services/sync_conflicts_service.py):
      the conflicts of a device with the server, and what their resolution
      writes.
    - [LineActions], [LineActionSpec] (api/count_lines_routes.py and the session
      totals of services/canonical_inventory.py): verify, approve, reject, edit,
      delete and merge a line of an open session, and the bulk decisions.
    - [LineCreation], [LineCreationSpec] (api/count_lines_routes.py and
      [CountLineCreate] of api/schemas.py): the request for a new line, its
      checks, locks, duplicates and recounts, the document and its write through
      [CountLines], the observation it leaves; batches of lines and drafts.
    - [SessionRoutes], [SessionRoutesSpec] (api/session_management_api.py,
      [Session] and [SessionCreate] of api/schemas.py, core/schemas/snapshot.py):
      the requests on a session: its opening with the snapshot of its place,
      heartbeat, status and finalization through [Lifecycle], claim, pause,
      resume, release and takeover, with the rack locks of [Locks].
    - [SyncBatch], [SyncBatchSpec] (api/sync_batch_api.py): a batch of records
      counted offline, through [RateLimiter], [CircuitBreaker], [Locks],
      [SyncConflicts] and [CountLines].

    Read models and events:
    - [ProjectionWriter] (services/projections/writer.py): the rows the
      dashboards read, rebuilt from the lines of a session under its lock.
    - [Events], [EventMirror] (services/event_service.py,
      scripts/migrate_count_lines_to_event_log.py): the event log, who writes to
      it, and its backfill from old lines.
    - [ProjectionCore], [ProjectionSpec] (services/projections/core.py): the read
      models derived from the events, each event applied once, and the rebuild.
      [Events] calls [ProjectionCore] for every new event.

    Access and infrastructure:
    - [PinAuth] (services/pin_auth_service.py, services/otp_service.py,
      core/validators/pin_validator.py).
    - [RefreshToken] (services/refresh_token.py, auth/jwt_provider.py): rotation,
      revocation and migration of refresh tokens.
    - [Locks] (services/locking), [RateLimiter] (services/rate_limiting,
      middleware/security.py), [Cache] (services/cache/manager.py),
      [AuthLimits] (auth/rate_limiter.py).
    - [CircuitBreaker] (services/circuit_breaker.py), [ConnPool]
      (services/enhanced_connection_pool.py).
    ** How the code is translated

    A handler is a function on the [world] that returns an outcome and the next
    world; its reads, checks and writes come in the order of the code, and an
    exception keeps the writes made before it.  A dict that a caller sees
    changed after the call is returned with the result.  Collections are
    reached through the operations of the class [Mongo], so the theorems hold
    for every store with its laws; the order of documents is left open.
    Services written as classes with state of their own ([CircuitBreaker],
    [ConnPool], [RateLimiter], [Cache], the write service) have a record for it.
    Concurrency is by explicit interleaving where the code shares state between
    threads or requests: sequences of calls of any clients ([Locks],
    [RateLimiter], [Guard], [Cache]), steps of any threads ([CircuitBreaker],
    and [ConnPool], whose threads move from one section under the lock or one
    access outside it to the next), and requests on one database
    ([LifecycleSpec], [Adjustments], [PinAuth]).  Clocks, random draws, hashes
    and drivers are parameters, and so is the truth value of the database object
    that some services test ([database_bool]): the driver refuses it.

    ** What the theorems show

    - Safety of the count: a finalized session and its lines stay as they are;
      finalization needs every line reviewed; a guarded collection is only
      written under its authority; a count line is stored only with the checks
      of its mode, the governance decision on its quantity and a fresh hash;
      a versioned update loses no write.
    - Agreement of state: the totals of a session are those of its lines after
      an insert, the two implementations of the totals are the same function,
      the ledger holds exactly the entries the adjustments call for, the rows of
      the read models are those of the lines they show.
    - Events: an event is logged once and projected once; a rebuild makes the
      quantities of the read model the sums of the logged changes; an append
      that returns has projected its event.
    - Decisions: automatic approval holds exactly under the stated conditions; a
      decision, a conflict resolution and a transition are recorded once and
      change what they name, and approved lines are forked, not overwritten; an
      unknown item is attached at the version that was read, or nothing changes.
    - Requests: the requests on sessions refine a machine of single moves, each
      of them permitted to its user; a session is opened only where neither its
      user nor its place has an active one, and no request touches a finalized
      one; a new line is stored only in an open session and only at a place
      where the item is not counted yet or is to be recounted, and it describes
      the request; a line of an open session is changed only by those who may, and a
      decision changes the line it names and leaves the totals current; every
      record of an offline batch is answered, and a batch that has been stored
      is not stored again.
    - Atomicity: a failed request of [Lifecycle] or write of [CountLines] leaves
      the database as it was, where the deployment has transactions; the writes
      that do not carry the session (logged violations, default thresholds) stay.
    - Access: override tokens and one-time passwords work once whatever is called
      afterwards, PINs lock after three failures, attempts are limited, racks are locked by one user,
      rate limits hold in every window, a refresh token that has been exchanged
      is dead and a user has at most one that is not.
    - Machines: invariants of the breaker, the pool and the state machines,
      termination of the pool's retry loop, and round trips of the cache (through
      other calls, evictions and driver failures) and of the session lock.
    Properties with a hypothesis have a witness on the stores above.  Where the
    code does something else than it says, a lemma shows it on a concrete run.

    ** Bounds and fuel

    [max_lines] is the 50000 of the code.  The JSON parser runs on the length
    of its text, which every recursive call shortens; the retry loop of the pool
    has a fuel, and the termination theorem says how much is enough, as has the
    wait of [ProjectionWriter] for the lock of a session; SCAN runs
    on a rank that each call lowers.  [dec_exp] (640) bounds the decimal exponents
    [float()] has to look at, beyond which the result is 0 or an infinity.  The
    theorems on Redis keys take lifetimes below [max_ttl] (2^40 ms).  Integers
    that reach the database fit 64 bits; [$inc] beyond that fails.  Decimals
    have the 28 digits of the default context.

    ** What is left out

    Strings are 8-bit, with ASCII case and whitespace; datetimes are naive UTC
    microseconds, cut to milliseconds by BSON.  Failures of the MongoDB driver
    itself (network, write conflicts) are outside the interface; those of Redis
    and of the SQL driver are modelled.  Reads that a service makes without the
    session of its transaction are not told apart from the reads inside.
    Unique indexes other than that of [_id] are outside the interface: an insert
    or upsert never fails on them.  Logs and broadcasts are events or left out;
    so is the synchronization of the read models after a count-line write, which
    is modelled on its own in [ProjectionWriter].  Not modelled, with the reason in the manifest: the other HTTP
    routes and schemas (request parsing and dispatch), the listings of count
    lines and of sessions with their statistics and workflow summaries, the operations protocol of the synchronization, which the endpoint
    refuses, the ERP synchronization, reports, exports and search, monitoring
    and notifications, dynamic fields and enrichment, configuration, scripts,
    and the applications in other languages. *)

From stdpp Require Export base tactics list strings option functions.
From Stdlib Require Export ZArith Lia Bool.

Declare Scope stock_scope.
Delimit Scope stock_scope with stock.

Create HintDb stock.
Create Rewrite HintDb stock.
Create Rewrite HintDb mongo.

(** ** Tactics *)

(** Split the matches of a hypothesis that equates two results, closing the
    impossible branches. *)
Ltac split_match_in H :=
  match type of H with
  | context [match ?x with _ => _ end] =>
      lazymatch x with
      | context [match _ with _ => _ end] => fail
      | _ => let E := fresh "E" in destruct x eqn:E; simplify_eq
      end
  end.

Ltac split_goal_match :=
  match goal with
  | |- context [match ?x with _ => _ end] =>
      lazymatch x with
      | context [match _ with _ => _ end] => fail
      | _ => let E := fresh "E" in destruct x eqn:E; simplify_eq
      end
  end.

(** Turn boolean connectives in the hypotheses into propositions. *)
Ltac bool_hyps :=
  repeat match goal with
  | H : (_ && _)%bool = true |- _ => apply andb_true_iff in H; destruct H
  | H : (_ || _)%bool = false |- _ => apply orb_false_iff in H; destruct H
  | H : negb _ = true |- _ => apply negb_true_iff in H
  | H : negb _ = false |- _ => apply negb_false_iff in H
  | H : String.eqb _ _ = true |- _ => apply String.eqb_eq in H
  | H : String.eqb _ _ = false |- _ => apply String.eqb_neq in H
  | H : Z.eqb _ _ = true |- _ => apply Z.eqb_eq in H
  | H : Z.eqb _ _ = false |- _ => apply Z.eqb_neq in H
  | H : Z.ltb _ _ = true |- _ => apply Z.ltb_lt in H
  | H : Z.ltb _ _ = false |- _ => apply Z.ltb_ge in H
  | H : Z.leb _ _ = true |- _ => apply Z.leb_le in H
  | H : Z.leb _ _ = false |- _ => apply Z.leb_gt in H
  end.

(** ** Membership of a string in a literal set *)

Definition str_in (s : string) (l : list string) : bool := existsb (String.eqb s) l.

(** ** Association lists with insertion order (Python dicts) *)

Section assoc.
Context {A : Type}.

Fixpoint aget (k : string) (l : list (string * A)) : option A :=
  match l with
  | [] => None
  | (k', v) :: l' => if String.eqb k k' then Some v else aget k l'
  end.

(** Assignment keeps the position of an existing key and appends a new one. *)
Fixpoint aset (k : string) (v : A) (l : list (string * A)) : list (string * A) :=
  match l with
  | [] => [(k, v)]
  | (k', v') :: l' => if String.eqb k k' then (k, v) :: l' else (k', v') :: aset k v l'
  end.

Fixpoint adel (k : string) (l : list (string * A)) : list (string * A) :=
  match l with
  | [] => []
  | (k', v') :: l' => if String.eqb k k' then adel k l' else (k', v') :: adel k l'
  end.

(** [d.update(e)]: the items of [e] assigned one after the other. *)
Definition aupd (l e : list (string * A)) : list (string * A) :=
  fold_left (fun acc kv => aset (fst kv) (snd kv) acc) e l.
End assoc.

(** ** Lemmas *)

Lemma str_in_spec s l : str_in s l = true <-> s ∈ l.
Proof.
  unfold str_in. rewrite existsb_exists. setoid_rewrite <- list_elem_of_In. split.
  - intros (x & Hx & Heq). bool_hyps. by subst.
  - intros Hs. exists s. split; [done | apply String.eqb_refl].
Qed.

Lemma str_in_false s l : str_in s l = false <-> s ∉ l.
Proof. rewrite <- not_true_iff_false, str_in_spec. done. Qed.

Section assoc_lemmas.
Context {A : Type}.
Implicit Types (l e : list (string * A)) (k : string) (v : A).

Lemma aget_aset_eq k v l : aget k (aset k v l) = Some v.
Proof.
  induction l as [|[k' v'] l IH]; simpl.
  - by rewrite String.eqb_refl.
  - destruct (String.eqb k k') eqn:E; simpl; [by rewrite String.eqb_refl | by rewrite E].
Qed.

Lemma aget_aset_ne k k' v l : k ≠ k' → aget k' (aset k v l) = aget k' l.
Proof.
  intros Hne. induction l as [|[k1 v1] l IH]; simpl.
  - destruct (String.eqb_spec k' k); [congruence | done].
  - destruct (String.eqb_spec k k1) as [->|]; simpl.
    + destruct (String.eqb_spec k' k1); [congruence | done].
    + by rewrite IH.
Qed.

Lemma aget_aset k k' v l :
  aget k' (aset k v l) = if String.eqb k k' then Some v else aget k' l.
Proof.
  destruct (String.eqb_spec k k') as [->|]; [apply aget_aset_eq | by apply aget_aset_ne].
Qed.

Lemma aget_adel k k' l :
  aget k' (adel k l) = if String.eqb k k' then None else aget k' l.
Proof.
  induction l as [|[k1 v1] l IH]; simpl.
  - by destruct (String.eqb k k').
  - destruct (String.eqb_spec k k1) as [->|Hne]; simpl.
    + rewrite IH. destruct (String.eqb_spec k1 k') as [->|Hne']; [done|].
      destruct (String.eqb_spec k' k1); [congruence | done].
    + destruct (String.eqb_spec k' k1) as [->|].
      * destruct (String.eqb_spec k k1); [congruence | done].
      * apply IH.
Qed.

Lemma aget_app k l e :
  aget k (l ++ e) = match aget k l with Some v => Some v | None => aget k e end.
Proof. induction l as [|[k1 v1] l IH]; simpl; [done|]. by destruct (String.eqb k k1). Qed.

(** The last assignment of a key in an update wins. *)
Lemma aget_aupd k l e :
  aget k (aupd l e) = match aget k (rev e) with Some v => Some v | None => aget k l end.
Proof.
  unfold aupd. revert l. induction e as [|[k1 v1] e IH]; intros l; simpl; [done|].
  rewrite IH, aget_app. simpl.
  destruct (aget k (rev e)); [done|]. rewrite aget_aset.
  destruct (String.eqb_spec k1 k) as [->|]; [by rewrite String.eqb_refl|].
  destruct (String.eqb_spec k k1); [congruence | done].
Qed.

Lemma aset_same k v l : aget k l = Some v → aset k v l = l.
Proof.
  induction l as [|[k1 v1] l IH]; simpl; [done|].
  destruct (String.eqb_spec k k1) as [->|]; [congruence|]. intros. by rewrite IH.
Qed.

Lemma aget_In k v l : aget k l = Some v → In (k, v) l.
Proof.
  induction l as [|[k1 v1] l IH]; simpl; [done|].
  destruct (String.eqb_spec k k1) as [->|]; intros; simplify_eq; auto.
Qed.

Lemma aget_None k l : aget k l = None <-> k ∉ map fst l.
Proof.
  induction l as [|[k1 v1] l IH]; simpl.
  - split; [intros _; apply not_elem_of_nil | done].
  - rewrite not_elem_of_cons. destruct (String.eqb_spec k k1) as [->|Hne].
    + split; [done | by intros [? _]].
    + rewrite IH. tauto.
Qed.
End assoc_lemmas.

#[export] Hint Rewrite @aget_aset @aget_adel : stock.
#[export] Hint Resolve aget_aset_eq aget_In : stock.

(** ** Finite sequences of steps *)

Section steps.
Context {S : Type} (step : S → S → Prop).

Inductive reachable (s0 : S) : S → Prop :=
| reach_refl : reachable s0 s0
| reach_step s s' : reachable s0 s → step s s' → reachable s0 s'.

(** Invariants are proved by rule induction on reachability. *)
Lemma reachable_inv (P : S → Prop) s0 s :
  P s0 → (∀ a b, P a → step a b → P b) → reachable s0 s → P s.
Proof. intros H0 Hs. induction 1; eauto. Qed.

Lemma reachable_trans s0 s1 s2 : reachable s0 s1 → reachable s1 s2 → reachable s0 s2.
Proof. intros H. induction 1; eauto using reachable. Qed.
End steps.

#[export] Hint Constructors reachable : stock.
