(* ===== verification/PyFloat.v ===== *)
(** IEEE-754 binary64 arithmetic as Python's [float] uses it, on the
    executable reference semantics of the Standard Library ([SpecFloat]):
    round to nearest even, signed zeros, infinities and NaN, and no axiom.
    Integer operands of mixed arithmetic are converted first ([of_Z], which is
    correctly rounded), comparisons of an integer with a float are exact
    ([cmp_Z]), and [round_nd x n] is [round(x, n)]: the exact binary value is
    rounded half-even to [n] decimals and the decimal is converted back. *)

From Stdlib Require Import Floats.SpecFloat.
From S2P Require Import Prelude.

Local Open Scope Z_scope.

Abbreviation float := spec_float.

Definition prec : Z := 53.
Definition emax : Z := 1024.

#[global] Instance spec_float_eq_dec : EqDecision spec_float.
Proof. solve_decision. Defined.

(** ** Operations *)

Definition fadd (x y : float) : float := SFadd prec emax x y.
Definition fsub (x y : float) : float := SFsub prec emax x y.
Definition fmul (x y : float) : float := SFmul prec emax x y.
Definition fdiv (x y : float) : float := SFdiv prec emax x y.
Definition fneg (x : float) : float := SFopp x.
Definition fabs (x : float) : float := SFabs x.

Definition feq (x y : float) : bool := SFeqb x y.
Definition flt (x y : float) : bool := SFltb x y.
Definition fle (x y : float) : bool := SFleb x y.
Definition fgt (x y : float) : bool := SFltb y x.
Definition fge (x y : float) : bool := SFleb y x.

Definition f0 : float := S754_zero false.

Definition is_finite (x : float) : bool :=
  match x with S754_zero _ | S754_finite _ _ _ => true | _ => false end.

Definition is_zero (x : float) : bool :=
  match x with S754_zero _ => true | _ => false end.

Definition is_nan (x : float) : bool :=
  match x with S754_nan => true | _ => false end.

(** The nearest float of an integer ([float(z)] while it does not overflow). *)
Definition of_Z (z : Z) : float := binary_normalize prec emax z 0 false.

(** The nearest float of the fraction [n / d], for decimal literals: division
    of two integers that floats represent exactly is correctly rounded. *)
Definition of_frac (n d : Z) : float := fdiv (of_Z n) (of_Z d).

(** The sign and magnitude of a finite float, scaled by [2^k] with [k] large
    enough to make it an integer: [x = num_scaled x / 2^(den_exp x)]. *)
Definition signed (s : bool) (m : positive) : Z := if s then Z.neg m else Z.pos m.

Definition den_exp (x : float) : Z :=
  match x with S754_finite _ _ e => Z.max 0 (- e) | _ => 0 end.

Definition num_scaled (x : float) : Z :=
  match x with
  | S754_finite s m e => signed s m * 2 ^ (Z.max 0 e)
  | _ => 0
  end.

(** [int(x)] truncates towards zero. *)
Definition trunc (x : float) : Z := Z.quot (num_scaled x) (2 ^ den_exp x).

(** Exact comparison of an integer with a float; [None] against NaN. *)
Definition cmp_Z (z : Z) (x : float) : option comparison :=
  match x with
  | S754_nan => None
  | S754_infinity s => Some (if s then Gt else Lt)
  | _ => Some (Z.compare (z * 2 ^ den_exp x) (num_scaled x))
  end.

(** Division of integers rounded half to even. *)
Definition div_half_even (n d : Z) : Z :=
  let q := n / d in
  let r := n mod d in
  match Z.compare (2 * r) d with
  | Lt => q
  | Gt => q + 1
  | Eq => if Z.even q then q else q + 1
  end.

(** The nearest float of [n / d] for arbitrary integers [d > 0]. *)
Definition of_ratio (n d : Z) : float :=
  match n, d with
  | Z0, _ => f0
  | Zpos p, Zpos q => fdiv (S754_finite false p 0) (S754_finite false q 0)
  | Zneg p, Zpos q => fdiv (S754_finite true p 0) (S754_finite false q 0)
  | _, _ => S754_nan
  end.

(** [round(x, nd)]; the sign of a zero result is that of [x]. *)
Definition round_nd (x : float) (nd : Z) : float :=
  match x with
  | S754_finite s _ _ =>
      let scale := 10 ^ nd in
      let r := div_half_even (Z.abs (num_scaled x) * scale) (2 ^ den_exp x) in
      if r =? 0 then S754_zero s
      else of_ratio (if s then - r else r) scale
  | _ => x
  end.

(** ** Sanity *)

Example round_2675 : round_nd (of_frac 2675 1000) 2 = of_frac 267 100.
Proof. vm_compute. reflexivity. Qed.

Example frac_sum : fadd (of_frac 1 10) (of_frac 2 10) = S754_finite false 5404319552844596 (-54).
Proof. vm_compute. reflexivity. Qed.

Example trunc_neg : trunc (of_frac (-7) 2) = -3.
Proof. vm_compute. reflexivity. Qed.

(** ** Lemmas *)

Lemma compare_cont_refl m : Pos.compare_cont Eq m m = Eq.
Proof. exact (Pos.compare_refl m). Qed.

Lemma SFcompare_refl x : is_nan x = false → SFcompare x x = Some Eq.
Proof.
  destruct x as [s|s| |s m e]; simpl; try done; intros _.
  - by destruct s.
  - rewrite Z.compare_refl, compare_cont_refl. by destruct s.
Qed.

Lemma feq_refl x : is_nan x = false → feq x x = true.
Proof. intros H. unfold feq, SFeqb. by rewrite SFcompare_refl. Qed.

Lemma fle_refl x : is_nan x = false → fle x x = true.
Proof. intros H. unfold fle, SFleb. by rewrite SFcompare_refl. Qed.

(** A finite value minus itself is positive zero. *)
Lemma fsub_diag x : is_finite x = true → fsub x x = f0.
Proof.
  destruct x as [s|s| |s m e]; try done; intros _.
  - by destruct s.
  - unfold fsub, SFsub. rewrite Z.sub_diag. done.
Qed.

Lemma SFcompare_antisym x y :
  SFcompare y x = match SFcompare x y with
                  | Some c => Some (CompOpp c) | None => None end.
Proof.
  destruct x as [[]|[]| |[] m e], y as [[]|[]| |[] m' e']; simpl; try done;
    rewrite (Z.compare_antisym e e'); destruct (e ?= e') eqn:E; simpl; try done.
  - f_equal. f_equal. exact (Pos.compare_antisym m m').
  - f_equal. exact (Pos.compare_antisym m m').
Qed.

Lemma SFcompare_total x y :
  is_nan x = false → is_nan y = false → ∃ c, SFcompare x y = Some c.
Proof.
  destruct x as [[]|[]| |[] m e], y as [[]|[]| |[] m' e']; simpl; eauto; done.
Qed.

(** Two floats that are not NaN are ordered one way or the other. *)
Lemma fle_or_flt x y : is_nan x = false → is_nan y = false → fle x y = negb (flt y x).
Proof.
  intros Hx Hy. destruct (SFcompare_total x y Hx Hy) as [c Hc].
  unfold fle, flt, SFleb, SFltb. rewrite (SFcompare_antisym x y), Hc. by destruct c.
Qed.

Lemma flt_irrefl x : flt x x = false.
Proof.
  unfold flt, SFltb. destruct (is_nan x) eqn:E; [by destruct x|].
  by rewrite SFcompare_refl.
Qed.

Lemma SFcompare_Lt_trans x y z : SFcompare x y = Some Lt → SFcompare y z = Some Lt → SFcompare x z = Some Lt.
Proof.
  destruct x as [sx|sx| |sx mx ex], y as [sy|sy| |sy my ey], z as [sz|sz| |sz mz ez];
    try destruct sx; try destruct sy; try destruct sz; simpl; try done;
    change (Pos.compare_cont Eq) with Pos.compare; intros Hxy Hyz;
    destruct (Z.compare_spec ex ey), (Z.compare_spec ey ez), (Z.compare_spec ex ez); try done; try lia;
    destruct (Pos.compare_spec mx my), (Pos.compare_spec my mz), (Pos.compare_spec mx mz); simpl in *; done || lia.
Qed.

Lemma flt_spec x y : flt x y = true <-> SFcompare x y = Some Lt.
Proof. unfold flt, SFltb. by destruct (SFcompare x y) as [[]|]. Qed.

Lemma flt_trans x y z : flt x y = true → flt y z = true → flt x z = true.
Proof. rewrite !flt_spec. apply SFcompare_Lt_trans. Qed.

Lemma flt_asym x y : flt x y = true → flt y x = false.
Proof.
  intros Hxy. destruct (flt y x) eqn:E; [|done]. pose proof (flt_trans _ _ _ Hxy E) as Hx. by rewrite flt_irrefl in Hx.
Qed.

Lemma flt_fle x y : flt x y = true → fle x y = true.
Proof. unfold flt, fle, SFltb, SFleb. by destruct (SFcompare x y) as [[]|]. Qed.

Lemma flt_not_ge x y : flt x y = true → fge x y = false.
Proof.
  unfold flt, fge, SFltb, SFleb. rewrite (SFcompare_antisym x y).
  by destruct (SFcompare x y) as [[]|].
Qed.

Lemma fabs_zero x : is_zero x = true → fabs x = f0.
Proof. by destruct x. Qed.

Lemma fmul_zero_l x y : is_zero x = true → is_finite y = true → is_zero (fmul x y) = true.
Proof. destruct x, y; done. Qed.

Lemma fdiv_zero_l x y :
  is_zero x = true → is_finite y = true → is_zero y = false → is_zero (fdiv x y) = true.
Proof. destruct x, y; done. Qed.

Lemma round_nd_zero x nd : is_zero x = true → round_nd x nd = x.
Proof. by destruct x. Qed.

Lemma is_zero_feq x : is_zero x = true → feq x f0 = true.
Proof. by destruct x as [[]|[]| |]. Qed.

Lemma feq_zero x : feq x f0 = true → is_zero x = true.
Proof. destruct x as [[]|[]| |[] m e]; done. Qed.

Lemma fsub_zero_r x : feq x x = true → is_zero x = false → fsub x f0 = x.
Proof. destruct x as [[]|[]| |[] m e]; done. Qed.

#[export] Hint Resolve fsub_diag feq_refl fle_refl fabs_zero is_zero_feq round_nd_zero : stock.
