(* ===== verification/Py.v ===== *)
(** The Python fragment the modelled services use: dynamically typed values and
    documents (the dicts that travel between the services and MongoDB), [str]
    methods, truthiness, [==], [int()], [float()], [str()], exceptions, and the
    state-and-exception monad the handlers are written in.

    Strings are sequences of 8-bit characters and the case and whitespace
    tables are the ASCII ones.  Datetimes are naive UTC datetimes (what the
    Mongo driver returns and what the services build), counted in microseconds
    since 1970-01-01. *)

From Stdlib Require Import Ascii DecimalString DecimalZ Floats.SpecFloat.
From S2P Require Import Prelude PyFloat.

Local Open Scope Z_scope.
#[local] Set Warnings "-register-all".

(** ** Values *)

Inductive val :=
| VNone
| VBool (b : bool)
| VInt (z : Z)
| VFloat (f : float)
| VStr (s : string)
| VTime (us : Z)
| VOid (hex : string)
| VList (l : list val)
| VDict (d : list (string * val)).

Definition doc := list (string * val).

#[global] Instance val_eq_dec : EqDecision val.
Proof.
  refine (fix go (x y : val) {struct x} : Decision (x = y) :=
    let go_list := fix go_list (l m : list val) {struct l} : Decision (l = m) :=
      match l, m with
      | [], [] => left eq_refl
      | a :: l', b :: m' => cast_if_and (go a b) (go_list l' m')
      | _, _ => right _
      end in
    let go_doc := fix go_doc (l m : list (string * val)) {struct l} : Decision (l = m) :=
      match l, m with
      | [], [] => left eq_refl
      | (k, a) :: l', (k', b) :: m' => cast_if_and3 (decide (k = k')) (go a b) (go_doc l' m')
      | _, _ => right _
      end in
    match x, y with
    | VNone, VNone => left eq_refl
    | VBool a, VBool b => cast_if (decide (a = b))
    | VInt a, VInt b => cast_if (decide (a = b))
    | VFloat a, VFloat b => cast_if (decide (a = b))
    | VStr a, VStr b => cast_if (decide (a = b))
    | VTime a, VTime b => cast_if (decide (a = b))
    | VOid a, VOid b => cast_if (decide (a = b))
    | VList l, VList m => cast_if (go_list l m)
    | VDict l, VDict m => cast_if (go_doc l m)
    | _, _ => right _
    end); try (clear; congruence).
  Unshelve. all: congruence.
Defined.

#[global] Instance doc_eq_dec : EqDecision doc.
Proof. unfold doc. apply _. Defined.

(** [d.get(k)] *)
Definition get (k : string) (d : doc) : val := default VNone (aget k d).

(** [d.get(k, v)] *)
Definition dget (k : string) (v : val) (d : doc) : val := default v (aget k d).

(** [d.setdefault(k, v)] *)
Definition setdefault (k : string) (v : val) (d : doc) : doc :=
  match aget k d with Some _ => d | None => aset k v d end.

(** [bool(v)] *)
Definition truthy (v : val) : bool :=
  match v with
  | VNone => false
  | VBool b => b
  | VInt z => negb (z =? 0)
  | VFloat f => negb (feq f f0)
  | VStr s => negb (String.eqb s "")
  | VTime _ | VOid _ => true
  | VList l => match l with [] => false | _ => true end
  | VDict d => match d with [] => false | _ => true end
  end.

(** [x or y] *)
Definition por (x y : val) : val := if truthy x then x else y.

Definition is_str (v : val) : bool := match v with VStr _ => true | _ => false end.
Definition is_dict (v : val) : bool := match v with VDict _ => true | _ => false end.
Definition is_list (v : val) : bool := match v with VList _ => true | _ => false end.
Definition is_none (v : val) : bool := match v with VNone => true | _ => false end.

Definition opt_str (o : option string) : val :=
  match o with Some s => VStr s | None => VNone end.

(** ** Equality *)

(** The number a numeric value stands for ([bool] is an [int] in Python). *)
Inductive num := NInt (z : Z) | NFloat (f : float).

Definition as_num (v : val) : option num :=
  match v with
  | VBool b => Some (NInt (if b then 1 else 0))
  | VInt z => Some (NInt z)
  | VFloat f => Some (NFloat f)
  | _ => None
  end.

Definition num_eqb (x y : num) : bool :=
  match x, y with
  | NInt a, NInt b => a =? b
  | NFloat a, NFloat b => feq a b
  | NInt a, NFloat b | NFloat b, NInt a =>
      match cmp_Z a b with Some Eq => true | _ => false end
  end.

(** A value a set or a dict takes as a member or a key. *)
Definition hashable (v : val) : bool := match v with VList _ | VDict _ => false | _ => true end.

(** [v == w]; numbers compare across types, dicts ignore the order of keys. *)
Fixpoint py_eqb (v w : val) {struct v} : bool :=
  match v, w with
  | VNone, VNone => true
  | VStr s, VStr t => String.eqb s t
  | VTime s, VTime t => s =? t
  | VOid s, VOid t => String.eqb s t
  | VList l, VList m =>
      (fix go (l m : list val) {struct l} :=
         match l, m with
         | [], [] => true
         | x :: l', y :: m' => py_eqb x y && go l' m'
         | _, _ => false
         end) l m
  | VDict d, VDict e =>
      Nat.eqb (length d) (length e) &&
      (fix go (d : list (string * val)) {struct d} :=
         match d with
         | [] => true
         | (k, x) :: d' =>
             match aget k e with Some y => py_eqb x y | None => false end && go d'
         end) d
  | _, _ => match as_num v, as_num w with
            | Some a, Some b => num_eqb a b
            | _, _ => false
            end
  end.

(** ** Strings *)

Definition in_range (lo hi : nat) (c : ascii) : bool :=
  Nat.leb lo (nat_of_ascii c) && Nat.leb (nat_of_ascii c) hi.

Definition is_upper := in_range 65 90.
Definition is_lower := in_range 97 122.
Definition is_digit := in_range 48 57.

(** ASCII whitespace of [str.strip]: tab to carriage return, the four
    separators and the space. *)
Definition is_space (c : ascii) : bool := in_range 9 13 c || in_range 28 32 c.

Definition char_upper (c : ascii) : ascii :=
  if is_lower c then ascii_of_nat (nat_of_ascii c - 32) else c.
Definition char_lower (c : ascii) : ascii :=
  if is_upper c then ascii_of_nat (nat_of_ascii c + 32) else c.

Fixpoint str_map (f : ascii → ascii) (s : string) : string :=
  match s with EmptyString => EmptyString | String c s' => String (f c) (str_map f s') end.

Fixpoint str_all (f : ascii → bool) (s : string) : bool :=
  match s with EmptyString => true | String c s' => f c && str_all f s' end.

Fixpoint drop_chars (f : ascii → bool) (s : string) : string :=
  match s with
  | EmptyString => EmptyString
  | String c s' => if f c then drop_chars f s' else s
  end.

Fixpoint rdrop_chars (f : ascii → bool) (s : string) : string :=
  match s with
  | EmptyString => EmptyString
  | String c s' =>
      match rdrop_chars f s' with
      | EmptyString => if f c then EmptyString else String c EmptyString
      | r => String c r
      end
  end.

Definition upper (s : string) : string := str_map char_upper s.
Definition lower (s : string) : string := str_map char_lower s.
Definition strip (s : string) : string := rdrop_chars is_space (drop_chars is_space s).

(** [s.isdigit()] on ASCII *)
Definition isdigit (s : string) : bool := negb (String.eqb s "") && str_all is_digit s.

(** [s.startswith(p)] *)
Definition startswith (p s : string) : bool := String.prefix p s.

(** [sep.join(l)] *)
Definition join (sep : string) (l : list string) : string := String.concat sep l.

(** [s.split(c, 1)[0]] *)
Fixpoint before_char (c : ascii) (s : string) : string :=
  match s with
  | EmptyString => EmptyString
  | String a s' => if Ascii.eqb a c then EmptyString else String a (before_char c s')
  end.

Definition NL : string := String (ascii_of_nat 10) EmptyString.

(** ** Conversions to text *)

Definition str_of_Z (z : Z) : string := DecimalString.NilZero.string_of_int (Z.to_int z).

(** [f"{n:0w}"] for [n >= 0] *)
Definition pad (w : nat) (z : Z) : string :=
  let s := str_of_Z z in
  String.concat "" (repeat "0" (w - String.length s)) +:+ s.

(** The proleptic Gregorian date of a day number (0 is 1970-01-01). *)
Definition civil (days : Z) : Z * Z * Z :=
  let z := days + 719468 in
  let era := z / 146097 in
  let doe := z mod 146097 in
  let yoe := (doe - doe / 1460 + doe / 36524 - doe / 146096) / 365 in
  let doy := doe - (365 * yoe + yoe / 4 - yoe / 100) in
  let mp := (5 * doy + 2) / 153 in
  let d := doy - (153 * mp + 2) / 5 + 1 in
  let m := if mp <? 10 then mp + 3 else mp - 9 in
  (yoe + era * 400 + (if m <=? 2 then 1 else 0), m, d).

(** [dt.isoformat(sep)] of a naive datetime *)
Definition isoformat (sep : string) (us : Z) : string :=
  let '(y, m, d) := civil (us / 86400000000) in
  let t := us mod 86400000000 in
  let s := t / 1000000 in
  let frac := t mod 1000000 in
  pad 4 y +:+ "-" +:+ pad 2 m +:+ "-" +:+ pad 2 d +:+ sep +:+
  pad 2 (s / 3600) +:+ ":" +:+ pad 2 (s / 60 mod 60) +:+ ":" +:+ pad 2 (s mod 60) +:+
  (if frac =? 0 then "" else "." +:+ pad 6 frac).

(** [m * 10^e] as a float *)
Definition of_dec (m e : Z) : float :=
  if 0 <=? e then of_ratio (m * 10 ^ e) 1 else of_ratio m (10 ^ (- e)).

(** The decimal exponent of [n / d > 0]: the [k] with [10^k <= n/d < 10^(k+1)],
    searched downwards from [k]. *)
Fixpoint dec_exp (fuel : nat) (n d k : Z) : Z :=
  match fuel with
  | O => k
  | S fuel' =>
      if (if 0 <=? k then 10 ^ k * d <=? n else d <=? n * 10 ^ (- k)) then k
      else dec_exp fuel' n d (k - 1)
  end.

(** The shortest decimal [(digits, exponent of the first digit)] that reads
    back as the float: at most 17 digits are needed. *)
Definition shortest (x : float) : Z * Z :=
  let n := Z.abs (num_scaled x) in
  let d := 2 ^ den_exp x in
  let k := dec_exp 640 n d 309 in
  (fix go (fuel : nat) (nd : Z) : Z * Z :=
     let e := k - nd + 1 in
     let m := if 0 <=? e then div_half_even n (d * 10 ^ e)
              else div_half_even (n * 10 ^ (- e)) d in
     match fuel with
     | O => (m, k)
     | S fuel' =>
         if feq (of_dec m e) (fabs x)
         then (m, if m =? 10 ^ nd then k + 1 else k)
         else go fuel' (nd + 1)
     end) 16%nat 1.

Definition str_take (n : nat) (s : string) : string := String.substring 0 n s.
Definition str_drop (n : nat) (s : string) : string :=
  String.substring n (String.length s - n) s.
Definition zeros (n : Z) : string := String.concat "" (repeat "0" (Z.to_nat n)).

(** Trailing zeros carry no information in the shortest digits. *)
Definition rtrim0 (s : string) : string := rdrop_chars (Ascii.eqb "0"%char) s.

(** [repr(x)] of a float *)
Definition float_repr (x : float) : string :=
  match x with
  | S754_nan => "nan"
  | S754_infinity s => if s then "-inf" else "inf"
  | S754_zero s => if s then "-0.0" else "0.0"
  | S754_finite s _ _ =>
      let '(m, k) := shortest x in
      let ds := rtrim0 (str_of_Z m) in
      let n := Z.of_nat (String.length ds) in
      (if s then "-" else "") +:+
      if (-4 <=? k) && (k <? 16) then
        if k <? 0 then "0." +:+ zeros (- k - 1) +:+ ds
        else if n <=? k + 1 then ds +:+ zeros (k + 1 - n) +:+ ".0"
        else str_take (Z.to_nat (k + 1)) ds +:+ "." +:+ str_drop (Z.to_nat (k + 1)) ds
      else
        str_take 1 ds +:+ (if n =? 1 then "" else "." +:+ str_drop 1 ds) +:+
        "e" +:+ (if k <? 0 then "-" else "+") +:+ pad 2 (Z.abs k)
  end.

Definition quote : ascii := "'"%char.
Definition dquote : ascii := ascii_of_nat 34.

Definition has_char (c : ascii) (s : string) : bool := negb (str_all (fun a => negb (Ascii.eqb a c)) s).

Definition hexdigit (n : nat) : string := str_take 1 (str_drop n "0123456789abcdef").

(** [repr(s)]: single quotes unless the text has one and no double quote. *)
Definition str_repr (s : string) : string :=
  let q := if has_char quote s && negb (has_char dquote s) then dquote else quote in
  let esc (c : ascii) : string :=
    let n := nat_of_ascii c in
    if Ascii.eqb c q || Nat.eqb n 92 then String "\"%char (String c EmptyString)
    else if Nat.eqb n 10 then "\n" else if Nat.eqb n 13 then "\r" else if Nat.eqb n 9 then "\t"
    else if Nat.ltb n 32 || (Nat.leb 127 n && Nat.leb n 160) || Nat.eqb n 173
    then "\x" +:+ hexdigit (Nat.div n 16) +:+ hexdigit (Nat.modulo n 16)
    else String c EmptyString in
  String q (String.concat "" (map esc (String.list_ascii_of_string s)) +:+ String q EmptyString).

(** [repr(dt)] prints the fields up to the last non-zero one of seconds and
    microseconds. *)
Definition time_repr (us : Z) : string :=
  let '(y, m, d) := civil (us / 86400000000) in
  let t := us mod 86400000000 in
  let s := t / 1000000 in
  let frac := t mod 1000000 in
  let tail := if frac =? 0 then (if s mod 60 =? 0 then [] else [s mod 60]) else [s mod 60; frac] in
  "datetime.datetime(" +:+
  join ", " (map str_of_Z ([y; m; d; s / 3600; s / 60 mod 60] ++ tail)) +:+ ")".

Fixpoint repr (v : val) : string :=
  match v with
  | VNone => "None"
  | VBool b => if b then "True" else "False"
  | VInt z => str_of_Z z
  | VFloat f => float_repr f
  | VStr s => str_repr s
  | VTime us => time_repr us
  | VOid h => "ObjectId(" +:+ str_repr h +:+ ")"
  | VList l => "[" +:+ join ", " (map repr l) +:+ "]"
  | VDict d => "{" +:+ join ", " (map (fun kv => str_repr (fst kv) +:+ ": " +:+ repr (snd kv)) d) +:+ "}"
  end.

(** [str(v)] *)
Definition to_str (v : val) : string :=
  match v with
  | VStr s => s
  | VTime us => isoformat " " us
  | VOid h => h
  | _ => repr v
  end.

(** ** Exceptions *)

Inductive exn :=
| GovernanceViolation (msg : string)
| ConcurrencyError (msg : string)
| ValueError (msg : string)
| TypeError (msg : string)
| OverflowError (msg : string)
| KeyError (msg : string)
| AttributeError (msg : string)
| PermissionError (msg : string)
| RuntimeError (msg : string)
| ConnectionError (msg : string)
| TimeoutError (msg : string)
| ResourceLockedError (msg : string)
| CircuitOpenError (msg : string)
| AuthorizationError (msg : string)
| FlagResolutionError (msg : string)
| LogicGuardConflictError (msg : string)
| HTTPException (status : Z) (detail : val)
| DriverError (msg : string)
| OtherError (msg : string).

Inductive outcome (A : Type) :=
| Ok (a : A)
| Raise (e : exn).
Arguments Ok {A} a.
Arguments Raise {A} e.

Definition is_ok {A} (o : outcome A) : bool := match o with Ok _ => true | Raise _ => false end.

(** ** [int()] and [float()] *)

Definition digit_val (c : ascii) : Z := Z.of_nat (nat_of_ascii c) - 48.

(** The digits of a numeric literal up to the first other character, where a
    single underscore may separate two digits: value, count and rest. *)
Fixpoint scan_digits (s : string) (acc n : Z) (us : bool) : option (Z * Z * string) :=
  match s with
  | EmptyString => if us then None else Some (acc, n, s)
  | String c s' =>
      if is_digit c then scan_digits s' (acc * 10 + digit_val c) (n + 1) false
      else if Ascii.eqb c "_"%char then
        if us || (n =? 0) then None else scan_digits s' acc n true
      else if us then None else Some (acc, n, s)
  end.

Definition scan_sign (s : string) : bool * string :=
  match s with
  | String c s' => if Ascii.eqb c "-"%char then (true, s')
                   else if Ascii.eqb c "+"%char then (false, s') else (false, s)
  | EmptyString => (false, s)
  end.

Definition apply_sign (neg : bool) (z : Z) : Z := if neg then - z else z.

(** [int(s)] of a string *)
Definition parse_int (s : string) : option Z :=
  let '(neg, r) := scan_sign (strip s) in
  match scan_digits r 0 0 false with
  | Some (z, n, EmptyString) => if n =? 0 then None else Some (apply_sign neg z)
  | _ => None
  end.

Definition scan_exponent (s : string) : option Z :=
  match s with
  | EmptyString => Some 0
  | String c s' =>
      if Ascii.eqb (char_lower c) "e"%char then
        let '(neg, r) := scan_sign s' in
        match scan_digits r 0 0 false with
        | Some (z, n, EmptyString) => if n =? 0 then None else Some (apply_sign neg z)
        | _ => None
        end
      else None
  end.

(** [float(s)] of a string *)
Definition parse_float (s : string) : option float :=
  let '(neg, r) := scan_sign (strip s) in
  let sgn (x : float) := if neg then fneg x else x in
  let w := lower r in
  if str_in w ["inf"; "infinity"] then Some (sgn (S754_infinity false))
  else if String.eqb w "nan" then Some S754_nan
  else
    match scan_digits r 0 0 false with
    | Some (ip, n, rest) =>
        let '(frac, nf, rest') :=
          match rest with
          | String c r' =>
              if Ascii.eqb c "."%char then
                match scan_digits r' 0 0 false with
                | Some (z, nf, rest') => (Some (ip * 10 ^ nf + z), nf, rest')
                | None => (None, 0, rest)
                end
              else (Some ip, 0, rest)
          | EmptyString => (Some ip, 0, rest)
          end in
        match frac, scan_exponent rest' with
        | Some m, Some e => if n + nf =? 0 then None else Some (sgn (of_dec m (e - nf)))
        | _, _ => None
        end
    | None => None
    end.

(** [int(v)] *)
Definition to_int (v : val) : outcome Z :=
  match v with
  | VInt z => Ok z
  | VBool b => Ok (if b then 1 else 0)
  | VFloat f =>
      match f with
      | S754_nan => Raise (ValueError "cannot convert float NaN to integer")
      | S754_infinity _ => Raise (OverflowError "cannot convert float infinity to integer")
      | _ => Ok (trunc f)
      end
  | VStr s => match parse_int s with
              | Some z => Ok z
              | None => Raise (ValueError ("invalid literal for int() with base 10: " +:+ str_repr s))
              end
  | _ => Raise (TypeError "int() argument must be a string, a bytes-like object or a real number")
  end.

(** [float(v)] *)
Definition to_float (v : val) : outcome float :=
  let of_int (z : Z) :=
    match of_Z z with
    | S754_infinity _ => Raise (OverflowError "int too large to convert to float")
    | f => Ok f
    end in
  match v with
  | VFloat f => Ok f
  | VInt z => of_int z
  | VBool b => of_int (if b then 1 else 0)
  | VStr s => match parse_float s with
              | Some f => Ok f
              | None => Raise (ValueError ("could not convert string to float: " +:+ str_repr s))
              end
  | _ => Raise (TypeError "float() argument must be a string or a real number")
  end.

(** ** Exceptions and state *)

Definition M (S A : Type) : Type := S → outcome A * S.

Section monad.
Context {S : Type}.

Definition ret {A} (a : A) : M S A := fun s => (Ok a, s).
Definition raise {A} (e : exn) : M S A := fun s => (Raise e, s).
Definition bind {A B} (m : M S A) (f : A → M S B) : M S B :=
  fun s => match m s with
           | (Ok a, s') => f a s'
           | (Raise e, s') => (Raise e, s')
           end.
Definition gets {A} (f : S → A) : M S A := fun s => (Ok (f s), s).
Definition modify (f : S → S) : M S unit := fun s => (Ok tt, f s).
Definition lift {A} (o : outcome A) : M S A := fun s => (o, s).
Definition raise_if (b : bool) (e : exn) : M S unit := if b then raise e else ret tt.
Definition when (b : bool) (m : M S unit) : M S unit := if b then m else ret tt.
End monad.

Notation "'do' x <- m ;; k" := (bind m (fun x => k))
  (at level 10, x name, m at level 99, k at level 200) : stock_scope.
Notation "'do' ' p <- m ;; k" := (bind m (fun x => match x with p => k end))
  (at level 10, p strict pattern, m at level 99, k at level 200) : stock_scope.
Notation "'run' m ;; k" := (bind m (fun _ : unit => k))
  (at level 10, m at level 99, k at level 200) : stock_scope.

Section monad_lemmas.
Context {S A B : Type}.
Implicit Types (m : M S A) (s : S).

Lemma bind_ok_inv m (f : A → M S B) s b s' :
  bind m f s = (Ok b, s') → ∃ a s1, m s = (Ok a, s1) ∧ f a s1 = (Ok b, s').
Proof. unfold bind. destruct (m s) as [[a|e] s1]; intros; simplify_eq; eauto. Qed.

Lemma bind_raise_inv m (f : A → M S B) s e s' :
  bind m f s = (Raise e, s') →
  m s = (Raise e, s') ∨ ∃ a s1, m s = (Ok a, s1) ∧ f a s1 = (Raise e, s').
Proof. unfold bind. destruct (m s) as [[a|e1] s1]; intros; simplify_eq; eauto. Qed.

Lemma bind_ok m (f : A → M S B) s a s1 : m s = (Ok a, s1) → bind m f s = f a s1.
Proof. unfold bind. by intros ->. Qed.

Lemma bind_raise m (f : A → M S B) s e s1 : m s = (Raise e, s1) → bind m f s = (Raise e, s1).
Proof. unfold bind. by intros ->. Qed.

Lemma bind_ext m (f g : A → M S B) s : (∀ a s1, f a s1 = g a s1) → bind m f s = bind m g s.
Proof. intros Hfg. unfold bind. by destruct (m s) as [[a|e] s1]. Qed.
End monad_lemmas.

Lemma lift_ok {S A} (o : outcome A) (s : S) a s' : lift o s = (Ok a, s') → o = Ok a ∧ s' = s.
Proof. unfold lift. intros Hl. by simplify_eq. Qed.

Lemma read_ok {S A} (f : S → A) s a s' : gets f s = (Ok a, s') → s' = s ∧ a = f s.
Proof. unfold gets. intros. by simplify_eq. Qed.

Lemma raise_if_ok_inv {S} b e (s s' : S) u : raise_if b e s = (Ok u, s') → b = false ∧ s' = s.
Proof. destruct b; unfold raise_if, raise, ret; intros; by simplify_eq. Qed.

Lemma when_ok_inv {S} b m (s s' : S) u :
  when b m s = (Ok u, s') → (b = true ∧ m s = (Ok u, s')) ∨ (b = false ∧ s' = s).
Proof. destruct b; unfold when, ret; intros; simplify_eq; auto. Qed.

Lemma Ok_inj {A} (a b : A) : Ok a = Ok b → a = b.
Proof. congruence. Qed.

Ltac monad_inv :=
  repeat match goal with
  | H : bind _ _ _ = (Ok _, _) |- _ =>
      apply bind_ok_inv in H; let a := fresh "a" in let s := fresh "s" in
      let H1 := fresh "Hm" in destruct H as (a & s & H1 & H)
  | H : raise_if _ _ _ = (Ok _, _) |- _ => apply raise_if_ok_inv in H; destruct H as [? ->]
  | H : ret _ _ = _ |- _ => unfold ret in H; simplify_eq
  | H : raise _ _ = (Ok _, _) |- _ => discriminate H
  | H : gets _ _ = _ |- _ => unfold gets in H; simplify_eq
  | H : modify _ _ = _ |- _ => unfold modify in H; simplify_eq
  | H : lift _ _ = _ |- _ => unfold lift in H; simplify_eq
  end.

(** ** Facts about documents and text *)

Lemma get_aset k k' v d : get k' (aset k v d) = if String.eqb k k' then v else get k' d.
Proof. unfold get. rewrite aget_aset. by destruct (String.eqb k k'). Qed.

Lemma get_aset_eq k v d : get k (aset k v d) = v.
Proof. by rewrite get_aset, String.eqb_refl. Qed.

Lemma get_aset_ne k k' v d : String.eqb k k' = false → get k' (aset k v d) = get k' d.
Proof. intros H. by rewrite get_aset, H. Qed.

(** A later [update] wins over the document it is applied to. *)
Lemma get_aupd_in k v d e : aget k (rev e) = Some v → get k (aupd d e) = v.
Proof. intros H. unfold get. by rewrite aget_aupd, H. Qed.

Lemma get_aupd_notin k d e : aget k (rev e) = None → get k (aupd d e) = get k d.
Proof. intros H. unfold get. by rewrite aget_aupd, H. Qed.

Lemma aget_aset_diff {A} k k' (v : A) d : String.eqb k k' = false → aget k' (aset k v d) = aget k' d.
Proof. intros H. by rewrite aget_aset, H. Qed.

Lemma aget_aupd_notin {A} k (d e : list (string * A)) : aget k (rev e) = None → aget k (aupd d e) = aget k d.
Proof. intros H. by rewrite aget_aupd, H. Qed.

Lemma por_truthy x y : truthy x = true → por x y = x.
Proof. unfold por. by intros ->. Qed.

#[export] Hint Rewrite @get_aset_eq : stock.

(** ** [str.strip], [str.upper], [str.lower] *)

Lemma char_upper_idem c : char_upper (char_upper c) = char_upper c.
Proof. destruct c as [[] [] [] [] [] [] [] []]; reflexivity. Qed.

Lemma char_lower_idem c : char_lower (char_lower c) = char_lower c.
Proof. destruct c as [[] [] [] [] [] [] [] []]; reflexivity. Qed.

Lemma is_space_upper c : is_space (char_upper c) = is_space c.
Proof. destruct c as [[] [] [] [] [] [] [] []]; reflexivity. Qed.

Lemma is_space_lower c : is_space (char_lower c) = is_space c.
Proof. destruct c as [[] [] [] [] [] [] [] []]; reflexivity. Qed.

Lemma str_map_idem f s : (∀ c, f (f c) = f c) → str_map f (str_map f s) = str_map f s.
Proof. intros Hf. induction s; simpl; congruence. Qed.

Lemma upper_idem s : upper (upper s) = upper s.
Proof. apply str_map_idem, char_upper_idem. Qed.

Lemma lower_idem s : lower (lower s) = lower s.
Proof. apply str_map_idem, char_lower_idem. Qed.

Lemma drop_chars_map p f s :
  (∀ c, p (f c) = p c) → drop_chars p (str_map f s) = str_map f (drop_chars p s).
Proof.
  intros Hf. induction s as [|c s IH]; simpl; [done|]. rewrite Hf. by destruct (p c).
Qed.

Lemma rdrop_chars_map p f s :
  (∀ c, p (f c) = p c) → rdrop_chars p (str_map f s) = str_map f (rdrop_chars p s).
Proof.
  intros Hf. induction s as [|c s IH]; simpl; [done|]. rewrite IH, Hf.
  destruct (rdrop_chars p s); simpl; [by destruct (p c) | done].
Qed.

Lemma strip_upper s : strip (upper s) = upper (strip s).
Proof.
  unfold strip, upper. rewrite drop_chars_map, rdrop_chars_map; auto using is_space_upper.
Qed.

Lemma strip_lower s : strip (lower s) = lower (strip s).
Proof.
  unfold strip, lower. rewrite drop_chars_map, rdrop_chars_map; auto using is_space_lower.
Qed.

Lemma rdrop_chars_idem p s : rdrop_chars p (rdrop_chars p s) = rdrop_chars p s.
Proof.
  induction s as [|c s IH]; simpl; [done|].
  destruct (rdrop_chars p s) as [|c' s'] eqn:E.
  - destruct (p c) eqn:Ep; simpl; [done | by rewrite Ep].
  - cbn [rdrop_chars] in *. rewrite IH. done.
Qed.

Lemma drop_chars_idem p s : drop_chars p (drop_chars p s) = drop_chars p s.
Proof. induction s as [|c s IH]; simpl; [done|]. destruct (p c) eqn:E; simpl; [done|]. by rewrite E. Qed.

Lemma drop_rdrop p s :
  drop_chars p s = s → drop_chars p (rdrop_chars p s) = rdrop_chars p s.
Proof.
  destruct s as [|c s]; simpl; [done|]. destruct (p c) eqn:Ep.
  - intros Hs. exfalso. assert (∀ t, String.length (drop_chars p t) ≤ String.length t)%nat as Hl.
    { induction t as [|a t IH]; simpl; [lia|]. destruct (p a); simpl; lia. }
    specialize (Hl s). rewrite Hs in Hl. simpl in Hl. lia.
  - intros _. destruct (rdrop_chars p s); simpl; by rewrite Ep.
Qed.

Lemma strip_idem s : strip (strip s) = strip s.
Proof.
  unfold strip. rewrite drop_rdrop by apply drop_chars_idem. apply rdrop_chars_idem.
Qed.

#[export] Hint Rewrite strip_upper strip_lower strip_idem upper_idem lower_idem : stock.

Lemma aget_setdefault k k' v d :
  aget k' (setdefault k v d) = if String.eqb k k' then Some (default v (aget k d)) else aget k' d.
Proof.
  unfold setdefault. destruct (aget k d) as [w|] eqn:E.
  - destruct (String.eqb_spec k k') as [<-|]; [by rewrite E | done].
  - apply aget_aset.
Qed.

(** ** [try: m except Exception as e: h(e)] *)
Definition try_except {S A} (m : M S A) (h : exn → M S A) : M S A :=
  fun s => match m s with
           | (Ok a, s') => (Ok a, s')
           | (Raise e, s') => h e s'
           end.

(** [a < b] of a datetime and another value *)
Definition time_lt (now : Z) (v : val) : outcome bool :=
  match v with
  | VTime t => Ok (now <? t)
  | _ => Raise (TypeError "'<' not supported between instances of 'datetime.datetime' and another type")
  end.

(** [v + n] and [v >= n] for an [int] constant *)
Definition add_int (v : val) (n : Z) : outcome val :=
  match v with
  | VInt z => Ok (VInt (z + n))
  | VBool b => Ok (VInt ((if b then 1 else 0) + n))
  | VFloat f => Ok (VFloat (fadd f (of_Z n)))
  | _ => Raise (TypeError "unsupported operand type(s) for +")
  end.

Definition ge_int (v : val) (n : Z) : outcome bool :=
  match as_num v with
  | Some (NInt z) => Ok (n <=? z)
  | Some (NFloat f) => Ok (match cmp_Z n f with Some Lt | Some Eq => true | _ => false end)
  | None => Raise (TypeError "'>=' not supported between instances")
  end.

(** [-v] *)
Definition neg_val (v : val) : outcome val :=
  match v with
  | VInt z => Ok (VInt (- z))
  | VBool b => Ok (VInt (- (if b then 1 else 0)))
  | VFloat f => Ok (VFloat (fneg f))
  | _ => Raise (TypeError "bad operand type for unary -")
  end.

(** [d[k]] *)
Definition item (k : string) (d : doc) : outcome val :=
  match aget k d with Some v => Ok v | None => Raise (KeyError k) end.

Lemma item_get k d v : item k d = Ok v → v = get k d.
Proof. unfold item, get. destruct (aget k d); [by intros [= ->] | done]. Qed.

(** [for x in v] *)
Definition py_iter (v : val) : outcome (list val) :=
  match v with
  | VList l => Ok l
  | VStr s => Ok (map (fun c => VStr (String c EmptyString)) (String.list_ascii_of_string s))
  | VDict d => Ok (map (fun kv => VStr (fst kv)) d)
  | _ => Raise (TypeError "object is not iterable")
  end.

(** [v.get(k)] of a value that should be a dict *)
Definition val_get (k : string) (v : val) : outcome val :=
  match v with VDict d => Ok (get k d) | _ => Raise (AttributeError "object has no attribute 'get'") end.

(** [x >= v], [x <= v] of a float and another value *)
Definition float_ge (x : float) (v : val) : outcome bool :=
  match as_num v with
  | Some (NInt z) => Ok (match cmp_Z z x with Some Lt | Some Eq => true | _ => false end)
  | Some (NFloat y) => Ok (fge x y)
  | None => Raise (TypeError "'>=' not supported between instances of 'float' and another type")
  end.
Definition float_le (x : float) (v : val) : outcome bool :=
  match as_num v with
  | Some (NInt z) => Ok (match cmp_Z z x with Some Gt | Some Eq => true | _ => false end)
  | Some (NFloat y) => Ok (fle x y)
  | None => Raise (TypeError "'<=' not supported between instances of 'float' and another type")
  end.

(** [try: m finally: f] *)
Definition try_finally {S A} (m : M S A) (f : M S unit) : M S A :=
  fun s => let '(o, s1) := m s in
           match f s1 with
           | (Ok _, s2) => (o, s2)
           | (Raise e, s2) => (Raise e, s2)
           end.

(** ** [int(str(n)) == n] *)

Section int_roundtrip.
Abbreviation digits := NilEmpty.string_of_uint.

Lemma scan_digit c s acc n : is_digit c = true →
  scan_digits (String c s) acc n false = scan_digits s (acc * 10 + digit_val c) (n + 1) false.
Proof. intros H. cbn [scan_digits]. by rewrite H. Qed.

Ltac digit_step :=
  cbn [NilEmpty.string_of_uint String.length]; rewrite scan_digit by reflexivity;
  match goal with |- context [digit_val ?c] => let x := eval vm_compute in (digit_val c) in change (digit_val c) with x end.

Lemma scan_digits_acc d acc n :
  scan_digits (digits d) (Zpos acc) n false
    = Some (Zpos (Pos.of_uint_acc d acc), n + Z.of_nat (String.length (digits d)), "").
Proof.
  revert acc n. induction d; intros acc n; [cbn; by rewrite Z.add_0_r | digit_step..].
  all: cbn [Pos.of_uint_acc];
    match goal with |- scan_digits _ ?a _ _ = Some (Zpos (Pos.of_uint_acc _ ?p), _, _) =>
      replace a with (Zpos p) by lia end.
  all: rewrite IHd;
    match goal with |- context [?n + 1 + Z.of_nat ?l] =>
      replace (n + 1 + Z.of_nat l) with (n + Z.of_nat (S l)) by lia end; reflexivity.
Qed.

Lemma scan_digits_uint d n :
  scan_digits (digits d) 0 n false
    = Some (Z.of_uint d, n + Z.of_nat (String.length (digits d)), "").
Proof.
  unfold Z.of_uint. revert n. induction d; intros n; [cbn; by rewrite Z.add_0_r | digit_step..].
  all: match goal with |- scan_digits _ ?a _ _ = _ => let x := eval vm_compute in a in change a with x end.
  1: rewrite IHd.
  2-10: rewrite scan_digits_acc.
  all: match goal with |- context [?n + 1 + Z.of_nat ?l] =>
         replace (n + 1 + Z.of_nat l) with (n + Z.of_nat (S l)) by lia end; reflexivity.
Qed.

Lemma str_all_drop p q s : str_all q s = true → (∀ c, q c = true → p c = false) → drop_chars p s = s.
Proof. intros Hq Hp. destruct s as [|c s]; simpl in *; [done|]. bool_hyps. by rewrite Hp. Qed.

Lemma str_all_rdrop p q s : str_all q s = true → (∀ c, q c = true → p c = false) → rdrop_chars p s = s.
Proof.
  intros Hq Hp. induction s as [|c s IH]; simpl in *; [done|]. bool_hyps.
  rewrite IH, Hp by done. by destruct s.
Qed.

(** Digits and signs are not whitespace. *)
Lemma strip_numeral s :
  str_all (fun c => is_digit c || Ascii.eqb c "-"%char) s = true → strip s = s.
Proof.
  intros Hs. unfold strip.
  assert (∀ c, is_digit c || Ascii.eqb c "-"%char = true → is_space c = false) as Hc
    by (intros [[] [] [] [] [] [] [] []]; done).
  rewrite (str_all_drop _ _ _ Hs Hc). by apply (str_all_rdrop _ _ _ Hs Hc).
Qed.

Lemma digits_numeral d : str_all (fun c => is_digit c || Ascii.eqb c "-"%char) (digits d) = true.
Proof. by induction d. Qed.

Lemma scan_sign_digits d : d ≠ Decimal.Nil → scan_sign (digits d) = (false, digits d).
Proof. by destruct d. Qed.

Lemma digits_length d : d ≠ Decimal.Nil → (0 < String.length (digits d))%nat.
Proof. destruct d; cbn; [done | lia..]. Qed.

Lemma parse_digits d : d ≠ Decimal.Nil → parse_int (digits d) = Some (Z.of_uint d).
Proof.
  intros Hd. unfold parse_int. rewrite strip_numeral by apply digits_numeral.
  rewrite scan_sign_digits, scan_digits_uint by done. pose proof (digits_length d Hd).
  by destruct (Z.eqb_spec (0 + Z.of_nat (String.length (digits d))) 0); [lia|].
Qed.

Lemma parse_neg_digits d :
  d ≠ Decimal.Nil → parse_int (String "-"%char (digits d)) = Some (- Z.of_uint d).
Proof.
  intros Hd. unfold parse_int.
  rewrite strip_numeral by (cbn; apply digits_numeral). cbn [scan_sign Ascii.eqb Bool.eqb].
  rewrite scan_digits_uint. pose proof (digits_length d Hd).
  by destruct (Z.eqb_spec (0 + Z.of_nat (String.length (digits d))) 0); [lia|].
Qed.

Lemma string_of_uint_digits d :
  NilZero.string_of_uint d = digits (match d with Decimal.Nil => Decimal.D0 Decimal.Nil | _ => d end).
Proof. by destruct d. Qed.

Lemma parse_str_of_Z z : parse_int (str_of_Z z) = Some z.
Proof.
  unfold str_of_Z. rewrite <- (DecimalZ.of_to z) at 2.
  destruct (Z.to_int z) as [d|d]; cbn [NilZero.string_of_int Z.of_int];
    rewrite string_of_uint_digits.
  - rewrite parse_digits by (by destruct d). by destruct d.
  - rewrite parse_neg_digits by (by destruct d). by destruct d.
Qed.
End int_roundtrip.

(** The text of a number is not empty. *)
Lemma str_of_Z_nonempty z : String.eqb (str_of_Z z) "" = false.
Proof.
  apply String.eqb_neq. intros He. pose proof (parse_str_of_Z z) as H. by rewrite He in H.
Qed.
