(* ===== verification/PyTime.v ===== *)
(** Reading datetimes: [datetime.fromisoformat] and [datetime.fromtimestamp] of
    Python's standard library, and the [_as_datetime] helpers built on them.

    A datetime is its number of microseconds since 1970 in UTC.  Of the texts
    [fromisoformat] accepts, the extended form [YYYY-MM-DD] with an optional time
    and offset is read, which is what [isoformat] writes and JavaScript sends;
    the basic and week forms of Python 3.11 are not. *)

From Stdlib Require Import Ascii Floats.SpecFloat.
From S2P Require Import Prelude PyFloat Py.

Local Open Scope Z_scope.

(** ** Calendar *)

(** The day number of a date of the proleptic Gregorian calendar. *)
Definition days_of_civil (y m d : Z) : Z :=
  let y := if m <=? 2 then y - 1 else y in
  let era := y / 400 in
  let yoe := y mod 400 in
  let doy := (153 * (if 2 <? m then m - 3 else m + 9) + 2) / 5 + d - 1 in
  era * 146097 + (yoe * 365 + yoe / 4 - yoe / 100 + doy) - 719468.

Definition leap (y : Z) : bool := (y mod 4 =? 0) && (negb (y mod 100 =? 0) || (y mod 400 =? 0)).
Definition days_in_month (y m : Z) : Z :=
  if m =? 2 then (if leap y then 29 else 28)
  else if (m =? 4) || (m =? 6) || (m =? 9) || (m =? 11) then 30 else 31.

(** ** [datetime.fromisoformat] *)

(** Exactly [n] digits. *)
Fixpoint digits_n (n : nat) (acc : Z) (s : string) : option (Z * string) :=
  match n with
  | O => Some (acc, s)
  | S n' => match s with
            | String c s' => if is_digit c then digits_n n' (acc * 10 + digit_val c) s' else None
            | EmptyString => None
            end
  end.

Definition expect (c : ascii) (s : string) : option string :=
  match s with String a s' => if Ascii.eqb a c then Some s' else None | EmptyString => None end.

(** The digits of a fraction of a second: the first six count. *)
Fixpoint fraction (n : nat) (acc : Z) (s : string) : Z * string :=
  match s with
  | String c s' =>
      if is_digit c then match n with
                         | O => fraction O acc s'
                         | S n' => fraction n' (acc * 10 + digit_val c) s'
                         end
      else (acc * 10 ^ Z.of_nat n, s)
  | EmptyString => (acc * 10 ^ Z.of_nat n, s)
  end.

Definition in_bounds (lo v hi : Z) : bool := (lo <=? v) && (v <=? hi).

(** [HH[:MM[:SS[.ffffff]]]] in microseconds; the hour has at most the given
    maximum. *)
Definition clock_time (s : string) : option (Z * string) :=
  match digits_n 2 0 s with
  | None => None
  | Some (h, s) =>
      if negb (in_bounds 0 h 23) then None else
      match expect ":"%char s with
      | None => Some (h * 3600000000, s)
      | Some s =>
          match digits_n 2 0 s with
          | None => None
          | Some (mi, s) =>
              if negb (in_bounds 0 mi 59) then None else
              match expect ":"%char s with
              | None => Some ((h * 60 + mi) * 60000000, s)
              | Some s =>
                  match digits_n 2 0 s with
                  | None => None
                  | Some (sec, s) =>
                      if negb (in_bounds 0 sec 59) then None else
                      let t := ((h * 60 + mi) * 60 + sec) * 1000000 in
                      match s with
                      | String c (String d s') =>
                          if (Ascii.eqb c "."%char || Ascii.eqb c ","%char) && is_digit d then
                            let '(f, rest) := fraction 6 0 (String d s') in Some (t + f, rest)
                          else Some (t, s)
                      | _ => Some (t, s)
                      end
                  end
              end
          end
      end
  end.

Definition utc_offset (s : string) : option Z :=
  match s with
  | EmptyString => Some 0
  | String c s' =>
      if Ascii.eqb c "Z"%char then (if String.eqb s' "" then Some 0 else None)
      else if Ascii.eqb c "+"%char || Ascii.eqb c "-"%char then
        match clock_time s' with
        | Some (t, EmptyString) => Some (if Ascii.eqb c "+"%char then t else - t)
        | _ => None
        end
      else None
  end.

(** The date and time as written, and the offset; a text without an offset is
    read as UTC. *)
Definition parse_isoformat (s : string) : option (Z * Z) :=
  match digits_n 4 0 s with
  | Some (y, s) =>
      match expect "-"%char s with
      | Some s =>
          match digits_n 2 0 s with
          | Some (m, s) =>
              match expect "-"%char s with
              | Some s =>
                  match digits_n 2 0 s with
                  | Some (d, s) =>
                      if negb (in_bounds 1 y 9999 && in_bounds 1 m 12 && in_bounds 1 d (days_in_month y m)) then None else
                      let day := days_of_civil y m d * 86400000000 in
                      match s with
                      | EmptyString => Some (day, 0)
                      | String _ s =>
                          match clock_time s with
                          | Some (t, s) => match utc_offset s with Some o => Some (day + t, o) | None => None end
                          | None => None
                          end
                      end
                  | None => None
                  end
              | None => None
              end
          | None => None
          end
      | None => None
      end
  | None => None
  end.

(** [s.replace("Z", "+00:00")] *)
Fixpoint replace_Z (s : string) : string :=
  match s with
  | EmptyString => EmptyString
  | String c s' => if Ascii.eqb c "Z"%char then "+00:00" +:+ replace_Z s' else String c (replace_Z s')
  end.

(** [datetime.fromisoformat(s.replace("Z", "+00:00")).replace(tzinfo=None)]: the
    time as written. *)
Definition naive_time (s : string) : option Z := fst <$> parse_isoformat (replace_Z s).

(** The instant in UTC. *)
Definition fromisoformat (s : string) : option Z :=
  match parse_isoformat s with Some (t, o) => Some (t - o) | None => None end.

(** ** [datetime.fromtimestamp(x, tz=timezone.utc)] *)

Definition round_float (x : float) : Z :=
  let r := div_half_even (Z.abs (num_scaled x)) (2 ^ den_exp x) in
  if num_scaled x <? 0 then - r else r.

(** [None] when it raises: no number, or a year out of range. *)
Definition fromtimestamp (x : float) : option Z :=
  if negb (is_finite x) then None
  else
    let seconds := trunc x in
    let us := round_float (fmul (fsub x (of_Z seconds)) (of_Z 1000000)) in
    let t := seconds * 1000000 + us in
    if in_bounds (days_of_civil 1 1 1 * 86400000000) t (days_of_civil 9999 12 31 * 86400000000 + 86399999999)
    then Some t else None.

(** [_as_datetime] of the projections: a datetime, a number or a text. *)
Definition _as_datetime (value : val) : option Z :=
  match value with
  | VTime us => Some us
  | VBool _ | VInt _ | VFloat _ =>
      match to_float value with Ok x => fromtimestamp x | Raise _ => None end
  | VStr s =>
      let text := strip s in
      if String.eqb text "" then None else fromisoformat text
  | _ => None
  end.

(** ** Sanity *)

Example fromisoformat_offset : fromisoformat "2024-02-29T23:59:59.5+05:30" = fromisoformat "2024-02-29 18:29:59.500000".
Proof. vm_compute. reflexivity. Qed.

Example fromisoformat_isoformat : fromisoformat (isoformat "T" 1709251199500000) = Some 1709251199500000.
Proof. vm_compute. reflexivity. Qed.

Example fromisoformat_day : fromisoformat "2023-02-29" = None.
Proof. vm_compute. reflexivity. Qed.

Example fromtimestamp_rounds : fromtimestamp (of_frac 3 2) = Some 1500000.
Proof. vm_compute. reflexivity. Qed.
