(* ===== verification/Store.v ===== *)
(** The MongoDB collections the services read and write, as an interface.

    The database and its driver are not part of the repository: the class
    [Mongo] has one operation per driver call the services make and
    [MongoLaws] states the documented behaviour the theorems rely on (query
    operators on scalar fields, [$set]/[$inc]/[$push] on top-level fields,
    which document an update touches, what [modified_count] counts, the
    millisecond precision of BSON datetimes).  The order in which documents are
    stored or returned is left open: the laws are up to permutation.  Errors
    raised by the driver itself (network, write conflicts, malformed documents)
    are outside the interface, except the duplicate key error of an insert. *)

From S2P Require Import Prelude PyFloat Py.

Local Open Scope Z_scope.

(** ** Queries and updates *)

(** A query document.  [{"a": x, "b": {"$in": l}}] is
    [QAnd [QEq "a" x; QIn "b" l]], [{"a.b": x}] is [QDot "a" "b" x], and [QText "a" s]
    is [{"a": {"$regex": "^" + re.escape(s) + "$", "$options": "i"}}]: the keys are
    field names without dots. *)
#[local] Set Warnings "-register-all".
Inductive query :=
| QEq (k : string) (v : val)
| QNe (k : string) (v : val)
| QIn (k : string) (l : list val)
| QNin (k : string) (l : list val)
| QExists (k : string) (b : bool)
| QLt (k : string) (v : val)
| QLte (k : string) (v : val)
| QGt (k : string) (v : val)
| QGte (k : string) (v : val)
| QText (k s : string)
| QDot (k field : string) (v : val)
| QAnd (l : list query)
| QOr (l : list query).

(** An update document with the operators the services use. *)
Record update := Upd {
  u_set : doc;
  u_inc : list (string * val);
  u_push : list (string * val);
  u_unset : list string;
}.

Definition USet (d : doc) : update := Upd d [] [] [].

Definition update_keys (u : update) : list string :=
  map fst (u_set u) ++ map fst (u_inc u) ++ map fst (u_push u) ++ u_unset u.

(** Values that BSON compares as scalars: no lists, documents, or floats. *)
Definition plain (v : val) : bool :=
  match v with VFloat _ | VList _ | VDict _ => false | _ => true end.

(** Equality of a plain query value with a stored scalar: types are not mixed,
    apart from the numeric ones. *)
Definition bson_eqb (v w : val) : bool :=
  match v, w with
  | VNone, VNone => true
  | VBool a, VBool b => Bool.eqb a b
  | VInt a, VInt b => a =? b
  | VInt a, VFloat b => match cmp_Z a b with Some Eq => true | _ => false end
  | VStr a, VStr b => String.eqb a b
  | VTime a, VTime b => a =? b
  | VOid a, VOid b => String.eqb a b
  | _, _ => false
  end.

(** [re.escape(s)] *)
Fixpoint re_escape (s : string) : string :=
  match s with
  | EmptyString => ""
  | String c s' =>
      if has_char c "()[]{}?*+-|^$.&~# " || Ascii.eqb c (Ascii.ascii_of_nat 92) || in_range 9 13 c
      then String (Ascii.ascii_of_nat 92) (String c (re_escape s')) else String c (re_escape s')
  end.

(** What the pattern of [QText] accepts: its text in any case; [$] also holds
    before a newline at the end. *)
Definition same_text (s t : string) : bool :=
  String.eqb (lower t) (lower s) || String.eqb (lower t) (lower s +:+ NL).

(** The fields an upsert takes over from its query: the equalities, also inside
    [$and]. *)
Fixpoint eq_fields (q : query) : doc :=
  match q with
  | QEq k v => [(k, v)]
  | QAnd l => flat_map eq_fields l
  | _ => []
  end.

Definition int64_max : Z := 2 ^ 63 - 1.

(** ** The interface *)

Class Mongo (C : Type) := {
  contents : C → list doc;
  matches : query → doc → bool;
  apply_update : update → doc → doc;
  to_bson : val → val;
  find_one : query → C → option doc;
  find_all : query → C → list doc;
  count_documents : query → C → Z;
  (** the inserted id and the new state, or [None] for a duplicate [_id] *)
  insert_one : doc → C → option (val * C);
  (** the modified count and the new state *)
  update_one : query → update → C → Z * C;
  update_many : query → update → C → Z * C;
  (** [update_one] with [upsert=True] *)
  upsert_one : query → update → C → Z * C;
  (** the deleted count and the new state *)
  delete_one : query → C → Z * C;
  delete_many : query → C → Z * C;
  find_one_and_delete : query → C → option doc * C;
  (** the document before and after the update *)
  find_one_and_update : query → update → C → option (doc * doc) * C;
  (** [replace_one] by [_id] with [upsert=True] *)
  replace_one : val → doc → C → C;
}.

(** A pushed value that is no modifier document ([{"$each": ...}]). *)
Definition pushed_as_is (v : val) : Prop := ∀ d, v = VDict d → aget "$each" d = None.

Definition bson_doc `{Mongo C} (d : doc) : doc := map (fun kv => (fst kv, to_bson (snd kv))) d.

Class MongoLaws (C : Type) `{Mongo C} : Prop := {
  to_bson_plain v : plain v = true → (∀ us, v ≠ VTime us) → to_bson v = v;
  to_bson_time us : to_bson (VTime us) = VTime (us - us mod 1000);
  to_bson_truthy v : truthy (to_bson v) = truthy v;
  to_bson_float f : to_bson (VFloat f) = VFloat f;
  to_bson_list l : to_bson (VList l) = VList (map to_bson l);
  to_bson_dict d : to_bson (VDict d) = VDict (bson_doc d);

  matches_and l d : matches (QAnd l) d = forallb (fun q => matches q d) l;
  matches_or l d : matches (QOr l) d = existsb (fun q => matches q d) l;
  matches_eq k v d :
    plain v = true → is_list (get k d) = false → matches (QEq k v) d = bson_eqb v (get k d);
  matches_dot k field v d :
    is_list (get k d) = false →
    matches (QDot k field v) d = matches (QEq field v) (match get k d with VDict e => e | _ => [] end);
  matches_ne k v d : matches (QNe k v) d = negb (matches (QEq k v) d);
  matches_in k l d : matches (QIn k l) d = existsb (fun v => matches (QEq k v) d) l;
  matches_nin k l d : matches (QNin k l) d = negb (matches (QIn k l) d);
  matches_exists k b d :
    matches (QExists k b) d = Bool.eqb b (match aget k d with Some _ => true | None => false end);
  matches_gt_time k t u d : get k d = VTime u → matches (QGt k (VTime t)) d = (t <? u);
  matches_regex k s d :
    is_list (get k d) = false →
    matches (QText k s) d = match get k d with VStr t => same_text s t | _ => false end;
  matches_gt_time_none k t d : is_list (get k d) = false → (∀ u, get k d ≠ VTime u) →
    matches (QGt k (VTime t)) d = false;
  matches_lt_time k t u d : get k d = VTime u → matches (QLt k (VTime t)) d = (u <? t);

  apply_set u d k v :
    NoDup (update_keys u) → aget k (u_set u) = Some v → aget k (apply_update u d) = Some (to_bson v);
  apply_inc_missing u d k n :
    NoDup (update_keys u) → aget k (u_inc u) = Some (VInt n) → aget k d = None →
    aget k (apply_update u d) = Some (VInt n);
  apply_inc_missing_float u d k x :
    NoDup (update_keys u) → aget k (u_inc u) = Some (VFloat x) → aget k d = None →
    aget k (apply_update u d) = Some (VFloat x);
  apply_inc_float u d k x y :
    NoDup (update_keys u) → aget k (u_inc u) = Some (VFloat y) → aget k d = Some (VFloat x) →
    aget k (apply_update u d) = Some (VFloat (fadd x y));
  apply_inc_int u d k n z :
    NoDup (update_keys u) → aget k (u_inc u) = Some (VInt n) → aget k d = Some (VInt z) →
    Z.abs (z + n) <= int64_max →
    aget k (apply_update u d) = Some (VInt (z + n));
  apply_push u d k v l :
    NoDup (update_keys u) → aget k (u_push u) = Some v → pushed_as_is v →
    (aget k d = None ∧ l = [] ∨ aget k d = Some (VList l)) →
    aget k (apply_update u d) = Some (VList (l ++ [to_bson v]));
  apply_other u d k : k ∉ update_keys u → aget k (apply_update u d) = aget k d;
  apply_unset u d k : NoDup (update_keys u) → k ∈ u_unset u → aget k (apply_update u d) = None;

  find_one_spec q c :
    match find_one q c with
    | Some d => d ∈ contents c ∧ matches q d = true
    | None => ∀ d, d ∈ contents c → matches q d = false
    end;
  find_all_spec q c : find_all q c ≡ₚ filter (fun d => matches q d = true) (contents c);
  count_spec q c :
    count_documents q c = Z.of_nat (length (filter (fun d => matches q d = true) (contents c)));
  insert_one_spec d c i c' :
    insert_one d c = Some (i, c') →
    contents c' ≡ₚ bson_doc (setdefault "_id" i d) :: contents c ∧
    (∀ v, aget "_id" d = Some v → i = v);
  insert_one_dup d c :
    insert_one d c = None →
    ∃ d', d' ∈ contents c ∧ aget "_id" d' = aget "_id" (bson_doc d) ∧ aget "_id" d ≠ None;
  insert_one_unique d c v :
    aget "_id" d = Some v → (∃ e, e ∈ contents c ∧ aget "_id" e = Some (to_bson v)) →
    insert_one d c = None;
  insert_one_drawn d c i c' :
    insert_one d c = Some (i, c') → aget "_id" d = None →
    ∃ o, i = VOid o ∧ ∀ e, e ∈ contents c → aget "_id" e ≠ Some (VOid o);
  update_one_none q u c :
    (∀ d, d ∈ contents c → matches q d = false) → update_one q u c = (0, c);
  update_one_some q u c :
    (∃ d, d ∈ contents c ∧ matches q d = true) →
    ∃ d rest, contents c ≡ₚ d :: rest ∧ matches q d = true ∧
      contents (snd (update_one q u c)) ≡ₚ apply_update u d :: rest ∧
      (fst (update_one q u c) = 0 ∧ apply_update u d = d ∨
       fst (update_one q u c) = 1 ∧ apply_update u d ≠ d);
  update_many_spec q u c :
    contents (snd (update_many q u c))
      ≡ₚ map (fun d => if matches q d then apply_update u d else d) (contents c) ∧
    0 <= fst (update_many q u c);
  upsert_one_some q u c :
    (∃ d, d ∈ contents c ∧ matches q d = true) → upsert_one q u c = update_one q u c;
  upsert_one_none q u c :
    NoDup (map fst (eq_fields q)) → Forall (fun kv => plain (snd kv) = true) (eq_fields q) → NoDup (update_keys u) →
    (∀ d, d ∈ contents c → matches q d = false) →
    ∃ base, contents (snd (upsert_one q u c)) ≡ₚ apply_update u base :: contents c ∧
      ∀ k, k ≠ "_id" → aget k base = to_bson <$> aget k (eq_fields q);
  delete_many_spec q c :
    contents (snd (delete_many q c)) ≡ₚ filter (fun d => matches q d = false) (contents c);
  find_one_and_delete_spec q c :
    match find_one_and_delete q c with
    | (Some d, c') => ∃ rest, contents c ≡ₚ d :: rest ∧ matches q d = true ∧ contents c' ≡ₚ rest
    | (None, c') => c' = c ∧ ∀ d, d ∈ contents c → matches q d = false
    end;
  find_one_and_update_none q u c :
    (∀ d, d ∈ contents c → matches q d = false) → find_one_and_update q u c = (None, c);
  find_one_and_update_some q u c :
    (∃ d, d ∈ contents c ∧ matches q d = true) →
    ∃ d rest c', contents c ≡ₚ d :: rest ∧ matches q d = true ∧
      find_one_and_update q u c = (Some (d, apply_update u d), c') ∧
      contents c' ≡ₚ apply_update u d :: rest;
  replace_one_some v d c e rest :
    contents c ≡ₚ e :: rest → aget "_id" e = Some (to_bson v) → aget "_id" d = Some v →
    (∀ e', e' ∈ rest → aget "_id" e' ≠ aget "_id" e) →
    contents (replace_one v d c) ≡ₚ bson_doc d :: rest;
  replace_one_none v d c :
    (∀ e, e ∈ contents c → aget "_id" e ≠ Some (to_bson v)) → aget "_id" d = Some v →
    contents (replace_one v d c) ≡ₚ bson_doc d :: contents c;
  delete_one_none q c :
    (∀ d, d ∈ contents c → matches q d = false) → delete_one q c = (0, c);
  delete_one_some q c :
    (∃ d, d ∈ contents c ∧ matches q d = true) →
    ∃ d rest, contents c ≡ₚ d :: rest ∧ matches q d = true ∧
      contents (snd (delete_one q c)) ≡ₚ rest ∧ fst (delete_one q c) = 1;
}.

#[export] Hint Rewrite @matches_and @matches_or @matches_ne @matches_in @matches_nin
  @matches_exists using typeclasses eauto : mongo.

(** ** The world of a request

    The database (collections by name), the write authority of the current
    context, the installed write guards, the number of clock readings so far,
    the trace of calls made to services that are outside the model, and the
    writes issued without the session of the open transaction, latest first:
    they survive its rollback. *)

Inductive event := Ev (name : string) (args : list val).

Record world (C : Type) := World {
  w_db : string → C;
  w_auth : option string;
  w_guards : list string;
  w_tick : nat;
  w_events : list event;
  w_unsessioned : list (string * (C → C));
}.
Arguments World {C}.
Arguments w_db {C}.
Arguments w_auth {C}.
Arguments w_guards {C}.
Arguments w_tick {C}.
Arguments w_events {C}.
Arguments w_unsessioned {C}.

Section world_ops.
Context {C : Type}.
Implicit Types (w : world C).

Definition set_db (f : string → C) w : world C :=
  World f (w_auth w) (w_guards w) (w_tick w) (w_events w) (w_unsessioned w).
Definition set_coll (name : string) (c : C) w : world C := set_db (<[name := c]> (w_db w)) w.
Definition set_auth (a : option string) w : world C :=
  World (w_db w) a (w_guards w) (w_tick w) (w_events w) (w_unsessioned w).
Definition set_guards (g : list string) w : world C :=
  World (w_db w) (w_auth w) g (w_tick w) (w_events w) (w_unsessioned w).
Definition add_event (e : event) w : world C :=
  World (w_db w) (w_auth w) (w_guards w) (w_tick w) (w_events w ++ [e]) (w_unsessioned w).
Definition tick w : world C :=
  World (w_db w) (w_auth w) (w_guards w) (S (w_tick w)) (w_events w) (w_unsessioned w).
Definition add_unsessioned (name : string) (f : C → C) w : world C :=
  World (w_db w) (w_auth w) (w_guards w) (w_tick w) (w_events w) ((name, f) :: w_unsessioned w).

(** A reading of the clock; the readings of a run are an arbitrary sequence. *)
Definition utc_now (clock : nat → Z) : M (world C) Z := fun w => (Ok (clock (w_tick w)), tick w).

Definition emit (e : event) : M (world C) unit := modify (add_event e).
End world_ops.

(** Reads of a collection. *)
Section reads.
Context {C : Type} `{Mongo C}.

Definition db_find_one (name : string) (q : query) : M (world C) (option doc) :=
  gets (fun w => find_one q (w_db w name)).
Definition db_find (name : string) (q : query) : M (world C) (list doc) :=
  gets (fun w => find_all q (w_db w name)).
Definition db_count (name : string) (q : query) : M (world C) Z :=
  gets (fun w => count_documents q (w_db w name)).
End reads.

(** ** Consequences of the laws *)

Section laws.
Context {C : Type} `{MongoLaws C}.
Implicit Types (c : C) (d : doc) (q : query).

Lemma get_some k d v : aget k d = Some v → get k d = v.
Proof. unfold get. by intros ->. Qed.

Lemma get_apply_set u d k v :
  NoDup (update_keys u) → aget k (u_set u) = Some v → get k (apply_update u d) = to_bson v.
Proof. intros. apply get_some. by apply apply_set. Qed.

Lemma get_apply_other u d k : k ∉ update_keys u → get k (apply_update u d) = get k d.
Proof. intros. unfold get. by rewrite apply_other. Qed.

Lemma find_one_some q c d : find_one q c = Some d → d ∈ contents c ∧ matches q d = true.
Proof. intros Hf. pose proof (find_one_spec q c) as Hs. by rewrite Hf in Hs. Qed.

Lemma find_one_none q c :
  find_one q c = None → ∀ d, d ∈ contents c → matches q d = false.
Proof. intros Hf. pose proof (find_one_spec q c) as Hs. by rewrite Hf in Hs. Qed.

Lemma find_one_exists q c d :
  d ∈ contents c → matches q d = true → ∃ d', find_one q c = Some d'.
Proof.
  intros Hd Hm. destruct (find_one q c) eqn:E; eauto.
  by rewrite (find_one_none _ _ E d Hd) in Hm.
Qed.

Lemma count_zero q c : count_documents q c = 0 ↔ ∀ d, d ∈ contents c → matches q d = false.
Proof.
  rewrite count_spec. split.
  - intros Hz d Hd. destruct (matches q d) eqn:E; [|done].
    assert (d ∈ filter (fun d => matches q d = true) (contents c)) as Hin
      by (apply list_elem_of_filter; done).
    destruct (filter _ (contents c)); [by apply not_elem_of_nil in Hin | simpl in Hz; lia].
  - intros Hn. destruct (filter _ (contents c)) as [|d l] eqn:E; [done|].
    assert (d ∈ filter (fun d => matches q d = true) (contents c)) as Hin by (rewrite E; left).
    apply list_elem_of_filter in Hin as [Hm Hin]. by rewrite (Hn d Hin) in Hm.
Qed.

Lemma count_nonneg q c : 0 <= count_documents q c.
Proof. rewrite count_spec. lia. Qed.

Lemma find_all_in q c d : d ∈ find_all q c ↔ d ∈ contents c ∧ matches q d = true.
Proof. rewrite (find_all_spec q c), list_elem_of_filter. naive_solver. Qed.

Lemma matches_eq_str k s d :
  is_list (get k d) = false → matches (QEq k (VStr s)) d = bson_eqb (VStr s) (get k d).
Proof. by apply matches_eq. Qed.

Lemma bson_eqb_str s v : bson_eqb (VStr s) v = true ↔ v = VStr s.
Proof.
  destruct v; simpl; try (split; [discriminate | congruence]).
  rewrite String.eqb_eq. split; congruence.
Qed.
End laws.

(** What a stored document holds of the inserted one. *)
Section bson.
Context {C : Type} `{MongoLaws C}.

Lemma aget_bson k (d : doc) : aget k (bson_doc d) = to_bson <$> aget k d.
Proof.
  unfold bson_doc. induction d as [|[k1 v] d IH]; [done|].
  cbn [map aget fst snd]. destruct (String.eqb k k1); [done | apply IH].
Qed.

Lemma get_bson k d : get k d ≠ VNone → get k (bson_doc d) = to_bson (get k d).
Proof. unfold get. rewrite aget_bson. by destruct (aget k d). Qed.

Lemma get_bson_str k x d : get k d = VStr x → get k (bson_doc d) = VStr x.
Proof. intros Hg. rewrite get_bson by (by rewrite Hg). rewrite Hg. by apply to_bson_plain. Qed.

(** A document without an [_id] is always inserted. *)
Lemma insert_one_fresh d (c : C) :
  aget "_id" d = None →
  ∃ i c', insert_one d c = Some (i, c') ∧ contents c' ≡ₚ bson_doc (setdefault "_id" i d) :: contents c.
Proof.
  intros Hd. destruct (insert_one d c) as [[i c']|] eqn:E.
  - exists i, c'. split; [done|]. by apply (insert_one_spec _ _ _ _ E).
  - apply insert_one_dup in E as (? & _ & _ & Hn). done.
Qed.
End bson.

(** A query selects at most one document of a collection. *)
Definition at_most_one `{Mongo C} (q : query) (c : C) : Prop :=
  (length (filter (fun d => matches q d = true) (contents c)) ≤ 1)%nat.

Section at_most_one.
Context {C : Type} `{MongoLaws C}.
Implicit Types (c : C) (d : doc) (q : query).

Lemma at_most_one_rest q c d rest :
  at_most_one q c → contents c ≡ₚ d :: rest → matches q d = true →
  ∀ d', d' ∈ rest → matches q d' = false.
Proof.
  unfold at_most_one. intros Hone Hc Hd d' Hd'. rewrite Hc, filter_cons_True in Hone by done.
  destruct (matches q d') eqn:E; [|done]. exfalso.
  assert (d' ∈ filter (fun d => matches q d = true) rest) as Hin by (by apply list_elem_of_filter).
  destruct (filter _ rest); [by apply elem_of_nil in Hin | simpl in Hone; lia].
Qed.

Lemma at_most_one_eq q c d d' :
  at_most_one q c → d ∈ contents c → d' ∈ contents c →
  matches q d = true → matches q d' = true → d = d'.
Proof.
  intros Hone Hd Hd' Hm Hm'. apply elem_of_Permutation in Hd as [rest Hc].
  rewrite Hc in Hd'. apply elem_of_cons in Hd' as [->|Hin]; [done|].
  pose proof (at_most_one_rest q c d rest Hone Hc Hm d' Hin). congruence.
Qed.

(** Replacing a document by one the query treats alike. *)
Lemma at_most_one_replace q c c' d d' rest :
  contents c ≡ₚ d :: rest → contents c' ≡ₚ d' :: rest → matches q d' = matches q d →
  at_most_one q c → at_most_one q c'.
Proof.
  unfold at_most_one. intros Hc Hc' Hm. rewrite Hc, Hc', !filter_cons.
  by destruct (decide (matches q d = true)), (decide (matches q d' = true)); try congruence.
Qed.

(** A new document beside others the query does not select. *)
Lemma at_most_one_cons q c d rest :
  contents c ≡ₚ d :: rest → (∀ d', d' ∈ rest → matches q d' = false) → at_most_one q c.
Proof.
  unfold at_most_one. intros Hc Hr. rewrite Hc, filter_cons.
  assert (filter (fun d => matches q d = true) rest = []) as ->; [|case_decide; simpl; lia].
  destruct (filter _ rest) as [|x l] eqn:E; [done|].
  assert (x ∈ filter (fun d => matches q d = true) rest) as Hx by (rewrite E; left).
  apply list_elem_of_filter in Hx as [Hm Hx]. by rewrite Hr in Hm.
Qed.

Lemma at_most_one_none q c : (∀ d, d ∈ contents c → matches q d = false) → at_most_one q c.
Proof.
  unfold at_most_one. intros Hn. destruct (filter _ (contents c)) as [|d l] eqn:E; [simpl; lia|].
  assert (d ∈ filter (fun d => matches q d = true) (contents c)) as Hd by (rewrite E; left).
  apply list_elem_of_filter in Hd as [Hm Hd]. by rewrite Hn in Hm.
Qed.

(** A query that selects one document: what it finds before and after an
    update or a deletion through it. *)
Lemma find_one_unique q c d :
  at_most_one q c → d ∈ contents c → matches q d = true → find_one q c = Some d.
Proof.
  intros Hone Hd Hm. destruct (find_one_exists q c d Hd Hm) as [e He]. rewrite He. f_equal.
  apply find_one_some in He as [He1 He2]. by apply (at_most_one_eq q c).
Qed.

Lemma update_one_unique q u c d :
  at_most_one q c → find_one q c = Some d → matches q (apply_update u d) = true →
  find_one q (snd (update_one q u c)) = Some (apply_update u d) ∧
  at_most_one q (snd (update_one q u c)).
Proof.
  intros Hone Hf Hm. apply find_one_some in Hf as [Hd Hmd].
  destruct (update_one_some q u c) as (e & rest & Hc & Hme & Hc' & _); [by exists d|].
  assert (e = d) as -> by (apply (at_most_one_eq q c); try done; rewrite Hc; left).
  assert (at_most_one q (snd (update_one q u c))) as Hone'.
  { apply (at_most_one_replace q c _ d (apply_update u d) rest); [done|done|congruence|done]. }
  split; [|done]. apply find_one_unique; [done| |done]. rewrite Hc'. left.
Qed.

Lemma delete_one_unique q c d :
  at_most_one q c → find_one q c = Some d → find_one q (snd (delete_one q c)) = None.
Proof.
  intros Hone Hf. apply find_one_some in Hf as [Hd Hmd].
  destruct (delete_one_some q c) as (e & rest & Hc & Hme & Hc' & _); [by exists d|].
  destruct (find_one q (snd (delete_one q c))) as [x|] eqn:E; [|done].
  apply find_one_some in E as [Hx Hmx]. rewrite Hc' in Hx.
  by rewrite (at_most_one_rest q c e rest Hone Hc Hme x Hx) in Hmx.
Qed.

(** A lookup by a text field: the field says whether a document is meant. *)
Lemma matches_text k s d v : get k d = v → is_list v = false → matches (QEq k (VStr s)) d = true → v = VStr s.
Proof. intros <- Hl. rewrite matches_eq by done. apply bson_eqb_str. Qed.

Lemma matches_text_other k s u d :
  get k d = VStr s → k ∉ update_keys u → matches (QEq k (VStr s)) (apply_update u d) = true.
Proof.
  intros Hg Hk. assert (get k (apply_update u d) = VStr s) as He by (by rewrite get_apply_other).
  rewrite matches_eq by (by rewrite ?He). rewrite He. apply String.eqb_refl.
Qed.
End at_most_one.
