(* ===== verification/ListStore.v ===== *)
(** A small in-memory collection that satisfies the laws of [Store.MongoLaws]:
    the laws are consistent, and the witnesses evaluate the services on it.
    It is not a model of the database; the theorems never mention it. *)

From Stdlib Require Import Floats.SpecFloat.
From S2P Require Import Prelude PyFloat Py Store.

Local Open Scope Z_scope.

Definition coll := list doc.

(** Datetimes lose their microseconds, also inside documents and lists. *)
Fixpoint ls_bson (v : val) : val :=
  match v with
  | VTime us => VTime (us - us mod 1000)
  | VList l => VList (map ls_bson l)
  | VDict d => VDict (map (fun kv => (fst kv, ls_bson (snd kv))) d)
  | _ => v
  end.

Definition ls_eq (v w : val) : bool :=
  if plain v then
    match w with
    | VList l => existsb (bson_eqb v) l
    | _ => bson_eqb v w
    end
  else py_eqb v w.

Definition ls_lt (v w : val) : bool :=
  match v, w with
  | VTime a, VTime b => a <? b
  | VInt a, VInt b => a <? b
  | VFloat a, VFloat b => flt a b
  | _, _ => false
  end.

Fixpoint ls_matches (q : query) (d : doc) {struct q} : bool :=
  match q with
  | QEq k v => ls_eq v (get k d)
  | QNe k v => negb (ls_eq v (get k d))
  | QIn k l => existsb (fun v => ls_eq v (get k d)) l
  | QNin k l => negb (existsb (fun v => ls_eq v (get k d)) l)
  | QExists k b => Bool.eqb b (match aget k d with Some _ => true | None => false end)
  | QLt k v => ls_lt (get k d) v
  | QLte k v => ls_lt (get k d) v || ls_eq v (get k d)
  | QGt k v => ls_lt v (get k d)
  | QGte k v => ls_lt v (get k d) || ls_eq v (get k d)
  | QText k s =>
      let accepts x := match x with VStr t => same_text s t | _ => false end in
      match get k d with VList l => existsb accepts l | x => accepts x end
  | QDot k field v =>
      match get k d with
      | VDict e => ls_eq v (get field e)
      | VList l => existsb (fun x => match x with VDict e => ls_eq v (get field e) | _ => false end) l
      | _ => ls_eq v VNone
      end
  | QAnd l => forallb (fun q => ls_matches q d) l
  | QOr l => existsb (fun q => ls_matches q d) l
  end.

Definition ls_inc (n : val) (o : option val) : val :=
  match o, n with
  | None, _ => n
  | Some (VInt z), VInt m => VInt (z + m)
  | Some (VInt z), VFloat y => VFloat (fadd (of_Z z) y)
  | Some (VFloat x), VInt m => VFloat (fadd x (of_Z m))
  | Some (VFloat x), VFloat y => VFloat (fadd x y)
  | Some v, _ => v
  end.
Definition ls_push (v : val) (o : option val) : val :=
  match o with Some (VList l) => VList (l ++ [ls_bson v]) | None => VList [ls_bson v] | Some w => w end.

Definition alter (f : option val → val) (k : string) (d : doc) : doc := aset k (f (aget k d)) d.

Definition ls_apply (u : update) (d : doc) : doc :=
  let d1 := fold_left (fun d kv => aset (fst kv) (ls_bson (snd kv)) d) (u_set u) d in
  let d2 := fold_left (fun d kv => alter (ls_inc (snd kv)) (fst kv) d) (u_inc u) d1 in
  let d3 := fold_left (fun d kv => alter (ls_push (snd kv)) (fst kv) d) (u_push u) d2 in
  fold_left (fun d k => adel k d) (u_unset u) d3.

Fixpoint ls_find (f : doc → bool) (c : coll) : option doc :=
  match c with [] => None | d :: c' => if f d then Some d else ls_find f c' end.

Fixpoint ls_edit (f : doc → bool) (g : doc → list doc) (c : coll) : coll :=
  match c with [] => [] | d :: c' => if f d then g d ++ c' else d :: ls_edit f g c' end.

(** ** The operations *)

Definition ls_modified (u : update) (d : doc) : Z :=
  if decide (ls_apply u d = d) then 0 else 1.

Definition ls_update_one (q : query) (u : update) (c : coll) : Z * coll :=
  match ls_find (ls_matches q) c with
  | Some d => (ls_modified u d, ls_edit (ls_matches q) (fun d => [ls_apply u d]) c)
  | None => (0, c)
  end.

Definition ls_update_many (q : query) (u : update) (c : coll) : Z * coll :=
  (Z.of_nat (length (filter (fun d => ls_matches q d = true ∧ ls_apply u d ≠ d) c)),
   map (fun d => if ls_matches q d then ls_apply u d else d) c).

(** An id that is drawn: the number of documents, or a text longer than any
    id when that one is in use. *)
Fixpoint longest_id (c : coll) : nat :=
  match c with
  | [] => 0
  | d :: rest => Nat.max (match aget "_id" d with Some (VOid s) => String.length s | _ => 0 end) (longest_id rest)
  end.

Fixpoint long_text (n : nat) : string := match n with O => "" | S m => String Ascii.zero (long_text m) end.

Definition id_used (i : val) (c : coll) : bool :=
  existsb (fun e => if decide (aget "_id" e = Some i) then true else false) c.

Definition drawn_id (c : coll) : val :=
  let i := VOid (pad 24 (Z.of_nat (length c))) in
  if id_used i c then VOid (long_text (S (longest_id c))) else i.

Lemma longest_id_bound c e s : e ∈ c → aget "_id" e = Some (VOid s) → (String.length s ≤ longest_id c)%nat.
Proof.
  induction c as [|d c IH]; intros He Hi; [by apply elem_of_nil in He|]. cbn [longest_id].
  apply elem_of_cons in He as [->|He]; [rewrite Hi; lia|]. specialize (IH He Hi). lia.
Qed.

Lemma id_unused i c e : id_used i c = false → e ∈ c → aget "_id" e ≠ Some i.
Proof.
  intros Hu He Hi. apply not_true_iff_false in Hu. apply Hu, existsb_exists. exists e.
  rewrite <- list_elem_of_In, decide_True; done.
Qed.

Lemma drawn_id_new c e : e ∈ c → aget "_id" e ≠ Some (drawn_id c).
Proof.
  intros He Hi. unfold drawn_id in Hi. destruct (id_used _ c) eqn:Hu; [|by eapply id_unused].
  apply (longest_id_bound _ _ _ He) in Hi.
  assert (∀ n, String.length (long_text n) = n) as Hl by (induction n; cbn; congruence).
  rewrite Hl in Hi. lia.
Qed.

Definition ls_insert_one (d : doc) (c : coll) : option (val * coll) :=
  match aget "_id" d with
  | Some i =>
      if id_used (ls_bson i) c
      then None
      else Some (i, map (fun kv => (fst kv, ls_bson (snd kv))) d :: c)
  | None =>
      let i := drawn_id c in
      Some (i, map (fun kv => (fst kv, ls_bson (snd kv))) (aset "_id" i d) :: c)
  end.

Definition ls_upsert_one (q : query) (u : update) (c : coll) : Z * coll :=
  match ls_find (ls_matches q) c with
  | Some _ => ls_update_one q u c
  | None =>
      (0, ls_apply u (map (fun kv => (fst kv, ls_bson (snd kv))) (eq_fields q)) :: c)
  end.

Definition ls_find_one_and_delete (q : query) (c : coll) : option doc * coll :=
  match ls_find (ls_matches q) c with
  | Some d => (Some d, ls_edit (ls_matches q) (fun _ => []) c)
  | None => (None, c)
  end.

Definition ls_find_one_and_update (q : query) (u : update) (c : coll) : option (doc * doc) * coll :=
  match ls_find (ls_matches q) c with
  | Some d => (Some (d, ls_apply u d), ls_edit (ls_matches q) (fun d => [ls_apply u d]) c)
  | None => (None, c)
  end.

Definition ls_replace_one (v : val) (d : doc) (c : coll) : coll :=
  let stored := map (fun kv => (fst kv, ls_bson (snd kv))) d in
  let same e := if decide (aget "_id" e = Some (ls_bson v)) then true else false in
  match ls_find same c with
  | Some _ => ls_edit same (fun _ => [stored]) c
  | None => stored :: c
  end.

#[global] Instance ls_mongo : Mongo coll := {|
  contents c := c;
  matches := ls_matches;
  apply_update := ls_apply;
  to_bson := ls_bson;
  find_one q c := ls_find (ls_matches q) c;
  find_all q c := filter (fun d => ls_matches q d = true) c;
  count_documents q c := Z.of_nat (length (filter (fun d => ls_matches q d = true) c));
  insert_one := ls_insert_one;
  update_one := ls_update_one;
  update_many := ls_update_many;
  upsert_one := ls_upsert_one;
  delete_many q c :=
    (Z.of_nat (length (filter (fun d => ls_matches q d = true) c)),
     filter (fun d => ls_matches q d = false) c);
  find_one_and_delete := ls_find_one_and_delete;
  find_one_and_update := ls_find_one_and_update;
  replace_one := ls_replace_one;
  delete_one q c :=
    match ls_find (ls_matches q) c with
    | Some _ => (1, ls_edit (ls_matches q) (fun _ => []) c)
    | None => (0, c)
    end;
|}.

(** ** The laws hold *)

Lemma ls_find_spec f c :
  match ls_find f c with
  | Some d => d ∈ c ∧ f d = true
  | None => ∀ d, d ∈ c → f d = false
  end.
Proof.
  induction c as [|d c IH]; simpl; [by intros d ?%not_elem_of_nil|].
  destruct (f d) eqn:E; [split; [left | done]|].
  destruct (ls_find f c).
  - destruct IH. split; [by right | done].
  - intros d' [->|?]%elem_of_cons; auto.
Qed.

Lemma ls_edit_spec f g c d :
  ls_find f c = Some d →
  ∃ rest, c ≡ₚ d :: rest ∧ f d = true ∧ ls_edit f g c ≡ₚ g d ++ rest.
Proof.
  induction c as [|a c IH]; simpl; [done|]. destruct (f a) eqn:E.
  - intros; simplify_eq. by exists c.
  - intros (rest & Hc & Hd & He)%IH. exists (a :: rest). split_and!; [|done|].
    + rewrite Hc. constructor.
    + rewrite He. apply Permutation_middle.
Qed.

Section fold_alter.
Context {A : Type} (h : A → option val → val).

Definition fold_alter (e : list (string * A)) (d : doc) : doc :=
  fold_left (fun d kv => alter (h (snd kv)) (fst kv) d) e d.

Lemma fold_alter_other e d k : k ∉ map fst e → aget k (fold_alter e d) = aget k d.
Proof.
  unfold fold_alter. revert d. induction e as [|[k1 x] e IH]; intros d; simpl; [done|].
  rewrite not_elem_of_cons. intros [Hne Hk]. rewrite IH by done.
  unfold alter. rewrite aget_aset. destruct (String.eqb_spec k1 k); congruence.
Qed.

Lemma fold_alter_in e d k x :
  NoDup (map fst e) → aget k e = Some x → aget k (fold_alter e d) = Some (h x (aget k d)).
Proof.
  revert d. induction e as [|[k1 y] e IH]; intros d; simpl; [done|].
  intros [Hk1 Hnd]%list.NoDup_cons. destruct (String.eqb_spec k k1) as [->|Hne].
  - intros; simplify_eq. change (fold_alter _ d) with (fold_alter e (alter (h x) k1 d)).
    rewrite fold_alter_other by done. apply aget_aset_eq.
  - intros He. change (fold_alter _ d) with (fold_alter e (alter (h y) k1 d)).
    rewrite (IH _ Hnd He). unfold alter. rewrite aget_aset_ne by congruence. done.
Qed.
End fold_alter.

Lemma fold_del_other l (d : doc) k : k ∉ l → aget k (fold_left (fun d k => adel k d) l d) = aget k d.
Proof.
  revert d. induction l as [|a l IH]; intros d; simpl; [done|].
  rewrite not_elem_of_cons. intros [Hne Hk]. rewrite IH, aget_adel by done.
  destruct (String.eqb_spec a k); congruence.
Qed.

Lemma aget_Some_in {A} k (e : list (string * A)) x : aget k e = Some x → k ∈ map fst e.
Proof.
  induction e as [|[k1 y] e IH]; simpl; [done|].
  destruct (String.eqb_spec k k1) as [->|]; intros; [left | right; auto].
Qed.

(** The update as three folds and a deletion. *)
Lemma ls_apply_folds u d :
  ls_apply u d = fold_left (fun d k => adel k d) (u_unset u)
    (fold_alter ls_push (u_push u) (fold_alter ls_inc (u_inc u)
      (fold_alter (fun v _ => ls_bson v) (u_set u) d))).
Proof. reflexivity. Qed.

Section keys.
Context (u : update) (k : string).
Hypothesis Hnd : NoDup (update_keys u).

Lemma keys_set v : aget k (u_set u) = Some v →
  NoDup (map fst (u_set u)) ∧ (k ∉ map fst (u_inc u)) ∧ (k ∉ map fst (u_push u)) ∧ k ∉ u_unset u.
Proof.
  intros Hk%aget_Some_in. apply list.NoDup_app in Hnd as (H1 & H2 & _).
  specialize (H2 k Hk). rewrite !elem_of_app in H2. tauto.
Qed.

Lemma keys_inc n : aget k (u_inc u) = Some n →
  NoDup (map fst (u_inc u)) ∧ (k ∉ map fst (u_set u)) ∧ (k ∉ map fst (u_push u)) ∧ k ∉ u_unset u.
Proof.
  intros Hk%aget_Some_in. apply list.NoDup_app in Hnd as (_ & H2 & H3).
  apply list.NoDup_app in H3 as (H4 & H5 & _). specialize (H5 k Hk). rewrite elem_of_app in H5.
  split_and!; try tauto. intros Hs. apply (H2 k Hs). rewrite !elem_of_app. auto.
Qed.

Lemma keys_push v : aget k (u_push u) = Some v →
  NoDup (map fst (u_push u)) ∧ (k ∉ map fst (u_set u)) ∧ (k ∉ map fst (u_inc u)) ∧ k ∉ u_unset u.
Proof.
  intros Hk%aget_Some_in. apply list.NoDup_app in Hnd as (_ & H2 & H3).
  apply list.NoDup_app in H3 as (_ & H5 & H6). apply list.NoDup_app in H6 as (H7 & H8 & _).
  split_and!; try done.
  - intros Hs. apply (H2 k Hs). rewrite !elem_of_app. auto.
  - intros Hs. apply (H5 k Hs). rewrite !elem_of_app. auto.
  - by apply H8.
Qed.
End keys.

Lemma ls_apply_set u d k v :
  NoDup (update_keys u) → aget k (u_set u) = Some v → aget k (ls_apply u d) = Some (ls_bson v).
Proof.
  intros Hnd Hk. destruct (keys_set u k Hnd v Hk) as (H1 & H2 & H3 & H4).
  rewrite ls_apply_folds, fold_del_other, !fold_alter_other by done.
  by rewrite (fold_alter_in _ _ _ _ v).
Qed.

Lemma ls_apply_other u d k : k ∉ update_keys u → aget k (ls_apply u d) = aget k d.
Proof.
  intros Hk. unfold update_keys in Hk. rewrite !elem_of_app in Hk.
  rewrite ls_apply_folds, fold_del_other, !fold_alter_other by tauto. done.
Qed.

Lemma ls_apply_unset u d k : k ∈ u_unset u → aget k (ls_apply u d) = None.
Proof.
  intros Hk. rewrite ls_apply_folds. generalize (fold_alter ls_push (u_push u) (fold_alter ls_inc (u_inc u)
    (fold_alter (fun v _ => ls_bson v) (u_set u) d))). clear d.
  induction (u_unset u) as [|a l IH]; intros d; [by apply not_elem_of_nil in Hk|]. cbn [fold_left].
  destruct (decide (k ∈ l)) as [Hin|Hout]; [by apply IH|]. rewrite fold_del_other by done.
  apply elem_of_cons in Hk as [->|]; [|done]. by rewrite aget_adel, String.eqb_refl.
Qed.

#[global] Instance ls_laws : MongoLaws coll.
Proof.
  split; simpl.
  - intros v Hp Hv. destruct v; try done. exfalso. by apply (Hv us).
  - done.
  - by intros [| | | | | | |[]|[]].
  - done.
  - done.
  - done.
  - done.
  - done.
  - intros k v d Hp Hl. unfold ls_eq. rewrite Hp. by destruct (get k d).
  - intros k field v d Hl. by destruct (get k d).
  - done.
  - done.
  - done.
  - done.
  - intros k t u d Hg. by rewrite Hg.
  - intros k s d Hl. by destruct (get k d).
  - intros k t d _ Hn. destruct (get k d); try done. by destruct (Hn us).
  - intros k t u d Hg. by rewrite Hg.
  - intros u d k v Hnd Hk. by apply ls_apply_set.
  - intros u d k n Hnd Hk Hd. destruct (keys_inc u k Hnd _ Hk) as (H1 & H2 & H3 & H4).
    rewrite ls_apply_folds, fold_del_other, fold_alter_other by done.
    rewrite (fold_alter_in _ _ _ _ (VInt n)), fold_alter_other by done. by rewrite Hd.
  - intros u d k x Hnd Hk Hd. destruct (keys_inc u k Hnd _ Hk) as (H1 & H2 & H3 & H4).
    rewrite ls_apply_folds, fold_del_other, fold_alter_other by done.
    rewrite (fold_alter_in _ _ _ _ (VFloat x)), fold_alter_other by done. by rewrite Hd.
  - intros u d k x y Hnd Hk Hd. destruct (keys_inc u k Hnd _ Hk) as (H1 & H2 & H3 & H4).
    rewrite ls_apply_folds, fold_del_other, fold_alter_other by done.
    rewrite (fold_alter_in _ _ _ _ (VFloat y)), fold_alter_other by done. by rewrite Hd.
  - intros u d k n z Hnd Hk Hd _. destruct (keys_inc u k Hnd _ Hk) as (H1 & H2 & H3 & H4).
    rewrite ls_apply_folds, fold_del_other, fold_alter_other by done.
    rewrite (fold_alter_in _ _ _ _ (VInt n)), fold_alter_other by done. by rewrite Hd.
  - intros u d k v l Hnd Hk _ Hd. destruct (keys_push u k Hnd v Hk) as (H1 & H2 & H3 & H4).
    rewrite ls_apply_folds, fold_del_other by done.
    rewrite (fold_alter_in _ _ _ _ v), !fold_alter_other by done.
    by destruct Hd as [[-> ->] | ->].
  - intros u d k Hk. by apply ls_apply_other.
  - intros u d k _ Hk. by apply ls_apply_unset.
  - intros q c. apply ls_find_spec.
  - done.
  - done.
  - intros d c i c'. unfold ls_insert_one, setdefault, bson_doc. simpl.
    destruct (aget "_id" d) as [j|] eqn:E.
    + case_match; intros; simplify_eq. split; [done | naive_solver].
    + intros; simplify_eq. split; [done | done].
  - intros d c. unfold ls_insert_one. destruct (aget "_id" d) as [j|] eqn:E; [|done].
    case_match eqn:Ex; [|done]. intros _.
    apply existsb_exists in Ex as (e & He & Hj). exists e.
    split; [by apply list_elem_of_In|].
    destruct (decide (aget "_id" e = Some (ls_bson j))) as [Hid|]; [|done].
    split; [|congruence]. rewrite Hid. symmetry. clear -E. unfold bson_doc.
    induction d as [|[k v] d IH]; cbn [aget map fst snd] in *; [done|].
    destruct (String.eqb "_id" k); [injection E as ->; done | by apply IH].
  - intros d c v E (e & He & Hj). unfold ls_insert_one. rewrite E.
    assert (id_used (ls_bson v) c = true)
      as -> by (apply existsb_exists; exists e; rewrite decide_True by done; by rewrite <- list_elem_of_In).
    done.
  - intros d c i c' Hi Hd. unfold ls_insert_one in Hi. rewrite Hd in Hi. simplify_eq.
    assert (∃ o, drawn_id c = VOid o) as [o Ho] by (unfold drawn_id; destruct (id_used _ _); eauto).
    exists o. split; [done|]. intros e He. rewrite <- Ho. by apply drawn_id_new.
  - intros q u c Hn. unfold ls_update_one. pose proof (ls_find_spec (ls_matches q) c) as Hf.
    destruct (ls_find _ c) as [d|]; [|done]. destruct Hf as [Hd Hm]. by rewrite Hn in Hm.
  - intros q u c (d0 & Hd0 & Hm0). unfold ls_update_one.
    pose proof (ls_find_spec (ls_matches q) c) as Hf. destruct (ls_find _ c) as [d|] eqn:E.
    + destruct (ls_edit_spec _ (fun d => [ls_apply u d]) _ _ E) as (rest & H1 & H2 & H3).
      exists d, rest. split_and!; try done. unfold ls_modified. simpl.
      destruct (decide (ls_apply u d = d)); auto.
    + by rewrite Hf in Hm0.
  - intros q u c. split; [done | lia].
  - intros q u c (d & Hd & Hm). unfold ls_upsert_one.
    pose proof (ls_find_spec (ls_matches q) c) as Hf. destruct (ls_find _ c); [done|].
    by rewrite Hf in Hm.
  - intros q u c _ _ _ Hn. unfold ls_upsert_one.
    pose proof (ls_find_spec (ls_matches q) c) as Hf.
    destruct (ls_find _ c) as [d|]; [destruct Hf as [Hd Hm]; specialize (Hn d Hd); simpl in Hm; congruence|].
    exists (bson_doc (eq_fields q)). split; [reflexivity|]. intros k _. unfold bson_doc. generalize (eq_fields q). intros l.
    induction l as [|[k1 v] l IH]; [done|]. cbn [map aget fst snd]. by destruct (String.eqb k k1).
  - done.
  - intros q c. unfold ls_find_one_and_delete.
    pose proof (ls_find_spec (ls_matches q) c) as Hf. destruct (ls_find _ c) as [d|] eqn:E; [|done].
    destruct (ls_edit_spec _ (fun _ => []) _ _ E) as (rest & H1 & H2 & H3). by exists rest.
  - intros q u c Hn. pose proof (ls_find_spec (ls_matches q) c) as Hf. unfold ls_find_one_and_update.
    destruct (ls_find _ c) as [d|]; [|done]. destruct Hf as [Hd Hm]. by rewrite Hn in Hm.
  - intros q u c (d0 & Hd0 & Hm0). unfold ls_find_one_and_update.
    pose proof (ls_find_spec (ls_matches q) c) as Hf. destruct (ls_find _ c) as [d|] eqn:E.
    + destruct (ls_edit_spec _ (fun d => [ls_apply u d]) _ _ E) as (rest & H1 & H2 & H3).
      exists d, rest. eexists. split; [done|]. split; [done|]. split; [done|]. exact H3.
    + by rewrite Hf in Hm0.
  - intros v d c e rest Hc He Hd Hrest. unfold ls_replace_one.
    set (same := fun e => _). pose proof (ls_find_spec same c) as Hf.
    destruct (ls_find same c) as [x|] eqn:E.
    + destruct (ls_edit_spec same (fun _ => [bson_doc d]) _ _ E) as (rest' & H1 & H2 & H3).
      etransitivity; [exact H3|]. assert (x = e) as ->.
      { assert (aget "_id" x = Some (ls_bson v)) as Hx by (unfold same in H2; by case_decide).
        assert (x ∈ c) as Hin by (rewrite H1; left). rewrite Hc in Hin.
        apply elem_of_cons in Hin as [->|Hin]; [done|]. destruct (Hrest x Hin). congruence. }
      simpl. rewrite Hc in H1. by apply Permutation_cons_inv in H1 as <-.
    + assert (e ∈ c) as Hin by (rewrite Hc; left). specialize (Hf e Hin). unfold same in Hf.
      by rewrite decide_True in Hf by done.
  - intros v d c Hn Hd. unfold ls_replace_one. set (same := fun e => _).
    pose proof (ls_find_spec same c) as Hf. destruct (ls_find same c) as [x|] eqn:E; [|done].
    destruct Hf as [Hx Hs]. unfold same in Hs. case_decide; [|done]. by destruct (Hn x Hx).
  - intros q c Hn. pose proof (ls_find_spec (ls_matches q) c) as Hf.
    destruct (ls_find _ c) as [d|]; [|done]. destruct Hf as [Hd Hm]. by rewrite Hn in Hm.
  - intros q c (d0 & Hd0 & Hm0).
    pose proof (ls_find_spec (ls_matches q) c) as Hf. destruct (ls_find _ c) as [d|] eqn:E.
    + destruct (ls_edit_spec _ (fun _ => []) _ _ E) as (rest & H1 & H2 & H3).
      by exists d, rest.
    + by rewrite Hf in Hm0.
Qed.

(** A database with the given collections, and no request state. *)
Definition mkdb (l : list (string * coll)) : string → coll := fun n => default [] (aget n l).
Definition mkworld (l : list (string * coll)) : world coll := World (mkdb l) None [] 0 [] [].
