(* ===== verification/Guard.v ===== *)
(** The central write guard, [services/governance_guard.py]: canonical session
    statuses and their transitions, the invariants of a write, and the
    collection proxies that refuse a write without an authority for the
    collection. *)

From Stdlib Require Import Ascii.
From S2P Require Import Prelude PyFloat Py Store ListStore.

Local Open Scope Z_scope.
Local Open Scope stock_scope.

(** ** Tables *)

Definition AUTHORIZED_WRITE_AUTHORITIES : list (string * list string) := [
  ("CountLineWriteService", ["count_lines"]);
  ("SessionLifecycleService",
     ["sessions"; "verification_sessions"; "recount_requests"; "session_snapshots"]);
  ("UnknownItemService", ["unknown_items"]);
  ("InventoryAdjustmentService",
     ["inventory_adjustments"; "inventory_ledger"; "inventory_movements"]);
  ("ReconciliationService", ["reconciliation_records"])].

Definition _GUARD_TARGET_COLLECTIONS : list string := [
  "count_lines"; "sessions"; "verification_sessions"; "recount_requests"; "session_snapshots";
  "unknown_items"; "inventory_adjustments"; "inventory_ledger"; "inventory_movements";
  "reconciliation_records"].

Definition LEGACY_TO_CANONICAL_STATUS : list (string * string) := [
  ("OPEN", "ACTIVE"); ("ACTIVE", "ACTIVE"); ("PAUSED", "ACTIVE"); ("RECONCILE", "REVIEW");
  ("COMPLETED", "FINALIZED"); ("CLOSED", "FINALIZED"); ("CANCELLED", "FINALIZED");
  ("FINALIZED", "FINALIZED"); ("CREATED", "CREATED"); ("REVIEW", "REVIEW")].

Definition SESSION_TRANSITIONS : list (string * list string) := [
  ("CREATED", ["ACTIVE"]); ("ACTIVE", ["REVIEW"]); ("REVIEW", ["FINALIZED"]); ("FINALIZED", [])].

#[global] Arguments AUTHORIZED_WRITE_AUTHORITIES : simpl never.
#[global] Arguments LEGACY_TO_CANONICAL_STATUS : simpl never.

(** ** Statuses and transitions *)

Definition normalize_session_status (value : val) : string :=
  let raw := upper (strip (to_str (por value (VStr "")))) in
  if String.eqb raw "" then "UNKNOWN"
  else default raw (aget raw LEGACY_TO_CANONICAL_STATUS).

Definition transition_allowed (from_state to_state : string) : bool :=
  str_in to_state (default [] (aget from_state SESSION_TRANSITIONS)).

Definition assert_valid_transition {S} (from_state to_state : string) : M S unit :=
  raise_if (negb (transition_allowed from_state to_state))
    (GovernanceViolation ("CRITICAL: Invalid session transition " +:+ from_state +:+ " -> " +:+ to_state)).

(** ** The context of a write *)

Definition field_of (v : val) (k : string) : val :=
  match v with VDict d => get k d | _ => VNone end.

Definition _extract_session_id (context : doc) : string :=
  let explicit_id := get "session_id" context in
  if truthy explicit_id then to_str explicit_id
  else
    let document := field_of (get "document" context) "session_id" in
    if truthy document then to_str document
    else
      let count_line := field_of (get "count_line" context) "session_id" in
      if truthy count_line then to_str count_line else "".

(** The stripped text of a field, [None] when the field is falsy. *)
Definition stripped (v : val) : option string :=
  if truthy v then Some (strip (to_str v)) else None.

Definition _extract_context_fields (context : doc)
  : option string * option string * option string :=
  let source :=
    match get "document" context with
    | VDict d => d
    | _ => match get "count_line" context with VDict d => d | _ => [] end
    end in
  let pick k := stripped (por (get k source) (get k context)) in
  (pick "location_id", pick "floor_id", pick "rack_id").

Definition missing_value (o : option string) : bool :=
  match o with None => true | Some s => String.eqb s "" end.

Definition missing_fields (context : doc) : list string :=
  let '(location_id, floor_id, rack_id) := _extract_context_fields context in
  map fst (List.filter (fun nv => missing_value (snd nv))
    [("location_id", location_id); ("floor_id", floor_id); ("rack_id", rack_id)]).

Section guard.
Context {C : Type} `{Mongo C}.

Definition session_lookup (session_id : string) : query :=
  QOr [QEq "id" (VStr session_id); QEq "session_id" (VStr session_id)].

Definition is_finalized_session (session : doc) : bool :=
  truthy (get "finalized_at" session)
  || String.eqb (normalize_session_status (get "status" session)) "FINALIZED".

(** The session of the context, looked up when the context has none. *)
Definition _load_session (context : doc) : M (world C) val :=
  match get "session" context with
  | VNone =>
      let session_id := _extract_session_id context in
      run raise_if (String.eqb session_id "")
            (GovernanceViolation "CRITICAL: Missing session_id for write") ;;
      do found <- db_find_one "sessions" (session_lookup session_id) ;;
      ret (match found with Some d => VDict d | None => VNone end)
  | v => ret v
  end.

(** [assert_valid_write]; [has_db] says whether the context carries a database
    and [context] holds its other keys. *)
Definition assert_valid_write (has_db : bool) (context : doc) : M (world C) doc :=
  run raise_if (negb has_db) (GovernanceViolation "CRITICAL: Governance guard requires db in context") ;;
  do session <- _load_session context ;;
  match session with
  | VDict session =>
      let canonical_status := normalize_session_status (get "status" session) in
      run raise_if (is_finalized_session session)
            (GovernanceViolation "Session is finalized. Mutation blocked.") ;;
      run raise_if (truthy (dget "require_active_session" (VBool true) context)
                    && negb (String.eqb canonical_status "ACTIVE"))
            (GovernanceViolation ("CRITICAL: Session must be ACTIVE for count-line writes (found "
                                   +:+ canonical_status +:+ ")")) ;;
      let missing := missing_fields context in
      run raise_if (truthy (dget "require_full_context" (VBool true) context)
                    && match missing with [] => false | _ => true end)
            (GovernanceViolation ("CRITICAL: Missing required context fields: " +:+ join ", " missing)) ;;
      let from_state := get "from_state" context in
      let to_state := get "to_state" context in
      run when (truthy from_state && truthy to_state)
            (assert_valid_transition (to_str from_state) (to_str to_state)) ;;
      ret session
  | _ => raise (GovernanceViolation "CRITICAL: Session not found")
  end.

(** ** Write authority *)

(** [with write_authority(authority): body], reset on every exit. *)
Definition write_authority {A} (authority : string) (body : M (world C) A) : M (world C) A :=
  fun w =>
    let a := strip authority in
    let '(r, w') := body (set_auth (if String.eqb a "" then None else Some a) w) in
    (r, set_auth (w_auth w) w').

Definition _require_write_authority (operation : string) : M (world C) unit :=
  do authority <- gets w_auth ;;
  let allowed := match authority with
                 | Some a => aget a AUTHORIZED_WRITE_AUTHORITIES
                 | None => None
                 end in
  match allowed with
  | None => raise (GovernanceViolation ("CRITICAL: Direct DB write forbidden (" +:+ operation
                                          +:+ "). Use domain service."))
  | Some collections =>
      let collection_name := strip (before_char "."%char operation) in
      raise_if (negb (String.eqb collection_name "") && negb (str_in collection_name collections))
        (GovernanceViolation ("CRITICAL: " +:+ default "" authority +:+ " cannot mutate " +:+
           collection_name +:+ ". Use the collection's canonical domain service."))
  end.

Definition raise_forbidden_direct_write {A} (operation : string) : M (world C) A :=
  raise (GovernanceViolation ("CRITICAL: Direct DB write forbidden (" +:+ operation
                                +:+ "). Use domain service.")).

(** ** Collection proxies *)

(** [GovernedCollection._guard], run by every write method of a proxied
    collection; a collection without a proxy is the driver's own. *)
Definition _guard (name method_name : string) : M (world C) unit :=
  do guards <- gets w_guards ;;
  if str_in name guards then _require_write_authority (name +:+ "." +:+ method_name) else ret tt.

(** [insert_one] adds the generated [_id] to the document it is given. *)
Definition db_insert_one (name : string) (d : doc) : M (world C) doc :=
  run _guard name "insert_one" ;;
  fun w => match insert_one d (w_db w name) with
           | Some (i, c) => (Ok (setdefault "_id" i d), set_coll name c w)
           | None => (Raise (DriverError "E11000 duplicate key error"), w)
           end.

(** An insert without the [session] of the unit of work: the driver applies it
    to the database itself, whatever becomes of the open transaction. *)
Definition inserted (d : doc) (c : C) : C :=
  match insert_one d c with Some (_, c') => c' | None => c end.

Definition db_insert_one_unsessioned (name : string) (d : doc) : M (world C) doc :=
  do stored <- db_insert_one name d ;;
  run modify (add_unsessioned name (inserted stored)) ;;
  ret stored.

Definition counted (name : string) (f : C → Z * C) : M (world C) Z :=
  fun w => let '(n, c) := f (w_db w name) in (Ok n, set_coll name c w).

Definition db_update_one (name : string) (q : query) (u : update) : M (world C) Z :=
  run _guard name "update_one" ;; counted name (update_one q u).

Definition db_update_many (name : string) (q : query) (u : update) : M (world C) Z :=
  run _guard name "update_many" ;; counted name (update_many q u).

Definition db_upsert_one (name : string) (q : query) (u : update) : M (world C) Z :=
  run _guard name "update_one" ;; counted name (upsert_one q u).

Definition db_delete_one (name : string) (q : query) : M (world C) Z :=
  run _guard name "delete_one" ;; counted name (delete_one q).

Definition db_delete_many (name : string) (q : query) : M (world C) Z :=
  run _guard name "delete_many" ;; counted name (delete_many q).

(** [install_db_write_guards] puts a proxy in front of every target collection,
    once. *)
Definition install_db_write_guards (w : world C) : world C :=
  match w_guards w with
  | [] => set_guards _GUARD_TARGET_COLLECTIONS w
  | _ => w
  end.
End guard.

(** ** Any sequence of writes

    A write under an authority: what a caller inside (or outside) a
    [write_authority] block does to one collection. *)

Inductive write_op :=
| WInsert (d : doc)
| WUpdate (q : query) (u : update)
| WUpdateMany (q : query) (u : update)
| WDelete (q : query).

Record write_call := Call { c_authority : string; c_collection : string; c_op : write_op }.

Section traces.
Context {C : Type} `{Mongo C}.

Definition perform (name : string) (op : write_op) : M (world C) unit :=
  match op with
  | WInsert d => do _ <- db_insert_one name d ;; ret tt
  | WUpdate q u => do _ <- db_update_one name q u ;; ret tt
  | WUpdateMany q u => do _ <- db_update_many name q u ;; ret tt
  | WDelete q => do _ <- db_delete_one name q ;; ret tt
  end.

(** The calls one after the other; an exception ends its own call only. *)
Fixpoint perform_calls (l : list write_call) (w : world C) : world C :=
  match l with
  | [] => w
  | c :: l' => perform_calls l' (snd (write_authority (c_authority c)
                                        (perform (c_collection c) (c_op c)) w))
  end.
End traces.

(** Does the current authority cover a collection? *)
Definition covers (authority : option string) (name : string) : bool :=
  match authority with
  | Some a => str_in name (default [] (aget a AUTHORIZED_WRITE_AUTHORITIES))
  | None => false
  end.

(** The collections a service may write. *)
Definition owns (authority name : string) : bool := covers (Some (strip authority)) name.

(** ** Lemmas *)

Lemma canonical_fixed s :
  aget s LEGACY_TO_CANONICAL_STATUS = None ∨
  ∃ t, aget s LEGACY_TO_CANONICAL_STATUS = Some t ∧ t ∈ ["ACTIVE"; "REVIEW"; "FINALIZED"; "CREATED"].
Proof.
  destruct (aget s _) as [t|] eqn:E; [right | by left].
  exists t. split; [done|]. apply aget_In in E.
  simpl in E. repeat destruct E as [E | E]; simplify_eq; by apply str_in_spec.
Qed.

Section guard_lemmas.
Context {C : Type} `{Mongo C}.
Implicit Types (w : world C).

(** A write that the guard of [name] refuses. *)
Definition refused (name : string) (w : world C) : bool :=
  str_in name (w_guards w) && negb (covers (w_auth w) name).

Definition plain_name (name : string) : bool :=
  negb (String.eqb name "") && String.eqb (strip name) name &&
  str_all (fun c => negb (Ascii.eqb c "."%char)) name.

Lemma before_char_app n m :
  str_all (fun c => negb (Ascii.eqb c "."%char)) n = true →
  before_char "."%char (n +:+ "." +:+ m) = n.
Proof.
  induction n as [|c n IH]; simpl; [done|]. intros Hn. bool_hyps.
  rewrite H0. f_equal. by apply IH.
Qed.

Lemma plain_name_cases name op :
  plain_name name = true →
  strip (before_char "."%char (name +:+ "." +:+ op)) = name ∧ String.eqb name "" = false.
Proof.
  unfold plain_name. intros Hn. bool_hyps. rewrite before_char_app by done.
  split; [done | by apply String.eqb_neq].
Qed.

Lemma guard_refused name meth w :
  plain_name name = true → refused name w = true →
  ∃ msg, _guard name meth w = (Raise (GovernanceViolation msg), w).
Proof.
  intros Hn Hr. unfold refused in Hr. bool_hyps.
  unfold _guard, bind, gets. rewrite H0. unfold _require_write_authority, bind, gets.
  destruct (plain_name_cases name meth Hn) as [-> Hne].
  unfold covers in *. destruct (w_auth w) as [a|]; [|eexists; reflexivity].
  destruct (aget a AUTHORIZED_WRITE_AUTHORITIES) as [l|]; [|eexists; reflexivity].
  unfold raise_if. rewrite Hne. simpl in H1. rewrite H1. eexists; reflexivity.
Qed.

Lemma guard_allowed name meth w :
  plain_name name = true → refused name w = false → _guard name meth w = (Ok tt, w).
Proof.
  intros Hn Hr. unfold refused in Hr. unfold _guard, bind, gets.
  destruct (str_in name (w_guards w)); [|done].
  unfold _require_write_authority, bind, gets.
  destruct (plain_name_cases name meth Hn) as [-> Hne].
  unfold covers in *. destruct (w_auth w) as [a|]; [|done].
  destruct (aget a AUTHORIZED_WRITE_AUTHORITIES); [|done].
  simpl in Hr. rewrite Hr, Hne. done.
Qed.
End guard_lemmas.

(** What [assert_valid_write] checks, condition by condition. *)
Record write_permitted `{Mongo C} (has_db : bool) (context : doc) (w : world C) (session : doc) : Prop := {
  wp_db : has_db = true;
  wp_session :
    get "session" context = VDict session ∨
    (get "session" context = VNone ∧ _extract_session_id context ≠ "" ∧
     find_one (session_lookup (_extract_session_id context)) (w_db w "sessions") = Some session);
  wp_open : is_finalized_session session = false;
  wp_active :
    truthy (dget "require_active_session" (VBool true) context) = true →
    normalize_session_status (get "status" session) = "ACTIVE";
  wp_context :
    truthy (dget "require_full_context" (VBool true) context) = true → missing_fields context = [];
  wp_transition :
    truthy (get "from_state" context) = true → truthy (get "to_state" context) = true →
    transition_allowed (to_str (get "from_state" context)) (to_str (get "to_state" context)) = true;
}.

(** A chain of session statuses, each step a permitted transition. *)
Fixpoint chain (s : string) (l : list string) : Prop :=
  match l with [] => True | t :: l' => transition_allowed s t = true ∧ chain t l' end.

Lemma transition_allowed_cases s t :
  transition_allowed s t = true ↔
  (s = "CREATED" ∧ t = "ACTIVE") ∨ (s = "ACTIVE" ∧ t = "REVIEW") ∨ (s = "REVIEW" ∧ t = "FINALIZED").
Proof.
  unfold transition_allowed. split.
  - destruct (aget s SESSION_TRANSITIONS) as [l|] eqn:E; [|done]. simpl.
    apply aget_In in E. simpl in E. unfold str_in.
    repeat destruct E as [E|E]; simplify_eq; simpl; rewrite ?orb_false_r; intros;
      bool_hyps; subst; try done; tauto.
  - intros [[-> ->]|[[-> ->]|[-> ->]]]; done.
Qed.

Lemma perform_calls_app `{Mongo C} l l' (w : world C) :
  perform_calls (l ++ l') w = perform_calls l' (perform_calls l w).
Proof. revert w. induction l as [|c l IH]; intros w; simpl; [done | apply IH]. Qed.

(** A collection is changed only by writes that name it and have its authority. *)
Definition may_write (name : string) (c : write_call) : bool :=
  String.eqb (c_collection c) name && owns (c_authority c) name.

Section perform_lemmas.
Context {C : Type} `{Mongo C}.
Implicit Types (w : world C).

(** What a write does to the world when the guard lets it through, and when it
    does not. *)
Lemma perform_cases name op w :
  plain_name name = true →
  if refused name w then ∃ msg, perform name op w = (Raise (GovernanceViolation msg), w)
  else ∃ r c, perform name op w = (r, set_coll name c w) ∨ perform name op w = (r, w).
Proof.
  intros Hn. destruct (refused name w) eqn:Hr;
    destruct op as [d|q u|q u|q]; unfold perform, db_insert_one, db_update_one, db_update_many, db_delete_one;
    cbv zeta; unfold bind.
  1-4: match goal with |- context [_guard ?n ?m ?v] => destruct (guard_refused n m v) as [msg ->]; [done | done | by exists msg] end.
  all: rewrite guard_allowed by done.
  - destruct (insert_one d (w_db w name)) as [[i c]|]; [exists (Ok tt), c | exists (Raise (DriverError "E11000 duplicate key error")), (w_db w name)]; auto.
  - unfold counted. destruct (update_one q u (w_db w name)) as [n c]. exists (Ok tt), c. auto.
  - unfold counted. destruct (update_many q u (w_db w name)) as [n c]. exists (Ok tt), c. auto.
  - unfold counted. destruct (delete_one q (w_db w name)) as [n c]. exists (Ok tt), c. auto.
Qed.

Lemma call_guards c w :
  plain_name (c_collection c) = true →
  w_guards (snd (write_authority (c_authority c) (perform (c_collection c) (c_op c)) w)) = w_guards w.
Proof.
  intros Hn. unfold write_authority. set (a := if String.eqb _ _ then _ else _).
  pose proof (perform_cases (c_collection c) (c_op c) (set_auth a w) Hn) as Hp.
  destruct (refused _ _); [destruct Hp as [msg ->] | destruct Hp as (r & x & [-> | ->])]; done.
Qed.

Lemma call_unchanged c w name :
  plain_name (c_collection c) = true → name ∈ w_guards w → may_write name c = false →
  w_db (snd (write_authority (c_authority c) (perform (c_collection c) (c_op c)) w)) name = w_db w name.
Proof.
  intros Hn Hg Hw. unfold write_authority. set (a := if String.eqb _ _ then _ else _).
  pose proof (perform_cases (c_collection c) (c_op c) (set_auth a w) Hn) as Hp.
  destruct (refused _ _) eqn:Hr; [destruct Hp as [msg ->]; done|].
  destruct Hp as (r & x & [-> | ->]); [|done]. simpl.
  destruct (decide (c_collection c = name)) as [He|Hne]; [|by rewrite fn_lookup_insert_ne].
  exfalso. unfold may_write in Hw. rewrite He, String.eqb_refl in Hw. simpl in Hw.
  unfold refused in Hr. apply str_in_spec in Hg. rewrite He in Hr. cbn [w_guards w_auth set_auth] in Hr.
  rewrite Hg in Hr. subst a. destruct (String.eqb_spec (strip (c_authority c)) ""); [done|].
  fold (owns (c_authority c) name) in Hr. by rewrite Hw in Hr.
Qed.
End perform_lemmas.

Lemma load_session_spec `{Mongo C} context session (w w' : world C) :
  _load_session context w = (Ok (VDict session), w') ↔
  w' = w ∧
  (get "session" context = VDict session ∨
   (get "session" context = VNone ∧ _extract_session_id context ≠ "" ∧
    find_one (session_lookup (_extract_session_id context)) (w_db w "sessions") = Some session)).
Proof.
  unfold _load_session. destruct (get "session" context) eqn:Eg;
    try (unfold ret; split; [intros; by simplify_eq | intros [-> [|[? _]]]; congruence]).
  - split.
    + intros Hl. monad_inv. unfold db_find_one, gets in Hm0. simplify_eq.
      bool_hyps. destruct (find_one _ _) eqn:Ef; simplify_eq. auto.
    + intros [-> [|(_ & Hne & Hf)]]; [done|]. unfold bind, raise_if, db_find_one, gets.
      apply String.eqb_neq in Hne. rewrite Hne. unfold ret. by rewrite Hf.
  - unfold ret. split; [intros; simplify_eq; auto | intros [-> [|[? _]]]; congruence].
Qed.

Lemma assert_valid_transition_spec {S} a b (s s' : S) u :
  assert_valid_transition a b s = (Ok u, s') ↔ s' = s ∧ transition_allowed a b = true.
Proof.
  unfold assert_valid_transition. destruct (transition_allowed a b); simpl; destruct u;
    unfold raise_if, raise, ret; simpl; split; naive_solver.
Qed.

(** ** Properties *)

(** Canonical session statuses are fixed points: whatever value a stored
    status has (a legacy name, other case, surrounding blanks, any type),
    normalizing it twice is normalizing it once. *)
Theorem normalize_session_status_idem (v : val) :
  normalize_session_status (VStr (normalize_session_status v)) = normalize_session_status v.
Proof.
  unfold normalize_session_status at 2 3. set (raw := upper _).
  destruct (String.eqb_spec raw "") as [|Hne]; [done|].
  destruct (canonical_fixed raw) as [Hn | (t & Ht & Hin)].
  - rewrite Hn. simpl. unfold normalize_session_status.
    rewrite por_truthy by (by apply negb_true_iff, String.eqb_neq). simpl to_str.
    unfold raw. autorewrite with stock. fold raw.
    destruct (String.eqb_spec raw ""); [done|]. by rewrite Hn.
  - rewrite Ht. simpl. apply str_in_spec in Hin. unfold str_in in Hin. simpl in Hin.
    repeat (apply orb_true_iff in Hin as [Hin|Hin]; [apply String.eqb_eq in Hin; by subst|]). done.
Qed.

(** The lifecycle has one path: every chain of permitted transitions that
    leads from CREATED to FINALIZED is CREATED, ACTIVE, REVIEW, FINALIZED, and
    no transition leaves FINALIZED. *)
Theorem session_lifecycle_path (l : list string) :
  (∀ t, transition_allowed "FINALIZED" t = false) ∧
  (chain "CREATED" (l ++ ["FINALIZED"]) → l = ["ACTIVE"; "REVIEW"]).
Proof.
  split; [done|].
  assert (∀ s t l, chain s (t :: l) → transition_allowed s t = true ∧ chain t l) as Hstep by done.
  destruct l as [|a [|b [|c [|d l]]]]; cbn [app]; intros Hc;
    repeat (apply Hstep in Hc as [?%transition_allowed_cases Hc]);
    repeat match goal with H : _ ∨ _ |- _ => destruct H | H : _ ∧ _ |- _ => destruct H end;
    by simplify_eq.
Qed.

Example session_lifecycle_path_witness :
  chain "CREATED" (["ACTIVE"; "REVIEW"] ++ ["FINALIZED"]) ∧
  ["ACTIVE"; "REVIEW"] = ["ACTIVE"; "REVIEW"].
Proof.
  assert (chain "CREATED" (["ACTIVE"; "REVIEW"] ++ ["FINALIZED"])) as Hc by (vm_compute; tauto).
  split; [exact Hc|]. exact (proj2 (session_lifecycle_path _) Hc).
Defined.

Lemma valid_write_iff `{Mongo C} (has_db : bool) (context session : doc) (w w' : world C) :
  assert_valid_write has_db context w = (Ok session, w') ↔
  w' = w ∧ write_permitted has_db context w session.
Proof.
  unfold assert_valid_write. split.
  - intros Hr. monad_inv. apply negb_false_iff in H0. destruct a0 as [| | | | | | | |d]; try discriminate Hr.
    monad_inv. apply load_session_spec in Hm0 as [-> Hs].
    assert (w' = w ∧ (truthy (get "from_state" context) = true → truthy (get "to_state" context) = true →
      transition_allowed (to_str (get "from_state" context)) (to_str (get "to_state" context)) = true)) as [-> Ht].
    { apply when_ok_inv in Hm3 as [[Hb Hm3] | [Hb ->]].
      - by apply assert_valid_transition_spec in Hm3 as [-> ?].
      - split; [done|]. intros Hf Htt. by rewrite Hf, Htt in Hb. }
    split; [done|]. split; try done.
    + intros Ha. rewrite Ha in H2. simpl in H2. bool_hyps. done.
    + intros Ha. rewrite Ha in H1. simpl in H1. by destruct (missing_fields context).
  - intros [-> [-> Hs Ho Ha Hc Ht]]. unfold bind at 1. simpl.
    erewrite bind_ok by (apply load_session_spec; eauto). unfold bind, raise_if. rewrite Ho.
    assert ((truthy (dget "require_active_session" (VBool true) context)
       && negb (String.eqb (normalize_session_status (get "status" session)) "ACTIVE")) = false) as ->.
    { destruct (truthy (dget "require_active_session" _ _)); [|done]. by rewrite Ha. }
    assert ((truthy (dget "require_full_context" (VBool true) context)
       && match missing_fields context with [] => false | _ => true end) = false) as ->.
    { destruct (truthy (dget "require_full_context" _ _)); [|done]. by rewrite Hc. }
    unfold ret, when. destruct (truthy (get "from_state" context)) eqn:Ef; [|done].
    destruct (truthy (get "to_state" context)) eqn:Et; [|done]. simpl.
    unfold assert_valid_transition. by rewrite Ht.
Qed.

(** A write check accepts exactly the writes whose session exists, is
    neither finalized nor (when required) inactive, whose context names a
    location, a floor and a rack (when required) and whose status change is
    permitted; it returns that session and changes nothing. *)
Theorem assert_valid_write_spec `{Mongo C} (has_db : bool) (context session : doc) (w w' : world C) :
  assert_valid_write has_db context w = (Ok session, w') ↔
  w' = w ∧ write_permitted has_db context w session.
Proof. apply valid_write_iff. Qed.

(** C36: no write reaches a guarded collection without its authority: after any
    sequence of insert, update and delete calls, made under any authorities and
    including refused ones, a guarded collection that no call both names and
    owns is exactly what it was. *)
Theorem guarded_collection_unchanged `{Mongo C} (calls : list write_call) (name : string) (w : world C) :
  name ∈ w_guards w →
  (∀ c, c ∈ calls → plain_name (c_collection c) = true ∧ may_write name c = false) →
  w_db (perform_calls calls w) name = w_db w name.
Proof.
  revert w. induction calls as [|c calls IH]; intros w Hg Hc; [done|]. simpl.
  destruct (Hc c ltac:(left)) as [Hn Hm]. rewrite IH.
  - by apply call_unchanged.
  - by rewrite call_guards.
  - intros c' Hc'. apply Hc. by right.
Qed.

Example guarded_collection_unchanged_witness :
  let w := install_db_write_guards (mkworld [("sessions", [[("id", VStr "S1")]])]) in
  w_db (perform_calls [Call "" "sessions" (WDelete (QAnd []));
                       Call "CountLineWriteService" "sessions" (WUpdate (QAnd []) (USet [("id", VNone)]));
                       Call "SessionLifecycleService" "recount_requests" (WInsert [("id", VStr "R1")])] w)
       "sessions" = [[("id", VStr "S1")]].
Proof.
  intros w. rewrite (guarded_collection_unchanged _ "sessions" w).
  - vm_compute. reflexivity.
  - apply str_in_spec. vm_compute. reflexivity.
  - intros c Hc. repeat (apply elem_of_cons in Hc as [-> | Hc]; [split; vm_compute; reflexivity|]).
    by apply elem_of_nil in Hc.
Defined.
