(* ===== verification/Inventory.v ===== *)
(** Canonical inventory helpers, [services/canonical_inventory.py]: the
    normalized statuses of sessions and count lines, which lines count as
    reviewed, locked, superseded or blocking, the effective state that reads
    project, and the duplicate checks.

    An optional count line or session is a document, [[]] standing for both
    [None] and the empty dict (every function treats them alike).  Numeric
    fields are BSON numbers, whose integers fit a float. *)

From S2P Require Import Prelude PyFloat Py Store ListStore Guard.

Local Open Scope Z_scope.
Local Open Scope stock_scope.

(** ** Status sets *)

Definition ACTIVE_SESSION_STATUSES : list string := ["OPEN"; "ACTIVE"; "PAUSED"; "RECONCILE"].
Definition FINALIZED_SESSION_STATUSES : list string := ["COMPLETED"; "CLOSED"; "CANCELLED"].
Definition LOCKED_COUNT_LINE_STATUSES : list string := ["locked"].
Definition APPROVED_COUNT_LINE_STATUSES : list string := ["approved"; "locked"].
Definition BLOCKING_APPROVAL_STATUSES : list string := ["NEEDS_REVIEW"; "REJECTED"].
Definition BLOCKING_COUNT_LINE_STATUSES : list string := ["rejected"].
Definition SUPERSEDED_COUNT_LINE_STATUSES : list string := ["superseded"].

(** ** Normalization *)

Definition normalize_location_value (value : val) : option string :=
  match value with
  | VNone => None
  | _ => let normalized := strip (to_str value) in
         if String.eqb normalized "" then None else Some normalized
  end.

(** Sessions: [Guard.normalize_session_status] is another function of the
    same name, in the guard's module. *)
Definition normalize_status (value reconciled_at : val) : string :=
  match value with
  | VStr s =>
      if String.eqb (strip s) "" then "UNKNOWN"
      else
        let n0 := upper (strip s) in
        let n1 := if String.eqb n0 "IN_PROGRESS" then "ACTIVE" else n0 in
        let n2 := if String.eqb n1 "RECONCILING" then "RECONCILE" else n1 in
        if String.eqb n2 "ACTIVE" && truthy reconciled_at then "RECONCILE" else n2
  | _ => "UNKNOWN"
  end.

Definition normalize_count_line_status (value : val) : string :=
  match value with
  | VStr s => if String.eqb (strip s) "" then "pending" else lower (strip s)
  | _ => "pending"
  end.

Definition normalize_approval_status (value : val) : string :=
  match value with
  | VStr s => if String.eqb (strip s) "" then "PENDING" else upper (strip s)
  | _ => "PENDING"
  end.

(** ** Review state of a count line *)

Definition is_empty (d : doc) : bool := match d with [] => true | _ => false end.

Definition requires_supervisor_review_for_variance (variance : val) : bool :=
  match to_float (por variance (VFloat f0)) with
  | Ok f => fgt (fabs f) f0
  | Raise _ => false
  end.

Definition count_line_requires_supervisor_review (count_line : doc) : bool :=
  if is_empty count_line then false
  else requires_supervisor_review_for_variance (get "variance" count_line).

Definition line_status (d : doc) : string := normalize_count_line_status (get "status" d).
Definition line_approval (d : doc) : string := normalize_approval_status (get "approval_status" d).
Definition recount_open (d : doc) : bool :=
  truthy (get "assigned_to" d) && truthy (get "recount_requested_at" d).

Definition is_count_line_effectively_reviewed (count_line : doc) : bool :=
  if is_empty count_line then false
  else if truthy (get "verified" count_line)
          || str_in (line_status count_line) APPROVED_COUNT_LINE_STATUSES then true
  else if str_in (line_approval count_line) BLOCKING_APPROVAL_STATUSES then false
  else if recount_open count_line then false
  else negb (count_line_requires_supervisor_review count_line)
       && negb (String.eqb (line_status count_line) "rejected").

Definition get_effective_count_line_status (count_line : doc) : string :=
  if is_empty count_line then "pending"
  else
    let status := line_status count_line in
    if str_in status ["rejected"; "locked"; "approved"] then status
    else if is_count_line_effectively_reviewed count_line then "approved"
    else status.

Definition get_effective_approval_status (count_line : doc) : string :=
  if is_empty count_line then "PENDING"
  else
    let approval_status := line_approval count_line in
    if str_in approval_status ["REJECTED"; "APPROVED"] then approval_status
    else if is_count_line_effectively_reviewed count_line then "APPROVED"
    else approval_status.

Definition materialize_count_line_review_state (count_line : doc) : doc :=
  aset "approval_status" (VStr (get_effective_approval_status count_line))
    (aset "status" (VStr (get_effective_count_line_status count_line)) count_line).

(** ** Sessions and lookups *)

Definition build_session_lookup (session_id : string) : query :=
  QOr [QEq "id" (VStr session_id); QEq "session_id" (VStr session_id)].

Definition extract_document_id (document : doc) : option string :=
  match por (get "id" document) (get "_id" document) with
  | VNone => None
  | v => Some (to_str v)
  end.

Definition is_session_finalized (session : doc) : bool :=
  if is_empty session then false
  else if truthy (get "finalized_at" session) then true
  else str_in (normalize_status (get "status" session) (get "reconciled_at" session))
         FINALIZED_SESSION_STATUSES.

Definition is_count_line_locked (count_line : doc) : bool :=
  if is_empty count_line then false
  else if truthy (get "finalized_at" count_line) then true
  else str_in (line_status count_line) LOCKED_COUNT_LINE_STATUSES.

Definition is_superseded_count_line (count_line : doc) : bool :=
  if is_empty count_line then false
  else if str_in (line_status count_line) SUPERSEDED_COUNT_LINE_STATUSES then true
  else if truthy (get "superseded_by_version_id" count_line) then true
  else truthy (get "superseded_at" count_line).

(** ** Duplicates and recounts *)

Definition build_count_line_duplicate_filter (line_data : doc) : query :=
  QAnd [QEq "session_id" (VStr (to_str (por (get "session_id" line_data) (VStr ""))));
        QEq "item_code" (VStr (to_str (por (get "item_code" line_data) (VStr ""))));
        QEq "floor_no" (opt_str (normalize_location_value (get "floor_no" line_data)));
        QEq "rack_no" (opt_str (normalize_location_value (get "rack_no" line_data)))].

Definition is_explicit_recount (line_data : doc) : bool :=
  if truthy (get "recount_of_id" line_data) then true
  else
    match get "recount_mode" line_data with
    | VStr s => if String.eqb (upper (strip s)) "RECOUNT" then true else truthy (get "recount" line_data)
    | _ => truthy (get "recount" line_data)
    end.

(** [exclude_id and existing_id == exclude_id] *)
Definition excluded (exclude_id : option string) (existing_id : option string) : bool :=
  match exclude_id with
  | Some e => negb (String.eqb e "") && match existing_id with Some i => String.eqb i e | None => false end
  | None => false
  end.

(** The first document of a cursor that is not skipped. *)
Fixpoint first_kept (skip : doc → bool) (cursor : list doc) : option doc :=
  match cursor with
  | [] => None
  | d :: l => if skip d then first_kept skip l else Some d
  end.

Section queries.
Context {C : Type} `{Mongo C}.

Definition find_session (session_id : string) : M (world C) (option doc) :=
  db_find_one "sessions" (build_session_lookup session_id).

Definition find_duplicate_count_line (line_data : doc) (exclude_id : option string)
  : M (world C) (option doc) :=
  do cursor <- db_find "count_lines" (build_count_line_duplicate_filter line_data) ;;
  ret (first_kept (fun existing => excluded exclude_id (extract_document_id existing)
                                   || is_superseded_count_line existing) cursor).

Definition get_session_count_lines (session_id : string) (include_superseded : bool)
  : M (world C) (list doc) :=
  do cursor <- db_find "count_lines" (QEq "session_id" (VStr session_id)) ;;
  ret (List.filter (fun line => include_superseded || negb (is_superseded_count_line line)) cursor).

Definition build_count_observation_duplicate_filter (observation : doc) : outcome query :=
  match to_float (por (get "counted_qty" observation) (VInt 0)) with
  | Raise e => Raise e
  | Ok counted_qty =>
      Ok (QAnd [QEq "session_id" (VStr (to_str (por (get "session_id" observation) (VStr ""))));
                QEq "item_code" (VStr (to_str (por (get "item_code" observation) (VStr ""))));
                QEq "counted_qty" (VFloat counted_qty);
                QEq "is_recount" (VBool (truthy (por (get "is_recount" observation) (VBool false))));
                QEq "recount_of_id" (get "recount_of_id" observation)])
  end.

(** [find(...).limit(1)] yields at most one of the matching observations. *)
Definition find_duplicate_count_observation (observation : doc) (exclude_id : option string)
  : M (world C) (option doc) :=
  do duplicate_filter <- lift (build_count_observation_duplicate_filter observation) ;;
  do cursor <- db_find_one "count_observations" duplicate_filter ;;
  ret (first_kept (fun existing =>
         excluded exclude_id (Some (to_str (por (get "id" existing) (VStr ""))))
         || str_in (upper (to_str (por (get "status" existing) (VStr ""))))
              ["SUPERSEDED"; "REJECTED"; "CANCELLED"])
       (match cursor with Some d => [d] | None => [] end)).
End queries.

Definition can_reuse_rejected_count_line (existing line_data : doc) : bool :=
  if is_empty existing || negb (is_explicit_recount line_data) then false
  else
    let recount_of_id := get "recount_of_id" line_data in
    if truthy recount_of_id
       && negb (match extract_document_id existing with
                | Some i => String.eqb i (to_str recount_of_id)
                | None => false
                end) then false
    else str_in (line_status existing) BLOCKING_COUNT_LINE_STATUSES.

Definition is_blocking_finalization (count_line : doc) : bool :=
  if is_superseded_count_line count_line then false
  else if is_count_line_locked count_line then false
  else if str_in (line_status count_line) BLOCKING_COUNT_LINE_STATUSES then true
  else if recount_open count_line then true
  else if str_in (line_approval count_line) BLOCKING_APPROVAL_STATUSES then true
  else if negb (count_line_requires_supervisor_review count_line) then false
  else if String.eqb (line_approval count_line) "APPROVED" then false
  else true.

(** ** Lemmas *)

Lemma normalize_count_line_status_idem v :
  normalize_count_line_status (VStr (normalize_count_line_status v)) = normalize_count_line_status v.
Proof.
  unfold normalize_count_line_status at 2 3. destruct v; try done.
  destruct (String.eqb (strip s) "") eqn:E; [done|]. unfold normalize_count_line_status.
  rewrite strip_lower, strip_idem, lower_idem. by destruct (strip s).
Qed.

Lemma normalize_approval_status_idem v :
  normalize_approval_status (VStr (normalize_approval_status v)) = normalize_approval_status v.
Proof.
  unfold normalize_approval_status at 2 3. destruct v; try done.
  destruct (String.eqb (strip s) "") eqn:E; [done|]. unfold normalize_approval_status.
  rewrite strip_upper, strip_idem, upper_idem. by destruct (strip s).
Qed.

(** What the projected document shows of the fields the review state reads. *)
Lemma get_materialize k d :
  get k (materialize_count_line_review_state d) =
  if String.eqb "approval_status" k then VStr (get_effective_approval_status d)
  else if String.eqb "status" k then VStr (get_effective_count_line_status d)
  else get k d.
Proof. unfold materialize_count_line_review_state. by rewrite !get_aset. Qed.

Lemma aset_nonempty k v (d : doc) : is_empty (aset k v d) = false.
Proof. destruct d as [|[k' v'] d]; simpl; [done|]. by destruct (String.eqb k k'). Qed.

Lemma materialize_nonempty d : is_empty (materialize_count_line_review_state d) = false.
Proof. apply aset_nonempty. Qed.

(** The effective status is stable and keeps what "reviewed" depends on. *)
Lemma line_status_materialize d :
  line_status (materialize_count_line_review_state d) = get_effective_count_line_status d.
Proof.
  unfold line_status. rewrite get_materialize. simpl.
  unfold get_effective_count_line_status. destruct (is_empty d); [done|].
  destruct (str_in _ _); [apply normalize_count_line_status_idem|].
  destruct (is_count_line_effectively_reviewed d); [done | apply normalize_count_line_status_idem].
Qed.

Lemma line_approval_materialize d :
  line_approval (materialize_count_line_review_state d) = get_effective_approval_status d.
Proof.
  unfold line_approval. rewrite get_materialize. simpl.
  unfold get_effective_approval_status. destruct (is_empty d); [done|].
  destruct (str_in _ _); [apply normalize_approval_status_idem|].
  destruct (is_count_line_effectively_reviewed d); [done | apply normalize_approval_status_idem].
Qed.

Lemma reviewed_unfold d :
  is_empty d = false →
  is_count_line_effectively_reviewed d =
    (truthy (get "verified" d) || str_in (line_status d) APPROVED_COUNT_LINE_STATUSES) ||
    (negb (str_in (line_approval d) BLOCKING_APPROVAL_STATUSES) && negb (recount_open d) &&
     negb (requires_supervisor_review_for_variance (get "variance" d)) &&
     negb (String.eqb (line_status d) "rejected")).
Proof.
  intros He. unfold is_count_line_effectively_reviewed, count_line_requires_supervisor_review.
  rewrite He. destruct (truthy _ || str_in _ _); [done|].
  by destruct (str_in _ _), (recount_open d), (requires_supervisor_review_for_variance _).
Qed.

Lemma reviewed_materialize d :
  is_empty d = false →
  is_count_line_effectively_reviewed (materialize_count_line_review_state d)
    = is_count_line_effectively_reviewed d.
Proof.
  intros He. rewrite reviewed_unfold by apply materialize_nonempty.
  rewrite line_status_materialize, line_approval_materialize. unfold recount_open.
  rewrite !get_materialize. cbn [String.eqb Ascii.eqb Bool.eqb]. fold (recount_open d).
  unfold get_effective_approval_status, get_effective_count_line_status. rewrite He.
  destruct (is_count_line_effectively_reviewed d) eqn:Er; rewrite reviewed_unfold in Er by done.
  - apply orb_true_iff in Er as [Er | Er].
    + apply orb_true_iff in Er as [-> | Er]; [done|].
      destruct (str_in (line_status d) ["rejected"; "locked"; "approved"]);
        [rewrite Er | ]; by rewrite orb_true_r.
    + bool_hyps. rewrite H1, H2. simpl.
      unfold str_in in *. simpl in *. rewrite !orb_false_r in *. bool_hyps.
      destruct (String.eqb (line_status d) "rejected") eqn:E1; [by apply String.eqb_eq in E1|].
      destruct (String.eqb (line_status d) "locked") eqn:E2; simpl; [by rewrite E2, !orb_true_r|].
      destruct (String.eqb (line_status d) "approved") eqn:E3; simpl; [by rewrite E3, !orb_true_r|].
      by rewrite !orb_true_r.
  - destruct (str_in (line_status d) ["rejected"; "locked"; "approved"]),
      (str_in (line_approval d) ["REJECTED"; "APPROVED"]); exact Er.
Qed.

(** [first_kept] returns a document of the cursor that is not skipped, and
    [None] only when every one is. *)
Lemma first_kept_spec skip l :
  match first_kept skip l with
  | Some d => d ∈ l ∧ skip d = false
  | None => ∀ d, d ∈ l → skip d = true
  end.
Proof.
  induction l as [|d l IH]; simpl; [by intros d ?%elem_of_nil|].
  destruct (skip d) eqn:E; [|split; [left | done]].
  destruct (first_kept skip l).
  - destruct IH. split; [by right | done].
  - intros d' [->|?]%elem_of_cons; auto.
Qed.

Lemma upper_strip_por s : truthy (VStr s) = true → to_str (por (VStr s) (VStr "")) = s.
Proof. intros Ht. by rewrite por_truthy. Qed.

Lemma strip_nonempty s : String.eqb (strip s) "" = false → truthy (VStr s) = true.
Proof. by destruct s. Qed.

Lemma upper_nonempty s : String.eqb s "" = false → String.eqb (upper s) "" = false.
Proof. by destruct s. Qed.

(** ** Properties *)

(** Reading a count line through the review projection twice is reading it
    once: the effective status and approval status are stable, and the
    projected line is reviewed exactly when the line is. *)
Theorem materialize_review_state_idem (d : doc) :
  is_empty d = false →
  materialize_count_line_review_state (materialize_count_line_review_state d)
    = materialize_count_line_review_state d ∧
  is_count_line_effectively_reviewed (materialize_count_line_review_state d)
    = is_count_line_effectively_reviewed d.
Proof.
  intros He. pose proof (reviewed_materialize d He) as Hr. split; [|done].
  set (m := materialize_count_line_review_state d) in *.
  assert (get_effective_count_line_status m = get_effective_count_line_status d) as Hs.
  { unfold get_effective_count_line_status at 1. subst m. rewrite materialize_nonempty, Hr.
    rewrite line_status_materialize. unfold get_effective_count_line_status. rewrite He.
    destruct (str_in (line_status d) _) eqn:E; [by rewrite E|].
    destruct (is_count_line_effectively_reviewed d); [done | by rewrite E]. }
  assert (get_effective_approval_status m = get_effective_approval_status d) as Ha.
  { unfold get_effective_approval_status at 1. subst m. rewrite materialize_nonempty, Hr.
    rewrite line_approval_materialize. unfold get_effective_approval_status. rewrite He.
    destruct (str_in (line_approval d) _) eqn:E; [by rewrite E|].
    destruct (is_count_line_effectively_reviewed d); [done | by rewrite E]. }
  unfold materialize_count_line_review_state at 1. rewrite Hs, Ha.
  assert (aget "status" m = Some (VStr (get_effective_count_line_status d))) as H1.
  { subst m. unfold materialize_count_line_review_state.
    rewrite aget_aset_ne by done. apply aget_aset_eq. }
  rewrite (aset_same _ _ _ H1). apply aset_same, aget_aset_eq.
Qed.

Example materialize_review_state_idem_witness :
  let d := [("status", VStr " Pending "); ("variance", VFloat f0); ("verified", VBool false)] in
  materialize_count_line_review_state (materialize_count_line_review_state d)
    = materialize_count_line_review_state d.
Proof. intros d. exact (proj1 (materialize_review_state_idem d eq_refl)). Defined.

(** Finalization never passes over an unreviewed line: a live count line
    (neither superseded nor locked) that does not block finalization is
    effectively reviewed or carries an explicit approval, and it has no open
    recount and no rejected or pending-review state. *)
Theorem nonblocking_line_reviewed (d : doc) :
  is_empty d = false → is_superseded_count_line d = false → is_count_line_locked d = false →
  is_blocking_finalization d = false →
  (is_count_line_effectively_reviewed d = true ∨ line_approval d = "APPROVED") ∧
  recount_open d = false ∧ line_status d ≠ "rejected" ∧
  line_approval d ≠ "REJECTED" ∧ line_approval d ≠ "NEEDS_REVIEW".
Proof.
  intros He Hs Hl. unfold is_blocking_finalization. rewrite Hs, Hl.
  destruct (str_in (line_status d) BLOCKING_COUNT_LINE_STATUSES) eqn:E1; [done|].
  destruct (recount_open d) eqn:E2; [done|].
  destruct (str_in (line_approval d) BLOCKING_APPROVAL_STATUSES) eqn:E3; [done|].
  intros Hb. rewrite reviewed_unfold, E2, E3 by done.
  unfold count_line_requires_supervisor_review in Hb. rewrite He in Hb.
  unfold str_in in E1, E3. simpl in E1, E3. rewrite ?orb_false_r in E1. bool_hyps.
  split_and!; try congruence.
  destruct (requires_supervisor_review_for_variance _); simpl in Hb.
  - right. destruct (String.eqb (line_approval d) "APPROVED") eqn:E; [by bool_hyps | done].
  - left. apply String.eqb_neq in E1. rewrite E1. by rewrite orb_true_r.
Qed.

Example nonblocking_line_reviewed_witness :
  is_count_line_effectively_reviewed [("status", VStr "pending"); ("variance", VInt 0)] = true ∨
  line_approval [("status", VStr "pending"); ("variance", VInt 0)] = "APPROVED".
Proof.
  exact (proj1 (nonblocking_line_reviewed [("status", VStr "pending"); ("variance", VInt 0)]
    ltac:(vm_compute; reflexivity) ltac:(vm_compute; reflexivity)
    ltac:(vm_compute; reflexivity) ltac:(vm_compute; reflexivity))).
Defined.

(** A session the inventory helpers call finalized is one whose mutation the
    write guard blocks, whatever form its status has. *)
Theorem inventory_finalized_guarded (session : doc) :
  is_session_finalized session = true → is_finalized_session session = true.
Proof.
  unfold is_session_finalized, is_finalized_session.
  destruct (is_empty session); [done|]. destruct (truthy (get "finalized_at" session)); [done|].
  unfold normalize_status. destruct (get "status" session) as [| | | |s| | | |]; try done.
  destruct (String.eqb (strip s) "") eqn:Es; [done|]. simpl.
  unfold normalize_session_status. rewrite upper_strip_por by (by apply strip_nonempty).
  replace (upper (strip s)) with (upper (strip s)) by done. set (r := upper (strip s)).
  intros Hin. assert (str_in r FINALIZED_SESSION_STATUSES = true) as Hr.
  { destruct (String.eqb r "IN_PROGRESS") eqn:E1; [by destruct (truthy _) in Hin|].
    destruct (String.eqb r "RECONCILING") eqn:E2; [done|].
    by destruct (String.eqb r "ACTIVE" && truthy (get "reconciled_at" session)). }
  unfold str_in in Hr. simpl in Hr.
  repeat (apply orb_true_iff in Hr as [Hr|Hr]; [apply String.eqb_eq in Hr; by rewrite Hr|]). done.
Qed.

Example inventory_finalized_guarded_witness :
  is_finalized_session [("status", VStr " closed")] = true.
Proof. exact (inventory_finalized_guarded [("status", VStr " closed")] ltac:(vm_compute; reflexivity)). Defined.

(** The converse fails: the canonical status FINALIZED itself is not one of the
    finalized statuses of the inventory helpers. *)
Lemma guard_finalized_not_inventory :
  is_finalized_session [("status", VStr "FINALIZED")] = true ∧
  is_session_finalized [("status", VStr "FINALIZED")] = false.
Proof. split; reflexivity. Qed.

(** The duplicate check of count lines is exact: it returns a stored line
    that matches the duplicate filter, is not superseded and is not the excluded
    one, and it returns nothing only when no such line is stored. *)
Theorem find_duplicate_count_line_spec `{MongoLaws C} (line_data : doc) (exclude_id : option string)
    (w : world C) :
  let live d := d ∈ contents (w_db w "count_lines")
                ∧ matches (build_count_line_duplicate_filter line_data) d = true
                ∧ is_superseded_count_line d = false
                ∧ excluded exclude_id (extract_document_id d) = false in
  match find_duplicate_count_line line_data exclude_id w with
  | (Ok (Some d), w') => live d ∧ w' = w
  | (Ok None, w') => (∀ d, ¬ live d) ∧ w' = w
  | (Raise _, _) => False
  end.
Proof.
  cbv zeta. unfold find_duplicate_count_line, bind, db_find, gets, ret.
  set (q := build_count_line_duplicate_filter line_data). set (skip := fun existing => _).
  pose proof (first_kept_spec skip (find_all q (w_db w "count_lines"))) as Hk.
  destruct (first_kept _ _) as [d|].
  - destruct Hk as [[Hd Hm]%find_all_in Hs]. unfold skip in Hs. bool_hyps. done.
  - split; [|done]. intros d (Hd & Hm & Hs & He).
    specialize (Hk d ltac:(by apply find_all_in)). unfold skip in Hk. by rewrite Hs, He in Hk.
Qed.

(** The observation check reads one matching document only, so a superseded
    observation hides a live duplicate behind it. *)
Lemma observation_duplicate_hidden :
  let obs s := [("id", VStr s); ("session_id", VStr "S"); ("item_code", VStr "I");
                ("counted_qty", VFloat f0); ("is_recount", VBool false); ("status", VStr s)] in
  let w := mkworld [("count_observations", [obs "SUPERSEDED"; obs "PENDING"])] in
  fst (find_duplicate_count_observation (obs "new") None w) = Ok None ∧
  fst (find_duplicate_count_observation (obs "new") None
         (mkworld [("count_observations", [obs "PENDING"])])) = Ok (Some (obs "PENDING")).
Proof. split; vm_compute; reflexivity. Qed.

Example find_duplicate_count_line_spec_witness :
  let line s := [("id", VStr s); ("session_id", VStr "S"); ("item_code", VStr "I"); ("status", VStr s)] in
  let w := mkworld [("count_lines", [line "superseded"; line "pending"])] in
  is_superseded_count_line (line "pending") = false.
Proof.
  intros line w. pose proof (find_duplicate_count_line_spec (line "new") None w) as Hs.
  cbv zeta in Hs.
  assert (find_duplicate_count_line (line "new") None w = (Ok (Some (line "pending")), w)) as E by (vm_compute; reflexivity).
  rewrite E in Hs. exact (proj1 (proj2 (proj2 (proj1 Hs)))).
Defined.
