(* ===== verification/Uow.v ===== *)
(** The unit of work, [core/uow.py]: whether a deployment supports
    transactions, the [async with] protocol of [MongoUnitOfWork], and what it
    makes of the writes of its body.

    The client and its sessions belong to the driver: [client] records the
    answers the code asks for.  A driver transaction buffers its writes, commits
    them together and discards them on abort, as documented. *)

From S2P Require Import Prelude PyFloat Py Store.

Local Open Scope Z_scope.
Local Open Scope stock_scope.

(** A failure of [start_transaction]. *)
Record failure := Failure { f_operation : bool; f_code : option Z; f_message : string }.

(** The reply to [admin.command("hello")]. *)
Inductive hello_reply :=
| HelloRaises
| HelloReply (v : val).

(** What [session.start_transaction()] does. *)
Inductive start_reply :=
| NoTransactionApi
| Started
| StartFails (f : failure).

Record client := Client {
  cl_start_session : bool;            (* the client has [start_session] *)
  cl_hello : option hello_reply;      (* [None]: no [admin.command] *)
  cl_start : start_reply;
}.

Definition _client_supports_transactions (cl : client) : bool :=
  match cl_hello cl with
  | None | Some HelloRaises => true
  | Some (HelloReply (VDict hello)) =>
      if py_eqb (get "msg" hello) (VStr "isdbgrid") then true
      else truthy (get "setName" hello)
  | Some (HelloReply _) => true
  end.

(** Does [needle] occur in [s]? *)
Fixpoint contains (needle s : string) : bool :=
  startswith needle s || match s with EmptyString => false | String _ s' => contains needle s' end.

Definition _transaction_not_supported (f : failure) : bool :=
  (f_operation f && match f_code f with Some c => c =? 20 | None => false end)
  || contains "Transaction numbers are only allowed on a replica set member or mongos" (f_message f).

(** The state of the unit of work between [__aenter__] and [__aexit__]. *)
Record uow := Uow { u_session : bool; u_in_transaction : bool; u_committed : bool }.

Definition __aenter__ (cl : client) : outcome uow :=
  if negb (cl_start_session cl) then Ok (Uow false false false)
  else if negb (_client_supports_transactions cl) then Ok (Uow false false false)
  else
    match cl_start cl with
    | NoTransactionApi => Ok (Uow true false false)
    | Started => Ok (Uow true true false)
    | StartFails f =>
        if _transaction_not_supported f then Ok (Uow false false false)
        else Raise (DriverError (f_message f))
    end.

(** [commit_transaction]: the buffered writes become those of the database. *)
Definition commit (u : uow) : uow :=
  if u_session u && u_in_transaction u then Uow (u_session u) false true else u.

Section uow_run.
Context {C : Type}.
Implicit Types (w : world C).

(** The writes issued without the session since [w0], latest first, and their
    effect on a database. *)
Definition unsessioned_since (w0 w : world C) : list (string * (C → C)) :=
  take (length (w_unsessioned w) - length (w_unsessioned w0)) (w_unsessioned w).

Fixpoint replay (l : list (string * (C → C))) (db : string → C) : string → C :=
  match l with
  | [] => db
  | (name, f) :: l => let db := replay l db in <[name := f (db name)]> db
  end.

(** [abort_transaction]: the database is the one [w0] of the start of the
    transaction with the writes that were not part of it. *)
Definition rollback (w0 w : world C) : world C :=
  set_db (replay (unsessioned_since w0 w) (w_db w0)) w.

Definition __aexit__ (u : uow) (w0 w : world C) : world C :=
  if u_session u && u_in_transaction u && negb (u_committed u) then rollback w0 w else w.

(** [async with MongoUnitOfWork(client) as uow: res = body(uow.session); await
    uow.commit(); return res]. *)
Definition with_uow {A} (cl : client) (body : bool → M (world C) A) : M (world C) A :=
  fun w0 =>
    match __aenter__ cl with
    | Raise e => (Raise e, w0)
    | Ok u =>
        match body (u_session u) w0 with
        | (Raise e, w) => (Raise e, __aexit__ u w0 w)
        | (Ok a, w) => (Ok a, __aexit__ (commit u) w0 w)
        end
    end.
End uow_run.

(** A deployment whose unit of work is a transaction. *)
Definition transactional (cl : client) : Prop := __aenter__ cl = Ok (Uow true true false).

Definition replica_client : client :=
  Client true (Some (HelloReply (VDict [("setName", VStr "rs0")]))) Started.

(** A deployment without transactions. *)
Definition standalone_client : client := Client true (Some (HelloReply (VDict []))) Started.

(** ** Lemmas *)

Section uow_lemmas.
Context {C A : Type}.
Implicit Types (w : world C) (body : bool → M (world C) A).

Lemma with_uow_ok_inv cl body w a w' :
  with_uow cl body w = (Ok a, w') → ∃ b, body b w = (Ok a, w').
Proof.
  unfold with_uow. destruct (__aenter__ cl) as [u|]; [|done].
  destruct (body (u_session u) w) as [[b|e] w1] eqn:E; intros Hw; [|done].
  exists (u_session u). rewrite E. unfold __aexit__, commit in Hw.
  destruct u as [[] [] []]; simpl in Hw; by simplify_eq.
Qed.
End uow_lemmas.

(** *** The writes outside the session *)

Section unsessioned.
Context {C : Type}.
Implicit Types (w : world C) (P Q : string → Prop).

(** From [w] to [w'] only collections of [P] were written without the session. *)
Definition unsessioned_in P w w' : Prop :=
  ∃ l, w_unsessioned w' = l ++ w_unsessioned w ∧ Forall (fun nf => P (fst nf)) l.

Lemma unsessioned_same P w w' : w_unsessioned w' = w_unsessioned w → unsessioned_in P w w'.
Proof. intros Hw. by exists []. Qed.

Lemma unsessioned_trans P w1 w2 w3 :
  unsessioned_in P w1 w2 → unsessioned_in P w2 w3 → unsessioned_in P w1 w3.
Proof.
  intros (l1 & H1 & Hl1) (l2 & H2 & Hl2). exists (l2 ++ l1).
  split; [by rewrite H2, H1, app_assoc | by apply Forall_app].
Qed.

Lemma unsessioned_weaken P Q w w' : (∀ n, P n → Q n) → unsessioned_in P w w' → unsessioned_in Q w w'.
Proof. intros HPQ (l & Hw & Hl). exists l. split; [done|]. revert Hl. apply Forall_impl. intros ?. apply HPQ. Qed.

Lemma unsessioned_since_app l w w' : w_unsessioned w' = l ++ w_unsessioned w → unsessioned_since w w' = l.
Proof.
  intros Hw. unfold unsessioned_since. rewrite Hw, length_app. apply take_app_length'. lia.
Qed.

Lemma replay_other P l (db : string → C) n : Forall (fun nf => P (fst nf)) l → ¬ P n → replay l db n = db n.
Proof.
  intros Hl Hn. induction Hl as [|[m f] l Hm Hl IH]; [done|]. cbn [replay].
  rewrite fn_lookup_insert_ne; [done|]. intros ->. by apply Hn.
Qed.

(** A rollback restores what was written in the session only. *)
Lemma rollback_restores P w w' n : unsessioned_in P w w' → ¬ P n → w_db (rollback w w') n = w_db w n.
Proof.
  intros (l & Hw & Hl) Hn. unfold rollback. cbn [w_db set_db].
  rewrite (unsessioned_since_app l) by done. by apply (replay_other P).
Qed.
End unsessioned.
