(* ===== verification/Frame.v ===== *)
(** Frames: which collections a computation may change.  Each primitive has a
    frame lemma in the hint database [frame], and the frame of a handler is
    found by composition. *)

From S2P Require Import Prelude PyFloat Py Store Guard Uow.

Local Open Scope stock_scope.

Create HintDb frame.

Section frame.
Context {C : Type}.
Implicit Types (w : world C) (P : list string).

(** The collections the services write without passing the session of the
    transaction: [ValidationService.log_violation] and
    [VarianceService._get_default_config]. *)
Definition outside_session : list string := ["validation_logs"; "variance_threshold_configs"].

Definition unsessioned_of P (n : string) : Prop := n ∈ P ∧ str_in n outside_session = true.

(** [m] changes at most the collections of [P], those of [outside_session]
    alone without the session of the transaction, and restores the request
    state, however it ends. *)
Definition frame {A} P (m : M (world C) A) : Prop :=
  ∀ w r w', m w = (r, w') →
    (∀ n, n ∉ P → w_db w' n = w_db w n) ∧ unsessioned_in (unsessioned_of P) w w' ∧
    w_auth w' = w_auth w ∧ w_guards w' = w_guards w.

Lemma frame_db {A} P (m : M (world C) A) w r w' n :
  frame P m → m w = (r, w') → str_in n P = false → w_db w' n = w_db w n.
Proof. intros Hf Hm Hn%str_in_false. by apply (Hf _ _ _ Hm). Qed.

Lemma frame_weaken {A} P Q (m : M (world C) A) : frame P m → P ⊆ Q → frame Q m.
Proof.
  intros Hf HPQ w r w' Hm. destruct (Hf _ _ _ Hm) as (Hd & Hu & Ha & Hg).
  split_and!; try done; [intros n Hn; apply Hd; intros Hp; by apply Hn, HPQ|].
  eapply unsessioned_weaken; [|exact Hu]. intros n [Hn ?]. split; [by apply HPQ | done].
Qed.

(** Nothing written. *)
Lemma frame_same {A} P (m : M (world C) A) :
  (∀ w, w_db (snd (m w)) = w_db w ∧ w_unsessioned (snd (m w)) = w_unsessioned w ∧
        w_auth (snd (m w)) = w_auth w ∧ w_guards (snd (m w)) = w_guards w) → frame P m.
Proof.
  intros Hs w r w' Hm. specialize (Hs w). rewrite Hm in Hs. cbn [snd] in Hs. destruct Hs as (Hd & Hu & Ha & Hg).
  split_and!; [by rewrite Hd | by apply unsessioned_same | done..].
Qed.

Lemma frame_ret {A} P (a : A) : frame P (ret a).
Proof. by apply frame_same. Qed.

Lemma frame_raise {A} P e : frame P (@raise (world C) A e).
Proof. by apply frame_same. Qed.

Lemma frame_lift {A} P (o : outcome A) : frame P (lift o).
Proof. by apply frame_same. Qed.

Lemma frame_gets {A} P (f : world C → A) : frame P (gets f).
Proof. by apply frame_same. Qed.

Lemma frame_bind {A B} P (m : M (world C) A) (f : A → M (world C) B) :
  frame P m → (∀ a, frame P (f a)) → frame P (bind m f).
Proof.
  intros Hm Hf w r w' Hb. unfold bind in Hb. destruct (m w) as [[a|e] w1] eqn:E.
  - destruct (Hm _ _ _ E) as (Hd1 & Hu1 & Ha1 & Hg1), (Hf a _ _ _ Hb) as (Hd2 & Hu2 & Ha2 & Hg2).
    split_and!; try congruence; [intros n Hn; by rewrite Hd2, Hd1 | by eapply unsessioned_trans].
  - simplify_eq. by apply (Hm _ _ _ E).
Qed.

Lemma frame_raise_if P b e : frame P (@raise_if (world C) b e).
Proof. destruct b; [apply frame_raise | apply frame_ret]. Qed.

Lemma frame_when P b (m : M (world C) unit) : frame P m → frame P (when b m).
Proof. intros Hm. destruct b; [done | apply frame_ret]. Qed.

Lemma frame_try {A} P (m : M (world C) A) h :
  frame P m → (∀ e, frame P (h e)) → frame P (try_except m h).
Proof.
  intros Hm Hh w r w' Ht. unfold try_except in Ht. destruct (m w) as [[a|x] w1] eqn:E.
  - simplify_eq. by eapply Hm.
  - destruct (Hm _ _ _ E) as (Hd & Hu & Ha & Hg), (Hh x _ _ _ Ht) as (Hd2 & Hu2 & Ha2 & Hg2).
    split_and!; [intros n Hn; by rewrite Hd2, Hd | by eapply unsessioned_trans | congruence..].
Qed.

Lemma frame_utc_now P clock : frame P (@utc_now C clock).
Proof. by apply frame_same. Qed.

Lemma frame_emit P e : frame P (@emit C e).
Proof. by apply frame_same. Qed.

Lemma frame_transition P a b : frame P (@assert_valid_transition (world C) a b).
Proof. apply frame_raise_if. Qed.

Lemma frame_authority {A} P a (m : M (world C) A) : frame P m → frame P (write_authority a m).
Proof.
  intros Hm w r w' Hw. unfold write_authority in Hw.
  set (x := if String.eqb _ _ then _ else _) in Hw.
  destruct (m (set_auth x w)) as [r1 w1] eqn:E. destruct (Hm _ _ _ E) as (Hd & Hu & Ha & Hg).
  by simplify_eq/=.
Qed.

Lemma frame_if {A} P (b : bool) (m n : M (world C) A) :
  frame P m → frame P n → frame P (if b then m else n).
Proof. by destruct b. Qed.
End frame.

Section frame_db.
Context {C : Type} `{Mongo C}.
Implicit Types (w : world C) (P : list string).

Lemma frame_find_one P name q : frame P (db_find_one (C:=C) name q).
Proof. apply frame_gets. Qed.
Lemma frame_find P name q : frame P (db_find (C:=C) name q).
Proof. apply frame_gets. Qed.
Lemma frame_count P name q : frame P (db_count (C:=C) name q).
Proof. apply frame_gets. Qed.

Lemma guard_world name meth w r w' : _guard (C:=C) name meth w = (r, w') → w' = w.
Proof.
  unfold _guard, bind, gets. destruct (str_in name (w_guards w)); [|by unfold ret; intros; simplify_eq].
  unfold _require_write_authority, bind, gets, raise, raise_if, ret.
  repeat case_match; unfold raise, ret in *; intros; by simplify_eq.
Qed.

Lemma frame_guard P name meth : frame P (_guard (C:=C) name meth).
Proof. intros w r w' ->%guard_world. split_and!; [done | by apply unsessioned_same | done..]. Qed.

Lemma frame_set_coll {A} P name (f : C → A * C) (g : A → outcome A) :
  str_in name P = true →
  frame P (fun w => let '(a, c) := f (w_db w name) in (g a, set_coll name c w)).
Proof.
  intros Hin w r w' Hm. destruct (f (w_db w name)) as [a c]. simplify_eq/=.
  split_and!; [|by apply unsessioned_same | done..]. intros n Hn. apply str_in_spec in Hin.
  rewrite fn_lookup_insert_ne; [done | congruence].
Qed.

Lemma frame_insert P name d : str_in name P = true → frame P (db_insert_one (C:=C) name d).
Proof.
  intros Hin. apply frame_bind; [apply frame_guard|]. intros _ w r w' Hm.
  destruct (insert_one d (w_db w name)) as [[i c]|]; simplify_eq/=;
    (split_and!; [|by apply unsessioned_same | done..]); [|done].
  intros n Hn. apply str_in_spec in Hin. rewrite fn_lookup_insert_ne; [done | congruence].
Qed.

(** Only the collections of [outside_session] are written without a session. *)
Lemma frame_unsessioned P name d :
  str_in name P = true → str_in name outside_session = true → frame P (db_insert_one_unsessioned (C:=C) name d).
Proof.
  intros Hin Ho. apply frame_bind; [by apply frame_insert|]. intros stored.
  apply frame_bind; [|intros; apply frame_ret]. intros w r w' Hm. unfold modify in Hm. simplify_eq.
  split_and!; [done | | done..]. exists [(name, inserted stored)]. split; [done|].
  repeat constructor; [by apply str_in_spec | done].
Qed.

Lemma frame_counted P name f : str_in name P = true → frame P (counted (C:=C) name f).
Proof. intros Hin. by apply (frame_set_coll P name f Ok). Qed.

Lemma frame_update_one P name q u : str_in name P = true → frame P (db_update_one (C:=C) name q u).
Proof. intros. apply frame_bind; [apply frame_guard | intros _; by apply frame_counted]. Qed.
Lemma frame_update_many P name q u : str_in name P = true → frame P (db_update_many (C:=C) name q u).
Proof. intros. apply frame_bind; [apply frame_guard | intros _; by apply frame_counted]. Qed.
Lemma frame_delete_one P name q : str_in name P = true → frame P (db_delete_one (C:=C) name q).
Proof. intros. apply frame_bind; [apply frame_guard | intros _; by apply frame_counted]. Qed.
Lemma frame_upsert_one P name q u : str_in name P = true → frame P (db_upsert_one (C:=C) name q u).
Proof. intros. apply frame_bind; [apply frame_guard | intros _; by apply frame_counted]. Qed.
Lemma frame_delete_many P name q : str_in name P = true → frame P (db_delete_many (C:=C) name q).
Proof. intros. apply frame_bind; [apply frame_guard | intros _; by apply frame_counted]. Qed.

Lemma frame_assert_valid_write P b ctx : frame P (assert_valid_write (C:=C) b ctx).
Proof.
  unfold assert_valid_write, _load_session.
  repeat first [ apply frame_bind; [|intros ?] | apply frame_raise_if | apply frame_raise | apply frame_ret
               | apply frame_when | apply frame_transition | apply frame_find_one | case_match ].
Qed.

(** The end of a unit of work, committed or not. *)
Lemma frame_aexit P u w w1 :
  ((∀ n, n ∉ P → w_db w1 n = w_db w n) ∧ unsessioned_in (unsessioned_of P) w w1 ∧
   w_auth w1 = w_auth w ∧ w_guards w1 = w_guards w) →
  let w' := __aexit__ u w w1 in
  (∀ n, n ∉ P → w_db w' n = w_db w n) ∧ unsessioned_in (unsessioned_of P) w w' ∧
  w_auth w' = w_auth w ∧ w_guards w' = w_guards w.
Proof.
  intros (Hd & Hu & Ha & Hg). cbv zeta. unfold __aexit__. case_match; [|done]. split_and!; [|done..].
  intros n Hn. eapply rollback_restores; [exact Hu|]. by intros [? _].
Qed.

(** A transaction that is not committed. *)
Lemma aexit_restores P w w1 n :
  ((∀ n, n ∉ P → w_db w1 n = w_db w n) ∧ unsessioned_in (unsessioned_of P) w w1 ∧
   w_auth w1 = w_auth w ∧ w_guards w1 = w_guards w) →
  str_in n outside_session = false → w_db (__aexit__ (Uow true true false) w w1) n = w_db w n.
Proof.
  intros (_ & Hu & _) Hn. eapply rollback_restores; [exact Hu|]. intros [_ ?]. congruence.
Qed.

(** Where the body writes only within the session, nothing is left at all. *)
Lemma aexit_unchanged P w w1 n :
  forallb (fun m => negb (str_in m outside_session)) P = true →
  ((∀ n, n ∉ P → w_db w1 n = w_db w n) ∧ unsessioned_in (unsessioned_of P) w w1 ∧
   w_auth w1 = w_auth w ∧ w_guards w1 = w_guards w) →
  w_db (__aexit__ (Uow true true false) w w1) n = w_db w n.
Proof.
  intros HP Hf. destruct (str_in n outside_session) eqn:E; [|by eapply aexit_restores].
  apply (frame_aexit P (Uow true true false)) in Hf as [Hd _]. apply Hd. intros Hin.
  rewrite forallb_forall in HP.
  assert (negb (str_in n outside_session) = true) as Ho by (by apply HP, list_elem_of_In). by rewrite E in Ho.
Qed.

Lemma frame_uow {A} P cl (body : bool → M (world C) A) :
  (∀ b, frame P (body b)) → frame P (with_uow cl body).
Proof.
  intros Hb w r w' Hw. unfold with_uow in Hw.
  destruct (__aenter__ cl) as [u|e]; [|by apply (frame_raise P e w r w')].
  destruct (body (u_session u) w) as [r1 w1] eqn:E. pose proof (Hb _ _ _ _ E) as Hf.
  destruct r1; simplify_eq; exact (frame_aexit _ _ _ _ Hf).
Qed.

(** In a transaction an exception leaves the database as it was, apart from what
    was written without its session. *)
Lemma with_uow_raise {A} P cl (body : bool → M (world C) A) w e w' :
  transactional cl → (∀ b, frame P (body b)) → with_uow cl body w = (Raise e, w') →
  ∀ n, str_in n outside_session = false → w_db w' n = w_db w n.
Proof.
  unfold transactional, with_uow. intros -> Hb Hw n Hn. cbn [u_session] in Hw.
  destruct (body true w) as [[a|e'] w1] eqn:E; simplify_eq. exact (aexit_restores P _ _ _ (Hb _ _ _ _ E) Hn).
Qed.

Lemma uow_changes_nothing {A} P cl (body : bool → M (world C) A) w e w' :
  transactional cl → forallb (fun m => negb (str_in m outside_session)) P = true → (∀ b, frame P (body b)) →
  with_uow cl body w = (Raise e, w') → ∀ n, w_db w' n = w_db w n.
Proof.
  unfold transactional, with_uow. intros -> HP Hb Hw n. cbn [u_session] in Hw.
  destruct (body true w) as [[a|e'] w1] eqn:E; simplify_eq. exact (aexit_unchanged P _ _ n HP (Hb _ _ _ _ E)).
Qed.
End frame_db.

(** ** Writes that succeed *)

Section successful.
Context {C : Type} `{Mongo C}.
Implicit Types (w : world C).

Lemma counted_ok name meth (f : C → Z * C) w n w' :
  (run _guard name meth ;; counted name f) w = (Ok n, w') →
  n = fst (f (w_db w name)) ∧ w' = set_coll name (snd (f (w_db w name))) w.
Proof.
  unfold bind. destruct (_guard name meth w) as [[[]|e] w1] eqn:Eg; [|done]. apply guard_world in Eg as ->.
  unfold counted. destruct (f (w_db w name)). cbn [fst snd]. intros Hm. by simplify_eq.
Qed.

Lemma update_one_ok name q u w n w' :
  db_update_one name q u w = (Ok n, w') →
  n = fst (update_one q u (w_db w name)) ∧ w' = set_coll name (snd (update_one q u (w_db w name))) w.
Proof. apply counted_ok. Qed.

Lemma update_many_ok name q u w n w' :
  db_update_many name q u w = (Ok n, w') →
  n = fst (update_many q u (w_db w name)) ∧ w' = set_coll name (snd (update_many q u (w_db w name))) w.
Proof. apply counted_ok. Qed.

Lemma insert_one_ok name d w d' w' :
  db_insert_one name d w = (Ok d', w') →
  ∃ i c, insert_one d (w_db w name) = Some (i, c) ∧ d' = setdefault "_id" i d ∧ w' = set_coll name c w.
Proof.
  unfold db_insert_one, bind. destruct (_guard name "insert_one" w) as [[[]|e] w1] eqn:Eg; [|done].
  apply guard_world in Eg as ->. destruct (insert_one d (w_db w name)) as [[i c]|]; [|done].
  intros Hm. simplify_eq. eauto.
Qed.

(** A guard that refuses raises a governance violation. *)
Lemma guard_raises name meth w e w' :
  _guard (C:=C) name meth w = (Raise e, w') → ∃ msg, e = GovernanceViolation msg.
Proof.
  unfold _guard, bind, gets. destruct (str_in name (w_guards w)); [|by unfold ret].
  unfold _require_write_authority, bind, gets, raise, raise_if, ret.
  destruct (w_auth w) as [a|]; [destruct (aget a _)|]; try (destruct (_ && _)); unfold raise, ret;
    intros Hr; simplify_eq; by eexists.
Qed.

(** Collections without a proxy are written without an authority. *)
Lemma guard_absent name meth w : str_in name (w_guards w) = false → _guard name meth w = (Ok tt, w).
Proof. intros Hg. unfold _guard, bind, gets. by rewrite Hg. Qed.

Lemma update_one_unguarded name q u w :
  str_in name (w_guards w) = false →
  db_update_one name q u w =
    (Ok (fst (update_one q u (w_db w name))), set_coll name (snd (update_one q u (w_db w name))) w).
Proof.
  intros Hg. unfold db_update_one. erewrite bind_ok by (by apply guard_absent).
  unfold counted. by destruct (update_one q u (w_db w name)).
Qed.

Lemma insert_one_raise name d w e w' : db_insert_one name d w = (Raise e, w') → w' = w.
Proof.
  unfold db_insert_one, bind. destruct (_guard name "insert_one" w) as [[[]|e'] w1] eqn:Eg; apply guard_world in Eg as ->;
    [|intros; by simplify_eq]. destruct (insert_one d (w_db w name)) as [[i c]|]; intros; by simplify_eq.
Qed.

Lemma set_coll_same name (c : C) w : w_db (set_coll name c w) name = c.
Proof. cbn [w_db set_coll set_db]. by rewrite fn_lookup_insert. Qed.

Lemma set_coll_other name n (c : C) w : n ≠ name → w_db (set_coll name c w) n = w_db w n.
Proof. intros Hn. cbn [w_db set_coll set_db]. by rewrite fn_lookup_insert_ne. Qed.
End successful.

(** ** What computations keep of one collection *)

Section keeps.
Context {C : Type} `{MongoLaws C}.
Implicit Types (w : world C) (Q : C → Prop) (P : doc → Prop) (f : doc → bool).

(** Whatever holds of the collection before holds of it after, however [m]
    ends and whether or not its transaction is undone. *)
Definition keeps {A} (name : string) Q (m : M (world C) A) : Prop :=
  ∀ w r w', m w = (r, w') →
    unsessioned_in (fun n => n ≠ name) w w' ∧ (Q (w_db w name) → Q (w_db w' name)).

Lemma keeps_run {A} name Q (m : M (world C) A) w r w' :
  keeps name Q m → m w = (r, w') → Q (w_db w name) → Q (w_db w' name).
Proof. intros Hk Hm. by apply (Hk _ _ _ Hm). Qed.

Definition all_docs P (c : C) : Prop := ∀ d, d ∈ contents c → P d.
Definition at_most (n : nat) f (c : C) : Prop := (length (filter (fun d => f d = true) (contents c)) ≤ n)%nat.

Lemma keeps_frame {A} name Q L (m : M (world C) A) : frame L m → str_in name L = false → keeps name Q m.
Proof.
  intros Hf Hn w r w' Hm. split; [|by rewrite (frame_db L m w r w' name Hf Hm Hn)].
  destruct (Hf _ _ _ Hm) as (_ & Hu & _). eapply unsessioned_weaken; [|exact Hu].
  intros n [Hin _] ->. apply str_in_false in Hn. done.
Qed.

(** A computation that writes it within the session. *)
Lemma keeps_intro {A} name Q L (m : M (world C) A) :
  frame L m → str_in name outside_session = false →
  (∀ w r w', m w = (r, w') → Q (w_db w name) → Q (w_db w' name)) → keeps name Q m.
Proof.
  intros Hf Hn HQ w r w' Hm. split; [|by eapply HQ]. destruct (Hf _ _ _ Hm) as (_ & Hu & _).
  eapply unsessioned_weaken; [|exact Hu]. intros n [_ ?] ->. congruence.
Qed.

Lemma keeps_reads {A} name Q (m : M (world C) A) : frame [] m → keeps name Q m.
Proof. intros Hf. by eapply keeps_frame. Qed.

Lemma keeps_seq_ok {A B} name Q (m : M (world C) A) (g : A → M (world C) B) :
  keeps name Q m → (∀ w a w1, m w = (Ok a, w1) → keeps name Q (g a)) → keeps name Q (bind m g).
Proof.
  intros Hm Hg w r w' Hb. unfold bind in Hb. destruct (m w) as [[a|e] w1] eqn:E.
  - destruct (Hm _ _ _ E), (Hg _ _ _ E _ _ _ Hb). split; [by eapply unsessioned_trans | auto].
  - simplify_eq. by eapply Hm.
Qed.

Lemma keeps_seq {A B} name Q (m : M (world C) A) (g : A → M (world C) B) :
  keeps name Q m → (∀ a, keeps name Q (g a)) → keeps name Q (bind m g).
Proof. intros Hm Hg. by apply keeps_seq_ok. Qed.

Lemma keeps_try {A} name Q (m : M (world C) A) h :
  keeps name Q m → (∀ e, keeps name Q (h e)) → keeps name Q (try_except m h).
Proof.
  intros Hm Hh w r w' Ht. unfold try_except in Ht. destruct (m w) as [[a|e] w1] eqn:E.
  - simplify_eq. by eapply Hm.
  - destruct (Hm _ _ _ E), (Hh _ _ _ _ Ht). split; [by eapply unsessioned_trans | auto].
Qed.

Lemma keeps_when name Q b (m : M (world C) unit) : keeps name Q m → keeps name Q (when b m).
Proof. intros Hm. destruct b; [done|]. apply keeps_reads, frame_ret. Qed.

(** A write of the collection keeps what the driver call keeps. *)
Lemma keeps_write name Q (g : C → Z * C) : (∀ c, Q c → Q (snd (g c))) → keeps name Q (counted name g).
Proof.
  intros Hg w r w' Hc.
  split; [apply unsessioned_same; unfold counted in Hc; destruct (g (w_db w name)); by simplify_eq|].
  intros HQ. unfold counted in Hc. destruct (g (w_db w name)) as [n c] eqn:E. simplify_eq. cbn [w_db set_coll set_db].
  rewrite fn_lookup_insert. specialize (Hg _ HQ). by rewrite E in Hg.
Qed.

Lemma keeps_counted name meth Q (g : C → Z * C) :
  (∀ c, Q c → Q (snd (g c))) → keeps name Q (run _guard name meth ;; counted name g).
Proof. intros Hg. apply keeps_seq; [apply keeps_reads, frame_guard|]. intros _. by apply keeps_write. Qed.

Lemma keeps_insert name Q d :
  (∀ c i c', insert_one d c = Some (i, c') → Q c → Q c') → keeps name Q (db_insert_one name d).
Proof.
  intros Hg. apply keeps_seq; [apply keeps_reads, frame_guard|]. intros _ w r w' Hc.
  split; [apply unsessioned_same; destruct (insert_one d (w_db w name)) as [[]|]; by simplify_eq|].
  intros HQ. destruct (insert_one d (w_db w name)) as [[i c]|] eqn:E; simplify_eq; [|done].
  cbn [w_db set_coll set_db]. rewrite fn_lookup_insert. by eapply Hg.
Qed.

Lemma keeps_authority {A} name Q a (m : M (world C) A) : keeps name Q m → keeps name Q (write_authority a m).
Proof.
  intros Hm w r w' Hw. unfold write_authority in Hw. set (x := if String.eqb _ _ then _ else _) in Hw.
  destruct (m (set_auth x w)) as [r1 w1] eqn:E. simplify_eq. by apply (Hm _ _ _ E).
Qed.

(** Whether it is committed or undone. *)
Lemma keeps_aexit name Q u w w1 :
  (unsessioned_in (fun n => n ≠ name) w w1 ∧ (Q (w_db w name) → Q (w_db w1 name))) →
  unsessioned_in (fun n => n ≠ name) w (__aexit__ u w w1) ∧ (Q (w_db w name) → Q (w_db (__aexit__ u w w1) name)).
Proof.
  intros [Hu HQ]. unfold __aexit__. case_match; [|done]. split; [done|].
  rewrite (rollback_restores _ _ _ name Hu); auto.
Qed.

Lemma keeps_uow {A} name Q cl (body : bool → M (world C) A) :
  (∀ b, keeps name Q (body b)) → keeps name Q (with_uow cl body).
Proof.
  intros Hb w r w' Hw. unfold with_uow in Hw.
  destruct (__aenter__ cl) as [u|e]; [|simplify_eq; split; [by apply unsessioned_same | done]].
  destruct (body (u_session u) w) as [r1 w1] eqn:E. pose proof (Hb _ _ _ _ E) as Hk.
  destruct r1; simplify_eq; by apply keeps_aexit.
Qed.

(** The two forms of [Q]: of every document, and of the number of documents. *)
Lemma all_docs_update_many P q u c :
  (∀ d, P d → P (apply_update u d)) → all_docs P c → all_docs P (snd (update_many q u c)).
Proof.
  intros Hu Hc d Hd. destruct (update_many_spec q u c) as [Hp _]. rewrite Hp in Hd.
  apply list_elem_of_fmap in Hd as (e & -> & He). destruct (matches q e); auto.
Qed.

Lemma all_docs_update_one P q u c :
  (∀ d, P d → P (apply_update u d)) → all_docs P c → all_docs P (snd (update_one q u c)).
Proof.
  intros Hu Hc d Hd. destruct (find_one q c) as [e|] eqn:E.
  - apply find_one_some in E as [He Hm].
    destruct (update_one_some q u c) as (x & rest & Hx & _ & Hx' & _); [by exists e|].
    rewrite Hx' in Hd. apply elem_of_cons in Hd as [->|Hd]; [apply Hu|]; apply Hc; rewrite Hx; [left | by right].
  - rewrite update_one_none in Hd by (by apply find_one_none). by apply Hc.
Qed.

Lemma all_docs_delete_many P q c : all_docs P c → all_docs P (snd (delete_many q c)).
Proof. intros Hc d Hd. rewrite delete_many_spec in Hd. apply list_elem_of_filter in Hd as [_ Hd]. by apply Hc. Qed.

Lemma all_docs_insert P d c i c' :
  insert_one d c = Some (i, c') → P (bson_doc (setdefault "_id" i d)) → all_docs P c → all_docs P c'.
Proof.
  intros Hi Hd Hc e He. apply insert_one_spec in Hi as [Hp _]. rewrite Hp in He.
  apply elem_of_cons in He as [->|He]; [done | by apply Hc].
Qed.

Lemma filter_same f g (l : list doc) :
  (∀ d, d ∈ l → f d = g d) → filter (fun d => f d = true) l = filter (fun d => g d = true) l.
Proof.
  induction l as [|d l IH]; intros Hfg; [done|]. rewrite !filter_cons.
  rewrite IH by (intros; apply Hfg; by right). rewrite (Hfg d) by left. done.
Qed.

Lemma at_most_map f g l :
  (∀ d, d ∈ l → f (g d) = true → f d = true) →
  (length (filter (fun d => f d = true) (map g l)) ≤ length (filter (fun d => f d = true) l))%nat.
Proof.
  induction l as [|d l IH]; intros Hg; [done|]. cbn [map]. rewrite !filter_cons.
  assert (∀ e, e ∈ l → f (g e) = true → f e = true) as Hl by (intros e He; apply Hg; by right).
  specialize (IH Hl). specialize (Hg d ltac:(left)).
  destruct (decide (f (g d) = true)), (decide (f d = true)); cbn [length]; try lia. exfalso. auto.
Qed.

Lemma at_most_update_many n f q u c :
  (∀ d, d ∈ contents c → f (apply_update u d) = true → f d = true) →
  at_most n f c → at_most n f (snd (update_many q u c)).
Proof.
  intros Hu Hc. unfold at_most in *. destruct (update_many_spec q u c) as [Hp _]. rewrite Hp.
  etransitivity; [|exact Hc]. apply at_most_map. intros d Hd. destruct (matches q d); auto.
Qed.

Lemma at_most_update_one n f q u c :
  (∀ d, d ∈ contents c → matches q d = true → f (apply_update u d) = true → f d = true) →
  at_most n f c → at_most n f (snd (update_one q u c)).
Proof.
  intros Hu Hc. unfold at_most in *. destruct (find_one q c) as [e|] eqn:E.
  - apply find_one_some in E as [He Hm].
    destruct (update_one_some q u c) as (x & rest & Hx & Hmx & Hx' & _); [by exists e|].
    specialize (Hu x ltac:(rewrite Hx; left) Hmx).
    rewrite Hx in Hc. rewrite Hx'. rewrite !filter_cons in Hc |- *.
    destruct (decide (f (apply_update u x) = true)), (decide (f x = true)); cbn [length] in *; try lia. exfalso. auto.
  - by rewrite update_one_none by (by apply find_one_none).
Qed.

Lemma at_most_delete_many n f q c : at_most n f c → at_most n f (snd (delete_many q c)).
Proof.
  unfold at_most. intros Hc. rewrite delete_many_spec. etransitivity; [|exact Hc]. clear Hc.
  induction (contents c) as [|d l IH]; [done|]. rewrite !filter_cons.
  destruct (decide (matches q d = false)); rewrite ?filter_cons; destruct (decide (f d = true)); cbn [length]; lia.
Qed.

Lemma at_most_insert n f d c i c' :
  insert_one d c = Some (i, c') → f (bson_doc (setdefault "_id" i d)) = false → at_most n f c → at_most n f c'.
Proof.
  intros Hi Hd Hc. unfold at_most in *. apply insert_one_spec in Hi as [Hp _]. rewrite Hp, filter_cons.
  by rewrite decide_False by congruence.
Qed.

(** Inserting into a collection that has none. *)
Lemma at_most_insert_first f d c i c' : insert_one d c = Some (i, c') → at_most 0 f c → at_most 1 f c'.
Proof.
  intros Hi Hc. unfold at_most in *. apply insert_one_spec in Hi as [Hp _]. rewrite Hp, filter_cons.
  destruct (decide _); cbn [length]; lia.
Qed.

Lemma at_most_zero f c : at_most 0 f c ↔ all_docs (fun d => f d = false) c.
Proof.
  unfold at_most, all_docs. split.
  - intros Hl d Hd. destruct (f d) eqn:E; [|done]. exfalso.
    assert (d ∈ filter (fun d => f d = true) (contents c)) as Hin by (by apply list_elem_of_filter).
    destruct (filter _ _); [by apply elem_of_nil in Hin | cbn [length] in Hl; lia].
  - intros Ha. destruct (filter (fun d => f d = true) (contents c)) as [|d l] eqn:E; [done|]. exfalso.
    assert (d ∈ filter (fun d => f d = true) (contents c)) as Hin by (rewrite E; left).
    apply list_elem_of_filter in Hin as [Hf Hin]. by rewrite Ha in Hf.
Qed.
End keeps.

(** ** Writes under an authority that owns the collection *)
Section authorized.
Context {C : Type} `{Mongo C}.
Implicit Types (w : world C).

Lemma authority_allowed auth name meth w :
  plain_name name = true → owns auth name = true →
  _guard name meth (set_auth (if String.eqb (strip auth) "" then None else Some (strip auth)) w) =
  (Ok tt, set_auth (if String.eqb (strip auth) "" then None else Some (strip auth)) w).
Proof.
  intros Hn Ho. apply guard_allowed; [done|]. unfold refused. cbn [w_auth set_auth].
  destruct (String.eqb_spec (strip auth) "") as [He|]; [|unfold owns in Ho; by rewrite Ho, andb_false_r].
  unfold owns in Ho. by rewrite He in Ho.
Qed.

Lemma authorized_update_one auth name q u w :
  plain_name name = true → owns auth name = true →
  write_authority auth (db_update_one name q u) w =
  (Ok (fst (update_one q u (w_db w name))), set_coll name (snd (update_one q u (w_db w name))) w).
Proof.
  intros Hn Ho. unfold write_authority, db_update_one. cbv zeta.
  erewrite bind_ok by (by apply authority_allowed). unfold counted. simpl. by destruct (update_one _ _ _).
Qed.

Lemma authorized_insert_one auth name d w i c :
  plain_name name = true → owns auth name = true → insert_one d (w_db w name) = Some (i, c) →
  write_authority auth (db_insert_one name d) w = (Ok (setdefault "_id" i d), set_coll name c w).
Proof.
  intros Hn Ho Hi. unfold write_authority, db_insert_one. cbv zeta.
  erewrite bind_ok by (by apply authority_allowed). simpl. by rewrite Hi.
Qed.
End authorized.

#[export] Hint Resolve frame_ret frame_raise frame_lift frame_gets frame_raise_if frame_utc_now
  frame_emit frame_transition frame_find_one frame_find frame_count frame_guard
  frame_assert_valid_write : frame.

(** The frame of a composed computation: one step for each construct. *)
Ltac frame_step :=
  cbv zeta;
  first
    [ solve [auto with frame nocore]
    | lazymatch goal with
      | |- frame _ (bind _ _) => apply frame_bind; [|intros ?]
      | |- frame _ (when _ _) => apply frame_when
      | |- frame _ (try_except _ _) => apply frame_try; [|intros ?]
      | |- frame _ (counted _ _) => apply frame_counted; first [done | reflexivity]
      | |- frame _ (write_authority _ _) => apply frame_authority
      | |- frame _ (db_insert_one _ _) => apply frame_insert; first [done | reflexivity]
      | |- frame _ (db_insert_one_unsessioned _ _) => apply frame_unsessioned; first [done | reflexivity]
      | |- frame _ (db_update_one _ _ _) => apply frame_update_one; first [done | reflexivity]
      | |- frame _ (db_update_many _ _ _) => apply frame_update_many; first [done | reflexivity]
      | |- frame _ (db_upsert_one _ _ _) => apply frame_upsert_one; first [done | reflexivity]
      | |- frame _ (db_delete_many _ _) => apply frame_delete_many; first [done | reflexivity]
      | |- frame _ (db_delete_one _ _) => apply frame_delete_one; first [done | reflexivity]
      | |- frame _ (with_uow _ _) => apply frame_uow; intros ?
      | |- frame _ (match _ with _ => _ end) => case_match
      end ].
Ltac solve_frame := repeat frame_step.

#[export] Hint Extern 0 (str_in _ _ = true) => first [assumption | reflexivity] : frame.
