(* ===== verification/Lifecycle.v ===== *)
(** The session lifecycle: [services/session_lifecycle_service.py], with the
    optimistic concurrency primitives of [services/concurrency.py], the audit
    trail of [services/governance_audit_service.py], [validate_session] of
    [services/validation_service.py] and the count-line finalizer of
    [services/count_lines/session_aggregator.py].

    Every handler runs its reads, checks and writes in the order of the code,
    on the [world] of the request.  The unit of work around a handler is
    [Uow.with_uow]; handlers called with a session of their caller run
    directly.  Projection synchronization is recorded as an event. *)

From S2P Require Import Prelude PyFloat Py Store ListStore Guard Inventory Uow.

Local Open Scope Z_scope.
Local Open Scope stock_scope.

(** ** Optimistic concurrency *)

(** [int(value)] of a float infinity is the one failure that is not caught. *)
Definition coerce_version (value : val) : outcome Z :=
  match to_int value with
  | Ok numeric => Ok (if 0 <=? numeric then numeric else 0)
  | Raise (OverflowError m) => Raise (OverflowError m)
  | Raise _ => Ok 0
  end.

Definition build_version_filter (expected_version : Z) : query :=
  if expected_version <=? 0 then QOr [QEq "version" (VInt 0); QExists "version" false]
  else QEq "version" (VInt expected_version).

(** ** Tables *)

Definition RECOUNT_ALLOWED_TRANSITIONS : list (string * list string) := [
  ("pending", ["assigned"; "in_progress"; "completed"; "cancelled"; "expired"]);
  ("assigned", ["in_progress"; "completed"; "cancelled"; "expired"]);
  ("in_progress", ["completed"; "cancelled"; "expired"]);
  ("completed", []);
  ("cancelled", []);
  ("expired", [])].

Definition _SYSTEM_ACTORS : list string := ["system"; "conflict_resolver"; "system_auto_resolve"; "sync"].

Definition opt_val (o : option val) : val := default VNone o.

Section lifecycle.
Context {C : Type} `{Mongo C}.

(** The readings of the clock, the validation mode of the process, and whether
    the service was given a count-line finalizer. *)
Context (clock : nat → Z) (strict_mode write_logs has_finalizer : bool).

(** The id parser of the driver: [ObjectId.is_valid(s)] and [ObjectId(s)]. *)
Context (object_id : string → option string).

Definition _lookup (session_id : string) : query := session_lookup session_id.

Definition _execute_authorized_write {A} (write_call : M (world C) A) : M (world C) A :=
  write_authority "SessionLifecycleService" write_call.

(** ** Audit trail *)

Record audit := Audit {
  a_event : string; a_operation : string; a_session_id : string;
  a_version : val; a_actor_id : val; a_metadata : val;
}.

(** A write whose exceptions are only logged. *)
Definition best_effort {A} (m : M (world C) A) : M (world C) unit := fun w => (Ok tt, snd (m w)).

Definition log_event_keys (item_id location_id idempotency_key semantic_hash : val) (a : audit) (actor : doc)
  : M (world C) unit :=
  let pick l := to_str (por (fold_right (fun k v => por (get k actor) v) VNone l) (VStr "")) in
  do now <- utc_now clock ;;
  let payload := [
    ("event", VStr (a_event a)); ("operation", VStr (a_operation a));
    ("session_id", VStr (a_session_id a)); ("item_id", item_id); ("location_id", location_id);
    ("version", a_version a); ("idempotency_key", idempotency_key); ("semantic_hash", semantic_hash);
    ("actor_id", VStr (pick ["user_id"; "username"; "id"]));
    ("username", VStr (pick ["username"; "user_id"; "id"]));
    ("role", VStr (pick ["role"])); ("org_id", VStr (pick ["org_id"]));
    ("timestamp", VTime now); ("status", VStr "SUCCESS");
    ("metadata", por (a_metadata a) (VDict []))] in
  best_effort (db_insert_one "governance_events" payload).

(** An event of no particular write. *)
Definition log_governance_event (item_id location_id : val) (a : audit) (actor : doc) : M (world C) unit :=
  log_event_keys item_id location_id VNone VNone a actor.

Definition log_write_event (a : audit) : M (world C) unit :=
  let id := por (a_actor_id a) (VStr "system") in
  log_governance_event VNone VNone a [("user_id", id); ("username", id)].

Definition _sync_session_projection (session_id trigger actor : string) : M (world C) unit :=
  emit (Ev "projection.sync_for_sessions" [VStr session_id; VStr trigger; VStr actor]).

(** ** Validation of a session document *)

Definition log_violation (entity : string) (d : doc) (errors : list string) : M (world C) unit :=
  if negb write_logs then ret tt
  else
    do now <- utc_now clock ;;
    do _ <- db_insert_one_unsessioned "validation_logs" [
      ("entity", VStr entity); ("doc_id", VStr (to_str (por (get "_id" d) (VStr ""))));
      ("session_id", VStr (to_str (por (get "session_id" d) (VStr ""))));
      ("errors", VList (map VStr errors)); ("timestamp", VTime now)] ;;
    ret tt.

Definition _handle_errors (entity : string) (d : doc) (errors : list string)
    (raise_on_error : option bool) : M (world C) unit :=
  match errors with
  | [] => ret tt
  | _ =>
      run log_violation entity d errors ;;
      raise_if (default strict_mode raise_on_error)
        (GovernanceViolation ("Validation failed for " +:+ entity +:+ ": " +:+ join "; " errors))
  end.

Definition session_errors (session : doc) : list string :=
  let status := upper (strip (to_str (por (get "status" session) (VStr "")))) in
  (if truthy (get "session_id" session) then [] else ["Missing session_id"]) ++
  (if String.eqb status "FINALIZED" && negb (truthy (get "finalized_at" session))
   then ["Finalized session missing timestamp"] else []).

Definition validate_session (session : doc) (raise_on_error : option bool) : M (world C) (list string) :=
  let errors := session_errors session in
  run _handle_errors "session" session errors raise_on_error ;;
  ret errors.

(** ** Reading a session *)

Definition get_session (session_id : string) : M (world C) (option doc) :=
  db_find_one "sessions" (_lookup session_id).

Definition ensure_session_exists (session_id : string) : M (world C) doc :=
  do session <- get_session session_id ;;
  match session with
  | Some ((_ :: _) as d) => ret d
  | _ => raise (GovernanceViolation ("CRITICAL: Session not found: " +:+ session_id))
  end.

Definition ensure_session_not_finalized (session_id : string) : M (world C) doc :=
  do session <- ensure_session_exists session_id ;;
  run raise_if (is_finalized_session session)
        (GovernanceViolation "Session is finalized. Mutation blocked.") ;;
  ret session.

Definition ensure_session_active (session_id : string) : M (world C) doc :=
  do session <- ensure_session_not_finalized session_id ;;
  let canonical := normalize_session_status (get "status" session) in
  run raise_if (negb (String.eqb canonical "ACTIVE"))
        (GovernanceViolation ("CRITICAL: Session must be ACTIVE for count-line writes (found "
                               +:+ canonical +:+ ")")) ;;
  ret session.

(** ** The versioned write *)

Definition occ_filter (session_id : string) (expected_version : Z) : query :=
  QAnd [_lookup session_id; build_version_filter expected_version].

Definition occ_update (set_doc : doc) : update := Upd set_doc [("version", VInt 1)] [] [].

Definition _update_session_with_occ (session_id : string) (set_doc : doc) (expected_version : Z)
  : M (world C) unit :=
  do modified_count <-
    _execute_authorized_write
      (db_update_one "sessions" (occ_filter session_id expected_version) (occ_update set_doc)) ;;
  raise_if (modified_count =? 0)
    (ConcurrencyError ("CRITICAL: Session version mismatch for " +:+ session_id +:+ " (expected "
                        +:+ str_of_Z expected_version +:+ ")")).

Definition apply_ownership_transition (session_id : string) (set_fields ownership_event : doc)
  : M (world C) unit :=
  run raise_if (is_empty set_fields)
        (GovernanceViolation "CRITICAL: ownership transition requires set_fields") ;;
  let push := if is_empty ownership_event then [] else [("ownership_events", VDict ownership_event)] in
  do _ <- _execute_authorized_write
            (db_update_one "sessions" (_lookup session_id) (Upd set_fields [] push [])) ;;
  ret tt.

(** ** Session totals *)

Record totals := Totals {
  t_items : Z; t_variance : float; t_verified : Z; t_damage : Z; t_last : option Z;
}.

Definition totals0 : totals := Totals 0 f0 0 0 None.

Definition candidate_activity (line : doc) : option Z :=
  match por (get "updated_at" line) (por (get "approved_at" line) (get "counted_at" line)) with
  | VTime t => Some t
  | _ => None
  end.

Definition later (a b : option Z) : option Z :=
  match a, b with
  | Some x, Some y => if x <? y then Some y else Some x
  | None, _ => b
  | _, None => a
  end.

Definition obind {A B} (o : outcome A) (f : A → outcome B) : outcome B :=
  match o with Ok a => f a | Raise e => Raise e end.

(** One iteration of the loop over the count lines. *)
Definition add_line (t : totals) (line : doc) : outcome totals :=
  if is_superseded_count_line line then Ok t
  else
    obind (to_float (por (get "variance" line) (VFloat f0))) (fun variance =>
    obind (to_float (por (get "damaged_qty" line) (VFloat f0))) (fun damaged_qty =>
    obind (to_int (VFloat damaged_qty)) (fun damaged =>
    Ok (Totals (t_items t + 1) (fadd (t_variance t) variance)
          (if is_count_line_effectively_reviewed line then t_verified t + 1 else t_verified t)
          (t_damage t + damaged) (later (t_last t) (candidate_activity line)))))).

Fixpoint add_lines (t : totals) (lines : list doc) : outcome totals :=
  match lines with
  | [] => Ok t
  | line :: rest => obind (add_line t line) (fun t' => add_lines t' rest)
  end.

Definition session_update (t : totals) (now : Z) : doc :=
  [("total_items", VInt (t_items t)); ("total_variance", VFloat (t_variance t));
   ("verified_items", VInt (t_verified t));
   ("pending_items", VInt (Z.max (t_items t - t_verified t) 0));
   ("damage_items", VInt (t_damage t)); ("updated_at", VTime now)]
  ++ match t_last t with Some l => [("last_activity", VTime l)] | None => [] end.

Definition session_lines (session_id : string) : query := QEq "session_id" (VStr session_id).

Definition _compute_session_totals (session_id : string) : M (world C) doc :=
  do cursor <- db_find "count_lines" (session_lines session_id) ;;
  do t <- lift (add_lines totals0 cursor) ;;
  do now <- utc_now clock ;;
  ret (session_update t now).

(** ** Snapshots and creation *)

Definition record_session_snapshot (session_id : string) (snapshot_doc : doc) (actor : string)
  : M (world C) doc :=
  run raise_if (is_empty snapshot_doc) (GovernanceViolation "CRITICAL: snapshot_doc is required") ;;
  do existing <- db_find_one "session_snapshots" (session_lines session_id) ;;
  run raise_if (match existing with Some _ => true | None => false end)
        (GovernanceViolation "CRITICAL: Baseline snapshot already exists and is immutable") ;;
  do session <- get_session session_id ;;
  run raise_if (match session with Some d => is_finalized_session d | None => false end)
        (GovernanceViolation "Session is finalized. Mutation blocked.") ;;
  let snapshot_to_insert := aset "session_id" (VStr session_id) snapshot_doc in
  do snapshot <- _execute_authorized_write (db_insert_one "session_snapshots" snapshot_to_insert) ;;
  run log_write_event (Audit "SESSION_WRITE" "SNAPSHOT_CREATE" session_id VNone (VStr actor)
        (VDict [("snapshot_hash", get "snapshot_hash" snapshot); ("item_count", get "item_count" snapshot)])) ;;
  ret snapshot.

(** The document [create_session] inserts. *)
Definition created_session (session_doc : doc) (now_dt : Z) : doc :=
  let d := aset "status" (VStr "CREATED") session_doc in
  let d := setdefault "id" (get "session_id" d) d in
  let d := setdefault "started_at" (VTime now_dt) d in
  let d := setdefault "last_heartbeat" (VTime now_dt) d in
  let d := setdefault "session_id" (get "id" d) d in
  setdefault "version" (VInt 0) d.

Definition _create_session (session_doc : doc) (username : string) : M (world C) doc :=
  do now_dt <- utc_now clock ;;
  let created_doc := created_session session_doc now_dt in
  run raise_if (negb (truthy (get "id" created_doc)))
        (GovernanceViolation "Session document must include 'id' or 'session_id'") ;;
  do _ <- validate_session created_doc None ;;
  do created_doc <- _execute_authorized_write (db_insert_one "sessions" created_doc) ;;
  let mirror_doc := [
    ("session_id", get "id" created_doc); ("user_id", VStr username); ("status", VStr "CREATED");
    ("started_at", VTime now_dt); ("last_heartbeat", VTime now_dt);
    ("rack_id", get "rack_no" created_doc); ("floor", get "floor_id" created_doc);
    ("location_id", get "location_id" created_doc)] in
  do _ <- _execute_authorized_write (db_insert_one "verification_sessions" mirror_doc) ;;
  let id := to_str (get "id" created_doc) in
  do version <- lift (to_int (por (dget "version" (VInt 0) created_doc) (VInt 0))) ;;
  run log_write_event (Audit "SESSION_WRITE" "CREATE" id (VInt version) (VStr username) VNone) ;;
  run _sync_session_projection id "session.create" username ;;
  ret created_doc.

(** [create_session]: [has_session] when the caller passes its own session. *)
Definition create_session (cl : client) (has_session : bool) (session_doc : doc) (username : string)
  : M (world C) doc :=
  if has_session then _create_session session_doc username
  else with_uow cl (fun _ => _create_session session_doc username).

(** ** The finalization gate *)

Definition unknown_query (session_id : string) : query :=
  QAnd [QEq "session_id" (VStr session_id); QNin "status" [VStr "RESOLVED"; VStr "DISMISSED"]].
Definition recount_query (session_id : string) : query :=
  QAnd [QEq "session_id" (VStr session_id);
        QNin "status" [VStr "completed"; VStr "cancelled"; VStr "expired"]].
Definition approval_query (session_id : string) : query :=
  QAnd [QEq "session_id" (VStr session_id);
        QIn "approval_status" [VStr "NEEDS_REVIEW"; VStr "PENDING"];
        QNin "status" [VStr "SUPERSEDED"; VStr "superseded"]].

Definition _assert_session_ready_to_finalize (session_id : string) : M (world C) unit :=
  do unknown_count <- db_count "unknown_items" (unknown_query session_id) ;;
  do recount_count <- db_count "recount_requests" (recount_query session_id) ;;
  do needs_review_count <- db_count "count_lines" (approval_query session_id) ;;
  let blockers :=
    (if 0 <? unknown_count then [str_of_Z unknown_count +:+ " unresolved unknown item(s)"] else []) ++
    (if 0 <? recount_count then [str_of_Z recount_count +:+ " pending recount request(s)"] else []) ++
    (if 0 <? needs_review_count
     then [str_of_Z needs_review_count +:+ " unresolved count lines pending approval"] else []) in
  match blockers with
  | [] => ret tt
  | _ => raise (GovernanceViolation
                  ("CRITICAL: Session cannot be finalized — blockers: " +:+ join "; " blockers))
  end.

(** ** Transitions *)

(** The context the lifecycle passes to the write guard. *)
Definition guard_context (session : doc) (session_id : string) (states : doc) : doc :=
  [("session", VDict session); ("session_id", VStr session_id);
   ("require_active_session", VBool false); ("require_full_context", VBool false)] ++ states.

Definition transition_update (target actor : string) (note : option string) (now_dt : Z) : doc :=
  [("status", VStr target); ("last_heartbeat", VTime now_dt); ("updated_at", VTime now_dt);
   ("updated_by", VStr actor)]
  ++ (if String.eqb target "REVIEW" then [("review_started_at", VTime now_dt)] else [])
  ++ (if String.eqb target "FINALIZED"
      then [("finalized_at", VTime now_dt); ("finalized_by", VStr actor)] else [])
  ++ (if truthy (opt_str note) then [("lifecycle_note", opt_str note)] else []).

Definition effective_expected (session : doc) (expected_version : option Z) : outcome Z :=
  obind (coerce_version (get "version" session)) (fun v => Ok (default v expected_version)).

Definition _transition_session (session_id target_status actor : string) (note : option string)
    (expected_version : option Z) : M (world C) doc :=
  do session <- ensure_session_exists session_id ;;
  let current := normalize_session_status (get "status" session) in
  let target := normalize_session_status (VStr target_status) in
  run assert_valid_transition current target ;;
  do _ <- assert_valid_write true
            (guard_context session session_id [("from_state", VStr current); ("to_state", VStr target)]) ;;
  run (if String.eqb target "FINALIZED" then _assert_session_ready_to_finalize session_id else ret tt) ;;
  do now_dt <- utc_now clock ;;
  let update_doc := transition_update target actor note now_dt in
  do _ <- validate_session (aupd session update_doc) None ;;
  do expected <- lift (effective_expected session expected_version) ;;
  run _update_session_with_occ session_id update_doc expected ;;
  do _ <- _execute_authorized_write
            (db_update_one "verification_sessions" (QEq "session_id" (VStr session_id))
               (USet [("status", VStr target); ("last_heartbeat", VTime now_dt)])) ;;
  run log_write_event (Audit "SESSION_WRITE" "TRANSITION" session_id (VInt (expected + 1)) (VStr actor)
        (VDict [("from", VStr current); ("to", VStr target); ("note", opt_str note)])) ;;
  run _sync_session_projection session_id "session.transition" actor ;;
  ensure_session_exists session_id.

Definition transition_session (cl : client) (has_session : bool) (session_id target_status actor : string)
    (note : option string) (expected_version : option Z) : M (world C) doc :=
  if has_session then _transition_session session_id target_status actor note expected_version
  else with_uow cl (fun _ => _transition_session session_id target_status actor note expected_version).

(** ** Field updates *)

Definition update_session_totals (session_id : string) (new_totals : doc) (expected_version : option Z)
    (actor : string) (sync_projection : bool) : M (world C) unit :=
  do session <- ensure_session_not_finalized session_id ;;
  do _ <- assert_valid_write true (guard_context session session_id []) ;;
  do expected <- lift (effective_expected session expected_version) ;;
  run _update_session_with_occ session_id new_totals expected ;;
  run log_write_event (Audit "SESSION_WRITE" "UPDATE_TOTALS" session_id (VInt (expected + 1)) (VStr actor) VNone) ;;
  when sync_projection (_sync_session_projection session_id "session.update_totals" actor).

Definition update_session_fields (session_id : string) (fields : doc) (expected_version : option Z)
    (actor : string) : M (world C) unit :=
  if is_empty fields then ret tt
  else
    do session <- ensure_session_not_finalized session_id ;;
    do _ <- assert_valid_write true (guard_context session session_id []) ;;
    do expected <- lift (effective_expected session expected_version) ;;
    run _update_session_with_occ session_id fields expected ;;
    run log_write_event (Audit "SESSION_WRITE" "UPDATE_FIELDS" session_id (VInt (expected + 1)) (VStr actor) VNone) ;;
    _sync_session_projection session_id "session.update_fields" actor.

Definition persist_logic_pin (session_id : string) (logic_version logic_scope_source : option string)
    (expected_version : option Z) (actor : string) : M (world C) unit :=
  update_session_fields session_id
    [("logic_version", opt_str logic_version); ("logic_scope_source", opt_str logic_scope_source)]
    expected_version actor.

(** ** Recount requests *)

Definition _recount_lookup (recount_id : string) : query :=
  match object_id recount_id with
  | Some oid => QEq "_id" (VOid oid)
  | None => QEq "id" (VStr recount_id)
  end.

Definition _normalize_recount_status (value : val) : string :=
  match value with
  | VStr s => let normalized := lower (strip s) in
              if String.eqb normalized "" then "pending" else normalized
  | _ => "pending"
  end.

Definition get_recount_request (recount_id : string) : M (world C) (option doc) :=
  db_find_one "recount_requests" (_recount_lookup recount_id).

Definition ensure_open_when_named (session_id : string) : M (world C) unit :=
  if String.eqb session_id "" then ret tt
  else do _ <- ensure_session_not_finalized session_id ;; ret tt.

Definition _create_recount_request (recount_doc : doc) (actor : string) : M (world C) doc :=
  run raise_if (is_empty recount_doc) (GovernanceViolation "CRITICAL: recount_doc is required") ;;
  let session_id := strip (to_str (por (get "session_id" recount_doc) (VStr ""))) in
  run ensure_open_when_named session_id ;;
  do now_dt <- utc_now clock ;;
  let created_doc :=
    setdefault "updated_at" (VTime now_dt)
      (setdefault "created_at" (VTime now_dt) (setdefault "status" (VStr "pending") recount_doc)) in
  do inserted <- _execute_authorized_write (db_insert_one "recount_requests" created_doc) ;;
  let id := if truthy (get "_id" inserted) then to_str (get "_id" inserted)
            else to_str (por (get "id" recount_doc) (VStr "")) in
  let created_doc := aset "id" (VStr id) inserted in
  run log_write_event (Audit "SESSION_WRITE" "RECOUNT_CREATE"
        (if String.eqb session_id "" then "UNKNOWN" else session_id) VNone (VStr actor)
        (VDict [("recount_id", get "id" created_doc); ("count_line_id", get "count_line_id" created_doc);
                ("status", get "status" created_doc)])) ;;
  ret created_doc.

Definition create_recount_request (cl : client) (has_session : bool) (recount_doc : doc) (actor : string)
  : M (world C) doc :=
  if has_session then _create_recount_request recount_doc actor
  else with_uow cl (fun _ => _create_recount_request recount_doc actor).

Definition recount_allowed (current target : string) : bool :=
  match aget current RECOUNT_ALLOWED_TRANSITIONS with
  | None => false
  | Some allowed_targets => str_in target allowed_targets || String.eqb target current
  end.

Definition _assert_recount_transition (current_status target_status : string) : M (world C) unit :=
  let current := _normalize_recount_status (VStr current_status) in
  let target := _normalize_recount_status (VStr target_status) in
  match aget current RECOUNT_ALLOWED_TRANSITIONS with
  | None => raise (GovernanceViolation ("CRITICAL: Unknown recount status '" +:+ current +:+ "'"))
  | Some allowed_targets =>
      raise_if (negb (str_in target allowed_targets) && negb (String.eqb target current))
        (GovernanceViolation ("CRITICAL: Invalid recount transition " +:+ current +:+ " -> " +:+ target))
  end.

Definition _transition_recount_request (recount_id target_status actor : string) (fields : doc)
  : M (world C) doc :=
  do found <- get_recount_request recount_id ;;
  match found with
  | None | Some [] => raise (GovernanceViolation ("CRITICAL: Recount request not found: " +:+ recount_id))
  | Some recount =>
      let current_status := _normalize_recount_status (get "status" recount) in
      let normalized_target := _normalize_recount_status (VStr target_status) in
      run _assert_recount_transition current_status normalized_target ;;
      let session_id := strip (to_str (por (get "session_id" recount) (VStr ""))) in
      run ensure_open_when_named session_id ;;
      do now_dt <- utc_now clock ;;
      let update_fields :=
        setdefault "updated_at" (VTime now_dt) (aset "status" (VStr normalized_target) fields) in
      let lookup := match get "_id" recount with
                    | VNone => _recount_lookup recount_id
                    | i => QEq "_id" i
                    end in
      do _ <- _execute_authorized_write (db_update_one "recount_requests" lookup (USet update_fields)) ;;
      do refreshed <- get_recount_request recount_id ;;
      let refreshed := match refreshed with
                       | None | Some [] => aupd recount update_fields
                       | Some d => d
                       end in
      run log_write_event (Audit "SESSION_WRITE" "RECOUNT_TRANSITION"
            (if String.eqb session_id "" then "UNKNOWN" else session_id) VNone (VStr actor)
            (VDict [("recount_id", VStr (to_str (por (get "_id" recount)
                                            (por (get "id" recount) (VStr recount_id)))));
                    ("from_status", VStr current_status); ("to_status", VStr normalized_target)])) ;;
      ret refreshed
  end.

Definition transition_recount_request (cl : client) (has_session : bool)
    (recount_id target_status actor : string) (fields : doc) : M (world C) doc :=
  if has_session then _transition_recount_request recount_id target_status actor fields
  else with_uow cl (fun _ => _transition_recount_request recount_id target_status actor fields).

(** ** Finalization *)

(** [CountLineWriteService.finalize_session_count_lines] *)
Definition line_update (actor : string) (finalized_at : Z) (note : option string) : doc :=
  [("status", VStr "locked"); ("approval_status", VStr "APPROVED"); ("verified", VBool true);
   ("verified_by", VStr actor); ("verified_at", VTime finalized_at);
   ("approved_by", VStr actor); ("approved_at", VTime finalized_at);
   ("finalized_by", VStr actor); ("finalized_at", VTime finalized_at);
   ("updated_at", VTime finalized_at); ("updated_by", VStr actor)]
  ++ (if truthy (opt_str note) then [("finalization_note", opt_str note)] else []).

Definition count_line_filter (session_id : string) : query :=
  QAnd [QEq "session_id" (VStr session_id);
        QNin "status" [VStr "locked"; VStr "SUPERSEDED"; VStr "superseded"];
        QNin "approval_status" [VStr "REJECTED"; VStr "NEEDS_REVIEW"]].

Definition finalize_session_count_lines (session_id actor : string) (finalized_at : Z)
    (note : option string) : M (world C) Z :=
  write_authority "CountLineWriteService"
    (db_update_many "count_lines" (count_line_filter session_id)
       (USet (line_update actor finalized_at note))).

Definition to_finalize (line : doc) : bool :=
  negb (str_in (to_str (por (get "status" line) (VStr ""))) ["locked"; "SUPERSEDED"; "superseded"])
  && negb (str_in (to_str (por (get "approval_status" line) (VStr ""))) ["REJECTED"; "NEEDS_REVIEW"]).

Definition finalize_update (actor : string) (finalized_at : Z) (note : option string) (totals : doc) : doc :=
  aupd
    [("status", VStr "FINALIZED"); ("finalization_status", VStr "FINALIZED");
     ("completed_at", VTime finalized_at); ("closed_at", VTime finalized_at);
     ("last_heartbeat", VTime finalized_at); ("finalized_at", VTime finalized_at);
     ("finalized_by", VStr actor); ("updated_at", VTime finalized_at); ("updated_by", VStr actor)]
    (totals ++ if truthy (opt_str note) then [("finalization_note", opt_str note)] else []).

(** [to_list(length=50000)] *)
Definition max_lines : nat := Z.to_nat 50000.

(** The checks of finalization, up to the blocking count lines. *)
Definition _finalization_checks (session_id : string) : M (world C) (doc * list doc) :=
  do session <- ensure_session_exists session_id ;;
  run raise_if (is_finalized_session session)
        (GovernanceViolation "Session is finalized. Mutation blocked.") ;;
  let current := normalize_session_status (get "status" session) in
  run raise_if (negb (String.eqb current "REVIEW"))
        (GovernanceViolation "CRITICAL: Session must be in REVIEW before FINALIZED") ;;
  run assert_valid_transition current "FINALIZED" ;;
  do _ <- assert_valid_write true
            (guard_context session session_id [("from_state", VStr current); ("to_state", VStr "FINALIZED")]) ;;
  run _assert_session_ready_to_finalize session_id ;;
  do cursor <- db_find "count_lines" (session_lines session_id) ;;
  let lines := take max_lines cursor in
  run raise_if (existsb is_blocking_finalization lines)
        (GovernanceViolation "CRITICAL: Session has unresolved count lines and cannot be finalized") ;;
  ret (session, lines).

Definition _finalize_count_lines (session_id actor : string) (note : option string) (finalized_at : Z)
    (lines : list doc) : M (world C) unit :=
  if existsb to_finalize lines then
    run raise_if (negb has_finalizer)
          (GovernanceViolation "CRITICAL: Session finalization requires configured count-line finalizer") ;;
    do _ <- finalize_session_count_lines session_id actor finalized_at note ;;
    ret tt
  else ret tt.

Definition _finalize_session_canonical_core (session_id actor : string) (note : option string)
  : M (world C) doc :=
  do '(session, lines) <- _finalization_checks session_id ;;
  do finalized_at <- utc_now clock ;;
  run _finalize_count_lines session_id actor note finalized_at lines ;;
  do totals <- _compute_session_totals session_id ;;
  do expected_version <- lift (coerce_version (get "version" session)) ;;
  run _update_session_with_occ session_id (finalize_update actor finalized_at note totals) expected_version ;;
  do _ <- _execute_authorized_write
            (db_update_one "verification_sessions" (QEq "session_id" (VStr session_id))
               (USet [("status", VStr "FINALIZED"); ("last_heartbeat", VTime finalized_at);
                      ("completed_at", VTime finalized_at); ("updated_by", VStr actor)])) ;;
  run log_write_event (Audit "SESSION_WRITE" "FINALIZE" session_id (VInt (expected_version + 1)) (VStr actor)
        (VDict [("note", opt_str note)])) ;;
  run _sync_session_projection session_id "session.finalize" actor ;;
  do refreshed <- ensure_session_exists session_id ;;
  ret [("session", VDict refreshed); ("finalized_at", VTime finalized_at); ("totals", VDict totals)].

Definition finalize_session_canonical (cl : client) (has_session : bool) (session_id actor : string)
    (note : option string) : M (world C) doc :=
  if has_session then _finalize_session_canonical_core session_id actor note
  else with_uow cl (fun _ => _finalize_session_canonical_core session_id actor note).
End lifecycle.
