(* ===== verification/LifecycleSpec.v ===== *)
(** What the session lifecycle guarantees: versioned updates lose no write, a
    finalized session stays as it is, finalization seals the count lines, and
    requests are atomic where the deployment has transactions. *)

From S2P Require Import Prelude PyFloat Py Store ListStore Guard Inventory Uow Frame Lifecycle.

Local Open Scope Z_scope.
Local Open Scope stock_scope.

(** ** Frames of the parts of the handlers *)

Section frames.
Context {C : Type} `{Mongo C}.
Context (clock : nat → Z) (strict_mode write_logs has_finalizer : bool).
Context (object_id : string → option string).

Lemma frame_best_effort {A} P (m : M (world C) A) : frame P m → frame P (best_effort m).
Proof.
  intros Hm w r w' Hb. unfold best_effort in Hb. simplify_eq.
  destruct (m w) as [r1 w1] eqn:E. by apply (Hm _ _ _ E).
Qed.

Lemma frame_log_keys P item loc key hash a actor :
  str_in "governance_events" P = true → frame P (log_event_keys (C:=C) clock item loc key hash a actor).
Proof.
  intros Hin. apply frame_bind; [auto with frame|]. intros now.
  by apply frame_best_effort, frame_insert.
Qed.

Lemma frame_log P item loc a actor :
  str_in "governance_events" P = true → frame P (log_governance_event (C:=C) clock item loc a actor).
Proof. apply frame_log_keys. Qed.

Lemma frame_log_write P a :
  str_in "governance_events" P = true → frame P (log_write_event (C:=C) clock a).
Proof. apply frame_log. Qed.

#[local] Hint Resolve frame_log_write : frame.

Lemma frame_validate P d b :
  str_in "validation_logs" P = true → frame P (validate_session (C:=C) clock strict_mode write_logs d b).
Proof.
  intros Hin. unfold validate_session, _handle_errors, log_violation. solve_frame.
Qed.

Lemma frame_exists P sid : frame P (ensure_session_exists (C:=C) sid).
Proof. unfold ensure_session_exists, get_session. solve_frame. Qed.

Lemma frame_not_finalized P sid : frame P (ensure_session_not_finalized (C:=C) sid).
Proof. unfold ensure_session_not_finalized, ensure_session_exists, get_session. solve_frame. Qed.

Lemma frame_ready P sid : frame P (_assert_session_ready_to_finalize (C:=C) sid).
Proof. unfold _assert_session_ready_to_finalize. solve_frame. Qed.

Lemma frame_totals P sid : frame P (_compute_session_totals (C:=C) clock sid).
Proof. unfold _compute_session_totals. solve_frame. Qed.

Lemma frame_occ P sid d v :
  str_in "sessions" P = true → frame P (_update_session_with_occ (C:=C) sid d v).
Proof. intros Hin. unfold _update_session_with_occ, _execute_authorized_write. solve_frame. Qed.

#[local] Hint Resolve frame_exists frame_not_finalized frame_ready frame_totals : frame.

Lemma frame_checks P sid : frame P (_finalization_checks (C:=C) sid).
Proof. unfold _finalization_checks. solve_frame. Qed.

Lemma frame_count_lines P sid actor note t l :
  str_in "count_lines" P = true → frame P (_finalize_count_lines (C:=C) has_finalizer sid actor note t l).
Proof.
  intros Hin. unfold _finalize_count_lines, finalize_session_count_lines. solve_frame.
Qed.

Lemma frame_named P sid : frame P (ensure_open_when_named (C:=C) sid).
Proof. unfold ensure_open_when_named. solve_frame. Qed.
End frames.

#[export] Hint Resolve frame_log_write frame_validate frame_exists frame_not_finalized frame_ready
  frame_totals frame_occ frame_checks frame_count_lines frame_named : frame.

(** ** The versioned update *)

(** An update that leaves the keys of a session alone. *)
Definition session_fields_ok (set_doc : doc) : bool :=
  negb (str_in "id" (map fst set_doc)) && negb (str_in "session_id" (map fst set_doc))
  && negb (str_in "version" (map fst set_doc))
  && (if decide (NoDup (map fst set_doc)) then true else false).

(** The version of a stored session: a number, or no version at all; and one
    that the next update can still increment. *)
Definition version_int (d : doc) : Prop :=
  aget "version" d = None ∨ ∃ z, aget "version" d = Some (VInt z) ∧ 0 <= z.
Definition version_ok (d : doc) : Prop :=
  aget "version" d = None ∨ ∃ z, aget "version" d = Some (VInt z) ∧ 0 <= z < int64_max.

Lemma version_ok_int d : version_ok d → version_int d.
Proof. intros [|(z & Hz & Hb)]; [by left | right; exists z; split; [done | lia]]. Qed.

Definition version_of (d : doc) : Z := match get "version" d with VInt z => z | _ => 0 end.

Lemma occ_keys set_doc k :
  k ∈ update_keys (occ_update set_doc) ↔ k ∈ map fst set_doc ∨ k = "version".
Proof.
  unfold update_keys, occ_update. simpl. rewrite elem_of_app, elem_of_cons.
  split; [intros [?|[?|?%elem_of_nil]]; tauto | tauto].
Qed.

Lemma occ_nodup set_doc :
  session_fields_ok set_doc = true → NoDup (update_keys (occ_update set_doc)).
Proof.
  unfold session_fields_ok. intros Hs. bool_hyps. case_match; [|done].
  unfold update_keys, occ_update. simpl. apply list.NoDup_app. split_and!; [done| |].
  - intros x Hx Hv. apply elem_of_cons in Hv as [->|?%elem_of_nil]; [|done].
    apply str_in_spec in Hx. congruence.
  - apply NoDup_singleton.
Qed.

Lemma fields_ok_other set_doc k :
  session_fields_ok set_doc = true → k = "id" ∨ k = "session_id" →
  k ∉ update_keys (occ_update set_doc).
Proof.
  unfold session_fields_ok. intros Hs Hk. bool_hyps. rewrite occ_keys. intros [Hin| ->].
  - apply str_in_spec in Hin. destruct Hk; subst; congruence.
  - by destruct Hk.
Qed.

Section occ.
Context {C : Type} `{MongoLaws C}.
Implicit Types (w : world C) (c : C) (d : doc) (sid : string).

Lemma lifecycle_writes_sessions w :
  refused "sessions" (set_auth (Some "SessionLifecycleService") w) = false.
Proof. unfold refused. by rewrite andb_false_r. Qed.

Lemma authorized_update w q u :
  _execute_authorized_write (db_update_one "sessions" q u) w =
  (Ok (fst (update_one q u (w_db w "sessions"))),
   set_coll "sessions" (snd (update_one q u (w_db w "sessions"))) w).
Proof.
  unfold _execute_authorized_write, write_authority. cbv zeta.
  change (if String.eqb _ _ then _ else _) with (Some "SessionLifecycleService").
  unfold db_update_one.
  erewrite bind_ok by (apply guard_allowed; [reflexivity | apply lifecycle_writes_sessions]).
  unfold counted. simpl. by destruct (update_one _ _ _).
Qed.

Lemma occ_filter_inv sid v d :
  matches (occ_filter sid v) d = true →
  matches (_lookup sid) d = true ∧ matches (build_version_filter v) d = true.
Proof. unfold occ_filter. rewrite matches_and. simpl. intros. bool_hyps. done. Qed.

(** The versioned update either replaces one matching document by its update,
    or raises and leaves the collection as it was. *)
Lemma occ_cases sid set_doc v w r w' :
  _update_session_with_occ sid set_doc v w = (r, w') →
  (r = Ok tt ∧ ∃ d rest, contents (w_db w "sessions") ≡ₚ d :: rest ∧
     matches (occ_filter sid v) d = true ∧
     contents (w_db w' "sessions") ≡ₚ apply_update (occ_update set_doc) d :: rest) ∨
  ((∃ msg, r = Raise (ConcurrencyError msg)) ∧
     contents (w_db w' "sessions") ≡ₚ contents (w_db w "sessions") ∧
     ((∀ d, d ∈ contents (w_db w "sessions") → matches (occ_filter sid v) d = false) ∨
      ∃ d, d ∈ contents (w_db w "sessions") ∧ matches (occ_filter sid v) d = true ∧
           apply_update (occ_update set_doc) d = d)).
Proof.
  unfold _update_session_with_occ, bind. rewrite authorized_update.
  set (q := occ_filter sid v). set (u := occ_update set_doc).
  set (c := w_db w "sessions"). intros Hr.
  assert (w_db w' "sessions" = snd (update_one q u c)) as Hw'.
  { destruct (_ =? 0); unfold raise_if, raise, ret in Hr; simplify_eq/=; apply fn_lookup_insert. }
  rewrite Hw'. destruct (find_one q c) as [d0|] eqn:Ef.
  - apply find_one_some in Ef as [Hd0 Hm0].
    destruct (update_one_some q u c) as (d & rest & Hc & Hm & Hc' & Hn); [by exists d0|].
    destruct Hn as [[Hn Ha] | [Hn Ha]]; rewrite Hn in Hr; unfold raise_if, raise, ret in Hr;
      simplify_eq/=.
    + right. split_and!; [by eexists | by rewrite Hc', Ha, Hc |]. right. exists d.
      split_and!; [|done..]. rewrite Hc. left.
    + left. split; [done|]. by exists d, rest.
  - pose proof (find_one_none _ _ Ef) as Hnone. rewrite update_one_none in Hr by done.
    unfold raise_if, raise in Hr. simplify_eq/=. right.
    rewrite update_one_none by done. split_and!; [by eexists | done | by left].
Qed.

(** Which stored versions the filter accepts. *)
Lemma version_filter d v :
  version_int d → 0 <= v → matches (build_version_filter v) d = (version_of d =? v).
Proof.
  intros Hv Hpos.
  assert (is_list (get "version" d) = false ∧
          bson_eqb (VInt v) (get "version" d) = match aget "version" d with Some (VInt z) => v =? z | _ => false end) as [Hl He].
  { unfold get. by destruct Hv as [-> | (z & -> & _)]. }
  unfold build_version_filter, version_of. destruct (v <=? 0) eqn:E.
  - apply Z.leb_le in E. assert (v = 0) as -> by lia.
    rewrite matches_or. simpl. rewrite matches_eq, matches_exists, He by done.
    unfold get. destruct Hv as [-> | (z & -> & Hz)]; simpl; [done|]. by rewrite !orb_false_r, Z.eqb_sym.
  - rewrite matches_eq, He by done. unfold get. destruct Hv as [-> | (z & -> & Hz)]; simpl.
    + symmetry. change ((0 =? v) = false). apply Z.eqb_neq. apply Z.leb_gt in E. lia.
    + by rewrite Z.eqb_sym.
Qed.

Lemma version_after set_doc d :
  session_fields_ok set_doc = true → version_ok d →
  aget "version" (apply_update (occ_update set_doc) d) = Some (VInt (version_of d + 1)).
Proof.
  intros Hs Hv. pose proof (occ_nodup _ Hs) as Hnd. unfold version_of, get.
  destruct Hv as [Hn | (z & Hz & Hb)].
  - rewrite (apply_inc_missing _ d "version" 1) by done. by rewrite Hn.
  - rewrite (apply_inc_int _ d "version" 1 z) by (done || (unfold int64_max in *; lia)). by rewrite Hz.
Qed.

(** The id fields of a session are scalars, so that the lookup compares them. *)
Definition ids_plain d : Prop := is_list (get "id" d) = false ∧ is_list (get "session_id" d) = false.

Lemma lookup_matches sid d :
  ids_plain d →
  matches (_lookup sid) d = bson_eqb (VStr sid) (get "id" d) || bson_eqb (VStr sid) (get "session_id" d).
Proof.
  intros [H1 H2]. unfold _lookup, session_lookup. rewrite matches_or. simpl.
  rewrite !matches_eq by done. by rewrite orb_false_r.
Qed.

Lemma ids_after set_doc d :
  session_fields_ok set_doc = true →
  get "id" (apply_update (occ_update set_doc) d) = get "id" d ∧
  get "session_id" (apply_update (occ_update set_doc) d) = get "session_id" d.
Proof. intros Hs. split; apply get_apply_other, fields_ok_other; auto. Qed.

Lemma lookup_after sid set_doc d :
  ids_plain d → session_fields_ok set_doc = true →
  matches (_lookup sid) (apply_update (occ_update set_doc) d) = matches (_lookup sid) d.
Proof.
  intros Hp Hs. destruct (ids_after set_doc d Hs) as [H1 H2].
  rewrite !lookup_matches; [by rewrite H1, H2 | done |]. unfold ids_plain. by rewrite H1, H2.
Qed.
End occ.

(** ** The sessions collection as a whole *)

(** Session ids are scalars and name at most one session. *)
Record sessions_ok `{Mongo C} (c : C) : Prop := {
  so_ids : ∀ d, d ∈ contents c → ids_plain d;
  so_unique : ∀ sid, at_most_one (_lookup sid) c;
}.

Section sessions.
Context {C : Type} `{MongoLaws C}.
Implicit Types (w : world C) (c : C) (d s : doc) (sid : string).

(** One step on the sessions: nothing, or a versioned update of the session the
    id names, which was open. *)
Inductive sessions_step sid c c' : Prop :=
| step_same : contents c' ≡ₚ contents c → sessions_step sid c c'
| step_update d rest set_doc :
    contents c ≡ₚ d :: rest → matches (_lookup sid) d = true → is_finalized_session d = false →
    session_fields_ok set_doc = true →
    contents c' ≡ₚ apply_update (occ_update set_doc) d :: rest →
    sessions_step sid c c'.

Lemma sessions_ok_perm c c' : contents c' ≡ₚ contents c → sessions_ok c → sessions_ok c'.
Proof.
  intros Hp [Hi Hu]. split.
  - intros d Hd. apply Hi. by rewrite <- Hp.
  - intros sid. unfold at_most_one. rewrite Hp. apply Hu.
Qed.

Lemma sessions_step_ok sid c c' : sessions_step sid c c' → sessions_ok c → sessions_ok c'.
Proof.
  intros [Hp | d rest set_doc Hc Hm Ho Hs Hc'] Hok; [by apply (sessions_ok_perm c)|].
  destruct Hok as [Hi Hu]. assert (ids_plain d) as Hd by (apply Hi; rewrite Hc; left). split.
  - intros e He. rewrite Hc' in He. apply elem_of_cons in He as [->|He].
    + unfold ids_plain. destruct (ids_after set_doc d Hs) as [-> ->]. done.
    + apply Hi. rewrite Hc. by right.
  - intros sid'. apply (at_most_one_replace _ c c' d (apply_update (occ_update set_doc) d) rest);
      [done|done| by apply lookup_after | apply Hu].
Qed.

(** A finalized session is untouched by a step. *)
Lemma sessions_step_finalized sid c c' s :
  sessions_step sid c c' → s ∈ contents c → is_finalized_session s = true → s ∈ contents c'.
Proof.
  intros [Hp | d rest set_doc Hc Hm Ho Hs Hc'] Hin Hf; [by rewrite Hp|].
  rewrite Hc in Hin. apply elem_of_cons in Hin as [->|Hin]; [congruence|].
  rewrite Hc'. by right.
Qed.

(** The step of a versioned update after a check that the session is open. *)
Lemma occ_step sid set_doc v w r w' d c :
  w_db w "sessions" = c → sessions_ok c → session_fields_ok set_doc = true →
  find_one (_lookup sid) c = Some d → is_finalized_session d = false →
  _update_session_with_occ sid set_doc v w = (r, w') →
  sessions_step sid c (w_db w' "sessions").
Proof.
  intros Hw Hok Hs Hf Ho Hu. apply find_one_some in Hf as [Hd Hm].
  apply occ_cases in Hu as [(_ & e & rest & Hc & He & Hc') | (_ & Hp & _)]; rewrite Hw in *.
  - apply occ_filter_inv in He as [He _].
    assert (e = d) as ->.
    { apply (at_most_one_eq (_lookup sid) c); [by apply Hok| |done..]. rewrite Hc. left. }
    by apply (step_update sid c _ d rest set_doc).
  - by apply step_same.
Qed.
End sessions.

(** ** Every request is a step *)

(** The collections a lifecycle request writes besides the sessions. *)
Definition others : list string :=
  ["verification_sessions"; "recount_requests"; "session_snapshots"; "count_lines";
   "governance_events"; "validation_logs"].

Section requests.
Context {C : Type} `{MongoLaws C}.
Context (clock : nat → Z) (strict_mode write_logs has_finalizer : bool).
Context (object_id : string → option string).
Implicit Types (w : world C) (c : C) (d s : doc) (sid : string).

(** The sessions before and after are related, by [Rok] when the outcome is a
    result, and by [R] in any case. *)
Section relates.
Context (Rok R : C → C → Prop) (Hrefl : ∀ c, R c c) (Hsub : ∀ c c', Rok c c' → R c c').

Definition relates {A} (m : M (world C) A) w : Prop :=
  ∀ r w', m w = (r, w') → (if is_ok r then Rok else R) (w_db w "sessions") (w_db w' "sessions").

Lemma relates_frame {A} P (m : M (world C) A) w :
  (∀ c, Rok c c) → str_in "sessions" P = false → frame P m → relates m w.
Proof using Hrefl. intros Hrok Hp Hf r w' Hm. rewrite (frame_db _ _ _ _ _ "sessions" Hf Hm Hp). by destruct (is_ok r). Qed.

Lemma relates_raise {A} e w : relates (@raise (world C) A e) w.
Proof using Hrefl. intros r w' Hm. unfold raise in Hm. simplify_eq. apply Hrefl. Qed.

Lemma relates_pre {A B} P (m : M (world C) A) (f : A → M (world C) B) w :
  str_in "sessions" P = false → frame P m →
  (∀ a w1, m w = (Ok a, w1) → w_db w1 "sessions" = w_db w "sessions" → relates (f a) w1) →
  relates (bind m f) w.
Proof using Hrefl.
  intros Hp Hf Hs r w' Hb. unfold bind in Hb. destruct (m w) as [[a|e] w1] eqn:E;
    pose proof (frame_db _ _ _ _ _ "sessions" Hf E Hp) as Hw1.
  - rewrite <- Hw1. by apply (Hs a w1 eq_refl Hw1 r).
  - simplify_eq. rewrite Hw1. apply Hrefl.
Qed.

Lemma relates_post {A B} P (m : M (world C) A) (f : A → M (world C) B) w :
  str_in "sessions" P = false → relates m w → (∀ a, frame P (f a)) → relates (bind m f) w.
Proof using Hsub.
  intros Hp Hs Hf r w' Hb. unfold bind in Hb. destruct (m w) as [[a|e] w1] eqn:E.
  - rewrite (frame_db _ _ _ _ _ "sessions" (Hf a) Hb Hp). pose proof (Hs _ _ E) as Hok. destruct (is_ok r); [done|by apply Hsub].
  - simplify_eq. by apply (Hs (Raise e)).
Qed.

(** A unit of work ends with the sessions of its start or those of its body. *)
Lemma relates_uow {A} cl P (body : bool → M (world C) A) w :
  (∀ b, frame P (body b)) → (∀ b, relates (body b) w) → relates (with_uow cl body) w.
Proof using Hrefl.
  intros Hf Hb r w' Hw. unfold with_uow in Hw.
  destruct (__aenter__ cl) as [u|e]; [|simplify_eq; apply Hrefl].
  destruct (body (u_session u) w) as [[a|e] w1] eqn:E; pose proof (Hb _ _ _ E) as Hr; simplify_eq.
  - by destruct u as [[] [] []].
  - cbn [is_ok] in *. unfold __aexit__. destruct (_ && _); [|done].
    destruct (Hf _ _ _ _ E) as (_ & Hu & _). erewrite rollback_restores; [apply Hrefl | exact Hu |].
    intros [_ Ho]. discriminate Ho.
Qed.
End relates.

Lemma relates_same (R : C → C → Prop) {A} (m : M (world C) A) w :
  relates R R m w ↔ ∀ r w', m w = (r, w') → R (w_db w "sessions") (w_db w' "sessions").
Proof. split; intros Hm r w' Hr; specialize (Hm r w' Hr); by destruct (is_ok r). Qed.

Lemma step_refl sid c : sessions_step sid c c.
Proof. by apply step_same. Qed.

Definition steps {A} sid (m : M (world C) A) w : Prop :=
  ∀ r w', m w = (r, w') → sessions_step sid (w_db w "sessions") (w_db w' "sessions").

Lemma steps_relates {A} sid (m : M (world C) A) w : relates (sessions_step sid) (sessions_step sid) m w ↔ steps sid m w.
Proof. exact (relates_same _ m w). Qed.

Lemma steps_frame {A} sid (m : M (world C) A) w : frame others m → steps sid m w.
Proof. intros Hf. apply steps_relates. apply (relates_frame _ _ (step_refl sid) others); [apply step_refl|done..]. Qed.

Lemma steps_bind_pre {A B} sid (m : M (world C) A) (f : A → M (world C) B) w :
  frame others m →
  (∀ a w1, m w = (Ok a, w1) → w_db w1 "sessions" = w_db w "sessions" → steps sid (f a) w1) →
  steps sid (bind m f) w.
Proof.
  intros Hf Hs. apply steps_relates, (relates_pre _ _ (step_refl sid) others); [done..|]. intros a w1 Ha Hw. by apply steps_relates, Hs.
Qed.

Lemma steps_bind_post {A B} sid (m : M (world C) A) (f : A → M (world C) B) w :
  steps sid m w → (∀ a, frame others (f a)) → steps sid (bind m f) w.
Proof. intros Hs Hf. by apply steps_relates, (relates_post _ _ (fun _ _ Hr => Hr) others); [|apply steps_relates|]. Qed.

Lemma steps_uow {A} sid cl P (body : bool → M (world C) A) w :
  (∀ b, frame P (body b)) → (∀ b, steps sid (body b) w) → steps sid (with_uow cl body) w.
Proof. intros Hf Hb. apply steps_relates, (relates_uow _ _ (step_refl sid) cl P); [done|]. intros b. apply steps_relates, Hb. Qed.

(** ** What the checks of a handler establish *)

Lemma exists_ok sid w d w' :
  ensure_session_exists sid w = (Ok d, w') →
  w' = w ∧ find_one (_lookup sid) (w_db w "sessions") = Some d ∧ is_empty d = false.
Proof.
  unfold ensure_session_exists, get_session. intros Hm. monad_inv.
  unfold db_find_one, gets in Hm0. simplify_eq.
  destruct (find_one _ _) as [[|kv d']|]; try discriminate Hm. monad_inv. done.
Qed.

Lemma not_finalized_ok sid w d w' :
  ensure_session_not_finalized sid w = (Ok d, w') →
  w' = w ∧ find_one (_lookup sid) (w_db w "sessions") = Some d ∧ is_finalized_session d = false.
Proof.
  unfold ensure_session_not_finalized. intros Hm. monad_inv.
  by apply exists_ok in Hm0 as (-> & ? & _).
Qed.

(** The guard call of the lifecycle handlers: the session is open and the
    transition, if any, is permitted. *)
Lemma lifecycle_guard_ok d sid states w d' w' :
  assert_valid_write true (guard_context d sid states) w = (Ok d', w') →
  w' = w ∧ d' = d ∧ is_finalized_session d = false.
Proof.
  unfold assert_valid_write. intros Hm. monad_inv.
  match goal with Hl : _load_session _ _ = _ |- _ =>
    change (_load_session (guard_context d sid states)) with (@ret (world C) _ (VDict d)) in Hl end.
  monad_inv. match goal with Ht : when _ _ _ = _ |- _ =>
    apply when_ok_inv in Ht as [[_ Ht] | [_ ->]]; [|done] end.
  match goal with Ht : assert_valid_transition _ _ _ = _ |- _ =>
    unfold assert_valid_transition in Ht; by apply raise_if_ok_inv in Ht as [_ ->] end.
Qed.

Lemma steps_occ {A} sid set_doc v (f : unit → M (world C) A) w d :
  sessions_ok (w_db w "sessions") → session_fields_ok set_doc = true →
  find_one (_lookup sid) (w_db w "sessions") = Some d → is_finalized_session d = false →
  (∀ a, frame others (f a)) → steps sid (bind (_update_session_with_occ sid set_doc v) f) w.
Proof.
  intros Hok Hs Hf Ho Hfr. apply steps_bind_post; [|done].
  intros r w' Hu. by apply (occ_step sid set_doc v w r w' d _ eq_refl).
Qed.

(** ** The documents the handlers write *)

Lemma transition_fields_ok target actor note t :
  session_fields_ok (transition_update target actor note t) = true.
Proof.
  unfold transition_update.
  destruct (String.eqb target "REVIEW"), (String.eqb target "FINALIZED"), (truthy (opt_str note));
    vm_compute; reflexivity.
Qed.

Lemma finalize_fields_ok actor t note tot now :
  session_fields_ok (finalize_update actor t note (session_update tot now)) = true.
Proof.
  unfold finalize_update, session_update. destruct (t_last tot), (truthy (opt_str note));
    vm_compute; reflexivity.
Qed.

Lemma totals_ok sid w d w' :
  _compute_session_totals clock sid w = (Ok d, w') →
  ∃ tot now, d = session_update tot now ∧
             add_lines totals0 (find_all (session_lines sid) (w_db w "count_lines")) = Ok tot.
Proof.
  unfold _compute_session_totals. intros Hm. monad_inv. unfold db_find, gets in Hm0. simplify_eq.
  eauto.
Qed.

Lemma steps_transition sid target actor note ev w :
  sessions_ok (w_db w "sessions") →
  steps sid (_transition_session clock strict_mode write_logs sid target actor note ev) w.
Proof.
  intros Hok. unfold _transition_session. cbv zeta.
  apply steps_bind_pre; [solve_frame|]. intros d w1 (-> & Hf & _)%exists_ok _.
  apply steps_bind_pre; [solve_frame|]. intros [] w2 _ H2.
  apply steps_bind_pre; [solve_frame|]. intros d3 w3 (-> & _ & Ho)%lifecycle_guard_ok H3.
  apply steps_bind_pre; [solve_frame|]. intros [] w4 _ H4.
  apply steps_bind_pre; [solve_frame|]. intros now w5 _ H5.
  apply steps_bind_pre; [solve_frame|]. intros errs w6 _ H6.
  apply steps_bind_pre; [solve_frame|]. intros v w7 _ H7.
  assert (w_db w7 "sessions" = w_db w "sessions") as Hw by congruence.
  apply (steps_occ _ _ _ _ _ d); rewrite ?Hw; try done; [apply transition_fields_ok|].
  intros []. unfold _execute_authorized_write, _sync_session_projection. solve_frame.
Qed.

Lemma steps_totals sid tot ev actor sync w :
  sessions_ok (w_db w "sessions") → session_fields_ok tot = true →
  steps sid (update_session_totals clock sid tot ev actor sync) w.
Proof.
  intros Hok Hs. unfold update_session_totals.
  apply steps_bind_pre; [solve_frame|]. intros d w1 (-> & Hf & Ho)%not_finalized_ok _.
  apply steps_bind_pre; [solve_frame|]. intros d2 w2 _ H2.
  apply steps_bind_pre; [solve_frame|]. intros v w3 _ H3.
  assert (w_db w3 "sessions" = w_db w "sessions") as Hw by congruence.
  apply (steps_occ _ _ _ _ _ d); rewrite ?Hw; try done.
  intros []. unfold _sync_session_projection. solve_frame.
Qed.

Lemma steps_fields sid fields ev actor w :
  sessions_ok (w_db w "sessions") → session_fields_ok fields = true →
  steps sid (update_session_fields clock sid fields ev actor) w.
Proof.
  intros Hok Hs. unfold update_session_fields. destruct (is_empty fields); [apply steps_frame; solve_frame|].
  apply steps_bind_pre; [solve_frame|]. intros d w1 (-> & Hf & Ho)%not_finalized_ok _.
  apply steps_bind_pre; [solve_frame|]. intros d2 w2 _ H2.
  apply steps_bind_pre; [solve_frame|]. intros v w3 _ H3.
  assert (w_db w3 "sessions" = w_db w "sessions") as Hw by congruence.
  apply (steps_occ _ _ _ _ _ d); rewrite ?Hw; try done.
  intros []. unfold _sync_session_projection. solve_frame.
Qed.

(** The gate lets a session through when nothing of it is open. *)
Record ready sid w : Prop := {
  ready_unknown : ∀ d, d ∈ contents (w_db w "unknown_items") → matches (unknown_query sid) d = false;
  ready_recount : ∀ d, d ∈ contents (w_db w "recount_requests") → matches (recount_query sid) d = false;
  ready_approval : ∀ d, d ∈ contents (w_db w "count_lines") → matches (approval_query sid) d = false;
}.

Lemma ready_ok sid w u w' :
  _assert_session_ready_to_finalize sid w = (Ok u, w') → w' = w ∧ ready sid w.
Proof.
  unfold _assert_session_ready_to_finalize, db_count. intros Hm. monad_inv.
  repeat match type of Hm with context [if ?b then _ else _] =>
    let E := fresh "E" in destruct b eqn:E; [discriminate Hm|] end.
  cbn [app] in Hm. monad_inv. split; [done|]. apply Z.ltb_ge in E, E0, E1.
  split; apply count_zero; apply Z.le_antisymm; auto using count_nonneg.
Qed.

Lemma lifecycle_transition_ok a b w u w' :
  @assert_valid_transition (world C) a b w = (Ok u, w') → w' = w.
Proof. by intros [-> _]%assert_valid_transition_spec. Qed.

(** What the checks of a finalization establish. *)
Lemma checks_ok sid w d lines w' :
  _finalization_checks sid w = (Ok (d, lines), w') →
  w' = w ∧ find_one (_lookup sid) (w_db w "sessions") = Some d ∧
  is_finalized_session d = false ∧
  normalize_session_status (get "status" d) = "REVIEW" ∧ ready sid w ∧
  lines = take max_lines (find_all (session_lines sid) (w_db w "count_lines")) ∧
  existsb is_blocking_finalization lines = false.
Proof.
  unfold _finalization_checks. cbv zeta. intros Hm.
  apply bind_ok_inv in Hm as (d1 & w1 & (-> & Hf & _)%exists_ok & Hm).
  apply bind_ok_inv in Hm as ([] & w2 & [Ho ->]%raise_if_ok_inv & Hm).
  apply bind_ok_inv in Hm as ([] & w3 & [Hr ->]%raise_if_ok_inv & Hm).
  apply bind_ok_inv in Hm as ([] & w4 & ->%lifecycle_transition_ok & Hm).
  apply bind_ok_inv in Hm as (d5 & w5 & (-> & _)%lifecycle_guard_ok & Hm).
  apply bind_ok_inv in Hm as ([] & w6 & [-> Hrdy]%ready_ok & Hm).
  unfold db_find in Hm. monad_inv. bool_hyps. done.
Qed.

Lemma steps_finalize sid actor note w :
  sessions_ok (w_db w "sessions") →
  steps sid (_finalize_session_canonical_core clock has_finalizer sid actor note) w.
Proof.
  intros Hok. unfold _finalize_session_canonical_core.
  apply steps_bind_pre; [solve_frame|]. intros [d lines] w1 (-> & Hf & Ho & _)%checks_ok _.
  apply steps_bind_pre; [solve_frame|]. intros now w2 _ H2.
  apply steps_bind_pre; [solve_frame|]. intros [] w3 _ H3.
  apply steps_bind_pre; [solve_frame|]. intros tot w4 (t & n & -> & _)%totals_ok H4.
  apply steps_bind_pre; [solve_frame|]. intros v w5 _ H5.
  assert (w_db w5 "sessions" = w_db w "sessions") as Hw by congruence.
  apply (steps_occ _ _ _ _ _ d); rewrite ?Hw; try done; [apply finalize_fields_ok|].
  intros []. unfold _execute_authorized_write, _sync_session_projection. solve_frame.
Qed.

Lemma frame_snapshot sid snap actor :
  frame others (record_session_snapshot (C:=C) clock sid snap actor).
Proof. unfold record_session_snapshot, get_session, _execute_authorized_write. solve_frame. Qed.

Lemma frame_recount_create d actor : frame others (_create_recount_request (C:=C) clock d actor).
Proof. unfold _create_recount_request, _execute_authorized_write. solve_frame. Qed.

Lemma frame_recount_transition rid target actor fields :
  frame others (_transition_recount_request (C:=C) clock object_id rid target actor fields).
Proof.
  unfold _transition_recount_request, get_recount_request, _execute_authorized_write,
    _assert_recount_transition. solve_frame.
Qed.

(** ** Creation *)

Lemma bind_frames {A B} (m : M (world C) A) (f : A → M (world C) B) w r w' :
  frame others m → bind m f w = (r, w') →
  ∃ w1, w_db w1 "sessions" = w_db w "sessions" ∧
        ((∃ a, m w = (Ok a, w1) ∧ f a w1 = (r, w')) ∨ w' = w1).
Proof.
  intros Hf Hb. unfold bind in Hb. destruct (m w) as [[a|e] w1] eqn:E; exists w1;
    (split; [by apply (frame_db _ _ _ _ _ "sessions" Hf E)|]); simplify_eq; eauto.
Qed.

Lemma authorized_insert d w :
  _execute_authorized_write (db_insert_one "sessions" d) w =
  match insert_one d (w_db w "sessions") with
  | Some (i, c) => (Ok (setdefault "_id" i d), set_coll "sessions" c w)
  | None => (Raise (DriverError "E11000 duplicate key error"), w)
  end.
Proof.
  unfold _execute_authorized_write, write_authority. cbv zeta.
  change (if String.eqb _ _ then _ else _) with (Some "SessionLifecycleService").
  unfold db_insert_one.
  erewrite bind_ok by (apply guard_allowed; [reflexivity | apply lifecycle_writes_sessions]).
  simpl (w_db _). destruct w as [db a g t e]; simpl. by destruct (insert_one d (db "sessions")) as [[i c]|].
Qed.

(** The ids of a created session: [id] defaults to the given [session_id] and
    [session_id] to [id]. *)
Definition created_id d : val := default (get "session_id" d) (aget "id" d).
Definition created_session_id d : val := default (created_id d) (aget "session_id" d).

Lemma created_ids d t i :
  get "id" (setdefault "_id" i (created_session d t)) = created_id d ∧
  get "session_id" (setdefault "_id" i (created_session d t)) = created_session_id d.
Proof.
  unfold created_session, created_session_id, created_id, get. cbv zeta.
  repeat (rewrite aget_setdefault; cbn [String.eqb Ascii.eqb Bool.eqb]).
  rewrite !aget_aset. cbn [String.eqb Ascii.eqb Bool.eqb]. by destruct (aget "id" d), (aget "session_id" d).
Qed.

(** Creation inserts one document, or changes no session. *)
Lemma create_cases session_doc user w r w' :
  _create_session clock strict_mode write_logs session_doc user w = (r, w') →
  contents (w_db w' "sessions") ≡ₚ contents (w_db w "sessions") ∨
  ∃ i t, contents (w_db w' "sessions") ≡ₚ
    bson_doc (setdefault "_id" i (created_session session_doc t)) :: contents (w_db w "sessions").
Proof.
  unfold _create_session. cbv zeta. intros Hm.
  apply bind_frames in Hm as (w1 & H1 & [(t & _ & Hm) | ->]); [|left; by rewrite H1|solve_frame].
  apply bind_frames in Hm as (w2 & H2 & [(u & _ & Hm) | ->]); [|left; by rewrite H2, H1|solve_frame].
  apply bind_frames in Hm as (w3 & H3 & [(e & _ & Hm) | ->]); [|left; by rewrite H3, H2, H1|solve_frame].
  assert (w_db w3 "sessions" = w_db w "sessions") as Hw by congruence. clear H1 H2 H3.
  unfold bind at 1 in Hm. rewrite authorized_insert, Hw in Hm.
  destruct (insert_one _ _) as [[i c]|] eqn:Ei.
  - apply insert_one_spec in Ei as [Hc _]. right. exists i, t. rewrite <- Hc.
    match type of Hm with ?g _ = _ => assert (frame others g) as Hf
      by (unfold _execute_authorized_write, _sync_session_projection; solve_frame) end.
    rewrite (frame_db _ _ _ _ _ "sessions" Hf Hm eq_refl). simpl. by rewrite fn_lookup_insert.
  - simplify_eq. left. by rewrite Hw.
Qed.
End requests.

(** *** What a request of the lifecycle may change *)

Definition lifecycle_collections : list string := "sessions" :: others.

Section request_frames.
Context {C : Type} `{Mongo C}.
Context (clock : nat → Z) (strict_mode write_logs has_finalizer : bool).

Lemma frame_create d u : frame lifecycle_collections (_create_session (C:=C) clock strict_mode write_logs d u).
Proof. unfold _create_session, _execute_authorized_write, _sync_session_projection. solve_frame. Qed.

Lemma frame_transition_core sid t a n e :
  frame lifecycle_collections (_transition_session (C:=C) clock strict_mode write_logs sid t a n e).
Proof. unfold _transition_session, _execute_authorized_write, _sync_session_projection. solve_frame. Qed.

Lemma frame_finalize_core sid a n :
  frame lifecycle_collections (_finalize_session_canonical_core (C:=C) clock has_finalizer sid a n).
Proof. unfold _finalize_session_canonical_core, _execute_authorized_write, _sync_session_projection. solve_frame. Qed.
End request_frames.

(** ** Sequences of requests *)

(** The requests of the lifecycle service. *)
Inductive request :=
| RCreate (has_session : bool) (session_doc : doc) (username : string)
| RTransition (has_session : bool) (session_id target actor : string) (note : option string) (expected : option Z)
| RTotals (session_id : string) (totals : doc) (expected : option Z) (actor : string) (sync : bool)
| RFields (session_id : string) (fields : doc) (expected : option Z) (actor : string)
| RPin (session_id : string) (logic_version logic_scope : option string) (expected : option Z) (actor : string)
| RFinalize (has_session : bool) (session_id actor : string) (note : option string)
| ROwnership (session_id : string) (set_fields ownership_event : doc)
| RSnapshot (session_id : string) (snapshot : doc) (actor : string)
| RRecountCreate (has_session : bool) (recount : doc) (actor : string)
| RRecountTransition (has_session : bool) (recount_id target actor : string) (fields : doc).

Section runs.
Context {C : Type} `{Mongo C}.
Context (clock : nat → Z) (strict_mode write_logs has_finalizer : bool).
Context (object_id : string → option string) (cl : client).

Definition dropped {A} (m : M (world C) A) : M (world C) unit := do _ <- m ;; ret tt.

Definition handle (r : request) : M (world C) unit :=
  match r with
  | RCreate b d u => dropped (create_session clock strict_mode write_logs cl b d u)
  | RTransition b s t a n e =>
      dropped (transition_session clock strict_mode write_logs cl b s t a n e)
  | RTotals s t e a sync => update_session_totals clock s t e a sync
  | RFields s f e a => update_session_fields clock s f e a
  | RPin s lv ls e a => persist_logic_pin clock s lv ls e a
  | RFinalize b s a n => dropped (finalize_session_canonical clock has_finalizer cl b s a n)
  | ROwnership s f event => apply_ownership_transition s f event
  | RSnapshot s d a => dropped (record_session_snapshot clock s d a)
  | RRecountCreate b d a => dropped (create_recount_request clock cl b d a)
  | RRecountTransition b i t a f =>
      dropped (transition_recount_request clock object_id cl b i t a f)
  end.

(** Updates do not rewrite session keys, a created session has fresh text ids,
    and an ownership transition, which leaves the checks of the state to its
    caller, is asked for of a session that is open. *)
Definition request_ok (c : C) (r : request) : Prop :=
  match r with
  | RTotals _ t _ _ _ => session_fields_ok t = true
  | RFields _ f _ _ => session_fields_ok f = true
  | ROwnership s f _ =>
      str_in "id" (map fst f) = false ∧ str_in "session_id" (map fst f) = false ∧
      ∀ d, find_one (_lookup s) c = Some d → is_finalized_session d = false
  | RCreate _ d _ =>
      ∃ i j, created_id d = VStr i ∧ created_session_id d = VStr j ∧
        ∀ e, e ∈ contents c → matches (_lookup i) e = false ∧ matches (_lookup j) e = false
  | _ => True
  end.

Inductive request_step (w w' : world C) : Prop :=
| do_request r res : request_ok (w_db w "sessions") r → handle r w = (res, w') → request_step w w'.
End runs.

Section invariants.
Context {C : Type} `{MongoLaws C}.
Context (clock : nat → Z) (strict_mode write_logs has_finalizer : bool).
Context (object_id : string → option string) (cl : client).
Implicit Types (w : world C) (c : C) (d s : doc).

(** What one request does to the sessions. *)
Inductive any_step c c' : Prop :=
| any_session sid : sessions_step sid c c' → any_step c c'
| any_create d i j :
    get "id" d = VStr i → get "session_id" d = VStr j →
    (∀ e, e ∈ contents c → matches (_lookup i) e = false ∧ matches (_lookup j) e = false) →
    contents c' ≡ₚ d :: contents c → any_step c c'
| any_ownership d d' rest :
    contents c ≡ₚ d :: rest → is_finalized_session d = false →
    get "id" d' = get "id" d → get "session_id" d' = get "session_id" d →
    contents c' ≡ₚ d' :: rest → any_step c c'.

Lemma any_step_ok c c' : any_step c c' → sessions_ok c → sessions_ok c'.
Proof.
  intros [sid Hs | d i j Hi Hj Hfresh Hc' | d d' rest Hc _ Hi Hj Hc'] Hok; [by apply (sessions_step_ok sid c)| |].
  2: { destruct Hok as [Hids Hu]. assert (ids_plain d) as Hd by (apply Hids; rewrite Hc; left).
    assert (ids_plain d') as Hd' by (unfold ids_plain; by rewrite Hi, Hj). split.
    - intros e He. rewrite Hc' in He. apply elem_of_cons in He as [->|He]; [done|]. apply Hids. rewrite Hc. by right.
    - intros sid. apply (at_most_one_replace _ c c' d d' rest); [done..| |apply Hu].
      by rewrite !lookup_matches, Hi, Hj. }
  assert (ids_plain d) as Hp by (unfold ids_plain; by rewrite Hi, Hj).
  destruct Hok as [Hids Hu]. split.
  - intros e He. rewrite Hc' in He. apply elem_of_cons in He as [->|He]; auto.
  - intros sid. unfold at_most_one. rewrite Hc', filter_cons.
    destruct (decide (matches (_lookup sid) d = true)) as [Hm|]; [|apply Hu].
    rewrite lookup_matches, Hi, Hj in Hm by done. simpl in Hm.
    assert (∀ e, e ∈ contents c → matches (_lookup sid) e = false) as Hn.
    { intros e He. destruct (Hfresh e He). apply orb_true_iff in Hm as [Hm|Hm]; bool_hyps; by subst. }
    apply count_zero in Hn. rewrite count_spec in Hn. simpl. lia.
Qed.

Lemma any_step_finalized c c' s :
  any_step c c' → s ∈ contents c → is_finalized_session s = true → s ∈ contents c'.
Proof.
  intros [sid Hs | d i j _ _ _ Hc' | d d' rest Hc Ho _ _ Hc'] Hin Hf; [by apply (sessions_step_finalized sid c)|by rewrite Hc'; right|].
  rewrite Hc in Hin. rewrite Hc'. apply elem_of_cons in Hin as [->|Hin]; [congruence | by right].
Qed.

Lemma steps_dropped {A} sid (m : M (world C) A) w : steps sid m w → steps sid (dropped m) w.
Proof. intros Hm. apply steps_bind_post; [done|]. intros a. apply frame_ret. Qed.

Lemma steps_session {A} sid P (b : bool) (m : M (world C) A) w :
  frame P m → steps sid m w → steps sid (if b then m else with_uow cl (fun _ => m)) w.
Proof. intros Hf Hm. destruct b; [done|]. by eapply steps_uow. Qed.

Lemma create_any (b : bool) session_doc user w r w' :
  request_ok (w_db w "sessions") (RCreate b session_doc user) →
  create_session clock strict_mode write_logs cl b session_doc user w = (r, w') →
  any_step (w_db w "sessions") (w_db w' "sessions").
Proof.
  intros (i & j & Hi & Hj & Hf) Hc.
  assert (∀ r w', _create_session clock strict_mode write_logs session_doc user w = (r, w') →
    any_step (w_db w "sessions") (w_db w' "sessions")) as Hcore.
  { intros r1 w1 Hm. apply create_cases in Hm as [Hp | (x & t & Hp)].
    - by apply (any_session _ _ ""), step_same.
    - destruct (created_ids session_doc t x) as [H1 H2].
      refine (any_create _ _ _ i j _ _ Hf Hp); apply get_bson_str; congruence. }
  unfold create_session in Hc. destruct b; [by apply (Hcore r)|].
  revert r w' Hc. apply relates_same, (relates_uow _ _ (fun c => any_session c c "" (step_refl "" c)) cl lifecycle_collections); intros _;
    [apply frame_create | by apply relates_same].
Qed.

Lemma ownership_any sid f event w r w' :
  sessions_ok (w_db w "sessions") → request_ok (w_db w "sessions") (ROwnership sid f event) →
  apply_ownership_transition sid f event w = (r, w') → any_step (w_db w "sessions") (w_db w' "sessions").
Proof.
  intros [_ Hu] (Hid & Hsid & Hopen) Ha. unfold apply_ownership_transition, bind at 1, raise_if in Ha.
  destruct (is_empty f); [unfold raise in Ha; simplify_eq; by apply (any_session _ _ ""), step_same|].
  cbv zeta in Ha. unfold ret at 1 in Ha. cbv beta iota in Ha.
  set (u := Upd f [] _ []) in Ha. unfold bind in Ha. rewrite authorized_update in Ha. unfold ret in Ha. simplify_eq.
  rewrite set_coll_same. destruct (find_one (_lookup sid) (w_db w "sessions")) as [e|] eqn:E.
  - pose proof E as [He Hm]%find_one_some.
    destruct (update_one_some (_lookup sid) u (w_db w "sessions")) as (d & rest & Hc & Hd & Hc' & _); [by exists e|].
    assert (∀ k, str_in k (map fst f) = false → k ≠ "ownership_events" → get k (apply_update u d) = get k d) as Hk.
    { intros k Hk%str_in_false Hne. apply get_apply_other. unfold update_keys, u. cbn [u_set u_inc u_push u_unset map app].
      rewrite elem_of_app, app_nil_r. intros [Hin|Hin]; [done|]. destruct (is_empty event); cbn [map fst] in Hin;
        [by apply elem_of_nil in Hin | by apply list_elem_of_singleton in Hin]. }
    refine (any_ownership _ _ d _ rest Hc _ (Hk _ Hid _) (Hk _ Hsid _) Hc'); [|done..].
    apply Hopen. f_equal. apply (at_most_one_eq (_lookup sid) (w_db w "sessions")); [apply Hu|done|rewrite Hc; left|done..].
  - apply (any_session _ _ ""), step_same. by rewrite update_one_none by (by apply find_one_none).
Qed.

Lemma request_any r w res w' :
  sessions_ok (w_db w "sessions") → request_ok (w_db w "sessions") r →
  handle clock strict_mode write_logs has_finalizer object_id cl r w = (res, w') →
  any_step (w_db w "sessions") (w_db w' "sessions").
Proof.
  intros Hok Hr Hh. assert (∀ sid, steps sid (handle clock strict_mode write_logs has_finalizer object_id cl r) w →
    any_step (w_db w "sessions") (w_db w' "sessions")) as Hstep.
  { intros sid Hs. apply (any_session _ _ sid). by apply (Hs res). }
  destruct r; simpl in *.
  - unfold dropped, bind in Hh.
    destruct (create_session _ _ _ _ _ _ _ w) as [[a|e] w1] eqn:E; unfold ret in Hh; simplify_eq;
      by apply (create_any _ _ _ _ _ _ Hr E).
  - eapply (Hstep session_id), steps_dropped, steps_session; [apply frame_transition_core | by apply steps_transition].
  - apply (Hstep session_id). by apply steps_totals.
  - apply (Hstep session_id). by apply steps_fields.
  - apply (Hstep session_id). apply steps_fields; [done | reflexivity].
  - eapply (Hstep session_id), steps_dropped, steps_session; [apply frame_finalize_core | by apply steps_finalize].
  - by eapply ownership_any.
  - apply (Hstep session_id), steps_dropped, steps_frame, frame_snapshot.
  - eapply (Hstep ""), steps_dropped, steps_session; [|apply steps_frame]; apply frame_recount_create.
  - eapply (Hstep ""), steps_dropped, steps_session; [|apply steps_frame]; apply frame_recount_transition.
Qed.
End invariants.

(** ** Finalization seals the count lines *)

(** Status fields of a count line are text or absent. *)
Definition text_or_none (v : val) : bool := match v with VNone | VStr _ => true | _ => false end.
Definition line_ok (d : doc) : Prop :=
  text_or_none (get "status" d) = true ∧ text_or_none (get "approval_status" d) = true.

Definition sealed (d : doc) : Prop := is_count_line_locked d = true ∨ is_superseded_count_line d = true.

Lemma line_status_text d s : get "status" d = VStr s → line_status d = normalize_count_line_status (VStr s).
Proof. unfold line_status. by intros ->. Qed.

Lemma get_nonempty k d : get k d ≠ VNone → is_empty d = false.
Proof. by destruct d. Qed.

(** A line that the finalizer passes over and that does not block is sealed. *)
Lemma passed_over_sealed d :
  is_blocking_finalization d = false →
  (∃ s, get "status" d = VStr s ∧ str_in s ["locked"; "SUPERSEDED"; "superseded"] = true) ∨
  (∃ s, get "approval_status" d = VStr s ∧ str_in s ["REJECTED"; "NEEDS_REVIEW"] = true) →
  sealed d.
Proof.
  unfold is_blocking_finalization, sealed. intros Hb Hs.
  destruct (is_superseded_count_line d) eqn:E1; [by right|].
  destruct (is_count_line_locked d) eqn:E2; [by left|]. exfalso.
  destruct (str_in (line_status d) BLOCKING_COUNT_LINE_STATUSES); [done|].
  destruct (recount_open d); [done|]. destruct Hs as [(s & Hs & Hin) | (s & Hs & Hin)].
  - assert (is_empty d = false) as He by (apply (get_nonempty "status"); by rewrite Hs).
    unfold is_superseded_count_line, is_count_line_locked in *. rewrite He in *.
    rewrite !(line_status_text d s Hs) in *.
    apply str_in_spec in Hin. repeat (apply elem_of_cons in Hin as [-> | Hin]);
      [by destruct (truthy (get "finalized_at" d)) | done | done | by apply elem_of_nil in Hin].
  - unfold line_approval in Hb. rewrite Hs in Hb. apply str_in_spec in Hin.
    repeat (apply elem_of_cons in Hin as [-> | Hin]); [done | done | by apply elem_of_nil in Hin].
Qed.

Lemma text_in v l : text_or_none v = true → str_in (to_str (por v (VStr ""))) l = true →
  str_in "" l = false → ∃ s, v = VStr s ∧ str_in s l = true.
Proof.
  destruct v; try done; intros _ Hin Hne; [change (str_in "" l = true) in Hin; congruence|].
  unfold por in Hin. destruct (truthy (VStr s)); [by eexists|].
  change (str_in "" l = true) in Hin. congruence.
Qed.

Section sealing.
Context {C : Type} `{MongoLaws C}.
Implicit Types (w : world C) (c : C) (d : doc).

Lemma matches_nin_text k l d :
  text_or_none (get k d) = true →
  matches (QNin k (map VStr l)) d = negb match get k d with VStr s => str_in s l | _ => false end.
Proof.
  intros Ht. rewrite matches_nin, matches_in. f_equal. unfold str_in.
  induction l as [|s l IH]; simpl; [by destruct (get k d)|].
  rewrite IH, matches_eq by (by destruct (get k d)). destruct (get k d); try done. simpl.
  by rewrite String.eqb_sym.
Qed.

(** A line of the session is sealed by the update of the finalizer, or was not
    in its filter. *)
Lemma line_filter_cases sid d :
  line_ok d → matches (session_lines sid) d = true → matches (count_line_filter sid) d = false →
  (∃ s, get "status" d = VStr s ∧ str_in s ["locked"; "SUPERSEDED"; "superseded"] = true) ∨
  (∃ s, get "approval_status" d = VStr s ∧ str_in s ["REJECTED"; "NEEDS_REVIEW"] = true).
Proof.
  intros [H1 H2] Hm. unfold count_line_filter, session_lines in *. rewrite matches_and.
  cbn [forallb]. rewrite Hm.
  rewrite (matches_nin_text "status" ["locked"; "SUPERSEDED"; "superseded"]) by done.
  rewrite (matches_nin_text "approval_status" ["REJECTED"; "NEEDS_REVIEW"]) by done.
  destruct (get "status" d) as [| | | |s| | | |]; try done; destruct (get "approval_status" d) as [| | | |a| | | |]; try done;
    intros Hf; cbn [negb andb] in Hf; try done.
  - right. exists a. by destruct (str_in a _).
  - left. exists s. by destruct (str_in s _).
  - destruct (str_in s _) eqn:E; [left; by exists s|]. right. exists a. by destruct (str_in a _).
Qed.

Lemma finalized_line_sealed actor t note d :
  sealed (apply_update (USet (line_update actor t note)) d).
Proof.
  left. set (u := USet _).
  assert (get "finalized_at" (apply_update u d) = to_bson (VTime t)) as Hg.
  { apply get_apply_set; unfold u, line_update; destruct (truthy (opt_str note));
      [apply (bool_decide_unpack _); vm_compute; exact I.. | reflexivity | reflexivity]. }
  assert (truthy (get "finalized_at" (apply_update u d)) = true) as Ht by (by rewrite Hg, to_bson_truthy).
  unfold is_count_line_locked. rewrite (get_nonempty "finalized_at"), Ht; [done|].
  intros Hn. by rewrite Hn in Ht.
Qed.
End sealing.

Section finalize.
Context {C : Type} `{MongoLaws C}.
Context (clock : nat → Z) (has_finalizer : bool).
Implicit Types (w : world C) (c : C) (d : doc).

Lemma authorized_lines w q u :
  write_authority "CountLineWriteService" (db_update_many "count_lines" q u) w =
  (Ok (fst (update_many q u (w_db w "count_lines"))),
   set_coll "count_lines" (snd (update_many q u (w_db w "count_lines"))) w).
Proof.
  unfold write_authority. cbv zeta.
  change (if String.eqb _ _ then _ else _) with (Some "CountLineWriteService").
  unfold db_update_many.
  erewrite bind_ok by (apply guard_allowed; [reflexivity | unfold refused; by rewrite andb_false_r]).
  unfold counted. simpl. by destruct (update_many _ _ _).
Qed.

Lemma finalize_lines_sealed sid actor note t lines w w' :
  (∀ d, d ∈ contents (w_db w "count_lines") → line_ok d) →
  (∀ d, d ∈ contents (w_db w "count_lines") → matches (session_lines sid) d = true → d ∈ lines) →
  existsb is_blocking_finalization lines = false →
  _finalize_count_lines has_finalizer sid actor note t lines w = (Ok tt, w') →
  ∀ d, d ∈ contents (w_db w' "count_lines") → matches (session_lines sid) d = true → sealed d.
Proof.
  intros Hok Hall Hb Hf d Hd Hm.
  assert (∀ e, e ∈ lines → is_blocking_finalization e = false) as Hnb.
  { intros e He. destruct (is_blocking_finalization e) eqn:E; [|done].
    assert (existsb is_blocking_finalization lines = true); [|congruence].
    apply existsb_exists. exists e. by rewrite <- list_elem_of_In. }
  unfold _finalize_count_lines in Hf. destruct (existsb to_finalize lines) eqn:Ef.
  - monad_inv. unfold finalize_session_count_lines in *. rewrite authorized_lines in *. simplify_eq/=.
    rewrite fn_lookup_insert in Hd. set (q := count_line_filter sid) in *. set (u := USet _) in *.
    rewrite (proj1 (update_many_spec q u _)) in Hd. apply list_elem_of_In, in_map_iff in Hd as (e & <- & He%list_elem_of_In).
    destruct (matches q e) eqn:Eq; [apply finalized_line_sealed|].
    apply passed_over_sealed; [by apply Hnb, Hall|]. by apply (line_filter_cases sid e (Hok e He)).
  - unfold ret in Hf. simplify_eq. apply passed_over_sealed; [by apply Hnb, Hall|].
    destruct (to_finalize d) eqn:Et.
    { assert (existsb to_finalize lines = true); [|congruence].
      apply existsb_exists. exists d. rewrite <- list_elem_of_In. auto. }
    unfold to_finalize in Et. apply andb_false_iff in Et. destruct (Hok d Hd) as [H1 H2].
    destruct Et as [Et|Et]; apply negb_false_iff in Et; [left | right]; by apply text_in.
Qed.

(** The session after a versioned update that sets its status. *)
Lemma occ_refreshed sid set_doc v w w' :
  sessions_ok (w_db w "sessions") → session_fields_ok set_doc = true →
  _update_session_with_occ sid set_doc v w = (Ok tt, w') →
  ∃ d, find_one (_lookup sid) (w_db w "sessions") = Some d ∧
       matches (occ_filter sid v) d = true ∧
       find_one (_lookup sid) (w_db w' "sessions") = Some (apply_update (occ_update set_doc) d).
Proof.
  intros Hok Hs Hu.
  apply occ_cases in Hu as [(_ & d & rest & Hc & Hm & Hc') | [[msg Hr] _]]; [|done].
  assert (d ∈ contents (w_db w "sessions")) as Hd by (rewrite Hc; left).
  assert (matches (_lookup sid) d = true) as Hl.
  { unfold occ_filter in Hm. rewrite matches_and in Hm. simpl in Hm. by bool_hyps. }
  pose proof (so_ids _ Hok d Hd) as Hp. set (d' := apply_update _ d) in *.
  assert (matches (_lookup sid) d' = true) as Hl' by (by unfold d'; rewrite lookup_after).
  exists d. split_and!; [|done|].
  - destruct (find_one_exists _ _ d Hd Hl) as [e He]. rewrite He. f_equal.
    apply find_one_some in He as [He1 He2]. by apply (at_most_one_eq (_lookup sid) (w_db w "sessions")); [apply Hok|..].
  - assert (at_most_one (_lookup sid) (w_db w' "sessions")) as Hone.
    { apply (at_most_one_replace _ _ _ d d' rest Hc Hc'); [congruence | apply Hok]. }
    assert (d' ∈ contents (w_db w' "sessions")) as Hd' by (rewrite Hc'; left).
    destruct (find_one_exists _ _ d' Hd' Hl') as [e He]. rewrite He. f_equal.
    apply find_one_some in He as [He1 He2]. by apply (at_most_one_eq (_lookup sid) (w_db w' "sessions")).
Qed.

Lemma occ_field sid set_doc v w w' d' k x :
  sessions_ok (w_db w "sessions") → session_fields_ok set_doc = true →
  _update_session_with_occ sid set_doc v w = (Ok tt, w') →
  find_one (_lookup sid) (w_db w' "sessions") = Some d' → aget k set_doc = Some x →
  get k d' = to_bson x.
Proof.
  intros Hok Hs Hu Hf Hk. destruct (occ_refreshed _ _ _ _ _ Hok Hs Hu) as (d & _ & _ & Hf').
  rewrite Hf' in Hf. simplify_eq. by apply get_apply_set; [apply occ_nodup|].
Qed.
End finalize.

(** Field and totals updates that succeed are stored. *)
Section stored.
Context {C : Type} `{MongoLaws C}.
Context (clock : nat → Z).
Implicit Types (w : world C).

Lemma guarded_update_stored sid fields ev (k : Z → M (world C) unit) w u w' :
  sessions_ok (w_db w "sessions") → session_fields_ok fields = true →
  (∀ v, frame ["governance_events"] (k v)) →
  (do session <- ensure_session_not_finalized sid ;;
   do _ <- assert_valid_write true (guard_context session sid []) ;;
   do expected <- lift (effective_expected session ev) ;;
   run _update_session_with_occ sid fields expected ;; k expected) w = (Ok u, w') →
  ∃ d, find_one (_lookup sid) (w_db w "sessions") = Some d ∧ is_finalized_session d = false ∧
       find_one (_lookup sid) (w_db w' "sessions") = Some (apply_update (occ_update fields) d).
Proof.
  intros Hok Hf Hk Hu.
  apply bind_ok_inv in Hu as (d & w1 & (-> & Hd & Ho)%not_finalized_ok & Hu).
  apply bind_ok_inv in Hu as (d2 & w2 & (-> & -> & _)%lifecycle_guard_ok & Hu).
  apply bind_ok_inv in Hu as (v & w3 & Hv & Hu). unfold lift in Hv. simplify_eq.
  apply bind_ok_inv in Hu as ([] & w4 & Hocc & Hu).
  rewrite (frame_db _ _ _ _ _ "sessions" (Hk v) Hu eq_refl).
  destruct (occ_refreshed _ _ _ _ _ Hok Hf Hocc) as (e & He1 & _ & He2). rewrite Hd in He1. simplify_eq.
  eauto.
Qed.

Lemma update_fields_stored sid fields ev actor w u w' :
  sessions_ok (w_db w "sessions") → session_fields_ok fields = true → is_empty fields = false →
  update_session_fields clock sid fields ev actor w = (Ok u, w') →
  ∃ d, find_one (_lookup sid) (w_db w "sessions") = Some d ∧ is_finalized_session d = false ∧
       find_one (_lookup sid) (w_db w' "sessions") = Some (apply_update (occ_update fields) d).
Proof.
  intros Hok Hf He Hu. unfold update_session_fields in Hu. rewrite He in Hu.
  refine (guarded_update_stored sid fields ev _ w u w' Hok Hf _ Hu).
  intros v. unfold _sync_session_projection. solve_frame.
Qed.

Lemma update_totals_stored sid tot ev actor sync w u w' :
  sessions_ok (w_db w "sessions") → session_fields_ok tot = true →
  update_session_totals clock sid tot ev actor sync w = (Ok u, w') →
  ∃ d, find_one (_lookup sid) (w_db w "sessions") = Some d ∧ is_finalized_session d = false ∧
       find_one (_lookup sid) (w_db w' "sessions") = Some (apply_update (occ_update tot) d).
Proof.
  intros Hok Hf Hu. unfold update_session_totals in Hu.
  refine (guarded_update_stored sid tot ev _ w u w' Hok Hf _ Hu).
  intros v. unfold _sync_session_projection. solve_frame.
Qed.
End stored.

(** The phases of a successful finalization. *)
Lemma finalize_status actor t note tot now :
  aget "status" (finalize_update actor t note (session_update tot now)) = Some (VStr "FINALIZED").
Proof.
  unfold finalize_update, session_update. destruct (t_last tot), (truthy (opt_str note)); reflexivity.
Qed.

Lemma finalize_core_ok `{MongoLaws C} clock has_finalizer sid actor note (w w' : world C) res :
  _finalize_session_canonical_core clock has_finalizer sid actor note w = (Ok res, w') →
  ∃ d lines t v tot now w2 w3 w5 w6,
    (find_one (_lookup sid) (w_db w "sessions") = Some d ∧ is_finalized_session d = false ∧
     normalize_session_status (get "status" d) = "REVIEW" ∧ ready sid w ∧
     lines = take max_lines (find_all (session_lines sid) (w_db w "count_lines")) ∧
     existsb is_blocking_finalization lines = false) ∧
    w_db w2 = w_db w ∧
    _finalize_count_lines has_finalizer sid actor note t lines w2 = (Ok tt, w3) ∧
    w_db w5 "sessions" = w_db w "sessions" ∧
    _update_session_with_occ sid (finalize_update actor t note (session_update tot now)) v w5 = (Ok tt, w6) ∧
    w_db w' "sessions" = w_db w6 "sessions" ∧ w_db w' "count_lines" = w_db w3 "count_lines".
Proof.
  unfold _finalize_session_canonical_core. intros Hm.
  apply bind_ok_inv in Hm as ([d lines] & w1 & Hchk%checks_ok & Hm). pose proof Hchk as [-> _].
  apply bind_ok_inv in Hm as (t & w2 & Ht & Hm).
  apply bind_ok_inv in Hm as ([] & w3 & Hcl & Hm).
  apply bind_ok_inv in Hm as (tot & w4 & Htot & Hm).
  apply bind_ok_inv in Hm as (v & w5 & Hv & Hm). unfold lift in Hv. simplify_eq.
  apply bind_ok_inv in Hm as ([] & w6 & Hocc & Hm).
  pose proof (totals_ok clock _ _ _ _ Htot) as (tot1 & now & -> & _).
  assert (w_db w2 = w_db w) as Hw2 by (unfold utc_now in Ht; by simplify_eq).
  assert (w_db w5 = w_db w3) as Hw5.
  { unfold _compute_session_totals, db_find in Htot. monad_inv. unfold utc_now in *. by simplify_eq. }
  assert (w_db w3 "sessions" = w_db w2 "sessions") as Hw3.
  { eapply (frame_db ["count_lines"]); [|exact Hcl|reflexivity]. solve_frame. }
  match type of Hm with ?g _ = _ => assert (frame ["verification_sessions"; "governance_events"] g) as Hfr
    by (unfold _execute_authorized_write, _sync_session_projection; solve_frame) end.
  assert (frame ["sessions"] (_update_session_with_occ (C:=C) sid
    (finalize_update actor t note (session_update tot1 now)) v)) as Hfo by solve_frame.
  exists d, lines, t, v, tot1, now, w2, w3, w5, w6. split_and!; try done; try apply Hchk.
  - by rewrite Hw5, Hw3, Hw2.
  - by rewrite (frame_db _ _ _ _ _ "sessions" Hfr Hm eq_refl).
  - rewrite (frame_db _ _ _ _ _ "count_lines" Hfr Hm eq_refl).
    by rewrite (frame_db _ _ _ _ _ "count_lines" Hfo Hocc eq_refl), Hw5.
Qed.

(** The phases of a successful transition. *)
Lemma transition_core_ok `{MongoLaws C} clock strict write_logs sid target actor note ev (w w' : world C) res :
  _transition_session clock strict write_logs sid target actor note ev w = (Ok res, w') →
  let to := normalize_session_status (VStr target) in
  ∃ d t v w5 w6,
    find_one (_lookup sid) (w_db w "sessions") = Some d ∧ is_finalized_session d = false ∧
    transition_allowed (normalize_session_status (get "status" d)) to = true ∧
    (to = "FINALIZED" → ready sid w) ∧ effective_expected d ev = Ok v ∧
    w_db w5 "sessions" = w_db w "sessions" ∧
    _update_session_with_occ sid (transition_update to actor note t) v w5 = (Ok tt, w6) ∧
    w_db w' "sessions" = w_db w6 "sessions" ∧
    find_one (_lookup sid) (w_db w' "sessions") = Some res.
Proof.
  unfold _transition_session. cbv zeta. set (to := normalize_session_status _). intros Hm.
  apply bind_ok_inv in Hm as (d & w1 & (-> & Hf & _)%exists_ok & Hm).
  apply bind_ok_inv in Hm as ([] & w2 & [-> Hta]%assert_valid_transition_spec & Hm).
  apply bind_ok_inv in Hm as (d3 & w3 & (-> & -> & Ho)%lifecycle_guard_ok & Hm).
  apply bind_ok_inv in Hm as ([] & w4 & Hrdy & Hm).
  assert (w4 = w ∧ (to = "FINALIZED" → ready sid w)) as [-> Hready].
  { destruct (String.eqb_spec to "FINALIZED"); [by apply ready_ok in Hrdy as [-> ?]|].
    unfold ret in Hrdy. by simplify_eq. }
  apply bind_ok_inv in Hm as (t & w5 & Ht & Hm).
  apply bind_ok_inv in Hm as (errs & w6 & Hval & Hm).
  apply bind_ok_inv in Hm as (v & w7 & Hv & Hm). unfold lift in Hv. simplify_eq.
  apply bind_ok_inv in Hm as ([] & w8 & Hocc & Hm).
  assert (w_db w7 "sessions" = w_db w "sessions") as Hw7.
  { transitivity (w_db w5 "sessions"); [|by unfold utc_now in Ht; simplify_eq].
    eapply (frame_db ["validation_logs"]); [|exact Hval|reflexivity]. solve_frame. }
  exists d, t, v, w7, w8. unfold lift in *.
  apply bind_ok_inv in Hm as (n & w9 & H9 & Hm). apply bind_ok_inv in Hm as ([] & w10 & H10 & Hm).
  apply bind_ok_inv in Hm as ([] & w11 & H11 & (-> & Hres & _)%exists_ok).
  assert (w_db w11 "sessions" = w_db w8 "sessions") as Hw11.
  { unfold _sync_session_projection, emit, modify in H11. simplify_eq/=.
    transitivity (w_db w9 "sessions").
    - eapply (frame_db ["governance_events"]); [|exact H10|reflexivity]. solve_frame.
    - eapply (frame_db ["verification_sessions"]); [|exact H9|reflexivity].
      unfold _execute_authorized_write. solve_frame. }
  by split_and!.
Qed.

Lemma transition_status target actor note t :
  aget "status" (transition_update target actor note t) = Some (VStr target).
Proof. reflexivity. Qed.

(** *** Totals *)

Definition live_lines (lines : list doc) : list doc :=
  List.filter (fun line => negb (is_superseded_count_line line)) lines.

Lemma later_spec a b :
  (∀ x, a = Some x ∨ b = Some x → ∃ y, later a b = Some y ∧ x <= y) ∧
  (∀ y, later a b = Some y → a = Some y ∨ b = Some y).
Proof.
  split.
  - intros x Hx. destruct a as [u|], b as [v|]; simpl; destruct Hx; simplify_eq;
      try (eexists; split; [done | lia]); destruct (_ <? _) eqn:E;
      apply Z.ltb_lt in E || apply Z.ltb_ge in E; eexists; (split; [done | lia]).
  - intros y. destruct a as [u|], b as [v|]; simpl; auto. destruct (u <? v); auto.
Qed.

(** What the loop accumulates over a list of lines. *)
Record sums (lines : list doc) (t t' : totals) : Prop := {
  sum_items : t_items t' = t_items t + Z.of_nat (length lines);
  sum_verified : t_verified t' =
    t_verified t + Z.of_nat (length (List.filter is_count_line_effectively_reviewed lines));
  sum_last : ∀ x, (t_last t = Some x ∨ ∃ l, l ∈ lines ∧ candidate_activity l = Some x) →
    ∃ y, t_last t' = Some y ∧ x <= y;
  sum_last_in : ∀ y, t_last t' = Some y →
    t_last t = Some y ∨ ∃ l, l ∈ lines ∧ candidate_activity l = Some y;
}.

Lemma add_line_sums t line t' :
  is_superseded_count_line line = false → add_line t line = Ok t' → sums [line] t t'.
Proof.
  intros Hs. unfold add_line, obind. rewrite Hs.
  destruct (to_float _) as [v|]; [|done]. destruct (to_float _) as [dm|]; [|done].
  destruct (to_int _) as [n|]; [|done]. intros; simplify_eq.
  destruct (later_spec (t_last t) (candidate_activity line)) as [H1 H2]. split; simpl.
  - lia.
  - destruct (is_count_line_effectively_reviewed line); simpl; lia.
  - intros x [Hx | (l & ->%list_elem_of_singleton & Hx)]; auto.
  - intros y [Hy|Hy]%H2; [by left|]. right. exists line. split; [left | done].
Qed.

Lemma sums_trans l1 l2 a b c : sums l1 a b → sums l2 b c → sums (l1 ++ l2) a c.
Proof.
  intros [H1 H2 H3 H4] [K1 K2 K3 K4]. split.
  - rewrite length_app. lia.
  - rewrite List.filter_app, length_app. lia.
  - intros x Hx. assert ((∃ y, t_last b = Some y ∧ x <= y) ∨ ∃ l, l ∈ l2 ∧ candidate_activity l = Some x) as [(y & Hy & Hle) | Hl].
    { destruct Hx as [Hx | (l & [Hl|Hl]%elem_of_app & Hx)]; [left; auto | left; eauto | right; eauto]. }
    + destruct (K3 y) as (z & Hz & Hyz); [by left|]. exists z. split; [done | lia].
    + apply K3. by right.
  - intros y [Hy | (l & Hl & Hy)]%K4.
    + destruct (H4 y Hy) as [|(l & Hl & ?)]; [by left|]. right. exists l. rewrite elem_of_app. auto.
    + right. exists l. rewrite elem_of_app. auto.
Qed.

Lemma add_lines_sums lines t t' : add_lines t lines = Ok t' → sums (live_lines lines) t t'.
Proof.
  revert t. induction lines as [|line lines IH]; intros t Ha; simpl in *.
  - simplify_eq. split; simpl; try lia; [|auto].
    intros x [Hx | (l & Hl & _)]; [exists x; split; [done|lia] | by apply elem_of_nil in Hl].
  - destruct (is_superseded_count_line line) eqn:Es; simpl.
    + unfold add_line, obind in Ha. rewrite Es in Ha. by apply IH.
    + destruct (add_line t line) as [t1|] eqn:El; [|done]. simpl in Ha.
      apply (sums_trans [line]  _ _ t1); [by apply add_line_sums | by apply IH].
Qed.

(** ** Properties *)

(** C1: a finalized session is immutable: through any sequence of the requests of
    the lifecycle service (creations with fresh ids, transitions, total and field
    updates that do not set the ids or the version, finalizations, snapshots,
    recounts, and ownership transitions of sessions that are open, which is the
    check this method leaves to its callers; successful or failing, with or
    without transactions) its document stays in the sessions collection exactly
    as it is, and session ids stay unique. *)
Theorem finalized_session_immutable `{MongoLaws C} clock strict_mode write_logs has_finalizer object_id cl
    (w w' : world C) (s : doc) :
  sessions_ok (w_db w "sessions") →
  s ∈ contents (w_db w "sessions") → is_finalized_session s = true →
  reachable (request_step clock strict_mode write_logs has_finalizer object_id cl) w w' →
  s ∈ contents (w_db w' "sessions") ∧ sessions_ok (w_db w' "sessions").
Proof.
  intros Hok Hs Hf. apply (reachable_inv _ (fun w => s ∈ contents (w_db w "sessions") ∧
    sessions_ok (w_db w "sessions"))); [done|].
  intros a b [Ha Hoka] [r res Hr Hh]. pose proof (request_any _ _ _ _ _ _ _ _ _ _ Hoka Hr Hh) as Hstep.
  split; [by apply (any_step_finalized _ _ _ Hstep) | by apply (any_step_ok _ _ Hstep)].
Qed.

Definition no_clock (n : nat) : Z := 0.

Lemma sessions_ok_single (s : doc) : ids_plain s → sessions_ok (C:=coll) [s].
Proof.
  intros Hs. split.
  - intros d Hd. change (d ∈ [s]) in Hd. by apply list_elem_of_singleton in Hd as ->.
  - intros sid. unfold at_most_one. change (contents [s]) with [s].
    rewrite filter_cons. destruct (decide _); simpl; lia.
Qed.

Example finalized_session_immutable_witness :
  let s := [("id", VStr "S1"); ("session_id", VStr "S1"); ("status", VStr "CLOSED"); ("version", VInt 3)] in
  let w := install_db_write_guards (mkworld [("sessions", [s])]) in
  let w' := snd (handle no_clock true true true (fun _ => None) replica_client
                   (RFields "S1" [("notes", VStr "late edit")] None "u") w) in
  s ∈ contents (w_db w' "sessions").
Proof.
  intros s w w'.
  refine (proj1 (finalized_session_immutable no_clock true true true (fun _ => None) replica_client
    w w' s _ _ _ _)).
  - apply sessions_ok_single. by vm_compute.
  - change (s ∈ [s]). left.
  - vm_compute. reflexivity.
  - apply (reach_step _ _ w); [apply reach_refl|].
    apply (do_request _ _ _ _ _ _ _ _ (RFields "S1" [("notes", VStr "late edit")] None "u")
             (fst (handle no_clock true true true (fun _ => None) replica_client
                   (RFields "S1" [("notes", VStr "late edit")] None "u") w))).
    + vm_compute. reflexivity.
    + unfold w'. by destruct (handle _ _ _ _ _ _ _ w).
Defined.

(** C24: no lost update: of two versioned updates of a session that expect the
    same version, at most one succeeds. When the first has gone through, the
    second raises ConcurrencyError, whatever fields it sets, and leaves the
    sessions as the first made them. *)
Theorem occ_no_lost_update `{MongoLaws C} (sid : string) (fields1 fields2 : doc) (v : Z)
    (w w1 : world C) :
  sessions_ok (w_db w "sessions") →
  (∀ d, d ∈ contents (w_db w "sessions") → version_ok d) →
  session_fields_ok fields1 = true → 0 <= v →
  _update_session_with_occ sid fields1 v w = (Ok tt, w1) →
  ∃ msg w2, _update_session_with_occ sid fields2 v w1 = (Raise (ConcurrencyError msg), w2) ∧
            contents (w_db w2 "sessions") ≡ₚ contents (w_db w1 "sessions").
Proof.
  intros Hok Hv Hs Hpos Hu.
  apply occ_cases in Hu as [(_ & d & rest & Hc & Hm & Hc') | [[msg Hr] _]]; [|done].
  apply occ_filter_inv in Hm as [Hl Hm].
  assert (d ∈ contents (w_db w "sessions")) as Hd by (rewrite Hc; left).
  destruct (_update_session_with_occ sid fields2 v w1) as [r w2] eqn:E.
  pose proof E as E'. apply occ_cases in E' as [(-> & e & rest2 & Hc2 & Hm2 & _) | ([msg ->] & Hp & _)]; [|by eauto].
  exfalso. apply occ_filter_inv in Hm2 as [Hl2 Hm2].
  assert (e ∈ apply_update (occ_update fields1) d :: rest) as He by (rewrite <- Hc', Hc2; left).
  apply elem_of_cons in He as [->|He].
  - pose proof (version_after fields1 d Hs (Hv d Hd)) as Hva.
    rewrite version_filter in Hm by (try done; apply version_ok_int; auto). apply Z.eqb_eq in Hm.
    rewrite version_filter in Hm2; [|right; eexists; split; [exact Hva | lia] | done].
    unfold version_of at 1 in Hm2. rewrite (get_some _ _ _ Hva), Z.eqb_eq in Hm2. lia.
  - pose proof (at_most_one_rest (_lookup sid) _ d rest (so_unique _ Hok sid) Hc Hl e He). congruence.
Qed.

Example occ_no_lost_update_witness :
  let w := mkworld [("sessions", [[("id", VStr "S1"); ("version", VInt 3)]])] in
  let w1 := snd (_update_session_with_occ "S1" [("status", VStr "REVIEW")] 3 w) in
  ∃ msg w2, _update_session_with_occ "S1" [("status", VStr "ACTIVE")] 3 w1 = (Raise (ConcurrencyError msg), w2) ∧
            contents (w_db w2 "sessions") ≡ₚ contents (w_db w1 "sessions").
Proof.
  intros w w1. apply (occ_no_lost_update "S1" [("status", VStr "REVIEW")] [("status", VStr "ACTIVE")] 3 w w1).
  - apply sessions_ok_single. by vm_compute.
  - intros d Hd. change (d ∈ [[("id", VStr "S1"); ("version", VInt 3)]]) in Hd.
    apply list_elem_of_singleton in Hd as ->. right. exists 3. by vm_compute.
  - vm_compute. reflexivity.
  - lia.
  - vm_compute. reflexivity.
Defined.

(** C14: finalization is sound: when [finalize_session_canonical] succeeds, the
    session was in REVIEW and had no unresolved unknown item, no pending recount
    and no line awaiting approval; afterwards the stored session is FINALIZED
    (so that the guard blocks it from then on) and every count line of the
    session is locked or superseded.  (A session of more than 50000 lines is
    read in part.) *)
Theorem finalize_sound `{MongoLaws C} clock has_finalizer cl (b : bool) sid actor note (w w' : world C) res :
  sessions_ok (w_db w "sessions") →
  (∀ d, d ∈ contents (w_db w "count_lines") → line_ok d) →
  (length (find_all (session_lines sid) (w_db w "count_lines")) ≤ max_lines)%nat →
  finalize_session_canonical clock has_finalizer cl b sid actor note w = (Ok res, w') →
  ready sid w ∧
  (∃ d, find_one (_lookup sid) (w_db w "sessions") = Some d ∧
        normalize_session_status (get "status" d) = "REVIEW") ∧
  (∃ d, find_one (_lookup sid) (w_db w' "sessions") = Some d ∧
        get "status" d = VStr "FINALIZED" ∧ is_finalized_session d = true) ∧
  ∀ l, l ∈ contents (w_db w' "count_lines") → matches (session_lines sid) l = true → sealed l.
Proof.
  intros Hok Hl Hlen Hfin.
  assert (_finalize_session_canonical_core clock has_finalizer sid actor note w = (Ok res, w')) as Hm.
  { unfold finalize_session_canonical in Hfin. destruct b; [done|].
    by apply with_uow_ok_inv in Hfin as [_ Hfin]. }
  clear Hfin. apply finalize_core_ok in Hm as (d & lines & t & v & tot & now & w2 & w3 & w5 & w6 & Hchk & Hw2 & Hcl & Hw5 & Hocc & Hs & Hc).
  destruct Hchk as (Hf & Ho & Hr & Hrdy & Hlines & Hb).
  assert (sessions_ok (w_db w5 "sessions")) as Hok5 by (by rewrite Hw5).
  split_and!; [done | by eauto | |].
  - rewrite Hs. pose proof (finalize_fields_ok actor t note tot now) as Hfo.
    destruct (occ_refreshed _ _ _ _ _ Hok5 Hfo Hocc) as (e & _ & _ & He).
    eexists. split; [exact He|]. pose proof (occ_field _ _ _ _ _ _ "status" (VStr "FINALIZED") Hok5 Hfo Hocc He
      (finalize_status actor t note tot now)) as Hst.
    rewrite to_bson_plain in Hst by done. split; [done|].
    unfold is_finalized_session. rewrite Hst. by rewrite orb_true_r.
  - rewrite Hc. apply (finalize_lines_sealed has_finalizer sid actor note t lines w2); [by rewrite Hw2| |done|done].
    intros l Hin Hm. rewrite Hw2 in Hin. rewrite Hlines, take_ge by done. by apply find_all_in.
Qed.

Example finalize_sound_witness :
  let w := install_db_write_guards (mkworld [
    ("sessions", [[("id", VStr "S1"); ("session_id", VStr "S1"); ("status", VStr "RECONCILE"); ("version", VInt 2)]]);
    ("count_lines", [[("session_id", VStr "S1"); ("status", VStr "approved"); ("approval_status", VStr "APPROVED");
                      ("verified", VBool true); ("variance", VInt 4)]])]) in
  let r := finalize_session_canonical no_clock true replica_client false "S1" "sup" None w in
  ∃ d, find_one (_lookup "S1") (w_db (snd r) "sessions") = Some d ∧
       get "status" d = VStr "FINALIZED" ∧ is_finalized_session d = true.
Proof.
  intros w r. assert (∃ res, fst r = Ok res) as [res Hr] by (eexists; vm_compute; reflexivity).
  refine (proj1 (proj2 (proj2 (finalize_sound no_clock true replica_client false "S1" "sup" None w (snd r) res _ _ _ _)))).
  - apply sessions_ok_single. by vm_compute.
  - intros d Hd. apply list_elem_of_singleton in Hd as ->. by vm_compute.
  - apply Nat.leb_le. vm_compute. reflexivity.
  - rewrite <- Hr. apply surjective_pairing.
Defined.

(** Requests that run in their own unit of work. *)
Definition own_uow (r : request) : bool :=
  match r with
  | RCreate b _ _ | RTransition b _ _ _ _ _ | RFinalize b _ _ _
  | RRecountCreate b _ _ | RRecountTransition b _ _ _ _ => negb b
  | _ => false
  end.

(** Requests are atomic where the deployment has transactions: a creation,
    transition, finalization or recount request that raises (a refused write, a
    version conflict, a failed validation, at any point) leaves every collection
    but the validation log, which is written outside the transaction, as it was,
    the count lines already locked by a finalization included. *)
Theorem failed_request_changes_nothing `{Mongo C} clock strict write_logs has_finalizer object_id cl
    (r : request) (e : exn) (w w' : world C) :
  transactional cl → own_uow r = true →
  handle clock strict write_logs has_finalizer object_id cl r w = (Raise e, w') →
  ∀ n, str_in n outside_session = false → w_db w' n = w_db w n.
Proof.
  intros Hcl Hown Hh n Hn.
  destruct r; simpl in Hown; try done; apply negb_true_iff in Hown; subst;
    cbn [handle] in Hh; unfold dropped in Hh; apply bind_raise_inv in Hh as [Hh | (a & w1 & _ & Hr)];
    try (unfold ret in Hr; by simplify_eq); refine (with_uow_raise _ cl _ _ _ _ Hcl _ Hh n Hn);
      intros _; first [apply frame_create | apply frame_transition_core | apply frame_finalize_core
                      | apply frame_recount_create | apply frame_recount_transition].
Qed.

Example failed_request_changes_nothing_witness :
  let w := install_db_write_guards (mkworld [
    ("sessions", [[("id", VStr "S1"); ("session_id", VStr "S1"); ("status", VStr "REVIEW"); ("version", VStr "x")]]);
    ("count_lines", [[("session_id", VStr "S1"); ("status", VStr "approved"); ("approval_status", VStr "APPROVED")]])]) in
  let out := handle no_clock true true true (fun _ => None) replica_client (RFinalize false "S1" "sup" None) w in
  w_db (snd out) "count_lines" = w_db w "count_lines".
Proof.
  intros w out.
  assert (∃ e, fst out = Raise e) as [e He] by (eexists; vm_compute; reflexivity).
  refine (failed_request_changes_nothing no_clock true true true (fun _ => None) replica_client
    (RFinalize false "S1" "sup" None) e w (snd out) eq_refl eq_refl _ "count_lines" eq_refl).
  rewrite <- He. apply surjective_pairing.
Defined.

(** A transition does what it says: when [transition_session] succeeds, the
    stored session was open, the step between the canonical statuses is one of
    CREATED to ACTIVE to REVIEW to FINALIZED, the version the caller expected was the
    stored one, and the session returned is the stored one with the target
    status and the version increased by one. *)
Theorem transition_session_spec `{MongoLaws C} clock strict write_logs cl (b : bool) sid target actor note ev
    (w w' : world C) (res : doc) :
  sessions_ok (w_db w "sessions") →
  (∀ d, d ∈ contents (w_db w "sessions") → version_ok d) →
  transition_session clock strict write_logs cl b sid target actor note ev w = (Ok res, w') →
  let to := normalize_session_status (VStr target) in
  ∃ d, find_one (_lookup sid) (w_db w "sessions") = Some d ∧ is_finalized_session d = false ∧
    transition_allowed (normalize_session_status (get "status" d)) to = true ∧
    (to = "FINALIZED" → ready sid w) ∧
    (∀ v, ev = Some v → 0 <= v → version_of d = v) ∧
    get "status" res = VStr to ∧ get "version" res = VInt (version_of d + 1) ∧
    find_one (_lookup sid) (w_db w' "sessions") = Some res.
Proof.
  intros Hok Hver Hm to.
  assert (∃ w1, _transition_session clock strict write_logs sid target actor note ev w = (Ok res, w1) ∧
    (w_db w' "sessions" = w_db w1 "sessions")) as (w1 & Hc & Hw1).
  { unfold transition_session in Hm. destruct b; [by eauto|]. apply with_uow_ok_inv in Hm as [_ Hm]. eauto. }
  apply transition_core_ok in Hc as (d & t & v & w5 & w6 & Hf & Ho & Hta & Hrdy & Hv & Hw5 & Hocc & Hw6 & Hres).
  assert (sessions_ok (w_db w5 "sessions")) as Hok5 by (by rewrite Hw5).
  pose proof (transition_fields_ok to actor note t) as Hfo.
  destruct (occ_refreshed _ _ _ _ _ Hok5 Hfo Hocc) as (d' & Hd' & Hm' & Hr').
  rewrite Hw5, Hf in Hd'. simplify_eq. rewrite Hw6 in Hres.
  assert (version_ok d') as Hvd by (apply Hver; by apply find_one_some in Hf as [? _]).
  exists d'. split_and!; try done.
  - intros x -> Hx. unfold effective_expected, obind in Hv. destruct (coerce_version _); [|done].
    simplify_eq/=. apply occ_filter_inv in Hm' as [_ Hm'].
    rewrite version_filter in Hm' by (done || by apply version_ok_int). by apply Z.eqb_eq in Hm'.
  - rewrite (occ_field _ _ _ _ _ _ "status" (VStr to) Hok5 Hfo Hocc Hres (transition_status to actor note t)).
    by apply to_bson_plain.
  - rewrite Hr' in Hres. simplify_eq. by apply get_some, version_after.
  - rewrite Hw1, Hw6. exact Hres.
Qed.

Example transition_session_spec_witness :
  let w := install_db_write_guards (mkworld [
    ("sessions", [[("id", VStr "S1"); ("session_id", VStr "S1"); ("status", VStr "open"); ("version", VInt 2)]])]) in
  let out := transition_session no_clock true true replica_client false "S1" "reconcile" "sup" None (Some 2) w in
  ∃ d, find_one (_lookup "S1") (w_db w "sessions") = Some d ∧ version_of d = 2.
Proof.
  intros w out.
  assert (∃ res, fst out = Ok res) as [res Hr] by (eexists; vm_compute; reflexivity).
  destruct (transition_session_spec no_clock true true replica_client false "S1" "reconcile" "sup" None (Some 2)
    w (snd out) res) as (d & Hf & _ & _ & _ & Hv & _).
  - apply sessions_ok_single. by vm_compute.
  - intros d Hd. apply list_elem_of_singleton in Hd as ->. right. exists 2. by vm_compute.
  - rewrite <- Hr. apply surjective_pairing.
  - exists d. split; [exact Hf | by apply Hv].
Defined.

(** Session totals count the live lines: the totals computed for a session
    give the number of its lines that are not superseded, how many of them are
    effectively reviewed and how many are not, and the latest activity time any
    of them has (none exactly when no live line has one); no other line of the
    session contributes. *)
Theorem session_totals_spec `{MongoLaws C} clock sid (w w' : world C) (d : doc) :
  _compute_session_totals clock sid w = (Ok d, w') →
  let live := live_lines (find_all (session_lines sid) (w_db w "count_lines")) in
  let reviewed := List.filter is_count_line_effectively_reviewed live in
  get "total_items" d = VInt (Z.of_nat (length live)) ∧
  get "verified_items" d = VInt (Z.of_nat (length reviewed)) ∧
  get "pending_items" d = VInt (Z.of_nat (length live) - Z.of_nat (length reviewed)) ∧
  (∀ l x, l ∈ live → candidate_activity l = Some x →
     ∃ y, get "last_activity" d = VTime y ∧ x <= y) ∧
  (∀ y, get "last_activity" d = VTime y → ∃ l, l ∈ live ∧ candidate_activity l = Some y).
Proof.
  intros (tot & now & -> & Ht)%totals_ok live reviewed.
  apply add_lines_sums in Ht as [Hi Hv Hl Hin]. fold live in Hi, Hv, Hl, Hin. fold reviewed in Hv.
  simpl in Hi, Hv. assert (length reviewed ≤ length live)%nat as Hle by apply List.filter_length_le.
  unfold session_update. split_and!.
  - simpl. by rewrite Hi.
  - simpl. by rewrite Hv.
  - change (VInt (Z.max (t_items tot - t_verified tot) 0) = VInt (Z.of_nat (length live) - Z.of_nat (length reviewed))).
    f_equal. lia.
  - intros l x Hlin Hx. destruct (Hl x) as (y & Hy & Hxy); [right; eauto|].
    exists y. by rewrite Hy.
  - intros y Hy. destruct (t_last tot) as [z|] eqn:E; simplify_eq/=.
    change (VTime z = VTime y) in Hy. simplify_eq.
    destruct (Hin y eq_refl) as [|?]; [done | done].
Qed.

Example session_totals_spec_witness :
  let w := mkworld [("count_lines", [
    [("session_id", VStr "S1"); ("status", VStr "approved"); ("updated_at", VTime 7)];
    [("session_id", VStr "S1"); ("variance", VInt 3); ("counted_at", VTime 9)];
    [("session_id", VStr "S1"); ("status", VStr "superseded")]])] in
  ∃ d, fst (_compute_session_totals no_clock "S1" w) = Ok d ∧ get "pending_items" d = VInt 1.
Proof.
  intros w.
  assert (∃ d, fst (_compute_session_totals no_clock "S1" w) = Ok d) as [d Hd] by (eexists; vm_compute; reflexivity).
  exists d. split; [exact Hd|].
  exact (proj1 (proj2 (proj2 (session_totals_spec no_clock "S1" w
    (snd (_compute_session_totals no_clock "S1" w)) d
    ltac:(rewrite <- Hd; apply surjective_pairing))))).
Defined.

Lemma recount_normalize_idem v :
  _normalize_recount_status (VStr (_normalize_recount_status v)) = _normalize_recount_status v.
Proof.
  unfold _normalize_recount_status at 2 3. destruct v; try done. cbv zeta.
  destruct (String.eqb (lower (strip s)) "") eqn:E; [done|]. unfold _normalize_recount_status.
  rewrite strip_lower, strip_idem, lower_idem, E. done.
Qed.

Lemma recount_assert_ok `{Mongo C} a b (w : world C) u w' :
  _assert_recount_transition (C:=C) a b w = (Ok u, w') →
  w' = w ∧ recount_allowed (_normalize_recount_status (VStr a)) (_normalize_recount_status (VStr b)) = true.
Proof.
  unfold _assert_recount_transition, recount_allowed. destruct (aget _ _) as [l|]; [|done].
  intros [Hb ->]%raise_if_ok_inv. split; [done|].
  by destruct (str_in _ l), (String.eqb _ _).
Qed.

Lemma named_ok `{MongoLaws C} sid (w : world C) u w' :
  ensure_open_when_named sid w = (Ok u, w') →
  w' = w ∧ (sid ≠ "" → ∃ s, find_one (_lookup sid) (w_db w "sessions") = Some s ∧ is_finalized_session s = false).
Proof.
  unfold ensure_open_when_named. destruct (String.eqb_spec sid ""); intros Hm; [by monad_inv|].
  apply bind_ok_inv in Hm as (s & w1 & (-> & Hf & Ho)%not_finalized_ok & Hm). monad_inv. eauto.
Qed.

(** Recount requests follow their state machine: a transition of a recount
    request that succeeds went along an edge of the table (or repeated the
    status), the session of the request, when it names one, was open, and a
    completed, cancelled or expired request has no other status to go to. *)
Theorem recount_transition_spec `{MongoLaws C} clock object_id cl (b : bool) rid target actor fields
    (w w' : world C) (res : doc) :
  transition_recount_request clock object_id cl b rid target actor fields w = (Ok res, w') →
  ∃ d, find_one (_recount_lookup object_id rid) (w_db w "recount_requests") = Some d ∧
    let current := _normalize_recount_status (get "status" d) in
    let to := _normalize_recount_status (VStr target) in
    let sid := strip (to_str (por (get "session_id" d) (VStr ""))) in
    recount_allowed current to = true ∧
    (current ∈ ["completed"; "cancelled"; "expired"] → to = current) ∧
    (sid ≠ "" → ∃ s, find_one (_lookup sid) (w_db w "sessions") = Some s ∧ is_finalized_session s = false).
Proof.
  intros Hm. assert (∃ w1, _transition_recount_request clock object_id rid target actor fields w = (Ok res, w1)) as (w1 & Hc).
  { unfold transition_recount_request in Hm. destruct b; [by eauto|]. apply with_uow_ok_inv in Hm as [_ Hm]. eauto. }
  unfold _transition_recount_request in Hc. cbv zeta in Hc.
  apply bind_ok_inv in Hc as (found & w2 & Hf & Hc). unfold get_recount_request, db_find_one, gets in Hf. simplify_eq.
  destruct (find_one _ _) as [[|kv d]|] eqn:E; try discriminate Hc. exists (kv :: d). split; [done|]. cbv zeta.
  apply bind_ok_inv in Hc as ([] & w3 & [-> Hal]%recount_assert_ok & Hc).
  apply bind_ok_inv in Hc as ([] & w4 & [-> Hn]%named_ok & Hc). rewrite !recount_normalize_idem in Hal.
  split_and!; [done | | done]. set (current := _normalize_recount_status (get "status" _)) in *.
  set (to := _normalize_recount_status (VStr target)) in *. clearbody to current.
  intros Hcur. unfold recount_allowed in Hal.
  repeat (apply elem_of_cons in Hcur as [Hcur | Hcur];
    [rewrite Hcur in Hal; simpl in Hal; apply String.eqb_eq in Hal; congruence |]).
  by apply elem_of_nil in Hcur.
Qed.

Example recount_transition_spec_witness :
  let w := install_db_write_guards (mkworld [
    ("recount_requests", [[("id", VStr "R1"); ("status", VStr "assigned")]])]) in
  let out := transition_recount_request no_clock (fun _ => None) replica_client false "R1" "Completed" "u" [] w in
  ∃ d, find_one (_recount_lookup (fun _ => None) "R1") (w_db w "recount_requests") = Some d.
Proof.
  intros w out.
  assert (∃ res, fst out = Ok res) as [res Hr] by (eexists; vm_compute; reflexivity).
  destruct (recount_transition_spec no_clock (fun _ => None) replica_client false "R1" "Completed" "u" []
    w (snd out) res) as (d & Hd & _).
  - rewrite <- Hr. apply surjective_pairing.
  - exists d. exact Hd.
Defined.

(** *** Differences between the two ways to finalize, and the ownership writer *)

Definition review_session : doc :=
  [("id", VStr "S1"); ("session_id", VStr "S1"); ("status", VStr "REVIEW"); ("version", VInt 1)].

(** [transition_session] to FINALIZED goes through over a rejected count line
    that [finalize_session_canonical] refuses, and locks no line. *)
Lemma transition_skips_blocking_lines :
  let line := [("session_id", VStr "S1"); ("status", VStr "rejected"); ("approval_status", VStr "REJECTED")] in
  let w := install_db_write_guards (mkworld [("sessions", [review_session]); ("count_lines", [line])]) in
  is_blocking_finalization line = true ∧
  is_ok (fst (finalize_session_canonical no_clock true replica_client false "S1" "sup" None w)) = false ∧
  is_ok (fst (transition_session no_clock true true replica_client false "S1" "FINALIZED" "sup" None None w)) = true ∧
  w_db (snd (transition_session no_clock true true replica_client false "S1" "FINALIZED" "sup" None None w))
    "count_lines" = [line].
Proof. split_and!; vm_compute; reflexivity. Qed.

(** [apply_ownership_transition] makes no check of the session it writes: a
    finalized session is changed, without a version increment. *)
Lemma ownership_writes_finalized_session :
  let s := [("id", VStr "S1"); ("status", VStr "FINALIZED"); ("finalized_at", VTime 1000); ("version", VInt 4)] in
  let w := install_db_write_guards (mkworld [("sessions", [s])]) in
  w_db (snd (apply_ownership_transition "S1" [("status", VStr "PAUSED")] [] w)) "sessions"
    = [aset "status" (VStr "PAUSED") s].
Proof. vm_compute. reflexivity. Qed.
