(* ===== verification/CircuitBreaker.v ===== *)
(** The circuit breaker, [services/circuit_breaker.py]: its state and the
    operations it runs under its lock, the decorator that protects a call, the
    registry, and the breaker under concurrent calls as a transition system.

    Times are the floats [time.time()] returns, passed to the operations that
    read the clock. *)

From S2P Require Import Prelude PyFloat Py.

Local Open Scope Z_scope.

(** ** State *)

Inductive CircuitState := CLOSED | OPEN | HALF_OPEN.

#[global] Instance CircuitState_eq_dec : EqDecision CircuitState.
Proof. solve_decision. Defined.

Definition state_value (s : CircuitState) : string :=
  match s with CLOSED => "closed" | OPEN => "open" | HALF_OPEN => "half_open" end.

Record CircuitBreakerConfig := Config {
  failure_threshold : Z;
  success_threshold : Z;
  timeout_seconds : float;
  half_open_max_calls : Z;
}.

Definition default_config : CircuitBreakerConfig := Config 5 3 (of_Z 30) 3.

(** [b_log] is what [on_state_change] and the log are told. *)
Record CircuitBreaker := Breaker {
  b_state : CircuitState;
  b_failure_count : Z;
  b_success_count : Z;
  b_last_failure_time : option float;
  b_half_open_calls : Z;
  b_log : list (CircuitState * CircuitState);
}.

Definition new_breaker : CircuitBreaker := Breaker CLOSED 0 0 None 0 [].

(** ** Operations *)

Definition _transition_to (new_state : CircuitState) (b : CircuitBreaker) : CircuitBreaker :=
  if decide (b_state b = new_state) then b
  else Breaker new_state (b_failure_count b) (b_success_count b) (b_last_failure_time b)
         (b_half_open_calls b) (b_log b ++ [(b_state b, new_state)]).

Definition _reset_counts (b : CircuitBreaker) : CircuitBreaker :=
  Breaker (b_state b) 0 0 (b_last_failure_time b) 0 (b_log b).

Definition set_last_failure (t : float) (b : CircuitBreaker) : CircuitBreaker :=
  Breaker (b_state b) (b_failure_count b) (b_success_count b) (Some t) (b_half_open_calls b) (b_log b).

Definition add_half_open (b : CircuitBreaker) : CircuitBreaker :=
  Breaker (b_state b) (b_failure_count b) (b_success_count b) (b_last_failure_time b)
    (b_half_open_calls b + 1) (b_log b).

Section breaker.
Context (c : CircuitBreakerConfig).

(** The recovery timeout has passed ([if self._last_failure_time] is the truth
    of a float). *)
Definition timeout_passed (now : float) (b : CircuitBreaker) : bool :=
  match b_last_failure_time b with
  | Some t => negb (feq t f0) && fge (fsub now t) (timeout_seconds c)
  | None => false
  end.

Definition is_available (now : float) (b : CircuitBreaker) : bool :=
  match b_state b with
  | CLOSED => true
  | OPEN => timeout_passed now b
  | HALF_OPEN => b_half_open_calls b <? half_open_max_calls c
  end.

Definition record_success (b : CircuitBreaker) : CircuitBreaker :=
  match b_state b with
  | HALF_OPEN =>
      let b := Breaker HALF_OPEN (b_failure_count b) (b_success_count b + 1) (b_last_failure_time b)
                 (Z.max 0 (b_half_open_calls b - 1)) (b_log b) in
      if success_threshold c <=? b_success_count b
      then _reset_counts (_transition_to CLOSED b)
      else b
  | CLOSED => Breaker CLOSED 0 (b_success_count b) (b_last_failure_time b) (b_half_open_calls b) (b_log b)
  | OPEN => b
  end.

Definition record_failure (now : float) (b : CircuitBreaker) : CircuitBreaker :=
  let b := Breaker (b_state b) (b_failure_count b + 1) (b_success_count b) (b_last_failure_time b)
             (b_half_open_calls b) (b_log b) in
  match b_state b with
  | HALF_OPEN => _reset_counts (_transition_to OPEN (set_last_failure now b))
  | CLOSED =>
      let b := set_last_failure now b in
      if failure_threshold c <=? b_failure_count b then _transition_to OPEN b else b
  | OPEN => b
  end.

Definition acquire (now : float) (b : CircuitBreaker) : bool * CircuitBreaker :=
  match b_state b with
  | CLOSED => (true, b)
  | OPEN =>
      if timeout_passed now b
      then (true, add_half_open (_reset_counts (_transition_to HALF_OPEN b)))
      else (false, b)
  | HALF_OPEN =>
      if b_half_open_calls b <? half_open_max_calls c then (true, add_half_open b) else (false, b)
  end.

(** [datetime.fromtimestamp(t).isoformat()] depends on the local time zone. *)
Definition get_status (local_iso : float → string) (name : string) (b : CircuitBreaker) : doc :=
  [("name", VStr name); ("state", VStr (state_value (b_state b)));
   ("failure_count", VInt (b_failure_count b)); ("success_count", VInt (b_success_count b));
   ("last_failure",
      match b_last_failure_time b with
      | Some t => if feq t f0 then VNone else VStr (local_iso t)
      | None => VNone
      end);
   ("config", VDict [("failure_threshold", VInt (failure_threshold c));
                     ("success_threshold", VInt (success_threshold c));
                     ("timeout_seconds", VFloat (timeout_seconds c));
                     ("half_open_max_calls", VInt (half_open_max_calls c))])].

(** ** The decorator

    How a protected function ends: with a value, an [Exception], or another
    [BaseException] such as the cancellation of its task. *)
Inductive call_result (A : Type) :=
| Returned (a : A)
| Raised (e : exn)
| Interrupted.

(** The wrapper of the decorator: [now1] and [now2] are the clock at the start
    and at the end of the call. *)
Definition with_circuit_breaker {A} (name : string) (fallback : option (call_result A))
    (now1 now2 : float) (func : call_result A) (b : CircuitBreaker) : call_result A * CircuitBreaker :=
  let '(permitted, b) := acquire now1 b in
  if permitted then
    match func with
    | Returned _ a => (Returned _ a, record_success b)
    | Raised _ e => (Raised _ e, record_failure now2 b)
    | Interrupted _ => (Interrupted _, b)
    end
  else
    match fallback with
    | Some r => (r, b)
    | None => (Raised _ (CircuitOpenError ("Circuit breaker '" +:+ name +:+ "' is open")), b)
    end.
End breaker.

(** ** Registry *)

Definition registry := list (string * (CircuitBreakerConfig * CircuitBreaker)).

Definition registry_get_or_create (name : string) (config : option CircuitBreakerConfig) (r : registry)
  : (CircuitBreakerConfig * CircuitBreaker) * registry :=
  match aget name r with
  | Some b => (b, r)
  | None => let b := (default default_config config, new_breaker) in (b, aset name b r)
  end.

Definition registry_get (name : string) (r : registry) : option (CircuitBreakerConfig * CircuitBreaker) :=
  aget name r.

Definition get_circuit_breaker (name : string) (config : option CircuitBreakerConfig) (r : registry)
  : (CircuitBreakerConfig * CircuitBreaker) * registry :=
  registry_get_or_create name (Some (default default_config config)) r.

Definition get_all_status (local_iso : float → string) (r : registry) : list (string * doc) :=
  map (fun kb => (fst kb, get_status (fst (snd kb)) local_iso (fst kb) (snd (snd kb)))) r.

(** ** Concurrent calls

    Each lock section is one step; the calls between their permission and
    their outcome are counted. *)
Section concurrent.
Context (c : CircuitBreakerConfig).

Inductive breaker_step : CircuitBreaker * nat → CircuitBreaker * nat → Prop :=
| call_begins now b b' n : acquire c now b = (true, b') → breaker_step (b, n) (b', S n)
| call_rejected now b b' n : acquire c now b = (false, b') → breaker_step (b, n) (b', n)
| call_succeeds b n : breaker_step (b, S n) (record_success c b, n)
| call_fails now b n : breaker_step (b, S n) (record_failure c now b, n)
| call_interrupted b n : breaker_step (b, S n) (b, n).
End concurrent.

(** ** Lemmas *)

(** What holds of every breaker in use. *)
Record breaker_ok (c : CircuitBreakerConfig) (b : CircuitBreaker) : Prop := {
  bo_slots : 0 <= b_half_open_calls b <= Z.max 1 (half_open_max_calls c);
  bo_slots_half : b_state b ≠ HALF_OPEN → b_half_open_calls b = 0;
  bo_closed : b_state b = CLOSED → 0 <= b_failure_count b < failure_threshold c;
  bo_half : b_state b = HALF_OPEN → 0 <= b_success_count b < success_threshold c;
  bo_open : b_state b = OPEN → b_last_failure_time b ≠ None;
}.

Ltac breaker_cases :=
  repeat match goal with
  | |- context [if ?b then _ else _] => let E := fresh "E" in destruct b eqn:E; simplify_eq/=
  | H : context [if ?b then _ else _] |- _ => let E := fresh "E" in destruct b eqn:E; simplify_eq/=
  end; bool_hyps.

Section facts.
Context (c : CircuitBreakerConfig).
Hypothesis Hfail : 0 < failure_threshold c.
Hypothesis Hsucc : 0 < success_threshold c.

Lemma new_breaker_ok : breaker_ok c new_breaker.
Proof. split; simpl; try done; lia. Qed.

Lemma record_success_ok b : breaker_ok c b → breaker_ok c (record_success c b).
Proof.
  destruct b as [[] f s t h l]; intros [H1 H2 H3 H4 H5]; simpl in *; unfold record_success,
    _transition_to, _reset_counts; simpl; try (split; simpl; auto; try done; lia).
  specialize (H4 eq_refl). breaker_cases; split; simpl; try done; try lia.
Qed.

Lemma record_failure_ok now b : breaker_ok c b → breaker_ok c (record_failure c now b).
Proof.
  destruct b as [[] f s t h l]; intros [H1 H2 H3 H4 H5]; simpl in *; unfold record_failure,
    _transition_to, _reset_counts, set_last_failure; simpl; try (split; simpl; auto; try done; lia).
  specialize (H3 eq_refl). specialize (H2 ltac:(done)). breaker_cases; split; simpl; try done; try lia.
Qed.

Lemma acquire_ok now b r b' : acquire c now b = (r, b') → breaker_ok c b → breaker_ok c b'.
Proof.
  destruct b as [[] f s t h l]; intros Ha [H1 H2 H3 H4 H5]; unfold acquire in Ha; simpl in *.
  - simplify_eq. by split.
  - specialize (H2 ltac:(done)). destruct (timeout_passed _ _ _); simplify_eq; [|by split].
    unfold add_half_open, _reset_counts, _transition_to. simpl. split; simpl; try done; lia.
  - specialize (H4 eq_refl). breaker_cases; simplify_eq; [|by split].
    unfold add_half_open. split; simpl; try done; lia.
Qed.
End facts.

(** Failures one after the other, at the given times. *)
Definition failures (c : CircuitBreakerConfig) (times : list float) (b : CircuitBreaker) : CircuitBreaker :=
  fold_left (fun b now => record_failure c now b) times b.

Lemma failures_open c times b : b_state b = OPEN → b_state (failures c times b) = OPEN.
Proof.
  revert b. induction times as [|t times IH]; intros b Hb; [done|]. simpl. apply IH.
  unfold record_failure. destruct b as [st f s tm h l]; simpl in *. by subst.
Qed.

(** Consecutive successes. *)
Fixpoint successes (c : CircuitBreakerConfig) (k : nat) (b : CircuitBreaker) : CircuitBreaker :=
  match k with O => b | S k' => successes c k' (record_success c b) end.

Lemma successes_closed c k b : b_state b = CLOSED → b_state (successes c k b) = CLOSED.
Proof.
  revert b. induction k as [|k IH]; intros b Hb; [done|]. simpl. apply IH.
  unfold record_success. by rewrite Hb.
Qed.

Lemma successes_half c k b :
  b_state b = HALF_OPEN → b_success_count b < success_threshold c →
  b_state (successes c k b) =
    if b_success_count b + Z.of_nat k <? success_threshold c then HALF_OPEN else CLOSED.
Proof.
  revert b. induction k as [|k IH]; intros b Hb Hlt.
  - assert ((b_success_count b + Z.of_nat 0 <? success_threshold c) = true) as -> by (apply Z.ltb_lt; lia). done.
  - simpl. destruct b as [st f s t h l]; simpl in *; subst. unfold record_success; simpl.
    destruct (success_threshold c <=? s + 1) eqn:E; bool_hyps.
    + rewrite successes_closed by done. symmetry. destruct (Z.ltb_spec (s + Z.of_nat (S k)) (success_threshold c)); [lia | done].
    + rewrite IH by (simpl; done || lia). simpl. by replace (s + 1 + Z.of_nat k) with (s + Z.of_nat (S k)) by lia.
Qed.

(** ** Properties *)

(** C33: under any interleaving of concurrent calls (beginning, rejected,
    succeeding, failing or interrupted) of a breaker with positive thresholds:
    a closed breaker has seen fewer failures in a row than the threshold, a
    half-open one fewer successes than it needs, an open one knows when it last
    failed, and the half-open slots in use are within their maximum and zero
    outside the half-open state. *)
Theorem breaker_invariant (c : CircuitBreakerConfig) (b : CircuitBreaker) (n : nat) :
  0 < failure_threshold c → 0 < success_threshold c →
  reachable (breaker_step c) (new_breaker, 0%nat) (b, n) → breaker_ok c b.
Proof.
  intros Hf Hs Hr.
  apply (reachable_inv (breaker_step c) (fun s => breaker_ok c (fst s)) (new_breaker, 0%nat) (b, n));
    [by apply new_breaker_ok | | done].
  intros s s' Hb Hst. destruct Hst; simpl in *;
    eauto using acquire_ok, record_success_ok, record_failure_ok.
Qed.

Example breaker_invariant_witness :
  breaker_ok default_config (snd (acquire default_config f0 new_breaker)).
Proof.
  apply (breaker_invariant default_config _ 1 ltac:(reflexivity) ltac:(reflexivity)).
  apply (reach_step _ _ (new_breaker, 0%nat)); [apply reach_refl|].
  apply (call_begins _ f0). reflexivity.
Defined.

(** The breaker opens exactly at its threshold: from a closed breaker, any
    further failures in a row (with no success between them) open it when the
    count reaches the threshold and not one failure earlier, and once open it
    stays open through further failures. *)
Theorem opens_at_threshold (c : CircuitBreakerConfig) (times : list float) (b : CircuitBreaker) :
  b_state b = CLOSED → b_failure_count b < failure_threshold c →
  b_state (failures c times b) =
    if b_failure_count b + Z.of_nat (length times) <? failure_threshold c then CLOSED else OPEN.
Proof.
  revert b. induction times as [|t times IH]; intros b Hb Hlt.
  - change (failures c [] b) with b. rewrite Hb.
    assert ((b_failure_count b + Z.of_nat (length (@nil float)) <? failure_threshold c) = true) as ->; [|done].
    apply Z.ltb_lt. simpl. lia.
  - change (failures c (t :: times) b) with (failures c times (record_failure c t b)).
    change (length (t :: times)) with (S (length times)).
    destruct b as [st f s tm h l]; simpl in Hb, Hlt; subst. cbn [b_failure_count].
    unfold record_failure at 1, set_last_failure; cbn [b_state b_failure_count b_success_count b_half_open_calls b_log].
    destruct (failure_threshold c <=? f + 1) eqn:E; bool_hyps.
    + rewrite failures_open by done. symmetry.
      destruct (Z.ltb_spec (f + Z.of_nat (S (length times))) (failure_threshold c)); [lia | done].
    + rewrite IH by (simpl; done || lia). simpl.
      by replace (f + 1 + Z.of_nat (length times)) with (f + Z.of_nat (S (length times))) by lia.
Qed.

Example opens_at_threshold_witness :
  b_state (failures default_config [f0; f0; f0; f0] new_breaker) = CLOSED.
Proof. rewrite (opens_at_threshold default_config [f0; f0; f0; f0] new_breaker eq_refl ltac:(reflexivity)). reflexivity. Defined.

(** C40: recovery: when the timeout of an open breaker has passed, the next call
    is let through as a probe of the half-open state; the breaker then closes
    after exactly [success_threshold] successes in a row, and a single failure
    before that opens it again with the recovery timer restarted. *)
Theorem breaker_recovers (c : CircuitBreakerConfig) (b : CircuitBreaker) (now later : float) (k : nat) :
  b_state b = OPEN → timeout_passed c now b = true → 0 < success_threshold c →
  let '(permitted, b1) := acquire c now b in
  permitted = true ∧ b_state b1 = HALF_OPEN ∧
  b_state (successes c k b1) = (if Z.of_nat k <? success_threshold c then HALF_OPEN else CLOSED) ∧
  (Z.of_nat k < success_threshold c →
   b_state (record_failure c later (successes c k b1)) = OPEN ∧
   b_last_failure_time (record_failure c later (successes c k b1)) = Some later).
Proof.
  intros Hb Ht Hs. unfold acquire. rewrite Hb, Ht.
  set (b1 := add_half_open _).
  assert (b_state b1 = HALF_OPEN ∧ b_success_count b1 = 0) as [Hb1 Hc1].
  { unfold b1, add_half_open, _reset_counts, _transition_to. simpl.
    destruct (decide _); simpl; [congruence | done]. }
  assert (b_state (successes c k b1) = if Z.of_nat k <? success_threshold c then HALF_OPEN else CLOSED) as Hk.
  { rewrite successes_half by (done || lia). by rewrite Hc1. }
  split_and!; try done. intros Hlt. assert ((Z.of_nat k <? success_threshold c) = true) as E by (by apply Z.ltb_lt).
  rewrite E in Hk. destruct (successes c k b1) as [st f s t h l]; simpl in *; subst.
  unfold record_failure, _reset_counts, _transition_to, set_last_failure; simpl. done.
Qed.

Example breaker_recovers_witness :
  let b := failures default_config [of_Z 1; of_Z 1; of_Z 1; of_Z 1; of_Z 1] new_breaker in
  fst (acquire default_config (of_Z 40) b) = true.
Proof.
  intros b. pose proof (breaker_recovers default_config b (of_Z 40) (of_Z 41) 0
    ltac:(vm_compute; reflexivity) ltac:(vm_compute; reflexivity) ltac:(reflexivity)) as Hr.
  destruct (acquire default_config (of_Z 40) b) as [p b1]. exact (proj1 Hr).
Defined.

(** [is_available] predicts [acquire]: at every time and in every state the
    property says a call may go through exactly when acquiring permission would
    succeed, and a refused acquisition changes nothing. *)
Theorem is_available_acquire (c : CircuitBreakerConfig) (now : float) (b : CircuitBreaker) :
  is_available c now b = fst (acquire c now b) ∧
  (is_available c now b = false → snd (acquire c now b) = b).
Proof.
  unfold is_available, acquire. destruct (b_state b); [done | |].
  - by destruct (timeout_passed c now b).
  - by destruct (_ <? _).
Qed.

Definition tripped : CircuitBreaker :=
  failures default_config [of_Z 1; of_Z 1; of_Z 1; of_Z 1; of_Z 1] new_breaker.

Example is_available_acquire_witness : snd (acquire default_config (of_Z 2) tripped) = tripped.
Proof. exact (proj2 (is_available_acquire default_config (of_Z 2) tripped) ltac:(vm_compute; reflexivity)). Defined.

(** Interrupted probes keep their half-open slot: once every slot is taken by
    calls that were cancelled, no call is in flight and none is ever permitted
    again. *)
Lemma interrupted_probes_block_forever :
  let c := Config 1 1 (of_Z 30) 1 in
  let b0 := record_failure c (of_Z 1) new_breaker in
  let '(r, b1) := with_circuit_breaker (A:=unit) c "erp" None (of_Z 40) (of_Z 41) (Interrupted _) b0 in
  r = Interrupted _ ∧ b_state b1 = HALF_OPEN ∧ ∀ now, acquire c now b1 = (false, b1).
Proof. vm_compute. done. Qed.

(** A call permitted while the breaker was closed and finishing in the half-open
    state gives back a slot it never took: two probes run at once with a
    maximum of one. *)
Lemma stale_call_frees_probe_slot :
  let c := Config 1 2 (of_Z 30) 1 in
  let b0 := snd (acquire c (of_Z 1) (snd (acquire c (of_Z 1) new_breaker))) in
  let b1 := record_failure c (of_Z 1) b0 in
  let '(p1, b2) := acquire c (of_Z 40) b1 in
  let b3 := record_success c b2 in
  let '(p2, b4) := acquire c (of_Z 40) b3 in
  p1 = true ∧ p2 = true ∧ b_state b4 = HALF_OPEN.
Proof. vm_compute. done. Qed.
