(* ===== verification/PinAuth.v ===== *)
(** PIN and one-time-password authentication: [services/pin_auth_service.py],
    [services/otp_service.py] and [core/validators/pin_validator.py].

    Password hashing (passlib) and the keyed hash are parameters, as are the
    random tokens and codes, which are arguments of the operations that draw
    them.  None of these collections has a write guard. *)

From Stdlib Require Import Ascii.
From S2P Require Import Prelude PyFloat Py Store ListStore Guard Frame.

Local Open Scope Z_scope.
Local Open Scope stock_scope.

(** ** The PIN validator *)

Record PinValidationResult := PinResult {
  is_valid : bool; error_message : option string; error_code : option string;
}.

Definition invalid (message code : string) : PinValidationResult :=
  PinResult false (Some message) (Some code).

Definition pin_digits (pin : string) : list Z := map digit_val (String.list_ascii_of_string pin).

(** Each neighbour differs by [step]. *)
Fixpoint runs_by (step : Z) (digits : list Z) : bool :=
  match digits with
  | a :: ((b :: _) as rest) => (a + step =? b) && runs_by step rest
  | _ => true
  end.

Definition _is_sequential (pin : string) : bool :=
  runs_by 1 (pin_digits pin) || runs_by (-1) (pin_digits pin).

(** [len(set(pin)) == 1] *)
Definition all_same (pin : string) : bool :=
  match pin with
  | EmptyString => false
  | String c _ => str_all (fun a => Ascii.eqb a c) pin
  end.

Definition weak_pins : list string := [
  "1234"; "4321"; "1111"; "0000"; "2222"; "3333"; "4444"; "5555"; "6666"; "7777"; "8888"; "9999";
  "1212"; "2121"; "1010"; "0101"; "1122"; "2211"; "1357"; "2468"; "0246"; "1379"; "2580"; "0852";
  "123456"; "654321"; "111111"; "000000"; "123123"].

Definition len (s : string) : Z := Z.of_nat (String.length s).

Definition validate_pin (pin : string) (min_length max_length : Z) : PinValidationResult :=
  if String.eqb pin "" then invalid "PIN is required" "PIN_REQUIRED"
  else if negb (isdigit pin) then invalid "PIN must contain only digits" "PIN_NOT_NUMERIC"
  else if len pin <? min_length then
    invalid ("PIN must be at least " +:+ str_of_Z min_length +:+ " digits") "PIN_TOO_SHORT"
  else if max_length <? len pin then
    invalid ("PIN must be at most " +:+ str_of_Z max_length +:+ " digits") "PIN_TOO_LONG"
  else if all_same pin then invalid "PIN cannot be all the same digit" "PIN_ALL_SAME"
  else if _is_sequential pin then invalid "PIN cannot be a sequential pattern" "PIN_SEQUENTIAL"
  else if str_in pin weak_pins then
    invalid "This PIN is too common. Please choose a more secure PIN" "PIN_TOO_COMMON"
  else PinResult true None None.

Definition validate_pin_change (current_pin new_pin : string) (confirm_pin : option string)
  : PinValidationResult :=
  let validation := validate_pin new_pin 4 6 in
  if negb (is_valid validation) then validation
  else if String.eqb current_pin new_pin then
    invalid "New PIN must be different from current PIN" "PIN_SAME_AS_CURRENT"
  else if match confirm_pin with Some c => negb (String.eqb new_pin c) | None => false end then
    invalid "New PIN and confirmation do not match" "PIN_MISMATCH"
  else PinResult true None None.

(** ** The PIN service *)

Definition OVERRIDE_REQUIRED_ACTIONS : list string :=
  ["approve"; "reject"; "force_close"; "variance_override"; "recount_approve"; "inventory_adjust"].

Definition _OVERRIDE_TOKEN_TTL_SECONDS : Z := 300.

(** Seconds as microseconds of a [timedelta]. *)
Definition seconds (n : Z) : Z := n * 1000000.

Definition max_attempts : Z := 3.
Definition lockout_duration : Z := 15.

Definition _validate_pin_format (pin : string) : bool :=
  (4 <=? len pin) && (len pin <=? 6) && isdigit pin.

(** [token.rsplit(".", 1)]: the text before and after the last dot. *)
Fixpoint rsplit_dot (s : string) : option (string * string) :=
  match s with
  | EmptyString => None
  | String c s' =>
      match rsplit_dot s' with
      | Some (a, b) => Some (String c a, b)
      | None => if Ascii.eqb c "."%char then Some (EmptyString, s') else None
      end
  end.

Section pin.
Context {C : Type} `{Mongo C}.
Context (clock : nat → Z).

(** [pwd_context.hash] and [pwd_context.verify] of passlib; the keyed hash in
    hexadecimal, and the secret of the deployment. *)
Context (pwd_hash : string → string) (pwd_verify : string → val → outcome bool).
Context (hmac_sha256 : string → string → string) (override_token_secret : option string).

Definition pin_update (q : query) (u : update) : M (world C) Z :=
  counted "pin_authentication" (update_one q u).

Definition by_user (user_id : string) : query := QEq "user_id" (VStr user_id).

Definition set_pin (user_id pin : string) : M (world C) bool :=
  try_except
    (run raise_if (negb (_validate_pin_format pin)) (ValueError "PIN must be 4-6 digits") ;;
     let hashed_pin := pwd_hash pin in
     do now <- utc_now clock ;;
     do _ <- counted "pin_authentication" (upsert_one (by_user user_id)
               (USet [("pin_hash", VStr hashed_pin); ("created_at", VTime now);
                      ("enabled", VBool true); ("failed_attempts", VInt 0)])) ;;
     ret true)
    (fun _ => ret false).

(** The lockout check: [true] when the account is locked. *)
Definition _check_locked (user_id : string) (pin_record : doc) : M (world C) bool :=
  let locked_until := get "locked_until" pin_record in
  if truthy locked_until then
    do now <- utc_now clock ;;
    do locked <- lift (time_lt now locked_until) ;;
    if locked then ret true
    else
      do _ <- pin_update (by_user user_id)
                (USet [("locked_until", VNone); ("failed_attempts", VInt 0)]) ;;
      ret false
  else ret false.

(** The bookkeeping of a wrong PIN, on the record read at the start. *)
Definition _record_failed_attempt (user_id : string) (pin_record : doc) : M (world C) unit :=
  do failed_attempts <- lift (add_int (dget "failed_attempts" (VInt 0) pin_record) 1) ;;
  do reached <- lift (ge_int failed_attempts max_attempts) ;;
  do lock <- (if reached : bool then
                do now <- utc_now clock ;;
                ret [("locked_until", VTime (now + seconds (60 * lockout_duration)))]
              else ret []) ;;
  do _ <- pin_update (by_user user_id) (USet (("failed_attempts", failed_attempts) :: lock)) ;;
  ret tt.

(** The comparison with the hash and what follows it. *)
Definition _verify_hash (user_id pin : string) (pin_record : doc) : M (world C) bool :=
  do ok <- lift (pwd_verify pin (dget "pin_hash" (VStr "") pin_record)) ;;
  if ok : bool then
    do now <- utc_now clock ;;
    do _ <- pin_update (by_user user_id)
              (USet [("last_used", VTime now); ("failed_attempts", VInt 0)]) ;;
    ret true
  else
    run _record_failed_attempt user_id pin_record ;;
    ret false.

Definition verify_pin (user_id pin : string) : M (world C) bool :=
  try_except
    (do found <- db_find_one "pin_authentication" (by_user user_id) ;;
     match found with
     | None | Some [] => ret false
     | Some pin_record =>
         if negb (truthy (get "enabled" pin_record)) then ret false
         else
           do locked <- _check_locked user_id pin_record ;;
           if locked : bool then ret false
           else
             _verify_hash user_id pin pin_record
     end)
    (fun _ => ret false).

Definition disable_pin (user_id : string) : M (world C) bool :=
  try_except
    (do modified_count <- pin_update (by_user user_id) (USet [("enabled", VBool false)]) ;;
     ret (0 <? modified_count))
    (fun _ => ret false).

Definition get_pin_status (user_id : string) : M (world C) doc :=
  try_except
    (do found <- db_find_one "pin_authentication" (by_user user_id) ;;
     match found with
     | None | Some [] => ret [("enabled", VBool false); ("status", VStr "not_set")]
     | Some pin_record =>
         let locked_until := get "locked_until" pin_record in
         do is_locked <- (if truthy locked_until then
                            do now <- utc_now clock ;; lift (time_lt now locked_until)
                          else ret false) ;;
         ret [("enabled", dget "enabled" (VBool false) pin_record);
              ("status", VStr (if is_locked : bool then "locked" else "active"));
              ("failed_attempts", dget "failed_attempts" (VInt 0) pin_record);
              ("last_used", get "last_used" pin_record);
              ("locked_until", if is_locked then locked_until else VNone)]
     end)
    (fun _ => ret [("enabled", VBool false); ("status", VStr "error")]).

(** ** Supervisor override tokens *)

(** The signing key is the SHA-256 of the secret; both steps are part of the
    keyed hash here. *)
Definition _derive_signing_key : outcome string :=
  match override_token_secret with
  | Some secret =>
      if String.eqb secret "" then
        Raise (RuntimeError "OVERRIDE_TOKEN_SECRET environment variable is not set. Refusing to sign override tokens with an insecure default.")
      else Ok secret
  | None =>
      Raise (RuntimeError "OVERRIDE_TOKEN_SECRET environment variable is not set. Refusing to sign override tokens with an insecure default.")
  end.

Definition _sign_token (payload : string) : outcome string :=
  match _derive_signing_key with
  | Ok key => Ok (hmac_sha256 key payload)
  | Raise e => Raise e
  end.

Definition sig_payload (raw_token user_id action : string) : string :=
  raw_token +:+ ":" +:+ user_id +:+ ":" +:+ action.

Definition generate_override_token (raw_token user_id pin action : string) (ttl_seconds : Z)
  : M (world C) doc :=
  run raise_if (negb (str_in action OVERRIDE_REQUIRED_ACTIONS))
        (ValueError ("Unknown privileged action: " +:+ action)) ;;
  do pin_ok <- verify_pin user_id pin ;;
  run raise_if (negb pin_ok) (PermissionError "PIN verification failed") ;;
  do now <- utc_now clock ;;
  let expires_at := now + seconds ttl_seconds in
  do signature <- lift (_sign_token (sig_payload raw_token user_id action)) ;;
  let signed_token := raw_token +:+ "." +:+ signature in
  do created <- utc_now clock ;;
  do _ <- db_insert_one "supervisor_override_tokens" [
            ("token", VStr signed_token); ("user_id", VStr user_id); ("action", VStr action);
            ("expires_at", VTime expires_at); ("used", VBool false); ("created_at", VTime created)] ;;
  ret [("token", VStr signed_token); ("expires_at", VStr (isoformat "T" expires_at))].

Definition consume_query (token user_id action : string) (now : Z) : query :=
  QAnd [QEq "token" (VStr token); QEq "user_id" (VStr user_id); QEq "action" (VStr action);
        QEq "used" (VBool false); QGt "expires_at" (VTime now)].

(** [hmac.compare_digest] of two texts. *)
Definition compare_digest (a b : string) : outcome bool :=
  if str_all (in_range 0 127) a && str_all (in_range 0 127) b then Ok (String.eqb a b)
  else Raise (TypeError "comparing strings with non-ASCII characters is not supported").

Definition validate_override_token (token user_id action : string) : M (world C) bool :=
  run raise_if (String.eqb token "") (PermissionError "Override token is required for privileged action") ;;
  match rsplit_dot token with
  | None => raise (PermissionError "Malformed override token")
  | Some (raw_token, provided_sig) =>
      do expected_sig <- lift (_sign_token (sig_payload raw_token user_id action)) ;;
      do same <- lift (compare_digest provided_sig expected_sig) ;;
      run raise_if (negb same)
            (PermissionError "Override token signature invalid") ;;
      do now <- utc_now clock ;;
      do modified_count <- counted "supervisor_override_tokens"
           (update_one (consume_query token user_id action now)
              (USet [("used", VBool true); ("used_at", VTime now)])) ;;
      if negb (modified_count =? 0) then ret true
      else
        do existing <- db_find_one "supervisor_override_tokens" (QEq "token" (VStr token)) ;;
        match existing with
        | None | Some [] => raise (PermissionError "Override token not found")
        | Some d =>
            run raise_if (truthy (get "used" d)) (PermissionError "Override token has already been used") ;;
            do expired <- (if truthy (get "expires_at" d)
                           then do before <- lift (time_lt now (get "expires_at" d)) ;; ret (negb before)
                           else ret false) ;;
            run raise_if expired (PermissionError "Override token has expired") ;;
            raise (PermissionError "Override token is invalid for this user or action")
        end
  end.
End pin.

(** ** One-time passwords *)
Section otp.
Context {C : Type} `{Mongo C}.
Context (clock : nat → Z) (otp_expiry_minutes token_expiry_minutes : Z).

(** [generate_otp_code]: the digits chosen by [secrets.choice]. *)
Definition generate_otp_code (choices : list nat) : string :=
  String.concat "" (map (fun n => str_take 1 (str_drop (Nat.modulo n 10) "0123456789")) choices).

Definition create_otp (choices : list nat) (user_id : string) : M (world C) string :=
  do _ <- counted "auth_otps" (delete_many (by_user user_id)) ;;
  let otp_code := generate_otp_code choices in
  do now <- utc_now clock ;;
  let expires_at := now + seconds (60 * otp_expiry_minutes) in
  do created <- utc_now clock ;;
  do _ <- db_insert_one "auth_otps" [
            ("user_id", VStr user_id); ("code", VStr otp_code); ("created_at", VTime created);
            ("expires_at", VTime expires_at); ("attempts", VInt 0)] ;;
  ret otp_code.

Definition verify_otp (user_id code : string) : M (world C) (bool * string) :=
  do found <- db_find_one "auth_otps" (by_user user_id) ;;
  match found with
  | None | Some [] => ret (false, "OTP not found or expired")
  | Some otp_doc =>
      do attempts <- lift (item "attempts" otp_doc) ;;
      do too_many <- lift (ge_int attempts 5) ;;
      if too_many : bool then
        do _ <- counted "auth_otps" (delete_one (by_user user_id)) ;;
        ret (false, "Too many failed attempts. Please request a new OTP.")
      else
        do stored <- lift (item "code" otp_doc) ;;
        if negb (py_eqb stored (VStr code)) then
          do _ <- counted "auth_otps" (update_one (by_user user_id) (Upd [] [("attempts", VInt 1)] [] [])) ;;
          ret (false, "Invalid OTP code")
        else
          do _ <- counted "auth_otps" (delete_one (by_user user_id)) ;;
          ret (true, "Success")
  end.

Definition create_reset_token (token user_id : string) : M (world C) string :=
  do now <- utc_now clock ;;
  let expires_at := now + seconds (60 * token_expiry_minutes) in
  do created <- utc_now clock ;;
  do _ <- db_insert_one "auth_reset_tokens" [
            ("user_id", VStr user_id); ("token", VStr token); ("created_at", VTime created);
            ("expires_at", VTime expires_at)] ;;
  ret token.

Definition validate_reset_token (token : string) : M (world C) (option val) :=
  fun w =>
    match find_one_and_delete (QEq "token" (VStr token)) (w_db w "auth_reset_tokens") with
    | (Some ((_ :: _) as token_doc), c) =>
        (match item "user_id" token_doc with Ok v => Ok (Some v) | Raise e => Raise e end,
         set_coll "auth_reset_tokens" c w)
    | (_, c) => (Ok None, set_coll "auth_reset_tokens" c w)
    end.
End otp.

(** ** Specification of the PIN lockout

    What the service promises about one account, as a state machine on the
    failed attempts and the lock: the third wrong PIN in a row locks the account
    for fifteen minutes; while it is locked every PIN is refused; once the lock
    has expired the account is unlocked and counts from zero again. *)
Record account := Account { failed : Z; locked : option Z }.

Inductive attempt_result := Refused | Wrong | Correct.

(** A PIN, right or not, checked against an account that is not locked; the
    lock starts at [later].  The stored datetimes have millisecond precision. *)
Definition check_account (later : Z) (right : bool) (a : account) : attempt_result * account :=
  if right then (Correct, Account 0 (locked a))
  else
    let n := failed a + 1 in
    (Wrong, Account n (if 3 <=? n
                       then (let t := later + 900000000 in Some (t - t mod 1000))
                       else locked a)).

(** An attempt at time [now]. *)
Definition attempt (now later : Z) (right : bool) (a : account) : attempt_result * account :=
  match locked a with
  | Some t => if now <? t then (Refused, a) else check_account later right (Account 0 None)
  | None => check_account later right a
  end.

(** The account a record stands for. *)
Definition account_of (d : doc) : account :=
  Account (match get "failed_attempts" d with VInt n => n | _ => 0 end)
          (match get "locked_until" d with VTime t => Some t | _ => None end).

(** A record of an enabled account, as the service writes it. *)
Record pin_record_ok (user_id : string) (d : doc) : Prop := {
  pr_user : get "user_id" d = VStr user_id;
  pr_enabled : truthy (get "enabled" d) = true;
  pr_failed : ∃ n, aget "failed_attempts" d = Some (VInt n);
  pr_locked : get "locked_until" d = VNone ∨ ∃ t, get "locked_until" d = VTime t;
}.

(** The attempts that are checked as promised: the account is not locked, or is
    locked still, or the PIN is right. *)
Definition not_after_lock (now : Z) (right : bool) (a : account) : Prop :=
  ∀ t, locked a = Some t → now < t ∨ right = true.

Definition is_correct (r : attempt_result) : bool := match r with Correct => true | _ => false end.

Section pin_facts.
Context {C : Type} `{MongoLaws C}.
Context (clock : nat → Z).
Context (pwd_hash : string → string) (pwd_verify : string → val → outcome bool).
Implicit Types (w : world C) (d : doc).

Definition pins w : C := w_db w "pin_authentication".

(** An update of the record of a user, seen through the lookup. *)
Lemma pin_update_spec user_id u w d :
  at_most_one (by_user user_id) (pins w) → find_one (by_user user_id) (pins w) = Some d →
  get "user_id" d = VStr user_id → "user_id" ∉ update_keys u →
  ∃ n w', pin_update (by_user user_id) u w = (Ok n, w') ∧ w_tick w' = w_tick w ∧
    at_most_one (by_user user_id) (pins w') ∧
    find_one (by_user user_id) (pins w') = Some (apply_update u d).
Proof.
  intros Hone Hf Hu Hk. unfold pin_update, counted, pins in *.
  destruct (update_one_unique (by_user user_id) u _ d Hone Hf) as [H1 H2]; [by apply matches_text_other|].
  destruct (update_one _ u _) as [n c] eqn:E. simpl in *. eexists _, _. split; [done|].
  simpl. rewrite fn_lookup_insert. done.
Qed.

Lemma get_set k v u d :
  NoDup (update_keys u) → aget k (u_set u) = Some v → plain v = true → (∀ us, v ≠ VTime us) →
  get k (apply_update u d) = v.
Proof. intros Hnd Hk Hp Ht. rewrite (get_apply_set u d k v) by done. by apply to_bson_plain. Qed.

Lemma get_set_time k t u d :
  NoDup (update_keys u) → aget k (u_set u) = Some (VTime t) →
  get k (apply_update u d) = VTime (t - t mod 1000).
Proof. intros Hnd Hk. rewrite (get_apply_set u d k (VTime t)) by done. apply to_bson_time. Qed.

Lemma str_in_all (l m : list string) k :
  k ∈ l → forallb (fun x => str_in x m) l = true → k ∈ m.
Proof.
  intros Hk Hall. rewrite forallb_forall in Hall. apply str_in_spec, Hall. by apply list_elem_of_In.
Qed.

(** A record and its account after an update of some of the three fields. *)
Lemma record_after user_id fields d :
  pin_record_ok user_id d → NoDup (map fst fields) →
  (∀ k, k ∈ map fst fields → k ∈ ["failed_attempts"; "locked_until"; "last_used"]) →
  match aget "failed_attempts" fields with Some (VInt _) | None => True | _ => False end →
  match aget "locked_until" fields with Some (VTime _) | Some VNone | None => True | _ => False end →
  let d' := apply_update (USet fields) d in
  pin_record_ok user_id d' ∧
  account_of d' = Account
    (match aget "failed_attempts" fields with Some (VInt n) => n | _ => failed (account_of d) end)
    (match aget "locked_until" fields with
     | Some (VTime t) => Some (t - t mod 1000) | Some _ => None | None => locked (account_of d) end).
Proof.
  intros [Hu He [n0 Hn0] Hl] Hnd Hks Hfa Hlo d'. assert (NoDup (update_keys (USet fields))) as Hnd'.
  { unfold update_keys. simpl. by rewrite app_nil_r. }
  assert (∀ k, str_in k ["failed_attempts"; "locked_until"; "last_used"] = false →
               aget k d' = aget k d) as Hother.
  { intros k Hk. apply apply_other. unfold update_keys. simpl. rewrite app_nil_r. intros Hin%Hks.
    apply str_in_spec in Hin. congruence. }
  assert (∀ k, aget k fields = None → aget k d' = aget k d) as Hnone.
  { intros k Hk. apply apply_other. unfold update_keys. simpl. rewrite app_nil_r. by apply aget_None. }
  assert (get "failed_attempts" d' = VInt (match aget "failed_attempts" fields with Some (VInt n) => n | _ => n0 end) ∧
    ∃ n, aget "failed_attempts" d' = Some (VInt n)) as [Hf1 Hf2].
  { destruct (aget "failed_attempts" fields) as [[| |n| | | | | |]|] eqn:E; try done.
    - pose proof (apply_set (USet fields) d _ _ Hnd' E) as Ha. rewrite to_bson_plain in Ha by done.
      split; [by apply get_some | by eexists].
    - rewrite Hnone by done. split; [|by eexists]. unfold get. by rewrite Hnone, Hn0. }
  assert ((get "locked_until" d' = VNone ∧ (aget "locked_until" fields = Some VNone ∨ aget "locked_until" fields = None ∧ get "locked_until" d = VNone)) ∨
    ∃ t, get "locked_until" d' = VTime t ∧
      ((∃ u, aget "locked_until" fields = Some (VTime u) ∧ t = u - u mod 1000) ∨
       aget "locked_until" fields = None ∧ get "locked_until" d = VTime t)) as Hlk.
  { destruct (aget "locked_until" fields) as [[| | | | |t| | |]|] eqn:E; try done.
    - left. split; [|by left]. by apply get_set.
    - right. exists (t - t mod 1000). split; [by apply get_set_time | left; eauto].
    - unfold get at 1 3. rewrite Hnone by done. destruct Hl as [Hl|[t Hl]]; [left | right; exists t]; auto. }
  split.
  - split; [by unfold get; rewrite Hother | by unfold get; rewrite Hother | done |].
    destruct Hlk as [[Hk _]|(t & Hk & _)]; [by left | right; eauto].
  - unfold account_of at 1. rewrite Hf1. f_equal.
    + unfold account_of. simpl. rewrite (get_some _ _ _ Hn0). done.
    + unfold account_of. simpl. destruct Hlk as [[-> [->|[-> ->]]]|(t & -> & [(u & -> & ->)|[-> ->]])]; done.
Qed.

(** The stored record of a user after an update by the service. *)
Lemma record_update_spec user_id fields w d :
  at_most_one (by_user user_id) (pins w) → find_one (by_user user_id) (pins w) = Some d →
  get "user_id" d = VStr user_id → str_in "user_id" (map fst fields) = false →
  ∃ n w', pin_update (by_user user_id) (USet fields) w = (Ok n, w') ∧ w_tick w' = w_tick w ∧
    at_most_one (by_user user_id) (pins w') ∧
    find_one (by_user user_id) (pins w') = Some (apply_update (USet fields) d).
Proof.
  intros Hone Hf Hu Hk. apply pin_update_spec; try done.
  unfold update_keys. simpl. rewrite app_nil_r. by apply str_in_false.
Qed.

(** The lock check: refused while locked, otherwise the stored lock is cleared. *)
Lemma check_locked_spec user_id w d :
  at_most_one (by_user user_id) (pins w) → find_one (by_user user_id) (pins w) = Some d →
  pin_record_ok user_id d →
  let now := clock (w_tick w) in
  match locked (account_of d) with
  | Some t =>
      if now <? t then _check_locked clock user_id d w = (Ok true, tick w)
      else ∃ w1 d1, _check_locked clock user_id d w = (Ok false, w1) ∧ w_tick w1 = S (w_tick w) ∧
        at_most_one (by_user user_id) (pins w1) ∧ find_one (by_user user_id) (pins w1) = Some d1 ∧
        pin_record_ok user_id d1 ∧ locked (account_of d1) = None
  | None => _check_locked clock user_id d w = (Ok false, w)
  end.
Proof.
  intros Hone Hf Hok now. destruct Hok as [Hu He Hfa Hl]. unfold _check_locked, account_of.
  destruct Hl as [Hl|[t Hl]]; rewrite Hl; [done|]. simpl.
  rewrite (bind_ok (utc_now clock) _ w now (tick w)) by done.
  rewrite (bind_ok (lift (time_lt now (VTime t))) _ (tick w) (now <? t) (tick w)) by done.
  destruct (now <? t) eqn:E; [done|].
  pose proof (Build_pin_record_ok user_id d Hu He Hfa (or_intror (ex_intro _ t Hl))) as Hok.
  destruct (record_update_spec user_id [("locked_until", VNone); ("failed_attempts", VInt 0)] (tick w) d)
    as (n & w1 & Hup & Ht & H1 & H2); try done.
  destruct (record_after user_id [("locked_until", VNone); ("failed_attempts", VInt 0)] d Hok) as [H3 H4];
    [apply (bool_decide_unpack _); vm_compute; exact I | | done | done |].
  { intros k Hk. by apply (str_in_all _ _ _ Hk). }
  exists w1, (apply_update (USet [("locked_until", VNone); ("failed_attempts", VInt 0)]) d).
  rewrite (bind_ok _ _ _ _ _ Hup). split_and!; try done. exact (f_equal locked H4).
Qed.

Lemma failed_attempt_spec user_id w d d1 :
  at_most_one (by_user user_id) (pins w) → find_one (by_user user_id) (pins w) = Some d1 →
  pin_record_ok user_id d → pin_record_ok user_id d1 →
  let n := failed (account_of d) + 1 in
  ∃ w' d', _record_failed_attempt clock user_id d w = (Ok tt, w') ∧
    find_one (by_user user_id) (pins w') = Some d' ∧ at_most_one (by_user user_id) (pins w') ∧
    pin_record_ok user_id d' ∧
    account_of d' = Account n (if max_attempts <=? n
      then (let t := clock (w_tick w) + seconds (60 * lockout_duration) in Some (t - t mod 1000))
      else locked (account_of d1)).
Proof.
  intros Hone Hf Hok Hok1 n. destruct (pr_failed _ _ Hok) as [n0 Hn0].
  assert (dget "failed_attempts" (VInt 0) d = VInt n0) as Hd by (unfold dget; by rewrite Hn0).
  assert (n = n0 + 1) as Hn by (unfold n, account_of; by rewrite (get_some _ _ _ Hn0)).
  unfold _record_failed_attempt. rewrite Hd.
  rewrite (bind_ok (lift (add_int (VInt n0) 1)) _ w (VInt n) w) by (by rewrite Hn).
  rewrite (bind_ok (lift (ge_int (VInt n) max_attempts)) _ w (max_attempts <=? n) w) by done.
  set (fields := ("failed_attempts", VInt n) ::
    (if max_attempts <=? n then [("locked_until", VTime (clock (w_tick w) + seconds (60 * lockout_duration)))] else [])).
  assert (∃ w0, pins w0 = pins w ∧
    (if max_attempts <=? n then do now <- utc_now clock;; ret [("locked_until", VTime (now + seconds (60 * lockout_duration)))]
     else ret []) w = (Ok (tail fields), w0)) as (w0 & Hw0 & Hl).
  { unfold fields. destruct (max_attempts <=? n); [by exists (tick w) | by exists w]. }
  rewrite (bind_ok _ _ _ _ _ Hl). change (("failed_attempts", VInt n) :: tail fields) with fields.
  destruct (record_update_spec user_id fields w0 d1) as (m & w1 & Hup & Ht & H1 & H2);
    [by rewrite Hw0 | by rewrite Hw0 | apply Hok1 | unfold fields; by destruct (max_attempts <=? n) |].
  rewrite (bind_ok _ _ _ _ _ Hup).
  destruct (record_after user_id fields d1 Hok1) as [H3 H4].
  1-4: unfold fields; destruct (max_attempts <=? n); simpl; try done;
    first [apply (bool_decide_unpack _); vm_compute; exact I
          | intros k Hk; by apply (str_in_all _ _ _ Hk)].
  exists w1, (apply_update (USet fields) d1). split_and!; try done.
  rewrite H4. unfold fields. by destruct (max_attempts <=? n).
Qed.

(** Once the account is not locked: [d] is the record read at the start and [d1]
    the one stored now. *)
Lemma verify_hash_spec user_id pin right w d d1 :
  at_most_one (by_user user_id) (pins w) → find_one (by_user user_id) (pins w) = Some d1 →
  pin_record_ok user_id d → pin_record_ok user_id d1 → locked (account_of d1) = None →
  pwd_verify pin (dget "pin_hash" (VStr "") d) = Ok right →
  ∃ w' d', _verify_hash clock pwd_verify user_id pin d w
             = (Ok (is_correct (fst (check_account (clock (w_tick w)) right (Account (failed (account_of d)) None)))), w') ∧
    find_one (by_user user_id) (pins w') = Some d' ∧ at_most_one (by_user user_id) (pins w') ∧
    pin_record_ok user_id d' ∧
    account_of d' = snd (check_account (clock (w_tick w)) right (Account (failed (account_of d)) None)).
Proof.
  intros Hone1 Hf1 Hok Hok1 Hl1 Hv. unfold _verify_hash.
  rewrite (bind_ok (lift _) _ w right w) by (by rewrite Hv).
  destruct right.
  - rewrite (bind_ok (utc_now clock) _ w (clock (w_tick w)) (tick w)) by done.
    set (fields := [("last_used", VTime (clock (w_tick w))); ("failed_attempts", VInt 0)]).
    destruct (record_update_spec user_id fields (tick w) d1) as (m & w2 & Hup & _ & H1 & H2);
      [done | done | apply Hok1 | done |].
    rewrite (bind_ok _ _ _ _ _ Hup). exists w2, (apply_update (USet fields) d1).
    destruct (record_after user_id fields d1 Hok1) as [H3 H4];
      [apply (bool_decide_unpack _); vm_compute; exact I | intros k Hk; by apply (str_in_all _ _ _ Hk) | done | done |].
    split_and!; try done. by rewrite H4, Hl1.
  - destruct (failed_attempt_spec user_id w d d1 Hone1 Hf1 Hok Hok1) as (w2 & d2 & Hr & H1 & H2 & H3 & H4).
    rewrite (bind_ok _ _ _ _ _ Hr). exists w2, d2. split_and!; try done. by rewrite H4, Hl1.
Qed.
End pin_facts.

(** ** Tokens and codes *)

Section token_facts.
Context {C : Type} `{MongoLaws C}.
Context (clock : nat → Z) (hmac_sha256 : string → string → string) (secret : option string).
Implicit Types (w : world C) (d : doc).

Definition tokens w : C := w_db w "supervisor_override_tokens".
Definition by_token (token : string) : query := QEq "token" (VStr token).

(** The fields of a stored token are scalars. *)
Definition token_ok d : Prop :=
  is_list (get "token" d) = false ∧ is_list (get "user_id" d) = false ∧
  is_list (get "action" d) = false ∧ is_list (get "used" d) = false ∧
  is_list (get "expires_at" d) = false.

Lemma consume_matches token user_id action now d :
  token_ok d → matches (consume_query token user_id action now) d = true →
  get "token" d = VStr token ∧ get "user_id" d = VStr user_id ∧ get "action" d = VStr action ∧
  get "used" d = VBool false ∧ ∃ e, get "expires_at" d = VTime e ∧ now < e.
Proof.
  intros (H1 & H2 & H3 & H4 & H5). unfold consume_query. rewrite matches_and. cbn [forallb].
  rewrite !matches_eq by done. intros Hm. bool_hyps.
  repeat match goal with Hb : bson_eqb (VStr _) _ = true |- _ => apply bson_eqb_str in Hb end.
  split_and!; try done.
  - destruct (get "used" d); try done. simpl in *. by destruct b.
  - destruct (get "expires_at" d) as [| | | | |e| | |] eqn:E;
      first [rewrite matches_gt_time_none in * by (rewrite ?E; done) ; done | idtac].
    exists e. rewrite (matches_gt_time _ _ e) in * by done. bool_hyps. done.
Qed.

(** What a successful validation found and did. *)
Lemma validate_token_ok token user_id action w b w' :
  validate_override_token clock hmac_sha256 secret token user_id action w = (Ok b, w') →
  ∃ d, d ∈ contents (tokens w) ∧
    matches (consume_query token user_id action (clock (w_tick w))) d = true ∧
    tokens w' = snd (update_one (consume_query token user_id action (clock (w_tick w)))
      (USet [("used", VBool true); ("used_at", VTime (clock (w_tick w)))]) (tokens w)) ∧
    ∃ raw sig, rsplit_dot token = Some (raw, sig) ∧
      _sign_token hmac_sha256 secret (sig_payload raw user_id action) = Ok sig.
Proof.
  unfold validate_override_token. intros Hm.
  apply bind_ok_inv in Hm as ([] & w1 & [_ ->]%raise_if_ok_inv & Hm).
  destruct (rsplit_dot token) as [[raw sig]|] eqn:Er; [|done].
  apply bind_ok_inv in Hm as (e & w1 & Hs & Hm). unfold lift in Hs. simplify_eq.
  apply bind_ok_inv in Hm as (same & w2 & [Hsame ->]%lift_ok & Hm).
  apply bind_ok_inv in Hm as ([] & w2 & [Hsig ->]%raise_if_ok_inv & Hm).
  apply negb_false_iff in Hsig as ->. unfold compare_digest in Hsame. destruct (_ && _); [|done].
  injection Hsame as Hsame. apply String.eqb_eq in Hsame. subst.
  apply bind_ok_inv in Hm as (now & w3 & Hnow & Hm). unfold utc_now in Hnow. simplify_eq.
  set (q := consume_query _ _ _ _) in *. set (u := USet _) in *.
  apply bind_ok_inv in Hm as (n & w4 & Hn & Hm). unfold counted in Hn.
  destruct (update_one q u (w_db (tick w1) _)) as [m c] eqn:E. simplify_eq. change (w_db (tick w1)) with (w_db w1) in E.
  destruct (n =? 0) eqn:En; cbn [negb] in Hm.
  - exfalso. apply bind_ok_inv in Hm as (ex & w5 & _ & Hm).
    destruct ex as [[|kv d]|]; try discriminate Hm.
    apply bind_ok_inv in Hm as ([] & w6 & _ & Hm). apply bind_ok_inv in Hm as (ex & w7 & _ & Hm).
    by apply bind_ok_inv in Hm as ([] & w8 & _ & Hm).
  - unfold ret in Hm. simplify_eq. destruct (find_one q (tokens w1)) as [d|] eqn:Ef.
    + apply find_one_some in Ef as [Hd Hmd]. exists d. split_and!; [done|done| |by eauto].
      unfold tokens. simpl. rewrite fn_lookup_insert. by rewrite E.
    + rewrite update_one_none in E by (by apply find_one_none). by simplify_eq.
Qed.
End token_facts.

Section otp_facts.
Context {C : Type} `{MongoLaws C}.
Implicit Types (w : world C) (d : doc).

Definition otps w : C := w_db w "auth_otps".

(** A stored code with [k] failed attempts. *)
Definition otp_doc_ok (user_id code : string) (k : Z) d : Prop :=
  get "user_id" d = VStr user_id ∧ get "code" d = VStr code ∧ aget "code" d = Some (VStr code) ∧
  aget "attempts" d = Some (VInt k).

(** One wrong guess: counted up to five, then the code is gone. *)
Lemma wrong_guess user_id code guess k w d :
  at_most_one (by_user user_id) (otps w) → find_one (by_user user_id) (otps w) = Some d →
  otp_doc_ok user_id code k d → guess ≠ code → 0 <= k →
  ∃ m w', verify_otp user_id guess w = (Ok (false, m), w') ∧
    if k <? 5 then ∃ d', find_one (by_user user_id) (otps w') = Some d' ∧
                         at_most_one (by_user user_id) (otps w') ∧ otp_doc_ok user_id code (k + 1) d'
    else find_one (by_user user_id) (otps w') = None.
Proof.
  intros Hone Hf (Hu & Hc & Hc' & Ha) Hne Hk. unfold verify_otp.
  rewrite (bind_ok (db_find_one _ _) _ w (Some d) w) by (unfold db_find_one, gets; by rewrite <- Hf).
  destruct d as [|kv d0]; [done|]. set (d := kv :: d0) in *.
  rewrite (bind_ok (lift (item "attempts" d)) _ w (VInt k) w) by (unfold lift, item; by rewrite Ha).
  rewrite (bind_ok (lift (ge_int (VInt k) 5)) _ w (5 <=? k) w) by done.
  destruct (Z.ltb_spec k 5) as [Hlt|Hge].
  - assert ((5 <=? k) = false) as -> by (apply Z.leb_gt; lia).
    rewrite (bind_ok (lift (item "code" d)) _ w (VStr code) w) by (unfold lift, item; by rewrite Hc').
    assert (py_eqb (VStr code) (VStr guess) = false) as ->
      by (change (String.eqb code guess = false); apply String.eqb_neq; congruence).
    cbn [negb].
    set (u := Upd [] [("attempts", VInt 1)] [] []).
    assert (NoDup (update_keys u)) as Hnd by (apply (bool_decide_unpack _); vm_compute; exact I).
    assert (∀ k, k ≠ "attempts" → aget k (apply_update u d) = aget k d) as Hoth.
    { intros x Hx. apply apply_other. unfold update_keys. simpl. by rewrite list_elem_of_singleton. }
    destruct (update_one_unique (by_user user_id) u _ d Hone Hf) as [H1 H2].
    { apply matches_text_other; [done|]. unfold update_keys. simpl. by rewrite list_elem_of_singleton. }
    unfold bind, counted, otps in *. destruct (update_one _ u _) as [m c] eqn:E. eexists _, _. split; [done|].
    simpl. rewrite fn_lookup_insert. exists (apply_update u d). split_and!; [done|done|].
    unfold otp_doc_ok, get. rewrite !Hoth by done. split_and!; [done..|].
    apply apply_inc_int; [done|done|done|]. unfold int64_max. lia.
  - assert ((5 <=? k) = true) as -> by (by apply Z.leb_le).
    pose proof (delete_one_unique _ _ _ Hone Hf) as Hd. unfold bind, counted, otps in *.
    destruct (delete_one _ _) as [n c] eqn:E. eexists _, _. split; [done|]. simpl. by rewrite fn_lookup_insert.
Qed.

(** The guesses one after the other. *)
Fixpoint guesses (user_id : string) (l : list string) w : world C :=
  match l with [] => w | g :: l' => guesses user_id l' (snd (verify_otp user_id g w)) end.

Lemma no_otp user_id code w :
  find_one (by_user user_id) (otps w) = None →
  verify_otp user_id code w = (Ok (false, "OTP not found or expired"), w).
Proof. intros Hf. unfold verify_otp, bind, db_find_one, gets, otps in *. by rewrite Hf. Qed.

Lemma guesses_none user_id l w :
  find_one (by_user user_id) (otps w) = None → find_one (by_user user_id) (otps (guesses user_id l w)) = None.
Proof.
  revert w. induction l as [|g l IH]; intros w Hf; [done|]. simpl. rewrite no_otp by done. by apply IH.
Qed.
End otp_facts.

(** ** Properties *)

(** C34: the PIN check refines the lockout machine, but for a wrong PIN that is
    the first attempt after a lock has expired: on the record of an enabled
    account, [verify_pin] answers true exactly when the machine [attempt] says
    Correct, and the record it leaves stands for the account the machine leaves:
    refused and unchanged before the lock expires, otherwise checked against the
    hash, a success clearing the count, a failure adding one to it and locking
    the account for 15 minutes when it is the third. *)
Theorem verify_pin_refines `{MongoLaws C} clock pwd_verify (user_id pin : string) (right : bool)
    (w : world C) (d : doc) :
  at_most_one (by_user user_id) (pins w) → find_one (by_user user_id) (pins w) = Some d →
  pin_record_ok user_id d → pwd_verify pin (dget "pin_hash" (VStr "") d) = Ok right →
  not_after_lock (clock (w_tick w)) right (account_of d) →
  let now := clock (w_tick w) in
  let later := clock (match locked (account_of d) with Some _ => S (w_tick w) | None => w_tick w end) in
  ∃ w' d', verify_pin clock pwd_verify user_id pin w
             = (Ok (is_correct (fst (attempt now later right (account_of d)))), w') ∧
    find_one (by_user user_id) (pins w') = Some d' ∧ at_most_one (by_user user_id) (pins w') ∧
    pin_record_ok user_id d' ∧ account_of d' = snd (attempt now later right (account_of d)).
Proof.
  intros Hone Hf Hok Hv Hlock now later. unfold verify_pin, try_except.
  rewrite (bind_ok (db_find_one _ _) _ w (Some d) w) by (unfold db_find_one, gets; by rewrite <- Hf).
  destruct d as [|kv d0]; [by destruct Hok as [Hu _ _ _]|]. set (d := kv :: d0) in *.
  rewrite (pr_enabled _ _ Hok). cbn [negb].
  pose proof (check_locked_spec clock user_id w d Hone Hf Hok) as Hc. cbv zeta in Hc. fold now in Hc.
  destruct (account_of d) as [f l] eqn:Ea. unfold attempt, later in *. cbn [locked failed] in *.
  destruct l as [t|].
  - destruct (now <? t) eqn:E; [|assert (right = true) as -> by (destruct (Hlock t eq_refl); [apply Z.ltb_ge in E; lia | done])].
    + rewrite (bind_ok _ _ _ _ _ Hc). exists (tick w), d. split_and!; try done.
    + destruct Hc as (w1 & d1 & Hc & Ht & H1 & H2 & H3 & H4). rewrite (bind_ok _ _ _ _ _ Hc).
      destruct (verify_hash_spec clock pwd_verify user_id pin true w1 d d1 H1 H2 Hok H3 H4 Hv)
        as (w2 & d2 & Hr & K1 & K2 & K3 & K4).
      rewrite Hr. by exists w2, d2.
  - rewrite (bind_ok _ _ _ _ _ Hc).
    destruct (verify_hash_spec clock pwd_verify user_id pin right w d d Hone Hf Hok Hok)
      as (w2 & d2 & Hr & K1 & K2 & K3 & K4); [by rewrite Ea | done |].
    rewrite Ea in *. cbn [failed] in *. rewrite Hr. by exists w2, d2.
Qed.

Example verify_pin_refines_witness :
  let d := [("user_id", VStr "u1"); ("pin_hash", VStr "h"); ("enabled", VBool true); ("failed_attempts", VInt 2)] in
  let w := mkworld [("pin_authentication", [d])] in
  ∃ w' d', verify_pin (fun _ => 5000) (fun _ _ => Ok false) "u1" "0000" w = (Ok false, w') ∧
    account_of d' = Account 3 (Some 900005000).
Proof.
  intros d w.
  destruct (verify_pin_refines (fun _ => 5000) (fun _ _ => Ok false) "u1" "0000" false w d)
    as (w' & d' & H1 & _ & _ & _ & H2).
  - apply Nat.leb_le. vm_compute. reflexivity.
  - vm_compute. reflexivity.
  - split; [reflexivity | reflexivity | by exists 2 | by left].
  - reflexivity.
  - intros t Ht. discriminate Ht.
  - exists w', d'. split; [exact H1 | rewrite H2; vm_compute; reflexivity].
Defined.

(** Three strikes: after three wrong PINs in a row on a fresh account it is
    locked for 15 minutes from the third one, and every attempt before the lock
    expires, with the right PIN too, is refused and changes nothing. *)
Theorem three_strikes_lock (n1 l1 n2 l2 n3 l3 now later : Z) (right : bool) :
  let a3 := snd (attempt n3 l3 false (snd (attempt n2 l2 false (snd (attempt n1 l1 false (Account 0 None)))))) in
  let expiry := l3 + 900000000 in
  locked a3 = Some (expiry - expiry mod 1000) ∧
  (now < expiry - expiry mod 1000 → attempt now later right a3 = (Refused, a3)).
Proof.
  intros a3 expiry. assert (locked a3 = Some (expiry - expiry mod 1000)) as Hl by reflexivity.
  split; [done|]. intros Hlt. unfold attempt. rewrite Hl. apply Z.ltb_lt in Hlt. by rewrite Hlt.
Qed.

Example three_strikes_lock_witness :
  attempt 1000 1000 true (snd (attempt 0 0 false (snd (attempt 0 0 false (snd (attempt 0 0 false (Account 0 None)))))))
  = (Refused, Account 3 (Some 900000000)).
Proof. exact (proj2 (three_strikes_lock 0 0 0 0 0 0 1000 1000 true) ltac:(reflexivity)). Defined.

(** The unlock forgets to forget: after the lock has expired, one wrong PIN is
    counted on top of the attempts read before the reset and locks again, where
    the machine would count it as the first. *)
Lemma expired_lock_relocks :
  let d := [("user_id", VStr "u1"); ("pin_hash", VStr "h"); ("enabled", VBool true); ("failed_attempts", VInt 3);
            ("locked_until", VTime 4000)] in
  let w := mkworld [("pin_authentication", [d])] in
  let '(r, w') := verify_pin (fun _ => 5000) (fun _ _ => Ok false) "u1" "0000" w in
  (r, map account_of (w_db w' "pin_authentication")) = (Ok false, [Account 4 (Some 900005000)]) ∧
  attempt 5000 5000 false (account_of d) = (Wrong, Account 1 None).
Proof. vm_compute. split; reflexivity. Qed.

(** An accepted PIN meets every rule: it has between the two lengths, only
    digits, is neither one digit repeated nor a run up or down, and is not on
    the list of common PINs; and a PIN that meets them is accepted. *)
Theorem validate_pin_spec (pin : string) (lo hi : Z) :
  0 < lo →
  is_valid (validate_pin pin lo hi) = true ↔
  (lo <= len pin <= hi ∧ isdigit pin = true ∧ all_same pin = false ∧
   runs_by 1 (pin_digits pin) = false ∧ runs_by (-1) (pin_digits pin) = false ∧ pin ∉ weak_pins).
Proof.
  intros Hlo. unfold validate_pin, _is_sequential. rewrite <- str_in_false. split.
  - destruct (String.eqb pin ""); [done|]. destruct (isdigit pin); [|done].
    destruct (len pin <? lo) eqn:E1; [done|]. destruct (hi <? len pin) eqn:E2; [done|].
    destruct (all_same pin); [done|]. destruct (_ || _) eqn:E3; [done|].
    destruct (str_in pin weak_pins); [done|]. intros _. apply orb_false_iff in E3 as [-> ->].
    apply Z.ltb_ge in E1, E2. done.
  - intros ([H1 H2] & -> & -> & -> & -> & ->). simpl.
    destruct (String.eqb_spec pin "") as [->|]; [unfold len in H1; simpl in H1; lia|].
    apply Z.ltb_ge in H1, H2. by rewrite H1, H2.
Qed.

Example validate_pin_spec_witness : is_valid (validate_pin "2905" 4 6) = true.
Proof.
  apply (validate_pin_spec "2905" 4 6); [reflexivity|]. rewrite <- str_in_false.
  split_and!; first [reflexivity | discriminate].
Defined.

(** What a successful validation was of. *)
Lemma token_found `{MongoLaws C} clock hmac_sha256 secret token user_id action (w w' : world C) b :
  (∀ d, d ∈ contents (tokens w) → token_ok d) →
  validate_override_token clock hmac_sha256 secret token user_id action w = (Ok b, w') →
  ∃ d e, d ∈ contents (tokens w) ∧ matches (by_token token) d = true ∧
    get "user_id" d = VStr user_id ∧ get "action" d = VStr action ∧ get "used" d = VBool false ∧
    get "expires_at" d = VTime e ∧ clock (w_tick w) < e.
Proof.
  intros Htok (d & Hd & Hm & _)%validate_token_ok.
  destruct (consume_matches _ _ _ _ d (Htok d Hd) Hm) as (Ht & Hu & Ha & Hused & e & He & Hlt).
  exists d, e. split_and!; try done. unfold by_token. rewrite matches_eq by (by rewrite ?Ht).
  rewrite Ht. apply String.eqb_refl.
Qed.

(** The requests of the service, and the server's removal of the tokens that are
    older than a time (the collection has an index that expires them). *)
Inductive pin_call :=
| SetPin (user_id pin : string)
| VerifyPin (user_id pin : string)
| DisablePin (user_id : string)
| PinStatus (user_id : string)
| Generate (raw_token user_id pin action : string) (ttl_seconds : Z)
| Validate (token user_id action : string)
| ExpireTokens (now : Z).

Section pin_calls.
Context {C : Type} `{MongoLaws C}.
Context (clock : nat → Z) (pwd_hash : string → string) (pwd_verify : string → val → outcome bool).
Context (hmac_sha256 : string → string → string) (secret : option string).
Implicit Types (w : world C) (c : C) (d : doc).

Definition run_pin_call (call : pin_call) : M (world C) unit :=
  match call with
  | SetPin u p => do _ <- set_pin clock pwd_hash u p ;; ret tt
  | VerifyPin u p => do _ <- verify_pin clock pwd_verify u p ;; ret tt
  | DisablePin u => do _ <- disable_pin u ;; ret tt
  | PinStatus u => do _ <- get_pin_status clock u ;; ret tt
  | Generate t u p a ttl => do _ <- generate_override_token clock pwd_verify hmac_sha256 secret t u p a ttl ;; ret tt
  | Validate t u a => do _ <- validate_override_token clock hmac_sha256 secret t u a ;; ret tt
  | ExpireTokens now => do _ <- counted "supervisor_override_tokens" (delete_many (QLt "expires_at" (VTime now))) ;; ret tt
  end.

(** The world after calls made one after the other, whatever each answers. *)
Definition run_pin_calls (l : list pin_call) w : world C := fold_left (fun w call => snd (run_pin_call call w)) l w.

(** The call draws the random part of [token]: a collision. *)
Definition redraws (token : string) (call : pin_call) : Prop :=
  match call with Generate raw _ _ _ _ => ∃ sig, token = raw +:+ "." +:+ sig | _ => False end.

(** No document makes [token] good: where it is stored, it is used. *)
Definition spent_doc (token : string) d : Prop :=
  token_ok d ∧ (get "token" d = VStr token → get "used" d = VBool true).

Lemma token_ok_used d now :
  let u := USet [("used", VBool true); ("used_at", VTime now)] in
  token_ok d → token_ok (apply_update u d) ∧ get "used" (apply_update u d) = VBool true.
Proof.
  cbv zeta. set (u := USet _). intros (H1 & H2 & H3 & H4 & H5).
  assert (NoDup (update_keys u)) as Hnd by (apply (bool_decide_unpack _); vm_compute; exact I).
  assert (get "used" (apply_update u d) = VBool true) as Hused by (by apply get_set).
  assert (∀ k, str_in k ["used"; "used_at"] = false → get k (apply_update u d) = get k d) as Hk
    by (intros k Hk; by apply get_apply_other, str_in_false).
  split; [|done]. unfold token_ok. rewrite Hused, !Hk by done. done.
Qed.

Lemma spent_refused token user_id action w b w' :
  all_docs (spent_doc token) (tokens w) →
  validate_override_token clock hmac_sha256 secret token user_id action w ≠ (Ok b, w').
Proof.
  intros Hs (d & Hd & Hm & _)%validate_token_ok. destruct (Hs d Hd) as [Hok Hused].
  destruct (consume_matches _ _ _ _ d Hok Hm) as (Ht & _ & _ & Hu & _). rewrite Hused in Hu by done. done.
Qed.

(** Verifying a PIN leaves the tokens alone. *)
Lemma frame_verify_pin u p : frame ["pin_authentication"] (verify_pin (C:=C) clock pwd_verify u p).
Proof. unfold verify_pin, _check_locked, _verify_hash, _record_failed_attempt, pin_update. solve_frame. Qed.

Lemma spent_issued token raw sig u a e created :
  token ≠ raw +:+ "." +:+ sig →
  ∀ i, spent_doc token (bson_doc (setdefault "_id" i
    [("token", VStr (raw +:+ "." +:+ sig)); ("user_id", VStr u); ("action", VStr a);
     ("expires_at", VTime e); ("used", VBool false); ("created_at", VTime created)])).
Proof.
  intros Hne i. set (d := setdefault _ _ _).
  assert (get "token" (bson_doc d) = VStr (raw +:+ "." +:+ sig)) as Ht by (by apply get_bson_str).
  split; [|rewrite Ht; intros [= He]; by destruct Hne].
  unfold token_ok. rewrite Ht, (get_bson_str "user_id" u), (get_bson_str "action" a) by done.
  rewrite (get_bson "used"), (get_bson "expires_at") by done. cbn [get aget d setdefault].
  change (get "used" d) with (VBool false). change (get "expires_at" d) with (VTime e).
  by rewrite (to_bson_plain (VBool false)), to_bson_time.
Qed.

Lemma keeps_spent token call :
  ¬ redraws token call → keeps "supervisor_override_tokens" (all_docs (spent_doc token)) (run_pin_call call).
Proof.
  intros Hr.
  assert (∀ u p, keeps "supervisor_override_tokens" (all_docs (spent_doc token)) (verify_pin (C:=C) clock pwd_verify u p)) as Hv
    by (intros; by eapply keeps_frame; [apply frame_verify_pin|]).
  destruct call; cbn [run_pin_call]; (apply keeps_seq; [|intros; apply keeps_reads, frame_ret]).
  - apply (keeps_frame _ _ ["pin_authentication"]); [|done]. unfold set_pin. solve_frame.
  - apply Hv.
  - apply (keeps_frame _ _ ["pin_authentication"]); [|done]. unfold disable_pin, pin_update. solve_frame.
  - apply keeps_reads. unfold get_pin_status. solve_frame.
  - unfold generate_override_token. apply keeps_seq; [apply keeps_reads, frame_raise_if|]. intros _.
    apply keeps_seq; [apply Hv|]. intros ok. apply keeps_seq; [apply keeps_reads, frame_raise_if|]. intros _.
    apply keeps_seq; [apply keeps_reads, frame_utc_now|]. intros now. cbv zeta.
    apply keeps_seq; [apply keeps_reads, frame_lift|]. intros sig.
    apply keeps_seq; [apply keeps_reads, frame_utc_now|]. intros created.
    apply keeps_seq; [|intros; apply keeps_reads, frame_ret]. apply keeps_insert. intros c i c' Hi.
    eapply all_docs_insert; [exact Hi|]. apply spent_issued. intros ->. apply Hr. by exists sig.
  - unfold validate_override_token. apply keeps_seq; [apply keeps_reads, frame_raise_if|]. intros _.
    destruct (rsplit_dot _) as [[raw sig]|]; [|apply keeps_reads, frame_raise].
    apply keeps_seq; [apply keeps_reads, frame_lift|]. intros e.
    apply keeps_seq; [apply keeps_reads, frame_lift|]. intros same.
    apply keeps_seq; [apply keeps_reads, frame_raise_if|]. intros _.
    apply keeps_seq; [apply keeps_reads, frame_utc_now|]. intros now.
    apply keeps_seq; [|intros n; apply keeps_reads; solve_frame]. apply keeps_write. intros c Hc.
    apply all_docs_update_one; [|done]. intros d [Hok Hused].
    destruct (token_ok_used d now Hok) as [Hok' Hused']. by split.
  - apply keeps_write. intros c. apply all_docs_delete_many.
Qed.

Lemma run_spent token l w :
  Forall (fun call => ¬ redraws token call) l →
  all_docs (spent_doc token) (tokens w) → all_docs (spent_doc token) (tokens (run_pin_calls l w)).
Proof.
  revert w. induction l as [|call l IH]; intros w Hl Hs; [done|]. apply list.Forall_cons in Hl as [Hc Hl].
  cbn [run_pin_calls fold_left]. apply IH; [done|]. destruct (run_pin_call call w) as [r w'] eqn:E.
  by apply (keeps_run _ _ _ _ _ _ (keeps_spent token call Hc) E).
Qed.

(** A validation spends its token. *)
Lemma validated_spent token user_id action w b w' :
  at_most_one (by_token token) (tokens w) → all_docs token_ok (tokens w) →
  validate_override_token clock hmac_sha256 secret token user_id action w = (Ok b, w') →
  all_docs (spent_doc token) (tokens w').
Proof.
  intros Hone Htok (d & Hd & Hm & Hw' & _)%validate_token_ok x Hx. rewrite Hw' in Hx.
  set (q := consume_query token user_id action _) in *. set (u := USet _) in *.
  destruct (update_one_some q u (tokens w)) as (d1 & rest & Hc & Hm1 & Hc' & _); [by exists d|].
  assert (d1 ∈ contents (tokens w)) as Hd1 by (rewrite Hc; left).
  destruct (consume_matches _ _ _ _ d1 (Htok d1 Hd1) Hm1) as (Ht1 & _).
  assert (∀ x, get "token" x = VStr token → matches (by_token token) x = true) as Hby.
  { intros y Hy. unfold by_token. rewrite matches_eq by (by rewrite ?Hy). rewrite Hy. apply String.eqb_refl. }
  rewrite Hc' in Hx. apply elem_of_cons in Hx as [->|Hx].
  - destruct (token_ok_used d1 (clock (w_tick w)) (Htok d1 Hd1)). by split.
  - split; [apply Htok; rewrite Hc; by right|]. intros Ht.
    pose proof (at_most_one_rest _ _ _ _ Hone Hc (Hby d1 Ht1) x Hx) as Hn. by rewrite Hby in Hn.
Qed.
End pin_calls.

(** A validated token is used up: no later validation accepts it. *)
Lemma token_consumed `{MongoLaws C} clock hmac_sha256 secret token user_id action (w w' : world C) b :
  at_most_one (by_token token) (tokens w) → (∀ d, d ∈ contents (tokens w) → token_ok d) →
  validate_override_token clock hmac_sha256 secret token user_id action w = (Ok b, w') →
  ∀ user2 action2 w2 b2 w3, tokens w2 = tokens w' →
    validate_override_token clock hmac_sha256 secret token user2 action2 w2 ≠ (Ok b2, w3).
Proof.
  intros Hone Htok Hv user2 action2 w2 b2 w3 Hw2. apply spent_refused. rewrite Hw2. by eapply validated_spent.
Qed.

(** C28: an override token authorises one action once: validation succeeds only
    on a stored, unexpired, unused token issued to that user for that action
    whose signature is the keyed hash of token, user and action; and once it has
    succeeded, then after any further calls of the service (PINs set, verified
    and disabled, tokens issued and validated, the same one again included, and
    expired ones removed), as long as none draws the random part of the token
    again, every validation of the token raises, for any user, action and time. *)
Theorem override_token_single_use `{MongoLaws C} clock pwd_hash pwd_verify hmac_sha256 secret (token user_id action : string)
    (w w' : world C) (b : bool) :
  at_most_one (by_token token) (tokens w) →
  (∀ d, d ∈ contents (tokens w) → token_ok d) →
  validate_override_token clock hmac_sha256 secret token user_id action w = (Ok b, w') →
  (∃ d e, find_one (by_token token) (tokens w) = Some d ∧
     get "user_id" d = VStr user_id ∧ get "action" d = VStr action ∧ get "used" d = VBool false ∧
     get "expires_at" d = VTime e ∧ clock (w_tick w) < e) ∧
  (∃ raw sig, rsplit_dot token = Some (raw, sig) ∧
     _sign_token hmac_sha256 secret (sig_payload raw user_id action) = Ok sig) ∧
  ∀ calls, Forall (fun call => ¬ redraws token call) calls →
    ∀ user2 action2, is_ok (fst (validate_override_token clock hmac_sha256 secret token user2 action2
      (run_pin_calls clock pwd_hash pwd_verify hmac_sha256 secret calls w'))) = false.
Proof.
  intros Hone Htok Hv. split_and!.
  3: { intros calls Hc user2 action2. match goal with |- is_ok (fst ?x) = _ => destruct x as [[b2|e] w3] eqn:E end; [|done].
       exfalso. refine (spent_refused _ _ _ _ _ _ _ _ _ _ E). apply run_spent; [done|]. by eapply validated_spent. }
  - destruct (token_found _ _ _ _ _ _ _ _ _ Htok Hv) as (d & e & Hd & Hm & Hrest). exists d, e.
    split; [by apply find_one_unique | done].
  - by apply validate_token_ok in Hv as (d & _ & _ & _ & Hsig).
Qed.

Definition override_world : world coll :=
  mkworld [("supervisor_override_tokens",
    [[("token", VStr "raw.S:raw:u:approve"); ("user_id", VStr "u"); ("action", VStr "approve");
      ("used", VBool false); ("expires_at", VTime 9000)]])].
Definition example_hmac (key m : string) : string := key +:+ ":" +:+ m.
Definition example_validate (user_id action : string) (w : world coll) :=
  validate_override_token (fun _ => 5000) example_hmac (Some "S") "raw.S:raw:u:approve" user_id action w.

Lemma example_validates : is_ok (fst (example_validate "u" "approve" override_world)) = true.
Proof. vm_compute. reflexivity. Qed.

Lemma override_world_ok :
  at_most_one (by_token "raw.S:raw:u:approve") (tokens override_world) ∧ ∀ d, d ∈ contents (tokens override_world) → token_ok d.
Proof.
  split; [apply Nat.leb_le; vm_compute; reflexivity|].
  intros x Hx. apply list_elem_of_singleton in Hx as ->. by vm_compute.
Qed.

(** The token is refused after two more attempts to use it. *)
Example override_token_single_use_witness :
  let w' := run_pin_calls (fun _ => 5000) (fun p => p) (fun _ _ => Ok true) example_hmac (Some "S")
              [Validate "raw.S:raw:u:approve" "u" "approve"; Validate "raw.S:raw:u:approve" "u" "approve"]
              (snd (example_validate "u" "approve" override_world)) in
  is_ok (fst (example_validate "u" "approve" w')) = false.
Proof.
  pose proof example_validates as Hok. destruct override_world_ok as [Hone Htok]. cbv zeta.
  assert (∃ w, w = override_world) as [w Hw] by eauto. rewrite <- Hw in *. clear Hw.
  destruct (example_validate "u" "approve" w) as [[b|e] w'] eqn:E; [|discriminate Hok].
  unfold example_validate in E.
  destruct (override_token_single_use (fun _ => 5000) (fun p => p) (fun _ _ => Ok true) example_hmac (Some "S")
    "raw.S:raw:u:approve" "u" "approve" w w' b Hone Htok E) as (_ & _ & Hlater).
  apply Hlater. repeat constructor; intros [].
Defined.

(** A one-time password works once: a successful verification was of the
    stored code with fewer than five failed attempts, removes it, and every later
    verification for that user fails until a new code is created. *)
Theorem otp_single_use `{MongoLaws C} (user_id code msg : string) (w w' : world C) :
  at_most_one (by_user user_id) (otps w) →
  verify_otp user_id code w = (Ok (true, msg), w') →
  (∃ d a, find_one (by_user user_id) (otps w) = Some d ∧ py_eqb (get "code" d) (VStr code) = true ∧
          aget "attempts" d = Some a ∧ ge_int a 5 = Ok false) ∧
  ∀ code2, verify_otp user_id code2 w' = (Ok (false, "OTP not found or expired"), w').
Proof.
  intros Hone Hm. unfold verify_otp in Hm.
  apply bind_ok_inv in Hm as (found & w1 & Hf & Hm). unfold db_find_one, gets in Hf. simplify_eq.
  destruct (find_one _ _) as [[|kv d]|] eqn:E; try (unfold ret in Hm; by simplify_eq).
  apply bind_ok_inv in Hm as (a & w2 & Ha & Hm). unfold lift, item in Ha.
  destruct (aget "attempts" (kv :: d)) as [x|] eqn:Ea; simplify_eq.
  apply bind_ok_inv in Hm as (many & w3 & Hmany & Hm). unfold lift in Hmany. simplify_eq. destruct many.
  { apply bind_ok_inv in Hm as (n & w4 & _ & Hm). unfold ret in Hm. by simplify_eq. }
  apply bind_ok_inv in Hm as (stored & w4 & Hst & Hm). unfold lift, item in Hst.
  destruct (aget "code" (kv :: d)) as [x|] eqn:Ec; simplify_eq.
  destruct (py_eqb stored (VStr code)) eqn:Eq; cbn [negb] in Hm.
  2: { apply bind_ok_inv in Hm as (n & w5 & _ & Hm). unfold ret in Hm. by simplify_eq. }
  apply bind_ok_inv in Hm as (n & w5 & Hdel & Hm). unfold ret in Hm. simplify_eq. split.
  - exists (kv :: d), a. split_and!; try done. by rewrite (get_some _ _ _ Ec).
  - intros code2. apply no_otp. unfold counted in Hdel.
    pose proof (delete_one_unique _ _ _ Hone E) as Hn.
    unfold otps in *. destruct (delete_one _ _) as [m c]. simplify_eq/=. by rewrite fn_lookup_insert.
Qed.

Definition otp_world : world coll :=
  mkworld [("auth_otps", [[("user_id", VStr "u"); ("code", VStr "123456"); ("attempts", VInt 2)]])].

Example otp_single_use_witness :
  verify_otp "u" "123456" (snd (verify_otp "u" "123456" otp_world))
    = (Ok (false, "OTP not found or expired"), snd (verify_otp "u" "123456" otp_world)).
Proof.
  refine (proj2 (otp_single_use "u" "123456" "Success" otp_world (snd (verify_otp "u" "123456" otp_world)) _ _) "123456").
  - apply Nat.leb_le. vm_compute. reflexivity.
  - vm_compute. reflexivity.
Defined.

(** A one-time password can be guessed six times: after a new code, up to
    five wrong guesses leave it in place, the sixth removes it, and from then on
    every verification fails, the right code included. *)
Theorem otp_guess_limit `{MongoLaws C} (user_id code : string) (l : list string) (w : world C) (d : doc) :
  at_most_one (by_user user_id) (otps w) → find_one (by_user user_id) (otps w) = Some d →
  otp_doc_ok user_id code 0 d → code ∉ l → (6 ≤ length l)%nat →
  ∀ any, fst (verify_otp user_id any (guesses user_id l w)) = Ok (false, "OTP not found or expired").
Proof.
  intros Hone Hf Hd Hl Hlen any.
  assert (∀ l k w d, at_most_one (by_user user_id) (otps w) → find_one (by_user user_id) (otps w) = Some d →
    otp_doc_ok user_id code k d → 0 <= k <= 5 → code ∉ l → 6 <= k + Z.of_nat (length l) →
    find_one (by_user user_id) (otps (guesses user_id l w)) = None) as Hgen.
  { clear - H0. intros l. induction l as [|g l IH]; intros k w d Hone Hf Hd Hk Hl Hlen; simpl in *; [lia|].
    apply not_elem_of_cons in Hl as [Hne Hl].
    destruct (wrong_guess user_id code g k w d Hone Hf Hd ltac:(congruence) ltac:(lia)) as (m & w' & Hv & Hw').
    rewrite Hv. simpl. destruct (Z.ltb_spec k 5) as [Hlt|Hge].
    - destruct Hw' as (d' & H1 & H2 & H3). apply (IH (k + 1) w' d'); try done; lia.
    - by apply guesses_none. }
  rewrite no_otp; [done|]. apply (Hgen l 0 w d); try done; lia.
Qed.

Example otp_guess_limit_witness :
  let w := mkworld [("auth_otps", [[("user_id", VStr "u"); ("code", VStr "123456"); ("attempts", VInt 0)]])] in
  fst (verify_otp "u" "123456" (guesses "u" ["1"; "2"; "3"; "4"; "5"; "6"] w)) = Ok (false, "OTP not found or expired").
Proof.
  intros w. refine (otp_guess_limit "u" "123456" ["1"; "2"; "3"; "4"; "5"; "6"] w
    [("user_id", VStr "u"); ("code", VStr "123456"); ("attempts", VInt 0)] _ _ _ _ _ "123456").
  - apply Nat.leb_le. vm_compute. reflexivity.
  - vm_compute. reflexivity.
  - vm_compute. tauto.
  - rewrite <- str_in_false. vm_compute. reflexivity.
  - simpl. lia.
Defined.

(** The expiry of a one-time password is left to the database: a stored code is
    accepted whatever its [expires_at] says. *)
Lemma expired_otp_accepted :
  let d := [("user_id", VStr "u"); ("code", VStr "123456"); ("attempts", VInt 0); ("expires_at", VTime 1000)] in
  fst (verify_otp "u" "123456" (mkworld [("auth_otps", [d])])) = Ok (true, "Success").
Proof. vm_compute. reflexivity. Qed.
