(* ===== verification/Adjustments.v ===== *)
(** The inventory adjustment workflow,
    [services/inventory_adjustment_service.py]: proposals, their state machine
    and the ledger they are posted to.

    An override token authorises an adjustment ([PinAuth]); every write is made
    under the authority of the service ([Guard]) and audited ([Lifecycle]).
    Generated ids are arguments of the operations that draw them. *)

From S2P Require Import Prelude PyFloat Py Store ListStore Guard Frame Lifecycle LifecycleSpec PinAuth.

Local Open Scope Z_scope.
Local Open Scope stock_scope.

(** ** States *)

Inductive AdjustmentState :=
| DRAFT | PROPOSED | PENDING_AUTHORIZATION | AUTHORIZED | POSTED | FINALIZED | VOIDED | ROLLED_BACK.

(** The text of a member: what [_norm] extracts and what the driver stores. *)
Definition value (s : AdjustmentState) : string :=
  match s with
  | DRAFT => "DRAFT" | PROPOSED => "PROPOSED" | PENDING_AUTHORIZATION => "PENDING_AUTHORIZATION"
  | AUTHORIZED => "AUTHORIZED" | POSTED => "POSTED" | FINALIZED => "FINALIZED"
  | VOIDED => "VOIDED" | ROLLED_BACK => "ROLLED_BACK"
  end.

(** What an f-string makes of a member, from Python 3.11 on (the interpreter of
    the backend image): class and member name, also for a [str] enumeration. *)
Definition format_state (s : AdjustmentState) : string := "AdjustmentState." +:+ value s.

(** The sets of successors, listed in sorted order. *)
Definition _TRANSITIONS : list (string * list string) := [
  ("DRAFT", ["PENDING_AUTHORIZATION"]);
  ("PROPOSED", ["PENDING_AUTHORIZATION"; "VOIDED"]);
  ("PENDING_AUTHORIZATION", ["AUTHORIZED"; "VOIDED"]);
  ("AUTHORIZED", ["POSTED"; "VOIDED"]);
  ("POSTED", ["FINALIZED"; "ROLLED_BACK"]);
  ("FINALIZED", []);
  ("VOIDED", []);
  ("ROLLED_BACK", [])].

Definition allowed_states (fs : string) : list string := default [] (aget fs _TRANSITIONS).

Definition _assert_transition {S} (from_state : val) (to_state : AdjustmentState) : M S unit :=
  let fs := to_str from_state in
  let ts := value to_state in
  let allowed := allowed_states fs in
  raise_if (negb (str_in ts allowed))
    (GovernanceViolation ("Invalid adjustment transition: " +:+ fs +:+ " → " +:+ ts +:+ ". Allowed: " +:+
       match allowed with [] => "none" | _ => to_str (VList (map VStr allowed)) end)).

Definition real_actor (actor : doc) : bool :=
  let username := strip (to_str (por (get "username" actor) (por (get "user_id" actor) (VStr "")))) in
  negb (String.eqb username "" || str_in username ["system"; "conflict_resolver"]).

Definition _require_real_actor {S} (actor : doc) : M S unit :=
  raise_if (negb (real_actor actor))
    (GovernanceViolation "CRITICAL: inventory adjustment requires a real authenticated actor").

(** ** The service *)

Section adjustments.
Context {C : Type} `{Mongo C}.

(** The clock, and what the override tokens are signed with. *)
Context (clock : nat → Z) (hmac_sha256 : string → string → string) (override_token_secret : option string).

Definition _execute_authorized_write {A} (write_call : M (world C) A) : M (world C) A :=
  write_authority "InventoryAdjustmentService" write_call.

Definition by_id (adjustment_id : string) : query := QEq "id" (VStr adjustment_id).

Definition proposal (adjustment_id session_id item_code location_id : string) (counted_qty expected_qty : float)
    (variance_reason : string) (actor : doc) (now : Z) : doc := [
  ("id", VStr adjustment_id); ("session_id", VStr session_id); ("item_code", VStr item_code);
  ("location_id", VStr location_id); ("counted_qty", VFloat counted_qty);
  ("expected_qty", VFloat expected_qty); ("variance", VFloat (fsub counted_qty expected_qty));
  ("variance_reason", VStr variance_reason); ("state", VStr (value DRAFT));
  ("actor_history", VList [VDict [("state", VStr (value DRAFT)); ("actor", VDict actor);
                                  ("timestamp", VStr (isoformat "T" now))]]);
  ("created_by", get "username" actor); ("created_at", VTime now); ("updated_at", VTime now)].

Definition create_proposal (adjustment_id session_id item_code location_id : string)
    (counted_qty expected_qty : float) (variance_reason : string) (actor : doc) : M (world C) doc :=
  run _require_real_actor actor ;;
  do now <- utc_now clock ;;
  do _ <- _execute_authorized_write (db_insert_one "inventory_adjustments"
            (proposal adjustment_id session_id item_code location_id counted_qty expected_qty
               variance_reason actor now)) ;;
  run log_governance_event clock (VStr item_code) (VStr location_id)
        (Audit "ADJUSTMENT_DRAFT" "CREATE_PROPOSAL" session_id VNone VNone VNone) actor ;;
  ret [("id", VStr adjustment_id); ("state", VStr (value DRAFT))].

Definition _load_and_assert_state (adjustment_id : string) (expected_state : AdjustmentState)
  : M (world C) doc :=
  do found <- db_find_one "inventory_adjustments" (by_id adjustment_id) ;;
  match found with
  | None | Some [] => raise (GovernanceViolation ("Adjustment not found: " +:+ adjustment_id))
  | Some doc =>
      let current := to_str (por (get "state" doc) (VStr "")) in
      run raise_if (negb (String.eqb current (value expected_state)))
            (GovernanceViolation ("Adjustment " +:+ adjustment_id +:+ " is in state '" +:+ current +:+
                                    "', expected '" +:+ format_state expected_state +:+ "'")) ;;
      ret doc
  end.

(** The update document of a transition. *)
Definition transition_fields (ts : string) (now : Z) (actor extra : doc) : doc :=
  aupd [("state", VStr ts); ("updated_at", VTime now);
        (lower ts +:+ "_by", get "username" actor); (lower ts +:+ "_at", VTime now)] extra.

Definition history_entry (ts : string) (now : Z) (actor : doc) : val :=
  VDict [("state", VStr ts); ("actor", VDict actor); ("timestamp", VStr (isoformat "T" now))].

Definition state_update (ts : string) (now : Z) (actor extra : doc) : update :=
  Upd (transition_fields ts now actor extra) [] [("actor_history", history_entry ts now actor)] [].

Definition _transition (adjustment_id : string) (to_state : AdjustmentState) (actor : doc)
    (operation : string) (extra : doc) : M (world C) doc :=
  run _require_real_actor actor ;;
  do found <- db_find_one "inventory_adjustments" (by_id adjustment_id) ;;
  match found with
  | None | Some [] => raise (GovernanceViolation ("Adjustment not found: " +:+ adjustment_id))
  | Some doc =>
      let from_state := por (get "state" doc) (VStr "") in
      run _assert_transition from_state to_state ;;
      let ts := value to_state in
      do now <- utc_now clock ;;
      do _ <- _execute_authorized_write
                (db_update_one "inventory_adjustments" (by_id adjustment_id)
                   (state_update ts now actor extra)) ;;
      let text k := to_str (por (get k doc) (VStr "")) in
      run log_governance_event clock (VStr (text "item_code")) (VStr (text "location_id"))
            (Audit ("ADJUSTMENT_" +:+ format_state to_state) operation (text "session_id")
               VNone VNone VNone) actor ;;
      ret [("id", VStr adjustment_id); ("state", VStr (value to_state))]
  end.

Definition submit_for_review (adjustment_id : string) (actor : doc) : M (world C) doc :=
  _transition adjustment_id PENDING_AUTHORIZATION actor "SUBMIT_FOR_REVIEW" [].

Definition authorize (adjustment_id : string) (actor : doc) (override_token : string) : M (world C) doc :=
  let user_id := to_str (por (get "user_id" actor) (por (get "username" actor) (VStr ""))) in
  do _ <- validate_override_token clock hmac_sha256 override_token_secret
            override_token user_id "inventory_adjust" ;;
  _transition adjustment_id AUTHORIZED actor "AUTHORIZE" [].

(** The fields of a ledger entry copied from the adjustment. *)
Definition copied (adjustment : doc) : outcome doc :=
  obind (item "session_id" adjustment) (fun s =>
  obind (item "item_code" adjustment) (fun i =>
  obind (item "location_id" adjustment) (fun l =>
  Ok [("session_id", s); ("item_code", i); ("location_id", l)]))).

(** [post_to_ledger] up to the ledger entry ... *)
Definition _post_entry (entry_id adjustment_id : string) (actor : doc) : M (world C) doc :=
  run _require_real_actor actor ;;
  do adjustment <- _load_and_assert_state adjustment_id AUTHORIZED ;;
  do now <- utc_now clock ;;
  do fields <- lift (copied adjustment) ;;
  do variance <- lift (item "variance" adjustment) ;;
  do _ <- _execute_authorized_write (db_insert_one "inventory_ledger"
            ([("id", VStr entry_id); ("adjustment_id", VStr adjustment_id)] ++ fields ++
             [("variance", variance); ("posted_by", get "username" actor); ("posted_at", VTime now)])) ;;
  ret adjustment.

(** ... and what follows it. *)
Definition _post_transition (adjustment_id : string) (actor adjustment : doc) : M (world C) doc :=
  do result <- _transition adjustment_id POSTED actor "POST_TO_LEDGER" [] ;;
  run log_governance_event clock (get "item_code" adjustment) (get "location_id" adjustment)
        (Audit "ADJUSTMENT_POSTED" "POST_TO_LEDGER" (to_str (get "session_id" adjustment))
           VNone VNone VNone) actor ;;
  ret result.

Definition post_to_ledger (entry_id adjustment_id : string) (actor : doc) : M (world C) doc :=
  do adjustment <- _post_entry entry_id adjustment_id actor ;;
  _post_transition adjustment_id actor adjustment.

Definition finalize (adjustment_id : string) (actor : doc) : M (world C) doc :=
  _transition adjustment_id FINALIZED actor "FINALIZE" [].

Definition void (adjustment_id : string) (actor : doc) (reason : string) : M (world C) doc :=
  _transition adjustment_id VOIDED actor "VOID" [("void_reason", VStr reason)].

Definition rollback (entry_id adjustment_id : string) (actor : doc) (reason : string) : M (world C) doc :=
  run _require_real_actor actor ;;
  do adjustment <- _load_and_assert_state adjustment_id POSTED ;;
  do now <- utc_now clock ;;
  do fields <- lift (copied adjustment) ;;
  do variance <- lift (obind (item "variance" adjustment) neg_val) ;;
  do _ <- _execute_authorized_write (db_insert_one "inventory_ledger"
            ([("id", VStr entry_id); ("adjustment_id", VStr adjustment_id)] ++ fields ++
             [("variance", variance); ("reversal_reason", VStr reason);
              ("reversed_by", get "username" actor); ("reversed_at", VTime now)])) ;;
  _transition adjustment_id ROLLED_BACK actor "ROLLBACK" [("rollback_reason", VStr reason)].
End adjustments.

(** ** Specification

    The trail of an adjustment: the states of its history, each a permitted
    successor of the one before. *)
Inductive trail : list string → string → Prop :=
| trail_draft : trail ["DRAFT"] "DRAFT"
| trail_step l s t : trail l s → str_in t (allowed_states s) = true → trail (l ++ [t]) t.

Definition entry_state (e : val) : val := field_of e "state".

(** A stored adjustment whose history leads from [DRAFT] to its state. *)
Record adjustment_ok (d : doc) (i s : string) (v : float) : Prop := {
  ao_id : get "id" d = VStr i;
  ao_state : get "state" d = VStr s;
  ao_variance : aget "variance" d = Some (VFloat v);
  ao_copied : ∃ f, copied d = Ok f;
  ao_history : ∃ h l, aget "actor_history" d = Some (VList h) ∧ map entry_state h = map VStr l ∧ trail l s;
}.

(** What the ledger holds of an adjustment in a state: nothing before it is
    posted, its variance once posted, and the reversal when rolled back. *)
Definition balance (s : string) (v : float) : list float :=
  if str_in s ["POSTED"; "FINALIZED"] then [v]
  else if String.eqb s "ROLLED_BACK" then [v; fneg v] else [].

Definition entries (i : string) (l : list doc) : list doc :=
  filter (fun e => get "adjustment_id" e = VStr i) l.

(** The adjustments [a] and the ledger [l] agree. *)
Record books_ok `{Mongo C} (a l : C) : Prop := {
  bo_unique : ∀ i, at_most_one (by_id i) a;
  bo_docs : ∀ d, d ∈ contents a → ∃ i s v, adjustment_ok d i s v ∧
    map (get "variance") (entries i (contents l)) ≡ₚ map VFloat (balance s v);
  bo_owner : ∀ e, e ∈ contents l → ∃ d i, d ∈ contents a ∧ get "id" d = VStr i ∧
    get "adjustment_id" e = VStr i;
}.

Definition terminal (s : string) : bool := match allowed_states s with [] => true | _ => false end.

Definition protected : list string :=
  ["id"; "variance"; "session_id"; "item_code"; "location_id"].

(** An adjustment moves from [s] to [t]. *)
Record moved (d d' : doc) (s t : string) : Prop := {
  mv_from : get "state" d = VStr s;
  mv_to : get "state" d' = VStr t;
  mv_allowed : str_in t (allowed_states s) = true;
  mv_fields : ∀ k, k ∈ protected → aget k d' = aget k d;
  mv_history : ∀ h, aget "actor_history" d = Some (VList h) →
    ∃ e, aget "actor_history" d' = Some (VList (h ++ [e])) ∧ entry_state e = VStr t;
}.

(** The ledger entries that go with a move. *)
Definition posting (i t : string) (v : float) (es : list doc) : Prop :=
  map (get "adjustment_id") es = map (fun _ => VStr i) es ∧
  map (get "variance") es = map VFloat
    (if String.eqb t "POSTED" then [v] else if String.eqb t "ROLLED_BACK" then [fneg v] else []).

Inductive book_step `{Mongo C} (a l a' l' : C) : Prop :=
| book_same : contents a' ≡ₚ contents a → contents l' ≡ₚ contents l → book_step a l a' l'
| book_create d i v : contents a' ≡ₚ d :: contents a → contents l' ≡ₚ contents l →
    adjustment_ok d i "DRAFT" v → (∀ e, e ∈ contents a → get "id" e ≠ VStr i) → book_step a l a' l'
| book_move d d' rest i s t v es :
    contents a ≡ₚ d :: rest → contents a' ≡ₚ d' :: rest → contents l' ≡ₚ es ++ contents l →
    adjustment_ok d i s v → moved d d' s t → posting i t v es → book_step a l a' l'.

Section book_lemmas.
Context {C : Type} `{MongoLaws C}.
Implicit Types (a l : C) (d e : doc) (i s t : string).

Lemma matches_by_id i j d : get "id" d = VStr j → matches (by_id i) d = String.eqb i j.
Proof. intros Hd. unfold by_id. rewrite matches_eq by (by rewrite ?Hd). by rewrite Hd. Qed.

Lemma moved_ok d d' i s t v : adjustment_ok d i s v → moved d d' s t → adjustment_ok d' i t v.
Proof.
  intros [Hi Hs Hv Hc (h & ls & Hh & Hl & Ht)] [_ Hto Ha Hf Hm].
  assert (∀ k, str_in k protected = true → aget k d' = aget k d) as Hsame
    by (intros k Hk; by apply Hf, str_in_spec).
  split; [by unfold get; rewrite Hsame | done | by rewrite Hsame | |].
  - unfold copied, item. by rewrite !Hsame.
  - destruct (Hm h Hh) as (e & He & Hst). exists (h ++ [e]), (ls ++ [t]).
    split_and!; [done | by rewrite !map_app, Hl; simpl; rewrite Hst | by apply (trail_step _ s)].
Qed.

(** The permitted moves, one by one. *)
Lemma allowed_cases s t : str_in t (allowed_states s) = true →
  (s, t) ∈ [("DRAFT", "PENDING_AUTHORIZATION"); ("PROPOSED", "PENDING_AUTHORIZATION"); ("PROPOSED", "VOIDED");
            ("PENDING_AUTHORIZATION", "AUTHORIZED"); ("PENDING_AUTHORIZATION", "VOIDED");
            ("AUTHORIZED", "POSTED"); ("AUTHORIZED", "VOIDED"); ("POSTED", "FINALIZED");
            ("POSTED", "ROLLED_BACK")].
Proof.
  unfold allowed_states. intros Ht. destruct (aget s _TRANSITIONS) as [ts|] eqn:E; [|done].
  apply aget_In in E. simpl in E, Ht. apply str_in_spec in Ht.
  rewrite !elem_of_cons. repeat destruct E as [E|E]; simplify_eq;
    rewrite ?elem_of_cons, ?elem_of_nil in Ht; repeat first [destruct Ht as [->|Ht] | destruct Ht]; tauto.
Qed.

Lemma balance_move i s t v es :
  str_in t (allowed_states s) = true → posting i t v es →
  map (get "variance") es ++ map VFloat (balance s v) ≡ₚ map VFloat (balance t v).
Proof.
  intros Ha%allowed_cases [_ ->]. rewrite !elem_of_cons, elem_of_nil in Ha.
  repeat destruct Ha as [Ha|Ha]; simplify_eq; try done. apply Permutation_swap.
Qed.

(** A ledger entry belongs to one adjustment only. *)
Lemma entries_own i t v es : posting i t v es → entries i es = es.
Proof.
  intros [Hi _]. induction es as [|e es IH]; [done|]. cbn [map] in Hi. injection Hi as He Hes.
  unfold entries. rewrite filter_cons_True by done. f_equal. by apply IH.
Qed.

Lemma entries_other i j t v es : posting i t v es → i ≠ j → entries j es = [].
Proof.
  intros [Hi _] Hne. induction es as [|e es IH]; [done|]. cbn [map] in Hi. injection Hi as He Hes.
  unfold entries. rewrite filter_cons_False by congruence. by apply IH.
Qed.

Lemma posting_owner i t v es e : posting i t v es → e ∈ es → get "adjustment_id" e = VStr i.
Proof.
  intros [Hi _] He. induction es as [|e' es IH]; [by apply not_elem_of_nil in He|].
  cbn [map] in Hi. injection Hi as He' Hes. apply elem_of_cons in He as [->|He]; auto.
Qed.

Lemma entries_perm i (l l' : list doc) : l ≡ₚ l' → entries i l ≡ₚ entries i l'.
Proof. intros Hl. unfold entries. by rewrite Hl. Qed.

Lemma books_same a l a' l' :
  contents a' ≡ₚ contents a → contents l' ≡ₚ contents l → books_ok a l → books_ok a' l'.
Proof.
  intros Ha Hl [Hu Hd Ho]. split.
  - intros i. unfold at_most_one. rewrite Ha. apply Hu.
  - intros d Hin. rewrite Ha in Hin. destruct (Hd d Hin) as (i & s & v & Hok & Hb).
    exists i, s, v. split; [done|]. by rewrite (entries_perm i _ _ Hl).
  - intros e He. rewrite Hl in He. destruct (Ho e He) as (d & i & Hin & Hi).
    exists d, i. by rewrite Ha.
Qed.

Lemma books_create a l a' l' d i v :
  contents a' ≡ₚ d :: contents a → contents l' ≡ₚ contents l →
  adjustment_ok d i "DRAFT" v → (∀ e, e ∈ contents a → get "id" e ≠ VStr i) →
  books_ok a l → books_ok a' l'.
Proof.
  intros Ha Hl Hok Hfresh [Hu Hd Ho].
  assert (∀ j, j ≠ i ∨ ∀ e, e ∈ contents a → matches (by_id j) e = false) as Hm.
  { intros j. destruct (decide (j = i)) as [->|]; [right | by left]. intros e He.
    destruct (Hd e He) as (k & s & w & Hke & _). rewrite (matches_by_id i k) by apply Hke.
    apply String.eqb_neq. intros ->. by apply (Hfresh e He), Hke. }
  split.
  - intros j. unfold at_most_one. rewrite Ha, filter_cons, (matches_by_id j i) by apply Hok.
    destruct (decide _) as [Heq|]; [|apply Hu]. apply String.eqb_eq in Heq as ->.
    destruct (Hm i) as [|Hn]; [done|]. simpl. destruct (filter _ _) as [|e es] eqn:E; simpl; [lia|].
    assert (e ∈ filter (fun d => matches (by_id i) d = true) (contents a)) as He by (rewrite E; left).
    apply list_elem_of_filter in He as [He1 He2]. by rewrite Hn in He1.
  - intros x Hx. rewrite Ha in Hx. apply elem_of_cons in Hx as [->|Hx].
    + exists i, "DRAFT", v. split; [done|]. rewrite (entries_perm i _ _ Hl).
      destruct (entries i (contents l)) as [|e es] eqn:E; [done|]. exfalso.
      assert (e ∈ entries i (contents l)) as He by (rewrite E; left).
      unfold entries in He. apply list_elem_of_filter in He as [He1 He2].
      destruct (Ho e He2) as (y & k & Hy & Hk & Hke). apply (Hfresh y Hy). congruence.
    + destruct (Hd x Hx) as (j & s & w & Hxo & Hb). exists j, s, w. split; [done|].
      by rewrite (entries_perm j _ _ Hl).
  - intros e He. rewrite Hl in He. destruct (Ho e He) as (x & j & Hx & Hj). exists x, j.
    split; [rewrite Ha; by right | done].
Qed.

Lemma books_move a l a' l' d d' rest i s t v es :
  contents a ≡ₚ d :: rest → contents a' ≡ₚ d' :: rest → contents l' ≡ₚ es ++ contents l →
  adjustment_ok d i s v → moved d d' s t → posting i t v es → books_ok a l → books_ok a' l'.
Proof.
  intros Ha Ha' Hl Hok Hmv Hp [Hu Hd Ho]. pose proof (moved_ok _ _ _ _ _ _ Hok Hmv) as Hok'. split.
  - intros j. apply (at_most_one_replace (by_id j) a a' d d' rest); [done | done | | apply Hu].
    by rewrite !(matches_by_id j i) by first [apply Hok | apply Hok'].
  - assert (d ∈ contents a) as Hda by (rewrite Ha; left). intros x Hx. rewrite Ha' in Hx.
    apply elem_of_cons in Hx as [->|Hx].
    + exists i, t, v. split; [done|]. rewrite (entries_perm i _ _ Hl). unfold entries at 1.
      rewrite list.filter_app, map_app. fold (entries i es). rewrite (entries_own i t v) by done.
      destruct (Hd d Hda) as (j & s' & v' & Hok2 & Hb).
      assert (j = i) as -> by (pose proof (ao_id _ _ _ _ Hok); pose proof (ao_id _ _ _ _ Hok2); congruence).
      assert (s' = s) as -> by (pose proof (ao_state _ _ _ _ Hok); pose proof (ao_state _ _ _ _ Hok2); congruence).
      assert (v' = v) as -> by (pose proof (ao_variance _ _ _ _ Hok); pose proof (ao_variance _ _ _ _ Hok2); congruence).
      fold (entries i (contents l)). rewrite Hb. apply (balance_move i); [apply Hmv | done].
    + assert (x ∈ contents a) as Hxa by (rewrite Ha; by right).
      destruct (Hd x Hxa) as (j & s' & v' & Hxo & Hb). exists j, s', v'. split; [done|].
      rewrite (entries_perm j _ _ Hl). unfold entries at 1. rewrite list.filter_app, map_app.
      fold (entries j es) (entries j (contents l)). rewrite (entries_other i j t v); [done | done |].
      intros ->. assert (matches (by_id j) d = true) as Hm
        by (rewrite (matches_by_id j j) by apply Hok; apply String.eqb_refl).
      pose proof (at_most_one_rest _ _ _ _ (Hu j) Ha Hm x Hx) as Hn.
      rewrite (matches_by_id j j), String.eqb_refl in Hn by apply Hxo. done.
  - intros e He. rewrite Hl in He. apply elem_of_app in He as [He|He].
    + exists d', i. split_and!; [rewrite Ha'; left | apply Hok' | by apply (posting_owner i t v es)].
    + destruct (Ho e He) as (x & j & Hx & Hj & He'). rewrite Ha in Hx. apply elem_of_cons in Hx as [->|Hx].
      * exists d', j. split_and!; [rewrite Ha'; left | | done].
        pose proof (ao_id _ _ _ _ Hok). pose proof (ao_id _ _ _ _ Hok'). congruence.
      * exists x, j. split_and!; [rewrite Ha'; by right | done | done].
Qed.

Lemma book_step_ok a l a' l' : book_step a l a' l' → books_ok a l → books_ok a' l'.
Proof. intros []; eauto using books_same, books_create, books_move. Qed.

(** No ledger entry is ever changed or removed. *)
Lemma book_step_ledger a l a' l' : book_step a l a' l' → contents l ⊆+ contents l'.
Proof. intros [_ Hl | ? ? ? _ Hl | ? ? ? ? ? ? ? ? _ _ Hl]; rewrite Hl; [reflexivity | reflexivity | apply submseteq_inserts_l; reflexivity]. Qed.

Lemma book_step_terminal a l a' l' d s :
  book_step a l a' l' → d ∈ contents a → get "state" d = VStr s → terminal s = true → d ∈ contents a'.
Proof.
  intros [Ha _ | d' i v Ha _ _ _ | x x' rest i s' t v es Ha Ha' _ Hok Hmv _] Hd Hs Ht.
  - by rewrite Ha.
  - rewrite Ha. by right.
  - rewrite Ha in Hd. rewrite Ha'. apply elem_of_cons in Hd as [->|Hd]; [exfalso | by right].
    pose proof (mv_from _ _ _ _ Hmv) as Hfrom. assert (s' = s) as -> by congruence.
    pose proof (mv_allowed _ _ _ _ Hmv) as Hal. unfold terminal in Ht.
    by destruct (allowed_states s).
Qed.
End book_lemmas.

(** ** What the handlers do to the books *)

Section handlers.
Context {C : Type} `{MongoLaws C}.
Context (clock : nat → Z) (hmac_sha256 : string → string → string) (secret : option string).
Implicit Types (w : world C) (d actor : doc).

Definition adjustments w : C := w_db w "inventory_adjustments".
Definition ledger w : C := w_db w "inventory_ledger".

Lemma real_actor_ok {S} actor (s s' : S) u :
  _require_real_actor actor s = (Ok u, s') → real_actor actor = true ∧ s' = s.
Proof. intros [Hr ->]%raise_if_ok_inv. by bool_hyps. Qed.

Lemma log_ok item loc a actor w :
  ∃ w', log_governance_event clock item loc a actor w = (Ok tt, w') ∧
    adjustments w' = adjustments w ∧ ledger w' = ledger w.
Proof.
  destruct (log_governance_event clock item loc a actor w) as [r w'] eqn:E. exists w'.
  assert (frame ["governance_events"] (log_governance_event (C:=C) clock item loc a actor)) as Hf
    by (by apply frame_log).
  unfold adjustments, ledger. rewrite !(frame_db _ _ _ _ _ _ Hf E) by done.
  split; [|done]. unfold log_governance_event, log_event_keys, best_effort in E.
  cbv zeta in E. unfold bind, utc_now in E. by simplify_eq.
Qed.

(** The update a transition makes, and what it stores. *)
Definition extra_ok (extra : doc) : Prop :=
  extra = [] ∨ ∃ k v, k ∈ ["void_reason"; "rollback_reason"] ∧ extra = [(k, v)].

Lemma state_update_keys to now actor extra : extra_ok extra →
  NoDup (update_keys (state_update (value to) now actor extra)) ∧
  (∀ k, k ∈ protected → k ∉ update_keys (state_update (value to) now actor extra)) ∧
  aget "state" (u_set (state_update (value to) now actor extra)) = Some (VStr (value to)).
Proof.
  intros [->|(k & v & Hk & ->)].
  - destruct to; (split_and!; [apply (bool_decide_unpack _); vm_compute; exact I | | reflexivity]);
      intros k Hk; apply str_in_false; repeat (apply elem_of_cons in Hk as [->|Hk]; [reflexivity|]);
      by apply not_elem_of_nil in Hk.
  - repeat (apply elem_of_cons in Hk as [->|Hk]; [|]); [| |by apply not_elem_of_nil in Hk];
    (destruct to; (split_and!; [apply (bool_decide_unpack _); vm_compute; exact I | | reflexivity]);
      intros k Hk'; apply str_in_false; repeat (apply elem_of_cons in Hk' as [->|Hk']; [reflexivity|]);
      by apply not_elem_of_nil in Hk').
Qed.

Lemma moved_update d i s v to now actor extra :
  adjustment_ok d i s v → str_in (value to) (allowed_states s) = true → extra_ok extra →
  moved d (apply_update (state_update (value to) now actor extra) d) s (value to).
Proof.
  intros Hok Ha Hx. destruct (state_update_keys to now actor extra Hx) as (Hnd & Hp & Hs). split.
  - apply Hok.
  - rewrite (get_apply_set _ _ _ _ Hnd Hs). by apply to_bson_plain.
  - done.
  - intros k Hk. by apply apply_other, Hp.
  - intros h Hh. exists (to_bson (history_entry (value to) now actor)). split.
    + apply apply_push; [done | reflexivity | by intros ? [= <-] | by right].
    + unfold history_entry. rewrite to_bson_dict. cbn [entry_state field_of]. unfold entry_state, field_of.
      by apply get_bson_str.
Qed.

(** A transition either raises before any write, or updates the adjustment. *)
Lemma transition_cases aid to actor op extra w r w' :
  _transition clock aid to actor op extra w = (r, w') →
  ((∃ msg, r = Raise (GovernanceViolation msg)) ∧ w' = w ∧
     (real_actor actor = true → ∀ d, find_one (by_id aid) (adjustments w) = Some d →
        str_in (value to) (allowed_states (to_str (por (get "state" d) (VStr "")))) = false)) ∨
  (r = Ok [("id", VStr aid); ("state", VStr (value to))] ∧ real_actor actor = true ∧ ledger w' = ledger w ∧
   ∃ d now, find_one (by_id aid) (adjustments w) = Some d ∧
     str_in (value to) (allowed_states (to_str (por (get "state" d) (VStr "")))) = true ∧
     adjustments w' = snd (update_one (by_id aid) (state_update (value to) now actor extra) (adjustments w))).
Proof.
  unfold _transition. intros Hm. unfold _require_real_actor, raise_if in Hm.
  destruct (real_actor actor) eqn:Er; cbn [negb] in Hm; [|unfold bind, raise in Hm; simplify_eq; left; by split_and!; [eexists| |]].
  unfold bind at 1 in Hm. cbn [ret] in Hm. unfold bind at 1, db_find_one, gets in Hm.
  destruct (find_one (by_id aid) (w_db w "inventory_adjustments")) as [d|] eqn:Ef.
  2: { unfold raise in Hm. simplify_eq. left. split_and!; [by eexists | done|]. intros _ d Hd.
       unfold adjustments in Hd. congruence. }
  destruct d as [|kv d]; [unfold raise in Hm; simplify_eq; left; split_and!; [by eexists | done|];
    intros _ d Hd; unfold adjustments in Hd; simplify_eq; by destruct to|].
  set (doc := kv :: d) in *. cbv zeta in Hm. unfold _assert_transition, raise_if in Hm. cbv zeta in Hm.
  destruct (str_in (value to) _) eqn:Ea; cbn [negb] in Hm.
  2: { unfold bind, raise in Hm. simplify_eq. left. split_and!; [by eexists | done|]. intros _ x Hx.
       unfold adjustments in Hx. by simplify_eq. }
  right. unfold bind at 1 in Hm. cbn [ret] in Hm. unfold bind at 1, utc_now in Hm.
  set (now := clock (w_tick w)) in *. unfold _execute_authorized_write in Hm.
  erewrite bind_ok in Hm by (by apply authorized_update_one).
  match type of Hm with bind (log_governance_event _ ?i ?l ?a _) _ ?w1 = _ =>
    destruct (log_ok i l a actor w1) as (w2 & Hl & H1 & H2) end.
  rewrite (bind_ok _ _ _ _ _ Hl) in Hm. unfold ret in Hm. simplify_eq.
  split_and!; [done | done | by rewrite H2 |]. exists doc, now. split_and!; [done | done |].
  rewrite H1. unfold adjustments. simpl. by rewrite fn_lookup_insert.
Qed.

(** The adjustments alone: unique ids and well-formed documents. *)
Definition docs_ok (a : C) : Prop :=
  (∀ i, at_most_one (by_id i) a) ∧ ∀ d, d ∈ contents a → ∃ i s v, adjustment_ok d i s v.

Lemma books_docs a l : books_ok a l → docs_ok a.
Proof.
  intros [Hu Hd _]. split; [done|]. intros d Hin. destruct (Hd d Hin) as (i & s & v & Hok & _). by exists i, s, v.
Qed.

Lemma found_ok aid a d :
  docs_ok a → find_one (by_id aid) a = Some d →
  d ∈ contents a ∧ ∃ s v, adjustment_ok d aid s v ∧ to_str (por (get "state" d) (VStr "")) = s.
Proof.
  intros [_ Hd] [Hin Hm]%find_one_some. split; [done|]. destruct (Hd d Hin) as (i & s & v & Hok).
  rewrite (matches_by_id aid i) in Hm by apply Hok. apply String.eqb_eq in Hm as <-.
  exists s, v. split; [done|]. rewrite (ao_state _ _ _ _ Hok). unfold por. simpl.
  by destruct (String.eqb_spec s "") as [->|].
Qed.

(** The update of a transition replaces the adjustment it found. *)
Lemma update_moves aid a d s v to now actor extra :
  docs_ok a → find_one (by_id aid) a = Some d → adjustment_ok d aid s v →
  str_in (value to) (allowed_states s) = true → extra_ok extra →
  let u := state_update (value to) now actor extra in
  ∃ rest, contents a ≡ₚ d :: rest ∧
    contents (snd (update_one (by_id aid) u a)) ≡ₚ apply_update u d :: rest ∧
    moved d (apply_update u d) s (value to).
Proof.
  intros [Hu Hd] Hf Hok Ha Hx u. apply find_one_some in Hf as [Hin Hm].
  destruct (update_one_some (by_id aid) u a) as (e & rest & Hc & Hme & Hc' & _); [by exists d|].
  assert (e = d) as -> by (apply (at_most_one_eq (by_id aid) a); try done; rewrite Hc; left).
  exists rest. split_and!; [done | done | by apply (moved_update d aid s v)].
Qed.

(** A transition that goes with no ledger entry. *)
Lemma transition_step aid to actor op extra w r w' :
  docs_ok (adjustments w) → extra_ok extra → str_in (value to) ["POSTED"; "ROLLED_BACK"] = false →
  _transition clock aid to actor op extra w = (r, w') →
  book_step (adjustments w) (ledger w) (adjustments w') (ledger w').
Proof.
  intros Hdocs Hx Hto Ht. apply transition_cases in Ht as [(_ & -> & _)|(_ & _ & Hl & d & now & Hf & Ha & Hu)];
    [by apply book_same|].
  destruct (found_ok _ _ _ Hdocs Hf) as (_ & s & v & Hok & Hs). rewrite Hs in Ha.
  destruct (update_moves _ _ _ _ _ to now actor extra Hdocs Hf Hok Ha Hx) as (rest & H1 & H2 & H3).
  rewrite Hl, Hu. eapply (book_move _ _ _ _ d _ rest aid s (value to) v []);
    [exact H1 | exact H2 | done | done | done |].
  split; [done|]. simpl in Hto. bool_hyps. by destruct to.
Qed.

(** A transition that follows the ledger entry [e]; it cannot fail. *)
Lemma entry_step aid to actor op extra w w1 r w' d s v e :
  docs_ok (adjustments w) → extra_ok extra → real_actor actor = true →
  find_one (by_id aid) (adjustments w) = Some d → adjustment_ok d aid s v →
  str_in (value to) (allowed_states s) = true →
  adjustments w1 = adjustments w → contents (ledger w1) ≡ₚ e :: contents (ledger w) →
  posting aid (value to) v [e] →
  _transition clock aid to actor op extra w1 = (r, w') →
  is_ok r = true ∧ book_step (adjustments w) (ledger w) (adjustments w') (ledger w').
Proof.
  intros Hdocs Hx Hr Hf Hok Ha H1 Hle Hp Ht. destruct (found_ok _ _ _ Hdocs Hf) as (_ & s' & v' & Hok' & Hs).
  assert (s' = s) as -> by (pose proof (ao_state _ _ _ _ Hok); pose proof (ao_state _ _ _ _ Hok'); congruence).
  apply transition_cases in Ht as [(_ & _ & Hn)|(-> & _ & Hl & d' & now & Hf' & _ & Hu)].
  { specialize (Hn Hr d). rewrite H1, Hs in Hn. by rewrite Hn in Ha. }
  rewrite H1 in Hf', Hu. assert (d' = d) as -> by congruence. split; [done|].
  destruct (update_moves _ _ _ _ _ to now actor extra Hdocs Hf Hok Ha Hx) as (rest & H2 & H3 & H4).
  rewrite Hu. eapply (book_move _ _ _ _ d _ rest aid s (value to) v [e]);
    [exact H2 | exact H3 | by rewrite Hl, Hle | done | done | done].
Qed.

Lemma insert_authorized name e w :
  name ∈ ["inventory_adjustments"; "inventory_ledger"] → aget "_id" e = None →
  ∃ x i c, _execute_authorized_write (db_insert_one name e) w = (Ok x, set_coll name c w) ∧
    contents c ≡ₚ bson_doc (setdefault "_id" i e) :: contents (w_db w name).
Proof.
  intros Hn He. destruct (insert_one_fresh e (w_db w name) He) as (i & c & Hi & Hc).
  exists (setdefault "_id" i e), i, c. split; [|done]. unfold _execute_authorized_write.
  apply authorized_insert_one; [| |done];
    repeat (apply elem_of_cons in Hn as [->|Hn]; [done|]); by apply not_elem_of_nil in Hn.
Qed.

(** A ledger entry: ids, the copied fields, the variance and who made it. *)
Definition entry (eid aid : string) (f : doc) (variance : val) (tail : doc) : doc :=
  [("id", VStr eid); ("adjustment_id", VStr aid)] ++ f ++ ("variance", variance) :: tail.

Lemma copied_shape d f : copied d = Ok f → ∃ a b c, f = [("session_id", a); ("item_code", b); ("location_id", c)].
Proof.
  unfold copied, item, obind. intros Hc. repeat (split_match_in Hc; try done). eauto.
Qed.

Lemma insert_entry eid aid d f x v t tail w :
  copied d = Ok f → aget "_id" tail = None →
  [x] = (if String.eqb t "POSTED" then [v] else if String.eqb t "ROLLED_BACK" then [fneg v] else []) →
  ∃ y w1 e, _execute_authorized_write (db_insert_one "inventory_ledger" (entry eid aid f (VFloat x) tail)) w = (Ok y, w1) ∧
    adjustments w1 = adjustments w ∧ contents (ledger w1) ≡ₚ e :: contents (ledger w) ∧ posting aid t v [e].
Proof.
  intros (a & b & c & ->)%copied_shape Hi Hx. unfold entry.
  destruct (insert_authorized "inventory_ledger" (entry eid aid [("session_id", a); ("item_code", b); ("location_id", c)] (VFloat x) tail) w)
    as (y & i & co & Hw & Hc); [right; left | done |]. unfold entry in *.
  exists y, (set_coll "inventory_ledger" co w). eexists. split_and!; [exact Hw | done | |].
  - unfold ledger at 1. simpl. rewrite fn_lookup_insert. exact Hc.
  - split.
    + cbn [map]. f_equal. apply get_bson_str. unfold get. by rewrite aget_setdefault.
    + rewrite <- Hx. cbn [map]. f_equal. rewrite get_bson; unfold get; rewrite aget_setdefault; [|done].
      simpl. apply to_bson_float.
Qed.

Lemma load_ok aid st w d w' :
  _load_and_assert_state aid st w = (Ok d, w') →
  w' = w ∧ find_one (by_id aid) (adjustments w) = Some d ∧
  to_str (por (get "state" d) (VStr "")) = value st.
Proof.
  unfold _load_and_assert_state, bind, db_find_one, gets. intros Hm.
  destruct (find_one _ _) as [[|kv x]|] eqn:E; try done. cbv zeta in Hm.
  destruct (String.eqb _ (value st)) eqn:Es; [|done]. unfold raise_if, ret in Hm. simplify_eq/=. by bool_hyps.
Qed.

Lemma load_same aid st w r w' : _load_and_assert_state aid st w = (r, w') → w' = w.
Proof.
  unfold _load_and_assert_state, bind, db_find_one, gets, raise_if, raise, ret. intros Hm.
  repeat (split_match_in Hm; try done).
Qed.

(** What posting and rolling back find before they write. *)
Lemma loaded_ok aid st w d w' :
  docs_ok (adjustments w) → _load_and_assert_state aid st w = (Ok d, w') →
  w' = w ∧ find_one (by_id aid) (adjustments w) = Some d ∧
  ∃ v f, adjustment_ok d aid (value st) v ∧ item "variance" d = Ok (VFloat v) ∧ copied d = Ok f.
Proof.
  intros Hdocs (-> & Hf & Hs)%load_ok. split_and!; [done..|].
  destruct (found_ok _ _ _ Hdocs Hf) as (_ & s & v & Hok & Hs'). rewrite Hs in Hs'. subst s.
  destruct (ao_copied _ _ _ _ Hok) as [f Hc]. exists v, f. split_and!; [done | | done].
  unfold item. by rewrite (ao_variance _ _ _ _ Hok).
Qed.

Lemma post_step eid aid actor w r w' :
  docs_ok (adjustments w) → post_to_ledger clock eid aid actor w = (r, w') →
  book_step (adjustments w) (ledger w) (adjustments w') (ledger w').
Proof.
  intros Hdocs Hm. unfold post_to_ledger, _post_entry in Hm.
  destruct (_require_real_actor actor w) as [[[]|e] w0] eqn:Er.
  2: { unfold _require_real_actor, raise_if, raise, ret in Er. unfold bind at 1 2, _require_real_actor, raise_if, raise in Hm.
       destruct (real_actor actor); simplify_eq/=. by apply book_same. }
  apply real_actor_ok in Er as [Er ->].
  destruct (_load_and_assert_state aid AUTHORIZED w) as [[d|e] w0] eqn:El;
    pose proof (load_same _ _ _ _ _ El) as ->.
  2: { unfold bind at 1 2, _require_real_actor, raise_if in Hm. rewrite Er in Hm. cbn [negb ret] in Hm.
       unfold bind at 1 in Hm. rewrite El in Hm. simplify_eq. by apply book_same. }
  destruct (loaded_ok _ _ _ _ _ Hdocs El) as (_ & Hf & v & f & Hok & Hv & Hc).
  destruct (insert_entry eid aid d f v v "POSTED" [("posted_by", get "username" actor); ("posted_at", VTime (clock (w_tick w)))]
              (tick w)) as (y & w1 & e & Hi & H1 & H2 & H3); [done..|].
  assert (_post_entry clock eid aid actor w = (Ok d, w1)) as Hpe.
  { unfold _post_entry, bind at 1, _require_real_actor, raise_if. rewrite Er. cbn [negb ret].
    rewrite (bind_ok _ _ _ _ _ El), (bind_ok (utc_now clock) _ w (clock (w_tick w)) (tick w)) by done.
    rewrite Hc, (bind_ok (lift (Ok f)) _ (tick w) f (tick w)) by done.
    rewrite Hv, (bind_ok (lift (Ok (VFloat v))) _ (tick w) (VFloat v) (tick w)) by done.
    unfold entry in Hi. cbn [app] in Hi |- *. by rewrite (bind_ok _ _ _ _ _ Hi). }
  fold (_post_entry clock eid aid actor) in Hm. rewrite (bind_ok _ _ _ _ _ Hpe) in Hm. unfold _post_transition in Hm.
  destruct (_transition clock aid POSTED actor "POST_TO_LEDGER" [] w1) as [r2 w2] eqn:Et.
  destruct (entry_step aid POSTED actor "POST_TO_LEDGER" [] w w1 r2 w2 d "AUTHORIZED" v e) as [Hr Hs]; try done; [by left|].
  destruct r2 as [x|]; [|done]. rewrite (bind_ok _ _ _ _ _ Et) in Hm.
  match type of Hm with bind (log_governance_event _ ?i ?l ?a _) _ _ = _ =>
    destruct (log_ok i l a actor w2) as (w3 & Hl & H4 & H5) end.
  rewrite (bind_ok _ _ _ _ _ Hl) in Hm. unfold ret in Hm. simplify_eq. by rewrite H4, H5.
Qed.

Lemma rollback_step eid aid actor reason w r w' :
  docs_ok (adjustments w) → rollback clock eid aid actor reason w = (r, w') →
  book_step (adjustments w) (ledger w) (adjustments w') (ledger w').
Proof.
  intros Hdocs Hm. unfold rollback in Hm.
  destruct (_require_real_actor actor w) as [[[]|e] w0] eqn:Er.
  2: { unfold _require_real_actor, raise_if, raise, ret in Er. unfold bind at 1, _require_real_actor, raise_if, raise in Hm.
       destruct (real_actor actor); simplify_eq/=. by apply book_same. }
  apply real_actor_ok in Er as [Er ->]. unfold bind at 1, _require_real_actor, raise_if in Hm.
  rewrite Er in Hm. cbn [negb ret] in Hm.
  destruct (_load_and_assert_state aid POSTED w) as [[d|e] w0] eqn:El;
    pose proof (load_same _ _ _ _ _ El) as ->.
  2: { unfold bind at 1 in Hm. rewrite El in Hm. simplify_eq. by apply book_same. }
  destruct (loaded_ok _ _ _ _ _ Hdocs El) as (_ & Hf & v & f & Hok & Hv & Hc).
  destruct (insert_entry eid aid d f (fneg v) v "ROLLED_BACK"
              [("reversal_reason", VStr reason); ("reversed_by", get "username" actor);
               ("reversed_at", VTime (clock (w_tick w)))] (tick w))
    as (y & w1 & e & Hi & H1 & H2 & H3); [done..|].
  rewrite (bind_ok _ _ _ _ _ El), (bind_ok (utc_now clock) _ w (clock (w_tick w)) (tick w)) in Hm by done.
  rewrite Hc, (bind_ok (lift (Ok f)) _ (tick w) f (tick w)) in Hm by done.
  rewrite Hv, (bind_ok (lift (obind (Ok (VFloat v)) neg_val)) _ (tick w) (VFloat (fneg v)) (tick w)) in Hm by done.
  unfold entry in Hi. cbn [app] in Hi, Hm. rewrite (bind_ok _ _ _ _ _ Hi) in Hm.
  destruct (entry_step aid ROLLED_BACK actor "ROLLBACK" [("rollback_reason", VStr reason)] w w1 r w' d "POSTED" v e)
    as [_ Hs]; try done. right. exists "rollback_reason", (VStr reason). split; [right; left | done].
Qed.

Lemma frame_authorize token user action :
  frame ["supervisor_override_tokens"] (validate_override_token (C:=C) clock hmac_sha256 secret token user action).
Proof.
  unfold validate_override_token. solve_frame; by apply frame_counted.
Qed.

Lemma proposal_ok aid sid icode loc counted expected reason actor now i :
  adjustment_ok (bson_doc (setdefault "_id" i (proposal aid sid icode loc counted expected reason actor now)))
    aid "DRAFT" (fsub counted expected).
Proof.
  set (p := setdefault _ _ _).
  assert (∀ k v, aget k p = Some v → aget k (bson_doc p) = Some (to_bson v)) as Hb
    by (intros k v Hk; by rewrite aget_bson, Hk).
  assert (∀ k x, aget k p = Some (VStr x) → aget k (bson_doc p) = Some (VStr x)) as Hstr
    by (intros k x Hk; rewrite (Hb _ _ Hk); by rewrite to_bson_plain).
  assert (∀ k, str_in k ["_id"] = false → aget k p = aget k (proposal aid sid icode loc counted expected reason actor now)) as Hp.
  { intros k Hk. unfold p. rewrite aget_setdefault. simpl in Hk. rewrite orb_false_r in Hk.
    by rewrite String.eqb_sym, Hk. }
  split.
  - apply get_some, Hstr. by rewrite Hp.
  - apply get_some, Hstr. by rewrite Hp.
  - rewrite (Hb _ (VFloat (fsub counted expected))) by (by rewrite Hp). by rewrite to_bson_float.
  - unfold copied, item. rewrite (Hstr _ sid), (Hstr _ icode), (Hstr _ loc) by (by rewrite Hp). by eexists.
  - eexists _, ["DRAFT"]. split_and!.
    + rewrite (Hb "actor_history" (VList [VDict [("state", VStr "DRAFT"); ("actor", VDict actor); ("timestamp", VStr (isoformat "T" now))]]))
        by (by rewrite Hp). rewrite to_bson_list. cbn [map]. by rewrite to_bson_dict.
    + cbn [map]. f_equal. unfold entry_state, field_of. by apply get_bson_str.
    + apply trail_draft.
Qed.

Lemma create_step aid sid icode loc counted expected reason actor w r w' :
  (∀ e, e ∈ contents (adjustments w) → get "id" e ≠ VStr aid) →
  create_proposal clock aid sid icode loc counted expected reason actor w = (r, w') →
  book_step (adjustments w) (ledger w) (adjustments w') (ledger w').
Proof.
  intros Hfresh Hm. unfold create_proposal, _require_real_actor, raise_if in Hm.
  destruct (real_actor actor); cbn [negb] in Hm; [|unfold bind at 1, raise in Hm; simplify_eq; by apply book_same].
  unfold bind at 1 in Hm. cbn [ret] in Hm. unfold bind at 1, utc_now in Hm.
  set (p := proposal _ _ _ _ _ _ _ _ _) in Hm.
  destruct (insert_authorized "inventory_adjustments" p (tick w)) as (x & i & c & Hi & Hc); [left | done |].
  rewrite (bind_ok _ _ _ _ _ Hi) in Hm.
  match type of Hm with bind (log_governance_event _ ?it ?l ?a _) _ ?w1 = _ =>
    destruct (log_ok it l a actor w1) as (w3 & Hl & H4 & H5) end.
  rewrite (bind_ok _ _ _ _ _ Hl) in Hm. unfold ret in Hm. simplify_eq. rewrite H4, H5.
  apply (book_create _ _ _ _ (bson_doc (setdefault "_id" i p)) aid (fsub counted expected)).
  - unfold adjustments at 1. simpl. by rewrite fn_lookup_insert.
  - done.
  - apply proposal_ok.
  - done.
Qed.
End handlers.

(** ** Requests *)

Inductive adjustment_request :=
| Propose (adjustment_id session_id item_code location_id : string) (counted_qty expected_qty : float)
    (variance_reason : string) (actor : doc)
| Submit (adjustment_id : string) (actor : doc)
| Authorize (adjustment_id : string) (actor : doc) (override_token : string)
| Post (entry_id adjustment_id : string) (actor : doc)
| Finalize (adjustment_id : string) (actor : doc)
| Void (adjustment_id : string) (actor : doc) (reason : string)
| Rollback (entry_id adjustment_id : string) (actor : doc) (reason : string).

Section requests.
Context {C : Type} `{Mongo C}.
Context (clock : nat → Z) (hmac_sha256 : string → string → string) (secret : option string).

Definition serve (r : adjustment_request) : M (world C) doc :=
  match r with
  | Propose i s c l x y reason a => create_proposal clock i s c l x y reason a
  | Submit i a => submit_for_review clock i a
  | Authorize i a t => authorize clock hmac_sha256 secret i a t
  | Post e i a => post_to_ledger clock e i a
  | Finalize i a => finalize clock i a
  | Void i a reason => void clock i a reason
  | Rollback e i a reason => rollback clock e i a reason
  end.

(** The drawn ids are new. *)
Definition fresh_id (c : C) (r : adjustment_request) : Prop :=
  match r with
  | Propose i _ _ _ _ _ _ _ => ∀ e, e ∈ contents c → get "id" e ≠ VStr i
  | _ => True
  end.

(** A request run to its end, successful or not. *)
Inductive served (w w' : world C) : Prop :=
| served_by r res : fresh_id (adjustments w) r → serve r w = (res, w') → served w w'.
End requests.

Lemma served_step `{MongoLaws C} clock hmac secret (w w' : world C) :
  docs_ok (adjustments w) → served clock hmac secret w w' →
  book_step (adjustments w) (ledger w) (adjustments w') (ledger w').
Proof.
  intros Hdocs [r res Hf Hs]. destruct r; simpl in Hs.
  - by eapply create_step.
  - apply (transition_step clock) in Hs; [done | done | by left | done].
  - unfold authorize in Hs. unfold bind at 1 in Hs. destruct (validate_override_token _ _ _ _ _ _ w) as [[b|e] w1] eqn:E.
    + assert (adjustments w1 = adjustments w ∧ ledger w1 = ledger w) as [Ha Hl].
      { unfold adjustments, ledger. by rewrite !(frame_db _ _ _ _ _ _ (frame_authorize _ _ _ _ _ _) E) by done. }
      rewrite <- Ha, <- Hl. rewrite <- Ha in Hdocs.
      apply (transition_step clock) in Hs; [done | done | by left | done].
    + simplify_eq. unfold adjustments, ledger.
      rewrite !(frame_db _ _ _ _ _ _ (frame_authorize _ _ _ _ _ _) E) by done. by apply book_same.
  - by eapply post_step.
  - apply (transition_step clock) in Hs; [done | done | by left | done].
  - apply (transition_step clock) in Hs; [done | done | | done]. right. exists "void_reason", (VStr reason). split; [left | done].
  - by eapply rollback_step.
Qed.

(** ** Properties *)

(** C13: the adjustment books stay balanced: through any sequence of requests,
    successful or refused, every adjustment has a unique id and a history that
    leads from DRAFT to its state along the transition table, the ledger holds
    nothing of an adjustment before it is posted, exactly one entry with its
    variance once it is posted or finalized, and in addition one entry with the
    negated variance once it is rolled back; and no ledger entry is ever changed
    or removed. *)
Theorem adjustment_books_balanced `{MongoLaws C} clock hmac_sha256 secret (w w' : world C) :
  books_ok (adjustments w) (ledger w) →
  reachable (served clock hmac_sha256 secret) w w' →
  books_ok (adjustments w') (ledger w') ∧ contents (ledger w) ⊆+ contents (ledger w').
Proof.
  intros Hok. apply (reachable_inv _ (fun x => books_ok (adjustments x) (ledger x) ∧
    contents (ledger w) ⊆+ contents (ledger x))); [done|].
  intros a b [Ha Hl] Hs. pose proof (served_step _ _ _ _ _ (books_docs _ _ Ha) Hs) as Hst.
  split; [by apply (book_step_ok _ _ _ _ Hst)|]. transitivity (contents (ledger a)); [done|].
  by apply (book_step_ledger _ _ _ _ Hst).
Qed.

Lemma books_empty : books_ok (C:=coll) [] [].
Proof.
  split.
  - intros i. unfold at_most_one. change (contents []) with (@nil doc). simpl. lia.
  - intros d Hd. by apply elem_of_nil in Hd.
  - intros e He. by apply elem_of_nil in He.
Qed.

Definition manager : doc := [("username", VStr "meena"); ("user_id", VStr "u7"); ("role", VStr "supervisor")].

(** A run of requests. *)
Fixpoint serve_all (clock : nat → Z) (hmac : string → string → string) (secret : option string)
    (l : list adjustment_request) (w : world coll) : world coll :=
  match l with
  | [] => w
  | r :: l' => serve_all clock hmac secret l' (snd (serve clock hmac secret r w))
  end.

Definition join_hmac (key m : string) : string := key +:+ ":" +:+ m.

Definition adjustment_world : world coll :=
  install_db_write_guards (mkworld [("supervisor_override_tokens",
    [[("token", VStr "t.S:t:u7:inventory_adjust"); ("user_id", VStr "u7"); ("action", VStr "inventory_adjust");
      ("used", VBool false); ("expires_at", VTime 9000)]])]).

Definition proposed_world : world coll :=
  snd (serve no_clock join_hmac (Some "S")
    (Propose "a1" "s1" "item" "loc" (of_Z 7) (of_Z 10) "short" manager) adjustment_world).

(** Proposal, submission, authorization, posting and rollback of one adjustment. *)
Definition adjustment_run : world coll :=
  serve_all no_clock join_hmac (Some "S")
    [Submit "a1" manager; Authorize "a1" manager "t.S:t:u7:inventory_adjust"; Post "e1" "a1" manager;
     Rollback "e2" "a1" manager "recounted"] proposed_world.

Lemma serve_all_reachable clock hmac secret l (w0 w : world coll) :
  reachable (served clock hmac secret) w0 w → Forall (fun r => ∀ c, fresh_id (C:=coll) c r) l →
  reachable (served clock hmac secret) w0 (serve_all clock hmac secret l w).
Proof.
  intros Hr Hl. revert w Hr. induction Hl as [|r l Hf Hl IH]; intros w Hr; [done|].
  simpl. apply IH. apply (reach_step _ _ w); [done|].
  apply (served_by _ _ _ _ _ r (fst (serve clock hmac secret r w))); [apply Hf|].
  by destruct (serve clock hmac secret r w).
Qed.

Lemma proposed_reachable : reachable (served no_clock join_hmac (Some "S")) adjustment_world proposed_world.
Proof.
  apply (reach_step _ _ adjustment_world); [apply reach_refl|]. unfold proposed_world.
  set (r := Propose _ _ _ _ _ _ _ _).
  apply (served_by _ _ _ _ _ r (fst (serve no_clock join_hmac (Some "S") r adjustment_world))).
  - intros e He. by apply elem_of_nil in He.
  - by destruct (serve _ _ _ _ adjustment_world).
Qed.

Example adjustment_books_balanced_witness :
  books_ok (adjustments adjustment_run) (ledger adjustment_run) ∧
  map (get "variance") (ledger adjustment_run) = [VFloat (of_Z 3); VFloat (of_Z (-3))].
Proof.
  split; [|by vm_compute].
  refine (proj1 (adjustment_books_balanced no_clock join_hmac (Some "S") adjustment_world adjustment_run _ _)).
  - exact books_empty.
  - apply serve_all_reachable; [apply proposed_reachable | repeat constructor].
Defined.

(** A finalized, voided or rolled back adjustment is locked: no sequence of
    requests changes its document. *)
Theorem terminal_adjustment_locked `{MongoLaws C} clock hmac_sha256 secret (w w' : world C) (d : doc) (s : string) :
  books_ok (adjustments w) (ledger w) →
  d ∈ contents (adjustments w) → get "state" d = VStr s → s ∈ ["FINALIZED"; "VOIDED"; "ROLLED_BACK"] →
  reachable (served clock hmac_sha256 secret) w w' →
  d ∈ contents (adjustments w').
Proof.
  intros Hok Hd Hs Ht. apply (reachable_inv _ (fun x => books_ok (adjustments x) (ledger x) ∧
    d ∈ contents (adjustments x))); [done|].
  intros a b [Ha Hda] Hst%(served_step _ _ _ _ _ (books_docs _ _ Ha)).
  split; [by apply (book_step_ok _ _ _ _ Hst)|]. apply (book_step_terminal _ _ _ _ d s Hst); [done | done |].
  repeat (apply elem_of_cons in Ht as [->|Ht]; [done|]). by apply not_elem_of_nil in Ht.
Qed.

Definition voided : doc :=
  [("id", VStr "a1"); ("session_id", VStr "s1"); ("item_code", VStr "i"); ("location_id", VStr "l");
   ("variance", VFloat (of_Z 2)); ("state", VStr "VOIDED");
   ("actor_history", VList [VDict [("state", VStr "DRAFT")]; VDict [("state", VStr "PENDING_AUTHORIZATION")];
                            VDict [("state", VStr "VOIDED")]])].

Lemma books_voided : books_ok (C:=coll) [voided] [].
Proof.
  split.
  - intros i. unfold at_most_one. change (contents [voided]) with [voided].
    rewrite filter_cons. destruct (decide _); simpl; lia.
  - intros d Hd. apply list_elem_of_singleton in Hd as ->. exists "a1", "VOIDED", (of_Z 2). split; [|done].
    split; [done..| by eexists |]. eexists _, ["DRAFT"; "PENDING_AUTHORIZATION"; "VOIDED"]. split_and!; [done..|].
    apply (trail_step ["DRAFT"; "PENDING_AUTHORIZATION"] "PENDING_AUTHORIZATION"); [|done].
    by apply (trail_step ["DRAFT"] "DRAFT"); [apply trail_draft|].
  - intros e He. by apply elem_of_nil in He.
Qed.

Example terminal_adjustment_locked_witness :
  let w := install_db_write_guards (mkworld [("inventory_adjustments", [voided])]) in
  voided ∈ contents (adjustments (serve_all no_clock join_hmac None
    [Submit "a1" manager; Post "e1" "a1" manager; Void "a1" manager "again"] w)).
Proof.
  intros w. apply (terminal_adjustment_locked no_clock join_hmac None w _ voided "VOIDED").
  - exact books_voided.
  - left.
  - reflexivity.
  - right. left.
  - apply serve_all_reachable; [apply reach_refl | repeat constructor].
Defined.

(** A transition succeeds exactly when a real actor moves a stored
    adjustment to a state the table permits; it then stores that state and one
    more history entry and leaves the ledger alone, and otherwise it raises
    GovernanceViolation and changes nothing. *)
Theorem adjustment_transition_spec `{MongoLaws C} clock aid to actor op (extra : doc) (w w' : world C) r :
  docs_ok (adjustments w) → extra_ok extra →
  _transition clock aid to actor op extra w = (r, w') →
  match find_one (by_id aid) (adjustments w) with
  | Some d =>
      if real_actor actor && str_in (value to) (allowed_states (to_str (get "state" d))) then
        r = Ok [("id", VStr aid); ("state", VStr (value to))] ∧ ledger w' = ledger w ∧
        ∃ d' s, find_one (by_id aid) (adjustments w') = Some d' ∧ moved d d' s (value to)
      else (∃ msg, r = Raise (GovernanceViolation msg)) ∧ w' = w
  | None => (∃ msg, r = Raise (GovernanceViolation msg)) ∧ w' = w
  end.
Proof.
  intros Hdocs Hx [(He & Hw & Hn)|(Hr & Hact & Hl & d & now & Hf & Ha & Hu)]%transition_cases.
  - destruct (find_one (by_id aid) (adjustments w)) as [d|] eqn:Ef; [|done].
    destruct (real_actor actor); [|done]. specialize (Hn eq_refl d eq_refl).
    destruct (found_ok _ _ _ Hdocs Ef) as (_ & s & v & Hok & Hs). rewrite Hs in Hn.
    rewrite (ao_state _ _ _ _ Hok). cbn [to_str andb]. by rewrite Hn.
  - rewrite Hf, Hact. destruct (found_ok _ _ _ Hdocs Hf) as (Hin & s & v & Hok & Hs). rewrite Hs in Ha.
    rewrite (ao_state _ _ _ _ Hok). cbn [to_str andb]. rewrite Ha. split_and!; [done | done|].
    exists (apply_update (state_update (value to) now actor extra) d), s.
    pose proof (moved_update d aid s v to now actor extra Hok Ha Hx) as Hmv. split; [|done].
    rewrite Hu. apply update_one_unique; [apply Hdocs | done |].
    rewrite (matches_by_id aid aid); [apply String.eqb_refl|].
    apply (ao_id _ _ _ _ (moved_ok _ _ _ _ _ _ Hok Hmv)).
Qed.

Example adjustment_transition_spec_witness :
  let w := mkworld [("inventory_adjustments", [voided])] in
  ∃ msg, fst (_transition no_clock "a1" POSTED manager "POST_TO_LEDGER" [] w) = Raise (GovernanceViolation msg).
Proof.
  intros w. pose proof (adjustment_transition_spec no_clock "a1" POSTED manager "POST_TO_LEDGER" [] w
    (snd (_transition no_clock "a1" POSTED manager "POST_TO_LEDGER" [] w))
    (fst (_transition no_clock "a1" POSTED manager "POST_TO_LEDGER" [] w))
    (books_docs _ _ books_voided) (or_introl eq_refl) (surjective_pairing _)) as Hs.
  exact (proj1 Hs).
Defined.

(** Authorization needs a supervisor override token: an authorized
    adjustment was awaiting authorization, the token was an unused, unexpired
    one issued to that actor for inventory adjustments, and it cannot authorize
    another adjustment. *)
Theorem authorize_needs_token `{MongoLaws C} clock hmac_sha256 secret aid (actor : doc) token (w w' : world C) x :
  docs_ok (adjustments w) →
  at_most_one (by_token token) (tokens w) → (∀ d, d ∈ contents (tokens w) → token_ok d) →
  authorize clock hmac_sha256 secret aid actor token w = (Ok x, w') →
  (∃ d d', find_one (by_id aid) (adjustments w) = Some d ∧
     find_one (by_id aid) (adjustments w') = Some d' ∧ moved d d' "PENDING_AUTHORIZATION" "AUTHORIZED") ∧
  (∃ d e, d ∈ contents (tokens w) ∧ matches (by_token token) d = true ∧
     get "user_id" d = VStr (to_str (por (get "user_id" actor) (por (get "username" actor) (VStr "")))) ∧
     get "action" d = VStr "inventory_adjust" ∧ get "used" d = VBool false ∧
     get "expires_at" d = VTime e ∧ clock (w_tick w) < e) ∧
  ∀ aid2 actor2 w2 y w3, tokens w2 = tokens w' →
    authorize clock hmac_sha256 secret aid2 actor2 token w2 ≠ (Ok y, w3).
Proof.
  intros Hdocs Hone Htok Ha. unfold authorize in Ha.
  apply bind_ok_inv in Ha as (b & w1 & Hv & Ht).
  assert (adjustments w1 = adjustments w) as Hadj.
  { unfold adjustments. by rewrite (frame_db _ _ _ _ _ _ (frame_authorize _ _ _ _ _ _) Hv) by done. }
  split_and!.
  - apply transition_cases in Ht as [([msg Hm] & _)|(_ & _ & _ & d & now & Hf & Hal & Hu)]; [done|].
    rewrite Hadj in Hf, Hu. destruct (found_ok _ _ _ Hdocs Hf) as (_ & s & v & Hok & Hs). rewrite Hs in Hal.
    pose proof (moved_update d aid s v AUTHORIZED now actor [] Hok Hal (or_introl eq_refl)) as Hmv.
    assert (s = "PENDING_AUTHORIZATION") as ->.
    { apply allowed_cases in Hal.
      repeat (apply elem_of_cons in Hal as [Hal|Hal]; [by simplify_eq|]). by apply not_elem_of_nil in Hal. }
    exists d, (apply_update (state_update "AUTHORIZED" now actor []) d). split_and!; [done | | done].
    rewrite Hu. apply update_one_unique; [apply Hdocs | done |].
    rewrite (matches_by_id aid aid); [apply String.eqb_refl|].
    apply (ao_id _ _ _ _ (moved_ok _ _ _ _ _ _ Hok Hmv)).
  - by apply (token_found _ _ _ _ _ _ _ _ _ Htok Hv).
  - intros aid2 actor2 w2 y w3 Hw2 Ha2. unfold authorize in Ha2.
    apply bind_ok_inv in Ha2 as (b2 & w4 & Hv2 & _).
    refine (token_consumed _ _ _ _ _ _ _ _ _ Hone Htok Hv _ _ w2 b2 w4 _ Hv2). rewrite Hw2.
    assert (frame ["inventory_adjustments"; "governance_events"]
      (_transition (C:=C) clock aid AUTHORIZED actor "AUTHORIZE" [])) as Hfr.
    { unfold _transition, _require_real_actor, _assert_transition, _execute_authorized_write. solve_frame.
      all: by apply frame_log. }
    unfold tokens. by rewrite (frame_db _ _ _ _ _ _ Hfr Ht) by done.
Qed.

Definition submitted_world : world coll :=
  serve_all no_clock join_hmac (Some "S") [Submit "a1" manager] proposed_world.

Lemma submitted_docs_ok : docs_ok (adjustments submitted_world).
Proof.
  apply (books_docs _ (ledger submitted_world)).
  apply (reachable_inv (served no_clock join_hmac (Some "S")) (fun x => books_ok (adjustments x) (ledger x))
           adjustment_world).
  - exact books_empty.
  - intros a b Ha Hs. eapply book_step_ok; [|done]. exact (served_step _ _ _ _ _ (books_docs _ _ Ha) Hs).
  - apply serve_all_reachable; [apply proposed_reachable | repeat constructor].
Qed.

Example authorize_needs_token_witness :
  let w' := snd (authorize no_clock join_hmac (Some "S") "a1" manager "t.S:t:u7:inventory_adjust" submitted_world) in
  ∃ d d', find_one (by_id "a1") (adjustments submitted_world) = Some d ∧
    find_one (by_id "a1") (adjustments w') = Some d' ∧ moved d d' "PENDING_AUTHORIZATION" "AUTHORIZED".
Proof.
  intros w'.
  refine (proj1 (authorize_needs_token no_clock join_hmac (Some "S") "a1" manager "t.S:t:u7:inventory_adjust"
    submitted_world w' [("id", VStr "a1"); ("state", VStr "AUTHORIZED")] submitted_docs_ok _ _ _)).
  - apply Nat.leb_le. vm_compute. reflexivity.
  - intros d Hd. assert (d = [("token", VStr "t.S:t:u7:inventory_adjust"); ("user_id", VStr "u7");
      ("action", VStr "inventory_adjust"); ("used", VBool false); ("expires_at", VTime 9000)]) as ->
      by (apply list_elem_of_singleton; exact Hd). by vm_compute.
  - vm_compute. reflexivity.
Defined.

(** ** What the proofs showed

    A draft cannot be voided, although [void] is for any adjustment that is not
    yet posted. *)
Lemma draft_cannot_be_voided :
  ∃ msg, fst (void no_clock "a1" manager "typo" proposed_world) = Raise (GovernanceViolation msg).
Proof. eexists. vm_compute. reflexivity. Qed.

Definition authorized_world : world coll :=
  snd (serve no_clock join_hmac (Some "S") (Authorize "a1" manager "t.S:t:u7:inventory_adjust") submitted_world).

(** The ledger entry is written before the state is claimed: when one request
    posts between the entry and the transition of another, the ledger holds two
    entries for one posted adjustment, and the other request fails with its
    entry left behind. *)
Lemma concurrent_posts_double_entry :
  match _post_entry no_clock "e1" "a1" manager authorized_world with
  | (Ok adjustment, w1) =>
      let '(r2, w2) := post_to_ledger no_clock "e2" "a1" manager w1 in
      let '(r1, w3) := _post_transition no_clock "a1" manager adjustment w2 in
      is_ok r2 = true ∧ is_ok r1 = false ∧ length (ledger w3) = 2%nat ∧
      map (get "state") (adjustments w3) = [VStr "POSTED"]
  | _ => False
  end.
Proof. vm_compute. done. Qed.

(** The audit event of a transition carries the class of the enumeration. *)
Lemma audit_event_has_class_name :
  map (get "event") (w_db submitted_world "governance_events") =
    [VStr "ADJUSTMENT_AdjustmentState.PENDING_AUTHORIZATION"; VStr "ADJUSTMENT_DRAFT"].
Proof. vm_compute. done. Qed.
