(* ===== verification/ConnPool.v ===== *)
(** The SQL Server connection pool, [services/enhanced_connection_pool.py].

    The state of the pool is a record; a method is a computation on it.  What
    the driver and the clocks do is given by functions of the number of events
    so far: the outcome of a connection attempt, of a validity check, of a
    close, and the readings of [time.time()] and [datetime.now()].  A
    connection is named by the event that created it.

    Threads share the pool, and the code holds its lock only in places.  So an
    iteration of the loop of [_get_connection] and a return are also given as
    sequences of phases ([advance]), one for each section under the lock and one
    for each access outside it; [interleave] lets the threads take them in any
    order the lock allows, and a thread that runs alone does what the methods do
    ([iteration_phases], [return_phases]). *)

From stdpp Require Import relations.
From S2P Require Import Prelude PyFloat Py.

Local Open Scope Z_scope.
Local Open Scope stock_scope.

(** ** State *)

Record ConnectionMetrics := Metrics {
  total_created : Z;
  total_closed : Z;
  total_errors : Z;
  total_timeouts : Z;
  total_retries : Z;
  average_connection_time : float;
  connection_times : list float;
  last_error : option string;
  last_error_time : option Z;
  health_status : string;
}.

Definition new_metrics : ConnectionMetrics := Metrics 0 0 0 0 0 f0 [] None None "healthy".

(** [p_tick] counts the events and [p_slept] lists the sleeps. *)
Record pool := Pool {
  p_queue : list (nat * float);
  p_checked_out : list nat;
  p_created : Z;
  p_metrics : ConnectionMetrics;
  p_last_health_check : option Z;
  p_shutdown : bool;
  p_tick : nat;
  p_slept : list float;
}.

Definition new_pool : pool := Pool [] [] 0 new_metrics None false 0 [].

Definition set_queue q p := Pool q (p_checked_out p) (p_created p) (p_metrics p) (p_last_health_check p)
  (p_shutdown p) (p_tick p) (p_slept p).
Definition set_out o p := Pool (p_queue p) o (p_created p) (p_metrics p) (p_last_health_check p)
  (p_shutdown p) (p_tick p) (p_slept p).
Definition add_created n p := Pool (p_queue p) (p_checked_out p) (p_created p + n) (p_metrics p)
  (p_last_health_check p) (p_shutdown p) (p_tick p) (p_slept p).
Definition set_metrics f p := Pool (p_queue p) (p_checked_out p) (p_created p) (f (p_metrics p))
  (p_last_health_check p) (p_shutdown p) (p_tick p) (p_slept p).
Definition set_checked t p := Pool (p_queue p) (p_checked_out p) (p_created p) (p_metrics p) (Some t)
  (p_shutdown p) (p_tick p) (p_slept p).
Definition event_done p := Pool (p_queue p) (p_checked_out p) (p_created p) (p_metrics p)
  (p_last_health_check p) (p_shutdown p) (S (p_tick p)) (p_slept p).
Definition slept t p := Pool (p_queue p) (p_checked_out p) (p_created p) (p_metrics p)
  (p_last_health_check p) (p_shutdown p) (p_tick p) (p_slept p ++ [t]).

(** The changes of the metrics. *)
Definition add_closed n m := Metrics (total_created m) (total_closed m + n) (total_errors m)
  (total_timeouts m) (total_retries m) (average_connection_time m) (connection_times m)
  (last_error m) (last_error_time m) (health_status m).
Definition add_timeout m := Metrics (total_created m) (total_closed m) (total_errors m)
  (total_timeouts m + 1) (total_retries m) (average_connection_time m) (connection_times m)
  (last_error m) (last_error_time m) (health_status m).
Definition set_health h m := Metrics (total_created m) (total_closed m) (total_errors m)
  (total_timeouts m) (total_retries m) (average_connection_time m) (connection_times m)
  (last_error m) (last_error_time m) h.
Definition connected m := Metrics (total_created m + 1) (total_closed m) (total_errors m)
  (total_timeouts m) (total_retries m) (average_connection_time m) (connection_times m)
  None (last_error_time m) "healthy".
Definition failed_attempt msg now m := Metrics (total_created m) (total_closed m) (total_errors m + 1)
  (total_timeouts m) (total_retries m + 1) (average_connection_time m) (connection_times m)
  (Some msg) (Some now) (health_status m).

(** [sum(l)] *)
Definition fsum (l : list float) : float := fold_left fadd l f0.

(** A connection time: the last hundred are kept and averaged. *)
Definition add_time t m :=
  let times := connection_times m ++ [t] in
  let times := if 100 <? Z.of_nat (length times) then drop (length times - 100) times else times in
  Metrics (total_created m) (total_closed m) (total_errors m) (total_timeouts m) (total_retries m)
    (fdiv (fsum times) (of_Z (Z.of_nat (length times)))) times (last_error m) (last_error_time m)
    (health_status m).

(** ** The driver *)

(** An attempt to connect: it succeeds, fails, or connects and then fails while
    the connection is being set up. *)
Inductive connect_result := Connected | ConnectFails (msg : string) | SetupFails (msg : string).

(** Why a thread connects: in place of a connection it closed, or, holding the
    lock, because the queue was empty. *)
Inductive purpose := Replace | Overflow.

(** Where a thread is. *)
Inductive phase :=
| Getting                                  (* [self._pool.get_nowait()] *)
| Aging (c : nat) (created_at : float)     (* a popped connection: its age *)
| Validating (c : nat)                     (* and its validity *)
| Retiring (c : nat)                       (* [self._close_quietly(conn)] *)
| Connecting (n : nat) (i : Z) (error : option string) (u : purpose)  (* attempt [i], [n] of them left *)
| Counting (c : nat) (u : purpose)         (* locked: [self._created += 1] *)
| Lending (c : nat) (u : purpose)          (* locked: [self._checked_out.add(id(conn))] *)
| Lent (c : nat)                           (* the connection is the caller's *)
| Overflowing                              (* [except Empty], locked: is there room? *)
| Nothing                                  (* the iteration gave none *)
| Failed (e : exn)                         (* or raised *)
| Returning (c : nat)                      (* locked: [self._checked_out.remove(conn_id)] *)
| Rechecking (c : nat)                     (* [self._is_connection_valid(conn)] *)
| Putting (c : nat)                        (* [self._pool.put_nowait((conn, time.time()))] *)
| Closing (c : nat)                        (* [conn.close()] *)
| Uncounting                               (* locked: [self._created -= 1] *)
| Returned.

(** The lock is held from the test for room to the end of the block. *)
Definition holds_lock (ph : phase) : bool :=
  match ph with Connecting _ _ _ Overflow | Counting _ Overflow | Lending _ Overflow => true | _ => false end.

(** The next move is made under the lock. *)
Definition needs_lock (ph : phase) : bool :=
  match ph with Counting _ _ | Lending _ _ | Overflowing | Returning _ | Uncounting => true | _ => false end.

#[local] Set Warnings "-notation-for-abbreviation".

Section pool.
Context (time : nat → float) (now : nat → Z).
Context (attempt : nat → connect_result) (valid : nat → bool) (closes : nat → bool)
  (probe : nat → option string).

(** The arguments of the pool. *)
Context (pool_size max_overflow timeout recycle retry_attempts health_check_interval : Z)
  (retry_delay : float) (password : option string).

(** An event answered by the environment. *)
Definition ask {A} (f : nat → A) : M pool A := fun p => (Ok (f (p_tick p)), event_done p).

Definition limit : Z := pool_size + max_overflow.

(** One attempt of [_create_connection_with_retry]. *)
Definition _attempt : M pool (nat + string) :=
  do start_time <- ask time ;;
  do c <- gets p_tick ;;
  do result <- ask attempt ;;
  match result with
  | ConnectFails msg => ret (inr msg)
  | SetupFails msg =>
      do t <- ask time ;;
      run modify (set_metrics (add_time (fsub t start_time))) ;;
      ret (inr msg)
  | Connected =>
      do t <- ask time ;;
      run modify (set_metrics (add_time (fsub t start_time))) ;;
      run modify (set_metrics connected) ;;
      ret (inl c)
  end.

Definition _update_health_status : M pool unit :=
  do m <- gets p_metrics ;;
  match last_error_time m with
  | None => ret tt
  | Some t =>
      do current <- ask now ;;
      let time_since_error := of_frac (current - t) 1000000 in
      let status :=
        if flt time_since_error (of_Z 60) then
          let error_rate := of_frac (total_errors m) (Z.max (total_created m) 1) in
          if fgt error_rate (of_frac 1 2) then "unhealthy"
          else if fgt error_rate (of_frac 1 5) then "degraded" else "healthy"
        else "healthy" in
      modify (set_metrics (set_health status))
  end.

Definition all_failed (last_error : string) : exn :=
  ConnectionError ("Failed to create connection after " +:+ str_of_Z retry_attempts +:+ " attempts: "
                     +:+ last_error).

(** The attempts from number [i] on, [n] of them left. *)
Fixpoint _attempts (n : nat) (i : Z) (error : option string) : M pool nat :=
  match n with
  | O => raise (ConnectionError ("Failed to create connection: " +:+ to_str (opt_str error)))
  | S n' =>
      do result <- _attempt ;;
      match result with
      | inl c => ret c
      | inr msg =>
          do t <- ask now ;;
          run modify (set_metrics (failed_attempt msg t)) ;;
          if i <? retry_attempts then
            run modify (slept (fmul retry_delay (of_Z (2 ^ (i - 1))))) ;;
            _attempts n' (i + 1) (Some msg)
          else
            run _update_health_status ;;
            raise (all_failed msg)
      end
  end.

Definition _create_connection_with_retry : M pool nat := _attempts (Z.to_nat retry_attempts) 1 None.

Definition _create_connection : M pool nat := _create_connection_with_retry.

(** [Queue.put_nowait]: a queue with a positive size limit can be full. *)
Definition put_nowait (c : nat) (t : float) : M pool unit :=
  fun p => if (0 <? limit) && (limit <=? Z.of_nat (length (p_queue p)))
           then (Raise (OtherError ""), p) else (Ok tt, set_queue (p_queue p ++ [(c, t)]) p).

Definition get_nowait : M pool (option (nat * float)) :=
  fun p => match p_queue p with
           | [] => (Ok None, p)
           | e :: q => (Ok (Some e), set_queue q p)
           end.

Definition placeholder_password : bool :=
  match password with
  | Some s => str_in (lower (strip s)) [""; "your-sql-password"; "change-me"; "password"; "changeme";
                "dev_sql_password_placeholder"; "your-actual-sql-password"]
  | None => false
  end.

(** One of the initial connections; a failure is only logged.  The code waits
    for room in the queue, which has room for all of them. *)
Definition _precreate : M pool unit :=
  try_except
    (do c <- _create_connection ;;
     do t <- ask time ;;
     run put_nowait c t ;;
     modify (add_created 1))
    (fun _ => ret tt).

Fixpoint repeat_m (n : nat) (m : M pool unit) : M pool unit :=
  match n with O => ret tt | S n' => run m ;; repeat_m n' m end.

Definition _initialize_pool : M pool unit :=
  if placeholder_password then modify (set_metrics (set_health "not_configured"))
  else repeat_m (Z.to_nat (Z.min pool_size 3)) _precreate.

Definition __init__ : pool := snd (_initialize_pool new_pool).

Definition _is_connection_valid (c : nat) : M pool bool := ask valid.

Definition _close_quietly (c : nat) : M pool unit := do _ <- ask closes ;; ret tt.

Definition _create_new_tracked_connection : M pool nat :=
  do c <- _create_connection ;;
  run modify (add_created 1) ;;
  ret c.

Definition _try_get_valid_connection (c : nat) (created_at : float) : M pool nat :=
  do t <- ask time ;;
  let age := fsub t created_at in
  if fgt age (of_Z recycle) then
    run _close_quietly c ;; _create_new_tracked_connection
  else
    do ok <- _is_connection_valid c ;;
    if ok : bool then ret c
    else run _close_quietly c ;; _create_new_tracked_connection.

(** [self._checked_out.add(id(conn))] *)
Definition check_out (c : nat) (p : pool) : pool :=
  set_out (if decide (c ∈ p_checked_out p) then p_checked_out p else c :: p_checked_out p) p.

(** The connection of an empty pool, created under the lock while there is
    room; a failure is only logged. *)
Definition _get_overflow : M pool (option nat) :=
  do created <- gets p_created ;;
  if created <? limit then
    try_except
      (do c <- _create_new_tracked_connection ;;
       run modify (check_out c) ;;
       ret (Some c))
      (fun _ => ret None)
  else ret None.

(** One iteration of the loop of [_get_connection]. *)
Definition _get_iteration : M pool (option nat) :=
  do popped <- get_nowait ;;
  match popped with
  | Some (c, created_at) =>
      do valid_conn <- _try_get_valid_connection c created_at ;;
      run modify (check_out valid_conn) ;;
      ret (Some valid_conn)
  | None => _get_overflow
  end.

(** The sleep after the [attempt]-th empty iteration. *)
Definition backoff (attempt : Z) : float :=
  let w := fmul (of_frac 5 100) (of_Z (2 ^ Z.min 5 attempt)) in
  if flt (of_frac 1 2) w then of_frac 1 2 else w.

(** [timeout or self.timeout] *)
Definition effective_timeout (t : option float) : val :=
  match t with Some x => if feq x f0 then VInt timeout else VFloat x | None => VInt timeout end.

Definition seconds_of (v : val) : float := match v with VFloat x => x | VInt z => of_Z z | _ => f0 end.

(** The loop, at most [fuel] iterations: [None] when the fuel runs out. *)
Fixpoint _get_loop (fuel : nat) (deadline : float) (attempt : Z) (t : option float)
  : M pool (option nat) :=
  match fuel with
  | O => ret None
  | S fuel' =>
      do current <- ask time ;;
      if flt current deadline then
        do got <- _get_iteration ;;
        match got with
        | Some c => ret (Some c)
        | None =>
            run modify (slept (backoff (attempt + 1))) ;;
            _get_loop fuel' deadline (attempt + 1) t
        end
      else
        run modify (set_metrics add_timeout) ;;
        raise (TimeoutError ("Failed to get connection from pool within "
                 +:+ to_str (effective_timeout t) +:+ "s timeout"))
  end.

Definition _get_connection (fuel : nat) (t : option float) : M pool (option nat) :=
  do current <- ask time ;;
  _get_loop fuel (fadd current (seconds_of (effective_timeout t))) 0 t.

(** A closed connection leaves the count. *)
Definition drop_connection : M pool unit :=
  do _ <- ask closes ;;
  run modify (add_created (-1)) ;;
  modify (set_metrics (add_closed 1)).

Definition _return_connection (c : nat) : M pool unit :=
  do out <- gets p_checked_out ;;
  if decide (c ∈ out) then
    run modify (set_out (filter (fun x => x ≠ c) out)) ;;
    do ok <- _is_connection_valid c ;;
    if ok : bool then
      do t <- ask time ;;
      try_except (put_nowait c t) (fun _ => drop_connection)
    else drop_connection
  else ret tt.

(** ** The threads *)

(** A replacement that fails raises; under the lock it is only logged. *)
Definition failing (e : exn) (u : purpose) : phase := match u with Replace => Failed e | Overflow => Nothing end.

Definition first_attempt (u : purpose) : phase := Connecting (Z.to_nat retry_attempts) 1 None u.

(** The next move of a thread. *)
Definition advance (ph : phase) : M pool phase :=
  match ph with
  | Getting =>
      do popped <- get_nowait ;;
      ret (match popped with Some (c, created_at) => Aging c created_at | None => Overflowing end)
  | Aging c created_at =>
      do t <- ask time ;;
      ret (if fgt (fsub t created_at) (of_Z recycle) then Retiring c else Validating c)
  | Validating c => do ok <- _is_connection_valid c ;; ret (if ok : bool then Lending c Replace else Retiring c)
  | Retiring c => run _close_quietly c ;; ret (first_attempt Replace)
  | Connecting O _ error u =>
      ret (failing (ConnectionError ("Failed to create connection: " +:+ to_str (opt_str error))) u)
  | Connecting (S n) i _ u =>
      do result <- _attempt ;;
      match result with
      | inl c => ret (Counting c u)
      | inr msg =>
          do t <- ask now ;;
          run modify (set_metrics (failed_attempt msg t)) ;;
          if i <? retry_attempts then
            run modify (slept (fmul retry_delay (of_Z (2 ^ (i - 1))))) ;;
            ret (Connecting n (i + 1) (Some msg) u)
          else
            run _update_health_status ;;
            ret (failing (all_failed msg) u)
      end
  | Counting c u => run modify (add_created 1) ;; ret (Lending c u)
  | Lending c _ => run modify (check_out c) ;; ret (Lent c)
  | Overflowing =>
      do created <- gets p_created ;;
      ret (if created <? limit then first_attempt Overflow else Nothing)
  | Returning c =>
      do out <- gets p_checked_out ;;
      if decide (c ∈ out) then run modify (set_out (filter (fun x => x ≠ c) out)) ;; ret (Rechecking c)
      else ret Returned
  | Rechecking c => do ok <- _is_connection_valid c ;; ret (if ok : bool then Putting c else Closing c)
  | Putting c =>
      do t <- ask time ;;
      try_except (run put_nowait c t ;; ret Returned) (fun _ => ret (Closing c))
  | Closing c => do _ <- ask closes ;; ret Uncounting
  | Uncounting => run modify (add_created (-1)) ;; run modify (set_metrics (add_closed 1)) ;; ret Returned
  | Lent _ | Nothing | Failed _ | Returned => ret ph
  end.

(** [with pool.get_connection(t) as conn: body]; [None] when the fuel of the
    loop runs out. *)
Definition get_connection {A} (fuel : nat) (t : option float) (body : nat → M pool A) : M pool (option A) :=
  do got <- _get_connection fuel t ;;
  match got with
  | None => ret None
  | Some c =>
      fun p =>
        let '(r, p1) := body c p in
        match _return_connection c p1 with
        | (Ok _, p2) => (match r with Ok a => Ok (Some a) | Raise e => Raise e end, p2)
        | (Raise e, p2) => (Raise e, p2)
        end
  end.

(** ** Health and statistics *)

Definition percent (n d : Z) : float := fmul (of_frac n d) (of_Z 100).

Definition utilization (p : pool) : val :=
  if 0 <? limit then VFloat (percent (Z.of_nat (length (p_checked_out p))) limit) else VInt 0.

Definition metrics_doc (m : ConnectionMetrics) : doc :=
  [("total_created", VInt (total_created m)); ("total_closed", VInt (total_closed m));
   ("total_errors", VInt (total_errors m)); ("total_timeouts", VInt (total_timeouts m));
   ("total_retries", VInt (total_retries m));
   ("average_connection_time", VFloat (round_nd (average_connection_time m) 3));
   ("error_rate", VFloat (percent (total_errors m) (Z.max (total_created m) 1)))].

Definition counts_doc (p : pool) : doc :=
  [("pool_size", VInt pool_size); ("max_overflow", VInt max_overflow); ("created", VInt (p_created p));
   ("available", VInt (Z.of_nat (length (p_queue p))));
   ("checked_out", VInt (Z.of_nat (length (p_checked_out p)))); ("utilization", utilization p)].

Definition get_stats (p : pool) : doc :=
  counts_doc p ++ [("metrics", VDict (metrics_doc (p_metrics p)));
                   ("health_status", VStr (health_status (p_metrics p)))].

(** The test connection: created, queried and closed. *)
Definition _test_connection : M pool doc :=
  try_except
    (do c <- _create_connection ;;
     do failure <- ask probe ;;
     match failure with
     | Some msg => raise (DriverError msg)
     | None =>
         run modify (set_metrics (add_closed 1)) ;;
         ret [("connection_test", VStr "passed")]
     end)
    (fun e => ret [("connection_test", VStr ("failed: " +:+ match e with
                      | ConnectionError m | DriverError m => m | _ => "" end));
                   ("status", VStr "unhealthy")]).

Definition check_health : M pool doc :=
  do p <- gets id ;;
  let m := p_metrics p in
  let status := ("status", VStr (health_status m)) :: counts_doc p ++
    [("metrics", VDict (metrics_doc m ++
       [("last_error", opt_str (last_error m));
        ("last_error_time", match last_error_time m with
                            | Some t => VStr (isoformat "T" t) | None => VNone end)]))] in
  do due <- match p_last_health_check p with
            | None => ret true
            | Some t => do current <- ask now ;;
                        ret (fgt (of_frac (current - t) 1000000) (of_Z health_check_interval))
            end ;;
  if due : bool then
    do test <- _test_connection ;;
    do current <- ask now ;;
    run modify (set_checked current) ;;
    ret (aupd status test)
  else ret status.

(** Closing the queued connections counts those whose [close] succeeds. *)
Fixpoint close_queued (l : list (nat * float)) : M pool Z :=
  match l with
  | [] => ret 0
  | (c, _) :: l' =>
      do ok <- ask closes ;;
      do n <- close_queued l' ;;
      ret (if ok : bool then n + 1 else n)
  end.

Definition close_all : M pool unit :=
  run modify (fun p => Pool (p_queue p) (p_checked_out p) (p_created p) (p_metrics p)
                         (p_last_health_check p) true (p_tick p) (p_slept p)) ;;
  do queued <- gets p_queue ;;
  do closed_count <- close_queued queued ;;
  run modify (fun p => Pool [] [] 0 (add_closed closed_count (p_metrics p)) (p_last_health_check p)
                         (p_shutdown p) (p_tick p) (p_slept p)) ;;
  ret tt.
End pool.

(** ** The invariant *)

(** The connections the pool knows: available ones and those handed out. *)
Definition known (p : pool) : list nat := map fst (p_queue p) ++ p_checked_out p.
Definition open_count (p : pool) : Z := Z.of_nat (length (known p)).

(** No connection is both available and handed out, or handed out twice; there
    are at most [limit] of them, and the counter covers them. *)
Record pool_ok (pool_size max_overflow : Z) (p : pool) : Prop := {
  po_nodup : NoDup (known p);
  po_past : ∀ c, c ∈ known p → (c < p_tick p)%nat;
  po_counted : open_count p <= p_created p;
  po_limit : open_count p <= limit pool_size max_overflow;
}.

(** A computation that leaves the connections alone. *)
Definition quiet (p p' : pool) : Prop :=
  p_queue p' = p_queue p ∧ p_checked_out p' = p_checked_out p ∧ p_created p' = p_created p ∧
  (p_tick p ≤ p_tick p')%nat.

Lemma quiet_refl p : quiet p p.
Proof. done. Qed.

Lemma quiet_trans p q r : quiet p q → quiet q r → quiet p r.
Proof. intros (H1 & H2 & H3 & H4) (H5 & H6 & H7 & H8). split_and!; try congruence. lia. Qed.

Lemma quiet_ok ps mo p p' : quiet p p' → pool_ok ps mo p → pool_ok ps mo p'.
Proof.
  intros (H1 & H2 & H3 & H4) [Hn Hp Hc Hl]. unfold known, open_count, known in *.
  split; unfold known, open_count, known; rewrite ?H1, ?H2, ?H3; try done.
  intros c Hin. specialize (Hp c Hin). lia.
Qed.

Definition silent {A} (m : M pool A) : Prop := ∀ p r p', m p = (r, p') → quiet p p'.

Lemma silent_ret {A} (a : A) : silent (ret a).
Proof. intros p r p' Hm. unfold ret in Hm. by simplify_eq. Qed.
Lemma silent_raise {A} e : silent (@raise pool A e).
Proof. intros p r p' Hm. unfold raise in Hm. by simplify_eq. Qed.
Lemma silent_ask {A} (f : nat → A) : silent (ask f).
Proof. intros p r p' Hm. unfold ask in Hm. simplify_eq. split_and!; try done. simpl. lia. Qed.
Lemma silent_gets {A} (f : pool → A) : silent (gets f).
Proof. intros p r p' Hm. unfold gets in Hm. by simplify_eq. Qed.
Lemma silent_metrics f : silent (modify (set_metrics f)).
Proof. intros p r p' Hm. unfold modify in Hm. by simplify_eq. Qed.
Lemma silent_slept t : silent (modify (slept t)).
Proof. intros p r p' Hm. unfold modify in Hm. by simplify_eq. Qed.
Lemma silent_checked t : silent (modify (set_checked t)).
Proof. intros p r p' Hm. unfold modify in Hm. by simplify_eq. Qed.

Lemma silent_bind {A B} (m : M pool A) (f : A → M pool B) :
  silent m → (∀ a, silent (f a)) → silent (bind m f).
Proof.
  intros Hm Hf p r p' Hb. unfold bind in Hb. destruct (m p) as [[a|e] p1] eqn:E.
  - eapply quiet_trans; [by apply (Hm _ _ _ E) | by apply (Hf a _ _ _ Hb)].
  - simplify_eq. by apply (Hm _ _ _ E).
Qed.

Lemma silent_try {A} (m : M pool A) h : silent m → (∀ e, silent (h e)) → silent (try_except m h).
Proof.
  intros Hm Hh p r p' Ht. unfold try_except in Ht. destruct (m p) as [[a|e] p1] eqn:E.
  - simplify_eq. by apply (Hm _ _ _ E).
  - eapply quiet_trans; [by apply (Hm _ _ _ E) | by apply (Hh e _ _ _ Ht)].
Qed.

Create HintDb silent.
#[export] Hint Resolve silent_ret silent_raise silent_ask silent_gets silent_metrics silent_slept
  silent_checked : silent.

Ltac solve_silent :=
  repeat first
    [ solve [auto with silent nocore]
    | apply silent_bind; [|intros ?] | apply silent_try; [|intros ?]
    | lazymatch goal with |- silent (match _ with _ => _ end) => case_match end ].

Section invariant.
Context (time : nat → float) (now : nat → Z).
Context (attempt : nat → connect_result) (valid : nat → bool) (closes : nat → bool)
  (probe : nat → option string).
Context (pool_size max_overflow timeout recycle retry_attempts health_check_interval : Z)
  (retry_delay : float) (password : option string).

Abbreviation ok := (pool_ok pool_size max_overflow).
Abbreviation create := (_create_connection time now attempt retry_attempts retry_delay).
Abbreviation tracked := (_create_new_tracked_connection time now attempt retry_attempts retry_delay).
Abbreviation capacity := (limit pool_size max_overflow).

Lemma silent_attempt : silent (_attempt time attempt).
Proof. unfold _attempt. solve_silent. Qed.

Lemma silent_update_health : silent (_update_health_status now).
Proof. unfold _update_health_status. solve_silent. Qed.

Lemma silent_attempts n i e : silent (_attempts time now attempt retry_attempts retry_delay n i e).
Proof.
  revert i e. induction n as [|n IH]; intros i e; simpl; [apply silent_raise|].
  apply silent_bind; [apply silent_attempt|]. intros [c|msg]; solve_silent.
Qed.

Lemma silent_create : silent create.
Proof. apply silent_attempts. Qed.

(** A connection is named by an event of the attempt that made it. *)
Lemma attempt_fresh p c p' : _attempt time attempt p = (Ok (inl c), p') → (p_tick p ≤ c < p_tick p')%nat.
Proof.
  unfold _attempt, bind, ask, gets, modify, ret. intros Hm.
  destruct (attempt _); simplify_eq/=. lia.
Qed.

Lemma attempts_fresh n i e p c p' :
  _attempts time now attempt retry_attempts retry_delay n i e p = (Ok c, p') → (p_tick p ≤ c < p_tick p')%nat.
Proof.
  revert i e p. induction n as [|n IH]; intros i e p Hm; simpl in Hm; [done|].
  apply bind_ok_inv in Hm as (x & p1 & Ha & Hm). pose proof (silent_attempt _ _ _ Ha) as (_ & _ & _ & Ht).
  destruct x as [c'|msg].
  - unfold ret in Hm. simplify_eq. by apply attempt_fresh.
  - apply bind_ok_inv in Hm as (t & p2 & Hn & Hm). pose proof (silent_ask _ _ _ _ Hn) as (_ & _ & _ & Ht2).
    apply bind_ok_inv in Hm as (u & p3 & Hs & Hm). pose proof (silent_metrics _ _ _ _ Hs) as (_ & _ & _ & Ht3).
    destruct (i <? retry_attempts).
    + apply bind_ok_inv in Hm as (u' & p4 & Hs' & Hm). pose proof (silent_slept _ _ _ _ Hs') as (_ & _ & _ & Ht4).
      apply IH in Hm. lia.
    + by apply bind_ok_inv in Hm as (u' & p4 & _ & Hm).
Qed.

Lemma create_fresh p c p' : create p = (Ok c, p') → quiet p p' ∧ (p_tick p ≤ c < p_tick p')%nat.
Proof. intros Hc. split; [by apply (silent_create _ _ _ Hc) | by apply attempts_fresh in Hc]. Qed.

(** The invariant with the connections [cs] in the hands of threads, which have
    [k] of the places. *)
Definition held (cs : list nat) (k : Z) (p : pool) : Prop :=
  NoDup (known p ++ cs) ∧ (∀ c, c ∈ known p ++ cs → (c < p_tick p)%nat) ∧
  open_count p + k <= p_created p ∧ open_count p + k <= capacity.

Lemma held_0 p : held [] 0 p ↔ ok p.
Proof. unfold held. rewrite Z.add_0_r, app_nil_r. split; [intros (?&?&?&?); by split | intros []; done]. Qed.

Lemma held_perm cs cs' k p : cs ≡ₚ cs' → held cs k p → held cs' k p.
Proof.
  intros Hcs (Hn & Hp & Hc & Hl). rewrite Hcs in Hn. split_and!; try done.
  intros c Hin. apply Hp. by rewrite Hcs.
Qed.

Lemma held_quiet cs k p p' : quiet p p' → held cs k p → held cs k p'.
Proof.
  intros (H1 & H2 & H3 & H4) (Hn & Hp & Hc & Hl). unfold held, open_count, known in *.
  rewrite !H1, !H2, !H3. split_and!; try done. intros c Hin. specialize (Hp c Hin). lia.
Qed.

(** Moving a connection between the pool and a hand. *)
Lemma held_move p p' cs cs' k k' :
  held cs k p → known p ++ cs ≡ₚ known p' ++ cs' → p_tick p' = p_tick p → p_created p' = p_created p →
  open_count p + k = open_count p' + k' → held cs' k' p'.
Proof.
  intros (Hn & Hp & Hc & Hl) Hk Ht Hcr Ho. unfold held. rewrite <- Ho, Hcr, Ht. split_and!; try done.
  - by rewrite <- Hk.
  - intros c Hin. apply Hp. by rewrite Hk.
Qed.

Lemma held_pop c t q p cs k : held cs k p → p_queue p = (c, t) :: q → held (c :: cs) (k + 1) (set_queue q p).
Proof.
  intros Hh Hq. apply (held_move p _ cs _ k _ Hh); try done; unfold open_count, known; rewrite Hq; simpl.
  - rewrite <- app_assoc. apply Permutation_cons_app. rewrite app_assoc. by rewrite <- app_assoc.
  - lia.
Qed.

Lemma held_put c t p cs k : held (c :: cs) (k + 1) p → held cs k (set_queue (p_queue p ++ [(c, t)]) p).
Proof.
  intros Hh. apply (held_move p _ (c :: cs) _ (k + 1) _ Hh); try done; unfold open_count, known; simpl; rewrite map_app; simpl.
  - rewrite <- !app_assoc. f_equiv. simpl. symmetry. apply Permutation_middle.
  - rewrite !length_app. simpl. lia.
Qed.

Lemma held_check_out c p cs k : held (c :: cs) (k + 1) p → held cs k (check_out c p).
Proof.
  intros Hh. pose proof Hh as (Hn & _). unfold check_out.
  rewrite decide_False.
  2: { intros Hin. apply list.NoDup_app in Hn as (_ & Hn & _). apply (Hn c); [apply elem_of_app; by right | left]. }
  apply (held_move p _ (c :: cs) _ (k + 1) _ Hh); try done; unfold open_count, known; simpl.
  - rewrite <- !app_assoc. f_equiv. simpl. symmetry. apply Permutation_middle.
  - rewrite !length_app. simpl. lia.
Qed.

Lemma filter_ne_id (c : nat) (l : list nat) : c ∉ l → filter (fun x => x ≠ c) l = l.
Proof.
  induction l as [|x l IH]; [done|]. intros [Hx Hl]%not_elem_of_cons.
  rewrite filter_cons_True by congruence. by rewrite IH.
Qed.

Lemma filter_ne_perm (c : nat) (l : list nat) : NoDup l → c ∈ l → l ≡ₚ c :: filter (fun x => x ≠ c) l.
Proof.
  induction 1 as [|x l Hx Hl IH]; intros Hc; [by apply elem_of_nil in Hc|].
  rewrite filter_cons. destruct (decide (x ≠ c)) as [Hne|He].
  - apply elem_of_cons in Hc as [->|Hc]; [done|]. rewrite (IH Hc) at 1. apply Permutation_swap.
  - destruct (decide (x = c)) as [->|]; [|done]. f_equiv. by rewrite filter_ne_id.
Qed.

Lemma held_take c p cs k : held cs k p → c ∈ p_checked_out p →
  held (c :: cs) (k + 1) (set_out (filter (fun x => x ≠ c) (p_checked_out p)) p).
Proof.
  intros Hh Hin. assert (NoDup (p_checked_out p)) as Hn.
  { destruct Hh as (Hn & _). unfold known in Hn. rewrite <- app_assoc in Hn.
    apply list.NoDup_app in Hn as (_ & _ & Hn). by apply list.NoDup_app in Hn as (? & _ & _). }
  pose proof (filter_ne_perm c _ Hn Hin) as Hf.
  apply (held_move p _ cs _ k _ Hh); try done; unfold open_count, known; simpl.
  - rewrite Hf at 1. rewrite <- !app_assoc. f_equiv. simpl. apply Permutation_middle.
  - rewrite !length_app. rewrite (Permutation_length Hf) at 1. simpl. lia.
Qed.

(** A connection made since. *)
Lemma held_fresh c p p1 cs k : held cs k p → quiet p p1 → (p_tick p ≤ c < p_tick p1)%nat → held (c :: cs) k p1.
Proof.
  intros Hh Hq Hc. pose proof Hh as (_ & Hp & _). pose proof Hq as (H1 & H2 & _).
  destruct (held_quiet _ _ _ _ Hq Hh) as (Hn1 & Hp1 & Hc1 & Hl1). split_and!; [| |done..].
  - rewrite <- Permutation_middle. constructor; [|done]. intros Hin.
    unfold known in *. rewrite H1, H2 in Hin. specialize (Hp c Hin). lia.
  - intros x. rewrite <- Permutation_middle. intros [->|Hx]%elem_of_cons; [lia | by apply Hp1].
Qed.

(** A connection that is closed, and a place given up. *)
Lemma held_close c p cs k : held (c :: cs) k p → held cs k p.
Proof.
  intros (Hn & Hp & Hc & Hl). rewrite <- Permutation_middle in Hn. apply list.NoDup_cons in Hn as [_ Hn].
  split_and!; try done. intros x Hx. apply Hp. rewrite <- Permutation_middle. by right.
Qed.

Lemma held_less k' p cs k : held cs k p → k' <= k → held cs k' p.
Proof. intros (Hn & Hp & Hc & Hl) Hk. split_and!; [done | done | lia | lia]. Qed.

Lemma held_count p cs k : held cs k p → held cs k (add_created 1 p).
Proof.
  intros (Hn & Hp & Hc & Hl). unfold held, open_count, known in *. cbn [add_created p_queue p_checked_out p_tick p_created].
  split_and!; try done. lia.
Qed.

(** A place for a connection that was made while there was room. *)
Lemma held_room p cs k : held cs k p → p_created p < capacity → held cs (k + 1) (add_created 1 p).
Proof.
  intros (Hn & Hp & Hc & Hl) Hroom. unfold held, open_count, known in *.
  cbn [add_created p_queue p_checked_out p_tick p_created]. split_and!; try done; lia.
Qed.

Lemma held_uncount p cs k : held cs (k + 1) p → held cs k (add_created (-1) p).
Proof.
  intros (Hn & Hp & Hc & Hl). unfold held, open_count, known in *.
  cbn [add_created p_queue p_checked_out p_tick p_created]. split_and!; try done; lia.
Qed.

(** ** Threads in any order *)

Abbreviation step := (advance time now attempt valid closes pool_size max_overflow recycle retry_attempts retry_delay).

(** The connection in a thread's hand, the places of the pool it has, and
    whether it counts on room that is not counted yet. *)
Definition hands (ph : phase) : list nat :=
  match ph with
  | Aging c _ | Validating c | Retiring c | Counting c _ | Lending c _ | Rechecking c | Putting c | Closing c => [c]
  | _ => []
  end.

Definition place (ph : phase) : Z :=
  match ph with
  | Aging _ _ | Validating _ | Retiring _ | Connecting _ _ _ Replace | Counting _ Replace | Lending _ _
  | Rechecking _ | Putting _ | Closing _ | Uncounting => 1
  | _ => 0
  end.

Definition reserving (ph : phase) : bool :=
  match ph with Connecting _ _ _ Overflow | Counting _ Overflow => true | _ => false end.

Lemma connecting_next n i er u p r p' :
  step (Connecting n i er u) p = (r, p') →
  quiet p p' ∧ ∃ ph', r = Ok ph' ∧
    ((∃ c, ph' = Counting c u ∧ (p_tick p ≤ c < p_tick p')%nat) ∨ (∃ n' i' er', ph' = Connecting n' i' er' u) ∨
     ∃ e, ph' = failing e u).
Proof.
  intros Hm. split.
  { revert p r p' Hm. change (silent (step (Connecting n i er u))). pose proof silent_attempt.
    pose proof silent_update_health. destruct n; cbn [advance]; solve_silent. }
  destruct n as [|n]; cbn [advance] in Hm; [unfold ret in Hm; simplify_eq; eauto 6|].
  unfold bind at 1 in Hm. destruct (_attempt time attempt p) as [[[c|msg]|e] p1] eqn:Ea.
  - unfold ret in Hm. simplify_eq. eexists. split; [done|]. left. exists c. split; [done|]. by apply attempt_fresh.
  - unfold bind at 1, ask in Hm. unfold bind at 1, modify at 1 in Hm. destruct (i <? retry_attempts).
    + unfold bind, modify, ret in Hm. simplify_eq. eauto 8.
    + unfold bind, _update_health_status, bind, gets, ask, modify, ret in Hm.
      destruct (last_error_time _); simplify_eq; eauto 6.
  - exfalso. revert Ea. unfold _attempt, bind, ask, gets, modify, ret. by destruct (attempt _).
Qed.

Lemma event_quiet p : quiet p (event_done p).
Proof. split_and!; try done. simpl. lia. Qed.

(** One move of a thread, with [cs] in the hands of the others, which have [k]
    places. *)
Lemma advance_held ph p r p' cs k :
  held (hands ph ++ cs) (place ph + k) p → (reserving ph = true → p_created p < capacity) →
  step ph p = (r, p') →
  ∃ ph', r = Ok ph' ∧ held (hands ph' ++ cs) (place ph' + k) p' ∧ (reserving ph' = true → p_created p' < capacity) ∧
    (p_created p' = p_created p ∨ needs_lock ph = true) ∧
    (holds_lock ph' = true → holds_lock ph = true ∨ needs_lock ph = true).
Proof.
  intros Hh Hroom Hm.
  assert (held (hands ph ++ cs) (place ph + k) (event_done p)) as Hh1 by (by apply (held_quiet _ _ p), Hh; apply event_quiet).
  destruct ph as [|c t|c|c|n i er u|c u|c u|c| | |e|c|c|c|c| |]; cbn [advance] in Hm; cbn [hands place app reserving] in *;
    unfold _is_connection_valid, _close_quietly, bind, ask, gets, modify, ret in Hm.
  - unfold get_nowait in Hm. destruct (p_queue p) as [|[c t] q] eqn:Eq; simplify_eq; eexists; (split; [done|]);
      cbn [hands place app]; split_and!; try done; try (by left).
    rewrite Z.add_comm. by apply (held_pop c t).
  - simplify_eq. eexists. split; [done|]. destruct (fgt _ _); cbn [hands place app]; split_and!; try done; by left.
  - simplify_eq. eexists. split; [done|]. destruct (valid _); cbn [hands place app]; split_and!; try done; by left.
  - simplify_eq. eexists. split; [done|]. cbn [hands place app]. split_and!; try done; [by eapply held_close | by left].
  - destruct (connecting_next n i er u p r p') as (Hq & ph' & -> & Hn); [done|]. exists ph'. split; [done|].
    pose proof Hq as (_ & _ & Hcr & _). rewrite Hcr.
    destruct Hn as [(c & -> & Hc)|[(n' & i' & er' & ->)|[e ->]]]; destruct u; cbn [hands place app failing reserving] in *;
      split_and!; try done; try (by left); try (by apply (held_fresh _ p)); try (by apply (held_quiet _ _ p)).
    apply (held_less _ _ _ (1 + k)); [by apply (held_quiet _ _ p) | lia].
  - simplify_eq. eexists. split; [done|]. destruct u; cbn [hands place app reserving] in *; split_and!; try done; try (by right).
    + by apply held_count.
    + rewrite Z.add_comm. apply held_room; [done | by apply Hroom].
  - simplify_eq. eexists. split; [done|]. cbn [hands place app]. split_and!; try done; [|by right].
    apply held_check_out. by rewrite Z.add_comm.
  - simplify_eq. eexists. split; [done|]. split_and!; try done. by left.
  - simplify_eq. eexists. split; [done|]. destruct (p_created p' <? capacity) eqn:El; bool_hyps;
      cbn [hands place app first_attempt]; split_and!; try done; first [by left | by right].
  - simplify_eq. eexists. split; [done|]. split_and!; try done. by left.
  - simplify_eq. eexists. split; [done|]. split_and!; try done. by left.
  - destruct (decide (c ∈ p_checked_out p)) as [Hin|]; simplify_eq; eexists; (split; [done|]); cbn [hands place app];
      split_and!; try done; try (by left).
    rewrite Z.add_comm. by apply held_take.
  - simplify_eq. eexists. split; [done|]. destruct (valid _); cbn [hands place app]; split_and!; try done; by left.
  - unfold try_except, put_nowait in Hm. destruct (_ && _); simplify_eq; eexists; (split; [done|]);
      cbn [hands place app]; split_and!; try done; try (by left).
    apply (held_put c (time (p_tick p)) (event_done p)). by rewrite Z.add_comm.
  - simplify_eq. eexists. split; [done|]. cbn [hands place app]. split_and!; try done; [by eapply held_close | by left].
  - simplify_eq. eexists. split; [done|]. cbn [hands place app] in *. split_and!; try done; [|by right].
    eapply (held_quiet _ _ (add_created (-1) p)); [done|]. apply held_uncount. by rewrite Z.add_comm.
  - simplify_eq. eexists. split; [done|]. split_and!; try done. by left.
Qed.
(** The pool and where its threads are.  A thread may begin an iteration of
    [_get_connection] or the return of any connection at any time; a thread
    moves on, under the lock if nobody else holds it; and whatever else happens
    - clocks, sleeps, metrics, health checks - leaves the connections alone
    ([silent_health]). *)
Inductive interleave : pool * list phase → pool * list phase → Prop :=
| il_get p l : interleave (p, l) (p, Getting :: l)
| il_return p l c : interleave (p, l) (p, Returning c :: l)
| il_advance p p' l1 l2 ph ph' :
    (needs_lock ph = true → Forall (fun x => holds_lock x = false) (l1 ++ l2)) →
    step ph p = (Ok ph', p') → interleave (p, l1 ++ ph :: l2) (p', l1 ++ ph' :: l2)
| il_elsewhere p p' l : quiet p p' → interleave (p, l) (p', l).

Lemma silent_health : silent (check_health time now attempt probe pool_size max_overflow retry_attempts
  health_check_interval retry_delay).
Proof. pose proof silent_create. unfold check_health, _test_connection. solve_silent. Qed.

Definition in_hands (l : list phase) : list nat := flat_map hands l.
Definition places (l : list phase) : Z := foldr (fun ph n => place ph + n) 0 l.
Definition holders (l : list phase) : nat := length (List.filter holds_lock l).

Record threads_ok (s : pool * list phase) : Prop := {
  to_held : held (in_hands (snd s)) (places (snd s)) (fst s);
  to_room : ∀ ph, ph ∈ snd s → reserving ph = true → p_created (fst s) < capacity;
  to_lock : (holders (snd s) ≤ 1)%nat;
}.

Lemma reserving_holds ph : reserving ph = true → holds_lock ph = true.
Proof. by destruct ph as [| | | |? ? ? []|? []| | | | | | | | | | |]. Qed.

Lemma holders_none l : Forall (fun x => holds_lock x = false) l → holders l = 0%nat.
Proof. unfold holders. induction 1 as [|x l Hx _ IH]; [done|]. simpl. by rewrite Hx. Qed.

Lemma holders_zero l ph : holders l = 0%nat → ph ∈ l → holds_lock ph = false.
Proof.
  unfold holders. induction l as [|x l IH]; intros Hl Hin; [by apply elem_of_nil in Hin|].
  simpl in Hl. apply elem_of_cons in Hin as [->|Hin]; [by destruct (holds_lock x)|].
  apply IH; [by destruct (holds_lock x) | done].
Qed.

Lemma threads_perm p l l' : l ≡ₚ l' → threads_ok (p, l) → threads_ok (p, l').
Proof.
  intros Hl [Hh Hr Hk]. cbn [fst snd] in *. split; cbn [fst snd].
  - apply (held_perm (in_hands l)); [unfold in_hands; by rewrite Hl|].
    assert (places l = places l') as <-; [|done]. clear Hh Hr Hk. unfold places.
    induction Hl; simpl in *; lia.
  - intros ph Hin. apply Hr. by rewrite Hl.
  - unfold holders in *. assert (length (List.filter holds_lock l) = length (List.filter holds_lock l')) as <-; [|done].
    clear Hh Hr Hk. induction Hl; simpl; repeat (destruct (holds_lock _)); simpl; congruence.
Qed.

(** A move of one thread. *)
Lemma threads_advance p p' ph l r :
  threads_ok (p, ph :: l) → (needs_lock ph = true → Forall (fun x => holds_lock x = false) l) →
  step ph p = (r, p') → ∃ ph', r = Ok ph' ∧ threads_ok (p', ph' :: l).
Proof.
  intros [Hh Hr Hk] Hlock Hm. cbn [fst snd] in *.
  destruct (advance_held ph p r p' (in_hands l) (places l) Hh (Hr ph ltac:(left)) Hm)
    as (ph' & -> & Hh' & Hr' & Hcr & Hl'). exists ph'. split; [done|].
  assert (needs_lock ph = true → holders l = 0%nat) as Hnone by (intros ?; by apply holders_none, Hlock).
  assert (holds_lock ph = true → holders l = 0%nat) as Hself.
  { intros E. unfold holders in *. simpl in Hk. rewrite E in Hk. simpl in Hk. lia. }
  split; cbn [fst snd].
  - done.
  - intros x [->|Hin]%elem_of_cons Hx; [by apply Hr'|]. destruct Hcr as [->|Hn].
    + apply (Hr x); [by right | done].
    + apply reserving_holds in Hx. by rewrite (holders_zero l x (Hnone Hn) Hin) in Hx.
  - unfold holders in *. simpl in *. destruct (holds_lock ph') eqn:E; simpl.
    + destruct (Hl' eq_refl) as [H|H]; [rewrite Hself by done | rewrite Hnone by done]; lia.
    + destruct (holds_lock ph); simpl in Hk; lia.
Qed.

Lemma interleave_ok s s' : interleave s s' → threads_ok s → threads_ok s'.
Proof.
  intros [p l|p l c|p p' l1 l2 ph ph' Hlock Hm|p p' l Hq] Hok.
  - destruct Hok as [Hh Hr Hk]. split; [done | | done]. intros ph [->|Hin]%elem_of_cons; [done | by apply Hr].
  - destruct Hok as [Hh Hr Hk]. split; [done | | done]. intros ph [->|Hin]%elem_of_cons; [done | by apply Hr].
  - apply (threads_perm _ _ (ph :: l1 ++ l2)) in Hok; [|symmetry; apply Permutation_middle].
    destruct (threads_advance _ _ _ _ _ Hok Hlock Hm) as (x & [= <-] & Hok').
    apply (threads_perm _ (ph' :: l1 ++ l2)); [apply Permutation_middle | done].
  - destruct Hok as [Hh Hr Hk]. cbn [fst snd] in *. split; cbn [fst snd]; [by apply (held_quiet _ _ p)| |done].
    destruct Hq as (_ & _ & -> & _). done.
Qed.

(** A schedule: a thread begins to get or to return a connection, or the
    thread at a position moves, unless it has to wait for the lock. *)
Inductive turn := Gets | Gives (c : nat) | Moves (i : nat).

Definition take_turn (s : pool * list phase) (t : turn) : pool * list phase :=
  let '(p, l) := s in
  match t with
  | Gets => (p, Getting :: l)
  | Gives c => (p, Returning c :: l)
  | Moves i =>
      match l !! i with
      | Some ph =>
          if needs_lock ph && existsb holds_lock (take i l ++ drop (S i) l) then s
          else match step ph p with
               | (Ok ph', p') => (p', take i l ++ ph' :: drop (S i) l)
               | _ => s
               end
      | None => s
      end
  end.

Lemma turn_reachable s0 s t : reachable interleave s0 s → reachable interleave s0 (take_turn s t).
Proof.
  intros Hs. destruct s as [p l], t as [|c|i]; cbn [take_turn]; [by eapply reach_step; [|constructor]..|].
  destruct (l !! i) as [ph|] eqn:Ei; [|done]. destruct (_ && _) eqn:El; [done|].
  destruct (step ph p) as [[ph'|e] p'] eqn:Em; [|done]. eapply reach_step; [exact Hs|].
  rewrite <- (take_drop_middle l i ph Ei) at 1. apply il_advance; [|done]. intros Hn. rewrite Hn in El. simpl in El.
  apply list.Forall_forall. intros x Hx. destruct (holds_lock x) eqn:Ex; [|done].
  rewrite <- El. symmetry. apply existsb_exists. exists x. split; [by apply list_elem_of_In | done].
Qed.

Lemma schedule_reachable s0 s ts : reachable interleave s0 s → reachable interleave s0 (fold_left take_turn ts s).
Proof. revert s. induction ts as [|t ts IH]; intros s Hs; [done|]. by apply IH, turn_reachable. Qed.

(** ** A thread that runs alone *)

Definition leads (x y : phase * pool) : Prop := step (fst x) (snd x) = (Ok (fst y), snd y).

Lemma lead_l ph p ph1 p1 z : step ph p = (Ok ph1, p1) → rtc leads (ph1, p1) z → rtc leads (ph, p) z.
Proof. intros Hs. by apply rtc_l. Qed.

Lemma attempts_phases n i er u p r p' :
  _attempts time now attempt retry_attempts retry_delay n i er p = (r, p') →
  rtc leads (Connecting n i er u, p) (match r with Ok c => Counting c u | Raise e => failing e u end, p').
Proof.
  revert i er p. induction n as [|n IH]; intros i er p Hm; cbn [_attempts] in Hm.
  { unfold raise in Hm. simplify_eq. by apply rtc_once. }
  unfold bind at 1 in Hm. destruct (_attempt time attempt p) as [[[c|msg]|e] p1] eqn:Ea.
  - unfold ret in Hm. simplify_eq. apply rtc_once. unfold leads. cbn. unfold bind. by rewrite Ea.
  - unfold bind at 1, ask in Hm. unfold bind at 1, modify at 1 in Hm. destruct (i <? retry_attempts) eqn:Ei.
    + unfold bind, modify in Hm. eapply lead_l; [|exact (IH _ _ _ Hm)].
      cbn. unfold bind, ask, modify, ret. by rewrite Ea, Ei.
    + apply rtc_once. unfold leads. cbn. unfold bind at 1. rewrite Ea. unfold bind at 1, ask, bind at 1, modify.
      rewrite Ei. revert Hm. unfold bind, _update_health_status, bind, gets, ask, modify, raise, ret.
      destruct (last_error_time _); intros; by simplify_eq.
  - exfalso. revert Ea. unfold _attempt, bind, ask, gets, modify, ret. by destruct (attempt _).
Qed.

Lemma tracked_phases u p r p' :
  tracked p = (r, p') →
  rtc leads (first_attempt retry_attempts u, p) (match r with Ok c => Lending c u | Raise e => failing e u end, p').
Proof.
  unfold _create_new_tracked_connection, bind at 1. destruct (create p) as [[c|e] p1] eqn:Ec; intros Hm.
  - unfold bind, modify, ret in Hm. simplify_eq.
    eapply rtc_r; [exact (attempts_phases _ _ _ u _ _ _ Ec) | done].
  - simplify_eq. exact (attempts_phases _ _ _ u _ _ _ Ec).
Qed.

(** Alone, the phases of a thread that gets a connection are one iteration of
    the loop of [_get_connection]. *)
Lemma iteration_phases p r p' :
  _get_iteration time now attempt valid closes pool_size max_overflow recycle retry_attempts retry_delay p = (r, p') →
  rtc leads (Getting, p) (match r with Ok (Some c) => Lent c | Ok None => Nothing | Raise e => Failed e end, p').
Proof.
  unfold _get_iteration, bind at 1, get_nowait. intros Hm. destruct (p_queue p) as [|[c t] q] eqn:Eq.
  - eapply lead_l; [cbn; unfold bind, get_nowait; by rewrite Eq|].
    unfold _get_overflow, bind at 1, gets in Hm. destruct (p_created p <? limit _ _) eqn:El.
    2: { unfold ret in Hm. simplify_eq. apply rtc_once. unfold leads. cbn. unfold bind, gets, ret. by rewrite El. }
    eapply lead_l; [cbn; unfold bind, gets, ret; by rewrite El|]. cbn [fst snd].
    unfold try_except, bind at 1 in Hm. destruct (tracked p) as [[c|e] p1] eqn:Et; apply (tracked_phases Overflow) in Et.
    + unfold bind, modify, ret in Hm. simplify_eq. by eapply rtc_r.
    + unfold ret in Hm. by simplify_eq.
  - eapply lead_l; [cbn; unfold bind, get_nowait; by rewrite Eq|]. cbn [fst snd].
    set (p0 := set_queue q p) in *. clearbody p0. unfold bind at 1 in Hm.
    destruct (_try_get_valid_connection _ _ _ _ _ _ _ _ _ _ p0) as [o p1] eqn:Et.
    assert (rtc leads (Aging c t, p0) (match o with Ok x => Lending x Replace | Raise e => Failed e end, p1)) as Hl.
    { assert (∀ s, (run _close_quietly closes c ;; tracked) s = (o, p1) →
        rtc leads (Retiring c, s) (match o with Ok x => Lending x Replace | Raise e => Failed e end, p1)) as Hrep.
      { intros s Hs. unfold _close_quietly, bind at 1 2, ask, ret in Hs.
        eapply lead_l; [done|]. apply (tracked_phases Replace) in Hs. by destruct o. }
      unfold _try_get_valid_connection, bind at 1, ask in Et. cbv zeta in Et.
      destruct (fgt _ _) eqn:Ea; (eapply lead_l; [cbn; unfold bind, ask, ret; by rewrite Ea|]); [by apply Hrep|].
      cbn [fst snd]. unfold bind at 1, _is_connection_valid, ask in Et.
      destruct (valid _) eqn:Ev;
        (eapply lead_l; [cbn in Ev; cbn; unfold _is_connection_valid, bind, ask, ret; cbn; by rewrite Ev|]).
      + unfold ret in Et. by simplify_eq.
      + by apply Hrep. }
    destruct o as [x|e]; [|by simplify_eq]. unfold bind, modify, ret in Hm. simplify_eq. by eapply rtc_r.
Qed.

(** And those of a return are [_return_connection]. *)
Lemma return_phases c p r p' :
  _return_connection time valid closes pool_size max_overflow c p = (r, p') →
  r = Ok tt ∧ rtc leads (Returning c, p) (Returned, p') ∧
  (p_checked_out p' = p_checked_out p ∨ p_checked_out p' = filter (fun x => x ≠ c) (p_checked_out p)) ∧
  c ∉ p_checked_out p'.
Proof.
  unfold _return_connection, bind at 1, gets. intros Hm.
  destruct (decide (c ∈ p_checked_out p)) as [Hin|Hout].
  2: { unfold ret in Hm. simplify_eq. split_and!; try done; [|by left]. apply rtc_once. unfold leads. cbn.
       unfold bind, gets. by rewrite decide_False. }
  assert (c ∉ filter (fun x => x ≠ c) (p_checked_out p)) as Hgone by (rewrite list_elem_of_filter; tauto).
  unfold bind at 1, modify at 1 in Hm. set (p1 := set_out _ p) in *.
  assert (leads (Returning c, p) (Rechecking c, p1)) as H1 by (unfold leads; cbn; unfold bind, gets; by rewrite decide_True).
  assert (p_checked_out p1 = filter (fun x => x ≠ c) (p_checked_out p)) as Hp1 by done. clearbody p1.
  unfold bind at 1, _is_connection_valid, ask at 1 in Hm.
  assert (∀ s, drop_connection closes s = (r, p') → p_checked_out s = p_checked_out p1 →
    r = Ok tt ∧ rtc leads (Closing c, s) (Returned, p') ∧ p_checked_out p' = p_checked_out p1) as Hdrop.
  { intros s Hs Ho. unfold drop_connection, bind, ask, modify in Hs. simplify_eq. split_and!; try done.
    eapply lead_l; [done|]. by eapply rtc_once. }
  assert (r = Ok tt ∧ rtc leads (Rechecking c, p1) (Returned, p') ∧ p_checked_out p' = p_checked_out p1) as (-> & Hl & Ho).
  { destruct (valid (p_tick p1)) eqn:Ev.
    - unfold bind at 1, ask at 1 in Hm. unfold try_except, put_nowait in Hm.
      assert (leads (Rechecking c, p1) (Putting c, event_done p1)) as H2
        by (unfold leads; cbn; unfold _is_connection_valid, bind, ask, ret; by rewrite Ev).
      destruct (_ && _) eqn:Ef.
      + destruct (Hdrop _ Hm) as (-> & Hl & Ho); [done|]. split_and!; try done. eapply rtc_l; [exact H2|].
        eapply rtc_l; [|exact Hl]. unfold leads. cbn. unfold bind, ask, try_except, put_nowait, ret. cbn.
        change (p_queue (event_done p1)) with (p_queue p1) in *. cbn in Ef. by rewrite Ef.
      + simplify_eq. split_and!; try done. eapply rtc_l; [exact H2|]. apply rtc_once. unfold leads. cbn.
        unfold bind, ask, try_except, put_nowait, ret. cbn. cbn in Ef. by rewrite Ef.
    - destruct (Hdrop _ Hm) as (-> & Hl & Ho); [done|]. split_and!; try done. eapply rtc_l; [|exact Hl].
      unfold leads. cbn. unfold _is_connection_valid, bind, ask, ret. by rewrite Ev. }
  rewrite Ho, Hp1. split_and!; try done; [by eapply rtc_l | by right].
Qed.

Lemma leads_ok x y : rtc leads x y → threads_ok (snd x, [fst x]) → threads_ok (snd y, [fst y]).
Proof.
  induction 1 as [|x y z Hxy _ IH]; [done|]. intros Hok. apply IH.
  destruct (threads_advance _ _ _ _ _ Hok (fun _ => list.Forall_nil_2 _) Hxy) as (ph & [= <-] & Hok'). done.
Qed.

Lemma alone p ph : place ph = 0 → hands ph = [] → reserving ph = false → holds_lock ph = false →
  ok p ↔ threads_ok (p, [ph]).
Proof.
  intros Hp Hh Hr Hl. rewrite <- held_0. split.
  - intros Hok. split; unfold in_hands, places, holders; simpl; rewrite ?Hp, ?Hh, ?Hl; [done | | simpl; lia].
    intros x ->%list_elem_of_singleton. congruence.
  - intros [Hok _ _]. unfold in_hands, places in Hok. simpl in Hok. by rewrite Hp, Hh in Hok.
Qed.

Lemma new_threads p : ok p → threads_ok (p, []).
Proof. intros Hok. apply held_0 in Hok. split; [done | | unfold holders; simpl; lia]. intros ph Hin. by apply elem_of_nil in Hin. Qed.

Lemma place_hands ph : Z.of_nat (length (hands ph)) <= place ph + if reserving ph then 1 else 0.
Proof. destruct ph as [| | | |? ? ? []|? []| | | | | | | | | | |]; simpl; lia. Qed.

Lemma places_nonneg l : 0 <= places l.
Proof. induction l as [|ph l IH]; simpl; [lia|]. destruct ph as [| | | |? ? ? []|? []| | | | | | | | | | |]; simpl; lia. Qed.

(** All connections, those in the hands of the threads included, fit. *)
Lemma hands_fit p l : threads_ok (p, l) → Z.of_nat (length (known p ++ in_hands l)) <= capacity.
Proof.
  intros [(_ & _ & Hc & Hl) Hr Hk]. cbn [fst snd] in *.
  assert (Z.of_nat (length (in_hands l)) <= places l + Z.of_nat (length (List.filter reserving l))) as Hh.
  { clear. induction l as [|ph l IH]; [done|]. unfold in_hands in *. simpl. rewrite length_app.
    pose proof (place_hands ph). destruct (reserving ph); simpl; lia. }
  assert (length (List.filter reserving l) ≤ holders l)%nat as Hle.
  { clear. unfold holders. induction l as [|ph l IH]; [done|]. simpl.
    pose proof (reserving_holds ph). destruct (reserving ph); [rewrite H by done; simpl; lia|].
    destruct (holds_lock ph); simpl; lia. }
  rewrite length_app. unfold open_count in *. destruct (List.filter reserving l) as [|ph l'] eqn:Ef; simpl in *; [lia|].
  assert (ph ∈ l ∧ reserving ph = true) as [Hin Hres].
  { assert (In ph (List.filter reserving l)) as Hf by (rewrite Ef; by left). apply filter_In in Hf as [? ?].
    split; [by apply list_elem_of_In | done]. }
  specialize (Hr ph Hin Hres). lia.
Qed.

Lemma check_out_in c p : c ∈ p_checked_out (check_out c p).
Proof. unfold check_out. cbn [set_out p_checked_out]. destruct (decide _); [done | left]. Qed.

Lemma iteration_lends p c p' :
  _get_iteration time now attempt valid closes pool_size max_overflow recycle retry_attempts retry_delay p = (Ok (Some c), p') →
  c ∈ p_checked_out p'.
Proof.
  unfold _get_iteration. intros (x & p1 & _ & Hm)%bind_ok_inv. destruct x as [[c1 t]|].
  - apply bind_ok_inv in Hm as (c2 & p2 & _ & Hm). unfold bind, modify, ret in Hm. simplify_eq. apply check_out_in.
  - unfold _get_overflow, bind at 1, gets in Hm. destruct (_ <? _); [|done].
    unfold try_except, bind at 1 in Hm. destruct (tracked p1) as [[c2|e] p2]; [|done].
    unfold bind, modify, ret in Hm. simplify_eq. apply check_out_in.
Qed.

Lemma iteration_ok p r p' : ok p →
  _get_iteration time now attempt valid closes pool_size max_overflow recycle retry_attempts retry_delay p = (r, p') →
  ok p' ∧ ∀ c, r = Ok (Some c) → c ∈ p_checked_out p'.
Proof.
  intros Hok Hm. split; [|intros c ->; by eapply iteration_lends].
  apply iteration_phases in Hm. apply leads_ok in Hm; [|by apply alone].
  apply alone in Hm; [done | by destruct r as [[c|]|e]..].
Qed.

Lemma return_ok c p r p' : ok p →
  _return_connection time valid closes pool_size max_overflow c p = (r, p') → ok p' ∧ r = Ok tt ∧ c ∉ p_checked_out p'.
Proof.
  intros Hok Hm. apply return_phases in Hm as (-> & Hl & _ & Hc). split_and!; [|done..].
  apply leads_ok in Hl; [|by apply alone]. by apply alone in Hl.
Qed.
End invariant.

Section properties.
Context (time : nat → float) (now : nat → Z).
Context (attempt : nat → connect_result) (valid : nat → bool) (closes : nat → bool)
  (probe : nat → option string).
Context (pool_size max_overflow timeout recycle retry_attempts health_check_interval : Z)
  (retry_delay : float) (password : option string).

Notation ok := (pool_ok pool_size max_overflow).
Notation get_loop := (_get_loop time now attempt valid closes pool_size max_overflow timeout recycle
  retry_attempts retry_delay).

Abbreviation held := (held pool_size max_overflow).

Lemma precreate_ok p r p' :
  ok p → open_count p + 1 <= limit pool_size max_overflow →
  _precreate time now attempt pool_size max_overflow retry_attempts retry_delay p = (r, p') →
  r = Ok tt ∧ ok p' ∧ open_count p' <= open_count p + 1.
Proof.
  rewrite <- !held_0. intros Hh Hroom Hm. unfold _precreate, try_except, bind at 1 in Hm.
  destruct (_create_connection _ _ _ _ _ p) as [[c|e] p1] eqn:Ec.
  2: { unfold ret in Hm. simplify_eq. pose proof (silent_create _ _ _ _ _ _ _ _ Ec) as Hq.
       split_and!; [done | by apply (held_quiet _ _ _ _ p)|]. destruct Hq as (H1 & H2 & _).
       unfold open_count, known. rewrite H1, H2. lia. }
  destruct (create_fresh _ _ _ _ _ _ _ _ Ec) as [Hq Hc].
  rewrite (bind_ok (ask time) _ p1 (time (p_tick p1)) (event_done p1)) in Hm by done.
  set (p2 := event_done p1) in *.
  assert (quiet p p2) as Hq2 by (eapply quiet_trans; [done | apply event_quiet]).
  assert (held [c] 0 p2) as Hh2 by (apply (held_fresh _ _ _ p); [done | done | simpl; lia]).
  assert (open_count p2 = open_count p) as Ho by (destruct Hq2 as (H1 & H2 & _); unfold open_count, known; by rewrite H1, H2).
  unfold bind, put_nowait, modify, ret in Hm. destruct (_ && _); simplify_eq.
  { split_and!; [done | by eapply held_close | lia]. }
  split_and!; [done | |].
  - apply (held_put _ _ c (time (p_tick p1)) (add_created 1 p2)). destruct Hh2 as (Hn & Hp & Hcr & Hl).
    unfold held, open_count, known in *. cbn [add_created p_queue p_checked_out p_tick p_created]. split_and!; try done; lia.
  - unfold open_count, known in *. cbn [add_created set_queue p_queue p_checked_out].
    clearbody p2. rewrite map_app. rewrite !length_app in *. simpl. lia.
Qed.

Lemma initialize_ok :
  0 <= max_overflow →
  ok (__init__ time now attempt pool_size max_overflow retry_attempts retry_delay password) ∨ pool_size < 0.
Proof.
  intros Hmo. destruct (decide (0 <= pool_size)) as [Hps|]; [left | right; lia].
  assert (ok new_pool) as Hnew.
  { split; unfold open_count, known, limit; simpl; try lia; [apply NoDup_nil_2|].
    intros c Hc. by apply elem_of_nil in Hc. }
  unfold __init__, _initialize_pool. destruct (placeholder_password password); [by apply (quiet_ok _ _ new_pool)|].
  assert (∀ n p, ok p → open_count p + Z.of_nat n <= limit pool_size max_overflow →
    ok (snd (repeat_m n (_precreate time now attempt pool_size max_overflow retry_attempts retry_delay) p))) as Hrep.
  { induction n as [|n IH]; intros p Hh Hl; simpl; [done|].
    unfold bind. destruct (_precreate _ _ _ _ _ _ _ p) as [r p1] eqn:Ep.
    assert (open_count p + 1 <= limit pool_size max_overflow) as Hroom by lia.
    destruct (precreate_ok p r p1 Hh Hroom Ep) as (-> & Hh1 & Ho). apply IH; [done | lia]. }
  apply Hrep; [done|]. unfold open_count, known, limit. simpl. lia.
Qed.

(** ** Properties *)

(** C32: capacity: on a freshly built pool, with any number of threads getting
    and returning connections, their moves interleaved in any order the lock
    allows ([interleave]: the lock is held only where the code holds it), and
    whatever the driver and the clocks do, no connection is ever in two places
    among the queue, the handed-out set and the hands of the threads, the
    connections in all three together never exceed pool_size + max_overflow, and
    at most one thread holds the lock. *)
Theorem pool_capacity p l :
  0 <= pool_size → 0 <= max_overflow →
  reachable (interleave time now attempt valid closes pool_size max_overflow recycle retry_attempts retry_delay)
    (__init__ time now attempt pool_size max_overflow retry_attempts retry_delay password, []) (p, l) →
  NoDup (known p ++ in_hands l) ∧ Z.of_nat (length (known p ++ in_hands l)) <= pool_size + max_overflow ∧
  open_count p <= p_created p ∧ (holders l ≤ 1)%nat.
Proof.
  intros Hps Hmo Hr.
  assert (threads_ok pool_size max_overflow (p, l)) as Hok.
  { apply (reachable_inv _ _ _ _ (new_threads _ _ _ (match initialize_ok Hmo with or_introl H => H | or_intror H => ltac:(lia) end))
      (fun a b Ha Hab => interleave_ok _ _ _ _ _ _ _ _ _ _ a b Hab Ha) Hr). }
  pose proof (hands_fit _ _ p l Hok) as Hfit. destruct Hok as [(Hn & _ & Hc & _) _ Hk]. cbn [fst snd] in *.
  split_and!; try done. pose proof (places_nonneg l). lia.
Qed.

(** The context manager gives the connection back: the connection that the
    block got is no longer handed out when the block is left, normally or by an
    exception, and the outcome is that of the block. *)
Theorem connection_returned {A} fuel t (body : nat → M pool A) c p p1 rb p2 :
  _get_connection time now attempt valid closes pool_size max_overflow timeout recycle retry_attempts
    retry_delay fuel t p = (Ok (Some c), p1) →
  body c p1 = (rb, p2) → ok p2 →
  ∃ p', get_connection time now attempt valid closes pool_size max_overflow timeout recycle retry_attempts
          retry_delay fuel t body p = (match rb with Ok a => Ok (Some a) | Raise e => Raise e end, p') ∧
        (c ∉ p_checked_out p') ∧ ok p'.
Proof.
  intros Hg Hb Hok. unfold get_connection. rewrite (bind_ok _ _ _ _ _ Hg), Hb.
  destruct (_return_connection _ _ _ _ _ _ p2) as [r p'] eqn:Er.
  destruct (return_ok time now attempt valid closes probe pool_size max_overflow recycle retry_attempts retry_delay c p2 r p' Hok Er) as (Hok' & -> & Hc). by exists p'.
Qed.

(** The waits after [k] failures from attempt [i] on: each is twice the last. *)
Fixpoint waits (i : Z) (k : nat) : list float :=
  match k with O => [] | S k' => fmul retry_delay (of_Z (2 ^ (i - 1))) :: waits (i + 1) k' end.

(** Failures, creations and sleeps between two states. *)
Definition traced (k created : Z) (w : list float) (p p' : pool) : Prop :=
  p_slept p' = p_slept p ++ w ∧
  total_errors (p_metrics p') = total_errors (p_metrics p) + k ∧
  total_retries (p_metrics p') = total_retries (p_metrics p) + k ∧
  total_created (p_metrics p') = total_created (p_metrics p) + created.

Lemma attempt_traced p r p' : _attempt time attempt p = (r, p') →
  ∃ x, r = Ok x ∧ traced 0 (match x with inl _ => 1 | inr _ => 0 end) [] p p'.
Proof.
  unfold _attempt, bind, ask, gets, modify, ret, traced. intros Hm.
  destruct (attempt _); simplify_eq/=; eexists; (split; [reflexivity|]); rewrite app_nil_r; split_and!; try done; lia.
Qed.

Lemma health_traced p r p' : _update_health_status now p = (r, p') → r = Ok tt ∧ traced 0 0 [] p p'.
Proof.
  unfold _update_health_status, bind, ask, gets, modify, ret, traced. intros Hm.
  destruct (last_error_time _); simplify_eq/=; rewrite app_nil_r; split_and!; try done; lia.
Qed.

Lemma traced_trans k1 k2 c1 c2 w1 w2 p q r :
  traced k1 c1 w1 p q → traced k2 c2 w2 q r → traced (k1 + k2) (c1 + c2) (w1 ++ w2) p r.
Proof.
  unfold traced. intros (H1 & H2 & H3 & H4) (H5 & H6 & H7 & H8). rewrite H5, H1, app_assoc.
  split_and!; [done | lia..].
Qed.

Lemma attempts_trace n i e p r p' :
  _attempts time now attempt retry_attempts retry_delay n i e p = (r, p') →
  Z.of_nat n = retry_attempts - i + 1 →
  ∃ k, (k ≤ n)%nat ∧
    ((∃ c, r = Ok c ∧ (k < n)%nat ∧ traced (Z.of_nat k) 1 (waits i k) p p') ∨
     (∃ msg, r = Raise (ConnectionError msg) ∧ k = n ∧ traced (Z.of_nat k) 0 (waits i (n - 1)) p p')).
Proof.
  revert i e p. induction n as [|n IH]; intros i e p Hm Hn; simpl in Hm.
  - unfold raise in Hm. simplify_eq. exists 0%nat. split; [done|]. right. eexists. split_and!; [done..|].
    unfold traced. simpl. rewrite app_nil_r. split_and!; try done; lia.
  - unfold bind at 1 in Hm. destruct (_attempt time attempt p) as [ra p1] eqn:Ea.
    destruct (attempt_traced _ _ _ Ea) as (x & -> & H1). destruct x as [c|msg].
    { unfold ret in Hm. simplify_eq. exists 0%nat. split; [lia|]. left. exists c. split_and!; [done | lia | done]. }
    rewrite (bind_ok (ask now) _ p1 (now (p_tick p1)) (event_done p1)) in Hm by done.
    unfold bind at 1, modify at 1 in Hm. set (p2 := set_metrics _ (event_done p1)) in *.
    assert (traced 1 0 [] p p2) as H2.
    { destruct H1 as (S1 & S2 & S3 & S4). split_and!; simpl; [done | lia..]. }
    destruct (i <? retry_attempts) eqn:Ei; bool_hyps.
    + unfold bind at 1, modify in Hm. destruct (IH (i + 1) (Some msg) _ Hm ltac:(lia)) as (k & Hk & Hc).
      assert (traced 0 0 [fmul retry_delay (of_Z (2 ^ (i - 1)))] p2 (slept (fmul retry_delay (of_Z (2 ^ (i - 1)))) p2)) as H3
        by (split_and!; simpl; [done | lia..]).
      pose proof (traced_trans _ _ _ _ _ _ _ _ _ H2 H3) as H4. exists (S k). split; [lia|].
      destruct Hc as [(c & -> & Hlt & Ht)|(m & -> & -> & Ht)];
        pose proof (traced_trans _ _ _ _ _ _ _ _ _ H4 Ht) as H5.
      * left. exists c. split_and!; [done | lia |]. replace (Z.of_nat (S k)) with (1 + 0 + Z.of_nat k) by lia. exact H5.
      * right. exists m. split_and!; [done | done |]. replace (Z.of_nat (S n)) with (1 + 0 + Z.of_nat n) by lia.
        assert (n ≠ 0%nat) by lia. destruct n as [|n']; [done|]. cbn [Nat.sub waits].
        replace (S n' - 1)%nat with n' in H5 by lia. exact H5.
    + assert (n = 0%nat) as -> by lia. unfold bind in Hm. destruct (_update_health_status now p2) as [rh p3] eqn:Eh.
      destruct (health_traced _ _ _ Eh) as [-> Hh]. unfold raise in Hm. simplify_eq. exists 1%nat. split; [done|].
      right. eexists. split_and!; [done..|]. exact (traced_trans _ _ _ _ _ _ _ _ _ H2 Hh).
Qed.

(** Retries with exponential backoff: connecting makes at most
    retry_attempts attempts; a connection after [k] failures has slept the delays
    delay, 2 delay, ..., 2^(k-1) delay, and has counted [k] errors and retries
    and one created connection; only when every attempt failed is
    ConnectionError raised, without sleeping after the last one. *)
Theorem connect_with_backoff p r p' :
  0 <= retry_attempts →
  _create_connection_with_retry time now attempt retry_attempts retry_delay p = (r, p') →
  let n := Z.to_nat retry_attempts in
  (∃ c k, r = Ok c ∧ (k < n)%nat ∧ traced (Z.of_nat k) 1 (waits 1 k) p p') ∨
  (∃ msg, r = Raise (ConnectionError msg) ∧ traced retry_attempts 0 (waits 1 (n - 1)) p p').
Proof.
  intros Hra Hm n. destruct (attempts_trace _ _ _ _ _ _ Hm ltac:(lia)) as (k & Hk & [(c & -> & Hlt & Ht)|(m & -> & -> & Ht)]).
  - left. by exists c, k.
  - right. exists m. split; [done|]. replace (Z.of_nat (Z.to_nat retry_attempts)) with retry_attempts in Ht by lia. exact Ht.
Qed.

Lemma try_get_raises c t p e p' :
  _try_get_valid_connection time now attempt valid closes recycle retry_attempts retry_delay c t p = (Raise e, p') →
  ∃ q, _create_connection time now attempt retry_attempts retry_delay q = (Raise e, p').
Proof.
  assert (∀ q, (run _close_quietly closes c ;;
    _create_new_tracked_connection time now attempt retry_attempts retry_delay) q = (Raise e, p') →
    ∃ q', _create_connection time now attempt retry_attempts retry_delay q' = (Raise e, p')) as Hrep.
  { intros q Hq. unfold _close_quietly, bind at 1 2, ask, ret, _create_new_tracked_connection in Hq. exists (event_done q).
    apply bind_raise_inv in Hq as [Hq|(x & s & _ & Hq)]; [done|]. unfold bind, modify, ret in Hq. done. }
  unfold _try_get_valid_connection. intros Hm. unfold bind at 1, ask in Hm.
  destruct (fgt _ _); [by apply (Hrep _ Hm)|]. unfold bind at 1, _is_connection_valid, ask in Hm.
  destruct (valid _); [done | by apply (Hrep _ Hm)].
Qed.

Lemma create_raises q e q' :
  _create_connection time now attempt retry_attempts retry_delay q = (Raise e, q') → ∃ msg, e = ConnectionError msg.
Proof.
  unfold _create_connection, _create_connection_with_retry. generalize (Z.to_nat retry_attempts) as n, 1 as i, (@None string) as er.
  intros n. revert q. induction n as [|n IH]; intros q i er Hm; simpl in Hm.
  - unfold raise in Hm. simplify_eq. by eexists.
  - unfold bind at 1 in Hm. destruct (_attempt time attempt q) as [ra q1] eqn:Ea.
    destruct (attempt_traced _ _ _ Ea) as (x & -> & _). destruct x as [c|msg]; [done|].
    rewrite (bind_ok (ask now) _ q1 (now (p_tick q1)) (event_done q1)) in Hm by done.
    unfold bind at 1, modify at 1 in Hm. destruct (i <? retry_attempts).
    + unfold bind at 1, modify in Hm. by apply IH in Hm.
    + unfold bind in Hm. destruct (_update_health_status now _) as [rh q3] eqn:Eh.
      destruct (health_traced _ _ _ Eh) as [-> _]. unfold raise in Hm. simplify_eq. by eexists.
Qed.

(** Time passes. *)
Definition forward {A} (m : M pool A) : Prop := ∀ p r p', m p = (r, p') → (p_tick p ≤ p_tick p')%nat.

Lemma silent_forward {A} (m : M pool A) : silent m → forward m.
Proof. intros Hs p r p' Hm. by apply (Hs _ _ _ Hm). Qed.

Lemma forward_bind {A B} (m : M pool A) (f : A → M pool B) : forward m → (∀ a, forward (f a)) → forward (bind m f).
Proof.
  intros Hm Hf p r p' Hb. unfold bind in Hb. destruct (m p) as [[a|e] p1] eqn:E; [|simplify_eq; by apply (Hm _ _ _ E)].
  pose proof (Hm _ _ _ E). pose proof (Hf a _ _ _ Hb). lia.
Qed.

Lemma forward_modify f : (∀ p, p_tick (f p) = p_tick p) → forward (modify f).
Proof. intros Hf p r p' Hm. unfold modify in Hm. simplify_eq. by rewrite Hf. Qed.

Lemma forward_tracked : forward (_create_new_tracked_connection time now attempt retry_attempts retry_delay).
Proof.
  apply forward_bind; [apply silent_forward, silent_create | intros c].
  apply forward_bind; [by apply forward_modify | intros _; apply silent_forward, silent_ret].
Qed.

Lemma forward_try_get c t :
  forward (_try_get_valid_connection time now attempt valid closes recycle retry_attempts retry_delay c t).
Proof.
  assert (forward (run _close_quietly closes c ;; _create_new_tracked_connection time now attempt retry_attempts retry_delay)) as Hr.
  { apply forward_bind; [apply silent_forward; unfold _close_quietly; solve_silent | intros _; apply forward_tracked]. }
  apply forward_bind; [apply silent_forward; solve_silent | intros a]. cbv zeta. case_match; [done|].
  apply forward_bind; [apply silent_forward; unfold _is_connection_valid; solve_silent | intros []; [|done]].
  apply silent_forward, silent_ret.
Qed.

Lemma forward_iteration :
  forward (_get_iteration time now attempt valid closes pool_size max_overflow recycle retry_attempts retry_delay).
Proof.
  apply forward_bind.
  { intros p r p' Hm. unfold get_nowait in Hm. destruct (p_queue p); by simplify_eq. }
  intros [[c t]|].
  - apply forward_bind; [apply forward_try_get | intros a].
    apply forward_bind; [by apply forward_modify | intros _; apply silent_forward, silent_ret].
  - intros p r p' Hm. unfold _get_overflow in Hm. unfold bind at 1, gets in Hm. destruct (_ <? _).
    + unfold try_except in Hm. destruct (bind _ _ p) as [[x|e] p1] eqn:E; unfold ret in Hm; simplify_eq;
        (eapply forward_bind; [apply forward_tracked | | exact E]; intros c;
         apply forward_bind; [by apply forward_modify | intros _; apply silent_forward, silent_ret]).
    + unfold ret in Hm. by simplify_eq.
Qed.

Lemma iteration_raises p e p' :
  _get_iteration time now attempt valid closes pool_size max_overflow recycle retry_attempts retry_delay p = (Raise e, p') →
  ∃ msg, e = ConnectionError msg.
Proof.
  intros Hm. unfold _get_iteration, bind at 1, get_nowait in Hm. destruct (p_queue p) as [|[c t] q].
  - unfold _get_overflow, bind at 1, gets in Hm. destruct (_ <? _); [|done].
    unfold try_except in Hm. by destruct (bind _ _ p) as [[x|e'] p1].
  - apply bind_raise_inv in Hm as [(q' & Hc)%try_get_raises|(x & s & _ & Hm)]; [by apply create_raises in Hc|].
    unfold bind, modify, ret in Hm. done.
Qed.

Lemma loop_ends fuel n deadline i t p r p' :
  (∀ m, (n ≤ m)%nat → flt (time m) deadline = false) → (n < p_tick p + fuel)%nat → (0 < fuel)%nat → ok p →
  get_loop fuel deadline i t p = (r, p') →
  match r with
  | Ok (Some c) => c ∈ p_checked_out p' ∧ ok p'
  | Ok None => False
  | Raise (TimeoutError _) | Raise (ConnectionError _) => True
  | Raise _ => False
  end.
Proof.
  intros Hclock. revert i p. induction fuel as [|fuel IH]; intros i p Hn Hf Hok Hm; [lia|]. cbn [_get_loop] in Hm.
  rewrite (bind_ok (ask time) _ p (time (p_tick p)) (event_done p)) in Hm by done.
  assert (ok (event_done p)) as Hok1 by (apply (quiet_ok _ _ p); [split_and!; try done; simpl; lia | done]).
  destruct (flt _ deadline) eqn:Ed.
  - assert (p_tick p < n)%nat as Hlt. { destruct (decide (p_tick p < n)%nat); [done|]. rewrite Hclock in Ed; [done | lia]. }
    unfold bind at 1 in Hm. destruct (_get_iteration _ _ _ _ _ _ _ _ _ _ _) as [[g|e] p1] eqn:Ei;
      destruct (iteration_ok _ _ _ _ _ _ _ _ _ _ _ _ _ Hok1 Ei) as [Hok2 Hc].
    2: { simplify_eq. by destruct (iteration_raises _ _ _ Ei) as [msg ->]. }
    pose proof (forward_iteration _ _ _ Ei) as Ht. simpl in Ht.
    destruct g as [c|]; [unfold ret in Hm; simplify_eq; split; [by apply Hc | done]|].
    unfold bind at 1, modify in Hm. apply IH in Hm; [done | simpl; lia | lia |]. by apply (quiet_ok _ _ p1).
  - unfold bind, modify, raise in Hm. by simplify_eq.
Qed.

(** C39: getting a connection terminates: once the clock stays past the
    deadline from some event on, enough fuel gives a result, which is a
    connection that is now handed out, a TimeoutError, or the ConnectionError of
    a failed replacement. *)
Theorem get_connection_terminates fuel n t p r p' :
  (∀ m, (n ≤ m)%nat → flt (time m) (fadd (time (p_tick p)) (seconds_of (effective_timeout timeout t))) = false) →
  (n < p_tick p + fuel)%nat → (0 < fuel)%nat → ok p →
  _get_connection time now attempt valid closes pool_size max_overflow timeout recycle retry_attempts
    retry_delay fuel t p = (r, p') →
  match r with
  | Ok (Some c) => c ∈ p_checked_out p' ∧ ok p'
  | Ok None => False
  | Raise (TimeoutError _) | Raise (ConnectionError _) => True
  | Raise _ => False
  end.
Proof.
  intros Hclock Hn Hf Hok Hm. unfold _get_connection in Hm.
  rewrite (bind_ok (ask time) _ p (time (p_tick p)) (event_done p)) in Hm by done.
  apply (loop_ends fuel n) in Hm; [done | done | simpl; lia | done |].
  apply (quiet_ok _ _ p); [split_and!; try done; simpl; lia | done].
Qed.
End properties.

(** ** Concrete runs

    A clock that reads one second per event, a driver whose first two attempts
    fail, and a pool of one connection with one overflow connection. *)
Definition second_clock (n : nat) : float := of_Z (Z.of_nat n).
Definition wall_clock (n : nat) : Z := Z.of_nat n * 1000000.
Definition good_driver (n : nat) : connect_result := Connected.
Definition flaky_driver (n : nat) : connect_result := if Nat.ltb n 6 then ConnectFails "login timeout" else Connected.
Definition always (n : nat) : bool := true.
Definition no_failure (n : nat) : option string := None.

Definition small_pool : pool := __init__ second_clock wall_clock good_driver 1 1 3 (of_Z 1) (Some "s3cret").
Definition small_get (recycle : Z) : M pool (option nat) :=
  _get_connection second_clock wall_clock good_driver always always 1 1 30 recycle 3 (of_Z 1) 60 None.

(** Two threads: the first finds its connection expired and closes it; the
    second finds the queue empty and takes the lock to connect; the first connects
    in the meantime. *)
Definition two_threads : pool * list phase :=
  fold_left (take_turn second_clock wall_clock good_driver always always 1 1 (-1) 3 (of_Z 1))
    [Gets; Moves 0; Gets; Moves 1; Moves 0; Moves 1; Moves 0; Moves 1] (small_pool, []).

Example two_threads_state :
  snd two_threads = [Connecting 3 1 None Overflow; Counting 7 Replace] ∧ p_created (fst two_threads) = 1.
Proof. by vm_compute. Qed.

Example pool_capacity_witness :
  let p := fst two_threads in let l := snd two_threads in
  NoDup (known p ++ in_hands l) ∧ Z.of_nat (length (known p ++ in_hands l)) <= 1 + 1 ∧
  open_count p <= p_created p ∧ (holders l ≤ 1)%nat.
Proof.
  apply (pool_capacity second_clock wall_clock good_driver always always 1 1 (-1) 3 (of_Z 1) (Some "s3cret"));
    [lia | lia |].
  rewrite <- surjective_pairing. apply schedule_reachable. apply reach_refl.
Defined.

Example connection_returned_witness :
  let p1 := snd (small_get 3600 small_pool) in
  ∃ p', get_connection second_clock wall_clock good_driver always always 1 1 30 3600 3 (of_Z 1) 60 None
          (fun _ => raise (OtherError "query failed")) small_pool = (@Raise (option unit) (OtherError "query failed"), p') ∧
        (1%nat ∉ p_checked_out p') ∧ pool_ok 1 1 p'.
Proof.
  intros p1.
  refine (connection_returned second_clock wall_clock good_driver always always no_failure 1 1 30 3600 3 (of_Z 1) 60 None
    (fun _ => raise (OtherError "query failed")) 1%nat small_pool p1 (Raise (OtherError "query failed")) p1 _ _ _).
  - vm_compute. reflexivity.
  - reflexivity.
  - split.
    + apply (bool_decide_unpack _). vm_compute. exact I.
    + intros c Hc. assert (c = 1%nat) as -> by (apply list_elem_of_singleton; exact Hc). apply Nat.ltb_lt. vm_compute. reflexivity.
    + vm_compute. discriminate.
    + vm_compute. discriminate.
Defined.

Example connect_with_backoff_witness :
  let result := _create_connection_with_retry second_clock wall_clock flaky_driver 3 (of_Z 1) new_pool in
  fst result = Ok 7%nat ∧ p_slept (snd result) = [of_Z 1; of_Z 2] ∧
  ((∃ c k, fst result = Ok c ∧ (k < 3)%nat ∧ traced (Z.of_nat k) 1 (waits (of_Z 1) 1 k) new_pool (snd result)) ∨
   (∃ msg, fst result = Raise (ConnectionError msg) ∧ traced 3 0 (waits (of_Z 1) 1 2) new_pool (snd result))).
Proof.
  split; [vm_compute; reflexivity|]. split; [vm_compute; reflexivity|].
  exact (connect_with_backoff second_clock wall_clock flaky_driver 3 (of_Z 1) new_pool _ _ ltac:(lia)
    (surjective_pairing _)).
Defined.

Lemma small_pool_ok : pool_ok 1 1 small_pool.
Proof.
  destruct (initialize_ok second_clock wall_clock good_driver 1 1 3 (of_Z 1) (Some "s3cret"))
    as [H|H]; [lia | exact H | lia].
Qed.

(** A clock that stands still for a while and then is past the deadline. *)
Definition stopping_clock (n : nat) : float := if Nat.ltb n 100 then of_Z (Z.of_nat n) else of_Z 5000.

Example get_connection_terminates_witness :
  let got := _get_connection stopping_clock wall_clock good_driver always always 1 1 30 3600 3 (of_Z 1)
               120 None small_pool in
  match fst got with
  | Ok (Some c) => c ∈ p_checked_out (snd got) ∧ pool_ok 1 1 (snd got)
  | Ok None => False
  | Raise (TimeoutError _) | Raise (ConnectionError _) => True
  | Raise _ => False
  end.
Proof.
  intros got.
  refine (get_connection_terminates stopping_clock wall_clock good_driver always always 1 1 30 3600 3 (of_Z 1)
    120 100 None small_pool _ _ _ _ _ small_pool_ok (surjective_pairing _)).
  - intros m Hm. unfold stopping_clock at 1. apply Nat.ltb_ge in Hm. rewrite Hm. vm_compute. reflexivity.
  - lia.
  - lia.
Defined.

(** ** What the proofs showed

    A replaced connection is counted again and its predecessor never
    uncounted: the only connection of the pool expires and is replaced, and a
    second caller then waits until it times out although one of the two places
    is free. *)
Lemma replaced_connection_leaks_capacity :
  let p1 := snd (small_get 0 small_pool) in
  open_count p1 = 1 ∧ p_created p1 = 2 ∧
  match fst (small_get 0 p1) with Raise (TimeoutError _) => True | _ => False end.
Proof. vm_compute. done. Qed.

(** A connection that is handed out while the pool is closed is neither closed
    nor queued when it comes back. *)
Lemma close_all_forgets_held_connection :
  match small_get 3600 small_pool with
  | (Ok (Some c), p1) =>
      let p2 := snd (close_all always p1) in
      _return_connection second_clock always always 1 1 c p2 = (Ok tt, p2) ∧ total_closed (p_metrics p2) = 0
  | _ => False
  end.
Proof. vm_compute. done. Qed.
