(* ===== verification/StateMachines.v ===== *)
(** The state machines that decide what is allowed:
    [services/session_state_machine.py] for session statuses and
    [services/count_state_machine.py] for count lines, with the edit and view
    permissions of a count line and the handlers that read them.

    A member of an enumeration is its constructor; looking one up by its text
    can fail.  [CountLineStateMachine.transition], which writes through the
    count-line write service, is in [LineTransition]. *)

From S2P Require Import Prelude PyFloat Py Store ListStore Guard.

Local Open Scope Z_scope.
Local Open Scope stock_scope.

(** ** Sessions *)

Inductive SessionState := SOPEN | SACTIVE | SPAUSED | SRECONCILE | SCOMPLETED | SCLOSED | SCANCELLED.

#[global] Instance SessionState_eq_dec : EqDecision SessionState.
Proof. solve_decision. Defined.

Definition session_states : list (string * SessionState) := [
  ("OPEN", SOPEN); ("ACTIVE", SACTIVE); ("PAUSED", SPAUSED); ("RECONCILE", SRECONCILE);
  ("COMPLETED", SCOMPLETED); ("CLOSED", SCLOSED); ("CANCELLED", SCANCELLED)].

Definition SESSION_STATE_TRANSITIONS (s : SessionState) : list SessionState :=
  match s with
  | SOPEN => [SACTIVE; SRECONCILE; SCANCELLED; SCLOSED]
  | SACTIVE => [SPAUSED; SRECONCILE; SCOMPLETED; SCLOSED; SCANCELLED]
  | SPAUSED => [SACTIVE; SCOMPLETED; SCLOSED; SCANCELLED]
  | SRECONCILE => [SCLOSED; SCOMPLETED]
  | SCOMPLETED => [SCLOSED]
  | SCLOSED | SCANCELLED => []
  end.

Definition _normalize (value : string) : option SessionState :=
  if String.eqb value "" then None else aget (upper value) session_states.

Definition session_can_transition (current_status next_status : string) : bool :=
  match _normalize current_status, _normalize next_status with
  | Some current, Some target => bool_decide (target ∈ SESSION_STATE_TRANSITIONS current)
  | _, _ => false
  end.

(** ** Count lines *)

Inductive CountLineState := DRAFT | SUBMITTED | PENDING_APPROVAL | APPROVED | REJECTED | LOCKED.

#[global] Instance CountLineState_eq_dec : EqDecision CountLineState.
Proof. solve_decision. Defined.

Definition state_text (s : CountLineState) : string :=
  match s with
  | DRAFT => "draft" | SUBMITTED => "submitted" | PENDING_APPROVAL => "pending_approval"
  | APPROVED => "approved" | REJECTED => "rejected" | LOCKED => "locked"
  end.

(** [CountLineState(v)] *)
Definition line_state (v : val) : option CountLineState :=
  match v with
  | VStr s => aget s (map (fun st => (state_text st, st))
                        [DRAFT; SUBMITTED; PENDING_APPROVAL; APPROVED; REJECTED; LOCKED])
  | _ => None
  end.

(** The successors of a state with the roles that may move to them. *)
Definition TRANSITIONS (s : CountLineState) : list (CountLineState * list string) :=
  match s with
  | DRAFT => [(SUBMITTED, ["staff"; "supervisor"; "admin"])]
  | SUBMITTED => [(PENDING_APPROVAL, ["system"]); (DRAFT, ["supervisor"; "admin"])]
  | PENDING_APPROVAL => [(APPROVED, ["supervisor"; "admin"]); (REJECTED, ["supervisor"; "admin"])]
  | APPROVED => [(LOCKED, ["admin"]); (DRAFT, ["admin"])]
  | REJECTED => [(DRAFT, ["staff"; "supervisor"; "admin"])]
  | LOCKED => []
  end.

(** [allowed_transitions.get(next_s, [])] *)
Fixpoint required_roles (next : CountLineState) (l : list (CountLineState * list string)) : list string :=
  match l with
  | [] => []
  | (s, roles) :: l' => if decide (s = next) then roles else required_roles next l'
  end.

Definition can_transition (current_state next_state : val) (user_role : string) : bool :=
  match line_state current_state, line_state next_state with
  | Some current, Some next_s =>
      let roles := required_roles next_s (TRANSITIONS current) in
      if str_in "system" roles then true else str_in user_role roles
  | _, _ => false
  end.

Definition get_allowed_transitions (current_state : val) (user_role : string) : list string :=
  match line_state current_state with
  | None => []
  | Some current =>
      map (fun t => state_text (fst t))
        (List.filter (fun t => str_in user_role (snd t) || str_in "system" (snd t)) (TRANSITIONS current))
  end.

Definition EDIT_PERMISSIONS (s : CountLineState) : list (string * bool) :=
  match s with
  | DRAFT => [("staff", true); ("supervisor", true); ("admin", true)]
  | SUBMITTED => [("staff", false); ("supervisor", true); ("admin", true)]
  | PENDING_APPROVAL => [("staff", false); ("supervisor", false); ("admin", true)]
  | APPROVED => [("staff", false); ("supervisor", false); ("admin", true)]
  | REJECTED => [("staff", true); ("supervisor", true); ("admin", true)]
  | LOCKED => [("staff", false); ("supervisor", false); ("admin", false)]
  end.

Definition can_edit (state : val) (user_role : string) (is_owner : bool) : bool :=
  match line_state state with
  | None => false
  | Some s =>
      let can_edit_by_role := default false (aget user_role (EDIT_PERMISSIONS s)) in
      if String.eqb user_role "staff" && negb is_owner then false else can_edit_by_role
  end.

Definition can_view (user_role : string) (is_owner : bool) : bool :=
  if str_in user_role ["supervisor"; "admin"] then true
  else String.eqb user_role "staff" && is_owner.

(** ** The handlers of [CountLineStateMachine] that read *)

Section machine.
Context {C : Type} `{Mongo C}.

Definition owns_line (count_line : doc) (user_id : string) : bool :=
  py_eqb (get "counted_by" count_line) (VStr user_id) || py_eqb (get "created_by" count_line) (VStr user_id).

Definition current_status (count_line : doc) : val := dget "status" (VStr (state_text DRAFT)) count_line.

Definition line_can_edit (count_line_id user_id user_role : string) : M (world C) bool :=
  do found <- db_find_one "count_lines" (QEq "id" (VStr count_line_id)) ;;
  match found with
  | None | Some [] => ret false
  | Some count_line => ret (can_edit (current_status count_line) user_role (owns_line count_line user_id))
  end.

Definition line_can_view (count_line_id user_id user_role : string) : M (world C) bool :=
  do found <- db_find_one "count_lines" (QEq "id" (VStr count_line_id)) ;;
  match found with
  | None | Some [] => ret false
  | Some count_line => ret (can_view user_role (owns_line count_line user_id))
  end.

Definition get_allowed_actions (count_line_id user_role : string) (user_id : option string) : M (world C) doc :=
  do found <- db_find_one "count_lines" (QEq "id" (VStr count_line_id)) ;;
  match found with
  | None | Some [] =>
      ret [("can_edit", VBool false); ("can_view", VBool false); ("allowed_transitions", VList [])]
  | Some count_line =>
      let state := current_status count_line in
      let is_owner :=
        match user_id with
        | Some u => if String.eqb u "" then String.eqb user_role "staff" else owns_line count_line u
        | None => String.eqb user_role "staff"
        end in
      ret [("current_state", state); ("can_edit", VBool (can_edit state user_role is_owner));
           ("can_view", VBool (can_view user_role is_owner));
           ("allowed_transitions", VList (map VStr (get_allowed_transitions state user_role)))]
  end.
End machine.

(** ** Lemmas *)

Lemma line_state_text v s : line_state v = Some s ↔ v = VStr (state_text s).
Proof.
  split; [|intros ->; by destruct s]. destruct v as [| | | |t| | | |]; try done. unfold line_state. intros Ht.
  apply aget_In in Ht. simpl in Ht. repeat destruct Ht as [Ht|Ht]; by simplify_eq.
Qed.

Lemma required_roles_in next l r :
  NoDup (map fst l) → r ∈ required_roles next l ↔ ∃ roles, (next, roles) ∈ l ∧ r ∈ roles.
Proof.
  induction l as [|[s roles] l IH]; simpl; intros Hn.
  - split; [by intros ?%elem_of_nil | by intros (? & ?%elem_of_nil & _)].
  - apply list.NoDup_cons in Hn as [Hs Hn]. destruct (decide (s = next)) as [->|Hne].
    + split; [intros; exists roles; split; [left | done]|]. intros (roles' & [He|Hin]%elem_of_cons & Hr).
      * by simplify_eq.
      * destruct Hs. apply list_elem_of_In, in_map_iff. exists (next, roles'). split; [done | by apply list_elem_of_In].
    + rewrite (IH Hn). split; intros (roles' & Hin & Hr).
      * exists roles'. split; [by right | done].
      * apply elem_of_cons in Hin as [He|Hin]; [by simplify_eq | eauto].
Qed.

Lemma transitions_nodup s : NoDup (map fst (TRANSITIONS s)).
Proof. apply (bool_decide_unpack _). destruct s; vm_compute; exact I. Qed.

(** ** Properties *)

(** The two ways to ask agree: a state is listed among the allowed
    transitions of a count line for a role exactly when the transition check
    permits it for that role. *)
Theorem allowed_transitions_agree (current : val) (next role : string) :
  next ∈ get_allowed_transitions current role ↔ can_transition current (VStr next) role = true.
Proof.
  unfold get_allowed_transitions, can_transition.
  destruct (line_state current) as [s|]; [|split; [by intros ?%elem_of_nil | done]].
  rewrite list_elem_of_In, in_map_iff. split.
  - intros ([t roles] & <- & Hin). apply filter_In in Hin as [Hin Hr]. cbn [fst snd] in *.
    rewrite (proj2 (line_state_text _ t) eq_refl).
    assert (∀ r, str_in r roles = true → str_in r (required_roles t (TRANSITIONS s)) = true) as Hreq.
    { intros r Hrr. apply str_in_spec. apply str_in_spec in Hrr. apply required_roles_in; [apply transitions_nodup|].
      exists roles. split; [by apply list_elem_of_In | done]. }
    apply orb_true_iff in Hr as [Hr|Hr]; apply Hreq in Hr; rewrite Hr; [by case_match | done].
  - destruct (line_state (VStr next)) as [t|] eqn:Et; [|done]. apply line_state_text in Et. simplify_eq. intros Hr.
    assert (∃ r, r ∈ required_roles t (TRANSITIONS s) ∧ (r = role ∨ r = "system")) as (r & Hin & Hor).
    { destruct (str_in "system" _) eqn:E; [|clear E]; [exists "system" | exists role]; split; auto; by apply str_in_spec. }
    apply required_roles_in in Hin as (roles & Hin & Hrr); [|apply transitions_nodup].
    exists (t, roles). split; [done|]. apply filter_In. split; [by apply list_elem_of_In|]. cbn [snd].
    apply str_in_spec in Hrr. apply orb_true_iff. destruct Hor as [->| ->]; auto.
Qed.

(** Who may edit a count line: a locked line nobody; an administrator any
    other; a supervisor a line that is not pending, approved or locked; staff
    only their own line while it is a draft or rejected; other roles and unknown
    states never. *)
Theorem can_edit_spec (state : val) (role : string) (is_owner : bool) :
  can_edit state role is_owner = true ↔
  ∃ s, state = VStr (state_text s) ∧
    ((role = "admin" ∧ s ≠ LOCKED) ∨
     (role = "supervisor" ∧ s ∈ [DRAFT; SUBMITTED; REJECTED]) ∨
     (role = "staff" ∧ is_owner = true ∧ s ∈ [DRAFT; REJECTED])).
Proof.
  unfold can_edit. split.
  - destruct (line_state state) as [s|] eqn:Es; [|done]. apply line_state_text in Es as ->. intros Hc. exists s. split; [done|].
    destruct (String.eqb_spec role "staff") as [->|Hst]; cbn [andb] in Hc.
    + destruct is_owner; [|done]. right. right. destruct s; try done; split_and!; auto; first [left | right; left].
    + destruct (aget role (EDIT_PERMISSIONS s)) as [b|] eqn:E; [|done]. apply aget_In in E.
      simpl in Hc. subst b. destruct s; simpl in E; repeat destruct E as [E|E]; simplify_eq; auto;
        right; left; (split; [done|]); first [left | right; left | right; right; left].
  - intros (s & -> & Hc). rewrite (proj2 (line_state_text _ s) eq_refl).
    destruct Hc as [(-> & Hs)|[(-> & Hs)|(-> & -> & Hs)]]; destruct s; try done;
      repeat (apply elem_of_cons in Hs as [Hs|Hs]; [done|]); by apply elem_of_nil in Hs.
Qed.

(** What leads to the guarded states. *)
Lemma can_transition_text (s t : CountLineState) (role : string) :
  can_transition (VStr (state_text s)) (VStr (state_text t)) role =
    let roles := required_roles t (TRANSITIONS s) in
    if str_in "system" roles then true else str_in role roles.
Proof. unfold can_transition. by rewrite (proj2 (line_state_text _ s) eq_refl), (proj2 (line_state_text _ t) eq_refl). Qed.

Lemma can_transition_states (v w : val) role : can_transition v w role = true →
  ∃ s t, v = VStr (state_text s) ∧ w = VStr (state_text t).
Proof.
  unfold can_transition. destruct (line_state v) as [s|] eqn:E1, (line_state w) as [t|] eqn:E2; try done.
  intros _. exists s, t. by apply line_state_text in E1, E2.
Qed.

(** Separation of duties: acting alone, staff can bring a draft count line
    to draft, submitted and pending approval, and to no other state; only a
    supervisor or an administrator approves, and only a line that is pending;
    only an administrator locks, and only an approved line; a locked line never
    moves again. *)
Theorem staff_cannot_approve (s : string) (v : val) (role : string) :
  (reachable (fun a b => can_transition (VStr a) (VStr b) "staff" = true) "draft" s ↔
     s ∈ ["draft"; "submitted"; "pending_approval"]) ∧
  (can_transition v (VStr "approved") role = true ↔
     v = VStr "pending_approval" ∧ role ∈ ["supervisor"; "admin"]) ∧
  (can_transition v (VStr "locked") role = true ↔ v = VStr "approved" ∧ role = "admin") ∧
  can_transition (VStr "locked") v role = false.
Proof.
  split_and!.
  - split.
    + apply (reachable_inv _ (fun s => s ∈ ["draft"; "submitted"; "pending_approval"])); [left|].
      intros a b Ha Hab. destruct (can_transition_states _ _ _ Hab) as (x & y & Hx & Hy). simplify_eq.
      rewrite can_transition_text in Hab. cbv zeta in Hab.
      destruct x, y; try discriminate Hab; try (left || (right; left) || (right; right; left));
        apply str_in_spec in Ha; discriminate Ha.
    + assert (reachable (fun a b => can_transition (VStr a) (VStr b) "staff" = true) "draft" "submitted") as H1
        by (eapply reach_step; [apply reach_refl | done]).
      intros Hs. repeat (apply elem_of_cons in Hs as [->|Hs]); [apply reach_refl | done | | by apply elem_of_nil in Hs].
      by eapply reach_step.
  - split; [|intros [-> Hr]; by repeat (apply elem_of_cons in Hr as [->|Hr]; [done|]); apply elem_of_nil in Hr].
    intros Hc. destruct (can_transition_states _ _ _ Hc) as (x & y & -> & Hy). injection Hy as Hy.
    rewrite Hy, can_transition_text in Hc. cbv zeta in Hc. destruct y; try discriminate Hy.
    destruct x; try discriminate Hc. split; [done | by apply str_in_spec].
  - split; [|by intros [-> ->]].
    intros Hc. destruct (can_transition_states _ _ _ Hc) as (x & y & -> & Hy). injection Hy as Hy.
    rewrite Hy, can_transition_text in Hc. cbv zeta in Hc. destruct y; try discriminate Hy.
    destruct x; try discriminate Hc. split; [done|]. apply str_in_spec in Hc. by apply list_elem_of_singleton.
  - apply not_true_iff_false. intros Hc. destruct (can_transition_states _ _ _ Hc) as (x & y & Hx & ->).
    injection Hx as Hx. rewrite Hx, can_transition_text in Hc. destruct x; try discriminate Hx. by destruct y.
Qed.

(** How far a canonical session status is in the lifecycle. *)
Definition rank (canonical : string) : Z :=
  match canonical with "ACTIVE" => 1 | "REVIEW" => 2 | "FINALIZED" => 3 | _ => 0 end%string.

(** The operational session statuses respect the canonical lifecycle: a
    permitted change of status, in any letter case, never moves back in the
    canonical lifecycle of the write guard, and closed and cancelled sessions
    do not change any more. *)
Theorem session_machine_monotone (s t : string) :
  session_can_transition s t = true →
  rank (normalize_session_status (VStr s)) <= rank (normalize_session_status (VStr t)) ∧
  1 <= rank (normalize_session_status (VStr s)) ∧ upper s ∉ ["CLOSED"; "CANCELLED"].
Proof.
  unfold session_can_transition, _normalize. intros Hc.
  destruct (String.eqb_spec s ""); [done|]. destruct (aget (upper s) session_states) as [a|] eqn:Ea; [|done].
  destruct (String.eqb_spec t ""); [done|]. destruct (aget (upper t) session_states) as [b|] eqn:Eb; [|done].
  assert (∀ x c, x ≠ ""%string → aget (upper x) session_states = Some c →
    ∃ k, In (k, c) session_states ∧ upper x = k ∧ normalize_session_status (VStr x) = normalize_session_status (VStr k)) as Hn.
  { intros x c Hx Hac. apply aget_In in Hac. exists (upper x). split_and!; [done | done |].
    unfold normalize_session_status, por. simpl. apply String.eqb_neq in Hx. rewrite Hx.
    destruct (String.eqb_spec (upper x) "") as [He|]; [destruct x; done|]. simpl.
    by rewrite strip_upper, !upper_idem. }
  destruct (Hn s a) as (k1 & H1 & -> & ->); [done..|]. destruct (Hn t b) as (k2 & H2 & _ & ->); [done..|].
  simpl in H1, H2.
  repeat destruct H1 as [H1|H1]; simplify_eq; repeat destruct H2 as [H2|H2]; simplify_eq;
    first [discriminate Hc | (split_and!; [vm_compute; discriminate | vm_compute; discriminate | by rewrite <- str_in_false])].
Qed.

Example session_machine_monotone_witness :
  rank (normalize_session_status (VStr "paused")) <= rank (normalize_session_status (VStr "Completed")) ∧
  1 <= rank (normalize_session_status (VStr "paused")) ∧ upper "paused" ∉ ["CLOSED"; "CANCELLED"].
Proof. apply (session_machine_monotone "paused" "Completed"). vm_compute. reflexivity. Defined.

(** ** What the proofs showed

    The operational machine lets an active session be closed without a review,
    a change the write guard does not permit. *)
Lemma session_machine_skips_review :
  session_can_transition "ACTIVE" "CLOSED" = true ∧
  transition_allowed (normalize_session_status (VStr "ACTIVE")) (normalize_session_status (VStr "CLOSED")) = false.
Proof. vm_compute. done. Qed.
