(* ===== verification/RefreshToken.v ===== *)
(** Sign-in tokens: [auth/jwt_provider.py] and [services/refresh_token.py].

    Signing and verifying a token belong to the JWT library: [jws_encode] is
    [authlib.jose.jwt.encode] for an algorithm, a payload and a key, and
    [jws_decode] is [JsonWebToken(algorithms).decode], [None] when it raises.
    SHA-256 and the random token ids ([jti]) are parameters too.  The checks the
    provider makes of the claims, and every operation of the refresh token
    service, are written out.

    Main results: [token_stays_dead] and [one_active_token]. *)

From stdpp Require Import sets.
From S2P Require Import Prelude PyFloat Py Store ListStore Guard Uow Frame Lifecycle.

Local Open Scope Z_scope.
Local Open Scope stock_scope.

(** ** The JWT provider *)

Definition CLOCK_SKEW_LEEWAY_SECONDS : float := of_Z 30.
Definition SUPPORTED_ALGORITHMS : list string := ["HS256"; "HS384"; "HS512"].

Inductive jwt_error := ExpiredSignatureError | InvalidTokenError (msg : string).

(** [datetime.timestamp()] *)
Definition timestamp (us : Z) : float := of_ratio us 1000000.

(** [_ensure_timestamp]; the [float()] of a number may overflow. *)
Definition _ensure_timestamp (exp : val) : outcome (option float) :=
  match exp with
  | VNone => Ok None
  | VBool _ | VInt _ | VFloat _ => obind (to_float exp) (fun f => Ok (Some f))
  | VTime us => Ok (Some (timestamp us))
  | _ => match to_float exp with Ok f => Ok (Some f) | Raise _ => Ok None end
  end.

Definition _matches_audience (claim_audience : val) (expected_audience : string) : bool :=
  match claim_audience with
  | VStr a => String.eqb a expected_audience
  | VList l => existsb (fun a => py_eqb a (VStr expected_audience)) l
  | _ => false
  end.

(** The checks of the time claims; an overflow is caught like any other error. *)
Definition check_expiry (claims : doc) (now : float) : option jwt_error :=
  match aget "exp" claims with
  | None => None
  | Some exp =>
      match _ensure_timestamp exp with
      | Raise _ => Some (InvalidTokenError "int too large to convert to float")
      | Ok None => Some (InvalidTokenError "Malformed 'exp' claim")
      | Ok (Some t) => if fgt now (fadd t CLOCK_SKEW_LEEWAY_SECONDS) then Some ExpiredSignatureError else None
      end
  end.

Definition check_not_before (claims : doc) (now : float) : option jwt_error :=
  match aget "nbf" claims with
  | None => None
  | Some nbf =>
      match _ensure_timestamp nbf with
      | Raise _ => Some (InvalidTokenError "int too large to convert to float")
      | Ok None => Some (InvalidTokenError "Malformed 'nbf' claim")
      | Ok (Some t) => if flt now (fsub t CLOCK_SKEW_LEEWAY_SECONDS)
                       then Some (InvalidTokenError "Token not yet valid (nbf)") else None
      end
  end.

Section tokens.
Context (jws_encode : string → doc → string → string) (jws_decode : list string → string → string → option doc).
Context (sha256 : string → string).

Definition encode (payload : doc) (key algorithm : string) : string := jws_encode algorithm payload key.

(** [decode]; [now] is the clock it reads. *)
Definition decode (now : Z) (token key : string) (algorithms : list string) (issuer audience : option string)
  : doc + jwt_error :=
  if existsb (fun alg => negb (str_in alg SUPPORTED_ALGORITHMS)) algorithms
  then inr (InvalidTokenError "Unsupported algorithm(s)")
  else
    match jws_decode (match algorithms with [] => SUPPORTED_ALGORITHMS | _ => algorithms end) token key with
    | None => inr (InvalidTokenError "")
    | Some claims =>
        match check_expiry claims (timestamp now) with
        | Some e => inr e
        | None =>
            match check_not_before claims (timestamp now) with
            | Some e => inr e
            | None =>
                if match issuer with Some i => negb (py_eqb (get "iss" claims) (VStr i)) | None => false end
                then inr (InvalidTokenError "Invalid issuer")
                else if match audience with Some a => negb (_matches_audience (get "aud" claims) a) | None => false end
                then inr (InvalidTokenError "Invalid audience")
                else inl claims
            end
        end
    end.

(** ** The refresh token service *)

Definition _hash_token (token : string) : string := sha256 token.

Section service.
Context {C : Type} `{Mongo C}.
Context (clock : nat → Z) (refresh_secret_key access_secret_key algorithm : string).

Definition refresh_token_expiry : Z := 30 * 86400 * 1000000.
Definition access_token_expiry : Z := 15 * 60 * 1000000.

Definition access_payload (data : doc) (expire : Z) : doc :=
  aupd data [("exp", VTime expire); ("type", VStr "access"); ("iss", VStr "stk-verify-api");
             ("aud", VStr "stk-verify-client")].
Definition refresh_payload (data : doc) (expire : Z) (jti : string) : doc :=
  aupd data [("exp", VTime expire); ("type", VStr "refresh"); ("jti", VStr jti); ("iss", VStr "stk-verify-api");
             ("aud", VStr "stk-verify-client")].

Definition create_access_token (data : doc) : M (world C) string :=
  do now <- utc_now clock ;;
  ret (encode (access_payload data (now + access_token_expiry)) access_secret_key algorithm).

Definition create_refresh_token (data : doc) (jti : string) : M (world C) string :=
  do now <- utc_now clock ;;
  ret (encode (refresh_payload data (now + refresh_token_expiry) jti) refresh_secret_key algorithm).

(** An update of [refresh_tokens] that revokes. *)
Definition revocation (now : Z) (grace_period_seconds : Z) : update :=
  USet ([("revoked", VBool true); ("revoked_at", VTime now)]
        ++ if 0 <? grace_period_seconds then [("grace_until", VTime (now + grace_period_seconds * 1000000))] else []).

Definition persistence_error (msg : string) : exn := OtherError ("RefreshTokenPersistenceError: " +:+ msg).

Definition revoke_all_user_tokens (username : string) (grace_period_seconds : Z) (raise_on_error : bool) : M (world C) Z :=
  try_except
    (do now <- utc_now clock ;;
     db_update_many "refresh_tokens" (QAnd [QEq "username" (VStr username); QEq "revoked" (VBool false)])
       (revocation now grace_period_seconds))
    (fun _ => if raise_on_error then raise (persistence_error "Failed to revoke existing refresh tokens") else ret 0).

Definition cleanup_query (now : Z) : query :=
  QAnd [QOr [QExists "grace_until" false; QLte "grace_until" (VTime now)];
        QOr [QLt "expires_at" (VTime now); QEq "revoked" (VBool true)]].

Definition _cleanup_expired_tokens : M (world C) unit :=
  try_except
    (do now <- utc_now clock ;;
     do _ <- db_delete_many "refresh_tokens" (cleanup_query now) ;;
     ret tt)
    (fun _ => ret tt).

(** The optional texts of a stored token. *)
Definition given (k : string) (o : option string) : doc :=
  match o with Some s => if String.eqb s "" then [] else [(k, VStr s)] | None => [] end.

Definition token_document (token username : string) (created_at expires_at : Z)
    (ip_address user_agent device_id : option string) : doc :=
  [("token_hash", VStr (_hash_token token)); ("username", VStr username); ("created_at", VTime created_at);
   ("expires_at", VTime expires_at); ("revoked", VBool false)]
  ++ given "ip_address" ip_address ++ given "user_agent" user_agent ++ given "device_id" device_id.

Definition _store_refresh_token (token username : string) (expires_at : Z)
    (ip_address user_agent device_id : option string) : M (world C) unit :=
  try_except
    (do _ <- revoke_all_user_tokens username 10 true ;;
     do created_at <- utc_now clock ;;
     do _ <- db_insert_one "refresh_tokens"
               (token_document token username created_at expires_at ip_address user_agent device_id) ;;
     _cleanup_expired_tokens)
    (fun _ => raise (persistence_error "Failed to store refresh token")).

Definition store_refresh_token := _store_refresh_token.

Definition token_query (token : string) : query :=
  QOr [QEq "token_hash" (VStr (_hash_token token)); QEq "token" (VStr token)].
Definition active_query (token : string) (now : Z) : query :=
  QAnd [QAnd [token_query token; QEq "revoked" (VBool false)]; QGt "expires_at" (VTime now)].

Definition migration (token : string) : update := Upd [("token_hash", VStr (_hash_token token))] [] [] ["token"].

Definition migrate_token (stored_token : doc) (token : string) : M (world C) unit :=
  when (py_eqb (get "token" stored_token) (VStr token) && negb (truthy (get "token_hash" stored_token)))
    (try_except
       (do i <- lift (item "_id" stored_token) ;;
        do _ <- db_update_one "refresh_tokens" (QEq "_id" i) (migration token) ;;
        ret tt)
       (fun _ => ret tt)).

Definition verify_refresh_token (token : string) : M (world C) (option doc) :=
  do now <- utc_now clock ;;
  match decode now token refresh_secret_key [algorithm] (Some "stk-verify-api") (Some "stk-verify-client") with
  | inr _ => ret None
  | inl payload =>
      if negb (py_eqb (get "type" payload) (VStr "refresh")) then ret None
      else
        do now <- utc_now clock ;;
        do stored <- db_find_one "refresh_tokens" (active_query token now) ;;
        match stored with
        | None | Some [] => ret None
        | Some stored_token => run migrate_token stored_token token ;; ret (Some payload)
        end
  end.

Definition revoke_token (token : string) : M (world C) bool :=
  try_except
    (do now <- utc_now clock ;;
     do modified <- db_update_one "refresh_tokens" (token_query token) (revocation now 0) ;;
     ret (0 <? modified))
    (fun _ => ret false).

Record refresh_result := Refreshed {
  access_token : string;
  refresh_token : string;
  expires_in : Z;
  user_username : string;
  user_full_name : string;
  user_role : string;
}.

(** The rotation, with the payload of a verified token. *)
Definition rotate (token : string) (payload : doc) (jti : string) : M (world C) refresh_result :=
  let username := get "sub" payload in
  let role := get "role" payload in
  do user_profile <- (if truthy username then db_find_one "users" (QEq "username" username) else ret None) ;;
  do new_refresh_token <- create_refresh_token [("sub", username); ("role", role)] jti ;;
  do now <- utc_now clock ;;
  run when (truthy username)
        (store_refresh_token new_refresh_token (to_str username) (now + refresh_token_expiry) None None None) ;;
  do _ <- revoke_token token ;;
  do access <- create_access_token [("sub", username); ("role", role)] ;;
  ret (Refreshed access new_refresh_token 900
         (if truthy username then to_str username else "")
         (match user_profile with
          | None | Some [] => ""
          | Some profile => to_str (dget "full_name" (VStr "") profile)
          end)
         (if truthy role then to_str role else "")).

Definition refresh_access_token (token : string) (jti : string) : M (world C) (option refresh_result) :=
  do payload <- verify_refresh_token token ;;
  match payload with
  | None | Some [] => ret None
  | Some p => do r <- rotate token p jti ;; ret (Some r)
  end.
End service.

(** ** Tokens in the collection *)

Section laws.
Context {C : Type} `{MongoLaws C}.
Context (clock : nat → Z) (refresh_secret_key access_secret_key algorithm : string).
Implicit Types (w : world C) (P : doc → Prop).

Abbreviation store := (_store_refresh_token (C:=C) clock).
Abbreviation verify := (verify_refresh_token (C:=C) clock refresh_secret_key algorithm).
Abbreviation revoke := (revoke_token (C:=C) clock).
Abbreviation refresh := (refresh_access_token (C:=C) clock refresh_secret_key access_secret_key algorithm).
Abbreviation tokens_of w := (w_db w "refresh_tokens").

(** The fields that the service queries hold scalars. *)
Definition scalar_token (d : doc) : Prop :=
  ∀ k, k ∈ ["token_hash"; "token"; "revoked"; "username"] → is_list (get k d) = false.

(** The document is that of the token. *)
Definition names (token : string) (d : doc) : bool :=
  bson_eqb (VStr (_hash_token token)) (get "token_hash" d) || bson_eqb (VStr token) (get "token" d).
Definition active (d : doc) : bool := bson_eqb (VBool false) (get "revoked" d).
Definition active_of (username : string) (d : doc) : bool :=
  bson_eqb (VStr username) (get "username" d) && active d.

Lemma names_spec token d :
  names token d = true ↔ get "token_hash" d = VStr (_hash_token token) ∨ get "token" d = VStr token.
Proof. unfold names. rewrite orb_true_iff, !bson_eqb_str. done. Qed.

Lemma token_query_names token d : scalar_token d → matches (token_query token) d = names token d.
Proof.
  intros Hd. unfold token_query, names. rewrite matches_or. cbn [existsb].
  rewrite !matches_eq_str by (apply Hd; set_solver). by rewrite orb_false_r.
Qed.

Lemma revoked_query d b : scalar_token d → matches (QEq "revoked" (VBool b)) d = bson_eqb (VBool b) (get "revoked" d).
Proof. intros Hd. apply matches_eq; [done|]. apply Hd. set_solver. Qed.

(** *** What the updates of the service do to a document *)

Lemma revocation_keys now g : update_keys (revocation now g) ⊆ ["revoked"; "revoked_at"; "grace_until"].
Proof. unfold revocation. destruct (0 <? g); cbn; set_solver. Qed.

Lemma revocation_get now g k d :
  str_in k ["revoked"; "revoked_at"; "grace_until"] = false → get k (apply_update (revocation now g) d) = get k d.
Proof. intros Hk%str_in_false. apply get_apply_other. intros Hin. by apply Hk, (revocation_keys now g). Qed.

Lemma revocation_revokes now g d : get "revoked" (apply_update (revocation now g) d) = VBool true.
Proof.
  rewrite (get_apply_set _ _ _ (VBool true)); [by apply to_bson_plain| |by unfold revocation; destruct (0 <? g)].
  unfold revocation. destruct (0 <? g); cbn; repeat constructor; set_solver.
Qed.

Lemma revocation_scalar now g d : scalar_token d → scalar_token (apply_update (revocation now g) d).
Proof.
  intros Hd k Hk. destruct (decide (k = "revoked")) as [->|Hne]; [by rewrite revocation_revokes|].
  rewrite revocation_get by (apply str_in_false; set_solver). by apply Hd.
Qed.

Lemma revocation_names now g token d : names token (apply_update (revocation now g) d) = names token d.
Proof. unfold names. by rewrite !revocation_get. Qed.

Lemma revocation_inactive now g u d : active_of u (apply_update (revocation now g) d) = false.
Proof. unfold active_of, active. rewrite revocation_revokes. cbn. by rewrite andb_false_r. Qed.

Lemma migration_nodup token : NoDup (update_keys (migration token)).
Proof. cbn. repeat constructor; set_solver. Qed.

Lemma migration_get token k d :
  str_in k ["token_hash"; "token"] = false → get k (apply_update (migration token) d) = get k d.
Proof. intros Hk%str_in_false. by apply get_apply_other. Qed.

Lemma migration_hash token d : get "token_hash" (apply_update (migration token) d) = VStr (_hash_token token).
Proof. rewrite (get_apply_set _ _ _ (VStr (_hash_token token))); [by apply to_bson_plain|apply migration_nodup|done]. Qed.

Lemma migration_token token d : get "token" (apply_update (migration token) d) = VNone.
Proof. unfold get. rewrite apply_unset; [done|apply migration_nodup|]. cbn. set_solver. Qed.

Lemma migration_scalar token d : scalar_token d → scalar_token (apply_update (migration token) d).
Proof.
  intros Hd k Hk. destruct (decide (k = "token_hash")) as [->|]; [by rewrite migration_hash|].
  destruct (decide (k = "token")) as [->|]; [by rewrite migration_token|].
  rewrite migration_get by (apply str_in_false; set_solver). by apply Hd.
Qed.

Lemma migration_names token token' d :
  names token' (apply_update (migration token) d) = true → _hash_token token = _hash_token token'.
Proof. rewrite names_spec, migration_hash, migration_token. intros [He|He]; [|done]. by injection He as He. Qed.

Lemma migration_active token u d : active_of u (apply_update (migration token) d) = active_of u d.
Proof. unfold active_of, active. by rewrite !migration_get. Qed.

(** The document of a new token. *)
Lemma token_document_get i token u created expires ip ua dev :
  let d := bson_doc (setdefault "_id" i (token_document token u created expires ip ua dev)) in
  get "token_hash" d = VStr (_hash_token token) ∧ get "token" d = VNone ∧
  get "revoked" d = VBool false ∧ get "username" d = VStr u.
Proof.
  cbv zeta. assert (∀ k, String.eqb "_id" k = false →
    aget k (bson_doc (setdefault "_id" i (token_document token u created expires ip ua dev)))
      = to_bson <$> aget k (token_document token u created expires ip ua dev)) as He.
  { intros k Hk. rewrite aget_bson, aget_setdefault, Hk. done. }
  unfold get. rewrite !He by reflexivity. cbn -[given]. rewrite !to_bson_plain by done. split_and!; try done.
  unfold given. destruct ip as [s1|], ua as [s2|], dev as [s3|];
    repeat match goal with |- context [String.eqb ?s ""] => destruct (String.eqb s "") end; done.
Qed.

(** *** What the operations keep *)

(** [Q] survives revocations and deletions. *)
Record steady (Q : C → Prop) : Prop := {
  steady_many : ∀ q now g c, Q c → Q (snd (update_many q (revocation now g) c));
  steady_one : ∀ q now g c, Q c → Q (snd (update_one q (revocation now g) c));
  steady_delete : ∀ q c, Q c → Q (snd (delete_many q c));
}.

Lemma steady_all P : (∀ now g d, P d → P (apply_update (revocation now g) d)) → steady (all_docs P).
Proof.
  intros HP. split; intros.
  - apply all_docs_update_many; auto.
  - apply all_docs_update_one; auto.
  - by apply all_docs_delete_many.
Qed.

Lemma steady_at_most n f :
  (∀ now g d, f (apply_update (revocation now g) d) = true → f d = true) → steady (at_most n f).
Proof.
  intros Hf. split; intros.
  - apply at_most_update_many; eauto.
  - apply at_most_update_one; eauto.
  - by apply at_most_delete_many.
Qed.

Lemma steady_and (Q R : C → Prop) : steady Q → steady R → steady (fun c => Q c ∧ R c).
Proof. intros [] []. split; intros; split; naive_solver. Qed.

(** What the service may change at all. *)
Abbreviation tokens_only := (frame (C:=C) ["refresh_tokens"]).

Lemma frame_verify t : tokens_only (verify t).
Proof. unfold verify_refresh_token, migrate_token. solve_frame. Qed.

Lemma frame_store t u e ip ua dev : tokens_only (store t u e ip ua dev).
Proof. unfold _store_refresh_token, revoke_all_user_tokens, _cleanup_expired_tokens. solve_frame. Qed.

Section steady.
Context (Q : C → Prop) (HQ : steady Q).

Lemma keeps_now {A} (f : Z → M (world C) A) :
  (∀ now, keeps "refresh_tokens" Q (f now)) → keeps "refresh_tokens" Q (do now <- utc_now clock ;; f now).
Proof. intros. apply keeps_seq; [apply keeps_reads, frame_utc_now | done]. Qed.

Lemma keeps_revoke_all u g b : keeps "refresh_tokens" Q (revoke_all_user_tokens (C:=C) clock u g b).
Proof.
  apply keeps_try; [|intros; apply keeps_reads; destruct b; solve_frame].
  apply keeps_now. intros now. apply keeps_counted. intros c Hc. by apply steady_many.
Qed.

Lemma keeps_cleanup : keeps "refresh_tokens" Q (_cleanup_expired_tokens (C:=C) clock).
Proof.
  apply keeps_try; [|intros; apply keeps_reads; solve_frame].
  apply keeps_now. intros now. apply keeps_seq; [|intros; apply keeps_reads, frame_ret].
  apply keeps_counted. intros c Hc. by apply steady_delete.
Qed.

Lemma keeps_revoke token : keeps "refresh_tokens" Q (revoke token).
Proof.
  apply keeps_try; [|intros; apply keeps_reads; solve_frame].
  apply keeps_now. intros now. apply keeps_seq; [|intros; apply keeps_reads; solve_frame].
  apply keeps_counted. intros c Hc. by apply steady_one.
Qed.

Lemma keeps_migrate d token :
  (∀ q c, Q c → Q (snd (update_one q (migration token) c))) →
  keeps "refresh_tokens" Q (migrate_token (C:=C) d token).
Proof.
  intros Hm. apply keeps_when. apply keeps_try; [|intros; apply keeps_reads; solve_frame].
  apply keeps_seq; [apply keeps_reads, frame_lift|]. intros i.
  apply keeps_seq; [|intros; apply keeps_reads; solve_frame]. apply keeps_counted. auto.
Qed.

Lemma keeps_verify token :
  (∀ q c, Q c → Q (snd (update_one q (migration token) c))) → keeps "refresh_tokens" Q (verify token).
Proof.
  intros Hm. apply keeps_now. intros now. destruct (decode _ _ _ _ _ _) as [payload|]; [|apply keeps_reads, frame_ret].
  destruct (negb _); [apply keeps_reads, frame_ret|]. apply keeps_now. intros now2.
  apply keeps_seq; [apply keeps_reads, frame_find_one|]. intros [[|kv d]|]; [apply keeps_reads, frame_ret| |apply keeps_reads, frame_ret].
  apply keeps_seq; [by apply keeps_migrate|]. intros. apply keeps_reads, frame_ret.
Qed.

Lemma keeps_store token u expires ip ua dev :
  (∀ i created c c', insert_one (token_document token u created expires ip ua dev) c = Some (i, c') → Q c → Q c') →
  keeps "refresh_tokens" Q (store token u expires ip ua dev).
Proof.
  intros Hi. apply keeps_try; [|intros; apply keeps_reads, frame_raise].
  apply keeps_seq; [apply keeps_revoke_all|]. intros _. apply keeps_now. intros now.
  apply keeps_seq; [|intros _; apply keeps_cleanup]. apply keeps_insert. eauto.
Qed.
End steady.

(** *** At most one active token *)

Definition one_active (u : string) (c : C) : Prop := all_docs scalar_token c ∧ at_most 1 (active_of u) c.

Lemma steady_scalar : steady (all_docs scalar_token).
Proof. apply steady_all. intros. by apply revocation_scalar. Qed.

Lemma steady_active n u : steady (fun c => all_docs scalar_token c ∧ at_most n (active_of u) c).
Proof.
  apply steady_and; [apply steady_scalar|]. apply steady_at_most.
  intros now g d Ha. by rewrite revocation_inactive in Ha.
Qed.

Lemma migration_one_active u token q c : one_active u c → one_active u (snd (update_one q (migration token) c)).
Proof.
  intros [Hs Ha]. split; [apply all_docs_update_one; [intros; by apply migration_scalar | done]|].
  apply at_most_update_one; [|done]. intros d _ _ Hd. by rewrite migration_active in Hd.
Qed.

Lemma token_document_scalar i token u created expires ip ua dev :
  scalar_token (bson_doc (setdefault "_id" i (token_document token u created expires ip ua dev))).
Proof.
  destruct (token_document_get i token u created expires ip ua dev) as (H1 & H2 & H3 & H4).
  intros k Hk. repeat (apply elem_of_cons in Hk as [->|Hk]; [by rewrite ?H1, ?H2, ?H3, ?H4|]).
  by apply not_elem_of_nil in Hk.
Qed.

Lemma revoke_all_ok u g w n w' :
  revoke_all_user_tokens (C:=C) clock u g true w = (Ok n, w') → all_docs scalar_token (tokens_of w) →
  all_docs scalar_token (tokens_of w') ∧ at_most 0 (active_of u) (tokens_of w').
Proof.
  intros Hm Hs. split; [by eapply (keeps_run _ _ _ _ _ _ (keeps_revoke_all _ steady_scalar _ _ _))|].
  unfold revoke_all_user_tokens, try_except in Hm. destruct (bind _ _ w) as [[m|e] w1] eqn:E; [|done]. simplify_eq.
  apply bind_ok_inv in E as (now & w2 & Hnow & E). unfold utc_now in Hnow. injection Hnow as <- <-.
  apply update_many_ok in E as [_ ->]. rewrite set_coll_same. cbn [w_db tick].
  apply at_most_zero. intros d Hd. set (q := QAnd _) in Hd. set (rv := revocation _ _) in Hd.
  destruct (update_many_spec q rv (tokens_of w)) as [Hp _]. rewrite Hp in Hd.
  apply list_elem_of_fmap in Hd as (e & -> & He). destruct (matches q e) eqn:Em; [by apply revocation_inactive|].
  unfold q in Em. rewrite matches_and in Em. cbn [forallb] in Em.
  rewrite revoked_query, matches_eq_str in Em by (try apply (Hs _ He); set_solver).
  unfold active_of, active. by rewrite andb_true_r in Em.
Qed.

Lemma keeps_store_active u token u' expires ip ua dev :
  keeps "refresh_tokens" (one_active u) (store token u' expires ip ua dev).
Proof.
  destruct (decide (u = u')) as [<-|Hne].
  - apply (keeps_intro _ _ ["refresh_tokens"]); [apply frame_store | done|]. intros w r w' Hm [Hs Ha]. unfold _store_refresh_token, try_except in Hm.
    destruct (bind _ _ w) as [o w1] eqn:E. assert (one_active u (tokens_of w1)) as H1.
    { unfold bind at 1 in E. destruct (revoke_all_user_tokens _ _ _ _ w) as [[n|e] w2] eqn:Er.
      - apply revoke_all_ok in Er as [Hs2 Ha2]; [|done].
        unfold bind at 1, utc_now in E. unfold bind at 1 in E. destruct (db_insert_one _ _ _) as [[d|e] w3] eqn:Ei.
        + apply insert_one_ok in Ei as (i & c & Hi & -> & ->). cbn [w_db tick] in Hi.
          eapply (keeps_run _ _ _ _ _ _ (keeps_cleanup _ (steady_active 1 u)) E). rewrite set_coll_same. split.
          * eapply all_docs_insert; [exact Hi | apply token_document_scalar | done].
          * by eapply at_most_insert_first.
        + simplify_eq. apply insert_one_raise in Ei as ->. cbn [w_db tick]. split; [done|].
          unfold at_most in *. lia.
      - simplify_eq. by eapply (keeps_run _ _ _ _ _ _ (keeps_revoke_all _ (steady_active 1 u) _ _ _) Er). }
    destruct o; [by simplify_eq|]. unfold raise in Hm. by simplify_eq.
  - apply keeps_store; [apply steady_active|]. intros i created c c' Hi [Hs Ha]. split.
    + eapply all_docs_insert; [exact Hi | apply token_document_scalar | done].
    + eapply at_most_insert; [exact Hi | | done].
      destruct (token_document_get i token u' created expires ip ua dev) as (_ & _ & _ & Hu).
      unfold active_of. rewrite Hu. cbn. by destruct (String.eqb_spec u u').
Qed.

(** *** Sequences of calls *)

Inductive token_call :=
| Store (token username : string) (expires_at : Z) (ip_address user_agent device_id : option string)
| Verify (token : string)
| Refresh (token jti : string)
| Revoke (token : string)
| RevokeAll (username : string) (grace_period_seconds : Z) (raise_on_error : bool).

Definition run_call (c : token_call) : M (world C) unit :=
  match c with
  | Store t u expires ip ua dev => store t u expires ip ua dev
  | Verify t => do _ <- verify t ;; ret tt
  | Refresh t jti => do _ <- refresh t jti ;; ret tt
  | Revoke t => do _ <- revoke t ;; ret tt
  | RevokeAll u g b => do _ <- revoke_all_user_tokens (C:=C) clock u g b ;; ret tt
  end.
(** The world after the calls, whether or not they raise. *)
Definition run_calls (l : list token_call) (w : world C) : world C := fold_left (fun w c => snd (run_call c w)) l w.

(** Another token with the same hash. *)
Definition collides (t token : string) : Prop := t ≠ token ∧ _hash_token t = _hash_token token.

(** The call may store the hash of the token. *)
Definition issues (token : string) (c : token_call) : Prop :=
  match c with
  | Store t _ _ _ _ _ => _hash_token t = _hash_token token
  | Verify t => collides t token
  | Refresh t jti => collides t token ∨
      ∃ data expire, _hash_token (encode (refresh_payload data expire jti) refresh_secret_key algorithm) = _hash_token token
  | _ => False
  end.

Lemma keeps_discard {A} name Q (m : M (world C) A) : keeps name Q m → keeps name Q (do _ <- m ;; ret tt).
Proof. intros Hm. apply keeps_seq; [done|]. intros. apply keeps_reads, frame_ret. Qed.

Lemma keeps_run_calls Q l w :
  Forall (fun c => keeps "refresh_tokens" Q (run_call c)) l → Q (tokens_of w) → Q (tokens_of (run_calls l w)).
Proof.
  revert w. induction l as [|c l IH]; intros w Hl HQ; [done|]. apply list.Forall_cons in Hl as [Hc Hl].
  cbn [run_calls fold_left]. apply IH; [done|]. destruct (run_call c w) as [r w'] eqn:E. by eapply keeps_run.
Qed.

(** A rotation stores one new token, made by the service, and revokes. *)
Lemma keeps_rotate Q token payload jti :
  steady Q →
  (∀ data expire u expires, keeps "refresh_tokens" Q
     (store (encode (refresh_payload data expire jti) refresh_secret_key algorithm) u expires None None None)) →
  keeps "refresh_tokens" Q (rotate (C:=C) clock refresh_secret_key access_secret_key algorithm token payload jti).
Proof.
  intros HQ Hstore. unfold rotate. cbv zeta.
  apply keeps_seq; [apply keeps_reads; destruct (truthy _); solve_frame|]. intros profile.
  apply keeps_seq_ok; [apply keeps_reads; unfold create_refresh_token; solve_frame|].
  intros w new w1 Hnew. unfold create_refresh_token, bind, utc_now, ret in Hnew. injection Hnew as <- _.
  apply keeps_now. intros now. apply keeps_seq; [apply keeps_when, Hstore|]. intros _.
  apply keeps_seq; [by apply keeps_revoke|]. intros _. apply keeps_reads. unfold create_access_token. solve_frame.
Qed.

Lemma keeps_refresh Q token jti :
  steady Q → keeps "refresh_tokens" Q (verify token) →
  (∀ data expire u expires, keeps "refresh_tokens" Q
     (store (encode (refresh_payload data expire jti) refresh_secret_key algorithm) u expires None None None)) →
  keeps "refresh_tokens" Q (refresh token jti).
Proof.
  intros HQ Hv Hs. apply keeps_seq; [done|]. intros [[|kv p]|]; try (apply keeps_reads, frame_ret).
  apply keeps_seq; [by apply keeps_rotate|]. intros. apply keeps_reads, frame_ret.
Qed.

(** C30: single sign-on. Whatever calls the service serves, in any order, a user
    has at most one refresh token that is not revoked. *)
Theorem one_active_token u calls w :
  all_docs scalar_token (tokens_of w) → at_most 1 (active_of u) (tokens_of w) →
  at_most 1 (active_of u) (tokens_of (run_calls calls w)).
Proof.
  intros Hs Ha. apply (keeps_run_calls (one_active u)); [|done]. apply list.Forall_forall. intros c _.
  pose proof (steady_active 1 u) as HQ.
  assert (∀ t, keeps "refresh_tokens" (one_active u) (verify t)) as Hv
    by (intros; apply keeps_verify; intros; by apply migration_one_active).
  destruct c; cbn [run_call]; try apply keeps_discard.
  - apply keeps_store_active.
  - apply Hv.
  - apply keeps_refresh; [done|apply Hv|]. intros. apply keeps_store_active.
  - by apply keeps_revoke.
  - by apply keeps_revoke_all.
Qed.

(** *** Dead tokens *)

Definition dead_doc (token : string) (d : doc) : Prop :=
  scalar_token d ∧ (names token d = true → get "revoked" d = VBool true).

Lemma steady_dead token : steady (all_docs (dead_doc token)).
Proof.
  apply steady_all. intros now g d [Hs _]. split; [by apply revocation_scalar|]. intros _. apply revocation_revokes.
Qed.

Lemma active_query_dead token now d : dead_doc token d → matches (active_query token now) d = false.
Proof.
  intros [Hs Hd]. unfold active_query. rewrite matches_and. cbn [forallb]. rewrite matches_and. cbn [forallb].
  rewrite token_query_names, revoked_query by done. destruct (names token d); [|done]. by rewrite Hd.
Qed.

Lemma verify_dead token w :
  all_docs (dead_doc token) (tokens_of w) → ∃ w', verify token w = (Ok None, w') ∧ w_db w' = w_db w.
Proof.
  intros Hd. unfold verify_refresh_token, bind at 1, utc_now at 1. cbv beta iota.
  destruct (decode _ _ _ _ _ _) as [payload|]; [|eexists; split; reflexivity].
  destruct (negb _); [eexists; split; reflexivity|].
  unfold bind at 1, utc_now at 1, bind, db_find_one, gets. cbv beta iota.
  destruct (find_one _ _) as [d|] eqn:E; [|eexists; split; reflexivity].
  apply find_one_some in E as [Hin Hm]. cbn [w_db tick] in Hin. by rewrite active_query_dead in Hm by (by apply Hd).
Qed.

Lemma keeps_dead token c : ¬ issues token c → keeps "refresh_tokens" (all_docs (dead_doc token)) (run_call c).
Proof.
  intros Hc. pose proof (steady_dead token) as HQ.
  assert (∀ t, ¬ collides t token → keeps "refresh_tokens" (all_docs (dead_doc token)) (verify t)) as Hv.
  { intros t Ht. destruct (decide (t = token)) as [->|Hne].
    - eapply keeps_intro; [apply frame_verify | done |].
      intros w r w' Hm Hw. destruct (verify_dead token w Hw) as (w1 & He & Hdb). rewrite He in Hm. simplify_eq. by rewrite Hdb.
    - apply keeps_verify. intros q k Hk. apply all_docs_update_one; [|done]. intros d [Hs _].
      split; [by apply migration_scalar|]. intros Hn%migration_names. by destruct Ht. }
  assert (∀ t u e ip ua dev, _hash_token t ≠ _hash_token token →
    keeps "refresh_tokens" (all_docs (dead_doc token)) (store t u e ip ua dev)) as Hs.
  { intros t u e ip ua dev Hne. apply keeps_store; [done|]. intros i created k k' Hi Hk.
    eapply all_docs_insert; [exact Hi| |done]. split; [apply token_document_scalar|].
    destruct (token_document_get i t u created e ip ua dev) as (Hh & Ht & _ & _).
    rewrite names_spec, Hh, Ht. intros [He|]; [|done]. by injection He as He. }
  destruct c; cbn [run_call issues] in *; try apply keeps_discard.
  - by apply Hs.
  - by apply Hv.
  - apply keeps_refresh; [done|apply Hv; tauto|]. intros. apply Hs. intros He. apply Hc. right. by exists data, expire.
  - by apply keeps_revoke.
  - by apply keeps_revoke_all.
Qed.

(** What a rotation needs of the collection: the documents of the token are at
    most one. *)
Definition one_document (token : string) (c : C) : Prop := all_docs scalar_token c ∧ at_most 1 (names token) c.

Lemma steady_one_document token : steady (one_document token).
Proof.
  apply steady_and; [apply steady_scalar|]. apply steady_at_most. intros now g d Hd. by rewrite revocation_names in Hd.
Qed.

Lemma one_document_query token c :
  all_docs scalar_token c → at_most_one (token_query token) c → one_document token c.
Proof.
  intros Hs Hone. split; [done|]. unfold at_most, at_most_one in *. etransitivity; [|exact Hone].
  apply Nat.eq_le_incl. f_equal.
  apply (filter_same (names token) (matches (token_query token))). intros d Hd. by rewrite token_query_names by (by apply Hs).
Qed.

Lemma revoke_kills token w r w' :
  str_in "refresh_tokens" (w_guards w) = false → one_document token (tokens_of w) →
  revoke token w = (r, w') → all_docs (dead_doc token) (tokens_of w').
Proof.
  intros Hg [Hs Hone] Hm. unfold revoke_token, try_except, bind at 1, utc_now at 1 in Hm. cbv beta iota in Hm.
  set (u := revocation _ _) in Hm. erewrite bind_ok in Hm by (by apply update_one_unguarded).
  unfold ret in Hm. simplify_eq. rewrite set_coll_same. cbn [w_db tick].
  destruct (find_one (token_query token) (tokens_of w)) as [d|] eqn:Ed.
  - apply find_one_some in Ed as [Hd Hmd].
    destruct (update_one_some (token_query token) u (tokens_of w)) as (x & rest & Hx & Hmx & Hx' & _); [by exists d|].
    intros e He. rewrite Hx' in He. apply elem_of_cons in He as [->|He].
    { split; [apply revocation_scalar, Hs; rewrite Hx; left|]. intros _. apply revocation_revokes. }
    assert (e ∈ contents (tokens_of w)) as Hin by (rewrite Hx; by right). split; [by apply Hs|]. intros Hn. exfalso.
    assert (names token x = true) as Hnx by (rewrite <- token_query_names; [done|apply Hs; rewrite Hx; left]).
    unfold at_most in Hone. rewrite Hx, filter_cons, decide_True in Hone by done. cbn [length] in Hone.
    assert (e ∈ filter (fun d => names token d = true) rest) as Hf by (by apply list_elem_of_filter).
    destruct (filter _ rest); [by apply elem_of_nil in Hf | cbn [length] in Hone; lia].
  - pose proof (find_one_none _ _ Ed) as Hn. rewrite update_one_none by done. intros e He.
    split; [by apply Hs|]. intros Hne. rewrite <- token_query_names in Hne by (by apply Hs). by rewrite Hn in Hne.
Qed.

(** The ids of stored documents. *)
Definition unique_ids (c : C) : Prop :=
  (∀ i, at_most_one (QEq "_id" i) c) ∧ all_docs (fun d => ∃ o, aget "_id" d = Some (VOid o)) c.

(** The verification keeps them at most one, even when it migrates. *)
Lemma verify_one_document token w r w' :
  unique_ids (tokens_of w) → one_document token (tokens_of w) → verify token w = (r, w') →
  one_document token (tokens_of w').
Proof.
  intros [Hids Hoid] [Hs Hone] Hm. unfold verify_refresh_token, bind at 1, utc_now at 1 in Hm. cbv beta iota in Hm.
  destruct (decode _ _ _ _ _ _) as [payload|]; [|unfold ret in Hm; by simplify_eq].
  destruct (negb _); [unfold ret in Hm; by simplify_eq|].
  unfold bind at 1, utc_now at 1 in Hm. cbv beta iota in Hm.
  unfold bind at 1, db_find_one, gets in Hm. cbv beta iota in Hm.
  destruct (find_one _ _) as [d|] eqn:Ed; [|unfold ret in Hm; by simplify_eq].
  apply find_one_some in Ed as [Hd Hmd]. cbn [w_db tick] in Hd.
  assert (names token d = true) as Hn.
  { unfold active_query in Hmd. rewrite matches_and in Hmd. cbn [forallb] in Hmd. apply andb_prop in Hmd as [Hmd _].
    rewrite matches_and in Hmd. cbn [forallb] in Hmd. apply andb_prop in Hmd as [Hmd _].
    rewrite <- token_query_names; [done | by apply Hs]. }
  destruct d as [|kv d']; [unfold ret in Hm; by simplify_eq|]. set (d := kv :: d') in *.
  assert (∀ u r2 w2, migrate_token (C:=C) d token (tick (tick w)) = (r2, w2) → u = token →
    one_document token (tokens_of w2)) as Hmig.
  { intros u r2 w2 Hr2 _. unfold migrate_token, when in Hr2. destruct (_ && _); [|unfold ret in Hr2; by simplify_eq].
    destruct (Hoid d Hd) as [o Ho]. unfold try_except, item in Hr2. rewrite Ho in Hr2.
    unfold bind at 1, lift in Hr2. unfold bind at 1 in Hr2.
    destruct (db_update_one _ _ _ _) as [[n|e] w3] eqn:Eu.
    - apply update_one_ok in Eu as [_ ->]. unfold ret in Hr2. simplify_eq. rewrite set_coll_same. cbn [w_db tick].
      split; [apply all_docs_update_one; [intros; by apply migration_scalar|done]|].
      apply at_most_update_one; [|done]. intros x Hx Hmx _.
      assert (x = d) as ->; [|done]. apply (at_most_one_eq (QEq "_id" (VOid o)) (tokens_of w)); try done.
      rewrite matches_eq by (try done; by rewrite (get_some _ _ _ Ho)). rewrite (get_some _ _ _ Ho). apply String.eqb_refl.
    - unfold ret in Hr2. simplify_eq. unfold db_update_one, bind in Eu.
      destruct (_guard _ _ _) as [[[]|e'] w4] eqn:Eg; apply guard_world in Eg as ->; [|by simplify_eq].
      unfold counted in Eu. by destruct (update_one _ _ _). }
  unfold bind in Hm. destruct (migrate_token _ _ _) as [[[]|e] w2] eqn:E2; unfold ret in Hm; simplify_eq;
    by eapply (Hmig token).
Qed.

(** C29: a refresh token is good for one rotation. Once it has been exchanged
    for a new one, it buys nothing any more: after any further calls, as long as
    none stores that token, or one with its hash, every attempt to refresh with it is
    answered with nothing and writes nothing, whenever it is made. *)
Theorem token_stays_dead token jti r calls w w' :
  str_in "refresh_tokens" (w_guards w) = false →
  all_docs scalar_token (tokens_of w) → unique_ids (tokens_of w) →
  at_most_one (token_query token) (tokens_of w) →
  refresh token jti w = (Ok (Some r), w') →
  Forall (fun c => ¬ issues token c) (Refresh token jti :: calls) →
  ∀ jti2, ∃ w2, refresh token jti2 (run_calls calls w') = (Ok None, w2) ∧ w_db w2 = w_db (run_calls calls w').
Proof.
  intros Hg Hs Hids Hone Hr [Hnew Hcalls]%list.Forall_cons jti2.
  assert (all_docs (dead_doc token) (tokens_of w')) as Hdead.
  { apply bind_ok_inv in Hr as (o & w1 & Hv & Hr). destruct o as [[|kv p]|]; try (unfold ret in Hr; by simplify_eq).
    pose proof (verify_one_document _ _ _ _ Hids (one_document_query _ _ Hs Hone) Hv) as H1.
    destruct (frame_verify _ _ _ _ Hv) as (_ & _ & _ & Hg1). set (payload := kv :: p) in *.
    apply bind_ok_inv in Hr as (x & w2 & Hrot & Hr). unfold ret in Hr. simplify_eq. unfold rotate in Hrot. cbv zeta in Hrot.
    apply bind_ok_inv in Hrot as (profile & w3 & Hprofile & Hrot).
    assert (w3 = w1) as -> by (destruct (truthy _); unfold db_find_one, gets, ret in Hprofile; by simplify_eq).
    apply bind_ok_inv in Hrot as (new & w3 & Hcreate & Hrot).
    unfold create_refresh_token, bind, utc_now, ret in Hcreate. simplify_eq.
    apply bind_ok_inv in Hrot as (now & w4 & Hnow & Hrot). unfold utc_now in Hnow. injection Hnow as <- <-.
    apply bind_ok_inv in Hrot as ([] & w5 & Hstore & Hrot).
    set (new := encode _ _ _) in *.
    assert (one_document token (tokens_of w5) ∧ w_guards w5 = w_guards w1) as [H5 Hg5].
    { set (m := when _ _) in Hstore. assert (tokens_only m) as Hfm by apply frame_when, frame_store.
      destruct (Hfm _ _ _ Hstore) as (_ & _ & _ & Hgm). split; [|done].
      refine (keeps_run _ _ _ _ _ _ (keeps_when "refresh_tokens" (one_document token) _ _ _) Hstore H1).
      apply keeps_store; [apply steady_one_document|]. intros i created c c' Hi [Hsc Hoc]. split.
      - eapply all_docs_insert; [exact Hi|apply token_document_scalar|done].
      - eapply at_most_insert; [exact Hi| |done]. apply not_true_iff_false. rewrite names_spec.
        erewrite (proj1 (token_document_get i new _ created _ None None None)).
        erewrite (proj1 (proj2 (token_document_get i new _ created _ None None None))).
        intros [He|]; [|done]. injection He as He. apply Hnew.
        right. eexists _, _. exact He. }
    apply bind_ok_inv in Hrot as (b & w6 & Hrev & Hrot).
    apply revoke_kills in Hrev; [|by rewrite Hg5, Hg1|done].
    apply bind_ok_inv in Hrot as (access & w7 & Hacc & Hrot). unfold ret in Hrot.
    unfold create_access_token, bind, utc_now, ret in Hacc. simplify_eq. exact Hrev. }
  assert (all_docs (dead_doc token) (tokens_of (run_calls calls w'))) as Hd.
  { apply keeps_run_calls; [|done]. eapply list.Forall_impl; [exact Hcalls|]. intros c Hc. by apply keeps_dead. }
  destruct (verify_dead token _ Hd) as (w2 & Hv & Hdb). exists w2. split; [|done].
  unfold refresh_access_token, bind. by rewrite Hv.
Qed.
End laws.
End tokens.

(** ** Concrete tokens *)

(** A library whose tokens are their ids, and every token is Ann's. *)
Definition example_jws (algorithm : string) (payload : doc) (key : string) : string := to_str (get "jti" payload).
Definition example_claims (algorithms : list string) (token key : string) : option doc :=
  Some [("sub", VStr "ann"); ("role", VStr "staff"); ("type", VStr "refresh"); ("iss", VStr "stk-verify-api");
        ("aud", VStr "stk-verify-client")].
Definition example_token : doc :=
  [("_id", VOid "t1"); ("token_hash", VStr "old"); ("username", VStr "ann"); ("revoked", VBool false);
   ("expires_at", VTime 2000000)].
Definition token_world : world coll := mkworld [("refresh_tokens", [example_token])].
Definition example_refresh (token jti : string) (w : world coll) : outcome (option refresh_result) * world coll :=
  refresh_access_token example_jws example_claims (fun s => s) (fun _ => 1000000) "k" "k" "HS256" token jti w.

Lemma example_token_scalar : all_docs scalar_token (w_db token_world "refresh_tokens").
Proof.
  intros d [-> |Hd]%elem_of_cons; [|by apply not_elem_of_nil in Hd].
  intros k Hk. repeat (apply elem_of_cons in Hk as [->|Hk]; [done|]). by apply not_elem_of_nil in Hk.
Qed.

Lemma example_refreshes :
  match fst (example_refresh "old" "new" token_world) with Ok (Some _) => true | _ => false end = true.
Proof. vm_compute. reflexivity. Qed.

Lemma example_token_ids : unique_ids (w_db token_world "refresh_tokens").
Proof.
  split.
  - intros i. unfold at_most_one. cbn [contents ls_mongo]. etransitivity; [apply length_filter|]. done.
  - intros d [-> |Hd]%elem_of_cons; [by exists "t1" | by apply not_elem_of_nil in Hd].
Qed.

Lemma example_token_one : at_most_one (token_query (fun s => s) "old") (w_db token_world "refresh_tokens").
Proof. unfold at_most_one. vm_compute. repeat constructor. Qed.

Example token_stays_dead_witness :
  let w' := snd (example_refresh "old" "new" token_world) in
  fst (example_refresh "old" "later" w') = Ok None.
Proof.
  pose proof example_refreshes as Hok. pose proof example_token_scalar as Hscalar. pose proof example_token_ids as Hids.
  pose proof example_token_one as Hone. assert (str_in "refresh_tokens" (w_guards token_world) = false) as Hg by reflexivity.
  cbv zeta. assert (∃ w, w = token_world) as [w Hw] by eauto. rewrite <- Hw in *. clear Hw.
  destruct (example_refresh "old" "new" w) as [o w'] eqn:E. cbn [fst snd] in *.
  destruct o as [[r|]|]; try discriminate Hok.
  destruct (token_stays_dead example_jws example_claims (fun s => s) (fun _ => 1000000) "k" "k" "HS256"
    "old" "new" r [] w w' Hg Hscalar Hids Hone) with (jti2 := "later")
    as (w2 & Hw2 & _).
  - unfold example_refresh in E. exact E.
  - constructor; [|constructor]. intros [[? ?]|(data & expire & He)]; [done|]. unfold _hash_token, encode, example_jws, refresh_payload in He.
    rewrite get_aupd_in with (v := VStr "new") in He by reflexivity. discriminate He.
  - unfold example_refresh. cbn [run_calls fold_left] in Hw2. by rewrite Hw2.
Defined.

Example one_active_token_witness :
  let w := run_calls example_jws example_claims (fun s => s) (fun _ => 1000000) "k" "k" "HS256"
             [Store "t2" "ann" 3000000 None None None; Refresh "t2" "t3"; Refresh "t2" "t4"] token_world in
  at_most 1 (active_of "ann") (w_db w "refresh_tokens").
Proof.
  apply one_active_token; [apply _ | exact example_token_scalar |]. vm_compute. lia.
Defined.

(** A time claim that parses as a NaN is never in the past: the token does not
    expire. *)
Lemma nan_expiry_accepted now : check_expiry [("exp", VStr "nan")] now = None.
Proof.
  unfold check_expiry. cbn [aget String.eqb Ascii.eqb Bool.eqb]. unfold _ensure_timestamp.
  assert (to_float (VStr "nan") = Ok SpecFloat.S754_nan) as -> by (vm_compute; reflexivity).
  unfold CLOCK_SKEW_LEEWAY_SECONDS, fadd, fgt. cbn [SpecFloat.SFadd]. by destruct now as [[]|[]| |[]].
Qed.
