(* ===== verification/Redis.v ===== *)
(** The Redis server the lock manager talks to, as an interface.

    The server and its driver are not part of the repository: the class
    [Redis] has one operation per command the services issue, at the server
    time the command runs at (milliseconds), and [RedisLaws] states their
    documented effect on the live entry of each key.  A command sent through
    the driver may fail before it reaches the server or after it took effect;
    an oracle chooses.  The commands of one EVAL script run at one server time
    with nothing in between.  [RedisMap] is a concrete server with these laws. *)

From stdpp Require Import gmap.
From S2P Require Import Prelude PyFloat Py.

Local Open Scope Z_scope.
#[local] Set Warnings "-register-all".

(** A value with its time of expiry, if it has one. *)
Inductive rval := RStr (s : string) | RHash (h : gmap string string).
Definition rentry : Type := rval * option Z.

(** Times to live the services use fit easily; larger ones are not specified. *)
Definition max_ttl : Z := 2 ^ 40.

(** ** The interface *)

Class Redis (R : Type) := {
  (** the live entry of a key at a time *)
  entry : Z → R → string → option rentry;
  (** [SET key value EX n] with or without [NX]: whether it was set *)
  r_set : string → string → Z → bool → Z → M R bool;
  r_get : string → Z → M R (option string);
  r_delete : string → Z → M R Z;
  r_exists : string → Z → M R Z;
  r_expire : string → Z → Z → M R Z;
  r_ttl : string → Z → M R Z;
  r_hset : string → string → string → Z → M R Z;
  r_hgetall : string → Z → M R (gmap string string);
  (** [SCAN cursor MATCH prefix*]: the next cursor and a batch of keys *)
  r_scan : Z → string → Z → M R (Z * list string);
  (** how far a cursor is from the end of the iteration *)
  scan_rank : Z → nat;
}.

(** The entry of a key is replaced and every other one is kept. *)
Definition puts `{Redis R} (now : Z) (k : string) (e : option rentry) (s s' : R) : Prop :=
  ∀ k', entry now s' k' = if String.eqb k k' then e else entry now s k'.

Definition same_entries `{Redis R} (now : Z) (s s' : R) : Prop :=
  ∀ k, entry now s' k = entry now s k.

(** The server states of one complete iteration, with the batches returned. *)
Inductive scan_run `{Redis R} (pre : string) : Z → list (Z * R * list string) → Prop :=
| scan_last cur now s s' b : r_scan cur pre now s = (Ok (0, b), s') → scan_run pre cur [(now, s, b)]
| scan_next cur now s s' b cur' tr :
    r_scan cur pre now s = (Ok (cur', b), s') → cur' ≠ 0 → scan_run pre cur' tr →
    scan_run pre cur ((now, s, b) :: tr).

Class RedisLaws (R : Type) `{Redis R} : Prop := {
  (** time passes: an entry lives up to its expiry *)
  entry_later now t (s : R) k : now <= t →
    entry t s k = match entry now s k with
                  | Some (v, Some e) => if t <=? e then Some (v, Some e) else None
                  | o => o
                  end;
  set_rejects k v n nx now (s : R) : n <= 0 → ∃ e, r_set k v n nx now s = (Raise e, s);
  set_stores k v n nx now (s : R) :
    0 < n <= max_ttl → (nx = true → entry now s k = None) →
    ∃ s', r_set k v n nx now s = (Ok true, s') ∧ puts now k (Some (RStr v, Some (now + 1000 * n))) s s';
  set_refuses k v n now (s : R) :
    0 < n <= max_ttl → entry now s k ≠ None → r_set k v n true now s = (Ok false, s);
  get_reads k now (s : R) :
    match entry now s k with
    | None => r_get k now s = (Ok None, s)
    | Some (RStr v, _) => r_get k now s = (Ok (Some v), s)
    | Some (RHash _, _) => ∃ e, r_get k now s = (Raise e, s)
    end;
  delete_removes k now (s : R) :
    ∃ s', r_delete k now s = (Ok (match entry now s k with Some _ => 1 | None => 0 end), s') ∧
      puts now k None s s';
  exists_reads k now (s : R) :
    r_exists k now s = (Ok (match entry now s k with Some _ => 1 | None => 0 end), s);
  expire_absent k n now (s : R) : entry now s k = None → r_expire k n now s = (Ok 0, s);
  expire_sets k n now (s : R) v e :
    n <= max_ttl → entry now s k = Some (v, e) →
    ∃ s', r_expire k n now s = (Ok 1, s') ∧
      puts now k (if n <=? 0 then None else Some (v, Some (now + 1000 * n))) s s';
  ttl_reads k now (s : R) :
    r_ttl k now s = (Ok (match entry now s k with
                         | None => -2
                         | Some (_, None) => -1
                         | Some (_, Some e) => (e - now + 500) / 1000
                         end), s);
  hset_sets k f v now (s : R) h e :
    entry now s k = Some (RHash h, e) ∨ (entry now s k = None ∧ h = ∅ ∧ e = None) →
    ∃ n s', r_hset k f v now s = (Ok n, s') ∧ puts now k (Some (RHash (<[f := v]> h), e)) s s';
  hset_wrong k f v now (s : R) x e :
    entry now s k = Some (RStr x, e) → ∃ ex, r_hset k f v now s = (Raise ex, s);
  hgetall_reads k now (s : R) :
    match entry now s k with
    | None => r_hgetall k now s = (Ok ∅, s)
    | Some (RHash h, _) => r_hgetall k now s = (Ok h, s)
    | Some (RStr _, _) => ∃ e, r_hgetall k now s = (Raise e, s)
    end;
  scan_reads cur pre now (s : R) :
    ∃ cur' b, r_scan cur pre now s = (Ok (cur', b), s) ∧
      (cur' = 0 ∨ (scan_rank cur' < scan_rank cur)%nat) ∧
      Forall (fun k => startswith pre k = true) b;
  (** a key present during the whole iteration is returned *)
  scan_complete pre tr k :
    scan_run (R := R) pre 0 tr → startswith pre k = true →
    (∀ now s b, (now, s, b) ∈ tr → entry now s k ≠ None) →
    ∃ now s b, (now, s, b) ∈ tr ∧ k ∈ b;
}.

(** ** The driver *)

Inductive fault := NoFault | Lost (e : exn) | Unacknowledged (e : exn).

(** The server and the number of commands and clock readings so far. *)
Record redis_world (R : Type) := RW { rw_store : R; rw_tick : nat }.
Arguments RW {R}.
Arguments rw_store {R}.
Arguments rw_tick {R}.

Section driver.
Context {R : Type} `{Redis R}.
Context (clock : nat → Z) (faults : nat → fault).

(** A command or script [c], sent once. *)
Definition command {A} (c : Z → M R A) : M (redis_world R) A := fun w =>
  let n := rw_tick w in
  match faults n with
  | NoFault => let '(o, s') := c (clock n) (rw_store w) in (o, RW s' (S n))
  | Lost e => (Raise e, RW (rw_store w) (S n))
  | Unacknowledged e => (Raise e, RW (snd (c (clock n) (rw_store w))) (S n))
  end.

(** What is stored under a key now. *)
Definition key_entry (w : redis_world R) (k : string) : option rentry :=
  entry (clock (rw_tick w)) (rw_store w) k.
End driver.

(** ** A concrete server *)

Abbreviation RedisMap := (gmap string rentry).

Section redis_map.
Implicit Types (s : RedisMap) (k : string).

Definition live (now : Z) (r : rentry) : bool :=
  match r.2 with Some e => now <=? e | None => true end.

Definition rm_entry (now : Z) s k : option rentry :=
  match s !! k with Some r => if live now r then Some r else None | None => None end.

Definition wrong_type : exn := DriverError "WRONGTYPE".

Definition present (o : option rentry) : Z := match o with Some _ => 1 | None => 0 end.

#[global] Instance redis_map : Redis RedisMap := {
  entry := rm_entry;
  r_set k v n nx now s :=
    if n <=? 0 then (Raise (DriverError "invalid expire time"), s)
    else if nx && Z.eqb (present (rm_entry now s k)) 1 then (Ok false, s)
    else (Ok true, <[k := (RStr v, Some (now + 1000 * n))]> s);
  r_get k now s :=
    match rm_entry now s k with
    | None => (Ok None, s)
    | Some (RStr v, _) => (Ok (Some v), s)
    | Some (RHash _, _) => (Raise wrong_type, s)
    end;
  r_delete k now s := (Ok (present (rm_entry now s k)), delete k s);
  r_exists k now s := (Ok (present (rm_entry now s k)), s);
  r_expire k n now s :=
    match rm_entry now s k with
    | None => (Ok 0, s)
    | Some (v, _) =>
        (Ok 1, if n <=? 0 then delete k s else <[k := (v, Some (now + 1000 * n))]> s)
    end;
  r_ttl k now s :=
    (Ok (match rm_entry now s k with
         | None => -2
         | Some (_, None) => -1
         | Some (_, Some e) => (e - now + 500) / 1000
         end), s);
  r_hset k f v now s :=
    match rm_entry now s k with
    | None => (Ok 1, <[k := (RHash {[f := v]}, None)]> s)
    | Some (RHash h, e) => (Ok 1, <[k := (RHash (<[f := v]> h), e)]> s)
    | Some (RStr _, _) => (Raise wrong_type, s)
    end;
  r_hgetall k now s :=
    match rm_entry now s k with
    | None => (Ok ∅, s)
    | Some (RHash h, _) => (Ok h, s)
    | Some (RStr _, _) => (Raise wrong_type, s)
    end;
  r_scan cur pre now s :=
    (Ok (0, filter (fun k => startswith pre k = true ∧ rm_entry now s k ≠ None)
              (map fst (map_to_list s))), s);
  scan_rank _ := O;
}.

Lemma rm_entry_insert now s k k' r :
  live now r = true → rm_entry now (<[k := r]> s) k' = if String.eqb k k' then Some r else rm_entry now s k'.
Proof.
  intros Hl. unfold rm_entry. destruct (String.eqb_spec k k') as [->|].
  - by rewrite lookup_insert_eq, Hl.
  - by rewrite lookup_insert_ne.
Qed.

Lemma rm_entry_delete now s k k' :
  rm_entry now (delete k s) k' = if String.eqb k k' then None else rm_entry now s k'.
Proof.
  unfold rm_entry. destruct (String.eqb_spec k k') as [->|].
  - by rewrite lookup_delete_eq.
  - by rewrite lookup_delete_ne.
Qed.

Lemma rm_entry_live now s k r : rm_entry now s k = Some r → live now r = true.
Proof. unfold rm_entry. destruct (s !! k) as [r'|]; [|done]. destruct (live now r') eqn:E; congruence. Qed.

Lemma live_after now v n : 0 < n → live now (v, Some (now + 1000 * n)) = true.
Proof. intros. simpl. apply Z.leb_le. lia. Qed.

#[global] Instance redis_map_laws : RedisLaws RedisMap.
Proof.
  split; unfold puts; simpl.
  - intros now t s k Ht. unfold rm_entry, live. destruct (s !! k) as [[v [e|]]|]; simpl; try done.
    destruct (Z.leb_spec now e), (Z.leb_spec t e); try done; lia.
  - intros k v n nx now s Hn. destruct (Z.leb_spec n 0); [eauto | lia].
  - intros k v n nx now s Hn Hx. destruct (Z.leb_spec n 0); [lia|]. destruct nx; simpl.
    + rewrite Hx by done. simpl. eexists; split; [done|]. intros k'. apply rm_entry_insert, live_after. lia.
    + eexists; split; [done|]. intros k'. apply rm_entry_insert, live_after. lia.
  - intros k v n now s Hn Hx. destruct (Z.leb_spec n 0); [lia|]. by destruct (rm_entry now s k).
  - intros k now s. destruct (rm_entry now s k) as [[[]]|]; eauto.
  - intros k now s. destruct (rm_entry now s k) eqn:E; eexists; (split; [done|]);
      intros k'; apply rm_entry_delete.
  - done.
  - intros k n now s E. by rewrite E.
  - intros k n now s v e Hn E. rewrite E. destruct (Z.leb_spec n 0); eexists; (split; [done|]); intros k'.
    + apply rm_entry_delete.
    + apply rm_entry_insert, live_after. lia.
  - intros. by destruct (rm_entry now s k) as [[? [?|]]|].
  - intros k f v now s h e [E|(E & -> & ->)]; rewrite E; do 2 eexists; (split; [done|]); intros k'.
    + apply rm_entry_insert. by apply rm_entry_live in E.
    + by rewrite rm_entry_insert.
  - intros k f v now s x e E. rewrite E. eauto.
  - intros k now s. destruct (rm_entry now s k) as [[[]]|]; eauto.
  - intros cur pre now s. do 2 eexists. split; [done|]. split; [by left|].
    apply list.Forall_forall. intros k Hk%list_elem_of_filter. tauto.
  - intros pre tr k Hr Hp Hin. inversion Hr as [c now s s' b Hs | c now s s' b c' tr' Hs Hc _]; subst.
    + injection Hs as <- <-. do 3 eexists. split; [left|].
      assert (rm_entry now s k ≠ None) as He by (eapply Hin; left).
      apply list_elem_of_filter. split; [done|]. unfold rm_entry in He.
      destruct (s !! k) as [r|] eqn:E; [|done].
      apply list_elem_of_fmap. exists (k, r). split; [done|]. by apply elem_of_map_to_list.
    + by injection Hs as <- <-.
Qed.
End redis_map.
