(* ===== verification/Locks.v ===== *)
(** Distributed locks: [services/locking/redis_manager.py] (rack locks, user
    heartbeats and session locks in Redis, [LockManager]) on top of
    [services/cache/redis_connection.py], and [services/locking/mongo_service.py]
    (locks as documents of a collection, [LockService]).

    A user id is the text stored under the key of a rack.  The Lua scripts are
    translated command by command; each runs at one server time.  Keys are the
    f-strings of the code. *)

From stdpp Require Import gmap.
From S2P Require Import Prelude PyFloat Py Store ListStore Guard Redis.

Local Open Scope Z_scope.
Local Open Scope stock_scope.

Create HintDb locks.

(** ** The lock manager *)

Section manager.
Context {R : Type} `{Redis R}.
(** server clock (ms), the wall clock ([int(time.time())]) and the driver's faults *)
Context (clock wall : nat → Z) (faults : nat → fault).
Abbreviation rack_key rack := ("rack:lock:" +:+ rack).
Abbreviation heartbeat_key user := ("user:heartbeat:" +:+ user).
Abbreviation session_key sid := ("session:lock:" +:+ sid).
Abbreviation W := (redis_world R).
Abbreviation send := (command clock faults).

Definition redis_set (key value : string) (ex : Z) (nx : bool) : M W bool := send (r_set key value ex nx).
Definition redis_get (key : string) : M W (option string) := send (r_get key).
Definition redis_delete (key : string) : M W Z := send (r_delete key).
Definition redis_exists (key : string) : M W Z := send (r_exists key).
Definition redis_ttl (key : string) : M W Z := send (r_ttl key).
Definition redis_hgetall (key : string) : M W (gmap string string) := send (r_hgetall key).
Definition redis_eval (script : Z → M R Z) : M W Z := send script.
Definition redis_scan (cursor : Z) (prefix : string) : M W (Z * list string) := send (r_scan cursor prefix).

(** [int(time.time())] *)
Definition unix_time : M W Z := gets (fun w => wall (rw_tick w)).

Definition acquire_rack_lock (rack_id user_id : string) (ttl : Z) : M W bool :=
  try_except
    (do acquired <- redis_set (rack_key rack_id) user_id ttl true ;;
     if (acquired : bool) then ret true
     else do _ <- redis_get (rack_key rack_id) ;; ret false)
    (fun _ => ret false).

(** [tonumber] of the decimal text of an integer *)
Definition tonumber (s : string) : outcome Z :=
  match parse_int s with Some z => Ok z | None => Raise (DriverError "not an integer") end.

Definition _RELEASE_SCRIPT (key user_id : string) (now : Z) : M R Z :=
  do v <- r_get key now ;;
  if bool_decide (v = Some user_id) then r_delete key now else ret 0.

Definition _RENEW_SCRIPT (key user_id ttl : string) (now : Z) : M R Z :=
  do v <- r_get key now ;;
  if bool_decide (v = Some user_id)
  then do n <- lift (tonumber ttl) ;; r_expire key n now
  else ret 0.

Definition release_rack_lock (rack_id user_id : string) : M W bool :=
  try_except
    (do result <- redis_eval (_RELEASE_SCRIPT (rack_key rack_id) user_id) ;;
     if negb (result =? 0) then ret true
     else do _ <- redis_get (rack_key rack_id) ;; ret false)
    (fun _ => ret false).

Definition renew_rack_lock (rack_id user_id : string) (ttl : Z) : M W bool :=
  try_except
    (do result <- redis_eval (_RENEW_SCRIPT (rack_key rack_id) user_id (str_of_Z ttl)) ;;
     if negb (result =? 0) then ret true
     else do _ <- redis_get (rack_key rack_id) ;; ret false)
    (fun _ => ret false).

Definition get_rack_lock_owner (rack_id : string) : M W (option string) := redis_get (rack_key rack_id).
Definition get_rack_lock_ttl (rack_id : string) : M W Z := redis_ttl (rack_key rack_id).
Definition is_rack_locked (rack_id : string) : M W bool :=
  do n <- redis_exists (rack_key rack_id) ;; ret (0 <? n).

Definition update_user_heartbeat (user_id : string) (ttl : Z) : M W unit :=
  do timestamp <- unix_time ;;
  do _ <- redis_set (heartbeat_key user_id) (str_of_Z timestamp) ttl false ;;
  ret tt.

Definition get_user_heartbeat (user_id : string) : M W (option Z) :=
  do value <- redis_get (heartbeat_key user_id) ;;
  match value with
  | Some s => if String.eqb s "" then ret None
              else match parse_int s with
                   | Some z => ret (Some z)
                   | None => raise (ValueError "invalid literal for int()")
                   end
  | None => ret None
  end.

Definition is_user_active (user_id : string) : M W bool :=
  do n <- redis_exists (heartbeat_key user_id) ;; ret (0 <? n).

(** The SCAN loops: [body] handles a batch and the accumulator. *)
Fixpoint scan_loop {A} (fuel : nat) (prefix : string) (body : list string → A → M W A)
    (cursor : Z) (acc : A) : M W A :=
  match fuel with
  | O => raise (OtherError "scan did not end")
  | S fuel' =>
      do ' (cursor', batch) <- redis_scan cursor prefix ;;
      do acc' <- body batch acc ;;
      if cursor' =? 0 then ret acc' else scan_loop fuel' prefix body cursor' acc'
  end.

Definition scan_all {A} (prefix : string) (body : list string → A → M W A) (acc : A) : M W A :=
  scan_loop (S (scan_rank 0)) prefix body 0 acc.

(** [s.replace(p, "")] for a non-empty [p] *)
Fixpoint remove_all (p : string) (skip : nat) (s : string) : string :=
  match s with
  | EmptyString => EmptyString
  | String c s' =>
      match skip with
      | S n => remove_all p n s'
      | O => if startswith p s then remove_all p (String.length p - 1) s'
             else String c (remove_all p O s')
      end
  end.

Definition get_active_users : M W (list string) :=
  do keys <- scan_all "user:heartbeat:" (fun batch keys => ret (keys ++ batch)) [] ;;
  ret (map (remove_all "user:heartbeat:" 0) keys).

(** [ARGV] holds field names and values in turn. *)
Fixpoint hset_args (key : string) (args : list string) (now : Z) : M R unit :=
  match args with
  | f :: v :: args' => do _ <- r_hset key f v now ;; hset_args key args' now
  | [_] => raise (DriverError "Lua redis lib command arguments must be strings or integers")
  | [] => ret tt
  end.

Definition _SESSION_SCRIPT (key ttl : string) (args : list string) (now : Z) : M R Z :=
  do n <- r_exists key now ;;
  if n =? 1 then ret 0
  else
    run hset_args key args now ;;
    do t <- lift (tonumber ttl) ;;
    do _ <- r_expire key t now ;;
    ret 1.

Definition create_session_lock (session_id user_id rack_id : string) (ttl : Z) : M W bool :=
  do created_at <- unix_time ;;
  let args := ["user_id"; user_id; "rack_id"; rack_id; "created_at"; str_of_Z created_at] in
  try_except
    (do result <- redis_eval (_SESSION_SCRIPT (session_key session_id) (str_of_Z ttl) args) ;;
     ret (negb (result =? 0)))
    (fun _ => ret false).

Definition get_session_data (session_id : string) : M W (option (gmap string string)) :=
  do data <- redis_hgetall (session_key session_id) ;;
  ret (if decide (data = ∅) then None else Some data).

Definition delete_session (session_id : string) : M W bool :=
  do deleted <- redis_delete (session_key session_id) ;; ret (0 <? deleted).

(** [async with self.rack_lock(rack, user, ttl): body] *)
Definition rack_lock {A} (rack_id user_id : string) (ttl : Z) (body : M W A) : M W A :=
  do acquired <- acquire_rack_lock rack_id user_id ttl ;;
  if negb acquired then raise (RuntimeError ("Failed to acquire lock on rack " +:+ rack_id))
  else try_finally body (do _ <- release_rack_lock rack_id user_id ;; ret tt).

Definition cleanup_expired_locks : M W Z :=
  do keys <- scan_all "rack:lock:" (fun batch keys => ret (keys ++ batch)) [] ;;
  ret (Z.of_nat (length keys)).

Fixpoint release_batch (user_id : string) (batch : list string) (released : Z) : M W Z :=
  match batch with
  | [] => ret released
  | lock_key :: batch' =>
      do owner <- redis_get lock_key ;;
      if bool_decide (owner = Some user_id)
      then do _ <- redis_delete lock_key ;; release_batch user_id batch' (released + 1)
      else release_batch user_id batch' released
  end.

Definition force_release_all_user_locks (user_id : string) : M W Z :=
  scan_all "rack:lock:" (release_batch user_id) 0.
End manager.

(** ** Any sequence of calls *)

Inductive lock_call :=
| CAcquire (rack user : string) (ttl : Z)
| CRelease (rack user : string)
| CRenew (rack user : string) (ttl : Z)
| COwner (rack : string)
| CTtl (rack : string)
| CLocked (rack : string)
| CHeartbeat (user : string) (ttl : Z)
| CGetHeartbeat (user : string)
| CActive (user : string)
| CActiveUsers
| CSession (sid user rack : string) (ttl : Z)
| CGetSession (sid : string)
| CDeleteSession (sid : string)
| CCleanup
| CForce (user : string).

(** On whose behalf a call acts on rack locks. *)
Definition rack_user (c : lock_call) : option string :=
  match c with
  | CAcquire _ u _ | CRelease _ u | CRenew _ u _ | CForce u => Some u
  | _ => None
  end.

Definition call_ttl (c : lock_call) : Z :=
  match c with
  | CAcquire _ _ t | CRenew _ _ t | CHeartbeat _ t | CSession _ _ _ t => t
  | _ => 0
  end.

Section serve.
Context {R : Type} `{Redis R}.
Context (clock wall : nat → Z) (faults : nat → fault).
Abbreviation W := (redis_world R).

(** The state after a call; its result and its exceptions go to its caller. *)
Definition serve_lock (c : lock_call) (w : W) : W :=
  match c with
  | CAcquire r u t => snd (acquire_rack_lock clock faults r u t w)
  | CRelease r u => snd (release_rack_lock clock faults r u w)
  | CRenew r u t => snd (renew_rack_lock clock faults r u t w)
  | COwner r => snd (get_rack_lock_owner clock faults r w)
  | CTtl r => snd (get_rack_lock_ttl clock faults r w)
  | CLocked r => snd (is_rack_locked clock faults r w)
  | CHeartbeat u t => snd (update_user_heartbeat clock wall faults u t w)
  | CGetHeartbeat u => snd (get_user_heartbeat clock faults u w)
  | CActive u => snd (is_user_active clock faults u w)
  | CActiveUsers => snd (get_active_users clock faults w)
  | CSession i u r t => snd (create_session_lock clock wall faults i u r t w)
  | CGetSession i => snd (get_session_data clock faults i w)
  | CDeleteSession i => snd (delete_session clock faults i w)
  | CCleanup => snd (cleanup_expired_locks clock faults w)
  | CForce u => snd (force_release_all_user_locks clock faults u w)
  end.

Definition serve_locks (l : list lock_call) (w : W) : W := fold_left (fun w c => serve_lock c w) l w.
End serve.

(** ** What keeps an entry *)

Section keeping.
Context {R : Type} `{RedisLaws R}.
Context (clock wall : nat → Z) (faults : nat → fault).
Context (clock_mono : ∀ i j, (i ≤ j)%nat → clock i <= clock j).
(** the key and the owner and expiry stored under it *)
Context (k owner : string) (expiry : Z).
Abbreviation W := (redis_world R).
Abbreviation held := (Some (RStr owner, Some expiry)).

(** On the server: a command leaves the entry as it is. *)
Definition keeps {A} (now : Z) (m : M R A) : Prop :=
  ∀ s : R, entry now s k = held → entry now (snd (m s)) k = held.

(** At the client: as long as the entry has not expired. *)
Definition preserves {A} (m : M W A) : Prop :=
  ∀ w : W, (rw_tick w ≤ rw_tick (snd (m w)))%nat ∧
    (key_entry clock w k = held → clock (rw_tick (snd (m w))) <= expiry →
     key_entry clock (snd (m w)) k = held).

Lemma keeps_ret {A} now (a : A) : keeps now (ret a).
Proof. by intros s. Qed.

Lemma keeps_lift {A} now (o : outcome A) : keeps now (lift o).
Proof. by intros s. Qed.

Lemma keeps_raise {A} now e : keeps now (@raise R A e).
Proof. by intros s. Qed.

Lemma keeps_bind {A B} now (m : M R A) (f : A → M R B) :
  keeps now m → (∀ a, keeps now (f a)) → keeps now (bind m f).
Proof.
  intros Hm Hf s Hs. specialize (Hm s Hs). unfold bind.
  destruct (m s) as [[a|e] s1]; simpl in *; [by apply Hf | done].
Qed.

Lemma keeps_same {A} now (m : M R A) : (∀ s, snd (m s) = s) → keeps now m.
Proof. intros Hm s. by rewrite Hm. Qed.

Lemma keeps_get now k' : keeps now (r_get k' now).
Proof.
  apply keeps_same. intros s. pose proof (get_reads k' now s) as Hg.
  destruct (entry now s k') as [[[]]|]; [by rewrite Hg | by destruct Hg as [? ->] | by rewrite Hg].
Qed.

Lemma keeps_exists now k' : keeps now (r_exists k' now).
Proof. apply keeps_same. intros s. by rewrite exists_reads. Qed.

Lemma keeps_ttl now k' : keeps now (r_ttl k' now).
Proof. apply keeps_same. intros s. by rewrite ttl_reads. Qed.

Lemma keeps_hgetall now k' : keeps now (r_hgetall k' now).
Proof.
  apply keeps_same. intros s. pose proof (hgetall_reads k' now s) as Hg.
  destruct (entry now s k') as [[[]]|]; [by destruct Hg as [? ->] | by rewrite Hg | by rewrite Hg].
Qed.

Lemma keeps_scan now cur pre : keeps now (r_scan cur pre now).
Proof. apply keeps_same. intros s. by destruct (scan_reads cur pre now s) as (? & ? & -> & _). Qed.

(** Writing another key. *)
Lemma puts_other now k' e (s s' : R) :
  k' ≠ k → puts now k' e s s' → entry now s k = held → entry now s' k = held.
Proof. intros Hk Hp Hs. rewrite Hp. by destruct (String.eqb_spec k' k). Qed.

Lemma keeps_set now k' v n nx :
  n <= max_ttl → k' ≠ k ∨ nx = true → keeps now (r_set k' v n nx now).
Proof.
  intros Hn Hk s Hs. destruct (Z.le_gt_cases n 0) as [Hle|Hgt].
  { by destruct (set_rejects k' v n nx now s Hle) as [e ->]. }
  destruct (decide (nx = true ∧ entry now s k' ≠ None)) as [[-> Hp]|Hno].
  { by rewrite set_refuses. }
  destruct (set_stores k' v n nx now s) as (s' & -> & Hp); [lia | |].
  { intros ->. destruct (entry now s k'); [exfalso; by apply Hno | done]. }
  assert (k' ≠ k) as Hne.
  { intros ->. destruct Hk as [Hk| ->]; [done|]. apply Hno. by rewrite Hs. }
  by apply (puts_other _ _ _ _ _ Hne Hp).
Qed.

Lemma keeps_delete now k' : k' ≠ k → keeps now (r_delete k' now).
Proof.
  intros Hk s Hs. destruct (delete_removes k' now s) as (s' & -> & Hp).
  by apply (puts_other _ _ _ _ _ Hk Hp).
Qed.

Lemma keeps_expire now k' n : n <= max_ttl → k' ≠ k → keeps now (r_expire k' n now).
Proof.
  intros Hn Hk s Hs. destruct (entry now s k') as [[v e]|] eqn:E.
  - destruct (expire_sets k' n now s v e Hn E) as (s' & -> & Hp). by apply (puts_other _ _ _ _ _ Hk Hp).
  - by rewrite expire_absent.
Qed.

Lemma keeps_hset now k' f v : k' ≠ k → keeps now (r_hset k' f v now).
Proof.
  intros Hk s Hs. destruct (entry now s k') as [[[x|h] e]|] eqn:E.
  - by destruct (hset_wrong k' f v now s x e E) as [ex ->].
  - destruct (hset_sets k' f v now s h e) as (n & s' & -> & Hp); [by left|].
    by apply (puts_other _ _ _ _ _ Hk Hp).
  - destruct (hset_sets k' f v now s ∅ None) as (n & s' & -> & Hp); [by right|].
    by apply (puts_other _ _ _ _ _ Hk Hp).
Qed.

(** A script of another user, on any key. *)
Lemma keeps_if_owner {A} now k' user (m : M R A) n :
  user ≠ owner → (k' ≠ k → keeps now m) →
  keeps now (do v <- r_get k' now ;; if bool_decide (v = Some user) then m else ret n).
Proof.
  intros Hu Hm s Hs. destruct (String.eqb_spec k' k) as [->|Hk].
  - unfold bind. pose proof (get_reads k now s) as Hg. rewrite Hs in Hg. rewrite Hg.
    by rewrite bool_decide_eq_false_2 by congruence.
  - apply keeps_bind; [apply keeps_get | intros v | done].
    case_bool_decide; [by apply Hm | apply keeps_ret].
Qed.

Lemma preserves_ret {A} (a : A) : preserves (ret a).
Proof. intros w. split; [done | by intros]. Qed.

Lemma preserves_raise {A} e : preserves (@raise W A e).
Proof. intros w. split; [done | by intros]. Qed.

Lemma preserves_unix_time : preserves (unix_time wall).
Proof. intros w. split; [done | by intros]. Qed.

Lemma preserves_bind {A B} (m : M W A) (f : A → M W B) :
  preserves m → (∀ a, preserves (f a)) → preserves (bind m f).
Proof.
  intros Hm Hf w. unfold bind. destruct (m w) as [[a|e] w1] eqn:E; pose proof (Hm w) as Hw;
    rewrite E in Hw; simpl in Hw; [|done].
  destruct Hw as [Ht Hh]. destruct (Hf a w1) as [Ht' Hh']. split; [lia|].
  intros Hheld Hexp. apply Hh'; [|done]. apply Hh; [done|].
  pose proof (clock_mono _ _ Ht'). lia.
Qed.

Lemma preserves_try {A} (m : M W A) (h : exn → M W A) :
  preserves m → (∀ e, preserves (h e)) → preserves (try_except m h).
Proof.
  intros Hm Hf w. unfold try_except. pose proof (Hm w) as Hw.
  destruct (m w) as [[a|e] w1]; simpl in Hw; [done|].
  destruct Hw as [Ht Hh]. destruct (Hf e w1) as [Ht' Hh']. split; [lia|].
  intros Hheld Hexp. apply Hh'; [|done]. apply Hh; [done|].
  pose proof (clock_mono _ _ Ht'). lia.
Qed.

(** Whatever the driver does with a command. *)
Lemma preserves_command {A} (c : Z → M R A) :
  (∀ now, keeps now (c now)) → preserves (command clock faults c).
Proof.
  intros Hc w. unfold command, key_entry.
  pose proof (Hc (clock (rw_tick w)) (rw_store w)) as Hk.
  assert (clock (rw_tick w) <= clock (S (rw_tick w))) as Hle by (apply clock_mono; lia).
  destruct (faults (rw_tick w)) as [| |];
    [destruct (c _ _) as [o s'] eqn:E| |]; simpl in *; (split; [lia|]);
    intros Hs Hexp; rewrite (entry_later _ _ _ _ Hle), ?Hk, ?Hs by done;
    by destruct (Z.leb_spec (clock (S (rw_tick w))) expiry); [|lia].
Qed.

Lemma preserves_scan_loop {A} fuel pre (body : list string → A → M W A) cur acc :
  (∀ b a, preserves (body b a)) → preserves (scan_loop clock faults fuel pre body cur acc).
Proof.
  intros Hb. revert cur acc. induction fuel as [|fuel IH]; intros cur acc; cbn [scan_loop].
  - apply preserves_raise.
  - apply preserves_bind; [apply preserves_command; intros; apply keeps_scan|].
    intros [cur' b]. apply preserves_bind; [done|]. intros a.
    destruct (cur' =? 0); [apply preserves_ret | apply IH].
Qed.

Lemma keeps_hset_args now key args : key ≠ k → keeps now (hset_args key args now).
Proof.
  intros Hk.
  assert (∀ n args, (length args ≤ n)%nat → keeps now (hset_args key args now)) as Hn; [|by eapply Hn].
  clear args. induction n as [|n IH]; intros [|f [|v args]] Hl; simpl in *; try lia;
    try apply keeps_ret; try apply keeps_raise.
  apply keeps_bind; [by apply keeps_hset | intros _; apply IH; lia].
Qed.
End keeping.

#[export] Hint Resolve keeps_ret keeps_lift keeps_raise keeps_get keeps_exists keeps_ttl keeps_hgetall
  keeps_scan keeps_delete keeps_set keeps_expire keeps_hset keeps_hset_args : locks.
#[export] Hint Resolve preserves_ret preserves_raise preserves_unix_time preserves_command : locks.

(** ** Holding a rack lock *)

Section holding.
Context {R : Type} `{RedisLaws R}.
Context (clock wall : nat → Z) (faults : nat → fault).
Context (clock_mono : ∀ i j, (i ≤ j)%nat → clock i <= clock j).
Abbreviation W := (redis_world R).
Implicit Types (w : W).

Lemma tonumber_text t : tonumber (str_of_Z t) = Ok t.
Proof. unfold tonumber. by rewrite parse_str_of_Z. Qed.

Lemma keeps_tonumber {A} k o e now t (f : Z → M R A) :
  keeps k o e now (f t) → keeps k o e now (do n <- lift (tonumber (str_of_Z t)) ;; f n).
Proof. intros Hf s. rewrite tonumber_text. apply Hf. Qed.

(** Session keys and heartbeats are not rack locks. *)
Lemma session_not_rack a b : "session:lock:" +:+ a ≠ "rack:lock:" +:+ b.
Proof. done. Qed.

Lemma heartbeat_not_rack a b : "user:heartbeat:" +:+ a ≠ "rack:lock:" +:+ b.
Proof. done. Qed.

#[local] Hint Resolve session_not_rack heartbeat_not_rack : locks.

Context (rack owner : string) (expiry : Z).
Abbreviation keep m := (preserves clock ("rack:lock:" +:+ rack) owner expiry m).
Abbreviation keep_cmd now m := (keeps ("rack:lock:" +:+ rack) owner expiry now m).

Lemma keep_release_script key user now :
  user ≠ owner → keep_cmd now (_RELEASE_SCRIPT key user now).
Proof. intros. apply keeps_if_owner; auto with locks. Qed.

Lemma keep_renew_script key user t now :
  user ≠ owner → t <= max_ttl → keep_cmd now (_RENEW_SCRIPT key user (str_of_Z t) now).
Proof.
  intros. apply keeps_if_owner; [done|]. intros. apply keeps_tonumber. auto with locks.
Qed.

Lemma keep_session_script sid t args now :
  t <= max_ttl → keep_cmd now (_SESSION_SCRIPT ("session:lock:" +:+ sid) (str_of_Z t) args now).
Proof.
  intros. unfold _SESSION_SCRIPT. apply keeps_bind; [auto with locks|]. intros n.
  destruct (n =? 1); [auto with locks|].
  apply keeps_bind; [auto with locks | intros _]. apply keeps_tonumber.
  apply keeps_bind; auto with locks.
Qed.

Ltac keep_step :=
  first
    [ apply preserves_ret | apply preserves_raise | apply preserves_unix_time
    | apply preserves_bind; [exact clock_mono | | intros ?]
    | apply preserves_try; [exact clock_mono | | intros ?]
    | apply preserves_command; [exact clock_mono | intros ?; eauto with locks]
    | match goal with |- preserves _ _ _ _ (match ?x with _ => _ end) => destruct x end ].
Ltac keep_steps := repeat keep_step.

Lemma keep_scan_all {A} pre (body : list string → A → M W A) acc :
  (∀ b a, keep (body b a)) → keep (scan_all clock faults pre body acc).
Proof. intros. by apply preserves_scan_loop. Qed.

(** Time only moves forward in a call. *)
Definition ticks {A} (m : M W A) : Prop := ∀ w, (rw_tick w ≤ rw_tick (snd (m w)))%nat.

Lemma ticks_command {A} (c : Z → M R A) : ticks (command clock faults c).
Proof.
  intros w. unfold command. destruct (faults _); [destruct (c _ _)| |]; simpl; lia.
Qed.

Lemma ticks_bind {A B} (m : M W A) (f : A → M W B) : ticks m → (∀ a, ticks (f a)) → ticks (bind m f).
Proof.
  intros Hm Hf w. specialize (Hm w). unfold bind. destruct (m w) as [[a|e] w1]; simpl in *; [|done].
  specialize (Hf a w1). lia.
Qed.

Lemma ticks_release_batch user batch n : ticks (release_batch clock faults user batch n).
Proof.
  revert n. induction batch as [|k batch IH]; intros n; cbn [release_batch]; [by intros w|].
  apply ticks_bind; [apply ticks_command|]. intros o. case_bool_decide; [|apply IH].
  apply ticks_bind; [apply ticks_command|]. intros _. apply IH.
Qed.

(** A lock that is read as another user's is not the one held. *)
Lemma preserves_get_if {A} k user (m n : M W A) :
  user ≠ owner → (k ≠ "rack:lock:" +:+ rack → keep m) → ticks m → keep n →
  keep (do o <- redis_get clock faults k ;; if bool_decide (o = Some user) then m else n).
Proof.
  intros Hu Hm Ht Hn. destruct (String.eqb_spec k ("rack:lock:" +:+ rack)) as [->|Hk].
  - intros w. split.
    { apply ticks_bind; [apply ticks_command|]. intros o. case_bool_decide; [done|]. intros w'. apply Hn. }
    intros Hh He. revert He. unfold redis_get, command, bind, key_entry in *.
    pose proof (get_reads ("rack:lock:" +:+ rack) (clock (rw_tick w)) (rw_store w)) as Hg.
    rewrite Hh in Hg. rewrite Hg. simpl.
    assert (clock (rw_tick w) <= clock (S (rw_tick w))) as Hle by (apply clock_mono; lia).
    assert (clock (S (rw_tick w)) <= expiry →
      entry (clock (S (rw_tick w))) (rw_store w) ("rack:lock:" +:+ rack) = Some (RStr owner, Some expiry)) as Hlive.
    { intros. rewrite (entry_later _ _ _ _ Hle), Hh. by destruct (Z.leb_spec (clock (S (rw_tick w))) expiry); [|lia]. }
    destruct (faults _); simpl; [|auto..].
    rewrite bool_decide_eq_false_2 by congruence. intros He.
    apply Hn; [|done]. apply Hlive.
    destruct (Hn (RW (rw_store w) (S (rw_tick w)))) as [Hn' _]. pose proof (clock_mono _ _ Hn').
    simpl in *. lia.
  - keep_step; [keep_step|]. case_bool_decide; auto.
Qed.

Lemma keep_release_batch user batch n :
  user ≠ owner → keep (release_batch clock faults user batch n).
Proof.
  intros Hu. revert n. induction batch as [|k batch IH]; intros n; cbn [release_batch]; [keep_step|].
  apply preserves_get_if; [done | | | apply IH].
  - intros Hk. keep_step; [keep_step | apply IH].
  - apply ticks_bind; [apply ticks_command|]. intros _. apply ticks_release_batch.
Qed.

Hint Resolve keep_release_script keep_renew_script keep_session_script : locks.

(** No call of another user takes the lock away before it expires. *)
Lemma serve_keeps c :
  rack_user c ≠ Some owner → call_ttl c <= max_ttl →
  keep (fun w => (Ok tt, serve_lock clock wall faults c w)).
Proof.
  intros Hu Ht.
  assert (∀ A (m : M W A), keep m → keep (fun w => (Ok tt, snd (m w)))) as Hsnd by (intros A m Hm w; apply Hm).
  assert (∀ u, rack_user c = Some u → u ≠ owner) as Hne by congruence. clear Hu.
  destruct c; cbn [serve_lock rack_user call_ttl] in *; apply Hsnd; try specialize (Hne _ eq_refl).
  all: try solve [keep_steps].
  all: try (apply preserves_bind; [exact clock_mono | apply keep_scan_all; intros; keep_steps | intros; keep_steps]).
  apply keep_scan_all. intros. apply keep_release_batch. congruence.
Qed.
End holding.

(** ** Mutual exclusion *)

Section theorems.
Context {R : Type} `{RedisLaws R}.
Context (clock wall : nat → Z) (faults : nat → fault).
Context (clock_mono : ∀ i j, (i ≤ j)%nat → clock i <= clock j).
Abbreviation W := (redis_world R).
Implicit Types (w : W).
Abbreviation rack_key rack := ("rack:lock:" +:+ rack).
Abbreviation expires w ttl := (clock (rw_tick w) + 1000 * ttl).

Lemma clock_S w : clock (rw_tick w) <= clock (S (rw_tick w)).
Proof. apply clock_mono. lia. Qed.

(** An entry seen at one command is seen at the next unless it expired. *)
Lemma entry_next (s : R) n k v e :
  entry (clock n) s k = Some (v, Some e) → clock (S n) <= e → entry (clock (S n)) s k = Some (v, Some e).
Proof.
  intros Hs He. rewrite (entry_later (clock n)) by (apply clock_mono; lia). rewrite Hs.
  by destruct (Z.leb_spec (clock (S n)) e); [|lia].
Qed.

Lemma command_ok {A} (c : Z → M R A) w :
  faults (rw_tick w) = NoFault →
  command clock faults c w =
    (fst (c (clock (rw_tick w)) (rw_store w)),
     RW (snd (c (clock (rw_tick w)) (rw_store w))) (S (rw_tick w))).
Proof. unfold command. intros ->. by destruct (c _ _). Qed.

Lemma command_ok_inv {A} (c : Z → M R A) w a w' :
  command clock faults c w = (Ok a, w') →
  faults (rw_tick w) = NoFault ∧ c (clock (rw_tick w)) (rw_store w) = (Ok a, rw_store w') ∧
  rw_tick w' = S (rw_tick w).
Proof.
  unfold command. destruct (faults _); [|discriminate..].
  destruct (c _ _) as [o s']. intros. by simplify_eq.
Qed.

(** A command that does not change the server: its reply may be lost. *)
Lemma command_reads {A} (c : Z → M R A) w o :
  c (clock (rw_tick w)) (rw_store w) = (o, rw_store w) →
  ∃ o', command clock faults c w = (o', RW (rw_store w) (S (rw_tick w))) ∧ (o' = o ∨ ∃ e, o' = Raise e).
Proof.
  unfold command. intros Hc. destruct (faults _); rewrite ?Hc; eauto 6.
Qed.

Lemma redis_get_reads k w :
  ∃ o, redis_get clock faults k w = (o, RW (rw_store w) (S (rw_tick w))).
Proof.
  pose proof (get_reads k (clock (rw_tick w)) (rw_store w)) as Hg.
  assert (∃ o, r_get k (clock (rw_tick w)) (rw_store w) = (o, rw_store w)) as [o Ho].
  { destruct (entry _ _ _) as [[[]]|]; [eauto | destruct Hg as [? ->]; eauto | eauto]. }
  destruct (command_reads _ w o Ho) as (o' & Hc & _). eauto.
Qed.

(** The common shape of the lock operations: a command that had no effect. *)
Lemma no_effect {A} (c : Z → M R A) (test : A → bool) k w o :
  c (clock (rw_tick w)) (rw_store w) = (o, rw_store w) → (∀ a, o = Ok a → test a = false) →
  ∃ n, try_except (do a <- command clock faults c ;;
                   if test a then ret true else do _ <- redis_get clock faults k ;; ret false)
         (fun _ => ret false) w = (Ok false, RW (rw_store w) n).
Proof.
  intros Hc Ht. destruct (command_reads c w o Hc) as (o' & Hw & [-> | [e ->]]);
    unfold try_except, bind; rewrite Hw; [|by eexists].
  destruct o as [a|e]; [|by eexists]. rewrite (Ht a eq_refl).
  destruct (redis_get_reads k (RW (rw_store w) (S (rw_tick w)))) as [[] ->]; by eexists.
Qed.

Lemma acquire_true rack user ttl w w' :
  ttl <= max_ttl → acquire_rack_lock clock faults rack user ttl w = (Ok true, w') →
  0 < ttl ∧ entry (clock (rw_tick w)) (rw_store w) (rack_key rack) = None ∧
  rw_tick w' = S (rw_tick w) ∧
  entry (clock (rw_tick w)) (rw_store w') (rack_key rack) = Some (RStr user, Some (expires w ttl)).
Proof.
  intros Hmax. unfold acquire_rack_lock, try_except, redis_set, bind.
  destruct (command _ _ _ w) as [[[]|] w1] eqn:E.
  2:{ by destruct (redis_get _ _ _ w1) as [[]]. }
  2:{ done. }
  intros Hr. injection Hr as ->. apply command_ok_inv in E as (_ & Hset & Ht).
  destruct (Z.le_gt_cases ttl 0) as [Hle|Hgt].
  { destruct (set_rejects (rack_key rack) user ttl true (clock (rw_tick w)) (rw_store w) Hle) as [e He]. congruence. }
  destruct (entry (clock (rw_tick w)) (rw_store w) (rack_key rack)) as [r|] eqn:Ee.
  { rewrite set_refuses in Hset by (done || congruence). done. }
  destruct (set_stores (rack_key rack) user ttl true (clock (rw_tick w)) (rw_store w)) as (s' & Hs & Hp); [done..|].
  assert (s' = rw_store w') as -> by congruence.
  repeat split; try done. by rewrite Hp, String.eqb_refl.
Qed.

(** While an entry is there nobody acquires the lock, and the attempt leaves
    the server as it is. *)
Lemma acquire_refused rack user ttl w :
  ttl <= max_ttl → key_entry clock w (rack_key rack) ≠ None →
  fst (acquire_rack_lock clock faults rack user ttl w) = Ok false ∧
  rw_store (snd (acquire_rack_lock clock faults rack user ttl w)) = rw_store w.
Proof.
  intros Hmax He. unfold key_entry in He.
  assert (∃ o, r_set (rack_key rack) user ttl true (clock (rw_tick w)) (rw_store w) = (o, rw_store w) ∧ o ≠ Ok true)
    as (o & Ho & Hne).
  { destruct (Z.le_gt_cases ttl 0) as [Hle|Hgt].
    - destruct (set_rejects (rack_key rack) user ttl true (clock (rw_tick w)) (rw_store w) Hle) as [e ->]. by eexists.
    - rewrite set_refuses by done. by eexists. }
  destruct (no_effect (r_set (rack_key rack) user ttl true) (fun a => a) (rack_key rack) w o Ho) as [n Hn].
  { intros [] ->; [done | done]. }
  unfold acquire_rack_lock, redis_set. by rewrite Hn.
Qed.

(** C25: once a user has acquired a rack lock, no sequence of calls made on
    behalf of other users (acquisitions, releases, renewals, forced releases,
    heartbeats, session locks, with any driver failures) ends the ownership or
    lets anybody acquire the rack before the lease expires. *)
Theorem rack_lock_exclusive rack user ttl calls w w1 :
  ttl <= max_ttl →
  acquire_rack_lock clock faults rack user ttl w = (Ok true, w1) →
  Forall (fun c => rack_user c ≠ Some user ∧ call_ttl c <= max_ttl) calls →
  let w2 := serve_locks clock wall faults calls w1 in
  clock (rw_tick w2) <= expires w ttl →
  key_entry clock w2 (rack_key rack) = Some (RStr user, Some (expires w ttl)) ∧
  ∀ user' ttl', ttl' <= max_ttl → fst (acquire_rack_lock clock faults rack user' ttl' w2) = Ok false.
Proof.
  intros Hmax Ha Hcalls w2 Hexp. apply acquire_true in Ha as (_ & _ & Ht & He); [|done].
  assert (preserves clock (rack_key rack) user (expires w ttl)
            (fun v => (Ok tt, serve_locks clock wall faults calls v))) as Hp.
  { clear -Hcalls clock_mono H0. induction Hcalls as [|c calls [Hc Ht] _ IH]; [by apply preserves_ret|].
    apply (preserves_bind clock clock_mono _ _ _ (fun v => (Ok tt, serve_lock clock wall faults c v))
             (fun _ v => (Ok tt, serve_locks clock wall faults calls v)));
      [by apply serve_keeps | done]. }
  destruct (Hp w1) as [Hmono Hheld]. simpl in Hmono, Hheld. fold w2 in Hmono, Hheld.
  assert (key_entry clock w2 (rack_key rack) = Some (RStr user, Some (expires w ttl))) as Hkey.
  { apply Hheld; [|done]. unfold key_entry. rewrite Ht. apply entry_next; [done|].
    pose proof (clock_mono _ _ Hmono). rewrite <- Ht. lia. }
  split; [done|]. intros user' ttl' Ht'. apply acquire_refused; [done|]. by rewrite Hkey.
Qed.

(** Releasing with the owner's id removes the lock. *)
Lemma release_owner rack user e w :
  faults (rw_tick w) = NoFault → key_entry clock w (rack_key rack) = Some (RStr user, e) →
  ∃ w', release_rack_lock clock faults rack user w = (Ok true, w') ∧
    key_entry clock w' (rack_key rack) = None.
Proof.
  intros Hf He. unfold release_rack_lock, try_except, redis_eval, bind.
  rewrite (command_ok _ w Hf). unfold _RELEASE_SCRIPT at 1 3, bind. unfold key_entry in He.
  pose proof (get_reads (rack_key rack) (clock (rw_tick w)) (rw_store w)) as Hg.
  rewrite He in Hg. rewrite Hg, bool_decide_eq_true_2 by done.
  destruct (delete_removes (rack_key rack) (clock (rw_tick w)) (rw_store w)) as (s' & Hd & Hp).
  rewrite He in Hd. rewrite Hd. simpl.
  unfold _RELEASE_SCRIPT, bind. rewrite Hg, bool_decide_eq_true_2 by done. rewrite Hd. simpl.
  eexists. split; [done|]. unfold key_entry. simpl.
  rewrite (entry_later (clock (rw_tick w))) by apply clock_S. by rewrite Hp, String.eqb_refl.
Qed.

(** Nobody else can release or renew it. *)
Lemma release_other rack user owner e w :
  user ≠ owner → key_entry clock w (rack_key rack) = Some (RStr owner, e) →
  fst (release_rack_lock clock faults rack user w) = Ok false ∧
  rw_store (snd (release_rack_lock clock faults rack user w)) = rw_store w.
Proof.
  intros Hu He. unfold key_entry in He.
  assert (_RELEASE_SCRIPT (rack_key rack) user (clock (rw_tick w)) (rw_store w) = (Ok 0, rw_store w)) as Hs.
  { unfold _RELEASE_SCRIPT, bind. pose proof (get_reads (rack_key rack) (clock (rw_tick w)) (rw_store w)) as Hg.
    rewrite He in Hg. rewrite Hg. by rewrite bool_decide_eq_false_2 by congruence. }
  destruct (no_effect (_RELEASE_SCRIPT (rack_key rack) user) (fun a => negb (a =? 0)) (rack_key rack) w _ Hs) as [n Hn].
  { by intros a [= <-]. }
  unfold release_rack_lock, redis_eval. by rewrite Hn.
Qed.

(** The lock is held through the body, whatever the body does with other keys,
    and given back with its result. *)
Theorem rack_lock_spec {A} rack user ttl (body : M W A) w :
  ttl <= max_ttl → preserves clock (rack_key rack) user (expires w ttl) body →
  match acquire_rack_lock clock faults rack user ttl w with
  | (Ok true, w1) =>
      let '(o, w2) := body w1 in
      faults (rw_tick w2) = NoFault → clock (rw_tick w2) <= expires w ttl →
      ∃ w3, rack_lock clock faults rack user ttl body w = (o, w3) ∧
        key_entry clock w2 (rack_key rack) = Some (RStr user, Some (expires w ttl)) ∧
        key_entry clock w3 (rack_key rack) = None
  | (_, w1) => ∃ msg, rack_lock clock faults rack user ttl body w = (Raise (RuntimeError msg), w1)
  end.
Proof.
  intros Hmax Hbody. unfold rack_lock, bind.
  destruct (acquire_rack_lock clock faults rack user ttl w) as [[[]|e] w1] eqn:Ha; cbn [negb].
  2:{ by eexists. }
  2:{ unfold acquire_rack_lock, try_except in Ha. by destruct (bind _ _ w) as [[]]; simplify_eq. }
  apply acquire_true in Ha as (_ & _ & Ht & He); [|done]. pose proof (Hbody w1) as [Hmono Hheld].
  unfold try_finally. destruct (body w1) as [o w2]. simpl in Hmono, Hheld. intros Hf Hexp.
  assert (key_entry clock w2 (rack_key rack) = Some (RStr user, Some (expires w ttl))) as Hkey.
  { apply Hheld; [|done]. unfold key_entry. rewrite Ht. apply entry_next; [done|].
    pose proof (clock_mono _ _ Hmono). rewrite <- Ht. lia. }
  destruct (release_owner rack user _ w2 Hf Hkey) as (w3 & Hr & Hnone). rewrite Hr. simpl. eauto.
Qed.

(** ** Heartbeats and session locks *)

(** The text of a timestamp is read back as the timestamp. *)
Theorem heartbeat_roundtrip user ttl w :
  0 < ttl <= max_ttl → faults (rw_tick w) = NoFault → faults (S (rw_tick w)) = NoFault →
  clock (S (rw_tick w)) <= expires w ttl →
  fst ((run update_user_heartbeat clock wall faults user ttl ;; get_user_heartbeat clock faults user) w)
    = Ok (Some (wall (rw_tick w))).
Proof.
  intros Httl Hf1 Hf2 Hexp. unfold update_user_heartbeat, unix_time, gets, redis_set, bind. cbn beta iota.
  rewrite (command_ok _ w Hf1).
  destruct (set_stores ("user:heartbeat:" +:+ user) (str_of_Z (wall (rw_tick w))) ttl false
              (clock (rw_tick w)) (rw_store w)) as (s' & Hs & Hp); [done..|].
  rewrite Hs. unfold get_user_heartbeat, redis_get, ret, bind. cbn [fst snd].
  rewrite command_ok by done. cbn [rw_tick rw_store].
  pose proof (get_reads ("user:heartbeat:" +:+ user) (clock (S (rw_tick w))) s') as Hg.
  rewrite (entry_next s' _ _ (RStr (str_of_Z (wall (rw_tick w)))) (expires w ttl)) in Hg;
    [|by rewrite Hp, String.eqb_refl | done].
  rewrite Hg. cbn [fst snd]. by rewrite str_of_Z_nonempty, parse_str_of_Z.
Qed.

Definition session_data (user_id rack_id : string) (created_at : Z) : gmap string string :=
  <["created_at" := str_of_Z created_at]> (<["rack_id" := rack_id]> (<["user_id" := user_id]> ∅)).

(** A script that creates: the hash with all its fields and its expiry. *)
Lemma session_script_creates key ttl user rack t now (s : R) :
  0 < ttl <= max_ttl → entry now s key = None →
  ∃ s', _SESSION_SCRIPT key (str_of_Z ttl) ["user_id"; user; "rack_id"; rack; "created_at"; str_of_Z t] now s
          = (Ok 1, s') ∧
    puts now key (Some (RHash (session_data user rack t), Some (now + 1000 * ttl))) s s'.
Proof.
  intros Httl He. unfold _SESSION_SCRIPT, bind. rewrite exists_reads, He. cbn [Z.eqb hset_args].
  destruct (hset_sets key "user_id" user now s ∅ None) as (n1 & s1 & H1 & Hp1); [by right|].
  assert (entry now s1 key = Some (RHash (<["user_id" := user]> ∅), None)) as E1 by (by rewrite Hp1, String.eqb_refl).
  destruct (hset_sets key "rack_id" rack now s1 _ None (or_introl E1)) as (n2 & s2 & H2 & Hp2).
  assert (entry now s2 key = Some (RHash (<["rack_id" := rack]> (<["user_id" := user]> ∅)), None)) as E2
    by (by rewrite Hp2, String.eqb_refl).
  destruct (hset_sets key "created_at" (str_of_Z t) now s2 _ None (or_introl E2)) as (n3 & s3 & H3 & Hp3).
  assert (entry now s3 key = Some (RHash (session_data user rack t), None)) as E3 by (by rewrite Hp3, String.eqb_refl).
  destruct (expire_sets key ttl now s3 _ None (proj2 Httl) E3) as (s4 & H4 & Hp4).
  unfold bind. rewrite H1, H2, H3. cbn [ret]. rewrite tonumber_text. cbn [lift]. rewrite H4.
  exists s4. split; [done|]. intros k. rewrite Hp4, Hp3, Hp2, Hp1.
  destruct (Z.leb_spec ttl 0); [lia|]. by destruct (String.eqb_spec key k).
Qed.

(** A session lock that was created is read back with exactly the fields it
    was given (the creation time as the decimal text of the timestamp), and every
    further creation for the session is refused, until the lock expires. *)
Theorem session_lock_roundtrip sid user rack ttl w w1 :
  0 < ttl <= max_ttl →
  create_session_lock clock wall faults sid user rack ttl w = (Ok true, w1) →
  faults (rw_tick w1) = NoFault → clock (rw_tick w1) <= expires w ttl →
  fst (get_session_data clock faults sid w1) = Ok (Some (session_data user rack (wall (rw_tick w)))) ∧
  ∀ user' rack' ttl', fst (create_session_lock clock wall faults sid user' rack' ttl' w1) = Ok false.
Proof.
  intros Httl Hc Hf Hexp.
  assert (key_entry clock w1 ("session:lock:" +:+ sid) =
    Some (RHash (session_data user rack (wall (rw_tick w))), Some (expires w ttl))) as Hkey.
  { revert Hc. unfold create_session_lock, unix_time, gets, try_except, redis_eval, bind. cbn beta iota.
    destruct (command _ _ _ w) as [[r|e] v] eqn:E; [|by intros]. unfold ret. intros Hr. simplify_eq.
    apply command_ok_inv in E as (_ & Hs & Ht). unfold key_entry. rewrite Ht in Hexp |- *.
    destruct (entry (clock (rw_tick w)) (rw_store w) ("session:lock:" +:+ sid)) as [en|] eqn:Ee.
    { unfold _SESSION_SCRIPT, bind in Hs. rewrite exists_reads, Ee in Hs. cbn in Hs. unfold ret in Hs. injection Hs as <- _. done. }
    destruct (session_script_creates ("session:lock:" +:+ sid) ttl user rack (wall (rw_tick w))
                (clock (rw_tick w)) (rw_store w) Httl Ee) as (s' & Hs' & Hp).
    assert (s' = rw_store w1) as -> by congruence.
    apply entry_next; [|done]. by rewrite Hp, String.eqb_refl. }
  unfold key_entry in Hkey. split.
  - unfold get_session_data, redis_hgetall, bind. rewrite (command_ok _ w1 Hf).
    pose proof (hgetall_reads ("session:lock:" +:+ sid) (clock (rw_tick w1)) (rw_store w1)) as Hg.
    rewrite Hkey in Hg. rewrite Hg. cbn [fst snd ret]. rewrite decide_False; [done|].
    apply insert_non_empty.
  - intros user' rack' ttl'. unfold create_session_lock, unix_time, gets, try_except, redis_eval, bind. cbn beta iota.
    rewrite (command_ok _ w1 Hf).
    unfold _SESSION_SCRIPT, bind. rewrite exists_reads, Hkey. done.
Qed.
End theorems.

(** ** Forced release *)

Section force.
Context {R : Type} `{RedisLaws R}.
Context (clock : nat → Z) (faults : nat → fault).
Context (clock_mono : ∀ i j, (i ≤ j)%nat → clock i <= clock j).
Context (no_faults : ∀ n, faults n = NoFault).
Abbreviation W := (redis_world R).
Implicit Types (w : W).

(** Nothing is stored later that was not there before. *)
Definition shrinks w w' : Prop := ∀ k r, key_entry clock w' k = Some r → key_entry clock w k = Some r.

Definition no_rack_hash w : Prop :=
  ∀ k h e, startswith "rack:lock:" k = true → key_entry clock w k ≠ Some (RHash h, e).

Lemma shrinks_trans w w1 w2 : shrinks w w1 → shrinks w1 w2 → shrinks w w2.
Proof. unfold shrinks. auto. Qed.

Lemma no_rack_hash_shrinks w w' : shrinks w w' → no_rack_hash w → no_rack_hash w'.
Proof. intros Hs Hn k h e Hk He. by apply (Hn k h e Hk), Hs. Qed.

(** What is left of the entries a step later. *)
Lemma later_shrinks (s : R) n k r : entry (clock (S n)) s k = Some r → entry (clock n) s k = Some r.
Proof.
  rewrite (entry_later (clock n) (clock (S n))) by (apply clock_mono; lia).
  destruct (entry (clock n) s k) as [[v [e|]]|]; [|done..].
  by destruct (clock (S n) <=? e).
Qed.

Definition owned w user k : Prop := ∃ e, key_entry clock w k = Some (RStr user, e).

Lemma owned_shrinks w w' user k : shrinks w w' → owned w' user k → owned w user k.
Proof. intros Hs [e He]. exists e. auto. Qed.

Lemma get_next k w :
  startswith "rack:lock:" k = true → no_rack_hash w →
  ∃ o, redis_get clock faults k w = (Ok o, RW (rw_store w) (S (rw_tick w))) ∧
    ∀ user, owned w user k → o = Some user.
Proof.
  intros Hk Hn. unfold redis_get. rewrite command_ok by auto.
  pose proof (get_reads k (clock (rw_tick w)) (rw_store w)) as Hg. unfold owned, key_entry in *.
  destruct (entry _ _ k) as [[[v|h] e]|] eqn:E.
  - rewrite Hg. eexists. split; [done|]. intros user [e' He']. by simplify_eq.
  - by destruct (Hn k h e Hk).
  - rewrite Hg. eexists. split; [done|]. by intros user [e' He'].
Qed.

Lemma delete_next k w :
  ∃ n w', redis_delete clock faults k w = (Ok n, w') ∧ shrinks w w' ∧ ∀ user, ¬ owned w' user k.
Proof.
  unfold redis_delete. rewrite command_ok by auto.
  destruct (delete_removes k (clock (rw_tick w)) (rw_store w)) as (s' & -> & Hp).
  do 2 eexists. split; [done|]. unfold shrinks, owned, key_entry. simpl. split.
  - intros k' r Hr%later_shrinks. rewrite Hp in Hr. by destruct (String.eqb k k').
  - intros user [e He%later_shrinks]. rewrite Hp, String.eqb_refl in He. done.
Qed.

Lemma release_batch_ok user batch n w :
  Forall (fun k => startswith "rack:lock:" k = true) batch → no_rack_hash w →
  ∃ m w', release_batch clock faults user batch n w = (Ok m, w') ∧ shrinks w w' ∧
    ∀ k, k ∈ batch → ¬ owned w' user k.
Proof.
  intros Hb. revert n w. induction Hb as [|k batch Hk _ IH]; intros n w Hn.
  { exists n, w. split; [done|]. split; [by intros k r|]. intros k Hk. by apply elem_of_nil in Hk. }
  destruct (get_next k w Hk Hn) as (o & Hget & Ho). cbn [release_batch]. unfold bind at 1. rewrite Hget.
  assert (shrinks w (RW (rw_store w) (S (rw_tick w)))) as Hs1 by (intros k' r; apply later_shrinks).
  set (w1 := RW _ _) in *.
  assert (∃ m w2, (if bool_decide (o = Some user)
      then do _ <- redis_delete clock faults k ;; release_batch clock faults user batch (n + 1)
      else release_batch clock faults user batch n) w1 = release_batch clock faults user batch m w2 ∧
      shrinks w1 w2 ∧ ¬ owned w2 user k) as (m & w2 & Heq & Hs2 & Hno).
  { case_bool_decide as Hu.
    - destruct (delete_next k w1) as (d & w2 & Hd & Hs & Hno). exists (n + 1), w2.
      unfold bind. rewrite Hd. auto.
    - exists n, w1. split; [done|]. split; [by intros k1 r1|]. intros Hown. apply Hu, Ho. by apply (owned_shrinks w w1). }
  rewrite Heq. assert (shrinks w w2) as Hs by (by apply (shrinks_trans _ w1)).
  destruct (IH m w2) as (m' & w' & Hr & Hs' & Hall); [by apply (no_rack_hash_shrinks w)|].
  exists m', w'. split; [done|]. split; [by apply (shrinks_trans _ w2)|].
  intros k' [->|Hk']%elem_of_cons; [|auto]. intros Hown. apply Hno. by apply (owned_shrinks w2 w').
Qed.

(** The SCAN loop ends, and its batches are a complete iteration. *)
Lemma release_scan_ok user fuel cur n w :
  (scan_rank cur < fuel)%nat → no_rack_hash w →
  ∃ m w' tr, scan_loop clock faults fuel "rack:lock:" (release_batch clock faults user) cur n w = (Ok m, w') ∧
    shrinks w w' ∧ scan_run (R := R) "rack:lock:" cur tr ∧
    ∀ now s b, (now, s, b) ∈ tr →
      (∀ k r, key_entry clock w' k = Some r → entry now s k = Some r) ∧
      (∀ k, k ∈ b → ¬ owned w' user k).
Proof.
  revert cur n w. induction fuel as [|fuel IH]; intros cur n w Hf Hn; [lia|].
  cbn [scan_loop]. unfold redis_scan, bind. rewrite command_ok by auto.
  destruct (scan_reads cur "rack:lock:" (clock (rw_tick w)) (rw_store w)) as (cur' & b & Hscan & Hrank & Hb).
  rewrite Hscan. cbn [fst snd].
  assert (shrinks w (RW (rw_store w) (S (rw_tick w)))) as Hs1 by (intros k' r; apply later_shrinks).
  set (w1 := RW _ _) in *.
  destruct (release_batch_ok user b n w1 Hb) as (m & w2 & -> & Hs2 & Hno); [by apply (no_rack_hash_shrinks w)|].
  assert (shrinks w w2) as Hs by (by apply (shrinks_trans _ w1)).
  assert (∀ w', shrinks w2 w' → ∀ k r, key_entry clock w' k = Some r →
    entry (clock (rw_tick w)) (rw_store w) k = Some r) as Hfirst by (intros w' Hw k r Hr; by apply Hs, Hw).
  destruct (Z.eqb_spec cur' 0) as [->|Hc].
  - exists m, w2, [(clock (rw_tick w), rw_store w, b)]. split; [done|]. split; [done|].
    split; [by eapply scan_last|]. intros now s b' Hin. apply list_elem_of_singleton in Hin as [= -> -> ->].
    split; [by apply (Hfirst w2); intros ?? | done].
  - destruct Hrank as [?|Hrank]; [done|].
    destruct (IH cur' m w2) as (m' & w' & tr & Hr & Hs' & Hrun & Htr); [lia | by apply (no_rack_hash_shrinks w)|].
    exists m', w', ((clock (rw_tick w), rw_store w, b) :: tr). split; [done|].
    split; [by apply (shrinks_trans _ w2)|]. split; [by eapply scan_next|].
    intros now s b' [[= -> -> ->]|Hin]%elem_of_cons; [|by apply Htr].
    split; [by apply (Hfirst w')|]. intros k Hk Hown. apply (Hno k Hk). by apply (owned_shrinks w2 w').
Qed.

(** When the driver works, releasing by force ends, and afterwards the user
    holds no rack lock. *)
Theorem force_release_complete user w :
  no_rack_hash w →
  ∃ m w', force_release_all_user_locks clock faults user w = (Ok m, w') ∧ shrinks w w' ∧
    ∀ rack, ¬ owned w' user ("rack:lock:" +:+ rack).
Proof.
  intros Hn. destruct (release_scan_ok user (S (scan_rank 0)) 0 0 w) as (m & w' & tr & Hr & Hs & Hrun & Htr);
    [lia | done |].
  exists m, w'. split; [done|]. split; [done|]. intros rack Hown. pose proof Hown as [e He].
  destruct (scan_complete "rack:lock:" tr ("rack:lock:" +:+ rack) Hrun) as (now & s & b & Hin & Hk).
  - by destruct rack.
  - intros now s b Hin. destruct (Htr now s b Hin) as [Hpres _]. by rewrite (Hpres _ _ He).
  - by apply (proj2 (Htr now s b Hin) _ Hk).
Qed.
End force.

(** ** Locks as documents *)

Definition DEFAULT_LOCK_TTL : Z := 30.

Section lock_service.
Context {C : Type} `{Mongo C}.
Context (clock : nat → Z).

(** [except DuplicateKeyError] *)
Definition is_duplicate (e : exn) : bool :=
  match e with DriverError s => startswith "E11000" s | _ => false end.

(** [v < now] *)
Definition before_now (v : val) (now : Z) : outcome bool :=
  match v with
  | VTime t => Ok (t <? now)
  | _ => Raise (TypeError "'<' not supported between instances")
  end.

Definition lock_document (key owner : string) (created expires_at : Z) : doc :=
  [("_id", VStr key); ("owner", VStr owner); ("created_at", VTime created); ("expires_at", VTime expires_at)].

Definition held_lock (key owner : string) : M (world C) bool :=
  do existing_lock <- db_find_one "locks" (QEq "_id" (VStr key)) ;;
  do ours <- match existing_lock with
             | None => ret false
             | Some l =>
                 do expires <- lift (item "expires_at" l) ;;
                 do now <- utc_now clock ;;
                 do stale <- lift (before_now expires now) ;;
                 run when stale
                   (do _ <- db_delete_one "locks" (QAnd [QEq "_id" (VStr key); QEq "expires_at" expires]) ;; ret tt) ;;
                 ret (py_eqb (get "owner" l) (VStr owner))
             end ;;
  if (ours : bool) then ret true
  else raise (ResourceLockedError ("Resource " +:+ key +:+ " is currently locked.")).

Definition acquire_lock (key owner : string) (ttl_seconds : Z) : M (world C) bool :=
  do now <- utc_now clock ;;
  let expires_at := now + ttl_seconds * 1000000 in
  try_except
    (do created <- utc_now clock ;;
     do _ <- db_insert_one "locks" (lock_document key owner created expires_at) ;;
     ret true)
    (fun e => if is_duplicate e then held_lock key owner else raise e).

(** The count only goes to the log. *)
Definition release_lock (key owner : string) : M (world C) unit :=
  do _ <- db_delete_one "locks" (QAnd [QEq "_id" (VStr key); QEq "owner" (VStr owner)]) ;; ret tt.
End lock_service.

Section lock_service_spec.
Context {C : Type} `{MongoLaws C}.
Context (clock : nat → Z).
Implicit Types (w : world C) (c : C).

(** The lock document of a key, as the service writes it. *)
Definition lock_is (c : C) (key owner : string) (expires : Z) : Prop :=
  at_most_one (QEq "_id" (VStr key)) c ∧
  ∃ d, find_one (QEq "_id" (VStr key)) c = Some d ∧ get "_id" d = VStr key ∧
    get "owner" d = VStr owner ∧ aget "expires_at" d = Some (VTime expires).

Definition lock_free (c : C) (key : string) : Prop := find_one (QEq "_id" (VStr key)) c = None.

(** Ids are strings: nothing else is stored under one. *)
Definition lock_ids (c : C) : Prop := ∀ d, d ∈ contents c → ∃ k, get "_id" d = VStr k.

Lemma locks_unguarded w meth : str_in "locks" (w_guards w) = false → _guard "locks" meth w = (Ok tt, w).
Proof. intros Hg. apply guard_allowed; [done|]. unfold refused. by rewrite Hg. Qed.

(** What acquiring does to a free lock and to one that is held. *)
Definition acquire_result (key owner : string) (ttl : Z) w : Prop :=
  let now := clock (w_tick w) in
  let check := clock (S (S (w_tick w))) in
  let expires := (now + ttl * 1000000) - (now + ttl * 1000000) mod 1000 in
  let '(o, w') := acquire_lock clock key owner ttl w in
  let c := w_db w "locks" in let c' := w_db w' "locks" in
  (lock_free c key → o = Ok true ∧ lock_is c' key owner expires) ∧
  (∀ holder e, lock_is c key holder e →
     (o = (if String.eqb holder owner then Ok true
           else Raise (ResourceLockedError ("Resource " +:+ key +:+ " is currently locked.")))) ∧
     if e <? check then lock_free c' key else c' = c).

Lemma id_matches key d : get "_id" d = VStr key → matches (QEq "_id" (VStr key)) d = true.
Proof. intros Hd. rewrite matches_eq by (by rewrite ?Hd). rewrite Hd. apply String.eqb_refl. Qed.

(** Inserting where no document has the id. *)
Lemma insert_lock key owner created e c :
  lock_free c key →
  ∃ i c', insert_one (lock_document key owner created e) c = Some (i, c') ∧
    lock_is c' key owner (e - e mod 1000).
Proof.
  intros Hfree. pose proof (find_one_none _ _ Hfree) as Hno.
  destruct (insert_one (lock_document key owner created e) c) as [[i c']|] eqn:E.
  - exists i, c'. split; [done|]. apply insert_one_spec in E as [Hc _].
    set (d := bson_doc (lock_document key owner created e)) in *.
    change (setdefault "_id" i (lock_document key owner created e)) with (lock_document key owner created e) in Hc.
    fold d in Hc.
    assert (get "_id" d = VStr key) as Hid by (by apply get_bson_str).
    assert (at_most_one (QEq "_id" (VStr key)) c') as Hone.
    { unfold at_most_one. rewrite Hc, filter_cons_True by (by apply id_matches).
      pose proof (proj2 (count_zero (QEq "_id" (VStr key)) c) Hno) as Hz. rewrite count_spec in Hz.
      simpl. lia. }
    split; [done|]. exists d. split; [|split; [done|split]].
    + apply find_one_unique; [done | rewrite Hc; left | by apply id_matches].
    + by apply get_bson_str.
    + unfold d. rewrite aget_bson. cbn. by rewrite to_bson_time.
  - apply insert_one_dup in E as (d' & Hd' & Hid & _). exfalso.
    rewrite aget_bson in Hid. cbn in Hid. rewrite to_bson_plain in Hid by done.
    pose proof (Hno d' Hd') as Hm. rewrite id_matches in Hm; [done|]. by apply get_some.
Qed.

Lemma duplicate_lock key owner created e c :
  ¬ lock_free c key → lock_ids c → insert_one (lock_document key owner created e) c = None.
Proof.
  intros Hheld Hids. destruct (find_one (QEq "_id" (VStr key)) c) as [d|] eqn:Ef; [|done].
  apply find_one_some in Ef as [Hd Hm]. apply (insert_one_unique _ _ (VStr key)); [done|].
  exists d. split; [done|]. destruct (Hids d Hd) as [k Hk]. rewrite to_bson_plain by done.
  pose proof (matches_text "_id" key d _ Hk eq_refl Hm) as Hkey.
  revert Hk. injection Hkey as ->. unfold get. destruct (aget "_id" d) as [v|]; simpl; [congruence | done].
Qed.
(** Deleting through the id and another condition the lock satisfies. *)
Lemma delete_lock key c q d :
  at_most_one (QEq "_id" (VStr key)) c → find_one (QEq "_id" (VStr key)) c = Some d → matches q d = true →
  lock_free (snd (delete_one (QAnd [QEq "_id" (VStr key); q]) c)) key.
Proof.
  intros Hone Hf Hq. apply find_one_some in Hf as [Hd Hm].
  destruct (delete_one_some (QAnd [QEq "_id" (VStr key); q]) c) as (x & rest & Hc & Hx & Hc' & _).
  { exists d. split; [done|]. rewrite matches_and. simpl. by rewrite Hm, Hq. }
  rewrite matches_and in Hx. simpl in Hx. bool_hyps. unfold lock_free.
  destruct (find_one _ _) as [y|] eqn:E; [|done]. apply find_one_some in E as [Hy Hmy].
  rewrite Hc' in Hy. by rewrite (at_most_one_rest _ c x rest Hone Hc ltac:(done) y Hy) in Hmy.
Qed.

Lemma time_matches k t d : get k d = VTime t → matches (QEq k (VTime t)) d = true.
Proof. intros Hd. rewrite matches_eq by (by rewrite ?Hd). rewrite Hd. apply Z.eqb_refl. Qed.

Lemma held_lock_result key owner holder e w :
  str_in "locks" (w_guards w) = false → lock_is (w_db w "locks") key holder e →
  ∃ w', held_lock clock key owner w =
      (if String.eqb holder owner then Ok true
       else Raise (ResourceLockedError ("Resource " +:+ key +:+ " is currently locked.")), w') ∧
    if e <? clock (w_tick w) then lock_free (w_db w' "locks") key
    else w_db w' "locks" = w_db w "locks".
Proof.
  intros Hg (Hone & d & Hf & _ & Hown & He).
  unfold held_lock, db_find_one, gets. unfold bind at 1. rewrite Hf. unfold bind at 1.
  unfold item. rewrite He. cbn [lift]. unfold utc_now, bind at 1 2 3. cbn [lift before_now ret].
  rewrite Hown. cbn [py_eqb].
  destruct (e <? clock (w_tick w)); cbn [when].
  - unfold db_delete_one, counted, bind. rewrite locks_unguarded by done. cbn beta iota.
    pose proof (delete_lock key (w_db w "locks") (QEq "expires_at" (VTime e)) d Hone Hf) as Hfree.
    cbn [w_db tick]. destruct (delete_one _ (w_db w "locks")) as [n c'].
    eexists. split; [by destruct (String.eqb holder owner)|]. cbn. rewrite fn_lookup_insert.
    apply Hfree. apply time_matches. by apply get_some.
  - unfold bind, ret. eexists. split; [by destruct (String.eqb holder owner)|]. done.
Qed.

(** Acquiring a document lock: a free lock is taken for the whole lease (to
    the millisecond); a lock found under another owner is refused, under the
    same owner it is reported as held; the collection changes only when the
    lease found had run out, and then the document is gone. *)
Theorem acquire_lock_cases key owner ttl w :
  str_in "locks" (w_guards w) = false → lock_ids (w_db w "locks") → acquire_result key owner ttl w.
Proof.
  intros Hg Hids. unfold acquire_result. cbv zeta.
  unfold acquire_lock, utc_now, try_except, bind at 1 2 3, db_insert_one. cbn beta iota.
  unfold bind at 1. rewrite locks_unguarded by done. cbn beta iota. cbn [w_db tick w_tick].
  set (created := clock (S (w_tick w))). set (e := clock (w_tick w) + ttl * 1000000).
  destruct (find_one (QEq "_id" (VStr key)) (w_db w "locks")) as [l|] eqn:Ef.
  - rewrite duplicate_lock by (done || (unfold lock_free; congruence)).
    cbn beta iota. change (is_duplicate _) with true. cbn beta iota.
    destruct (held_lock clock key owner (tick (tick w))) as [o w'] eqn:Eh.
    split; [unfold lock_free; congruence|]. intros holder x Hlock.
    destruct (held_lock_result key owner holder x (tick (tick w)) Hg Hlock) as (w2 & Hh & Hafter).
    rewrite Eh in Hh. by simplify_eq.
  - destruct (insert_lock key owner created e (w_db w "locks") Ef) as (i & c' & -> & Hl).
    cbn. rewrite fn_lookup_insert. split; [done|]. intros holder x (_ & d & Hd & _). congruence.
Qed.
End lock_service_spec.

(** Releasing touches only the owner's document. *)
Section release_lock.
Context {C : Type} `{MongoLaws C}.

Lemma release_lock_other key owner holder e (w : world C) :
  str_in "locks" (w_guards w) = false → holder ≠ owner → lock_is (w_db w "locks") key holder e →
  ∃ w', release_lock key owner w = (Ok tt, w') ∧ w_db w' "locks" = w_db w "locks".
Proof.
  intros Hg Hne (Hone & d & Hf & _ & Hown & _).
  unfold release_lock, db_delete_one, counted, bind. rewrite locks_unguarded by done. cbn beta iota.
  rewrite delete_one_none; [eexists; split; [done|]; cbn; by rewrite fn_lookup_insert|].
  intros x Hx. rewrite matches_and. simpl. destruct (matches (QEq "_id" (VStr key)) x) eqn:E; [|done].
  apply find_one_some in Hf as [Hd Hm].
  rewrite (at_most_one_eq _ _ x d Hone Hx Hd E Hm). rewrite matches_eq by (by rewrite ?Hown). rewrite Hown.
  simpl. rewrite andb_true_r. apply String.eqb_neq. congruence.
Qed.

Lemma release_lock_owner key owner e (w : world C) :
  str_in "locks" (w_guards w) = false → lock_is (w_db w "locks") key owner e →
  ∃ w', release_lock key owner w = (Ok tt, w') ∧ lock_free (w_db w' "locks") key.
Proof.
  intros Hg (Hone & d & Hf & _ & Hown & _).
  unfold release_lock, db_delete_one, counted, bind. rewrite locks_unguarded by done. cbn beta iota.
  pose proof (delete_lock key (w_db w "locks") (QEq "owner" (VStr owner)) d Hone Hf) as Hfree.
  destruct (delete_one _ (w_db w "locks")) as [n c']. eexists. split; [done|]. cbn.
  rewrite fn_lookup_insert. apply Hfree. rewrite matches_eq by (by rewrite ?Hown). rewrite Hown. apply String.eqb_refl.
Qed.
End release_lock.

(** ** Concrete runs *)

Definition second_clock (n : nat) : Z := Z.of_nat n * 1000.
Definition quiet (n : nat) : fault := NoFault.
Definition empty_server : redis_world RedisMap := RW ∅ 0.
Definition others_calls : list lock_call :=
  [CAcquire "R1" "bob" 60; CRelease "R1" "bob"; CForce "bob"; CHeartbeat "bob" 90; CRenew "R1" "bob" 5].

Lemma second_clock_mono i j : (i ≤ j)%nat → second_clock i <= second_clock j.
Proof. unfold second_clock. lia. Qed.

Lemma rack_lock_exclusive_witness :
  fst (acquire_rack_lock second_clock quiet "R1" "carol" 60
         (serve_locks second_clock second_clock quiet others_calls
            (snd (acquire_rack_lock second_clock quiet "R1" "alice" 60 empty_server)))) = Ok false.
Proof.
  refine (proj2 (rack_lock_exclusive second_clock second_clock quiet second_clock_mono "R1" "alice" 60
                   others_calls empty_server _ _ _ _ _) "carol" 60 _).
  - by vm_compute.
  - by vm_compute.
  - repeat constructor; by vm_compute.
  - by vm_compute.
  - by vm_compute.
Defined.

Lemma session_lock_roundtrip_witness :
  fst (get_session_data second_clock quiet "S1"
         (snd (create_session_lock second_clock second_clock quiet "S1" "alice" "R1" 3600 empty_server)))
  = Ok (Some (session_data "alice" "R1" 0)).
Proof.
  refine (proj1 (session_lock_roundtrip second_clock second_clock quiet second_clock_mono "S1" "alice" "R1" 3600
                   empty_server _ _ _ _ _)); by vm_compute.
Defined.

Definition locks_world (l : list doc) : world coll := mkworld [("locks", l)].
Definition free_world : world coll := locks_world [].

Lemma acquire_lock_cases_witness : acquire_result (C:=coll) second_clock "item:1" "alice" 30 free_world.
Proof. apply acquire_lock_cases; [done|]. intros d Hd. by apply elem_of_nil in Hd. Defined.

(** The owner of an expired lock is told that it holds the lock, while the
    document has just been deleted: the lock is free. *)
Lemma expired_lock_reported_held :
  let w := locks_world [lock_document "item:1" "alice" 0 (-1000)] in
  let '(o, w') := acquire_lock (C:=coll) second_clock "item:1" "alice" 30 w in
  o = Ok true ∧ w_db w' "locks" = [].
Proof. by vm_compute. Qed.

(** A SET whose reply is lost is reported as not acquired although the lock is
    now stored under the caller's id. *)
Lemma lost_reply_keeps_lock :
  let faults n := match n with O => Unacknowledged (ConnectionError "timeout") | _ => NoFault end in
  let '(o, w') := acquire_rack_lock second_clock faults "R1" "alice" 60 empty_server in
  o = Ok false ∧ fst (get_rack_lock_owner second_clock faults "R1" w') = Ok (Some "alice").
Proof. by vm_compute. Qed.

(** A non-positive renewal is reported as a success and removes the lock. *)
Lemma renew_zero_releases :
  let w1 := snd (acquire_rack_lock second_clock quiet "R1" "alice" 60 empty_server) in
  let '(o, w2) := renew_rack_lock second_clock quiet "R1" "alice" 0 w1 in
  o = Ok true ∧ fst (is_rack_locked second_clock quiet "R1" w2) = Ok false.
Proof. by vm_compute. Qed.
