(* ===== verification/RateLimiter.v ===== *)
(** Rate limiting: the token buckets and the slot counter of
    [services/rate_limiting/limiter.py], and the sliding windows of
    [middleware/security.py] ([LoginRateLimiter], [BatchRateLimiter]).

    [time.time()] is a sequence of float readings; the sliding windows use
    naive datetimes in microseconds.  [with self._lock] makes a call atomic. *)

From Stdlib Require Import Sorted.
From S2P Require Import Prelude PyFloat Py.

Local Open Scope Z_scope.
Local Open Scope stock_scope.

(** ** Token buckets *)

(** [default_rate] requests per minute, [default_burst] allowance *)
Record limiter_config := LimiterConfig {
  default_rate : Z;
  default_burst : Z;
  per_user : bool;
  per_endpoint : bool;
}.

(** A bucket is [(tokens, last_refill)]; tokens are an [int] or a [float]. *)
Record limiter := Limiter {
  _buckets : list (string * (num * float));
  _request_counts : list (string * Z);
  _window_start : float;
  l_tick : nat;
}.

Definition _window_size : Z := 60.

Section buckets.
Context (cfg : limiter_config) (clock : nat → float).

Definition time_time : M limiter float := fun l =>
  (Ok (clock (l_tick l)), Limiter (_buckets l) (_request_counts l) (_window_start l) (S (l_tick l))).

Definition set_buckets (b : list (string * (num * float))) : M limiter unit :=
  modify (fun l => Limiter b (_request_counts l) (_window_start l) (l_tick l)).
Definition set_counts (c : list (string * Z)) : M limiter unit :=
  modify (fun l => Limiter (_buckets l) c (_window_start l) (l_tick l)).
Definition set_window_start (t : float) : M limiter unit :=
  modify (fun l => Limiter (_buckets l) (_request_counts l) t (l_tick l)).

Definition _get_bucket_key (user_id endpoint : option string) : string :=
  let user := default "" user_id in
  let ep := default "" endpoint in
  let parts :=
    (if per_user cfg && negb (String.eqb user "") then ["user:" +:+ user] else []) ++
    (if per_endpoint cfg && negb (String.eqb ep "") then ["endpoint:" +:+ ep] else []) in
  match parts with [] => "default" | _ => join "|" parts end.

Definition num_float (n : num) : float := match n with NInt z => of_Z z | NFloat f => f end.

(** [min(burst, x)] returns [x] only when [x < burst]. *)
Definition min_burst (burst : Z) (x : float) : num :=
  match cmp_Z burst x with Some Gt => NFloat x | _ => NInt burst end.

(** What a bucket holds at [now]. *)
Definition refilled (rate burst : Z) (now : float) (b : option (num * float)) : num :=
  match b with
  | None => NInt burst
  | Some (tokens, last_refill) =>
      let elapsed := fsub now last_refill in
      let tokens_to_add := fmul (fdiv (of_Z rate) (of_Z 60)) elapsed in
      min_burst burst (fadd (num_float tokens) tokens_to_add)
  end.

Definition _refill_tokens (bucket_key : string) (rate burst : Z) : M limiter num :=
  do now <- time_time ;;
  do buckets <- gets _buckets ;;
  let tokens := refilled rate burst now (aget bucket_key buckets) in
  run set_buckets (aset bucket_key (tokens, now) buckets) ;;
  ret tokens.

Definition _cleanup_old_buckets : M limiter unit :=
  do now <- time_time ;;
  let cutoff := fsub now (of_Z 3600) in
  do buckets <- gets _buckets ;;
  let to_remove := map fst (List.filter (fun kb => flt (snd (snd kb)) cutoff) buckets) in
  set_buckets (fold_left (fun b k => adel k b) to_remove buckets).

(** [rate or self.default_rate] *)
Definition or_default (o : option Z) (d : Z) : Z :=
  match o with Some z => if z =? 0 then d else z | None => d end.

(** [60.0 / rate_limit] *)
Definition minute_over (rate : Z) : outcome float :=
  if rate =? 0 then Raise (OtherError "ZeroDivisionError: float division by zero")
  else Ok (fdiv (of_Z 60) (of_Z rate)).

Definition int_of (x : float) : outcome Z := to_int (VFloat x).

(** [tokens >= 1.0] *)
Definition has_token (tokens : num) : bool :=
  match tokens with NInt z => 1 <=? z | NFloat f => fge f (of_Z 1) end.

(** [int(max(1, x))] *)
Definition at_least_one (x : float) : outcome Z :=
  if (match cmp_Z 1 x with Some Lt => true | _ => false end) then int_of x else Ok 1.

Definition count_request (key : string) : M limiter unit :=
  do counts <- gets _request_counts ;;
  set_counts (aset key (default 0 (aget key counts) + 1) counts).

Definition roll_window : M limiter unit :=
  do now <- time_time ;;
  do start <- gets _window_start ;;
  when (match cmp_Z _window_size (fsub now start) with Some Lt => true | _ => false end)
    (run _cleanup_old_buckets ;;
     run set_counts [] ;;
     do now' <- time_time ;;
     set_window_start now').

Definition limiter_is_allowed (user_id endpoint : option string) (rate burst : option Z) : M limiter (bool * doc) :=
  let bucket_key := _get_bucket_key user_id endpoint in
  let rate_limit := or_default rate (default_rate cfg) in
  let burst_limit := or_default burst (default_burst cfg) in
  do tokens <- _refill_tokens bucket_key rate_limit burst_limit ;;
  if has_token tokens then
    let new_tokens := fsub (num_float tokens) (of_Z 1) in
    do now <- time_time ;;
    run modify (fun l => Limiter (aset bucket_key (NFloat new_tokens, now) (_buckets l))
                           (_request_counts l) (_window_start l) (l_tick l)) ;;
    run count_request bucket_key ;;
    run roll_window ;;
    do remaining <- lift (int_of new_tokens) ;;
    do per_token <- lift (minute_over rate_limit) ;;
    do reset_in <- lift (int_of (fmul per_token (fsub (of_Z burst_limit) new_tokens))) ;;
    ret (true, [("allowed", VBool true); ("remaining", VInt remaining); ("limit", VInt rate_limit);
                ("reset_in", VInt reset_in)])
  else
    do per_token <- lift (minute_over rate_limit) ;;
    do retry_after <- lift (at_least_one (fmul (fsub (of_Z 1) (num_float tokens)) per_token)) ;;
    do reset_in <- lift (int_of (fmul per_token (fsub (of_Z burst_limit) (num_float tokens)))) ;;
    ret (false, [("allowed", VBool false); ("remaining", VInt 0); ("limit", VInt rate_limit);
                 ("reset_in", VInt reset_in); ("retry_after", VInt retry_after)]).

Definition limiter_get_stats (l : limiter) : doc :=
  [("active_buckets", VInt (Z.of_nat (length (_buckets l))));
   ("total_requests", VInt (fold_right Z.add 0 (map snd (_request_counts l))));
   ("request_counts", VDict (map (fun kc => (fst kc, VInt (snd kc))) (_request_counts l)));
   ("window_start", VFloat (_window_start l))].
End buckets.

(** ** Slots for concurrent requests

    The semaphore, the slots granted but not yet counted, the counter
    [_active], and the slots whose release has decremented the counter but not
    yet returned to the semaphore. *)

Record handler := Handler {
  max_concurrent : Z;
  h_semaphore : Z;
  h_granted : Z;
  _active : Z;
  h_returning : Z;
}.

Definition new_handler (n : Z) : handler := Handler n n 0 0 0.

(** The atomic parts of [acquire] and [release] between two suspensions. *)
Definition grant (h : handler) : option handler :=
  if 0 <? h_semaphore h
  then Some (Handler (max_concurrent h) (h_semaphore h - 1) (h_granted h + 1) (_active h) (h_returning h))
  else None.
Definition count_active (h : handler) : handler :=
  Handler (max_concurrent h) (h_semaphore h) (h_granted h - 1) (_active h + 1) (h_returning h).
Definition uncount_active (h : handler) : handler :=
  Handler (max_concurrent h) (h_semaphore h) (h_granted h) (Z.max 0 (_active h - 1)) (h_returning h + 1).
Definition return_slot (h : handler) : handler :=
  Handler (max_concurrent h) (h_semaphore h + 1) (h_granted h) (_active h) (h_returning h - 1).

(** Interleavings of callers that release once what they acquired. *)
Inductive handler_step : handler → handler → Prop :=
| step_grant h h' : grant h = Some h' → handler_step h h'
| step_count h : 0 < h_granted h → handler_step h (count_active h)
| step_uncount h : 0 < _active h → handler_step h (uncount_active h)
| step_return h : 0 < h_returning h → handler_step h (return_slot h).

(** One call without interference: [None] is the timeout. *)
Definition handler_acquire (h : handler) : bool * handler :=
  match grant h with Some h' => (true, count_active h') | None => (false, h) end.
Definition handler_release (h : handler) : handler := return_slot (uncount_active h).

Definition handler_get_stats (h : handler) : doc :=
  [("max_concurrent", VInt (max_concurrent h)); ("active", VInt (_active h));
   ("available", VInt (max_concurrent h - _active h));
   ("utilization", if 0 <? max_concurrent h
                   then VFloat (fmul (of_ratio (_active h) (max_concurrent h)) (of_Z 100)) else VInt 0)].

(** ** Sliding windows *)

(** [d[k]] of a [defaultdict(list)] *)
Definition times_of (k : string) (d : list (string * list Z)) : list Z := default [] (aget k d).

Definition min_time (l : list Z) : outcome Z :=
  match l with
  | [] => Raise (ValueError "min() arg is an empty sequence")
  | t :: l' => Ok (fold_left Z.min l' t)
  end.

(** [int(td.total_seconds())] *)
Definition whole_seconds (us : Z) : Z := trunc (of_ratio us 1000000).

Record window_limiter := WindowLimiter {
  max_requests : Z;
  window : Z;
  requests : list (string * list Z);
}.

Definition LoginRateLimiter : window_limiter := WindowLimiter 5 (900 * 1000000) [].
Definition BatchRateLimiter : window_limiter := WindowLimiter 10 (60 * 1000000) [].

Definition recent (now w : Z) (l : list Z) : list Z := List.filter (fun t => now - t <? w) l.

Definition set_requests (r : list (string * list Z)) (b : window_limiter) : window_limiter :=
  WindowLimiter (max_requests b) (window b) r.

Definition batch_is_allowed (user_id : string) (now : Z) : M window_limiter (bool * doc) := fun b =>
  let l := recent now (window b) (times_of user_id (requests b)) in
  let b := set_requests (aset user_id l (requests b)) b in
  let current_count := Z.of_nat (length l) in
  if max_requests b <=? current_count then
    (do oldest <- lift (min_time l) ;;
     let retry_after := whole_seconds (oldest + window b - now) in
     ret (false, [("limit", VInt (max_requests b)); ("remaining", VInt 0);
                  ("retry_after", VInt (Z.max retry_after 1))])) b
  else
    (Ok (true, [("limit", VInt (max_requests b)); ("remaining", VInt (max_requests b - current_count - 1))]),
     set_requests (aset user_id (l ++ [now]) (requests b)) b).

Definition login_is_allowed (ip_address : string) (now : Z) : M window_limiter (bool * doc) := fun b =>
  let l := recent now (window b) (times_of ip_address (requests b)) in
  let b := set_requests (aset ip_address l (requests b)) b in
  let current_attempts := Z.of_nat (length l) in
  if max_requests b <=? current_attempts then
    (do oldest_attempt <- lift (min_time l) ;;
     let reset_at := oldest_attempt + window b in
     let retry_after := whole_seconds (reset_at - now) in
     ret (false, [("limit", VInt (max_requests b)); ("remaining", VInt 0);
                  ("retry_after", VInt (Z.max retry_after 1)); ("reset_at", VStr (isoformat "T" reset_at))])) b
  else
    (Ok (true, [("limit", VInt (max_requests b)); ("remaining", VInt (max_requests b - current_attempts - 1));
                ("retry_after", VInt 0)]),
     set_requests (aset ip_address (l ++ [now]) (requests b)) b).

Definition login_reset (ip_address : string) (b : window_limiter) : window_limiter :=
  match aget ip_address (requests b) with
  | Some _ => set_requests (adel ip_address (requests b)) b
  | None => b
  end.

(** The two limiters served by a sequence of attempts. *)
Inductive attempt_kind := Batch | Login.

Definition window_is_allowed (kind : attempt_kind) : string → Z → M window_limiter (bool * doc) :=
  match kind with Batch => batch_is_allowed | Login => login_is_allowed end.

(** The times at which [key] was let through, latest last. *)
Fixpoint admitted (kind : attempt_kind) (key : string) (calls : list (string * Z)) (b : window_limiter) : list Z :=
  match calls with
  | [] => []
  | (k, now) :: calls' =>
      let '(o, b') := window_is_allowed kind k now b in
      (match o with Ok (true, _) => if String.eqb k key then [now] else [] | _ => [] end)
        ++ admitted kind key calls' b'
  end.

(** ** The sliding windows admit at most the maximum *)

(** How many of the times lie in the window that ends at [t]. *)
Definition in_window (w t : Z) (l : list Z) : nat :=
  length (List.filter (fun x => (t - w <? x) && (x <=? t)) l).

Lemma recent_app now w l l' : recent now w (l ++ l') = recent now w l ++ recent now w l'.
Proof. apply List.filter_app. Qed.

(** Sweeping earlier forgets nothing that a later sweep would keep. *)
Lemma recent_recent now now' w l : now <= now' → recent now' w (recent now w l) = recent now' w l.
Proof.
  intros Hle. unfold recent. induction l as [|x l IH]; simpl; [done|].
  destruct (Z.ltb_spec (now - x) w); simpl; [by rewrite IH|].
  destruct (Z.ltb_spec (now' - x) w); [lia | done].
Qed.

Lemma in_window_app w t l l' : in_window w t (l ++ l') = (in_window w t l + in_window w t l')%nat.
Proof. unfold in_window. by rewrite List.filter_app, length_app. Qed.

Lemma in_window_recent w t now l : now <= t → (in_window w t l ≤ length (recent now w l))%nat.
Proof.
  intros Hle. unfold in_window, recent. induction l as [|x l IH]; simpl; [lia|].
  destruct (Z.ltb_spec (t - w) x), (Z.leb_spec x t), (Z.ltb_spec (now - x) w); simpl; lia.
Qed.

(** One attempt, for either limiter. *)
Lemma window_step kind k now b :
  let l := recent now (window b) (times_of k (requests b)) in
  let '(o, b') := window_is_allowed kind k now b in
  max_requests b' = max_requests b ∧ window b' = window b ∧
  if max_requests b <=? Z.of_nat (length l)
  then (∀ info, o ≠ Ok (true, info)) ∧ requests b' = aset k l (requests b)
  else (∃ info, o = Ok (true, info)) ∧ requests b' = aset k (l ++ [now]) (aset k l (requests b)).
Proof.
  intros l. destruct kind; cbn [window_is_allowed]; unfold batch_is_allowed, login_is_allowed; fold l;
    destruct (_ <=? _); unfold bind, lift; try destruct (min_time l); simpl; eauto 6.
Qed.

Section window.
Context (kind : attempt_kind) (key : string).

(** The limiter's list and the history of admissions, seen from [now] on. *)
Definition window_inv (b : window_limiter) (last : Z) (history : list Z) : Prop :=
  (∀ now, last <= now →
     recent now (window b) (times_of key (requests b)) = recent now (window b) history) ∧
  ∀ t, Z.of_nat (in_window (window b) t history) <= max_requests b.

Lemma times_of_aset k k' l r : times_of k' (aset k l r) = if String.eqb k k' then l else times_of k' r.
Proof. unfold times_of. rewrite aget_aset. by destruct (String.eqb k k'). Qed.

Lemma window_inv_step b last history k now :
  window_inv b last history → last <= now →
  let '(o, b') := window_is_allowed kind k now b in
  max_requests b' = max_requests b ∧ window b' = window b ∧
  window_inv b' now
    (history ++ match o with Ok (true, _) => if String.eqb k key then [now] else [] | _ => [] end).
Proof.
  intros [Hrec Hmax] Hle. pose proof (window_step kind k now b) as Hs. cbv zeta in Hs.
  destruct (window_is_allowed kind k now b) as [o b']. destruct Hs as (Hm & Hw & Hs).
  split; [done|]. split; [done|]. unfold window_inv. rewrite Hm, Hw.
  set (l := recent now (window b) (times_of k (requests b))) in *.
  assert (∀ now', now <= now' → recent now' (window b) l = recent now' (window b) (times_of k (requests b))) as Hl
    by (intros; by apply recent_recent).
  destruct (max_requests b <=? Z.of_nat (length l)) eqn:E.
  - destruct Hs as [Hno ->].
    replace (match o with Ok (true, _) => if String.eqb k key then [now] else [] | _ => [] end) with (@nil Z)
      by (destruct o as [[[] info]|]; [by destruct (Hno info) | done..]).
    rewrite app_nil_r. split; [|done]. intros now' Hn. rewrite times_of_aset.
    destruct (String.eqb_spec k key) as [->|]; [rewrite Hl by lia|]; apply Hrec; lia.
  - destruct Hs as [[info ->] ->]. apply Z.leb_gt in E. split.
    + intros now' Hn. rewrite !times_of_aset. destruct (String.eqb_spec k key) as [->|].
      * rewrite !recent_app, Hl, Hrec by lia. done.
      * rewrite app_nil_r. apply Hrec. lia.
    + intros t. rewrite in_window_app. destruct (String.eqb_spec k key) as [->|];
        [|unfold in_window at 2; simpl; specialize (Hmax t); lia].
      unfold in_window at 2. simpl.
      destruct (Z.ltb_spec (t - window b) now), (Z.leb_spec now t); simpl; try (specialize (Hmax t); lia).
      pose proof (in_window_recent (window b) t now history ltac:(lia)) as Hin.
      unfold l in E. rewrite Hrec in E by lia. lia.
Qed.

Lemma window_inv_calls calls b last history :
  window_inv b last history → Forall (fun c => last <= snd c) calls →
  StronglySorted (fun c c' => snd c <= snd c') calls →
  ∀ t, Z.of_nat (in_window (window b) t (history ++ admitted kind key calls b)) <= max_requests b.
Proof.
  intros Hinv Hlast Hsorted. revert b last history Hinv Hlast.
  induction Hsorted as [|[k now] calls _ IH Hall]; intros b last history Hinv Hlast t.
  { simpl. rewrite app_nil_r. apply Hinv. }
  apply list.Forall_cons in Hlast as [Hle _]. simpl in Hle, Hall. cbn [admitted].
  pose proof (window_inv_step b last history k now Hinv Hle) as Hs.
  destruct (window_is_allowed kind k now b) as [o b']. destruct Hs as (Hm & Hw & Hs).
  rewrite app_assoc, <- Hm, <- Hw. by apply (IH b' now _ Hs).
Qed.

(** C31: whatever the sequence of attempts, in every window of the configured
    length a sliding-window limiter lets at most its maximum of attempts
    through for each key (login attempts per address, batch requests per
    user), as long as the clock does not go back. *)
Theorem sliding_window_bound calls b t :
  requests b = [] → 0 <= max_requests b → StronglySorted (fun c c' => snd c <= snd c') calls →
  Z.of_nat (in_window (window b) t (admitted kind key calls b)) <= max_requests b.
Proof.
  intros Hr Hm Hs. destruct calls as [|[k now] calls]; [done|].
  change (admitted kind key ((k, now) :: calls) b) with ([] ++ admitted kind key ((k, now) :: calls) b).
  apply (window_inv_calls _ b now []); [|apply StronglySorted_inv in Hs as [_ Ha]; by constructor|done].
  split; [by rewrite Hr | done].
Qed.
End window.

Definition burst_of_logins : list (string * Z) :=
  [("10.0.0.7", 0); ("10.0.0.7", 1000000); ("10.0.0.7", 2000000); ("10.0.0.9", 2500000);
   ("10.0.0.7", 3000000); ("10.0.0.7", 4000000); ("10.0.0.7", 5000000); ("10.0.0.7", 900500000)].

Lemma sliding_window_bound_witness :
  admitted Login "10.0.0.7" burst_of_logins LoginRateLimiter
    = [0; 1000000; 2000000; 3000000; 4000000; 900500000] ∧
  Z.of_nat (in_window (window LoginRateLimiter) 5000000
              (admitted Login "10.0.0.7" burst_of_logins LoginRateLimiter)) <= 5.
Proof.
  split; [by vm_compute|].
  apply (sliding_window_bound Login "10.0.0.7" burst_of_logins LoginRateLimiter 5000000);
    [done | by vm_compute | repeat constructor; by vm_compute].
Defined.

(** ** Slots are conserved *)

Definition handler_inv (h : handler) : Prop :=
  0 <= h_semaphore h ∧ 0 <= h_granted h ∧ 0 <= _active h ∧ 0 <= h_returning h ∧
  h_semaphore h + h_granted h + _active h + h_returning h = max_concurrent h.

Lemma handler_inv_step h h' :
  handler_inv h → handler_step h h' → handler_inv h' ∧ max_concurrent h' = max_concurrent h.
Proof.
  unfold handler_inv. intros Hi Hs.
  destruct Hs as [h h' Hg | h Hh | h Hh | h Hh].
  - unfold grant in Hg. destruct (Z.ltb_spec 0 (h_semaphore h)); simplify_eq. simpl. lia.
  - simpl. lia.
  - simpl. lia.
  - simpl. lia.
Qed.

(** Through any interleaving of disciplined callers at most [max_concurrent]
    slots are out, and the statistics stay within bounds. *)
Theorem handler_slots n h :
  0 <= n → reachable handler_step (new_handler n) h →
  max_concurrent h = n ∧ 0 <= _active h <= n ∧ h_semaphore h + h_granted h + _active h + h_returning h = n.
Proof.
  intros Hn Hr.
  assert (handler_inv h ∧ max_concurrent h = n) as [(? & ? & ? & ? & ?) Hm].
  { apply (reachable_inv handler_step (fun h => handler_inv h ∧ max_concurrent h = n) (new_handler n)); [| |done].
    - unfold handler_inv, new_handler. simpl. lia.
    - intros a b [Ha Hm] Hs. destruct (handler_inv_step a b Ha Hs). split; [done | lia]. }
  lia.
Qed.

(** Releasing without having acquired adds a slot. *)
Lemma extra_release n : 0 <= n → h_semaphore (handler_release (new_handler n)) = n + 1.
Proof. done. Qed.

(** ** A burst at one instant

    The float facts the argument needs are checked by computation for the
    default rate and every burst up to the default one. *)

Definition RATE_LIMIT_PER_MINUTE : Z := 100.
Definition RATE_LIMIT_BURST : Z := 20.

Definition upto (n : Z) : list Z := seqZ 0 (n + 1).

Lemma upto_forall (p : Z → bool) n : forallb p (upto n) = true → ∀ z, 0 <= z <= n → p z = true.
Proof.
  intros Hp z Hz. rewrite forallb_forall in Hp. apply Hp, list_elem_of_In, elem_of_seqZ. lia.
Qed.

Abbreviation per_token := (fdiv (of_Z 60) (of_Z RATE_LIMIT_PER_MINUTE)).
Abbreviation no_refill := (fmul (fdiv (of_Z RATE_LIMIT_PER_MINUTE) (of_Z 60)) f0).

(** Whole tokens are exact: adding nothing, taking one away, what is missing
    from the burst. *)
Definition token_fact (n : Z) : bool :=
  bool_decide (fadd (of_Z n) no_refill = of_Z n) && is_finite (of_Z n) &&
  is_finite (fmul per_token (of_Z n)) &&
  (if 1 <=? n then fge (of_Z n) (of_Z 1) && bool_decide (fsub (of_Z n) (of_Z 1) = of_Z (n - 1))
   else negb (fge (of_Z n) (of_Z 1))).

Definition missing_fact (burst n : Z) : bool :=
  (burst <? n) || bool_decide (fsub (of_Z burst) (of_Z n) = of_Z (burst - n)) &&
  ((burst <=? n) || bool_decide (cmp_Z burst (of_Z n) = Some Gt)).

Lemma token_facts : forallb token_fact (upto RATE_LIMIT_BURST) = true.
Proof. by vm_compute. Qed.
Lemma missing_facts :
  forallb (fun b => forallb (missing_fact b) (upto RATE_LIMIT_BURST)) (upto RATE_LIMIT_BURST) = true.
Proof. by vm_compute. Qed.
Lemma retry_fact : is_finite (fmul (fsub (of_Z 1) (of_Z 0)) per_token) = true.
Proof. by vm_compute. Qed.

Lemma int_of_finite x : is_finite x = true → int_of x = Ok (trunc x).
Proof. by destruct x. Qed.

Lemma at_least_one_finite x : is_finite x = true → ∃ z, at_least_one x = Ok z.
Proof. intros Hx. unfold at_least_one. rewrite int_of_finite by done. case_match; eauto. Qed.

Lemma minute_over_default : minute_over RATE_LIMIT_PER_MINUTE = Ok per_token.
Proof. done. Qed.

Section burst.
Context (cfg : limiter_config) (t : float) (user endpoint : option string).
Context (rate_default : default_rate cfg = RATE_LIMIT_PER_MINUTE).
Context (burst_bounds : 1 <= default_burst cfg <= RATE_LIMIT_BURST).
Context (t_finite : is_finite t = true).

Abbreviation clock := (fun _ : nat => t).
Abbreviation burst := (default_burst cfg).
Abbreviation key := (_get_bucket_key cfg user endpoint).
Abbreviation ask := (limiter_is_allowed cfg clock user endpoint None None).

(** No window has passed since the last clean-up. *)
Definition same_window (l : limiter) : Prop :=
  cmp_Z _window_size (fsub t (_window_start l)) ≠ Some Lt.

(** The bucket holds [n] whole tokens at [t] (or has not been used). *)
Definition holds (n : Z) (l : limiter) : Prop :=
  same_window l ∧ 0 <= n <= burst ∧
  match aget key (_buckets l) with
  | None => n = burst
  | Some (tok, last) => last = t ∧ tok = NFloat (of_Z n) ∧ n < burst
  end.

Lemma tokens_at n :
  0 <= n <= RATE_LIMIT_BURST →
  fadd (of_Z n) no_refill = of_Z n ∧ is_finite (of_Z n) = true ∧ is_finite (fmul per_token (of_Z n)) = true ∧
  fge (of_Z n) (of_Z 1) = (1 <=? n) ∧ (1 <= n → fsub (of_Z n) (of_Z 1) = of_Z (n - 1)).
Proof.
  intros Hn. pose proof (upto_forall _ RATE_LIMIT_BURST token_facts n Hn) as Ht. unfold token_fact in Ht.
  rewrite !andb_true_iff, bool_decide_eq_true in Ht. destruct Ht as [[[Ha Hb] Hc] Hd].
  split; [exact Ha|]. split; [exact Hb|]. split; [exact Hc|]. destruct (Z.leb_spec 1 n).
  - apply andb_true_iff in Hd as [Hd He]. apply bool_decide_eq_true in He. split; [exact Hd | intros; exact He].
  - apply negb_true_iff in Hd. split; [exact Hd | lia].
Qed.

Lemma missing_at n :
  0 <= n <= burst → fsub (of_Z burst) (of_Z n) = of_Z (burst - n) ∧ (n < burst → cmp_Z burst (of_Z n) = Some Gt).
Proof.
  intros Hn. pose proof (upto_forall _ RATE_LIMIT_BURST missing_facts burst ltac:(lia)) as Hb.
  pose proof (upto_forall _ RATE_LIMIT_BURST Hb n ltac:(lia)) as Hm. unfold missing_fact in Hm.
  rewrite orb_true_iff, andb_true_iff, orb_true_iff, !bool_decide_eq_true, Z.ltb_lt, Z.leb_le in Hm.
  destruct Hm as [?|[? [?| ?]]]; [lia | split; [done | lia] | done].
Qed.

(** The refill finds [n] tokens. *)
Lemma holds_refilled n l :
  holds n l →
  ∃ tok, refilled (default_rate cfg) burst t (aget key (_buckets l)) = tok ∧
    num_float tok = of_Z n ∧ has_token tok = (1 <=? n) ∧ (n < burst → tok = NFloat (of_Z n)).
Proof.
  intros (_ & Hn & Hb). destruct (tokens_at n ltac:(lia)) as (Ht & _ & _ & Hge & _).
  destruct (missing_at n Hn) as [_ Hm].
  destruct (aget key (_buckets l)) as [[tok last]|].
  - destruct Hb as (-> & -> & Hlt). unfold refilled. rewrite rate_default, fsub_diag by done. cbn [num_float].
    rewrite Ht. unfold min_burst. rewrite Hm by done. eauto.
  - subst n. eexists. split; [done|]. split; [done|]. split; [done | lia].
Qed.

Lemma roll_window_same l :
  same_window l →
  roll_window clock l = (Ok tt, Limiter (_buckets l) (_request_counts l) (_window_start l) (S (l_tick l))).
Proof.
  intros Hw. unfold roll_window, time_time, gets, bind. cbn [_window_start].
  unfold same_window in Hw. by destruct (cmp_Z _ _) as [[]|].
Qed.

(** A request that finds a token takes it; one that finds none is refused and
    keeps the bucket. *)
Lemma ask_step n l :
  holds n l → ∃ info l', ask l = (Ok (1 <=? n, info), l') ∧ holds (Z.max 0 (n - 1)) l'.
Proof.
  intros Hh. destruct (holds_refilled n l Hh) as (tok & Hr & Hf & Ht & Htok).
  destruct Hh as (Hw & Hn & Hb).
  destruct (tokens_at n ltac:(lia)) as (_ & _ & _ & _ & Hminus).
  destruct (missing_at (Z.max 0 (n - 1)) ltac:(lia)) as [Hsub _].
  unfold limiter_is_allowed. cbn [or_default].
  set (l1 := Limiter (aset key (tok, t) (_buckets l)) (_request_counts l) (_window_start l) (S (l_tick l))).
  assert (_refill_tokens clock key (default_rate cfg) burst l = (Ok tok, l1)) as Href.
  { unfold _refill_tokens, time_time, gets, set_buckets, modify, bind. cbn [_buckets]. by rewrite Hr. }
  rewrite (bind_ok _ _ _ _ _ Href), Ht, Hf.
  destruct (Z.leb_spec 1 n) as [H1|H1].
  - rewrite Hminus by done. replace (Z.max 0 (n - 1)) with (n - 1) in * by lia. rewrite Hsub.
    destruct (tokens_at (n - 1) ltac:(lia)) as (_ & Hfin & _).
    destruct (tokens_at (burst - (n - 1)) ltac:(lia)) as (_ & _ & Hreset & _).
    set (l2 := Limiter (aset key (NFloat (of_Z (n - 1)), t) (_buckets l1))
                 (aset key (default 0 (aget key (_request_counts l1)) + 1) (_request_counts l1))
                 (_window_start l1) (S (S (S (l_tick l))))).
    eexists _, l2. split.
    + unfold time_time, modify, count_request, gets, set_counts, modify. unfold bind at 1 2 3 4. cbn beta iota.
      rewrite (bind_ok _ _ _ tt l2) by (by rewrite roll_window_same).
      rewrite rate_default, minute_over_default, (int_of_finite _ Hfin). unfold bind, lift, ret. cbn beta iota.
      rewrite (int_of_finite _ Hreset). reflexivity.
    + unfold holds. split; [done|]. split; [lia|]. unfold l2. cbn [_buckets]. rewrite aget_aset_eq.
      split; [done|]. split; [done | lia].
  - assert (n = 0) as -> by lia. specialize (Htok ltac:(lia)).
    replace (Z.max 0 (0 - 1)) with 0 in * by lia.
    rewrite Hsub. destruct (tokens_at (burst - 0) ltac:(lia)) as (_ & _ & Hreset & _).
    destruct (at_least_one_finite _ retry_fact) as [z Hz].
    eexists _, l1. split.
    + rewrite rate_default, minute_over_default. unfold bind, lift, ret. cbn beta iota. cbn [num_float].
      rewrite Hz, (int_of_finite _ Hreset). reflexivity.
    + unfold holds. split; [done|]. split; [lia|]. unfold l1. cbn [_buckets]. rewrite aget_aset_eq.
      split; [done|]. split; [exact Htok | lia].
Qed.

(** The verdicts on [m] requests one after the other. *)
Fixpoint verdicts (m : nat) (l : limiter) : list (outcome bool) :=
  match m with
  | O => []
  | S m' =>
      let '(o, l') := ask l in
      match o with Ok (b, _) => Ok b | Raise e => Raise e end :: verdicts m' l'
  end.

Lemma verdicts_from m n l :
  holds (Z.of_nat n) l →
  verdicts m l = repeat (Ok true) (Nat.min m n) ++ repeat (Ok false) (m - n).
Proof.
  revert n l. induction m as [|m IH]; intros n l Hh; [done|].
  destruct (ask_step _ l Hh) as (info & l' & Ha & Hh'). cbn [verdicts]. rewrite Ha.
  destruct n as [|n].
  - rewrite (IH O l' Hh'). replace (Nat.min m 0) with O by lia. cbn. by rewrite Nat.sub_0_r.
  - replace (Z.max 0 (Z.of_nat (S n) - 1)) with (Z.of_nat n) in Hh' by lia.
    rewrite (IH n l' Hh'). by destruct (Z.leb_spec 1 (Z.of_nat (S n))); [|lia].
Qed.
End burst.

(** Of any number of requests of one caller at one instant exactly the burst
    is let through, first, and the rest is refused: with the default rate and a
    burst of at most the default one. *)
Theorem burst_exact cfg t user endpoint l m :
  default_rate cfg = RATE_LIMIT_PER_MINUTE → 1 <= default_burst cfg <= RATE_LIMIT_BURST →
  is_finite t = true → same_window t l → aget (_get_bucket_key cfg user endpoint) (_buckets l) = None →
  verdicts cfg t user endpoint m l
    = repeat (Ok true) (Nat.min m (Z.to_nat (default_burst cfg))) ++
      repeat (Ok false) (m - Z.to_nat (default_burst cfg)).
Proof.
  intros Hr Hb Ht Hw Hn. apply verdicts_from; [done..|]. rewrite Z2Nat.id by lia.
  split; [done|]. split; [lia|]. by rewrite Hn.
Qed.

(** ** Buckets are independent *)

Section isolation.
Context (cfg : limiter_config) (clock : nat → float) (k : string).

(** The bucket is kept, or removed. *)
Definition spares {A} (m : M limiter A) : Prop :=
  ∀ l, aget k (_buckets (snd (m l))) = aget k (_buckets l) ∨ aget k (_buckets (snd (m l))) = None.

Lemma spares_bind {A B} (m : M limiter A) (f : A → M limiter B) :
  spares m → (∀ a, spares (f a)) → spares (bind m f).
Proof.
  intros Hm Hf l. specialize (Hm l). unfold bind. destruct (m l) as [[a|e] l1]; [|done].
  specialize (Hf a l1). simpl in Hm. destruct Hm as [<-|Hm], Hf as [Hf|Hf]; rewrite ?Hf; auto.
Qed.

Lemma spares_same {A} (m : M limiter A) : (∀ l, _buckets (snd (m l)) = _buckets l) → spares m.
Proof. intros Hm l. rewrite Hm. by left. Qed.

Lemma aget_del_all (b : list (string * (num * float))) ks :
  aget k (fold_left (fun b k => adel k b) ks b) = if str_in k ks then None else aget k b.
Proof.
  revert b. induction ks as [|x ks IH]; intros b; [done|]. cbn [fold_left]. rewrite IH. unfold str_in in *.
  cbn [existsb]. rewrite aget_adel, String.eqb_sym. by destruct (String.eqb k x), (existsb _ ks).
Qed.

Lemma spares_cleanup : spares (_cleanup_old_buckets clock).
Proof.
  intros l. unfold _cleanup_old_buckets, time_time, gets, set_buckets, modify, bind. simpl.
  rewrite aget_del_all. destruct (str_in _ _); auto.
Qed.

Ltac spare_step :=
  first [ apply spares_cleanup | apply spares_bind; [|intros] | by apply spares_same
        | match goal with |- spares (match ?x with _ => _ end) => destruct x
                        | |- spares (when ?x _) => destruct x; cbn [when] end ].

Lemma spares_refill key rate burst : k ≠ key → spares (_refill_tokens clock key rate burst).
Proof.
  intros Hk l. unfold _refill_tokens, time_time, gets, set_buckets, modify, bind. simpl.
  rewrite aget_aset_ne by done. by left.
Qed.

(** A request leaves the bucket of every other caller as it is, or removes it
    when the periodic clean-up finds it unused. *)
Theorem other_bucket_kept user endpoint rate burst :
  k ≠ _get_bucket_key cfg user endpoint → spares (limiter_is_allowed cfg clock user endpoint rate burst).
Proof.
  intros Hk. unfold limiter_is_allowed, roll_window, count_request.
  apply spares_bind; [by apply spares_refill|]. intros tokens.
  repeat match goal with
  | |- spares (modify (fun l => Limiter (aset _ _ _) _ _ _)) => intros l; left; apply aget_aset_ne; congruence
  | _ => spare_step
  end.
Qed.
End isolation.

Definition deployed_limiter : limiter_config := LimiterConfig RATE_LIMIT_PER_MINUTE RATE_LIMIT_BURST true false.
Definition new_limiter (now : float) : limiter := Limiter [] [] now 0.

Lemma burst_exact_witness :
  verdicts deployed_limiter (of_Z 1700000000) (Some "alice") None 23 (new_limiter (of_Z 1700000000))
    = repeat (Ok true) 20 ++ repeat (Ok false) 3.
Proof.
  apply (burst_exact deployed_limiter (of_Z 1700000000) (Some "alice") None (new_limiter (of_Z 1700000000)) 23);
    done || by vm_compute.
Defined.
