(* ===== verification/Json.v ===== *)
(** [json.dumps] and [json.loads] of the Python standard library on the values
    of the model, with the encoder the cache passes ([CustomJSONEncoder]: an
    ObjectId as its hexadecimal text, a datetime as its ISO text).

    [dumps] escapes every character outside the printable ASCII range and
    separates with a comma or colon and a space; [loads] is a
    recursive-descent parser over the text, with the length of the text as
    fuel.  Floats are written with [repr] and read with [float()]; a float is
    [json_float] when its text reads back as itself.  Escapes of code points
    above 255 are outside the 8-bit strings of the model and rejected, as is
    the recursion limit. *)

From Stdlib Require Import Ascii DecimalZ DecimalPos DecimalString Floats.SpecFloat.
From S2P Require Import Prelude PyFloat Py.

Local Open Scope Z_scope.

(** ** Printing *)

Definition dq : ascii := ascii_of_nat 34.
Definition backslash : ascii := ascii_of_nat 92.

(** The escape of one character. *)
Definition json_char (c : ascii) : string :=
  let n := nat_of_ascii c in
  if Nat.eqb n 34 then String backslash (String dq EmptyString)
  else if Nat.eqb n 92 then String backslash (String backslash EmptyString)
  else if Nat.eqb n 10 then String backslash "n"
  else if Nat.eqb n 13 then String backslash "r"
  else if Nat.eqb n 9 then String backslash "t"
  else if Nat.eqb n 12 then String backslash "f"
  else if Nat.eqb n 8 then String backslash "b"
  else if Nat.leb 32 n && Nat.leb n 126 then String c EmptyString
  else String backslash ("u00" +:+ hexdigit (Nat.div n 16) +:+ hexdigit (Nat.modulo n 16)).

Fixpoint json_chars (s : string) : string :=
  match s with EmptyString => EmptyString | String c s' => json_char c +:+ json_chars s' end.

Definition json_string (s : string) : string := String dq (json_chars s +:+ String dq EmptyString).

Definition json_float_text (f : float) : string :=
  match f with
  | S754_nan => "NaN"
  | S754_infinity s => if s then "-Infinity" else "Infinity"
  | _ => float_repr f
  end.

Fixpoint dumps (v : val) : string :=
  match v with
  | VNone => "null"
  | VBool b => if b then "true" else "false"
  | VInt z => str_of_Z z
  | VFloat f => json_float_text f
  | VStr s => json_string s
  | VTime us => json_string (isoformat "T" us)
  | VOid h => json_string h
  | VList l => "[" +:+ join ", " (map dumps l) +:+ "]"
  | VDict d => "{" +:+ join ", " (map (fun kx => json_string (fst kx) +:+ ": " +:+ dumps (snd kx)) d) +:+ "}"
  end.

(** What reading the text back gives. *)
Fixpoint jsonify (v : val) : val :=
  match v with
  | VTime us => VStr (isoformat "T" us)
  | VOid h => VStr h
  | VList l => VList (map jsonify l)
  | VDict d => VDict (map (fun kx => (fst kx, jsonify (snd kx))) d)
  | _ => v
  end.

(** ** Parsing *)

Definition is_ws (c : ascii) : bool :=
  let n := nat_of_ascii c in Nat.eqb n 32 || Nat.eqb n 9 || Nat.eqb n 10 || Nat.eqb n 13.
Definition skip_ws (s : string) : string := drop_chars is_ws s.

Definition hex_value (c : ascii) : option nat :=
  let n := nat_of_ascii c in
  if is_digit c then Some (n - 48)%nat
  else if in_range 97 102 c then Some (n - 87)%nat
  else if in_range 65 70 c then Some (n - 55)%nat
  else None.

(** The character an escape stands for. *)
Definition unescape (c : ascii) : option ascii :=
  let n := nat_of_ascii c in
  if Nat.eqb n 34 || Nat.eqb n 92 || Nat.eqb n 47 then Some c
  else if Nat.eqb n 110 then Some (ascii_of_nat 10)
  else if Nat.eqb n 114 then Some (ascii_of_nat 13)
  else if Nat.eqb n 116 then Some (ascii_of_nat 9)
  else if Nat.eqb n 102 then Some (ascii_of_nat 12)
  else if Nat.eqb n 98 then Some (ascii_of_nat 8)
  else None.

(** The rest of a string after its opening quote. *)
Fixpoint scan_string (s : string) : option (string * string) :=
  match s with
  | EmptyString => None
  | String c s' =>
      if Ascii.eqb c dq then Some (EmptyString, s')
      else if Ascii.eqb c backslash then
        match s' with
        | String "u" (String a (String b (String x (String y s'')))) =>
            match hex_value a, hex_value b, hex_value x, hex_value y with
            | Some O, Some O, Some x, Some y =>
                match scan_string s'' with
                | Some (r, rest) => Some (String (ascii_of_nat (16 * x + y)) r, rest)
                | None => None
                end
            | _, _, _, _ => None
            end
        | String e s'' =>
            match unescape e, scan_string s'' with
            | Some a, Some (r, rest) => Some (String a r, rest)
            | _, _ => None
            end
        | EmptyString => None
        end
      else if Nat.ltb (nat_of_ascii c) 32 then None
      else match scan_string s' with
           | Some (r, rest) => Some (String c r, rest)
           | None => None
           end
  end.

(** A numeral is the longest run of the characters a number can have. *)
Definition is_num_char (c : ascii) : bool :=
  is_digit c || Ascii.eqb c "-"%char || Ascii.eqb c "+"%char || Ascii.eqb c "."%char ||
  Ascii.eqb c "e"%char || Ascii.eqb c "E"%char.

Fixpoint take_chars (f : ascii → bool) (s : string) : string :=
  match s with
  | EmptyString => EmptyString
  | String c s' => if f c then String c (take_chars f s') else EmptyString
  end.

(** [0] or digits without a leading zero *)
Definition json_nat (s : string) : bool :=
  isdigit s && (negb (startswith "0" s) || String.eqb s "0").

Definition drop_minus (s : string) : string :=
  match s with String c s' => if Ascii.eqb c "-"%char then s' else s | EmptyString => s end.

(** digits without a leading zero, an optional fraction, an optional exponent *)
Definition json_fraction (s : string) : bool :=
  let ip := take_chars is_digit s in
  let r := drop_chars is_digit s in
  let '(okf, r) :=
    match r with
    | String c r' => if Ascii.eqb c "."%char
                     then (negb (String.eqb (take_chars is_digit r') ""), drop_chars is_digit r')
                     else (true, r)
    | EmptyString => (true, r)
    end in
  json_nat ip && okf &&
  match r with
  | EmptyString => true
  | String c r' =>
      Ascii.eqb (char_lower c) "e"%char &&
      isdigit (match r' with
               | String c r'' => if Ascii.eqb c "-"%char || Ascii.eqb c "+"%char then r'' else r'
               | EmptyString => r'
               end)
  end.

Definition json_number (tok : string) : option val :=
  if json_nat (drop_minus tok) then VInt <$> parse_int tok
  else if json_fraction (drop_minus tok) then VFloat <$> parse_float tok
  else None.

Definition literals : list (string * val) :=
  [("null", VNone); ("true", VBool true); ("false", VBool false); ("NaN", VFloat S754_nan);
   ("Infinity", VFloat (S754_infinity false)); ("-Infinity", VFloat (S754_infinity true))].

(** A literal, or else a number. *)
Definition scan_atom (s : string) : option (val * string) :=
  match List.find (fun l => startswith (fst l) s) literals with
  | Some (l, v) => Some (v, str_drop (String.length l) s)
  | None => (fun v => (v, drop_chars is_num_char s)) <$> json_number (take_chars is_num_char s)
  end.

(** [value], the items of an array and the members of an object, after the
    opening bracket has been read. *)
Fixpoint scan_value (fuel : nat) (s : string) : option (val * string) :=
  match fuel with
  | O => None
  | S n =>
      match s with
      | EmptyString => None
      | String c s' =>
          if Ascii.eqb c dq then
            match scan_string s' with Some (r, rest) => Some (VStr r, rest) | None => None end
          else if Ascii.eqb c "["%char then
            match skip_ws s' with
            | String "]" rest => Some (VList [], rest)
            | s'' => scan_items n s'' []
            end
          else if Ascii.eqb c "{"%char then
            match skip_ws s' with
            | String "}" rest => Some (VDict [], rest)
            | s'' => scan_members n s'' []
            end
          else scan_atom s
      end
  end
with scan_items (fuel : nat) (s : string) (acc : list val) : option (val * string) :=
  match fuel with
  | O => None
  | S n =>
      match scan_value n s with
      | None => None
      | Some (v, rest) =>
          match skip_ws rest with
          | String "," rest' => scan_items n (skip_ws rest') (acc ++ [v])
          | String "]" rest' => Some (VList (acc ++ [v]), rest')
          | _ => None
          end
      end
  end
with scan_members (fuel : nat) (s : string) (acc : doc) : option (val * string) :=
  match fuel with
  | O => None
  | S n =>
      match s with
      | String q s' =>
          if Ascii.eqb q dq then
            match scan_string s' with
            | None => None
            | Some (k, rest) =>
                match skip_ws rest with
                | String ":" rest' =>
                    match scan_value n (skip_ws rest') with
                    | None => None
                    | Some (v, rest'') =>
                        match skip_ws rest'' with
                        | String "," rest3 => scan_members n (skip_ws rest3) (aset k v acc)
                        | String "}" rest3 => Some (VDict (aset k v acc), rest3)
                        | _ => None
                        end
                    end
                | _ => None
                end
            end
          else None
      | EmptyString => None
      end
  end.

(** [json.loads(s)]; [None] is the JSONDecodeError. *)
Definition loads (s : string) : option val :=
  match scan_value (S (String.length s)) (skip_ws s) with
  | Some (v, rest) => if String.eqb (skip_ws rest) "" then Some v else None
  | None => None
  end.

Example loads_sample :
  loads (dumps (VDict [("a", VList [VInt 12; VNone; VStr (String dq "x")]); ("t", VBool true); ("f", VFloat (of_Z 3));
                       ("e", VList []); ("d", VDict [])]))
  = Some (VDict [("a", VList [VInt 12; VNone; VStr (String dq "x")]); ("t", VBool true); ("f", VFloat (of_Z 3));
                 ("e", VList []); ("d", VDict [])]).
Proof. by vm_compute. Qed.

(** ** Round trip *)

#[local] Arguments String.append : simpl nomatch.

(** Induction over the elements of lists and dicts. *)
Section val_induction.
Context (P : val → Prop).
Context (Hnone : P VNone) (Hbool : ∀ b, P (VBool b)) (Hint : ∀ z, P (VInt z)) (Hfloat : ∀ f, P (VFloat f)).
Context (Hstr : ∀ s, P (VStr s)) (Htime : ∀ us, P (VTime us)) (Hoid : ∀ h, P (VOid h)).
Context (Hlist : ∀ l, Forall P l → P (VList l)).
Context (Hdict : ∀ d, Forall (fun kx => P (snd kx)) d → P (VDict d)).

Fixpoint val_nested_ind (v : val) : P v :=
  match v with
  | VNone => Hnone | VBool b => Hbool b | VInt z => Hint z | VFloat f => Hfloat f
  | VStr s => Hstr s | VTime us => Htime us | VOid h => Hoid h
  | VList l => Hlist l ((fix go l := match l return Forall P l with
                                     | [] => List.Forall_nil P
                                     | x :: l' => List.Forall_cons P x l' (val_nested_ind x) (go l')
                                     end) l)
  | VDict d => Hdict d ((fix go d := match d return Forall (fun kx => P (snd kx)) d with
                                     | [] => List.Forall_nil _
                                     | kx :: d' => List.Forall_cons _ kx d' (val_nested_ind (snd kx)) (go d')
                                     end) d)
  end.
End val_induction.

Lemma sapp_assoc (a b c : string) : (a +:+ b) +:+ c = a +:+ (b +:+ c).
Proof. induction a; simpl; [done | by f_equal]. Qed.

Lemma sapp_nil (a : string) : a +:+ "" = a.
Proof. induction a; simpl; [done | by f_equal]. Qed.

Lemma slength_app (a b : string) : String.length (a +:+ b) = (String.length a + String.length b)%nat.
Proof. induction a; simpl; [done | by f_equal]. Qed.

(** The text after a number: not a character of a number. *)
Definition delim (s : string) : Prop :=
  match s with EmptyString => True | String c _ => is_num_char c = false end.

Lemma json_char_scan c t r rest :
  scan_string t = Some (r, rest) → scan_string (json_char c +:+ t) = Some (String c r, rest).
Proof.
  intros H. destruct c as [[] [] [] [] [] [] [] []];
    match goal with |- scan_string (json_char ?c +:+ _) = _ =>
      let x := eval vm_compute in (json_char c) in change (json_char c) with x end;
    cbn; rewrite H; reflexivity.
Qed.

Lemma json_chars_scan s rest : scan_string (json_chars s +:+ String dq rest) = Some (s, rest).
Proof.
  induction s as [|c s IH]; [done|]. cbn [json_chars]. rewrite sapp_assoc. by apply json_char_scan.
Qed.

Lemma scan_json_string s rest : scan_string (json_chars s +:+ String dq "" +:+ rest) = Some (s, rest).
Proof. apply json_chars_scan. Qed.

(** *** Tokens *)

Lemma take_all f s rest :
  str_all f s = true → (match rest with EmptyString => True | String c _ => f c = false end) →
  take_chars f (s +:+ rest) = s ∧ drop_chars f (s +:+ rest) = rest.
Proof.
  intros Hs Hr. induction s as [|c s IH]; simpl in *.
  - destruct rest as [|c rest]; simpl; [done|]. by rewrite Hr.
  - bool_hyps. rewrite H. destruct IH as [-> ->]; done.
Qed.

Lemma find_literal_token tok rest :
  str_all is_num_char tok = true → json_number tok ≠ None →
  List.find (fun l => startswith (fst l) (tok +:+ rest)) literals = None.
Proof.
  intros Hs Hn. destruct tok as [|c tok]; [done|]. simpl in Hs. bool_hyps.
  destruct (Ascii.eqb_spec c "-"%char) as [->|Hc].
  - destruct tok as [|c2 tok]; [done|]. simpl in H0. bool_hyps. unfold startswith. clear H Hn H1.
    destruct c2 as [[] [] [] [] [] [] [] []]; try discriminate H0; done.
  - unfold startswith. clear H0 Hn.
    destruct c as [[] [] [] [] [] [] [] []]; try discriminate H; try (by destruct Hc); done.
Qed.

Lemma scan_token tok v rest :
  str_all is_num_char tok = true → json_number tok = Some v → delim rest →
  scan_atom (tok +:+ rest) = Some (v, rest).
Proof.
  intros Hs Hn Hd. unfold scan_atom. rewrite find_literal_token by congruence.
  destruct (take_all is_num_char tok rest Hs Hd) as [-> ->]. by rewrite Hn.
Qed.

(** *** Integers *)

Abbreviation digits := NilEmpty.string_of_uint.

Lemma digits_isdigit d : str_all is_digit (digits d) = true.
Proof. by induction d. Qed.

Lemma digits_num d : str_all is_num_char (digits d) = true.
Proof. by induction d. Qed.

(** A printed positive number has no leading zero. *)
Lemma to_uint_head p d : Pos.to_uint p ≠ Decimal.D0 d.
Proof.
  intros H. pose proof (DecimalPos.Unsigned.to_of (Pos.to_uint p)) as Ht.
  rewrite DecimalPos.Unsigned.of_to in Ht. simpl in Ht.
  assert (Decimal.nzhead (Pos.to_uint p) ≠ Decimal.Nil) as E.
  { intros E. apply (DecimalPos.Unsigned.to_uint_nonzero p). rewrite Ht. by apply DecimalFacts.unorm_0. }
  rewrite DecimalFacts.unorm_nzhead in Ht by done.
  apply (DecimalFacts.nzhead_nonzero (Pos.to_uint p) d). congruence.
Qed.

Lemma json_nat_digits d :
  d ≠ Decimal.Nil → (∀ d', d ≠ Decimal.D0 d') → json_nat (digits d) = true.
Proof.
  intros Hn Hz. unfold json_nat, isdigit. rewrite digits_isdigit.
  destruct d; try done. by destruct (Hz d).
Qed.

Lemma drop_minus_digits d : drop_minus (digits d) = digits d.
Proof. by destruct d. Qed.

(** The text of an integer is one numeral, read back as the integer. *)
Lemma json_number_int z :
  str_all is_num_char (str_of_Z z) = true ∧ json_number (str_of_Z z) = Some (VInt z).
Proof.
  unfold json_number. rewrite parse_str_of_Z. destruct z as [|p|p]; [done|..].
  all: pose proof (DecimalPos.Unsigned.to_uint_nonnil p) as Hn.
  all: assert (json_nat (digits (Pos.to_uint p)) = true) as Hj
    by (apply json_nat_digits; [done | apply to_uint_head]).
  - change (str_of_Z (Zpos p)) with (NilZero.string_of_uint (Pos.to_uint p)).
    assert (NilZero.string_of_uint (Pos.to_uint p) = digits (Pos.to_uint p)) as -> by (by destruct (Pos.to_uint p)).
    rewrite drop_minus_digits, Hj. split; [apply digits_num | done].
  - change (str_of_Z (Zneg p)) with (String "-"%char (NilZero.string_of_uint (Pos.to_uint p))).
    assert (NilZero.string_of_uint (Pos.to_uint p) = digits (Pos.to_uint p)) as -> by (by destruct (Pos.to_uint p)).
    change (drop_minus (String "-" (digits (Pos.to_uint p)))) with (digits (Pos.to_uint p)). rewrite Hj.
    split; [cbn; apply digits_num | done].
Qed.

(** *** Floats that read back *)

(** [float(repr(f)) == f], as one numeral *)
Definition float_reads_back (f : float) : bool :=
  str_all is_num_char (float_repr f) && bool_decide (json_number (float_repr f) = Some (VFloat f)).

Definition json_float (f : float) : bool := if is_finite f then float_reads_back f else true.

(** The values that survive: floats read back, dicts have their keys once. *)
Fixpoint json_ok (v : val) : bool :=
  match v with
  | VFloat f => json_float f
  | VList l => forallb json_ok l
  | VDict d => bool_decide (NoDup (map fst d)) && forallb (fun kx => json_ok (snd kx)) d
  | _ => true
  end.

(** *** Values *)

Definition sum_need (l : list nat) : nat := fold_right (fun n acc => (S n + acc)%nat) O l.

(** The fuel the parser needs for a printed value. *)
Fixpoint need (v : val) : nat :=
  match v with
  | VList l => S (sum_need (map need l))
  | VDict d => S (sum_need (map (fun kx => need (snd kx)) d))
  | _ => 1
  end.

(** A printed value starts with neither white space nor a closing bracket. *)
Definition head_ok (s : string) : Prop :=
  match s with
  | EmptyString => False
  | String c _ => is_ws c = false ∧ c ≠ "]"%char ∧ c ≠ "}"%char
  end.

Lemma num_head s : str_all is_num_char s = true → s ≠ "" → head_ok s.
Proof.
  destruct s as [|c s]; [done|]. simpl. intros H _. bool_hyps.
  destruct c as [[] [] [] [] [] [] [] []]; done.
Qed.

Lemma json_float_finite f :
  json_float f = true →
  (f = S754_nan ∨ ∃ s, f = S754_infinity s) ∨
  json_float_text f = float_repr f ∧ str_all is_num_char (float_repr f) = true ∧
  json_number (float_repr f) = Some (VFloat f).
Proof.
  unfold json_float. destruct (is_finite f) eqn:E.
  - intros Hf. right. unfold float_reads_back in Hf. apply andb_true_iff in Hf as [Ha Hb].
    apply bool_decide_eq_true in Hb. split; [|by split].
    unfold json_float_text. by destruct f.
  - intros _. left. destruct f as [s|s| |s m e]; try discriminate E; eauto.
Qed.

Lemma dumps_head v : json_ok v = true → head_ok (dumps v).
Proof.
  destruct v as [|[]|z|f|s|us|h|l|d]; try done.
  - intros _. destruct (json_number_int z) as [Hs Hn]. apply num_head; [done|]. cbn [dumps].
    intros He. by rewrite He in Hn.
  - intros Hf. cbn [dumps]. apply json_float_finite in Hf as [[->|[[] ->]]|(-> & Hs & Hn)]; [done..|].
    apply num_head; [done|]. intros He. by rewrite He in Hn.
Qed.

Lemma skip_ws_head s rest : head_ok s → skip_ws (s +:+ rest) = s +:+ rest.
Proof. destruct s as [|c s]; [done|]. intros (Hc & _). unfold skip_ws. simpl. by rewrite Hc. Qed.

(** The first character of a number is none of the openers. *)
Lemma scan_value_token n tok v rest :
  str_all is_num_char tok = true → json_number tok = Some v → delim rest →
  scan_value (S n) (tok +:+ rest) = Some (v, rest).
Proof.
  intros Hs Hn Hd. rewrite <- (scan_token tok v rest) by done.
  destruct tok as [|c tok]; [done|]. simpl in Hs. bool_hyps. cbn [scan_value String.append].
  assert (Ascii.eqb c dq = false ∧ Ascii.eqb c "[" = false ∧ Ascii.eqb c "{" = false) as (-> & -> & ->);
    [|done]. clear -H. destruct c as [[] [] [] [] [] [] [] []]; done.
Qed.

Lemma scan_value_string n s rest : scan_value (S n) (json_string s +:+ rest) = Some (VStr s, rest).
Proof.
  unfold json_string. cbn [scan_value String.append]. rewrite sapp_assoc. cbn [Ascii.eqb dq].
  rewrite Ascii.eqb_refl. by rewrite scan_json_string.
Qed.

Lemma join_cons sep x y l : join sep (x :: y :: l) = x +:+ sep +:+ join sep (y :: l).
Proof. done. Qed.

Lemma skip_comma s : skip_ws (", " +:+ s) = String "," (" " +:+ s).
Proof. done. Qed.

(** What the parser does on the text of one value. *)
Definition reads_back (v : val) : Prop :=
  json_ok v = true → ∀ n rest, (need v ≤ n)%nat → delim rest →
  scan_value n (dumps v +:+ rest) = Some (jsonify v, rest).

Lemma scan_items_back x l n rest acc :
  Forall reads_back (x :: l) → forallb json_ok (x :: l) = true → (sum_need (map need (x :: l)) ≤ n)%nat →
  scan_items n (join ", " (map dumps (x :: l)) +:+ String "]" rest) acc
    = Some (VList (acc ++ map jsonify (x :: l)), rest).
Proof.
  revert x n acc. induction l as [|y l IH]; intros x n acc Hf Hok Hn;
    apply list.Forall_cons in Hf as [Hx Hf]; cbn [forallb map sum_need fold_right] in Hok, Hn;
    apply andb_true_iff in Hok as [Hox Hok]; (destruct n as [|n]; [lia|]).
  - cbn [map join String.concat scan_items]. rewrite Hx by (done || lia). done.
  - cbn [map]. rewrite join_cons, !sapp_assoc. cbn [scan_items]. rewrite Hx by (done || lia).
    assert (skip_ws (" " +:+ join ", " (map dumps (y :: l)) +:+ String "]" rest)
            = join ", " (map dumps (y :: l)) +:+ String "]" rest) as Hw.
    { assert (head_ok (join ", " (map dumps (y :: l)))) as Hh.
      { apply andb_true_iff in Hok as [Hoy _]. pose proof (dumps_head y Hoy) as Hy.
        destruct l as [|z l]; [done|]. cbn [map]. rewrite join_cons. by destruct (dumps y). }
      exact (skip_ws_head _ _ Hh). }
    cbn [map] in Hw, IH. rewrite skip_comma, Hw, IH by (done || (cbn in *; lia)). by rewrite <- app_assoc.
Qed.

Lemma aset_fresh {A} k (v : A) l : k ∉ map fst l → aset k v l = l ++ [(k, v)].
Proof.
  induction l as [|[k1 v1] l IH]; simpl; [done|]. rewrite not_elem_of_cons. intros [Hk Hl].
  destruct (String.eqb_spec k k1); [done|]. by rewrite IH.
Qed.

Abbreviation dump_member := (fun kx : string * val => json_string (fst kx) +:+ ": " +:+ dumps (snd kx)).
Abbreviation jsonify_member := (fun kx : string * val => (fst kx, jsonify (snd kx))).

Lemma dq_head s : head_ok (String dq s).
Proof. done. Qed.

(** One member: its key, the colon and its value. *)
Lemma scan_member k x n s acc :
  reads_back x → json_ok x = true → (need x ≤ n)%nat → delim s →
  scan_members (S n) (json_string k +:+ ": " +:+ dumps x +:+ s) acc =
    match skip_ws s with
    | String "," rest3 => scan_members n (skip_ws rest3) (aset k (jsonify x) acc)
    | String "}" rest3 => Some (VDict (aset k (jsonify x) acc), rest3)
    | _ => None
    end.
Proof.
  intros Hx Hok Hn Hs. unfold json_string. cbn [scan_members String.append].
  rewrite Ascii.eqb_refl, sapp_assoc, scan_json_string.
  assert (∀ t, skip_ws (String ":" t) = String ":" t) as -> by done.
  assert (skip_ws (String " " (dumps x +:+ s)) = dumps x +:+ s) as -> by exact (skip_ws_head _ _ (dumps_head x Hok)).
  by rewrite Hx.
Qed.

Lemma scan_members_back kx d n rest acc :
  Forall (fun kx => reads_back (snd kx)) (kx :: d) → forallb (fun kx => json_ok (snd kx)) (kx :: d) = true →
  NoDup (map fst acc ++ map fst (kx :: d)) →
  (sum_need (map (fun kx => need (snd kx)) (kx :: d)) ≤ n)%nat →
  scan_members n (join ", " (map dump_member (kx :: d)) +:+ String "}" rest) acc
    = Some (VDict (acc ++ map jsonify_member (kx :: d)), rest).
Proof.
  revert kx n acc. induction d as [|ky d IH]; intros [k x] n acc Hf Hok Hnd Hn;
    apply list.Forall_cons in Hf as [Hx Hf]; cbn [forallb map sum_need fold_right fst snd] in Hok, Hn, Hnd, Hx;
    apply andb_true_iff in Hok as [Hox Hok]; (destruct n as [|n]; [lia|]).
  all: assert (k ∉ map fst acc) as Hk
    by (intros Hin; apply list.NoDup_app in Hnd as (_ & Hd & _); apply (Hd k Hin); left).
  - cbn [map join String.concat fst snd]. rewrite !sapp_assoc, scan_member by (done || lia). simpl.
    by rewrite aset_fresh.
  - cbn [map]. rewrite join_cons. cbn [fst snd]. rewrite !sapp_assoc.
    rewrite scan_member by (done || lia). rewrite skip_comma.
    assert (skip_ws (" " +:+ join ", " (map dump_member (ky :: d)) +:+ String "}" rest)
            = join ", " (map dump_member (ky :: d)) +:+ String "}" rest) as Hw.
    { destruct d; [exact (skip_ws_head (dump_member ky) _ (dq_head _))|].
      cbn [map]. rewrite join_cons, sapp_assoc.
      exact (skip_ws_head (dump_member ky) _ (dq_head _)). }
    cbn [map] in Hw, IH. rewrite Hw, aset_fresh, IH by
      (done || (cbn in *; lia) || (rewrite map_app, <- app_assoc; exact Hnd)). by rewrite <- app_assoc.
Qed.

Lemma substring_full s : String.substring 0 (String.length s) s = s.
Proof. induction s; simpl; [done | by f_equal]. Qed.

Lemma str_drop_app l s : str_drop (String.length l) (l +:+ s) = s.
Proof.
  unfold str_drop. rewrite slength_app.
  replace (String.length l + String.length s - String.length l)%nat with (String.length s) by lia.
  rewrite <- (substring_full s) at 3. generalize (String.length s) as n. intros n.
  induction l as [|c l IH]; [done | apply IH].
Qed.

(** The literals, in front of anything. *)
Lemma scan_value_literal n l v rest :
  (l, v) ∈ literals → scan_value (S n) (l +:+ rest) = Some (v, rest).
Proof.
  intros Hl. rewrite <- (str_drop_app l rest) at 2.
  repeat (apply elem_of_cons in Hl as [[= -> ->]|Hl]; [by destruct rest|]). by apply elem_of_nil in Hl.
Qed.

Lemma dumps_reads_back v : reads_back v.
Proof.
  induction v as [ |b|z|f|s|us|h|l Hl|d Hd] using val_nested_ind; intros Hok n rest Hn Hdel;
    (destruct n as [|n]; [cbn in Hn; lia|]).
  - apply scan_value_literal. apply list_elem_of_In. cbn. tauto.
  - destruct b; apply scan_value_literal; apply list_elem_of_In; cbn; tauto.
  - destruct (json_number_int z). by apply scan_value_token.
  - cbn [dumps jsonify]. apply json_float_finite in Hok as [[->|[[] ->]]|(-> & Hs & Hnum)];
      [apply scan_value_literal; apply list_elem_of_In; cbn; tauto..|].
    by apply scan_value_token.
  - apply scan_value_string.
  - apply scan_value_string.
  - apply scan_value_string.
  - cbn [dumps jsonify]. rewrite !sapp_assoc. destruct l as [|x l]; [done|].
    assert (head_ok (join ", " (map dumps (x :: l)))) as Hh.
    { cbn in Hok. apply andb_true_iff in Hok as [Hox _]. pose proof (dumps_head x Hox) as Hx.
      destruct l as [|z l]; [done|]. cbn [map]. rewrite join_cons. by destruct (dumps x). }
    cbn [need] in Hn. etransitivity; [|exact (scan_items_back x l n rest [] Hl Hok ltac:(lia))].
    change ("]" +:+ rest) with (String "]" rest).
    set (t := join _ _) in *. destruct t as [|c t]; [done|].
    destruct Hh as (Hc & Hc1 & _).
    change ("[" +:+ String c t +:+ String "]" rest) with (String "[" (String c (t +:+ String "]" rest))).
    cbn [scan_value]. change (Ascii.eqb "[" dq) with false. cbn iota.
    unfold skip_ws. cbn [drop_chars]. rewrite Hc. cbn iota.
    clear -Hc1. by destruct c as [[] [] [] [] [] [] [] []].
  - cbn [dumps jsonify]. rewrite !sapp_assoc. destruct d as [|[k x] d]; [done|].
    cbn [json_ok] in Hok. apply andb_true_iff in Hok as [Hnd Hok]. apply bool_decide_eq_true in Hnd.
    cbn [need] in Hn. etransitivity; [|exact (scan_members_back (k, x) d n rest [] Hd Hok Hnd ltac:(lia))].
    assert (∃ t, join ", " (map dump_member ((k, x) :: d)) = String dq t) as [t ->].
    { destruct d as [|ky d]; [by eexists|]. cbn [map]. rewrite join_cons. by eexists. }
    change ("{" +:+ String dq t +:+ "}" +:+ rest) with (String "{" (String dq (t +:+ String "}" rest))).
    change (String dq t +:+ String "}" rest) with (String dq (t +:+ String "}" rest)).
    cbn [scan_value]. change (Ascii.eqb "{" dq) with false. change (Ascii.eqb "{" "[") with false. done.
Qed.

(** The text is long enough to be its own fuel. *)
Lemma join_length (ls : list string) :
  ls ≠ [] → String.length (join ", " ls) = (sum_list (map String.length ls) + 2 * (length ls - 1))%nat.
Proof.
  intros Hne. destruct ls as [|x ls]; [done|]. clear Hne. revert x.
  induction ls as [|y ls IH]; intros x; [cbn; lia|].
  rewrite join_cons, !slength_app, IH. change (String.length ", ") with 2%nat. cbn [map length].
  change (sum_list_with id ?l) with (sum_list l). simpl. lia.
Qed.

Lemma sum_need_le (A : Type) (f : A → nat) (g : A → string) (l : list A) :
  Forall (fun x => (f x ≤ String.length (g x))%nat) l →
  (sum_need (map f l) ≤ String.length (join ", " (map g l)) + 1)%nat.
Proof.
  intros Hl.
  assert (sum_need (map f l) ≤ length l + sum_list (map String.length (map g l)))%nat as Hs.
  { induction Hl as [|y l' Hy _ IH]; simpl in *; lia. }
  destruct l as [|x l]; [cbn; lia|]. rewrite join_length by done. rewrite !length_map.
  cbn [length] in *. lia.
Qed.

Lemma need_length v : json_ok v = true → (need v ≤ String.length (dumps v))%nat.
Proof.
  induction v as [ |b|z|f|s|us|h|l Hl|d Hd] using val_nested_ind; intros Hok.
  1-7: cbn [need]; match goal with |- (1 ≤ String.length (dumps ?v))%nat =>
    pose proof (dumps_head v Hok) as Hh; destruct (dumps v); [done | cbn; lia] end.
  - cbn [need dumps]. rewrite !slength_app. cbn in Hok. rewrite forallb_forall in Hok.
    pose proof (sum_need_le _ need dumps l) as Hs. cbn [String.length].
    enough (Forall (fun x => (need x ≤ String.length (dumps x))%nat) l) by (specialize (Hs ltac:(done)); lia).
    rewrite list.Forall_forall in *. intros x Hx. apply Hl; [done|]. by apply Hok, list_elem_of_In.
  - cbn [need dumps]. rewrite !slength_app. cbn in Hok. apply andb_true_iff in Hok as [_ Hok].
    rewrite forallb_forall in Hok.
    pose proof (sum_need_le _ (fun kx => need (snd kx)) dump_member d) as Hs. cbn [String.length].
    enough (Forall (fun kx => (need (snd kx) ≤ String.length (dump_member kx))%nat) d)
      by (specialize (Hs ltac:(done)); lia).
    rewrite list.Forall_forall in *. intros x Hx. rewrite !slength_app.
    pose proof (Hd x Hx ltac:(by apply Hok, list_elem_of_In)). lia.
Qed.

(** Reading a printed value back: for every value whose floats read back
    and whose dicts have their keys once, [json.loads] of [json.dumps] is the
    value with object ids and datetimes as text. *)
Theorem json_roundtrip v : json_ok v = true → loads (dumps v) = Some (jsonify v).
Proof.
  intros Hok. unfold loads.
  assert (skip_ws (dumps v) = dumps v) as ->.
  { rewrite <- (sapp_nil (dumps v)) at 1. rewrite skip_ws_head by (by apply dumps_head). apply sapp_nil. }
  rewrite <- (sapp_nil (dumps v)) at 2.
  rewrite (dumps_reads_back v Hok); [done | | done]. pose proof (need_length v Hok). lia.
Qed.
