(* ===== verification/PyDecimal.v ===== *)
(** Python's [decimal.Decimal] as the services use it: construction from text,
    multiplication in the default context (28 digits, half to even), comparison,
    [to_integral_value], [normalize], and the conversion to [float].

    The exponents of literals are taken to lie within the limits of the C
    implementation (about [10^18]). *)

From Stdlib Require Import Ascii Floats.SpecFloat.
From S2P Require Import Prelude PyFloat Py.

Local Open Scope Z_scope.

(** [(-1)^neg * coeff * 10^exp], with [coeff] not negative. *)
Inductive decimal :=
| DFin (neg : bool) (coeff exp : Z)
| DInf (neg : bool)
| DNaN (signaling : bool).

Definition d_prec : Z := 28.
Definition d_emax : Z := 999999.
Definition d_etiny : Z := - 999999 - d_prec + 1.

Definition num_digits (c : Z) : Z := Z.of_nat (String.length (str_of_Z c)).

(** The exception of the default context's traps. *)
Definition InvalidOperation : exn := OtherError "decimal.InvalidOperation".
Definition decimal_overflow : exn := OtherError "decimal.Overflow".

(** ** Text *)

Fixpoint drop_underscores (s : string) : string :=
  match s with
  | EmptyString => EmptyString
  | String c s' => if Ascii.eqb c "_"%char then drop_underscores s' else String c (drop_underscores s')
  end.

(** [Decimal(s)]; [None] is InvalidOperation. *)
Definition parse_decimal (s : string) : option decimal :=
  let '(neg, r) := scan_sign (drop_underscores (strip s)) in
  let w := lower r in
  if str_in w ["inf"; "infinity"] then Some (DInf neg)
  else if startswith "nan" w then if str_all is_digit (str_drop 3 w) then Some (DNaN false) else None
  else if startswith "snan" w then if str_all is_digit (str_drop 4 w) then Some (DNaN true) else None
  else
    match scan_digits r 0 0 false with
    | Some (ip, n, rest) =>
        let '(m, nf, rest') :=
          match rest with
          | String c r' =>
              if Ascii.eqb c "."%char then
                match scan_digits r' 0 0 false with
                | Some (z, nf, rest') => (ip * 10 ^ nf + z, nf, rest')
                | None => (ip, 0, rest)
                end
              else (ip, 0, rest)
          | EmptyString => (ip, 0, rest)
          end in
        match scan_exponent rest' with
        | Some e => if n + nf =? 0 then None else Some (DFin neg m (e - nf))
        | None => None
        end
    | None => None
    end.

(** ** The context *)

(** Rounding of a result to the precision and exponent range of the context. *)
Definition d_fix (neg : bool) (c e : Z) : outcome decimal :=
  if c =? 0 then Ok (DFin neg 0 (Z.min (Z.max e d_etiny) d_emax))
  else
    let exp_min := num_digits c + e - d_prec in
    let e_top := d_emax - d_prec + 1 in
    if e_top <? exp_min then Raise decimal_overflow
    else
      let exp_min := Z.max exp_min d_etiny in
      if e <? exp_min then
        let c' := div_half_even c (10 ^ (exp_min - e)) in
        if d_prec <? num_digits c'
        then if e_top <? exp_min + 1 then Raise decimal_overflow else Ok (DFin neg (c' / 10) (exp_min + 1))
        else Ok (DFin neg c' exp_min)
      else Ok (DFin neg c e).

Definition d_mul (a b : decimal) : outcome decimal :=
  match a, b with
  | DNaN true, _ | _, DNaN true => Raise InvalidOperation
  | DNaN _, _ | _, DNaN _ => Ok (DNaN false)
  | DInf s, DInf t => Ok (DInf (xorb s t))
  | DInf s, DFin t c _ | DFin t c _, DInf s =>
      if c =? 0 then Raise InvalidOperation else Ok (DInf (xorb s t))
  | DFin s c e, DFin t c' e' => d_fix (xorb s t) (c * c') (e + e')
  end.

Fixpoint strip_zeros (fuel : nat) (c e : Z) : Z * Z :=
  match fuel with
  | O => (c, e)
  | S fuel' => if (c mod 10 =? 0) && (e <? d_emax) then strip_zeros fuel' (c / 10) (e + 1) else (c, e)
  end.

Definition d_normalize (a : decimal) : outcome decimal :=
  match a with
  | DNaN true => Raise InvalidOperation
  | DFin s c e =>
      match d_fix s c e with
      | Ok (DFin s' c' e') =>
          if c' =? 0 then Ok (DFin s' 0 0)
          else let '(c'', e'') := strip_zeros (Z.to_nat (num_digits c')) c' e' in Ok (DFin s' c'' e'')
      | o => o
      end
  | _ => Ok a
  end.

Definition d_to_integral (a : decimal) : outcome decimal :=
  match a with
  | DFin s c e => Ok (if 0 <=? e then a else DFin s (div_half_even c (10 ^ (- e))) 0)
  | DNaN true => Raise InvalidOperation
  | _ => Ok a
  end.

(** ** Comparison *)

Definition d_signed (neg : bool) (c : Z) : Z := if neg then - c else c.

(** The exact comparison of two numbers. *)
Definition d_compare (a b : decimal) : option comparison :=
  match a, b with
  | DNaN _, _ | _, DNaN _ => None
  | DInf s, DInf t => Some (if Bool.eqb s t then Eq else if s then Lt else Gt)
  | DInf s, _ => Some (if s then Lt else Gt)
  | _, DInf t => Some (if t then Gt else Lt)
  | DFin s c e, DFin t c' e' =>
      let m := Z.min e e' in
      Some (Z.compare (d_signed s c * 10 ^ (e - m)) (d_signed t c' * 10 ^ (e' - m)))
  end.

Definition d_signaling (a : decimal) : bool := match a with DNaN s => s | _ => false end.

(** [a == b]: a quiet NaN equals nothing, a signaling one raises. *)
Definition d_eq (a b : decimal) : outcome bool :=
  if d_signaling a || d_signaling b then Raise InvalidOperation
  else Ok (match d_compare a b with Some Eq => true | _ => false end).

(** [a <= b] raises for any NaN. *)
Definition d_le (a b : decimal) : outcome bool :=
  match d_compare a b with
  | None => Raise InvalidOperation
  | Some Gt => Ok false
  | Some _ => Ok true
  end.

Definition d_of_Z (z : Z) : decimal := DFin (z <? 0) (Z.abs z) 0.

(** [float(a)] *)
Definition d_to_float (a : decimal) : outcome float :=
  match a with
  | DFin s c e => Ok (let x := of_dec c e in if s then fneg x else x)
  | DInf s => Ok (S754_infinity s)
  | DNaN false => Ok S754_nan
  | DNaN true => Raise (ValueError "cannot convert signaling NaN to float")
  end.

Example parse_examples :
  (parse_decimal " 12.50 ", parse_decimal "-1e3", parse_decimal ".5", parse_decimal "1_0", parse_decimal "x",
   parse_decimal "NaN", parse_decimal "1.", parse_decimal "e3")
  = (Some (DFin false 1250 (-2)), Some (DFin true 1 3), Some (DFin false 5 (-1)), Some (DFin false 10 0), None,
     Some (DNaN false), Some (DFin false 1 0), None).
Proof. vm_compute. reflexivity. Qed.
