(* ===== verification/Cache.v ===== *)
(** The cache, [services/cache/manager.py] ([CacheService]): values stored as
    JSON text with a time of expiry, in Redis or, without it, in a bounded
    dictionary of the process.

    The dictionary keeps its insertion order; times of expiry are floats
    ([time.time() + ttl]).  The Redis branch swallows every exception of the
    driver, as the code does.  [clear_pattern] (glob matching), [initialize] and
    the Redis part of [get_status] (PING and INFO) are not modelled. *)

From stdpp Require Import gmap sorting.
From S2P Require Import Prelude PyFloat Py Json Redis Locks.

Local Open Scope Z_scope.
Local Open Scope stock_scope.

Record cache_config := CacheConfig {
  use_redis : bool;
  default_ttl : Z;
  max_memory_size : Z;
}.

(** What is stored under a key: the text and its expiry. *)
Abbreviation cache_entry := (string * float)%type.

Record cache_world (R : Type) := CW {
  _memory_cache : list (string * cache_entry);
  cw_tick : nat;
  cw_redis : redis_world R;
}.
Arguments CW {R}.
Arguments _memory_cache {R}.
Arguments cw_tick {R}.
Arguments cw_redis {R}.

(** [sorted(items, key=expiry)]: stable insertion. *)
Fixpoint insert_by_expiry (x : string * cache_entry) (l : list (string * cache_entry)) :=
  match l with
  | [] => [x]
  | y :: l' => if flt (snd (snd x)) (snd (snd y)) then x :: l else y :: insert_by_expiry x l'
  end.

Definition sort_by_expiry (l : list (string * cache_entry)) : list (string * cache_entry) :=
  fold_left (fun acc x => insert_by_expiry x acc) l [].

Definition delete_keys_of (ks : list string) (l : list (string * cache_entry)) : list (string * cache_entry) :=
  fold_left (fun l k => adel k l) ks l.

(** Room for one more: a fifth of the entries, and at least one, those that
    expire first. *)
Definition evict (max_size : Z) (l : list (string * cache_entry)) : list (string * cache_entry) :=
  if max_size <=? Z.of_nat (length l) then
    let sorted_items := sort_by_expiry l in
    let remove_count := Nat.max 1 (Nat.div (length sorted_items) 5) in
    delete_keys_of (map fst (firstn remove_count sorted_items)) l
  else l.

Section cache.
Context {R : Type} `{Redis R}.
(** [time.time()], the Redis server's clock and its driver's faults *)
Context (clock : nat → float) (server_clock : nat → Z) (faults : nat → fault).
Context (cfg : cache_config).
Abbreviation W := (cache_world R).

Definition on_redis {A} (m : M (redis_world R) A) : M W A := fun w =>
  let '(o, r) := m (cw_redis w) in (o, CW (_memory_cache w) (cw_tick w) r).

Definition read_time : M W float := fun w =>
  (Ok (clock (cw_tick w)), CW (_memory_cache w) (S (cw_tick w)) (cw_redis w)).

Definition set_memory (l : list (string * cache_entry)) : M W unit :=
  modify (fun w => CW l (cw_tick w) (cw_redis w)).

Definition _get_key (prefix key : string) : string := prefix +:+ ":" +:+ key.

Definition json_loads (s : string) : M W val :=
  match loads s with Some v => ret v | None => raise (ValueError "JSONDecodeError") end.

Definition cache_get (prefix key : string) : M W val :=
  let cache_key := _get_key prefix key in
  if use_redis cfg then
    try_except
      (do value <- on_redis (redis_get server_clock faults cache_key) ;;
       match value with
       | Some s => if String.eqb s "" then ret VNone else json_loads s
       | None => ret VNone
       end)
      (fun _ => ret VNone)
  else
    do memory <- gets _memory_cache ;;
    match aget cache_key memory with
    | Some (value, expiry) =>
        do now <- read_time ;;
        if fgt expiry now then json_loads value
        else run set_memory (adel cache_key memory) ;; ret VNone
    | None => ret VNone
    end.

(** [ttl or self.default_ttl] *)
Definition ttl_or_default (ttl : option Z) : Z :=
  match ttl with Some t => if t =? 0 then default_ttl cfg else t | None => default_ttl cfg end.

Definition cache_set (prefix key : string) (value : val) (ttl : option Z) : M W bool :=
  let cache_key := _get_key prefix key in
  let ttl := ttl_or_default ttl in
  let serialized := dumps value in
  if use_redis cfg then
    try_except
      (do _ <- on_redis (redis_set server_clock faults cache_key serialized ttl false) ;; ret true)
      (fun _ => ret false)
  else
    do memory <- gets _memory_cache ;;
    let memory := evict (max_memory_size cfg) memory in
    do now <- read_time ;;
    let expiry := fadd now (of_Z ttl) in
    run set_memory (aset cache_key (serialized, expiry) memory) ;;
    ret true.

Definition cache_delete (prefix key : string) : M W bool :=
  let cache_key := _get_key prefix key in
  if use_redis cfg then
    try_except
      (do count <- on_redis (redis_delete server_clock faults cache_key) ;; ret (0 <? count))
      (fun _ => ret false)
  else
    do memory <- gets _memory_cache ;;
    match aget cache_key memory with
    | Some _ => run set_memory (adel cache_key memory) ;; ret true
    | None => ret false
    end.

(** [DEL] of several keys *)
Fixpoint delete_all (keys : list string) (now : Z) : M R Z :=
  match keys with
  | [] => ret 0
  | k :: keys' => do n <- r_delete k now ;; do m <- delete_all keys' now ;; ret (n + m)
  end.

Definition clear_prefix (prefix : string) : M W Z :=
  let pattern := prefix +:+ ":" in
  if use_redis cfg then
    try_except
      (do keys <- on_redis (scan_all server_clock faults pattern (fun batch keys => ret (keys ++ batch)) []) ;;
       match keys with
       | [] => ret 0
       | _ => on_redis (command server_clock faults (delete_all keys))
       end)
      (fun _ => ret 0)
  else
    do memory <- gets _memory_cache ;;
    let keys_to_delete := List.filter (startswith pattern) (map fst memory) in
    run set_memory (delete_keys_of keys_to_delete memory) ;;
    ret (Z.of_nat (length keys_to_delete)).

(** The in-memory part of [get_status] and [get_stats]. *)
Definition memory_status (w : W) : doc :=
  [("type", VStr "memory"); ("status", VStr "healthy");
   ("details", VDict [("items_count", VInt (Z.of_nat (length (_memory_cache w))));
                      ("max_size", VInt (max_memory_size cfg))])].

Definition get_or_set (prefix key : string) (factory : M W val) (ttl : option Z) : M W val :=
  do value <- cache_get prefix key ;;
  if negb (is_none value) then ret value
  else
    do value <- factory ;;
    do _ <- cache_set prefix key value ttl ;;
    ret value.
End cache.

(** ** The dictionary stays within its bound *)

Lemma adel_length {A} k (l : list (string * A)) : (length (adel k l) ≤ length l)%nat.
Proof. induction l as [|[k1 v] l IH]; simpl; [done|]. destruct (String.eqb k k1); simpl; lia. Qed.

Lemma delete_keys_length ks l : (length (delete_keys_of ks l) ≤ length l)%nat.
Proof.
  revert l. induction ks as [|k ks IH]; intros l; [done|].
  cbn [delete_keys_of fold_left]. pose proof (IH (adel k l)). pose proof (adel_length k l).
  unfold delete_keys_of in *. lia.
Qed.

Lemma aset_length_exact {A} k (v : A) l :
  length (aset k v l) = (length l + match aget k l with Some _ => 0 | None => 1 end)%nat.
Proof.
  induction l as [|[k1 v1] l IH]; [done|]. cbn [aset aget].
  destruct (String.eqb k k1); cbn [length]; lia.
Qed.

Lemma aset_length {A} k (v : A) l : (length (aset k v l) ≤ S (length l))%nat.
Proof. rewrite aset_length_exact. destruct (aget k l); lia. Qed.

Lemma adel_present {A} k (l : list (string * A)) : k ∈ map fst l → (length (adel k l) < length l)%nat.
Proof.
  induction l as [|[k1 v1] l IH]; simpl; intros Hk; [by apply elem_of_nil in Hk|].
  destruct (String.eqb_spec k k1) as [->|Hne]; [pose proof (adel_length k1 l); lia|].
  apply elem_of_cons in Hk as [?|Hk]; [done|]. specialize (IH Hk). simpl. lia.
Qed.

Lemma insert_by_expiry_perm x l : insert_by_expiry x l ≡ₚ x :: l.
Proof.
  induction l as [|y l IH]; simpl; [done|]. destruct (flt _ _); [done|].
  rewrite IH. apply Permutation_swap.
Qed.

Lemma sort_by_expiry_perm l : sort_by_expiry l ≡ₚ l.
Proof.
  unfold sort_by_expiry.
  assert (∀ acc, fold_left (fun acc x => insert_by_expiry x acc) l acc ≡ₚ l ++ acc) as Hp.
  { induction l as [|x l IH]; intros acc; simpl; [done|].
    rewrite IH, insert_by_expiry_perm. symmetry. apply Permutation_middle. }
  rewrite Hp. by rewrite app_nil_r.
Qed.

(** An eviction makes room unless there was nothing to evict. *)
Lemma evict_length max_size l :
  Z.of_nat (length l) <= Z.max 1 max_size → Z.of_nat (length (evict max_size l)) + 1 <= Z.max 1 max_size.
Proof.
  intros Hl. unfold evict. destruct (Z.leb_spec max_size (Z.of_nat (length l))); [|lia].
  pose proof (sort_by_expiry_perm l) as Hp. destruct (sort_by_expiry l) as [|[k e] l'].
  - apply Permutation_nil in Hp as ->. simpl in *. lia.
  - assert (k ∈ map fst l) as Hk by (rewrite <- Hp; left).
    destruct (Nat.max 1 _) as [|n] eqn:En; [lia|]. cbn [firstn map fst delete_keys_of fold_left].
    pose proof (delete_keys_length (map fst (firstn n l')) (adel k l)). unfold delete_keys_of in *.
    pose proof (adel_present k l Hk). lia.
Qed.

(** ** Any sequence of calls *)

Inductive cache_call :=
| CGet (prefix key : string)
| CSet (prefix key : string) (value : val) (ttl : option Z)
| CDelete (prefix key : string)
| CClear (prefix : string)
| CGetOrSet (prefix key : string) (computed : outcome val) (ttl : option Z).

Section serve_cache.
Context {R : Type} `{Redis R}.
Context (clock : nat → float) (server_clock : nat → Z) (faults : nat → fault) (cfg : cache_config).
Abbreviation W := (cache_world R).

Definition serve_cache (c : cache_call) (w : W) : W :=
  match c with
  | CGet p k => snd (cache_get clock server_clock faults cfg p k w)
  | CSet p k v t => snd (cache_set clock server_clock faults cfg p k v t w)
  | CDelete p k => snd (cache_delete server_clock faults cfg p k w)
  | CClear p => snd (clear_prefix server_clock faults cfg p w)
  | CGetOrSet p k o t => snd (get_or_set clock server_clock faults cfg p k (lift o) t w)
  end.

(** The dictionary has at most the configured number of entries. *)
Definition bounded (w : W) : Prop :=
  Z.of_nat (length (_memory_cache w)) <= Z.max 1 (max_memory_size cfg).

Definition keeps_bounded {A} (m : M W A) : Prop := ∀ w, bounded w → bounded (snd (m w)).

Lemma bounded_bind {A B} (m : M W A) (f : A → M W B) :
  keeps_bounded m → (∀ a, keeps_bounded (f a)) → keeps_bounded (bind m f).
Proof.
  intros Hm Hf w Hw. specialize (Hm w Hw). unfold bind. destruct (m w) as [[a|e] w1]; [|done].
  by apply Hf.
Qed.

Lemma bounded_try {A} (m : M W A) h :
  keeps_bounded m → (∀ e, keeps_bounded (h e)) → keeps_bounded (try_except m h).
Proof.
  intros Hm Hf w Hw. specialize (Hm w Hw). unfold try_except. destruct (m w) as [[a|e] w1]; [done|].
  by apply Hf.
Qed.

Lemma bounded_same {A} (m : M W A) : (∀ w, _memory_cache (snd (m w)) = _memory_cache w) → keeps_bounded m.
Proof. intros Hm w Hw. unfold bounded. by rewrite Hm. Qed.

Lemma bounded_redis {A} (m : M (redis_world R) A) : keeps_bounded (on_redis m).
Proof. apply bounded_same. intros w. unfold on_redis. by destruct (m _). Qed.

Lemma bounded_get p k : keeps_bounded (cache_get clock server_clock faults cfg p k).
Proof.
  unfold cache_get. destruct (use_redis cfg).
  - apply bounded_try; [|by intros; apply bounded_same]. apply bounded_bind; [apply bounded_redis|].
    intros [s|]; [|by apply bounded_same]. destruct (String.eqb s ""); [by apply bounded_same|].
    unfold json_loads. destruct (loads s); by apply bounded_same.
  - intros w Hw. unfold bind, gets. destruct (aget _ _) as [[value expiry]|]; [|done].
    unfold read_time. cbn. destruct (fgt _ _).
    + unfold json_loads. by destruct (loads value).
    + unfold bounded in *. cbn. pose proof (adel_length (_get_key p k) (_memory_cache w)). lia.
Qed.

Lemma bounded_set p k v t : keeps_bounded (cache_set clock server_clock faults cfg p k v t).
Proof.
  unfold cache_set. destruct (use_redis cfg).
  - apply bounded_try; [|by intros; apply bounded_same].
    apply bounded_bind; [apply bounded_redis | intros; by apply bounded_same].
  - intros w Hw. unfold bounded in *. cbn.
    pose proof (evict_length _ _ Hw). pose proof (aset_length (_get_key p k)
      (dumps v, fadd (clock (cw_tick w)) (of_Z (ttl_or_default cfg t))) (evict (max_memory_size cfg) (_memory_cache w))).
    lia.
Qed.

Lemma serve_cache_bounded c w : bounded w → bounded (serve_cache c w).
Proof.
  intros Hw. destruct c as [p k|p k v t|p k|p|p k o t]; cbn [serve_cache].
  - by apply bounded_get.
  - by apply bounded_set.
  - unfold cache_delete. destruct (use_redis cfg).
    + apply bounded_try; [|by intros; apply bounded_same | done].
      apply bounded_bind; [apply bounded_redis | intros; by apply bounded_same].
    + unfold bind, gets. destruct (aget _ _); [|done]. unfold bounded in *. cbn.
      pose proof (adel_length (_get_key p k) (_memory_cache w)). lia.
  - unfold clear_prefix. destruct (use_redis cfg).
    + apply bounded_try; [|by intros; apply bounded_same | done].
      apply bounded_bind; [apply bounded_redis|]. intros []; [by apply bounded_same | apply bounded_redis].
    + unfold bounded in *. cbn.
      pose proof (delete_keys_length (List.filter (startswith (p +:+ ":")) (map fst (_memory_cache w))) (_memory_cache w)).
      lia.
  - unfold get_or_set. apply bounded_bind; [apply bounded_get | | done]. intros v.
    destruct (negb _); [by apply bounded_same|]. apply bounded_bind; [by apply bounded_same|]. intros v'.
    apply bounded_bind; [apply bounded_set | intros; by apply bounded_same].
Qed.

(** The memory of the cache is bounded: whatever the sequence of calls, the
    dictionary never has more than [max_memory_size] entries (one, if that is
    not positive). *)
Theorem cache_bounded calls w :
  _memory_cache w = [] → bounded (fold_left (fun w c => serve_cache c w) calls w).
Proof.
  intros Hw. assert (bounded w) as Hb by (unfold bounded; rewrite Hw; simpl; lia). clear Hw.
  revert w Hb. induction calls as [|c calls IH]; intros w Hb; [done|]. apply IH. by apply serve_cache_bounded.
Qed.
End serve_cache.

(** ** Storing and reading in memory *)

Section memory.
Context {R : Type} `{RedisLaws R}.
Context (clock : nat → float) (server_clock : nat → Z) (faults : nat → fault) (cfg : cache_config).
Abbreviation W := (cache_world R).
Implicit Types (w : W).

(** The state after storing in the dictionary. *)
Lemma memory_set p k v t w :
  use_redis cfg = false →
  cache_set clock server_clock faults cfg p k v t w =
    (Ok true, CW (aset (_get_key p k) (dumps v, fadd (clock (cw_tick w)) (of_Z (ttl_or_default cfg t)))
                    (evict (max_memory_size cfg) (_memory_cache w)))
                (S (cw_tick w)) (cw_redis w)).
Proof. intros Hr. unfold cache_set. by rewrite Hr. Qed.

(** An entry that has not expired is read. *)
Lemma memory_read p k text v expiry w :
  use_redis cfg = false → loads text = Some v →
  aget (_get_key p k) (_memory_cache w) = Some (text, expiry) → fgt expiry (clock (cw_tick w)) = true →
  cache_get clock server_clock faults cfg p k w = (Ok v, CW (_memory_cache w) (S (cw_tick w)) (cw_redis w)).
Proof.
  intros Hr Hv Ha He. unfold cache_get, gets, bind. rewrite Hr, Ha. unfold read_time. cbn iota beta.
  rewrite He. unfold json_loads. by rewrite Hv.
Qed.

Lemma memory_get p k v expiry w :
  use_redis cfg = false → json_ok v = true →
  aget (_get_key p k) (_memory_cache w) = Some (dumps v, expiry) → fgt expiry (clock (cw_tick w)) = true →
  cache_get clock server_clock faults cfg p k w =
    (Ok (jsonify v), CW (_memory_cache w) (S (cw_tick w)) (cw_redis w)).
Proof. intros Hr Hv. apply memory_read; [done | by apply json_roundtrip]. Qed.

(** An expired entry is dropped and never returned. *)
Lemma memory_get_expired p k text expiry w :
  use_redis cfg = false → aget (_get_key p k) (_memory_cache w) = Some (text, expiry) →
  fgt expiry (clock (cw_tick w)) = false →
  ∃ w', cache_get clock server_clock faults cfg p k w = (Ok VNone, w') ∧
    aget (_get_key p k) (_memory_cache w') = None.
Proof.
  intros Hr Ha He. unfold cache_get, gets, bind. rewrite Hr, Ha. unfold read_time. cbn iota beta.
  rewrite He. eexists. split; [done|]. cbn. by rewrite aget_adel, String.eqb_refl.
Qed.

End memory.

(** ** What an eviction leaves *)

(** How many entries expire strictly before [e]. *)
Definition expiring_before (e : float) (l : list (string * cache_entry)) : nat :=
  length (List.filter (fun x => flt (snd (snd x)) e) l).

(** One more entry can be stored without dropping an entry that expires at
    [e]: the dictionary is not full, or as many entries as are dropped expire
    before [e]. *)
Definition out_of_reach (max_size : Z) (e : float) (l : list (string * cache_entry)) : bool :=
  (Z.of_nat (length l) <? max_size) || (Nat.max 1 (Nat.div (length l) 5) <=? expiring_before e l)%nat.

Section eviction.
Implicit Types (x y : string * cache_entry) (l : list (string * cache_entry)).

(** In the sorted list nothing expires before an entry that precedes it. *)
Definition not_after x y : Prop := flt (snd (snd y)) (snd (snd x)) = false.

Lemma insert_sorted x l : StronglySorted not_after l → StronglySorted not_after (insert_by_expiry x l).
Proof.
  induction 1 as [|y l Hl IH Hy]; simpl; [by repeat constructor|].
  destruct (flt (snd (snd x)) (snd (snd y))) eqn:E.
  - constructor; [by constructor|]. constructor; [by apply flt_asym|].
    eapply list.Forall_impl; [exact Hy|]. intros z Hz. unfold not_after in *.
    destruct (flt (snd (snd z)) (snd (snd x))) eqn:Ez; [|done]. by rewrite (flt_trans _ _ _ Ez E) in Hz.
  - constructor; [done|]. rewrite insert_by_expiry_perm. by constructor.
Qed.

Lemma sort_sorted l : StronglySorted not_after (sort_by_expiry l).
Proof.
  unfold sort_by_expiry. assert (StronglySorted not_after []) as Hs by constructor. revert Hs.
  generalize (@nil (string * cache_entry)). induction l as [|x l IH]; intros acc Hacc; [done|].
  apply IH. by apply insert_sorted.
Qed.

Lemma filter_length_perm (f : string * cache_entry → bool) l l' :
  l ≡ₚ l' → length (List.filter f l) = length (List.filter f l').
Proof. induction 1; simpl; repeat (destruct (f _)); simpl; congruence. Qed.

(** The entries that expire before another one precede it. *)
Lemma sorted_before x l l1 l2 :
  sort_by_expiry l = l1 ++ x :: l2 → (expiring_before (snd (snd x)) l ≤ length l1)%nat.
Proof.
  intros Hl. unfold expiring_before. rewrite <- (filter_length_perm _ _ _ (sort_by_expiry_perm l)).
  pose proof (sort_sorted l) as Hs. rewrite Hl in *. apply StronglySorted_app_1_r in Hs.
  inversion Hs as [|? ? _ Hafter]; subst. rewrite List.filter_app. simpl. rewrite flt_irrefl, length_app.
  assert (List.filter (fun y => flt (snd (snd y)) (snd (snd x))) l2 = []) as ->.
  { clear -Hafter. induction Hafter as [|y l2 Hy _ IH]; [done|]. simpl. by rewrite Hy. }
  pose proof (List.filter_length_le (fun y => flt (snd (snd y)) (snd (snd x))) l1). simpl. lia.
Qed.

Lemma aget_delete_keys ks k l : k ∉ ks → aget k (delete_keys_of ks l) = aget k l.
Proof.
  unfold delete_keys_of. revert l. induction ks as [|k1 ks IH]; intros l Hk; [done|].
  apply not_elem_of_cons in Hk as [Hne Hk]. cbn [fold_left]. rewrite IH by done.
  rewrite aget_adel. by destruct (String.eqb_spec k1 k); [congruence|].
Qed.

(** An entry out of reach of the eviction is still there afterwards. *)
Lemma evict_spares max_size k text e l :
  NoDup (map fst l) → aget k l = Some (text, e) → out_of_reach max_size e l = true →
  aget k (evict max_size l) = Some (text, e).
Proof.
  intros Hnd Hk Hout. unfold evict, out_of_reach in *.
  destruct (Z.leb_spec max_size (Z.of_nat (length l))); [|done].
  destruct (Z.ltb_spec (Z.of_nat (length l)) max_size); [lia|]. apply Nat.leb_le in Hout.
  rewrite aget_delete_keys; [done|]. pose proof (sort_by_expiry_perm l) as Hp.
  apply aget_In, list_elem_of_In in Hk. rewrite <- Hp in Hk, Hnd.
  apply list_elem_of_split in Hk as (l1 & l2 & Hl).
  pose proof (sorted_before _ _ _ _ Hl) as Hbefore. cbn [snd] in Hbefore.
  rewrite (Permutation_length Hp), Hl, firstn_app.
  replace (Nat.max 1 (Nat.div (length l) 5) - length l1)%nat with O by lia.
  rewrite firstn_O, app_nil_r. rewrite Hl, map_app in Hnd. apply list.NoDup_app in Hnd as (_ & Hnd & _).
  intros Hin. apply (Hnd k); [|left].
  apply list_elem_of_In, in_map_iff in Hin as (y & <- & Hy). apply list_elem_of_In, in_map.
  rewrite <- (firstn_skipn (Nat.max 1 (Nat.div (length l) 5)) l1). apply in_or_app. by left.
Qed.

(** A dictionary has each key once. *)
Lemma adel_keys k l : NoDup (map fst l) → NoDup (map fst (adel k l)).
Proof.
  induction l as [|[k1 v1] l IH]; simpl; intros Hnd; [constructor|].
  apply list.NoDup_cons in Hnd as [Hk Hnd]. destruct (String.eqb k k1); [by apply IH|]. simpl.
  constructor; [|by apply IH]. rewrite <- !aget_None, aget_adel in *. by destruct (String.eqb k k1).
Qed.

Lemma delete_keys_keys ks l : NoDup (map fst l) → NoDup (map fst (delete_keys_of ks l)).
Proof.
  unfold delete_keys_of. revert l. induction ks as [|k ks IH]; intros l Hl; [done|]. by apply IH, adel_keys.
Qed.

Lemma evict_keys max_size l : NoDup (map fst l) → NoDup (map fst (evict max_size l)).
Proof. intros Hl. unfold evict. destruct (_ <=? _); [by apply delete_keys_keys | done]. Qed.

Lemma aset_keys k (v : cache_entry) l : NoDup (map fst l) → NoDup (map fst (aset k v l)).
Proof.
  assert (map fst (aset k v l) = map fst l ∨ map fst (aset k v l) = map fst l ++ [k] ∧ k ∉ map fst l) as [->|[-> Hk]].
  { induction l as [|[k1 v1] l IH]; simpl; [right; split; [done | apply not_elem_of_nil]|].
    destruct (String.eqb_spec k k1) as [->|Hne]; [by left|]. simpl.
    destruct IH as [->|[-> Hk]]; [by left | right]. split; [done|]. by apply not_elem_of_cons. }
  - done.
  - intros Hl. apply list.NoDup_app. split; [done|]. split; [|apply NoDup_singleton].
    intros x Hx Hk'%list_elem_of_singleton. by subst.
Qed.
End eviction.

(** ** Calls that leave an entry alone *)

(** The calls that store, drop or clear a key. *)
Definition touches (key : string) (c : cache_call) : bool :=
  match c with
  | CGet _ _ => false
  | CSet p k _ _ | CDelete p k | CGetOrSet p k _ _ => String.eqb (_get_key p k) key
  | CClear p => startswith (p +:+ ":") key
  end.

Definition call_ttl (cfg : cache_config) (c : cache_call) : Z :=
  match c with CSet _ _ _ t | CGetOrSet _ _ _ t => ttl_or_default cfg t | _ => 0 end.

Section leaving.
Context {R : Type} `{RedisLaws R}.
Context (clock : nat → float) (server_clock : nat → Z) (faults : nat → fault) (cfg : cache_config).
Abbreviation W := (cache_world R).
Abbreviation serve := (serve_cache clock server_clock faults cfg).
Implicit Types (w : W).

Definition serve_calls (calls : list cache_call) (w : W) : W := fold_left (fun w c => serve c w) calls w.

(** The text stored under [key] and its expiry, in the dictionary. *)
Context (key text : string) (e : float).
Definition in_memory w : Prop :=
  NoDup (map fst (_memory_cache w)) ∧ aget key (_memory_cache w) = Some (text, e).

(** No reading of the clock so far has reached [e]. *)
Definition unexpired (w w' : W) : Prop :=
  ∀ n, (cw_tick w ≤ n ≤ cw_tick w')%nat → fgt e (clock n) = true.

(** Storing does not drop an entry that expires at [e]. *)
Definition room_for (c : cache_call) w : bool :=
  match c with
  | CSet _ _ _ _ => out_of_reach (max_memory_size cfg) e (_memory_cache w)
  | CGetOrSet p k _ _ =>
      match cache_get clock server_clock faults cfg p k w with
      | (Ok VNone, w1) => out_of_reach (max_memory_size cfg) e (_memory_cache w1)
      | _ => true
      end
  | _ => true
  end.

Fixpoint never_evicted (calls : list cache_call) w : bool :=
  match calls with
  | [] => true
  | c :: calls => room_for c w && never_evicted calls (serve c w)
  end.

(** What a call that leaves the entry does: time passes and it is still there. *)
Definition left_in_memory w w' : Prop :=
  (cw_tick w ≤ cw_tick w')%nat ∧ (in_memory w → unexpired w w' → in_memory w').

Lemma left_same w w' : _memory_cache w' = _memory_cache w → (cw_tick w ≤ cw_tick w')%nat → left_in_memory w w'.
Proof. intros Hm Ht. split; [done|]. unfold in_memory. by rewrite Hm. Qed.

Lemma left_without w k n r :
  k ≠ key → (cw_tick w ≤ n)%nat → left_in_memory w (CW (adel k (_memory_cache w)) n r).
Proof.
  intros Hk Hn. split; [done|]. intros [Hnd Ha] _. split; [by apply adel_keys|].
  cbn. rewrite aget_adel. by destruct (String.eqb_spec k key).
Qed.

Context (in_memory_mode : use_redis cfg = false).

Lemma get_leaves p k w : left_in_memory w (snd (cache_get clock server_clock faults cfg p k w)).
Proof.
  unfold cache_get, bind, gets. rewrite in_memory_mode.
  destruct (aget (_get_key p k) (_memory_cache w)) as [[v x]|] eqn:Ea; [|by apply left_same].
  unfold read_time. cbn iota beta. destruct (fgt x (clock (cw_tick w))) eqn:Ef.
  - unfold json_loads. destruct (loads v); apply left_same; cbn; (done || lia).
  - cbn. destruct (String.eqb_spec (_get_key p k) key) as [Hk|Hk]; [|apply left_without; [done | lia]].
    split; [cbn; lia|]. intros [_ Hm] Hun. rewrite Hk, Hm in Ea. simplify_eq.
    rewrite (Hun (cw_tick w)) in Ef by (cbn; lia). done.
Qed.

Lemma set_leaves p k v t w :
  _get_key p k ≠ key → out_of_reach (max_memory_size cfg) e (_memory_cache w) = true →
  left_in_memory w (snd (cache_set clock server_clock faults cfg p k v t w)).
Proof.
  intros Hk Hroom. rewrite memory_set by done. split; [cbn; lia|]. intros [Hnd Ha] _.
  split; cbn; [by apply aset_keys, evict_keys|]. rewrite aget_aset_ne by done. by apply evict_spares.
Qed.

Lemma left_trans w w1 w2 : left_in_memory w w1 → left_in_memory w1 w2 → left_in_memory w w2.
Proof.
  intros [Ht1 H1] [Ht2 H2]. split; [lia|]. intros Hm Hun.
  apply H2; [apply H1; [done|]|]; intros n Hn; apply Hun; lia.
Qed.

Lemma call_leaves c w : touches key c = false → room_for c w = true → left_in_memory w (serve c w).
Proof.
  intros Hc Hroom. destruct c as [p k|p k v t|p k|p|p k o t]; cbn [serve_cache touches room_for] in *.
  - apply get_leaves.
  - apply set_leaves; [by apply String.eqb_neq | done].
  - apply String.eqb_neq in Hc. unfold cache_delete, bind, gets. rewrite in_memory_mode.
    destruct (aget _ _); [by apply left_without | by apply left_same].
  - unfold clear_prefix, bind, gets. rewrite in_memory_mode. cbn. split; [done|]. intros [Hnd Ha] _.
    split; cbn; [by apply delete_keys_keys|]. rewrite aget_delete_keys; [done|].
    rewrite list_elem_of_In, filter_In. intros [_ Hs]. congruence.
  - apply String.eqb_neq in Hc. unfold get_or_set, bind. pose proof (get_leaves p k w) as Hget.
    destruct (cache_get _ _ _ _ p k w) as [[v|x] w1]; [|done]. cbn [snd] in Hget.
    destruct v; cbn [negb is_none]; try done. destruct o as [v|x]; [|done].
    pose proof (set_leaves p k v t w1 Hc Hroom) as Hset. cbn [lift ret].
    destruct (cache_set _ _ _ _ p k v t w1) as [[b|x] w2]; exact (left_trans _ _ _ Hget Hset).
Qed.

Lemma calls_leave calls w :
  Forall (fun c => touches key c = false) calls → never_evicted calls w = true →
  left_in_memory w (serve_calls calls w).
Proof.
  intros Hc. revert w. induction Hc as [|c calls Hc _ IH]; intros w Hev; [by apply left_same|].
  cbn [never_evicted serve_calls fold_left] in *. bool_hyps. eapply left_trans; [by apply call_leaves | by apply IH].
Qed.
End leaving.

Section leaving_redis.
Context {R : Type} `{RedisLaws R}.
Context (clock : nat → float) (server_clock : nat → Z) (faults : nat → fault) (cfg : cache_config).
Context (server_clock_mono : ∀ i j, (i ≤ j)%nat → server_clock i <= server_clock j).
Context (key text : string) (expiry : Z).
Abbreviation W := (cache_world R).
Abbreviation serve := (serve_cache clock server_clock faults cfg).
Implicit Types (w : W).

(** The entry stays on the server, as [preserves] of the lock manager's
    commands says, whatever the driver does. *)
Definition left_on_server w w' : Prop :=
  let r := cw_redis w in let r' := cw_redis w' in
  (rw_tick r ≤ rw_tick r')%nat ∧
  (key_entry server_clock r key = Some (RStr text, Some expiry) → server_clock (rw_tick r') <= expiry →
   key_entry server_clock r' key = Some (RStr text, Some expiry)).

Definition leaves {A} (m : M W A) : Prop := ∀ w, left_on_server w (snd (m w)).

Lemma left_on_server_trans w w1 w2 : left_on_server w w1 → left_on_server w1 w2 → left_on_server w w2.
Proof.
  intros [Ht Hh] [Ht' Hh']. split; [lia|]. intros Hheld Hexp. apply Hh'; [|done]. apply Hh; [done|].
  pose proof (server_clock_mono _ _ Ht'). lia.
Qed.

Lemma leaves_redis {A} (m : M (redis_world R) A) :
  preserves server_clock key text expiry m → leaves (on_redis m).
Proof. intros Hm w. specialize (Hm (cw_redis w)). unfold on_redis. by destruct (m (cw_redis w)). Qed.

Lemma leaves_same {A} (m : M W A) : (∀ w, cw_redis (snd (m w)) = cw_redis w) → leaves m.
Proof. intros Hm w. unfold left_on_server. by rewrite Hm. Qed.

Lemma leaves_bind {A B} (m : M W A) (f : A → M W B) : leaves m → (∀ a, leaves (f a)) → leaves (bind m f).
Proof.
  intros Hm Hf w. specialize (Hm w). unfold bind. destruct (m w) as [[a|x] w1]; [|done].
  by eapply left_on_server_trans, Hf.
Qed.

Lemma leaves_try {A} (m : M W A) h : leaves m → (∀ x, leaves (h x)) → leaves (try_except m h).
Proof.
  intros Hm Hf w. specialize (Hm w). unfold try_except. destruct (m w) as [[a|x] w1]; [done|].
  by eapply left_on_server_trans, Hf.
Qed.

Lemma keeps_delete_all now keys : key ∉ keys → keeps (R:=R) key text expiry now (delete_all keys now).
Proof.
  induction keys as [|k keys IH]; intros Hk; cbn [delete_all]; [auto with locks|].
  apply not_elem_of_cons in Hk as [Hne Hk]. apply keeps_bind; [by auto with locks|]. intros n.
  apply keeps_bind; [by apply IH | auto with locks].
Qed.

Context (in_redis : use_redis cfg = true).

Lemma get_leaves_redis p k : leaves (cache_get clock server_clock faults cfg p k).
Proof.
  unfold cache_get. rewrite in_redis. apply leaves_try; [|intros; by apply leaves_same].
  apply leaves_bind.
  - apply leaves_redis, preserves_command; [done|]. intros. auto with locks.
  - intros [s|]; [|by apply leaves_same]. destruct (String.eqb s ""); [by apply leaves_same|].
    unfold json_loads. destruct (loads s); by apply leaves_same.
Qed.

Lemma set_leaves_redis p k v t :
  _get_key p k ≠ key → ttl_or_default cfg t <= max_ttl → leaves (cache_set clock server_clock faults cfg p k v t).
Proof.
  intros Hk Ht. unfold cache_set. rewrite in_redis. apply leaves_try; [|intros; by apply leaves_same].
  apply leaves_bind; [|intros; by apply leaves_same].
  apply leaves_redis, preserves_command; [done|]. intros. auto with locks.
Qed.

(** The keys an iteration collects match its pattern. *)
Lemma scan_loop_keys fuel pre cur acc r keys r' :
  Forall (fun k => startswith pre k = true) acc →
  scan_loop (R:=R) server_clock faults fuel pre (fun batch keys => ret (keys ++ batch)) cur acc r = (Ok keys, r') →
  Forall (fun k => startswith pre k = true) keys.
Proof.
  revert cur acc r. induction fuel as [|fuel IH]; intros cur acc r Hacc; cbn [scan_loop]; [done|].
  unfold bind at 1. unfold redis_scan, command.
  destruct (scan_reads cur pre (server_clock (rw_tick r)) (rw_store r)) as (cur' & b & Hs & _ & Hb).
  destruct (faults (rw_tick r)); [rewrite Hs|done|done]. cbn beta iota. unfold bind, ret at 1.
  assert (Forall (fun k => startswith pre k = true) (acc ++ b)) by by apply list.Forall_app.
  destruct (cur' =? 0); [unfold ret; intros; by simplify_eq | by apply IH].
Qed.

Lemma call_leaves_redis c w :
  touches key c = false → call_ttl cfg c <= max_ttl → left_on_server w (serve c w).
Proof.
  intros Hc Ht. destruct c as [p k|p k v t|p k|p|p k o t]; cbn [serve_cache touches call_ttl] in *;
    try apply String.eqb_neq in Hc.
  - apply get_leaves_redis.
  - by apply set_leaves_redis.
  - unfold cache_delete. rewrite in_redis. apply leaves_try; [|intros; by apply leaves_same].
    apply leaves_bind; [|intros; by apply leaves_same].
    apply leaves_redis, preserves_command; [done|]. intros. by auto with locks.
  - revert w. unfold clear_prefix. rewrite in_redis. apply leaves_try; [|intros; by apply leaves_same].
    intros w. set (scan := on_redis _). assert (leaves scan) as Hscan.
    { apply leaves_redis, preserves_scan_loop; [done|]. intros. auto with locks. }
    specialize (Hscan w). unfold bind. destruct (scan w) as [[keys|x] w1] eqn:Es; [|done].
    assert (key ∉ keys) as Hkeys.
    { unfold scan, on_redis in Es. destruct (scan_all _ _ _ _ _ (cw_redis w)) as [o r] eqn:El.
      injection Es as -> <-. eapply scan_loop_keys in El; [|constructor].
      intros Hin. rewrite list.Forall_forall in El. specialize (El _ Hin). congruence. }
    destruct keys as [|k1 keys]; [done|].
    eapply left_on_server_trans; [exact Hscan|]. apply leaves_redis, preserves_command; [done|].
    intros. by apply keeps_delete_all.
  - apply leaves_bind; [apply get_leaves_redis|]. intros v. destruct (negb _); [by apply leaves_same|].
    apply leaves_bind; [by apply leaves_same|]. intros v'.
    apply leaves_bind; [by apply set_leaves_redis | intros; by apply leaves_same].
Qed.

Lemma calls_leave_redis calls w :
  Forall (fun c => touches key c = false ∧ call_ttl cfg c <= max_ttl) calls →
  left_on_server w (serve_calls clock server_clock faults cfg calls w).
Proof.
  intros Hc. revert w. induction Hc as [|c calls [Hc Ht] _ IH]; intros w; [done|].
  cbn [serve_calls fold_left]. eapply left_on_server_trans; [by apply call_leaves_redis | apply IH].
Qed.
End leaving_redis.

(** ** What is stored is read back *)

Section roundtrip.
Context {R : Type} `{RedisLaws R}.
Context (clock : nat → float) (server_clock : nat → Z) (faults : nat → fault) (cfg : cache_config).
Abbreviation W := (cache_world R).
Implicit Types (w : W).

(** After storing from [w], which led to [w1], and [calls]: on the server, its
    clock never goes back and has not reached the expiry when the value is
    read, and the driver works then; in memory, no reading of the clock has
    reached the expiry and no call stored when the entry was among those to
    evict. *)
Definition still_fresh (ttl : option Z) (calls : list cache_call) w w1 : Prop :=
  let t := ttl_or_default cfg ttl in
  let w2 := serve_calls clock server_clock faults cfg calls w1 in
  if use_redis cfg then
    (∀ i j, (i ≤ j)%nat → server_clock i <= server_clock j) ∧
    t <= max_ttl ∧ Forall (fun c => call_ttl cfg c <= max_ttl) calls ∧
    server_clock (rw_tick (cw_redis w2)) <= server_clock (rw_tick (cw_redis w)) + 1000 * t ∧
    faults (rw_tick (cw_redis w2)) = NoFault
  else
    let e := fadd (clock (cw_tick w)) (of_Z t) in
    NoDup (map fst (_memory_cache w)) ∧ unexpired clock e w1 w2 ∧
    never_evicted clock server_clock faults cfg e calls w1 = true.

Lemma loads_nonempty text v : loads text = Some v → String.eqb text "" = false.
Proof. by destruct text. Qed.

(** A reported success on the server: the text is stored with its expiry. *)
Lemma redis_stored p k v ttl w w1 :
  use_redis cfg = true → ttl_or_default cfg ttl <= max_ttl →
  (∀ i j, (i ≤ j)%nat → server_clock i <= server_clock j) →
  cache_set clock server_clock faults cfg p k v ttl w = (Ok true, w1) →
  let expiry := server_clock (rw_tick (cw_redis w)) + 1000 * ttl_or_default cfg ttl in
  server_clock (rw_tick (cw_redis w1)) <= expiry →
  key_entry server_clock (cw_redis w1) (_get_key p k) = Some (RStr (dumps v), Some expiry).
Proof.
  intros Hr Ht Hmono Hset expiry Hexp. revert Hset Hexp. unfold cache_set. rewrite Hr.
  unfold try_except, on_redis, redis_set, command, bind, ret. set (i := rw_tick (cw_redis w)) in *.
  destruct (faults i); [|done|done].
  destruct (Z.le_gt_cases (ttl_or_default cfg ttl) 0) as [Hle|Hgt].
  { by destruct (set_rejects (_get_key p k) (dumps v) _ false (server_clock i) (rw_store (cw_redis w)) Hle) as [x ->]. }
  destruct (set_stores (_get_key p k) (dumps v) (ttl_or_default cfg ttl) false
              (server_clock i) (rw_store (cw_redis w))) as (s' & -> & Hp); [done..|].
  intros [= <-]. cbn. intros Hexp. unfold key_entry. cbn [rw_tick rw_store].
  rewrite (entry_later (server_clock i)) by (apply Hmono; lia). rewrite Hp, String.eqb_refl.
  apply Z.leb_le in Hexp. unfold expiry in *. by rewrite Hexp.
Qed.

(** A live text on the server is read. *)
Lemma redis_read p k text v expiry w :
  use_redis cfg = true → loads text = Some v → faults (rw_tick (cw_redis w)) = NoFault →
  key_entry server_clock (cw_redis w) (_get_key p k) = Some (RStr text, Some expiry) →
  fst (cache_get clock server_clock faults cfg p k w) = Ok v.
Proof.
  intros Hr Hv Hf He. unfold cache_get. rewrite Hr.
  unfold try_except, on_redis, redis_get, bind. rewrite command_ok by done.
  pose proof (get_reads (_get_key p k) (server_clock (rw_tick (cw_redis w))) (rw_store (cw_redis w))) as Hg.
  unfold key_entry in He. rewrite He in Hg. rewrite Hg. cbn [fst snd].
  rewrite (loads_nonempty _ _ Hv). unfold json_loads. by rewrite Hv.
Qed.

(** C35: once a value has been stored, and after any calls of other kinds or
    on other keys - reads of any key, stores, deletions, [get_or_set] of other
    keys, clearings of other prefixes - reading the key gives the value its
    JSON text denotes until its time to live has run out, in Redis (whatever
    the driver did with those calls) and in memory, where stores may evict as
    long as at each of them enough other entries expire earlier. *)
Theorem cache_roundtrip p k v v' ttl calls w w1 :
  loads (dumps v) = Some v' →
  cache_set clock server_clock faults cfg p k v ttl w = (Ok true, w1) →
  Forall (fun c => touches (_get_key p k) c = false) calls →
  still_fresh ttl calls w w1 →
  fst (cache_get clock server_clock faults cfg p k (serve_calls clock server_clock faults cfg calls w1)) = Ok v'.
Proof.
  intros Hv Hset Hc Hfresh. unfold still_fresh in Hfresh. destruct (use_redis cfg) eqn:Er.
  - destruct Hfresh as (Hmono & Ht & Hts & Hexp & Hf).
    assert (Forall (fun c => touches (_get_key p k) c = false ∧ call_ttl cfg c <= max_ttl) calls) as Hcs
      by by apply list.Forall_and.
    pose proof (calls_leave_redis clock server_clock faults cfg Hmono (_get_key p k) (dumps v)
                  (server_clock (rw_tick (cw_redis w)) + 1000 * ttl_or_default cfg ttl) Er calls w1 Hcs) as [Hticks Hleft].
    eapply redis_read; [done..|]. apply Hleft; [|done]. eapply redis_stored; [done..|].
    pose proof (Hmono _ _ Hticks). lia.
  - destruct Hfresh as (Hnd & Hun & Hev). rewrite memory_set in Hset by done. injection Hset as <-.
    destruct (calls_leave clock server_clock faults cfg (_get_key p k) (dumps v) _ Er calls _ Hc Hev) as [Hticks Hin].
    destruct Hin as [_ Ha]; [split; cbn; [by apply aset_keys, evict_keys | apply aget_aset_eq] | done |].
    erewrite memory_read; [done..|]. apply Hun. lia.
Qed.
End roundtrip.

Definition steady (t : Z) (n : nat) : float := of_Z t.

Definition full_memory : cache_config := CacheConfig false 3600 2.

(** Two entries, the dictionary is full. *)
Definition full_world : cache_world RedisMap :=
  CW [("a:1", ("1", of_Z 1700000010)); ("a:2", ("2", of_Z 1700000005))] 0 empty_server.

Definition session_value : val :=
  VDict [("id", VOid "65f0c0ffee0123456789abcd"); ("total", VInt 12); ("items", VList [VNone; VStr "a"; VBool true]);
         ("qty", VFloat (of_Z 3))].

(** Among other calls, three stores that evict an entry each. *)
Definition busy_calls : list cache_call :=
  [CGet "s" "1"; CSet "a" "3" (VInt 3) (Some 5); CDelete "a" "1"; CClear "b"; CGetOrSet "a" "4" (Ok (VInt 4)) (Some 9);
   CSet "a" "5" (VInt 5) (Some 30)].

Definition stored_session : cache_world RedisMap :=
  snd (cache_set (steady 1700000000) second_clock quiet full_memory "s" "1" session_value (Some 60) full_world).

Lemma cache_roundtrip_witness :
  fst (cache_get (steady 1700000000) second_clock quiet full_memory "s" "1"
         (serve_calls (steady 1700000000) second_clock quiet full_memory busy_calls stored_session))
  = Ok (jsonify session_value).
Proof.
  apply (cache_roundtrip (steady 1700000000) second_clock quiet full_memory "s" "1" session_value
           (jsonify session_value) (Some 60) busy_calls full_world stored_session).
  - by vm_compute.
  - by vm_compute.
  - by repeat constructor.
  - cbv beta iota zeta delta [still_fresh use_redis full_memory]. split; [|split; [intros n _; by vm_compute | by vm_compute]].
    apply (bool_decide_unpack _). by vm_compute.
Defined.
