(* ===== verification/AuthLimits.v ===== *)
(** The limits on authentication attempts, [auth/rate_limiter.py]: failed
    attempts are recorded per address and per account as lists of times in the
    cache ([Cache]), and an attempt is refused with status 429 while too many
    of them lie in the window.

    The cache service may be missing ([None]): then nothing is limited. *)

From stdpp Require Import gmap.
From Stdlib Require Import Ascii.
From S2P Require Import Prelude PyFloat Py Json Redis Locks Cache.

Local Open Scope Z_scope.
Local Open Scope stock_scope.

(** What the limiter reads of a request. *)
Record auth_request := AuthRequest {
  client_host : option string;
  x_forwarded_for : option string;
}.

Record auth_settings := AuthSettings {
  RATE_LIMIT_ENABLED : bool;
  RATE_LIMIT_AUTH_IP_MAX_ATTEMPTS : Z;
  RATE_LIMIT_AUTH_IP_WINDOW_SECONDS : Z;
  RATE_LIMIT_AUTH_MAX_ATTEMPTS : Z;
  RATE_LIMIT_AUTH_WINDOW_SECONDS : Z;
}.

Definition default_auth_settings : auth_settings := AuthSettings true 20 300 5 900.

(** [identifier or "global"] *)
Definition or_global (identifier : option string) : string :=
  match identifier with Some s => if String.eqb s "" then "global" else s | None => "global" end.

Definition trusted_proxies : list string := ["127.0.0.1"; "::1"; "172.17.0.1"; "10.0.0.1"].

Definition get_rate_limit_key (request : auth_request) (identifier : option string) : string :=
  let client_ip := default "unknown" (client_host request) in
  let client_ip :=
    if str_in client_ip trusted_proxies then
      match x_forwarded_for request with
      | Some forwarded => if String.eqb forwarded "" then client_ip else strip (before_char ","%char forwarded)
      | None => client_ip
      end
    else client_ip in
  client_ip +:+ ":" +:+ or_global identifier.

Section auth.
Context {R : Type} `{Redis R}.
Context (clock : nat → float) (server_clock : nat → Z) (faults : nat → fault).
Context (cache_service : option cache_config).
Abbreviation W := (cache_world R).

(** [now - t < window] *)
Definition younger (now : float) (window : Z) (t : val) : outcome bool :=
  match as_num t with
  | Some n =>
      let age := fsub now (match n with NInt z => of_Z z | NFloat f => f end) in
      Ok (match cmp_Z window age with Some Gt => true | _ => false end)
  | None => Raise (TypeError "unsupported operand type(s) for -")
  end.

(** [[t for t in attempts if now - t < window]] *)
Fixpoint valid_attempts (now : float) (window : Z) (attempts : list val) : outcome (list val) :=
  match attempts with
  | [] => Ok []
  | t :: attempts' =>
      match younger now window t, valid_attempts now window attempts' with
      | Ok b, Ok l => Ok (if b then t :: l else l)
      | Raise e, _ => Raise e
      | _, Raise e => Raise e
      end
  end.

(** [value or []], and [[]] for what is not a list *)
Definition attempts_of (v : val) : list val := match v with VList l => l | _ => [] end.

Definition auth_is_allowed (key : string) (max_attempts window : Z) : M W bool :=
  match cache_service with
  | None => ret true
  | Some cfg =>
      do now <- read_time clock ;;
      do value <- cache_get clock server_clock faults cfg "auth_rate_limit" key ;;
      do valid <- lift (valid_attempts now window (attempts_of value)) ;;
      ret (Z.of_nat (length valid) <? max_attempts)
  end.

Definition auth_record (key : string) (window : Z) : M W unit :=
  match cache_service with
  | None => ret tt
  | Some cfg =>
      do now <- read_time clock ;;
      do value <- cache_get clock server_clock faults cfg "auth_rate_limit" key ;;
      do valid <- lift (valid_attempts now window (attempts_of value)) ;;
      do _ <- cache_set clock server_clock faults cfg "auth_rate_limit" key
                (VList (valid ++ [VFloat now])) (Some window) ;;
      ret tt
  end.

Definition auth_reset (key : string) : M W unit :=
  match cache_service with
  | None => ret tt
  | Some cfg => do _ <- cache_delete server_clock faults cfg "auth_rate_limit" key ;; ret tt
  end.

Context (settings : auth_settings).

Definition HTTP_429_TOO_MANY_REQUESTS : Z := 429.

(** The account's key, when there is an identifier. *)
Definition account_key (request : auth_request) (identifier : option string) : option string :=
  match identifier with
  | Some s => if String.eqb s "" then None else Some (get_rate_limit_key request identifier)
  | None => None
  end.

Definition check_auth_rate_limits (request : auth_request) (identifier : option string) : M W unit :=
  if negb (RATE_LIMIT_ENABLED settings) then ret tt
  else
    let ip_key := get_rate_limit_key request None in
    do ip_ok <- auth_is_allowed ip_key (RATE_LIMIT_AUTH_IP_MAX_ATTEMPTS settings)
                  (RATE_LIMIT_AUTH_IP_WINDOW_SECONDS settings) ;;
    run raise_if (negb ip_ok)
      (HTTPException HTTP_429_TOO_MANY_REQUESTS
         (VStr "Too many authentication attempts from this IP. Please try again later.")) ;;
    match account_key request identifier with
    | None => ret tt
    | Some user_key =>
        do user_ok <- auth_is_allowed user_key (RATE_LIMIT_AUTH_MAX_ATTEMPTS settings)
                        (RATE_LIMIT_AUTH_WINDOW_SECONDS settings) ;;
        raise_if (negb user_ok)
          (HTTPException HTTP_429_TOO_MANY_REQUESTS
             (VStr "Too many failed attempts for this account. Please try again later."))
    end.

Definition record_auth_failure (request : auth_request) (identifier : option string) : M W unit :=
  if negb (RATE_LIMIT_ENABLED settings) then ret tt
  else
    run auth_record (get_rate_limit_key request None) (RATE_LIMIT_AUTH_IP_WINDOW_SECONDS settings) ;;
    match account_key request identifier with
    | None => ret tt
    | Some user_key => auth_record user_key (RATE_LIMIT_AUTH_WINDOW_SECONDS settings)
    end.

Definition reset_auth_limits (request : auth_request) (identifier : option string) : M W unit :=
  run auth_reset (get_rate_limit_key request None) ;;
  match account_key request identifier with
  | None => ret tt
  | Some user_key => auth_reset user_key
  end.
End auth.

(** ** Counting failures *)

Section lockout.
Context {R : Type} `{RedisLaws R}.
Context (clock : nat → float) (server_clock : nat → Z) (faults : nat → fault) (cfg : cache_config).
Context (in_memory : use_redis cfg = false).
Abbreviation W := (cache_world R).
Implicit Types (w : W).
Abbreviation record := (auth_record clock server_clock faults (Some cfg)).
Abbreviation allowed := (auth_is_allowed clock server_clock faults (Some cfg)).

(** All readings of the clock lie within the window of each other, and are
    floats whose text reads back. *)
Definition within (window : Z) : Prop :=
  0 < window ∧
  ∀ i j, (i ≤ j)%nat →
    json_float (clock i) = true ∧ cmp_Z window (fsub (clock j) (clock i)) = Some Gt ∧
    fgt (fadd (clock i) (of_Z window)) (clock j) = true.

Abbreviation slot key := (_get_key "auth_rate_limit" key).
Abbreviation times idxs := (map (fun i => VFloat (clock i)) idxs).

(** The attempts stored for a key were recorded at these readings. *)
Definition recorded (window : Z) (key : string) (idxs : list nat) w : Prop :=
  Forall (fun i => (i ≤ cw_tick w)%nat) idxs ∧
  match idxs with
  | [] => aget (slot key) (_memory_cache w) = None
  | _ => ∃ i, (i ≤ cw_tick w)%nat ∧
      aget (slot key) (_memory_cache w) = Some (dumps (VList (times idxs)), fadd (clock i) (of_Z window))
  end.

Lemma times_ok window idxs : within window → json_ok (VList (times idxs)) = true.
Proof.
  intros [_ Hw]. cbn. apply forallb_forall. intros v Hv%list_elem_of_In.
  apply list_elem_of_fmap in Hv as (i & -> & _). cbn. by apply (Hw i i).
Qed.

Lemma times_jsonify idxs : jsonify (VList (times idxs)) = VList (times idxs).
Proof. cbn. by rewrite map_map. Qed.

(** All of them are still valid. *)
Lemma times_valid window idxs n :
  within window → Forall (fun i => (i ≤ n)%nat) idxs →
  valid_attempts (clock n) window (times idxs) = Ok (times idxs).
Proof.
  intros [_ Hw] Hi. induction Hi as [|i idxs Hle _ IH]; [done|]. cbn. rewrite IH.
  unfold younger. cbn. destruct (Hw i n Hle) as (_ & -> & _). done.
Qed.

(** The clock may be read once more, other entries may change. *)
Lemma recorded_mono window key idxs w w' :
  recorded window key idxs w → (cw_tick w ≤ cw_tick w')%nat →
  aget (slot key) (_memory_cache w') = aget (slot key) (_memory_cache w) → recorded window key idxs w'.
Proof.
  intros [Hi Hr] Hle Ha. split; [eapply list.Forall_impl; [exact Hi | simpl; lia]|].
  rewrite Ha. destruct idxs; [done|]. destruct Hr as (i & Hj & Hr). exists i. split; [lia | done].
Qed.

(** Reading the attempts returns them all and changes nothing but the clock. *)
Lemma read_attempts window key idxs w :
  within window → recorded window key idxs w →
  ∃ n, (cw_tick w ≤ n)%nat ∧
    cache_get clock server_clock faults cfg "auth_rate_limit" key w
      = (Ok (match idxs with [] => VNone | _ => VList (times idxs) end), CW (_memory_cache w) n (cw_redis w)).
Proof.
  intros Hw [Hi Hr]. destruct idxs as [|i0 idxs].
  - exists (cw_tick w). split; [lia|]. unfold cache_get, gets, bind. rewrite in_memory, Hr. by destruct w.
  - destruct Hr as (i & Hle & Hr). exists (S (cw_tick w)). split; [lia|].
    rewrite <- times_jsonify. eapply memory_get; [done | by eapply times_ok | exact Hr |].
    by apply (proj2 Hw i (cw_tick w) Hle).
Qed.

Lemma attempts_of_times idxs : attempts_of (match idxs with [] => VNone | _ => VList (times idxs) end) = times idxs.
Proof. by destruct idxs. Qed.

Lemma allowed_count window key idxs maximum w :
  within window → recorded window key idxs w →
  ∃ n, (cw_tick w ≤ n)%nat ∧
    allowed key maximum window w = (Ok (Z.of_nat (length idxs) <? maximum), CW (_memory_cache w) n (cw_redis w)).
Proof.
  intros Hw Hr. unfold auth_is_allowed, read_time, bind.
  destruct (read_attempts window key idxs (CW (_memory_cache w) (S (cw_tick w)) (cw_redis w)) Hw) as (n & Hn & ->).
  { apply (recorded_mono _ _ _ w); simpl; [done | lia | done]. }
  cbn in Hn. exists n. split; [lia|]. unfold lift. rewrite attempts_of_times, times_valid by (done || apply Hr).
  unfold ret. by rewrite length_map.
Qed.

(** There is room, so that storing evicts nothing. *)
Definition room (n : nat) w : Prop := Z.of_nat (length (_memory_cache w) + n) <= max_memory_size cfg.

Lemma evict_room l : Z.of_nat (length l) < max_memory_size cfg → evict (max_memory_size cfg) l = l.
Proof. intros Hl. unfold evict. destruct (Z.leb_spec (max_memory_size cfg) (Z.of_nat (length l))); [lia | done]. Qed.

Lemma record_step window key idxs w :
  within window → recorded window key idxs w → room 1 w →
  ∃ i w', record key window w = (Ok tt, w') ∧ (cw_tick w ≤ cw_tick w')%nat ∧
    recorded window key (idxs ++ [i]) w' ∧
    (∀ k, k ≠ slot key → aget k (_memory_cache w') = aget k (_memory_cache w)) ∧
    (length (_memory_cache w') ≤ length (_memory_cache w) +
       match aget (slot key) (_memory_cache w) with Some _ => 0 | None => 1 end)%nat.
Proof.
  intros Hw Hr Hroom. exists (cw_tick w). unfold auth_record, read_time, bind at 1.
  destruct (read_attempts window key idxs (CW (_memory_cache w) (S (cw_tick w)) (cw_redis w)) Hw) as (n & Hn & Hget).
  { apply (recorded_mono _ _ _ w); simpl; [done | lia | done]. }
  cbn in Hn. unfold bind. rewrite Hget, attempts_of_times. unfold lift.
  rewrite times_valid by (done || apply Hr). rewrite memory_set by done. cbn [cw_tick _memory_cache cw_redis].
  rewrite evict_room by (unfold room in Hroom; lia).
  eexists. split; [done|]. cbn [cw_tick _memory_cache]. split; [lia|]. split; [split|split].
  - apply list.Forall_app. split; [|constructor; [cbn; lia | constructor]].
    eapply list.Forall_impl; [apply Hr | simpl; lia].
  - change [VFloat (clock (cw_tick w))] with (times [cw_tick w]). rewrite <- map_app.
    destruct (idxs ++ [cw_tick w]) as [|j l] eqn:E; [by destruct idxs|].
    exists n. split; [cbn; lia|]. cbn [_memory_cache]. rewrite aget_aset_eq.
    unfold ttl_or_default. by destruct (Z.eqb_spec window 0); [destruct Hw; lia|].
  - intros k Hk. by rewrite aget_aset_ne.
  - by rewrite aset_length_exact.
Qed.

(** [m] failures recorded one after the other. *)
Fixpoint failures (settings : auth_settings) (request : auth_request) (identifier : option string) (m : nat) : M W unit :=
  match m with
  | O => ret tt
  | S m' => run record_auth_failure clock server_clock faults (Some cfg) settings request identifier ;;
            failures settings request identifier m'
  end.

Context (settings : auth_settings) (request : auth_request) (user : string).
Abbreviation ip_key := (get_rate_limit_key request None).
Abbreviation user_key := (get_rate_limit_key request (Some user)).
Context (enabled : RATE_LIMIT_ENABLED settings = true).
Context (user_named : user ≠ "") (keys_differ : ip_key ≠ user_key).
Abbreviation ip_window := (RATE_LIMIT_AUTH_IP_WINDOW_SECONDS settings).
Abbreviation user_window := (RATE_LIMIT_AUTH_WINDOW_SECONDS settings).
Context (ip_within : within ip_window) (user_within : within user_window).

Definition both (n : nat) w : Prop :=
  ∃ ips users, length ips = n ∧ length users = n ∧
    recorded ip_window ip_key ips w ∧ recorded user_window user_key users w ∧
    room (match n with O => 3 | S _ => 1 end) w.

Lemma slots_differ : slot ip_key ≠ slot user_key.
Proof. unfold _get_key. intros He. apply keys_differ. by do 2 apply (inj (String.append _)) in He. Qed.

Lemma account_key_user : account_key request (Some user) = Some user_key.
Proof. unfold account_key. by destruct (String.eqb_spec user ""). Qed.

Lemma recorded_missing window key idxs w :
  recorded window key idxs w → aget (slot key) (_memory_cache w) = None → idxs = [].
Proof. intros [_ Hr] Ha. destruct idxs; [done|]. destruct Hr as (i & _ & Hr). congruence. Qed.

Lemma failure_step n w :
  both n w →
  ∃ w', record_auth_failure clock server_clock faults (Some cfg) settings request (Some user) w = (Ok tt, w') ∧
    both (S n) w'.
Proof.
  intros (ips & users & Hi & Hu & Hri & Hru & Hroom). unfold record_auth_failure. rewrite enabled. cbn [negb].
  destruct (record_step _ _ _ w ip_within Hri) as (i & w1 & H1 & Ht1 & Hri1 & Ho1 & Hl1).
  { unfold room in *. destruct n; lia. }
  assert (recorded user_window user_key users w1) as Hru1.
  { apply (recorded_mono _ _ _ w _ Hru Ht1), Ho1. intros E. by apply slots_differ. }
  assert (room (match n with O => 2 | S _ => 1 end) w1) as Hroom1.
  { unfold room in *. destruct (aget (slot ip_key) (_memory_cache w)) eqn:E; [destruct n; simpl in *; lia|].
    rewrite (recorded_missing _ _ _ _ Hri E) in Hi. destruct n; [simpl in *; lia | done]. }
  destruct (record_step _ _ _ w1 user_within Hru1) as (j & w2 & H2 & Ht2 & Hru2 & Ho2 & Hl2).
  { unfold room in *. destruct n; lia. }
  exists w2. rewrite (bind_ok _ _ _ _ _ H1), account_key_user. split; [done|].
  exists (ips ++ [i]), (users ++ [j]). rewrite !length_app. cbn. split; [lia|]. split; [lia|].
  split; [apply (recorded_mono _ _ _ w1 _ Hri1 Ht2), Ho2, slots_differ|]. split; [done|].
  unfold room in *. destruct (aget (slot user_key) (_memory_cache w1)) eqn:E; [destruct n; simpl in *; lia|].
  rewrite (recorded_missing _ _ _ _ Hru1 E) in Hu. destruct n; [simpl in *; lia | done].
Qed.

Lemma failures_both m n w :
  both n w → ∃ w', failures settings request (Some user) m w = (Ok tt, w') ∧ both (m + n) w'.
Proof.
  revert n w. induction m as [|m IH]; intros n w Hb; [by exists w|]. cbn [failures].
  destruct (failure_step n w Hb) as (w1 & H1 & Hb1). rewrite (bind_ok _ _ _ _ _ H1).
  destruct (IH (S n) w1 Hb1) as (w2 & H2 & Hb2). exists w2. split; [done|].
  by replace (S m + n)%nat with (m + S n)%nat by lia.
Qed.

(** After [m] recorded failures of one account from one address within both
    windows (in-memory cache, room for the entries), the next attempt passes
    the check exactly when [m] is below both limits; otherwise it is refused
    with status 429. *)
Theorem auth_lockout m w :
  aget (slot ip_key) (_memory_cache w) = None → aget (slot user_key) (_memory_cache w) = None → room 3 w →
  let verdict := fst ((run failures settings request (Some user) m ;;
                       check_auth_rate_limits clock server_clock faults (Some cfg) settings request (Some user)) w) in
  if (Z.of_nat m <? RATE_LIMIT_AUTH_IP_MAX_ATTEMPTS settings) && (Z.of_nat m <? RATE_LIMIT_AUTH_MAX_ATTEMPTS settings)
  then verdict = Ok tt
  else ∃ detail, verdict = Raise (HTTPException HTTP_429_TOO_MANY_REQUESTS detail).
Proof.
  intros Hi Hu Hroom. cbv zeta.
  destruct (failures_both m 0 w) as (w1 & H1 & ips & users & Hli & Hlu & Hri & Hru & _).
  { exists [], []. repeat split; try done; constructor. }
  rewrite (bind_ok _ _ _ _ _ H1). rewrite Nat.add_0_r in Hli, Hlu.
  unfold check_auth_rate_limits. rewrite enabled, account_key_user. cbn [negb]. unfold bind.
  destruct (allowed_count _ _ _ (RATE_LIMIT_AUTH_IP_MAX_ATTEMPTS settings) w1 ip_within Hri) as (n & Hn & ->).
  rewrite Hli. destruct (Z.of_nat m <? RATE_LIMIT_AUTH_IP_MAX_ATTEMPTS settings); cbn [negb andb raise_if];
    unfold raise, ret; cbn iota beta; [|by eexists].
  destruct (allowed_count user_window user_key users (RATE_LIMIT_AUTH_MAX_ATTEMPTS settings)
              (CW (_memory_cache w1) n (cw_redis w1)) user_within) as (n' & _ & ->).
  { apply (recorded_mono _ _ _ w1 _ Hru); [exact Hn | reflexivity]. }
  rewrite Hlu. destruct (Z.of_nat m <? RATE_LIMIT_AUTH_MAX_ATTEMPTS settings); cbn; [done | by eexists].
Qed.
End lockout.

Definition memory_config : cache_config := CacheConfig false 3600 100.
Definition empty_cache : cache_world RedisMap := CW [] 0 empty_server.
Definition office : auth_request := AuthRequest (Some "192.168.1.20") None.

Lemma steady_within t w :
  0 < w → json_float (of_Z t) = true → cmp_Z w (fsub (of_Z t) (of_Z t)) = Some Gt →
  fgt (fadd (of_Z t) (of_Z w)) (of_Z t) = true → within (steady t) w.
Proof. intros Hw Hj Ha He. split; [done|]. intros i j _. done. Qed.

(** Five failures in a row lock the account out. *)
Lemma auth_lockout_witness :
  ∃ detail, fst ((run failures (steady 1700000000) second_clock quiet memory_config default_auth_settings office (Some "alice") 5 ;;
        check_auth_rate_limits (steady 1700000000) second_clock quiet (Some memory_config) default_auth_settings
          office (Some "alice")) empty_cache) = Raise (HTTPException 429 detail).
Proof.
  apply (auth_lockout (steady 1700000000) second_clock quiet memory_config eq_refl default_auth_settings office "alice"
           eq_refl ltac:(done) ltac:(done)
           (steady_within 1700000000 300 eq_refl ltac:(by vm_compute) ltac:(by vm_compute) ltac:(by vm_compute))
           (steady_within 1700000000 900 eq_refl ltac:(by vm_compute) ltac:(by vm_compute) ltac:(by vm_compute))
           5 empty_cache); by vm_compute.
Defined.
