(* ===== verification/Flags.v ===== *)
(** Feature flags: [services/feature_flags.py] (the flag model, and the service
    with its cache) and [services/flag_resolver.py] (the flag state of a
    request, with overrides by scope).

    Pydantic's validation of a flag document is the parameter [parse_flag] (the
    readings of the clock are the defaults of the two time fields); the
    declared fields are the record, and unknown fields are dropped, as the model
    class is configured.  The resolver asks for the truth value of the database it
    is passed, which the driver refuses: [database_bool].  [py_hash] is Python's [hash] of a text, [sha256] the
    hexadecimal digest. *)

From Stdlib Require Import Ascii.
From stdpp Require Import sets.
From S2P Require Import Prelude PyFloat Py Store ListStore Guard Frame.

Local Open Scope Z_scope.
Local Open Scope stock_scope.

(** ** The model *)

Inductive FeatureState := ENABLED | DISABLED | PERCENTAGE | USERS | ROLES.

#[global] Instance FeatureState_eq_dec : EqDecision FeatureState.
Proof. solve_decision. Defined.

Definition feature_state_value (s : FeatureState) : string :=
  match s with
  | ENABLED => "enabled" | DISABLED => "disabled" | PERCENTAGE => "percentage"
  | USERS => "users" | ROLES => "roles"
  end.

Record FeatureFlag := Flag {
  f_key : string;
  f_name : string;
  f_description : val;
  f_state : FeatureState;
  f_enabled : bool;
  f_percentage : Z;
  f_allowed_users : list string;
  f_allowed_roles : list string;
  f_created_at : Z;
  f_updated_at : Z;
  f_created_by : val;
  f_updated_by : val;
  f_environments : list string;
}.

(** [flag.model_dump()] *)
Definition model_dump (f : FeatureFlag) : doc :=
  [("key", VStr (f_key f)); ("name", VStr (f_name f)); ("description", f_description f);
   ("state", VStr (feature_state_value (f_state f))); ("enabled", VBool (f_enabled f));
   ("percentage", VInt (f_percentage f)); ("allowed_users", VList (map VStr (f_allowed_users f)));
   ("allowed_roles", VList (map VStr (f_allowed_roles f))); ("created_at", VTime (f_created_at f));
   ("updated_at", VTime (f_updated_at f)); ("created_by", f_created_by f); ("updated_by", f_updated_by f);
   ("environments", VList (map VStr (f_environments f)))].

(** ** The service *)

Record flag_service := FlagService {
  fs_environment : string;
  fs_cache_ttl : Z;
  _cache : list (string * FeatureFlag);
  _cache_time : option Z;
}.

Section service.
Context {C : Type} `{Mongo C}.
Context (clock : nat → Z) (parse_flag : Z → Z → doc → option FeatureFlag) (py_hash : string → Z).
Abbreviation W := (flag_service * world C)%type.

Definition on_db {A} (m : M (world C) A) : M W A := fun w =>
  let '(o, w') := m (snd w) in (o, (fst w, w')).

Definition set_cache (l : list (string * FeatureFlag)) : M W unit :=
  modify (fun w => (FlagService (fs_environment (fst w)) (fs_cache_ttl (fst w)) l (_cache_time (fst w)), snd w)).
Definition set_cache_time (t : Z) : M W unit :=
  modify (fun w => (FlagService (fs_environment (fst w)) (fs_cache_ttl (fst w)) (_cache (fst w)) (Some t), snd w)).

(** Validating a document; [None] is the ValidationError. *)
Definition build_flag (d : doc) : M (world C) (option FeatureFlag) :=
  do created <- utc_now clock ;;
  do updated <- utc_now clock ;;
  ret (parse_flag created updated d).

Fixpoint load_flags (docs : list doc) : M W unit :=
  match docs with
  | [] => ret tt
  | d :: docs' =>
      do flag <- on_db (build_flag (adel "_id" d)) ;;
      run match flag with
          | Some f => do w <- gets (fun w => _cache (fst w)) ;; set_cache (aset (f_key f) f w)
          | None => ret tt
          end ;;
      load_flags docs'
  end.

Definition _load_cache : M W unit :=
  run set_cache [] ;;
  do docs <- on_db (db_find "feature_flags" (QAnd [])) ;;
  run load_flags docs ;;
  do now <- on_db (utc_now clock) ;;
  set_cache_time now.

(** [elapsed.total_seconds() < ttl] *)
Definition _is_cache_valid : M W bool :=
  do time <- gets (fun w => _cache_time (fst w)) ;;
  match time with
  | None => ret false
  | Some t =>
      do now <- on_db (utc_now clock) ;;
      do ttl <- gets (fun w => fs_cache_ttl (fst w)) ;;
      ret (now - t <? ttl * 1000000)
  end.

Definition refresh : M W unit :=
  do valid <- _is_cache_valid ;;
  when (negb valid) _load_cache.

Definition named (o : option string) : bool :=
  match o with Some s => negb (String.eqb s "") | None => false end.

(** The decision for a flag that is in the cache. *)
Definition flag_enabled (key environment : string) (flag : FeatureFlag)
    (user_id username role : option string) : bool :=
  if negb (str_in environment (f_environments flag)) then false
  else
    match f_state flag with
    | DISABLED => false
    | ENABLED => true
    | USERS => named username && str_in (default "" username) (f_allowed_users flag)
    | ROLES => named role && str_in (default "" role) (f_allowed_roles flag)
    | PERCENTAGE =>
        named user_id && (py_hash (key +:+ ":" +:+ default "" user_id) mod 100 <? f_percentage flag)
    end.

Definition is_enabled (key : string) (user_id username role : option string) : M W bool :=
  run refresh ;;
  do cache <- gets (fun w => _cache (fst w)) ;;
  do environment <- gets (fun w => fs_environment (fst w)) ;;
  match aget key cache with
  | None => ret false
  | Some flag => ret (flag_enabled key environment flag user_id username role)
  end.

Definition validation_error : exn := ValueError "ValidationError: FeatureFlag".

Definition create_flag (key name : string) (description created_by : val) (kwargs : doc) : M W FeatureFlag :=
  do flag <- on_db (build_flag ([("key", VStr key); ("name", VStr name); ("description", description);
                                 ("created_by", created_by)] ++ kwargs)) ;;
  match flag with
  | None => raise validation_error
  | Some f =>
      do _ <- on_db (db_insert_one "feature_flags" (model_dump f)) ;;
      do cache <- gets (fun w => _cache (fst w)) ;;
      run set_cache (aset key f cache) ;;
      ret f
  end.

Definition by_key (key : string) : query := QEq "key" (VStr key).

Definition find_and_set (key : string) (updates : doc) : M (world C) (option doc) := fun w =>
  let '(d, c) := find_one_and_update (by_key key) (USet updates) (w_db w "feature_flags") in
  (Ok (snd <$> d), set_coll "feature_flags" c w).

Definition update_flag (key : string) (updated_by : val) (updates : doc) : M W (option FeatureFlag) :=
  do now <- on_db (utc_now clock) ;;
  let updates := aset "updated_by" updated_by (aset "updated_at" (VTime now) updates) in
  do result <- on_db (find_and_set key updates) ;;
  match result with
  | Some ((_ :: _) as d) =>
      do flag <- on_db (build_flag (adel "_id" d)) ;;
      match flag with
      | None => raise validation_error
      | Some f =>
          do cache <- gets (fun w => _cache (fst w)) ;;
          run set_cache (aset key f cache) ;;
          ret (Some f)
      end
  | _ => ret None
  end.

Definition delete_flag (key : string) : M W bool :=
  do deleted_count <- on_db (db_delete_one "feature_flags" (by_key key)) ;;
  do cache <- gets (fun w => _cache (fst w)) ;;
  run set_cache (adel key cache) ;;
  ret (0 <? deleted_count).

Definition get_flag (key : string) : M W (option FeatureFlag) :=
  run refresh ;;
  do cache <- gets (fun w => _cache (fst w)) ;;
  ret (aget key cache).

Definition get_all_flags : M W (list FeatureFlag) :=
  run refresh ;;
  do cache <- gets (fun w => _cache (fst w)) ;;
  ret (map snd cache).

Definition is_given {A} (o : option A) : bool := match o with Some _ => true | None => false end.

Definition enable_flag (key : string) (updated_by : val) : M W bool :=
  do result <- update_flag key updated_by [("state", VStr "enabled"); ("enabled", VBool true)] ;;
  ret (is_given result).

Definition disable_flag (key : string) (updated_by : val) : M W bool :=
  do result <- update_flag key updated_by [("state", VStr "disabled"); ("enabled", VBool false)] ;;
  ret (is_given result).

Definition set_rollout_percentage (key : string) (percentage : Z) (updated_by : val) : M W bool :=
  if negb ((0 <=? percentage) && (percentage <=? 100))
  then raise (ValueError "Percentage must be between 0 and 100")
  else
    do result <- update_flag key updated_by [("state", VStr "percentage"); ("percentage", VInt percentage)] ;;
    ret (is_given result).
End service.

(** ** Resolving the flags of a request *)

Definition BL_V2_COMPARE : string := "BL_V2_COMPARE".
Definition BL_V2_SHADOW : string := "BL_V2_SHADOW".
Definition BL_V2_ENFORCE_WRITES : string := "BL_V2_ENFORCE_WRITES".
Definition BL_V2_GLOBAL_DISABLE : string := "BL_V2_GLOBAL_DISABLE".

Definition _SCOPED_FLAG_KEYS : list string := [BL_V2_COMPARE; BL_V2_SHADOW; BL_V2_ENFORCE_WRITES].

Inductive scope := RequestScope | SessionScope | UserScope | WarehouseScope | GlobalScope.

#[global] Instance scope_eq_dec : EqDecision scope.
Proof. solve_decision. Defined.

Definition scope_name (s : scope) : string :=
  match s with
  | RequestScope => "request" | SessionScope => "session" | UserScope => "user"
  | WarehouseScope => "warehouse" | GlobalScope => "global"
  end.

Definition _OVERRIDE_SCOPE_PRIORITY : list scope := [SessionScope; UserScope; WarehouseScope].
Definition _SCOPE_PRIORITY : list scope := _OVERRIDE_SCOPE_PRIORITY ++ [GlobalScope].

Definition _SCOPE_ALIASES (s : scope) : list string :=
  match s with
  | RequestScope => ["request"; "request_id"]
  | SessionScope => ["session"; "session_id"]
  | UserScope => ["user"; "user_id"]
  | WarehouseScope => ["warehouse"]
  | GlobalScope => []
  end.

(** The resolved state; [validate_combination] is the model's validator. *)
Record FlagResolution := Resolution {
  compare_on : bool;
  shadow_on : bool;
  enforce_writes_on : bool;
  resolution_scope : scope;
}.

Definition validate_combination (r : FlagResolution) : outcome FlagResolution :=
  if shadow_on r && negb (compare_on r)
  then Raise (FlagResolutionError "Value error, invalid flag combination: shadow requires compare")
  else if enforce_writes_on r && negb (compare_on r)
  then Raise (FlagResolutionError "Value error, invalid flag combination: enforce_writes requires compare")
  else if enforce_writes_on r && negb (shadow_on r)
  then Raise (FlagResolutionError "Value error, invalid flag combination: enforce_writes requires shadow")
  else Ok r.

Definition normalize_flag_resolution (compare shadow enforce_writes : bool) (s : scope) : outcome FlagResolution :=
  validate_combination (Resolution compare shadow enforce_writes s).

(** The attributes the resolver reads of a request context; a missing one is
    [None]. *)
Record flag_context := FlagContext {
  ctx_request_id : val;
  ctx_session_id : val;
  ctx_user_id : val;
  ctx_username : val;
  ctx_role : val;
  ctx_warehouse : val;
}.

Definition _normalize_identifier (value : val) : option string :=
  match value with
  | VNone => None
  | _ => let normalized := strip (to_str value) in
         if String.eqb normalized "" then None else Some normalized
  end.

(** The global scope is never asked for. *)
Definition _context_value (ctx : flag_context) (s : scope) : option string :=
  match s with
  | RequestScope => _normalize_identifier (ctx_request_id ctx)
  | SessionScope => _normalize_identifier (ctx_session_id ctx)
  | WarehouseScope => _normalize_identifier (ctx_warehouse ctx)
  | UserScope => _normalize_identifier (por (ctx_user_id ctx) (ctx_username ctx))
  | GlobalScope => None
  end.

(** [getattr(flag, "scope_overrides", None)]: the model declares no such field. *)
Definition scope_overrides (f : FeatureFlag) : val := VNone.

Section resolver.
Context {C : Type} `{Mongo C}.
Context (clock : nat → Z) (parse_flag : Z → Z → doc → option FeatureFlag) (sha256 : string → string).
(** [bool(db)] in [db or get_db()]; either operand is the application's database. *)
Context (database_bool : outcome bool).

Definition _load_flag (key : string) : M (world C) (option FeatureFlag) :=
  do d <- db_find_one "feature_flags" (by_key key) ;;
  match d with
  | Some ((_ :: _) as d) =>
      do flag <- build_flag clock parse_flag (adel "_id" d) ;;
      match flag with
      | Some f => ret (Some f)
      | None => raise (FlagResolutionError ("invalid feature flag document for " +:+ key))
      end
  | _ => ret None
  end.

Fixpoint load_keys (keys : list string) : M (world C) (list (string * option FeatureFlag)) :=
  match keys with
  | [] => ret []
  | k :: keys' => do f <- _load_flag k ;; do l <- load_keys keys' ;; ret ((k, f) :: l)
  end.

Definition _load_phase0_flags : M (world C) (list (string * option FeatureFlag)) :=
  load_keys (BL_V2_GLOBAL_DISABLE :: _SCOPED_FLAG_KEYS).

(** The first alias that is a dict with the identifier. *)
Fixpoint override_in (overrides : doc) (aliases : list string) (identifier : string) : option bool :=
  match aliases with
  | [] => None
  | scope_key :: aliases' =>
      match get scope_key overrides with
      | VDict scoped_values =>
          match aget identifier scoped_values with
          | Some v => Some (truthy v)
          | None => override_in overrides aliases' identifier
          end
      | _ => override_in overrides aliases' identifier
      end
  end.

Definition _override_value (flag : option FeatureFlag) (s : scope) (identifier : option string)
  : outcome (option bool) :=
  match flag, identifier with
  | Some f, Some i =>
      match por (scope_overrides f) (VDict []) with
      | VDict overrides => Ok (override_in overrides (_SCOPE_ALIASES s) i)
      | _ => Raise (AttributeError "object has no attribute 'get'")
      end
  | _, _ => Ok None
  end.

Definition hex_digit_value (c : ascii) : Z :=
  let n := Z.of_nat (nat_of_ascii c) in
  if is_digit c then n - 48 else n - 87.

(** [int(digest[:8], 16)] *)
Definition digest_value (digest : string) : Z :=
  fold_left (fun acc c => acc * 16 + hex_digit_value c) (String.list_ascii_of_string (str_take 8 digest)) 0.

Definition _global_flag_value (flag : option FeatureFlag) (ctx : flag_context) : outcome bool :=
  match flag with
  | None => Ok false
  | Some f =>
      match f_state f with
      | DISABLED => Ok false
      | ENABLED => Ok true
      | USERS => Ok (match _context_value ctx UserScope with
                     | Some username => str_in username (f_allowed_users f)
                     | None => false
                     end)
      | ROLES =>
          if negb (truthy (ctx_role ctx)) then Ok false
          else match ctx_role ctx with
               | VStr role => Ok (str_in role (f_allowed_roles f))
               | VList _ | VDict _ => Raise (TypeError "unhashable type")
               | _ => Ok false
               end
      | PERCENTAGE =>
          Ok (match _context_value ctx UserScope with
              | Some user_key => digest_value (sha256 (f_key f +:+ ":" +:+ user_key)) mod 100 <? f_percentage f
              | None => false
              end)
      end
  end.

(** The first scope that has an override. *)
Fixpoint first_override (flag : option FeatureFlag) (ctx : flag_context) (scopes : list scope)
  : outcome (option (bool * scope)) :=
  match scopes with
  | [] => Ok None
  | s :: scopes' =>
      match _override_value flag s (_context_value ctx s) with
      | Ok (Some v) => Ok (Some (v, s))
      | Ok None => first_override flag ctx scopes'
      | Raise e => Raise e
      end
  end.

Definition _resolve_flag_value (flag : option FeatureFlag) (ctx : flag_context) (include_request_scope : bool)
  : outcome (bool * option scope * option bool) :=
  let request_override :=
    if include_request_scope
    then _override_value flag RequestScope (_context_value ctx RequestScope)
    else Ok None in
  match request_override with
  | Raise e => Raise e
  | Ok request_override =>
      match first_override flag ctx _OVERRIDE_SCOPE_PRIORITY with
      | Raise e => Raise e
      | Ok (Some (v, s)) => Ok (v, Some s, request_override)
      | Ok None =>
          match request_override with
          | Some v => Ok (v, None, request_override)
          | None => match _global_flag_value flag ctx with
                    | Ok v => Ok (v, None, request_override)
                    | Raise e => Raise e
                    end
          end
      end
  end.

Definition _select_scope (contributing_scopes : list scope) : scope :=
  default GlobalScope
    (List.find (fun s => bool_decide (s ∈ contributing_scopes)) _SCOPE_PRIORITY).

(** The values of the scoped flags with the scopes that contributed. *)
Fixpoint resolve_values (flags : list (string * option FeatureFlag)) (ctx : flag_context) (is_mutation : bool)
    (keys : list string) : outcome (list (string * bool) * list scope) :=
  match keys with
  | [] => Ok ([], [])
  | k :: keys' =>
      match _resolve_flag_value (default None (aget k flags)) ctx (negb is_mutation) with
      | Raise e => Raise e
      | Ok (v, s, _) =>
          match resolve_values flags ctx is_mutation keys' with
          | Raise e => Raise e
          | Ok (vs, ss) => Ok ((k, v) :: vs, match s with Some s => s :: ss | None => ss end)
          end
      end
  end.

Definition resolve_phase0_flags (ctx : flag_context) (is_mutation : bool) : M (world C) FlagResolution :=
  do _ <- lift database_bool ;;
  do flags <- _load_phase0_flags ;;
  do ' (values, scopes) <- lift (resolve_values flags ctx is_mutation _SCOPED_FLAG_KEYS) ;;
  let value k := default false (aget k values) in
  lift (normalize_flag_resolution (value BL_V2_COMPARE) (value BL_V2_SHADOW) (value BL_V2_ENFORCE_WRITES)
          (_select_scope scopes)).

Definition is_global_disable_active : M (world C) bool :=
  do _ <- lift database_bool ;;
  do flag <- _load_flag BL_V2_GLOBAL_DISABLE ;;
  match flag with
  | None => ret false
  | Some f =>
      match f_state f with
      | DISABLED => ret false
      | ENABLED => ret true
      | _ => raise (FlagResolutionError "BL_V2_GLOBAL_DISABLE must be globally enabled or disabled")
      end
  end.
End resolver.

(** ** What a resolution promises *)

Definition combination_ok (r : FlagResolution) : Prop :=
  (shadow_on r = true → compare_on r = true) ∧
  (enforce_writes_on r = true → compare_on r = true ∧ shadow_on r = true).

Lemma validate_combination_spec r : combination_ok r ↔ validate_combination r = Ok r.
Proof.
  unfold combination_ok, validate_combination. destruct r as [c s e sc]; cbn.
  destruct c, s, e; cbn; split; intuition (congruence || eauto).
Qed.

Lemma validate_combination_ok r r' : validate_combination r = Ok r' → r' = r ∧ combination_ok r.
Proof.
  intros Hv. assert (r' = r) as -> by (unfold validate_combination in Hv; repeat case_match; congruence).
  split; [done | by apply validate_combination_spec].
Qed.

Section resolver_laws.
Context {C : Type} `{MongoLaws C}.
Context (clock : nat → Z) (parse_flag : Z → Z → doc → option FeatureFlag) (sha256 : string → string).
Context (database_bool : outcome bool).

Lemma frame_build_flag d : frame [] (build_flag (C:=C) clock parse_flag d).
Proof. unfold build_flag. solve_frame. Qed.

Lemma frame_load_flag k : frame [] (_load_flag (C:=C) clock parse_flag k).
Proof.
  unfold _load_flag. pose proof frame_build_flag. solve_frame.
Qed.

Lemma frame_load_keys ks : frame [] (load_keys (C:=C) clock parse_flag ks).
Proof.
  induction ks as [|k ks IH]; cbn [load_keys]; [solve_frame|].
  apply frame_bind; [apply frame_load_flag|]. intros f. apply frame_bind; [done|]. solve_frame.
Qed.

Lemma frame_resolve ctx b : frame [] (resolve_phase0_flags (C:=C) clock parse_flag sha256 database_bool ctx b).
Proof.
  unfold resolve_phase0_flags, _load_phase0_flags. pose proof frame_load_keys. solve_frame.
Qed.

Lemma frame_global_disable : frame [] (is_global_disable_active (C:=C) clock parse_flag database_bool).
Proof. unfold is_global_disable_active. pose proof frame_load_flag. solve_frame. Qed.

(** No override applies: the model has no field for them. *)
Lemma override_value_none flag s i : _override_value flag s i = Ok None.
Proof. unfold _override_value. destruct flag as [f|], i as [i|]; try done. by destruct s. Qed.

Lemma first_override_none flag ctx scopes : first_override flag ctx scopes = Ok None.
Proof. induction scopes as [|s l IH]; cbn [first_override]; [done|]. by rewrite override_value_none. Qed.

Lemma resolve_value_global flag ctx b :
  _resolve_flag_value sha256 flag ctx b =
  match _global_flag_value sha256 flag ctx with Ok v => Ok (v, None, None) | Raise e => Raise e end.
Proof.
  unfold _resolve_flag_value. rewrite override_value_none, first_override_none.
  by replace (if b then Ok None else Ok None : outcome (option bool)) with (Ok None : outcome (option bool)) by (by destruct b).
Qed.

(** The values and the scope of a resolution. *)
Lemma resolve_values_global flags ctx b keys vs ss :
  resolve_values sha256 flags ctx b keys = Ok (vs, ss) →
  ss = [] ∧ Forall2 (fun k kv => fst kv = k ∧
    _global_flag_value sha256 (default None (aget k flags)) ctx = Ok (snd kv)) keys vs.
Proof.
  revert vs ss. induction keys as [|k keys IH]; intros vs ss Hr; cbn [resolve_values] in Hr; [by simplify_eq|].
  rewrite resolve_value_global in Hr.
  destruct (_global_flag_value _ _ _) as [v|e] eqn:E; [|done].
  destruct (resolve_values _ _ _ _ keys) as [[vs' ss']|e] eqn:E'; simplify_eq.
  destruct (IH _ _ eq_refl) as [-> Hf]. split; [done|]. by constructor.
Qed.

(** C27: type: a flag resolution that is returned is a permitted combination
    (shadow needs compare, enforcing writes needs both) of the values that the
    three stored flags have for the context, whether or not the request is a
    mutation, and its scope is the global one: no flag document can carry an
    override. The database is not changed. *)
Theorem resolution_well_formed ctx b w r w' :
  resolve_phase0_flags (C:=C) clock parse_flag sha256 database_bool ctx b w = (Ok r, w') →
  combination_ok r ∧ resolution_scope r = GlobalScope ∧
  (∃ flags w1, load_keys clock parse_flag (BL_V2_GLOBAL_DISABLE :: _SCOPED_FLAG_KEYS) w = (Ok flags, w1) ∧
     _global_flag_value sha256 (default None (aget BL_V2_COMPARE flags)) ctx = Ok (compare_on r) ∧
     _global_flag_value sha256 (default None (aget BL_V2_SHADOW flags)) ctx = Ok (shadow_on r) ∧
     _global_flag_value sha256 (default None (aget BL_V2_ENFORCE_WRITES flags)) ctx = Ok (enforce_writes_on r)) ∧
  (∀ n, w_db w' n = w_db w n).
Proof.
  intros Hr. assert (∀ n, w_db w' n = w_db w n) as Hdb.
  { intros n. by apply (frame_db _ _ _ _ _ n (frame_resolve ctx b) Hr). }
  unfold resolve_phase0_flags in Hr. apply bind_ok_inv in Hr as (t & w0 & [_ ->]%lift_ok & Hr).
  apply bind_ok_inv in Hr as (flags & w1 & Hl & Hr).
  apply bind_ok_inv in Hr as ([vs ss] & w2 & [Hv ->]%lift_ok & [Hn ->]%lift_ok).
  apply resolve_values_global in Hv as [-> Hf]. apply validate_combination_ok in Hn as [-> Hok].
  split; [done|]. split; [done|]. split; [|done]. exists flags, w1. split; [done|].
  unfold _SCOPED_FLAG_KEYS in Hf.
  apply Forall2_cons_inv_l in Hf as ([k1 v1] & l1 & [Hk1 H1] & Hf & ->).
  apply Forall2_cons_inv_l in Hf as ([k2 v2] & l2 & [Hk2 H2] & Hf & ->).
  apply Forall2_cons_inv_l in Hf as ([k3 v3] & l3 & [Hk3 H3] & Hf & ->).
  cbn [fst snd] in *. subst k1 k2 k3. done.
Qed.

(** Where the driver refuses the truth value, no flag is resolved. *)
Lemma resolution_refused e ctx b w :
  database_bool = Raise e → resolve_phase0_flags (C:=C) clock parse_flag sha256 database_bool ctx b w = (Raise e, w).
Proof. intros Hd. unfold resolve_phase0_flags. rewrite Hd. reflexivity. Qed.
End resolver_laws.

#[export] Hint Resolve frame_resolve frame_global_disable : frame.

(** A flag document, parsed for the examples: the state alone matters. *)
Definition example_parse (created updated : Z) (d : doc) : option FeatureFlag :=
  match get "key" d, get "state" d with
  | VStr k, VStr "enabled" => Some (Flag k k VNone ENABLED true 0 [] [] created updated VNone VNone ["production"])
  | VStr k, VStr "disabled" => Some (Flag k k VNone DISABLED false 0 [] [] created updated VNone VNone ["production"])
  | _, _ => None
  end.

Example resolution_well_formed_witness :
  let flag k s := [("_id", VOid k); ("key", VStr k); ("state", VStr s)] in
  let w := mkworld [("feature_flags", [flag BL_V2_COMPARE "enabled"; flag BL_V2_SHADOW "disabled"])] in
  let ctx := FlagContext (VStr "r") (VStr "S1") (VStr "u1") (VStr "ann") (VStr "staff") (VStr "W") in
  resolve_phase0_flags (fun _ => 0) example_parse (fun s => s) (Ok true) ctx true w
    = (Ok (Resolution true false false GlobalScope),
       snd (resolve_phase0_flags (fun _ => 0) example_parse (fun s => s) (Ok true) ctx true w)) ∧
  combination_ok (Resolution true false false GlobalScope).
Proof.
  intros flag w ctx.
  assert (resolve_phase0_flags (fun _ => 0) example_parse (fun s => s) (Ok true) ctx true w
    = (Ok (Resolution true false false GlobalScope),
       snd (resolve_phase0_flags (fun _ => 0) example_parse (fun s => s) (Ok true) ctx true w))) as He
    by (vm_compute; reflexivity).
  split; [exact He | exact (proj1 (resolution_well_formed _ _ _ _ _ _ _ _ _ He))].
Defined.

(** An update is stored before the document is validated: with a state the
    model does not know it raises, and from then on every resolution fails. *)
Lemma invalid_update_stored :
  let w := mkworld [("feature_flags", [[("_id", VOid "f"); ("key", VStr BL_V2_COMPARE); ("state", VStr "enabled")]])] in
  let '(r, (_, w')) := update_flag (fun _ => 0) example_parse BL_V2_COMPARE (VStr "admin")
                         [("state", VStr "beta")] (FlagService "production" 60 [] None, w) in
  is_ok r = false ∧
  ∀ ctx b, fst (resolve_phase0_flags (fun _ => 0) example_parse (fun s => s) (Ok true) ctx b w')
           = Raise (FlagResolutionError ("invalid feature flag document for " +:+ BL_V2_COMPARE)).
Proof. vm_compute. split; [reflexivity|]. intros ctx b. reflexivity. Qed.
