(* ===== verification/LogicGuard.v ===== *)
(** The execution guard of the business-logic rollout:
    [services/logic_guard.py].  A write resolves the flags of the request
    ([Flags]), honours the logic version a session is pinned to, and pins it on
    the first write through the session lifecycle ([Lifecycle]).

    Sessions are the dicts the routes load from the database; [None] is the
    call without a session.  The code changes the caller's dict after
    persisting a pin: the handlers return the dict with their result. *)

From S2P Require Import Prelude PyFloat Py Store ListStore Guard Inventory Frame Lifecycle LifecycleSpec Flags.

Local Open Scope Z_scope.
Local Open Scope stock_scope.

Inductive LogicVersion := v1 | v2.
Inductive ScopeSource := s_global | s_warehouse | s_user_id | s_session_id.

#[global] Instance LogicVersion_eq_dec : EqDecision LogicVersion.
Proof. solve_decision. Defined.
#[global] Instance ScopeSource_eq_dec : EqDecision ScopeSource.
Proof. solve_decision. Defined.

Definition version_text (v : LogicVersion) : string := match v with v1 => "v1" | v2 => "v2" end.
Definition source_text (s : ScopeSource) : string :=
  match s with
  | s_global => "global" | s_warehouse => "warehouse" | s_user_id => "user_id" | s_session_id => "session_id"
  end.

(** ** The context of a request *)

Record RequestContext := ReqContext {
  rc_request_id : option string;
  rc_session_id : option string;
  rc_user_id : option string;
  rc_username : option string;
  rc_role : option string;
  rc_warehouse : option string;
  rc_endpoint_name : string;
  rc_operation_name : string;
}.

(** What is read of the HTTP request: its headers, when they are a mapping, and
    [request.state.request_id]. *)
Record http_request := HttpRequest { headers : option doc; state_request_id : val }.

(** [str(v).strip() if v else None] *)
Definition stripped_text (v : val) : option string :=
  if truthy v then Some (strip (to_str v)) else None.

Definition request_id_of (request : option http_request) : val :=
  match request with
  | None => VNone
  | Some r =>
      let id := match headers r with
                | Some h => por (get "x-request-id" h) (get "x-correlation-id" h)
                | None => VNone
                end in
      if truthy id then id
      else match state_request_id r with VStr s => VStr s | _ => id end
  end.

Definition build_request_context (request : option http_request) (current_user : option doc)
    (endpoint_name operation_name : string) (session_id warehouse : val) : RequestContext :=
  let user := default [] current_user in
  let username := get "username" user in
  let user_id := por (get "id" user) (por (get "_id" user) (por (get "user_id" user) username)) in
  ReqContext (stripped_text (request_id_of request)) (stripped_text session_id)
    (stripped_text user_id) (stripped_text username) (stripped_text (get "role" user))
    (stripped_text warehouse) endpoint_name operation_name.

(** What the flag resolver reads of it. *)
Definition flag_context_of (rc : RequestContext) : flag_context :=
  FlagContext (opt_str (rc_request_id rc)) (opt_str (rc_session_id rc)) (opt_str (rc_user_id rc))
    (opt_str (rc_username rc)) (opt_str (rc_role rc)) (opt_str (rc_warehouse rc)).

(** ** The execution context *)

Record LogicExecutionContext := ExecContext {
  logic_version : LogicVersion;
  scope_source : ScopeSource;
  is_kill_switch_active : bool;
  should_persist_pin : bool;
  pin_logic_version : option LogicVersion;
  pin_scope_source : option ScopeSource;
  resolved_flags : FlagResolution;
}.

(** The model's validator: [None] when it accepts, else the message. *)
Definition validate_pin_contract (c : LogicExecutionContext) : option string :=
  if should_persist_pin c && negb (is_given (pin_logic_version c) && is_given (pin_scope_source c))
  then Some "pin persistence requires both pin fields"
  else if negb (should_persist_pin c) && (is_given (pin_logic_version c) || is_given (pin_scope_source c))
  then Some "pin fields must be omitted when persistence is disabled"
  else if is_kill_switch_active c && negb (bool_decide (logic_version c = v1))
  then Some "kill switch must force runtime v1"
  else None.

Definition make_context (c : LogicExecutionContext) : outcome LogicExecutionContext :=
  match validate_pin_contract c with
  | None => Ok c
  | Some msg => Raise (ValueError ("Value error, " +:+ msg))
  end.

Definition _target_logic_version (r : FlagResolution) : LogicVersion :=
  if compare_on r || shadow_on r || enforce_writes_on r then v2 else v1.

(** [mapping[scope]]: a request scope has no pin source. *)
Definition _scope_to_pin_source (s : scope) : outcome ScopeSource :=
  match s with
  | GlobalScope => Ok s_global
  | WarehouseScope => Ok s_warehouse
  | UserScope => Ok s_user_id
  | SessionScope => Ok s_session_id
  | RequestScope => Raise (KeyError "request")
  end.

(** ** The pin of a session *)

Definition parse_version (v : val) : option LogicVersion :=
  List.find (fun x => py_eqb v (VStr (version_text x))) [v1; v2].
Definition parse_source (v : val) : option ScopeSource :=
  List.find (fun x => py_eqb v (VStr (source_text x))) [s_global; s_warehouse; s_user_id; s_session_id].

(** The membership tests of a stored pin in the two sets, in their order. *)
Definition check_pin (version source : val) : outcome (LogicVersion * ScopeSource) :=
  if negb (hashable version) then Raise (TypeError "unhashable type")
  else match parse_version version with
       | None => Raise (LogicGuardConflictError "invalid stored session pin")
       | Some v =>
           if negb (hashable source) then Raise (TypeError "unhashable type")
           else match parse_source source with
                | None => Raise (LogicGuardConflictError "invalid stored session pin")
                | Some s => Ok (v, s)
                end
       end.

Definition _extract_stored_pin (session : option doc) : outcome (option (LogicVersion * ScopeSource)) :=
  match session with
  | Some ((_ :: _) as d) =>
      let version := get "logic_version" d in
      let source := get "logic_scope_source" d in
      if is_none version && is_none source then Ok None
      else if is_none version || is_none source
      then Raise (LogicGuardConflictError "missing pin on subsequent write")
      else match check_pin version source with
           | Ok p => Ok (Some p)
           | Raise e => Raise e
           end
  | _ => Ok None
  end.

(** The first non-blank of the two ids of a session. *)
Fixpoint first_identifier (keys : list string) (session : doc) : option string :=
  match keys with
  | [] => None
  | k :: keys' =>
      let value := get k session in
      if truthy value && negb (String.eqb (strip (to_str value)) "")
      then Some (strip (to_str value))
      else first_identifier keys' session
  end.

Definition _session_identifier (session : doc) : option string := first_identifier ["id"; "session_id"] session.

(** ** Enforcement *)

Section guard.
Context {C : Type} `{Mongo C}.
Context (clock : nat → Z) (parse_flag : Z → Z → doc → option FeatureFlag) (sha256 : string → string).
Context (database_bool : outcome bool).

Definition forced (kill : bool) (v : LogicVersion) : LogicVersion := if kill then v1 else v.

(** The context of a write or read, from the resolved flags, the kill switch
    and the stored pin. *)
Definition execution_context (resolved : FlagResolution) (kill is_mutation : bool)
    (stored_pin : option (LogicVersion * ScopeSource)) : outcome LogicExecutionContext :=
  match stored_pin with
  | Some (v, s) => make_context (ExecContext (forced kill v) s kill false None None resolved)
  | None =>
      let target := _target_logic_version resolved in
      match _scope_to_pin_source (resolution_scope resolved) with
      | Raise e => Raise e
      | Ok source =>
          if negb is_mutation
          then make_context (ExecContext (forced kill target) source kill false None None resolved)
          else make_context (ExecContext (forced kill target) source kill true
                               (Some (forced kill target)) (Some source) resolved)
      end
  end.

Definition resolve_and_enforce_logic (session : option doc) (rc : RequestContext) (is_mutation : bool)
  : M (world C) LogicExecutionContext :=
  do resolved <- resolve_phase0_flags clock parse_flag sha256 database_bool (flag_context_of rc) is_mutation ;;
  do kill <- is_global_disable_active clock parse_flag database_bool ;;
  do stored_pin <- lift (_extract_stored_pin session) ;;
  lift (execution_context resolved kill is_mutation stored_pin).

Definition pinned (c : LogicExecutionContext) (session : doc) : doc :=
  aset "logic_scope_source" (opt_str (source_text <$> pin_scope_source c))
    (aset "logic_version" (opt_str (version_text <$> pin_logic_version c)) session).

(** The session is returned as the call leaves it. *)
Definition persist_pin_if_needed (session : doc) (c : LogicExecutionContext) : M (world C) doc :=
  if negb (should_persist_pin c) then ret session
  else
    match _session_identifier session with
    | None => ret session
    | Some session_id =>
        run persist_logic_pin clock session_id (version_text <$> pin_logic_version c)
              (source_text <$> pin_scope_source c) None "system" ;;
        ret (pinned c session)
    end.

Definition apply_pin_to_new_session (session : doc) (c : LogicExecutionContext) : doc :=
  if should_persist_pin c then pinned c session else session.

(** The answers of the exception handlers. *)
Definition guard_failure (e : exn) : exn :=
  match e with
  | LogicGuardConflictError reason => HTTPException 409 (VStr reason)
  | FlagResolutionError msg => HTTPException 409 (VStr msg)
  | HTTPException _ _ => e
  | _ => HTTPException 500 (VStr "BL V2 logic guard failure")
  end.

Definition enforce_session_logic (session : option doc) (rc : RequestContext) (is_mutation : bool)
  : M (world C) (LogicExecutionContext * option doc) :=
  try_except
    (do context <- resolve_and_enforce_logic session rc is_mutation ;;
     match session with
     | Some d =>
         if is_mutation
         then do d' <- persist_pin_if_needed d context ;; ret (context, Some d')
         else ret (context, Some d)
     | None => ret (context, None)
     end)
    (fun e => raise (guard_failure e)).
End guard.

(** ** Reading back what is written *)

Lemma parse_version_text v : parse_version (VStr (version_text v)) = Some v.
Proof. by destruct v. Qed.

Lemma parse_source_text s : parse_source (VStr (source_text s)) = Some s.
Proof. by destruct s. Qed.

Lemma extract_pin_text d v s :
  get "logic_version" d = VStr (version_text v) → get "logic_scope_source" d = VStr (source_text s) →
  _extract_stored_pin (Some d) = Ok (Some (v, s)).
Proof.
  intros Hv Hs. destruct d as [|kv d]; [done|]. unfold _extract_stored_pin, check_pin. rewrite Hv, Hs.
  cbn [is_none andb orb hashable negb]. by rewrite parse_version_text, parse_source_text.
Qed.

Lemma make_context_ok c c' : make_context c = Ok c' → c' = c ∧ validate_pin_contract c = None.
Proof. unfold make_context. destruct (validate_pin_contract c); naive_solver. Qed.

Lemma forced_v1 kill v : kill = true → forced kill v = v1.
Proof. by intros ->. Qed.

(** The contexts the guard builds all pass the validator. *)
Lemma execution_context_spec r kill m pin c :
  execution_context r kill m pin = Ok c →
  validate_pin_contract c = None ∧ is_kill_switch_active c = kill ∧ resolved_flags c = r ∧
  match pin with
  | Some (v, s) => logic_version c = forced kill v ∧ scope_source c = s ∧ should_persist_pin c = false
  | None =>
      logic_version c = forced kill (_target_logic_version r) ∧
      _scope_to_pin_source (resolution_scope r) = Ok (scope_source c) ∧ should_persist_pin c = m
  end ∧
  (should_persist_pin c = true →
   pin_logic_version c = Some (logic_version c) ∧ pin_scope_source c = Some (scope_source c)).
Proof.
  unfold execution_context. destruct pin as [[v s]|].
  - intros [-> Hc]%make_context_ok. split_and!; done.
  - destruct (_scope_to_pin_source _) as [source|e]; [|done].
    destruct m; intros [-> Hc]%make_context_ok; by split_and!.
Qed.

Lemma execution_context_defined r kill m pin :
  resolution_scope r ≠ RequestScope → ∃ c, execution_context r kill m pin = Ok c.
Proof.
  intros Hr. unfold execution_context, make_context, validate_pin_contract.
  destruct pin as [[v s]|], kill, m; cbn; eauto; destruct (resolution_scope r); cbn; eauto; done.
Qed.

Section guard_laws.
Context {C : Type} `{MongoLaws C}.
Context (clock : nat → Z) (parse_flag : Z → Z → doc → option FeatureFlag) (sha256 : string → string).
Context (database_bool : outcome bool).
Implicit Types (w : world C).

Abbreviation resolve_logic := (resolve_and_enforce_logic (C:=C) clock parse_flag sha256 database_bool).
Abbreviation enforce := (enforce_session_logic (C:=C) clock parse_flag sha256 database_bool).

Lemma frame_resolve_logic s rc m : frame [] (resolve_logic s rc m).
Proof. unfold resolve_and_enforce_logic. solve_frame. Qed.

Lemma resolve_logic_ok s rc m w c w' :
  resolve_logic s rc m w = (Ok c, w') →
  (∀ n, w_db w' n = w_db w n) ∧
  ∃ r kill pin, combination_ok r ∧ _extract_stored_pin s = Ok pin ∧ execution_context r kill m pin = Ok c.
Proof.
  intros Hr. split; [intros n; by apply (frame_db _ _ _ _ _ n (frame_resolve_logic s rc m) Hr)|].
  unfold resolve_and_enforce_logic in Hr.
  apply bind_ok_inv in Hr as (r & w1 & Hres & Hr). apply bind_ok_inv in Hr as (kill & w2 & _ & Hr).
  apply bind_ok_inv in Hr as (pin & w3 & Hp & Hr). unfold lift in Hp, Hr. injection Hp as Hp _. injection Hr as Hr _.
  exists r, kill, pin. split_and!; [|done|done].
  unfold resolve_phase0_flags in Hres. apply bind_ok_inv in Hres as (t & w3' & _ & Hres).
  apply bind_ok_inv in Hres as (flags & w4 & _ & Hres).
  apply bind_ok_inv in Hres as ([vs ss] & w5 & _ & Hres). unfold lift in Hres. injection Hres as Hres _.
  by apply validate_combination_ok in Hres as [-> ?].
Qed.

(** A call that returns: resolution, then the pin when there is one to store. *)
Lemma enforce_ok s rc m w c s' w' :
  enforce s rc m w = (Ok (c, s'), w') →
  ∃ w1, resolve_logic s rc m w = (Ok c, w1) ∧
    match s with
    | Some d => if m then ∃ d', persist_pin_if_needed clock d c w1 = (Ok d', w') ∧ s' = Some d'
                else s' = s ∧ w' = w1
    | None => s' = s ∧ w' = w1
    end.
Proof.
  unfold enforce_session_logic, try_except. intros He.
  destruct (bind _ _ w) as [[a|e] w2] eqn:Hb; [|done]. injection He as -> ->.
  apply bind_ok_inv in Hb as (c1 & w1 & Hr & Hb). exists w1.
  destruct s as [d|]; [destruct m|].
  - apply bind_ok_inv in Hb as (d' & w3 & Hp & Hb). unfold ret in Hb. simplify_eq. eauto.
  - unfold ret in Hb. by simplify_eq.
  - unfold ret in Hb. by simplify_eq.
Qed.

(** The driver's database has no truth value ([NotImplementedError] is a
    [RuntimeError]): a guarded request that passes it is answered with a 500. *)
Lemma guard_without_truth_value msg s rc m w :
  database_bool = Raise (RuntimeError msg) →
  enforce s rc m w = (Raise (HTTPException 500 (VStr "BL V2 logic guard failure")), w).
Proof.
  intros Hd. unfold enforce_session_logic, resolve_and_enforce_logic, resolve_phase0_flags. by rewrite Hd.
Qed.

(** A pinned session runs the pinned version, or v1 while the kill switch is
    on, and is not written. *)
Lemma pinned_session_logic d v s rc m w c s' w' :
  _extract_stored_pin (Some d) = Ok (Some (v, s)) →
  enforce (Some d) rc m w = (Ok (c, s'), w') →
  scope_source c = s ∧ logic_version c = forced (is_kill_switch_active c) v ∧
  should_persist_pin c = false ∧ s' = Some d ∧ (∀ n, w_db w' n = w_db w n).
Proof.
  intros Hp (w1 & Hr & Hw)%enforce_ok. destruct (resolve_logic_ok _ _ _ _ _ _ Hr) as (Hdb & r & kill & pin & _ & Hpin & Hc).
  rewrite Hp in Hpin. simplify_eq. destruct (execution_context_spec _ _ _ _ _ Hc) as (_ & Hk & _ & (Hv & Hs & Hn) & _).
  assert (s' = Some d ∧ w' = w1) as [-> ->].
  { destruct m; [|exact Hw]. destruct Hw as (d' & Hw & ->). unfold persist_pin_if_needed in Hw.
    rewrite Hn in Hw. by injection Hw as -> ->. }
  split; [done|]. split; [by rewrite Hk|]. auto.
Qed.

(** Type: every execution context the guard returns satisfies the contract
    of its model: pin fields are is_given exactly when a pin is to be persisted,
    an active kill switch means v1, the pin to be stored is the logic that
    runs, and the resolved flags are a permitted combination. A read never
    asks for a pin and changes no collection. *)
Theorem execution_context_contract session rc m w c s' w' :
  enforce session rc m w = (Ok (c, s'), w') →
  validate_pin_contract c = None ∧ combination_ok (resolved_flags c) ∧
  (is_kill_switch_active c = true → logic_version c = v1) ∧
  (should_persist_pin c = true → m = true ∧ _extract_stored_pin session = Ok None ∧
     pin_logic_version c = Some (logic_version c) ∧ pin_scope_source c = Some (scope_source c)) ∧
  (m = false → ∀ n, w_db w' n = w_db w n).
Proof.
  intros (w1 & Hr & Hw)%enforce_ok. destruct (resolve_logic_ok _ _ _ _ _ _ Hr) as (Hdb & r & kill & pin & Hrok & Hpin & Hc).
  destruct (execution_context_spec _ _ _ _ _ Hc) as (Hval & Hk & Hf & Hcase & Hpersist).
  split; [done|]. split; [by rewrite Hf|]. split_and!.
  - rewrite Hk. intros Hon. destruct pin as [[v s]|]; destruct Hcase as (-> & _); by apply forced_v1.
  - intros Hs. destruct pin as [[v s]|]; [destruct Hcase as (_ & _ & Hn); congruence|].
    destruct Hcase as (_ & _ & Hm). split_and!; [congruence | done | by apply Hpersist..].
  - intros -> n. destruct session; destruct Hw as [_ ->]; auto.
Qed.

(** C23: a pin decides the logic of a session once and for all: when a write on
    an unpinned session has pinned it, the stored session and the caller's
    copy hold the logic version and scope that ran, and every later call that
    returns with the stored session, in whatever state the flags then are,
    runs exactly that version (v1 while the kill switch is on) under that
    scope, asks for no new pin and writes nothing. *)
Theorem pin_fixes_logic sid d rc w c d' w' :
  sessions_ok (w_db w "sessions") →
  enforce (Some d) rc true w = (Ok (c, Some d'), w') →
  should_persist_pin c = true → _session_identifier d = Some sid →
  _extract_stored_pin (Some d') = Ok (Some (logic_version c, scope_source c)) ∧
  ∃ stored, find_one (_lookup sid) (w_db w' "sessions") = Some stored ∧
    _extract_stored_pin (Some stored) = Ok (Some (logic_version c, scope_source c)) ∧
    ∀ rc2 m2 w2 c2 s2 w2', enforce (Some stored) rc2 m2 w2 = (Ok (c2, s2), w2') →
      scope_source c2 = scope_source c ∧
      logic_version c2 = forced (is_kill_switch_active c2) (logic_version c) ∧
      should_persist_pin c2 = false ∧ (∀ n, w_db w2' n = w_db w2 n).
Proof.
  intros Hok (w1 & Hr & (d1 & Hw & Hd1))%enforce_ok Hs Hsid. simplify_eq.
  destruct (resolve_logic_ok _ _ _ _ _ _ Hr) as (Hdb & r & kill & pin & _ & _ & Hc).
  destruct (execution_context_spec _ _ _ _ _ Hc) as (_ & _ & _ & _ & Hpersist).
  destruct (Hpersist Hs) as [Hpv Hps]. unfold persist_pin_if_needed in Hw.
  rewrite Hs, Hsid in Hw. cbn [negb] in Hw. apply bind_ok_inv in Hw as ([] & w2 & Hp & Hw).
  unfold ret in Hw. simplify_eq. split.
  { apply extract_pin_text; unfold pinned; rewrite Hpv, Hps; cbn [fmap option_fmap option_map opt_str].
    - by rewrite get_aset_ne, get_aset_eq.
    - by rewrite get_aset_eq. }
  unfold persist_logic_pin in Hp. rewrite Hpv, Hps in Hp. cbn [fmap option_fmap option_map opt_str] in Hp.
  rewrite <- Hdb in Hok. set (fields := [_; _]) in Hp.
  destruct (update_fields_stored clock _ fields _ _ _ _ _ Hok eq_refl eq_refl Hp) as (e & _ & _ & He).
  eexists. split; [exact He|].
  assert (_extract_stored_pin (Some (apply_update (occ_update fields) e)) =
          Ok (Some (logic_version c, scope_source c))) as Hpin.
  { apply extract_pin_text.
    - rewrite (get_apply_set _ _ "logic_version" (VStr (version_text (logic_version c))));
        [by apply to_bson_plain | by apply occ_nodup | done].
    - rewrite (get_apply_set _ _ "logic_scope_source" (VStr (source_text (scope_source c))));
        [by apply to_bson_plain | by apply occ_nodup | done]. }
  split; [exact Hpin|]. intros rc2 m2 w3 c2 s2 w3' He2.
  destruct (pinned_session_logic _ _ _ _ _ _ _ _ _ Hpin He2) as (? & ? & ? & _ & ?). done.
Qed.
End guard_laws.

(** ** Examples *)

Definition flag_doc (k s : string) : doc := [("_id", VOid k); ("key", VStr k); ("state", VStr s)].
Definition open_session : doc := [("id", VStr "S1"); ("session_id", VStr "S1"); ("status", VStr "ACTIVE")].
Definition example_context : RequestContext :=
  build_request_context (Some (HttpRequest (Some [("x-request-id", VStr " r1 ")]) VNone))
    (Some [("username", VStr "ann"); ("role", VStr "staff")]) "save" "save" (VStr "S1") VNone.
Definition example_world (compare : string) (sessions : list doc) : world coll :=
  mkworld [("feature_flags", [flag_doc BL_V2_COMPARE compare]); ("sessions", sessions)].
Definition example_enforce (s : doc) (w : world coll) : outcome (LogicExecutionContext * option doc) * world coll :=
  enforce_session_logic no_clock example_parse (fun s => s) (Ok true) (Some s) example_context true w.

Example execution_context_contract_witness :
  let w := example_world "enabled" [open_session] in
  ∃ c s', fst (example_enforce open_session w) = Ok (c, s') ∧
    validate_pin_contract c = None ∧ should_persist_pin c = true ∧ logic_version c = v2.
Proof.
  intros w. destruct (example_enforce open_session w) as [o w'] eqn:E.
  pose proof (execution_context_contract no_clock example_parse (fun s => s) (Ok true)
    (Some open_session) example_context true w) as Hc.
  unfold example_enforce in E. destruct o as [[c s']|e].
  - destruct (Hc c s' w' E) as [Hv _]. exists c, s'. split; [reflexivity|]. split; [exact Hv|].
    vm_compute in E. injection E as <- _ _. split; reflexivity.
  - exfalso. vm_compute in E. discriminate E.
Defined.

Example pin_fixes_logic_witness :
  let w := example_world "enabled" [open_session] in
  ∃ stored, find_one (_lookup "S1") (w_db (snd (example_enforce open_session w)) "sessions") = Some stored ∧
    _extract_stored_pin (Some stored) = Ok (Some (v2, s_global)).
Proof.
  intros w. destruct (example_enforce open_session w) as [o w'] eqn:E.
  pose proof (pin_fixes_logic no_clock example_parse (fun s => s) (Ok true)
    "S1" open_session example_context w) as Hc.
  assert (sessions_ok (w_db w "sessions")) as Hok by (apply sessions_ok_single; vm_compute; split; reflexivity).
  unfold example_enforce in E.
  assert (∃ c d', o = Ok (c, Some d') ∧ should_persist_pin c = true ∧ logic_version c = v2 ∧ scope_source c = s_global)
    as (c & d' & -> & Hs & Hv & Hg).
  { vm_compute in E. injection E as <- _. eexists _, _. split; [reflexivity|]. split_and!; reflexivity. }
  destruct (Hc c d' w' Hok E Hs eq_refl) as (_ & stored & Hf & Hp & _).
  exists stored. rewrite Hv, Hg in Hp. split; [exact Hf | exact Hp].
Defined.

(** The pin is stored without looking at what the database holds: a second write
    that still has the session as it was before the first one pins it again,
    to another version when the flags have changed in between. *)
Lemma stale_session_repins :
  let w1 := snd (example_enforce open_session (example_world "disabled" [open_session])) in
  let w2 := set_coll "feature_flags" [flag_doc BL_V2_COMPARE "enabled"] w1 in
  let w3 := snd (example_enforce open_session w2) in
  _extract_stored_pin (find_one (_lookup "S1") (w_db w1 "sessions")) = Ok (Some (v1, s_global)) ∧
  _extract_stored_pin (find_one (_lookup "S1") (w_db w3 "sessions")) = Ok (Some (v2, s_global)).
Proof. vm_compute. split; reflexivity. Qed.
