(* ===== verification/Quantity.v ===== *)
(** The business rules of count lines: the count-line part of
    [services/validation_service.py] (units, precision, fractions, serial
    numbers), which every count-line write runs after it has been stored.

    The queries of [find_serial_conflict] on list fields and on the dotted
    field [serial_entries.serial_number] are left to the store. *)

From Stdlib Require Import Ascii.
From S2P Require Import Prelude PyFloat Py PyDecimal Store ListStore Guard Lifecycle.

Local Open Scope Z_scope.
Local Open Scope stock_scope.

Definition FRACTIONAL_UOMS : list string :=
  ["KG"; "KGS"; "L"; "LTR"; "LTRS"; "LITER"; "LITRE"; "M"; "MTR"; "METER"; "METRE"].

(** ** Reading values *)

Definition _as_bool (value : val) (dflt : bool) : bool :=
  match value with
  | VNone => dflt
  | VBool b => b
  | _ =>
      let normalized := lower (strip (to_str value)) in
      if str_in normalized ["1"; "true"; "yes"; "y"; "on"] then true
      else if str_in normalized ["0"; "false"; "no"; "n"; "off"; ""] then false
      else dflt
  end.

Definition _normalize_string (value : val) : option string :=
  match value with
  | VNone => None
  | _ => let normalized := strip (to_str value) in
         if String.eqb normalized "" then None else Some normalized
  end.

Definition _normalize_uom (value : val) : option string := upper <$> _normalize_string value.

(** [value in (None, "")] *)
Definition blank (value : val) : bool :=
  match value with VNone => true | VStr s => String.eqb s "" | _ => false end.

Definition _as_decimal (value : val) : outcome decimal :=
  match parse_decimal (if blank value then "0" else to_str value) with
  | Some d => Ok d
  | None => Raise (GovernanceViolation ("INVALID_QUANTITY: " +:+ to_str value))
  end.

Definition _decimal_places (value : decimal) : outcome Z :=
  obind (d_eq value (DFin false 0 0)) (fun zero =>
  if zero then Ok 0
  else obind (d_normalize value) (fun n =>
       Ok (match n with DFin _ _ e => Z.max 0 (- e) | _ => 0 end))).

(** [for x in v or []] *)
Definition iterate (v : val) : outcome (list val) :=
  if truthy v then py_iter v else Ok [].

(** The serials seen so far, in order, with the next one. *)
Definition add_serial (normalized : list string) (serial : option string) : list string :=
  match serial with
  | Some s => let u := upper s in if str_in u normalized then normalized else normalized ++ [u]
  | None => normalized
  end.

Definition entry_serial (entry : val) : option string :=
  match entry with VDict d => _normalize_string (get "serial_number" d) | _ => None end.

Definition _normalize_serials (d : doc) : outcome (list string) :=
  obind (iterate (get "serial_numbers" d)) (fun numbers =>
  obind (iterate (get "serial_entries" d)) (fun entries =>
  Ok (fold_left (fun acc e => add_serial acc (entry_serial e)) entries
        (fold_left (fun acc v => add_serial acc (_normalize_string v)) numbers [])))).

Definition or_else {A} (a b : option A) : option A := match a with Some _ => a | None => b end.

Definition in_fractional (o : option string) : bool :=
  match o with Some u => str_in u FRACTIONAL_UOMS | None => false end.

Definition given {A} (o : option A) : bool := match o with Some _ => true | None => false end.

(** [a != b] *)
Definition d_ne (a b : decimal) : outcome bool := obind (d_eq a b) (fun b => Ok (negb b)).

Definition violate (b : bool) (msg : string) : outcome unit :=
  if b then Raise (GovernanceViolation msg) else Ok tt.

(** ** The normalized quantity of a line *)

Record normalized_qty := NormQty {
  nq_counted_qty : float; nq_input_qty : float;
  nq_input_uom : option string; nq_base_uom : option string;
  nq_uom_code : option string; nq_uom_name : option string;
  nq_conversion_factor : float; nq_quantity_precision : Z; nq_allow_fraction : bool;
  nq_serial_numbers : list string; nq_is_serial_item : bool;
}.

Definition input_uom_of (item d : doc) : option string :=
  or_else (_normalize_uom (get "input_uom" d))
  (or_else (_normalize_uom (get "uom_code" d))
  (or_else (_normalize_uom (get "uom_name" d))
  (or_else (_normalize_uom (get "uom_code" item))
  (or_else (_normalize_uom (get "uom_name" item)) (_normalize_uom (get "uom" item)))))).

Definition base_uom_of (item d : doc) : option string :=
  or_else (_normalize_uom (get "base_uom" d))
  (or_else (_normalize_uom (get "base_uom" item))
  (or_else (_normalize_uom (get "uom_code" item)) (input_uom_of item d))).

Definition fraction_allowed (item d : doc) (qty : decimal) : outcome bool :=
  match get "allow_fraction" item with
  | VNone =>
      let input_uom := input_uom_of item d in
      let base_uom := base_uom_of item d in
      if given input_uom || given base_uom then Ok (in_fractional input_uom || in_fractional base_uom)
      else if _as_bool (get "allow_fraction" d) false then Ok true
      else obind (_decimal_places qty) (fun places => Ok (0 <? places))
  | v => Ok (_as_bool v false)
  end.

Definition precision_of (item d : doc) (qty : decimal) (allow_fraction : bool) : outcome Z :=
  let precision := match get "quantity_precision" d with VNone => get "uom_precision" item | v => v end in
  obind (match precision with
         | VNone => obind (_decimal_places qty) (fun places => Ok (Z.max places (if allow_fraction then 3 else 0)))
         | v => to_int v
         end) (fun p => Ok (Z.max p 0)).

(** The quantity may carry a fraction only where the item allows one. *)
Definition check_integral (allow_fraction : bool) (qty : decimal) : outcome unit :=
  if allow_fraction then Ok tt
  else obind (d_to_integral qty) (fun i => obind (d_ne qty i) (fun ne => violate ne "FRACTION_NOT_ALLOWED")).

Definition check_serials (serial_numbers : list string) (serialized : bool) (qty : decimal) : outcome unit :=
  match serial_numbers with
  | [] =>
      if serialized
      then obind (d_ne qty (DFin false 1 0)) (fun ne => violate ne "SERIAL_QTY_MUST_BE_ONE")
      else Ok tt
  | _ => obind (d_ne qty (d_of_Z (Z.of_nat (length serial_numbers)))) (fun ne => violate ne "SERIAL_QTY_MISMATCH")
  end.

Definition normalize_quantity_for_item (item d : doc) : outcome normalized_qty :=
  obind (_as_decimal (get "counted_qty" d)) (fun qty =>
  obind (_as_decimal (por (get "conversion_factor" d) (por (get "uom_conversion_factor" item) (VInt 1))))
    (fun conversion_factor =>
  obind (d_le conversion_factor (DFin false 0 0)) (fun bad =>
  obind (violate bad "INVALID_UOM_CONVERSION") (fun _ =>
  obind (fraction_allowed item d qty) (fun allow_fraction =>
  obind (precision_of item d qty allow_fraction) (fun precision =>
  obind (_normalize_serials d) (fun serial_numbers =>
  let serialized := _as_bool (get "is_serialized" item) false in
  obind (check_integral allow_fraction qty) (fun _ =>
  obind (_decimal_places qty) (fun places =>
  obind (violate (precision <? places) "PRECISION_EXCEEDED") (fun _ =>
  obind (d_mul qty conversion_factor) (fun base_qty =>
  obind (check_integral allow_fraction base_qty) (fun _ =>
  obind (check_serials serial_numbers serialized qty) (fun _ =>
  obind (d_to_float base_qty) (fun counted =>
  obind (d_to_float qty) (fun input =>
  obind (d_to_float conversion_factor) (fun factor =>
  Ok (NormQty counted input (input_uom_of item d) (base_uom_of item d)
        (or_else (_normalize_uom (get "uom_code" item)) (input_uom_of item d))
        (or_else (_normalize_string (get "uom_name" item)) (input_uom_of item d))
        factor precision allow_fraction serial_numbers
        (serialized || negb (match serial_numbers with [] => true | _ => false end))))))))))))))))))).

Section rules.
Context {C : Type} `{Mongo C}.
Context (clock : nat → Z) (strict_mode write_logs : bool).

(** ** Item and serial lookups *)

Definition lookup_text (name field : string) (o : option string) : M (world C) (option doc) :=
  match o with
  | Some s => db_find_one name (QEq field (VStr s))
  | None => ret None
  end.

Definition resolve_item_master (d : doc) (item : option doc) : M (world C) doc :=
  match item with
  | Some i => ret i
  | None =>
      do by_barcode <- lookup_text "erp_items" "barcode" (_normalize_string (get "barcode" d)) ;;
      match by_barcode with
      | Some i => ret i
      | None =>
          do by_code <- lookup_text "erp_items" "item_code" (_normalize_string (get "item_code" d)) ;;
          ret (default [] by_code)
      end
  end.

(** A serial clause, for the item when one is named. *)
Definition for_item (clause : query) (item_code : option string) : query :=
  match item_code with
  | Some code => QAnd [clause; QOr [QEq "item_id" (VStr code); QEq "item_code" (VStr code)]]
  | None => clause
  end.

(** Another line than the current one. *)
Definition other_line (current existing : option string) : bool :=
  match current with
  | Some c => negb (String.eqb c "") && negb (bool_decide (existing = Some c)) || String.eqb c ""
  | None => true
  end.

Definition conflict (source normalized : string) (m : doc) (floor rack : val) (line_id : option string) : doc :=
  [("source", VStr source); ("serial_no", VStr normalized); ("item_id", get "item_id" m);
   ("item_code", get "item_code" m); ("item_name", get "item_name" m); ("counted_by", get "counted_by" m);
   ("floor_no", floor); ("rack_no", rack); ("status", get "status" m); ("session_id", get "session_id" m);
   ("count_line_id", opt_str line_id)].

Definition find_serial_conflict (serial_no : val) (item_code : val) (current_line_id : option string)
  : M (world C) (option doc) :=
  match _normalize_string serial_no with
  | None => ret None
  | Some s =>
      let normalized := upper s in
      let code := _normalize_string item_code in
      do registry <- db_find_one "serial_registry" (for_item (QEq "serial_no" (VStr normalized)) code) ;;
      let in_registry :=
        match registry with
        | Some m =>
            let line := _normalize_string (por (get "count_line_id" m) (get "line_id" m)) in
            if other_line current_line_id line
            then Some (conflict "serial_registry" normalized m (por (get "floor_id" m) (get "floor_no" m))
                         (por (get "rack_id" m) (get "rack_no" m)) line)
            else None
        | None => None
        end in
      match in_registry with
      | Some c => ret (Some c)
      | None =>
          do legacy <- db_find_one "item_serials" (for_item (QEq "serial_number" (VStr normalized)) code) ;;
          match legacy with
          | Some m => ret (Some (conflict "item_serials" normalized m (get "floor_no" m) (get "rack_no" m)
                                   (_normalize_string (get "count_line_id" m))))
          | None =>
              do line <- db_find_one "count_lines"
                (for_item (QOr [QEq "serial_numbers" (VStr normalized);
                                QDot "serial_entries" "serial_number" (VStr normalized)]) code) ;;
              ret match line with
                  | Some m =>
                      let id := _normalize_string (por (get "id" m) (get "_id" m)) in
                      if other_line current_line_id id
                      then Some (conflict "legacy_count_lines" normalized m (get "floor_no" m) (get "rack_no" m) id)
                      else None
                  | None => None
                  end
          end
      end
  end.

Fixpoint assert_item_serial_uniqueness (item_code : string) (serial_numbers : list string)
    (current_line_id : option string) : M (world C) unit :=
  match serial_numbers with
  | [] => ret tt
  | serial :: rest =>
      do found <- find_serial_conflict (VStr serial) (VStr item_code) current_line_id ;;
      run raise_if (given found) (GovernanceViolation ("SERIAL_DUPLICATE: " +:+ serial)) ;;
      assert_item_serial_uniqueness item_code rest current_line_id
  end.

(** ** The rules, and the validation of a line *)

Definition normalized_fields (d : doc) (code : option string) (n : normalized_qty) : doc :=
  [("item_code", por (opt_str code) (get "item_code" d));
   ("counted_qty", VFloat (nq_counted_qty n)); ("input_qty", VFloat (nq_input_qty n));
   ("input_uom", opt_str (nq_input_uom n)); ("base_uom", opt_str (nq_base_uom n));
   ("uom_code", opt_str (nq_uom_code n)); ("uom_name", opt_str (nq_uom_name n));
   ("conversion_factor", VFloat (nq_conversion_factor n));
   ("quantity_precision", VInt (nq_quantity_precision n));
   ("allow_fraction", VBool (nq_allow_fraction n));
   ("serial_numbers", match nq_serial_numbers n with
                      | [] => get "serial_numbers" d
                      | l => VList (map VStr l)
                      end);
   ("is_serial_item", VBool (nq_is_serial_item n))].

(** The document as the call leaves it. *)
Definition enforce_count_line_business_rules (d : doc) (item : option doc) : M (world C) doc :=
  do item_master <- resolve_item_master d item ;;
  do n <- lift (normalize_quantity_for_item item_master d) ;;
  let current_line_id := _normalize_string (por (get "id" d) (get "_id" d)) in
  let code := _normalize_string (por (get "item_code" d) (por (get "item_id" d) (get "item_code" item_master))) in
  run match nq_serial_numbers n with
      | [] => ret tt
      | serials =>
          match code with
          | None => raise (GovernanceViolation "MISSING_ITEM_CODE")
          | Some c => assert_item_serial_uniqueness c serials current_line_id
          end
      end ;;
  ret (aupd d (normalized_fields d code n)).

Definition missing_errors (d : doc) : list string :=
  let missing k := if truthy (get k d) then [] else ["Missing " +:+ k] in
  missing "session_id" ++ missing "location_id" ++ missing "floor_id" ++ missing "rack_id" ++
  (let status := upper (strip (to_str (por (get "status" d) (VStr "")))) in
   if String.eqb status "FINALIZED" && truthy (dget "mutable" (VBool false) d)
   then ["Finalized line is mutable"] else []).

(** [validate_count_line]: the errors, and the document as it leaves it. *)
Definition validate_count_line (d : doc) (raise_on_error : option bool) : M (world C) (list string * doc) :=
  do ' (broken, d') <- (fun w =>
    match enforce_count_line_business_rules d None w with
    | (Raise (GovernanceViolation msg), w') => (Ok ([msg], d), w')
    | (Ok d', w') => (Ok ([], d'), w')
    | (Raise e, w') => (Raise e, w')
    end) ;;
  let errors := missing_errors d ++ broken in
  run _handle_errors clock strict_mode write_logs "count_line" d' errors raise_on_error ;;
  ret (errors, d').
End rules.

(** ** What an accepted quantity is *)

(** The decimal denotes the integer [z]. *)
Definition d_is (a : decimal) (z : Z) : Prop :=
  match a with
  | DFin neg c e => d_signed neg c * 10 ^ Z.max 0 e = z * 10 ^ Z.max 0 (- e)
  | _ => False
  end.

(** An integer, or an infinity, which the checks let pass. *)
Definition d_whole (a : decimal) : Prop := (∃ z, d_is a z) ∨ ∃ neg, a = DInf neg.

Lemma obind_ok {A B} (o : outcome A) (f : A → outcome B) b :
  obind o f = Ok b → ∃ a, o = Ok a ∧ f a = Ok b.
Proof. destruct o; cbn [obind]; [eauto | done]. Qed.

Lemma violate_ok b msg u : violate b msg = Ok u → b = false.
Proof. by destruct b. Qed.

Lemma d_eq_is a z : d_eq a (d_of_Z z) = Ok true → d_is a z.
Proof.
  unfold d_eq, d_of_Z. destruct a as [s c e|s|[]]; cbn [d_signaling orb]; [|by destruct s|done|done].
  intros Heq. injection Heq as Heq. unfold d_compare in Heq.
  destruct (Z.compare_spec (d_signed s c * 10 ^ (e - Z.min e 0))
              (d_signed (z <? 0) (Z.abs z) * 10 ^ (0 - Z.min e 0))) as [E|E|E]; [|done|done].
  unfold d_is. replace (Z.max 0 e) with (e - Z.min e 0) by lia. rewrite E.
  replace (d_signed (z <? 0) (Z.abs z)) with z by (unfold d_signed; destruct (Z.ltb_spec z 0); lia).
  f_equal. f_equal. lia.
Qed.

Lemma ne_false_eq a b ne : d_ne a b = Ok ne → ne = false → d_eq a b = Ok true.
Proof. unfold d_ne. intros (x & Hx & Hn)%obind_ok ->. injection Hn as Hn. by destruct x. Qed.

Lemma check_integral_whole qty u : check_integral false qty = Ok u → d_whole qty.
Proof.
  unfold check_integral. intros (i & Hi & (ne & Hne & Hv%violate_ok)%obind_ok)%obind_ok.
  pose proof (ne_false_eq _ _ _ Hne Hv) as Heq.
  destruct qty as [s c e|s|[]]; cbn [d_to_integral] in Hi; [|right; eauto|done|].
  - left. apply Ok_inj in Hi as <-. destruct (Z.leb_spec 0 e) as [He|He].
    + exists (d_signed s c * 10 ^ e). unfold d_is.
      replace (Z.max 0 e) with e by lia. replace (Z.max 0 (- e)) with 0 by lia. lia.
    + exists (d_signed s (div_half_even c (10 ^ (- e)))). unfold d_eq in Heq. cbn [d_signaling orb d_compare] in Heq.
      injection Heq as Heq. unfold d_is.
      destruct (Z.compare_spec (d_signed s c * 10 ^ (e - Z.min e 0))
                  (d_signed s (div_half_even c (10 ^ (- e))) * 10 ^ (0 - Z.min e 0))) as [E|E|E]; [|done|done].
      replace (Z.max 0 e) with (e - Z.min e 0) by lia. replace (Z.max 0 (- e)) with (0 - Z.min e 0) by lia. done.
  - apply Ok_inj in Hi as <-. done.
Qed.

Lemma add_serial_nodup l s : NoDup l → NoDup (add_serial l s).
Proof.
  intros Hl. destruct s as [s|]; [|done]. cbn [add_serial]. cbv zeta. destruct (str_in (upper s) l) eqn:E; [done|].
  apply list.NoDup_app. split_and!; [done| |apply NoDup_singleton].
  intros x Hx ->%list_elem_of_singleton. by apply str_in_false in E.
Qed.

Lemma serials_nodup d l : _normalize_serials d = Ok l → NoDup l.
Proof.
  unfold _normalize_serials. intros (ns & _ & (es & _ & Hl)%obind_ok)%obind_ok. apply Ok_inj in Hl as <-.
  assert (∀ {A} (f : A → option string) (xs : list A) acc,
    NoDup acc → NoDup (fold_left (fun acc x => add_serial acc (f x)) xs acc)) as Hfold.
  { intros A f xs. induction xs as [|x xs IH]; intros acc Ha; [done|]. apply IH, add_serial_nodup, Ha. }
  apply Hfold, Hfold, NoDup_nil_2.
Qed.

(** C26: the quantity rules. [normalize_quantity_for_item] accepts a count only
    with a positive conversion factor, no more decimal places than its
    precision, a whole number (before and after conversion) where the item
    allows no fractions, and serial numbers that are distinct and exactly as
    many as counted; a serialized item without serial numbers is counted as one.
    The quantity it returns is the product of count and factor. What its callers
    do with that quantity is theirs: the write of a count line uses the check
    and drops the product ([CountLineSpec.conversion_not_stored]). *)
Theorem normalize_quantity_spec item d n :
  normalize_quantity_for_item item d = Ok n →
  ∃ qty factor base places,
    _as_decimal (get "counted_qty" d) = Ok qty ∧
    _as_decimal (por (get "conversion_factor" d) (por (get "uom_conversion_factor" item) (VInt 1))) = Ok factor ∧
    d_le factor (DFin false 0 0) = Ok false ∧
    d_mul qty factor = Ok base ∧ d_to_float base = Ok (nq_counted_qty n) ∧
    (nq_allow_fraction n = false → d_whole qty ∧ d_whole base) ∧
    _decimal_places qty = Ok places ∧ places <= nq_quantity_precision n ∧
    NoDup (nq_serial_numbers n) ∧
    (nq_serial_numbers n ≠ [] → d_is qty (Z.of_nat (length (nq_serial_numbers n)))) ∧
    (nq_serial_numbers n = [] → _as_bool (get "is_serialized" item) false = true → d_is qty 1).
Proof.
  unfold normalize_quantity_for_item. cbv zeta. intros Hn.
  apply obind_ok in Hn as (qty & Hq & Hn). apply obind_ok in Hn as (factor & Hf & Hn).
  apply obind_ok in Hn as (bad & Hbad & Hn). apply obind_ok in Hn as (? & ->%violate_ok & Hn).
  apply obind_ok in Hn as (frac & _ & Hn). apply obind_ok in Hn as (precision & _ & Hn).
  apply obind_ok in Hn as (serials & Hs & Hn). apply obind_ok in Hn as (u1 & Hint & Hn).
  apply obind_ok in Hn as (places & Hp & Hn). apply obind_ok in Hn as (? & Hprec%violate_ok & Hn).
  apply obind_ok in Hn as (base & Hb & Hn). apply obind_ok in Hn as (u2 & Hint2 & Hn).
  apply obind_ok in Hn as (u3 & Hser & Hn). apply obind_ok in Hn as (c & Hc & Hn).
  apply obind_ok in Hn as (? & _ & Hn). apply obind_ok in Hn as (? & _ & Hn).
  apply Ok_inj in Hn as <-. cbn. apply Z.ltb_ge in Hprec.
  exists qty, factor, base, places. split_and!; try done.
  - intros ->. split; [by apply (check_integral_whole qty u1) | by apply (check_integral_whole base u2)].
  - by apply (serials_nodup d).
  - intros Hne. destruct serials as [|sn sns]; [done|]. cbn [check_serials] in Hser.
    apply obind_ok in Hser as (ne & Hd & Hv%violate_ok). by apply d_eq_is, (ne_false_eq _ _ ne).
  - intros -> Hz. rewrite Hz in Hser. cbn [check_serials] in Hser.
    apply obind_ok in Hser as (ne & Hd & Hv%violate_ok). apply (d_eq_is qty 1), (ne_false_eq _ _ ne); done.
Qed.

Example normalize_quantity_spec_witness :
  let item := [("uom_code", VStr "BOX"); ("uom_conversion_factor", VInt 12)] in
  let d := [("counted_qty", VInt 2); ("serial_numbers", VList [VStr "a "; VStr "A"; VStr "b"])] in
  ∃ n, normalize_quantity_for_item item d = Ok n ∧ nq_serial_numbers n = ["A"; "B"] ∧
       nq_counted_qty n = of_Z 24 ∧ NoDup (nq_serial_numbers n).
Proof.
  intros item d.
  assert (∃ n, normalize_quantity_for_item item d = Ok n ∧ nq_serial_numbers n = ["A"; "B"] ∧ nq_counted_qty n = of_Z 24)
    as (n & Hn & Hs & Hc) by (eexists; split; [vm_compute; reflexivity | split; vm_compute; reflexivity]).
  exists n. destruct (normalize_quantity_spec item d n Hn) as (q & f & b & p & _ & _ & _ & _ & _ & _ & _ & _ & Hd & _).
  split_and!; [exact Hn | exact Hs | exact Hc | exact Hd].
Defined.
