(* ===== verification/Variance.v ===== *)
(** Variances and the thresholds that decide on approval:
    [services/variance_service.py]. *)

From S2P Require Import Prelude PyFloat Py Store ListStore Guard Lifecycle.

Local Open Scope Z_scope.
Local Open Scope stock_scope.

Definition percent (x : float) : float := fmul x (of_Z 100).

(** [calculate_variance] *)
Definition calculate_variance (counted_qty expected_qty unit_price : float) (valuation_basis : string) : doc :=
  let quantity_variance := fsub counted_qty expected_qty in
  let expected_value := fmul expected_qty unit_price in
  let counted_value := fmul counted_qty unit_price in
  let value_variance := fsub counted_value expected_value in
  let percentage_variance :=
    if feq expected_qty f0 then f0 else percent (fdiv quantity_variance expected_qty) in
  [("quantity_variance", VFloat (round_nd quantity_variance 2));
   ("value_variance", VFloat (round_nd value_variance 2));
   ("percentage_variance", VFloat (round_nd percentage_variance 2));
   ("expected_qty", VFloat expected_qty); ("counted_qty", VFloat counted_qty);
   ("unit_price", VFloat unit_price);
   ("expected_value", VFloat (round_nd expected_value 2));
   ("counted_value", VFloat (round_nd counted_value 2));
   ("valuation_basis", VStr valuation_basis)].

Definition abs_item (k : string) (variance_data : doc) : outcome float :=
  obind (item k variance_data) (fun v =>
  match v with VFloat x => Ok (fabs x) | _ => Raise (TypeError "bad operand type for abs()") end).

(** The value a threshold of a type looks at; [None] for an unknown type. *)
Definition actual_value (threshold_type : val) (variance_data : doc) : outcome (option float) :=
  let value k := obind (abs_item k variance_data) (fun x => Ok (Some x)) in
  if py_eqb threshold_type (VStr "quantity") then value "quantity_variance"
  else if py_eqb threshold_type (VStr "value") then value "value_variance"
  else if py_eqb threshold_type (VStr "percentage") then value "percentage_variance"
  else Ok None.

Definition threshold_violated (operator : val) (actual : float) (threshold_value : val) : outcome bool :=
  if py_eqb operator (VStr "gte") then float_ge actual threshold_value
  else if py_eqb operator (VStr "lte") then float_le actual threshold_value
  else Ok (py_eqb operator (VStr "eq") && py_eqb (VFloat actual) threshold_value).

Definition violation (threshold : doc) (threshold_type threshold_value operator : val) (actual : float) : doc :=
  [("threshold_type", threshold_type); ("threshold_value", threshold_value);
   ("actual_value", VFloat actual); ("operator", operator);
   ("require_supervisor", dget "require_supervisor" (VBool true) threshold);
   ("require_reason", dget "require_reason" (VBool false) threshold);
   ("currency", dget "currency" (VStr "INR") threshold)].

(** One threshold: the violation, when it is enabled and violated. *)
Definition check_threshold (variance_data : doc) (threshold : val) : outcome (option doc) :=
  match threshold with
  | VDict t =>
      if negb (truthy (dget "enabled" (VBool true) t)) then Ok None
      else
        obind (item "threshold_type" t) (fun threshold_type =>
        obind (item "operator" t) (fun operator =>
        obind (item "value" t) (fun threshold_value =>
        obind (actual_value threshold_type variance_data) (fun actual =>
        match actual with
        | None => Ok None
        | Some x =>
            obind (threshold_violated operator x threshold_value) (fun violated =>
            Ok (if violated then Some (violation t threshold_type threshold_value operator x) else None))
        end))))
  | _ => Raise (AttributeError "object has no attribute 'get'")
  end.

Fixpoint violations (variance_data : doc) (thresholds : list val) : outcome (list doc) :=
  match thresholds with
  | [] => Ok []
  | t :: rest =>
      obind (check_threshold variance_data t) (fun v =>
      obind (violations variance_data rest) (fun l =>
      Ok (match v with Some d => d :: l | None => l end)))
  end.

Definition needs_supervisor (v : doc) : bool := truthy (get "require_supervisor" v).

Definition default_thresholds : val := VList [
  VDict [("threshold_type", VStr "quantity"); ("operator", VStr "gte"); ("value", VFloat (of_Z 1));
         ("require_supervisor", VBool true); ("require_reason", VBool false); ("enabled", VBool true)];
  VDict [("threshold_type", VStr "value"); ("operator", VStr "gte"); ("value", VFloat (of_Z 500));
         ("currency", VStr "INR");
         ("require_supervisor", VBool true); ("require_reason", VBool true); ("enabled", VBool true)]].

Section variance.
Context {C : Type} `{Mongo C}.
Context (clock : nat → Z).

Definition configs : string := "variance_threshold_configs".
Definition default_name : query := QEq "name" (VStr "Default Variance Thresholds").

(** A config of the given scope, unless it is empty. *)
Definition find_config (q : query) : M (world C) (option doc) :=
  do c <- db_find_one configs q ;;
  ret match c with Some ((_ :: _) as d) => Some d | _ => None end.

(** The next place to look, when nothing has been found yet. *)
Definition or_find (found : option doc) (applies : bool) (q : query) : M (world C) (option doc) :=
  match found with
  | Some _ => ret found
  | None => if applies then find_config q else ret None
  end.

Definition _get_applicable_config (category location : val) : M (world C) (option doc) :=
  do c <- or_find None (truthy category && truthy location)
            (QAnd [QEq "apply_to_categories" category; QEq "apply_to_locations" location]) ;;
  do c <- or_find c (truthy category)
            (QAnd [QEq "apply_to_categories" category; QEq "apply_to_locations" VNone]) ;;
  do c <- or_find c (truthy location)
            (QAnd [QEq "apply_to_categories" VNone; QEq "apply_to_locations" location]) ;;
  or_find c true default_name.

Definition _get_default_config : M (world C) doc :=
  do c <- find_config default_name ;;
  match c with
  | Some d => ret d
  | None =>
      do created <- utc_now clock ;;
      do updated <- utc_now clock ;;
      db_insert_one_unsessioned configs
        [("name", VStr "Default Variance Thresholds");
         ("description", VStr "Standard thresholds for all items");
         ("thresholds", default_thresholds); ("apply_to_categories", VNone); ("apply_to_locations", VNone);
         ("created_at", VTime created); ("updated_at", VTime updated)]
  end.

Definition check_thresholds (variance_data : doc) (item_category location : val)
  : M (world C) (bool * list doc) :=
  do found <- _get_applicable_config item_category location ;;
  do config <- match found with Some c => ret c | None => _get_default_config end ;;
  do thresholds <- lift (py_iter (dget "thresholds" (VList []) config)) ;;
  do violated_thresholds <- lift (violations variance_data thresholds) ;;
  ret (existsb needs_supervisor violated_thresholds, violated_thresholds).
End variance.
