(* ===== verification/CountLines.v ===== *)
(** The count-line write service: [services/count_line_write_service.py] with
    its parts [services/count_lines/governance.py], [validation.py],
    [session_aggregator.py] and [write_core.py], and the repository
    [repositories/count_lines.py].  The helper functions that open each of these
    files are the same text in every one of them.

    A payload is the dict the callers build: its operation, document, filter and
    update.  The handlers change its document and update in place, and return
    it as they leave it.  A filter is a query whose top-level keys are the
    conjuncts of [QAnd]; an update has the operators of [Store.update]
    ($addToSet and $pull, which no caller uses, and upserts are left out).

    Reads without the database session (those of the validation) are not told
    apart from the reads inside the transaction.  The snapshot service of the
    repository has no [assert_session_snapshot_integrity], so the integrity
    check returns at once. *)

From Stdlib Require Import Ascii.
From S2P Require Import Prelude PyFloat Py Json Store ListStore Guard Inventory Uow Lifecycle Quantity Variance.

Local Open Scope Z_scope.
Local Open Scope stock_scope.

(** ** Helpers *)

Definition _normalize_reason (value : val) : option string :=
  match value with
  | VStr s => let normalized := strip s in if String.eqb normalized "" then None else Some normalized
  | _ => None
  end.

(** An [OverflowError] is not caught. *)
Definition _as_float (value : val) (dflt : float) : outcome float :=
  if blank value then Ok dflt
  else match to_float value with
       | Ok x => Ok x
       | Raise (OverflowError m) => Raise (OverflowError m)
       | Raise _ => Ok dflt
       end.

Definition _is_superseded_status (value : val) : bool :=
  match value with VStr s => String.eqb (lower (strip s)) "superseded" | _ => false end.

Definition _is_superseded_count_line (line : doc) : bool :=
  _is_superseded_status (get "status" line) || truthy (get "superseded_by_version_id" line)
  || truthy (get "superseded_at" line).

Fixpoint first_price (fields : list string) (item : doc) : outcome float :=
  match fields with
  | [] => Ok f0
  | field :: rest =>
      obind (_as_float (get field item) f0) (fun value =>
      if negb (feq value f0) || negb (blank (get field item)) then Ok value else first_price rest item)
  end.

Definition _resolve_unit_price (item : doc) : outcome float :=
  first_price ["last_cost"; "sale_price"; "sales_price"; "mrp"] item.

Definition text_of (k : string) (d : doc) : string := to_str (por (get k d) (VStr "")).

(** [int(d.get(k, n) or n)] *)
Definition int_or (k : string) (n : Z) (d : doc) : outcome Z := to_int (por (dget k (VInt n) d) (VInt n)).

(** [json.dumps(payload, sort_keys=True, separators=(",", ":"))] of the
    identifying fields. *)
Definition semantic_payload (document : doc) : outcome string :=
  obind (_as_float (get "counted_qty" document) f0) (fun counted_qty =>
  obind (int_or "version" 1 document) (fun version =>
  let member k v := json_string k +:+ ":" +:+ v in
  let either_text k k' := json_string (to_str (por (get k document) (por (get k' document) (VStr "")))) in
  Ok ("{" +:+ join "," [
        member "barcode" (json_string (text_of "barcode" document));
        member "counted_qty" (json_float_text counted_qty);
        member "floor_no" (either_text "floor_no" "floor_id");
        member "item_id" (either_text "item_code" "item_id");
        member "location_id" (json_string (text_of "location_id" document));
        member "rack_no" (either_text "rack_no" "rack_id");
        member "session_id" (json_string (text_of "session_id" document));
        member "version" (str_of_Z version)] +:+ "}"))).

(** [v["$each"]] of a pushed modifier, the list itself, or the one value. *)
Definition _normalize_update_array_values (value : val) : list val :=
  match value with
  | VDict d => match get "$each" d with VList l => l | _ => [value] end
  | VList l => l
  | _ => [value]
  end.

(** [current + delta], or [delta] where there is no number. *)
Definition py_add (a b : num) : val :=
  match a, b with
  | NInt x, NInt y => VInt (x + y)
  | NInt x, NFloat y => VFloat (fadd (of_Z x) y)
  | NFloat x, NInt y => VFloat (fadd x (of_Z y))
  | NFloat x, NFloat y => VFloat (fadd x y)
  end.

Definition merge_inc (merged : doc) (kv : string * val) : doc :=
  match as_num (snd kv) with
  | None => merged
  | Some delta =>
      match as_num (get (fst kv) merged) with
      | Some current => aset (fst kv) (py_add current delta) merged
      | None => aset (fst kv) (snd kv) merged
      end
  end.

Definition merge_push (merged : doc) (kv : string * val) : doc :=
  let existing := match get (fst kv) merged with
                  | VList l => l
                  | VNone => []
                  | v => [v]
                  end in
  aset (fst kv) (VList (existing ++ _normalize_update_array_values (snd kv))) merged.

Definition _apply_update_document_to_merged (merged : doc) (u : update) : doc :=
  let merged := aupd merged (u_set u) in
  let merged := fold_left merge_inc (u_inc u) merged in
  let merged := fold_left (fun d k => adel k d) (u_unset u) merged in
  fold_left merge_push (u_push u) merged.

Record CountLineGovernanceDecision := Decision_ {
  g_approval_status : string;
  g_approved_at : option Z;
  g_approved_by : option string;
  g_requires_supervisor_approval : bool;
  g_status : string;
  g_variance : float;
  g_variance_data : doc;
  g_violated_thresholds : list doc;
}.

Record CountLineGovernanceModeProfile := ModeProfile { require_active_session : bool; require_full_context : bool }.

Definition DEFAULT_GOVERNANCE_MODE : string := "active_session".
Definition GOVERNANCE_MODE_PROFILES : list (string * CountLineGovernanceModeProfile) := [
  ("active_session", ModeProfile true true);
  ("mutable_session", ModeProfile false true);
  ("finalization", ModeProfile false false);
  ("repair", ModeProfile false false)].
Definition DEFAULT_VALIDATION_MODE : string := "enforce".
Definition VALIDATION_MODES : list string := ["enforce"; "repair_skip"].

Definition has_key (k : string) (d : doc) : bool := match aget k d with Some _ => true | None => false end.

Definition _resolve_governance_mode_profile (context : doc) : outcome CountLineGovernanceModeProfile :=
  if has_key "require_active_session" context || has_key "require_full_context" context
  then Raise (GovernanceViolation "CRITICAL: free-form governance flags have been removed. Use governance_mode.")
  else
    let mode_name := lower (strip (to_str (por (get "governance_mode" context) (VStr DEFAULT_GOVERNANCE_MODE)))) in
    match aget mode_name GOVERNANCE_MODE_PROFILES with
    | Some profile => Ok profile
    | None => Raise (GovernanceViolation ("CRITICAL: Unsupported governance_mode '" +:+ mode_name +:+ "'"))
    end.

Definition _should_run_runtime_validation (context : doc) : outcome bool :=
  if has_key "skip_runtime_validation" context
  then Raise (GovernanceViolation "CRITICAL: skip_runtime_validation has been removed. Use validation_mode.")
  else
    let validation_mode := lower (strip (to_str (por (get "validation_mode" context) (VStr DEFAULT_VALIDATION_MODE)))) in
    if negb (str_in validation_mode VALIDATION_MODES)
    then Raise (GovernanceViolation ("CRITICAL: Unsupported validation_mode '" +:+ validation_mode +:+ "'"))
    else if String.eqb validation_mode "repair_skip"
    then if String.eqb (lower (strip (text_of "governance_mode" context))) "repair" then Ok false
         else Raise (GovernanceViolation "CRITICAL: validation_mode='repair_skip' requires governance_mode='repair'")
    else Ok true.

(** ** Payloads *)

Record payload := Payload {
  p_operation : string;
  p_document : option doc;
  p_filter : option query;
  p_update : option update;
  p_return_document : bool;
}.

Definition with_document (d : doc) (p : payload) : payload :=
  Payload (p_operation p) (Some d) (p_filter p) (p_update p) (p_return_document p).
Definition with_update (u : update) (p : payload) : payload :=
  Payload (p_operation p) (p_document p) (p_filter p) (Some u) (p_return_document p).
Definition set_fields (s : doc) (u : update) : update := Upd s (u_inc u) (u_push u) (u_unset u).

Definition operation_of (p : payload) : string := lower (strip (p_operation p)).

(** The value a filter gives for a key: operator conditions are dicts. *)
Definition condition (q : query) : option (string * val) :=
  match q with
  | QEq k v => Some (k, v)
  | QNe k v => Some (k, VDict [("$ne", v)])
  | QIn k l => Some (k, VDict [("$in", VList l)])
  | QNin k l => Some (k, VDict [("$nin", VList l)])
  | QExists k b => Some (k, VDict [("$exists", VBool b)])
  | QLt k v => Some (k, VDict [("$lt", v)])
  | QLte k v => Some (k, VDict [("$lte", v)])
  | QGt k v => Some (k, VDict [("$gt", v)])
  | QGte k v => Some (k, VDict [("$gte", v)])
  | QText k s => Some (k, VDict [("$regex", VStr ("^" +:+ re_escape s +:+ "$")); ("$options", VStr "i")])
  | QDot k field v => Some (k +:+ "." +:+ field, v)
  | QAnd _ | QOr _ => None
  end.

Definition conjuncts (q : query) : list query := match q with QAnd l => l | _ => [q] end.

Definition filter_get (k : string) (q : query) : val := default VNone (aget k (omap condition (conjuncts q))).

(** The branches of [$or]. *)
Definition or_branches (q : query) : list query :=
  default [] (head (omap (fun c => match c with QOr l => Some l | _ => None end) (conjuncts q))).

(** [sorted(set(l))] *)
Fixpoint insert_sorted (s : string) (l : list string) : list string :=
  match l with
  | [] => [s]
  | x :: l' => match String.compare s x with
               | Eq => l
               | Lt => s :: l
               | Gt => x :: insert_sorted s l'
               end
  end.
Definition sorted_set (l : list string) : list string := fold_right insert_sorted [] l.

(** The texts of the truthy values. *)
Definition truthy_texts (l : list val) : list string := map to_str (List.filter truthy l).

Definition ids_in_context (p : payload) (context : doc) : outcome (list string) :=
  obind (iterate (get "session_ids" context)) (fun session_ids =>
  obind (iterate (get "candidate_lines" context)) (fun candidates =>
  let field v := match v with VDict d => get "session_id" d | _ => VNone end in
  let in_filter := match p_filter p with
                   | Some q => filter_get "session_id" q :: map (filter_get "session_id") (or_branches q)
                   | None => []
                   end in
  Ok (truthy_texts ([get "session_id" context] ++ session_ids ++ map field candidates ++
        [match p_document p with Some d => get "session_id" d | None => VNone end] ++ in_filter)))).

(** ** The service *)

Record write_service := WriteService {
  _session_snapshot_cache : list (string * option doc);
  _session_snapshot_item_index : list (string * list (string * float));
}.

(** What the attribute [count_lines] of the database client is: the repository
    takes it for the collection when it exists. *)
Inductive client_attribute := NoAttribute | ACollection | ADatabase.

(** [str(context.get("username") or context.get("actor") or "system")] *)
Definition actor_of (context : doc) : string :=
  to_str (por (get "username" context) (por (get "actor" context) (VStr "system"))).

Inductive write_result :=
| RDocument (d : doc)
| RFound (d : option doc)
| RCount (n : Z).

Section writes.
Context {C : Type} `{Mongo C}.
Context (clock : nat → Z) (strict_mode write_logs : bool) (object_id : string → option string).
Context (sha256 : string → string) (client_count_lines : client_attribute).
Abbreviation W := (write_service * world C)%type.

Definition on_world {A} (m : M (world C) A) : M W A := fun w =>
  let '(o, w') := m (snd w) in (o, (fst w, w')).

Definition _build_semantic_hash (document : doc) : outcome string :=
  obind (semantic_payload document) (fun canonical => Ok (sha256 canonical)).

Definition _execute_authorized_write {A} (write_call : M (world C) A) : M (world C) A :=
  write_authority "CountLineWriteService" write_call.

Definition assert_session_integrity : M W unit := ret tt.

(** ** Sessions of a write *)

Definition _collect_session_ids_for_write (p : payload) (context : doc) : M (world C) (list string) :=
  do ids <- lift (ids_in_context p context) ;;
  match ids with
  | _ :: _ => ret (sorted_set ids)
  | [] =>
      match p_filter p with
      | None => ret []
      | Some q =>
          if str_in (operation_of p) ["update_one"; "find_one_and_update"; "delete_one"] then
            do existing <- db_find_one "count_lines" q ;;
            ret match existing with
                | Some d => truthy_texts [get "session_id" d]
                | None => []
                end
          else if str_in (operation_of p) ["update_many"; "bulk_write"; "delete_many"] then
            do matched <- db_find "count_lines" q ;;
            ret (sorted_set (truthy_texts (map (get "session_id") (take 5000 matched))))
          else ret []
      end
  end.

Definition _assert_snapshot_integrity_for_write (p : payload) (context : doc) : M (world C) unit :=
  match dget "enforce_snapshot" (VBool true) context with
  | VBool false => ret tt
  | _ =>
      if is_dict (get "session" context) then ret tt
      else
        do session_ids <- _collect_session_ids_for_write p context ;;
        raise_if (match session_ids with [] => true | _ => false end
                  && negb (truthy (dget "allow_missing_session" (VBool false) context)))
          (HTTPException 409 (VStr "Count line mutation requires session context"))
  end.

Definition _load_session_for_write (session_id : string) : M (world C) doc :=
  do session <- db_find_one "sessions" (session_lookup session_id) ;;
  match session with
  | Some d => ret d
  | None => raise (GovernanceViolation ("CRITICAL: Session not found: " +:+ session_id))
  end.

(** The version the caller expects of a session. *)
Definition expected_of (context : doc) (session_id : string) : outcome (option Z) :=
  match get "expected_session_version" context with
  | VInt z => Ok (Some z)
  | VBool b => Ok (Some (if b then 1 else 0))
  | VDict d => match aget session_id d with
               | Some v => obind (to_int v) (fun z => Ok (Some z))
               | None => Ok None
               end
  | _ => Ok None
  end.

Fixpoint expected_map (context : doc) (session_ids : list string) : outcome (list (string * Z)) :=
  match session_ids with
  | [] => Ok []
  | s :: rest =>
      obind (expected_of context s) (fun e =>
      obind (expected_map context rest) (fun m => Ok (match e with Some z => (s, z) :: m | None => m end)))
  end.

Fixpoint session_versions (expected : list (string * Z)) (session_ids : list string)
  : M (world C) (list (string * Z)) :=
  match session_ids with
  | [] => ret []
  | s :: rest =>
      do session_doc <- _load_session_for_write s ;;
      do current_version <- lift (coerce_version (get "version" session_doc)) ;;
      run match aget s expected with
          | Some e => raise_if (negb (e =? current_version))
                        (ConcurrencyError ("CRITICAL: Session version mismatch for " +:+ s +:+ ": expected "
                           +:+ str_of_Z e +:+ ", current " +:+ str_of_Z current_version))
          | None => ret tt
          end ;;
      do versions <- session_versions expected rest ;;
      ret ((s, current_version) :: versions)
  end.

Definition _capture_session_versions (session_ids : list string) (context : doc)
  : M (world C) (list (string * Z)) :=
  do expected <- lift (expected_map context session_ids) ;;
  session_versions expected session_ids.

Definition aggregate_line (t : totals) (line : doc) : outcome totals :=
  if _is_superseded_count_line line then Ok t
  else
    obind (to_float (por (get "variance" line) (VFloat f0))) (fun variance =>
    obind (to_float (por (get "damaged_qty" line) (VFloat f0))) (fun damaged_qty =>
    obind (to_int (VFloat damaged_qty)) (fun damaged =>
    Ok (Totals (t_items t + 1) (fadd (t_variance t) variance)
          (if is_count_line_effectively_reviewed line then t_verified t + 1 else t_verified t)
          (t_damage t + damaged) (later (t_last t) (candidate_activity line)))))).

Fixpoint aggregate_lines (t : totals) (lines : list doc) : outcome totals :=
  match lines with
  | [] => Ok t
  | line :: rest => obind (aggregate_line t line) (fun t' => aggregate_lines t' rest)
  end.

Definition _compute_session_totals (session_id : string) : M (world C) doc :=
  do cursor <- db_find "count_lines" (session_lines session_id) ;;
  do t <- lift (aggregate_lines totals0 cursor) ;;
  do now <- utc_now clock ;;
  ret (session_update t now).

Fixpoint _update_session_totals_for_sessions (session_ids : list string) (context : doc)
    (expected_versions : list (string * Z)) : M (world C) unit :=
  match session_ids with
  | [] => ret tt
  | s :: rest =>
      do totals <- _compute_session_totals s ;;
      run update_session_totals clock s totals (aget s expected_versions) (actor_of context) false ;;
      _update_session_totals_for_sessions rest context expected_versions
  end.

Definition _resolve_session_document (document context : doc) : M (world C) (option doc) :=
  match get "session" context with
  | VDict s => ret (Some s)
  | _ =>
      let session_id := strip (to_str (por (get "session_id" document) (por (get "session_id" context) (VStr "")))) in
      if String.eqb session_id "" then ret None
      else db_find_one "sessions" (session_lookup session_id)
  end.

(** ** Baselines and the governance decision *)

Definition set_snapshot_cache (sid : string) (s : option doc) : M W unit :=
  modify (fun w => (WriteService (aset sid s (_session_snapshot_cache (fst w))) (_session_snapshot_item_index (fst w)), snd w)).
Definition set_item_index (sid : string) (i : list (string * float)) : M W unit :=
  modify (fun w => (WriteService (_session_snapshot_cache (fst w)) (aset sid i (_session_snapshot_item_index (fst w))), snd w)).

Fixpoint build_index (items : list val) (index : list (string * float)) : outcome (list (string * float)) :=
  match items with
  | [] => Ok index
  | i :: rest =>
      obind (val_get "item_code" i) (fun code =>
      let indexed_item_code := strip (to_str (por code (VStr ""))) in
      if String.eqb indexed_item_code "" then build_index rest index
      else
        obind (val_get "stock_qty" i) (fun qty =>
        obind (_as_float qty f0) (fun x => build_index rest (aset indexed_item_code x index))))
  end.

(** The snapshot of a session, cached outside transactions. *)
Definition session_snapshot (session_id : string) (has_session : bool) : M W (option doc) :=
  do cache <- gets (fun w => _session_snapshot_cache (fst w)) ;;
  match (if has_session then None else aget session_id cache) with
  | Some s => ret s
  | None =>
      do s <- on_world (db_find_one "session_snapshots" (session_lines session_id)) ;;
      run when (negb has_session) (set_snapshot_cache session_id s) ;;
      ret s
  end.

Definition resolve_baseline (session_id item_code : string) (has_session : bool) : M W (float * string) :=
  let normalized_item_code := strip item_code in
  do snapshot <- session_snapshot session_id has_session ;;
  match snapshot with
  | Some s =>
      let snapshot_hash := strip (text_of "snapshot_hash" s) in
      do indices <- gets (fun w => _session_snapshot_item_index (fst w)) ;;
      do index <- match aget session_id indices with
                  | Some i => ret i
                  | None =>
                      do items <- lift (iterate (get "items" s)) ;;
                      do i <- lift (build_index items []) ;;
                      run set_item_index session_id i ;;
                      ret i
                  end ;;
      let or_hash (t : string) := if String.eqb snapshot_hash "" then t else snapshot_hash in
      ret match aget normalized_item_code index with
          | Some qty => (qty, or_hash "SESSION_SNAPSHOT")
          | None => (f0, or_hash "SESSION_SNAPSHOT_MISS")
          end
  | None =>
      do legacy <- on_world (db_find_one "stock_snapshots"
        (QAnd [QEq "session_id" (VStr session_id); QEq "item_code" (VStr normalized_item_code)])) ;;
      match legacy with
      | Some l =>
          do qty <- lift (to_float (por (get "erp_qty" l) (VFloat f0))) ;;
          ret (qty, to_str (por (get "baseline_hash" l) (VStr "STOCK_SNAPSHOT")))
      | None => raise (HTTPException 409 (VStr "Baseline snapshot missing for session/item. Write blocked."))
      end
  end.

Definition fgt0 (x : float) : bool := flt f0 x.

Definition evaluate_policy (counted_qty expected_qty : float) (item : doc) (location variance_reason correction_reason : val)
    (require_correction_reason_for_variance : bool) : M (world C) CountLineGovernanceDecision :=
  let variance := fsub counted_qty expected_qty in
  let reason_present := given (_normalize_reason variance_reason) || truthy correction_reason in
  run raise_if (require_correction_reason_for_variance && fgt0 (fabs variance) && negb reason_present)
        (HTTPException 400 (VStr "Correction reason is mandatory when variance exists")) ;;
  do unit_price <- lift (_resolve_unit_price item) ;;
  let variance_data := calculate_variance counted_qty expected_qty unit_price "last_cost" in
  do ' (requires_approval, violated_thresholds) <-
    check_thresholds clock variance_data (get "category" item) location ;;
  run raise_if (existsb (fun t => truthy (get "require_reason" t)) violated_thresholds && negb reason_present)
        (HTTPException 400 (VDict [("message", VStr "Variance reason is required for this count");
                                   ("violated_thresholds", VList (map VDict violated_thresholds));
                                   ("variance_data", VDict variance_data)])) ;;
  do approved_at <- (if requires_approval then ret None
                     else do now <- utc_now clock ;; ret (Some now)) ;;
  ret (Decision_ (if requires_approval then "NEEDS_REVIEW" else "APPROVED") approved_at
         (if requires_approval then None else Some "system") requires_approval
         (if requires_approval then "pending" else "approved") variance variance_data violated_thresholds).

Definition evaluate_new_count_line (counted_qty : float) (erp_item : doc) (expected_qty : float)
    (variance_reason correction_reason location : val) : M W CountLineGovernanceDecision :=
  run assert_session_integrity ;;
  on_world (evaluate_policy counted_qty expected_qty erp_item location variance_reason correction_reason true).

Definition evaluate_existing_count_line (count_line : doc) (counted_qty : float) (erp_item : doc)
    (variance_reason correction_reason location : val) (require_correction_reason_for_variance : bool)
  : M W CountLineGovernanceDecision :=
  run assert_session_integrity ;;
  do expected_qty <- lift (to_float (por (get "erp_qty" count_line) (VFloat f0))) ;;
  on_world (evaluate_policy counted_qty expected_qty erp_item location variance_reason correction_reason
              require_correction_reason_for_variance).

Definition barcode_query (barcode : string) : query :=
  QOr (map (fun k => QEq k (VStr barcode))
    ["barcode"; "manual_barcode"; "carton_barcode"; "pack_barcode"; "unit_barcode"; "alternate_barcodes"]).

(** The ERP item of the context, or by any barcode, or by the item code. *)
Definition resolve_erp_item (document context : doc) (item_code : string) : M (world C) doc :=
  match get "erp_item" context with
  | VDict i => ret i
  | _ =>
      let barcode := strip (text_of "barcode" document) in
      do by_barcode <- (if String.eqb barcode "" then ret None else db_find_one "erp_items" (barcode_query barcode)) ;;
      match by_barcode with
      | Some i => ret i
      | None =>
          do by_code <- db_find_one "erp_items" (QEq "item_code" (VStr item_code)) ;;
          ret (default [] by_code)
      end
  end.

(** The decision, the item, the session, and the document with its baseline. *)
Definition _evaluate_governance_for_document (document context : doc) (has_session : bool)
  : M W (CountLineGovernanceDecision * doc * option doc * doc) :=
  let item_code := strip (to_str (por (get "item_code" document) (por (get "item_code" context) (VStr "")))) in
  run raise_if (String.eqb item_code "") (HTTPException 409 (VStr "Count line is missing item_code")) ;;
  do counted_qty <- lift (to_float (por (get "counted_qty" document) (VFloat f0))) ;;
  run raise_if (flt counted_qty f0) (HTTPException 400 (VStr "Negative quantity is not allowed")) ;;
  run raise_if (negb (truthy (get "remark" document))) (HTTPException 400 (VStr "Item remark is mandatory")) ;;
  do expected_qty <- lift (to_float (por (get "erp_qty" document) (VFloat f0))) ;;
  let session_id := strip (to_str (por (get "session_id" document) (por (get "session_id" context) (VStr "")))) in
  do erp_item <- on_world (resolve_erp_item document context item_code) ;;
  run (if is_empty erp_item then ret tt
       else do _ <- lift (normalize_quantity_for_item erp_item document) ;; ret tt) ;;
  do ' (expected_qty, document) <-
    (if negb (String.eqb session_id "") then
       do ' (baseline_qty, baseline_hash) <- resolve_baseline session_id item_code has_session ;;
       ret (baseline_qty,
            aset "baseline_hash" (VStr baseline_hash) (aset "erp_qty" (VFloat baseline_qty) document))
     else if feq expected_qty f0 then
       do qty <- lift (to_float (por (get "stock_qty" erp_item) (VFloat f0))) ;;
       ret (qty, setdefault "erp_qty" (VFloat qty) document)
     else ret (expected_qty, document)) ;;
  do governance <- on_world (evaluate_policy counted_qty expected_qty erp_item
    (por (get "location" context) (get "floor_no" document))
    (por (get "variance_reason" context) (get "variance_reason" document))
    (if has_key "correction_reason" context then get "correction_reason" context else get "correction_reason" document)
    (truthy (dget "require_correction_reason_for_variance" (VBool false) context))) ;;
  do session <- on_world (_resolve_session_document document context) ;;
  ret (governance, erp_item, session, document).

(** ** The authoritative fields of a line *)

(** [(item.get("source_data") or {}).get(k)] *)
Definition source_field (item : doc) (k : string) : outcome val :=
  val_get k (por (get "source_data" item) (VDict [])).

(** The expected place of an item: its own fields, else those of its source. *)
Definition expected_place (item : doc) (k k_no : string) : outcome string :=
  let tidy v := upper (strip (to_str (por v (VStr "")))) in
  let own := por (get k item) (get k_no item) in
  if truthy own then Ok (tidy own)
  else obind (source_field item k) (fun v =>
       if truthy v then Ok (tidy v)
       else obind (source_field item k_no) (fun v' => Ok (tidy v'))).

Definition place_differs (found expected : string) : bool :=
  negb (String.eqb found "") && negb (String.eqb expected "") && negb (String.eqb found expected).

Definition add_flag (b : bool) (flag : string) (flags : list string) : list string :=
  if b then flags ++ [flag] else flags.

(** The flags of the quantities and prices. *)
Definition amount_flags (document : doc) (variance counted_qty expected_qty mrp_erp mrp_counted : float) : list string :=
  let variance_percent :=
    if fgt0 expected_qty then percent (fdiv (fabs variance) expected_qty)
    else if feq counted_qty f0 then f0 else of_Z 100 in
  let mrp_change_percent := if fgt0 mrp_erp then percent (fdiv (fsub mrp_counted mrp_erp) mrp_erp) else f0 in
  let above x n := flt (of_Z n) x in
  let no_reason := negb (truthy (get "correction_reason" document)) && negb (truthy (get "variance_reason" document)) in
  let photo_required := above (fabs variance) 100 || above variance_percent 50
                        || above (fabs mrp_change_percent) 20 || above mrp_erp 10000 in
  add_flag (photo_required && negb (truthy (get "photo_base64" document)) && negb (truthy (get "photo_proofs" document)))
    "PHOTO_PROOF_REQUIRED"
  (add_flag (above (fabs mrp_change_percent) 5 && no_reason) "MRP_CHANGE_WITHOUT_REASON"
  (add_flag (above (fabs variance) 0 && no_reason) "MISSING_CORRECTION_REASON"
  (add_flag (above mrp_erp 5000 && negb (truthy (get "serial_numbers" document))) "SERIAL_MISSING_HIGH_VALUE"
  (add_flag (above mrp_erp 10000 && above variance_percent 5) "HIGH_VALUE_VARIANCE"
  (add_flag (flt mrp_change_percent (of_Z (-20))) "MRP_REDUCED_SIGNIFICANTLY"
  (add_flag (above (fabs variance) 100 || above variance_percent 50) "LARGE_VARIANCE" [])))))).

(** The flags, sorted, and the document with its place fields. *)
Definition _collect_risk_flags (document erp_item : doc) (variance : float) (session : option doc)
    (counted_qty expected_qty mrp_erp mrp_counted : float) : outcome (list string * doc) :=
  let flags := amount_flags document variance counted_qty expected_qty mrp_erp mrp_counted in
  obind (expected_place erp_item "floor" "floor_no") (fun expected_floor =>
  obind (expected_place erp_item "rack" "rack_no") (fun expected_rack =>
  let found_floor := upper (strip (text_of "floor_no" document)) in
  let found_rack := upper (strip (text_of "rack_no" document)) in
  let misplaced := place_differs found_floor expected_floor || place_differs found_rack expected_rack in
  let document :=
    if misplaced then
      aset "relocation_status" (por (get "relocation_status" document) (VStr "PENDING"))
        (aset "found_location" (VStr (found_floor +:+ "/" +:+ found_rack))
          (aset "expected_location" (VStr (expected_floor +:+ "/" +:+ expected_rack))
            (aset "is_misplaced" (VBool true) document)))
    else aset "is_misplaced" (VBool (truthy (dget "is_misplaced" (VBool false) document))) document in
  let strict := String.eqb (upper (text_of "type" (default [] session))) "STRICT" && fgt0 (fabs variance) in
  Ok (sorted_set (add_flag strict "STRICT_MODE_VARIANCE" (add_flag misplaced "MISPLACED_ITEM" flags)), document))).

Definition _apply_review_reset_fields (target : doc) : doc :=
  let target := aupd target [
    ("assigned_to", VNone); ("recount_requested_at", VNone); ("recount_requested_by", VNone);
    ("rejected_at", VNone); ("rejected_by", VNone); ("rejection_reason", VNone);
    ("verified", VBool false); ("verified_at", VNone); ("verified_by", VNone)] in
  if has_key "approval_note" target then aset "approval_note" VNone target else target.

Definition opt_time (o : option Z) : val := match o with Some t => VTime t | None => VNone end.

Definition decision_fields (g : CountLineGovernanceDecision) : doc :=
  [("variance", VFloat (g_variance g)); ("approval_status", VStr (g_approval_status g));
   ("approved_at", opt_time (g_approved_at g)); ("approved_by", opt_str (g_approved_by g));
   ("requires_supervisor_approval", VBool (g_requires_supervisor_approval g));
   ("variance_data", VDict (g_variance_data g));
   ("violated_thresholds", VList (map VDict (g_violated_thresholds g)))].

Definition _apply_authoritative_fields (target : doc) (governance : CountLineGovernanceDecision) (erp_item : doc)
    (session : option doc) (context : doc) : outcome doc :=
  obind (_as_float (get "counted_qty" target) f0) (fun counted_qty =>
  obind (_as_float (get "erp_qty" target) f0) (fun expected_qty =>
  obind (_as_float (por (get "mrp_erp" target) (por (get "mrp" erp_item)
           (por (get "sale_price" erp_item) (get "sales_price" erp_item)))) f0) (fun mrp_erp =>
  obind (_as_float (por (get "mrp_counted" target) (por (get "counted_mrp" target)
           (por (get "mrp" target) (VFloat mrp_erp)))) f0) (fun mrp_counted =>
  let target := aset "item_name" (por (get "item_name" target) (por (get "item_name" erp_item) (VStr "Unknown"))) target in
  let target := if negb (truthy (get "barcode" target)) && truthy (get "barcode" erp_item)
                then aset "barcode" (get "barcode" erp_item) target else target in
  obind (_as_float (get "stock_qty" erp_item) expected_qty) (fun current_sql_qty =>
  let target := aupd target [
    ("current_sql_qty", VFloat current_sql_qty); ("erp_drift", VFloat (fsub current_sql_qty expected_qty));
    ("final_gap", VFloat (fsub counted_qty current_sql_qty)); ("mrp_erp", VFloat mrp_erp);
    ("mrp_counted", VFloat mrp_counted);
    ("financial_impact", VFloat (fsub (fmul mrp_counted counted_qty) (fmul mrp_erp expected_qty)))] in
  obind (_collect_risk_flags target erp_item (g_variance governance) session counted_qty expected_qty mrp_erp mrp_counted)
    (fun '(risk_flags, target) =>
  let target := aset "risk_flags" (VList (map VStr risk_flags)) target in
  let target := aupd (_apply_review_reset_fields target) (decision_fields governance) in
  Ok (if truthy (dget "set_status_from_governance" (VBool true) context)
      then aset "status" (VStr (g_status governance)) target else target))))))).

Definition copy_field (source : doc) (target : doc) (field : string) : doc :=
  match aget field source, aget field target with
  | Some v, None => aset field v target
  | _, _ => target
  end.

Definition _copy_authoritative_baseline_fields (source target : doc) : doc :=
  fold_left (copy_field source) ["erp_qty"; "baseline_hash"] target.

(** [decision] on the written quantity; the payload as it leaves it. *)
Definition _enforce_variance_for_write (p : payload) (context : doc) (has_session : bool) : M W payload :=
  if String.eqb (operation_of p) "insert_one" then
    match p_document p with
    | Some document =>
        if negb (has_key "counted_qty" document) then ret p
        else
          do ' (governance, erp_item, session, document) <- _evaluate_governance_for_document document context has_session ;;
          do document <- lift (_apply_authoritative_fields document governance erp_item session context) ;;
          ret (with_document document p)
    | None => ret p
    end
  else if String.eqb (operation_of p) "update_one" then
    match p_update p with
    | Some u =>
        let set_doc := u_set u in
        if negb (has_key "counted_qty" set_doc) then ret p
        else
          do existing <- on_world (db_find_one "count_lines" (default (QAnd []) (p_filter p))) ;;
          let merged := aupd (default [] existing) set_doc in
          do ' (governance, erp_item, session, merged) <- _evaluate_governance_for_document merged context has_session ;;
          let set_doc := _copy_authoritative_baseline_fields merged set_doc in
          do set_doc <- lift (_apply_authoritative_fields set_doc governance erp_item session context) ;;
          ret (with_update (set_fields set_doc u) p)
    | None => ret p
    end
  else ret p.

Definition _should_apply_governance (p : payload) (context : doc) : outcome bool :=
  if has_key "skip_governance" context
  then Raise (GovernanceViolation "CRITICAL: skip_governance bypass has been removed from CountLineWriteService")
  else if String.eqb (operation_of p) "insert_one"
  then Ok (match p_document p with Some d => has_key "counted_qty" d | None => false end)
  else if str_in (operation_of p) ["update_one"; "find_one_and_update"]
  then Ok (match p_update p with Some u => has_key "counted_qty" (u_set u) | None => false end)
  else Ok (truthy (get "enforce_variance" context)).

(** ** State transitions *)

(** The fields of a transition; the clock is read when the context has no
    time. *)
Definition reject_fields (context : doc) (actor : string) (occurred_at : Z) : doc :=
  [("status", VStr "rejected"); ("approval_status", VStr "REJECTED"); ("approved_by", VNone); ("approved_at", VNone);
   ("approval_note", VNone); ("verified", VBool false); ("verified_by", VNone); ("verified_at", VNone);
   ("rejected_by", VStr actor); ("rejected_at", VTime occurred_at);
   ("rejection_reason", opt_str (_normalize_reason
      (por (get "rejection_reason" context) (por (get "approval_note" context) (get "transition_note" context)))))]
  ++ (if truthy (dget "mark_recount_requested" (VBool true) context)
      then [("recount_requested_at", VTime occurred_at); ("recount_requested_by", VStr actor);
            ("assigned_to", opt_str (_normalize_reason (get "assigned_to" context)))]
      else [("recount_requested_at", VNone); ("recount_requested_by", VNone); ("assigned_to", VNone)]).

Definition approve_fields (context : doc) (actor : string) (occurred_at : Z) : doc :=
  [("status", VStr "approved"); ("approval_status", VStr "APPROVED"); ("approved_by", VStr actor);
   ("approved_at", VTime occurred_at); ("approval_note", opt_str (_normalize_reason (get "approval_note" context)));
   ("rejected_by", VNone); ("rejected_at", VNone); ("rejection_reason", VNone); ("assigned_to", VNone);
   ("recount_requested_at", VNone); ("recount_requested_by", VNone)]
  ++ (if truthy (dget "mark_verified_on_approval" (VBool false) context)
      then [("verified", VBool true); ("verified_by", VStr actor); ("verified_at", VTime occurred_at)] else []).

Definition transition_fields (transition : string) (context : doc) (actor : string) (occurred_at : Z) : option doc :=
  if String.eqb transition "verify"
  then Some [("verified", VBool true); ("verified_by", VStr actor); ("verified_at", VTime occurred_at)]
  else if String.eqb transition "unverify"
  then Some [("verified", VBool false); ("verified_by", VNone); ("verified_at", VNone)]
  else if String.eqb transition "approve" then Some (approve_fields context actor occurred_at)
  else if String.eqb transition "reject" then Some (reject_fields context actor occurred_at)
  else None.

Definition transition_actor (context : doc) : string :=
  let actor := strip (to_str (por (get "username" context) (por (get "user_id" context)
                 (por (get "actor" context) (VStr "system"))))) in
  if String.eqb actor "" then "system" else actor.

Definition _apply_state_transition_for_write (p : payload) (context : doc) : M (world C) payload :=
  let transition := lower (strip (text_of "transition" context)) in
  if String.eqb transition "" then ret p
  else
    run raise_if (negb (str_in (operation_of p) ["update_one"; "update_many"]))
          (ValueError ("State transition '" +:+ transition +:+ "' requires update_one or update_many")) ;;
    let u := default (USet []) (p_update p) in
    do occurred_at <- match get "transitioned_at" context with VTime t => ret t | _ => utc_now clock end ;;
    match transition_fields transition context (transition_actor context) occurred_at with
    | Some fields => ret (with_update (set_fields (aupd (u_set u) fields) u) p)
    | None => raise (ValueError ("Unsupported count-line state transition: " +:+ transition))
    end.

(** ** What a write must satisfy *)

(** The context the service passes to the write guard. *)
Definition write_context (context : doc) (session_id : val) (document : doc) (mode : CountLineGovernanceModeProfile) : doc :=
  [("session", get "session" context); ("session_id", session_id); ("document", VDict document);
   ("require_active_session", VBool (require_active_session mode));
   ("require_full_context", VBool (require_full_context mode))].

Definition previous_filter (previous_version_id : val) : query :=
  let id := to_str previous_version_id in
  match object_id id with
  | Some oid => QOr [QEq "id" (VStr id); QEq "_id" (VOid oid)]
  | None => QEq "id" (VStr id)
  end.

(** A recount names an existing line and is its next version. *)
Definition check_version_chain (document : doc) : M (world C) unit :=
  if negb (truthy (get "previous_version_id" document)) then ret tt
  else
    do previous <- db_find_one "count_lines" (previous_filter (get "previous_version_id" document)) ;;
    match previous with
    | None => raise (GovernanceViolation "CRITICAL: previous_version_id references missing count line")
    | Some previous_doc =>
        do incoming_version <- lift (int_or "version" 0 document) ;;
        do version <- lift (int_or "version" 1 previous_doc) ;;
        raise_if (negb (incoming_version =? version + 1))
          (GovernanceViolation "CRITICAL: Invalid version progression for recount write")
    end.

Definition duplicate_hash : exn :=
  GovernanceViolation "CRITICAL: Duplicate semantic hash for logical count write".

Definition insert_invariants (document context : doc) (mode : CountLineGovernanceModeProfile) : M (world C) doc :=
  let session_id := por (get "session_id" document) (get "session_id" context) in
  let idempotency_key := get "idempotency_key" document in
  do existing <- (if truthy session_id && truthy idempotency_key
                  then db_find_one "count_lines" (QAnd [QEq "session_id" session_id; QEq "idempotency_key" idempotency_key])
                  else ret None) ;;
  run raise_if (given existing) (GovernanceViolation "CRITICAL: Duplicate idempotency_key for count-line write") ;;
  run check_version_chain document ;;
  do semantic_hash <- (if truthy (get "semantic_hash" document) then ret (get "semantic_hash" document)
                       else do h <- lift (_build_semantic_hash document) ;; ret (VStr h)) ;;
  let document := aset "semantic_hash" semantic_hash document in
  do existing_semantic <- db_find_one "count_lines" (QEq "semantic_hash" semantic_hash) ;;
  run raise_if (given existing_semantic) duplicate_hash ;;
  do _ <- assert_valid_write true (write_context context session_id document mode) ;;
  ret document.

Definition line_id (d : doc) : string := to_str (por (get "id" d) (get "_id" d)).

(** The hash of the line as the update will leave it, unless another line has it. *)
Definition rehash (existing merged : doc) (p : payload) : M (world C) payload :=
  if negb (has_key "counted_qty" merged) then ret p
  else
    do semantic_hash <- lift (_build_semantic_hash merged) ;;
    do collision <- db_find_one "count_lines" (QEq "semantic_hash" (VStr semantic_hash)) ;;
    let existing_collision_id := match collision with Some d => line_id d | None => "" end in
    let current_id := to_str (por (get "id" existing) (por (get "_id" existing) (VStr ""))) in
    run raise_if (negb (String.eqb existing_collision_id "") && negb (String.eqb existing_collision_id current_id))
          duplicate_hash ;;
    ret match p_update p with
        | Some u => with_update (set_fields (aset "semantic_hash" (VStr semantic_hash) (u_set u)) u) p
        | None => p
        end.

Definition single_invariants (p : payload) (context : doc) (mode : CountLineGovernanceModeProfile) : M (world C) payload :=
  match p_filter p with
  | None => raise (GovernanceViolation "CRITICAL: Missing filter for single-document mutation")
  | Some filter_query =>
      do existing <- db_find_one "count_lines" filter_query ;;
      match existing with
      | None => raise (GovernanceViolation "CRITICAL: Count line not found for guarded mutation")
      | Some existing =>
          let updates := negb (String.eqb (operation_of p) "delete_one") in
          let merged := match (if updates then p_update p else None) with
                        | Some u => _apply_update_document_to_merged existing u
                        | None => existing
                        end in
          do p' <- (if updates then rehash existing merged p else ret p) ;;
          do _ <- assert_valid_write true
                    (write_context context (por (get "session_id" merged) (get "session_id" context)) merged mode) ;;
          ret p'
      end
  end.

Fixpoint check_candidates (lines : list val) (context : doc) (mode : CountLineGovernanceModeProfile) : M (world C) unit :=
  match lines with
  | [] => ret tt
  | VDict line :: rest =>
      do _ <- assert_valid_write true
                (write_context context (por (get "session_id" line) (get "session_id" context)) line mode) ;;
      check_candidates rest context mode
  | _ :: rest => check_candidates rest context mode
  end.

Definition bulk_invariants (p : payload) (context : doc) (mode : CountLineGovernanceModeProfile) : M (world C) unit :=
  do candidate_lines <-
    match get "candidate_lines" context with
    | VList l => ret l
    | _ =>
        match p_filter p with
        | None => raise (GovernanceViolation "CRITICAL: Missing filter for bulk mutation")
        | Some q => do found <- db_find "count_lines" q ;; ret (map VDict (take 5000 found))
        end
    end ;;
  match candidate_lines with
  | [] => raise (GovernanceViolation "CRITICAL: No candidate lines for guarded bulk mutation")
  | _ => check_candidates candidate_lines context mode
  end.

Definition _assert_mandatory_write_invariants (p : payload) (context : doc) : M (world C) payload :=
  do mode <- lift (_resolve_governance_mode_profile context) ;;
  let operation := operation_of p in
  if String.eqb operation "insert_one" then
    match p_document p with
    | None => raise (GovernanceViolation "CRITICAL: insert_one requires document context")
    | Some document => do document <- insert_invariants document context mode ;; ret (with_document document p)
    end
  else if str_in operation ["update_one"; "find_one_and_update"; "delete_one"]
  then single_invariants p context mode
  else if str_in operation ["update_many"; "delete_many"]
  then run bulk_invariants p context mode ;; ret p
  else ret p.

(** ** The write *)

(** A call on the repository's collection. *)
Definition on_collection {A} (m : M (world C) A) : M (world C) A :=
  match client_count_lines with
  | ADatabase => raise (TypeError "object is not callable")
  | _ => _execute_authorized_write m
  end.

(** [repository.save]: the document with its [_id]. *)
Definition save (entity : doc) : M (world C) doc :=
  match aget "_id" entity with
  | Some id =>
      run _guard "count_lines" "replace_one" ;;
      run modify (fun w => set_coll "count_lines" (replace_one id entity (w_db w "count_lines")) w) ;;
      ret entity
  | None => db_insert_one "count_lines" entity
  end.

Definition missing_argument (operation what : string) : exn :=
  ValueError (operation +:+ " payload requires " +:+ what).

(** The result, and the payload with the inserted document's id. *)
Definition _execute_count_line_operation (p : payload) : M (world C) (write_result * payload) :=
  let operation := operation_of p in
  if String.eqb operation "insert_one" then
    match p_document p with
    | None => raise (missing_argument operation "a 'document' dictionary")
    | Some document =>
        do saved <- on_collection (save document) ;;
        ret (RDocument saved, with_document saved p)
    end
  else if String.eqb operation "update_one" then
    match p_filter p, p_update p with
    | Some q, Some u =>
        do n <- on_collection (db_update_one "count_lines" q u) ;; ret (RCount n, p)
    | _, _ => raise (missing_argument operation "'filter' and 'update' dictionaries")
    end
  else if String.eqb operation "find_one_and_update" then
    match p_filter p, p_update p with
    | Some q, Some u =>
        do found <- on_collection (
          run _guard "count_lines" "find_one_and_update" ;;
          (fun w => let '(r, c) := find_one_and_update q u (w_db w "count_lines") in
                    (Ok r, set_coll "count_lines" c w))) ;;
        ret (RFound ((if p_return_document p then snd else fst) <$> found), p)
    | _, _ => raise (missing_argument operation "'filter' and 'update' dictionaries")
    end
  else if String.eqb operation "update_many" then
    match p_filter p, p_update p with
    | Some q, Some u =>
        do n <- on_collection (db_update_many "count_lines" q u) ;; ret (RCount n, p)
    | _, _ => raise (missing_argument operation "'filter' and 'update' dictionaries")
    end
  else if String.eqb operation "delete_one" then
    match p_filter p with
    | Some q => do n <- on_collection (db_delete_one "count_lines" q) ;; ret (RCount n, p)
    | None => raise (missing_argument operation "a 'filter' dictionary")
    end
  else
    match p_filter p with
    | Some q =>
        do n <- on_collection (db_delete_many "count_lines" q) ;;
        ret (RCount n, p)
    | None => raise (missing_argument "delete_many" "a 'filter' dictionary")
    end.

Abbreviation validate_line := (validate_count_line clock strict_mode write_logs).

Fixpoint validate_lines (lines : list doc) : M (world C) unit :=
  match lines with
  | [] => ret tt
  | line :: rest => do _ <- validate_line line None ;; validate_lines rest
  end.

(** The payload with the document as the validation leaves it. *)
Definition _run_post_write_validation (p : payload) (context : doc) : M (world C) payload :=
  do wanted <- lift (_should_run_runtime_validation context) ;;
  if negb wanted then ret p
  else
    let operation := operation_of p in
    if String.eqb operation "insert_one" then
      match p_document p with
      | Some document =>
          do ' (_, document') <- validate_line document None ;;
          ret (with_document document' p)
      | None => ret p
      end
    else if str_in operation ["update_one"; "find_one_and_update"] then
      match p_filter p with
      | Some q =>
          do updated <- db_find_one "count_lines" q ;;
          run match updated with Some d => validate_lines [d] | None => ret tt end ;;
          ret p
      | None => ret p
      end
    else if String.eqb operation "update_many" then
      match p_filter p with
      | Some q =>
          do updated_lines <- db_find "count_lines" q ;;
          run validate_lines (take 5000 updated_lines) ;;
          ret p
      | None => ret p
      end
    else ret p.

(** ** The audit trail of a write *)

Definition opt_nonempty (s : string) : val := if String.eqb s "" then VNone else VStr s.

Fixpoint audit_sessions (session_ids : list string) (operation : string) (document : doc) (version : Z)
    (actor : doc) : M (world C) unit :=
  match session_ids with
  | [] => ret tt
  | s :: rest =>
      let text_or_none k := let v := get k document in if truthy v then VStr (to_str v) else VNone in
      run log_event_keys clock
            (opt_nonempty (to_str (por (get "item_code" document) (por (get "item_id" document) (VStr "")))))
            (opt_nonempty (text_of "location_id" document))
            (text_or_none "idempotency_key") (text_or_none "semantic_hash")
            (Audit "COUNT_LINE_WRITE" operation s (VInt version) VNone VNone) actor ;;
      audit_sessions rest operation document version actor
  end.

Definition _log_count_line_audit (p : payload) (context : doc) (session_ids : list string) : M (world C) unit :=
  let document := default [] (p_document p) in
  let username := actor_of context in
  let actor := [("user_id", VStr (to_str (por (get "user_id" context) (VStr username)))); ("username", VStr username);
                ("role", VStr (text_of "role" context)); ("org_id", VStr (text_of "org_id" context))] in
  let audit_operation :=
    if String.eqb (operation_of p) "insert_one" && truthy (get "previous_version_id" document)
    then "RECOUNT" else "COUNT" in
  do version <- lift (int_or "version" 1 document) ;;
  audit_sessions session_ids audit_operation document version actor.

(** ** The core of a write *)

Definition WRITE_OPERATIONS : list string :=
  ["insert_one"; "update_one"; "update_many"; "find_one_and_update"; "delete_one"; "delete_many"].

Definition flag_of (k : string) (context : doc) : bool := truthy (dget k (VBool false) context).

(** What follows the write itself: validation, totals, projections, audit.  The
    payload as the validation leaves it. *)
Definition after_write (p : payload) (context : doc) (session_ids : list string)
    (expected_versions : list (string * Z)) : M (world C) payload :=
  do p <- _run_post_write_validation p context ;;
  run when (negb (flag_of "skip_session_totals_update" context))
        (_update_session_totals_for_sessions session_ids context expected_versions) ;;
  run when (negb (match session_ids with [] => true | _ => false end)
            && negb (flag_of "skip_projection_sync" context))
        (emit (Ev "projection.sync_for_sessions"
           [VList (map VStr session_ids); VStr ("count_line." +:+ operation_of p); VStr (actor_of context);
            VBool (negb (flag_of "skip_projection_items_sync" context))])) ;;
  run _log_count_line_audit p context session_ids ;;
  ret p.

(** The document of the result is the one of the payload. *)
Definition written (resolved : write_result) (p : payload) : write_result :=
  match resolved, p_document p with
  | RDocument _, Some document => RDocument document
  | _, _ => resolved
  end.

(** The checks before the write, and the payload they leave. *)
Definition before_write (p : payload) (context : doc) (has_session : bool) : M W payload :=
  run on_world (_assert_snapshot_integrity_for_write p context) ;;
  do p <- on_world (_assert_mandatory_write_invariants p context) ;;
  do p <- on_world (_apply_state_transition_for_write p context) ;;
  do governed <- lift (_should_apply_governance p context) ;;
  if governed then _enforce_variance_for_write p context has_session else ret p.

Definition _process_write_core (p : payload) (context : doc) (has_session : bool) : M W write_result :=
  if negb (str_in (operation_of p) WRITE_OPERATIONS)
  then raise (ValueError ("Unsupported count-line write operation: " +:+ operation_of p))
  else
    do p <- before_write p context has_session ;;
    do session_ids <- on_world (_collect_session_ids_for_write p context) ;;
    do expected_versions <- on_world (_capture_session_versions session_ids context) ;;
    do ' (resolved, p) <- on_world (_execute_count_line_operation p) ;;
    do p <- on_world (after_write p context session_ids expected_versions) ;;
    ret (written resolved p).

(** A unit of work around a computation of the service; its caches are not part
    of the transaction. *)
Definition in_uow {A} (cl : client) (body : bool → M W A) : M W A := fun w0 =>
  match __aenter__ cl with
  | Raise e => (Raise e, w0)
  | Ok u =>
      match body (u_session u) w0 with
      | (Raise e, w) => (Raise e, (fst w, __aexit__ u (snd w0) (snd w)))
      | (Ok a, w) => (Ok a, (fst w, __aexit__ (commit u) (snd w0) (snd w)))
      end
  end.

(** The same, where nothing commits: a transaction is rolled back. *)
Definition in_uow_uncommitted {A} (cl : client) (body : bool → M W A) : M W A := fun w0 =>
  match __aenter__ cl with
  | Raise e => (Raise e, w0)
  | Ok u => let '(r, w) := body (u_session u) w0 in (r, (fst w, __aexit__ u (snd w0) (snd w)))
  end.

(** [commit]: [has_session] when the context carries a database session. *)
Definition commit_write (cl : client) (has_session : bool) (p : payload) (context : doc) : M W write_result :=
  if has_key "skip_transaction" context
  then raise (GovernanceViolation "CRITICAL: skip_transaction bypass has been removed from CountLineWriteService")
  else if has_session then _process_write_core p context true
  else in_uow cl (fun b => _process_write_core p context b).

Definition process_write (cl : client) (has_session : bool) (p : payload) (context : doc) : M W write_result :=
  commit_write cl has_session p context.
End writes.
