(* ===== verification/ProjectionWriter.v ===== *)
(** The read models written with every session and count-line write,
    [services/projections/writer.py] ([ProjectionWriteService]): the dashboard
    row of a session, a row for each of its count lines in two collections, and
    the financial totals.

    The lifecycle ([Lifecycle]) and the count-line write service ([CountLines])
    record the call as an event of their trace; this file says what the call
    does.  Whether reading the cursor of the count lines fails ([cursor_fails])
    is the driver's.  The wait for the lock of a session has fuel:
    [acquire_terminates] says that enough of it always exists when time passes.

    Main results: [read_model_is_view], [dashboard_counts]. *)

From stdpp Require Import sets.
From S2P Require Import Prelude PyFloat Py PyTime Store ListStore Guard Inventory Uow Frame Lifecycle Locks Quantity Variance.
From S2P Require Import CountLines.

Local Open Scope Z_scope.
Local Open Scope stock_scope.

Definition _PROJECTION_VERSION : string := "write.sync.v1".

(** ** Values *)

Definition _as_float (value : val) : outcome float := CountLines._as_float value f0.

Fixpoint unit_value_of (keys : list string) (line : doc) : outcome float :=
  match keys with
  | [] => Ok f0
  | k :: rest => if blank (get k line) then unit_value_of rest line else _as_float (get k line)
  end.
Definition _resolve_unit_value : doc → outcome float :=
  unit_value_of ["mrp_counted"; "mrp_erp"; "last_cost"; "sale_price"; "sales_price"].

Definition _compute_variance_percentage (variance stock_qty : float) : float :=
  if feq stock_qty f0 then f0 else round_nd (fmul (fdiv variance stock_qty) (of_Z 100)) 4.

(** ** Review state: the writer's own copies of the inventory helpers *)

Definition _normalize_count_line_status (value : val) : string :=
  match value with
  | VStr s => if String.eqb (strip s) "" then "pending" else lower (strip s)
  | _ => "pending"
  end.
Definition _normalize_approval_status (value : val) : string :=
  match value with
  | VStr s => if String.eqb (strip s) "" then "PENDING" else upper (strip s)
  | _ => "PENDING"
  end.

Definition _requires_supervisor_review_for_variance (variance : val) : bool :=
  match to_float (por variance (VFloat f0)) with
  | Ok f => fgt (fabs f) f0
  | Raise _ => false
  end.
Definition _count_line_requires_supervisor_review (count_line : doc) : bool :=
  negb (is_empty count_line) && _requires_supervisor_review_for_variance (get "variance" count_line).

Definition is_count_line_effectively_reviewed (count_line : doc) : bool :=
  if is_empty count_line then false
  else
    let line_status := _normalize_count_line_status (get "status" count_line) in
    if truthy (get "verified" count_line) || str_in line_status ["approved"; "locked"] then true
    else if str_in (_normalize_approval_status (get "approval_status" count_line)) ["NEEDS_REVIEW"; "REJECTED"] then false
    else if truthy (get "assigned_to" count_line) && truthy (get "recount_requested_at" count_line) then false
    else negb (_count_line_requires_supervisor_review count_line) && negb (String.eqb line_status "rejected").

Definition get_effective_count_line_status (count_line : doc) : string :=
  if is_empty count_line then "pending"
  else
    let line_status := _normalize_count_line_status (get "status" count_line) in
    if str_in line_status ["rejected"; "locked"; "approved"] then line_status
    else if is_count_line_effectively_reviewed count_line then "approved"
    else line_status.

Definition get_effective_approval_status (count_line : doc) : string :=
  if is_empty count_line then "PENDING"
  else
    let approval_status := _normalize_approval_status (get "approval_status" count_line) in
    if str_in approval_status ["REJECTED"; "APPROVED"] then approval_status
    else if is_count_line_effectively_reviewed count_line then "APPROVED"
    else approval_status.

Definition is_superseded_count_line (count_line : doc) : bool :=
  negb (is_empty count_line)
  && (String.eqb (_normalize_count_line_status (get "status" count_line)) "superseded"
      || truthy (get "superseded_by_version_id" count_line) || truthy (get "superseded_at" count_line)).

(** They agree with [Inventory]. *)
Lemma reviewed_agrees d : is_count_line_effectively_reviewed d = Inventory.is_count_line_effectively_reviewed d.
Proof.
  unfold is_count_line_effectively_reviewed, Inventory.is_count_line_effectively_reviewed,
    _count_line_requires_supervisor_review, count_line_requires_supervisor_review. by destruct (is_empty d).
Qed.

Lemma superseded_agrees d : is_superseded_count_line d = Inventory.is_superseded_count_line d.
Proof.
  unfold is_superseded_count_line, Inventory.is_superseded_count_line, SUPERSEDED_COUNT_LINE_STATUSES.
  change (_normalize_count_line_status (get "status" d)) with (line_status d).
  unfold str_in. cbn [existsb]. destruct (is_empty d); [done|]. cbn [negb andb]. rewrite orb_false_r.
  destruct (String.eqb (line_status d) "superseded"); [done|]. by destruct (truthy (get "superseded_by_version_id" d)).
Qed.

(** ** Totals of a session *)

Record aggregates := Aggregates {
  total_items : Z;
  verified_items : Z;
  pending_approvals : Z;
  damage_items : Z;
  total_variance : float;
  positive_variance : float;
  negative_variance : float;
  last_activity : option Z;
}.

(** The later of the activity so far and the given times of the line. *)
Definition latest (last : option Z) (candidates : list val) : option Z :=
  fold_left (fun last v =>
    match _as_datetime v with
    | None => last
    | Some t => match last with Some l => if l <? t then Some t else last | None => Some t end
    end) candidates last.

Definition add_line (a : aggregates) (line : doc) : outcome aggregates :=
  obind (_as_float (get "variance" line)) (fun variance =>
  obind (obind (_as_float (get "damaged_qty" line)) (fun x => to_int (VFloat x))) (fun damaged =>
  Ok (Aggregates
    (total_items a + 1)
    (verified_items a + if is_count_line_effectively_reviewed line then 1 else 0)
    (pending_approvals a + if String.eqb (get_effective_approval_status line) "APPROVED" then 0 else 1)
    (damage_items a + damaged)
    (fadd (total_variance a) variance)
    (if fgt variance f0 then fadd (positive_variance a) variance else positive_variance a)
    (if flt variance f0 then fadd (negative_variance a) variance else negative_variance a)
    (latest (last_activity a) [get "updated_at" line; get "approved_at" line; get "counted_at" line])))).

Fixpoint sum_lines (a : aggregates) (lines : list doc) : outcome aggregates :=
  match lines with
  | [] => Ok a
  | line :: rest => obind (add_line a line) (fun a => sum_lines a rest)
  end.

Definition _compute_aggregates (lines : list doc) : outcome aggregates :=
  sum_lines (Aggregates 0 0 0 0 f0 f0 f0 None) lines.

(** [round(100 * n / d, 2)], 0 when there is nothing; counts are exact in a float. *)
Definition percent (n d : Z) : float := if d =? 0 then f0 else round_nd (fmul (of_frac n d) (of_Z 100)) 2.

Definition opt_time (o : option Z) : val := match o with Some t => VTime t | None => VNone end.

(** ** The row of the dashboard *)

Definition first_time (keys : list string) (session_doc : doc) : option Z :=
  fold_right (fun k rest => match _as_datetime (get k session_doc) with Some t => Some t | None => rest end) None keys.
Definition _resolve_source_updated_at : doc → option Z :=
  first_time ["updated_at"; "completed_at"; "closed_at"; "last_activity"; "started_at"].

(** [{k: session_doc.get(k) for k in keys}] *)
Definition copied (keys : list string) (session_doc : doc) : doc := map (fun k => (k, get k session_doc)) keys.

Definition session_projection_doc (session_id trigger : string) (session_doc : doc) (a : aggregates)
    (session_version source_updated_at now_dt : Z) : doc :=
  let s k := get k session_doc in
  [("session_id", VStr session_id); ("warehouse", s "warehouse"); ("floor", por (s "floor") (s "floor_no"))]
  ++ copied ["floor_no"; "location_name"; "location_type"; "rack_no"; "rack_id"; "staff_user"] session_doc
  ++ [("username", por (s "username") (s "staff_user"))]
  ++ copied ["staff_name"; "user_id"; "status"; "finalization_status"; "started_at"] session_doc
  ++ [("created_at", por (s "created_at") (s "started_at"))]
  ++ copied ["completed_at"; "closed_at"; "finalized_at"; "finalized_by"; "reconciled_at"; "last_heartbeat"] session_doc
  ++ [("last_activity", match last_activity a with Some t => VTime t | None => s "last_activity" end);
      ("total_items", VInt (total_items a)); ("verified_items", VInt (verified_items a));
      ("pending_items", VInt (Z.max (total_items a - verified_items a) 0)); ("damage_items", VInt (damage_items a));
      ("total_variance", VFloat (round_nd (total_variance a) 4));
      ("positive_variance", VFloat (round_nd (positive_variance a) 4));
      ("negative_variance", VFloat (round_nd (negative_variance a) 4));
      ("pending_approvals", VInt (pending_approvals a));
      ("completion_percent", VFloat (percent (verified_items a) (total_items a)))]
  ++ copied ["snapshot_hash"; "snapshot_item_count"] session_doc
  ++ [("notes", por (s "notes") (s "lifecycle_note")); ("type", s "type"); ("version", VInt session_version);
      ("last_event_id", VNone); ("last_event_type", VStr trigger); ("last_event_ts", VTime now_dt);
      ("source_updated_at", VTime source_updated_at); ("updated_at", VTime now_dt);
      ("projection_updated_at", VTime now_dt); ("projection_version", VStr _PROJECTION_VERSION);
      ("archived", VBool false); ("backfill_source", VStr ("write:" +:+ trigger)); ("backfilled_at", VTime now_dt)].

(** ** The rows of the count lines *)

Record measures := Measures {
  stock_qty : float; counted_qty : float; variance : float; damaged_qty : float; unit_value : float; impact : float;
}.

Definition measure (line : doc) : outcome measures :=
  obind (_as_float (get "erp_qty" line)) (fun stock =>
  obind (_as_float (get "counted_qty" line)) (fun counted =>
  obind (_as_float (get "variance" line)) (fun variance =>
  obind (_as_float (get "damaged_qty" line)) (fun damaged =>
  obind (_resolve_unit_value line) (fun unit =>
  obind (_as_float (get "financial_impact" line)) (fun impact =>
  Ok (Measures stock counted variance damaged unit
        (if feq impact f0 && negb (feq unit f0) then fmul (fsub counted stock) unit else impact)))))))).

Definition line_key (line : doc) : val := por (get "id" line) (VStr (to_str (por (get "_id" line) (VStr "")))).

Definition base_doc (session_id : string) (session_doc : doc) (now_dt : Z) (line : doc) (m : measures) : doc :=
  let l k := get k line in
  let flag k := VBool (truthy (l k)) in
  [("count_line_id", line_key line); ("approval_status", VStr (get_effective_approval_status line))]
  ++ copied ["approved_at"; "approved_by"; "barcode"; "batch_id"] line
  ++ [("blind_recount_required", flag "blind_recount_required")] ++ copied ["category"; "counted_at"; "counted_by"] line
  ++ [("counted_qty", VFloat (counted_qty m)); ("damaged_qty", VFloat (damaged_qty m));
      ("dual_verification_required", flag "dual_verification_required"); ("floor", por (l "floor_no") (l "floor"));
      ("financial_impact", VFloat (impact m)); ("id", line_key line); ("is_removed", flag "is_removed");
      ("item_code", l "item_code"); ("item_id", por (l "item_id") (l "item_code")); ("item_name", l "item_name");
      ("last_event_id", VNone); ("last_event_type", VStr "write_sync"); ("last_event_ts", VTime now_dt);
      ("mrp", if blank (l "mrp_counted") then l "mrp_erp" else l "mrp_counted"); ("mrp_erp", l "mrp_erp");
      ("notes", por (l "notes") (por (l "remark") (l "variance_note")));
      ("original_count_hidden", flag "original_count_hidden"); ("projection_version", VStr _PROJECTION_VERSION);
      ("rack_id", por (l "rack_id") (l "rack_no")); ("rack_no", por (l "rack_no") (l "rack_id"));
      ("session_id", VStr session_id); ("status", VStr (get_effective_count_line_status line));
      ("stock_qty", VFloat (stock_qty m)); ("unit_value", VFloat (unit_value m)); ("updated_at", VTime now_dt);
      ("projection_updated_at", VTime now_dt); ("variance", VFloat (variance m));
      ("variance_percentage", VFloat (_compute_variance_percentage (variance m) (stock_qty m)));
      ("verified", VBool (is_count_line_effectively_reviewed line)); ("verified_at", l "verified_at");
      ("verified_by", l "verified_by"); ("warehouse", get "warehouse" session_doc); ("archived", VBool false)].

Definition variance_doc (line base : doc) : doc :=
  aset "rejection_reason" (get "rejection_reason" line) (aset "assigned_to" (get "assigned_to" line) base).

Record financial := Financial {
  f_stock_qty : float; f_counted_qty : float; f_stock_value : float; f_counted_value : float;
  f_overage : float; f_shortage : float; f_damage : float;
}.
Definition financial0 : financial := Financial f0 f0 f0 f0 f0 f0 f0.

Definition add_financial (f : financial) (m : measures) : financial :=
  let delta := fmul (fsub (counted_qty m) (stock_qty m)) (unit_value m) in
  Financial (fadd (f_stock_qty f) (stock_qty m)) (fadd (f_counted_qty f) (counted_qty m))
    (fadd (f_stock_value f) (fmul (stock_qty m) (unit_value m)))
    (fadd (f_counted_value f) (fmul (counted_qty m) (unit_value m)))
    (if fge delta f0 then fadd (f_overage f) delta else f_overage f)
    (if fge delta f0 then f_shortage f else fadd (f_shortage f) (fabs delta))
    (fadd (f_damage f) (fmul (damaged_qty m) (unit_value m))).

(** The rows of all lines, and the sums. *)
Fixpoint line_rows (session_id : string) (session_doc : doc) (now_dt : Z) (lines : list doc)
  : outcome (list (doc * measures)) :=
  match lines with
  | [] => Ok []
  | line :: rest =>
      obind (measure line) (fun m =>
      obind (line_rows session_id session_doc now_dt rest) (fun rows =>
      Ok ((line, m) :: rows)))
  end.

Definition financial_doc (session_id : string) (now_dt : Z) (lines : list doc) (f : financial) : doc :=
  let r x := VFloat (round_nd x 4) in
  [("session_id", VStr session_id);
   ("complete_percent", VFloat (percent (Z.of_nat (length (List.filter is_count_line_effectively_reviewed lines)))
                                        (Z.of_nat (length lines))));
   ("damage_value", r (f_damage f)); ("overage_value", r (f_overage f));
   ("projection_version", VStr _PROJECTION_VERSION); ("shortage_value", r (f_shortage f));
   ("last_event_ts", VTime now_dt); ("total_counted_qty", r (f_counted_qty f));
   ("total_counted_value", r (f_counted_value f)); ("total_stock_qty", r (f_stock_qty f));
   ("total_stock_value", r (f_stock_value f)); ("updated_at", VTime now_dt); ("projection_updated_at", VTime now_dt);
   ("valuation_basis", VStr "last_cost"); ("archived", VBool false)].

(** ** The service *)

Record writer := Writer {
  lock_enabled : bool;
  lock_wait_timeout_ms : Z;
  lock_retry_delay_ms : Z;
  lock_ttl_seconds : Z;
}.

(** [__init__]; [int()] of a text may raise. *)
Definition writer_of_env (env : string → option string) : outcome writer :=
  let setting k dflt := to_int (VStr (default dflt (env k))) in
  obind (setting "PROJECTION_WRITE_LOCK_WAIT_TIMEOUT_MS" "5000") (fun wait =>
  obind (setting "PROJECTION_WRITE_LOCK_RETRY_DELAY_MS" "50") (fun delay =>
  obind (setting "PROJECTION_WRITE_LOCK_TTL_SECONDS" "90") (fun ttl =>
  Ok (Writer (String.eqb (lower (default "true" (env "PROJECTION_WRITE_LOCK_ENABLED"))) "true")
        (Z.max 0 wait) (Z.max 10 delay) (Z.max 30 ttl))))).

Definition session_lock_key (session_id : string) : string := "projection_session:" +:+ session_id.

(** [int((t - started).total_seconds() * 1000.0)] *)
Definition elapsed_ms (started t : Z) : Z := trunc (fmul (of_ratio (t - started) 1000000) (of_Z 1000)).

(** The length given to [to_list]. *)
Definition MAX_LINES : nat := Z.to_nat 10000.

Section service.
Context {C : Type} `{Mongo C}.
Context (clock : nat → Z) (cfg : writer) (cursor_fails : bool) (owner_of : string → string).

(** One attempt to lock the session; [None]: try again later. *)
Definition try_session_lock (session_id owner : string) (started : Z) : M (world C) (option bool) :=
  try_except
    (do _ <- acquire_lock clock (session_lock_key session_id) owner (lock_ttl_seconds cfg) ;; ret (Some true))
    (fun e => match e with
              | ResourceLockedError _ =>
                  do now <- utc_now clock ;;
                  if lock_wait_timeout_ms cfg <=? elapsed_ms started now then raise e else ret None
              | AttributeError _ | TypeError _ => ret (Some false)
              | _ => raise e
              end).

Fixpoint wait_for_lock (fuel : nat) (session_id owner : string) (started : Z) : M (world C) bool :=
  match fuel with
  | O => raise (OtherError "out of fuel")
  | S fuel' =>
      do attempt <- try_session_lock session_id owner started ;;
      match attempt with
      | Some b => ret b
      | None => wait_for_lock fuel' session_id owner started
      end
  end.

Definition _acquire_session_lock (fuel : nat) (session_id owner : string) : M (world C) bool :=
  do started <- utc_now clock ;; wait_for_lock fuel session_id owner started.

Definition _release_session_lock (session_id owner : string) : M (world C) unit :=
  try_except (release_lock (session_lock_key session_id) owner)
    (fun e => match e with AttributeError _ | TypeError _ => ret tt | _ => raise e end).

(** [insert_many]: one after the other. *)
Fixpoint insert_many (name : string) (docs : list doc) : M (world C) unit :=
  match docs with
  | [] => ret tt
  | d :: rest => do _ <- db_insert_one name d ;; insert_many name rest
  end.

(** The rows of the session that are not archived. *)
Definition live_rows (session_id : string) : query :=
  QAnd [QEq "session_id" (VStr session_id); QNe "archived" (VBool true)].

Definition _load_active_count_lines (session_id : string) : M (world C) (list doc) :=
  do cursor <- db_find "count_lines" (live_rows session_id) ;;
  let raw_lines := if cursor_fails then [] else take MAX_LINES cursor in
  ret (List.filter (fun line => negb (is_superseded_count_line line)) raw_lines).

Definition in_scope (k : string) (item_projection_scopes : option (list string)) : bool :=
  match item_projection_scopes with
  | None | Some [] => true
  | Some l => str_in k l
  end.

Definition _rebuild_item_projections (session_id : string) (session_doc : doc) (active_lines : list doc) (now_dt : Z)
    (item_projection_scopes : option (list string)) : M (world C) unit :=
  let clear k name :=
    when (in_scope k item_projection_scopes) (do _ <- db_delete_many name (live_rows session_id) ;; ret tt) in
  run clear "verified" "verified_items_projection" ;;
  run clear "variance" "variance_summary_projection" ;;
  run clear "financial" "financial_projection" ;;
  do rows <- lift (line_rows session_id session_doc now_dt active_lines) ;;
  let base '(line, m) := base_doc session_id session_doc now_dt line m in
  run when (in_scope "verified" item_projection_scopes) (insert_many "verified_items_projection" (map base rows)) ;;
  run when (in_scope "variance" item_projection_scopes)
        (insert_many "variance_summary_projection" (map (fun r => variance_doc (fst r) (base r)) rows)) ;;
  when (in_scope "financial" item_projection_scopes)
    (do _ <- db_insert_one "financial_projection"
               (financial_doc session_id now_dt active_lines (fold_left add_financial (map snd rows) financial0)) ;;
     ret tt).

Definition event_log_row (session_id trigger actor : string) (session_version source_updated_at now_dt : Z) : doc :=
  [("session_id", VStr session_id); ("event_type", VStr trigger); ("actor", VStr actor);
   ("session_version", VInt session_version); ("source_updated_at", VTime source_updated_at);
   ("projection_updated_at", VTime now_dt); ("projection_version", VStr _PROJECTION_VERSION); ("created_at", VTime now_dt)].

Definition _sync_single_session (session_id : string) (session_doc : doc) (trigger actor : string) (now_dt : Z)
    (rebuild_item_projections : bool) (item_projection_scopes : option (list string)) : M (world C) unit :=
  let source_updated_at := default now_dt (_resolve_source_updated_at session_doc) in
  do session_version <- lift (coerce_version (get "version" session_doc)) ;;
  do active_lines <- _load_active_count_lines session_id ;;
  do a <- lift (_compute_aggregates active_lines) ;;
  do _ <- db_upsert_one "session_dashboard_projection" (QEq "session_id" (VStr session_id))
            (USet (session_projection_doc session_id trigger session_doc a session_version source_updated_at now_dt)) ;;
  run when rebuild_item_projections
        (_rebuild_item_projections session_id session_doc active_lines now_dt item_projection_scopes) ;;
  do _ <- db_insert_one "event_log"
            (event_log_row session_id trigger actor session_version source_updated_at now_dt) ;;
  ret tt.

(** One session of [sync_for_sessions], under its lock. *)
Definition sync_session (fuel : nat) (trigger actor : string) (now_dt : Z) (rebuild_item_projections : bool)
    (item_projection_scopes : option (list string)) (skip_session_lock : bool) (session_id : string) : M (world C) unit :=
  let owner := owner_of session_id in
  do lock_acquired <- (if lock_enabled cfg && negb skip_session_lock
                       then _acquire_session_lock fuel session_id owner else ret false) ;;
  try_finally
    (do session_doc <- db_find_one "sessions" (session_lookup session_id) ;;
     match session_doc with
     | None => ret tt
     | Some s => _sync_single_session session_id s trigger actor now_dt rebuild_item_projections item_projection_scopes
     end)
    (when lock_acquired (_release_session_lock session_id owner)).

Fixpoint sync_each (fuel : nat) (trigger actor : string) (now_dt : Z) (rebuild : bool) (scopes : option (list string))
    (skip : bool) (ids : list string) : M (world C) unit :=
  match ids with
  | [] => ret tt
  | i :: rest =>
      run sync_session fuel trigger actor now_dt rebuild scopes skip i ;;
      sync_each fuel trigger actor now_dt rebuild scopes skip rest
  end.

Definition sync_for_sessions (fuel : nat) (session_ids : list string) (trigger actor : string)
    (rebuild_item_projections : bool) (item_projection_scopes : option (list string)) (skip_session_lock : bool)
  : M (world C) unit :=
  match session_ids with
  | [] => ret tt
  | _ =>
      let unique_session_ids :=
        sorted_set (List.filter (fun s => negb (String.eqb s "")) (map strip session_ids)) in
      do now_dt <- utc_now clock ;;
      sync_each fuel trigger actor now_dt rebuild_item_projections item_projection_scopes skip_session_lock
        unique_session_ids
  end.
End service.

(** ** The read model is a view of the count lines *)

Section view.
Context {C : Type} `{MongoLaws C}.
Context (clock : nat → Z) (cfg : writer) (cursor_fails : bool) (owner_of : string → string).
Implicit Types (w : world C) (c : C).

Abbreviation sync := (sync_for_sessions (C:=C) clock cfg cursor_fails owner_of).

Lemma frame_acquire fuel sid owner : frame ["locks"] (_acquire_session_lock (C:=C) clock cfg fuel sid owner).
Proof.
  unfold _acquire_session_lock. apply frame_bind; [apply frame_utc_now|]. intros started.
  induction fuel as [|fuel IH]; cbn [wait_for_lock]; [apply frame_raise|].
  apply frame_bind; [|intros [b|]; [apply frame_ret | apply IH]].
  unfold try_session_lock, acquire_lock, held_lock. solve_frame.
Qed.

Lemma frame_release sid owner : frame ["locks"] (_release_session_lock (C:=C) sid owner).
Proof. unfold _release_session_lock, release_lock. solve_frame. Qed.

(** A successful run for one session: its lock aside, the writes of
    [_sync_single_session]. *)
Lemma sync_one fuel sid s trigger actor rebuild scopes skip w w' :
  strip sid = sid → sid ≠ "" → find_one (session_lookup sid) (w_db w "sessions") = Some s →
  sync fuel [sid] trigger actor rebuild scopes skip w = (Ok tt, w') →
  ∃ now w1 w2,
    (∀ n, n ≠ "locks" → w_db w1 n = w_db w n) ∧ (∀ n, n ≠ "locks" → w_db w' n = w_db w2 n) ∧
    _sync_single_session cursor_fails sid s trigger actor now rebuild scopes w1 = (Ok tt, w2).
Proof.
  intros Hstrip Hne Hs Hm. unfold sync_for_sessions in Hm. cbn [map] in Hm. rewrite Hstrip in Hm.
  cbn [List.filter] in Hm. destruct (String.eqb_spec sid "") as [|_]; [done|]. cbn [negb sorted_set fold_right insert_sorted] in Hm.
  apply bind_ok_inv in Hm as (now & w0 & Hnow & Hm). unfold utc_now in Hnow. injection Hnow as <- <-.
  cbn [sync_each] in Hm. apply bind_ok_inv in Hm as ([] & w3 & Hm & Hr). unfold ret in Hr. injection Hr as <-.
  unfold sync_session in Hm. apply bind_ok_inv in Hm as (locked & w1 & Hl & Hm).
  assert (∀ n, n ≠ "locks" → w_db w1 n = w_db w n) as H1.
  { intros n Hn. assert (str_in n ["locks"] = false) as Hin by (by apply str_in_false; set_solver).
    destruct (_ && _); [|unfold ret in Hl; by simplify_eq].
    by rewrite (frame_db ["locks"] _ _ _ _ n (frame_acquire _ _ _) Hl Hin). }
  unfold try_finally in Hm. destruct (bind _ _ w1) as [o w2] eqn:E.
  destruct (when locked _ w2) as [[[]|e] w4] eqn:Er; [|done]. simplify_eq.
  apply bind_ok_inv in E as (so & w5 & Hf & E). unfold db_find_one, gets in Hf. injection Hf as <- <-.
  rewrite H1, Hs in E by done. exists (clock (w_tick w)), w1, w2. split; [done|]. split; [|done].
  intros n Hn. assert (str_in n ["locks"] = false) as Hin by (by apply str_in_false; set_solver).
  eapply (frame_db ["locks"]); [|exact Er|done]. apply frame_when, frame_release.
Qed.

Lemma insert_many_ok name docs w w' :
  insert_many name docs w = (Ok tt, w') →
  (∃ news, Forall2 (fun d e => ∃ i, e = bson_doc (setdefault "_id" i d)) docs news ∧
     contents (w_db w' name) ≡ₚ news ++ contents (w_db w name)) ∧
  ∀ n, n ≠ name → w_db w' n = w_db w n.
Proof.
  revert w. induction docs as [|d docs IH]; intros w Hm; cbn [insert_many] in Hm.
  { unfold ret in Hm. simplify_eq. split; [|done]. by exists []. }
  apply bind_ok_inv in Hm as (d' & w1 & Hi & Hm). apply insert_one_ok in Hi as (i & c & Hi & -> & ->).
  apply IH in Hm as ((news & Hf & Hc) & Ho). apply insert_one_spec in Hi as [Hp _]. rewrite set_coll_same in Hc. split.
  - exists (bson_doc (setdefault "_id" i d) :: news). split; [constructor; [by eexists|done]|].
    rewrite Hc, Hp. by rewrite <- Permutation_middle.
  - intros n Hn. rewrite Ho, set_coll_other; done.
Qed.

(** The row stored for a line. *)
Definition row_of (sid : string) (s : doc) (now : Z) (line row : doc) : Prop :=
  ∃ m i, measure line = Ok m ∧ row = bson_doc (setdefault "_id" i (base_doc sid s now line m)).
Definition variance_row_of (sid : string) (s : doc) (now : Z) (line row : doc) : Prop :=
  ∃ m i, measure line = Ok m ∧ row = bson_doc (setdefault "_id" i (variance_doc line (base_doc sid s now line m))).

Lemma line_rows_ok sid s now lines rows :
  line_rows sid s now lines = Ok rows → Forall2 (fun line r => fst r = line ∧ measure line = Ok (snd r)) lines rows.
Proof.
  revert rows. induction lines as [|line lines IH]; intros rows; cbn [line_rows]; [intros; by simplify_eq|].
  destruct (measure line) as [m|] eqn:Em; [|done]. cbn [obind].
  destruct (line_rows sid s now lines) as [rest|]; [|done]. cbn [obind]. intros [= <-]. constructor; auto.
Qed.

Definition live (sid : string) (d : doc) : bool := matches (live_rows sid) d.

Lemma live_row sid d : get "session_id" d = VStr sid → get "archived" d = VBool false → live sid d = true.
Proof.
  intros Hs Ha. unfold live, live_rows. rewrite matches_and. cbn [forallb].
  rewrite matches_eq_str, matches_ne, matches_eq by (by rewrite ?Hs, ?Ha). rewrite Hs, Ha. cbn. by rewrite String.eqb_refl.
Qed.

Lemma stored_field i d k v :
  String.eqb "_id" k = false → aget k d = Some v → plain v = true → (∀ us, v ≠ VTime us) →
  get k (bson_doc (setdefault "_id" i d)) = v.
Proof. intros Hk Hd Hp Ht. unfold get. rewrite aget_bson, aget_setdefault, Hk, Hd. cbn. by rewrite to_bson_plain. Qed.

Lemma row_live sid s now line row : row_of sid s now line row → live sid row = true.
Proof. intros (m & i & _ & ->). apply live_row; by apply stored_field. Qed.

Lemma variance_row_live sid s now line row : variance_row_of sid s now line row → live sid row = true.
Proof.
  intros (m & i & _ & ->). apply live_row; apply stored_field; try done; unfold variance_doc; by rewrite !aget_aset_diff.
Qed.

Lemma delete_many_ok name q w w' :
  (do _ <- db_delete_many (C:=C) name q ;; ret tt) w = (Ok tt, w') →
  contents (w_db w' name) ≡ₚ filter (fun d => matches q d = false) (contents (w_db w name)) ∧
  ∀ n, n ≠ name → w_db w' n = w_db w n.
Proof.
  intros Hm. apply bind_ok_inv in Hm as (n & w1 & Hd & Hm). unfold ret in Hm. simplify_eq.
  apply counted_ok in Hd as [_ ->]. rewrite set_coll_same. split; [apply delete_many_spec|].
  intros k Hk. by apply set_coll_other.
Qed.

Lemma Forall2_through {X Y T U} (P : X → Y → Prop) (Q : T → U → Prop) (R : X → U → Prop) (f : Y → T) xs ys ws :
  Forall2 P xs ys → Forall2 Q (map f ys) ws → (∀ x y u, P x y → Q (f y) u → R x u) → Forall2 R xs ws.
Proof.
  intros HP. revert ws. induction HP as [|x y xs ys Hxy _ IH]; intros ws HQ HR; inversion_clear HQ; constructor; eauto.
Qed.

(** What the collections of a session's rows hold after a rebuild. *)
Lemma rebuild_ok sid s lines now w w' :
  _rebuild_item_projections sid s lines now None w = (Ok tt, w') →
  ∃ rows vrows, Forall2 (row_of sid s now) lines rows ∧ Forall2 (variance_row_of sid s now) lines vrows ∧
    contents (w_db w' "verified_items_projection")
      ≡ₚ rows ++ filter (fun d => live sid d = false) (contents (w_db w "verified_items_projection")) ∧
    contents (w_db w' "variance_summary_projection")
      ≡ₚ vrows ++ filter (fun d => live sid d = false) (contents (w_db w "variance_summary_projection")) ∧
    ∀ n, str_in n ["verified_items_projection"; "variance_summary_projection"; "financial_projection"] = false →
      w_db w' n = w_db w n.
Proof.
  intros Hm. unfold _rebuild_item_projections in Hm. cbv zeta in Hm. cbn [in_scope when] in Hm.
  apply bind_ok_inv in Hm as ([] & w1 & H1 & Hm). apply delete_many_ok in H1 as [H1 H1o].
  apply bind_ok_inv in Hm as ([] & w2 & H2 & Hm). apply delete_many_ok in H2 as [H2 H2o].
  apply bind_ok_inv in Hm as ([] & w3 & H3 & Hm). apply delete_many_ok in H3 as [H3 H3o].
  apply bind_ok_inv in Hm as (rows & w4 & Hrows & Hm). unfold lift in Hrows. injection Hrows as Hrows <-.
  apply line_rows_ok in Hrows.
  apply bind_ok_inv in Hm as ([] & w4 & H4 & Hm). apply insert_many_ok in H4 as [(news & Hn & H4) H4o].
  apply bind_ok_inv in Hm as ([] & w5 & H5 & Hm). apply insert_many_ok in H5 as [(vnews & Hv & H5) H5o].
  assert (∀ n, n ≠ "financial_projection" → w_db w' n = w_db w5 n) as H6o.
  { intros n Hn'. apply bind_ok_inv in Hm as (d & w6 & Hi & Hm). unfold ret in Hm. simplify_eq.
    apply insert_one_ok in Hi as (i & c & _ & _ & ->). by apply set_coll_other. }
  exists news, vnews. split_and!.
  - eapply Forall2_through; [exact Hrows|exact Hn|]. intros line [l m] row [Hl Hme] [i ->]. cbn [fst snd] in *.
    subst l. by exists m, i.
  - eapply Forall2_through; [exact Hrows|exact Hv|]. intros line [l m] row [Hl Hme] [i ->]. cbn [fst snd] in *.
    subst l. by exists m, i.
  - rewrite H6o, H5o, H4, H3o, H2o, H1 by done. done.
  - rewrite H6o, H5 by done. rewrite H4o, H3o, H2, H1o by done. done.
  - intros n Hn'. rewrite H6o, H5o, H4o, H3o, H2o, H1o; [done|..]; intros ->; done.
Qed.

Lemma bool_filter (f : doc → bool) l : List.filter f l = filter (fun d => f d = true) l.
Proof.
  induction l as [|d l IH]; [done|]. cbn [List.filter]. rewrite filter_cons, IH.
  by destruct (f d) eqn:E; rewrite ?E; [rewrite decide_True by done | rewrite decide_False by done].
Qed.

(** The lines the read models show. *)
Definition shown_lines (sid : string) (c : C) : list doc :=
  List.filter (fun line => negb (is_superseded_count_line line)) (take MAX_LINES (find_all (live_rows sid) c)).

Lemma lines_loaded_ok sid w l w' :
  cursor_fails = false → _load_active_count_lines cursor_fails sid w = (Ok l, w') →
  w' = w ∧ l = shown_lines sid (w_db w "count_lines").
Proof. intros ->. unfold _load_active_count_lines, bind, db_find, gets, ret. intros Hm. by simplify_eq. Qed.

Lemma shown_lines_all sid c :
  (length (filter (fun d => live sid d = true) (contents c)) ≤ MAX_LINES)%nat →
  shown_lines sid c ≡ₚ filter (fun d => live sid d = true ∧ Inventory.is_superseded_count_line d = false) (contents c).
Proof.
  intros Hl. unfold shown_lines. pose proof (find_all_spec (live_rows sid) c) as Hp.
  rewrite take_ge by (by rewrite Hp). rewrite bool_filter, Hp, list_filter_filter. apply Permutation_refl'.
  apply list_filter_iff. intros d. unfold live. rewrite superseded_agrees, negb_true_iff. tauto.
Qed.

(** The phases of a synchronization. *)
Lemma single_ok sid s trigger actor now rebuild scopes w w' :
  cursor_fails = false →
  _sync_single_session cursor_fails sid s trigger actor now rebuild scopes w = (Ok tt, w') →
  let lines := shown_lines sid (w_db w "count_lines") in
  ∃ version a w1 w2,
    _compute_aggregates lines = Ok a ∧
    w1 = set_coll "session_dashboard_projection"
           (snd (upsert_one (QEq "session_id" (VStr sid))
             (USet (session_projection_doc sid trigger s a version (default now (_resolve_source_updated_at s)) now))
             (w_db w "session_dashboard_projection"))) w ∧
    when rebuild (_rebuild_item_projections sid s lines now scopes) w1 = (Ok tt, w2) ∧
    ∀ n, n ≠ "event_log" → w_db w' n = w_db w2 n.
Proof.
  intros Hc Hm. cbv zeta. unfold _sync_single_session in Hm. cbv zeta in Hm.
  apply bind_ok_inv in Hm as (version & w0 & Hv & Hm). unfold lift in Hv. injection Hv as _ <-.
  apply bind_ok_inv in Hm as (lines & w0 & Hl & Hm). apply lines_loaded_ok in Hl as [-> ->]; [|done].
  apply bind_ok_inv in Hm as (a & w0 & Ha & Hm). unfold lift in Ha. injection Ha as Ha <-.
  apply bind_ok_inv in Hm as (n & w1 & Hu & Hm). apply counted_ok in Hu as [_ ->].
  apply bind_ok_inv in Hm as ([] & w2 & Hr & Hm).
  apply bind_ok_inv in Hm as (d & w3 & Hi & Hm). unfold ret in Hm. simplify_eq.
  apply insert_one_ok in Hi as (i & c & _ & _ & ->).
  eexists version, a, _, w2. split; [exact Ha|]. split; [reflexivity|]. split; [exact Hr|].
  intros k Hk. by apply set_coll_other.
Qed.

Lemma filter_parts (f : doc → bool) (l rows rest : list doc) :
  l ≡ₚ rows ++ filter (fun d => f d = false) rest → (∀ d, d ∈ rows → f d = true) →
  filter (fun d => f d = true) l ≡ₚ rows ∧ filter (fun d => f d = false) l ≡ₚ filter (fun d => f d = false) rest.
Proof.
  intros Hl Hr.
  assert (filter (fun d => f d = true) rows = rows ∧ filter (fun d => f d = false) rows = []) as [H1 H2].
  { clear Hl. induction rows as [|d rows IH]; [done|]. destruct IH as [IH1 IH2]; [intros; apply Hr; by right|].
    rewrite !filter_cons, (Hr d) by left. rewrite decide_True, decide_False by done. by rewrite IH1. }
  assert (filter (fun d => f d = true) (filter (fun d => f d = false) rest) = [] ∧
          filter (fun d => f d = false) (filter (fun d => f d = false) rest) = filter (fun d => f d = false) rest) as [H3 H4].
  { clear Hl Hr H1 H2. induction rest as [|d rest [IH1 IH2]]; [done|]. rewrite !filter_cons.
    destruct (f d) eqn:E; [by rewrite decide_False by done|]. rewrite decide_True by done.
    rewrite !filter_cons, E, decide_False, decide_True by done. by rewrite IH1, IH2. }
  rewrite Hl, !list.filter_app, H1, H2, H3, H4. by rewrite app_nil_r.
Qed.

Lemma rows_live {P : doc → doc → Prop} sid lines rows :
  (∀ line row, P line row → live sid row = true) → Forall2 P lines rows → ∀ d, d ∈ rows → live sid d = true.
Proof.
  intros HP. induction 1 as [|line row lines rows Hr _ IH]; intros d Hd; [by apply not_elem_of_nil in Hd|].
  apply elem_of_cons in Hd as [->|Hd]; [by eapply HP | by apply IH].
Qed.

(** C11: the read models are views of the count lines. After a successful
    synchronization of a session (with at most [MAX_LINES] lines, read without a
    failure) the rows the two item collections show for it are, up to order, one
    for each of its lines that is neither archived nor superseded, computed from
    that line; the rows of other sessions and the archived ones are those they
    had, and the count lines and sessions are not touched. *)
Theorem read_model_is_view fuel sid s trigger actor skip w w' :
  cursor_fails = false → strip sid = sid → sid ≠ "" →
  find_one (session_lookup sid) (w_db w "sessions") = Some s →
  (length (filter (fun d => live sid d = true) (contents (w_db w "count_lines"))) ≤ MAX_LINES)%nat →
  sync fuel [sid] trigger actor true None skip w = (Ok tt, w') →
  ∃ now lines rows vrows,
    lines ≡ₚ filter (fun d => live sid d = true ∧ Inventory.is_superseded_count_line d = false)
               (contents (w_db w "count_lines")) ∧
    Forall2 (row_of sid s now) lines rows ∧ Forall2 (variance_row_of sid s now) lines vrows ∧
    (let before n := contents (w_db w n) in let after n := contents (w_db w' n) in
     filter (fun d => live sid d = true) (after "verified_items_projection") ≡ₚ rows ∧
     filter (fun d => live sid d = false) (after "verified_items_projection")
       ≡ₚ filter (fun d => live sid d = false) (before "verified_items_projection") ∧
     filter (fun d => live sid d = true) (after "variance_summary_projection") ≡ₚ vrows ∧
     filter (fun d => live sid d = false) (after "variance_summary_projection")
       ≡ₚ filter (fun d => live sid d = false) (before "variance_summary_projection")) ∧
    w_db w' "count_lines" = w_db w "count_lines" ∧ w_db w' "sessions" = w_db w "sessions".
Proof.
  intros Hc Hstrip Hne Hs Hlen Hm.
  destruct (sync_one _ _ _ _ _ _ _ _ _ _ Hstrip Hne Hs Hm) as (now & w1 & w2 & H1 & H2 & Hsync).
  apply single_ok in Hsync as (version & a & w3 & w4 & _ & -> & Hr & H4); [|done]. cbn [when] in Hr.
  rewrite H1 in Hr by done.
  apply rebuild_ok in Hr as (rows & vrows & Hf & Hv & Hrows & Hvrows & Hother).
  exists now, (shown_lines sid (w_db w "count_lines")), rows, vrows.
  split; [by apply shown_lines_all|]. split; [done|]. split; [done|]. split.
  - cbv zeta beta. rewrite !H2, !H4 by done. rewrite !set_coll_other, !H1 in Hrows by done.
    rewrite !set_coll_other, !H1 in Hvrows by done.
    destruct (filter_parts (live sid) _ _ _ Hrows) as [Ha Hb]; [exact (rows_live sid _ _ (row_live sid s now) Hf)|].
    destruct (filter_parts (live sid) _ _ _ Hvrows) as [Hc1 Hd]; [exact (rows_live sid _ _ (variance_row_live sid s now) Hv)|].
    exact (conj Ha (conj Hb (conj Hc1 Hd))).
  - rewrite !H2, !H4, !Hother, !set_coll_other, !H1 by done. done.
Qed.

(** ** The dashboard counts the same lines *)

Lemma sum_lines_ok lines a a' :
  sum_lines a lines = Ok a' →
  total_items a' = total_items a + Z.of_nat (length lines) ∧
  verified_items a' = verified_items a + Z.of_nat (length (List.filter Inventory.is_count_line_effectively_reviewed lines)).
Proof.
  revert a. induction lines as [|line lines IH]; intros a; cbn [sum_lines].
  - intros [= <-]. cbn. lia.
  - unfold add_line. destruct (_as_float (get "variance" line)) as [v|]; [|done]. cbn [obind].
    destruct (obind (_as_float (get "damaged_qty" line)) _) as [d|]; [|done]. cbn [obind].
    intros Ha%IH. cbn [total_items verified_items length List.filter] in *. rewrite reviewed_agrees in Ha.
    destruct (Inventory.is_count_line_effectively_reviewed line); cbn [length]; lia.
Qed.

(** The dashboard of a session counts its lines. After a successful
    synchronization there is a row of the session whose total is the number of
    lines shown, whose verified items are those the inventory rules call
    reviewed, and whose pending items are the rest, with the status the session
    has. *)
Theorem dashboard_counts fuel sid s trigger actor rebuild scopes skip w w' :
  cursor_fails = false → strip sid = sid → sid ≠ "" →
  find_one (session_lookup sid) (w_db w "sessions") = Some s →
  sync fuel [sid] trigger actor rebuild scopes skip w = (Ok tt, w') →
  let lines := shown_lines sid (w_db w "count_lines") in
  let verified := Z.of_nat (length (List.filter Inventory.is_count_line_effectively_reviewed lines)) in
  ∃ row, row ∈ contents (w_db w' "session_dashboard_projection") ∧
    get "session_id" row = VStr sid ∧ get "status" row = to_bson (get "status" s) ∧
    get "total_items" row = VInt (Z.of_nat (length lines)) ∧ get "verified_items" row = VInt verified ∧
    get "pending_items" row = VInt (Z.of_nat (length lines) - verified) ∧ 0 <= verified <= Z.of_nat (length lines).
Proof.
  intros Hc Hstrip Hne Hs Hm. cbv zeta.
  destruct (sync_one _ _ _ _ _ _ _ _ _ _ Hstrip Hne Hs Hm) as (now & w1 & w2 & H1 & H2 & Hsync).
  apply single_ok in Hsync as (version & a & w3 & w4 & Ha & -> & Hr & H4); [|done]. rewrite H1 in Ha, Hr by done.
  set (lines := shown_lines sid _) in *. set (u := USet _) in Hr.
  assert (w_db w4 "session_dashboard_projection" = snd (upsert_one (QEq "session_id" (VStr sid)) u
    (w_db w1 "session_dashboard_projection"))) as Hdash.
  { destruct rebuild; cbn [when] in Hr; [|unfold ret in Hr; simplify_eq; apply set_coll_same].
    assert (frame ["verified_items_projection"; "variance_summary_projection"; "financial_projection"]
      (_rebuild_item_projections (C:=C) sid s lines now scopes)) as Hf.
    { clear. unfold _rebuild_item_projections, db_delete_many.
      assert (∀ n l, str_in n ["verified_items_projection"; "variance_summary_projection"; "financial_projection"] = true →
        frame ["verified_items_projection"; "variance_summary_projection"; "financial_projection"] (insert_many (C:=C) n l)).
      { intros n l Hn. induction l; cbn [insert_many]; [apply frame_ret|]. apply frame_bind; [by apply frame_insert|done]. }
      solve_frame; auto. }
    etransitivity; [by eapply (frame_db _ _ _ _ _ _ Hf Hr)|apply set_coll_same]. }
  apply sum_lines_ok in Ha as [Ht Hv]. cbn [total_items verified_items] in Ht, Hv. rewrite Z.add_0_l in Ht, Hv.
  assert (length (List.filter Inventory.is_count_line_effectively_reviewed lines) ≤ length lines)%nat as Hle
    by apply List.filter_length_le.
  assert (∃ row, row ∈ contents (w_db w' "session_dashboard_projection") ∧
    ∀ k v, aget k (u_set u) = Some v → aget k row = Some (to_bson v)) as (row & Hrow & Hset).
  { assert (NoDup (update_keys u)) as Hnd by (apply (bool_decide_unpack _); vm_compute; exact I).
    rewrite H2, H4, Hdash by done.
    destruct (find_one (QEq "session_id" (VStr sid)) (w_db w1 "session_dashboard_projection")) as [d|] eqn:E.
    - apply find_one_some in E as [Hd Hmd]. rewrite upsert_one_some by (by exists d).
      destruct (update_one_some (QEq "session_id" (VStr sid)) u (w_db w1 "session_dashboard_projection"))
        as (x & rest & _ & _ & Hx & _); [by exists d|].
      exists (apply_update u x). split; [rewrite Hx; left|]. intros. by apply apply_set.
    - destruct (upsert_one_none (QEq "session_id" (VStr sid)) u (w_db w1 "session_dashboard_projection")) as (d & Hd & _);
        [by repeat constructor; apply not_elem_of_nil|by repeat constructor|done|by apply find_one_none|].
      exists (apply_update u d). split; [rewrite Hd; left|]. intros. by apply apply_set. }
  assert (∀ k z, aget k (u_set u) = Some (VInt z) → get k row = VInt z) as Hint.
  { intros k z Hk. apply get_some. rewrite (Hset _ _ Hk). f_equal. by apply to_bson_plain. }
  exists row. split; [done|]. split.
  { apply get_some. rewrite (Hset "session_id" (VStr sid)) by reflexivity. f_equal. by apply to_bson_plain. }
  split; [apply get_some; by apply Hset|]. split_and!; try lia.
  - rewrite <- Ht. by apply Hint.
  - rewrite <- Hv. by apply Hint.
  - rewrite <- Ht, <- Hv. apply Hint. cbn. f_equal. f_equal. lia.
Qed.
End view.

(** ** The wait for the lock ends *)

Section wait.
Context {C : Type} `{Mongo C}.
Context (clock : nat → Z) (cfg : writer).
Implicit Types (w : world C).

Abbreviation attempt := (try_session_lock (C:=C) clock cfg).
Abbreviation wait := (wait_for_lock (C:=C) clock cfg).

(** The clock is read further. *)
Definition reads_on {A} (m : M (world C) A) : Prop := ∀ w r w', m w = (r, w') → (w_tick w ≤ w_tick w')%nat.

Lemma reads_ret {A} (a : A) : reads_on (ret a).
Proof. intros w r w' Hm. unfold ret in Hm. by simplify_eq. Qed.
Lemma reads_raise {A} e : reads_on (@raise (world C) A e).
Proof. intros w r w' Hm. unfold raise in Hm. by simplify_eq. Qed.
Lemma reads_lift {A} (o : outcome A) : reads_on (@lift (world C) A o).
Proof. intros w r w' Hm. unfold lift in Hm. by simplify_eq. Qed.
Lemma reads_gets {A} (f : world C → A) : reads_on (gets f).
Proof. intros w r w' Hm. unfold gets in Hm. by simplify_eq. Qed.
Lemma reads_now : reads_on (@utc_now C clock).
Proof. intros w r w' Hm. unfold utc_now in Hm. simplify_eq. cbn. lia. Qed.
Lemma reads_bind {A B} (m : M (world C) A) (f : A → M (world C) B) :
  reads_on m → (∀ a, reads_on (f a)) → reads_on (bind m f).
Proof.
  intros Hm Hf w r w' Hb. unfold bind in Hb. destruct (m w) as [[a|e] w1] eqn:E; apply Hm in E.
  - apply Hf in Hb. lia.
  - by simplify_eq.
Qed.
Lemma reads_try {A} (m : M (world C) A) h : reads_on m → (∀ e, reads_on (h e)) → reads_on (try_except m h).
Proof.
  intros Hm Hh w r w' Ht. unfold try_except in Ht. destruct (m w) as [[a|e] w1] eqn:E; apply Hm in E.
  - by simplify_eq.
  - apply Hh in Ht. lia.
Qed.
Lemma reads_guard name meth : reads_on (_guard (C:=C) name meth).
Proof. intros w r w' ->%guard_world. done. Qed.
Lemma reads_counted name (f : C → Z * C) : reads_on (counted name f).
Proof. intros w r w' Hm. unfold counted in Hm. destruct (f _). by simplify_eq. Qed.
Lemma reads_insert name d : reads_on (db_insert_one (C:=C) name d).
Proof.
  apply reads_bind; [apply reads_guard|]. intros _ w r w' Hm. destruct (insert_one d _) as [[i c]|]; by simplify_eq.
Qed.

Lemma reads_acquire key owner ttl : reads_on (acquire_lock (C:=C) clock key owner ttl).
Proof.
  unfold acquire_lock, held_lock, db_delete_one, db_find_one, when.
  repeat first [ apply reads_ret | apply reads_raise | apply reads_lift | apply reads_gets | apply reads_now
               | apply reads_guard | apply reads_counted | apply reads_insert
               | apply reads_bind; [|intros ?] | apply reads_try; [|intros ?] | case_match ].
Qed.

(** An attempt that is to be repeated has read the clock before the end of the
    wait, and was one reading further. *)
Lemma attempt_none sid owner started w w' :
  attempt sid owner started w = (Ok None, w') →
  ∃ k, (w_tick w ≤ k < w_tick w')%nat ∧ elapsed_ms started (clock k) < lock_wait_timeout_ms cfg.
Proof.
  intros Hm. unfold try_session_lock, try_except in Hm.
  destruct ((do _ <- _ ;; _) w) as [[a|e] w1] eqn:E.
  - apply bind_ok_inv in E as (b & w2 & _ & E). unfold ret in E. by simplify_eq.
  - assert (w_tick w ≤ w_tick w1)%nat as Ht.
    { eapply (reads_bind _ (fun _ => ret (Some true))); [apply reads_acquire|intros; apply reads_ret|exact E]. }
    destruct e; try done. unfold bind, utc_now in Hm.
    destruct (lock_wait_timeout_ms cfg <=? elapsed_ms started (clock (w_tick w1))) eqn:El; [done|].
    unfold ret in Hm. simplify_eq. exists (w_tick w1). apply Z.leb_gt in El. cbn. lia.
Qed.

(** When time passes, the wait ends: with enough fuel the answer is that of any
    larger fuel. *)
Lemma acquire_terminates sid owner w :
  (∀ started, ∃ n, ∀ m, (n ≤ m)%nat → lock_wait_timeout_ms cfg <= elapsed_ms started (clock m)) →
  ∃ fuel, ∀ more, _acquire_session_lock clock cfg (fuel + more) sid owner w = _acquire_session_lock clock cfg fuel sid owner w.
Proof.
  intros Htime. destruct (Htime (clock (w_tick w))) as [n Hn].
  assert (∀ k u, (n ≤ k + w_tick u)%nat → ∀ more,
    wait (S k + more) sid owner (clock (w_tick w)) u = wait (S k) sid owner (clock (w_tick w)) u) as Hk.
  { induction k as [|k IH]; intros u Hu more; cbn [wait_for_lock Nat.add]; unfold bind;
      destruct (attempt sid owner _ u) as [[[b|]|e] u'] eqn:E; try done;
      destruct (attempt_none _ _ _ _ _ E) as (t & Ht & Hlt).
    - specialize (Hn t ltac:(lia)). lia.
    - apply (IH u'). lia. }
  exists (S n). intros more. unfold _acquire_session_lock, bind, utc_now. apply Hk. cbn. lia.
Qed.
End wait.

(** ** Concrete runs *)

Definition projected_line (i status : string) : doc :=
  [("_id", VOid i); ("id", VStr i); ("session_id", VStr "S1"); ("item_code", VStr "I1"); ("status", VStr status);
   ("counted_qty", VInt 4); ("erp_qty", VInt 5); ("mrp_erp", VInt 2)].
Definition projection_world : world coll :=
  mkworld [("sessions", [[("id", VStr "S1"); ("status", VStr "ACTIVE")]]);
           ("count_lines", [projected_line "a" "approved"; projected_line "b" "superseded"; projected_line "c" "rejected"]);
           ("verified_items_projection", [[("session_id", VStr "S1"); ("id", VStr "gone")];
                                          [("session_id", VStr "S2"); ("id", VStr "other")]])].
Definition example_writer : writer := Writer true 5000 50 90.
Definition example_sync (cursor_fails : bool) (w : world coll) : outcome unit * world coll :=
  sync_for_sessions (fun n => 1000 * Z.of_nat n) example_writer cursor_fails (fun s => "p:" +:+ s) 5 ["S1"] "count.insert" "u"
    true None false w.

Lemma example_syncs : is_ok (fst (example_sync false projection_world)) = true.
Proof. vm_compute. reflexivity. Qed.

Lemma example_few_lines :
  (length (filter (fun d => live "S1" d = true) (contents (w_db projection_world "count_lines"))) ≤ MAX_LINES)%nat.
Proof.
  unfold MAX_LINES. transitivity 3%nat; [vm_compute; lia|]. apply Nat2Z.inj_le. rewrite Z2Nat.id; lia.
Qed.

Lemma example_shown :
  length (filter (fun d => live "S1" d = true ∧ Inventory.is_superseded_count_line d = false)
    (contents (w_db projection_world "count_lines"))) = 2%nat.
Proof. vm_compute. reflexivity. Qed.

Lemma example_session_found :
  find_one (session_lookup "S1") (w_db projection_world "sessions") = Some [("id", VStr "S1"); ("status", VStr "ACTIVE")].
Proof. vm_compute. reflexivity. Qed.

Lemma example_counts :
  (length (shown_lines "S1" (w_db projection_world "count_lines")),
   length (List.filter Inventory.is_count_line_effectively_reviewed (shown_lines "S1" (w_db projection_world "count_lines"))))
    = (2%nat, 1%nat).
Proof. vm_compute. reflexivity. Qed.

(** The world of the witnesses, known only by the facts above. *)
Ltac abstract_world w :=
  let Hw := fresh in assert (∃ w, w = projection_world) as [w Hw] by (exists projection_world; reflexivity);
  rewrite <- Hw in *; clear Hw.

Example read_model_is_view_witness :
  ∃ rows, length rows = 2%nat ∧
    filter (fun d => live "S1" d = true) (contents (w_db (snd (example_sync false projection_world)) "verified_items_projection"))
      ≡ₚ rows.
Proof.
  pose proof example_syncs as Hok. pose proof example_few_lines as Hfew. pose proof example_shown as Hshown.
  pose proof example_session_found as Hs. abstract_world w.
  destruct (example_sync false w) as [[[]|] w'] eqn:E; [|discriminate Hok]. unfold example_sync in E.
  destruct (read_model_is_view (fun n => 1000 * Z.of_nat n) example_writer false (fun s => "p:" +:+ s) 5 "S1"
    [("id", VStr "S1"); ("status", VStr "ACTIVE")] "count.insert" "u" false w w')
    as (now & lines & rows & vrows & Hl & Hf & _ & (Hr & _) & _); [done|done|done|exact Hs|exact Hfew|exact E|].
  exists rows. split; [|exact Hr]. apply Forall2_length in Hf. by rewrite <- Hf, Hl.
Defined.

Example dashboard_counts_witness :
  ∃ row, row ∈ contents (w_db (snd (example_sync false projection_world)) "session_dashboard_projection") ∧
    get "total_items" row = VInt 2 ∧ get "verified_items" row = VInt 1 ∧ get "pending_items" row = VInt 1.
Proof.
  pose proof example_syncs as Hok. pose proof example_counts as Hcounts. pose proof example_session_found as Hs.
  abstract_world w. injection Hcounts as Hn Hr.
  destruct (example_sync false w) as [[[]|] w'] eqn:E; [|discriminate Hok]. unfold example_sync in E.
  destruct (dashboard_counts (fun n => 1000 * Z.of_nat n) example_writer false (fun s => "p:" +:+ s) 5 "S1"
    [("id", VStr "S1"); ("status", VStr "ACTIVE")] "count.insert" "u" true None false w w')
    as (row & Hrow & _ & _ & Ht & Hv & Hp & _); [done|done|done|exact Hs|exact E|].
  exists row. split; [exact Hrow|]. rewrite Ht, Hv, Hp, Hn, Hr. done.
Defined.

(** A failure to read the lines is taken for a session without lines: its rows
    are deleted. *)
Lemma failed_read_empties_read_model :
  let '(r, w') := example_sync true projection_world in
  (is_ok r, map (get "id") (w_db w' "verified_items_projection"),
   map (get "total_items") (w_db w' "session_dashboard_projection"))
    = (true, [VStr "other"], [VInt 0]).
Proof. vm_compute. reflexivity. Qed.
