(* ===== verification/CountLineSpec.v ===== *)
(** What the count-line write service guarantees ([CountLines]): which lines an
    insert stores and under which checks, the governance decision, the totals
    of the session after a write, and atomicity. *)

From S2P Require Import Prelude PyFloat Py Json Store ListStore Guard Inventory Uow Frame Lifecycle LifecycleSpec.
From S2P Require Import Quantity Variance CountLines.

Local Open Scope Z_scope.
Local Open Scope stock_scope.

(** ** Frames *)

Section frames.
Context {C : Type} `{Mongo C}.
Context (clock : nat → Z) (strict_mode write_logs : bool) (object_id : string → option string).
Context (sha256 : string → string) (client_count_lines : client_attribute).

Lemma frame_lookup_text P n f o : frame P (lookup_text (C:=C) n f o).
Proof. unfold lookup_text. solve_frame. Qed.

Lemma frame_serial_conflict P s c l : frame P (find_serial_conflict (C:=C) s c l).
Proof. unfold find_serial_conflict. solve_frame. Qed.

Lemma frame_serials P c l line : frame P (assert_item_serial_uniqueness (C:=C) c l line).
Proof.
  induction l; cbn [assert_item_serial_uniqueness]; [solve_frame|].
  apply frame_bind; [apply frame_serial_conflict|]. intros ?. solve_frame.
Qed.

Lemma frame_rules P d i : frame P (enforce_count_line_business_rules (C:=C) d i).
Proof.
  unfold enforce_count_line_business_rules, resolve_item_master.
  pose proof frame_lookup_text. pose proof frame_serials. solve_frame.
Qed.

Lemma frame_validate_line P d b :
  str_in "validation_logs" P = true →
  frame P (validate_count_line (C:=C) clock strict_mode write_logs d b).
Proof.
  intros Hin. unfold validate_count_line. apply frame_bind.
  - intros w r w' Hm. destruct (enforce_count_line_business_rules d None w) as [o w1] eqn:E.
    pose proof (frame_rules P d None _ _ _ E). by destruct o as [?|[]]; simplify_eq.
  - intros [errors d']. unfold _handle_errors, log_violation. solve_frame.
Qed.

Lemma frame_validate_lines P l :
  str_in "validation_logs" P = true → frame P (validate_lines (C:=C) clock strict_mode write_logs l).
Proof.
  intros Hin. induction l as [|d l IH]; cbn [validate_lines]; [solve_frame|].
  apply frame_bind; [by apply frame_validate_line|]. by intros _.
Qed.

#[local] Hint Resolve frame_validate_line frame_validate_lines : frame.

Lemma frame_post_validation P p ctx :
  str_in "validation_logs" P = true →
  frame P (_run_post_write_validation (C:=C) clock strict_mode write_logs p ctx).
Proof. intros Hin. unfold _run_post_write_validation. solve_frame. Qed.

Lemma frame_ids P p ctx : frame P (_collect_session_ids_for_write (C:=C) p ctx).
Proof. unfold _collect_session_ids_for_write. solve_frame. Qed.

Lemma frame_versions P e l : frame P (session_versions (C:=C) e l).
Proof.
  induction l as [|s l IH]; cbn [session_versions]; [solve_frame|].
  apply frame_bind; [unfold _load_session_for_write; solve_frame|]. intros d.
  apply frame_bind; [solve_frame|]. intros v. apply frame_bind; [solve_frame|]. intros _.
  apply frame_bind; [done|]. solve_frame.
Qed.

Lemma frame_capture P l ctx : frame P (_capture_session_versions (C:=C) l ctx).
Proof. unfold _capture_session_versions. pose proof frame_versions. solve_frame. Qed.

Lemma frame_aggregate P s : frame P (CountLines._compute_session_totals (C:=C) clock s).
Proof. unfold CountLines._compute_session_totals. solve_frame. Qed.

Lemma frame_totals_update P s t v a b :
  str_in "sessions" P = true → str_in "governance_events" P = true →
  frame P (update_session_totals (C:=C) clock s t v a b).
Proof. intros H1 H2. unfold update_session_totals, _sync_session_projection. solve_frame. Qed.

Lemma frame_update_totals P l ctx e :
  str_in "sessions" P = true → str_in "governance_events" P = true →
  frame P (_update_session_totals_for_sessions (C:=C) clock l ctx e).
Proof.
  intros H1 H2. induction l as [|s l IH]; cbn [_update_session_totals_for_sessions]; [solve_frame|].
  apply frame_bind; [apply frame_aggregate|]. intros t.
  apply frame_bind; [by apply frame_totals_update|]. by intros _.
Qed.

Lemma frame_audit P l op d v a :
  str_in "governance_events" P = true → frame P (audit_sessions (C:=C) clock l op d v a).
Proof.
  intros Hin. induction l as [|s l IH]; cbn [audit_sessions]; [solve_frame|].
  apply frame_bind; [by apply frame_log_keys|]. by intros _.
Qed.

#[local] Hint Resolve frame_post_validation frame_update_totals frame_audit : frame.

(** What a write changes after the line itself. *)
Definition after_collections : list string := ["validation_logs"; "sessions"; "governance_events"].

Lemma frame_after p ctx l e :
  frame after_collections (after_write (C:=C) clock strict_mode write_logs p ctx l e).
Proof. unfold after_write, _log_count_line_audit. solve_frame. Qed.

Lemma frame_candidates P l ctx m : frame P (check_candidates (C:=C) l ctx m).
Proof. induction l as [|[] l IH]; cbn [check_candidates]; solve_frame; done. Qed.

Lemma frame_chain P d : frame P (check_version_chain (C:=C) object_id d).
Proof. unfold check_version_chain. solve_frame. Qed.

Lemma frame_insert_invariants P d ctx m : frame P (insert_invariants (C:=C) object_id sha256 d ctx m).
Proof. unfold insert_invariants. pose proof frame_chain. solve_frame. Qed.

Lemma frame_rehash P e m p : frame P (rehash (C:=C) sha256 e m p).
Proof. unfold rehash. solve_frame. Qed.

Lemma frame_single P p ctx m : frame P (single_invariants (C:=C) sha256 p ctx m).
Proof. unfold single_invariants. pose proof frame_rehash. solve_frame. Qed.

Lemma frame_bulk P p ctx m : frame P (bulk_invariants (C:=C) p ctx m).
Proof. unfold bulk_invariants. pose proof frame_candidates. solve_frame. Qed.

#[local] Hint Resolve frame_insert_invariants frame_single frame_bulk : frame.

Lemma frame_invariants P p ctx : frame P (_assert_mandatory_write_invariants (C:=C) object_id sha256 p ctx).
Proof. unfold _assert_mandatory_write_invariants. solve_frame. Qed.

Lemma frame_transition_write P p ctx : frame P (_apply_state_transition_for_write (C:=C) clock p ctx).
Proof. unfold _apply_state_transition_for_write. solve_frame. Qed.

Lemma frame_find_config P q : frame P (find_config (C:=C) q).
Proof. unfold find_config. solve_frame. Qed.

Lemma frame_or_find P f b q : frame P (or_find (C:=C) f b q).
Proof. unfold or_find. pose proof frame_find_config. solve_frame. Qed.

Lemma frame_thresholds P v c l :
  str_in configs P = true → frame P (check_thresholds (C:=C) clock v c l).
Proof.
  intros Hin. unfold check_thresholds, _get_applicable_config, _get_default_config.
  pose proof frame_or_find. pose proof frame_find_config. solve_frame.
Qed.

Lemma frame_policy P c e i l vr cr b :
  str_in configs P = true → frame P (evaluate_policy (C:=C) clock c e i l vr cr b).
Proof. intros Hin. unfold evaluate_policy. pose proof frame_thresholds. solve_frame. Qed.

Lemma frame_resolve_item P d ctx c : frame P (resolve_erp_item (C:=C) d ctx c).
Proof. unfold resolve_erp_item. solve_frame. Qed.

Lemma frame_session_document P d ctx : frame P (_resolve_session_document (C:=C) d ctx).
Proof. unfold _resolve_session_document. solve_frame. Qed.
End frames.

(** ** Frames of the service's own steps *)

Section service_frames.
Context {C : Type} `{Mongo C}.
Abbreviation W := (write_service * world C)%type.
Implicit Types (x : W) (P : list string).

(** [m] changes at most the collections of [P], those of [outside_session] alone
    without the session of the transaction. *)
Definition service_frame {A} P (m : M W A) : Prop :=
  ∀ x r x', m x = (r, x') →
    (∀ n, n ∉ P → w_db (snd x') n = w_db (snd x) n) ∧ unsessioned_in (unsessioned_of P) (snd x) (snd x').

Lemma sframe_db {A} P (m : M W A) x r x' n :
  service_frame P m → m x = (r, x') → str_in n P = false → w_db (snd x') n = w_db (snd x) n.
Proof. intros Hf Hm Hn%str_in_false. by apply (Hf _ _ _ Hm). Qed.

Lemma sframe_world {A} P (m : M (world C) A) : frame P m → service_frame P (on_world m).
Proof.
  intros Hm [s w] r [s' w'] Hr. unfold on_world in Hr. cbn [snd fst] in *.
  destruct (m w) as [o w1] eqn:E. simplify_eq. destruct (Hm _ _ _ E) as (Hd & Hu & _). done.
Qed.

(** Nothing written. *)
Lemma sframe_same {A} P (m : M W A) : (∀ x, snd (snd (m x)) = snd x) → service_frame P m.
Proof.
  intros Hs x r x' Hm. specialize (Hs x). rewrite Hm in Hs. cbn [snd] in Hs. rewrite Hs.
  split; [done | by apply unsessioned_same].
Qed.

Lemma sframe_ret {A} P (a : A) : service_frame P (ret a).
Proof. by apply sframe_same. Qed.
Lemma sframe_raise {A} P e : service_frame P (@raise W A e).
Proof. by apply sframe_same. Qed.
Lemma sframe_lift {A} P (o : outcome A) : service_frame P (lift o).
Proof. by apply sframe_same. Qed.
Lemma sframe_gets {A} P (f : W → A) : service_frame P (gets f).
Proof. by apply sframe_same. Qed.
Lemma sframe_raise_if P b e : service_frame P (@raise_if W b e).
Proof. destruct b; [apply sframe_raise | apply sframe_ret]. Qed.
Lemma sframe_cache P s i : service_frame P (set_snapshot_cache s i).
Proof. by apply sframe_same. Qed.
Lemma sframe_index P s i : service_frame P (set_item_index s i).
Proof. by apply sframe_same. Qed.

Lemma sframe_bind {A B} P (m : M W A) (f : A → M W B) :
  service_frame P m → (∀ a, service_frame P (f a)) → service_frame P (bind m f).
Proof.
  intros Hm Hf x r x' Hb. unfold bind in Hb. destruct (m x) as [[a|e] x1] eqn:E.
  - destruct (Hf a _ _ _ Hb) as [Hd2 Hu2], (Hm _ _ _ E) as [Hd1 Hu1].
    split; [intros n Hn; by rewrite Hd2, Hd1 | by eapply unsessioned_trans].
  - simplify_eq. by apply (Hm _ _ _ E).
Qed.

Lemma sframe_weaken {A} P Q (m : M W A) : service_frame P m → P ⊆ Q → service_frame Q m.
Proof.
  intros Hm HPQ x r x' Hx. destruct (Hm _ _ _ Hx) as [Hd Hu]. split; [intros n Hn; apply Hd; intros Hin; by apply Hn, HPQ|].
  eapply unsessioned_weaken; [|exact Hu]. intros n [Hn ?]. split; [by apply HPQ | done].
Qed.

(** The end of a unit of work, committed or not. *)
Lemma sframe_aexit P u x (s : write_service) (w : world C) :
  (∀ n, n ∉ P → w_db w n = w_db (snd x) n) ∧ unsessioned_in (unsessioned_of P) (snd x) w →
  (∀ n, n ∉ P → w_db (snd (s, __aexit__ u (snd x) w)) n = w_db (snd x) n)
  ∧ unsessioned_in (unsessioned_of P) (snd x) (snd (s, __aexit__ u (snd x) w)).
Proof.
  intros [Hd Hu]. cbn [snd]. unfold __aexit__. case_match; [|done]. split; [|done].
  intros n Hn. eapply rollback_restores; [exact Hu|]. by intros [? _].
Qed.

Lemma sframe_uncommitted {A} cl P (body : bool → M W A) :
  (∀ b, service_frame P (body b)) → service_frame P (in_uow_uncommitted cl body).
Proof.
  intros Hb x r x' Hx. unfold in_uow_uncommitted in Hx.
  destruct (__aenter__ cl) as [u|e]; [|by apply (sframe_raise P e x r x')].
  destruct (body (u_session u) x) as [o [s w]] eqn:E. simplify_eq. by apply sframe_aexit, (Hb _ _ _ _ E).
Qed.

Lemma sframe_uow {A} cl P (body : bool → M W A) :
  (∀ b, service_frame P (body b)) → service_frame P (in_uow cl body).
Proof.
  intros Hb x r x' Hx. unfold in_uow in Hx.
  destruct (__aenter__ cl) as [u|e]; [|by apply (sframe_raise P e x r x')].
  destruct (body (u_session u) x) as [o [s w]] eqn:E. pose proof (Hb _ _ _ _ E).
  destruct o; simplify_eq; by apply sframe_aexit.
Qed.

(** Where there are transactions, nothing stays of a unit of work that fails, or
    that nothing commits, but what was written without its session. *)
Lemma uncommitted_undone {A} cl P (body : bool → M W A) x r x' n :
  transactional cl → (∀ b, service_frame P (body b)) → in_uow_uncommitted cl body x = (r, x') →
  str_in n outside_session = false → w_db (snd x') n = w_db (snd x) n.
Proof.
  unfold transactional, in_uow_uncommitted. intros -> Hb Hm Hn. cbn [u_session] in Hm.
  destruct (body true x) as [o [s1 w1]] eqn:E. simplify_eq. destruct (Hb _ _ _ _ E) as [_ Hu]. cbn [snd] in *.
  eapply rollback_restores; [exact Hu|]. intros [_ ?]. congruence.
Qed.

Lemma failed_undone {A} cl P (body : bool → M W A) x e x' n :
  transactional cl → (∀ b, service_frame P (body b)) → in_uow cl body x = (Raise e, x') →
  str_in n outside_session = false → w_db (snd x') n = w_db (snd x) n.
Proof.
  intros Hcl Hb Hm. apply (uncommitted_undone cl P body _ (Raise e)); [done..|]. revert Hm.
  unfold transactional in Hcl. unfold in_uow, in_uow_uncommitted. rewrite Hcl.
  by destruct (body _ x) as [[a|e'] [s1 w1]].
Qed.
End service_frames.

Ltac sframe_step :=
  cbv zeta;
  first
    [ apply sframe_ret | apply sframe_raise | apply sframe_lift | apply sframe_gets | apply sframe_raise_if
    | apply sframe_cache | apply sframe_index
    | lazymatch goal with
      | |- service_frame _ (bind _ _) => apply sframe_bind; [|intros ?]
      | |- service_frame _ (on_world _) => apply sframe_world; solve [solve_frame | auto with nocore]
      | |- service_frame _ (when _ _) => unfold when
      | |- service_frame _ (match _ with _ => _ end) => case_match
      end ].
Ltac solve_sframe := repeat sframe_step.

Section before.
Context {C : Type} `{Mongo C}.
Context (clock : nat → Z) (object_id : string → option string) (sha256 : string → string).
Implicit Types (w : world C).

Lemma sframe_baseline P s i b : service_frame P (resolve_baseline (C:=C) s i b).
Proof. unfold resolve_baseline, session_snapshot. solve_sframe. Qed.

Lemma sframe_evaluate P d ctx b :
  str_in configs P = true → service_frame P (_evaluate_governance_for_document (C:=C) clock d ctx b).
Proof.
  intros Hin. unfold _evaluate_governance_for_document.
  pose proof (sframe_baseline P). pose proof (frame_resolve_item (C:=C) P).
  pose proof (fun c e i l vr cr b => frame_policy (C:=C) clock P c e i l vr cr b Hin).
  pose proof (frame_session_document (C:=C) P). solve_sframe; auto.
Qed.

Lemma sframe_enforce P p ctx b :
  str_in configs P = true → service_frame P (_enforce_variance_for_write (C:=C) clock p ctx b).
Proof.
  intros Hin. unfold _enforce_variance_for_write.
  pose proof (fun d ctx b => sframe_evaluate P d ctx b Hin). solve_sframe; auto.
Qed.

(** The checks before a write change at most the threshold configurations. *)
Lemma sframe_before p ctx b : service_frame [configs] (before_write (C:=C) clock object_id sha256 p ctx b).
Proof.
  unfold before_write, _assert_snapshot_integrity_for_write.
  pose proof (fun p ctx b => sframe_enforce [configs] p ctx b eq_refl).
  pose proof (frame_ids (C:=C) [configs]). pose proof (frame_invariants (C:=C) object_id sha256 [configs]).
  pose proof (frame_transition_write (C:=C) clock [configs]). solve_sframe; auto.
Qed.
End before.

(** ** The authoritative fields *)

Ltac get_field :=
  repeat first
    [ rewrite get_aset_eq
    | rewrite get_aset_ne by reflexivity
    | rewrite get_aupd_notin by reflexivity
    | rewrite aget_aset_diff by reflexivity
    | rewrite aget_aupd_notin by reflexivity ].

(** A successful [obind] chain, step by step. *)
Ltac obind_inv H :=
  repeat match type of H with
  | obind ?o _ = Ok _ => let E := fresh "E" in destruct o eqn:E; cbn [obind] in H; [|discriminate H]
  end.

(** The fields that identify a line and its count. *)
Definition identity_fields : list string :=
  ["session_id"; "item_code"; "location_id"; "floor_id"; "rack_id"; "counted_qty"; "erp_qty"; "semantic_hash";
   "idempotency_key"; "version"; "previous_version_id"; "remark"; "_id"; "id"; "floor_no"; "rack_no";
   "counted_by"; "recount_of_id"].

Lemma identity_cases k (P : string → Prop) :
  str_in k identity_fields = true →
  P "session_id" → P "item_code" → P "location_id" → P "floor_id" → P "rack_id" → P "counted_qty" → P "erp_qty" →
  P "semantic_hash" → P "idempotency_key" → P "version" → P "previous_version_id" → P "remark" → P "_id" → P "id" →
  P "floor_no" → P "rack_no" → P "counted_by" → P "recount_of_id" → P k.
Proof.
  intros Hk. unfold identity_fields, str_in in Hk. cbn [existsb] in Hk. intros.
  repeat (apply orb_true_iff in Hk as [Hk|Hk]; [apply String.eqb_eq in Hk; subst; assumption|]). discriminate Hk.
Qed.

Ltac each_identity Hk :=
  match type of Hk with str_in ?k _ = _ => pattern k; apply (identity_cases k _ Hk); get_field; reflexivity end.

Lemma risk_flags_keep document erp v session c e m1 m2 flags document' k :
  _collect_risk_flags document erp v session c e m1 m2 = Ok (flags, document') →
  str_in k identity_fields = true → aget k document' = aget k document.
Proof.
  unfold _collect_risk_flags. intros Hr Hk. obind_inv Hr. injection Hr as _ <-.
  destruct (_ || _); each_identity Hk.
Qed.

Lemma review_reset_keep t k : str_in k identity_fields = true → aget k (_apply_review_reset_fields t) = aget k t.
Proof.
  intros Hk. unfold _apply_review_reset_fields. cbv zeta. destruct (has_key _ _); each_identity Hk.
Qed.

(** The fields of the decision as they are stored. *)
Record decided (g : CountLineGovernanceDecision) (set_status : bool) (line : doc) : Prop := {
  dec_variance : get "variance" line = VFloat (g_variance g);
  dec_approval : get "approval_status" line = VStr (g_approval_status g);
  dec_by : get "approved_by" line = opt_str (g_approved_by g);
  dec_at : get "approved_at" line = opt_time (g_approved_at g);
  dec_required : get "requires_supervisor_approval" line = VBool (g_requires_supervisor_approval g);
  dec_violated : get "violated_thresholds" line = VList (map VDict (g_violated_thresholds g));
  dec_unverified : get "verified" line = VBool false;
  dec_status : set_status = true → get "status" line = VStr (g_status g);
}.

Lemma decision_decided g b t :
  get "verified" t = VBool false →
  decided g b (let t' := aupd t (decision_fields g) in if b then aset "status" (VStr (g_status g)) t' else t').
Proof.
  intros Hv. destruct b; split; cbv zeta; get_field; try done;
    try (rewrite get_aupd_notin by reflexivity; done); by apply get_aupd_in.
Qed.

Lemma authoritative_spec target g item session ctx t' :
  _apply_authoritative_fields target g item session ctx = Ok t' →
  decided g (truthy (dget "set_status_from_governance" (VBool true) ctx)) t' ∧
  ∀ k, str_in k identity_fields = true → aget k t' = aget k target.
Proof.
  unfold _apply_authoritative_fields. cbv zeta. intros Ht. obind_inv Ht.
  match type of Ht with (let '(_, _) := ?p in _) = _ => destruct p as [flags t2] end.
  match goal with Hc : _collect_risk_flags _ _ _ _ _ _ _ _ = Ok _ |- _ => rename Hc into Hflags end.
  apply Ok_inj in Ht as <-. set (b := truthy (dget "set_status_from_governance" _ _)). split.
  - apply decision_decided. unfold _apply_review_reset_fields. cbv zeta.
    destruct (has_key _ _); get_field; by apply get_aupd_in.
  - intros k Hk.
    assert (aget k t2 = aget k target) as <-.
    { rewrite (risk_flags_keep _ _ _ _ _ _ _ _ _ _ k Hflags Hk). destruct (negb _ && _); each_identity Hk. }
    transitivity (aget k (_apply_review_reset_fields (aset "risk_flags" (VList (map VStr flags)) t2))).
    + destruct b; each_identity Hk.
    + rewrite review_reset_keep by done. each_identity Hk.
Qed.

(** ** The decision *)

(** What a decision says of the variance it was taken for. *)
Record decision_ok (counted expected : float) (reason_present required_reason : bool)
    (g : CountLineGovernanceDecision) : Prop := {
  do_variance : g_variance g = fsub counted expected;
  do_required : g_requires_supervisor_approval g = existsb needs_supervisor (g_violated_thresholds g);
  do_approval : g_approval_status g = if g_requires_supervisor_approval g then "NEEDS_REVIEW" else "APPROVED";
  do_status : g_status g = if g_requires_supervisor_approval g then "pending" else "approved";
  do_by : g_approved_by g = if g_requires_supervisor_approval g then None else Some "system";
  do_at : is_Some (g_approved_at g) ↔ g_requires_supervisor_approval g = false;
  do_reason : reason_present = false →
    existsb (fun t => truthy (get "require_reason" t)) (g_violated_thresholds g) = false ∧
    (required_reason = true → fgt0 (fabs (fsub counted expected)) = false);
}.

Section decisions.
Context {C : Type} `{Mongo C}.
Context (clock : nat → Z).
Implicit Types (w : world C).

Lemma check_thresholds_ok v c l b violated w w' :
  check_thresholds clock v c l w = (Ok (b, violated), w') → b = existsb needs_supervisor violated.
Proof.
  unfold check_thresholds. intros Hm.
  apply bind_ok_inv in Hm as (? & ? & _ & Hm). apply bind_ok_inv in Hm as (? & ? & _ & Hm).
  apply bind_ok_inv in Hm as (? & ? & _ & Hm). apply bind_ok_inv in Hm as (? & ? & _ & Hm).
  unfold ret in Hm. congruence.
Qed.

Lemma evaluate_policy_ok counted expected item loc vr cr required g w w' :
  evaluate_policy clock counted expected item loc vr cr required w = (Ok g, w') →
  decision_ok counted expected (given (_normalize_reason vr) || truthy cr) required g.
Proof.
  unfold evaluate_policy. cbv zeta. set (reason := given _ || _). intros Hm.
  apply bind_ok_inv in Hm as (? & w1 & Hreq & Hm). apply raise_if_ok_inv in Hreq as [Hreq ->].
  apply bind_ok_inv in Hm as (? & ? & _ & Hm).
  apply bind_ok_inv in Hm as ([b violated] & ? & ->%check_thresholds_ok & Hm).
  apply bind_ok_inv in Hm as (? & ? & Hviol & Hm). apply raise_if_ok_inv in Hviol as [Hviol ->].
  apply bind_ok_inv in Hm as (at_ & ? & Hat & Hm). unfold ret in Hm. simplify_eq.
  split; cbn; try done.
  - destruct (existsb needs_supervisor violated).
    + unfold ret in Hat. simplify_eq. split; [by intros [? ?] | done].
    + apply bind_ok_inv in Hat as (now & ? & _ & Hat). unfold ret in Hat. simplify_eq. split; [done | eauto].
  - intros Hr. rewrite Hr in *. rewrite andb_true_r in Hviol. split; [done|]. intros ->.
    cbn [negb andb] in Hreq. by rewrite andb_true_r in Hreq.
Qed.
End decisions.

(** ** The checks of an insert *)

(** What an insert was permitted on: the mode, the session the guard saw, and
    no line with the same keys. *)
Record insert_permitted `{Mongo C} (object_id : string → option string) (d ctx : doc) (w : world C)
    (mode : CountLineGovernanceModeProfile) (session : doc) (hash : val) : Prop := {
  ip_mode : _resolve_governance_mode_profile ctx = Ok mode;
  ip_guard : write_permitted true (write_context ctx (por (get "session_id" d) (get "session_id" ctx))
               (aset "semantic_hash" hash d) mode) w session;
  ip_key : truthy (por (get "session_id" d) (get "session_id" ctx)) = true → truthy (get "idempotency_key" d) = true →
    ∀ e, e ∈ contents (w_db w "count_lines") →
    matches (QAnd [QEq "session_id" (por (get "session_id" d) (get "session_id" ctx));
                   QEq "idempotency_key" (get "idempotency_key" d)]) e = false;
  ip_hash : ∀ e, e ∈ contents (w_db w "count_lines") → matches (QEq "semantic_hash" hash) e = false;
  ip_chain : truthy (get "previous_version_id" d) = true →
    ∃ previous v, find_one (previous_filter object_id (get "previous_version_id" d)) (w_db w "count_lines") = Some previous ∧
      int_or "version" 1 previous = Ok v ∧ int_or "version" 0 d = Ok (v + 1);
}.

Section inserts.
Context {C : Type} `{MongoLaws C}.
Context (clock : nat → Z) (strict_mode write_logs : bool) (object_id : string → option string).
Context (sha256 : string → string) (client_count_lines : client_attribute).
Implicit Types (w : world C).

Lemma version_chain_ok d w u w' :
  check_version_chain object_id d w = (Ok u, w') →
  w' = w ∧ (truthy (get "previous_version_id" d) = true →
    ∃ previous v, find_one (previous_filter object_id (get "previous_version_id" d)) (w_db w "count_lines") = Some previous ∧
      int_or "version" 1 previous = Ok v ∧ int_or "version" 0 d = Ok (v + 1)).
Proof.
  unfold check_version_chain. intros Hm. destruct (truthy (get "previous_version_id" d)) eqn:Ep; cbn [negb] in Hm.
  - apply bind_ok_inv in Hm as (previous & w1 & [-> Hp]%read_ok & Hm).
    destruct previous as [p|]; [|done]. apply bind_ok_inv in Hm as (v & w2 & Hv & Hm).
    apply bind_ok_inv in Hm as (v' & w3 & Hv' & Hm). unfold lift in Hv, Hv'. simplify_eq.
    apply raise_if_ok_inv in Hm as [Hz ->]. apply negb_false_iff, Z.eqb_eq in Hz as ->.
    split; [done|]. intros _. by exists p, v'.
  - unfold ret in Hm. by simplify_eq.
Qed.

Lemma insert_invariants_ok d ctx mode d' w w' :
  _resolve_governance_mode_profile ctx = Ok mode →
  insert_invariants object_id sha256 d ctx mode w = (Ok d', w') →
  w' = w ∧ ∃ session hash, d' = aset "semantic_hash" hash d ∧ insert_permitted object_id d ctx w mode session hash ∧
    (truthy (get "semantic_hash" d) = false → ∃ h, _build_semantic_hash sha256 d = Ok h ∧ hash = VStr h).
Proof.
  intros Hmode Hm. unfold insert_invariants in Hm. cbv zeta in Hm.
  apply bind_ok_inv in Hm as (existing & w1 & Hex & Hm).
  apply bind_ok_inv in Hm as (u1 & w2 & Hu1 & Hm). apply raise_if_ok_inv in Hu1 as [Hnone ->].
  destruct existing as [?|]; [done|].
  assert (w1 = w) as -> by (destruct (_ && _); [by apply read_ok in Hex as [-> _] | unfold ret in Hex; by simplify_eq]).
  apply bind_ok_inv in Hm as (u2 & w3 & [-> Hchain]%version_chain_ok & Hm).
  apply bind_ok_inv in Hm as (hash & w4 & Hh & Hm).
  assert (w4 = w ∧ (truthy (get "semantic_hash" d) = false → ∃ h, _build_semantic_hash sha256 d = Ok h ∧ hash = VStr h))
    as [-> Hhash].
  { destruct (truthy (get "semantic_hash" d)); [unfold ret in Hh; by simplify_eq|].
    apply bind_ok_inv in Hh as (h & w5 & Hb & Hh). unfold lift in Hb. unfold ret in Hh. simplify_eq. eauto. }
  apply bind_ok_inv in Hm as (sem & w5 & [-> Hs]%read_ok & Hm).
  apply bind_ok_inv in Hm as (u3 & w6 & Hu3 & Hm). apply raise_if_ok_inv in Hu3 as [Hn ->].
  destruct sem as [?|]; [done|]. symmetry in Hs.
  apply bind_ok_inv in Hm as (session & w7 & [-> Hw]%valid_write_iff & Hm). unfold ret in Hm. simplify_eq.
  split; [done|]. exists session, hash. split_and!; [done| |done]. split; try done.
  - intros Hsid Hkey. rewrite Hsid, Hkey in Hex. apply read_ok in Hex as [_ He]. symmetry in He.
    by apply find_one_none.
  - by apply find_one_none.
Qed.

(** The repository inserts under the authority of the service. *)
Lemma authority_ok {A} a (m : M (world C) A) w x w' :
  write_authority a m w = (Ok x, w') → ∃ w0 w1, w_db w0 = w_db w ∧ m w0 = (Ok x, w1) ∧ w_db w' = w_db w1.
Proof.
  unfold write_authority. cbv zeta. set (b := if String.eqb _ _ then _ else _).
  destruct (m (set_auth b w)) as [o w1] eqn:E. intros Hm. simplify_eq. by exists (set_auth b w), w1.
Qed.

Lemma insert_ok d w d' w' :
  aget "_id" d = None →
  on_collection client_count_lines (save d) w = (Ok d', w') →
  ∃ i, d' = aset "_id" i d ∧ contents (w_db w' "count_lines") ≡ₚ bson_doc d' :: contents (w_db w "count_lines") ∧
       (∃ o, i = VOid o ∧ ∀ e, e ∈ contents (w_db w "count_lines") → aget "_id" e ≠ Some (VOid o)) ∧
       ∀ n, n ≠ "count_lines" → w_db w' n = w_db w n.
Proof.
  intros Hid Hm. unfold on_collection in Hm.
  assert (_execute_authorized_write (save d) w = (Ok d', w')) as Hm' by (by destruct client_count_lines). clear Hm.
  unfold _execute_authorized_write in Hm'. apply authority_ok in Hm' as (w0 & w1 & Hw0 & Hs & Hw').
  unfold save in Hs. rewrite Hid in Hs. unfold db_insert_one in Hs.
  apply bind_ok_inv in Hs as (? & w2 & Hg & Hs). apply guard_world in Hg as ->.
  destruct (insert_one d (w_db w0 "count_lines")) as [[i c]|] eqn:E; [|done].
  injection Hs as <- <-. exists i. rewrite Hw'. cbn [w_db set_coll set_db].
  assert (setdefault "_id" i d = aset "_id" i d) as -> by (unfold setdefault; by rewrite Hid).
  split; [done|]. split.
  - rewrite fn_lookup_insert. destruct (insert_one_spec _ _ _ _ E) as [Hc _].
    rewrite <- Hw0. unfold setdefault in Hc. by rewrite Hid in Hc.
  - split; [rewrite <- Hw0; by eapply insert_one_drawn|]. intros n Hn. rewrite fn_lookup_insert_ne by done. by rewrite Hw0.
Qed.
End inserts.

(** ** The governed line *)

Definition line_session (d ctx : doc) : string :=
  strip (to_str (por (get "session_id" d) (por (get "session_id" ctx) (VStr "")))).
Definition reason_given (d ctx : doc) : bool :=
  given (_normalize_reason (por (get "variance_reason" ctx) (get "variance_reason" d)))
  || truthy (if has_key "correction_reason" ctx then get "correction_reason" ctx else get "correction_reason" d).
Definition reason_required (ctx : doc) : bool :=
  truthy (dget "require_correction_reason_for_variance" (VBool false) ctx).

(** The stored line carries the decision that was taken on its quantity. *)
Record governed (d ctx line : doc) (g : CountLineGovernanceDecision) (counted expected : float) : Prop := {
  gov_counted : to_float (por (get "counted_qty" d) (VFloat f0)) = Ok counted;
  gov_positive : flt counted f0 = false;
  gov_remark : truthy (get "remark" d) = true;
  gov_decision : decision_ok counted expected (reason_given d ctx) (reason_required ctx) g;
  gov_stored : decided g (truthy (dget "set_status_from_governance" (VBool true) ctx)) line;
  gov_baseline : line_session d ctx ≠ "" → get "erp_qty" line = VFloat expected;
  gov_kept : ∀ k, str_in k identity_fields = true → k ≠ "erp_qty" → aget k line = aget k d;
}.

Section core.
Context {C : Type} `{MongoLaws C}.
Context (clock : nat → Z) (strict_mode write_logs : bool) (object_id : string → option string).
Context (sha256 : string → string) (client_count_lines : client_attribute).
Implicit Types (w : world C).

Lemma on_world_ok {A} (m : M (world C) A) (s s' : write_service) w a w' :
  on_world m (s, w) = (Ok a, (s', w')) → m w = (Ok a, w') ∧ s' = s.
Proof. unfold on_world. cbn [snd fst]. destruct (m w). intros; by simplify_eq. Qed.

(** A unit of work that succeeds is a run of its body. *)
Lemma in_uow_ok {A} (cl : client) (body : bool → M (write_service * world C) A) s w a s' w' :
  in_uow cl body (s, w) = (Ok a, (s', w')) → ∃ b, body b (s, w) = (Ok a, (s', w')).
Proof.
  unfold in_uow. destruct (__aenter__ cl) as [u|]; [|done]. cbn [snd].
  destruct (body (u_session u) (s, w)) as [[x|e] [s1 w1]] eqn:E; intros Hw; [|done].
  exists (u_session u). rewrite E. cbn [fst snd] in Hw. unfold __aexit__, commit in Hw.
  destruct u as [[] [] []]; simpl in Hw; by simplify_eq.
Qed.

Lemma evaluate_ok d ctx b (x x' : write_service * world C) g item session d' :
  _evaluate_governance_for_document clock d ctx b x = (Ok (g, item, session, d'), x') →
  ∃ counted expected, to_float (por (get "counted_qty" d) (VFloat f0)) = Ok counted ∧ flt counted f0 = false ∧
    truthy (get "remark" d) = true ∧ decision_ok counted expected (reason_given d ctx) (reason_required ctx) g ∧
    (line_session d ctx ≠ "" → get "erp_qty" d' = VFloat expected) ∧
    ∀ k, str_in k identity_fields = true → k ≠ "erp_qty" → aget k d' = aget k d.
Proof.
  unfold _evaluate_governance_for_document. cbv zeta. fold (line_session d ctx). intros Hm.
  apply bind_ok_inv in Hm as (? & ? & _ & Hm).
  apply bind_ok_inv in Hm as (counted & ? & [Hc ->]%lift_ok & Hm).
  apply bind_ok_inv in Hm as (? & ? & [Hneg ->]%raise_if_ok_inv & Hm).
  apply bind_ok_inv in Hm as (? & ? & [Hrem ->]%raise_if_ok_inv & Hm).
  apply negb_false_iff in Hrem.
  apply bind_ok_inv in Hm as (e0 & ? & _ & Hm). apply bind_ok_inv in Hm as (i & ? & _ & Hm).
  apply bind_ok_inv in Hm as (? & ? & _ & Hm). apply bind_ok_inv in Hm as ([expected d1] & [s3 w3] & Hb & Hm).
  apply bind_ok_inv in Hm as (g1 & [s2 w2] & Hg & Hm). apply bind_ok_inv in Hm as (s1 & ? & _ & Hm).
  unfold ret in Hm. simplify_eq.
  assert ((line_session d ctx ≠ "" → get "erp_qty" d' = VFloat expected) ∧
    ∀ k, str_in k identity_fields = true → k ≠ "erp_qty" → aget k d' = aget k d) as [Hbase Hkeep].
  { destruct (String.eqb_spec (line_session d ctx) "") as [Hs|Hs]; cbn [negb] in Hb.
    - split; [done|]. intros k Hk Hne. destruct (feq e0 f0).
      + apply bind_ok_inv in Hb as (q & ? & _ & Hb). unfold ret in Hb. simplify_eq.
        rewrite aget_setdefault. by destruct (String.eqb_spec "erp_qty" k); [congruence|].
      + unfold ret in Hb. by simplify_eq.
    - apply bind_ok_inv in Hb as ([q h] & ? & _ & Hb). unfold ret in Hb. simplify_eq. split.
      + intros _. by get_field.
      + intros k Hk Hne. revert Hne. pattern k. apply (identity_cases k _ Hk); intros Hne; get_field; done. }
  apply on_world_ok in Hg as [Hg _]. apply evaluate_policy_ok in Hg.
  exists counted, expected. split_and!; try done.
  assert (reason_given d ctx = given (_normalize_reason (por (get "variance_reason" ctx) (get "variance_reason" d')))
    || truthy (if has_key "correction_reason" ctx then get "correction_reason" ctx else get "correction_reason" d')) as Hr.
  { unfold reason_given. destruct (String.eqb_spec (line_session d ctx) "") as [Hs|Hs]; cbn [negb] in Hb.
    - destruct (feq e0 f0).
      + apply bind_ok_inv in Hb as (q & ? & _ & Hb). unfold ret in Hb. simplify_eq.
        unfold get. by rewrite !aget_setdefault.
      + unfold ret in Hb. by simplify_eq.
    - apply bind_ok_inv in Hb as ([q h] & ? & _ & Hb). unfold ret in Hb. simplify_eq. by get_field. }
  by rewrite Hr.
Qed.

Lemma operation_with_document d p : operation_of (with_document d p) = operation_of p.
Proof. done. Qed.

Lemma ids_read p ctx w l w' : _collect_session_ids_for_write p ctx w = (Ok l, w') → w' = w.
Proof.
  unfold _collect_session_ids_for_write. intros Hm.
  apply bind_ok_inv in Hm as (ids & w1 & [_ ->]%lift_ok & Hm).
  destruct ids; [|unfold ret in Hm; by simplify_eq].
  destruct (p_filter p) as [q|]; [|unfold ret in Hm; by simplify_eq].
  repeat case_match; try (unfold ret in Hm; by simplify_eq);
    apply bind_ok_inv in Hm as (? & ? & [-> _]%read_ok & Hm); unfold ret in Hm; by simplify_eq.
Qed.

Lemma versions_read e ids w l w' : session_versions e ids w = (Ok l, w') → w' = w.
Proof.
  revert l. induction ids as [|i ids IH]; intros l Hm; cbn [session_versions] in Hm.
  - unfold ret in Hm. by simplify_eq.
  - apply bind_ok_inv in Hm as (d & w1 & Hd & Hm). unfold _load_session_for_write in Hd.
    apply bind_ok_inv in Hd as (o & w2 & [-> _]%read_ok & Hd).
    destruct o as [d'|]; [|done]. unfold ret in Hd. simplify_eq.
    apply bind_ok_inv in Hm as (v & w2 & [_ ->]%lift_ok & Hm).
    apply bind_ok_inv in Hm as (u & w2 & Hu & Hm).
    assert (w2 = w1) as -> by (destruct (aget i e); [by apply raise_if_ok_inv in Hu as [_ ->] | unfold ret in Hu; by simplify_eq]).
    apply bind_ok_inv in Hm as (l' & w3 & Hl & Hm). unfold ret in Hm. simplify_eq. by apply (IH l').
Qed.

Lemma capture_read ids ctx w l w' : _capture_session_versions ids ctx w = (Ok l, w') → w' = w.
Proof.
  unfold _capture_session_versions. intros Hm.
  apply bind_ok_inv in Hm as (e & w1 & [_ ->]%lift_ok & Hm). by apply versions_read in Hm.
Qed.

Lemma snapshot_check_read p ctx w u w' : _assert_snapshot_integrity_for_write p ctx w = (Ok u, w') → w' = w.
Proof.
  unfold _assert_snapshot_integrity_for_write. intros Hm.
  assert ((if is_dict (get "session" ctx) then ret tt
      else do session_ids <- _collect_session_ids_for_write p ctx ;;
           raise_if (match session_ids with [] => true | _ => false end
                     && negb (truthy (dget "allow_missing_session" (VBool false) ctx)))
             (HTTPException 409 (VStr "Count line mutation requires session context"))) w = (Ok u, w') → w' = w) as Hcase.
  { destruct (is_dict _); [unfold ret; intros; by simplify_eq|].
    intros (ids & w1 & ->%ids_read & Hr)%bind_ok_inv. by apply raise_if_ok_inv in Hr as [_ ->]. }
  destruct (dget _ _ _) as [|[]| | | | | | |]; auto. unfold ret in Hm. by simplify_eq.
Qed.

(** The checks of an insert leave the document with its hash and, where it has
    a quantity, with the decision. *)
Lemma before_insert_ok p d ctx b s w p1 s1 w1 :
  operation_of p = "insert_one" → p_document p = Some d →
  before_write clock object_id sha256 p ctx b (s, w) = (Ok p1, (s1, w1)) →
  ∃ mode session hash line,
    insert_permitted object_id d ctx w mode session hash ∧
    (truthy (get "semantic_hash" d) = false → ∃ h, _build_semantic_hash sha256 d = Ok h ∧ hash = VStr h) ∧
    p1 = with_document line p ∧ aget "_id" line = aget "_id" d ∧
    (has_key "counted_qty" d = false → line = aset "semantic_hash" hash d) ∧
    (has_key "counted_qty" d = true →
     ∃ g counted expected, governed (aset "semantic_hash" hash d) ctx line g counted expected).
Proof.
  intros Hop Hd Hm. unfold before_write in Hm.
  apply bind_ok_inv in Hm as (? & [s2 w2] & [->%snapshot_check_read ->]%on_world_ok & Hm).
  apply bind_ok_inv in Hm as (p2 & [s3 w3] & [Hinv ->]%on_world_ok & Hm).
  unfold _assert_mandatory_write_invariants in Hinv. cbv zeta in Hinv.
  apply bind_ok_inv in Hinv as (mode & w4 & [Hmode ->]%lift_ok & Hinv).
  rewrite Hop, Hd in Hinv. cbn [String.eqb Ascii.eqb Bool.eqb] in Hinv.
  apply bind_ok_inv in Hinv as (d' & w5 & Hins & Hinv). unfold ret in Hinv. simplify_eq.
  apply (insert_invariants_ok object_id sha256 _ _ _ _ _ _ Hmode) in Hins
    as (-> & session & hash & -> & Hperm & Hhash).
  set (d' := aset "semantic_hash" hash d) in *.
  apply bind_ok_inv in Hm as (p3 & [s4 w6] & [Htr ->]%on_world_ok & Hm).
  assert (p3 = with_document d' p) as ->.
  { unfold _apply_state_transition_for_write in Htr. cbv zeta in Htr.
    destruct (String.eqb _ ""); [unfold ret in Htr; by simplify_eq|].
    apply bind_ok_inv in Htr as (? & ? & [Hr _]%raise_if_ok_inv & _).
    by rewrite operation_with_document, Hop in Hr. }
  apply bind_ok_inv in Hm as (gov & [s5 w7] & [Hgov Hst]%lift_ok & Hm). simplify_eq.
  assert (gov = has_key "counted_qty" d) as ->.
  { unfold _should_apply_governance in Hgov. destruct (has_key "skip_governance" ctx); [done|].
    rewrite operation_with_document, Hop in Hgov. cbn in Hgov. injection Hgov as <-.
    unfold has_key, d'. by get_field. }
  exists mode, session, hash. destruct (has_key "counted_qty" d) eqn:Hq.
  - unfold _enforce_variance_for_write in Hm. rewrite operation_with_document, Hop in Hm.
    cbn [String.eqb Ascii.eqb Bool.eqb p_document with_document] in Hm.
    assert (has_key "counted_qty" d' = true) as Hq' by (unfold has_key, d' in *; by get_field).
    rewrite Hq' in Hm. cbn [negb] in Hm.
    apply bind_ok_inv in Hm as ([[[g item] sess] d2] & [s6 w8] & Heval & Hm).
    apply bind_ok_inv in Hm as (line & [s7 w9] & [Hauth ->]%lift_ok & Hm). unfold ret in Hm. simplify_eq.
    apply evaluate_ok in Heval as (counted & expected & Hc & Hneg & Hrem & Hdec & Hbase & Hkeep).
    apply authoritative_spec in Hauth as [Hstored Hkept].
    exists line. split_and!; try done.
    + rewrite Hkept, Hkeep by done. unfold d'. by get_field.
    + intros _. exists g, counted, expected. split; try done.
      * intros Hs. unfold get. rewrite Hkept by done. by apply Hbase.
      * intros k Hk Hne. by rewrite Hkept, Hkeep.
  - unfold ret in Hm. simplify_eq. exists d'. split_and!; try done. unfold d'. by get_field.
Qed.
End core.

(** ** What a count-line write may change *)

Section write_frames.
Context {C : Type} `{Mongo C}.
Context (clock : nat → Z) (strict_mode write_logs : bool) (object_id : string → option string).
Context (sha256 : string → string) (client_count_lines : client_attribute) (cl : client).

Definition write_collections : list string := "count_lines" :: configs :: after_collections.

Lemma frame_save P d : str_in "count_lines" P = true → frame P (save (C:=C) d).
Proof.
  intros Hin. unfold save. destruct (aget "_id" d); [|by apply frame_insert].
  apply frame_bind; [apply frame_guard|]. intros _. apply frame_bind; [|intros ?; apply frame_ret].
  by apply (frame_set_coll P "count_lines" (fun c => (tt, replace_one v d c)) Ok).
Qed.

Lemma frame_on_collection {A} P (m : M (world C) A) : frame P m → frame P (on_collection client_count_lines m).
Proof.
  intros Hm. unfold on_collection, CountLines._execute_authorized_write.
  destruct client_count_lines; [by apply frame_authority..|apply frame_raise].
Qed.

Lemma frame_find_and_update P q u :
  str_in "count_lines" P = true →
  frame P (run _guard "count_lines" "find_one_and_update" ;;
           (fun w : world C => let '(r, c) := find_one_and_update q u (w_db w "count_lines") in
                     (Ok r, set_coll "count_lines" c w))).
Proof.
  intros Hin. apply frame_bind; [apply frame_guard|]. intros _.
  by apply (frame_set_coll P "count_lines" (find_one_and_update q u) Ok).
Qed.

Lemma frame_execute P p :
  str_in "count_lines" P = true → frame P (_execute_count_line_operation (C:=C) client_count_lines p).
Proof.
  intros Hin. unfold _execute_count_line_operation. cbv zeta.
  repeat first
    [ apply frame_raise | apply frame_ret
    | apply frame_bind; [apply frame_on_collection|intros ?]
    | by apply frame_save | by apply frame_update_one | by apply frame_update_many | by apply frame_delete_one
    | by apply frame_find_and_update | by apply frame_delete_many | case_match ].
Qed.

Lemma sframe_core p ctx b :
  service_frame write_collections
    (_process_write_core (C:=C) clock strict_mode write_logs object_id sha256 client_count_lines p ctx b).
Proof.
  unfold _process_write_core. destruct (negb _); [apply sframe_raise|].
  apply sframe_bind; [eapply sframe_weaken; [apply sframe_before|intros n ->%list_elem_of_singleton; right; left]|]. intros p1.
  apply sframe_bind; [apply sframe_world, frame_ids|]. intros ids.
  apply sframe_bind; [apply sframe_world, frame_capture|]. intros vs.
  apply sframe_bind; [apply sframe_world; by apply frame_execute|]. intros [r p2].
  apply sframe_bind; [|intros ?; apply sframe_ret].
  apply sframe_world. eapply frame_weaken; [apply frame_after | intros n Hn; by do 2 right].
Qed.

Lemma sframe_write hs p ctx : service_frame write_collections
    (process_write (C:=C) clock strict_mode write_logs object_id sha256 client_count_lines cl hs p ctx).
Proof.
  unfold process_write, commit_write. destruct (has_key _ _); [apply sframe_raise|].
  destruct hs; [apply sframe_core|]. apply sframe_uow. intros b. apply sframe_core.
Qed.
End write_frames.

(** ** Properties *)

Section properties.
Context {C : Type} `{MongoLaws C}.
Context (clock : nat → Z) (strict_mode write_logs : bool) (object_id : string → option string).
Context (sha256 : string → string) (client_count_lines : client_attribute) (cl : client).
Implicit Types (w : world C) (s : write_service).

Abbreviation write := (process_write (C:=C) clock strict_mode write_logs object_id sha256 client_count_lines cl).

(** The line as it is returned: as it was stored, or with the quantity that the
    validation after the write works out. *)
Definition validated_as (stored returned : doc) : Prop :=
  returned = stored ∨ ∃ code n, returned = aupd stored (normalized_fields stored code n).

Lemma validate_line_document d b w errors d' w' :
  validate_count_line (C:=C) clock strict_mode write_logs d b w = (Ok (errors, d'), w') → validated_as d d'.
Proof.
  unfold validate_count_line. intros Hm. apply bind_ok_inv in Hm as ([broken d1] & w1 & Hb & Hm).
  apply bind_ok_inv in Hm as ([] & w2 & _ & Hm). unfold ret in Hm. simplify_eq.
  destruct (enforce_count_line_business_rules d None w) as [[d2|e] w3] eqn:E.
  - simplify_eq. unfold enforce_count_line_business_rules in E.
    apply bind_ok_inv in E as (master & w4 & _ & E). apply bind_ok_inv in E as (n & w5 & _ & E).
    apply bind_ok_inv in E as ([] & w6 & _ & E). unfold ret in E. simplify_eq. right. eauto.
  - destruct e; simplify_eq; by left.
Qed.

Lemma after_document p ctx ids versions d w p' w' :
  operation_of p = "insert_one" → p_document p = Some d →
  after_write (C:=C) clock strict_mode write_logs p ctx ids versions w = (Ok p', w') →
  ∃ d', p_document p' = Some d' ∧ validated_as d d'.
Proof.
  intros Hop Hd Hm. unfold after_write in Hm. apply bind_ok_inv in Hm as (p1 & w1 & Hv & Hm).
  assert (∃ d', p_document p1 = Some d' ∧ validated_as d d') as Hp1.
  { unfold _run_post_write_validation in Hv. rewrite Hop, Hd in Hv. apply bind_ok_inv in Hv as (wanted & w2 & _ & Hv).
    destruct wanted; cbn [negb] in Hv; [|unfold ret in Hv; simplify_eq; exists d; split; [done|by left]].
    apply bind_ok_inv in Hv as ([errors d1] & w3 & Hv & Hr). unfold ret in Hr. simplify_eq.
    apply validate_line_document in Hv. by exists d1. }
  do 3 (apply bind_ok_inv in Hm as ([] & ? & _ & Hm)). unfold ret in Hm. by simplify_eq.
Qed.

Abbreviation core := (_process_write_core (C:=C) clock strict_mode write_logs object_id sha256 client_count_lines).

(** A write that succeeds is a run of the core, inside or outside a unit of
    work of its own. *)
Lemma write_ok hs p ctx s w r s' w' :
  write hs p ctx (s, w) = (Ok r, (s', w')) → ∃ b, core p ctx b (s, w) = (Ok r, (s', w')).
Proof.
  unfold process_write, commit_write. destruct (has_key _ _); [done|]. destruct hs; [by exists true|].
  apply in_uow_ok.
Qed.

(** The phases of the core. *)
Lemma core_ok p ctx b s w r s' w' :
  core p ctx b (s, w) = (Ok r, (s', w')) →
  ∃ p1 s1 w1 ids versions r2 p2 w2 p3,
    before_write clock object_id sha256 p ctx b (s, w) = (Ok p1, (s1, w1)) ∧
    _collect_session_ids_for_write p1 ctx w1 = (Ok ids, w1) ∧
    _capture_session_versions ids ctx w1 = (Ok versions, w1) ∧
    _execute_count_line_operation client_count_lines p1 w1 = (Ok (r2, p2), w2) ∧
    after_write clock strict_mode write_logs p2 ctx ids versions w2 = (Ok p3, w') ∧ r = written r2 p3.
Proof.
  unfold _process_write_core. destruct (negb _); [done|]. intros Hm.
  apply bind_ok_inv in Hm as (p1 & [s1 w1] & Hb & Hm).
  apply bind_ok_inv in Hm as (ids & [s2 w2] & [Hids ->]%on_world_ok & Hm).
  pose proof (ids_read _ _ _ _ _ Hids) as ->.
  apply bind_ok_inv in Hm as (versions & [s3 w3] & [Hv ->]%on_world_ok & Hm).
  pose proof (capture_read _ _ _ _ _ Hv) as ->.
  apply bind_ok_inv in Hm as ([res p2] & [s4 w4] & [Hx ->]%on_world_ok & Hm).
  apply bind_ok_inv in Hm as (p3 & [s5 w5] & [Ha ->]%on_world_ok & Hm). unfold ret in Hm. simplify_eq.
  by exists p1, s', w1, ids, versions, res, p2, w4, p3.
Qed.

(** The insert of the core. *)
Lemma execute_insert p d w r p2 w2 :
  operation_of p = "insert_one" → p_document p = Some d → aget "_id" d = None →
  _execute_count_line_operation client_count_lines p w = (Ok (r, p2), w2) →
  ∃ i, r = RDocument (aset "_id" i d) ∧ p2 = with_document (aset "_id" i d) p ∧
    contents (w_db w2 "count_lines") ≡ₚ bson_doc (aset "_id" i d) :: contents (w_db w "count_lines") ∧
    (∃ o, i = VOid o ∧ ∀ e, e ∈ contents (w_db w "count_lines") → aget "_id" e ≠ Some (VOid o)) ∧
    ∀ n, n ≠ "count_lines" → w_db w2 n = w_db w n.
Proof.
  intros Hop Hd Hid Hm. unfold _execute_count_line_operation in Hm. cbv zeta in Hm. rewrite Hop, Hd in Hm.
  cbn [String.eqb Ascii.eqb Bool.eqb] in Hm. apply bind_ok_inv in Hm as (saved & w3 & Hs & Hm).
  unfold ret in Hm. simplify_eq. apply insert_ok in Hs as (i & -> & Hc & Hnew & Hn); [|done]. by exists i.
Qed.

(** The totals of the lines the database holds. *)
Lemma totals_read sid w tot w' :
  CountLines._compute_session_totals clock sid w = (Ok tot, w') →
  w_db w' = w_db w ∧ session_fields_ok tot = true ∧
  ∃ t now, tot = session_update t now ∧
    aggregate_lines totals0 (find_all (session_lines sid) (w_db w "count_lines")) = Ok t.
Proof.
  unfold CountLines._compute_session_totals. intros Hm.
  apply bind_ok_inv in Hm as (lines & w1 & [-> ->]%read_ok & Hm).
  apply bind_ok_inv in Hm as (t & w2 & [Ht ->]%lift_ok & Hm).
  apply bind_ok_inv in Hm as (now & w3 & Hnow & Hm). unfold ret in Hm. simplify_eq.
  unfold utc_now in Hnow. injection Hnow as <- <-. split; [done|]. split; [|eauto].
  unfold session_update. destruct (t_last t); vm_compute; reflexivity.
Qed.

(** The session of a write after its validation, totals and audit. *)
(** Without the totals, the sessions stay as they are. *)
Lemma after_skipping p ctx l versions w r w' :
  flag_of "skip_session_totals_update" ctx = true →
  after_write clock strict_mode write_logs p ctx l versions w = (r, w') → w_db w' "sessions" = w_db w "sessions".
Proof.
  intros Hskip Hm. refine (frame_db ["validation_logs"; "governance_events"] _ _ _ _ "sessions" _ Hm eq_refl).
  unfold after_write, _log_count_line_audit. rewrite Hskip.
  pose proof (fun l op d v a => frame_audit (C:=C) clock ["validation_logs"; "governance_events"] l op d v a eq_refl).
  cbn [negb when]. apply frame_bind; [by apply frame_post_validation|]. intros p1. repeat first [ frame_step | done ].
Qed.

Lemma after_totals p ctx sid versions w p' w' :
  sessions_ok (w_db w "sessions") → flag_of "skip_session_totals_update" ctx = false →
  after_write clock strict_mode write_logs p ctx [sid] versions w = (Ok p', w') →
  ∃ d t now, find_one (_lookup sid) (w_db w "sessions") = Some d ∧ is_finalized_session d = false ∧
    aggregate_lines totals0 (find_all (session_lines sid) (w_db w' "count_lines")) = Ok t ∧
    find_one (_lookup sid) (w_db w' "sessions") = Some (apply_update (occ_update (session_update t now)) d).
Proof.
  intros Hok Hskip Hm.
  pose proof (frame_db _ _ _ _ _ "count_lines" (frame_after clock strict_mode write_logs _ _ _ _) Hm eq_refl) as Hlines.
  unfold after_write in Hm. apply bind_ok_inv in Hm as (p1 & w1 & Hv & Hm).
  pose proof (frame_post_validation clock strict_mode write_logs ["validation_logs"] p ctx eq_refl) as Hfv.
  pose proof (frame_db _ _ _ _ _ "sessions" Hfv Hv eq_refl) as Hs1.
  pose proof (frame_db _ _ _ _ _ "count_lines" Hfv Hv eq_refl) as Hc1.
  apply bind_ok_inv in Hm as (u & w2 & Ht & Hm). rewrite Hskip in Ht. cbn [negb when] in Ht.
  cbn [_update_session_totals_for_sessions] in Ht. apply bind_ok_inv in Ht as (tot & w3 & Htot & Ht).
  apply totals_read in Htot as (Hw3 & Hf & t & now & -> & Ht').
  apply bind_ok_inv in Ht as (u' & w4 & Hu & Ht). unfold ret in Ht. simplify_eq.
  apply update_totals_stored in Hu as (d & Hd & Ho & Hd'); [|by rewrite Hw3, Hs1|done].
  rewrite Hw3, Hs1 in Hd. rewrite Hc1, <- Hlines in Ht'.
  assert (frame ["governance_events"] (do _ <- when
     (negb (match [sid] with [] => true | _ => false end) && negb (flag_of "skip_projection_sync" ctx))
     (emit (Ev "projection.sync_for_sessions"
        [VList (map VStr [sid]); VStr ("count_line." +:+ operation_of p1); VStr (actor_of ctx);
         VBool (negb (flag_of "skip_projection_items_sync" ctx))])) ;;
     do _ <- _log_count_line_audit (C:=C) clock p1 ctx [sid] ;; ret p1)) as Hfr.
  { pose proof (fun l op d v a => frame_audit (C:=C) clock ["governance_events"] l op d v a eq_refl).
    unfold _log_count_line_audit. solve_frame; auto. }
  rewrite <- (frame_db _ _ _ _ _ "sessions" Hfr Hm eq_refl) in Hd'. eauto 10.
Qed.

(** The sessions of an inserted line are those of the payload: the checks keep
    its session. *)
Lemma ids_of_line d line p ctx :
  p_document p = Some d → aget "session_id" line = aget "session_id" d →
  ids_in_context (with_document line p) ctx = ids_in_context p ctx.
Proof. intros Hd Hs. unfold ids_in_context. cbn [with_document p_document p_filter]. rewrite Hd. unfold get. by rewrite Hs. Qed.

(** A line that the write service inserts. *)
Lemma insert_written hs p d ctx s w r s' w' :
  operation_of p = "insert_one" → p_document p = Some d → aget "_id" d = None →
  write hs p ctx (s, w) = (Ok r, (s', w')) →
  ∃ mode session hash line i,
    insert_permitted object_id d ctx w mode session hash ∧
    (truthy (get "semantic_hash" d) = false → ∃ h, _build_semantic_hash sha256 d = Ok h ∧ hash = VStr h) ∧
    (∃ line', r = RDocument line' ∧ validated_as (aset "_id" i line) line') ∧
    (∃ o, i = VOid o ∧ ∀ e, e ∈ contents (w_db w "count_lines") → aget "_id" e ≠ Some (VOid o)) ∧
    contents (w_db w' "count_lines") ≡ₚ bson_doc (aset "_id" i line) :: contents (w_db w "count_lines") ∧
    (has_key "counted_qty" d = false → line = aset "semantic_hash" hash d) ∧
    (has_key "counted_qty" d = true →
     ∃ g counted expected, governed (aset "semantic_hash" hash d) ctx line g counted expected).
Proof.
  intros Hop Hd Hid (b & Hc)%write_ok.
  apply core_ok in Hc as (p1 & s1 & w1 & ids & versions & r2 & p2 & w2 & p3 & Hb & _ & _ & Hx & Ha & ->).
  assert (w_db w1 "count_lines" = w_db w "count_lines") as Hw1.
  { by apply (sframe_db _ _ _ _ _ "count_lines" (sframe_before clock object_id sha256 p ctx b) Hb). }
  destruct (before_insert_ok clock object_id sha256 _ _ _ _ _ _ _ _ _ Hop Hd Hb)
    as (mode & session & hash & line & Hperm & Hhash & -> & Hlid & Hplain & Hgov).
  apply (execute_insert _ line) in Hx as (i & -> & -> & Hcont & Hnew & _); [|done|done|by rewrite Hlid].
  destruct (fun Ho Hd => after_document _ _ _ _ (aset "_id" i line) _ _ _ Ho Hd Ha) as (line' & Hd' & Hv); [done..|].
  exists mode, session, hash, line, i. split_and!; try done; [exists line'; unfold written; by rewrite Hd'|by rewrite <- Hw1|].
  rewrite (frame_db _ _ _ _ _ "count_lines" (frame_after clock strict_mode write_logs _ _ _ _) Ha eq_refl).
  by rewrite Hcont, Hw1.
Qed.

(** C4: inserting a count line. When the write succeeds, exactly one line has
    been added: the document of the payload with its hash, an id and, where it
    has a quantity, the governance decision on it. The session the guard saw
    was not finalized, was ACTIVE and the line had its place wherever the mode
    asks for it; the collection had no line with the same semantic hash, none
    in the session with the same idempotency key, and a recount continues an
    existing line at the next version. *)
Theorem insert_line_spec hs p d ctx s w r s' w' :
  operation_of p = "insert_one" → p_document p = Some d → aget "_id" d = None →
  write hs p ctx (s, w) = (Ok r, (s', w')) →
  ∃ mode session hash line i,
    insert_permitted object_id d ctx w mode session hash ∧
    (truthy (get "semantic_hash" d) = false → ∃ h, _build_semantic_hash sha256 d = Ok h ∧ hash = VStr h) ∧
    (∃ line', r = RDocument line' ∧ validated_as (aset "_id" i line) line') ∧
    contents (w_db w' "count_lines") ≡ₚ bson_doc (aset "_id" i line) :: contents (w_db w "count_lines") ∧
    (has_key "counted_qty" d = false → line = aset "semantic_hash" hash d) ∧
    (has_key "counted_qty" d = true →
     ∃ g counted expected, governed (aset "semantic_hash" hash d) ctx line g counted expected).
Proof.
  intros Hop Hd Hid Hw. destruct (insert_written _ _ _ _ _ _ _ _ _ Hop Hd Hid Hw)
    as (mode & session & hash & line & i & Hp & Hh & Hr & _ & Hc & Hplain & Hgov).
  by exists mode, session, hash, line, i.
Qed.

(** C5: the totals of the session after an insert that succeeds, where the line
    and the context name one session. An insert whose context does not ask for
    [skip_session_totals_update] moves the line and the totals together: the
    stored session, which was open before, carries the totals of exactly the
    lines the collection now holds for it, the new one included. One that asks
    for it, as the creation route, the recount routes and the synchronised
    duplicates do, which leave the totals to a later call, changes no session. *)
Theorem insert_keeps_totals_current hs p d ctx ids sid s w r s' w' :
  sessions_ok (w_db w "sessions") →
  operation_of p = "insert_one" → p_document p = Some d → aget "_id" d = None →
  ids_in_context p ctx = Ok ids → sorted_set ids = [sid] →
  write hs p ctx (s, w) = (Ok r, (s', w')) →
  length (contents (w_db w' "count_lines")) = S (length (contents (w_db w "count_lines"))) ∧
  if flag_of "skip_session_totals_update" ctx then w_db w' "sessions" = w_db w "sessions"
  else
    ∃ session t now,
      find_one (_lookup sid) (w_db w "sessions") = Some session ∧ is_finalized_session session = false ∧
      aggregate_lines totals0 (find_all (session_lines sid) (w_db w' "count_lines")) = Ok t ∧
      find_one (_lookup sid) (w_db w' "sessions") = Some (apply_update (occ_update (session_update t now)) session).
Proof.
  intros Hok Hop Hd Hid Hids Hsid (b & Hc)%write_ok.
  apply core_ok in Hc as (p1 & s1 & w1 & l & versions & r2 & p2 & w2 & p3 & Hb & Hl & _ & Hx & Ha & _).
  assert (∀ n, str_in n [configs] = false → w_db w1 n = w_db w n) as Hw1
    by (intros n; apply (sframe_db _ _ _ _ _ n (sframe_before clock object_id sha256 p ctx b) Hb)).
  destruct (before_insert_ok clock object_id sha256 _ _ _ _ _ _ _ _ _ Hop Hd Hb)
    as (mode & session & hash & line & _ & _ & -> & Hlid & Hplain & Hgov).
  assert (aget "session_id" line = aget "session_id" d) as Hls.
  { destruct (has_key "counted_qty" d) eqn:E.
    - destruct (Hgov eq_refl) as (g & c & e & Hg). rewrite (gov_kept _ _ _ _ _ _ Hg) by done. by get_field.
    - rewrite (Hplain eq_refl). by get_field. }
  assert (l = [sid]) as ->.
  { unfold _collect_session_ids_for_write in Hl. rewrite (ids_of_line d) in Hl by done. rewrite Hids in Hl.
    unfold lift, bind, ret in Hl. destruct ids; [discriminate Hsid|]. rewrite Hsid in Hl. congruence. }
  apply (execute_insert _ line) in Hx as (i & -> & -> & Hcont & _ & Hrest); [|done|done|by rewrite Hlid].
  pose proof (frame_db _ _ _ _ _ "count_lines" (frame_after clock strict_mode write_logs _ _ _ _) Ha eq_refl) as Hlines.
  split; [rewrite Hlines, (Permutation_length Hcont); cbn [length]; by rewrite Hw1|].
  destruct (flag_of _ ctx) eqn:Hskip.
  { apply after_skipping in Ha; [|done]. by rewrite Ha, Hrest, Hw1. }
  apply after_totals in Ha as (e & t & now & He & Ho & Ht & Hstored); [|by rewrite Hrest, Hw1|done].
  rewrite Hrest, Hw1 in He by done. by exists e, t, now.
Qed.


(** The two implementations of the session totals agree: the count-line
    writer and the session lifecycle compute the same document from the same
    count lines, or raise the same error. *)
Theorem totals_implementations_agree sid w :
  CountLines._compute_session_totals clock sid w = Lifecycle._compute_session_totals clock sid w.
Proof.
  assert (∀ d, _is_superseded_count_line d = is_superseded_count_line d) as Hs.
  { intros d. unfold _is_superseded_count_line, is_superseded_count_line, _is_superseded_status, line_status,
      normalize_count_line_status, str_in, SUPERSEDED_COUNT_LINE_STATUSES. destruct d as [|kv d]; [done|].
    cbn [is_empty existsb]. rewrite orb_false_r.
    set (rest := truthy (get "superseded_at" _)).
    destruct (get "status" (kv :: d)); try (by destruct (truthy _)).
    destruct (String.eqb_spec (strip s) "") as [->|]; [by destruct (truthy _)|].
    destruct (String.eqb _ "superseded"); [done|]. by destruct (truthy _). }
  assert (∀ lines t, aggregate_lines t lines = add_lines t lines) as Ha.
  { induction lines as [|d lines IH]; intros t; [done|]. cbn [aggregate_lines add_lines].
    unfold aggregate_line, add_line. rewrite Hs. destruct (is_superseded_count_line d); cbn [obind]; [apply IH|].
    destruct (to_float (por (get "variance" d) _)); cbn [obind]; [|done].
    destruct (to_float _); cbn [obind]; [|done]. destruct (to_int _); cbn [obind]; [apply IH|done]. }
  unfold CountLines._compute_session_totals, Lifecycle._compute_session_totals.
  apply bind_ext. intros lines w1. by rewrite Ha.
Qed.
End properties.

(** ** Concrete writes *)

Definition example_session : doc :=
  [("id", VStr "S1"); ("status", VStr "ACTIVE"); ("version", VInt 3)].
Definition example_item : doc :=
  [("_id", VOid "e"); ("item_code", VStr "I1"); ("stock_qty", VInt 9); ("uom_code", VStr "BOX");
   ("uom_conversion_factor", VInt 12)].
Definition example_snapshot : doc :=
  [("session_id", VStr "S1"); ("snapshot_hash", VStr "H");
   ("items", VList [VDict [("item_code", VStr "I1"); ("stock_qty", VInt 9)]])].
Definition count_world (lines : list doc) : world coll :=
  install_db_write_guards (mkworld [("sessions", [example_session]); ("erp_items", [example_item]);
    ("session_snapshots", [example_snapshot]); ("count_lines", lines)]).
Definition example_line (counted_qty : val) (more : doc) : doc :=
  [("session_id", VStr "S1"); ("item_code", VStr "I1"); ("location_id", VStr "L"); ("floor_id", VStr "F");
   ("rack_id", VStr "R"); ("counted_qty", counted_qty); ("remark", VStr "ok"); ("idempotency_key", VStr "k")] ++ more.
Definition insert_of (d : doc) : payload := Payload "insert_one" (Some d) None None false.
Definition example_write (p : payload) (ctx : doc) (w : world coll) : outcome write_result * (write_service * world coll) :=
  process_write no_clock false true (fun _ => None) (fun s => s) ACollection replica_client false p ctx
    (WriteService [] [], w).

(** The writes of the witnesses below, evaluated. *)
Lemma example_inserts :
  is_ok (fst (example_write (insert_of (example_line (VInt 9) [])) [] (count_world []))) = true.
Proof. vm_compute. reflexivity. Qed.

Lemma example_total :
  let w' := snd (snd (example_write (insert_of (example_line (VInt 9) [])) [] (count_world []))) in
  match aggregate_lines totals0 (find_all (session_lines "S1") (w_db w' "count_lines")) with
  | Ok t => t_items t =? 1
  | Raise _ => false
  end = true.
Proof. vm_compute. reflexivity. Qed.

Lemma example_fails :
  is_ok (fst (example_write (insert_of (example_line (VInt 9) [("damaged_qty", VStr "one")])) [] (count_world []))) = false.
Proof. vm_compute. reflexivity. Qed.

(** A concrete line, known only by an equation from here on. *)
Ltac abstract_line e d Hd :=
  let He := fresh in assert (∃ d, d = e) as He by (exists e; reflexivity);
  destruct He as [d Hd]; rewrite <- Hd in *.

Example insert_line_spec_witness :
  let d := example_line (VInt 9) [] in
  let out := example_write (insert_of d) [] (count_world []) in
  ∃ r line i g counted expected,
    fst out = Ok r ∧ (∃ line', r = RDocument line' ∧ validated_as (aset "_id" i line) line') ∧
    governed (aset "semantic_hash" (get "semantic_hash" line) d) [] line g counted expected.
Proof.
  pose proof example_inserts as Hok. cbv zeta. abstract_line (example_line (VInt 9) []) d Hd.
  destruct (example_write _ _ _) as [o [s' w']] eqn:E. destruct o as [r|]; [|discriminate Hok].
  destruct (insert_line_spec no_clock false true (fun _ => None) (fun s => s) ACollection replica_client false
    (insert_of d) d [] (WriteService [] []) (count_world []) r s' w' eq_refl eq_refl ltac:(by rewrite Hd) E)
    as (mode & session & hash & line & i & _ & _ & Hr & _ & _ & Hg).
  destruct Hg as (g & c & e & Hgov); [by rewrite Hd|]. exists r, line, i, g, c, e.
  split; [done|]. split; [exact Hr|]. assert (get "semantic_hash" line = hash) as ->; [|exact Hgov].
  rewrite <- (get_aset_eq "semantic_hash" hash d). unfold get. by rewrite (gov_kept _ _ _ _ _ _ Hgov).
Defined.

Example insert_keeps_totals_current_witness :
  let out := example_write (insert_of (example_line (VInt 9) [])) [] (count_world []) in
  ∃ session t now,
    find_one (_lookup "S1") (w_db (snd (snd out)) "sessions")
      = Some (apply_update (occ_update (session_update t now)) session) ∧
    t_items t = 1.
Proof.
  pose proof example_inserts as Hok. pose proof example_total as Htotal. cbv zeta in *.
  abstract_line (example_line (VInt 9) []) d Hd.
  destruct (example_write _ _ _) as [o [s' w']] eqn:E. destruct o as [r|]; [|discriminate Hok].
  destruct (insert_keeps_totals_current no_clock false true (fun _ => None) (fun s => s) ACollection replica_client false
    (insert_of d) d [] ["S1"] "S1" (WriteService [] []) (count_world []) r s' w') as (_ & session & t & now & _ & _ & Ht & Hs);
    try (rewrite Hd; reflexivity).
  - apply sessions_ok_single. by vm_compute.
  - reflexivity.
  - exact E.
  - exists session, t, now. split; [exact Hs|]. cbn [snd] in Htotal. rewrite Ht in Htotal. by apply Z.eqb_eq.
Defined.


(** ** What the concrete writes show *)

(** The bulk approval's operation is not one the service knows. *)
Lemma bulk_write_refused {C} `{Mongo C} clock strict logs oid sha attr p ctx b (x : write_service * world C) :
  operation_of p = "bulk_write" →
  _process_write_core clock strict logs oid sha attr p ctx b x =
    (Raise (ValueError "Unsupported count-line write operation: bulk_write"), x).
Proof. intros Hop. unfold _process_write_core. rewrite Hop. reflexivity. Qed.

(** The edit of a counted quantity is to be governed, and the governance step
    does nothing for its operation. *)
Lemma find_and_update_ungoverned {C} `{Mongo C} clock p u ctx b (x : write_service * world C) :
  operation_of p = "find_one_and_update" → p_update p = Some u → has_key "counted_qty" (u_set u) = true →
  has_key "skip_governance" ctx = false →
  _should_apply_governance p ctx = Ok true ∧ _enforce_variance_for_write clock p ctx b x = (Ok p, x).
Proof.
  intros Hop Hu Hq Hs. split.
  - unfold _should_apply_governance. rewrite Hs, Hop, Hu. cbn. by rewrite Hq.
  - unfold _enforce_variance_for_write. by rewrite Hop.
Qed.

(** With a client that answers any attribute with a database, the repository
    calls a database: no write goes through. *)
Lemma database_attribute_refused :
  fst (process_write no_clock false true (fun _ => None) (fun s => s) ADatabase replica_client false
         (insert_of (example_line (VInt 9) [])) [] (WriteService [] [], count_world []))
  = Raise (TypeError "object is not callable").
Proof. vm_compute. reflexivity. Qed.

Definition edit_of (q : query) : payload :=
  Payload "find_one_and_update" None (Some q)
    (Some (Upd [("counted_qty", VFloat (of_frac 3 2))] [("version", VInt 1)] [] [])) true.
Definition stored_line : doc :=
  example_line (VInt 9) [("_id", VOid "l"); ("version", VInt 1); ("approval_status", VStr "APPROVED")].
Definition edited_world (q : query) : world coll :=
  snd (snd (example_write (edit_of q) [] (count_world [stored_line]))).

(** The same invalid edit (half a box), with and without the version in its
    filter: the validation reads the line back by the filter, and finds it only
    without. *)
Lemma versioned_edit_unvalidated :
  let plain := edited_world (QEq "_id" (VOid "l")) in
  let versioned := edited_world (QAnd [QEq "_id" (VOid "l"); QEq "version" (VInt 1)]) in
  length (w_db plain "validation_logs") = 1%nat ∧ w_db versioned "validation_logs" = [] ∧
  map (get "approval_status") (w_db versioned "count_lines") = [VStr "APPROVED"] ∧
  map (get "counted_qty") (w_db versioned "count_lines") = [VFloat (of_frac 3 2)].
Proof. vm_compute. repeat split; reflexivity. Qed.

(** One box of twelve is counted where nine are expected in stock units: the
    conversion is computed, and the line and its variance keep the one. *)
Lemma conversion_not_stored :
  let out := example_write (insert_of (example_line (VInt 1) [("correction_reason", VStr "c")])) [] (count_world []) in
  match normalize_quantity_for_item example_item (example_line (VInt 1) []) with
  | Ok n => nq_counted_qty n = of_Z 12
  | Raise _ => False
  end ∧
  map (get "counted_qty") (w_db (snd (snd out)) "count_lines") = [VInt 1] ∧
  map (get "variance") (w_db (snd (snd out)) "count_lines") = [VFloat (of_Z (-8))].
Proof. vm_compute. repeat split; reflexivity. Qed.
