(* ===== verification/ProjectionCore.v ===== *)
(** The projections of the event log, [services/projections/core.py]
    ([ProjectionService]): the read models that an event changes, and the
    bookkeeping that applies each event once.

    [apply_event] runs in the transaction of its caller, or in one of its own
    where the deployment has transactions.  The check for mocked databases is
    left out.  [_as_float], [_normalize_serials] and the like are module
    functions here and in the services that write count lines; where the text is
    the same the definition is shared. *)

From Stdlib Require Import Ascii.
From S2P Require Import Prelude PyFloat Py Json Store Guard Inventory Uow Frame Lifecycle Quantity Variance CountLines.

Local Open Scope Z_scope.
Local Open Scope stock_scope.

Definition PROJECTION_VERSION : string := "v3.1".

Definition PROJECTION_COLLECTIONS : list string := [
  "items_snapshot"; "batch_records"; "serial_records"; "damage_logs"; "variance_logs"; "approvals"; "sync_queue";
  "erp_snapshot"; "serial_registry"; "item_serials"; "session_dashboard_projection"; "verified_items_projection";
  "variance_summary_projection"; "financial_projection"].

(** ** Helpers *)

Definition as_float (v : val) : outcome float := _as_float v f0.

(** One more serial, in upper case, unless it has been seen. *)
Definition add_upper (normalized : list string) (value : val) : list string :=
  match _normalize_string value with
  | Some serial => let s := upper serial in if str_in s normalized then normalized else normalized ++ [s]
  | None => normalized
  end.

Definition serials_of (document : val) : outcome (list string) :=
  match document with
  | VDict d =>
      obind (iterate (get "serial_numbers" d)) (fun numbers =>
      obind (iterate (get "serial_entries" d)) (fun entries =>
      Ok (fold_left (fun l e => match e with VDict e => add_upper l (get "serial_number" e) | _ => l end) entries
            (fold_left add_upper numbers []))))
  | _ => Ok []
  end.

Record batch_state := Batch { b_batch_no : val; b_counted_qty : float; b_damaged_qty : float }.

Fixpoint batches_of_list (entries : list val) (normalized : list (string * batch_state))
  : outcome (list (string * batch_state)) :=
  match entries with
  | [] => Ok normalized
  | VDict entry :: rest =>
      match _normalize_string (por (get "batch_id" entry) (get "batch_no" entry)) with
      | None => batches_of_list rest normalized
      | Some batch_id =>
          let state := default (Batch (por (get "batch_no" entry) (VStr batch_id)) f0 f0) (aget batch_id normalized) in
          obind (as_float (por (get "counted_qty" entry) (por (get "quantity" entry) (get "qty" entry)))) (fun counted =>
          obind (as_float (get "damaged_qty" entry)) (fun damaged =>
          batches_of_list rest
            (aset batch_id (Batch (b_batch_no state) (fadd (b_counted_qty state) counted)
                              (fadd (b_damaged_qty state) damaged)) normalized)))
      end
  | _ :: rest => batches_of_list rest normalized
  end.

Definition _normalize_batches (document : val) : outcome (list (string * batch_state)) :=
  match document with
  | VDict d =>
      obind (match get "batches" d with VList l => batches_of_list l [] | _ => Ok [] end) (fun normalized =>
      match normalized with
      | _ :: _ => Ok normalized
      | [] =>
          let batch_id := default "NO_BATCH" (_normalize_string (get "batch_id" d)) in
          obind (as_float (get "counted_qty" d)) (fun counted =>
          obind (as_float (get "damaged_qty" d)) (fun damaged =>
          Ok [(batch_id, Batch (por (get "batch_no" d) (VStr batch_id)) counted damaged)]))
      end)
  | _ => Ok []
  end.

Definition _line_status_is_inactive (value : val) : bool :=
  match value with VStr s => str_in (lower (strip s)) ["superseded"; "removed"; "deleted"] | _ => false end.

Definition _line_active (document : doc) : bool :=
  match get "is_removed" document with
  | VBool true => false
  | _ => negb (_line_status_is_inactive (get "status" document))
  end.

Definition status_text (k : string) (document : doc) : string := strip (to_str (por (get k document) (VStr ""))).

Definition _line_verified (document : doc) : bool :=
  match get "verified" document with
  | VBool true => true
  | _ => str_in (lower (status_text "status" document)) ["locked"; "approved"]
         || String.eqb (upper (status_text "approval_status" document)) "APPROVED"
  end.

Definition _variance_pending (document : doc) : bool :=
  let approval_status := upper (status_text "approval_status" document) in
  let status := upper (status_text "status" document) in
  if str_in approval_status ["APPROVED"; "RESOLVED"] then false
  else str_in status ["PENDING"; "PENDING_APPROVAL"; "NEEDS_REVIEW"; "RECOUNT_REQUESTED"; "REJECTED"; "RECOUNT"]
       || str_in approval_status [""; "PENDING"; "NEEDS_REVIEW"; "RECOUNT_REQUESTED"; "REJECTED"].

Definition _resolve_unit_value (document : doc) : outcome float :=
  first_price ["last_cost"; "sale_price"; "sales_price"; "mrp"; "mrp_counted"; "mrp_erp"; "cost"; "price"] document.

Definition _line_identifier (document : doc) : option string := _normalize_string (por (get "id" document) (get "_id" document)).

Definition opt_id (o : option string) : val := match o with Some s => VStr s | None => VNone end.

Definition event_id_of (event : doc) : val := por (get "_id" event) (get "id" event).
Definition event_type_of (event : doc) : string := upper (strip (to_str (por (get "event_type" event) (VStr "")))).
Definition payload_of (event : doc) : doc := match get "payload" event with VDict p => p | _ => [] end.

(** [payload.get(k) if isinstance(payload.get(k), dict) else None] *)
Definition image (k : string) (payload : doc) : val := match get k payload with VDict d => VDict d | _ => VNone end.

(** [after or payload.get("count_line") or before] *)
Definition line_of (payload : doc) : val :=
  por (image "after" payload) (por (get "count_line" payload) (image "before" payload)).

(** [(payload.get("delta") or {}).get(k)] *)
Definition delta_of (k : string) (payload : doc) : outcome val := val_get k (por (get "delta" payload) (VDict [])).

(** [max(x, 0.0)] and [min(x, 0.0)] *)
Definition max0 (x : float) : float := if flt x f0 then f0 else x.
Definition min0 (x : float) : float := if flt f0 x then f0 else x.

Definition _item_scope_query (item_id item_code : string) : query :=
  QOr [QEq "item_id" (VStr item_id); QEq "item_code" (VStr item_code)].
Definition _serial_scope_query (item_id item_code serial_field serial_value : string) : query :=
  QAnd [QEq serial_field (VStr serial_value); _item_scope_query item_id item_code].

Definition by_session (session_id : string) : query := QEq "session_id" (VStr session_id).
Definition by_item (session_id item_code : string) : query :=
  QAnd [QEq "session_id" (VStr session_id); QEq "item_code" (VStr item_code)].
Definition by_event (event_id : string) : query := QEq "event_id" (VStr event_id).

(** ** Rows *)

Definition counter_fields : list string := [
  "total_items"; "verified_items"; "pending_items"; "damage_items"; "total_variance"; "positive_variance";
  "negative_variance"; "scanned_items"; "pending_approvals"; "approved_count"].

(** The dashboard row of a session after an event. *)
Definition session_row (session_id : string) (event payload current : doc) (now : Z) : outcome doc :=
  let kept k c := dget k (get c current) payload in
  let moment := por (get "updated_at" payload) (por (get "timestamp" event) (VTime now)) in
  obind (to_int (por (get "item_count" payload) (por (get "snapshot_item_count" current) (VInt 0)))) (fun item_count =>
  obind (to_int (por (get "version" payload) (por (get "version" current) (VInt 0)))) (fun version =>
  let status := por (get "status" payload) (por (get "to_status" payload) (por (get "status" current) (VStr "OPEN"))) in
  let row := [
    ("session_id", VStr session_id); ("warehouse", kept "warehouse" "warehouse");
    ("location_id", kept "location_id" "location_id"); ("location_key", kept "location_key" "location_key");
    ("location_type", kept "location_type" "location_type"); ("location_name", kept "location_name" "location_name");
    ("rack_no", kept "rack_no" "rack_no"); ("staff_user", kept "staff_user" "staff_user");
    ("staff_name", kept "staff_name" "staff_name"); ("status", status);
    ("type", dget "type" (por (get "type" current) (VStr "STANDARD")) payload);
    ("started_at", get "started_at" current); ("last_heartbeat", kept "last_heartbeat" "last_heartbeat");
    ("closed_at", get "closed_at" current); ("completed_at", get "completed_at" current);
    ("reconciled_at", get "reconciled_at" current); ("finalized_at", get "finalized_at" current);
    ("finalized_by", get "finalized_by" current);
    ("finalization_status", kept "finalization_status" "finalization_status"); ("notes", kept "note" "notes");
    ("snapshot_hash", kept "snapshot_hash" "snapshot_hash"); ("snapshot_item_count", VInt item_count);
    ("version", VInt version); ("updated_at", moment); ("last_event_id", event_id_of event);
    ("last_event_type", get "event_type" event); ("projection_version", VStr PROJECTION_VERSION)] in
  let event_type := event_type_of event in
  let row :=
    if String.eqb event_type "SESSION_CREATED" then aupd row [("started_at", moment); ("last_heartbeat", moment)]
    else if String.eqb event_type "SESSION_TRANSITIONED" then
      let target := por (get "to_status" payload) status in
      let mark s k row := if py_eqb target (VStr s) then aset k moment row else row in
      mark "FINALIZED" "finalized_at" (mark "CLOSED" "closed_at" (mark "RECONCILE" "reconciled_at" (aset "status" target row)))
    else if String.eqb event_type "SESSION_HEARTBEAT" then aset "last_heartbeat" moment row
    else if String.eqb event_type "SESSION_FINALIZED" then
      aupd row [("status", VStr "FINALIZED"); ("finalized_at", moment); ("completed_at", moment); ("closed_at", moment);
                ("finalized_by", por (get "finalized_by" payload) (por (get "actor" payload) (get "finalized_by" current)))]
    else row in
  Ok (fold_left (fun row k => match aget k payload, aget k current with
                              | Some v, _ | None, Some v => aset k v row
                              | None, None => row
                              end) counter_fields row))).

Record dashboard := Dashboard {
  d_total : Z; d_verified : Z; d_damage : Z; d_variance : float; d_positive : float; d_negative : float; d_latest : option Z;
}.

Fixpoint count_rows (rows : list doc) (t : dashboard) : outcome dashboard :=
  match rows with
  | [] => Ok t
  | row :: rest =>
      if negb (_line_active row) then count_rows rest t
      else
        obind (as_float (get "variance" row)) (fun variance =>
        obind (as_float (get "damaged_qty" row)) (fun damaged =>
        let latest := match get "counted_at" row, d_latest t with
                      | VTime c, None => Some c
                      | VTime c, Some l => if l <? c then Some c else Some l
                      | _, l => l
                      end in
        count_rows rest
          (Dashboard (d_total t + 1) (if _line_verified row then d_verified t + 1 else d_verified t)
             (if flt f0 damaged then d_damage t + 1 else d_damage t) (fadd (d_variance t) variance)
             (fadd (d_positive t) (max0 variance)) (fadd (d_negative t) (min0 variance)) latest)))
  end.

Definition count_where (f : doc → bool) (rows : list doc) : Z := Z.of_nat (length (List.filter f rows)).

Definition dashboard_fields (t : dashboard) (pending_approvals approved_count now : Z) : doc :=
  [("total_items", VInt (d_total t)); ("scanned_items", VInt (d_total t)); ("verified_items", VInt (d_verified t));
   ("pending_items", VInt (Z.max (d_total t - d_verified t) 0)); ("damage_items", VInt (d_damage t));
   ("total_variance", VFloat (d_variance t)); ("positive_variance", VFloat (d_positive t));
   ("negative_variance", VFloat (d_negative t)); ("pending_approvals", VInt pending_approvals);
   ("approved_count", VInt approved_count);
   ("completion_percent", VFloat (if d_total t =? 0 then f0 else fmul (of_ratio (d_verified t) (d_total t)) (of_Z 100)));
   ("updated_at", VTime now); ("last_counted_at", match d_latest t with Some l => VTime l | None => VNone end);
   ("projection_version", VStr PROJECTION_VERSION)].

Record money := Money {
  m_counted_qty : float; m_stock_qty : float; m_counted_value : float; m_stock_value : float;
  m_shortage : float; m_overage : float; m_damage : float;
}.

Definition add_money (t : money) (counted_qty stock_qty damaged_qty unit_value : float) : money :=
  let variance := fsub counted_qty stock_qty in
  Money (fadd (m_counted_qty t) counted_qty) (fadd (m_stock_qty t) stock_qty)
    (fadd (m_counted_value t) (fmul counted_qty unit_value)) (fadd (m_stock_value t) (fmul stock_qty unit_value))
    (fadd (m_shortage t) (fmul (fabs (min0 variance)) unit_value)) (fadd (m_overage t) (fmul (max0 variance) unit_value))
    (fadd (m_damage t) (fmul damaged_qty unit_value)).

Definition money_fields (session_id : string) (t : money) (now : Z) : doc :=
  [("session_id", VStr session_id); ("total_counted_qty", VFloat (m_counted_qty t));
   ("total_stock_qty", VFloat (m_stock_qty t));
   ("complete_percent", VFloat (if feq (m_stock_qty t) f0 then f0
                                else fmul (fdiv (m_counted_qty t) (m_stock_qty t)) (of_Z 100)));
   ("total_counted_value", VFloat (m_counted_value t)); ("total_stock_value", VFloat (m_stock_value t));
   ("shortage_value", VFloat (m_shortage t)); ("overage_value", VFloat (m_overage t));
   ("damage_value", VFloat (m_damage t)); ("valuation_basis", VStr "last_cost"); ("updated_at", VTime now);
   ("projection_version", VStr PROJECTION_VERSION)].

(** The quantities of a line, and its variance. *)
Definition line_quantities (line : doc) : outcome (float * float * float * float) :=
  obind (as_float (get "counted_qty" line)) (fun counted_qty =>
  obind (as_float (get "damaged_qty" line)) (fun damaged_qty =>
  obind (as_float (por (get "erp_qty" line) (por (get "current_sql_qty" line)
                     (por (get "system_qty" line) (get "expected_qty" line))))) (fun stock_qty =>
  obind (if blank (get "variance" line) then Ok (fsub counted_qty stock_qty)
         else _as_float (get "variance" line) (fsub counted_qty stock_qty)) (fun variance =>
  Ok (counted_qty, damaged_qty, stock_qty, variance))))).

Definition variance_percentage (variance stock_qty : float) : float :=
  if feq stock_qty f0 then (if feq variance f0 then f0 else of_Z 100)
  else fmul (fdiv variance (fabs stock_qty)) (of_Z 100).

Definition verified_row (line_id session_id : string) (item_id batch_id : option string) (item_code : string)
    (line session : doc) (counted_qty damaged_qty stock_qty variance unit_value : float) (event : doc) (now : Z) : doc :=
  [("count_line_id", VStr line_id); ("id", VStr line_id); ("session_id", VStr session_id); ("item_id", opt_id item_id);
   ("item_code", VStr item_code); ("item_name", get "item_name" line); ("barcode", get "barcode" line);
   ("category", get "category" line); ("warehouse", por (get "warehouse" line) (get "warehouse" session));
   ("floor", por (get "floor_no" line) (por (get "floor_id" line) (get "location_name" session)));
   ("rack_id", por (get "rack_id" line) (get "rack_no" line)); ("rack_no", por (get "rack_no" line) (get "rack_id" line));
   ("batch_id", opt_id batch_id); ("stock_qty", VFloat stock_qty); ("counted_qty", VFloat counted_qty);
   ("damaged_qty", VFloat damaged_qty); ("variance", VFloat variance);
   ("variance_percentage", VFloat (variance_percentage variance stock_qty)); ("mrp", VFloat unit_value);
   ("unit_value", VFloat unit_value);
   ("verified", VBool (truthy (get "verified" line)
                       || String.eqb (upper (to_str (por (get "approval_status" line) (VStr "")))) "APPROVED"));
   ("verified_by", por (get "verified_by" line) (get "approved_by" line));
   ("verified_at", por (get "verified_at" line) (get "approved_at" line));
   ("counted_by", por (get "counted_by" line) (get "created_by" line)); ("counted_at", get "counted_at" line);
   ("notes", por (get "notes" line) (por (get "approval_note" line) (get "variance_note" line)));
   ("status", get "status" line); ("approval_status", get "approval_status" line);
   ("approved_by", get "approved_by" line); ("approved_at", get "approved_at" line);
   ("blind_recount_required", VBool (truthy (get "blind_recount_required" line)));
   ("dual_verification_required", VBool (truthy (get "dual_verification_required" line)));
   ("original_count_hidden", VBool (truthy (get "original_count_hidden" line))); ("updated_at", VTime now);
   ("last_event_id", event_id_of event); ("last_event_type", get "event_type" event);
   ("projection_version", VStr PROJECTION_VERSION); ("is_removed", VBool false)].

Definition variance_row (verified_doc : doc) (line_id : string) (line : doc) : doc :=
  aupd verified_doc
    [("count_line_id", VStr line_id); ("approved_by", get "approved_by" line); ("approved_at", get "approved_at" line);
     ("assigned_to", get "assigned_to" line);
     ("rejection_reason", por (get "rejection_reason" line) (get "variance_reason" line));
     ("projection_version", VStr PROJECTION_VERSION)].

Definition snapshot_fields (session_id item_id item_code : string) (line event : doc) (at_ : val) (now : Z) : doc :=
  [("session_id", VStr session_id); ("item_id", VStr item_id); ("item_code", VStr item_code);
   ("item_name", get "item_name" line);
   ("base_uom", por (get "base_uom" line) (por (get "uom_code" line) (get "uom_name" line)));
   ("input_uom", por (get "input_uom" line) (por (get "uom_code" line) (get "uom_name" line)));
   ("location_id", get "location_id" line); ("floor_id", por (get "floor_id" line) (get "floor_no" line));
   ("floor_no", por (get "floor_no" line) (get "floor_id" line));
   ("rack_id", por (get "rack_id" line) (get "rack_no" line)); ("rack_no", por (get "rack_no" line) (get "rack_id" line));
   ("counted_by", por (get "counted_by" line) (get "created_by" line));
   ("updated_by", por (get "updated_by" line) (get "counted_by" line)); ("counted_at", get "counted_at" line);
   ("last_event_id", event_id_of event); ("last_event_type", get "event_type" event); ("last_event_at", at_);
   ("updated_at", VTime now); ("projection_version", VStr PROJECTION_VERSION)].

Definition snapshot_update (session_id item_id item_code : string) (line event : doc) (at_ : val) (now : Z)
    (counted_delta damaged_delta : float) (serial_delta : Z) : update :=
  Upd (snapshot_fields session_id item_id item_code line event at_ now)
      [("counted_qty", VFloat counted_delta); ("damaged_qty", VFloat damaged_delta); ("serial_count", VInt serial_delta)]
      [] [].

(** The changes of an inventory event: the quantities of its delta, or of the
    line itself when a scan has none. *)
Definition event_deltas (event payload line : doc) : outcome (float * float * Z) :=
  obind (obind (delta_of "counted_qty" payload) as_float) (fun counted_delta =>
  obind (obind (delta_of "damaged_qty" payload) as_float) (fun damaged_delta =>
  obind (obind (delta_of "serial_count" payload) (fun v => to_int (por v (VInt 0)))) (fun serial_delta =>
  if py_eqb (get "event_type" event) (VStr "SCAN_ADDED") && feq counted_delta f0 then
    obind (as_float (get "counted_qty" line)) (fun counted =>
    obind (as_float (get "damaged_qty" line)) (fun damaged =>
    obind (serials_of (por (image "after" payload) (VDict line))) (fun serials =>
    Ok (counted, damaged, Z.of_nat (length serials)))))
  else Ok (counted_delta, damaged_delta, serial_delta)))).

Definition batch_row (session_id item_id item_code batch_id : string) (before after : option batch_state)
    (line event : doc) (at_ : val) (now : Z) : doc :=
  let batch_no o := match o with Some b => b_batch_no b | None => VNone end in
  [("session_id", VStr session_id); ("item_id", VStr item_id); ("item_code", VStr item_code);
   ("batch_id", VStr batch_id); ("batch_no", por (batch_no after) (por (batch_no before) (VStr batch_id)));
   ("item_name", get "item_name" line); ("counted_by", por (get "counted_by" line) (get "created_by" line));
   ("counted_at", get "counted_at" line); ("last_event_id", event_id_of event);
   ("last_event_type", get "event_type" event); ("last_event_at", at_); ("updated_at", VTime now);
   ("projection_version", VStr PROJECTION_VERSION)].

Definition serial_record (session_id item_id item_code batch_id serial : string) (line : doc) (damaged : float)
    (at_ : val) (now : Z) : doc :=
  [("item_id", VStr item_id); ("serial_no", VStr serial); ("session_id", VStr session_id);
   ("item_code", VStr item_code); ("batch_id", VStr batch_id); ("count_line_id", opt_id (_line_identifier line));
   ("status", VStr (if flt f0 damaged then "DAMAGED" else "GOOD")); ("last_event_at", at_); ("updated_at", VTime now);
   ("projection_version", VStr PROJECTION_VERSION)].

Definition registry_row (session_id item_id item_code batch_id serial : string) (line event : doc) (now : Z) : doc :=
  [("item_id", VStr item_id); ("serial_no", VStr serial); ("session_id", VStr session_id);
   ("item_code", VStr item_code); ("item_name", get "item_name" line);
   ("counted_by", por (get "counted_by" line) (get "created_by" line));
   ("floor_id", por (get "floor_id" line) (get "floor_no" line));
   ("rack_id", por (get "rack_id" line) (get "rack_no" line)); ("batch_id", VStr batch_id);
   ("count_line_id", opt_id (_line_identifier line)); ("status", VStr "LOCKED");
   ("source_event_id", event_id_of event); ("updated_at", VTime now); ("projection_version", VStr PROJECTION_VERSION)].

Definition item_serial_row (session_id item_id item_code batch_id serial : string) (line : doc) (now : Z) : doc :=
  [("item_id", VStr item_id); ("serial_number", VStr serial); ("session_id", VStr session_id);
   ("item_code", VStr item_code); ("item_name", get "item_name" line);
   ("count_line_id", opt_id (_line_identifier line)); ("rack_id", por (get "rack_id" line) (get "rack_no" line));
   ("floor_no", por (get "floor_id" line) (get "floor_no" line)); ("batch_id", VStr batch_id);
   ("status", VStr "LOCKED"); ("updated_at", VTime now); ("projection_version", VStr PROJECTION_VERSION)].

Definition erp_row (session_id item_id item_code : string) (baseline current_sql : float) (line event : doc) (now : Z) : doc :=
  [("session_id", VStr session_id); ("item_id", VStr item_id); ("item_code", VStr item_code);
   ("baseline_qty", VFloat baseline); ("current_sql_qty", VFloat current_sql);
   ("baseline_hash", get "baseline_hash" line); ("updated_at", VTime now); ("last_event_id", event_id_of event);
   ("projection_version", VStr PROJECTION_VERSION)].

Definition damage_row (event_id : string) (line : doc) (qty : float) (at_ : val) (now : Z) : doc :=
  [("event_id", VStr event_id); ("session_id", get "session_id" line); ("item_code", get "item_code" line);
   ("batch_id", get "batch_id" line); ("count_line_id", opt_id (_line_identifier line)); ("qty", VFloat qty);
   ("reason", por (get "condition_details" line) (por (get "item_condition" line)
                (por (get "variance_reason" line) (VStr "UNSPECIFIED"))));
   ("location", por (get "mark_location" line) (por (get "location_id" line)
                  (por (get "floor_id" line) (get "floor_no" line))));
   ("timestamp", at_); ("updated_at", VTime now); ("projection_version", VStr PROJECTION_VERSION)].

Definition variance_log_row (event_id : string) (line : doc) (variance : float) (at_ : val) (now : Z) : doc :=
  [("event_id", VStr event_id); ("session_id", get "session_id" line); ("item_code", get "item_code" line);
   ("batch_id", get "batch_id" line); ("count_line_id", opt_id (_line_identifier line));
   ("variance", VFloat variance); ("variance_reason", get "variance_reason" line);
   ("approval_status", get "approval_status" line); ("status", get "status" line); ("timestamp", at_);
   ("updated_at", VTime now); ("projection_version", VStr PROJECTION_VERSION)].

Definition approval_row (approval_id : string) (line event : doc) (now : Z) : doc :=
  [("approval_id", VStr approval_id); ("session_id", get "session_id" line); ("item_code", get "item_code" line);
   ("count_line_id", opt_id (_line_identifier line)); ("approved_by", get "approved_by" line);
   ("approved_at", por (get "approved_at" line) (get "timestamp" event)); ("approval_note", get "approval_note" line);
   ("status", por (get "approval_status" line) (VStr "APPROVED")); ("updated_at", VTime now);
   ("projection_version", VStr PROJECTION_VERSION)].

Definition queue_row (queue_id : string) (event payload : doc) (now : Z) (at_ : val) : doc :=
  [("queue_id", VStr queue_id); ("event_type", get "event_type" event);
   ("status", por (get "status" payload) (VStr "PENDING")); ("session_id", get "session_id" payload);
   ("item_code", get "item_code" payload); ("strategy", get "strategy" payload); ("details", get "details" payload);
   ("resolved_by", get "resolved_by" payload); ("updated_at", VTime now); ("last_event_at", at_);
   ("projection_version", VStr PROJECTION_VERSION)].

Definition applying_row (event_id : string) (event payload : doc) (now : Z) : doc :=
  [("event_id", VStr event_id); ("event_type", get "event_type" event); ("aggregate_id", get "aggregate_id" event);
   ("session_id", get "session_id" payload); ("item_id", get "item_id" payload); ("status", VStr "applying");
   ("started_at", VTime now); ("projection_version", VStr PROJECTION_VERSION)].

Definition applied_fields (event payload : doc) (now : Z) : doc :=
  [("status", VStr "applied"); ("applied_at", VTime now); ("event_type", get "event_type" event);
   ("aggregate_id", get "aggregate_id" event); ("session_id", get "session_id" payload);
   ("item_id", get "item_id" payload); ("projection_timestamp", get "timestamp" event);
   ("projection_version", VStr PROJECTION_VERSION)].

Definition is_applied (existing : doc) : bool := py_eqb (get "status" existing) (VStr "applied").

Definition session_events : list string := [
  "SESSION_SNAPSHOT_CREATED"; "SESSION_CREATED"; "SESSION_TRANSITIONED"; "SESSION_TOTALS_UPDATED"; "SESSION_UPDATED";
  "SESSION_HEARTBEAT"; "SESSION_FINALIZED"].
Definition inventory_events : list string := [
  "SCAN_ADDED"; "QUANTITY_ADJUSTED"; "COUNT_LINE_REMOVED"; "COUNT_LINE_MERGED"; "COUNT_LINE_SUPERSEDED";
  "COUNT_VERIFIED"; "COUNT_UNVERIFIED"].

(** The order of a rebuild: by timestamp, then by id; a missing timestamp is
    [datetime.min].  Values of different types have no order. *)
Definition DATETIME_MIN : Z := -62135596800000000.

Definition replay_key (event : doc) : val * string :=
  (por (get "timestamp" event) (VTime DATETIME_MIN), to_str (por (event_id_of event) (VStr ""))).

Definition str_le (a b : string) : bool := match String.compare a b with Gt => false | _ => true end.

(** [not (b < a)], which decides where a stable sort puts [b] after [a] *)
Definition key_le (a b : val * string) : outcome bool :=
  let order (lt eq : bool) := Ok (lt || eq && str_le (snd a) (snd b)) in
  match fst a, fst b with
  | VTime x, VTime y => order (x <? y) (x =? y)
  | VInt x, VInt y => order (x <? y) (x =? y)
  | VStr x, VStr y => order (negb (str_le y x)) (String.eqb x y)
  | _, _ => Raise (TypeError "'<' not supported between instances of these types")
  end.

Fixpoint insert_event (e : doc) (l : list doc) : outcome (list doc) :=
  match l with
  | [] => Ok [e]
  | e' :: rest =>
      obind (key_le (replay_key e) (replay_key e')) (fun le =>
      if le then Ok (e :: l) else obind (insert_event e rest) (fun rest => Ok (e' :: rest)))
  end.

(** [events.sort(key=...)] *)
Fixpoint sort_events (events : list doc) : outcome (list doc) :=
  match events with
  | [] => Ok []
  | e :: rest => obind (sort_events rest) (insert_event e)
  end.

Section service.
Context {C : Type} `{Mongo C}.
Context (clock : nat → Z).

Definition now_dt : M (world C) Z := utc_now clock.

(** [event.get("timestamp") or _utc_now()] *)
Definition event_time (event : doc) : M (world C) val :=
  if truthy (get "timestamp" event) then ret (get "timestamp" event)
  else do now <- now_dt ;; ret (VTime now).

Definition upsert_ (name : string) (q : query) (u : update) : M (world C) unit :=
  do _ <- db_upsert_one name q u ;; ret tt.
Definition delete_ (name : string) (q : query) : M (world C) unit :=
  do _ <- db_delete_one name q ;; ret tt.

Fixpoint for_each {A} (l : list A) (f : A → M (world C) unit) : M (world C) unit :=
  match l with [] => ret tt | a :: rest => run f a ;; for_each rest f end.

(** ** The dashboard and the money of a session *)

Definition _project_session_event (event payload : doc) : M (world C) unit :=
  match _normalize_string (por (get "session_id" payload) (get "aggregate_id" event)) with
  | None => ret tt
  | Some session_id =>
      do existing <- db_find_one "session_dashboard_projection" (by_session session_id) ;;
      do now <- now_dt ;;
      do next_doc <- lift (session_row session_id event payload (default [] existing) now) ;;
      upsert_ "session_dashboard_projection" (by_session session_id) (USet next_doc)
  end.

Definition _refresh_session_dashboard_projection (session_id : string) : M (world C) unit :=
  do session_doc <- db_find_one "session_dashboard_projection" (by_session session_id) ;;
  match session_doc with
  | None => ret tt
  | Some _ =>
      do rows <- db_find "verified_items_projection" (by_session session_id) ;;
      do totals <- lift (count_rows rows (Dashboard 0 0 0 f0 f0 f0 None)) ;;
      do variances <- db_find "variance_summary_projection" (by_session session_id) ;;
      let approved row := String.eqb (upper (status_text "approval_status" row)) "APPROVED" in
      do now <- now_dt ;;
      upsert_ "session_dashboard_projection" (by_session session_id)
        (USet (dashboard_fields totals (count_where _variance_pending variances) (count_where approved variances) now))
  end.

Fixpoint sum_items (session_id : string) (rows : list doc) (t : money) : M (world C) money :=
  match rows with
  | [] => ret t
  | row :: rest =>
      match _normalize_string (get "item_code" row) with
      | None => sum_items session_id rest t
      | Some item_code =>
          do counted_qty <- lift (as_float (get "counted_qty" row)) ;;
          do damaged_qty <- lift (as_float (get "damaged_qty" row)) ;;
          do erp_snapshot <- db_find_one "erp_snapshot" (by_item session_id item_code) ;;
          let erp := default [] erp_snapshot in
          do stock_qty <- lift (as_float (por (get "current_sql_qty" erp) (por (get "baseline_qty" erp) (VFloat f0)))) ;;
          do line_row <- db_find_one "verified_items_projection" (by_item session_id item_code) ;;
          let line := default [] line_row in
          do unit_value <- lift (as_float (por (get "unit_value" line) (get "mrp" line))) ;;
          sum_items session_id rest (add_money t counted_qty stock_qty damaged_qty unit_value)
      end
  end.

Definition _refresh_financial_projection (session_id : string) : M (world C) unit :=
  do rows <- db_find "items_snapshot" (by_session session_id) ;;
  do totals <- sum_items session_id rows (Money f0 f0 f0 f0 f0 f0 f0) ;;
  do now <- now_dt ;;
  upsert_ "financial_projection" (by_session session_id) (USet (money_fields session_id totals now)).

Definition refresh (session_id : string) : M (world C) unit :=
  run _refresh_session_dashboard_projection session_id ;; _refresh_financial_projection session_id.

(** ** The lines *)

Definition by_line (line_id : string) : query := QEq "count_line_id" (VStr line_id).

Definition shows_variance (variance : float) (verified_doc : doc) : bool :=
  flt (of_ratio 1 1000000000) (fabs variance) || truthy (get "approval_status" verified_doc)
  || truthy (get "blind_recount_required" verified_doc).

Definition drops_line (event line : doc) : bool :=
  str_in (event_type_of event) ["COUNT_LINE_REMOVED"; "COUNT_LINE_SUPERSEDED"] || _line_status_is_inactive (get "status" line).

(** The branch of a line that is counted. *)
Definition project_active_line (line_id session_id item_code : string) (line event payload : doc) : M (world C) unit :=
  let item_id := _normalize_string (por (get "item_id" line) (por (get "item_id" payload) (VStr item_code))) in
  let batch_id := _normalize_string (por (get "batch_id" line) (get "batch_id" payload)) in
  do quantities <- lift (line_quantities line) ;;
  let '(counted_qty, damaged_qty, stock_qty, variance) := quantities in
  do unit_value <- lift (_resolve_unit_value line) ;;
  do session_projection <- db_find_one "session_dashboard_projection" (by_session session_id) ;;
  do now <- now_dt ;;
  let verified_doc := verified_row line_id session_id item_id batch_id item_code line (default [] session_projection)
                        counted_qty damaged_qty stock_qty variance unit_value event now in
  run upsert_ "verified_items_projection" (by_line line_id) (USet verified_doc) ;;
  run (if shows_variance variance verified_doc
       then upsert_ "variance_summary_projection" (by_line line_id) (USet (variance_row verified_doc line_id line))
       else delete_ "variance_summary_projection" (by_line line_id)) ;;
  refresh session_id.

Definition _project_verified_item_projection (event payload : doc) : M (world C) unit :=
  match line_of payload with
  | VDict line =>
      match or_else (_line_identifier line) (_normalize_string (get "count_line_id" payload)),
            _normalize_string (por (get "session_id" payload) (get "session_id" line)) with
      | Some line_id, Some session_id =>
          if drops_line event line then
            run delete_ "verified_items_projection" (by_line line_id) ;;
            run delete_ "variance_summary_projection" (by_line line_id) ;;
            refresh session_id
          else
            match _normalize_string (por (get "item_code" line) (get "item_id" payload)) with
            | None => ret tt
            | Some item_code => project_active_line line_id session_id item_code line event payload
            end
      | _, _ => ret tt
      end
  | _ => ret tt
  end.

(** ** An inventory event *)

Definition qty_or_zero (f : batch_state → float) (o : option batch_state) : float :=
  match o with Some b => f b | None => f0 end.

(** One batch of the line, before and after. *)
Definition project_batch (session_id item_id item_code : string) (line event : doc)
    (before_batches after_batches : list (string * batch_state)) (batch_id : string) : M (world C) unit :=
  let before := aget batch_id before_batches in
  let after := aget batch_id after_batches in
  let counted := fsub (qty_or_zero b_counted_qty after) (qty_or_zero b_counted_qty before) in
  let damaged := fsub (qty_or_zero b_damaged_qty after) (qty_or_zero b_damaged_qty before) in
  if feq counted f0 && feq damaged f0 then ret tt
  else
    do at_ <- event_time event ;;
    do now <- now_dt ;;
    upsert_ "batch_records"
      (QAnd [QEq "session_id" (VStr session_id); QEq "item_code" (VStr item_code); QEq "batch_id" (VStr batch_id)])
      (Upd (batch_row session_id item_id item_code batch_id before after line event at_ now)
           [("counted_qty", VFloat counted); ("damaged_qty", VFloat damaged)] [] []).

Definition project_serial (session_id item_id item_code batch_id : string) (line event : doc) (serial : string)
  : M (world C) unit :=
  let serial_query := _serial_scope_query item_id item_code "serial_no" serial in
  let item_serial_query := _serial_scope_query item_id item_code "serial_number" serial in
  do damaged <- lift (as_float (get "damaged_qty" line)) ;;
  do at_ <- event_time event ;;
  do now <- now_dt ;;
  run upsert_ "serial_records" serial_query
        (USet (serial_record session_id item_id item_code batch_id serial line damaged at_ now)) ;;
  do now <- now_dt ;;
  run upsert_ "serial_registry" serial_query
        (USet (registry_row session_id item_id item_code batch_id serial line event now)) ;;
  do now <- now_dt ;;
  upsert_ "item_serials" item_serial_query (USet (item_serial_row session_id item_id item_code batch_id serial line now)).

Definition remove_serial (item_id item_code serial : string) : M (world C) unit :=
  let serial_query := _serial_scope_query item_id item_code "serial_no" serial in
  run delete_ "serial_records" serial_query ;;
  run delete_ "serial_registry" serial_query ;;
  delete_ "item_serials" (_serial_scope_query item_id item_code "serial_number" serial).

(** The line's new and former images. *)
Definition image_parts (event payload line : doc)
  : outcome (list string * list string * list (string * batch_state) * list (string * batch_state)) :=
  let before := image "before" payload in
  let after := image "after" payload in
  obind (serials_of before) (fun before_serials =>
  obind (serials_of after) (fun after_serials =>
  obind (_normalize_batches before) (fun before_batches =>
  obind (_normalize_batches after) (fun after_batches =>
  obind (match after_batches with
         | [] => if py_eqb (get "event_type" event) (VStr "SCAN_ADDED") then _normalize_batches (por after (VDict line))
                 else Ok []
         | _ => Ok after_batches
         end) (fun after_batches =>
  Ok (sorted_set after_serials, sorted_set (List.filter (fun s => negb (str_in s after_serials)) before_serials),
      before_batches, after_batches)))))).

(** What an inventory event is about: the session, the item and the line. *)
Definition inventory_scope (payload : doc) : option (string * string * string * doc) :=
  match line_of payload with
  | VDict line =>
      match _normalize_string (por (get "session_id" payload) (get "session_id" line)),
            _normalize_string (por (get "item_id" payload) (por (get "item_id" line) (get "item_code" line))) with
      | Some session_id, Some item_id =>
          match _normalize_string (por (get "item_code" line) (por (get "item_id" payload) (VStr item_id))) with
          | Some item_code => Some (session_id, item_id, item_code, line)
          | None => None
          end
      | _, _ => None
      end
  | _ => None
  end.

(** What follows the snapshot: the batches, the serials, the ERP side and the
    line. *)
Definition project_details (session_id item_id item_code : string) (line event payload : doc)
    (parts : list string * list string * list (string * batch_state) * list (string * batch_state)) : M (world C) unit :=
  let '(added_serials, removed_serials, before_batches, after_batches) := parts in
  let batch_id := default "NO_BATCH" (_normalize_string (por (get "batch_id" payload) (get "batch_id" line))) in
  run for_each (sorted_set (map fst before_batches ++ map fst after_batches))
        (project_batch session_id item_id item_code line event before_batches after_batches) ;;
  run for_each added_serials (project_serial session_id item_id item_code batch_id line event) ;;
  run for_each removed_serials (remove_serial item_id item_code) ;;
  do baseline <- lift (as_float (get "erp_qty" line)) ;;
  do current_sql <- lift (as_float (get "current_sql_qty" line)) ;;
  do now <- now_dt ;;
  run upsert_ "erp_snapshot" (by_item session_id item_code)
        (USet (erp_row session_id item_id item_code baseline current_sql line event now)) ;;
  _project_verified_item_projection event payload.

Definition _project_inventory_event (event payload : doc) : M (world C) unit :=
  match inventory_scope payload with
  | None => ret tt
  | Some (session_id, item_id, item_code, line) =>
      do deltas <- lift (event_deltas event payload line) ;;
      let '(counted_delta, damaged_delta, serial_delta) := deltas in
      do parts <- lift (image_parts event payload line) ;;
      do at_ <- event_time event ;;
      do now <- now_dt ;;
      run upsert_ "items_snapshot" (by_item session_id item_code)
            (snapshot_update session_id item_id item_code line event at_ now counted_delta damaged_delta serial_delta) ;;
      project_details session_id item_id item_code line event payload parts
  end.

(** ** The logs *)

(** [payload.get("after") or payload.get("count_line") or payload.get("before")] *)
Definition logged_line (payload : doc) : val :=
  por (get "after" payload) (por (get "count_line" payload) (get "before" payload)).

Definition log_id (prefix : string) (event : doc) : M (world C) string :=
  match _normalize_string (event_id_of event) with
  | Some i => ret i
  | None => do now <- now_dt ;; ret (prefix +:+ "-" +:+ isoformat " " now)
  end.

Definition _project_damage_log (event payload : doc) : M (world C) unit :=
  match logged_line payload with
  | VDict line =>
      do event_id <- log_id "damage" event ;;
      do qty <- lift (obind (obind (delta_of "damaged_qty" payload) as_float) (fun delta =>
                      if feq delta f0 then as_float (get "damaged_qty" line) else Ok delta)) ;;
      do at_ <- event_time event ;;
      do now <- now_dt ;;
      run upsert_ "damage_logs" (by_event event_id) (USet (damage_row event_id line qty at_ now)) ;;
      _project_verified_item_projection event payload
  | _ => ret tt
  end.

Definition _project_variance_log (event payload : doc) : M (world C) unit :=
  match logged_line payload with
  | VDict line =>
      do event_id <- log_id "variance" event ;;
      do variance <- lift (as_float (get "variance" line)) ;;
      do at_ <- event_time event ;;
      do now <- now_dt ;;
      run upsert_ "variance_logs" (by_event event_id) (USet (variance_log_row event_id line variance at_ now)) ;;
      _project_verified_item_projection event payload
  | _ => ret tt
  end.

Definition _project_approval (event payload : doc) : M (world C) unit :=
  match logged_line payload with
  | VDict line =>
      do approval_id <- log_id "approval" event ;;
      do now <- now_dt ;;
      run upsert_ "approvals" (QEq "approval_id" (VStr approval_id)) (USet (approval_row approval_id line event now)) ;;
      _project_verified_item_projection event payload
  | _ => ret tt
  end.

Definition _project_sync_queue (event payload : doc) : M (world C) unit :=
  match _normalize_string (por (get "queue_id" payload) (event_id_of event)) with
  | None => ret tt
  | Some queue_id =>
      do now <- now_dt ;;
      do at_ <- event_time event ;;
      upsert_ "sync_queue" (QEq "queue_id" (VStr queue_id)) (USet (queue_row queue_id event payload now at_))
  end.

(** ** Applying an event once *)

(** The record of an application is inserted; another writer may have inserted
    one in the meantime. *)
Definition start_apply (event_id : string) (event payload : doc) : M (world C) bool :=
  do now <- now_dt ;;
  try_except
    (do _ <- db_insert_one "event_applied" (applying_row event_id event payload now) ;; ret true)
    (fun e => match e with
              | DriverError _ =>
                  do existing <- db_find_one "event_applied" (by_event event_id) ;;
                  ret (match existing with Some e => negb (is_applied e) | None => true end)
              | _ => raise e
              end).

Definition _begin_event_apply (event_id : string) (event payload : doc) : M (world C) bool :=
  do existing <- db_find_one "event_applied" (by_event event_id) ;;
  match existing with
  | Some e =>
      if is_applied e then ret false
      else run delete_ "event_applied" (by_event event_id) ;; start_apply event_id event payload
  | None => start_apply event_id event payload
  end.

Definition _finalize_event_apply (event_id : string) (event payload : doc) : M (world C) unit :=
  do now <- now_dt ;;
  do _ <- db_update_one "event_applied" (by_event event_id) (USet (applied_fields event payload now)) ;; ret tt.

(** The projections of an event, by its type. *)
Definition project (event payload : doc) : M (world C) unit :=
  let event_type := event_type_of event in
  run when (str_in event_type session_events) (_project_session_event event payload) ;;
  run when (str_in event_type inventory_events) (_project_inventory_event event payload) ;;
  run when (String.eqb event_type "DAMAGE_MARKED") (_project_damage_log event payload) ;;
  run when (str_in event_type ["VARIANCE_DETECTED"; "RECOUNT_REQUESTED"]) (_project_variance_log event payload) ;;
  run when (String.eqb event_type "APPROVAL_GRANTED") (_project_approval event payload) ;;
  when (str_in event_type ["SYNC_CONFLICT_RECORDED"; "SYNC_CONFLICT_RESOLVED"]) (_project_sync_queue event payload).

Definition apply_body (event : doc) : M (world C) bool :=
  match _normalize_string (event_id_of event) with
  | None => raise (ValueError "Projection event is missing an event identifier")
  | Some event_id =>
      let payload := payload_of event in
      do begun <- _begin_event_apply event_id event payload ;;
      if begun then
        run try_except (project event payload)
              (fun e => run delete_ "event_applied" (by_event event_id) ;; raise e) ;;
        run _finalize_event_apply event_id event payload ;;
        ret true
      else ret false
  end.

Context (cl : client).

Definition apply_event (has_session : bool) (event : doc) : M (world C) bool :=
  if has_session then apply_body event else with_uow cl (fun _ => apply_body event).

(** ** The rebuild *)

Definition clear_collection (q : query) (name : string) : M (world C) unit :=
  do _ <- db_delete_many name q ;; ret tt.

(** [_clear_projection_state]: without a session, everything. *)
Definition _clear_projection_state (session_id : string) : M (world C) unit :=
  for_each (PROJECTION_COLLECTIONS ++ ["event_applied"])
    (clear_collection (if String.eqb session_id "" then QAnd [] else by_session session_id)).

Fixpoint apply_all (has_session : bool) (events : list doc) (processed applied : Z) : M (world C) (Z * Z) :=
  match events with
  | [] => ret (processed, applied)
  | e :: rest =>
      do done_ <- apply_event has_session e ;;
      apply_all has_session rest (processed + 1) (if done_ : bool then applied + 1 else applied)
  end.

Definition rebuild_from_event_log (session_id : string) (clear_existing has_session : bool) : M (world C) doc :=
  run when clear_existing (_clear_projection_state session_id) ;;
  do events <- db_find "event_log" (if String.eqb session_id "" then QAnd []
                                    else QDot "payload" "session_id" (VStr session_id)) ;;
  do events <- lift (sort_events events) ;;
  do counts <- apply_all has_session events 0 0 ;;
  do now <- now_dt ;;
  ret [("processed_events", VInt (fst counts)); ("applied_events", VInt (snd counts));
       ("rebuilt_at", VStr (isoformat "T" now))].
End service.

(** ** What the projections write *)

Definition projected : list string := PROJECTION_COLLECTIONS ++ ["event_applied"].

Section frames.
Context {C : Type} `{Mongo C}.
Context (clock : nat → Z) (cl : client).

Lemma frame_upsert P name q u : str_in name P = true → frame P (upsert_ (C:=C) name q u).
Proof. intros. apply frame_bind; [by apply frame_upsert_one|]. intros. apply frame_ret. Qed.
Lemma frame_delete P name q : str_in name P = true → frame P (delete_ (C:=C) name q).
Proof. intros. apply frame_bind; [by apply frame_delete_one|]. intros. apply frame_ret. Qed.
Lemma frame_each {A} P (l : list A) (f : A → M (world C) unit) : (∀ a, frame P (f a)) → frame P (for_each l f).
Proof. intros Hf. induction l; cbn [for_each]; [apply frame_ret|]. by apply frame_bind. Qed.
Lemma frame_sum_items P session_id rows t : frame P (sum_items (C:=C) session_id rows t).
Proof. revert t. induction rows; intros t; cbn [sum_items]; solve_frame. Qed.
End frames.

Ltac projection_step :=
  first [ apply frame_upsert; reflexivity | apply frame_delete; reflexivity | apply frame_sum_items
        | apply frame_each; intros ? | frame_step ].
Ltac solve_projection := repeat projection_step.

Section frames_of_events.
Context {C : Type} `{Mongo C}.
Context (clock : nat → Z) (cl : client).

(** The read models apart from the item snapshots. *)
Definition details : list string := List.filter (fun n => negb (String.eqb n "items_snapshot")) PROJECTION_COLLECTIONS.

Lemma frame_refresh session_id : frame details (refresh (C:=C) clock session_id).
Proof.
  unfold refresh, _refresh_session_dashboard_projection, _refresh_financial_projection, now_dt. solve_projection.
Qed.

Lemma frame_active_line line_id session_id item_code line event payload :
  frame details (project_active_line (C:=C) clock line_id session_id item_code line event payload).
Proof.
  unfold project_active_line. apply frame_bind; [apply frame_lift|]. intros [[[counted damaged] stock] variance].
  apply frame_bind; [apply frame_lift|]. intros value. apply frame_bind; [apply frame_find_one|]. intros session.
  apply frame_bind; [apply frame_utc_now|]. intros now. generalize (verified_row line_id). intros row.
  apply frame_bind; [by apply frame_upsert|]. intros _.
  apply frame_bind; [|intros _; apply frame_refresh].
  case_match; [by apply frame_upsert | by apply frame_delete].
Qed.

Lemma frame_verified event payload : frame details (_project_verified_item_projection (C:=C) clock event payload).
Proof.
  unfold _project_verified_item_projection.
  repeat first [ apply frame_refresh | apply frame_active_line | projection_step ].
Qed.

Lemma frame_details s i c line event payload parts :
  frame details (project_details (C:=C) clock s i c line event payload parts).
Proof.
  unfold project_details, project_batch, project_serial, remove_serial, event_time, now_dt.
  repeat first [ apply frame_verified | projection_step ].
Qed.

(** What an event other than one of the inventory projects. *)
Definition project_rest (event payload : doc) : M (world C) unit :=
  let event_type := event_type_of event in
  run when (String.eqb event_type "DAMAGE_MARKED") (_project_damage_log clock event payload) ;;
  run when (str_in event_type ["VARIANCE_DETECTED"; "RECOUNT_REQUESTED"]) (_project_variance_log clock event payload) ;;
  run when (String.eqb event_type "APPROVAL_GRANTED") (_project_approval clock event payload) ;;
  when (str_in event_type ["SYNC_CONFLICT_RECORDED"; "SYNC_CONFLICT_RESOLVED"]) (_project_sync_queue clock event payload).

Lemma frame_session_event event payload : frame details (_project_session_event (C:=C) clock event payload).
Proof. unfold _project_session_event, now_dt. solve_projection. Qed.

Lemma frame_rest event payload : frame details (project_rest event payload).
Proof.
  unfold project_rest, _project_damage_log, _project_variance_log, _project_approval, _project_sync_queue, event_time,
    log_id, now_dt.
  repeat first [ apply frame_verified | projection_step ].
Qed.

Lemma details_projected n : n ∈ details → n ∈ PROJECTION_COLLECTIONS.
Proof. unfold details. rewrite !list_elem_of_In. by intros [? _]%filter_In. Qed.

(** Every projection stays inside the read models. *)
Lemma frame_project event payload : frame PROJECTION_COLLECTIONS (project (C:=C) clock event payload).
Proof.
  unfold project. apply frame_bind; [apply frame_when; eapply frame_weaken; [apply frame_session_event|exact details_projected]|].
  intros _. apply frame_bind; [|intros _; eapply frame_weaken; [apply frame_rest|exact details_projected]].
  apply frame_when. unfold _project_inventory_event, event_time, now_dt.
  repeat first [ eapply frame_weaken; [apply frame_details|exact details_projected] | projection_step ].
Qed.

Lemma frame_apply_body event : frame projected (apply_body (C:=C) clock event).
Proof.
  unfold apply_body, _begin_event_apply, start_apply, _finalize_event_apply, now_dt.
  repeat first [ eapply frame_weaken; [apply frame_project|intros ? ?; apply elem_of_app; by left] | projection_step ].
Qed.

Lemma frame_apply_event b event : frame projected (apply_event (C:=C) clock cl b event).
Proof. unfold apply_event. destruct b; [apply frame_apply_body|]. apply frame_uow. intros _. apply frame_apply_body. Qed.
End frames_of_events.
