(* ===== verification/ProjectionSpec.v ===== *)
(** What the projections of [ProjectionCore] guarantee: an event is applied once,
    and a rebuild makes the counted quantity of an item the sum of the changes
    the event log holds for it. *)

From S2P Require Import Prelude PyFloat Py Store ListStore Guard Uow Frame Lifecycle Quantity CountLines ProjectionCore.

Local Open Scope Z_scope.
Local Open Scope stock_scope.

Section marker.
Context {C : Type} `{MongoLaws C}.
Context (clock : nat → Z) (cl : client).
Implicit Types (w : world C) (c : C) (d event payload : doc).

(** The records of applied events. *)
Definition marks w : list doc := contents (w_db w "event_applied").
Definition marks_of (id : string) d : bool := matches (by_event id) d.

(** The event has been applied. *)
Definition applied (id : string) w : Prop := ∃ d, d ∈ marks w ∧ marks_of id d = true ∧ is_applied d = true.

(** Whatever a computation does, it applies no event of that id. *)
Lemma unguarded_others {A} L (m : M (world C) A) w r w' :
  frame L m → str_in "event_applied" L = false → m w = (r, w') → marks w' = marks w.
Proof. intros Hf Hn Hm. unfold marks. f_equal. by eapply frame_db. Qed.

Lemma mark_event_id id d : get "event_id" d = VStr id → marks_of id d = true.
Proof. intros Hg. unfold marks_of, by_event. rewrite matches_eq_str by (by rewrite Hg). rewrite Hg. by apply bson_eqb_str. Qed.

Lemma upsert_ok name q u w n w' :
  upsert_ (C:=C) name q u w = (Ok n, w') → w' = set_coll name (snd (upsert_one q u (w_db w name))) w.
Proof. unfold upsert_. intros (k & w1 & Hk & Hr)%bind_ok_inv. apply counted_ok in Hk as [_ ->]. unfold ret in Hr. by simplify_eq. Qed.

Lemma delete_ok name q w n w' :
  delete_ (C:=C) name q w = (Ok n, w') → w' = set_coll name (snd (delete_one q (w_db w name))) w.
Proof. unfold delete_. intros (k & w1 & Hk & Hr)%bind_ok_inv. apply counted_ok in Hk as [_ ->]. unfold ret in Hr. by simplify_eq. Qed.

Lemma delete_raise name q w e w' : delete_ (C:=C) name q w = (Raise e, w') → w' = w.
Proof.
  unfold delete_, bind. unfold db_delete_one at 1, bind. destruct (_guard name "delete_one" w) as [[[]|x] w1] eqn:Eg;
    apply guard_world in Eg as ->; [|intros; by simplify_eq].
  unfold counted. destruct (delete_one _ _). by unfold ret.
Qed.

(** A deletion only removes. *)
Lemma delete_in q c d : d ∈ contents (snd (delete_one q c)) → d ∈ contents c.
Proof.
  destruct (find_one q c) as [e|] eqn:E.
  - apply find_one_some in E as [He Hm]. destruct (delete_one_some q c) as (x & rest & Hx & _ & Hx' & _); [by exists e|].
    rewrite Hx', Hx. intros. by right.
  - by rewrite delete_one_none by (by apply find_one_none).
Qed.

(** The record of a started application. *)
Lemma start_spec id event payload w r w' :
  (∀ d, d ∈ marks w → marks_of id d = false) →
  start_apply (C:=C) clock id event payload w = (r, w') →
  (∀ n, n ≠ "event_applied" → w_db w' n = w_db w n) ∧
  match r with
  | Ok b => b = true ∧ ∃ d, marks w' ≡ₚ d :: marks w ∧ get "event_id" d = VStr id ∧ is_applied d = false
  | Raise _ => marks w' = marks w
  end.
Proof.
  intros Hnone Hs. unfold start_apply, now_dt in Hs. unfold bind at 1, utc_now in Hs.
  set (row := applying_row _ _ _ _) in Hs. unfold try_except in Hs.
  destruct ((do _ <- db_insert_one "event_applied" row ;; ret true) (tick w)) as [[b|e] w1] eqn:Ei.
  - injection Hs as <- <-. apply bind_ok_inv in Ei as (d & w2 & Hi & Hr). unfold ret in Hr. simplify_eq.
    apply insert_one_ok in Hi as (i & c & Hi & _ & ->). apply insert_one_spec in Hi as [Hc _].
    split; [intros n Hn; by rewrite set_coll_other|]. split; [done|].
    exists (bson_doc (setdefault "_id" i row)). unfold marks. rewrite set_coll_same. split; [exact Hc|].
    split; [by apply get_bson_str|]. unfold is_applied. by rewrite (get_bson_str "status" "applying").
  - assert (w1 = tick w ∧ ∃ msg, e = GovernanceViolation msg) as [-> [msg ->]].
    { unfold bind in Ei. destruct (db_insert_one _ _ _) as [[d|x] w2] eqn:Ed; [done|]. injection Ei as <- <-.
      split; [by eapply insert_one_raise|]. unfold db_insert_one, bind in Ed.
      destruct (_guard (C:=C) "event_applied" "insert_one" (tick w)) as [[u|y] w3] eqn:Eg.
      - exfalso. destruct (insert_one_fresh row (w_db w3 "event_applied") eq_refl) as (i & c & Hi & _).
        rewrite Hi in Ed. done.
      - injection Ed as <- <-. by apply guard_raises in Eg. }
    unfold raise in Hs. by simplify_eq.
Qed.

Lemma begin_spec id event payload w r w' :
  at_most_one (by_event id) (w_db w "event_applied") →
  _begin_event_apply (C:=C) clock id event payload w = (r, w') →
  (∀ n, n ≠ "event_applied" → w_db w' n = w_db w n) ∧
  match r with
  | Ok false => applied id w ∧ w' = w
  | Ok true => ¬ applied id w ∧ ∃ d, d ∈ marks w' ∧ get "event_id" d = VStr id ∧ is_applied d = false ∧
                 at_most_one (by_event id) (w_db w' "event_applied") ∧
                 ∀ d', d' ∈ marks w' → d' = d ∨ d' ∈ marks w ∧ marks_of id d' = false
  | Raise _ => ¬ applied id w ∧ ¬ applied id w'
  end.
Proof.
  intros Hone Hb. unfold _begin_event_apply, bind at 1, db_find_one, gets in Hb.
  assert (∀ w0 r, (∀ n, n ≠ "event_applied" → w_db w0 n = w_db w n) → (∀ d, d ∈ marks w0 → marks_of id d = false) →
    (∀ d, d ∈ marks w0 → d ∈ marks w) → ¬ applied id w → start_apply (C:=C) clock id event payload w0 = (r, w') →
    (∀ n, n ≠ "event_applied" → w_db w' n = w_db w n) ∧
    match r with
    | Ok false => applied id w ∧ w' = w
    | Ok true => ¬ applied id w ∧ ∃ d, d ∈ marks w' ∧ get "event_id" d = VStr id ∧ is_applied d = false ∧
                   at_most_one (by_event id) (w_db w' "event_applied") ∧
                   ∀ d', d' ∈ marks w' → d' = d ∨ d' ∈ marks w ∧ marks_of id d' = false
    | Raise _ => ¬ applied id w ∧ ¬ applied id w'
    end) as Hstart.
  { intros w0 r0 Hsame Hnone Hsub Hn Hs. apply start_spec in Hs as [Hf Hs]; [|done].
    split; [intros n Hne; rewrite Hf by done; auto|]. destruct r0 as [b|e].
    - destruct Hs as (-> & d & Hd & Hid & Ha). split; [done|]. exists d.
      split; [rewrite Hd; left|]. split; [done|]. split; [done|]. split.
      + by apply (at_most_one_cons _ _ d (marks w0)).
      + intros x Hx. rewrite Hd in Hx. apply elem_of_cons in Hx as [->|Hx]; auto.
    - split; [done|]. intros (d & Hd & Hm & _). rewrite Hs in Hd. by rewrite Hnone in Hm. }
  destruct (find_one (by_event id) (w_db w "event_applied")) as [e|] eqn:E.
  - pose proof E as [He Hm]%find_one_some. destruct (is_applied e) eqn:Ea.
    { unfold ret in Hb. simplify_eq. split; [done|]. split; [by exists e|done]. }
    assert (¬ applied id w) as Hn.
    { intros (d & Hd & Hmd & Had). rewrite (at_most_one_eq _ _ d e Hone Hd He Hmd Hm) in Had. congruence. }
    unfold bind in Hb. destruct (delete_ _ _ w) as [[u|x] w1] eqn:Ed.
    + apply delete_ok in Ed as ->. eapply Hstart; [| | |done|exact Hb].
      * intros n Hne. by rewrite set_coll_other.
      * intros d Hd. unfold marks in Hd. rewrite set_coll_same in Hd.
        pose proof (delete_one_unique _ _ _ Hone E) as Hx. by apply (find_one_none _ _ Hx).
      * intros d Hd. unfold marks in Hd. rewrite set_coll_same in Hd. by apply delete_in in Hd.
    + simplify_eq. apply delete_raise in Ed as ->. done.
  - assert (¬ applied id w) as Hn.
    { intros (d & Hd & Hmd & _). pose proof (find_one_none _ _ E d Hd) as Hx. unfold marks_of in Hmd. congruence. }
    eapply (Hstart w); [done|by apply find_one_none|done|done|exact Hb].
Qed.

(** The record is the only one of its event, and it says "applied". *)
Definition marked (id : string) w w' : Prop :=
  ∃ d, d ∈ marks w' ∧ get "event_id" d = VStr id ∧ is_applied d = true ∧
    at_most_one (by_event id) (w_db w' "event_applied") ∧
    ∀ d', d' ∈ marks w' → d' = d ∨ d' ∈ marks w ∧ marks_of id d' = false.

Lemma marked_applied id w w' : marked id w w' → applied id w'.
Proof. intros (d & Hd & Hid & Ha & _). exists d. split; [done|]. split; [by apply mark_event_id | done]. Qed.

Lemma finalize_spec id event payload d w0 w w' :
  d ∈ marks w → get "event_id" d = VStr id → at_most_one (by_event id) (w_db w "event_applied") →
  (∀ d', d' ∈ marks w → d' = d ∨ d' ∈ marks w0 ∧ marks_of id d' = false) →
  _finalize_event_apply (C:=C) clock id event payload w = (Ok tt, w') →
  marked id w0 w' ∧ ∀ n, n ≠ "event_applied" → w_db w' n = w_db w n.
Proof.
  intros Hd Hid Hone Hrest Hf. unfold _finalize_event_apply, now_dt in Hf. unfold bind at 1, utc_now in Hf.
  apply bind_ok_inv in Hf as (k & w1 & Hu & Hr). unfold ret in Hr. simplify_eq.
  apply update_one_ok in Hu as [_ ->]. set (u := USet _). cbn [w_db tick].
  split; [|intros n Hn; by rewrite set_coll_other].
  assert (NoDup (update_keys u)) as Hnd by (apply (bool_decide_unpack _); vm_compute; exact I).
  destruct (update_one_some (by_event id) u (w_db w "event_applied")) as (x & rest & Hx & Hm & Hx' & _).
  { exists d. split; [done|]. by apply mark_event_id. }
  assert (x = d) as ->.
  { apply (at_most_one_eq _ _ x d Hone); [rewrite Hx; left|done|done|by apply mark_event_id]. }
  assert (get "event_id" (apply_update u d) = VStr id) as Hid'.
  { rewrite get_apply_other; [done|]. apply str_in_false. vm_compute. reflexivity. }
  assert (∀ d', d' ∈ rest → matches (by_event id) d' = false) as Hno by (by apply (at_most_one_rest _ (w_db w "event_applied") d rest)).
  exists (apply_update u d). unfold marks. rewrite set_coll_same. cbn [w_db tick].
  split; [rewrite Hx'; left|]. split; [done|]. split.
  { unfold is_applied. erewrite get_apply_set by done || reflexivity. by rewrite to_bson_plain. }
  split; [by apply (at_most_one_cons _ _ (apply_update u d) rest)|].
  intros d' Hd'. rewrite Hx' in Hd'. apply elem_of_cons in Hd' as [->|Hd']; [by left|right].
  destruct (Hrest d') as [->|?]; [unfold marks; rewrite Hx; by right| |done].
  pose proof (mark_event_id id d Hid) as Hmd. specialize (Hno d Hd'). unfold marks_of in Hmd. congruence.
Qed.

Lemma body_spec id event w r w' :
  _normalize_string (event_id_of event) = Some id → at_most_one (by_event id) (w_db w "event_applied") →
  apply_body (C:=C) clock event w = (r, w') →
  match r with
  | Ok true => ¬ applied id w ∧ marked id w w' ∧
      ∃ w1 w2, project clock event (payload_of event) w1 = (Ok tt, w2) ∧
        (∀ n, n ≠ "event_applied" → w_db w1 n = w_db w n) ∧ (∀ n, n ≠ "event_applied" → w_db w' n = w_db w2 n)
  | Ok false => applied id w ∧ w' = w
  | Raise _ => ¬ applied id w ∧ ¬ applied id w'
  end.
Proof.
  intros Hid Hone Hb. unfold apply_body in Hb. rewrite Hid in Hb. unfold bind at 1 in Hb.
  destruct (_begin_event_apply clock id event (payload_of event) w) as [[b|e] w1] eqn:Eb;
    apply begin_spec in Eb as [Hsame Hbegin]; [| done | by simplify_eq | done].
  destruct b; [|unfold ret in Hb; by simplify_eq].
  destruct Hbegin as (Hn & d & Hd & Hdid & Hda & Hone1 & Hrest).
  unfold bind at 1, try_except in Hb.
  destruct (project clock event (payload_of event) w1) as [o w2] eqn:Ep.
  assert (w_db w2 "event_applied" = w_db w1 "event_applied") as Hea.
  { by eapply (frame_db _ _ _ _ _ _ (frame_project (C:=C) clock event (payload_of event)) Ep). }
  assert (∀ w3, (∀ x, x ∈ marks w3 → x ∈ marks w1) → ¬ applied id w3) as Hnot.
  { intros w3 Hsub (x & Hx & Hm & Ha). destruct (Hrest x (Hsub x Hx)) as [->|[_ Hf]]; congruence. }
  destruct o as [[]|e].
  - unfold bind at 1 in Hb. destruct (_finalize_event_apply clock id event (payload_of event) w2) as [[[]|e] w3] eqn:Ef.
    + unfold ret in Hb. injection Hb as <- <-.
      apply (finalize_spec id event _ d w) in Ef as [Hmk Hf]; [|by unfold marks; rewrite Hea|done|by rewrite Hea|by unfold marks; rewrite Hea].
      split; [done|]. split; [done|]. exists w1, w2. split; [done|]. split; [done|]. intros n Hne. by rewrite Hf.
    + injection Hb as <- <-. split; [done|]. apply Hnot. intros x Hx. unfold marks in Hx |- *. rewrite <- Hea.
      unfold _finalize_event_apply, now_dt, bind at 1, utc_now in Ef. unfold bind, db_update_one, bind in Ef.
      destruct (_guard (C:=C) "event_applied" "update_one" (tick w2)) as [[u|y] w4] eqn:Eg; apply guard_world in Eg as ->;
        [unfold counted, ret in Ef; by destruct (update_one _ _ _)|]. by simplify_eq.
  - unfold bind in Hb. destruct (delete_ "event_applied" (by_event id) w2) as [[u|x] w3] eqn:Ed; unfold raise in Hb;
      injection Hb as <- <-; (split; [done|]); apply Hnot; intros y Hy; unfold marks in Hy |- *; rewrite <- Hea.
    + apply delete_ok in Ed as ->. rewrite set_coll_same in Hy. by apply delete_in in Hy.
    + by apply delete_raise in Ed as ->.
Qed.

Lemma applied_again id event w :
  _normalize_string (event_id_of event) = Some id → at_most_one (by_event id) (w_db w "event_applied") →
  applied id w → apply_body (C:=C) clock event w = (Ok false, w).
Proof.
  intros Hid Hone (d & Hd & Hm & Ha). unfold apply_body. rewrite Hid.
  unfold _begin_event_apply, bind, db_find_one, gets. by rewrite (find_one_unique _ _ d), Ha.
Qed.

(** C18: an event is projected once. Whatever the type and the payload of the
    event, and inside the caller's transaction or in one of its own: an event
    that is recorded as applied changes nothing; one that is not is projected,
    what the projection of its payload makes of the other collections is what
    they hold afterwards, and is recorded, by exactly one record, as applied;
    from then on an event of that id changes nothing. An application that fails
    does not record the event, so that it can be repeated. *)
Theorem event_applied_once hs event id w r w' :
  _normalize_string (event_id_of event) = Some id →
  at_most_one (by_event id) (w_db w "event_applied") →
  apply_event (C:=C) clock cl hs event w = (r, w') →
  match r with
  | Ok true =>
      ¬ applied id w ∧ marked id w w' ∧
      ∃ w1 w2, (∀ n, n ≠ "event_applied" → w_db w1 n = w_db w n) ∧
        project clock event (payload_of event) w1 = (Ok tt, w2) ∧
        (∀ n, n ≠ "event_applied" → w_db w' n = w_db w2 n)
  | Ok false => applied id w ∧ w' = w
  | Raise _ => applied id w' → w' = w
  end ∧
  (is_ok r = true → ∀ event2, _normalize_string (event_id_of event2) = Some id →
     apply_event clock cl hs event2 w' = (Ok false, w')).
Proof.
  intros Hid Hone Ha. destruct r as [b|e].
  - assert (apply_body (C:=C) clock event w = (Ok b, w')) as Hb.
    { destruct hs; [done|]. by apply with_uow_ok_inv in Ha as [_ Hb]. }
    pose proof (body_spec id event w _ _ Hid Hone Hb) as Hs.
    assert (applied id w' ∧ at_most_one (by_event id) (w_db w' "event_applied")) as [Hap Hone'].
    { destruct b; [|by destruct Hs as [? ->]]. destruct Hs as (_ & Hmk & _).
      split; [by eapply marked_applied | by destruct Hmk as (d & _ & _ & _ & ? & _)]. }
    split; [destruct b; [|by destruct Hs]; destruct Hs as (? & ? & w1 & w2 & ? & ? & ?); split_and!; eauto|].
    intros _ event2 Hid2.
    pose proof (applied_again id event2 w' Hid2 Hone' Hap) as Hagain. unfold apply_event in Ha |- *.
    destruct hs; [done|]. unfold with_uow in Ha |- *. destruct (__aenter__ cl) as [u|]; [|done]. rewrite Hagain.
    unfold __aexit__, commit. by destruct u as [[] [] []].
  - split; [|done]. unfold apply_event in Ha. destruct hs.
    { by destruct (body_spec id event w _ _ Hid Hone Ha). }
    unfold with_uow in Ha. destruct (__aenter__ cl) as [u|x]; [|by simplify_eq].
    destruct (apply_body clock event w) as [[b|x] w1] eqn:Eb; [done|]. simplify_eq.
    destruct (body_spec id event w _ _ Hid Hone Eb) as [Hn Hn1]. intros Hap. exfalso. unfold __aexit__ in Hap.
    case_match; [|done]. apply Hn. destruct (frame_apply_body (C:=C) clock event _ _ _ Eb) as (_ & Hu & _).
    unfold applied, marks in *. rewrite (rollback_restores _ _ _ "event_applied" Hu) in Hap; [done|]. by intros [_ ?].
Qed.
End marker.

(** ** The item snapshots *)

(** The change an inventory event makes to the counted quantity of an item. *)
Definition change_of (event : doc) : option (string * string * float) :=
  if str_in (event_type_of event) inventory_events then
    match inventory_scope (payload_of event) with
    | Some (session_id, _, item_code, line) =>
        match event_deltas event (payload_of event) line with
        | Ok (counted, _, _) => Some (session_id, item_code, counted)
        | Raise _ => None
        end
    | None => None
    end
  else None.

Definition add_qty (total : option float) (y : float) : option float :=
  Some (match total with Some x => fadd x y | None => y end).

(** The counted quantity of an item after one more event. *)
Definition add_change (session_id item_code : string) (total : option float) (event : doc) : option float :=
  match change_of event with
  | Some (s, i, y) => if String.eqb s session_id && String.eqb i item_code then add_qty total y else total
  | None => total
  end.

Section snapshots.
Context {C : Type} `{MongoLaws C}.
Implicit Types (w : world C) (c : C) (d event payload : doc).

Definition row_is (s i : string) (x : float) d : Prop :=
  get "session_id" d = VStr s ∧ get "item_code" d = VStr i ∧ get "counted_qty" d = VFloat x.

(** One row for each item of a session, each with its quantity. *)
Definition snap_ok c : Prop :=
  (∀ d, d ∈ contents c → ∃ s i x, row_is s i x d) ∧ ∀ s i, at_most_one (by_item s i) c.

Definition snap_qty (s i : string) c : option float :=
  match find_one (by_item s i) c with
  | Some d => match get "counted_qty" d with VFloat x => Some x | _ => None end
  | None => None
  end.

Lemma row_matches s i s' i' x d : row_is s' i' x d → matches (by_item s i) d = String.eqb s s' && String.eqb i i'.
Proof.
  intros (Hs & Hi & _). unfold by_item. rewrite matches_and. cbn [forallb].
  rewrite !matches_eq_str by (by rewrite ?Hs, ?Hi). rewrite Hs, Hi. cbn [bson_eqb]. by rewrite andb_true_r.
Qed.

Lemma row_matches_self s i x d : row_is s i x d → matches (by_item s i) d = true.
Proof. intros Hr. by rewrite (row_matches _ _ _ _ _ _ Hr), !String.eqb_refl. Qed.

(** The rows decide the quantities. *)
Lemma snap_qty_spec s i x c : snap_ok c → snap_qty s i c = Some x ↔ ∃ d, d ∈ contents c ∧ row_is s i x d.
Proof.
  intros [Hrows Hone]. unfold snap_qty. split.
  - destruct (find_one (by_item s i) c) as [d|] eqn:E; [|done]. intros Hx. exists d.
    apply find_one_some in E as [Hd Hm]. split; [done|]. destruct (Hrows d Hd) as (s' & i' & x' & Hr).
    pose proof Hr as (_ & _ & Hq). rewrite Hq in Hx. simplify_eq.
    rewrite (row_matches _ _ _ _ _ _ Hr) in Hm. apply andb_prop in Hm as [->%String.eqb_eq ->%String.eqb_eq]. done.
  - intros (d & Hd & Hr). rewrite (find_one_unique _ _ d); [by destruct Hr as (_ & _ & ->)|done|done|].
    by eapply row_matches_self.
Qed.

Lemma snap_qty_ext s i c c' :
  snap_ok c → snap_ok c' →
  (∀ x, (∃ d, d ∈ contents c' ∧ row_is s i x d) ↔ (∃ d, d ∈ contents c ∧ row_is s i x d)) →
  snap_qty s i c' = snap_qty s i c.
Proof.
  intros Hc Hc' He. destruct (snap_qty s i c) as [x|] eqn:E.
  - apply snap_qty_spec; [done|]. apply He. by apply snap_qty_spec.
  - destruct (snap_qty s i c') as [x|] eqn:E'; [|done]. exfalso.
    apply snap_qty_spec in E' as Hx; [|done]. apply He in Hx. apply snap_qty_spec in Hx; [congruence|done].
Qed.

Lemma row_is_unique s i x s' i' x' d : row_is s i x d → row_is s' i' x' d → s = s' ∧ i = i' ∧ x = x'.
Proof. intros (H1 & H2 & H3) (H4 & H5 & H6). split_and!; congruence. Qed.

(** A row of an item put beside (or in place of one of) the rows of others. *)
Lemma snap_put s i x d rest c' :
  contents c' ≡ₚ d :: rest → row_is s i x d → (∀ d', d' ∈ rest → ∃ s' i' x', row_is s' i' x' d') →
  (∀ d', d' ∈ rest → matches (by_item s i) d' = false) →
  (∀ s' i', (length (filter (fun d => matches (by_item s' i') d = true) rest) ≤ 1)%nat) →
  snap_ok c' ∧ snap_qty s i c' = Some x.
Proof.
  intros Hc Hr Hrows Hno Hone. assert (snap_ok c') as Hok.
  { split.
    - intros d' Hd'. rewrite Hc in Hd'. apply elem_of_cons in Hd' as [->|?]; [by exists s, i, x | auto].
    - intros s' i'. destruct (String.eqb s' s && String.eqb i' i) eqn:E.
      + apply andb_prop in E as [->%String.eqb_eq ->%String.eqb_eq]. by apply (at_most_one_cons _ _ d rest).
      + unfold at_most_one. rewrite Hc, filter_cons_False; [apply Hone|].
        rewrite (row_matches _ _ _ _ _ _ Hr). by rewrite E. }
  split; [done|]. apply snap_qty_spec; [done|]. exists d. split; [rewrite Hc; left | done].
Qed.

Lemma other_rows (f : doc → Prop) d rest c :
  contents c ≡ₚ d :: rest → ¬ f d → (∃ d', d' ∈ contents c ∧ f d') ↔ ∃ d', d' ∈ rest ∧ f d'.
Proof.
  intros Hc Hd. split; intros (d' & Hd' & Hf); exists d'; (split; [|done]).
  - rewrite Hc in Hd'. apply elem_of_cons in Hd' as [->|?]; done.
  - rewrite Hc. by right.
Qed.

(** The upsert of an inventory event adds its change to the row of its item. *)
Lemma snap_step s i item_id line event at_ now y dy n c :
  let c' := snd (upsert_one (by_item s i) (snapshot_update s item_id i line event at_ now y dy n) c) in
  snap_ok c →
  snap_ok c' ∧ snap_qty s i c' = add_qty (snap_qty s i c) y ∧
  ∀ s' i', String.eqb s s' && String.eqb i i' = false → snap_qty s' i' c' = snap_qty s' i' c.
Proof.
  set (u := snapshot_update _ _ _ _ _ _ _ _ _ _). intros c' Hc. pose proof Hc as [Hrows Hone].
  assert (NoDup (update_keys u)) as Hnd by (apply (bool_decide_unpack _); vm_compute; exact I).
  assert (∀ d x, get "counted_qty" (apply_update u d) = VFloat x → row_is s i x (apply_update u d)) as Hrow.
  { intros d x Hx. split; [|split; [|done]]; (erewrite get_apply_set by done || reflexivity); by rewrite to_bson_plain. }
  assert (∀ s' i' x x' d, String.eqb s s' && String.eqb i i' = false → row_is s i x d → ¬ row_is s' i' x' d) as Hother.
  { intros s' i' x x' d Hne H1 H2. destruct (row_is_unique _ _ _ _ _ _ _ H1 H2) as (-> & -> & _).
    by rewrite !String.eqb_refl in Hne. }
  destruct (find_one (by_item s i) c) as [d|] eqn:E.
  - pose proof E as [Hd Hm]%find_one_some. destruct (Hrows d Hd) as (s' & i' & x & Hr).
    pose proof Hm as Hm'. rewrite (row_matches _ _ _ _ _ _ Hr) in Hm'.
    apply andb_prop in Hm' as [<-%String.eqb_eq <-%String.eqb_eq].
    assert (snap_qty s i c = Some x) as -> by (apply snap_qty_spec; [done|by exists d]).
    subst c'. rewrite upsert_one_some by (by exists d).
    destruct (update_one_some (by_item s i) u c) as (e & rest & He & Hme & He' & _); [by exists d|].
    assert (e = d) as -> by (apply (at_most_one_eq (by_item s i) c); [done|rewrite He; left|done..]).
    assert (row_is s i (fadd x y) (apply_update u d)) as Hr'.
    { apply Hrow. apply get_some. apply apply_inc_float; [done|done|]. destruct Hr as (_ & _ & Hq).
      unfold get in Hq. destruct (aget "counted_qty" d); [by rewrite <- Hq | done]. }
    destruct (snap_put s i (fadd x y) (apply_update u d) rest _ He' Hr') as [Hok Hq].
    { intros d' Hd'. apply Hrows. rewrite He. by right. }
    { by apply (at_most_one_rest _ _ d rest (Hone s i)). }
    { intros s' i'. specialize (Hone s' i'). unfold at_most_one in Hone. rewrite He, filter_cons in Hone.
      case_decide; simpl in Hone; lia. }
    split; [done|]. split; [done|]. intros s' i' Hne. apply snap_qty_ext; [done|done|]. intros x'.
    rewrite (other_rows _ _ _ _ He') by (by eapply Hother). by rewrite (other_rows _ _ _ _ He) by (by eapply Hother).
  - assert (snap_qty s i c = None) as -> by (unfold snap_qty; by rewrite E).
    destruct (upsert_one_none (by_item s i) u c) as (base & Hbase & Hk).
    { apply (bool_decide_unpack _); vm_compute; exact I. }
    { by repeat constructor. } { done. } { by apply find_one_none. } fold c' in Hbase.
    assert (row_is s i y (apply_update u base)) as Hr'.
    { apply Hrow. apply get_some. apply apply_inc_missing_float; [done|done|]. by rewrite Hk. }
    destruct (snap_put s i y (apply_update u base) (contents c) _ Hbase Hr') as [Hok Hq]; [done| |apply Hone|].
    { by apply find_one_none. }
    split; [done|]. split; [done|]. intros s' i' Hne. apply snap_qty_ext; [done|done|]. intros x'.
    by rewrite (other_rows _ _ _ _ Hbase) by (by eapply Hother).
Qed.
End snapshots.

(** ** The rebuild *)

Section rebuild.
Context {C : Type} `{MongoLaws C}.
Context (clock : nat → Z) (cl : client).
Implicit Types (w : world C) (event : doc).

Abbreviation snaps w := (w_db w "items_snapshot").
Abbreviation id_of event := (_normalize_string (event_id_of event)).

Lemma frame_keeps {A} (m : M (world C) A) w r w' :
  frame details m → m w = (r, w') → snaps w' = snaps w.
Proof. intros Hf Hm. by apply (frame_db _ _ _ _ _ _ Hf Hm). Qed.

Lemma inventory_snap event w w' :
  str_in (event_type_of event) inventory_events = true →
  _project_inventory_event (C:=C) clock event (payload_of event) w = (Ok tt, w') → snap_ok (snaps w) →
  snap_ok (snaps w') ∧ ∀ s i, snap_qty s i (snaps w') = add_change s i (snap_qty s i (snaps w)) event.
Proof.
  intros Hty Hm Hok. unfold _project_inventory_event in Hm. unfold add_change, change_of. rewrite Hty.
  destruct (inventory_scope (payload_of event)) as [[[[session_id item_id] item_code] line]|]; [|unfold ret in Hm; by simplify_eq].
  apply bind_ok_inv in Hm as ([[counted damaged] n] & w1 & [Hd ->]%lift_ok & Hm). rewrite Hd.
  apply bind_ok_inv in Hm as (parts & w1 & [_ ->]%lift_ok & Hm).
  apply bind_ok_inv in Hm as (at_ & w1 & Hat & Hm).
  assert (snaps w1 = snaps w) as Hw1.
  { eapply frame_keeps; [|exact Hat]. unfold event_time, now_dt. solve_frame. }
  apply bind_ok_inv in Hm as (now & w2 & Hnow & Hm). unfold now_dt, utc_now in Hnow. injection Hnow as <- <-.
  apply bind_ok_inv in Hm as ([] & w3 & Hu & Hm). apply upsert_ok in Hu as ->.
  apply frame_keeps in Hm as ->; [|apply frame_details]. rewrite set_coll_same. cbn [w_db tick]. rewrite Hw1.
  destruct (snap_step session_id item_code item_id line event at_ (clock (w_tick w1)) counted damaged n (snaps w) Hok)
    as (Hok' & Hq & Hother). split; [done|]. intros s i.
  destruct (String.eqb session_id s && String.eqb item_code i) eqn:E; [|by apply Hother].
  by apply andb_prop in E as [->%String.eqb_eq ->%String.eqb_eq].
Qed.

(** A projected event adds its change, and nothing else, to the quantities. *)
Lemma project_snap event w w' :
  project (C:=C) clock event (payload_of event) w = (Ok tt, w') → snap_ok (snaps w) →
  snap_ok (snaps w') ∧ ∀ s i, snap_qty s i (snaps w') = add_change s i (snap_qty s i (snaps w)) event.
Proof.
  intros Hm Hok. unfold project in Hm.
  apply bind_ok_inv in Hm as ([] & w1 & H1 & Hm). apply bind_ok_inv in Hm as ([] & w2 & H2 & Hm).
  apply frame_keeps in H1; [|apply frame_when, frame_session_event].
  apply frame_keeps in Hm; [|apply frame_rest]. rewrite Hm. rewrite <- H1 in *.
  destruct (str_in (event_type_of event) inventory_events) eqn:E.
  - by apply inventory_snap.
  - unfold when, ret in H2. simplify_eq. split; [done|]. intros s i. unfold add_change, change_of. by rewrite E.
Qed.

(** The next event of a rebuild. *)
Lemma apply_next hs event id w b w' :
  id_of event = Some id → (∀ d, d ∈ marks w → marks_of id d = false) → snap_ok (snaps w) →
  apply_event (C:=C) clock cl hs event w = (Ok b, w') →
  b = true ∧ snap_ok (snaps w') ∧
  (∀ s i, snap_qty s i (snaps w') = add_change s i (snap_qty s i (snaps w)) event) ∧
  (∀ d, d ∈ marks w' → get "event_id" d = VStr id ∨ d ∈ marks w) ∧ applied id w'.
Proof.
  intros Hid Hno Hok Ha. assert (apply_body (C:=C) clock event w = (Ok b, w')) as Hb.
  { destruct hs; [done|]. by apply with_uow_ok_inv in Ha as [_ Hb]. }
  apply (body_spec clock id) in Hb; [|done|].
  2: { by apply at_most_one_none. }
  destruct b.
  - destruct Hb as (_ & Hmarked & w1 & w2 & Hp & H1 & H2). split; [done|].
    pose proof (marked_applied _ _ _ Hmarked). destruct Hmarked as (d & Hd & Hdid & _ & _ & Hrest).
    rewrite (H2 "items_snapshot") by done. rewrite <- (H1 "items_snapshot") in * by done.
    apply project_snap in Hp as [Hok' Hq]; [|done]. split; [done|]. split; [done|].
    split; [|done]. intros d' Hd'. destruct (Hrest d' Hd') as [->|[? _]]; auto.
  - destruct Hb as [(d & Hd & Hm & _) _]. by rewrite Hno in Hm.
Qed.

Lemma apply_all_ok hs events p n w r w' :
  NoDup (map (fun e => id_of e) events) →
  (∀ e d id, e ∈ events → id_of e = Some id → d ∈ marks w → marks_of id d = false) → snap_ok (snaps w) →
  apply_all (C:=C) clock cl hs events p n w = (Ok r, w') →
  r = (p + Z.of_nat (length events), n + Z.of_nat (length events)) ∧
  ∀ s i, snap_qty s i (snaps w') = fold_left (add_change s i) events (snap_qty s i (snaps w)).
Proof.
  revert p n w. induction events as [|e events IH]; intros p n w Hnd Hno Hok Ha; cbn [apply_all] in Ha.
  { unfold ret in Ha. simplify_eq. rewrite !Z.add_0_r. done. }
  apply bind_ok_inv in Ha as (b & w1 & He & Ha). cbn [map] in Hnd. apply list.NoDup_cons in Hnd as [Hin Hnd].
  destruct (id_of e) as [id|] eqn:Hid.
  2: { exfalso. unfold apply_event, apply_body in He. rewrite Hid in He.
       destruct hs; [done|]. by apply with_uow_ok_inv in He as [_ He]. }
  destruct (apply_next hs e id w b w1) as (-> & Hok1 & Hq1 & Hm1 & _); [done| |done|done|].
  { intros d Hd. apply (Hno e d id); [left|done|done]. }
  destruct (IH (p + 1) (n + 1) w1) as [Hr Hq]; [done| |done|exact Ha|].
  - intros e' d id' He' Hid' Hd. destruct (Hm1 d Hd) as [Hg|Hd'].
    + unfold marks_of, by_event. rewrite matches_eq_str by (by rewrite Hg). rewrite Hg. cbn [bson_eqb].
      apply String.eqb_neq. intros ->. apply Hin.
      apply list_elem_of_In, in_map_iff. exists e'. split; [done|]. by apply list_elem_of_In.
    + apply (Hno e' d id'); [by right|done|done].
  - split; [rewrite Hr; cbn [length]; f_equal; lia|]. intros s i. by rewrite Hq, Hq1.
Qed.

(** Clearing everything. *)
Lemma clear_each_ok (names : list string) w w' :
  for_each names (clear_collection (C:=C) (QAnd [])) w = (Ok tt, w') →
  (∀ n, n ∈ names → contents (w_db w' n) = []) ∧ ∀ n, n ∉ names → w_db w' n = w_db w n.
Proof.
  revert w. induction names as [|n names IH]; intros w Hc; cbn [for_each] in Hc.
  { unfold ret in Hc. simplify_eq. split; [intros n Hn; by apply elem_of_nil in Hn | done]. }
  apply bind_ok_inv in Hc as ([] & w1 & Hn & Hc). unfold clear_collection in Hn.
  apply bind_ok_inv in Hn as (k & w2 & Hd & Hr). unfold ret in Hr. simplify_eq.
  apply counted_ok in Hd as [_ ->]. destruct (IH _ Hc) as [H1 H2].
  assert (contents (snd (delete_many (QAnd []) (w_db w n))) = []) as He.
  { apply Permutation_nil_r. rewrite delete_many_spec.
    induction (contents (w_db w n)) as [|d l IHl]; [done|]. rewrite filter_cons_False; [done|].
    by rewrite matches_and. }
  split; intros m Hm.
  - destruct (decide (m ∈ names)) as [?|Hx]; [auto|]. apply elem_of_cons in Hm as [->|?]; [|done].
    by rewrite H2, set_coll_same.
  - rewrite not_elem_of_cons in Hm. destruct Hm as [Hne Hm]. by rewrite H2, set_coll_other.
Qed.

Lemma keyed_insert e l l' : insert_event e l = Ok l' → l' ≡ₚ e :: l.
Proof.
  revert l'. induction l as [|x l IH]; intros l' Hi; cbn [insert_event] in Hi; [by simplify_eq|].
  apply obind_ok in Hi as (le & _ & Hi). destruct le; [by simplify_eq|].
  apply obind_ok in Hi as (l1 & Hl1 & Hi). simplify_eq. rewrite (IH _ Hl1). apply perm_swap.
Qed.

Lemma sort_events_perm l l' : sort_events l = Ok l' → l' ≡ₚ l.
Proof.
  revert l'. induction l as [|e l IH]; intros l' Hs; cbn [sort_events] in Hs; [by simplify_eq|].
  apply obind_ok in Hs as (l1 & Hl1 & Hs). rewrite (keyed_insert _ _ _ Hs). by rewrite (IH _ Hl1).
Qed.

Lemma all_events c : find_all (QAnd []) c ≡ₚ contents c.
Proof.
  rewrite find_all_spec. induction (contents c) as [|d l IH]; [done|].
  rewrite filter_cons_True; [by rewrite IH|]. by rewrite matches_and.
Qed.

(** The events of the log in the order of a rebuild. *)
Definition replayed w : outcome (list doc) := sort_events (find_all (QAnd []) (w_db w "event_log")).

(** The log has one document for each event id. *)
Definition one_id_each w : Prop := NoDup (map (fun e => id_of e) (contents (w_db w "event_log"))).

Lemma frame_apply_all hs events p n : frame projected (apply_all (C:=C) clock cl hs events p n).
Proof.
  revert p n. induction events as [|e events IH]; intros p n; cbn [apply_all]; [apply frame_ret|].
  apply frame_bind; [apply frame_apply_event|]. intros b. apply IH.
Qed.

Lemma rebuild_spec hs w r w' :
  one_id_each w →
  rebuild_from_event_log (C:=C) clock cl "" true hs w = (Ok r, w') →
  w_db w' "event_log" = w_db w "event_log" ∧
  ∃ events, replayed w = Ok events ∧ events ≡ₚ contents (w_db w "event_log") ∧
    get "processed_events" r = VInt (Z.of_nat (length events)) ∧
    get "applied_events" r = VInt (Z.of_nat (length events)) ∧
    ∀ s i, snap_qty s i (snaps w') = fold_left (add_change s i) events None.
Proof.
  intros Hids Hr. unfold rebuild_from_event_log in Hr. cbn [when] in Hr.
  apply bind_ok_inv in Hr as ([] & w1 & Hc & Hr). unfold _clear_projection_state in Hc. cbn [String.eqb] in Hc.
  apply clear_each_ok in Hc as [Hempty Hsame].
  assert (w_db w1 "event_log" = w_db w "event_log") as Hlog by (apply Hsame, str_in_false; reflexivity).
  assert (contents (snaps w1) = []) as Hsnap by (apply Hempty, str_in_spec; reflexivity).
  assert (marks w1 = []) as Hmarks by (apply Hempty, str_in_spec; reflexivity).
  apply bind_ok_inv in Hr as (found & w2 & [-> ->]%read_ok & Hr). cbn [String.eqb] in Hr.
  apply bind_ok_inv in Hr as (events & w2 & [Hs ->]%lift_ok & Hr).
  apply bind_ok_inv in Hr as (counts & w2 & Ha & Hr).
  apply bind_ok_inv in Hr as (now & w3 & Hnow & Hr). unfold now_dt, utc_now in Hnow. unfold ret in Hr. simplify_eq.
  rewrite Hlog in Hs. pose proof (sort_events_perm _ _ Hs) as Hp. rewrite (all_events (w_db w "event_log")) in Hp.
  split.
  { rewrite <- Hlog. by apply (frame_db _ _ _ _ _ _ (frame_apply_all hs events 0 0) Ha). }
  assert (NoDup (map (fun e => id_of e) events)) as Hnd.
  { eapply (list.NoDup_Permutation_proper (A:=option string)); [|exact Hids]. by apply Permutation_map. }
  destruct (apply_all_ok hs events 0 0 w1 counts w2) as [-> Hq]; [done| | |done|].
  { intros e d id _ _ Hd. rewrite Hmarks in Hd. by apply elem_of_nil in Hd. }
  { split; [intros d Hd; rewrite Hsnap in Hd; by apply elem_of_nil in Hd|].
    intros s i. unfold at_most_one. rewrite Hsnap. simpl. lia. }
  exists events. split; [done|]. split; [done|]. split; [done|]. split; [done|].
  intros s i. cbn [w_db tick]. rewrite Hq. f_equal. unfold snap_qty.
  destruct (find_one (by_item s i) (snaps w1)) as [d|] eqn:E; [|done].
  apply find_one_some in E as [Hd _]. rewrite Hsnap in Hd. by apply elem_of_nil in Hd.
Qed.

(** C19: a rebuild from the event log makes the counted quantity of every item of
    every session the sum of the changes the logged events hold for it, in the
    order of their timestamps: that is what the projections, one event at a
    time, with their records of applied events, come to. Every event of the log
    is applied. *)
Theorem rebuild_totals hs w r w' :
  one_id_each w →
  rebuild_from_event_log (C:=C) clock cl "" true hs w = (Ok r, w') →
  ∃ events, replayed w = Ok events ∧ events ≡ₚ contents (w_db w "event_log") ∧
    get "applied_events" r = VInt (Z.of_nat (length events)) ∧
    ∀ s i, snap_qty s i (snaps w') = fold_left (add_change s i) events None.
Proof.
  intros Hids Hr. apply rebuild_spec in Hr as (_ & events & Hs & Hp & _ & Happlied & Hq); [|done]. by exists events.
Qed.

(** Rebuilding again changes no quantity. *)
Lemma rebuild_twice hs w r w1 hs2 r2 w2 :
  one_id_each w →
  rebuild_from_event_log (C:=C) clock cl "" true hs w = (Ok r, w1) →
  rebuild_from_event_log (C:=C) clock cl "" true hs2 w1 = (Ok r2, w2) →
  ∀ s i, snap_qty s i (snaps w2) = snap_qty s i (snaps w1).
Proof.
  intros Hids H1 H2 s i. apply rebuild_spec in H1 as (Hlog & events & Hs & _ & _ & _ & Hq); [|done].
  apply rebuild_spec in H2 as (_ & events2 & Hs2 & _ & _ & _ & Hq2); [|unfold one_id_each; by rewrite Hlog].
  unfold replayed in *. rewrite Hlog, Hs in Hs2. simplify_eq. by rewrite Hq, Hq2.
Qed.
End rebuild.

(** ** Concrete runs *)

Definition example_event (id event_type : string) (time counted : Z) : doc :=
  [("_id", VStr id); ("event_type", VStr event_type); ("timestamp", VTime time);
   ("payload", VDict [
     ("session_id", VStr "S1"); ("item_id", VStr "I1");
     ("after", VDict [("id", VStr "L1"); ("item_code", VStr "I1"); ("counted_qty", VFloat (of_Z counted))]);
     ("delta", VDict [("counted_qty", VFloat (of_Z counted))])])].

Definition event_world : world coll :=
  mkworld [("event_log", [example_event "e2" "QUANTITY_ADJUSTED" 2000 2; example_event "e1" "SCAN_ADDED" 1000 5])].

Definition example_apply (w : world coll) := apply_event (C:=coll) (fun _ => 0) replica_client false
  (example_event "e1" "SCAN_ADDED" 1000 5) w.

Lemma example_applies : is_ok (fst (example_apply (mkworld []))) = true.
Proof. vm_compute. reflexivity. Qed.

Lemma no_marks : at_most_one (by_event "e1") (w_db (mkworld []) "event_applied").
Proof. unfold at_most_one. vm_compute. repeat constructor. Qed.

Example event_applied_once_witness :
  let w := snd (example_apply (mkworld [])) in example_apply w = (Ok false, w).
Proof.
  pose proof example_applies as Hok. pose proof no_marks as Hone. cbv zeta.
  assert (∃ w, w = mkworld []) as [w Hw] by eauto. rewrite <- Hw in *. clear Hw.
  destruct (example_apply w) as [r w'] eqn:E. unfold example_apply in E |- *.
  assert (∃ e, e = example_event "e1" "SCAN_ADDED" 1000 5 ∧ _normalize_string (event_id_of e) = Some "e1") as (e & He & Hid)
    by (by eexists). rewrite <- He in *.
  pose proof (event_applied_once (fun _ => 0) replica_client false e "e1" w r w' Hid Hone E) as Ha.
  destruct r as [b|x]; [|discriminate Hok]. destruct Ha as [_ Ha]. exact (Ha eq_refl e Hid).
Defined.

Definition example_rebuild (w : world coll) := rebuild_from_event_log (C:=coll) (fun _ => 0) replica_client "" true false w.

Lemma example_rebuilds : is_ok (fst (example_rebuild event_world)) = true.
Proof. vm_compute. reflexivity. Qed.

Lemma example_ids : one_id_each event_world.
Proof. apply (bool_decide_unpack _). by vm_compute. Qed.

Lemma example_replayed_total :
  (l ← match replayed event_world with Ok l => Some l | Raise _ => None end;
   fold_left (add_change "S1" "I1") l None) = Some (of_Z 7).
Proof. vm_compute. reflexivity. Qed.

Example rebuild_totals_witness :
  snap_qty "S1" "I1" (w_db (snd (example_rebuild event_world)) "items_snapshot") = Some (of_Z 7).
Proof.
  pose proof example_rebuilds as Hok. pose proof example_ids as Hids. pose proof example_replayed_total as Ht.
  assert (∃ w, w = event_world) as [w Hw] by eauto. rewrite <- Hw in *. clear Hw.
  destruct (example_rebuild w) as [r w'] eqn:E. unfold example_rebuild in E. destruct r as [r|e]; [|discriminate Hok].
  destruct (rebuild_totals (fun _ => 0) replica_client false w r w' Hids E) as (events & Hs & _ & _ & Hq).
  rewrite Hs in Ht. cbn [snd]. rewrite Hq. exact Ht.
Defined.
