(* ===== verification/Events.v ===== *)
(** The event log: the appending half of [services/event_service.py]
    ([EventService]), which the conflict resolution writes to.  An event has an
    idempotency key; appending one that is already logged returns the logged
    one.

    The flags are read from the environment, then from the database through the
    truth value of a collection object, which the driver decides
    ([collection_bool]).  A new event is projected by [ProjectionCore].  Generated
    ids are arguments.  The mirroring of count-line writes is in [EventMirror]. *)

From S2P Require Import Prelude PyFloat Py Store ListStore Guard Uow Frame Lifecycle Quantity ProjectionCore.

Local Open Scope Z_scope.
Local Open Scope stock_scope.

Definition FLAG_EVENT_ENFORCE_WRITES : string := "V3_EVENT_ENFORCE_WRITES".
Definition FLAG_PROJECTION_SHADOW : string := "V3_PROJECTION_SHADOW".

(** [_as_bool] of the event service: two more words than the validation's. *)
Definition event_bool (value : val) (dflt : bool) : bool :=
  match value with
  | VNone => dflt
  | VBool b => b
  | _ =>
      let normalized := lower (strip (to_str value)) in
      if str_in normalized ["1"; "true"; "yes"; "y"; "on"; "enabled"] then true
      else if str_in normalized ["0"; "false"; "no"; "n"; "off"; "disabled"] then false
      else dflt
  end.

(** [normalized[k] = v] when there is one, else [normalized.pop(k, None)]. *)
Definition set_or_drop (k : string) (v : option string) (d : doc) : doc :=
  match v with Some s => aset k (VStr s) d | None => adel k d end.

Section events.
Context {C : Type} `{Mongo C}.
Context (clock : nat → Z) (env : string → option string) (collection_bool : outcome bool) (cl : client).

Definition has (k : string) (d : doc) : bool := match aget k d with Some _ => true | None => false end.

Definition is_enabled (key : string) (dflt : bool) : M (world C) bool :=
  match env key with
  | Some v => ret (event_bool (VStr v) dflt)
  | None =>
      match collection_bool with
      | Raise _ => ret dflt
      | Ok _ =>
          do flag <- db_find_one "feature_flags" (QEq "key" (VStr key)) ;;
          ret match flag with
              | None => dflt
              | Some d => if has "enabled" d then event_bool (get "enabled" d) dflt
                          else if has "state" d then event_bool (get "state" d) dflt
                          else dflt
              end
      end
  end.

Definition _normalize_event_metadata (metadata : doc) (aggregate_id event_type : string) (payload : doc) (fresh : string) : doc :=
  let request := _normalize_string (por (get "request_idempotency_key" metadata) (get "idempotency_key" metadata)) in
  let fallback := default fresh (_normalize_string
    (por (get "count_line_id" payload) (por (get "session_id" payload)
      (por (get "queue_id" payload) (get "recount_id" payload))))) in
  let key := default (event_type +:+ ":" +:+ aggregate_id +:+ ":" +:+ fallback)
               (_normalize_string (get "event_idempotency_key" metadata)) in
  let normalized := aset "event_idempotency_key" (VStr key) (aset "idempotency_key" (VStr key) metadata) in
  let normalized := set_or_drop "request_idempotency_key" request normalized in
  set_or_drop "scan_fingerprint" (_normalize_string (get "scan_fingerprint" normalized)) normalized.

Definition key_query (key : string) : query :=
  QOr [QEq "idempotency_key" (VStr key); QDot "metadata" "idempotency_key" (VStr key);
       QDot "metadata" "event_idempotency_key" (VStr key)].

Definition _find_existing_event (idempotency_key scan_fingerprint : option string) : M (world C) (option doc) :=
  do by_key <- match idempotency_key with
               | Some key => db_find_one "event_log" (key_query key)
               | None => ret None
               end ;;
  match by_key with
  | Some d => ret (Some d)
  | None => match scan_fingerprint with
            | Some f => db_find_one "event_log" (QEq "scan_fingerprint" (VStr f))
            | None => ret None
            end
  end.

(** The document of a new event. *)
Definition event_document (id aggregate_id event_type : string) (payload metadata : doc) (now : Z) : doc :=
  let optional k := match _normalize_string (get k metadata) with Some s => [(k, VStr s)] | None => [] end in
  [("_id", VStr id); ("aggregate_id", VStr aggregate_id); ("event_type", VStr event_type);
   ("payload", VDict payload); ("metadata", VDict metadata); ("timestamp", VTime now)]
  ++ optional "idempotency_key" ++ optional "request_idempotency_key" ++ optional "scan_fingerprint".

(** The fan-out of a new event; where writes are not enforced, its failures are
    only logged. *)
Definition fan_out (enforce_writes has_session : bool) (event_doc : doc) : M (world C) unit :=
  try_except (do _ <- apply_event clock cl has_session event_doc ;; ret tt)
    (fun e => if enforce_writes then raise e else ret tt).

(** [append_event]; [fresh] and [id] are the generated ids. *)
Definition append_event (apply_projection : bool) (enforce_writes : option bool) (has_session : bool)
    (aggregate_id event_type : string) (payload metadata : doc) (fresh id : string) : M (world C) doc :=
  let metadata := _normalize_event_metadata metadata aggregate_id event_type payload fresh in
  let idempotency_key := _normalize_string (get "idempotency_key" metadata) in
  let scan_fingerprint := _normalize_string (get "scan_fingerprint" metadata) in
  do enforce_writes <- match enforce_writes with
                       | Some b => ret b
                       | None => is_enabled FLAG_EVENT_ENFORCE_WRITES true
                       end ;;
  do existing <- _find_existing_event idempotency_key scan_fingerprint ;;
  match existing with
  | Some e => ret e
  | None =>
      do now <- utc_now clock ;;
      let event_doc := event_document id aggregate_id event_type payload metadata now in
      do inserted <- (fun w =>
        match db_insert_one "event_log" event_doc w with
        | (Raise (DriverError m), w') =>
            (do existing <- _find_existing_event idempotency_key scan_fingerprint ;;
             match existing with
             | Some e => ret (Some e)
             | None => if enforce_writes then raise (DriverError m) else ret (Some event_doc)
             end) w'
        | (Ok _, w') => (Ok None, w')
        | (Raise e, w') => (Raise e, w')
        end) ;;
      match inserted with
      | Some e => ret e
      | None =>
          do shadow <- (if apply_projection then is_enabled FLAG_PROJECTION_SHADOW true else ret false) ;;
          run when shadow (fan_out enforce_writes has_session event_doc) ;;
          ret event_doc
      end
  end.

Definition record_sync_queue_event (has_session : bool) (event_type : string) (session_id : option string)
    (item_code strategy : string) (details : doc) (resolved_by : string) (fresh id : string) : M (world C) doc :=
  let queue_id := default fresh (_normalize_string (get "conflict_id" details)) in
  let session := default "" session_id in
  append_event true None has_session
    (if String.eqb item_code "" then (if String.eqb session "" then "sync" else session) else item_code)
    event_type
    [("queue_id", VStr queue_id); ("session_id", opt_str session_id); ("item_code", VStr item_code);
     ("strategy", VStr strategy); ("details", VDict details); ("resolved_by", VStr resolved_by);
     ("status", VStr (if String.eqb event_type "SYNC_CONFLICT_RECORDED" then "PENDING" else "RESOLVED"))]
    [("request_idempotency_key", VStr queue_id); ("event_idempotency_key", VStr (event_type +:+ ":" +:+ queue_id));
     ("legacy_source", VStr "sync_conflicts")]
    fresh id.
End events.

(** ** Appending once *)

Section append.
Context {C : Type} `{MongoLaws C}.
Context (clock : nat → Z) (env : string → option string) (collection_bool : outcome bool) (cl : client).
Implicit Types (w : world C).

Abbreviation append := (append_event (C:=C) clock env collection_bool cl).

Lemma enabled_reads k b w : ∃ v, is_enabled (C:=C) env collection_bool k b w = (Ok v, w).
Proof.
  unfold is_enabled. destruct (env k); [eexists; reflexivity|].
  destruct collection_bool; [|eexists; reflexivity]. eexists. reflexivity.
Qed.

(** The key under which an event is logged. *)
Definition event_key (aggregate_id event_type : string) (payload metadata : doc) (fresh : string) : option string :=
  _normalize_string (get "idempotency_key" (_normalize_event_metadata metadata aggregate_id event_type payload fresh)).

(** The event with that key is in the log. *)
Definition logged (key : string) w : Prop :=
  ∃ d, d ∈ contents (w_db w "event_log") ∧ matches (key_query key) d = true.

Lemma logged_found key f w :
  logged key w →
  ∃ d, d ∈ contents (w_db w "event_log") ∧ _find_existing_event (C:=C) (Some key) f w = (Ok (Some d), w).
Proof.
  intros (d & Hd & Hm). destruct (find_one_exists _ _ _ Hd Hm) as [e He].
  exists e. split; [by apply find_one_some in He as [? _]|].
  unfold _find_existing_event, bind, db_find_one, gets, ret. by rewrite He.
Qed.

Lemma find_logged key f w o w' :
  f = None → _find_existing_event (C:=C) (Some key) f w = (Ok o, w') →
  w' = w ∧ match o with
           | Some d => d ∈ contents (w_db w "event_log") ∧ matches (key_query key) d = true
           | None => ¬ logged key w
           end.
Proof.
  intros -> Hm. unfold _find_existing_event, bind, db_find_one, gets, ret in Hm.
  destruct (find_one (key_query key) (w_db w "event_log")) as [d|] eqn:E; simplify_eq; (split; [done|]).
  - by apply find_one_some in E.
  - intros (d & Hd & Hm). by rewrite (find_one_none _ _ E d Hd) in Hm.
Qed.

Lemma get_set_or_drop k k' v d : String.eqb k k' = false → get k' (set_or_drop k v d) = get k' d.
Proof. intros Hk. unfold set_or_drop, get. destruct v; by rewrite ?aget_aset, ?aget_adel, Hk. Qed.

Lemma scan_normalized md agg ty payload fresh :
  _normalize_string (get "scan_fingerprint" md) = None →
  _normalize_string (get "scan_fingerprint" (_normalize_event_metadata md agg ty payload fresh)) = None.
Proof.
  intros Hs. unfold _normalize_event_metadata. cbv zeta.
  rewrite (get_set_or_drop "request_idempotency_key"), !get_aset_ne, Hs by reflexivity.
  unfold set_or_drop, get. by rewrite aget_adel, String.eqb_refl.
Qed.

(** A new event is logged under its key. *)
Lemma event_logged id agg ty payload md now key d :
  _normalize_string (get "idempotency_key" md) = Some key →
  aget "idempotency_key" d = aget "idempotency_key" (bson_doc (setdefault "_id" (VStr id)
     (event_document id agg ty payload md now))) →
  matches (key_query key) d = true.
Proof.
  intros Hk Hd. unfold key_query. rewrite matches_or. cbn [existsb].
  assert (get "idempotency_key" d = VStr key) as Hg.
  { unfold get. rewrite Hd, aget_bson. unfold event_document. rewrite Hk. cbn. by rewrite to_bson_plain. }
  rewrite matches_eq_str by (by rewrite Hg). by rewrite Hg, (proj2 (bson_eqb_str key _)).
Qed.

(** The insert of an event with a fresh id: it is logged, unless the guard
    refuses it. *)
Lemma insert_logged id agg ty payload md now key w r w' :
  _normalize_string (get "idempotency_key" md) = Some key →
  (∀ d, d ∈ contents (w_db w "event_log") → aget "_id" d ≠ Some (VStr id)) →
  db_insert_one "event_log" (event_document id agg ty payload md now) (tick w) = (r, w') →
  match r with
  | Ok _ => logged key w'
  | Raise e => ∃ msg, e = GovernanceViolation msg
  end.
Proof.
  intros Hk Hfresh Hi. unfold db_insert_one, bind in Hi.
  destruct (_guard (C:=C) "event_log" "insert_one" (tick w)) as [[u|e] w0] eqn:Eg.
  2: { injection Hi as <- <-. by apply guard_raises in Eg. }
  apply guard_world in Eg as ->. cbn [w_db tick] in Hi.
  destruct (insert_one _ _) as [[i c]|] eqn:E; injection Hi as <- <-.
  - apply insert_one_spec in E as [Hc Hi]. specialize (Hi (VStr id) eq_refl) as ->.
    eexists. split; [cbn [w_db set_coll set_db]; rewrite fn_lookup_insert, Hc; left|].
    by eapply event_logged.
  - exfalso. apply insert_one_dup in E as (d & Hd & Hid & _). apply (Hfresh d Hd). rewrite Hid, aget_bson. cbn.
    by rewrite to_bson_plain.
Qed.

Lemma enforce_reads o w :
  ∃ v, match o with Some b => ret b | None => is_enabled (C:=C) env collection_bool FLAG_EVENT_ENFORCE_WRITES true end w
       = (Ok v, w).
Proof. destruct o; [by eexists | apply enabled_reads]. Qed.

(** The projection leaves the log alone. *)
Lemma fan_out_log enforce hs d w r w' :
  fan_out (C:=C) clock cl enforce hs d w = (r, w') → w_db w' "event_log" = w_db w "event_log".
Proof.
  assert (frame projected (fan_out (C:=C) clock cl enforce hs d)) as Hf.
  { apply frame_try; [apply frame_bind; [apply frame_apply_event|intros; apply frame_ret]|].
    intros x. destruct enforce; [apply frame_raise | apply frame_ret]. }
  intros Hr. apply (Hf _ _ _ Hr). by apply str_in_false.
Qed.

(** An append that succeeds, or that fails although the log may be written, has
    logged the event. *)
Lemma append_logs ap enf hs agg ty payload md fresh id key w r w' :
  _normalize_string (get "scan_fingerprint" md) = None →
  event_key agg ty payload md fresh = Some key →
  (∀ d, d ∈ contents (w_db w "event_log") → aget "_id" d ≠ Some (VStr id)) →
  append ap enf hs agg ty payload md fresh id w = (r, w') →
  is_ok r = true ∨ str_in "event_log" (w_guards w) = false →
  logged key w'.
Proof.
  unfold event_key. intros Hscan Hkey Hfresh Ha Hok. unfold append_event in Ha. cbv zeta in Ha.
  set (md' := _normalize_event_metadata md agg ty payload fresh) in *.
  destruct (enforce_reads enf w) as [enforce He]. unfold bind at 1 in Ha. rewrite He in Ha. clear He.
  unfold bind at 1 in Ha. rewrite Hkey in Ha.
  destruct (_find_existing_event (Some key) _ w) as [[o|x] w1] eqn:Hf;
    [|unfold _find_existing_event, bind, db_find_one, gets, ret in Hf; repeat case_match; done].
  apply find_logged in Hf as [-> Ho]; [|by apply scan_normalized]. destruct o as [d|].
  { unfold ret in Ha. simplify_eq. by exists d. }
  unfold bind at 1, utc_now in Ha. unfold bind at 1 in Ha. cbv beta iota in Ha.
  destruct (db_insert_one "event_log" _ (tick w)) as [ri w3] eqn:E.
  pose proof (insert_logged _ _ _ _ _ _ _ _ _ _ Hkey Hfresh E) as Hl.
  destruct ri as [d|e'].
  2: { destruct Hl as [msg ->]. injection Ha as <- <-. destruct Hok as [Hok|Hg]; [done|].
       unfold db_insert_one, bind in E. rewrite guard_absent in E by done. by destruct (insert_one _ _) as [[]|]. }
  cbv beta iota in Ha.
  assert (∃ b, (if ap then is_enabled env collection_bool FLAG_PROJECTION_SHADOW true else ret false) w3 = (Ok b, w3))
    as [b Hb] by (destruct ap; [apply enabled_reads | by eexists]).
  unfold bind at 1 in Ha. rewrite Hb in Ha. unfold bind in Ha.
  destruct (when b _ w3) as [rp w4] eqn:Hp.
  assert (w_db w4 "event_log" = w_db w3 "event_log") as Hlog
    by (destruct b; [by apply fan_out_log in Hp | unfold when, ret in Hp; by simplify_eq]).
  assert (w' = w4) as -> by (destruct rp; unfold ret in Ha; by simplify_eq).
  unfold logged. by rewrite Hlog.
Qed.

(** A logged event answers every append under its key, and nothing is done. *)
Lemma logged_answers ap enf hs agg ty payload md fresh id key w :
  logged key w → event_key agg ty payload md fresh = Some key →
  ∃ e, append ap enf hs agg ty payload md fresh id w = (Ok e, w) ∧ e ∈ contents (w_db w "event_log").
Proof.
  unfold event_key. intros Hl Hkey.
  destruct (logged_found key (_normalize_string (get "scan_fingerprint"
    (_normalize_event_metadata md agg ty payload fresh))) w Hl) as (e & He & Hf).
  exists e. split; [|done]. unfold append_event. cbv zeta. unfold bind at 1.
  destruct (enforce_reads enf w) as [v ->]. unfold bind at 1. by rewrite Hkey, Hf.
Qed.

(** C12: an event is logged once. After a successful append of an event with a
    fresh id, a log that still holds what it held answers every further append
    under the same key with a logged event, and the database stays as it is:
    nothing is projected again. *)
Theorem append_event_once ap enf hs agg ty payload md fresh id key w e w' :
  _normalize_string (get "scan_fingerprint" md) = None →
  event_key agg ty payload md fresh = Some key →
  (∀ d, d ∈ contents (w_db w "event_log") → aget "_id" d ≠ Some (VStr id)) →
  append ap enf hs agg ty payload md fresh id w = (Ok e, w') →
  ∀ ap2 enf2 hs2 agg2 ty2 payload2 md2 fresh2 id2 w2,
    event_key agg2 ty2 payload2 md2 fresh2 = Some key →
    (∀ d, d ∈ contents (w_db w' "event_log") → d ∈ contents (w_db w2 "event_log")) →
    ∃ e2, append ap2 enf2 hs2 agg2 ty2 payload2 md2 fresh2 id2 w2 = (Ok e2, w2) ∧ e2 ∈ contents (w_db w2 "event_log").
Proof.
  intros Hscan Hkey Hfresh Ha ap2 enf2 hs2 agg2 ty2 payload2 md2 fresh2 id2 w2 Hkey2 Hsub.
  destruct (append_logs _ _ _ _ _ _ _ _ _ _ _ _ _ Hscan Hkey Hfresh Ha) as (d & Hd & Hm); [by left|].
  apply (logged_answers _ _ _ _ _ _ _ _ _ key); [exists d; auto | done].
Qed.

(** An append whose projection fails has logged its event all the same, unless
    the caller's transaction takes it back: the retry finds the event and
    projects nothing. *)
Lemma failed_projection_not_retried ap enf hs agg ty payload md fresh id key w x w' :
  _normalize_string (get "scan_fingerprint" md) = None →
  event_key agg ty payload md fresh = Some key →
  (∀ d, d ∈ contents (w_db w "event_log") → aget "_id" d ≠ Some (VStr id)) →
  str_in "event_log" (w_guards w) = false →
  append ap enf hs agg ty payload md fresh id w = (Raise x, w') →
  ∃ e, append ap enf hs agg ty payload md fresh id w' = (Ok e, w').
Proof.
  intros Hscan Hkey Hfresh Hg Ha.
  destruct (logged_answers ap enf hs agg ty payload md fresh id key w') as (e & He & _); [|done|by exists e].
  eapply append_logs; eauto.
Qed.
End append.

Example append_event_once_witness :
  let md := [("event_idempotency_key", VStr "SYNC_CONFLICT_RECORDED:c1")] in
  let append w := append_event (C:=coll) (fun _ => 0) (fun _ => None) (Ok true) replica_client true None false
                    "I1" "SYNC_CONFLICT_RECORDED"
                    [("queue_id", VStr "c1")] md "f" "e1" w in
  let w1 := snd (append (mkworld [])) in
  ∃ e, append_event (fun _ => 0) (fun _ => None) (Ok true) replica_client true None false "I1" "SYNC_CONFLICT_RECORDED"
         [("queue_id", VStr "other")] md "g" "e2" w1 = (Ok e, w1) ∧ e ∈ contents (w_db w1 "event_log").
Proof.
  intros md append w1.
  assert (is_ok (fst (append (mkworld []))) = true) as Hok by (vm_compute; reflexivity).
  unfold w1. destruct (append (mkworld [])) as [[e|] w'] eqn:He; [|discriminate Hok]. cbn [snd].
  refine (append_event_once (fun _ => 0) (fun _ => None) (Ok true) replica_client true None false
    "I1" "SYNC_CONFLICT_RECORDED" [("queue_id", VStr "c1")] md
    "f" "e1" "SYNC_CONFLICT_RECORDED:c1" (mkworld []) e w' _ _ _ He true None false "I1" "SYNC_CONFLICT_RECORDED"
    [("queue_id", VStr "other")] md "g" "e2" w' _ _); [reflexivity | reflexivity | | reflexivity | done].
  intros d Hd. by apply not_elem_of_nil in Hd.
Defined.

(** With a driver whose collections have no truth value (it raises), the flag
    documents of the database are never read. *)
Lemma flag_documents_ignored {C} `{Mongo C} env key dflt (w : world C) e :
  env key = None → is_enabled env (Raise e) key dflt w = (Ok dflt, w).
Proof. intros He. unfold is_enabled. by rewrite He. Qed.
