(* ===== verification/ApprovalEngine.v ===== *)
(** The approval engine, [services/approval_engine.py]: whether an observation
    (a count of an item, compared with the quantity of the ERP database) is
    approved without a supervisor.

    [evaluate] runs its rules in the order of the code; the observation is a
    dict that it changes in place, so it is returned with the result.  A rule
    may raise, on values of another type than it expects.  The two rules that
    read the database first take the truth value of the database and of the
    collection: what these are is a parameter ([database_bool],
    [collection_bool]), because PyMongo objects raise there. *)

From Stdlib Require Import Ascii Floats.SpecFloat.
From S2P Require Import Prelude PyFloat Py Store Guard Inventory Uow Lifecycle Quantity.

Local Open Scope Z_scope.
Local Open Scope stock_scope.

(** ** Enumerations of the schemas *)

Inductive CountObservationStatus :=
| AUTO_APPROVED | SUPERVISOR_REVIEW | APPROVED | REJECTED | RECOUNT_REQUESTED | RECOUNT_ASSIGNED
| RECOUNT_IN_PROGRESS | RECOUNT_MATCHED | RECOUNT_DIFFERENCE | PENDING_INVESTIGATION
| DISTRIBUTED_STOCK_INVESTIGATION.
Definition observation_status_value (s : CountObservationStatus) : string :=
  match s with
  | AUTO_APPROVED => "AUTO_APPROVED" | SUPERVISOR_REVIEW => "SUPERVISOR_REVIEW" | APPROVED => "APPROVED"
  | REJECTED => "REJECTED" | RECOUNT_REQUESTED => "RECOUNT_REQUESTED" | RECOUNT_ASSIGNED => "RECOUNT_ASSIGNED"
  | RECOUNT_IN_PROGRESS => "RECOUNT_IN_PROGRESS" | RECOUNT_MATCHED => "RECOUNT_MATCHED"
  | RECOUNT_DIFFERENCE => "RECOUNT_DIFFERENCE" | PENDING_INVESTIGATION => "PENDING_INVESTIGATION"
  | DISTRIBUTED_STOCK_INVESTIGATION => "DISTRIBUTED_STOCK_INVESTIGATION"
  end.

Inductive SqlAvailability := AVAILABLE_AT_SUBMISSION | AVAILABLE_AT_SYNC | RECONSTRUCTED | UNAVAILABLE.
Definition availability_value (a : SqlAvailability) : string :=
  match a with
  | AVAILABLE_AT_SUBMISSION => "AVAILABLE_AT_SUBMISSION"
  | AVAILABLE_AT_SYNC => "AVAILABLE_AT_SYNC"
  | RECONSTRUCTED => "RECONSTRUCTED"
  | UNAVAILABLE => "UNAVAILABLE"
  end.

Inductive ApprovalExceptionType :=
| BATCH_VARIANCE | SERIAL_CONFLICT | ATTRIBUTE_MISMATCH | LOCATION_MISMATCH | DAMAGED_STOCK | PROVISIONAL_BATCH
| LOCATION_INVESTIGATION | INCOMPLETE_EVIDENCE | CONCURRENT_OBSERVATION | SYNC_CONFLICT | POLICY_THRESHOLD.

(** ** Rule results *)

Record RuleResult := Rule { passed : bool; detail : string }.

Definition _ok (d : string) : RuleResult := Rule true d.
Definition _fail (d : string) (extra : string) : RuleResult :=
  Rule false (if String.eqb extra "" then d else d +:+ ":" +:+ extra).

Definition _compute_variance (physical : float) (sql_qty : val) : outcome float :=
  match as_num sql_qty with
  | None => Raise (TypeError "unsupported operand type(s) for -")
  | Some (NFloat q) => Ok (round_nd (fsub physical q) 4)
  | Some (NInt z) => obind (to_float (VInt z)) (fun q => Ok (round_nd (fsub physical q) 4))
  end.

(** ** The rules on the observation *)

(** [float(d.get(k) or 0)] *)
Definition float_or0 (k : string) (d : doc) : outcome float := to_float (por (get k d) (VInt 0)).

(** [sum(float(b.get(k) or 0) for b in l)] of a non-empty list. *)
Fixpoint sum_field (k : string) (l : list val) (acc : float) : outcome float :=
  match l with
  | [] => Ok acc
  | b :: rest => obind (val_get k b) (fun v => obind (to_float (por v (VInt 0))) (fun x => sum_field k rest (fadd acc x)))
  end.

Definition tolerance : float := of_dec 1 (-4).

Definition _check_batch_variance (observation : doc) : outcome RuleResult :=
  obind (iterate (get "batches" observation)) (fun batches =>
  match batches with
  | [] => Ok (_ok "no_batches")
  | _ =>
      obind (sum_field "counted_qty" batches f0) (fun physical_total =>
      obind (sum_field "sql_qty" batches f0) (fun sql_total =>
      Ok (if flt tolerance (fabs (fsub physical_total sql_total))
          then _fail "batch_wise_variance" ("physical=" +:+ float_repr physical_total +:+ ", sql=" +:+ float_repr sql_total)
          else _ok "batch_variance_match")))
  end).

(** The truthy serial numbers of the entries. *)
Fixpoint entry_serials (entries : list val) : outcome (list val) :=
  match entries with
  | [] => Ok []
  | e :: rest =>
      obind (val_get "serial_number" e) (fun v =>
      obind (entry_serials rest) (fun l => Ok (if truthy v then v :: l else l)))
  end.

(** The serials that had been seen before, in order. *)
Fixpoint duplicates (serials seen : list val) : outcome (list val) :=
  match serials with
  | [] => Ok []
  | s :: rest =>
      if negb (hashable s) then Raise (TypeError "unhashable type")
      else obind (duplicates rest (s :: seen)) (fun d => Ok (if existsb (py_eqb s) seen then s :: d else d))
  end.

(** [",".join(l)] *)
Fixpoint texts (l : list val) : outcome (list string) :=
  match l with
  | [] => Ok []
  | VStr s :: rest => obind (texts rest) (fun t => Ok (s :: t))
  | _ :: _ => Raise (TypeError "sequence item: expected str instance")
  end.

Definition _check_serial_integrity (observation : doc) : outcome RuleResult :=
  obind (iterate (get "serial_entries" observation)) (fun entries =>
  match entries with
  | [] => Ok (_ok "no_serials")
  | _ =>
      obind (entry_serials entries) (fun serials =>
      obind (duplicates serials []) (fun dupes =>
      match dupes with
      | [] => Ok (_ok "serial_unique")
      | _ => obind (texts dupes) (fun t => Ok (_fail "duplicate_serials" (join "," t)))
      end))
  end).

Definition differ (a b : val) : bool := truthy a && truthy b && negb (py_eqb a b).

Definition _check_attribute_mismatch (observation : doc) : RuleResult :=
  let mrp_counted := get "mrp_counted" observation in
  let mrp_sql := get "mrp_sql" observation in
  if negb (is_none mrp_counted) && negb (is_none mrp_sql) && negb (py_eqb mrp_counted mrp_sql)
  then _fail "mrp_mismatch" ("counted=" +:+ to_str mrp_counted +:+ ", sql=" +:+ to_str mrp_sql)
  else if differ (get "manufacturing_date" observation) (get "manufacturing_date_sql" observation)
          || differ (get "expiry_date" observation) (get "expiry_date_sql" observation)
  then _fail "date_mismatch" ""
  else _ok "attributes_match".

Definition _check_location_policy (observation : doc) : RuleResult :=
  let expected := get "expected_location" observation in
  let actual := por (get "location_id" observation) (por (get "mark_location" observation) (get "rack_no" observation)) in
  if differ expected actual
  then _fail "location_mismatch" ("expected=" +:+ to_str expected +:+ ", actual=" +:+ to_str actual)
  else _ok "location_ok".

Definition _check_damaged_stock (observation : doc) : outcome RuleResult :=
  obind (float_or0 "damaged_qty" observation) (fun damaged =>
  obind (float_or0 "non_returnable_damaged_qty" observation) (fun non_returnable =>
  let condition := get "item_condition" observation in
  Ok (if flt f0 damaged || flt f0 non_returnable || truthy condition
      then _fail "damaged_or_condition" ("damaged=" +:+ float_repr damaged +:+ ", nr=" +:+ float_repr non_returnable
                                         +:+ ", condition=" +:+ to_str condition)
      else _ok "no_damage"))).

Definition _check_provisional (observation : doc) : outcome RuleResult :=
  let is_provisional := por (get "is_provisional_batch" observation)
                          (por (get "is_provisional_bundle" observation) (get "is_new_bundle" observation)) in
  if truthy is_provisional then Ok (_fail "provisional_or_internal_barcode" "")
  else match por (get "barcode" observation) (VStr "") with
       | VStr barcode => Ok (if startswith "500100" barcode then _fail "provisional_or_internal_barcode" ""
                             else _ok "not_provisional")
       | _ => Raise (AttributeError "object has no attribute 'startswith'")
       end.

Definition _check_mandatory_remark (observation : doc) : outcome RuleResult :=
  match por (get "remark" observation) (VStr "") with
  | VStr remark => Ok (if String.eqb (strip remark) "" then _fail "missing_remark" "" else _ok "remark_present")
  | _ => Raise (AttributeError "object has no attribute 'strip'")
  end.

(** The keys of the checks that are not met. *)
Definition unmet (checks : doc) : list string := map fst (List.filter (fun kv => negb (truthy (snd kv))) checks).

Definition _check_required_parameters (observation : doc) : outcome RuleResult :=
  match por (get "parameter_checks" observation) (VDict []) with
  | VDict checks => Ok (match unmet checks with
                        | [] => _ok "parameters_complete"
                        | missing => _fail "missing_parameters" (join "," missing)
                        end)
  | _ => Raise (AttributeError "object has no attribute 'items'")
  end.

Definition _check_accessory_completeness (observation : doc) : RuleResult :=
  match por (get "accessory_checks" observation) (VDict []) with
  | VDict checks => match unmet checks with
                    | [] => _ok "accessories_complete"
                    | missing => _fail "missing_accessories" (join "," missing)
                    end
  | _ => _ok "no_checks"
  end.

Definition _check_photo_evidence (observation : doc) : RuleResult :=
  if truthy (get "photo_proofs" observation) then _ok "photos_present" else _fail "missing_photos" "".

Definition _check_sync_conflict (observation : doc) : RuleResult :=
  match get "sync_status" observation with
  | VStr s => if str_in s ["conflict"; "failed"] then _fail "sync_conflict" s else _ok "sync_ok"
  | _ => _ok "sync_ok"
  end.

(** [f"{x:.1f}"] *)
Definition fixed1 (x : float) : string :=
  match x with
  | S754_finite s _ _ =>
      let r := div_half_even (Z.abs (num_scaled x) * 10) (2 ^ den_exp x) in
      (if s then "-" else "") +:+ str_of_Z (r / 10) +:+ "." +:+ str_of_Z (r mod 10)
  | S754_zero s => (if s then "-" else "") +:+ "0.0"
  | _ => float_repr x
  end.

Definition _check_policy_thresholds (observation : doc) : outcome RuleResult :=
  obind (float_or0 "variance" observation) (fun variance =>
  obind (float_or0 "counted_qty" observation) (fun counted_qty =>
  let pct := fmul (fabs (fdiv variance counted_qty)) (of_Z 100) in
  Ok (if flt f0 counted_qty && flt (of_Z 50) pct then _fail "high_variance_pct" (fixed1 pct +:+ "%")
      else _ok "threshold_ok"))).

Definition _determine_sql_source (observation : doc) : SqlAvailability :=
  if negb (is_none (get "sql_qty_at_submission" observation)) then AVAILABLE_AT_SUBMISSION
  else if negb (is_none (get "reconstructed_qty" observation)) then RECONSTRUCTED
  else if negb (is_none (por (get "sql_qty_at_recount" observation) (get "sql_quantity" observation)))
  then AVAILABLE_AT_SYNC
  else UNAVAILABLE.

(** ** The evaluation *)

Record rule := RuleRow { r_name : string; r_passed : bool; r_detail : string }.

Record AutoApprovalResult := Result {
  ar_observation_id : string;
  ar_approved : bool;
  ar_rules_passed : list rule;
  ar_sql_quantity_source : SqlAvailability;
  ar_sql_comparison_source : option string;
  ar_block_reason : option string;
}.

Definition exception_value (t : ApprovalExceptionType) : string :=
  match t with
  | BATCH_VARIANCE => "BATCH_VARIANCE" | SERIAL_CONFLICT => "SERIAL_CONFLICT"
  | ATTRIBUTE_MISMATCH => "ATTRIBUTE_MISMATCH" | LOCATION_MISMATCH => "LOCATION_MISMATCH"
  | DAMAGED_STOCK => "DAMAGED_STOCK" | PROVISIONAL_BATCH => "PROVISIONAL_BATCH"
  | LOCATION_INVESTIGATION => "LOCATION_INVESTIGATION" | INCOMPLETE_EVIDENCE => "INCOMPLETE_EVIDENCE"
  | CONCURRENT_OBSERVATION => "CONCURRENT_OBSERVATION" | SYNC_CONFLICT => "SYNC_CONFLICT"
  | POLICY_THRESHOLD => "POLICY_THRESHOLD"
  end.

(** An exception and its description. *)
Definition ApprovalExceptionDetail : Type := ApprovalExceptionType * string.

Definition exception_dict (e : ApprovalExceptionDetail) : val :=
  VDict [("exception_type", VStr (exception_value (fst e))); ("description", VStr (snd e)); ("is_blocking", VBool true)].

(** [e.description or e.exception_type.value] *)
Definition reason_of (e : ApprovalExceptionDetail) : string :=
  if String.eqb (snd e) "" then exception_value (fst e) else snd e.

Section engine.
Context {C : Type} `{Mongo C}.
Context (database_bool collection_bool : outcome bool).

(** Is the collection one the rule can read: [db[name] if db else None], then
    [if not coll]. *)
Definition collection_usable : outcome bool :=
  obind database_bool (fun b => if b then collection_bool else Ok false).

Definition _check_additional_location_investigation (observation : doc) : M (world C) RuleResult :=
  if negb (truthy (get "session_id" observation)) || negb (truthy (get "item_code" observation))
  then ret (_ok "no_investigation_checkable")
  else
    do usable <- lift collection_usable ;;
    if negb usable then ret (_ok "no_db")
    else
      do results <- db_find "additional_location_investigations"
        (QAnd [QEq "observation_id" (get "id" observation); QEq "response" (VStr "NOT_CHECKED")]) ;;
      ret match results with
          | [] => _ok "investigation_clear"
          | _ => _fail "pending_investigation" ""
          end.

Definition concurrent_query (observation : doc) : query :=
  QAnd [QEq "session_id" (get "session_id" observation); QEq "item_code" (get "item_code" observation);
        QNin "status" [VStr (observation_status_value APPROVED); VStr (observation_status_value AUTO_APPROVED)]].

Definition _check_concurrent_conflict (observation : doc) : M (world C) RuleResult :=
  if negb (truthy (get "session_id" observation)) || negb (truthy (get "item_code" observation))
  then ret (_ok "no_conflict_checkable")
  else
    do usable <- lift collection_usable ;;
    if negb usable then ret (_ok "no_db")
    else
      do found <- db_find "count_observations" (concurrent_query observation) ;;
      ret (if existsb (fun d => negb (String.eqb (to_str (get "id" d)) (to_str (get "id" observation)))) (take 2 found)
           then _fail "concurrent_observation" "" else _ok "no_conflict").

(** The rules in order: the name, the exception a failure gives, and the check. *)
Definition rules (observation : doc) : list (string * ApprovalExceptionType * M (world C) RuleResult) := [
  ("batch_variance", BATCH_VARIANCE, lift (_check_batch_variance observation));
  ("serial_integrity", SERIAL_CONFLICT, lift (_check_serial_integrity observation));
  ("attribute_match", ATTRIBUTE_MISMATCH, ret (_check_attribute_mismatch observation));
  ("location_policy", LOCATION_MISMATCH, ret (_check_location_policy observation));
  ("damaged_stock", DAMAGED_STOCK, lift (_check_damaged_stock observation));
  ("provisional_items", PROVISIONAL_BATCH, lift (_check_provisional observation));
  ("additional_location", LOCATION_INVESTIGATION, _check_additional_location_investigation observation);
  ("mandatory_remark", INCOMPLETE_EVIDENCE, lift (_check_mandatory_remark observation));
  ("required_parameters", ATTRIBUTE_MISMATCH, lift (_check_required_parameters observation));
  ("accessory_checks", INCOMPLETE_EVIDENCE, ret (_check_accessory_completeness observation));
  ("photo_evidence", INCOMPLETE_EVIDENCE, ret (_check_photo_evidence observation));
  ("concurrent_conflict", CONCURRENT_OBSERVATION, _check_concurrent_conflict observation);
  ("sync_conflict", SYNC_CONFLICT, ret (_check_sync_conflict observation));
  ("policy_thresholds", POLICY_THRESHOLD, lift (_check_policy_thresholds observation))].

(** The rows of the rules and the exceptions of those that fail. *)
Fixpoint apply_rules (l : list (string * ApprovalExceptionType * M (world C) RuleResult))
  : M (world C) (list rule * list ApprovalExceptionDetail) :=
  match l with
  | [] => ret ([], [])
  | (name, exception_type, check) :: rest =>
      do r <- check ;;
      do ' (rows, exceptions) <- apply_rules rest ;;
      ret (RuleRow name (passed r) (detail r) :: rows,
           if passed r then exceptions else (exception_type, detail r) :: exceptions)
  end.

(** The observation after a full evaluation. *)
Definition evaluated (observation : doc) (variance : float) (exceptions : list ApprovalExceptionDetail) (approved : bool)
    (sql_source : SqlAvailability) : doc :=
  let recommendation :=
    match sql_source with
    | UNAVAILABLE => "PENDING_SQL"
    | _ => if approved then "AUTO_APPROVE" else "SUPERVISOR_REVIEW"
    end in
  let status := observation_status_value (if approved then AUTO_APPROVED else SUPERVISOR_REVIEW) in
  aupd observation
    [("exception_types", VList (map (fun e => VStr (exception_value (fst e))) exceptions));
     ("exception_details", VList (map exception_dict exceptions)); ("system_recommendation", VStr recommendation);
     ("variance", VFloat (if truthy (VFloat variance) then variance else f0)); ("status", VStr status);
     ("approval_status", VStr status)].

Definition comparison_source (sql_source : SqlAvailability) : option string :=
  match sql_source with UNAVAILABLE => None | a => Some (availability_value a) end.

Definition evaluate (observation : doc) : M (world C) (AutoApprovalResult * doc) :=
  let observation_id := por (get "id" observation) (get "_id" observation) in
  if negb (truthy observation_id)
  then ret (Result "unknown" false [] UNAVAILABLE None (Some "missing_observation_id"), observation)
  else
    let sql_qty := get "sql_qty_at_submission" observation in
    let sql_source := _determine_sql_source observation in
    if negb (truthy sql_qty) && negb (match sql_source with AVAILABLE_AT_SYNC => true | _ => false end)
    then ret (Result (to_str observation_id) false
                [RuleRow "sql_fetched_at_submission" false "SQL unavailable at submission"] sql_source None
                (Some "sql_unavailable"), observation)
    else
      let sql_qty := if is_none sql_qty then VFloat f0 else sql_qty in
      do physical_qty <- lift (float_or0 "counted_qty" observation) ;;
      do variance <- lift (_compute_variance physical_qty sql_qty) ;;
      let observation := aset "variance" (VFloat variance) observation in
      do ' (rows, exceptions) <- apply_rules (rules observation) ;;
      let approved := match exceptions with [] => feq variance f0 | _ => false end in
      ret (Result (to_str observation_id) approved
             (RuleRow "sql_fetched_at_submission" true (to_str sql_qty) :: rows) sql_source
             (comparison_source sql_source)
             (if approved then None else Some (join "; " (map reason_of exceptions))),
           evaluated observation variance exceptions approved sql_source).
End engine.
