(* ===== verification/Observations.v ===== *)
(** Observations and their review: the observation a submitted count line
    leaves ([api/count_lines_routes.py]), its evaluation and the decision of a
    supervisor ([api/approval_api.py]), blind recounts
    ([services/recount_service.py]) and the deltas of a session
    ([services/sql_variance_engine.py]).

    The routes start with [get_db], which takes the truth value of the database
    ([database_bool], as in [ApprovalEngine]).  What pydantic makes of a stored
    recount request is a parameter ([parse_request]); the ids drawn from
    [uuid4] are arguments.  Supervisor queues and reports are reads that are
    left out. *)

From Stdlib Require Import Ascii.
From S2P Require Import Prelude PyFloat Py Store Guard Inventory Uow Lifecycle Quantity ApprovalEngine.

Local Open Scope Z_scope.
Local Open Scope stock_scope.

(** A required [str] field of a pydantic model. *)
Definition str_field (v : val) : outcome string :=
  match v with VStr s => Ok s | _ => Raise (ValueError "validation error: Input should be a valid string") end.

Definition opt_str_field (v : val) : outcome val :=
  match v with VStr _ | VNone => Ok v | _ => Raise (ValueError "validation error: Input should be a valid string") end.

Definition opt_float (o : option float) : val := match o with Some x => VFloat x | None => VNone end.

(** The fields of a submitted count line that its observation takes. *)
Record line_data := LineData {
  l_session_id : string; l_item_code : string; l_split_section : option string; l_manufacturing_date : option string;
  l_expiry_date : option string; l_batch_id : option string; l_floor_no : option string; l_rack_no : option string;
  l_mark_location : option string; l_location_id : option string; l_remark : option string;
  l_recount_of_id : option string;
}.

(** [bool(s)] of an optional string *)
Definition filled (o : option string) : bool := truthy (opt_str o).

Definition submitted_observation (fresh : string) (l : line_data) (current_user count_line : doc) : outcome doc :=
  obind (float_or0 "counted_qty" count_line) (fun counted_qty =>
  obind (to_float (por (get "conversion_factor" count_line) (VFloat (of_Z 1)))) (fun conversion_factor =>
  obind (float_or0 "split_total" count_line) (fun split_total =>
  obind (float_or0 "mrp" count_line) (fun mrp =>
  obind (float_or0 "damaged_qty" count_line) (fun damaged_qty =>
  obind (float_or0 "non_returnable_damaged_qty" count_line) (fun non_returnable =>
  Ok [("id", VStr fresh); ("session_id", VStr (l_session_id l)); ("item_code", VStr (l_item_code l));
      ("item_name", get "item_name" count_line); ("counted_qty", VFloat counted_qty);
      ("base_uom", get "uom_code" count_line); ("uom_code", get "uom_code" count_line);
      ("uom_name", get "uom_name" count_line); ("conversion_factor", VFloat conversion_factor);
      ("quantity_precision", get "quantity_precision" count_line); ("batches", get "batches" count_line);
      ("serial_entries", get "serial_entries" count_line); ("split_section", opt_str (l_split_section l));
      ("split_total", VFloat split_total); ("mrp_counted", VFloat mrp);
      ("manufacturing_date", opt_str (l_manufacturing_date l)); ("expiry_date", opt_str (l_expiry_date l));
      ("barcode", get "barcode" count_line); ("batch_id", opt_str (l_batch_id l));
      ("damaged_qty", VFloat damaged_qty); ("non_returnable_damaged_qty", VFloat non_returnable);
      ("item_condition", get "item_condition" count_line); ("floor_no", opt_str (l_floor_no l));
      ("rack_no", opt_str (l_rack_no l)); ("mark_location", opt_str (l_mark_location l));
      ("location_id", opt_str (l_location_id l)); ("remark", opt_str (l_remark l)); ("photo_proofs", VList []);
      ("parameter_checks", VDict []); ("accessory_checks", VDict []); ("version", VInt 1); ("status", VStr "DRAFT");
      ("sql_qty_at_submission", get "erp_qty" count_line); ("created_by", get "username" current_user);
      ("is_recount", VBool (filled (l_recount_of_id l))); ("recount_of_id", opt_str (l_recount_of_id l))])))))).

Definition flag_concurrent (observation : doc) : doc :=
  aupd observation [("status", VStr "SUPERVISOR_REVIEW"); ("exception_types", VList [VStr "CONCURRENT_OBSERVATION"]);
                    ("system_recommendation", VStr "SUPERVISOR_REVIEW")].

(** ** Decisions *)

Record SupervisorDecideRequest := DecideRequest {
  d_action : string; d_reason : option string; d_notes : option string; d_corrected_classification : option string;
  d_assign_to : option string; d_is_blind : option bool;
}.

(** What an action sets, besides the recount it may ask for. *)
Definition action_fields (action : string) : doc :=
  if String.eqb action "APPROVE" then [("approval_status", VStr "APPROVED"); ("status", VStr (observation_status_value APPROVED))]
  else if String.eqb action "REJECT"
  then [("approval_status", VStr "REJECTED"); ("status", VStr (observation_status_value REJECTED))]
  else if String.eqb action "REQUEST_RECOUNT"
  then [("status", VStr (observation_status_value RECOUNT_REQUESTED)); ("approval_status", VStr "RECOUNT_REQUESTED")]
  else if String.eqb action "ADJUST_COUNT"
  then [("approval_status", VStr "ADJUSTED"); ("status", VStr (observation_status_value APPROVED))]
  else [].

Definition decision_update (p : SupervisorDecideRequest) (decided_by : val) (decided_at updated_at : Z) : doc :=
  [("supervisor_decision", VStr (d_action p)); ("supervisor_notes", opt_str (d_notes p)); ("decided_by", decided_by);
   ("decided_at", VTime decided_at); ("updated_at", VTime updated_at)]
  ++ (if filled (d_corrected_classification p) then [("item_condition", opt_str (d_corrected_classification p))] else [])
  ++ action_fields (d_action p).

Definition decision_document (id observation_id : string) (p : SupervisorDecideRequest) (observation : doc)
    (decided_by : val) (decided_at : Z) : doc :=
  [("id", VStr id); ("observation_id", VStr observation_id); ("session_id", get "session_id" observation);
   ("decided_by", decided_by); ("decided_at", VTime decided_at); ("action", VStr (d_action p));
   ("reason", opt_str (d_reason p)); ("notes", opt_str (d_notes p));
   ("corrected_classification", opt_str (d_corrected_classification p)); ("observation_snapshot", VDict observation)].

(** ** Recounts *)

Record recount_options := RecountOptions {
  o_scope : string; o_batch_or_serial_scope : option string; o_location_id : option string;
  o_required_evidence : list string; o_priority : string; o_is_blind : bool; o_assigned_to : option string;
}.

Definition opt_moment (o : option Z) : val := match o with Some t => VTime t | None => VNone end.

Definition request_document (id observation_id session_id item_code requested_by reason : string) (o : recount_options)
    (assigned_at : option Z) (created_at updated_at : Z) : doc :=
  [("id", VStr id); ("observation_id", VStr observation_id); ("session_id", VStr session_id);
   ("item_code", VStr item_code); ("requested_by", VStr requested_by); ("request_reason", VStr reason);
   ("scope", VStr (o_scope o)); ("batch_or_serial_scope", opt_str (o_batch_or_serial_scope o));
   ("location_id", opt_str (o_location_id o)); ("required_evidence", VList (map VStr (o_required_evidence o)));
   ("priority", VStr (o_priority o)); ("is_blind", VBool (o_is_blind o));
   ("status", VStr (observation_status_value RECOUNT_REQUESTED)); ("assigned_to", opt_str (o_assigned_to o));
   ("assigned_at", opt_moment assigned_at); ("started_at", VNone); ("submitted_at", VNone); ("resolved_at", VNone);
   ("created_at", VTime created_at); ("updated_at", VTime updated_at); ("linked_recount_observation_id", VNone)].

Record RecountComparisonResult := Comparison {
  c_original_observation_id : string; c_recount_observation_id : string; c_original_count : float;
  c_recount_count : float; c_sql_at_recount : float; c_difference : float; c_matches_sql : bool;
  c_decision : string; c_original_variance : float; c_recount_variance : float;
}.

(** The comparison of the numbers of a recount. *)
Definition matches_quantity (recount_count sql_at_recount : float) : bool :=
  fle (fabs (fsub recount_count sql_at_recount)) tolerance.
Definition recount_decision (recount_count sql_at_recount : float) : string :=
  observation_status_value (if matches_quantity recount_count sql_at_recount then RECOUNT_MATCHED else RECOUNT_DIFFERENCE).

Definition comparison_document (id : string) (original_id recount_id : val) (original_count recount_count sql_at_recount
    original_variance : float) : doc :=
  [("id", VStr id); ("original_observation_id", original_id); ("recount_observation_id", recount_id);
   ("original_count", VFloat original_count); ("recount_count", VFloat recount_count);
   ("sql_at_recount", VFloat sql_at_recount);
   ("difference", VFloat (round_nd (fsub recount_count original_count) 4));
   ("matches_sql", VBool (matches_quantity recount_count sql_at_recount));
   ("decision", VStr (recount_decision recount_count sql_at_recount));
   ("original_variance", VFloat original_variance);
   ("recount_variance", VFloat (round_nd (fsub recount_count sql_at_recount) 4))].

(** ** Deltas of a session *)

(** [sum(float(d.get(k) or 0) for d in l)]: the integer 0 of an empty list. *)
Fixpoint sum_docs (k : string) (l : list doc) (acc : float) : outcome float :=
  match l with
  | [] => Ok acc
  | d :: rest => obind (float_or0 k d) (fun x => sum_docs k rest (fadd acc x))
  end.
Definition py_sum (k : string) (l : list doc) : outcome num :=
  match l with [] => Ok (NInt 0) | _ => obind (sum_docs k l f0) (fun x => Ok (NFloat x)) end.

Definition num_float (n : num) : float := match n with NInt z => of_Z z | NFloat x => x end.

(** [round(a - b, 4)] *)
Definition delta (a b : num) : num :=
  match a, b with
  | NInt x, NInt y => NInt (x - y)
  | _, _ => NFloat (round_nd (fsub (num_float a) (num_float b)) 4)
  end.

Record item_delta := ItemDelta {
  i_item_code : val; i_sql_qty_at_submission : float; i_physical_qty : float; i_audit_delta : float;
  i_operational_delta : float; i_status : val; i_approval_status : val;
}.

Definition item_deltas (observations : list doc) : outcome (list item_delta) :=
  (fix go (l : list doc) : outcome (list item_delta) :=
     match l with
     | [] => Ok []
     | obs :: rest =>
         obind (float_or0 "sql_qty_at_submission" obs) (fun sql_qty =>
         obind (float_or0 "counted_qty" obs) (fun physical_qty =>
         let item_variance := round_nd (fsub physical_qty sql_qty) 4 in
         obind (go rest) (fun more =>
         Ok (ItemDelta (get "item_code" obs) sql_qty physical_qty item_variance item_variance (get "status" obs)
               (get "approval_status" obs) :: more))))
     end) observations.

Record session_variance := SessionVariance {
  v_session_id : string; v_total_physical : num; v_total_sql_at_submission : num; v_audit_delta : num;
  v_movement_adjusted_expected : num; v_operational_delta : num; v_variance_by_item : list item_delta;
  v_computed_at : string;
}.

Record SessionApprovalSummary := Summary {
  s_total_observations : Z; s_auto_approved : Z; s_supervisor_approved : Z; s_recount_requested : Z;
  s_pending_investigation : Z; s_blocking_items : list val;
}.

Definition is_status (s : CountObservationStatus) (obs : doc) : bool :=
  py_eqb (dget "status" (VStr "") obs) (VStr (observation_status_value s)).

Definition summarize (m : SessionApprovalSummary) (obs : doc) : SessionApprovalSummary :=
  let '(Summary total auto approved recount pending blocking) := m in
  let total := total + 1 in
  if is_status AUTO_APPROVED obs then Summary total (auto + 1) approved recount pending blocking
  else if is_status APPROVED obs then Summary total auto (approved + 1) recount pending blocking
  else if is_status RECOUNT_REQUESTED obs then Summary total auto approved (recount + 1) pending blocking
  else if is_status PENDING_INVESTIGATION obs || is_status DISTRIBUTED_STOCK_INVESTIGATION obs
  then Summary total auto approved recount (pending + 1) (blocking ++ [get "id" obs])
  else if is_status SUPERVISOR_REVIEW obs then Summary total auto approved recount pending (blocking ++ [get "id" obs])
  else Summary total auto approved recount pending blocking.

Section observations.
Context {C : Type} `{Mongo C}.
Context (clock : nat → Z) (database_bool collection_bool : outcome bool) (parse_request : doc → outcome doc).

(** [find_one_and_update] of a guarded collection: the document before and
    after. *)
Definition db_find_one_and_update (name : string) (q : query) (u : update) : M (world C) (option (doc * doc)) :=
  run _guard name "find_one_and_update" ;;
  fun w => let '(r, c) := find_one_and_update q u (w_db w name) in (Ok r, set_coll name c w).

Definition get_db : M (world C) unit :=
  do b <- lift database_bool ;;
  raise_if (negb b) (HTTPException 500 (VStr "Database not initialized")).

(** ** Submission *)

Definition record_duplicate_governance_event (fresh observation_id session_id : string) (actor : val)
    (duplicate_of_id action : string) (reason : option string) : M (world C) doc :=
  do now <- utc_now clock ;;
  db_insert_one "approval_decisions"
    [("id", VStr fresh); ("observation_id", VStr observation_id); ("session_id", VStr session_id); ("actor", actor);
     ("duplicate_of_id", VStr duplicate_of_id); ("action", VStr action); ("reason", opt_str reason);
     ("created_at", VTime now)].

(** The observation is stored and named in the count line; an exception is only
    logged.  [id] and [event_id] are the ids drawn. *)
Definition create_observation (id event_id : string) (l : line_data) (current_user count_line : doc) : M (world C) doc :=
  do observation <- lift (submitted_observation id l current_user count_line) ;;
  do duplicate <- find_duplicate_count_observation observation None ;;
  do observation <- match duplicate with
                    | Some ((_ :: _) as d) =>
                        do _ <- record_duplicate_governance_event event_id id (l_session_id l)
                          (dget "username" (VStr "system") current_user) (to_str (por (get "id" d) (VStr "")))
                          "DUPLICATE_DETECTED" (Some "duplicate_detected_on_submission") ;;
                        ret (flag_concurrent observation)
                    | _ => ret observation
                    end ;;
  do _ <- db_insert_one "count_observations" observation ;;
  ret (aset "observation_id" (VStr id) count_line).

Definition _create_and_evaluate_observation (id event_id : string) (l : line_data) (current_user count_line : doc)
  : M (world C) doc :=
  try_except (create_observation id event_id l current_user count_line) (fun _ => ret count_line).

(** ** Evaluation and decision *)

Definition find_observation (observation_id : string) : M (world C) doc :=
  do observation <- db_find_one "count_observations" (QEq "id" (VStr observation_id)) ;;
  match observation with
  | Some ((_ :: _) as d) => ret d
  | _ => raise (HTTPException 404 (VStr "Observation not found"))
  end.

Definition evaluate_observation (observation_id : string) : M (world C) AutoApprovalResult :=
  run get_db ;;
  do observation <- find_observation observation_id ;;
  do ' (result, observation) <- evaluate database_bool collection_bool observation ;;
  do _ <- db_update_one "count_observations" (QEq "id" (VStr observation_id)) (USet observation) ;;
  ret result.

(** [RecountService.create_request] *)
Definition create_request (id observation_id : string) (session_id item_code : val) (requested_by reason : string)
    (o : recount_options) : M (world C) doc :=
  do assigned_at <- (if filled (o_assigned_to o) then do now <- utc_now clock ;; ret (Some now) else ret None) ;;
  do session_id <- lift (str_field session_id) ;;
  do item_code <- lift (str_field item_code) ;;
  do created_at <- utc_now clock ;;
  do updated_at <- utc_now clock ;;
  let request_doc := request_document id observation_id session_id item_code requested_by reason o assigned_at
                       created_at updated_at in
  do _ <- db_insert_one "recount_requests" request_doc ;;
  ret request_doc.

(** The request of a supervisor's decision. *)
Definition decided_recount (request_id observation_id : string) (p : SupervisorDecideRequest) (observation : doc)
    (decided_by : val) : M (world C) unit :=
  run get_db ;;
  do _ <- create_request request_id observation_id (dget "session_id" (VStr "") observation)
    (dget "item_code" (VStr "") observation) (to_str (por decided_by (VStr "system")))
    (to_str (por (opt_str (d_reason p)) (VStr "supervisor_decision")))
    (RecountOptions "ITEM" None None [] "HIGH" (default true (d_is_blind p)) (d_assign_to p)) ;;
  ret tt.

(** [decision_id] and [request_id] are the ids drawn. *)
Definition supervisor_decide (observation_id : string) (p : SupervisorDecideRequest) (current_user : doc)
    (decision_id request_id : string) : M (world C) string :=
  run get_db ;;
  do observation <- find_observation observation_id ;;
  let decided_by := por (get "username" current_user) (get "id" current_user) in
  do decided_at <- utc_now clock ;;
  do updated_at <- utc_now clock ;;
  run when (String.eqb (d_action p) "REQUEST_RECOUNT")
        (decided_recount request_id observation_id p observation decided_by) ;;
  do _ <- db_insert_one "approval_decisions"
    (decision_document decision_id observation_id p observation decided_by decided_at) ;;
  do _ <- db_update_one "count_observations" (QEq "id" (VStr observation_id))
            (USet (decision_update p decided_by decided_at updated_at)) ;;
  ret decision_id.

(** ** The life of a recount *)

(** The request after a move, as pydantic reads it. *)
Definition moved_request (request_id : string) (fields : doc) : M (world C) (option doc) :=
  do result <- db_find_one_and_update "recount_requests" (QEq "id" (VStr request_id)) (USet fields) ;;
  match result with
  | Some (_, ((_ :: _) as d)) => do r <- lift (parse_request d) ;; ret (Some r)
  | _ => ret None
  end.

Definition assign (request_id assigned_to : string) : M (world C) (option doc) :=
  do assigned_at <- utc_now clock ;;
  do updated_at <- utc_now clock ;;
  moved_request request_id
    [("assigned_to", VStr assigned_to); ("assigned_at", VTime assigned_at);
     ("status", VStr (observation_status_value RECOUNT_ASSIGNED)); ("updated_at", VTime updated_at)].

Definition start (request_id : string) : M (world C) (option doc) :=
  do started_at <- utc_now clock ;;
  do updated_at <- utc_now clock ;;
  moved_request request_id
    [("started_at", VTime started_at); ("status", VStr (observation_status_value RECOUNT_IN_PROGRESS));
     ("updated_at", VTime updated_at)].

(** The observation of a recount, as it is stored. *)
Definition recount_observation (payload : doc) (original_id is_blind : val) (sql_at_recount : float) (fresh : string)
    (created_at updated_at : Z) : doc :=
  let d := aupd payload [("is_recount", VBool true); ("recount_of_id", original_id); ("recount_is_blind", is_blind);
                         ("sql_qty_at_recount", VFloat sql_at_recount)] in
  let d := if truthy (get "id" d) then d else aset "id" (VStr fresh) d in
  aupd d [("created_at", VStr (isoformat "T" created_at)); ("updated_at", VStr (isoformat "T" updated_at))].

Definition resolved_request (decision : string) (recount_id : val) (submitted_at resolved_at updated_at : Z) : doc :=
  [("status", VStr decision); ("submitted_at", VTime submitted_at); ("linked_recount_observation_id", recount_id);
   ("resolved_at", VTime resolved_at); ("updated_at", VTime updated_at)].

(** [fresh] and [comparison_id] are the ids drawn. *)
Definition submit_recount (request_id : string) (payload : doc) (fresh comparison_id : string)
  : M (world C) RecountComparisonResult :=
  do request <- db_find_one "recount_requests" (QEq "id" (VStr request_id)) ;;
  match request with
  | None | Some [] => raise (ValueError "Recount request not found")
  | Some request_doc =>
      do original_id <- lift (item "observation_id" request_doc) ;;
      do original <- db_find_one "count_observations" (QEq "id" original_id) ;;
      match original with
      | None | Some [] => raise (ValueError "Original observation not found")
      | Some original_doc =>
          do original_count <- lift (float_or0 "counted_qty" original_doc) ;;
          do recount_count <- lift (float_or0 "counted_qty" payload) ;;
          do sql_at_recount <- lift (float_or0 "sql_qty_at_submission" payload) ;;
          do original_variance <- lift (float_or0 "variance" original_doc) ;;
          let decision := recount_decision recount_count sql_at_recount in
          do created_at <- utc_now clock ;;
          do updated_at <- utc_now clock ;;
          let observation := recount_observation payload original_id (dget "is_blind" (VBool true) request_doc)
                               sql_at_recount fresh created_at updated_at in
          do _ <- db_insert_one "count_observations" observation ;;
          let recount_id := get "id" observation in
          do _ <- db_insert_one "recount_comparisons"
            (comparison_document comparison_id original_id recount_id original_count recount_count sql_at_recount
               original_variance) ;;
          do submitted_at <- utc_now clock ;;
          do resolved_at <- utc_now clock ;;
          do moved_at <- utc_now clock ;;
          do _ <- db_find_one_and_update "recount_requests" (QEq "id" (VStr request_id))
                    (USet (resolved_request decision recount_id submitted_at resolved_at moved_at)) ;;
          do original_id <- lift (str_field original_id) ;;
          do recount_id <- lift (str_field recount_id) ;;
          ret (Comparison original_id recount_id original_count recount_count sql_at_recount
                 (round_nd (fsub recount_count original_count) 4) (matches_quantity recount_count sql_at_recount) decision
                 original_variance (round_nd (fsub recount_count sql_at_recount) 4))
      end
  end.

(** ** Investigations of other locations *)

Record location_response := LocationResponse {
  n_observation_id : string; n_response : string; n_suspected_location : option string;
  n_observed_or_estimated_qty : option float; n_staff_remark : option string; n_staff_confidence : option string;
  n_photo_urls : list string;
}.

Definition investigation_document (id session_id item_code : string) (p : location_response) (created_by : val)
    (created_at updated_at : Z) : doc :=
  [("id", VStr id); ("observation_id", VStr (n_observation_id p)); ("session_id", VStr session_id);
   ("item_code", VStr item_code); ("response", VStr (n_response p));
   ("suspected_location", opt_str (n_suspected_location p));
   ("observed_or_estimated_qty", opt_float (n_observed_or_estimated_qty p)); ("staff_remark", opt_str (n_staff_remark p));
   ("photo_urls", VList (map VStr (n_photo_urls p))); ("staff_confidence", opt_str (n_staff_confidence p));
   ("linked_verification_task_id", VNone); ("created_by", created_by); ("created_at", VTime created_at);
   ("updated_at", VTime updated_at)].

Definition create_additional_location_investigation (session_id : string) (p : location_response) (current_user : doc)
    (fresh : string) : M (world C) doc :=
  run get_db ;;
  do observation <- find_observation (n_observation_id p) ;;
  do item_code <- lift (str_field (dget "item_code" (VStr "") observation)) ;;
  do created_by <- lift (opt_str_field (por (get "username" current_user) (get "id" current_user))) ;;
  do created_at <- utc_now clock ;;
  do updated_at <- utc_now clock ;;
  do stored <- db_insert_one "additional_location_investigations"
    (investigation_document fresh session_id item_code p created_by created_at updated_at) ;;
  do _ <- db_update_one "count_observations" (QEq "id" (VStr (n_observation_id p)))
    (USet (if String.eqb (n_response p) "NOT_CHECKED"
           then [("status", VStr (observation_status_value SUPERVISOR_REVIEW));
                 ("additional_location_response", VStr (n_response p))]
           else [("additional_location_response", VStr (n_response p)); ("linked_location_task_id", VStr fresh);
                 ("status", VStr (observation_status_value DISTRIBUTED_STOCK_INVESTIGATION))])) ;;
  ret stored.

(** ** Sessions *)

Definition session_approval_summary (session_id : string) : M (world C) SessionApprovalSummary :=
  run get_db ;;
  do found <- db_find "count_observations" (QEq "session_id" (VStr session_id)) ;;
  ret (fold_left summarize (take 1000 found) (Summary 0 0 0 0 0 [])).

Definition _get_movement_adjusted_expected (session_id : string) : M (world C) num :=
  do movements <- db_find "erp_snapshot" (QEq "session_id" (VStr session_id)) ;;
  lift (py_sum "stock_qty" (take 1000 movements)).

Definition compute_session_variance (session_id : string) : M (world C) session_variance :=
  do found <- db_find "count_observations" (QEq "session_id" (VStr session_id)) ;;
  let observations := take 1000 found in
  do total_physical <- lift (py_sum "counted_qty" observations) ;;
  do total_sql <- lift (py_sum "sql_qty_at_submission" observations) ;;
  do movement_adjusted <- _get_movement_adjusted_expected session_id ;;
  do variance_by_item <- lift (item_deltas observations) ;;
  do now <- utc_now clock ;;
  ret (SessionVariance session_id total_physical total_sql (delta total_physical total_sql) movement_adjusted
         (delta total_physical movement_adjusted) variance_by_item (isoformat "T" now)).
End observations.
