(* ===== verification/ApprovalSpec.v ===== *)
(** Properties of the approval of observations ([ApprovalEngine],
    [Observations]): what an automatic approval means, what a supervisor's
    decision leaves, and runs on which the code does something else. *)

From Stdlib Require Import Ascii Floats.SpecFloat.
From stdpp Require Import sets.
From S2P Require Import Prelude PyFloat Py Store ListStore Guard Inventory Uow Frame Lifecycle LifecycleSpec Quantity.
From S2P Require Import ApprovalEngine Observations.

Local Open Scope Z_scope.
Local Open Scope stock_scope.

(** ** The rules, one by one *)

Definition passes (o : outcome RuleResult) : Prop := ∃ r, o = Ok r ∧ passed r = true.

Lemma passes_ok r : passes (Ok r) ↔ passed r = true.
Proof. split; [by intros (? & [= ->] & ?) | by exists r]. Qed.

Lemma passes_raise e : ¬ passes (Raise e).
Proof. by intros (? & ? & _). Qed.

Lemma passes_obind {A} (o : outcome A) f : passes (obind o f) ↔ ∃ a, o = Ok a ∧ passes (f a).
Proof.
  destruct o as [a|e]; cbn [obind].
  - split; [eauto | by intros (? & [= ->] & ?)].
  - split; [by intros ?%passes_raise | by intros (? & ? & _)].
Qed.

(** A rule that passes where a condition is false. *)
Lemma passes_unless (b : bool) d x d' : passes (Ok (if b then _fail d x else _ok d')) ↔ b = false.
Proof. rewrite passes_ok. by destruct b. Qed.

Definition batches_match (o : doc) : Prop :=
  ∃ batches, iterate (get "batches" o) = Ok batches ∧
    (batches = [] ∨ ∃ p s, sum_field "counted_qty" batches f0 = Ok p ∧ sum_field "sql_qty" batches f0 = Ok s ∧
                      flt tolerance (fabs (fsub p s)) = false).

Lemma batch_rule o : passes (_check_batch_variance o) ↔ batches_match o.
Proof.
  unfold _check_batch_variance, batches_match. rewrite passes_obind. f_equiv. intros batches.
  apply and_iff_compat_l. destruct batches as [|b l].
  - rewrite passes_ok. split; auto.
  - rewrite passes_obind. setoid_rewrite passes_obind. setoid_rewrite passes_unless.
    split; [intros (p & Hp & s & Hs & Ht); right; by exists p, s|].
    intros [|(p & s & Hp & Hs & Ht)]; [done|]. exists p. split; [done|]. by exists s.
Qed.

Definition differs_from (a b : val) : Prop := py_eqb b a = false.

Lemma duplicates_none l seen :
  duplicates l seen = Ok [] ↔
  Forall (fun s => hashable s = true) l ∧ ForallOrdPairs differs_from l ∧ ∀ s t, s ∈ l → t ∈ seen → py_eqb s t = false.
Proof.
  revert seen. induction l as [|s l IH]; intros seen; cbn [duplicates].
  { split; [|done]. intros _. split_and!; [constructor..|]. intros s t Hs. by apply elem_of_nil in Hs. }
  rewrite list.Forall_cons. destruct (hashable s) eqn:Hh; cbn [negb]; [|split; [done | by intros [[? _] _]]].
  assert (obind (duplicates l (s :: seen)) (fun d => Ok (if existsb (py_eqb s) seen then s :: d else d)) = Ok [] ↔
          duplicates l (s :: seen) = Ok [] ∧ existsb (py_eqb s) seen = false) as ->.
  { destruct (duplicates l (s :: seen)) as [d|e]; cbn [obind]; [|naive_solver].
    destruct (existsb (py_eqb s) seen); naive_solver. }
  rewrite IH. assert (existsb (py_eqb s) seen = false ↔ ∀ t, t ∈ seen → py_eqb s t = false) as ->.
  { rewrite <- not_true_iff_false, existsb_exists. setoid_rewrite <- list_elem_of_In. split.
    - intros Hn t Ht. apply not_true_iff_false. eauto.
    - intros Hn (t & Ht & Hs). by rewrite Hn in Hs. }
  split.
  - intros [(Hf & Hp & Hs) Hn]. split_and!; [done|done|constructor; [|done]|].
    + apply list.Forall_forall. intros t Ht. apply Hs; [done | left].
    + intros x t [->|Hx]%elem_of_cons Ht; [auto | apply Hs; [done | by right]].
  - intros ([_ Hf] & Hp & Hs). inversion Hp as [|? ? Hsl Hp']; subst. rewrite list.Forall_forall in Hsl.
    split_and!; try done; [|intros t Ht; apply Hs; [left|done]].
    intros x t Hx [->|Ht]%elem_of_cons; [by apply Hsl | apply Hs; [by right|done]].
Qed.

Definition serials_distinct (o : doc) : Prop :=
  ∃ entries, iterate (get "serial_entries" o) = Ok entries ∧
    (entries = [] ∨ ∃ serials, entry_serials entries = Ok serials ∧ Forall (fun s => hashable s = true) serials ∧
                      ForallOrdPairs differs_from serials).

Lemma serial_rule o : passes (_check_serial_integrity o) ↔ serials_distinct o.
Proof.
  unfold _check_serial_integrity, serials_distinct. rewrite passes_obind. f_equiv. intros entries.
  apply and_iff_compat_l. destruct entries as [|e l].
  { rewrite passes_ok. split; auto. }
  rewrite passes_obind. setoid_rewrite passes_obind. split.
  - intros (serials & Hs & dupes & Hd & Hp). right. exists serials. split; [done|].
    destruct dupes as [|d dupes]; [by apply duplicates_none in Hd as (? & ? & _)|]. exfalso. revert Hp.
    rewrite passes_obind. intros (t & _ & Ht). rewrite passes_ok in Ht. discriminate Ht.
  - intros [|(serials & Hs & Hf & Hp)]; [done|]. exists serials. split; [done|]. exists [].
    split; [|by apply passes_ok]. apply duplicates_none. split_and!; try done. intros s t _ Ht. by apply elem_of_nil in Ht.
Qed.

Definition attributes_match (o : doc) : Prop :=
  (get "mrp_counted" o = VNone ∨ get "mrp_sql" o = VNone ∨ py_eqb (get "mrp_counted" o) (get "mrp_sql" o) = true) ∧
  differ (get "manufacturing_date" o) (get "manufacturing_date_sql" o) = false ∧
  differ (get "expiry_date" o) (get "expiry_date_sql" o) = false.

Lemma is_none_spec v : is_none v = true ↔ v = VNone.
Proof. by destruct v. Qed.

Lemma attribute_rule o : passed (_check_attribute_mismatch o) = true ↔ attributes_match o.
Proof.
  unfold _check_attribute_mismatch, attributes_match. cbv zeta. rewrite <- !is_none_spec.
  destruct (is_none (get "mrp_counted" o)), (is_none (get "mrp_sql" o)), (py_eqb _ _), (differ (get "manufacturing_date" o) _),
    (differ _ _); cbn; naive_solver.
Qed.

Definition place_of (o : doc) : val := por (get "location_id" o) (por (get "mark_location" o) (get "rack_no" o)).

Lemma location_rule o :
  passed (_check_location_policy o) = true ↔ differ (get "expected_location" o) (place_of o) = false.
Proof. unfold _check_location_policy. cbv zeta. fold (place_of o). by destruct (differ _ _). Qed.

Definition undamaged (o : doc) : Prop :=
  ∃ damaged other, float_or0 "damaged_qty" o = Ok damaged ∧ float_or0 "non_returnable_damaged_qty" o = Ok other ∧
    flt f0 damaged = false ∧ flt f0 other = false ∧ truthy (get "item_condition" o) = false.

Lemma damage_rule o : passes (_check_damaged_stock o) ↔ undamaged o.
Proof.
  unfold _check_damaged_stock, undamaged. rewrite passes_obind. setoid_rewrite passes_obind. cbv zeta.
  setoid_rewrite passes_unless. setoid_rewrite orb_false_iff. setoid_rewrite orb_false_iff. naive_solver.
Qed.

Definition established (o : doc) : Prop :=
  truthy (get "is_provisional_batch" o) = false ∧ truthy (get "is_provisional_bundle" o) = false ∧
  truthy (get "is_new_bundle" o) = false ∧
  ∃ barcode, por (get "barcode" o) (VStr "") = VStr barcode ∧ startswith "500100" barcode = false.

Lemma truthy_por a b : truthy (por a b) = truthy a || truthy b.
Proof. unfold por. by destruct (truthy a) eqn:E. Qed.

Lemma provisional_rule o : passes (_check_provisional o) ↔ established o.
Proof.
  unfold _check_provisional, established. cbv zeta. rewrite !truthy_por.
  destruct (truthy (get "is_provisional_batch" o)), (truthy (get "is_provisional_bundle" o)),
    (truthy (get "is_new_bundle" o)); cbn [orb]; try (rewrite passes_ok; cbn; split; [done | naive_solver]).
  destruct (por _ _) as [| | | |s| | | |] eqn:E; try (split; [by intros ?%passes_raise | naive_solver]).
  rewrite passes_ok. split.
  - intros Hp. split_and!; try done. exists s. split; [done|]. by destruct (startswith _ _).
  - intros (_ & _ & _ & b & [= ->] & ->). done.
Qed.

Definition remarked (o : doc) : Prop := ∃ s, get "remark" o = VStr s ∧ strip s ≠ "".

Lemma remark_rule o : passes (_check_mandatory_remark o) ↔ remarked o.
Proof.
  unfold _check_mandatory_remark, remarked, por. destruct (truthy (get "remark" o)) eqn:Et.
  - destruct (get "remark" o) as [| | | |s| | | |]; try (split; [by intros ?%passes_raise | naive_solver]).
    rewrite passes_ok. destruct (String.eqb_spec (strip s) ""); cbn; naive_solver.
  - rewrite passes_ok. cbn. split; [done|]. intros (s & Hs & Hn). rewrite Hs in Et. cbn in Et.
    apply negb_false_iff, String.eqb_eq in Et as ->. done.
Qed.

(** Every check that is recorded is met. *)
Definition all_met (checks : doc) : Prop := ∀ k v, (k, v) ∈ checks → truthy v = true.

Lemma unmet_none checks : unmet checks = [] ↔ all_met checks.
Proof.
  unfold unmet, all_met. induction checks as [|[k v] l IH]; cbn [List.filter snd].
  { split; [|done]. intros _ k v Hin. by apply elem_of_nil in Hin. }
  destruct (truthy v) eqn:E; cbn [negb map].
  - rewrite IH. split.
    + intros Hl k' v' [[= -> ->]|Hin]%elem_of_cons; [done | by eapply Hl].
    + intros Hl k' v' Hin. apply (Hl k'). by right.
  - split; [done|]. intros Hl. rewrite (Hl k v) in E by left. done.
Qed.

Definition parameters_met (o : doc) : Prop := ∃ checks, por (get "parameter_checks" o) (VDict []) = VDict checks ∧ all_met checks.
Definition accessories_met (o : doc) : Prop := ∀ checks, por (get "accessory_checks" o) (VDict []) = VDict checks → all_met checks.

Lemma parameter_rule o : passes (_check_required_parameters o) ↔ parameters_met o.
Proof.
  unfold _check_required_parameters, parameters_met. destruct (por _ _) as [| | | | | | | |checks];
    try (split; [by intros ?%passes_raise | by intros (? & ? & _)]).
  rewrite passes_ok. split.
  - intros Hp. exists checks. split; [done|]. apply unmet_none. by destruct (unmet checks).
  - intros (? & [= <-] & Hm). apply unmet_none in Hm. by rewrite Hm.
Qed.

Lemma accessory_rule o : passed (_check_accessory_completeness o) = true ↔ accessories_met o.
Proof.
  unfold _check_accessory_completeness, accessories_met. destruct (por _ _) as [| | | | | | | |checks]; try done. split.
  - intros Hp ? [= <-]. apply unmet_none. by destruct (unmet checks).
  - intros Hm. specialize (Hm _ eq_refl). apply unmet_none in Hm. by rewrite Hm.
Qed.

Lemma photo_rule o : passed (_check_photo_evidence o) = true ↔ truthy (get "photo_proofs" o) = true.
Proof. unfold _check_photo_evidence. by destruct (truthy _). Qed.

Definition synced (o : doc) : Prop := get "sync_status" o ≠ VStr "conflict" ∧ get "sync_status" o ≠ VStr "failed".

Lemma sync_rule o : passed (_check_sync_conflict o) = true ↔ synced o.
Proof.
  unfold _check_sync_conflict, synced. destruct (get "sync_status" o) as [| | | |s| | | |]; try done.
  destruct (str_in s _) eqn:E; cbn [passed _fail _ok].
  - apply str_in_spec in E. split; [done|]. intros [H1 H2]. exfalso. set_solver.
  - apply str_in_false in E. split; [|done]. intros _. split; intros [= ->]; apply E; set_solver.
Qed.

Definition below_threshold (o : doc) : Prop :=
  ∃ variance counted, float_or0 "variance" o = Ok variance ∧ float_or0 "counted_qty" o = Ok counted ∧
    (flt f0 counted = true → flt (of_Z 50) (fmul (fabs (fdiv variance counted)) (of_Z 100)) = false).

Lemma threshold_rule o : passes (_check_policy_thresholds o) ↔ below_threshold o.
Proof.
  unfold _check_policy_thresholds, below_threshold. rewrite passes_obind. setoid_rewrite passes_obind. cbv zeta.
  setoid_rewrite passes_unless. setoid_rewrite andb_false_iff.
  split.
  - intros (v & Hv & c & Hc & Hb). exists v, c. split_and!; try done. intros Hp. destruct Hb as [Hb|Hb]; congruence.
  - intros (v & c & Hv & Hc & Hb). exists v. split; [done|]. exists c. split; [done|].
    destruct (flt f0 c); [right; auto | by left].
Qed.

(** ** The evaluation *)

Section evaluation.
Context {C : Type} `{MongoLaws C}.
Context (database_bool collection_bool : outcome bool).
Implicit Types (w : world C).

(** The condition of a rule that reads a collection, where it does. *)
Definition where_readable (o : doc) (P : Prop) : Prop :=
  truthy (get "session_id" o) = false ∨ truthy (get "item_code" o) = false ∨
  collection_usable database_bool collection_bool = Ok false ∨
  collection_usable database_bool collection_bool = Ok true ∧ P.

Definition no_investigation (o : doc) w : Prop :=
  ∀ d, d ∈ contents (w_db w "additional_location_investigations") →
    matches (QAnd [QEq "observation_id" (get "id" o); QEq "response" (VStr "NOT_CHECKED")]) d = false.

(** The stored observations of its session and item that are not approved. *)
Definition open_others (o : doc) w : list doc :=
  filter (fun d => matches (concurrent_query o) d = true) (contents (w_db w "count_observations")).
Definition same_id (o d : doc) : bool := String.eqb (to_str (get "id" d)) (to_str (get "id" o)).
Definition alone (o : doc) w : Prop := ∀ d, d ∈ open_others o w → same_id o d = true.

(** The observation is stored at most once. *)
Definition stored_once (o : doc) w : Prop :=
  (length (filter (fun d => same_id o d = true) (open_others o w)) ≤ 1)%nat.

(** What an automatic approval asks of an observation with its variance. *)
Record approvable (o : doc) w : Prop := {
  ap_batches : batches_match o;
  ap_serials : serials_distinct o;
  ap_attributes : attributes_match o;
  ap_place : differ (get "expected_location" o) (place_of o) = false;
  ap_undamaged : undamaged o;
  ap_established : established o;
  ap_investigated : where_readable o (no_investigation o w);
  ap_remarked : remarked o;
  ap_parameters : parameters_met o;
  ap_accessories : accessories_met o;
  ap_photos : truthy (get "photo_proofs" o) = true;
  ap_alone : where_readable o (alone o w);
  ap_synced : synced o;
  ap_threshold : below_threshold o;
}.

Abbreviation checks := (rules (C:=C) database_bool collection_bool).
Definition met (w : world C) (x : string * ApprovalExceptionType * M (world C) RuleResult) : Prop :=
  ∃ r, snd x w = (Ok r, w) ∧ passed r = true.
Definition reads (x : string * ApprovalExceptionType * M (world C) RuleResult) : Prop :=
  ∀ w r w', snd x w = (r, w') → w' = w.

Lemma apply_rules_ok l w rows exceptions w' :
  Forall reads l → apply_rules l w = (Ok (rows, exceptions), w') → w' = w ∧ (exceptions = [] ↔ Forall (met w) l).
Proof.
  revert rows exceptions. induction l as [|[[name ty] check] l IH]; intros rows exceptions Hl Ha; cbn [apply_rules] in Ha.
  { unfold ret in Ha. simplify_eq. split; [done|]. by split. }
  apply list.Forall_cons in Hl as [Hr Hl]. apply bind_ok_inv in Ha as (r & w1 & Hc & Ha).
  pose proof (Hr _ _ _ Hc) as ->. apply bind_ok_inv in Ha as ([rows1 ex1] & w2 & Hrest & Ha).
  unfold ret in Ha. simplify_eq. destruct (IH _ _ Hl Hrest) as [-> Hex]. split; [done|].
  rewrite list.Forall_cons, <- Hex. destruct (passed r) eqn:Ep; split.
  - intros ->. split; [by exists r | done].
  - by intros [_ ->].
  - done.
  - intros [(r' & Hc' & Hp) _]. cbn [snd] in *. congruence.
Qed.

Lemma rule_lift_reads n t (o : outcome RuleResult) : reads (n, t, lift o).
Proof. intros w r w' Hm. unfold lift in Hm. by simplify_eq/=. Qed.
Lemma rule_ret_reads n t (r : RuleResult) : reads (n, t, ret r).
Proof. intros w r' w' Hm. unfold ret in Hm. by simplify_eq/=. Qed.

Lemma reads_only (m : M (world C) RuleResult) :
  (∃ f : world C → outcome RuleResult, ∀ w, m w = (f w, w)) → ∀ n t, reads (n, t, m).
Proof. intros [f Hf] n t w r w' Hm. cbn [snd] in Hm. rewrite Hf in Hm. by simplify_eq. Qed.

(** The two rules that read, as functions of the world. *)
Definition usable_then (o : doc) (f : world C → RuleResult) (dflt : string) w : outcome RuleResult :=
  if negb (truthy (get "session_id" o)) || negb (truthy (get "item_code" o)) then Ok (_ok dflt)
  else obind (collection_usable database_bool collection_bool) (fun b => Ok (if negb b then _ok "no_db" else f w)).

Lemma investigation_reads o :
  ∀ w, _check_additional_location_investigation database_bool collection_bool o w =
    (usable_then o (fun w => match find_all (QAnd [QEq "observation_id" (get "id" o); QEq "response" (VStr "NOT_CHECKED")])
                       (w_db w "additional_location_investigations") with
                     | [] => _ok "investigation_clear" | _ => _fail "pending_investigation" "" end)
       "no_investigation_checkable" w, w).
Proof.
  intros w. unfold _check_additional_location_investigation, usable_then, bind, lift, db_find, gets, ret.
  destruct (_ || _); [done|]. destruct (collection_usable _ _) as [[]|]; done.
Qed.

Lemma concurrent_reads o :
  ∀ w, _check_concurrent_conflict database_bool collection_bool o w =
    (usable_then o (fun w => if existsb (fun d => negb (same_id o d))
                                  (take 2 (find_all (concurrent_query o) (w_db w "count_observations")))
                             then _fail "concurrent_observation" "" else _ok "no_conflict") "no_conflict_checkable" w, w).
Proof.
  intros w. unfold _check_concurrent_conflict, usable_then, bind, lift, db_find, gets, ret.
  destruct (_ || _); [done|]. destruct (collection_usable _ _) as [[]|]; done.
Qed.

Lemma usable_rule o f d w (P : Prop) :
  (passed (f w) = true ↔ P) → passes (usable_then o f d w) ↔ where_readable o P.
Proof.
  intros Hf. unfold usable_then, where_readable.
  destruct (truthy (get "session_id" o)); cbn [negb orb]; [|rewrite passes_ok; naive_solver].
  destruct (truthy (get "item_code" o)); cbn [negb]; [|rewrite passes_ok; naive_solver].
  rewrite passes_obind. setoid_rewrite passes_ok. destruct (collection_usable _ _) as [[]|e]; cbn [negb]; naive_solver.
Qed.

Lemma investigation_rule o w :
  passes (usable_then o (fun w => match find_all (QAnd [QEq "observation_id" (get "id" o); QEq "response" (VStr "NOT_CHECKED")])
                       (w_db w "additional_location_investigations") with
                     | [] => _ok "investigation_clear" | _ => _fail "pending_investigation" "" end)
       "no_investigation_checkable" w) ↔ where_readable o (no_investigation o w).
Proof.
  apply usable_rule. unfold no_investigation. set (q := QAnd _). set (c := w_db w _).
  destruct (find_all q c) as [|e l] eqn:E; cbn [passed _ok _fail].
  - split; [|done]. intros _ d Hd. apply not_true_iff_false. intros Hm.
    assert (d ∈ find_all q c) as Hin by (by apply find_all_in). rewrite E in Hin. by apply elem_of_nil in Hin.
  - split; [done|]. intros Hn. assert (e ∈ find_all q c) as [He Hm]%find_all_in by (rewrite E; left). by rewrite Hn in Hm.
Qed.

Lemma concurrent_rule o w :
  stored_once o w →
  passes (usable_then o (fun w => if existsb (fun d => negb (same_id o d))
                                  (take 2 (find_all (concurrent_query o) (w_db w "count_observations")))
                             then _fail "concurrent_observation" "" else _ok "no_conflict") "no_conflict_checkable" w)
  ↔ where_readable o (alone o w).
Proof.
  intros Hone. apply usable_rule. unfold stored_once, alone, open_others in *.
  pose proof (find_all_spec (concurrent_query o) (w_db w "count_observations")) as Hp.
  set (found := find_all _ _) in *. set (l := filter _ (contents _)) in *.
  assert (filter (fun d => same_id o d = true) found ≡ₚ filter (fun d => same_id o d = true) l) as Hf
    by (by apply filter_Permutation).
  apply Permutation_length in Hf. rewrite <- Hf in Hone. clear Hf.
  assert (∀ d, d ∈ l ↔ d ∈ found) as Hin by (intros d; by rewrite Hp). setoid_rewrite Hin. clearbody found. clear Hin Hp.
  split.
  - destruct found as [|a [|b rest]]; cbn [take existsb].
    + intros _ d Hd. by apply elem_of_nil in Hd.
    + destruct (same_id o a) eqn:Ea; [|done]. by intros _ d ->%list_elem_of_singleton.
    + destruct (same_id o a) eqn:Ea; [|done]. destruct (same_id o b) eqn:Eb; [|done]. exfalso.
      rewrite !filter_cons_True in Hone by done. cbn [length] in Hone. lia.
  - intros Hs. assert (existsb (fun d => negb (same_id o d)) (take 2 found) = false) as ->; [|done].
    apply not_true_iff_false. rewrite existsb_exists. intros (d & Hd & Hn). apply list_elem_of_In, elem_of_take in Hd as (i & Hi & _).
    rewrite Hs in Hn by (by eapply list_elem_of_lookup_2). done.
Qed.

Lemma checks_read o : Forall reads (checks o).
Proof.
  unfold rules. repeat (apply list.Forall_cons; split);
    try apply list.Forall_nil; try done; try apply rule_lift_reads; try apply rule_ret_reads; apply reads_only; eauto using investigation_reads, concurrent_reads.
Qed.

Lemma met_lift n t (o : outcome RuleResult) w : met w (n, t, lift o) ↔ passes o.
Proof. unfold met, passes, lift. cbn [snd]. split; intros (r & Hr & Hp); exists r; split; congruence. Qed.
Lemma met_ret n t (r : RuleResult) w : met w (n, t, ret r) ↔ passed r = true.
Proof. unfold met, ret. cbn [snd]. split; [by intros (? & [= ->] & ?) | by exists r]. Qed.
Lemma met_reads n t (m : M (world C) RuleResult) (f : world C → outcome RuleResult) w :
  (∀ w, m w = (f w, w)) → met w (n, t, m) ↔ passes (f w).
Proof. intros Hf. unfold met, passes. cbn [snd]. rewrite Hf. split; intros (r & Hr & Hp); exists r; split; congruence. Qed.

(** All the rules pass exactly on an approvable observation. *)
Lemma checks_met o w : stored_once o w → Forall (met w) (checks o) ↔ approvable o w.
Proof.
  intros Hone. unfold rules. rewrite !list.Forall_cons, !met_lift, !met_ret, (met_reads _ _ _ _ _ (investigation_reads o)),
    (met_reads _ _ _ _ _ (concurrent_reads o)), investigation_rule, (concurrent_rule o w Hone), batch_rule, serial_rule,
    attribute_rule, location_rule, damage_rule, provisional_rule, remark_rule, parameter_rule, accessory_rule, photo_rule,
    sync_rule, threshold_rule.
  split.
  - by intros (? & ? & ? & ? & ? & ? & ? & ? & ? & ? & ? & ? & ? & ? & _).
  - by intros []; split_and!.
Qed.

(** When an observation whose ERP quantity was fetched at submission is
    approved automatically. *)
Definition approved_when (o : doc) w : Prop :=
  truthy (por (get "id" o) (get "_id" o)) = true ∧
  ∃ physical variance, float_or0 "counted_qty" o = Ok physical ∧
    _compute_variance physical (get "sql_qty_at_submission" o) = Ok variance ∧ feq variance f0 = true ∧
    approvable (aset "variance" (VFloat variance) o) w.

Lemma stored_once_variance o v w : stored_once o w → stored_once (aset "variance" v o) w.
Proof. unfold stored_once, open_others, same_id, concurrent_query. by rewrite !get_aset_ne. Qed.

Lemma evaluated_status o v e b s :
  get "status" (evaluated o v e b s) = VStr (if b then "AUTO_APPROVED" else "SUPERVISOR_REVIEW").
Proof. unfold evaluated, aupd. cbn [fold_left fst snd]. rewrite get_aset_ne, get_aset_eq by done. by destruct b. Qed.

End evaluation.

(** ** Decisions and recounts *)

Section decisions.
Context {C : Type} `{MongoLaws C}.
Context (clock : nat → Z) (database_bool collection_bool : outcome bool).
Implicit Types (w : world C).

(** An observation without photos is never approved, and the one a submitted
    count line leaves has none. *)
Lemma photoless_not_approved o w r o' w' :
  truthy (get "photo_proofs" o) = false →
  evaluate database_bool collection_bool o w = (Ok (r, o'), w') → ar_approved r = false.
Proof.
  intros Hph He. unfold evaluate in He. cbv zeta in He.
  destruct (negb (truthy (por _ _))); [unfold ret in He; by simplify_eq|].
  destruct (_ && _); [unfold ret in He; by simplify_eq|].
  apply bind_ok_inv in He as (physical & w1 & [_ ->]%lift_ok & He).
  apply bind_ok_inv in He as (variance & w1 & [_ ->]%lift_ok & He).
  apply bind_ok_inv in He as ([rows exceptions] & w1 & Hr & He). unfold ret in He. simplify_eq. cbn [ar_approved].
  apply apply_rules_ok in Hr as [_ Hr]; [|apply checks_read]. destruct exceptions as [|e l]; [|done]. exfalso.
  assert (met w ("photo_evidence", INCOMPLETE_EVIDENCE, ret (_check_photo_evidence (aset "variance" (VFloat variance) o)))) as Hm.
  { pose proof (proj1 Hr eq_refl) as Hall. rewrite list.Forall_forall in Hall. apply Hall. unfold rules. do 10 right. left. }
  rewrite met_ret, photo_rule, get_aset_ne in Hm by done. congruence.
Qed.

Lemma submitted_photoless id l u line o : submitted_observation id l u line = Ok o → truthy (get "photo_proofs" o) = false.
Proof.
  unfold submitted_observation.
  do 6 (match goal with |- obind ?x _ = _ → _ => destruct x; [|done]; cbn [obind] end). by intros [= <-].
Qed.

(** The request of the guarded database. *)
Definition guarded w : Prop := w_guards w = _GUARD_TARGET_COLLECTIONS ∧ w_auth w = None.

Lemma guarded_refuses name meth w :
  guarded w → str_in name _GUARD_TARGET_COLLECTIONS = true → plain_name name = true →
  ∃ msg, _guard (C:=C) name meth w = (Raise (GovernanceViolation msg), w).
Proof.
  intros [Hg Ha] Hin Hn. apply guard_refused; [done|]. unfold refused. by rewrite Hg, Ha, Hin.
Qed.

(** No authority is taken where recount requests are written: the guard refuses
    every one. *)
Lemma request_refused id oid sid code by_ reason o w r w' :
  guarded w → create_request clock id oid sid code by_ reason o w = (r, w') → is_ok r = false ∧ w_db w' = w_db w.
Proof.
  intros Hg Hc. unfold create_request in Hc.
  assert (∃ t w1, guarded w1 ∧ w_db w1 = w_db w ∧
    (if filled (o_assigned_to o) then do now <- utc_now clock ;; ret (Some now) else ret None) w = (Ok t, w1)) as (t & w1 & Hg1 & Hd1 & E).
  { destruct (filled _); unfold bind, utc_now, ret; eexists _, _; (split_and!; [| |done]); done. }
  erewrite bind_ok in Hc by exact E.
  destruct (str_field sid) as [s|]; [|unfold bind, lift in Hc; by simplify_eq].
  destruct (str_field code) as [c|]; [|unfold bind, lift in Hc; by simplify_eq].
  unfold lift, bind, utc_now in Hc. cbv beta iota zeta in Hc. unfold db_insert_one, bind in Hc.
  destruct (guarded_refuses "recount_requests" "insert_one" (tick (tick w1))) as [m Em]; [done..|].
  rewrite Em in Hc. by simplify_eq.
Qed.
Lemma get_db_cases w : get_db database_bool w = (Ok tt, w) ∨ ∃ e, get_db (C:=C) database_bool w = (Raise e, w).
Proof.
  unfold get_db, bind, lift, raise_if, raise, ret. destruct database_bool as [[]|e]; cbn [negb]; eauto.
Qed.

Lemma find_observation_cases oid w :
  (∃ o, find_one (QEq "id" (VStr oid)) (w_db w "count_observations") = Some o ∧ find_observation oid w = (Ok o, w)) ∨
  ∃ e, find_observation (C:=C) oid w = (Raise e, w).
Proof.
  unfold find_observation, bind, db_find_one, gets. destruct (find_one _ _) as [[|kv o]|]; unfold raise, ret; eauto.
Qed.

Lemma recount_decision_refused id oid p o by_ w r w' :
  guarded w → decided_recount clock database_bool id oid p o by_ w = (r, w') → is_ok r = false ∧ w_db w' = w_db w.
Proof.
  intros Hg Hd. unfold decided_recount in Hd. destruct (get_db_cases w) as [E|[e E]];
    [erewrite bind_ok in Hd by exact E | erewrite bind_raise in Hd by exact E; by simplify_eq].
  unfold bind in Hd. destruct (create_request _ _ _ _ _ _ _ _ w) as [o1 w1] eqn:E1.
  apply request_refused in E1 as [Ho Hw]; [|done]. destruct o1; [done|]. by simplify_eq.
Qed.

Definition decider (current_user : doc) : val := por (get "username" current_user) (get "id" current_user).

Lemma unguarded_insert name d w :
  guarded w → str_in name _GUARD_TARGET_COLLECTIONS = false → aget "_id" d = None →
  ∃ i c, db_insert_one (C:=C) name d w = (Ok (setdefault "_id" i d), set_coll name c w) ∧
    contents c ≡ₚ bson_doc (setdefault "_id" i d) :: contents (w_db w name).
Proof.
  intros [Hg _] Hn Hd. destruct (insert_one_fresh d (w_db w name) Hd) as (i & c & Hi & Hc). exists i, c. split; [|done].
  unfold db_insert_one. erewrite bind_ok by (apply guard_absent; by rewrite Hg). by rewrite Hi.
Qed.

(** What the decision of a supervisor leaves. When the request succeeds the
    observation was there, one decision has been added that names the decider,
    the action and the observation as it was before, and the observation has
    been updated with the status of the action; nothing else has changed. When
    it fails nothing has changed at all. With the guards of the code in place
    no request for a recount succeeds. *)
Theorem decision_recorded oid p user did rid w r w' :
  guarded w → supervisor_decide clock database_bool oid p user did rid w = (r, w') →
  match r with
  | Ok i =>
      i = did ∧ d_action p ≠ "REQUEST_RECOUNT" ∧
      ∃ o t1 t2 j, find_one (QEq "id" (VStr oid)) (w_db w "count_observations") = Some o ∧
        contents (w_db w' "approval_decisions") ≡ₚ
          bson_doc (setdefault "_id" j (decision_document did oid p o (decider user) t1))
          :: contents (w_db w "approval_decisions") ∧
        w_db w' "count_observations" =
          snd (update_one (QEq "id" (VStr oid)) (USet (decision_update p (decider user) t1 t2)) (w_db w "count_observations")) ∧
        ∀ n, str_in n ["approval_decisions"; "count_observations"] = false → w_db w' n = w_db w n
  | Raise _ => w_db w' = w_db w
  end.
Proof.
  intros Hg Hs. unfold supervisor_decide in Hs. destruct (get_db_cases w) as [E|[e E]];
    [erewrite bind_ok in Hs by exact E | erewrite bind_raise in Hs by exact E; by simplify_eq].
  destruct (find_observation_cases oid w) as [(o & Ho & Ef)|[e Ef]];
    [erewrite bind_ok in Hs by exact Ef | erewrite bind_raise in Hs by exact Ef; by simplify_eq].
  fold (decider user) in Hs. cbv zeta in Hs.
  set (t1 := clock (w_tick w)). set (t2 := clock (w_tick (tick w))). set (w2 := tick (tick w)).
  assert (guarded w2) as Hg2 by exact Hg.
  assert ((run when (String.eqb (d_action p) "REQUEST_RECOUNT")
             (decided_recount clock database_bool rid oid p o (decider user)) ;;
           do _ <- db_insert_one "approval_decisions" (decision_document did oid p o (decider user) t1) ;;
           do _ <- db_update_one "count_observations" (QEq "id" (VStr oid)) (USet (decision_update p (decider user) t1 t2)) ;;
           ret did) w2 = (r, w')) as Hb by exact Hs. clear Hs.
  destruct (String.eqb_spec (d_action p) "REQUEST_RECOUNT") as [_|Ha]; cbn [when] in Hb.
  - unfold bind at 1 in Hb. destruct (decided_recount _ _ _ _ _ _ _ w2) as [x wx] eqn:Er.
    apply recount_decision_refused in Er as [Hx Hd]; [|done]. destruct x; [done|]. by simplify_eq.
  - unfold bind at 1, ret at 1 in Hb.
    destruct (unguarded_insert "approval_decisions" (decision_document did oid p o (decider user) t1) w2 Hg2 eq_refl eq_refl)
      as (i & c & Ei & Hc).
    erewrite bind_ok in Hb by exact Ei.
    erewrite bind_ok in Hb by (apply update_one_unguarded; destruct Hg as [Hg _]; cbn [w_guards set_coll set_db w2 tick]; unfold w2; cbn [tick w_guards]; by rewrite Hg).
    unfold ret in Hb. simplify_eq. split; [done|]. split; [done|]. exists o, t1, t2, i.
    split_and!; [done | | |].
    + rewrite set_coll_other, set_coll_same by done. exact Hc.
    + by rewrite set_coll_same, set_coll_other.
    + intros n Hn%str_in_false. rewrite !set_coll_other by set_solver. done.
Qed.
End decisions.

(** ** Concrete observations *)

Definition observation_of (id : string) (counted sql : val) (more : doc) : doc :=
  [("_id", VOid id); ("id", VStr id); ("session_id", VStr "S1"); ("item_code", VStr "I1"); ("counted_qty", counted);
   ("sql_qty_at_submission", sql); ("remark", VStr "ok"); ("photo_proofs", VList [VDict [("url", VStr "p")]]);
   ("status", VStr "DRAFT")] ++ more.
Definition observation_world (l : list doc) : world coll :=
  install_db_write_guards (mkworld [("count_observations", l)]).
Definition example_decide (action : string) (w : world coll) :=
  supervisor_decide no_clock (Ok true) "O1" (DecideRequest action None None None None None) [("username", VStr "sup")]
    "D1" "R1" w.
Definition example_evaluate (o : doc) := evaluate (Ok true) (Ok true) o (observation_world [o]).
Definition example_observation : doc := observation_of "O1" (VInt 5) (VFloat (of_Z 5)) [].

Lemma example_evaluates : is_ok (fst (example_evaluate example_observation)) = true.
Proof. vm_compute. reflexivity. Qed.


Lemma example_decides : is_ok (fst (example_decide "REJECT" (observation_world [example_observation]))) = true.
Proof. vm_compute. reflexivity. Qed.

Example decision_recorded_witness :
  let out := example_decide "REJECT" (observation_world [example_observation]) in
  fst out = Ok "D1" ∧ length (contents (w_db (snd out) "approval_decisions")) = 1%nat.
Proof.
  pose proof example_decides as Hok. cbv zeta in *.
  assert (∃ w, w = observation_world [example_observation]) as [w Hw] by eauto. rewrite <- Hw in *.
  assert (guarded w) as Hg by (rewrite Hw; split; reflexivity).
  assert (contents (w_db w "approval_decisions") = []) as Hd by (rewrite Hw; reflexivity).
  destruct (example_decide "REJECT" w) as [[i|e] w'] eqn:E; [|discriminate Hok]. unfold example_decide in E.
  destruct (decision_recorded no_clock (Ok true) "O1" (DecideRequest "REJECT" None None None None None)
    [("username", VStr "sup")] "D1" "R1" w (Ok i) w' Hg E) as (Hi & _ & o & t1 & t2 & j & _ & Hc & _).
  cbn [fst snd]. rewrite Hi, Hc, Hd. split; reflexivity.
Defined.

(** ** What the concrete observations show *)

Definition statuses (w : world coll) : list val := map (get "status") (w_db w "count_observations").

(** A rejected observation that is evaluated again is approved. *)
Lemma rejection_overturned :
  let w := snd (example_decide "REJECT" (observation_world [example_observation])) in
  let w' := snd (evaluate_observation (Ok true) (Ok true) "O1" w) in
  (statuses w, statuses w') = ([VStr "REJECTED"], [VStr "AUTO_APPROVED"]).
Proof. vm_compute. reflexivity. Qed.

(** Outside [auto_approval_iff]: an item the ERP has none of: its quantity of 0 is taken for a missing one,
    although the source says that it is there. *)
Lemma zero_quantity_unavailable :
  match fst (example_evaluate (observation_of "O1" (VInt 0) (VFloat f0) [])) with
  | Ok (r, _) => (ar_approved r, ar_sql_quantity_source r, ar_block_reason r) =
                 (false, AVAILABLE_AT_SUBMISSION, Some "sql_unavailable")
  | Raise _ => False
  end.
Proof. vm_compute. reflexivity. Qed.

(** The quantity that was read at synchronization only decides which source is
    named: the count is compared with 0. *)
Lemma synced_quantity_ignored :
  match fst (example_evaluate (observation_of "O1" (VInt 0) VNone [("sql_quantity", VInt 100)])) with
  | Ok (r, _) => (ar_approved r, ar_sql_quantity_source r) = (true, AVAILABLE_AT_SYNC)
  | Raise _ => False
  end.
Proof. vm_compute. reflexivity. Qed.

(** A recount is compared with the number its own payload gives, whatever the
    original count; the refused update of the request comes after the new
    observation and the comparison have been stored. *)
Lemma recount_half_stored :
  let w := set_coll "recount_requests" [[("_id", VOid "r"); ("id", VStr "R1"); ("observation_id", VStr "O1")]]
             (observation_world [example_observation]) in
  let '(r, w') := submit_recount no_clock "R1"
    [("counted_qty", VInt 9); ("sql_qty_at_submission", VInt 9)] "N1" "C1" w in
  (is_ok r, length (w_db w' "count_observations"), map (get "decision") (w_db w' "recount_comparisons")) =
  (false, 2%nat, [VStr "RECOUNT_MATCHED"]).
Proof. vm_compute. reflexivity. Qed.

(** The truth value of a Motor database raises: no route gets past it. *)
Lemma database_truth_fails e :
  let w := observation_world [example_observation] in
  fst (evaluate_observation (Raise e) (Ok true) "O1" w) = Raise e ∧
  fst (supervisor_decide no_clock (Raise e) "O1" (DecideRequest "APPROVE" None None None None None) [] "D" "R" w) = Raise e.
Proof. split; reflexivity. Qed.
