(* ===== verification/UnknownItems.v ===== *)
(** Unknown items: [services/unknown_item_service.py] ([UnknownItemService]).  A
    count that matches no item of the ERP is registered, moved to another
    session, escalated, and closed by a dismissal or by a count line of the
    item it turns out to be.

    Every operation is one unit of work ([Uow]); its updates expect the version
    that was read ([Lifecycle]), and the count line goes through the write
    service ([CountLines]).  A filter is a dict, so that two filters merge by
    key, as [{**a, **b}] does.  The ids drawn from [uuid4] are arguments. *)

From S2P Require Import Prelude PyFloat Py Json Store ListStore Guard Inventory Uow Lifecycle Quantity Variance.
From S2P Require Import CountLines.

Local Open Scope Z_scope.
Local Open Scope stock_scope.

Definition AUTHORITY_NAME : string := "UnknownItemService".

(** ** Filters as dicts *)

Definition filter_dict := list (string * query).

Definition as_query (f : filter_dict) : query :=
  match f with [(_, q)] => q | _ => QAnd (map snd f) end.

Definition version_dict (expected_version : Z) : filter_dict :=
  [(if expected_version <=? 0 then "$or" else "version", build_version_filter expected_version)].

(** ** Helpers *)

Definition text_field (keys : list string) (d : doc) : string :=
  strip (to_str (fold_right (fun k v => por (get k d) v) (VStr "") keys)).

(** [s or None] *)
Definition or_none (s : string) : val := if String.eqb s "" then VNone else VStr s.

(** [(refreshed or {}).get("version") or 1] as an [int]. *)
Definition version_or (n : Z) (d : doc) : outcome Z := to_int (por (get "version" d) (VInt n)).

Definition not_found {S A} : M S A := raise (HTTPException 404 (VStr "Unknown item report not found")).

Section unknown_items.
Context {C : Type} `{Mongo C}.
Context (clock : nat → Z) (strict_mode write_logs : bool) (object_id : string → option string).
Context (sha256 : string → string) (client_count_lines : client_attribute) (cl : client).

Definition _resolve_filter (item_id : string) : filter_dict :=
  match object_id item_id with
  | Some oid => [("$or", QOr [QEq "id" (VStr item_id); QEq "_id" (VOid oid)])]
  | None => [("id", QEq "id" (VStr item_id))]
  end.

(** [{**self._resolve_filter(item_id), **build_version_filter(expected_version)}] *)
Definition versioned_filter (item_id : string) (expected_version : Z) : query :=
  as_query (aupd (_resolve_filter item_id) (version_dict expected_version)).

Definition _execute_authorized_write {A} (write_call : M (world C) A) : M (world C) A :=
  write_authority AUTHORITY_NAME write_call.

Definition find_item (item_id : string) : M (world C) (option doc) :=
  db_find_one "unknown_items" (as_query (_resolve_filter item_id)).

Definition load_item (item_id : string) : M (world C) doc :=
  do existing <- find_item item_id ;;
  match existing with
  | Some ((_ :: _) as d) => ret d
  | _ => not_found
  end.

(** The write of every update: the fields and the next version, where the
    version is the expected one. *)
Definition write_version (item_id : string) (expected_version : Z) (set_doc : doc) : M (world C) unit :=
  do modified_count <- _execute_authorized_write
    (db_update_one "unknown_items" (versioned_filter item_id expected_version)
       (Upd set_doc [("version", VInt 1)] [] [])) ;;
  raise_if (modified_count =? 0) (HTTPException 409 (VStr "Unknown item concurrent update conflict")).

Definition item_audit (operation session_id : string) (version : Z) (actor_id : string) (metadata : doc) : audit :=
  Audit "UNKNOWN_ITEM_WRITE" operation session_id (VInt version) (VStr actor_id) (VDict metadata).

(** [log_write_event] with all its keys. *)
Definition log_item_event (item_id location_id idempotency_key semantic_hash : val) (a : audit) : M (world C) unit :=
  let actor := por (a_actor_id a) (VStr "system") in
  log_event_keys clock item_id location_id idempotency_key semantic_hash a [("user_id", actor); ("username", actor)].

(** ** Registration *)

Definition registered_document (payload : doc) (fresh session_id location_id floor_id rack_id actor_id : string)
    (now : Z) : doc :=
  let d := aset "id" (VStr (to_str (por (get "id" payload) (VStr fresh)))) payload in
  let d := aupd d [("session_id", VStr session_id); ("location_id", VStr location_id);
                   ("floor_id", VStr floor_id); ("rack_id", VStr rack_id)] in
  let d := setdefault "floor_no" (VStr floor_id) d in
  let d := setdefault "rack_no" (VStr rack_id) d in
  let d := setdefault "counted_qty" (VFloat (of_Z 1)) d in
  let d := setdefault "status" (VStr "OPEN") d in
  let d := setdefault "version" (VInt 1) d in
  aupd d [("reported_by", VStr actor_id); ("reported_at", VTime now); ("updated_at", VTime now)].

Definition no_place (location_id floor_id rack_id : string) : bool :=
  String.eqb location_id "" || String.eqb floor_id "" || String.eqb rack_id "".

Definition register_unknown_item (payload : doc) (actor_id fresh : string) : M (world C) doc :=
  let session_id := text_field ["session_id"] payload in
  run raise_if (String.eqb session_id "") (HTTPException 400 (VStr "session_id is required")) ;;
  let location_id := text_field ["location_id"] payload in
  let floor_id := text_field ["floor_id"; "floor_no"] payload in
  let rack_id := text_field ["rack_id"; "rack_no"] payload in
  run raise_if (no_place location_id floor_id rack_id)
        (HTTPException 400 (VStr "CRITICAL: location_id, floor_id, rack_id are required")) ;;
  do now <- utc_now clock ;;
  let doc_ := registered_document payload fresh session_id location_id floor_id rack_id actor_id now in
  with_uow cl (fun _ =>
    do _ <- ensure_session_active session_id ;;
    do doc_ <- _execute_authorized_write (db_insert_one "unknown_items" doc_) ;;
    do version <- lift (version_or 1 doc_) ;;
    run log_item_event (por (get "barcode" doc_) (get "id" doc_)) (VStr location_id) VNone VNone
          (item_audit "REGISTER" session_id version actor_id [("unknown_item_id", get "id" doc_)]) ;;
    ret doc_).

(** ** Attaching and escalating *)

Definition attach_fields (session_id location_id floor_id rack_id actor_id : string) (now : Z) : doc :=
  [("session_id", VStr session_id); ("location_id", VStr location_id); ("floor_id", VStr floor_id);
   ("rack_id", VStr rack_id); ("floor_no", VStr floor_id); ("rack_no", VStr rack_id);
   ("updated_at", VTime now); ("updated_by", VStr actor_id)].

(** What an update returns and logs: the item as it reads afterwards. *)
Definition answer (existing : doc) (refreshed : option doc) : doc :=
  match refreshed with Some ((_ :: _) as d) => d | _ => existing end.

Definition log_update (operation session_id item_id actor_id : string) (location_id : val) (refreshed : doc)
  : M (world C) unit :=
  do version <- lift (version_or 1 refreshed) ;;
  log_item_event (por (get "barcode" refreshed) (VStr item_id)) location_id VNone VNone
    (item_audit operation session_id version actor_id
       [("unknown_item_id", VStr (to_str (por (get "id" refreshed) (VStr item_id))))]).

Definition attach_body (item_id session_id location_id floor_id rack_id actor_id : string) : M (world C) doc :=
  do _ <- ensure_session_active session_id ;;
  do existing <- load_item item_id ;;
  do now <- utc_now clock ;;
  do expected_version <- lift (coerce_version (get "version" existing)) ;;
  run write_version item_id expected_version
        (attach_fields session_id location_id floor_id rack_id actor_id now) ;;
  do refreshed <- find_item item_id ;;
  run log_update "ATTACH_TO_SESSION" session_id item_id actor_id (VStr location_id) (default [] refreshed) ;;
  ret (answer existing refreshed).

Definition attach_to_session (item_id session_id location_id floor_id rack_id actor_id : string) : M (world C) doc :=
  with_uow cl (fun _ => attach_body item_id session_id location_id floor_id rack_id actor_id).

(** An item of no session is not checked. *)
Definition ensure_item_open (existing : doc) : M (world C) string :=
  let session_id := text_field ["session_id"] existing in
  if String.eqb session_id "" then ret session_id
  else do _ <- ensure_session_not_finalized session_id ;; ret session_id.

Definition escalate_fields (actor_id : string) (reason : option string) (now : Z) : doc :=
  [("status", VStr "ESCALATED"); ("escalated_at", VTime now); ("escalated_by", VStr actor_id);
   ("escalation_reason", opt_str reason); ("updated_at", VTime now); ("updated_by", VStr actor_id)].

Definition escalate_for_review (item_id actor_id : string) (reason : option string) : M (world C) doc :=
  with_uow cl (fun _ =>
    do existing <- load_item item_id ;;
    do session_id <- ensure_item_open existing ;;
    do now <- utc_now clock ;;
    do expected_version <- lift (coerce_version (get "version" existing)) ;;
    run write_version item_id expected_version (escalate_fields actor_id reason now) ;;
    do refreshed <- find_item item_id ;;
    run log_update "ESCALATE" session_id item_id actor_id (get "location_id" (default [] refreshed))
          (default [] refreshed) ;;
    ret (answer existing refreshed)).

(** ** Mapping to an item *)

Record mapping_result := Mapped {
  m_unknown_item_id : string; m_target_item_code : string; m_count_line_id : string; m_manual_sku_created : bool }.

Definition mapped_line (unknown target : doc) (fresh session_id location_id floor_id rack_id item_id item_code
    actor_id : string) (counted_qty : float) (resolve_notes : option string) (now : Z) : doc :=
  [("id", VStr fresh); ("session_id", VStr session_id); ("location_id", VStr location_id);
   ("floor_id", VStr floor_id); ("rack_id", VStr rack_id); ("floor_no", VStr floor_id); ("rack_no", VStr rack_id);
   ("item_code", VStr item_code); ("barcode", por (get "barcode" target) (get "barcode" unknown));
   ("counted_qty", VFloat counted_qty); ("counted_by", por (get "reported_by" unknown) (VStr actor_id));
   ("counted_at", por (get "reported_at" unknown) (VTime now)); ("updated_at", VTime now);
   ("is_mapped_from_unknown", VBool true); ("mapping_notes", opt_str resolve_notes); ("mapped_by", VStr actor_id);
   ("idempotency_key", VStr ("unknown-map:" +:+ item_id +:+ ":" +:+ item_code)); ("version", VInt 1);
   ("previous_version_id", VNone); ("recount_of_id", VNone)].

(** A write service of its own: its caches start empty. *)
Definition with_write_service {A} (m : M (write_service * world C) A) : M (world C) A := fun w =>
  let '(o, (_, w')) := m (WriteService [] [], w) in (o, w').

Definition mapping_context (session : doc) (session_id actor_id : string) : doc :=
  [("session", VDict session); ("session_id", VStr session_id); ("username", VStr actor_id)].

Definition write_mapped_line (line session : doc) (session_id actor_id : string) (has_session : bool)
  : M (world C) doc :=
  do r <- with_write_service (process_write clock strict_mode write_logs object_id sha256 client_count_lines cl
            has_session (Payload "insert_one" (Some line) None None false)
            (mapping_context session session_id actor_id)) ;;
  ret match r with RDocument d => d | _ => line end.

Definition resolved_fields (item_code actor_id : string) (resolve_notes : option string) (now : Z) : doc :=
  [("status", VStr "RESOLVED"); ("resolved_at", VTime now); ("resolved_by", VStr actor_id);
   ("resolution", VStr "MAPPED"); ("target_item_code", VStr item_code); ("resolve_notes", opt_str resolve_notes);
   ("updated_at", VTime now); ("updated_by", VStr actor_id)].

Definition _map_unknown_to_known_item (unknown target : doc) (actor_id : string) (resolve_notes : option string)
    (manual_sku_created has_session : bool) (fresh : string) : M (world C) mapping_result :=
  let item_id := to_str (por (get "id" unknown) (por (get "_id" unknown) (VStr ""))) in
  let item_code := text_field ["item_code"] target in
  run raise_if (String.eqb item_code "") (HTTPException 400 (VStr "Target item_code is required")) ;;
  let session_id := text_field ["session_id"] unknown in
  do session <- ensure_session_active session_id ;;
  let location_id := text_field ["location_id"] unknown in
  let floor_id := text_field ["floor_id"; "floor_no"] unknown in
  let rack_id := text_field ["rack_id"; "rack_no"] unknown in
  run raise_if (no_place location_id floor_id rack_id)
        (HTTPException 400 (VStr "CRITICAL: Unknown-item mapping requires location_id, floor_id, rack_id")) ;;
  do now <- utc_now clock ;;
  do counted_qty <- lift (to_float (por (get "counted_qty" unknown) (VFloat (of_Z 1)))) ;;
  do line <- write_mapped_line
    (mapped_line unknown target fresh session_id location_id floor_id rack_id item_id item_code actor_id counted_qty
       resolve_notes now) session session_id actor_id has_session ;;
  do expected_version <- lift (coerce_version (get "version" unknown)) ;;
  run write_version item_id expected_version (resolved_fields item_code actor_id resolve_notes now) ;;
  run log_item_event (or_none (text_of "item_code" line)) (VStr location_id) (or_none (text_of "idempotency_key" line))
        (or_none (text_of "semantic_hash" line))
        (item_audit "RESOLVE_TO_KNOWN_ITEM" session_id 1 actor_id
           [("unknown_item_id", VStr item_id); ("target_item_code", VStr item_code); ("count_line_id", get "id" line);
            ("manual_sku_created", VBool manual_sku_created)]) ;;
  ret (Mapped item_id item_code (to_str (get "id" line)) manual_sku_created).

Definition resolve_to_known_item (item_id item_code actor_id : string) (resolve_notes : option string) (fresh : string)
  : M (world C) mapping_result :=
  with_uow cl (fun has_session =>
    do unknown <- load_item item_id ;;
    do target <- db_find_one "erp_items" (QEq "item_code" (VStr item_code)) ;;
    match target with
    | Some ((_ :: _) as t) => _map_unknown_to_known_item unknown t actor_id resolve_notes false has_session fresh
    | _ => raise (HTTPException 404 (VStr ("Target SKU " +:+ item_code +:+ " not found in ERP")))
    end).

Definition manual_item (unknown : doc) (item_code item_name category : string) (subcategory : option string)
    (mrp : float) (uom_code actor_id : string) (now : Z) : doc :=
  [("item_code", VStr item_code); ("item_name", VStr item_name);
   ("barcode", por (get "barcode" unknown) (VStr "")); ("category", VStr category);
   ("subcategory", opt_str subcategory); ("mrp", VFloat mrp); ("uom_code", VStr uom_code);
   ("stock_qty", VFloat f0); ("created_at", VTime now); ("created_by", VStr actor_id);
   ("is_manually_created", VBool true)].

Definition create_manual_sku_and_resolve (item_id item_code item_name category : string) (subcategory : option string)
    (mrp : float) (uom_code actor_id : string) (resolve_notes : option string) (fresh : string)
  : M (world C) mapping_result :=
  with_uow cl (fun has_session =>
    do unknown <- load_item item_id ;;
    do existing <- db_find_one "erp_items" (QEq "item_code" (VStr item_code)) ;;
    run raise_if (match existing with Some (_ :: _) => true | _ => false end)
          (HTTPException 400 (VStr "Item code already exists")) ;;
    do now <- utc_now clock ;;
    do new_item <- db_insert_one "erp_items"
      (manual_item unknown item_code item_name category subcategory mrp uom_code actor_id now) ;;
    _map_unknown_to_known_item unknown new_item actor_id resolve_notes true has_session fresh).

(** ** Dismissal *)

Definition dismiss_fields (actor_id : string) (reason : option string) (now : Z) : doc :=
  [("status", VStr "DISMISSED"); ("dismissed_at", VTime now); ("dismissed_by", VStr actor_id);
   ("updated_at", VTime now); ("updated_by", VStr actor_id)]
  ++ match reason with
     | Some r => if String.eqb r "" then [] else [("dismiss_reason", VStr r)]
     | None => []
     end.

(** [async with MongoUnitOfWork(client) as uow: return body(uow.session)], where
    nothing commits. *)
Definition with_uow_uncommitted {A} (body : bool → M (world C) A) : M (world C) A := fun w0 =>
  match __aenter__ cl with
  | Raise e => (Raise e, w0)
  | Ok u => let '(r, w) := body (u_session u) w0 in (r, __aexit__ u w0 w)
  end.

Definition dismiss_body (item_id actor_id : string) (reason : option string) : M (world C) doc :=
  do existing <- load_item item_id ;;
  do session_id <- ensure_item_open existing ;;
  do expected_version <- lift (coerce_version (get "version" existing)) ;;
  do now <- utc_now clock ;;
  let update_fields := dismiss_fields actor_id reason now in
  run write_version item_id expected_version update_fields ;;
  do refreshed <- find_item item_id ;;
  let resolved_doc := answer (aset "version" (VInt (expected_version + 1)) (aupd existing update_fields)) refreshed in
  do version <- lift (version_or (expected_version + 1) resolved_doc) ;;
  let shown := to_str (por (get "id" resolved_doc) (VStr item_id)) in
  run log_item_event (por (get "barcode" resolved_doc) (VStr shown))
        (or_none (text_of "location_id" resolved_doc)) VNone VNone
        (item_audit "DISMISS" session_id version actor_id [("unknown_item_id", VStr shown)]) ;;
  ret resolved_doc.

Definition dismiss_unknown_item (item_id actor_id : string) (reason : option string) : M (world C) doc :=
  with_uow_uncommitted (fun _ => dismiss_body item_id actor_id reason).
End unknown_items.
