(* ===== verification/UnknownItemSpec.v ===== *)
(** Properties of the unknown items of [UnknownItems]: what a versioned update
    of an item does, and which operations can close an item at all. *)

From stdpp Require Import sets.
From S2P Require Import Prelude PyFloat Py Json Store ListStore Guard Inventory Uow Frame Lifecycle LifecycleSpec.
From S2P Require Import Quantity Variance CountLines CountLineSpec UnknownItems.

Local Open Scope Z_scope.
Local Open Scope stock_scope.

(** ** The versioned update *)

Section updates.
Context {C : Type} `{MongoLaws C}.
Context (clock : nat → Z) (object_id : string → option string).
Implicit Types (w : world C).

Abbreviation items w := (contents (w_db w "unknown_items")).
Abbreviation by_id item_id := (as_query (_resolve_filter object_id item_id)).
Abbreviation next_version fields := (Upd fields [("version", VInt 1)] [] []).

Lemma frame_log_item P i l k h a :
  str_in "governance_events" P = true → frame P (log_item_event (C:=C) clock i l k h a).
Proof. apply frame_log_keys. Qed.

Lemma frame_log_update P o s i a l d :
  str_in "governance_events" P = true → frame P (log_update (C:=C) clock o s i a l d).
Proof. intros Hin. apply frame_bind; [apply frame_lift|]. intros v. by apply frame_log_item. Qed.

Lemma frame_active P sid : frame P (ensure_session_active (C:=C) sid).
Proof. apply frame_bind; [apply frame_not_finalized|]. intros d. apply frame_bind; [apply frame_raise_if|]. intros; apply frame_ret. Qed.

Lemma frame_load P item_id : frame P (load_item (C:=C) object_id item_id).
Proof. unfold load_item, find_item, not_found. solve_frame. Qed.

Lemma frame_item_open P d : frame P (ensure_item_open (C:=C) d).
Proof.
  unfold ensure_item_open. cbv zeta. destruct (String.eqb _ _); [apply frame_ret|].
  apply frame_bind; [apply frame_not_finalized | intros; apply frame_ret].
Qed.

Lemma frame_write_version P item_id v fields :
  str_in "unknown_items" P = true → frame P (write_version (C:=C) object_id item_id v fields).
Proof. intros Hin. unfold write_version, _execute_authorized_write. solve_frame. Qed.

Lemma active_ok sid w s w' :
  ensure_session_active sid w = (Ok s, w') →
  w' = w ∧ find_one (_lookup sid) (w_db w "sessions") = Some s ∧ is_finalized_session s = false ∧
  normalize_session_status (get "status" s) = "ACTIVE".
Proof.
  intros (d & w1 & Hd & Hm)%bind_ok_inv. apply not_finalized_ok in Hd as (-> & Hf & Ho).
  apply bind_ok_inv in Hm as (u & w2 & [Ha ->]%raise_if_ok_inv & Hm). unfold ret in Hm. simplify_eq.
  apply negb_false_iff, String.eqb_eq in Ha. done.
Qed.

Lemma load_item_ok item_id w d w' :
  load_item object_id item_id w = (Ok d, w') → w' = w ∧ find_one (by_id item_id) (w_db w "unknown_items") = Some d.
Proof.
  intros (o & w1 & [-> ->]%read_ok & Hm)%bind_ok_inv. destruct (find_one _ _) as [[|kv e]|] eqn:E;
    unfold not_found, raise, ret in Hm; by simplify_eq.
Qed.

(** A write that is not refused changed one item, at the expected version. *)
Lemma write_version_ok item_id v fields w u w' :
  write_version object_id item_id v fields w = (Ok u, w') →
  (∀ n, n ≠ "unknown_items" → w_db w' n = w_db w n) ∧
  ∃ d rest, items w ≡ₚ d :: rest ∧ matches (versioned_filter object_id item_id v) d = true ∧
    items w' ≡ₚ apply_update (next_version fields) d :: rest.
Proof.
  intros (n & w1 & Hn & [Hz ->]%raise_if_ok_inv)%bind_ok_inv. apply Z.eqb_neq in Hz.
  unfold _execute_authorized_write in Hn. rewrite authorized_update_one in Hn by reflexivity.
  injection Hn as <- <-. split; [intros; by apply set_coll_other|]. rewrite set_coll_same.
  set (q := versioned_filter _ _ _) in *. set (c := w_db w "unknown_items") in *.
  destruct (find_one q c) as [d|] eqn:E.
  - apply find_one_some in E as [Hd Hm].
    destruct (update_one_some q (next_version fields) c) as (e & rest & Hc & He & Hc' & _); [by exists d|]. by exists e, rest.
  - by rewrite update_one_none in Hz by (by apply find_one_none).
Qed.

(** At a positive version the written item has the id and the version. *)
Lemma versioned_filter_matches item_id v d :
  0 < v → matches (versioned_filter object_id item_id v) d = true →
  matches (by_id item_id) d = true ∧ matches (QEq "version" (VInt v)) d = true.
Proof.
  intros Hv. unfold versioned_filter, version_dict, build_version_filter.
  replace (v <=? 0) with false by (symmetry; apply Z.leb_gt; lia).
  unfold _resolve_filter. destruct (object_id item_id); cbn [aupd fold_left aset fst snd String.eqb Ascii.eqb Bool.eqb as_query map];
    rewrite matches_and; cbn [forallb]; intros [H1 [H2 _]%andb_true_iff]%andb_true_iff; done.
Qed.

Context (cl : client).

(** What the updates of an item write, all of it in the session. *)
Definition item_collections : list string := ["unknown_items"; "governance_events"].

Lemma frame_attach item_id sid loc floor rack actor :
  frame item_collections (attach_body (C:=C) clock object_id item_id sid loc floor rack actor).
Proof.
  pose proof (frame_active item_collections). pose proof (frame_load item_collections).
  pose proof (fun i v f => frame_write_version item_collections i v f eq_refl).
  pose proof (fun o s i a l d => frame_log_update item_collections o s i a l d eq_refl).
  unfold attach_body, find_item. repeat first [frame_step | done].
Qed.

End updates.

(** ** Mapping and dismissing *)

Section closing.
Context {C : Type} `{MongoLaws C}.
Context (clock : nat → Z) (strict_mode write_logs : bool) (object_id : string → option string).
Context (sha256 : string → string) (client_count_lines : client_attribute) (cl : client).
Implicit Types (w : world C).

Abbreviation map_item :=
  (_map_unknown_to_known_item (C:=C) clock strict_mode write_logs object_id sha256 client_count_lines cl).
Abbreviation resolve :=
  (resolve_to_known_item (C:=C) clock strict_mode write_logs object_id sha256 client_count_lines cl).
Abbreviation create_manual :=
  (create_manual_sku_and_resolve (C:=C) clock strict_mode write_logs object_id sha256 client_count_lines cl).

(** The count line of a mapping has no remark, which the governance of every
    counted line asks for. *)
Lemma mapped_line_refused unknown target fresh sid loc floor rack item_id code actor q notes now session b w line w' :
  write_mapped_line clock strict_mode write_logs object_id sha256 client_count_lines cl
    (mapped_line unknown target fresh sid loc floor rack item_id code actor q notes now) session sid actor b w
  ≠ (Ok line, w').
Proof.
  intros (r & w1 & Hp & _)%bind_ok_inv. unfold with_write_service in Hp.
  destruct (process_write _ _ _ _ _ _ _ _ _ _ _) as [o [s2 w2]] eqn:E. injection Hp as -> ->.
  apply write_ok in E as (b' & Hc).
  apply core_ok in Hc as (p1 & s1 & w3 & ids & versions & r2 & p2 & w4 & p3 & Hb & _).
  eapply before_insert_ok in Hb as (mode & ses & hash & l & _ & _ & _ & _ & _ & Hgov); [|reflexivity..].
  destruct (Hgov eq_refl) as (g & counted & expected & Hg). discriminate (gov_remark _ _ _ _ _ _ Hg).
Qed.

Lemma mapping_refused unknown target actor notes manual b fresh w r w' :
  map_item unknown target actor notes manual b fresh w ≠ (Ok r, w').
Proof.
  intros Hm. unfold _map_unknown_to_known_item in Hm.
  apply bind_ok_inv in Hm as (? & ? & _ & Hm). apply bind_ok_inv in Hm as (session & ? & _ & Hm).
  apply bind_ok_inv in Hm as (? & ? & _ & Hm). apply bind_ok_inv in Hm as (now & ? & _ & Hm).
  apply bind_ok_inv in Hm as (q & ? & _ & Hm). apply bind_ok_inv in Hm as (line & ? & Hl & _).
  by apply mapped_line_refused in Hl.
Qed.

Lemma resolve_to_known_refused item_id code actor notes fresh w r w' : resolve item_id code actor notes fresh w ≠ (Ok r, w').
Proof.
  intros (b & Hm)%with_uow_ok_inv. apply bind_ok_inv in Hm as (unknown & ? & _ & Hm).
  apply bind_ok_inv in Hm as ([[|kv t]|] & ? & _ & Hm); try done. by apply mapping_refused in Hm.
Qed.

Lemma create_manual_refused item_id code name cat sub mrp uom actor notes fresh w r w' :
  create_manual item_id code name cat sub mrp uom actor notes fresh w ≠ (Ok r, w').
Proof.
  intros (b & Hm)%with_uow_ok_inv. apply bind_ok_inv in Hm as (unknown & ? & _ & Hm).
  apply bind_ok_inv in Hm as (existing & ? & _ & Hm). apply bind_ok_inv in Hm as (? & ? & _ & Hm).
  apply bind_ok_inv in Hm as (now & ? & _ & Hm). apply bind_ok_inv in Hm as (item & ? & _ & Hm).
  by apply mapping_refused in Hm.
Qed.

Lemma frame_dismiss item_id actor reason : frame item_collections (dismiss_body (C:=C) clock object_id item_id actor reason).
Proof.
  pose proof (frame_item_open (C:=C) item_collections). pose proof (frame_load (C:=C) object_id item_collections).
  pose proof (fun i v f => frame_write_version (C:=C) object_id item_collections i v f eq_refl).
  pose proof (fun i l k h a => frame_log_item (C:=C) clock item_collections i l k h a eq_refl).
  unfold dismiss_body, find_item. repeat first [frame_step | done].
Qed.

(** Nothing commits a dismissal. *)
Lemma dismissal_undone item_id actor reason w r w' n :
  transactional cl → dismiss_unknown_item clock object_id cl item_id actor reason w = (r, w') → w_db w' n = w_db w n.
Proof.
  unfold transactional, dismiss_unknown_item, with_uow_uncommitted. intros -> Hd. cbn [u_session] in Hd.
  destruct (dismiss_body _ _ _ _ _ w) as [o w1] eqn:E. injection Hd as _ <-.
  exact (aexit_unchanged item_collections _ _ n eq_refl (frame_dismiss _ _ _ _ _ _ E)).
Qed.
End closing.

(** ** Concrete items *)

Definition item_ids (s : string) : option string := if startswith "u" s then Some s else None.
Definition unknown_item (oid id : string) (more : doc) : doc :=
  [("_id", VOid oid); ("id", VStr id); ("session_id", VStr "S1"); ("location_id", VStr "L"); ("floor_id", VStr "F");
   ("rack_id", VStr "R"); ("status", VStr "OPEN")] ++ more.
Definition unknown_world (l : list doc) : world coll := set_coll "unknown_items" l (count_world []).

Definition example_attach (w : world coll) :=
  attach_to_session no_clock item_ids replica_client "U1" "S1" "L" "F2" "R" "sup" w.
Definition example_dismiss (cl : client) (w : world coll) :=
  dismiss_unknown_item no_clock item_ids cl "U1" "sup" (Some "scrap") w.

Lemma example_attaches : is_ok (fst (example_attach (unknown_world [unknown_item "u1" "U1" [("version", VInt 1)]]))) = true.
Proof. vm_compute. reflexivity. Qed.


(** The dismissal that is answered with the dismissed item. *)
Lemma example_dismissed :
  match fst (example_dismiss replica_client (unknown_world [unknown_item "u1" "U1" [("version", VInt 1)]])) with
  | Ok d => get "status" d = VStr "DISMISSED"
  | Raise _ => False
  end.
Proof. vm_compute. reflexivity. Qed.

(** ** What the concrete items show *)

(** A deployment without transactions keeps the dismissal. *)
Lemma dismissed_without_transactions :
  let w := unknown_world [unknown_item "u1" "U1" [("version", VInt 1)]] in
  map (get "status") (w_db (snd (example_dismiss standalone_client w)) "unknown_items") = [VStr "DISMISSED"]
  ∧ map (get "status") (w_db (snd (example_dismiss replica_client w)) "unknown_items") = [VStr "OPEN"].
Proof. vm_compute. split; reflexivity. Qed.

(** An item that was registered before versions, asked for by its ObjectId:
    both filters have the key [$or], the version's wins, and another item
    without a version is the one that is escalated. *)
Lemma other_item_escalated :
  let w := unknown_world [unknown_item "u1" "U1" []; unknown_item "u2" "U2" []] in
  let '(r, w') := escalate_for_review no_clock item_ids standalone_client "u2" "sup" None w in
  (match r with Ok d => Some (get "id" d, get "status" d) | Raise _ => None end,
   map (fun d => (get "id" d, get "status" d)) (w_db w' "unknown_items"))
  = (Some (VStr "U2", VStr "OPEN"), [(VStr "U1", VStr "ESCALATED"); (VStr "U2", VStr "OPEN")]).
Proof. vm_compute. reflexivity. Qed.

(** Without transactions the refused mapping leaves the item it created, which
    then refuses every further attempt. *)
Lemma manual_item_left :
  let w := unknown_world [unknown_item "u1" "U1" [("version", VInt 1)]] in
  let create w := create_manual_sku_and_resolve no_clock false true item_ids (fun s => s) ACollection standalone_client
                    "U1" "NEW" "New" "c" None f0 "EA" "sup" None "f" w in
  let '(r, w') := create w in
  (r, length (w_db w' "erp_items"), fst (create w')) =
  (Raise (HTTPException 400 (VStr "Item remark is mandatory")), 2%nat,
   Raise (HTTPException 400 (VStr "Item code already exists"))).
Proof. vm_compute. reflexivity. Qed.
