(* ===== verification/EventMirror.v ===== *)
(** The writers of the event log other than conflict resolution: the mirroring
    of count-line writes and the session events of [services/event_service.py]
    ([EventService]), and the backfill of old count lines,
    [scripts/migrate_count_lines_to_event_log.py].

    The n-th event appended by a call has the ids [uuid n]; [sha256] is the hex
    digest of a text.  The reports of the backfill are left out. *)

From S2P Require Import Prelude PyFloat Py Json Store ListStore Guard Uow Frame Lifecycle Quantity CountLines.
From S2P Require Import ProjectionCore ProjectionSpec Events.

Local Open Scope Z_scope.
Local Open Scope stock_scope.

Definition FLAG_EVENT_SHADOW_WRITE : string := "V3_EVENT_SHADOW_WRITE".

(** [float(v or 0.0)] *)
Definition float_or_zero (v : val) : outcome float := to_float (por v (VFloat f0)).

Definition opt_get (k : string) (o : option doc) : val := match o with Some d => get k d | None => VNone end.
Definition opt_doc (o : option doc) : val := match o with Some d => VDict d | None => VNone end.
Definition is_given (o : option doc) : bool := match o with Some _ => true | None => false end.

(** [_normalize_serials] of an image that may be missing. *)
Definition image_serials (o : option doc) : outcome (list string) := serials_of (opt_doc o).

(** [a or b or c] for documents: an empty one is false. *)
Definition active_image (document : doc) (before after : option doc) : doc :=
  match after, before with
  | Some (kv :: d), _ => kv :: d
  | _, Some (kv :: d) => kv :: d
  | _, _ => document
  end.

Definition _build_payload (document : doc) (before after : option doc) : outcome doc :=
  let active := active_image document before after in
  obind (float_or_zero (opt_get "counted_qty" before)) (fun before_qty =>
  obind (float_or_zero (opt_get "counted_qty" after)) (fun after_qty =>
  obind (float_or_zero (opt_get "damaged_qty" before)) (fun before_damaged =>
  obind (float_or_zero (opt_get "damaged_qty" after)) (fun after_damaged =>
  obind (image_serials before) (fun before_serials =>
  obind (image_serials after) (fun after_serials =>
  let change x y := if is_given after then fsub y x else fneg x in
  Ok [("session_id", get "session_id" active); ("item_id", por (get "item_id" active) (get "item_code" active));
      ("batch_id", get "batch_id" active); ("count_line_id", opt_id (_line_identifier active));
      ("count_line", VDict active); ("before", opt_doc before); ("after", opt_doc after);
      ("serial_numbers", VList (map VStr after_serials));
      ("delta", VDict [("counted_qty", VFloat (change before_qty after_qty));
                       ("damaged_qty", VFloat (change before_damaged after_damaged));
                       ("serial_count", VInt (Z.of_nat (length after_serials) - Z.of_nat (length before_serials)))])])))))).

Section mirror.
Context {C : Type} `{Mongo C}.
Context (clock : nat → Z) (env : string → option string) (collection_bool : outcome bool) (cl : client).
Context (sha256 : string → string) (uuid : nat → string * string).

(** [json.dumps] of a normalized text *)
Definition json_opt (o : option string) : string := match o with Some s => json_string s | None => "null" end.

Definition compute_scan_fingerprint (document context : doc) : outcome string :=
  obind (serials_of (VDict document)) (fun serials =>
  obind (float_or_zero (get "counted_qty" document)) (fun counted_qty =>
  let member k v := json_string k +:+ ":" +:+ v in
  let text k := json_opt (_normalize_string (get k document)) in
  Ok (sha256 ("{" +:+ join "," [
    member "batch_id" (text "batch_id");
    member "counted_qty" (json_float_text counted_qty);
    member "device_id" (json_opt (_normalize_string
      (por (get "device_id" context) (por (get "device_id" document) (VStr "unknown-device")))));
    member "item_code" (text "item_code");
    member "location_id" (json_opt (_normalize_string (por (get "location_id" document) (get "floor_id" document))));
    member "serials" ("[" +:+ join "," (map json_string serials) +:+ "]");
    member "session_id" (text "session_id")] +:+ "}")))).

Definition normalized (v : val) : val := opt_id (_normalize_string v).

Definition _build_metadata (document context : doc) (event_type : string) : M (world C) doc :=
  let line := match _line_identifier document with Some i => VStr i | None => get "item_code" document end in
  let moment := por (get "updated_at" document) (por (get "counted_at" document) (get "approved_at" document)) in
  do moment <- (if truthy moment then ret (to_str moment) else do now <- utc_now clock ;; ret (isoformat "T" now)) ;;
  let key := event_type +:+ ":" +:+ to_str line +:+ ":" +:+ moment in
  do fingerprint <- (if String.eqb event_type "SCAN_ADDED"
                     then do f <- lift (compute_scan_fingerprint document context) ;; ret (VStr f) else ret VNone) ;;
  ret [("user_id", normalized (por (get "username" context) (por (get "user_id" context)
          (por (get "updated_by" document) (por (get "counted_by" document) (get "created_by" document))))));
       ("device_id", normalized (por (get "device_id" context) (por (get "device_id" document) (get "client_id" context))));
       ("request_idempotency_key", normalized (get "idempotency_key" document)); ("idempotency_key", VStr key);
       ("event_idempotency_key", VStr key); ("scan_fingerprint", fingerprint); ("legacy_source", VStr "count_lines");
       ("legacy_operation", por (get "transition" context) (VStr (lower event_type)))].

(** One event after those a call has appended. *)
Definition emit_event (base : nat) (aggregate_id event_type : string) (payload document context : doc)
    (has_session : bool) (events : list doc) : M (world C) (list doc) :=
  do metadata <- _build_metadata document context event_type ;;
  let '(fresh, id) := uuid (base + length events) in
  do e <- append_event clock env collection_bool cl true None has_session aggregate_id event_type payload metadata fresh id ;;
  ret (events ++ [e]).

Definition emit_if (b : bool) (base : nat) (aggregate_id event_type : string) (payload document context : doc)
    (has_session : bool) (events : list doc) : M (world C) (list doc) :=
  if b then emit_event base aggregate_id event_type payload document context has_session events else ret events.

Definition aggregate_of (v : val) : string := default "unknown-item" (_normalize_string v).

Definition _emit_insert_events (base : nat) (document context : doc) (has_session : bool) : M (world C) (list doc) :=
  let aggregate_id := aggregate_of (get "item_code" document) in
  do payload <- lift (_build_payload document None (Some document)) ;;
  let emit b ty events := emit_if b base aggregate_id ty payload document context has_session events in
  do events <- emit true "SCAN_ADDED" [] ;;
  do variance <- lift (float_or_zero (get "variance" document)) ;;
  do events <- emit (flt f0 (fabs variance)) "VARIANCE_DETECTED" events ;;
  do damaged <- lift (float_or_zero (get "damaged_qty" document)) ;;
  do events <- emit (flt f0 damaged) "DAMAGE_MARKED" events ;;
  emit (String.eqb (upper (status_text "approval_status" document)) "APPROVED") "APPROVAL_GRANTED" events.

(** What an update changes, in the order it is reported. *)
Definition update_events (counted_delta damaged_delta : float) (before after : doc) : list (bool * string) :=
  let approval d := upper (status_text "approval_status" d) in
  let status d := upper (status_text "status" d) in
  let verified d := truthy (get "verified" d) in
  [(negb (feq counted_delta f0), "QUANTITY_ADJUSTED"); (flt f0 damaged_delta, "DAMAGE_MARKED");
   (String.eqb (approval after) "APPROVED" && negb (String.eqb (approval before) "APPROVED"), "APPROVAL_GRANTED");
   (String.eqb (status after) "REJECTED" && negb (String.eqb (status before) "REJECTED"), "RECOUNT_REQUESTED");
   (verified after && negb (verified before), "COUNT_VERIFIED");
   (negb (verified after) && verified before, "COUNT_UNVERIFIED")].

Fixpoint emit_each (l : list (bool * string)) (base : nat) (aggregate_id : string) (payload document context : doc)
    (has_session : bool) (events : list doc) : M (world C) (list doc) :=
  match l with
  | [] => ret events
  | (b, ty) :: rest =>
      do events <- emit_if b base aggregate_id ty payload document context has_session events ;;
      emit_each rest base aggregate_id payload document context has_session events
  end.

Definition _emit_update_events (base : nat) (before after context : doc) (has_session : bool) : M (world C) (list doc) :=
  let aggregate_id := aggregate_of (por (get "item_code" after) (get "item_code" before)) in
  do payload <- lift (_build_payload after (Some before) (Some after)) ;;
  do counted_delta <- lift (obind (delta_of "counted_qty" payload) float_or_zero) ;;
  do damaged_delta <- lift (obind (delta_of "damaged_qty" payload) float_or_zero) ;;
  emit_each (update_events counted_delta damaged_delta before after) base aggregate_id payload after context has_session [].

Definition _emit_removed_event (base : nat) (document context : doc) (has_session : bool) : M (world C) (list doc) :=
  do payload <- lift (_build_payload document (Some document) None) ;;
  emit_event base (aggregate_of (get "item_code" document)) "COUNT_LINE_REMOVED" payload document context has_session [].

(** The images of the lines after an update, by their identifier: the last of
    each. *)
Definition post_index (post_images : list doc) : list (string * doc) :=
  fold_left (fun l d => match _line_identifier d with Some i => aset i d l | None => l end) post_images [].

Fixpoint mirror_updates (base : nat) (index : list (string * doc)) (context : doc) (has_session : bool)
    (pre_images events : list doc) : M (world C) (list doc) :=
  match pre_images with
  | [] => ret events
  | before :: rest =>
      match match _line_identifier before with Some i => aget i index | None => None end with
      | None | Some [] => mirror_updates base index context has_session rest events
      | Some after =>
          do more <- _emit_update_events (base + length events) before after context has_session ;;
          mirror_updates base index context has_session rest (events ++ more)
      end
  end.

Fixpoint mirror_deletes (base : nat) (context : doc) (has_session : bool) (pre_images events : list doc)
  : M (world C) (list doc) :=
  match pre_images with
  | [] => ret events
  | before :: rest =>
      do more <- _emit_removed_event (base + length events) before context has_session ;;
      mirror_deletes base context has_session rest (events ++ more)
  end.

(** [inserted_id] is the id the driver returned, [VNone] where there is none. *)
Definition mirror_count_line_write (payload context : doc) (inserted_id : val) (pre_images post_images : list doc)
    (has_session : bool) : M (world C) (list doc) :=
  let operation := lower (strip (to_str (por (get "operation" payload) (VStr "")))) in
  if String.eqb operation "insert_one" then
    match get "document" payload with
    | VDict document =>
        let document := if truthy inserted_id then setdefault "_id" inserted_id document else document in
        _emit_insert_events 0 document context has_session
    | _ => ret []
    end
  else if str_in operation ["update_one"; "update_many"] then
    mirror_updates 0 (post_index post_images) context has_session pre_images []
  else if str_in operation ["delete_one"; "delete_many"] then mirror_deletes 0 context has_session pre_images []
  else ret [].

(** A session event; one that is not required is only written with its flag. *)
Definition record_session_event (event_type session_id : string) (payload metadata : doc) (has_session required : bool)
  : M (world C) (option doc) :=
  do enabled <- (if required then ret true else is_enabled env collection_bool FLAG_EVENT_SHADOW_WRITE true) ;;
  if negb enabled then ret None
  else
    let moment := por (get "updated_at" payload) (get "timestamp" payload) in
    do moment <- (if truthy moment then ret (to_str moment) else do now <- utc_now clock ;; ret (isoformat "T" now)) ;;
    let safe_metadata :=
      setdefault "legacy_source" (VStr "sessions")
        (setdefault "event_idempotency_key" (VStr (event_type +:+ ":" +:+ session_id +:+ ":" +:+ moment)) metadata) in
    let '(fresh, id) := uuid 0 in
    do e <- append_event clock env collection_bool cl true (Some required) has_session session_id event_type
              (aupd [("session_id", VStr session_id)] payload) safe_metadata fresh id ;;
    ret (Some e).

(** ** The backfill of old count lines *)

Definition line_identifier (count_line : doc) : string :=
  to_str (por (get "id" count_line) (por (get "_id" count_line) (VStr ""))).

Record event_spec := Spec { sp_aggregate_id : string; sp_event_type : string; sp_payload : doc; sp_metadata : doc }.

Definition serial_list (count_line : doc) : val := por (get "serial_numbers" count_line) (VList []).

Definition len_of (v : val) : outcome Z :=
  match v with
  | VList l => Ok (Z.of_nat (length l))
  | VDict d => Ok (Z.of_nat (length d))
  | VStr s => Ok (Z.of_nat (String.length s))
  | _ => Raise (TypeError "object has no len()")
  end.

Definition _build_event_specs (count_line : doc) : outcome (list event_spec) :=
  let legacy_key := "legacy-import:" +:+ line_identifier count_line in
  let aggregate_id := to_str (por (get "item_code" count_line) (VStr "unknown-item")) in
  obind (float_or_zero (get "counted_qty" count_line)) (fun counted =>
  obind (float_or_zero (get "damaged_qty" count_line)) (fun damaged =>
  obind (len_of (serial_list count_line)) (fun serial_count =>
  obind (float_or_zero (get "variance" count_line)) (fun variance =>
  let payload :=
    [("session_id", get "session_id" count_line); ("item_id", por (get "item_code" count_line) (get "item_id" count_line));
     ("batch_id", get "batch_id" count_line); ("count_line_id", VStr (line_identifier count_line));
     ("count_line", VDict count_line); ("before", VNone); ("after", VDict count_line);
     ("serial_numbers", serial_list count_line);
     ("delta", VDict [("counted_qty", VFloat counted); ("damaged_qty", VFloat damaged); ("serial_count", VInt serial_count)])] in
  let metadata suffix :=
    [("request_idempotency_key", get "idempotency_key" count_line); ("legacy_source", VStr "count_lines_backfill");
     ("user_id", por (get "counted_by" count_line) (get "created_by" count_line));
     ("scan_fingerprint", get "semantic_hash" count_line);
     ("event_idempotency_key", VStr (legacy_key +:+ suffix))] in
  let spec (b : bool) event_type suffix := if b then [Spec aggregate_id event_type payload (metadata suffix)] else [] in
  Ok (spec true "SCAN_ADDED" "" ++ spec (flt f0 (fabs variance)) "VARIANCE_DETECTED" ":variance"
      ++ spec (flt f0 damaged) "DAMAGE_MARKED" ":damage"
      ++ spec (String.eqb (upper (status_text "approval_status" count_line)) "APPROVED") "APPROVAL_GRANTED" ":approval"))))).

Definition _event_exists (event_idempotency_key : string) : M (world C) bool :=
  do existing <- db_find_one "event_log" (key_query event_idempotency_key) ;;
  ret (match existing with Some _ => true | None => false end).

Record backfill := Backfill {
  bf_migrated : nat; bf_skipped : nat; bf_existing : nat; bf_emitted : nat;
}.

Fixpoint pending_specs (specs : list event_spec) (existing : nat) : M (world C) (list event_spec * nat) :=
  match specs with
  | [] => ret ([], existing)
  | spec :: rest =>
      do exists_ <- _event_exists (to_str (get "event_idempotency_key" (sp_metadata spec))) ;;
      do ' (pending, n) <- pending_specs rest (if exists_ : bool then S existing else existing) ;;
      ret (if exists_ then pending else spec :: pending, n)
  end.

Fixpoint append_specs (base : nat) (specs : list event_spec) : M (world C) unit :=
  match specs with
  | [] => ret tt
  | spec :: rest =>
      let '(fresh, id) := uuid base in
      do _ <- append_event clock env collection_bool cl false None false (sp_aggregate_id spec) (sp_event_type spec)
                (sp_payload spec) (sp_metadata spec) fresh id ;;
      append_specs (S base) rest
  end.

Fixpoint backfill_lines (execute : bool) (lines : list doc) (t : backfill) : M (world C) backfill :=
  match lines with
  | [] => ret t
  | count_line :: rest =>
      do specs <- lift (_build_event_specs count_line) ;;
      do ' (pending, existing) <- pending_specs specs (bf_existing t) ;;
      match pending with
      | [] => backfill_lines execute rest (Backfill (bf_migrated t) (S (bf_skipped t)) existing (bf_emitted t))
      | _ =>
          run when execute (append_specs (bf_emitted t) pending) ;;
          backfill_lines execute rest
            (Backfill (S (bf_migrated t)) (bf_skipped t) existing (bf_emitted t + length pending))
      end
  end.

(** [_backfill] up to the rebuild; [by_counted_at] is the order of the cursor. *)
Definition _backfill (by_counted_at : list doc → list doc) (execute rebuild_projections : bool) (limit : Z)
    (session_id : string) : M (world C) (backfill * option doc) :=
  do found <- db_find "count_lines" (if String.eqb session_id "" then QAnd [] else by_session session_id) ;;
  let lines := if 0 <? limit then firstn (Z.to_nat limit) (by_counted_at found) else by_counted_at found in
  do t <- backfill_lines execute lines (Backfill 0 0 0 0) ;;
  if execute && rebuild_projections then
    do r <- rebuild_from_event_log clock cl session_id true false ;; ret (t, Some r)
  else ret (t, None).
End mirror.

(** ** Appending projects *)

Section append_projects.
Context {C : Type} `{MongoLaws C}.
Context (clock : nat → Z) (env : string → option string) (collection_bool : outcome bool) (cl : client).
Implicit Types (w : world C).

(** The insert of an event with a fresh id is the only change of the world. *)
Lemma insert_fresh id agg ty payload md now w r w' :
  (∀ d, d ∈ contents (w_db w "event_log") → aget "_id" d ≠ Some (VStr id)) →
  db_insert_one "event_log" (event_document id agg ty payload md now) (tick w) = (r, w') →
  match r with
  | Ok _ => ∃ c : C, w' = set_coll "event_log" c (tick w)
  | Raise e => ∃ msg, e = GovernanceViolation msg
  end.
Proof.
  intros Hfresh Hi. destruct r as [d|e].
  - apply insert_one_ok in Hi as (i & c & _ & _ & ->). by exists c.
  - unfold db_insert_one, bind in Hi.
    destruct (_guard (C:=C) "event_log" "insert_one" (tick w)) as [[u|x] w0] eqn:Eg.
    2: { injection Hi as <- <-. by apply guard_raises in Eg. }
    apply guard_world in Eg as ->. cbn [w_db tick] in Hi. destruct (insert_one _ _) as [[i c]|] eqn:E; [done|].
    exfalso. apply insert_one_dup in E as (d & Hd & Hid & _). apply (Hfresh d Hd). rewrite Hid, aget_bson. cbn.
    by rewrite to_bson_plain.
Qed.

(** C22: an event that is appended where projections are on and enforced is
    projected when the append returns: the event is recorded as applied, and the
    counted quantities are those from before with the change of this event. The
    event must be new: by its keys, its id, and the records of applied events. *)
Theorem append_projects hs agg ty payload md fresh id w e w' :
  let md' := _normalize_event_metadata md agg ty payload fresh in
  env FLAG_PROJECTION_SHADOW = Some "true" →
  _find_existing_event (C:=C) (_normalize_string (get "idempotency_key" md'))
    (_normalize_string (get "scan_fingerprint" md')) w = (Ok None, w) →
  _normalize_string (VStr id) = Some id →
  (∀ d, d ∈ contents (w_db w "event_log") → aget "_id" d ≠ Some (VStr id)) →
  (∀ d, d ∈ marks w → marks_of id d = false) → snap_ok (w_db w "items_snapshot") →
  append_event clock env collection_bool cl true (Some true) hs agg ty payload md fresh id w = (Ok e, w') →
  e = event_document id agg ty payload md' (clock (w_tick w)) ∧ applied id w' ∧
  ∀ s i, snap_qty s i (w_db w' "items_snapshot") = add_change s i (snap_qty s i (w_db w "items_snapshot")) e.
Proof.
  intros md' Hflag Hnone Hid Hfresh Hmarks Hok Ha. unfold append_event in Ha. cbv zeta in Ha. fold md' in Ha.
  unfold bind at 1, ret at 1 in Ha. unfold bind at 1 in Ha. rewrite Hnone in Ha.
  unfold bind at 1, utc_now in Ha. unfold bind at 1 in Ha. cbv beta iota in Ha.
  destruct (db_insert_one "event_log" _ (tick w)) as [ri w1] eqn:Ei. apply insert_fresh in Ei; [|done].
  set (d := event_document id agg ty payload md' (clock (w_tick w))) in *.
  destruct ri as [d'|x]; [|by destruct Ei as [msg ->]]. destruct Ei as [c ->]. cbv beta iota in Ha.
  unfold is_enabled in Ha. rewrite Hflag in Ha. unfold bind at 1, ret at 1 in Ha. cbn [event_bool when] in Ha.
  apply bind_ok_inv in Ha as ([] & w2 & Hf & Hr). injection Hr as <- <-. split; [done|].
  change (fan_out clock cl true hs d (set_coll "event_log" c (tick w)) = (Ok tt, w2)) in Hf. unfold fan_out, try_except in Hf.
  destruct ((do _ <- apply_event clock cl hs d ;; ret tt) (set_coll "event_log" c (tick w))) as [[u|x] w3] eqn:Ea; [|done].
  injection Hf as _ <-. apply bind_ok_inv in Ea as (b & w4 & Ea & Hr). injection Hr as _ <-.
  assert (_normalize_string (event_id_of d) = Some id) as Hdid by (unfold event_id_of, d; destruct id; [done|exact Hid]).
  destruct (apply_next clock cl hs d id (set_coll "event_log" c (tick w)) b w4 Hdid) as (-> & _ & Hq & _ & Happlied);
    [|by rewrite set_coll_other|exact Ea|].
  { intros x Hx. unfold marks in Hx. rewrite set_coll_other in Hx by done. by apply Hmarks. }
  split; [done|]. intros s i. rewrite Hq. by rewrite set_coll_other.
Qed.
End append_projects.

(** ** What goes wrong *)

Definition ids_from (prefix : string) (n : nat) : string * string := ("u", prefix +:+ str_of_Z (Z.of_nat n)).

Definition mirror_example (prefix operation : string) (document : doc) (pre_images post_images : list doc) (w : world coll) :=
  mirror_count_line_write (C:=coll) (fun _ => 7) (fun _ => None) (Ok true) replica_client (fun s => s) (ids_from prefix)
    [("operation", VStr operation); ("document", VDict document)] [] VNone pre_images post_images false w.

Definition old_line (id : string) (verified : bool) (qty : Z) : doc :=
  [("id", VStr id); ("session_id", VStr "S1"); ("item_code", VStr "I1"); ("counted_qty", VFloat (of_Z qty));
   ("verified", VBool verified); ("updated_at", VTime 1000); ("variance", VFloat (of_Z 2)); ("semantic_hash", VStr "h1")].

Definition logged_types (w : world coll) : list val := map (get "event_type") (w_db w "event_log").
Definition snapshot_qtys (w : world coll) : list val := map (get "counted_qty") (w_db w "items_snapshot").

Definition scanned_world : world coll := snd (mirror_example "a" "insert_one" (old_line "L1" false 5) [] [] (mkworld [])).

(** A line of 5 that is changed to 7 and verified in one update counts as 9: both
    events carry the change, and both are projected. *)
Lemma verification_doubles_change :
  snapshot_qtys scanned_world = [VFloat (of_Z 5)] ∧
  let w := snd (mirror_example "b" "update_one" [] [old_line "L1" false 5] [old_line "L1" true 7] scanned_world) in
  logged_types w = map VStr ["COUNT_VERIFIED"; "QUANTITY_ADJUSTED"; "VARIANCE_DETECTED"; "SCAN_ADDED"] ∧
  snapshot_qtys w = [VFloat (of_Z 9)].
Proof. vm_compute. auto. Qed.

(** A second line with the same item, quantity and place is not a second scan:
    its fingerprint is that of the first, and the snapshot misses it. *)
Lemma equal_scan_dropped :
  let w := snd (mirror_example "b" "insert_one" (old_line "L2" false 5) [] [] scanned_world) in
  logged_types w = map VStr ["VARIANCE_DETECTED"; "VARIANCE_DETECTED"; "SCAN_ADDED"] ∧
  snapshot_qtys w = [VFloat (of_Z 5)].
Proof. vm_compute. auto. Qed.

(** All the events of a backfilled line carry its semantic hash as the
    fingerprint: only the first of them is logged, though two are reported. *)
Lemma backfill_logs_one :
  let (r, w) := _backfill (C:=coll) (fun _ => 7) (fun _ => None) (Ok true) replica_client (ids_from "m") (fun l => l)
                  true false 0 "" (mkworld [("count_lines", [old_line "L1" false 5])]) in
  r = Ok (Backfill 1 0 0 2, None) ∧ logged_types w = [VStr "SCAN_ADDED"].
Proof. vm_compute. auto. Qed.

Definition scan_payload : doc :=
  [("session_id", VStr "S1"); ("item_id", VStr "I1");
   ("after", VDict [("id", VStr "L1"); ("item_code", VStr "I1"); ("counted_qty", VFloat (of_Z 5))])].

Definition example_append (w : world coll) := append_event (C:=coll) (fun _ => 0) (fun _ => Some "true") (Ok true)
  replica_client true (Some true) false "I1" "SCAN_ADDED" scan_payload [] "f" "e1" w.

Lemma example_append_runs : is_ok (fst (example_append (mkworld []))) = true.
Proof. vm_compute. reflexivity. Qed.

Lemma empty_world_new :
  contents (w_db (mkworld []) "event_log") = [] ∧ marks (mkworld []) = [] ∧ contents (w_db (mkworld []) "items_snapshot") = [] ∧
  _find_existing_event (C:=coll) (Some "SCAN_ADDED:I1:S1") None (mkworld []) = (Ok None, mkworld []).
Proof. vm_compute. auto. Qed.

Lemma empty_snap_ok (c : coll) : contents c = [] → snap_ok c.
Proof.
  intros Hc. split; [intros d Hd; rewrite Hc in Hd; by apply elem_of_nil in Hd|].
  intros s i. unfold at_most_one. rewrite Hc. simpl. lia.
Qed.

Lemma scan_change :
  add_change "S1" "I1" None (event_document "e1" "I1" "SCAN_ADDED" scan_payload
    (_normalize_event_metadata [] "I1" "SCAN_ADDED" scan_payload "f") 0) = Some (of_Z 5).
Proof. vm_compute. reflexivity. Qed.

Example append_projects_witness :
  snap_qty "S1" "I1" (w_db (snd (example_append (mkworld []))) "items_snapshot") = Some (of_Z 5).
Proof.
  pose proof example_append_runs as Hok. destruct empty_world_new as (Hlog & Hmarks & Hsnap & Hnew).
  assert (∃ w, w = mkworld []) as [w Hw] by eauto. rewrite <- Hw in *. clear Hw.
  destruct (example_append w) as [r w'] eqn:E. unfold example_append in E. destruct r as [e|x]; [|discriminate Hok].
  destruct (append_projects (fun _ => 0) (fun _ => Some "true") (Ok true) replica_client false "I1" "SCAN_ADDED" scan_payload []
    "f" "e1" w e w') as (-> & _ & Hq); [reflexivity | exact Hnew | reflexivity | | | by apply empty_snap_ok | exact E |].
  - intros d Hd. rewrite Hlog in Hd. by apply elem_of_nil in Hd.
  - intros d Hd. rewrite Hmarks in Hd. by apply elem_of_nil in Hd.
  - cbn [snd]. rewrite Hq. assert (snap_qty "S1" "I1" (w_db w "items_snapshot") = None) as ->; [|exact scan_change].
    unfold snap_qty. destruct (find_one _ _) as [d|] eqn:Ef; [|done]. apply find_one_some in Ef as [Hd _].
    rewrite Hsnap in Hd. by apply elem_of_nil in Hd.
Defined.
