(* ===== verification/SyncConflicts.v ===== *)
(** Conflicts between offline data and the database:
    [services/sync_conflicts_service.py] ([SyncConflictsService]).  A conflict is
    recorded when a field differs, and resolved once: the data that wins is
    applied to the session through the lifecycle ([Lifecycle]), to the count
    line through the write service ([CountLines]) or to the item, or it is
    forked when the count line has been approved.

    [resolve_conflict] is its read of the conflict followed by [resolve_loaded].
    The two sides of a conflict are dicts.  The times the service writes are
    aware UTC datetimes, which the database stores like naive ones.  Listing
    (sorted, by page), statistics and the automatic resolution by timestamps are
    left out. *)

From S2P Require Import Prelude PyFloat Py Json Store ListStore Guard Inventory Uow Lifecycle Quantity Variance.
From S2P Require Import CountLines Events.

Local Open Scope Z_scope.
Local Open Scope stock_scope.

Inductive ConflictStatus := PENDING | RESOLVED | IGNORED.
Definition status_value (s : ConflictStatus) : string :=
  match s with PENDING => "pending" | RESOLVED => "resolved" | IGNORED => "ignored" end.

Inductive ConflictResolution := ACCEPT_SERVER | ACCEPT_LOCAL | MERGE | IGNORE.
Definition resolution_value (r : ConflictResolution) : string :=
  match r with
  | ACCEPT_SERVER => "accept_server"
  | ACCEPT_LOCAL => "accept_local"
  | MERGE => "merge"
  | IGNORE => "ignore"
  end.

(** ** Serials and batches *)

Definition sync_serials (data : doc) : outcome (list string) :=
  obind (iterate (get "serial_numbers" data)) (fun raws =>
  Ok (fold_left (fun serials raw =>
        let serial := upper (strip (to_str raw)) in
        if negb (String.eqb serial "") && negb (str_in serial serials) then serials ++ [serial] else serials)
      raws [])).

Definition batch_id_of (batch : doc) : string :=
  strip (to_str (por (get "batch_id" batch) (por (get "batch_no" batch) (VStr "")))).

Fixpoint normalize_batches (batches : list val) (seen : list string) (normalized : list doc) : outcome (list doc) :=
  match batches with
  | [] => Ok normalized
  | VDict batch :: rest =>
      let batch_id := batch_id_of batch in
      if String.eqb batch_id ""
      then Raise (ValueError "BATCH_ID_REQUIRED: batch-controlled items must supply an explicit batch_id")
      else if str_in batch_id seen then normalize_batches rest seen normalized
      else normalize_batches rest (batch_id :: seen) (normalized ++ [aset "batch_id" (VStr batch_id) batch])
  | _ :: rest => normalize_batches rest seen normalized
  end.

Definition _normalize_batches (data : doc) : outcome (list doc) :=
  obind (iterate (get "batches" data)) (fun batches => normalize_batches batches [] []).

(** ** Fields that a resolution may write *)

Definition drop_keys (blocked : list string) (data : doc) : doc :=
  List.filter (fun kv => negb (str_in (fst kv) blocked)) data.

Definition blocked_session_fields : list string :=
  ["_id"; "id"; "session_id"; "version"; "finalized_at"; "finalized_by"].
Definition blocked_count_line_fields : list string :=
  ["_id"; "id"; "session_id"; "version"; "previous_version_id"; "recount_of_id"; "counted_qty"; "damaged_qty";
   "erp_qty"; "baseline_hash"; "superseded_at"; "superseded_by"; "superseded_by_version_id"; "finalized_at";
   "finalized_by"].

Definition _sanitize_session_resolution_fields : doc → doc := drop_keys blocked_session_fields.
Definition _sanitize_count_line_resolution_fields : doc → doc := drop_keys blocked_count_line_fields.

(** ** Differences *)

(** The fields that both sides have with different values. *)
Definition differing_fields (local_data server_data : doc) : list val :=
  omap (fun '(k, v) =>
    match aget k server_data with
    | Some s => if py_eqb v s then None
                else Some (VDict [("field", VStr k); ("local_value", v); ("server_value", s)])
    | None => None
    end) local_data.

Definition timestamp_of (data : doc) : val := por (get "updated_at" data) (get "created_at" data).

Section conflicts.
Context {C : Type} `{Mongo C}.
Context (clock : nat → Z) (strict_mode write_logs : bool) (object_id : string → option string).
Context (sha256 : string → string) (client_count_lines : client_attribute) (cl : client).
Context (env : string → option string) (collection_bool : outcome bool).
Abbreviation W := (write_service * world C)%type.

Definition _entity_lookup (entity_id : string) : query :=
  match object_id entity_id with
  | Some oid => QEq "_id" (VOid oid)
  | None => QEq "id" (VStr entity_id)
  end.

Definition conflict_document (entity_type entity_id : string) (local_data server_data : doc) (user : string)
    (session_id : option string) (conflicts : list val) (now : Z) : doc :=
  [("entity_type", VStr entity_type); ("entity_id", VStr entity_id); ("session_id", opt_str session_id);
   ("user", VStr user); ("conflicts", VList conflicts); ("local_data", VDict local_data);
   ("server_data", VDict server_data); ("status", VStr (status_value PENDING)); ("resolution", VNone);
   ("resolved_by", VNone); ("resolved_at", VNone); ("created_at", VTime now);
   ("local_timestamp", timestamp_of local_data); ("server_timestamp", timestamp_of server_data)].

(** [detect_conflict]; [fresh] and [id] are the ids its event draws. *)
Definition detect_conflict (entity_type entity_id : string) (local_data server_data : doc) (user : string)
    (session_id : option string) (fresh id : string) : M (world C) (option string) :=
  match differing_fields local_data server_data with
  | [] => ret None
  | conflicts =>
      do now <- utc_now clock ;;
      do inserted <- db_insert_one "sync_conflicts"
        (conflict_document entity_type entity_id local_data server_data user session_id conflicts now) ;;
      let conflict_id := to_str (get "_id" inserted) in
      run best_effort (record_sync_queue_event clock env collection_bool cl false "SYNC_CONFLICT_RECORDED" session_id
            (to_str (por (get "item_code" local_data) (por (get "item_code" server_data) (VStr "")))) "pending_review"
            [("conflict_id", VStr conflict_id); ("entity_type", VStr entity_type); ("entity_id", VStr entity_id);
             ("fields", VList conflicts)] user fresh id) ;;
      ret (Some conflict_id)
  end.

Definition conflict_oid (conflict_id : string) : M (world C) string :=
  match object_id conflict_id with
  | Some oid => ret oid
  | None => raise (OtherError "bson.errors.InvalidId")
  end.

Definition get_conflict_by_id (conflict_id : string) : M (world C) (option doc) :=
  do oid <- conflict_oid conflict_id ;;
  do conflict <- db_find_one "sync_conflicts" (QEq "_id" (VOid oid)) ;;
  match conflict with
  | None => ret None
  | Some c => do i <- lift (item "_id" c) ;; ret (Some (aset "id" (VStr (to_str i)) (adel "_id" c)))
  end.

(** ** Applying the data that won *)

(** [dict(data)] *)
Definition as_dict (v : val) : outcome doc :=
  match v with VDict d => Ok d | _ => Raise (TypeError "object is not a mapping") end.

Definition fork_document (entity_id : string) (original_doc new_data : doc) (now : Z) : doc :=
  aset "forked_at" (VTime now) (aset "data" (VDict new_data) (aset "status" (VStr "FORKED_REVISION")
    (aset "original_id" (VStr entity_id) (adel "_id" original_doc)))).

Definition _fork_approved_record (entity_type entity_id : string) (original_doc new_data : doc) : M (world C) unit :=
  do _ <- lift (item "_id" original_doc) ;;
  do now <- utc_now clock ;;
  do _ <- db_insert_one "conflict_forks" (fork_document entity_id original_doc new_data now) ;;
  do logged_at <- utc_now clock ;;
  do _ <- db_insert_one "audit_logs"
    [("event", VStr "RECORD_FORKED"); ("entity_type", VStr entity_type); ("entity_id", VStr entity_id);
     ("timestamp", VTime logged_at);
     ("details", VStr "Conflict resolution triggered a fork to preserve approved state.")] ;;
  ret tt.

Definition _find_session_for_entity (entity_id : string) : M (world C) (option doc) :=
  do session <- db_find_one "sessions" (_entity_lookup entity_id) ;;
  match session with
  | Some ((_ :: _) as s) => ret (Some s)
  | _ => db_find_one "sessions" (session_lookup entity_id)
  end.

Definition apply_to_session (entity_id : string) (data : doc) (has_session : bool) : M (world C) unit :=
  do session <- _find_session_for_entity entity_id ;;
  match session with
  | None | Some [] => ret tt
  | Some session_doc =>
      let session_id := to_str (por (get "id" session_doc) (por (get "session_id" session_doc) (VStr entity_id))) in
      let fields := _sanitize_session_resolution_fields data in
      run match get "status" fields with
          | VStr s =>
              let current_status := upper (strip (to_str (por (get "status" session_doc) (VStr "")))) in
              let target_status := upper (strip s) in
              if negb (String.eqb (strip s) "") && negb (String.eqb target_status current_status) then
                do _ <- transition_session clock strict_mode write_logs cl has_session session_id target_status
                          "conflict_resolver" (Some "Sync conflict resolution") None ;;
                ret tt
              else ret tt
          | _ => ret tt
          end ;;
      do now <- utc_now clock ;;
      update_session_fields clock session_id
        (aset "conflict_resolved" (VBool true) (aset "updated_at" (VTime now) (adel "status" fields)))
        None "conflict_resolver"
  end.

(** The batches of the line after the merge, and the strategy. *)
Definition merge_batches (existing incoming : list doc) : list doc * string * bool :=
  let known := map batch_id_of existing in
  let additive := List.filter (fun b => negb (str_in (batch_id_of b) known)) incoming in
  match incoming, additive with
  | _ :: _, _ :: _ => (existing ++ additive, "batch_split", true)
  | _, _ => (existing, "quantity_merge", false)
  end.

(** What the resolution writes to a count line, and the details of its event. *)
Definition count_line_fields (entity_id : string) (count_line data : doc) (now : Z)
  : outcome (doc * string * doc) :=
  let fields := _sanitize_count_line_resolution_fields data in
  obind (to_float (por (get "counted_qty" count_line) (VFloat f0))) (fun current_qty =>
  obind (match get "counted_qty" data with VNone => Ok current_qty | v => to_float v end) (fun incoming_qty =>
  obind (sync_serials count_line) (fun current_serials =>
  obind (sync_serials fields) (fun incoming_serials =>
  if negb (match incoming_serials with [] => true | _ => false end)
     && negb (bool_decide (sorted_set incoming_serials = sorted_set current_serials))
  then Raise (ValueError "SERIAL_CONFLICT_REJECTED: serial conflicts require client retry")
  else
    let fields := adel "serial_entries" (adel "serial_numbers" fields) in
    obind (_normalize_batches count_line) (fun existing_batches =>
    obind (_normalize_batches fields) (fun incoming_batches =>
    let '(merged_batches, strategy, split) := merge_batches existing_batches incoming_batches in
    let fields := if split then aset "batches" (VList (map VDict merged_batches)) fields else fields in
    let fields := if negb (feq incoming_qty current_qty) then aset "counted_qty" (VFloat incoming_qty) fields
                  else fields in
    Ok (aset "conflict_resolved" (VBool true) (aset "updated_at" (VTime now) fields), strategy,
        [("entity_id", VStr entity_id); ("incoming_qty", VFloat incoming_qty); ("current_qty", VFloat current_qty);
         ("merged_batches", VList (map VDict merged_batches))]))))))).

Definition apply_to_count_line (entity_id : string) (data : doc) (has_session : bool) (fresh id : string) : M W unit :=
  do line <- on_world (db_find_one "count_lines" (_entity_lookup entity_id)) ;;
  match line with
  | None | Some [] => ret tt
  | Some count_line =>
      do now <- on_world (utc_now clock) ;;
      do ' (fields, strategy, details) <- lift (count_line_fields entity_id count_line data now) ;;
      let session_id := to_str (por (get "session_id" count_line) (VStr "")) in
      do _ <- process_write clock strict_mode write_logs object_id sha256 client_count_lines cl has_session
        (Payload "update_one" None (Some (_entity_lookup entity_id)) (Some (USet fields)) false)
        [("session_id", VStr session_id); ("username", VStr "conflict_resolver");
         ("governance_mode", VStr "mutable_session")] ;;
      do _ <- on_world (record_sync_queue_event clock env collection_bool cl has_session "SYNC_CONFLICT_RESOLVED" (Some session_id)
        (to_str (por (get "item_code" count_line) (VStr ""))) strategy details "conflict_resolver" fresh id) ;;
      ret tt
  end.

Definition apply_to_item (entity_id : string) (data : doc) : M (world C) unit :=
  do now <- utc_now clock ;;
  do _ <- db_update_one "erp_items" (_entity_lookup entity_id)
            (USet (aset "conflict_resolved" (VBool true) (aset "updated_at" (VTime now) data))) ;;
  ret tt.

Definition _apply_resolved_data (entity_type entity_id : string) (data : doc) (has_session : bool) (fresh id : string)
  : M W unit :=
  if String.eqb entity_type "session" then on_world (apply_to_session entity_id data has_session)
  else if String.eqb entity_type "count_line" then apply_to_count_line entity_id data has_session fresh id
  else if String.eqb entity_type "item" then on_world (apply_to_item entity_id data)
  else ret tt.

(** ** Resolution *)

Record resolution_result := Resolved { res_id : string; res_resolution : string; res_data : val }.

Definition resolved_data_of (conflict : doc) (resolution : ConflictResolution) (merged_data : val) : outcome val :=
  match resolution with
  | ACCEPT_SERVER => item "server_data" conflict
  | ACCEPT_LOCAL => item "local_data" conflict
  | MERGE => if truthy merged_data then Ok merged_data
             else Raise (ValueError "Merged data required for MERGE resolution")
  | IGNORE => Ok VNone
  end.

Definition resolution_update (resolution : ConflictResolution) (resolved_by : string) (resolved_data : val) (now : Z) : update :=
  USet [("status", VStr (status_value (match resolution with IGNORE => IGNORED | _ => RESOLVED end)));
        ("resolution", VStr (resolution_value resolution)); ("resolved_by", VStr resolved_by);
        ("resolved_at", VTime now); ("resolved_data", resolved_data)].

Definition mark_resolved (conflict_id : string) (u : update) : M (world C) unit :=
  do oid <- conflict_oid conflict_id ;;
  do _ <- db_update_one "sync_conflicts" (QEq "_id" (VOid oid)) u ;;
  ret tt.

Definition is_approved (line : doc) : bool :=
  str_in (lower (to_str (dget "status" (VStr "") line))) ["approved"; "locked"].

(** The work of the transaction: the status, then the fork or the data. *)
Definition resolve_in_transaction (conflict_id entity_type entity_id : string) (resolution : ConflictResolution)
    (resolved_data : val) (u : update) (fresh id : string) (has_session : bool) : M W string :=
  run on_world (mark_resolved conflict_id u) ;;
  do target <- (if String.eqb entity_type "count_line"
                then on_world (db_find_one "count_lines" (_entity_lookup entity_id)) else ret None) ;;
  match target with
  | Some target_doc =>
      if negb (is_empty target_doc) && is_approved target_doc then
        do d <- lift (as_dict resolved_data) ;;
        run on_world (_fork_approved_record entity_type entity_id target_doc d) ;;
        ret "FORKED"
      else
        do d <- lift (as_dict resolved_data) ;;
        run (if String.eqb entity_id "" then ret tt
             else _apply_resolved_data entity_type entity_id d has_session fresh id) ;;
        ret (resolution_value resolution)
  | None =>
      run (if String.eqb entity_type "" || String.eqb entity_id "" then ret tt
           else do d <- lift (as_dict resolved_data) ;;
                _apply_resolved_data entity_type entity_id d has_session fresh id) ;;
      ret (resolution_value resolution)
  end.

Definition resolve_loaded (conflict : doc) (conflict_id : string) (resolution : ConflictResolution) (resolved_by : string)
    (merged_data : val) (fresh id : string) : M W resolution_result :=
  do status <- lift (item "status" conflict) ;;
  run raise_if (negb (py_eqb status (VStr (status_value PENDING))))
        (ValueError ("Conflict " +:+ conflict_id +:+ " already resolved")) ;;
  do resolved_data <- lift (resolved_data_of conflict resolution merged_data) ;;
  do now <- on_world (utc_now clock) ;;
  let u := resolution_update resolution resolved_by resolved_data now in
  if negb (match resolution with IGNORE => true | _ => false end) && truthy resolved_data then
    let entity_type := to_str (por (get "entity_type" conflict) (VStr "")) in
    let entity_id := to_str (por (get "entity_id" conflict) (VStr "")) in
    do how <- in_uow cl (resolve_in_transaction conflict_id entity_type entity_id resolution resolved_data u fresh id) ;;
    ret (Resolved conflict_id how resolved_data)
  else
    run on_world (mark_resolved conflict_id u) ;;
    ret (Resolved conflict_id (resolution_value resolution) resolved_data).

(** [resolve_conflict]; [fresh] and [id] are the ids its event draws. *)
Definition resolve_conflict (conflict_id : string) (resolution : ConflictResolution) (resolved_by : string)
    (merged_data : val) (fresh id : string) : M W resolution_result :=
  do conflict <- on_world (get_conflict_by_id conflict_id) ;;
  match conflict with
  | None => raise (ValueError ("Conflict " +:+ conflict_id +:+ " not found"))
  | Some c => resolve_loaded c conflict_id resolution resolved_by merged_data fresh id
  end.
End conflicts.
