(* ===== verification/SyncConflictSpec.v ===== *)
(** What the conflict service guarantees ([SyncConflicts]): which conflicts are
    recorded, that a conflict is resolved once, and that an approved count line
    is forked and never overwritten. *)

From stdpp Require Import sets.
From S2P Require Import Prelude PyFloat Py Json Store ListStore Guard Inventory Uow Frame Lifecycle LifecycleSpec.
From S2P Require Import Quantity Variance CountLines CountLineSpec ProjectionCore Events SyncConflicts.

Local Open Scope Z_scope.
Local Open Scope stock_scope.

(** ** Frames *)

Section frames.
Context {C : Type} `{Mongo C}.
Context (clock : nat → Z) (strict_mode write_logs : bool) (object_id : string → option string).
Context (sha256 : string → string) (client_count_lines : client_attribute) (cl : client).
Context (env : string → option string) (collection_bool : outcome bool).

Lemma subset_list (l k : list string) : forallb (fun n => str_in n k) l = true → l ⊆ k.
Proof. intros Hl n Hn. rewrite forallb_forall in Hl. apply str_in_spec, Hl. by apply list_elem_of_In. Qed.

(** What a resolution may change besides the conflict itself. *)
Definition applied_collections : list string :=
  ["sessions"; "verification_sessions"; "erp_items"; "event_log"; "conflict_forks"; "audit_logs"] ++ projected
  ++ write_collections.

Lemma frame_enabled P k b : frame P (is_enabled (C:=C) env collection_bool k b).
Proof. unfold is_enabled. solve_frame. Qed.

Lemma frame_existing P k f : frame P (_find_existing_event (C:=C) k f).
Proof. unfold _find_existing_event. solve_frame. Qed.

Lemma frame_fan_out b hs d : frame projected (fan_out (C:=C) clock cl b hs d).
Proof.
  apply frame_try; [apply frame_bind; [apply frame_apply_event|intros; apply frame_ret]|].
  intros x. destruct b; [apply frame_raise | apply frame_ret].
Qed.

(** The event log and the read models: all that appending an event changes. *)
Definition event_collections : list string := "event_log" :: projected.

Lemma frame_append ap enf hs agg ty payload md fresh id :
  frame event_collections (append_event (C:=C) clock env collection_bool cl ap enf hs agg ty payload md fresh id).
Proof.
  unfold append_event. cbv zeta.
  apply frame_bind; [destruct enf; [apply frame_ret | apply frame_enabled]|]. intros enforce.
  apply frame_bind; [apply frame_existing|]. intros o.
  destruct o; [apply frame_ret|]. apply frame_bind; [apply frame_utc_now|]. intros now.
  apply frame_bind.
  - generalize (event_document id agg ty payload (_normalize_event_metadata md agg ty payload fresh) now). intros doc. set (k := _normalize_string (get "idempotency_key" _)).
    set (f := _normalize_string (get "scan_fingerprint" _)). intros w r w' Hm.
    destruct (db_insert_one _ _ w) as [o w1] eqn:E.
    destruct (frame_insert event_collections "event_log" doc eq_refl _ _ _ E) as (Hd & Hu & Ha & Hg).
    destruct o as [d|e]; [by simplify_eq|]. destruct e; try by simplify_eq.
    match type of Hm with ?m w1 = _ => assert (frame event_collections m) as Hf end.
    { apply frame_bind; [apply frame_existing|]. intros []; [apply frame_ret|].
      destruct enforce; [apply frame_raise|apply frame_ret]. }
    destruct (Hf _ _ _ Hm) as (Hd2 & Hu2 & Ha2 & Hg2).
    split_and!; [intros n Hn; by rewrite Hd2, Hd | by eapply unsessioned_trans | congruence..].
  - intros [d|]; [apply frame_ret|].
    apply frame_bind; [destruct ap; [apply frame_enabled | apply frame_ret]|]. intros b.
    apply frame_bind; [|intros _; apply frame_ret]. apply frame_when.
    eapply frame_weaken; [apply frame_fan_out | intros ??; by right].
Qed.

Lemma frame_queue_event hs ty s c st d u f i :
  frame event_collections (record_sync_queue_event (C:=C) clock env collection_bool cl hs ty s c st d u f i).
Proof. unfold record_sync_queue_event. apply frame_append. Qed.

Lemma frame_apply_session entity data b :
  frame applied_collections (apply_to_session (C:=C) clock strict_mode write_logs object_id cl entity data b).
Proof.
  unfold apply_to_session, _find_session_for_entity, transition_session, _transition_session, update_session_fields,
    _sync_session_projection, Lifecycle._execute_authorized_write. solve_frame.
Qed.

Lemma frame_apply_item entity data : frame applied_collections (apply_to_item (C:=C) clock object_id entity data).
Proof. unfold apply_to_item. solve_frame. Qed.

Lemma frame_fork ty entity d n : frame applied_collections (_fork_approved_record (C:=C) clock ty entity d n).
Proof. unfold _fork_approved_record. solve_frame. Qed.

Abbreviation apply_data :=
  (_apply_resolved_data (C:=C) clock strict_mode write_logs object_id sha256 client_count_lines cl env collection_bool).

Lemma sframe_apply ty entity d b f i : service_frame applied_collections (apply_data ty entity d b f i).
Proof.
  unfold _apply_resolved_data, apply_to_count_line.
  assert (∀ hs p ctx, service_frame applied_collections
    (process_write (C:=C) clock strict_mode write_logs object_id sha256 client_count_lines cl hs p ctx)) as Hw.
  { intros. eapply sframe_weaken; [apply sframe_write | by apply subset_list]. }
  pose proof frame_apply_session. pose proof frame_apply_item.
  assert (∀ hs ty s c st d u f i,
    frame applied_collections (record_sync_queue_event (C:=C) clock env collection_bool cl hs ty s c st d u f i))
    by (intros; eapply frame_weaken; [apply frame_queue_event | by apply subset_list]).
  repeat first [ sframe_step | apply Hw ]; auto.
Qed.
End frames.

(** ** Detection *)

Section detection.
Context {C : Type} `{MongoLaws C}.
Context (clock : nat → Z) (cl : client) (env : string → option string) (collection_bool : outcome bool).
Implicit Types (w : world C).

Lemma differing_fields_spec local_data server_data f :
  f ∈ differing_fields local_data server_data ↔
  ∃ k a b, (k, a) ∈ local_data ∧ aget k server_data = Some b ∧ py_eqb a b = false ∧
    f = VDict [("field", VStr k); ("local_value", a); ("server_value", b)].
Proof.
  unfold differing_fields. rewrite list_elem_of_omap. split.
  - intros ([k a] & Hin & Hf). destruct (aget k server_data) as [b|] eqn:Hb; [|done].
    destruct (py_eqb a b) eqn:He; [done|]. simplify_eq. by exists k, a, b.
  - intros (k & a & b & Hin & Hb & He & ->). exists (k, a). by rewrite Hb, He.
Qed.

(** What a comparison of the two sides records. A field is in conflict when
    both sides have it with values Python calls different. Without one nothing
    is written; with one, one pending conflict is added that holds both sides
    and all the differing fields, whether or not its event can be logged, and
    no other collection than the event log and the read models changes; a refused insert changes
    nothing. *)
Theorem detect_conflict_spec ty entity local_data server_data user sid fresh id w r w' :
  detect_conflict clock cl env collection_bool ty entity local_data server_data user sid fresh id w = (r, w') →
  let fields := differing_fields local_data server_data in
  (∀ f, f ∈ fields ↔ ∃ k a b, (k, a) ∈ local_data ∧ aget k server_data = Some b ∧ py_eqb a b = false ∧
      f = VDict [("field", VStr k); ("local_value", a); ("server_value", b)]) ∧
  match r with
  | Ok None => fields = [] ∧ w' = w
  | Ok (Some conflict_id) =>
      fields ≠ [] ∧ (∀ n, str_in n ("sync_conflicts" :: event_collections) = false → w_db w' n = w_db w n) ∧
      ∃ i now, conflict_id = to_str i ∧
        contents (w_db w' "sync_conflicts") ≡ₚ
          bson_doc (setdefault "_id" i
            (conflict_document ty entity local_data server_data user sid fields now))
          :: contents (w_db w "sync_conflicts")
  | Raise _ => fields ≠ [] ∧ w_db w' = w_db w
  end.
Proof.
  intros Hd. cbv zeta. split; [intros f; apply differing_fields_spec|]. unfold detect_conflict in Hd.
  set (fields := differing_fields local_data server_data) in *.
  assert (fields = [] ∨ fields ≠ []) as [Hf|Hf] by (destruct fields; auto).
  { rewrite Hf in Hd. unfold ret in Hd. by simplify_eq. }
  destruct fields as [|f fs]; [done|].
  unfold bind at 1, utc_now in Hd. cbv beta iota in Hd.
  set (d := conflict_document _ _ _ _ _ _ _ _) in Hd. unfold bind at 1, db_insert_one in Hd.
  unfold bind at 1 in Hd.
  destruct (_guard (C:=C) "sync_conflicts" "insert_one" (tick w)) as [[u|e] w0] eqn:Eg;
    apply guard_world in Eg as ->; [|by simplify_eq/=].
  cbn [w_db tick] in Hd. destruct (insert_one_fresh d (w_db w "sync_conflicts") eq_refl) as (i & c & Hi & Hc).
  rewrite Hi in Hd. cbv zeta in Hd. unfold bind at 1 in Hd. unfold best_effort at 1 in Hd.
  set (event := record_sync_queue_event _ _ _ _ _ _ _ _ _ _ _ _ _) in Hd.
  destruct (event _) as [re we] eqn:Ee. unfold ret in Hd. injection Hd as <- <-. cbn [snd].
  destruct (frame_queue_event (C:=C) clock cl env collection_bool _ _ _ _ _ _ _ _ _ _ _ _ Ee) as (Hdb & _).
  split; [done|]. split.
  { intros n Hn. 
    cbn [str_in existsb] in Hn. apply orb_false_iff in Hn as [Hne Hn]. rewrite Hdb by (by apply str_in_false).
    cbn [w_db set_coll set_db tick]. rewrite fn_lookup_insert_ne; [done|]. by intros <-. }
  exists i, (clock (w_tick w)). split; [reflexivity|].
  rewrite Hdb by (by apply str_in_false). cbn [w_db set_coll set_db tick]. by rewrite fn_lookup_insert, Hc.
Qed.
End detection.

(** ** Resolution *)

Section resolution.
Context {C : Type} `{MongoLaws C}.
Context (clock : nat → Z) (strict_mode write_logs : bool) (object_id : string → option string).
Context (sha256 : string → string) (client_count_lines : client_attribute) (cl : client).
Context (env : string → option string) (collection_bool : outcome bool).
Implicit Types (w : world C) (s : write_service).

Abbreviation resolve :=
  (resolve_conflict (C:=C) clock strict_mode write_logs object_id sha256 client_count_lines cl env collection_bool).
Abbreviation loaded :=
  (resolve_loaded (C:=C) clock strict_mode write_logs object_id sha256 client_count_lines cl env collection_bool).
Abbreviation transaction :=
  (resolve_in_transaction (C:=C) clock strict_mode write_logs object_id sha256 client_count_lines cl env collection_bool).
Abbreviation lookup := (_entity_lookup object_id).
Abbreviation by_id oid := (QEq "_id" (VOid oid)).

(** The conflict a resolution reads: a copy of the stored one under "id". *)
Definition as_read (c : doc) (i : val) : doc := aset "id" (VStr (to_str i)) (adel "_id" c).

Lemma as_read_get c i k : String.eqb "_id" k = false → String.eqb "id" k = false → get k (as_read c i) = get k c.
Proof. intros H1 H2. unfold as_read. rewrite get_aset_ne by done. unfold get. by rewrite aget_adel, H1. Qed.

Lemma as_read_aget c i k :
  String.eqb "_id" k = false → String.eqb "id" k = false → aget k (as_read c i) = aget k c.
Proof. intros H1 H2. unfold as_read. rewrite aget_aset_diff by done. by rewrite aget_adel, H1. Qed.

Lemma item_as_read c i k :
  String.eqb "_id" k = false → String.eqb "id" k = false → item k (as_read c i) = item k c.
Proof. intros H1 H2. unfold item. by rewrite as_read_aget. Qed.

Lemma read_conflict conflict_id oid w o w' :
  object_id conflict_id = Some oid →
  get_conflict_by_id object_id conflict_id w = (Ok o, w') →
  w' = w ∧ match o with
           | Some c => ∃ d i, find_one (by_id oid) (w_db w "sync_conflicts") = Some d ∧ aget "_id" d = Some i ∧
                         c = as_read d i
           | None => find_one (by_id oid) (w_db w "sync_conflicts") = None
           end.
Proof.
  intros Hoid Hr. unfold get_conflict_by_id, conflict_oid in Hr. rewrite Hoid in Hr.
  unfold bind, ret, db_find_one, gets in Hr.
  destruct (find_one _ _) as [d|] eqn:E; [|by simplify_eq].
  unfold lift, item in Hr. destruct (aget "_id" d) as [i|] eqn:Ei; simplify_eq. split; [done|]. by exists d, i.
Qed.

Lemma mark_resolved_ok conflict_id oid u w w' :
  object_id conflict_id = Some oid → mark_resolved object_id conflict_id u w = (Ok tt, w') →
  w' = set_coll "sync_conflicts" (snd (update_one (by_id oid) u (w_db w "sync_conflicts"))) w.
Proof.
  intros Hoid Hm. unfold mark_resolved, conflict_oid in Hm. rewrite Hoid in Hm.
  unfold bind, ret, db_update_one, bind in Hm.
  destruct (_guard (C:=C) "sync_conflicts" "update_one" w) as [[x|e] w1] eqn:Eg; [|done].
  apply guard_world in Eg as ->. unfold counted in Hm.
  destruct (update_one _ _ _) as [n c]. cbn [fst snd] in *. by simplify_eq.
Qed.

(** What follows the status change in the transaction leaves the conflicts
    alone. *)
Lemma transaction_ok conflict_id ty entity res data u fresh id b s w how s' w' :
  transaction conflict_id ty entity res data u fresh id b (s, w) = (Ok how, (s', w')) →
  ∃ w1, mark_resolved object_id conflict_id u w = (Ok tt, w1) ∧ w_db w' "sync_conflicts" = w_db w1 "sync_conflicts".
Proof.
  intros Hm. unfold resolve_in_transaction in Hm.
  apply bind_ok_inv in Hm as ([] & [s1 w1] & [Hmark ->]%on_world_ok & Hm). exists w1. split; [done|].
  match type of Hm with ?m _ = _ => assert (service_frame applied_collections m) as Hf end.
  { clear. pose proof (frame_fork (C:=C) clock).
    pose proof (sframe_apply (C:=C) clock strict_mode write_logs object_id sha256 client_count_lines cl env collection_bool) as Ha.
    repeat first [ sframe_step | apply Ha ]; auto. }
  by apply (sframe_db _ _ _ _ _ "sync_conflicts" Hf Hm).
Qed.

(** A successful resolution read a pending conflict and stored its outcome. *)
Lemma conflict_loaded_ok c conflict_id oid res by_ merged fresh id s w r s' w' :
  object_id conflict_id = Some oid →
  loaded c conflict_id res by_ merged fresh id (s, w) = (Ok r, (s', w')) →
  get "status" c = VStr "pending" ∧
  ∃ data now, resolved_data_of c res merged = Ok data ∧ res_id r = conflict_id ∧ res_data r = data ∧
    w_db w' "sync_conflicts" =
      snd (update_one (by_id oid) (resolution_update res by_ data now) (w_db w "sync_conflicts")).
Proof.
  intros Hoid Hm. unfold resolve_loaded in Hm.
  apply bind_ok_inv in Hm as (status & x1 & [Hs ->]%lift_ok & Hm).
  apply bind_ok_inv in Hm as (u1 & x2 & [Hp ->]%raise_if_ok_inv & Hm).
  apply bind_ok_inv in Hm as (data & x3 & [Hd ->]%lift_ok & Hm).
  apply bind_ok_inv in Hm as (now & [s4 w4] & [Hnow ->]%on_world_ok & Hm).
  unfold utc_now in Hnow. simplify_eq. split.
  { unfold item in Hs. unfold get. destruct (aget "status" c); [|done]. simplify_eq.
    apply negb_false_iff in Hp. destruct status; try done. by apply String.eqb_eq in Hp as ->. }
  exists data, (clock (w_tick w)). split; [done|]. cbv zeta in Hm.
  destruct (_ && _).
  - apply bind_ok_inv in Hm as (how & [s5 w5] & (b & Ht)%in_uow_ok & Hm). unfold ret in Hm. simplify_eq.
    apply transaction_ok in Ht as (w1 & Hmark & ->). apply (mark_resolved_ok _ oid) in Hmark as ->; [|done].
    cbn [w_db set_coll set_db tick]. by rewrite fn_lookup_insert.
  - apply bind_ok_inv in Hm as ([] & [s5 w5] & [Hmark ->]%on_world_ok & Hm). unfold ret in Hm. simplify_eq.
    apply (mark_resolved_ok _ oid) in Hmark as ->; [|done].
    cbn [w_db set_coll set_db tick]. by rewrite fn_lookup_insert.
Qed.

Lemma resolution_update_keys res by_ data now :
  update_keys (resolution_update res by_ data now) = ["status"; "resolution"; "resolved_by"; "resolved_at"; "resolved_data"].
Proof. done. Qed.

(** A conflict that is not pending is refused. *)
Lemma resolve_refused conflict_id oid d i res by_ merged fresh id s w st :
  object_id conflict_id = Some oid → find_one (by_id oid) (w_db w "sync_conflicts") = Some d →
  aget "_id" d = Some i → aget "status" d = Some (VStr st) → st ≠ "pending" →
  resolve conflict_id res by_ merged fresh id (s, w) =
    (Raise (ValueError ("Conflict " +:+ conflict_id +:+ " already resolved")), (s, w)).
Proof.
  intros Hoid Hf Hi Hst Hne. unfold resolve_conflict, bind at 1, on_world. cbn [snd fst].
  unfold get_conflict_by_id, conflict_oid, bind, db_find_one, gets, lift. rewrite Hoid. cbn [ret].
  unfold ret at 1. rewrite Hf. unfold item. rewrite Hi. cbn [ret]. unfold ret.
  fold (as_read d i). unfold resolve_loaded, bind at 1, lift. rewrite item_as_read by reflexivity. unfold item.
  rewrite Hst. unfold raise_if. cbn [py_eqb status_value].
  destruct (String.eqb_spec st "pending"); [done|]. reflexivity.
Qed.

(** C17: a conflict is resolved once. A resolution that succeeds found the
    conflict pending and leaves its outcome in it (who decided, how, and the
    data), whatever the data was applied to; from then on, as long as nobody
    else changes the stored conflicts, every further resolution of it is
    refused and changes nothing. *)
Theorem conflict_resolved_once conflict_id oid res by_ merged fresh id s w r s' w' :
  object_id conflict_id = Some oid →
  at_most_one (by_id oid) (w_db w "sync_conflicts") →
  (∀ d, d ∈ contents (w_db w "sync_conflicts") → is_list (get "_id" d) = false) →
  resolve conflict_id res by_ merged fresh id (s, w) = (Ok r, (s', w')) →
  (∃ c, find_one (by_id oid) (w_db w "sync_conflicts") = Some c ∧ get "status" c = VStr "pending") ∧
  (∃ c data, find_one (by_id oid) (w_db w' "sync_conflicts") = Some c ∧ data = res_data r ∧
     get "status" c = VStr (status_value (match res with IGNORE => IGNORED | _ => RESOLVED end)) ∧
     get "resolution" c = VStr (resolution_value res) ∧ get "resolved_by" c = VStr by_ ∧
     get "resolved_data" c = to_bson data) ∧
  ∀ res2 by2 merged2 fresh2 id2 s2 w2,
    w_db w2 "sync_conflicts" = w_db w' "sync_conflicts" →
    resolve conflict_id res2 by2 merged2 fresh2 id2 (s2, w2) =
      (Raise (ValueError ("Conflict " +:+ conflict_id +:+ " already resolved")), (s2, w2)).
Proof.
  intros Hoid Hone Hlist Hr. unfold resolve_conflict in Hr.
  apply bind_ok_inv in Hr as (o & [s1 w1] & [Hread ->]%on_world_ok & Hr).
  apply (read_conflict _ oid) in Hread as [-> Ho]; [|done]. destruct o as [c|]; [|done].
  destruct Ho as (d & i & Hd & Hi & ->).
  apply (conflict_loaded_ok _ _ oid) in Hr as (Hst & data & now & Hdata & _ & Hrd & Hdb); [|done].
  rewrite as_read_get in Hst by reflexivity.
  set (u := resolution_update res by_ data now) in *.
  assert (NoDup (update_keys u)) as Hnd by (unfold u; rewrite resolution_update_keys; by repeat constructor; set_solver).
  assert ("_id" ∉ update_keys u) as Hk by (apply str_in_false; reflexivity).
  pose proof (find_one_some _ _ _ Hd) as [Hin Hm].
  assert (matches (by_id oid) (apply_update u d) = true) as Hm'.
  { rewrite matches_eq in Hm |- * by (try done; by rewrite ?get_apply_other; auto). by rewrite get_apply_other. }
  destruct (update_one_unique _ u _ _ Hone Hd Hm') as [Hf' _]. rewrite <- Hdb in Hf'.
  assert (∀ k v, aget k (u_set u) = Some v → aget k (apply_update u d) = Some (to_bson v)) as Hset
    by (intros; by apply apply_set).
  assert (∀ k x, aget k (u_set u) = Some (VStr x) → get k (apply_update u d) = VStr x) as Hstr.
  { intros k x Hx. unfold get. rewrite (Hset _ _ Hx). by apply to_bson_plain. }
  split; [by exists d|]. split.
  { exists (apply_update u d), data. split_and!; try done; try by apply Hstr. apply get_some. by apply Hset. }
  intros res2 by2 merged2 fresh2 id2 s2 w2 Hsame.
  apply (resolve_refused _ oid (apply_update u d) i _ _ _ _ _ _ _
           (status_value (match res with IGNORE => IGNORED | _ => RESOLVED end))); [done|by rewrite Hsame|..].
  - by rewrite apply_other.
  - rewrite (Hset "status" _ eq_refl). f_equal. by apply to_bson_plain.
  - by destruct res.
Qed.

(** The fork of an approved line. *)
Lemma fork_ok ty entity line data w w' :
  _fork_approved_record (C:=C) clock ty entity line data w = (Ok tt, w') →
  (∃ i now, contents (w_db w' "conflict_forks") ≡ₚ
     bson_doc (setdefault "_id" i (fork_document entity line data now)) :: contents (w_db w "conflict_forks")) ∧
  ∀ n, str_in n ["conflict_forks"; "audit_logs"] = false → w_db w' n = w_db w n.
Proof.
  intros Hm. split; [|intros n Hn; eapply (frame_db ["conflict_forks"; "audit_logs"]);
    [|exact Hm|done]; unfold _fork_approved_record; solve_frame].
  unfold _fork_approved_record in Hm.
  apply bind_ok_inv in Hm as (x & w1 & [_ ->]%lift_ok & Hm).
  apply bind_ok_inv in Hm as (now & w1 & Hnow & Hm). unfold utc_now in Hnow. injection Hnow as <- <-.
  apply bind_ok_inv in Hm as (d & w2 & Hi & Hm).
  assert (w_db w' "conflict_forks" = w_db w2 "conflict_forks") as ->.
  { match type of Hm with ?m _ = _ => assert (frame ["audit_logs"] m) as Hf by solve_frame end.
    by eapply (frame_db ["audit_logs"]). }
  exists (get "_id" d), (clock (w_tick w)). unfold db_insert_one, bind in Hi.
  destruct (_guard (C:=C) "conflict_forks" "insert_one" (tick w)) as [[u|e] w3] eqn:Eg; [|done].
  apply guard_world in Eg as ->. cbn [w_db tick] in Hi.
  set (f := fork_document entity line data (clock (w_tick w))) in *.
  assert (aget "_id" f = None) as Hno.
  { unfold f, fork_document. rewrite !aget_aset_diff, aget_adel by reflexivity. done. }
  destruct (insert_one_fresh f (w_db w "conflict_forks") Hno) as (i & c & Hins & Hc).
  rewrite Hins in Hi. injection Hi as <- <-. cbn [w_db set_coll set_db]. rewrite fn_lookup_insert, Hc.
  by rewrite (get_some "_id" _ i) by (by rewrite aget_setdefault, String.eqb_refl, Hno).
Qed.

(** C16: an approved line is never overwritten. When a resolution of a conflict
    about a count line succeeds and the stored line is approved or locked, the
    count lines stay as they are; if there is data to apply, it goes into one
    new fork of the line, marked as a revision of it, and the answer says so. *)
Theorem approved_line_forked conflict_id oid c entity line res by_ merged fresh id s w r s' w' :
  object_id conflict_id = Some oid →
  find_one (by_id oid) (w_db w "sync_conflicts") = Some c →
  get "entity_type" c = VStr "count_line" → get "entity_id" c = VStr entity → entity ≠ "" →
  find_one (lookup entity) (w_db w "count_lines") = Some line → is_approved line = true →
  resolve conflict_id res by_ merged fresh id (s, w) = (Ok r, (s', w')) →
  w_db w' "count_lines" = w_db w "count_lines" ∧
  if negb (match res with IGNORE => true | _ => false end) && truthy (res_data r) then
    res_resolution r = "FORKED" ∧
    ∃ data i now, res_data r = VDict data ∧
      contents (w_db w' "conflict_forks") ≡ₚ
        bson_doc (setdefault "_id" i (fork_document entity line data now)) :: contents (w_db w "conflict_forks")
  else ∀ n, n ≠ "sync_conflicts" → w_db w' n = w_db w n.
Proof.
  intros Hoid Hc Hty Hent Hne Hline Happ Hr. unfold resolve_conflict in Hr.
  apply bind_ok_inv in Hr as (o & [s1 w1] & [Hread ->]%on_world_ok & Hr).
  apply (read_conflict _ oid) in Hread as [-> Ho]; [|done]. destruct o as [c'|]; [|done].
  destruct Ho as (d & i & Hd & Hi & ->). rewrite Hc in Hd. injection Hd as <-.
  unfold resolve_loaded in Hr.
  apply bind_ok_inv in Hr as (status & x1 & [Hs ->]%lift_ok & Hr).
  apply bind_ok_inv in Hr as (u1 & x2 & [Hp ->]%raise_if_ok_inv & Hr).
  apply bind_ok_inv in Hr as (data & x3 & [Hdata ->]%lift_ok & Hr).
  apply bind_ok_inv in Hr as (now & [s4 w4] & [Hnow ->]%on_world_ok & Hr).
  unfold utc_now in Hnow. injection Hnow as <- <-. cbv zeta in Hr.
  rewrite !as_read_get, Hty, Hent in Hr by reflexivity.
  destruct (negb (match res with IGNORE => true | _ => false end) && truthy data) eqn:Hgo.
  - apply bind_ok_inv in Hr as (how & [s5 w5] & (b & Ht)%in_uow_ok & Hr). unfold ret in Hr. simplify_eq.
    cbn [res_data res_resolution]. rewrite Hgo. unfold resolve_in_transaction in Ht.
    assert (por (VStr entity) (VStr "") = VStr entity) as He by (by destruct entity). rewrite He in Ht.
    change (por (VStr "count_line") (VStr "")) with (VStr "count_line") in Ht. cbn [to_str] in Ht.
    change (String.eqb "count_line" "count_line") with true in Ht. cbv iota in Ht.
    apply bind_ok_inv in Ht as ([] & [s6 w6] & [Hmark ->]%on_world_ok & Ht).
    apply (mark_resolved_ok _ oid) in Hmark as ->; [|done].
    apply bind_ok_inv in Ht as (target & [s7 w7] & [Hfind ->]%on_world_ok & Ht).
    unfold db_find_one, gets in Hfind. cbn [w_db set_coll set_db tick] in Hfind.
    rewrite fn_lookup_insert_ne, Hline in Hfind by done. injection Hfind as <- <-.
    assert (is_empty line = false) as Hnonempty by (by destruct line). rewrite Hnonempty, Happ in Ht. cbn [negb andb] in Ht.
    apply bind_ok_inv in Ht as (d & x8 & [Hdict ->]%lift_ok & Ht).
    apply bind_ok_inv in Ht as ([] & [s9 w9] & [Hfork ->]%on_world_ok & Ht). unfold ret in Ht. simplify_eq.
    destruct data; try done. cbn [as_dict] in Hdict. simplify_eq.
    apply fork_ok in Hfork as [(j & now & Hj) Hrest]. split.
    { rewrite Hrest by done. cbn [w_db set_coll set_db tick]. by rewrite fn_lookup_insert_ne. }
    split; [done|]. exists d, j, now. split; [done|]. rewrite Hj. cbn [w_db set_coll set_db tick].
    by rewrite fn_lookup_insert_ne.
  - apply bind_ok_inv in Hr as ([] & [s5 w5] & [Hmark ->]%on_world_ok & Hr). unfold ret in Hr. simplify_eq.
    cbn [res_data]. rewrite Hgo. apply (mark_resolved_ok _ oid) in Hmark as ->; [|done].
    assert (∀ n, n ≠ "sync_conflicts" → w_db (set_coll "sync_conflicts" (snd (update_one (by_id oid)
      (resolution_update res by_ data (clock (w_tick w))) (w_db (tick w) "sync_conflicts"))) (tick w)) n = w_db w n) as Hn.
    { intros n Hn. cbn [w_db set_coll set_db tick]. by rewrite fn_lookup_insert_ne. }
    split; [by apply Hn | done].
Qed.
End resolution.

(** ** Concrete conflicts *)

Definition conflict_ids (s : string) : option string := if startswith "c" s then Some s else None.
Definition example_conflict (local_data server_data : doc) : doc :=
  [("_id", VOid "c1"); ("entity_type", VStr "count_line"); ("entity_id", VStr "L1"); ("status", VStr "pending");
   ("local_data", VDict local_data); ("server_data", VDict server_data)].
Definition conflict_line (status : string) (more : doc) : doc :=
  [("_id", VOid "l1"); ("id", VStr "L1"); ("status", VStr status)] ++ example_line (VInt 9) more.
Definition conflict_world (line local_data : doc) : world coll :=
  set_coll "sync_conflicts" [example_conflict local_data line] (count_world [line]).
Definition example_resolve (res : ConflictResolution) (w : world coll) :=
  resolve_conflict no_clock false true conflict_ids (fun s => s) ACollection replica_client (fun _ => None) (Ok true)
    "c1" res "sup" VNone "f" "e" (WriteService [] [], w).

Definition example_detect : outcome (option string) * world coll :=
  detect_conflict no_clock replica_client (fun _ => None) (Ok true) "count_line" "L1"
    [("counted_qty", VInt 4); ("rack", VStr "A"); ("note", VStr "x")]
    [("rack", VStr "A"); ("counted_qty", VInt 5); ("_id", VOid "l1")] "u" None "f" "e" (mkworld []).

Lemma example_detects : is_ok (fst example_detect) = true.
Proof. vm_compute. reflexivity. Qed.

Example detect_conflict_spec_witness :
  ∃ conflict_id, fst example_detect = Ok (Some conflict_id) ∧
    length (contents (w_db (snd example_detect) "sync_conflicts")) = 1%nat.
Proof.
  pose proof example_detects as Hok. destruct example_detect as [r w'] eqn:E. unfold example_detect in E.
  destruct (detect_conflict_spec no_clock replica_client (fun _ => None) (Ok true) "count_line" "L1"
    [("counted_qty", VInt 4); ("rack", VStr "A"); ("note", VStr "x")]
    [("rack", VStr "A"); ("counted_qty", VInt 5); ("_id", VOid "l1")] "u" None "f" "e" (mkworld []) r w' E) as [_ Hr].
  destruct r as [[i|]|e]; [|by destruct Hr|discriminate Hok].
  destruct Hr as (_ & _ & j & now & _ & Hc). exists i. split; [reflexivity|]. cbn [snd]. by rewrite Hc.
Defined.

Lemma example_resolves :
  is_ok (fst (example_resolve IGNORE (conflict_world (conflict_line "pending" []) [("status", VStr "approved")]))) = true.
Proof. vm_compute. reflexivity. Qed.

Example conflict_resolved_once_witness :
  let w := conflict_world (conflict_line "pending" []) [("status", VStr "approved")] in
  let w' := snd (snd (example_resolve IGNORE w)) in
  fst (example_resolve ACCEPT_LOCAL w') = Raise (ValueError "Conflict c1 already resolved").
Proof.
  pose proof example_resolves as Hok. cbv zeta in *.
  assert (∃ w, w = conflict_world (conflict_line "pending" []) [("status", VStr "approved")]) as [w Hw] by eauto.
  rewrite <- Hw in *. destruct (example_resolve IGNORE w) as [[r|] [s' w']] eqn:E; [|discriminate Hok].
  assert (w_db w "sync_conflicts" = [example_conflict [("status", VStr "approved")] (conflict_line "pending" [])]) as Hc
    by (by rewrite Hw).
  destruct (conflict_resolved_once no_clock false true conflict_ids (fun s => s) ACollection replica_client (fun _ => None)
    (Ok true) "c1" "c1" IGNORE "sup" VNone "f" "e" (WriteService [] []) w r s' w' eq_refl) as (_ & _ & Hagain).
  - rewrite Hc. by vm_compute; lia.
  - rewrite Hc. intros d [-> |Hd]%elem_of_cons; [done | by apply not_elem_of_nil in Hd].
  - exact E.
  - cbn [snd]. unfold example_resolve. by rewrite (Hagain ACCEPT_LOCAL "sup" VNone "f" "e" (WriteService [] []) w' eq_refl).
Defined.

Lemma example_forks :
  is_ok (fst (example_resolve ACCEPT_LOCAL (conflict_world (conflict_line "Approved" []) [("counted_qty", VInt 4)]))) = true.
Proof. vm_compute. reflexivity. Qed.

Example approved_line_forked_witness :
  let w := conflict_world (conflict_line "Approved" []) [("counted_qty", VInt 4)] in
  let w' := snd (snd (example_resolve ACCEPT_LOCAL w)) in
  w_db w' "count_lines" = [conflict_line "Approved" []].
Proof.
  pose proof example_forks as Hok. cbv zeta in *.
  assert (∃ w, w = conflict_world (conflict_line "Approved" []) [("counted_qty", VInt 4)]) as [w Hw] by eauto.
  rewrite <- Hw in *. destruct (example_resolve ACCEPT_LOCAL w) as [[r|] [s' w']] eqn:E; [|discriminate Hok].
  assert (w_db w "sync_conflicts" = [example_conflict [("counted_qty", VInt 4)] (conflict_line "Approved" [])]) as Hc
    by (by rewrite Hw).
  assert (w_db w "count_lines" = [conflict_line "Approved" []]) as Hl by (by rewrite Hw).
  cbn [snd]. rewrite <- Hl.
  refine (proj1 (approved_line_forked no_clock false true conflict_ids (fun s => s) ACollection replica_client
    (fun _ => None) (Ok true) "c1" "c1" (example_conflict [("counted_qty", VInt 4)] (conflict_line "Approved" [])) "L1"
    (conflict_line "Approved" []) ACCEPT_LOCAL "sup" VNone "f" "e" (WriteService [] []) w r s' w'
    eq_refl _ eq_refl eq_refl _ _ _ E)).
  - rewrite Hc. vm_compute. reflexivity.
  - done.
  - rewrite Hl. vm_compute. reflexivity.
  - vm_compute. reflexivity.
Defined.

(** ** What the concrete conflicts show *)

(** The status is read before the transaction and the update selects by [_id]
    only: a resolution that has read the conflict before another one committed
    overwrites it. *)
Lemma late_resolution_overwrites :
  let w := conflict_world (conflict_line "pending" []) [("remark", VStr "b")] in
  match get_conflict_by_id conflict_ids "c1" w with
  | (Ok (Some c), _) =>
      let w1 := snd (snd (example_resolve ACCEPT_SERVER w)) in
      let '(r, (_, w2)) :=
        resolve_loaded no_clock false true conflict_ids (fun s => s) ACollection replica_client (fun _ => None) (Ok true)
          c "c1" IGNORE "late" VNone "f" "e" (WriteService [] [], w1) in
      (map (get "status") (w_db w1 "sync_conflicts"), is_ok r, map (get "status") (w_db w2 "sync_conflicts"))
        = ([VStr "resolved"], true, [VStr "ignored"])
  | _ => False
  end.
Proof. vm_compute. reflexivity. Qed.

(** The status fields of a count line are not among the blocked ones: the data
    of a device approves and verifies the line it was counted on. *)
Lemma resolution_approves :
  let local_data := [("status", VStr "approved"); ("approval_status", VStr "APPROVED"); ("verified", VBool true)] in
  let w' := snd (snd (example_resolve ACCEPT_LOCAL (conflict_world (conflict_line "pending" []) local_data))) in
  map (fun l => (get "status" l, get "approval_status" l, get "verified" l)) (w_db w' "count_lines")
    = [(VStr "approved", VStr "APPROVED", VBool true)].
Proof. vm_compute. reflexivity. Qed.

(** Batches that the line already has all of are written as they came: the
    other batches of the line are lost. *)
Lemma merge_drops_batches :
  let batch b := VDict [("batch_id", VStr b)] in
  let line := conflict_line "pending" [("batches", VList [batch "A"; batch "B"])] in
  let w' := snd (snd (example_resolve ACCEPT_LOCAL (conflict_world line [("batches", VList [batch "A"])]))) in
  map (get "batches") (w_db w' "count_lines") = [VList [batch "A"]].
Proof. vm_compute. reflexivity. Qed.
