(* ===== verification/SyncBatch.v ===== *)
(** The synchronization of what a device counted offline,
    [api/sync_batch_api.py]: a batch of records is limited per user, checked
    record by record, written through the count-line service, and answered
    record by record.

    It brings together the limiter of [RateLimiter], the breaker of
    [CircuitBreaker], the locks of [Locks], [SyncConflicts] and [CountLines].
    [database_bool] is the truth value of the database object, which the driver
    decides; [fresh i n] is the n-th id drawn for the i-th record; [unix_time i]
    is [time.time()] at that record.  The handlers of the operations-based
    protocol, which the endpoint refuses, are left out. *)

From Stdlib Require Import Ascii.
From S2P Require Import Prelude PyFloat Py PyTime Store Guard Inventory Uow Frame Lifecycle CircuitBreaker Redis Locks.
From S2P Require Import RateLimiter Quantity Variance CountLines Events SyncConflicts.

Local Open Scope Z_scope.
Local Open Scope stock_scope.

(** [str(e)] *)
Definition exn_text (e : exn) : string :=
  match e with
  | GovernanceViolation m | ConcurrencyError m | ValueError m | TypeError m | OverflowError m | AttributeError m
  | PermissionError m | RuntimeError m | ConnectionError m | TimeoutError m | ResourceLockedError m
  | CircuitOpenError m | AuthorizationError m | FlagResolutionError m | LogicGuardConflictError m
  | DriverError m | OtherError m => m
  | KeyError m => str_repr m
  | HTTPException status detail => str_of_Z status +:+ ": " +:+ to_str detail
  end.

Definition _normalize_serial_numbers (values : list string) : list string :=
  fold_left (fun normalized value =>
    let serial := upper (strip value) in
    if negb (String.eqb serial "") && negb (str_in serial normalized) then normalized ++ [serial] else normalized)
    values [].

(** ** Records *)

Record SyncRecord := MkRecord {
  client_record_id : string; r_session_id : string; r_location_id : string; r_floor_id : string; r_rack_id : string;
  r_floor : option string; r_item_code : string; verified_qty : float; r_damaged_qty : float;
  r_serial_numbers : list string; mfg_date : option string; r_mrp : option float; r_uom : option string;
  r_category : option string; r_subcategory : option string; r_item_condition : option string;
  evidence_photos : list string; r_remark : option string; r_status : string; r_created_at : string;
  r_updated_at : string;
}.

Definition opt_num (o : option float) : val := match o with Some x => VFloat x | None => VNone end.
Definition texts (l : list string) : val := VList (map VStr l).

Definition model_dump (r : SyncRecord) : doc :=
  [("client_record_id", VStr (client_record_id r)); ("session_id", VStr (r_session_id r));
   ("location_id", VStr (r_location_id r)); ("floor_id", VStr (r_floor_id r)); ("rack_id", VStr (r_rack_id r));
   ("floor", opt_str (r_floor r)); ("item_code", VStr (r_item_code r)); ("verified_qty", VFloat (verified_qty r));
   ("damaged_qty", VFloat (r_damaged_qty r)); ("serial_numbers", texts (r_serial_numbers r));
   ("mfg_date", opt_str (mfg_date r)); ("mrp", opt_num (r_mrp r)); ("uom", opt_str (r_uom r));
   ("category", opt_str (r_category r)); ("subcategory", opt_str (r_subcategory r));
   ("item_condition", opt_str (r_item_condition r)); ("evidence_photos", texts (evidence_photos r));
   ("remark", opt_str (r_remark r)); ("status", VStr (r_status r)); ("created_at", VStr (r_created_at r));
   ("updated_at", VStr (r_updated_at r))].

Definition with_serials (l : list string) (r : SyncRecord) : SyncRecord :=
  MkRecord (client_record_id r) (r_session_id r) (r_location_id r) (r_floor_id r) (r_rack_id r) (r_floor r)
    (r_item_code r) (verified_qty r) (r_damaged_qty r) l (mfg_date r) (r_mrp r) (r_uom r) (r_category r)
    (r_subcategory r) (r_item_condition r) (evidence_photos r) (r_remark r) (r_status r) (r_created_at r)
    (r_updated_at r).

Record SyncConflict := MkConflict { c_record : string; c_type : string; c_message : string; c_details : doc }.

Definition client_time (s : string) : outcome Z :=
  match naive_time s with
  | Some t => Ok t
  | None => Raise (ValueError ("Invalid isoformat string: " +:+ str_repr (replace_Z s)))
  end.

Definition is_privileged (role : string) : bool := str_in (lower (strip role)) ["supervisor"; "admin"].

(** The count line of a record. *)
Definition line_document (id : string) (r : SyncRecord) (user_id location_id floor_id rack_id : string)
    (serial_numbers : list string) (counted_qty : float) (is_finalized is_approved : bool) (counted_at updated_at : Z)
    (synced_at : float) : doc :=
  [("id", VStr id); ("client_record_id", VStr (client_record_id r)); ("idempotency_key", VStr (client_record_id r));
   ("session_id", VStr (r_session_id r)); ("location_id", VStr location_id); ("floor_id", VStr floor_id);
   ("rack_id", VStr rack_id); ("floor_no", VStr floor_id); ("rack_no", VStr rack_id);
   ("item_code", VStr (r_item_code r)); ("counted_qty", VFloat counted_qty); ("damaged_qty", VFloat (r_damaged_qty r));
   ("serial_numbers", texts serial_numbers); ("manufacturing_date", opt_str (mfg_date r)); ("mrp", opt_num (r_mrp r));
   ("uom", opt_str (r_uom r)); ("category", opt_str (r_category r)); ("subcategory", opt_str (r_subcategory r));
   ("item_condition", opt_str (r_item_condition r)); ("evidence_photos", texts (evidence_photos r));
   ("status", VStr (if is_finalized then "locked" else "pending"));
   ("approval_status", VStr (if is_approved then "APPROVED" else "PENDING")); ("verified", VBool is_finalized);
   ("verified_by", if is_finalized then VStr user_id else VNone);
   ("verified_at", if is_finalized then VTime updated_at else VNone);
   ("finalized_by", if is_approved then VStr user_id else VNone);
   ("finalized_at", if is_approved then VTime updated_at else VNone); ("counted_at", VTime counted_at);
   ("updated_at", VTime updated_at); ("sync_status", VStr "synced"); ("synced_by", VStr user_id);
   ("synced_at", VFloat synced_at); ("version", VInt 1); ("previous_version_id", VNone); ("recount_of_id", VNone);
   ("remark", match r_remark r with Some s => if String.eqb s "" then VStr "offline-sync" else VStr s
                                 | None => VStr "offline-sync" end)].

(** The version of a rejected line that is counted again. *)
Definition recounted_line (line_data existing_duplicate : doc) (id previous_line_id : string) : outcome doc :=
  let root_recount_id := por (get "recount_of_id" existing_duplicate) (por (get "id" existing_duplicate) (VStr previous_line_id)) in
  let d := adel "_id" line_data in
  obind (int_or "recount_iteration" 0 existing_duplicate) (fun iteration =>
  obind (int_or "version" 1 existing_duplicate) (fun version =>
  Ok (aupd d [("id", VStr id); ("status", VStr "pending");
              ("approval_status", por (get "approval_status" d) (VStr "PENDING")); ("verified", VBool false);
              ("verified_by", VNone); ("verified_at", VNone); ("rejected_by", VNone); ("rejected_at", VNone);
              ("assigned_to", VNone); ("recount_requested_at", VNone); ("recount_requested_by", VNone);
              ("recount_iteration", VInt (iteration + 1)); ("version", VInt (version + 1));
              ("previous_version_id", VStr previous_line_id); ("recount_of_id", root_recount_id)]))).

Definition superseded_fields (new_line_data : doc) (username : string) (now : Z) : doc :=
  [("status", VStr "SUPERSEDED"); ("superseded_at", VTime now); ("superseded_by", VStr username);
   ("superseded_by_version_id", get "id" new_line_data); ("location_id", get "location_id" new_line_data);
   ("floor_id", get "floor_id" new_line_data); ("rack_id", get "rack_id" new_line_data)].

(** The server side of a serial conflict, as the conflict service is given it. *)
Definition server_data_of (existing : doc) : doc :=
  omap (fun '(k, v) => if String.eqb k "_id" then None
                       else Some (k, match v with VOid o => VStr o | _ => v end)) existing.

Section records.
Context {C : Type} `{Mongo C}.
Context (clock : nat → Z) (strict_mode write_logs : bool) (object_id : string → option string).
Context (sha256 : string → string) (client_count_lines : client_attribute) (cl : client).
Context (env : string → option string) (collection_bool : outcome bool).
Abbreviation W := (write_service * world C)%type.
Abbreviation write := (process_write (C:=C) clock strict_mode write_logs object_id sha256 client_count_lines cl).

(** ** The checks of a record *)

(** [has_service]: a conflict service was made. *)
Fixpoint check_serials_of (r : SyncRecord) (has_service : bool) (user_id : string) (ids : nat → string) (serials : list string)
  : M (world C) (option SyncConflict) :=
  match serials with
  | [] => ret None
  | serial :: rest =>
      do found <- find_serial_conflict (VStr serial) (VStr (r_item_code r)) None ;;
      match found with
      | None | Some [] => check_serials_of r has_service user_id ids rest
      | Some existing =>
          if py_eqb (get "client_record_id" existing) (VStr (client_record_id r))
          then check_serials_of r has_service user_id ids rest
          else
            do conflict_id <- (if has_service && negb (String.eqb user_id "") then
                detect_conflict clock cl env collection_bool "item_serial" (to_str (get "_id" existing)) (model_dump r)
                  (server_data_of existing) user_id (Some (r_session_id r)) (ids 0%nat) (ids 1%nat)
              else ret None) ;;
            ret (Some (MkConflict (client_record_id r) "duplicate_serial" "Serial already exists for this item."
              [("serial", VStr serial);
               ("existing_record", VStr (to_str (por (get "count_line_id" existing) (get "_id" existing))));
               ("conflict_id", opt_str conflict_id); ("item_code", get "item_code" existing)]))
      end
  end.

(** The checks that read the database; the owner of the rack is read after
    them. *)
Definition validate_in_db (r : SyncRecord) (has_service : bool) (user_id : string) (ids : nat → string)
  : M (world C) (option SyncConflict) :=
  do serial_conflict <- check_serials_of r has_service user_id ids (r_serial_numbers r) ;;
  match serial_conflict with
  | Some c => ret (Some c)
  | None =>
      ret (if flt (verified_qty r) (r_damaged_qty r)
           then Some (MkConflict (client_record_id r) "invalid_quantity" "Damage quantity cannot exceed verified quantity"
                        [("verified_qty", VFloat (verified_qty r)); ("damaged_qty", VFloat (r_damaged_qty r))])
           else None)
  end.

Definition rack_conflict (r : SyncRecord) (user_id : string) (owner : option string) : option SyncConflict :=
  match owner with
  | Some o => if negb (String.eqb o "") && negb (String.eqb o user_id)
              then Some (MkConflict (client_record_id r) "rack_locked"
                           ("Rack " +:+ r_rack_id r +:+ " is locked by another user") [("rack_id", VStr (r_rack_id r))])
              else None
  | None => None
  end.

(** ** The write of a record *)

Definition _count_line_is_idempotent (session_id : string) (line_data : doc) : M (world C) bool :=
  let idempotency_key := get "idempotency_key" line_data in
  if negb (truthy idempotency_key) then ret false
  else
    do existing <- db_find_one "count_lines" (QAnd [QEq "session_id" (VStr session_id); QEq "idempotency_key" idempotency_key]) ;;
    ret (match existing with Some (_ :: _) => true | _ => false end).

Definition _handle_duplicate_count_line (session_id : string) (line_data existing_duplicate session : doc) (username : string)
    (id : string) : M W string :=
  if negb (can_reuse_rejected_count_line existing_duplicate line_data)
  then raise (ValueError "Duplicate Scan: This item has already been counted in this specific location (Floor/Rack).")
  else
    let previous_line_id := match extract_document_id existing_duplicate with
                            | Some i => if String.eqb i "" then to_str (get "_id" existing_duplicate) else i
                            | None => to_str (get "_id" existing_duplicate)
                            end in
    do new_line_data <- lift (recounted_line line_data existing_duplicate id previous_line_id) ;;
    run in_uow_uncommitted cl (fun has_session =>
      do _ <- write has_session (Payload "insert_one" (Some new_line_data) None None false)
        [("session", VDict session); ("username", VStr username); ("skip_session_totals_update", VBool true)] ;;
      do now <- on_world (utc_now clock) ;;
      do line_id <- lift (item "_id" existing_duplicate) ;;
      do _ <- write has_session
        (Payload "update_one" None (Some (QEq "_id" line_id)) (Some (USet (superseded_fields new_line_data username now))) false)
        [("session", VDict session); ("username", VStr username); ("session_id", VStr session_id)] ;;
      ret tt) ;;
    ret "Rejected count line superseded by new recount version".

Definition sync_body (r : SyncRecord) (user_id user_role : string) (synced_at : float) (ids : nat → string)
  : M W (bool * option string) :=
  do session <- on_world (ensure_session_active (r_session_id r)) ;;
  let owner := strip (to_str (por (get "staff_user" session) (VStr ""))) in
  if negb (is_privileged user_role) && negb (String.eqb owner "") && negb (String.eqb owner user_id)
  then ret (false, Some "Not authorized to sync records for this session")
  else
    let floor_id := strip (if String.eqb (r_floor_id r) "" then default "" (r_floor r) else r_floor_id r) in
    let rack_id := strip (r_rack_id r) in
    let location_id := strip (r_location_id r) in
    if String.eqb location_id "" || String.eqb floor_id "" || String.eqb rack_id ""
    then ret (false, Some "CRITICAL: location_id, floor_id, and rack_id are required for sync writes")
    else
      let is_finalized := String.eqb (lower (strip (r_status r))) "finalized" in
      let is_approved := is_finalized && is_privileged user_role in
      do counted_at <- lift (client_time (r_created_at r)) ;;
      do updated_at <- lift (client_time (r_updated_at r)) ;;
      let serial_numbers := _normalize_serial_numbers (r_serial_numbers r) in
      let counted_qty := match serial_numbers with
                         | [] => verified_qty r
                         | _ => of_Z (Z.of_nat (length serial_numbers))
                         end in
      if flt counted_qty (r_damaged_qty r)
      then ret (false, Some ("damaged_qty (" +:+ float_repr (r_damaged_qty r) +:+ ") exceeds counted_qty ("
                             +:+ float_repr counted_qty +:+ ")"))
      else
        let doc := line_document (ids 2%nat) r user_id location_id floor_id rack_id serial_numbers counted_qty is_finalized
                     is_approved counted_at updated_at synced_at in
        do done_before <- on_world (_count_line_is_idempotent (r_session_id r) doc) ;;
        if done_before : bool then ret (true, None)
        else
          do existing_duplicate <- on_world (find_duplicate_count_line doc None) ;;
          match existing_duplicate with
          | Some ((_ :: _) as d) =>
              do _ <- _handle_duplicate_count_line (r_session_id r) doc d session user_id (ids 3%nat) ;;
              ret (true, None)
          | _ =>
              do _ <- write false (Payload "insert_one" (Some doc) None None false)
                [("session", VDict session); ("username", VStr user_id)] ;;
              ret (true, None)
          end.

(** An exception is the error of the record. *)
Definition sync_single_record (r : SyncRecord) (user_id user_role : string) (synced_at : float) (ids : nat → string)
  : M W (bool * option string) :=
  try_except (sync_body r user_id user_role synced_at ids) (fun e => ret (false, Some (exn_text e))).
End records.

(** ** The batch *)

Record SyncError := MkError { e_record : string; e_type : string; e_message : string }.
Record SyncResult := MkResult { s_id : string; s_success : bool; s_message : option string }.

Record BatchSyncResponse := Response {
  b_ok : list string; b_conflicts : list SyncConflict; b_errors : list SyncError; b_batch_id : option string;
  b_total_records : Z; b_results : list SyncResult; b_processed_count : Z; b_success_count : Z; b_failed_count : Z;
}.

Record BatchSyncRequest := Request {
  q_records : list SyncRecord; q_operations : nat; q_batch_id : option string;
}.

(** What a request works on: the limiter and the breakers of the process, the
    Redis server, the database. *)
Record sync_state (R C : Type) := SyncState {
  ss_limiter : window_limiter; ss_breakers : registry; ss_redis : redis_world R; ss_world : world C;
}.
Arguments SyncState {R C}.
Arguments ss_limiter {R C}.
Arguments ss_breakers {R C}.
Arguments ss_redis {R C}.
Arguments ss_world {R C}.

Definition breaker_config : CircuitBreakerConfig := Config 5 3 (of_Z 30) 2.

Definition batch_user (current_user : doc) : string :=
  to_str (por (get "username" current_user) (por (get "user_id" current_user) (por (get "id" current_user)
    (VStr (to_str (dget "_id" (VStr "unknown") current_user)))))).

Definition ok_result (i : string) : SyncResult := MkResult i true None.
Definition conflict_result (c : SyncConflict) : SyncResult := MkResult (c_record c) false (Some (c_message c)).
Definition error_result (e : SyncError) : SyncResult := MkResult (e_record e) false (Some (e_message e)).

Definition response (request : BatchSyncRequest) (ok : list string) (conflicts : list SyncConflict) (errors : list SyncError)
  : BatchSyncResponse :=
  let total := Z.of_nat (length (q_records request)) in
  let n_ok := Z.of_nat (length ok) in
  Response ok conflicts errors (q_batch_id request) total
    (map ok_result ok ++ map conflict_result conflicts ++ map error_result errors) total n_ok (total - n_ok).

Section batch.
Context {R C : Type} `{Redis R} `{Mongo C}.
Context (clock : nat → Z) (strict_mode write_logs : bool) (object_id : string → option string).
Context (sha256 : string → string) (client_count_lines : client_attribute) (cl : client).
Context (env : string → option string) (collection_bool database_bool : outcome bool).
(** the Redis server: its clock, the wall clock, and the faults of the driver *)
Context (redis_clock wall : nat → Z) (faults : nat → fault).
(** the ids and the time of each record; the clock of the limiter and the
    breaker *)
Context (fresh : nat → nat → string) (unix_time : nat → float) (now : Z) (breaker_time end_time : float).
Abbreviation S := (redis_world R * (write_service * world C))%type.

Definition on_redis {A} (m : M (redis_world R) A) : M S A := fun s =>
  let '(o, r) := m (fst s) in (o, (r, snd s)).
Definition on_service {A} (m : M (write_service * world C) A) : M S A := fun s =>
  let '(o, w) := m (snd s) in (o, (fst s, w)).

Definition validate_record (r : SyncRecord) (has_service : bool) (user_id : string) (ids : nat → string)
  : M S (option SyncConflict) :=
  do in_db <- on_service (on_world (validate_in_db clock cl env collection_bool r has_service user_id ids)) ;;
  match in_db with
  | Some c => ret (Some c)
  | None =>
      if String.eqb (r_rack_id r) "" then ret None
      else do owner <- on_redis (get_rack_lock_owner redis_clock faults (r_rack_id r)) ;;
           ret (rack_conflict r user_id owner)
  end.

Definition operation_row (r : SyncRecord) (now : Z) : doc :=
  [("operation_id", VStr (client_record_id r)); ("created_at", VTime now)].

Record tally := Tally { t_ok : list string; t_conflicts : list SyncConflict; t_errors : list SyncError }.

(** One record of the batch; [known] are the ids of the records that were
    synchronized before the batch. *)
Definition sync_record (user_id user_role : string) (has_service : bool) (known : list val) (i : nat) (r : SyncRecord)
    (t : tally) : M S tally :=
  if existsb (py_eqb (VStr (client_record_id r))) known then ret (Tally (t_ok t ++ [client_record_id r]) (t_conflicts t) (t_errors t))
  else
    let r := with_serials (_normalize_serial_numbers (r_serial_numbers r)) r in
    do conflict <- validate_record r has_service user_id (fresh i) ;;
    match conflict with
    | Some c => ret (Tally (t_ok t) (t_conflicts t ++ [c]) (t_errors t))
    | None =>
        do ' (success, error_msg) <- on_service (sync_single_record clock strict_mode write_logs object_id sha256
               client_count_lines cl r user_id user_role (unix_time i) (fresh i)) ;;
        if success : bool then
          do now <- on_service (on_world (utc_now clock)) ;;
          do _ <- on_service (on_world (db_insert_one "idempotency_operations" (operation_row r now))) ;;
          ret (Tally (t_ok t ++ [client_record_id r]) (t_conflicts t) (t_errors t))
        else
          ret (Tally (t_ok t) (t_conflicts t)
                 (t_errors t ++ [MkError (client_record_id r) "sync_error"
                    (match error_msg with Some m => if String.eqb m "" then "Unknown error" else m
                                        | None => "Unknown error" end)]))
    end.

Fixpoint sync_records (user_id user_role : string) (has_service : bool) (known : list val) (i : nat)
    (records : list SyncRecord) (t : tally) : M S tally :=
  match records with
  | [] => ret t
  | r :: rest =>
      do t <- sync_record user_id user_role has_service known i r t ;;
      sync_records user_id user_role has_service known (Datatypes.S i) rest t
  end.

(** The set of [op["operation_id"]] of the operations found. *)
Fixpoint known_ids (existing_ops : list doc) : outcome (list val) :=
  match existing_ops with
  | [] => Ok []
  | op :: rest =>
      obind (item "operation_id" op) (fun v =>
      if negb (hashable v) then Raise (TypeError "unhashable type")
      else obind (known_ids rest) (fun l => Ok (v :: l)))
  end.

Definition sync_body_of_batch (request : BatchSyncRequest) (user_id user_role : string) (has_service : bool) : M S tally :=
  do existing_ops <- on_service (on_world (db_find "idempotency_operations"
      (QIn "operation_id" (map (fun r => VStr (client_record_id r)) (q_records request))))) ;;
  do known <- lift (known_ids existing_ops) ;;
  sync_records user_id user_role has_service known 0 (q_records request) (Tally [] [] []).

Definition rate_limited (rate_info : doc) : exn :=
  HTTPException 429 (VDict [("message", VStr "Rate limit exceeded for batch sync");
    ("retry_after", dget "retry_after" (VInt 60) rate_info); ("limit", dget "limit" (VInt 10) rate_info)]).

(** [sync_batch]; the processing time is left out of the answer. *)
Definition sync_batch (request : BatchSyncRequest) (current_user : doc) (s : sync_state R C)
  : outcome BatchSyncResponse * sync_state R C :=
  let user_id := batch_user current_user in
  let '(allowed, limiter) := batch_is_allowed user_id now (ss_limiter s) in
  let s := SyncState limiter (ss_breakers s) (ss_redis s) (ss_world s) in
  match allowed with
  | Raise e => (Raise e, s)
  | Ok (false, rate_info) => (Raise (rate_limited rate_info), s)
  | Ok (true, _) =>
      match q_operations request with
      | Datatypes.S _ => (Raise (HTTPException 410 (VStr "CRITICAL: Legacy operations-based sync is disabled. Submit records-based payload only.")), s)
      | O =>
          match q_records request with
          | [] => (Raise (HTTPException 400 (VStr "No records provided for batch sync")), s)
          | _ =>
              let '((c, breaker), breakers) := get_circuit_breaker "batch_sync" (Some breaker_config) (ss_breakers s) in
              let s := SyncState (ss_limiter s) breakers (ss_redis s) (ss_world s) in
              match database_bool with
              | Raise e => (Raise e, s)
              | Ok has_service =>
                  let '(permitted, breaker) := acquire c breaker_time breaker in
                  let with_breaker b s := SyncState (ss_limiter s) (aset "batch_sync" (c, b) (ss_breakers s)) (ss_redis s) (ss_world s) in
                  if negb permitted then
                    (Raise (HTTPException 503 (VStr "Sync service temporarily unavailable. Please try again later.")),
                     with_breaker breaker s)
                  else
                    let '(o, (redis, (_, w))) :=
                      sync_body_of_batch request user_id (to_str (por (get "role" current_user) (VStr ""))) has_service
                        (ss_redis s, (WriteService [] [], ss_world s)) in
                    let s := SyncState (ss_limiter s) (ss_breakers s) redis w in
                    match o with
                    | Ok t => (Ok (response request (t_ok t) (t_conflicts t) (t_errors t)), with_breaker (record_success c breaker) s)
                    | Raise e => (Raise (HTTPException 500 (VStr ("Batch sync failed: " +:+ exn_text e))),
                                  with_breaker (record_failure c end_time breaker) s)
                    end
              end
          end
      end
  end.

(** [session_heartbeat] *)
Definition session_heartbeat (session_id : string) (current_user : doc) (rack_id : string) (timestamp : float)
  : M (redis_world R) doc :=
  do user <- lift (item "username" current_user) ;;
  let user_id := to_str user in
  run update_user_heartbeat redis_clock wall faults user_id 90 ;;
  do rack_renewed <- (if String.eqb rack_id "" then ret false
                      else renew_rack_lock redis_clock faults rack_id user_id 60) ;;
  ret [("success", VBool true); ("session_id", VStr session_id); ("user_id", user); ("rack_renewed", VBool rack_renewed);
       ("timestamp", VFloat timestamp)].
End batch.
