(* ===== verification/SyncBatchSpec.v ===== *)
(** What the synchronization of a batch ([SyncBatch]) guarantees: every record is
    answered once, and a record that has been stored is not stored again. *)

From stdpp Require Import sets.
From S2P Require Import Prelude PyFloat Py Json Store ListStore Guard Inventory Uow Frame Lifecycle LifecycleSpec CircuitBreaker Redis Locks.
From S2P Require Import RateLimiter Quantity Variance CountLines CountLineSpec ProjectionCore Events SyncConflicts SyncConflictSpec SyncBatch.

Local Open Scope Z_scope.
Local Open Scope stock_scope.

(** ** Every record is answered once *)

Section answers.
Context {R C : Type} `{Redis R} `{Mongo C}.
Context (clock : nat → Z) (strict_mode write_logs : bool) (object_id : string → option string).
Context (sha256 : string → string) (client_count_lines : client_attribute) (cl : client).
Context (env : string → option string) (collection_bool : outcome bool).
Context (redis_clock : nat → Z) (faults : nat → fault).
Context (fresh : nat → nat → string) (unix_time : nat → float).

Abbreviation S := (redis_world R * (write_service * world C))%type.
Abbreviation step := (sync_record (R:=R) (C:=C) clock strict_mode write_logs object_id sha256 client_count_lines cl env
  collection_bool redis_clock faults fresh unix_time).
Abbreviation steps := (sync_records (R:=R) (C:=C) clock strict_mode write_logs object_id sha256 client_count_lines cl env
  collection_bool redis_clock faults fresh unix_time).
Abbreviation validate := (validate_record (R:=R) (C:=C) clock cl env collection_bool redis_clock faults).

(** The records a tally answers. *)
Definition answered (t : tally) : list string :=
  t_ok t ++ map c_record (t_conflicts t) ++ map e_record (t_errors t).

Lemma on_service_ok {A} (m : M (write_service * world C) A) (s : S) a s' :
  on_service m s = (Ok a, s') → m (snd s) = (Ok a, snd s') ∧ fst s' = fst s.
Proof. unfold on_service. destruct (m (snd s)) as [o w] eqn:E. intros Hm. by simplify_eq. Qed.

Lemma on_redis_ok {A} (m : M (redis_world R) A) (s : S) a s' :
  on_redis m s = (Ok a, s') → m (fst s) = (Ok a, fst s') ∧ snd s' = snd s.
Proof. unfold on_redis. destruct (m (fst s)) as [o w] eqn:E. intros Hm. by simplify_eq. Qed.

Lemma serials_conflict_id r b u ids l w c w' :
  check_serials_of (C:=C) clock cl env collection_bool r b u ids l w = (Ok (Some c), w') → c_record c = client_record_id r.
Proof.
  revert w. induction l as [|s l IH]; intros w Hc; cbn [check_serials_of] in Hc; [by unfold ret in Hc|].
  apply bind_ok_inv in Hc as (found & w1 & _ & Hc). destruct found as [[|kv d]|]; [by apply IH in Hc| |by apply IH in Hc].
  destruct (py_eqb _ _); [by apply IH in Hc|]. apply bind_ok_inv in Hc as (i & w2 & _ & Hc). unfold ret in Hc. by simplify_eq.
Qed.

(** A conflict names the record it is about. *)
Lemma validate_conflict_id r b u ids s c s' :
  validate r b u ids s = (Ok (Some c), s') → c_record c = client_record_id r.
Proof.
  intros Hv. unfold validate_record in Hv. apply bind_ok_inv in Hv as (o & s1 & Hdb & Hv). destruct o as [d|].
  - unfold ret in Hv. simplify_eq. apply on_service_ok in Hdb as [Hdb _].
    destruct (snd s) as [ws w], (snd s') as [ws' w']. apply on_world_ok in Hdb as [Hdb _]. unfold validate_in_db in Hdb.
    apply bind_ok_inv in Hdb as (found & w1 & Hs & Hdb). destruct found as [e|].
    + unfold ret in Hdb. simplify_eq. by apply serials_conflict_id in Hs.
    + unfold ret in Hdb. by destruct (flt _ _); simplify_eq.
  - destruct (String.eqb _ _); [by unfold ret in Hv|]. apply bind_ok_inv in Hv as (owner & s2 & _ & Hv).
    unfold ret, rack_conflict in Hv. destruct owner as [x|]; [|done]. by destruct (_ && _); simplify_eq.
Qed.

Lemma step_answers u role b known i r t s t' s' :
  step u role b known i r t s = (Ok t', s') → answered t' ≡ₚ client_record_id r :: answered t.
Proof.
  intros Hs. unfold sync_record in Hs. unfold answered.
  assert (∀ (l k : list string) x, (l ++ [x]) ++ k ≡ₚ x :: l ++ k) as Hput
    by (intros; rewrite <- app_assoc; symmetry; apply Permutation_middle).
  destruct (existsb _ known); [unfold ret in Hs; simplify_eq; cbn [t_ok t_conflicts t_errors]; apply Hput|].
  apply bind_ok_inv in Hs as (o & s1 & Hv & Hs). destruct o as [c|].
  { unfold ret in Hs. simplify_eq. cbn [t_ok t_conflicts t_errors]. apply validate_conflict_id in Hv. cbn in Hv.
    rewrite map_app, <- Hv. cbn [map]. rewrite Hput. symmetry. apply Permutation_middle. }
  apply bind_ok_inv in Hs as ([success msg] & s2 & _ & Hs). destruct success.
  - apply bind_ok_inv in Hs as (now & s3 & _ & Hs). apply bind_ok_inv in Hs as (d & s4 & _ & Hs).
    unfold ret in Hs. simplify_eq. cbn [t_ok t_conflicts t_errors client_record_id with_serials]. apply Hput.
  - unfold ret in Hs. simplify_eq. cbn [t_ok t_conflicts t_errors]. rewrite map_app. cbn [map e_record client_record_id with_serials].
    rewrite !app_assoc. symmetry. apply Permutation_cons_append.
Qed.

Lemma steps_answer u role b known i records t s t' s' :
  steps u role b known i records t s = (Ok t', s') →
  answered t' ≡ₚ answered t ++ map client_record_id records.
Proof.
  revert i t s. induction records as [|r records IH]; intros i t s Hs; cbn [sync_records] in Hs.
  { unfold ret in Hs. simplify_eq. by rewrite app_nil_r. }
  apply bind_ok_inv in Hs as (t1 & s1 & H1 & Hs). apply step_answers in H1. rewrite (IH _ _ _ Hs), H1. cbn [map app].
  apply Permutation_middle.
Qed.
End answers.

(** ** The answer of a batch *)

Section batch_spec.
Context {R C : Type} `{Redis R} `{Mongo C}.
Context (clock : nat → Z) (strict_mode write_logs : bool) (object_id : string → option string).
Context (sha256 : string → string) (client_count_lines : client_attribute) (cl : client).
Context (env : string → option string) (collection_bool database_bool : outcome bool).
Context (redis_clock : nat → Z) (faults : nat → fault).
Context (fresh : nat → nat → string) (unix_time : nat → float) (now : Z) (breaker_time end_time : float).
Abbreviation batch := (sync_batch (R:=R) (C:=C) clock strict_mode write_logs object_id sha256 client_count_lines cl env
  collection_bool database_bool redis_clock faults fresh unix_time now breaker_time end_time).
Abbreviation body := (sync_body_of_batch (R:=R) (C:=C) clock strict_mode write_logs object_id sha256 client_count_lines cl env
  collection_bool redis_clock faults fresh unix_time).

(** A batch that is answered has run its records. *)
Lemma batch_ok_body request user s resp s' :
  batch request user s = (Ok resp, s') →
  ∃ has_service t ws, body request (batch_user user) (to_str (por (get "role" user) (VStr ""))) has_service
      (ss_redis s, (WriteService [] [], ss_world s)) = (Ok t, (ss_redis s', (ws, ss_world s')))
    ∧ resp = response request (t_ok t) (t_conflicts t) (t_errors t).
Proof.
  intros Hb. unfold sync_batch in Hb. destruct (batch_is_allowed _ _ _) as [[[[|] info]|e] lim]; [|by simplify_eq..].
  destruct (q_operations request); [|by simplify_eq]. destruct (q_records request) as [|r0 rs] eqn:Hr; [by simplify_eq|].
  destruct (get_circuit_breaker _ _ _) as [[c br] brs]. destruct database_bool as [has_service|e]; [|by simplify_eq].
  destruct (acquire c breaker_time br) as [permitted br']. destruct permitted; [|by cbn [negb] in Hb; simplify_eq].
  cbn [negb ss_redis ss_world] in Hb.
  destruct (body request _ _ has_service _) as [[t|e] [rd [ws w]]] eqn:Hbody; cbn [ss_redis ss_world] in Hb; simplify_eq.
  eauto 10.
Qed.

Lemma length_answered (t : tally) : length (answered t) = (length (t_ok t) + length (t_conflicts t) + length (t_errors t))%nat.
Proof. unfold answered. rewrite !length_app, !length_map. lia. Qed.

Lemma response_ids request t : map s_id (b_results (response request (t_ok t) (t_conflicts t) (t_errors t))) = answered t.
Proof.
  unfold response, answered. cbn [b_results]. rewrite !map_app, !map_map. by rewrite (map_id (t_ok t) : map (λ x, s_id (ok_result x)) (t_ok t) = _).
Qed.

Lemma body_answers request u role b s t s' :
  body request u role b s = (Ok t, s') → answered t ≡ₚ map client_record_id (q_records request).
Proof.
  unfold sync_body_of_batch. intros Hb. apply bind_ok_inv in Hb as (ops & s1 & _ & Hb).
  apply bind_ok_inv in Hb as (known & s2 & _ & Hb). apply steps_answer in Hb. by rewrite Hb.
Qed.

(** C21: an answered batch answers each of its records exactly once, as stored, in conflict or failed; the counters of the
    answer are those of the lists, none is negative, and the failed records are the conflicts and the errors. *)
Theorem batch_accounts request user s resp s' :
  batch request user s = (Ok resp, s') →
  map s_id (b_results resp) ≡ₚ map client_record_id (q_records request)
  ∧ b_total_records resp = Z.of_nat (length (q_records request)) ∧ b_processed_count resp = b_total_records resp
  ∧ b_success_count resp = Z.of_nat (length (b_ok resp))
  ∧ b_failed_count resp = Z.of_nat (length (b_conflicts resp) + length (b_errors resp))
  ∧ (∀ i, In (MkResult i true None) (b_results resp) ↔ In i (b_ok resp)).
Proof.
  intros Hb. apply batch_ok_body in Hb as (b & t & ws & Hb & ->). apply body_answers in Hb.
  rewrite response_ids. split; [done|]. apply Permutation_length in Hb. rewrite length_answered, length_map in Hb.
  unfold response. cbn [b_total_records b_processed_count b_success_count b_failed_count b_ok b_conflicts b_errors b_results].
  do 4 (split; [lia|]). intros i. rewrite !in_app_iff, !in_map_iff. unfold ok_result, conflict_result, error_result.
  split; [intros [(j & ? & ?)|[(c & ? & ?)|(e & ? & ?)]]; by simplify_eq|]. intros Hi. left. eauto.
Qed.
End batch_spec.

(** ** What a record changes *)

Section frames.
Context {C : Type} `{Mongo C}.
Context (clock : nat → Z) (strict_mode write_logs : bool) (object_id : string → option string).
Context (sha256 : string → string) (client_count_lines : client_attribute) (cl : client).
Context (env : string → option string) (collection_bool : outcome bool).

Definition checked_collections : list string := "sync_conflicts" :: event_collections.

Lemma frame_detect ty entity l d user sid f i :
  frame checked_collections (detect_conflict (C:=C) clock cl env collection_bool ty entity l d user sid f i).
Proof.
  unfold detect_conflict.
  assert (∀ hs ty s c st d u f i,
    frame checked_collections (best_effort (record_sync_queue_event (C:=C) clock env collection_bool cl hs ty s c st d u f i))) as He.
  { intros. apply frame_best_effort. eapply frame_weaken; [apply frame_queue_event | by apply subset_list]. }
  repeat first [ apply He | frame_step ].
Qed.

Lemma frame_check_serials r b u ids l :
  frame checked_collections (check_serials_of (C:=C) clock cl env collection_bool r b u ids l).
Proof.
  pose proof frame_detect. induction l as [|s l IH]; cbn [check_serials_of]; [solve_frame|].
  apply frame_bind; [apply frame_serial_conflict|]. intros [[|kv d]|]; [done| |done].
  destruct (py_eqb _ _); [done|]. apply frame_bind; [|intros; apply frame_ret]. destruct (_ && _); [done | apply frame_ret].
Qed.

Lemma frame_validate_in_db r b u ids :
  frame checked_collections (validate_in_db (C:=C) clock cl env collection_bool r b u ids).
Proof. unfold validate_in_db. apply frame_bind; [apply frame_check_serials|]. intros [?|]; apply frame_ret. Qed.

Lemma sframe_try {A} P (m : M (write_service * world C) A) h :
  service_frame P m → (∀ e, service_frame P (h e)) → service_frame P (try_except m h).
Proof.
  intros Hm Hh x r x' Ht. unfold try_except in Ht. destruct (m x) as [[a|e] y] eqn:E.
  - simplify_eq. by apply (Hm _ _ _ E).
  - destruct (Hh e _ _ _ Ht) as [Hd2 Hu2], (Hm _ _ _ E) as [Hd1 Hu1].
    split; [intros n Hn; by rewrite Hd2, Hd1 | by eapply unsessioned_trans].
Qed.

(** A record is stored through the count-line service only. *)
Lemma sframe_sync_single r u role at' ids :
  service_frame write_collections
    (sync_single_record (C:=C) clock strict_mode write_logs object_id sha256 client_count_lines cl r u role at' ids).
Proof.
  assert (∀ hs p ctx, service_frame write_collections
    (process_write (C:=C) clock strict_mode write_logs object_id sha256 client_count_lines cl hs p ctx)) as Hw
    by (intros; by apply sframe_write).
  assert (∀ s, frame write_collections (ensure_session_active (C:=C) s)) as Ha.
  { intros. unfold ensure_session_active. apply frame_bind; [apply frame_not_finalized|]. intros. solve_frame. }
  assert (∀ s d, frame write_collections (_count_line_is_idempotent (C:=C) s d)) as Hi
    by (intros; unfold _count_line_is_idempotent; solve_frame).
  assert (∀ d o, frame write_collections (find_duplicate_count_line (C:=C) d o)) as Hd
    by (intros; unfold find_duplicate_count_line; solve_frame).
  apply sframe_try; [|intros; apply sframe_ret]. unfold sync_body, _handle_duplicate_count_line.
  repeat first [ apply Hw | sframe_step | apply sframe_uncommitted; intros ? | solve_frame ].
Qed.
End frames.

(** ** A record that has been stored is not stored again *)

Section retry.
Context {R C : Type} `{Redis R} `{MongoLaws C}.
Context (clock : nat → Z) (strict_mode write_logs : bool) (object_id : string → option string).
Context (sha256 : string → string) (client_count_lines : client_attribute) (cl : client).
Context (env : string → option string) (collection_bool : outcome bool).
Context (redis_clock : nat → Z) (faults : nat → fault).

Abbreviation S := (redis_world R * (write_service * world C))%type.
Abbreviation step := (sync_record (R:=R) (C:=C) clock strict_mode write_logs object_id sha256 client_count_lines cl env
  collection_bool redis_clock faults).
Abbreviation steps := (sync_records (R:=R) (C:=C) clock strict_mode write_logs object_id sha256 client_count_lines cl env
  collection_bool redis_clock faults).

(** The operations of the database of [s]. *)
Abbreviation operations s := (w_db (snd (snd s)) "idempotency_operations").

(** An operation [i] is stored. *)
Definition stored (i : string) (c : C) : Prop := ∃ d, d ∈ contents c ∧ get "operation_id" d = VStr i.

(** The operations a query for [ids] finds carry one of the ids, not a list
    that holds it. *)
Definition read_as (ids : list string) (c : C) : Prop :=
  ∀ d i, d ∈ contents c → i ∈ ids → matches (QEq "operation_id" (VStr i)) d = true → get "operation_id" d = VStr i.

(** What may happen to the operations. *)
Definition grows (c c' : C) : Prop := (∀ i, stored i c → stored i c') ∧ ∀ ids, read_as ids c → read_as ids c'.

#[local] Instance grows_preorder : PreOrder grows.
Proof. split; [by split | intros a b c [] []; split; auto]. Qed.

Lemma row_stored r now c i c' :
  insert_one (operation_row r now) c = Some (i, c') → grows c c' ∧ stored (client_record_id r) c'.
Proof.
  intros Hi. apply insert_one_spec in Hi as [Hp _]. set (row := bson_doc _) in Hp.
  assert (get "operation_id" row = VStr (client_record_id r)) as Hrow by (by apply get_bson_str).
  split; [split|].
  - intros j (d & Hd & Hj). exists d. split; [|done]. rewrite Hp. by right.
  - intros ids Hids d j Hd Hj Hm. rewrite Hp in Hd. apply elem_of_cons in Hd as [->|Hd]; [|by eapply Hids].
    rewrite matches_eq_str in Hm by (by rewrite Hrow). by apply bson_eqb_str.
  - exists row. split; [|done]. rewrite Hp. left.
Qed.

(** Checking and writing a record leave the operations alone. *)
Lemma validate_operations r b u ids s o s' :
  validate_record clock cl env collection_bool redis_clock faults r b u ids s = (Ok o, s') → operations s' = operations s.
Proof.
  intros Hv. unfold validate_record in Hv. apply bind_ok_inv in Hv as (p & s1 & Hdb & Hv).
  apply on_service_ok in Hdb as [Hdb _].
  assert (operations s1 = operations s) as Hs1.
  { destruct (snd s) as [ws w] eqn:E, (snd s1) as [ws1 w1] eqn:E1. apply on_world_ok in Hdb as [Hdb _].
    by apply (frame_db _ _ _ _ _ "idempotency_operations" (frame_validate_in_db clock cl env collection_bool r b u ids) Hdb). }
  rewrite <- Hs1. destruct p; [unfold ret in Hv; by simplify_eq|].
  destruct (String.eqb _ _); [unfold ret in Hv; by simplify_eq|]. apply bind_ok_inv in Hv as (x & s2 & Hr & Hv).
  apply on_redis_ok in Hr as [_ Hr]. unfold ret in Hv. simplify_eq. by rewrite Hr.
Qed.

Lemma step_stores fresh ut u role b known i r t s t' s' :
  step fresh ut u role b known i r t s = (Ok t', s') →
  grows (operations s) (operations s')
  ∧ ∀ j, j ∈ t_ok t' → j ∈ t_ok t ∨ (j = client_record_id r ∧ (existsb (py_eqb (VStr j)) known = true ∨ stored j (operations s'))).
Proof.
  intros Hs. unfold sync_record in Hs. destruct (existsb _ known) eqn:Hk.
  { unfold ret in Hs. simplify_eq. split; [done|]. intros j Hj. cbn [t_ok] in Hj.
    apply elem_of_app in Hj as [Hj| ->%list_elem_of_singleton]; auto. }
  apply bind_ok_inv in Hs as (o & s1 & Hv & Hs). apply validate_operations in Hv.
  destruct o as [c|]; [unfold ret in Hs; simplify_eq; split; [by rewrite Hv | auto]|].
  apply bind_ok_inv in Hs as ([success msg] & s2 & Hw & Hs). apply on_service_ok in Hw as [Hw _].
  assert (operations s2 = operations s1) as Hop.
  { eapply sframe_db; [apply sframe_sync_single | exact Hw | reflexivity]. }
  rewrite Hv in Hop. clear Hw.
  destruct success; [|unfold ret in Hs; simplify_eq; split; [by rewrite Hop | auto]].
  apply bind_ok_inv in Hs as (now & s3 & Hn & Hs). apply on_service_ok in Hn as [Hn _].
  destruct (snd s2) as [ws2 w2] eqn:E2, (snd s3) as [ws3 w3] eqn:E3. apply on_world_ok in Hn as [Hn ->].
  unfold utc_now in Hn. simplify_eq.
  apply bind_ok_inv in Hs as (d & s4 & Hd & Hs). apply on_service_ok in Hd as [Hd _]. rewrite E3 in Hd.
  destruct (snd s4) as [ws4 w4] eqn:E4. apply on_world_ok in Hd as [Hd ->]. apply insert_one_ok in Hd as (x & c & Hi & _ & ->).
  unfold ret in Hs. simplify_eq. rewrite E4. cbn [snd] in *. rewrite set_coll_same. cbn [tick w_db] in Hi. cbn [snd] in Hop. rewrite Hop in Hi.
  apply row_stored in Hi as [Hg Hst]. split; [done|]. intros j Hj. cbn [t_ok] in Hj.
  apply elem_of_app in Hj as [Hj| ->%list_elem_of_singleton]; auto.
Qed.

Lemma steps_store fresh ut u role b known i records t s t' s' :
  steps fresh ut u role b known i records t s = (Ok t', s') →
  grows (operations s) (operations s')
  ∧ ∀ j, j ∈ t_ok t' → j ∈ t_ok t
      ∨ (j ∈ map client_record_id records ∧ (existsb (py_eqb (VStr j)) known = true ∨ stored j (operations s'))).
Proof.
  revert i t s. induction records as [|r records IH]; intros i t s Hs; cbn [sync_records] in Hs.
  { unfold ret in Hs. simplify_eq. split; [done | auto]. }
  apply bind_ok_inv in Hs as (t1 & s1 & Hfirst & Hs). apply step_stores in Hfirst as [Hg1 Hk1].
  apply IH in Hs as [Hg Hk]. split; [by etrans|]. intros j Hj. cbn [map].
  destruct (Hk j Hj) as [Hj1|[Hj1 Hst]]; [|right; split; [by right | done]].
  destruct (Hk1 j Hj1) as [Ht|[-> [Hkn|Hst]]]; [by left|right; split; [by left | by left]|].
  right. split; [by left|]. right. by apply Hg.
Qed.

(** *** The operations known to a batch *)

Abbreviation wanted ids := (QIn "operation_id" (map VStr ids)).

Lemma known_ids_spec ops known :
  known_ids ops = Ok known →
  known = map (get "operation_id") ops ∧ ∀ d, d ∈ ops → hashable (get "operation_id" d) = true.
Proof.
  revert known. induction ops as [|d ops IH]; intros known Hk; cbn [known_ids] in Hk.
  { simplify_eq. split; [done|]. by intros d ?%not_elem_of_nil. }
  unfold item in Hk. destruct (aget "operation_id" d) as [v|] eqn:Hd; cbn [obind] in Hk; [|done]. apply get_some in Hd.
  destruct (hashable v) eqn:Hv; cbn [negb] in Hk; [|done].
  destruct (known_ids ops) as [l|]; cbn [obind] in Hk; [|done]. simplify_eq. destruct (IH l eq_refl) as [-> Hl].
  split; [done|]. intros e [->|He]%elem_of_cons; auto.
Qed.

Lemma known_ids_total ops :
  (∀ d, d ∈ ops → ∃ i, get "operation_id" d = VStr i) → known_ids ops = Ok (map (get "operation_id") ops).
Proof.
  induction ops as [|d ops IH]; intros Hops; [done|]. cbn [known_ids map].
  destruct (Hops d) as [i Hd]; [left|]. rewrite IH by (intros; apply Hops; by right).
  unfold item. destruct (aget "operation_id" d) as [v|] eqn:E; [|unfold get in Hd; by rewrite E in Hd].
  apply get_some in E. rewrite <- E, Hd. done.
Qed.

Lemma matches_wanted ids d :
  matches (wanted ids) d = true ↔ ∃ i, i ∈ ids ∧ matches (QEq "operation_id" (VStr i)) d = true.
Proof.
  rewrite matches_in, existsb_exists. setoid_rewrite in_map_iff. setoid_rewrite list_elem_of_In.
  split; [intros (v & (i & <- & Hi) & Hm); eauto | intros (i & Hi & Hm); eauto].
Qed.

Lemma matches_operation i d :
  hashable (get "operation_id" d) = true → matches (QEq "operation_id" (VStr i)) d = true ↔ get "operation_id" d = VStr i.
Proof. intros Hh. rewrite matches_eq_str by (by destruct (get "operation_id" d)). apply bson_eqb_str. Qed.

Lemma known_read ids c known : known_ids (find_all (wanted ids) c) = Ok known → read_as ids c.
Proof.
  intros [_ Hh]%known_ids_spec d i Hd Hi Hm. apply matches_operation; [|done]. apply Hh, find_all_in.
  split; [done|]. apply matches_wanted. eauto.
Qed.

(** What a batch knows is stored. *)
Lemma known_stored ids c known j :
  known_ids (find_all (wanted ids) c) = Ok known → existsb (py_eqb (VStr j)) known = true → stored j c.
Proof.
  intros [-> _]%known_ids_spec (v & (d & <- & Hd)%in_map_iff & He)%existsb_exists.
  apply list_elem_of_In, find_all_in in Hd as [Hd _]. exists d. split; [done|].
  destruct (get "operation_id" d); try done. cbn [py_eqb] in He. f_equal. symmetry. by apply String.eqb_eq.
Qed.

(** What is stored is known to a later batch that has it. *)
Lemma known_total ids c :
  read_as ids c → ∃ known, known_ids (find_all (wanted ids) c) = Ok known
    ∧ ∀ j, j ∈ ids → stored j c → existsb (py_eqb (VStr j)) known = true.
Proof.
  intros Hr. exists (map (get "operation_id") (find_all (wanted ids) c)). split.
  - apply known_ids_total. intros d [Hd (i & Hi & Hm)%matches_wanted]%find_all_in. exists i. by apply Hr.
  - intros j Hj (d & Hd & Hget). apply existsb_exists. exists (VStr j). split; [|cbn [py_eqb]; apply String.eqb_refl].
    rewrite <- Hget. apply in_map, list_elem_of_In, find_all_in. split; [done|]. apply matches_wanted. exists j.
    split; [done|]. apply matches_operation; by rewrite Hget.
Qed.

(** Records that are known are answered without a further step. *)
Lemma steps_known fresh ut u role b known i records t s :
  (∀ r, r ∈ records → existsb (py_eqb (VStr (client_record_id r))) known = true) →
  steps fresh ut u role b known i records t s =
    (Ok (Tally (t_ok t ++ map client_record_id records) (t_conflicts t) (t_errors t)), s).
Proof.
  revert i t. induction records as [|r records IH]; intros i t Hk; cbn [sync_records map].
  { rewrite app_nil_r. by destruct t. }
  unfold sync_record at 1. rewrite Hk by left. erewrite bind_ok by done.
  rewrite IH by (intros; apply Hk; by right). cbn [t_ok t_conflicts t_errors]. by rewrite <- app_assoc.
Qed.
End retry.

Section retried_batch.
Context {R C : Type} `{Redis R} `{MongoLaws C}.
Context (clock : nat → Z) (strict_mode write_logs : bool) (object_id : string → option string).
Context (sha256 : string → string) (client_count_lines : client_attribute) (cl : client).
Context (env : string → option string) (collection_bool : outcome bool) (redis_clock : nat → Z) (faults : nat → fault).
Abbreviation batch := (sync_batch (R:=R) (C:=C) clock strict_mode write_logs object_id sha256 client_count_lines cl env
  collection_bool).
Abbreviation body := (sync_body_of_batch (R:=R) (C:=C) clock strict_mode write_logs object_id sha256 client_count_lines cl env
  collection_bool redis_clock faults).
Abbreviation operations w := (w_db w "idempotency_operations").
Abbreviation wanted ids := (QIn "operation_id" (map VStr ids)).

Lemma find_operations ids (s : redis_world R * (write_service * world C)) :
  on_service (on_world (db_find "idempotency_operations" (wanted ids))) s
    = (Ok (find_all (wanted ids) (operations (snd (snd s)))), s).
Proof. by destruct s as [? [? ?]]. Qed.

(** The records a batch answers as stored are stored. *)
Lemma body_stores fresh ut request u role b s t s' :
  body fresh ut request u role b s = (Ok t, s') →
  read_as (map client_record_id (q_records request)) (operations (snd (snd s')))
  ∧ ∀ j, j ∈ t_ok t → j ∈ map client_record_id (q_records request) ∧ stored j (operations (snd (snd s'))).
Proof.
  unfold sync_body_of_batch. rewrite <- (map_map client_record_id VStr). intros Hb.
  apply bind_ok_inv in Hb as (ops & s1 & Hf & Hb). rewrite find_operations in Hf. simplify_eq.
  apply bind_ok_inv in Hb as (known & s2 & Hkn & Hb). unfold lift in Hkn. simplify_eq.
  apply steps_store in Hb as [Hg Hk]. split; [by eapply Hg, known_read|]. intros j Hj.
  destruct (Hk j Hj) as [[]%not_elem_of_nil|[Hin [Hkn|Hst]]]; [|done]. split; [done|]. by eapply Hg, known_stored.
Qed.

(** A batch of stored records changes nothing. *)
Lemma body_known fresh ut request u role b s ids :
  read_as ids (operations (snd (snd s))) →
  (∀ r, r ∈ q_records request → client_record_id r ∈ ids ∧ stored (client_record_id r) (operations (snd (snd s)))) →
  body fresh ut request u role b s = (Ok (Tally (map client_record_id (q_records request)) [] []), s).
Proof.
  intros Hr Hall. unfold sync_body_of_batch. rewrite <- (map_map client_record_id VStr).
  erewrite bind_ok by apply find_operations.
  assert (read_as (map client_record_id (q_records request)) (operations (snd (snd s)))) as Hr'.
  { intros d i Hd (r & -> & Hin)%list_elem_of_fmap. apply Hr; [done|]. by apply Hall. }
  destruct (known_total _ _ Hr') as (known & Hk & Hknown). erewrite bind_ok by (unfold lift; by rewrite Hk).
  rewrite steps_known; [done|]. intros r Hin. apply Hknown; [|by apply Hall]. apply list_elem_of_fmap. eauto.
Qed.

Lemma limiter_error user time l e l' n d : batch_is_allowed user time l = (Raise e, l') → e ≠ HTTPException n d.
Proof.
  unfold batch_is_allowed, bind, lift, ret, min_time. intros Hl.
  destruct (_ <=? _); [|done]. by destruct (recent _ _ _) in Hl; simplify_eq.
Qed.

(** C20: a device that repeats records a batch has answered as stored, in whatever grouping, as any user, after any time:
    the repeated request changes neither the database nor the locks, and it answers every record as stored, unless it is
    refused before its records are read (limit, open circuit breaker, no records); it never fails with HTTP 500. *)
Theorem batch_retry_writes_nothing database_bool fresh ut now bt et request user s resp s'
    has_service fresh' ut' now' bt' et' request' user' o s'' :
  batch database_bool redis_clock faults fresh ut now bt et request user s = (Ok resp, s') →
  (∀ r, r ∈ q_records request' → client_record_id r ∈ b_ok resp) →
  batch (Ok has_service) redis_clock faults fresh' ut' now' bt' et' request' user' s' = (o, s'') →
  ss_world s'' = ss_world s' ∧ ss_redis s'' = ss_redis s'
  ∧ match o with
    | Ok resp' => b_ok resp' = map client_record_id (q_records request') ∧ b_conflicts resp' = [] ∧ b_errors resp' = []
                  ∧ b_failed_count resp' = 0
    | Raise e => ∀ detail, e ≠ HTTPException 500 detail
    end.
Proof.
  intros Hb Hall Hb'. apply batch_ok_body in Hb as (b & t & ws & Hb & ->). cbn [b_ok response] in Hall.
  apply body_stores in Hb as [Hr Hok]. cbn [snd] in Hr, Hok.
  assert (∀ u role, body fresh' ut' request' u role has_service (ss_redis s', (WriteService [] [], ss_world s'))
    = (Ok (Tally (map client_record_id (q_records request')) [] []), (ss_redis s', (WriteService [] [], ss_world s')))) as Hk
    by (intros; eapply body_known; [exact Hr | intros r Hin; by apply Hok, Hall]).
  unfold sync_batch in Hb'. destruct (batch_is_allowed _ _ _) as [[[[|] info]|e] lim] eqn:El; [|by simplify_eq|].
  2: { simplify_eq. split; [done|]. split; [done|]. intros d. by eapply limiter_error. }
  destruct (q_operations request'); [|by simplify_eq]. destruct (q_records request') as [|r0 rs] eqn:Hrs; [by simplify_eq|].
  destruct (get_circuit_breaker _ _ _) as [[c br] brs]. destruct (acquire c bt' br) as [permitted br'].
  destruct permitted; cbn [negb ss_redis ss_world] in Hb'; [|by simplify_eq].
  rewrite Hk in Hb'.
  cbn [ss_redis ss_world] in Hb'. simplify_eq. cbn [ss_redis ss_world]. do 2 (split; [done|]).
  unfold response. cbn [b_ok b_conflicts b_errors b_failed_count t_ok t_conflicts t_errors].
  split_and!; try done. rewrite length_map, Hrs. lia.
Qed.
End retried_batch.

(** ** What the batch does with its inputs *)

Section inputs.
Context {R C : Type} `{Redis R} `{Mongo C}.
Context (clock : nat → Z) (strict_mode write_logs : bool) (object_id : string → option string).
Context (sha256 : string → string) (client_count_lines : client_attribute) (cl : client).
Context (env : string → option string) (collection_bool : outcome bool) (redis_clock : nat → Z) (faults : nat → fault).

(** A database object that refuses a truth value (as the driver documents) lets
    no batch through: no record is read. *)
Lemma batch_needs_truth_value e fresh ut now bt et request user s o s' :
  sync_batch (R:=R) (C:=C) clock strict_mode write_logs object_id sha256 client_count_lines cl env collection_bool (Raise e)
    redis_clock faults fresh ut now bt et request user s = (o, s') →
  is_ok o = false ∧ ss_world s' = ss_world s ∧ ss_redis s' = ss_redis s.
Proof.
  unfold sync_batch. intros Hb. destruct (batch_is_allowed _ _ _) as [[[[|] info]|x] lim]; [|by simplify_eq..].
  destruct (q_operations request); [|by simplify_eq]. destruct (q_records request); [by simplify_eq|].
  destruct (get_circuit_breaker _ _ _) as [[c br] brs]. by simplify_eq.
Qed.

(** A serial conflict never carries the id of a record, so the line the record
    itself stored counts as another one. *)
Lemma serial_conflict_without_record serial code line (w : world C) d w' :
  find_serial_conflict serial code line w = (Ok (Some d), w') → get "client_record_id" d = VNone.
Proof.
  unfold find_serial_conflict. destruct (_normalize_string serial); [|by unfold ret].
  intros Hf. apply bind_ok_inv in Hf as (m & w1 & _ & Hf). cbv zeta in Hf.
  destruct (match m with Some _ => _ | None => _ end) eqn:E.
  { unfold ret in Hf. simplify_eq. destruct m; [|done]. destruct (other_line _ _); [|done]. by simplify_eq. }
  apply bind_ok_inv in Hf as ([m2|] & w2 & _ & Hf); [unfold ret in Hf; by simplify_eq|].
  apply bind_ok_inv in Hf as (m3 & w3 & _ & Hf). unfold ret in Hf. simplify_eq.
  destruct m3; [|done]. destruct (other_line _ _); [|done]. by simplify_eq.
Qed.

(** The lines of records are never recounts: a rejected line of the place stays
    and the record fails. *)
Lemma record_never_recounts id r u l f k serials qty fin app c0 u0 at' existing :
  can_reuse_rejected_count_line existing (line_document id r u l f k serials qty fin app c0 u0 at') = false.
Proof. unfold can_reuse_rejected_count_line. by rewrite orb_true_r. Qed.
End inputs.

(** The offset of a client's time is dropped, not converted. *)
Lemma client_offset_dropped :
  client_time "2026-03-01T10:00:00+05:30" = client_time "2026-03-01T10:00:00Z" ∧ is_ok (client_time "2026-03-01T10:00:00Z") = true.
Proof. vm_compute. auto. Qed.

(** ** A concrete batch *)

Definition example_record (id session : string) (damaged : Z) : SyncRecord :=
  MkRecord id session "L" "F" "R" None "I1" (of_Z 9) (of_Z damaged) [] None None None None None None [] None "partial"
    "2026-03-01T10:00:00Z" "2026-03-01T10:05:00Z".
Definition example_batch (fresh : string) (records : list SyncRecord) (s : sync_state RedisMap coll)
  : outcome BatchSyncResponse * sync_state RedisMap coll :=
  sync_batch no_clock false true (fun _ => None) (fun s => s) ACollection replica_client (fun _ => None) (Ok true) (Ok true)
    (fun _ => 0) (fun _ => NoFault) (fun i n => fresh) (fun _ => of_Z 0) 0 (of_Z 0) (of_Z 0)
    (Request records 0 None) [("username", VStr "staff1"); ("role", VStr "staff")] s.
Definition example_state : sync_state RedisMap coll :=
  SyncState BatchRateLimiter [] (RW ∅ 0) (count_world []).
Definition example_records : list SyncRecord :=
  [example_record "r1" "S1" 0; example_record "r2" "S1" 10; example_record "r3" "S9" 0].

Lemma example_batch_answered :
  match fst (example_batch "x" example_records example_state) with
  | Ok resp => b_ok resp = ["r1"] ∧ map c_record (b_conflicts resp) = ["r2"] ∧ map e_record (b_errors resp) = ["r3"]
  | Raise _ => False
  end.
Proof. vm_compute. auto. Qed.

Example batch_accounts_witness :
  ∃ resp, fst (example_batch "x" example_records example_state) = Ok resp
    ∧ map s_id (b_results resp) ≡ₚ ["r1"; "r2"; "r3"] ∧ b_failed_count resp = 2.
Proof.
  pose proof example_batch_answered as Hok. destruct (example_batch _ _ _) as [[resp|e] s'] eqn:E; [|destruct Hok]. unfold example_batch in E.
  destruct (batch_accounts _ _ _ _ _ _ _ _ _ _ _ _ _ _ _ _ _ _ _ _ _ _ E) as (Hids & _ & _ & _ & Hfailed & _).
  destruct Hok as (_ & Hc & He). exists resp. split; [done|]. split; [exact Hids|].
  apply (f_equal length) in Hc, He. rewrite length_map in Hc, He. rewrite Hfailed, Hc, He. reflexivity.
Defined.

Lemma example_retry_answered :
  match example_batch "x" example_records example_state with
  | (Ok _, s') => is_ok (fst (example_batch "y" [example_record "r1" "S1" 0] s')) = true
  | (Raise _, _) => False
  end.
Proof. vm_compute. reflexivity. Qed.

Example batch_retry_writes_nothing_witness :
  let s' := snd (example_batch "x" example_records example_state) in
  let again := example_batch "y" [example_record "r1" "S1" 0] s' in
  ss_world (snd again) = ss_world s' ∧ ∃ resp, fst again = Ok resp ∧ b_ok resp = ["r1"].
Proof.
  pose proof example_batch_answered as Hok. pose proof example_retry_answered as Hretry. cbv zeta.
  destruct (example_batch "x" _ _) as [[resp|e] s'] eqn:E; [|destruct Hok]. cbn [snd].
  destruct (example_batch "y" _ s') as [o s''] eqn:E'. cbn [fst snd] in *. destruct Hok as (Hok & _).
  unfold example_batch in E, E'.
  eassert (∀ r, r ∈ [example_record "r1" "S1" 0] → client_record_id r ∈ b_ok resp) as Hsent.
  { intros r Hr%list_elem_of_singleton. rewrite Hr, Hok. left. }
  destruct (batch_retry_writes_nothing _ _ _ _ _ _ _ _ _ _ _ _ _ _ _ _ _ _ _ _ _ _ _ _ _ _ _ _
    (Request [example_record "r1" "S1" 0] 0 None) _ _ _ E Hsent E') as (Hw & _ & Ho).
  split; [done|]. destruct o as [resp'|]; [|discriminate Hretry]. exists resp'. split; [done|]. by destruct Ho.
Defined.
