(* ===== verification/LineTransition.v ===== *)
(** A count line's change of state, [CountLineStateMachine.transition] of
    [services/count_state_machine.py]: the permission of the table
    ([StateMachines]), the write through the count-line write service
    ([CountLines]) and the entry in the activity log. *)

From stdpp Require Import sets.
From S2P Require Import Prelude PyFloat Py Json Store ListStore Guard Inventory Uow Frame Lifecycle LifecycleSpec StateMachines.
From S2P Require Import Quantity Variance CountLines CountLineSpec Events SyncConflicts SyncConflictSpec.

Local Open Scope Z_scope.
Local Open Scope stock_scope.

Section transition.
Context {C : Type} `{Mongo C}.
Context (clock : nat → Z) (strict_mode write_logs : bool) (object_id : string → option string).
Context (sha256 : string → string) (client_count_lines : client_attribute) (cl : client).
Abbreviation W := (write_service * world C)%type.

(** The fields of the new state; [at_time] is read when they have a time. *)
Definition state_fields (next_state user_id : string) (reason : option string) (at_time : Z) : doc :=
  if String.eqb next_state (state_text SUBMITTED) then [("submitted_at", VTime at_time); ("submitted_by", VStr user_id)]
  else if String.eqb next_state (state_text APPROVED) then
    [("approved_at", VTime at_time); ("approved_by", VStr user_id); ("approval_reason", opt_str reason)]
  else if String.eqb next_state (state_text REJECTED) then
    [("rejected_at", VTime at_time); ("rejected_by", VStr user_id); ("rejection_reason", opt_str reason)]
  else if String.eqb next_state (state_text LOCKED) then [("locked_at", VTime at_time); ("locked_by", VStr user_id)]
  else [].

Definition metadata_fields (metadata : doc) : doc :=
  match metadata with
  | [] => []
  | _ => ("state_metadata", VDict metadata)
         :: match aget "assigned_to" metadata with Some v => [("assigned_to", v)] | None => [] end
  end.

Definition update_data (next_state user_id : string) (reason : option string) (metadata : doc) (now at_time : Z) : doc :=
  [("status", VStr next_state); ("updated_at", VTime now); ("updated_by", VStr user_id)]
  ++ state_fields next_state user_id reason at_time ++ metadata_fields metadata.

Definition transition_entry (count_line_id : string) (from_state : val) (to_state user_id user_role : string)
    (reason : option string) (metadata : option doc) (now : Z) : doc :=
  [("user_id", VStr user_id); ("action", VStr "count_line_state_transition"); ("resource_type", VStr "count_line");
   ("resource_id", VStr count_line_id);
   ("metadata", VDict [("from_state", from_state); ("to_state", VStr to_state); ("user_role", VStr user_role);
                       ("reason", opt_str reason);
                       ("additional_metadata", match metadata with Some d => VDict d | None => VNone end)]);
   ("timestamp", VTime now)].

Definition _log_transition (count_line_id : string) (from_state : val) (to_state user_id user_role : string)
    (reason : option string) (metadata : option doc) : M (world C) unit :=
  do now <- utc_now clock ;;
  do _ <- db_insert_one "activity_logs" (transition_entry count_line_id from_state to_state user_id user_role reason metadata now) ;;
  ret tt.

Record transition_result := Transitioned { previous_state : val; new_state : string; transitioned_at : Z }.

(** [transition]; the caches of its write service are its own. *)
Definition transition (count_line_id next_state user_id user_role : string) (reason : option string)
    (metadata : option doc) : M W transition_result :=
  do line <- on_world (db_find_one "count_lines" (QEq "id" (VStr count_line_id))) ;;
  match line with
  | None | Some [] => raise (ValueError ("Count line " +:+ count_line_id +:+ " not found"))
  | Some count_line =>
      let current_state := current_status count_line in
      run raise_if (negb (can_transition current_state (VStr next_state) user_role))
            (ValueError ("Transition from " +:+ to_str current_state +:+ " to " +:+ next_state
                         +:+ " not allowed for role " +:+ user_role)) ;;
      do now <- on_world (utc_now clock) ;;
      do at_time <- on_world (utc_now clock) ;;
      do _ <- process_write clock strict_mode write_logs object_id sha256 client_count_lines cl false
        (Payload "update_one" None (Some (QEq "id" (VStr count_line_id)))
           (Some (USet (update_data next_state user_id reason (default [] metadata) now at_time))) false)
        [("session_id", VStr (to_str (por (get "session_id" count_line) (VStr "")))); ("username", VStr user_id)] ;;
      run on_world (_log_transition count_line_id current_state next_state user_id user_role reason metadata) ;;
      ret (Transitioned current_state next_state now)
  end.
End transition.

(** ** Only permitted transitions write *)

Section permitted.
Context {C : Type} `{MongoLaws C}.
Context (clock : nat → Z) (strict_mode write_logs : bool) (object_id : string → option string).
Context (sha256 : string → string) (client_count_lines : client_attribute) (cl : client).
Implicit Types (w : world C) (s : write_service).

Abbreviation move := (transition (C:=C) clock strict_mode write_logs object_id sha256 client_count_lines cl).

Lemma log_transition_ok lid from to uid role reason md w o w' :
  _log_transition (C:=C) clock lid from to uid role reason md w = (o, w') →
  (∀ n, n ≠ "activity_logs" → w_db w' n = w_db w n) ∧
  match o with
  | Ok _ => ∃ i now, contents (w_db w' "activity_logs") ≡ₚ
      bson_doc (setdefault "_id" i (transition_entry lid from to uid role reason md now)) :: contents (w_db w "activity_logs")
  | Raise _ => w_db w' "activity_logs" = w_db w "activity_logs"
  end.
Proof.
  intros Hm. split.
  { intros n Hn. eapply (frame_db ["activity_logs"]); [|exact Hm|apply str_in_false; set_solver].
    unfold _log_transition. solve_frame. }
  unfold _log_transition, bind at 1, utc_now in Hm. cbv beta iota in Hm. unfold bind in Hm.
  destruct (db_insert_one _ _ _) as [[d|e] w1] eqn:Ei.
  - unfold ret in Hm. simplify_eq. apply insert_one_ok in Ei as (i & c & Hi & _ & ->). cbn [w_db tick] in Hi.
    apply insert_one_spec in Hi as [Hc _]. exists i, (clock (w_tick w)). by rewrite set_coll_same, Hc.
  - simplify_eq. by apply insert_one_raise in Ei as ->.
Qed.

(** A count line changes its state only along the table. Without the line,
    or when the table does not let the role make the move, the request raises
    and changes nothing at all; otherwise only the collections of a count-line
    write and the activity log can change, and exactly a transition that
    succeeds is logged, once, with the states it led between. *)
Theorem line_transition_permitted lid next uid role reason md s w o s' w' :
  move lid next uid role reason md (s, w) = (o, (s', w')) →
  match find_one (QEq "id" (VStr lid)) (w_db w "count_lines") with
  | None => (∃ msg, o = Raise (ValueError msg)) ∧ (s', w') = (s, w)
  | Some line =>
      if can_transition (current_status line) (VStr next) role then
        (∀ n, str_in n ("activity_logs" :: write_collections) = false → w_db w' n = w_db w n) ∧
        match o with
        | Ok r => previous_state r = current_status line ∧ new_state r = next ∧
            ∃ i now, contents (w_db w' "activity_logs") ≡ₚ
              bson_doc (setdefault "_id" i (transition_entry lid (current_status line) next uid role reason md now))
              :: contents (w_db w "activity_logs")
        | Raise _ => w_db w' "activity_logs" = w_db w "activity_logs"
        end
      else (∃ msg, o = Raise (ValueError msg)) ∧ (s', w') = (s, w)
  end.
Proof.
  intros Hm. unfold transition, bind at 1, on_world at 1, db_find_one, gets in Hm. cbn [snd fst] in Hm.
  destruct (find_one _ _) as [line|] eqn:El.
  2: { unfold raise in Hm. simplify_eq. eauto. }
  apply find_one_some in El as [_ Hline]. destruct line as [|kv line'].
  { by rewrite matches_eq_str in Hline. }
  set (line := kv :: line') in *. unfold bind at 1, raise_if in Hm.
  destruct (can_transition (current_status line) (VStr next) role).
  2: { unfold raise in Hm. cbn [negb] in Hm. simplify_eq. eauto. }
  cbn [negb] in Hm. unfold ret at 1 in Hm. cbv beta iota in Hm.
  unfold bind at 1, on_world at 1, utc_now at 1 in Hm. cbn [snd fst] in Hm. cbv beta iota in Hm.
  unfold bind at 1, on_world at 1, utc_now at 1 in Hm. cbn [snd fst] in Hm. cbv beta iota in Hm.
  unfold bind at 1 in Hm. destruct (process_write _ _ _ _ _ _ _ _ _ _ _) as [[r|e] [s1 w1]] eqn:Ew;
    pose proof (sframe_write (C:=C) clock strict_mode write_logs object_id sha256 client_count_lines cl _ _ _ _ _ _ Ew) as [Hf _];
    cbn [snd fst] in Hf.
  - unfold bind, on_world in Hm. cbn [snd fst] in Hm.
    destruct (_log_transition _ _ _ _ _ _ _ _ w1) as [ol wl] eqn:Elog. apply log_transition_ok in Elog as [Hother Hlog].
    assert (w_db w1 "activity_logs" = w_db w "activity_logs") as Hact by (rewrite Hf; [done|by apply str_in_false]).
    rewrite Hact in Hlog.
    assert (∀ n, str_in n ("activity_logs" :: write_collections) = false → w_db wl n = w_db w n) as Hall.
    { intros n Hn%str_in_false. rewrite not_elem_of_cons in Hn. destruct Hn as [Hn1 Hn2].
      rewrite Hother by done. by rewrite Hf. }
    destruct ol as [u|e]; unfold ret in Hm; simplify_eq; (split; [exact Hall|]); [|exact Hlog].
    split; [done|]. split; [done|]. exact Hlog.
  - simplify_eq. split.
    + intros n Hn%str_in_false. rewrite not_elem_of_cons in Hn. destruct Hn as [_ Hn]. by rewrite Hf.
    + rewrite Hf; [done|by apply str_in_false].
Qed.
End permitted.

(** ** Concrete transitions *)

Definition line_in (status : string) (more : doc) : doc :=
  [("_id", VOid "l1"); ("id", VStr "L1"); ("status", VStr status)] ++ example_line (VInt 9) more.
Definition example_transition (next_state role : string) (w : world coll) :=
  transition no_clock false true (fun _ => None) (fun s => s) ACollection replica_client "L1" next_state "u" role None None
    (WriteService [] [], w).

Lemma example_pending :
  find_one (QEq "id" (VStr "L1")) (w_db (count_world [line_in "pending_approval" []]) "count_lines")
    = Some (line_in "pending_approval" []).
Proof. vm_compute. reflexivity. Qed.

Lemma example_staff_refused : can_transition (current_status (line_in "pending_approval" [])) (VStr "approved") "staff" = false.
Proof. vm_compute. reflexivity. Qed.

Example line_transition_permitted_witness :
  let w := count_world [line_in "pending_approval" []] in
  snd (snd (example_transition "approved" "staff" w)) = w.
Proof.
  cbv zeta. pose proof example_pending as Hl. pose proof example_staff_refused as Hr.
  assert (∃ w, w = count_world [line_in "pending_approval" []]) as [w Hw] by eauto. rewrite <- Hw in *.
  assert (∃ l, l = line_in "pending_approval" []) as [l Hline] by eauto. rewrite <- Hline in *.
  destruct (example_transition "approved" "staff" w) as [o [s' w']] eqn:E. unfold example_transition in E.
  pose proof (line_transition_permitted no_clock false true (fun _ => None) (fun s => s) ACollection replica_client
    "L1" "approved" "u" "staff" None None (WriteService [] []) w o s' w' E) as Ht.
  rewrite Hl, Hr in Ht. destruct Ht as [_ Heq]. by injection Heq as _ ->.
Defined.

(** An approval by the state machine leaves [approval_status] as it was: a line
    under review stays one of the lines that block the finalization. *)
Lemma approved_line_still_blocks :
  let w := count_world [line_in "pending_approval" [("approval_status", VStr "NEEDS_REVIEW")]] in
  let '(r, (_, w')) := example_transition "approved" "supervisor" w in
  (is_ok r, map (get "status") (w_db w' "count_lines"), is_ok (fst (_assert_session_ready_to_finalize "S1" w')))
    = (true, [VStr "approved"], false).
Proof. vm_compute. reflexivity. Qed.
