(* ===== verification/LineActions.v ===== *)
(** What supervisors and counters do to the count lines of an open session,
    [api/count_lines_routes.py]: verify, approve, reject, add a quantity, edit,
    delete and merge, and the bulk decisions.  Each route finds the line, checks
    that it and its session may still change, enforces the logic of the session
    ([LogicGuard]), writes through the count-line write service ([CountLines])
    and recomputes the totals of the session.

    Services that only tell others (dashboards, notifications, activity and audit
    logs) are outside the model: a call is an event of the world, and [answers]
    says whether it raises.  [has_activity_log] is whether the application has
    set the log service. *)

From Stdlib Require Import Ascii.
From S2P Require Import Prelude PyFloat Py PyTime Store Guard Inventory Uow Frame Lifecycle Quantity Variance CountLines Flags LogicGuard.

Local Open Scope Z_scope.
Local Open Scope stock_scope.

Definition http (status : Z) (detail : string) : exn := HTTPException status (VStr detail).

(** [role not in {"supervisor", "admin"}] for a set, and for a list. *)
Definition role_in_set (user : doc) : outcome bool :=
  let role := get "role" user in
  if negb (hashable role) then Raise (TypeError "unhashable type")
  else Ok (existsb (py_eqb role) [VStr "supervisor"; VStr "admin"]).
Definition role_in_list (user : doc) : outcome bool :=
  obind (item "role" user) (fun role => Ok (existsb (py_eqb role) [VStr "supervisor"; VStr "admin"])).

(** ** The totals of a session, [recompute_session_totals] of the canonical
    inventory *)

(** A time of a line: a datetime, a number of seconds, a text. *)
Definition activity_time (v : val) : outcome (option Z) :=
  match v with
  | VTime t => Ok (Some t)
  | VStr s => Ok (naive_time s)
  | VBool _ | VInt _ | VFloat _ =>
      obind (to_float v) (fun x =>
        match x with
        | SpecFloat.S754_nan => Ok None
        | SpecFloat.S754_infinity _ => Raise (OverflowError "cannot convert float infinity to integer")
        | _ => if Z.abs (trunc x) <? 2 ^ 63 then Ok (fromtimestamp x)
               else Raise (OverflowError "timestamp out of range for platform time_t")
        end)
  | _ => Ok None
  end.

(** One line of the loop. *)
Definition recompute_line (t : totals) (line : doc) : outcome totals :=
  if is_superseded_count_line line then Ok t
  else
    obind (to_float (por (get "variance" line) (VFloat f0))) (fun variance =>
    obind (to_float (por (get "damaged_qty" line) (VFloat f0))) (fun damaged_qty =>
    obind (to_int (VFloat damaged_qty)) (fun damaged =>
    obind (activity_time (por (get "updated_at" line) (por (get "approved_at" line) (get "counted_at" line)))) (fun candidate =>
    Ok (Totals (t_items t + 1) (fadd (t_variance t) variance)
          (if is_count_line_effectively_reviewed line then t_verified t + 1 else t_verified t)
          (t_damage t + damaged) (later (t_last t) candidate)))))).

Fixpoint recompute_lines (t : totals) (lines : list doc) : outcome totals :=
  match lines with
  | [] => Ok t
  | line :: rest => obind (recompute_line t line) (fun t' => recompute_lines t' rest)
  end.

Definition recomputed (t : totals) : doc :=
  [("total_items", VInt (t_items t)); ("total_variance", VFloat (t_variance t));
   ("verified_items", VInt (t_verified t)); ("pending_items", VInt (Z.max (t_items t - t_verified t) 0));
   ("damage_items", VInt (t_damage t))]
  ++ match t_last t with Some l => [("last_activity", VTime l)] | None => [] end.

(** A request body, when there is one. *)
Record CountLineApprovalRequest := Approval { a_notes : option string }.
Record CountLineRejectRequest := Reject { r_notes : option string; assign_to : option string }.
Record AddQuantityRequest := AddQuantity { additional_qty : float; aq_batches : option (list doc) }.
Record CountLineUpdateRequest := UpdateRequest { u_counted_qty : option float; u_batches : option (list doc) }.
Record CountLineMergeRequest := MergeRequest { source_line_ids : list string; target_line_id : string; keep_target_qty : bool }.

Definition batches_field (batches : option (list doc)) : doc :=
  match batches with Some l => [("batches", VList (map VDict l))] | None => [] end.

Section routes.
Context {C : Type} `{Mongo C}.
Context (clock : nat → Z) (strict_mode write_logs : bool) (object_id : string → option string).
Context (sha256 : string → string) (client_count_lines : client_attribute) (cl : client).
Context (parse_flag : Z → Z → doc → option FeatureFlag) (database_bool : outcome bool).
Context (answers : event → outcome unit) (has_activity_log : bool).

Definition recompute_session_totals (session_id : string) : M (world C) doc :=
  do cursor <- db_find "count_lines" (session_lines session_id) ;;
  do t <- lift (recompute_lines totals0 cursor) ;;
  run Lifecycle.update_session_totals clock session_id (recomputed t) None "system" true ;;
  ret (recomputed t).

(** A write service of the request, with empty caches. *)
Definition with_service {A} (m : M (write_service * world C) A) : M (world C) A := fun w =>
  let '(o, (_, w')) := m (WriteService [] [], w) in (o, w').

Definition write (p : payload) (context : doc) : M (write_service * world C) write_result :=
  process_write clock strict_mode write_logs object_id sha256 client_count_lines cl false p context.

(** A call of a service outside the model. *)
Definition call (name : string) (args : list val) : M (world C) unit :=
  run emit (Ev name args) ;; lift (answers (Ev name args)).

(** Any exception but an HTTP one is a failure of the server. *)
Definition internal_error {A} (detail : string) (m : M (world C) A) : M (world C) A :=
  try_except m (fun e => match e with HTTPException _ _ => raise e | _ => raise (http 500 detail) end).

Definition _require_supervisor (current_user : doc) : M (world C) unit :=
  do b <- lift (role_in_set current_user) ;; raise_if (negb b) (http 403 "Supervisor access required").

Definition _get_mutable_session_or_409 (session_id : string) : M (world C) doc :=
  do session <- find_session session_id ;;
  match session with
  | None | Some [] => raise (http 404 ("Session " +:+ session_id +:+ " not found"))
  | Some d =>
      run raise_if (is_session_finalized d) (http 409 "Session is finalized and cannot be modified") ;;
      ret d
  end.

(** The session as the pin leaves the dict. *)
Definition _enforce_count_line_session_logic (session : doc) (request : option http_request) (current_user : doc)
    (operation_name : string) : M (world C) doc :=
  do ' (_, pinned_session) <- enforce_session_logic clock parse_flag sha256 database_bool (Some session)
    (build_request_context request (Some current_user) "count_lines_routes" operation_name
       (VStr (to_str (por (get "id" session) (por (get "session_id" session) (VStr "")))))
       (get "warehouse" session)) true ;;
  ret (default session pinned_session).

Definition session_of (count_line : doc) : string := to_str (por (get "session_id" count_line) (VStr "")).

Definition _enforce_count_line_logic_from_line (count_line : doc) (request : option http_request) (current_user : doc)
    (operation_name : string) : M (world C) unit :=
  run raise_if (String.eqb (session_of count_line) "") (http 409 "Count line is missing session context") ;;
  do session <- _get_mutable_session_or_409 (session_of count_line) ;;
  do _ <- _enforce_count_line_session_logic session request current_user operation_name ;;
  ret tt.

Definition _ensure_count_line_mutable (count_line : doc) : M (world C) doc :=
  run raise_if (is_count_line_locked count_line) (http 409 "Count line is finalized and cannot be modified") ;;
  do active_session <- find_session (session_of count_line) ;;
  run raise_if (match active_session with Some d => is_session_finalized d | None => false end)
        (http 409 "Session is finalized and cannot be modified") ;;
  ret (default [] active_session).

(** By [id], or by the [ObjectId] the text reads as. *)
Definition _find_count_line (line_id : string) : M (world C) (option doc) :=
  do count_line <- db_find_one "count_lines" (QEq "id" (VStr line_id)) ;;
  match count_line with
  | Some ((_ :: _) as d) => ret (Some d)
  | _ => match object_id line_id with
         | Some oid => db_find_one "count_lines" (QEq "_id" (VOid oid))
         | None => ret None
         end
  end.

(** The line of a request, with its session: both may still change, and the
    logic of the session is the one to run. *)
Definition open_line (line_id : string) (request : option http_request) (current_user : doc) (operation_name : string)
  : M (world C) (doc * doc) :=
  do count_line <- _find_count_line line_id ;;
  match count_line with
  | None | Some [] => raise (http 404 "Count line not found")
  | Some d =>
      do session <- _ensure_count_line_mutable d ;;
      run _enforce_count_line_logic_from_line d request current_user operation_name ;;
      ret (d, session)
  end.

Definition _broadcast_dashboard_refresh (event session_id : string) (session_ids : list string) (count_line : doc)
  : M (world C) unit :=
  try_except
    (do now <- utc_now clock ;;
     call "manager.broadcast_to_roles" [VDict (
       [("event", VStr event); ("timestamp", VStr (isoformat "T" now))]
       ++ (if String.eqb session_id "" then [] else [("session_id", VStr session_id)])
       ++ match session_ids with [] => [] | _ => [("session_ids", VList (map VStr session_ids))] end
       ++ match count_line with
          | [] => []
          | _ => [("count_line_id", VStr (to_str (por (get "id" count_line) (VStr "")))); ("item_code", get "item_code" count_line);
                  ("item_name", get "item_name" count_line)]
          end)])
    (fun _ => ret tt).

Definition log_activity (current_user : doc) (action : string) (entity_id : string) : M (world C) unit :=
  when has_activity_log
    (do user <- lift (item "username" current_user) ;;
     call "activity_log.log_activity" [user; dget "role" (VStr "") current_user; VStr action; VStr entity_id]).

(** ** Verification *)

Definition mutable_context (count_line : doc) : doc :=
  [("session_id", VStr (session_of count_line)); ("governance_mode", VStr "mutable_session")].

(** The update of the found line with the fields [set_doc]. *)
Definition update_line (id : val) (set_doc : doc) : payload :=
  Payload "update_one" None (Some (QEq "_id" id)) (Some (USet set_doc)) false.

(** [result.modified_count == 0] *)
Definition none_modified (r : write_result) : outcome bool :=
  match r with RCount n => Ok (n =? 0) | _ => Raise (AttributeError "modified_count") end.

Definition verified_fields (username : val) (now : Z) : doc :=
  [("verified", VBool true); ("verified_by", username); ("verified_at", VTime now)].
Definition unverified_fields : doc := [("verified", VBool false); ("verified_by", VNone); ("verified_at", VNone)].

(** What follows the write of a verification. *)
Definition verification_written (result : write_result) (count_line current_user : doc) (line_id event action : string)
  : M (world C) unit :=
  do none <- lift (none_modified result) ;;
  run raise_if none (http 404 "Count line not found") ;;
  do _ <- recompute_session_totals (session_of count_line) ;;
  run _broadcast_dashboard_refresh event (session_of count_line) [] count_line ;;
  log_activity current_user action line_id.

Definition verify_stock (line_id : string) (current_user : doc) (request : option http_request) : M (world C) doc :=
  run _require_supervisor current_user ;;
  do ' (count_line, _) <- open_line line_id request current_user "verify_stock" ;;
  run raise_if (negb (count_line_requires_supervisor_review count_line))
        (http 409 "Only variance items require supervisor verification") ;;
  do id <- lift (item "_id" count_line) ;;
  do username <- lift (item "username" current_user) ;;
  do now <- utc_now clock ;;
  do result <- with_service (write (update_line id (verified_fields username now)) (mutable_context count_line)) ;;
  run verification_written result count_line current_user line_id "count_line_verified" "verify_stock" ;;
  ret [("message", VStr "Stock verified"); ("verified", VBool true)].

Definition unverify_stock (line_id : string) (current_user : doc) (request : option http_request) : M (world C) doc :=
  run _require_supervisor current_user ;;
  do ' (count_line, _) <- open_line line_id request current_user "unverify_stock" ;;
  do id <- lift (item "_id" count_line) ;;
  do result <- with_service (write (update_line id unverified_fields) (mutable_context count_line)) ;;
  run verification_written result count_line current_user line_id "count_line_unverified" "unverify_stock" ;;
  ret [("message", VStr "Stock verification removed"); ("verified", VBool false)].

(** ** Decisions *)

(** The matched count of the update: whether its filter selects a line when it
    runs.  Nothing before it in the write touches the count lines. *)
Definition write_matched (p : payload) (context : doc) : M (world C) Z :=
  do selected <- db_find_one "count_lines" (default (QAnd []) (p_filter p)) ;;
  do _ <- with_service (write p context) ;;
  ret (match selected with Some _ => 1 | None => 0 end).

Definition approved_fields (username : val) (now : Z) (request : option CountLineApprovalRequest) : doc :=
  [("status", VStr "approved"); ("approval_status", VStr "APPROVED"); ("approved_by", username);
   ("approved_at", VTime now); ("approval_note", match request with Some r => opt_str (a_notes r) | None => VNone end);
   ("rejection_reason", VNone); ("assigned_to", VNone)].

Definition owner_of (count_line : doc) : val := por (get "counted_by" count_line) (get "created_by" count_line).

(** What a notification says of the line. *)
Definition notice (count_line : doc) (line_id : string) : list val :=
  [VStr (to_str (dget "id" (VStr line_id) count_line)); dget "item_name" (VStr "Unknown") count_line;
   get "session_id" count_line; get "item_code" count_line; get "barcode" count_line].

Definition approve_count_line (line_id : string) (request : option CountLineApprovalRequest) (current_user : doc)
    (http_request : option http_request) : M (world C) doc :=
  do b <- lift (role_in_list current_user) ;;
  run raise_if (negb b) (http 403 "Insufficient permissions") ;;
  internal_error "Failed to approve count line" (
    do ' (count_line, _) <- open_line line_id http_request current_user "approve_count_line" ;;
    do approved_at <- utc_now clock ;;
    do id <- lift (item "_id" count_line) ;;
    do username <- lift (item "username" current_user) ;;
    do matched <- write_matched (update_line id (approved_fields username approved_at request)) (mutable_context count_line) ;;
    run raise_if (matched =? 0) (http 404 "Count line not found") ;;
    do _ <- recompute_session_totals (session_of count_line) ;;
    run _broadcast_dashboard_refresh "count_line_approved" (session_of count_line) [] count_line ;;
    run when (truthy (owner_of count_line))
          (call "notify_count_approved" ([owner_of count_line; username] ++ notice count_line line_id)) ;;
    run try_except (call "audit_service.log_event" [VStr "STOCK_COUNT_SUBMITTED"; username; VStr line_id; VStr "approve_count_line"])
          (fun _ => ret tt) ;;
    ret [("success", VBool true); ("message", VStr "Count line approved")]).

Definition rejected_fields (username : val) (now : Z) (rejection_reason : string) (assigned_to : val) : doc :=
  [("status", VStr "rejected"); ("approval_status", VStr "REJECTED"); ("rejected_by", username);
   ("rejected_at", VTime now); ("verified", VBool false); ("verified_by", VNone); ("verified_at", VNone);
   ("rejection_reason", VStr rejection_reason); ("recount_requested_at", VTime now);
   ("recount_requested_by", username); ("assigned_to", assigned_to)].

Definition assignee (request : option CountLineRejectRequest) (count_line : doc) : val :=
  por (match request with Some r => opt_str (assign_to r) | None => VNone end) (owner_of count_line).
Definition rejection_reason_of (request : option CountLineRejectRequest) : string :=
  match request with
  | Some r => match r_notes r with
              | Some s => if String.eqb s "" then "Supervisor requested recount" else s
              | None => "Supervisor requested recount"
              end
  | None => "Supervisor requested recount"
  end.

(** The owner hears of the rejection when the recount goes to somebody else. *)
Definition notify_rejection (count_line : doc) (line_id reason : string) (username assigned_to : val) : M (world C) unit :=
  let owner := owner_of count_line in
  let args := VStr reason :: notice count_line line_id in
  let assigned := call "notify_recount_assigned" ([assigned_to; username] ++ args) in
  if truthy owner && truthy assigned_to && negb (py_eqb assigned_to owner)
  then run call "notify_count_rejected" ([owner; username] ++ args) ;; assigned
  else when (truthy assigned_to) assigned.

Definition reject_count_line (line_id : string) (request : option CountLineRejectRequest) (current_user : doc)
    (http_request : option http_request) : M (world C) doc :=
  do b <- lift (role_in_list current_user) ;;
  run raise_if (negb b) (http 403 "Insufficient permissions") ;;
  internal_error "Failed to reject count line" (
    do ' (count_line, _) <- open_line line_id http_request current_user "reject_count_line" ;;
    do rejected_at <- utc_now clock ;;
    let assigned_to := assignee request count_line in
    let rejection_reason := rejection_reason_of request in
    do id <- lift (item "_id" count_line) ;;
    do username <- lift (item "username" current_user) ;;
    do matched <- write_matched (update_line id (rejected_fields username rejected_at rejection_reason assigned_to))
          (mutable_context count_line) ;;
    run raise_if (matched =? 0) (http 404 "Count line not found") ;;
    do _ <- recompute_session_totals (session_of count_line) ;;
    run _broadcast_dashboard_refresh "count_line_rejected" (session_of count_line) [] count_line ;;
    run notify_rejection count_line line_id rejection_reason username assigned_to ;;
    ret [("success", VBool true); ("message", VStr "Count line rejected"); ("assigned_to", assigned_to)]).

(** ** Edits *)

Definition first_item (q : query) : M (world C) (option doc) :=
  do found <- db_find_one "erp_items" q ;;
  ret (match found with Some ((_ :: _) as d) => Some d | _ => None end).

(** By barcode, by code, or what the line knows of the item. *)
Definition _get_erp_item_for_existing_count_line (count_line : doc) : M (world C) doc :=
  let barcode := get "barcode" count_line in
  let item_code := get "item_code" count_line in
  do by_barcode <- (if truthy barcode then first_item (QEq "barcode" barcode) else ret None) ;;
  match by_barcode with
  | Some d => ret d
  | None =>
      do by_code <- (if truthy item_code then first_item (QEq "item_code" item_code) else ret None) ;;
      match by_code with
      | Some d => ret d
      | None =>
          ret [("item_code", item_code); ("item_name", get "item_name" count_line);
               ("category", get "category_correction" count_line); ("mrp", get "mrp_erp" count_line);
               ("sale_price", get "mrp_erp" count_line); ("sales_price", get "mrp_erp" count_line)]
      end
  end.

(** Counters change their own lines only. *)
Definition check_owner (count_line current_user : doc) : M (world C) unit :=
  do privileged <- lift (role_in_set current_user) ;;
  raise_if (negb privileged && negb (py_eqb (get "counted_by" count_line) (get "username" current_user)))
    (http 403 "Not authorized to modify this count line").

(** The line as it was read: at its version, when it has one. *)
Definition read_line_filter (id : val) (count_line : doc) : query :=
  match aget "version" count_line with
  | Some v => QAnd [QEq "_id" id; QEq "version" v]
  | None => QEq "_id" id
  end.

Definition edit_context (session : doc) (erp_item : val) (count_line current_user : doc) : doc :=
  [("session", VDict session); ("erp_item", erp_item); ("username", get "username" current_user);
   ("variance_reason", get "variance_reason" count_line); ("correction_reason", get "correction_reason" count_line);
   ("location", VStr (to_str (por (get "floor_no" count_line) (VStr ""))))].

(** The updated line, or a conflict. *)
Definition updated_line (result : write_result) (detail : string) : M (world C) doc :=
  match result with
  | RFound (Some ((_ :: _) as d)) => ret d
  | _ => raise (http 409 detail)
  end.

(** The totals after an edit; a failure is logged. *)
Definition totals_after_edit (count_line shown : doc) (event : string) : M (world C) unit :=
  do recomputed <- try_except (do _ <- recompute_session_totals (session_of count_line) ;; ret true) (fun _ => ret false) ;;
  when recomputed (_broadcast_dashboard_refresh event (session_of count_line) [] shown).

Definition add_quantity_to_count_line (line_id : string) (payload : AddQuantityRequest) (current_user : doc)
    (request : option http_request) : M (world C) doc :=
  do ' (count_line, session) <- open_line line_id request current_user "add_quantity_to_count_line" ;;
  run raise_if (feq (additional_qty payload) f0) (http 400 "additional_qty must be non-zero") ;;
  run check_owner count_line current_user ;;
  do erp_item <- _get_erp_item_for_existing_count_line count_line ;;
  do now <- utc_now clock ;;
  let set_data := [("updated_at", VTime now); ("updated_by", get "username" current_user)] ++ batches_field (aq_batches payload) in
  do id <- lift (item "_id" count_line) ;;
  do result <- with_service (write
    (Payload "find_one_and_update" None (Some (read_line_filter id count_line))
       (Some (Upd set_data [("counted_qty", VFloat (additional_qty payload)); ("variance", VFloat (additional_qty payload));
                            ("version", VInt 1)] [] [])) true)
    (edit_context session (VDict erp_item) count_line current_user)) ;;
  do updated <- updated_line result "Count line was modified concurrently or not found" ;;
  run totals_after_edit count_line updated "count_line_quantity_updated" ;;
  ret [("success", VBool true); ("message", VStr "Quantity added successfully");
       ("data", VDict [("counted_qty", get "counted_qty" updated); ("updated_at", get "updated_at" updated);
                       ("updated_by", get "updated_by" updated); ("batches", get "batches" updated)]);
       ("financial_impact", get "financial_impact" updated)].

Definition update_count_line (line_id : string) (payload : CountLineUpdateRequest) (current_user : doc)
    (request : option http_request) : M (world C) doc :=
  do ' (count_line, session) <- open_line line_id request current_user "update_count_line" ;;
  run raise_if (match u_counted_qty payload, u_batches payload with None, None => true | _, _ => false end)
        (http 400 "No updatable fields provided") ;;
  run check_owner count_line current_user ;;
  do ' (update_data, erp_item) <-
    match u_counted_qty payload with
    | Some new_counted_qty =>
        do erp_item <- _get_erp_item_for_existing_count_line count_line ;;
        do erp_qty <- lift (to_float (por (get "stock_qty" erp_item) (por (get "erp_qty" count_line) (VInt 0)))) ;;
        do now <- utc_now clock ;;
        ret ([("counted_qty", VFloat new_counted_qty); ("variance", VFloat (fsub new_counted_qty erp_qty));
              ("updated_at", VTime now); ("updated_by", get "username" current_user)], VDict erp_item)
    | None =>
        do now <- utc_now clock ;;
        ret ([("updated_at", VTime now); ("updated_by", get "username" current_user)], VNone)
    end ;;
  let update_data := update_data ++ batches_field (u_batches payload) in
  do id <- lift (item "_id" count_line) ;;
  do result <- with_service (write
    (Payload "find_one_and_update" None (Some (read_line_filter id count_line))
       (Some (Upd update_data [("version", VInt 1)] [] [])) true)
    (edit_context session erp_item count_line current_user)) ;;
  do _ <- updated_line result "Document version conflict or document not found" ;;
  run totals_after_edit count_line count_line "count_line_updated" ;;
  ret [("success", VBool true); ("message", VStr "Count line updated successfully"); ("data", VDict update_data)].

Definition _recalculate_session_stats (session_id : string) : M (world C) unit :=
  try_except (do _ <- recompute_session_totals session_id ;; ret tt) (fun _ => ret tt).

Definition delete_count_line (line_id : string) (current_user : doc) (request : option http_request) : M (world C) doc :=
  do b <- lift (role_in_list current_user) ;;
  run raise_if (negb b) (http 403 "Insufficient permissions") ;;
  internal_error "Failed to delete count line" (
    do ' (count_line, _) <- open_line line_id request current_user "delete_count_line" ;;
    do id <- lift (item "_id" count_line) ;;
    do result <- with_service (write (Payload "delete_one" None (Some (QEq "_id" id)) None false) (mutable_context count_line)) ;;
    do none <- lift (none_modified result) ;;
    run raise_if none (http 404 "Count line not found") ;;
    do session_id <- lift (item "session_id" count_line) ;;
    run _recalculate_session_stats (to_str session_id) ;;
    run _broadcast_dashboard_refresh "count_line_deleted" (session_of count_line) [] count_line ;;
    run log_activity current_user "delete_count_line" (to_str (dget "id" (VStr line_id) count_line)) ;;
    ret [("success", VBool true); ("message", VStr "Count line deleted successfully")]).

(** ** Merging lines *)

Abbreviation W := (write_service * world C)%type.

(** A line that could not be merged, and why. *)
Definition merge_failure (source_id error : string) : val := VDict [("id", VStr source_id); ("error", VStr error)].
Definition merge_failed (source_id : string) : val :=
  VDict [("id", VStr source_id); ("error", VStr "Merge failed"); ("error_code", VStr "MERGE_FAILED")].

(** The quantity of the source goes to the target, and the source names it. *)
Definition merge_line (target_id source_id : string) (target_line target_session source_line current_user : doc) : M W unit :=
  do source_qty <- lift (to_float (por (dget "counted_qty" (VInt 0) source_line) (VInt 0))) ;;
  do erp_item <- on_world (_get_erp_item_for_existing_count_line target_line) ;;
  in_uow_uncommitted cl (fun has_session =>
    do expected <- lift (coerce_version (get "version" target_session)) ;;
    do _ <- process_write clock strict_mode write_logs object_id sha256 client_count_lines cl has_session
      (Payload "find_one_and_update" None (Some (QEq "id" (VStr target_id)))
         (Some (Upd [] [("counted_qty", VFloat source_qty); ("version", VInt 1)] [("merged_from", VStr source_id)] [])) true)
      [("session", VDict target_session); ("erp_item", VDict erp_item);
       ("variance_reason", get "variance_reason" target_line); ("correction_reason", get "correction_reason" target_line);
       ("location", get "floor_no" target_line); ("username", get "username" current_user);
       ("governance_mode", VStr "mutable_session"); ("skip_session_totals_update", VBool true);
       ("expected_session_version", VInt expected)] ;;
    do now <- on_world (utc_now clock) ;;
    do _ <- process_write clock strict_mode write_logs object_id sha256 client_count_lines cl has_session
      (Payload "find_one_and_update" None
         (Some (QAnd [QEq "id" (VStr source_id); QEq "version" (get "version" source_line)]))
         (Some (Upd [("merged_into_id", VStr target_id); ("merged_at", VTime now)] [("version", VInt 1)] [] [])) true)
      [("session_id", VStr (session_of source_line)); ("username", get "username" current_user);
       ("governance_mode", VStr "mutable_session"); ("skip_session_totals_update", VBool true)] ;;
    ret tt).

(** The lines merged and the failures, in order. *)
Fixpoint merge_sources (target_id : string) (target_line target_session current_user : doc) (request : option http_request)
    (source_ids : list string) (merged : list string) (failed : list val) : M W (list string * list val) :=
  let continue := merge_sources target_id target_line target_session current_user request in
  match source_ids with
  | [] => ret (merged, failed)
  | source_id :: rest =>
      if String.eqb source_id target_id then continue rest merged failed
      else
        do source_line <- on_world (db_find_one "count_lines" (QEq "id" (VStr source_id))) ;;
        match source_line with
        | None | Some [] => continue rest merged (failed ++ [merge_failure source_id "Not found"])
        | Some d =>
            run on_world (_enforce_count_line_logic_from_line d request current_user "merge_count_lines") ;;
            if negb (String.eqb (session_of d) (session_of target_line))
            then continue rest merged (failed ++ [merge_failure source_id "Cross-session merge is not allowed"])
            else
              do done <- try_except (run merge_line target_id source_id target_line target_session d current_user ;; ret true)
                    (fun _ => ret false) ;;
              if done : bool then continue rest (merged ++ [source_id]) failed
              else continue rest merged (failed ++ [merge_failed source_id])
        end
  end.

(** [merge_count_lines]; the quantity the loop keeps of the target is not used. *)
Definition merge_count_lines (payload : CountLineMergeRequest) (current_user : doc) (request : option http_request)
  : M (world C) doc :=
  run raise_if (negb (existsb (py_eqb (get "role" current_user)) [VStr "supervisor"; VStr "admin"]))
        (http 403 "Supervisor access required") ;;
  do target_line <- db_find_one "count_lines" (QEq "id" (VStr (target_line_id payload))) ;;
  match target_line with
  | None | Some [] => raise (http 404 "Target count line not found")
  | Some target =>
      run _enforce_count_line_logic_from_line target request current_user "merge_count_lines" ;;
      do target_session <- _ensure_count_line_mutable target ;;
      do _ <- lift (to_float (por (dget "counted_qty" (VInt 0) target) (VInt 0))) ;;
      do ' (merged, failed) <- with_service (merge_sources (target_line_id payload) target target_session current_user request
            (source_line_ids payload) [] []) ;;
      run when (negb (match merged with [] => true | _ => false end) && negb (String.eqb (session_of target) ""))
            (try_except (do _ <- recompute_session_totals (session_of target) ;; ret tt) (fun _ => ret tt)) ;;
      ret [("success", VBool true); ("target_line_id", VStr (target_line_id payload)); ("merged", VList (map VStr merged));
           ("failed", VList failed)]
  end.

(** ** Bulk decisions *)

Definition bulk_query (ids : list string) : query :=
  QOr [QIn "id" (map VStr ids); QIn "_id" (map VOid (omap object_id ids))].

Fixpoint open_candidates (candidates : list doc) (request : option http_request) (current_user : doc) (operation : string)
  : M (world C) unit :=
  match candidates with
  | [] => ret tt
  | d :: rest =>
      do _ <- _ensure_count_line_mutable d ;;
      run _enforce_count_line_logic_from_line d request current_user operation ;;
      open_candidates rest request current_user operation
  end.

(** The set of the sessions of the candidates. *)
Definition session_ids_of (candidates : list doc) : list string :=
  sorted_set (omap (fun d => let s := get "session_id" d in if truthy s then Some (to_str s) else None) candidates).

(** The updates read the id and the version of each candidate, the user and the
    clock; the write service is given the list of them. *)
Fixpoint build_updates (candidates : list doc) (current_user : doc) : M (world C) unit :=
  match candidates with
  | [] => ret tt
  | d :: rest =>
      do _ <- lift (item "_id" d) ;;
      do _ <- lift (item "username" current_user) ;;
      do _ <- utc_now clock ;;
      do _ <- utc_now clock ;;
      build_updates rest current_user
  end.

Fixpoint recompute_each (session_ids : list string) : M (world C) unit :=
  match session_ids with
  | [] => ret tt
  | s :: rest => do _ <- recompute_session_totals s ;; recompute_each rest
  end.

(** Both bulk routes, by their operation: whatever fails is a failure of the
    server, also the refusals. *)
Definition bulk_decide (count_line_ids : list string) (current_user : doc) (request : option http_request)
    (operation event detail done : string) : M (world C) doc :=
  do b <- lift (role_in_list current_user) ;;
  run raise_if (negb b) (http 403 "Insufficient permissions") ;;
  try_except (
    do found <- db_find "count_lines" (bulk_query count_line_ids) ;;
    let candidates := take (Nat.max (length count_line_ids) 1) found in
    run open_candidates candidates request current_user operation ;;
    let session_ids := session_ids_of candidates in
    run build_updates candidates current_user ;;
    do result <- with_service (write (Payload "bulk_write" None None None false)
      [("candidate_lines", VList (map VDict candidates)); ("session_ids", VList (map VStr session_ids));
       ("governance_mode", VStr "mutable_session")]) ;;
    run recompute_each session_ids ;;
    run when (negb (match session_ids with [] => true | _ => false end))
          (_broadcast_dashboard_refresh event "" session_ids []) ;;
    match result with
    | RCount n => ret [("success", VBool true); ("message", VStr (done +:+ " " +:+ str_of_Z n +:+ " items")); ("modified_count", VInt n)]
    | _ => raise (AttributeError "modified_count")
    end) (fun _ => raise (http 500 detail)).

Definition bulk_approve_count_lines (count_line_ids : list string) (current_user : doc) (request : option http_request)
  : M (world C) doc :=
  bulk_decide count_line_ids current_user request "bulk_approve_count_lines" "count_lines_bulk_approved"
    "Failed to bulk approve count lines" "Approved".
Definition bulk_reject_count_lines (count_line_ids : list string) (current_user : doc) (request : option http_request)
  : M (world C) doc :=
  bulk_decide count_line_ids current_user request "bulk_reject_count_lines" "count_lines_bulk_rejected"
    "Failed to bulk reject count lines" "Rejected".
End routes.
