(* ===== verification/LineActionSpec.v ===== *)
(** What the routes on the count lines of an open session ([LineActions])
    guarantee: who may change which line, what a decision stores, and the totals
    it leaves. *)

From stdpp Require Import sets.
From S2P Require Import Prelude PyFloat Py Json Store ListStore Guard Inventory Uow Frame Lifecycle LifecycleSpec.
From S2P Require Import Quantity Variance CountLines CountLineSpec SyncConflictSpec Flags LogicGuard LineActions.

Local Open Scope Z_scope.
Local Open Scope stock_scope.

(** ** Steps that fail or go on *)

Lemma bind_cases {S A B} (m : M S A) (f : A → M S B) s o s' :
  bind m f s = (o, s') →
  (∃ e, m s = (Raise e, s') ∧ o = Raise e) ∨ ∃ a s1, m s = (Ok a, s1) ∧ f a s1 = (o, s').
Proof. unfold bind. destruct (m s) as [[a|e] s1]; intros Hm; [right; eauto | left; simplify_eq; eauto]. Qed.

(** ** Requests *)

Section requests.
Context {C : Type} `{Mongo C}.
Context (clock : nat → Z) (strict_mode write_logs : bool) (object_id : string → option string).
Context (sha256 : string → string) (client_count_lines : client_attribute) (cl : client).
Context (parse_flag : Z → Z → doc → option FeatureFlag) (database_bool : outcome bool).
Context (answers : event → outcome unit) (has_activity_log : bool).

(** A request about one line. *)
Inductive line_request :=
| Verify (line_id : string)
| Unverify (line_id : string)
| Approve (line_id : string) (body : option CountLineApprovalRequest)
| RejectLine (line_id : string) (body : option CountLineRejectRequest)
| AddTo (line_id : string) (body : AddQuantityRequest)
| Edit (line_id : string) (body : CountLineUpdateRequest)
| Delete (line_id : string).

Definition requested_line (a : line_request) : string :=
  match a with Verify i | Unverify i | Approve i _ | RejectLine i _ | AddTo i _ | Edit i _ | Delete i => i end.

Definition perform_request (a : line_request) (user : doc) (hr : option http_request) : M (world C) doc :=
  match a with
  | Verify i => verify_stock clock strict_mode write_logs object_id sha256 client_count_lines cl parse_flag database_bool answers
      has_activity_log i user hr
  | Unverify i => unverify_stock clock strict_mode write_logs object_id sha256 client_count_lines cl parse_flag database_bool
      answers has_activity_log i user hr
  | Approve i b => approve_count_line clock strict_mode write_logs object_id sha256 client_count_lines cl parse_flag database_bool
      answers i b user hr
  | RejectLine i b => reject_count_line clock strict_mode write_logs object_id sha256 client_count_lines cl parse_flag database_bool
      answers i b user hr
  | AddTo i b => add_quantity_to_count_line clock strict_mode write_logs object_id sha256 client_count_lines cl parse_flag
      database_bool answers i b user hr
  | Edit i b => update_count_line clock strict_mode write_logs object_id sha256 client_count_lines cl parse_flag database_bool
      answers i b user hr
  | Delete i => delete_count_line clock strict_mode write_logs object_id sha256 client_count_lines cl parse_flag database_bool
      answers has_activity_log i user hr
  end.

Definition privileged (user : doc) : bool := existsb (py_eqb (get "role" user)) [VStr "supervisor"; VStr "admin"].

(** Decisions and deletions are for supervisors; counters edit their own lines. *)
Definition may_request (a : line_request) (user line : doc) : bool :=
  match a with
  | AddTo _ _ | Edit _ _ => privileged user || py_eqb (get "counted_by" line) (get "username" user)
  | _ => privileged user
  end.

(** The line of a request. *)
Definition found_line (line_id : string) (w : world C) : option doc :=
  match fst (_find_count_line object_id line_id w) with Ok (Some ((_ :: _) as d)) => Some d | _ => None end.

(** A line that may change: neither it nor its session is finalized. *)
Definition open_in (w : world C) (line : doc) : Prop :=
  is_count_line_locked line = false ∧ session_of line ≠ "" ∧
  ∃ session, find_one (build_session_lookup (session_of line)) (w_db w "sessions") = Some session
    ∧ is_session_finalized session = false.

(** What enforcing the logic of a session may write: its pin. *)
Definition pin_collections : list string := ["sessions"; "governance_events"].

Abbreviation opened := (open_line (C:=C) clock object_id sha256 parse_flag database_bool).

Lemma frame_enforce s rc m : frame pin_collections (enforce_session_logic (C:=C) clock parse_flag sha256 database_bool s rc m).
Proof.
  assert (∀ w, frame pin_collections (resolve_and_enforce_logic (C:=C) clock parse_flag sha256 database_bool s rc w)) as Hr.
  { intros. eapply frame_weaken; [apply frame_resolve_logic | set_solver]. }
  pose proof (fun v sid d => frame_occ (C:=C) pin_collections sid d v) as Ho.
  pose proof (frame_not_finalized (C:=C) pin_collections). pose proof (fun a => frame_log_write (C:=C) clock pin_collections a eq_refl).
  unfold enforce_session_logic, persist_pin_if_needed, persist_logic_pin, update_session_fields, _sync_session_projection.
  repeat first [ frame_step | done ].
Qed.

Lemma frame_find_line lid : frame pin_collections (_find_count_line (C:=C) object_id lid).
Proof. unfold _find_count_line. solve_frame. Qed.

Lemma frame_mutable P line : frame P (_ensure_count_line_mutable (C:=C) line).
Proof. unfold _ensure_count_line_mutable, find_session. solve_frame. Qed.

Lemma frame_get_session P sid : frame P (_get_mutable_session_or_409 (C:=C) sid).
Proof. unfold _get_mutable_session_or_409, find_session. solve_frame. Qed.

Lemma frame_logic line hr user op :
  frame pin_collections (_enforce_count_line_logic_from_line (C:=C) clock sha256 parse_flag database_bool line hr user op).
Proof.
  pose proof frame_enforce. pose proof (frame_get_session pin_collections).
  unfold _enforce_count_line_logic_from_line, _enforce_count_line_session_logic. repeat first [ frame_step | done ].
Qed.

Lemma frame_open lid hr user op : frame pin_collections (opened lid hr user op).
Proof.
  pose proof frame_find_line. pose proof (frame_mutable pin_collections). pose proof frame_logic.
  unfold open_line. repeat first [ frame_step | done ].
Qed.

(** Reads leave the world as it is. *)
Lemma find_line_ok lid w o w' :
  _find_count_line object_id lid w = (o, w') → w' = w ∧ o = fst (_find_count_line object_id lid w).
Proof.
  intros Hf. rewrite Hf. split; [|done]. unfold _find_count_line in Hf.
  apply bind_cases in Hf as [(e & Hr & _)|(d & w1 & [-> ->]%read_ok & Hf)]; [done|].
  destruct (find_one _ _) as [[|kv d]|]; [|unfold ret in Hf; by simplify_eq|];
    (destruct (object_id lid); unfold db_find_one, gets, ret in Hf; by simplify_eq).
Qed.

Lemma mutable_ok line w session w' :
  _ensure_count_line_mutable line w = (Ok session, w') → w' = w ∧ is_count_line_locked line = false.
Proof.
  unfold _ensure_count_line_mutable. intros Hm.
  apply bind_ok_inv in Hm as ([] & w1 & [Hl ->]%raise_if_ok_inv & Hm).
  apply bind_ok_inv in Hm as (d & w2 & [-> _]%read_ok & Hm).
  apply bind_ok_inv in Hm as ([] & w3 & [_ ->]%raise_if_ok_inv & Hm). unfold ret in Hm. by simplify_eq.
Qed.

Lemma get_session_ok sid w d w' :
  _get_mutable_session_or_409 sid w = (Ok d, w') →
  w' = w ∧ find_one (build_session_lookup sid) (w_db w "sessions") = Some d ∧ is_session_finalized d = false.
Proof.
  unfold _get_mutable_session_or_409, find_session. intros Hm.
  apply bind_ok_inv in Hm as (o & w1 & [-> ->]%read_ok & Hm).
  destruct (find_one _ _) as [[|kv d']|]; [done| |done].
  apply bind_ok_inv in Hm as ([] & w2 & [Hf ->]%raise_if_ok_inv & Hm). unfold ret in Hm. by simplify_eq.
Qed.

(** A line that has been opened may change. *)
Lemma open_line_ok lid hr user op w line session w' :
  opened lid hr user op w = (Ok (line, session), w') → found_line lid w = Some line ∧ open_in w line.
Proof.
  unfold open_line. intros Ho. apply bind_ok_inv in Ho as (d & w1 & [-> Hd]%find_line_ok & Ho).
  destruct d as [[|kv d]|]; [done| |done].
  apply bind_ok_inv in Ho as (s & w2 & [-> Hl]%mutable_ok & Ho).
  apply bind_ok_inv in Ho as ([] & w3 & Hlogic & Ho). unfold ret in Ho. simplify_eq.
  split; [unfold found_line; by rewrite <- Hd|]. split; [done|].
  unfold _enforce_count_line_logic_from_line in Hlogic.
  apply bind_ok_inv in Hlogic as ([] & w3 & [Hs ->]%raise_if_ok_inv & Hlogic).
  apply bind_ok_inv in Hlogic as (d' & w4 & (-> & Hfind & Hfin)%get_session_ok & _).
  split; [by apply String.eqb_neq|]. eauto.
Qed.

(** A request either is permitted on an open line, or is refused with no
    collection changed but those of the pin. *)
Definition settled (a : line_request) (user : doc) (w : world C) (o : outcome doc) (w' : world C) : Prop :=
  (∃ line, found_line (requested_line a) w = Some line ∧ open_in w line ∧ may_request a user line = true)
  ∨ is_ok o = false ∧ ∀ n, str_in n pin_collections = false → w_db w' n = w_db w n.

Lemma settled_raise a user w e : settled a user w (Raise e) w.
Proof. by right. Qed.

Lemma settled_open a user w o w' hr op k :
  (∀ line session w1, found_line (requested_line a) w = Some line → open_in w line →
     (∀ n, str_in n pin_collections = false → w_db w1 n = w_db w n) → k (line, session) w1 = (o, w') →
     settled a user w o w') →
  bind (opened (requested_line a) hr user op) k w = (o, w') → settled a user w o w'.
Proof.
  intros Hk Hb.
  assert (∀ r w1, opened (requested_line a) hr user op w = (r, w1) → ∀ n, str_in n pin_collections = false → w_db w1 n = w_db w n) as Hframe
    by (intros r w1 Ho n Hn; by eapply (frame_db _ _ _ _ _ n (frame_open (requested_line a) hr user op))).
  apply bind_cases in Hb as [(e & Hr & ->)|([line session] & w1 & Ho & Hb)].
  - right. split; [done|]. by eapply Hframe.
  - pose proof (open_line_ok _ _ _ _ _ _ _ _ Ho) as [Hfound Hopen]. apply (Hk line session w1 Hfound Hopen); [by eapply Hframe | done].
Qed.

Lemma settled_internal a user detail m w o w' :
  (∀ o1, m w = (o1, w') → settled a user w o1 w') → internal_error detail m w = (o, w') → settled a user w o w'.
Proof.
  unfold internal_error, try_except. intros Hs Hm. destruct (m w) as [[x|e] w1] eqn:E.
  - simplify_eq. by apply Hs.
  - assert (is_ok o = false ∧ w1 = w') as [Ho ->] by (by destruct e; unfold raise in Hm; simplify_eq).
    destruct (Hs _ eq_refl) as [Hp|[_ Hf]]; [by left | by right].
Qed.

Lemma role_list_ok user b : role_in_list user = Ok b → b = privileged user.
Proof.
  unfold role_in_list, item, privileged, get. destruct (aget "role" user); cbn [obind default]; [|done]. by intros [= <-].
Qed.

Lemma role_set_ok user b : role_in_set user = Ok b → b = privileged user.
Proof. unfold role_in_set, privileged. destruct (hashable _); cbn [negb]; [|done]. by intros [= <-]. Qed.

Lemma supervisor_ok user w u w' : _require_supervisor (C:=C) user w = (Ok u, w') → w' = w ∧ privileged user = true.
Proof.
  unfold _require_supervisor. intros Hm. apply bind_ok_inv in Hm as (b & w1 & [Hb ->]%lift_ok & Hm).
  apply raise_if_ok_inv in Hm as [Hn ->]. apply role_set_ok in Hb as ->. split; [done|]. by destruct (privileged user).
Qed.

Lemma supervisor_raise user w e w' : _require_supervisor (C:=C) user w = (Raise e, w') → w' = w.
Proof.
  unfold _require_supervisor, bind, lift, raise_if, raise, ret. destruct (role_in_set user) as [[]|]; cbn [negb]; intros; by simplify_eq.
Qed.

(** A supervisor's role, checked first. *)
Lemma settled_supervisor a user w o w' k :
  (privileged user = true → k w = (o, w') → settled a user w o w') →
  (do _ <- _require_supervisor (C:=C) user ;; k) w = (o, w') → settled a user w o w'.
Proof.
  intros Hk Hb. apply bind_cases in Hb as [(e & Hr & ->)|([] & w1 & Hr & Hb)].
  - apply supervisor_raise in Hr as ->. apply settled_raise.
  - apply supervisor_ok in Hr as [-> Hp]. by apply Hk.
Qed.

Lemma settled_role a user w o w' exn k :
  (privileged user = true → k w = (o, w') → settled a user w o w') →
  (do b <- lift (role_in_list user) ;; run raise_if (negb b) exn ;; k) w = (o, w') → settled a user w o w'.
Proof.
  intros Hk Hb. unfold bind at 1, lift in Hb. destruct (role_in_list user) as [b|e] eqn:Hr.
  - apply role_list_ok in Hr as ->. unfold bind, raise_if, raise, ret in Hb.
    destruct (privileged user); cbn [negb] in Hb; [by apply Hk|]. simplify_eq. apply settled_raise.
  - simplify_eq. apply settled_raise.
Qed.

Lemma check_owner_ok line user w u w' :
  check_owner (C:=C) line user w = (Ok u, w') → privileged user || py_eqb (get "counted_by" line) (get "username" user) = true.
Proof.
  unfold check_owner. intros Hm. apply bind_ok_inv in Hm as (b & w1 & [Hb ->]%lift_ok & Hm).
  apply role_set_ok in Hb as ->. apply raise_if_ok_inv in Hm as [Hn _].
  by destruct (privileged user), (py_eqb _ _).
Qed.

Lemma frame_check_owner P line user : frame P (check_owner (C:=C) line user).
Proof. unfold check_owner. solve_frame. Qed.

(** The checks of an edit between the line and the write. *)
Lemma settled_edit a user w o w' line w1 b exn k :
  (may_request a user line = privileged user || py_eqb (get "counted_by" line) (get "username" user)) →
  found_line (requested_line a) w = Some line → open_in w line →
  (∀ n, str_in n pin_collections = false → w_db w1 n = w_db w n) →
  (do _ <- raise_if b exn ;; run check_owner line user ;; k) w1 = (o, w') → settled a user w o w'.
Proof.
  intros Hmay Hfound Hopen Hframe Hb. unfold bind at 1, raise_if in Hb. destruct b; unfold raise, ret in Hb.
  { simplify_eq. by right. }
  apply bind_cases in Hb as [(e & Hr & ->)|([] & w2 & Hr & _)].
  - right. split; [done|]. intros n Hn. rewrite <- Hframe by done.
    by eapply (frame_db [] _ _ _ _ n (frame_check_owner [] line user)).
  - left. apply check_owner_ok in Hr. exists line. by rewrite Hmay.
Qed.

(** C37: a request changes a line only for those who may. If the line is found, neither it nor its session is finalized, and
    the user may make the request (decisions and deletions are for supervisors and administrators, counters edit what they
    counted), it is performed; otherwise it raises, and no collection is changed but those of the logic pin of the session. *)
Theorem line_changes_permitted a user hr w o w' :
  perform_request a user hr w = (o, w') →
  (∃ line, found_line (requested_line a) w = Some line ∧ open_in w line ∧ may_request a user line = true)
  ∨ is_ok o = false ∧ ∀ n, str_in n pin_collections = false → w_db w' n = w_db w n.
Proof.
  intros Hm. change (settled a user w o w').
  destruct a; cbn [perform_request] in Hm.
  - revert Hm. apply settled_supervisor. intros Hp. apply (settled_open (Verify line_id)). intros. left. eauto.
  - revert Hm. apply settled_supervisor. intros Hp. apply (settled_open (Unverify line_id)). intros. left. eauto.
  - revert Hm. apply settled_role. intros Hp. apply settled_internal. intros o1.
    apply (settled_open (Approve line_id body)). intros. left. eauto.
  - revert Hm. apply settled_role. intros Hp. apply settled_internal. intros o1.
    apply (settled_open (RejectLine line_id body)). intros. left. eauto.
  - revert Hm. apply (settled_open (AddTo line_id body)). intros line session w1 Hf Ho Hw. by apply settled_edit.
  - revert Hm. apply (settled_open (Edit line_id body)). intros line session w1 Hf Ho Hw. by apply settled_edit.
  - revert Hm. apply settled_role. intros Hp. apply settled_internal. intros o1.
    apply (settled_open (Delete line_id)). intros. left. eauto.
Qed.
End requests.

(** ** What a decision stores *)

Section decisions.
Context {C : Type} `{MongoLaws C}.
Context (clock : nat → Z) (strict_mode write_logs : bool) (object_id : string → option string).
Context (sha256 : string → string) (client_count_lines : client_attribute) (cl : client).
Implicit Types (w : world C) (s : write_service).

(** The fields of an update with or without a new hash. *)
Definition with_hash (fields fields' : doc) : Prop :=
  fields' = fields ∨ ∃ h, fields' = aset "semantic_hash" (VStr h) fields.

Lemma rehash_ok existing merged id fields w p' w' :
  rehash (C:=C) sha256 existing merged (update_line id fields) w = (Ok p', w') →
  w' = w ∧ ∃ fields', with_hash fields fields' ∧ p' = update_line id fields'.
Proof.
  unfold rehash. intros Hm. destruct (negb _); [unfold ret in Hm; simplify_eq; split; [done|]; exists fields; split; [by left|done]|].
  apply bind_ok_inv in Hm as (h & w1 & [_ ->]%lift_ok & Hm). apply bind_ok_inv in Hm as (c & w2 & [-> _]%read_ok & Hm).
  cbv zeta in Hm. apply bind_ok_inv in Hm as ([] & w3 & [_ ->]%raise_if_ok_inv & Hm). unfold ret in Hm. simplify_eq.
  split; [done|]. exists (aset "semantic_hash" (VStr h) fields). split; [right; eauto|]. done.
Qed.

(** A marking update that succeeds updates the line with its fields. *)
Lemma mark_written hs id fields ctx s w r s' w' :
  has_key "counted_qty" fields = false → lower (strip (text_of "transition" ctx)) = "" → has_key "skip_governance" ctx = false →
  process_write clock strict_mode write_logs object_id sha256 client_count_lines cl hs (update_line id fields) ctx (s, w)
    = (Ok r, (s', w')) →
  ∃ fields', with_hash fields fields'
    ∧ w_db w' "count_lines" = snd (update_one (QEq "_id" id) (USet fields') (w_db w "count_lines"))
    ∧ r = RCount (fst (update_one (QEq "_id" id) (USet fields') (w_db w "count_lines")))
    ∧ ∃ d, find_one (QEq "_id" id) (w_db w "count_lines") = Some d.
Proof.
  intros Hq Htr Hskip (b & Hm)%write_ok.
  apply core_ok in Hm as (p1 & s1 & w1 & ids & versions & r2 & p2 & w2 & p9 & Hbefore & _ & _ & Hx & Hafter & ->).
  assert (w_db w1 "count_lines" = w_db w "count_lines" ∧ (∃ d, find_one (QEq "_id" id) (w_db w "count_lines") = Some d)
    ∧ ∃ fields', with_hash fields fields' ∧ p1 = update_line id fields') as (Hw1 & Hfound & fields' & Hf & ->).
  { unfold before_write in Hbefore.
    apply bind_ok_inv in Hbefore as (? & [s2 w3] & [->%snapshot_check_read ->]%on_world_ok & Hm).
    apply bind_ok_inv in Hm as (p3 & [s3 w4] & [Hinv ->]%on_world_ok & Hm).
    unfold _assert_mandatory_write_invariants in Hinv. cbv zeta in Hinv.
    apply bind_ok_inv in Hinv as (mode & w5 & [Hmode ->]%lift_ok & Hinv).
    change (operation_of (update_line id fields)) with "update_one" in Hinv. cbn [String.eqb Ascii.eqb Bool.eqb] in Hinv.
    assert (str_in "update_one" ["update_one"; "find_one_and_update"; "delete_one"] = true) as Hop by reflexivity.
    rewrite Hop in Hinv. unfold single_invariants in Hinv. cbn [p_filter update_line] in Hinv.
    apply bind_ok_inv in Hinv as (existing & w6 & [-> ->]%read_ok & Hinv).
    destruct (find_one _ _) as [existing|] eqn:Hd; [|done]. cbv zeta in Hinv.
    change (operation_of (update_line id fields)) with "update_one" in Hinv. cbn [String.eqb Ascii.eqb Bool.eqb negb] in Hinv.
    apply bind_ok_inv in Hinv as (p' & w7 & (-> & fields' & Hf & ->)%rehash_ok & Hinv).
    apply bind_ok_inv in Hinv as (? & w8 & Hv & Hinv). unfold ret in Hinv. simplify_eq.
    apply (frame_db [] _ _ _ _ "count_lines" (frame_assert_valid_write [] true _)) in Hv; [|done].
    apply bind_ok_inv in Hm as (p3 & [s4 w5] & [Htrans ->]%on_world_ok & Hm).
    unfold _apply_state_transition_for_write in Htrans. cbv zeta in Htrans. rewrite Htr in Htrans.
    cbn [String.eqb] in Htrans. unfold ret in Htrans. simplify_eq.
    apply bind_ok_inv in Hm as (gov & [s5 w6] & [Hgov Hst]%lift_ok & Hm). simplify_eq.
    assert (gov = false) as ->.
    { unfold _should_apply_governance in Hgov. rewrite Hskip in Hgov.
      change (operation_of (update_line id fields')) with "update_one" in Hgov. cbn in Hgov. injection Hgov as <-.
      destruct Hf as [->|[h ->]]; [done|]. unfold has_key in *. by get_field. }
    unfold ret in Hm. simplify_eq. split; [exact Hv|]. split; eauto. }
  unfold _execute_count_line_operation in Hx. cbv zeta in Hx.
  change (operation_of (update_line id fields')) with "update_one" in Hx.
  cbn [String.eqb Ascii.eqb Bool.eqb p_filter p_update update_line] in Hx.
  apply bind_ok_inv in Hx as (n & w3 & Hx & Hret). unfold ret in Hret. simplify_eq.
  apply (frame_db _ _ _ _ _ "count_lines" (frame_after clock strict_mode write_logs _ _ _ _)) in Hafter; [|done].
  unfold on_collection in Hx.
  assert (_execute_authorized_write (db_update_one (C:=C) "count_lines" (QEq "_id" id) (USet fields')) w1 = (Ok n, w2)) as Hx'
    by (by destruct client_count_lines).
  apply authority_ok in Hx' as (w0 & w3 & Hw0 & Hu & Hw3). apply update_one_ok in Hu as [-> ->].
  exists fields'. rewrite Hafter, Hw3, set_coll_same, Hw0, Hw1. eauto.
Qed.

(** *** The sessions stay well-formed *)

Abbreviation keeps_sessions m := (keeps "sessions" (sessions_ok (C:=C)) m).

Lemma keeps_totals sid tot ev actor sync :
  session_fields_ok tot = true → keeps_sessions (Lifecycle.update_session_totals clock sid tot ev actor sync).
Proof.
  intros Hf. apply (keeps_intro _ _ ["sessions"; "governance_events"]); [by apply frame_totals_update | done|].
  intros w r w' Hm Hok. eapply sessions_step_ok; [|exact Hok]. by eapply steps_totals.
Qed.

Lemma keeps_fields sid fields ev actor :
  session_fields_ok fields = true → keeps_sessions (update_session_fields clock sid fields ev actor).
Proof.
  intros Hf. apply (keeps_intro _ _ ["sessions"; "governance_events"]); [unfold update_session_fields, _sync_session_projection; solve_frame | done|].
  intros w r w' Hm Hok. eapply sessions_step_ok; [|exact Hok]. by eapply steps_fields.
Qed.

Lemma session_update_ok t now : session_fields_ok (session_update t now) = true.
Proof. unfold session_update. destruct (t_last t); vm_compute; reflexivity. Qed.

Lemma recomputed_ok t : session_fields_ok (recomputed t) = true.
Proof. unfold recomputed. destruct (t_last t); vm_compute; reflexivity. Qed.

Lemma keeps_write_totals l ctx e : keeps_sessions (_update_session_totals_for_sessions clock l ctx e).
Proof.
  induction l as [|sid l IH]; cbn [_update_session_totals_for_sessions]; [apply keeps_reads, frame_ret|].
  apply keeps_seq_ok; [apply keeps_reads, frame_aggregate|].
  intros w tot w1 (_ & _ & t & now & -> & _)%totals_read.
  apply keeps_seq; [apply keeps_totals, session_update_ok | by intros []].
Qed.

Lemma keeps_after p ctx l e : keeps_sessions (after_write clock strict_mode write_logs p ctx l e).
Proof.
  assert (∀ p, keeps_sessions (_run_post_write_validation (C:=C) clock strict_mode write_logs p ctx)) as Hv
    by (intros; eapply keeps_frame; [by apply (frame_post_validation _ _ _ ["validation_logs"])|done]).
  assert (∀ p l, keeps_sessions (_log_count_line_audit (C:=C) clock p ctx l)) as Ha.
  { intros. apply (keeps_frame _ _ ["governance_events"]); [|done].
    pose proof (fun l op d v a => frame_audit (C:=C) clock ["governance_events"] l op d v a eq_refl).
    unfold _log_count_line_audit. repeat first [ frame_step | done ]. }
  unfold after_write. apply keeps_seq; [apply Hv|]. intros p'.
  apply keeps_seq; [apply keeps_when, keeps_write_totals|]. intros _.
  apply keeps_seq; [apply keeps_when, keeps_reads, frame_emit|]. intros _.
  apply keeps_seq; [apply Ha|]. intros _. apply keeps_reads, frame_ret.
Qed.

(** The same of a computation of the write service. *)
Definition service_keeps {A} (m : M (write_service * world C) A) : Prop :=
  ∀ x r x', m x = (r, x') →
    unsessioned_in (fun n => n ≠ "sessions") (snd x) (snd x')
    ∧ (sessions_ok (w_db (snd x) "sessions") → sessions_ok (w_db (snd x') "sessions")).

Lemma service_keeps_world {A} (m : M (world C) A) : keeps_sessions m → service_keeps (on_world m).
Proof.
  intros Hm [s w] r [s' w'] Hr. unfold on_world in Hr. cbn [fst snd] in *. destruct (m w) as [o w1] eqn:E. simplify_eq.
  by eapply Hm.
Qed.

Lemma service_keeps_frame {A} P (m : M (write_service * world C) A) :
  service_frame P m → str_in "sessions" P = false → service_keeps m.
Proof.
  intros Hf Hn x r x' Hm. split; [|by rewrite (sframe_db _ _ _ _ _ "sessions" Hf Hm Hn)].
  destruct (Hf _ _ _ Hm) as [_ Hu]. eapply unsessioned_weaken; [|exact Hu].
  intros n [Hin _] ->. by apply str_in_false in Hn.
Qed.

Lemma service_keeps_bind {A B} (m : M (write_service * world C) A) (f : A → M (write_service * world C) B) :
  service_keeps m → (∀ a, service_keeps (f a)) → service_keeps (bind m f).
Proof.
  intros Hm Hf x r x' [(e & Hb & _)|(a & x1 & Ha & Hb)]%bind_cases; [by eapply Hm|].
  destruct (Hm _ _ _ Ha), (Hf _ _ _ _ Hb). split; [by eapply unsessioned_trans | auto].
Qed.

Lemma service_keeps_core p ctx b :
  service_keeps (_process_write_core clock strict_mode write_logs object_id sha256 client_count_lines p ctx b).
Proof.
  unfold _process_write_core. destruct (negb _); [apply (service_keeps_frame []); [apply sframe_raise|done]|].
  apply service_keeps_bind; [apply (service_keeps_frame [configs]); [apply sframe_before|done]|]. intros p'.
  apply service_keeps_bind; [apply service_keeps_world, keeps_reads, frame_ids|]. intros ids.
  apply service_keeps_bind; [apply service_keeps_world, keeps_reads, frame_capture|]. intros vs.
  apply service_keeps_bind.
  { apply service_keeps_world, (keeps_frame _ _ ["count_lines"]); [by apply frame_execute | done]. }
  intros [r p2]. apply service_keeps_bind; [apply service_keeps_world, keeps_after|]. intros p3.
  apply (service_keeps_frame []); [apply sframe_ret | done].
Qed.

Lemma service_keeps_write hs p ctx :
  service_keeps (process_write clock strict_mode write_logs object_id sha256 client_count_lines cl hs p ctx).
Proof.
  unfold process_write, commit_write. destruct (has_key _ _); [apply (service_keeps_frame []); [apply sframe_raise|done]|].
  destruct hs; [apply service_keeps_core|]. intros x r x' Hx. unfold in_uow in Hx.
  destruct (__aenter__ cl) as [u|]; [|simplify_eq; split; [by apply unsessioned_same | done]].
  destruct (_process_write_core _ _ _ _ _ _ _ _ (u_session u) x) as [[a|e] y] eqn:E;
    pose proof (service_keeps_core _ _ _ _ _ _ E) as Hy; simplify_eq; cbn [snd]; by apply keeps_aexit.
Qed.

(** *** The decision and the totals after it *)

(** The lines have object ids, and no two the same. *)
Definition lines_ok (c : C) : Prop :=
  ∀ d, d ∈ contents c → ∃ o, aget "_id" d = Some (VOid o) ∧ at_most_one (QEq "_id" (VOid o)) c.

Lemma recompute_ok sid w x w' :
  recompute_session_totals clock sid w = (Ok x, w') → sessions_ok (w_db w "sessions") →
  w_db w' "count_lines" = w_db w "count_lines"
  ∧ ∃ t session, recompute_lines totals0 (find_all (session_lines sid) (w_db w "count_lines")) = Ok t
    ∧ is_finalized_session session = false
    ∧ find_one (_lookup sid) (w_db w' "sessions") = Some (apply_update (occ_update (recomputed t)) session).
Proof.
  unfold recompute_session_totals. intros Hm Hok.
  apply bind_ok_inv in Hm as (lines & w1 & [-> ->]%read_ok & Hm).
  apply bind_ok_inv in Hm as (t & w2 & [Ht ->]%lift_ok & Hm).
  apply bind_ok_inv in Hm as ([] & w3 & Hu & Hm). unfold ret in Hm. simplify_eq.
  pose proof (frame_db _ _ _ _ _ "count_lines" (frame_totals_update (C:=C) clock ["sessions"; "governance_events"] _ _ _ _ _ eq_refl eq_refl) Hu eq_refl) as Hc.
  apply update_totals_stored in Hu as (d & _ & Hopen & Hd); [|done|apply recomputed_ok]. split; [done|]. eauto.
Qed.

(** What a decision leaves: one line changed by the fields of the decision, and
    the totals of its session those of the lines as they are then. *)
Definition decided (line fields : doc) (w w' : world C) : Prop :=
  ∃ fields' rest t session,
    with_hash fields fields'
    ∧ contents (w_db w "count_lines") ≡ₚ line :: rest
    ∧ contents (w_db w' "count_lines") ≡ₚ apply_update (USet fields') line :: rest
    ∧ recompute_lines totals0 (find_all (session_lines (session_of line)) (w_db w' "count_lines")) = Ok t
    ∧ is_finalized_session session = false
    ∧ find_one (_lookup (session_of line)) (w_db w' "sessions") = Some (apply_update (occ_update (recomputed t)) session).

Lemma with_service_ok {A} (m : M (write_service * world C) A) w o w' :
  with_service m w = (o, w') → ∃ s', m (WriteService [] [], w) = (o, (s', w')).
Proof. unfold with_service. destruct (m _) as [a [s1 w1]]. intros Hm. simplify_eq. eauto. Qed.

Lemma marked_decided line id fields w r w1 x w2 :
  lines_ok (w_db w "count_lines") → sessions_ok (w_db w "sessions") → line ∈ contents (w_db w "count_lines") →
  has_key "counted_qty" fields = false → item "_id" line = Ok id →
  with_service (process_write clock strict_mode write_logs object_id sha256 client_count_lines cl false (update_line id fields)
    (mutable_context line)) w = (Ok r, w1) →
  recompute_session_totals clock (session_of line) w1 = (Ok x, w2) → decided line fields w w2.
Proof.
  intros Hlines Hsess Hin Hq Hid (s' & Hw)%with_service_ok Hr.
  destruct (service_keeps_write _ _ _ _ _ _ Hw) as [_ Hsess1]. specialize (Hsess1 Hsess). cbn [snd] in Hsess1.
  destruct (Hlines line Hin) as (o & Ho & Hone). assert (id = VOid o) as -> by (unfold item in Hid; rewrite Ho in Hid; by simplify_eq).
  apply mark_written in Hw as (fields' & Hf & Hc & _ & _); [|done..].
  apply recompute_ok in Hr as (Hc2 & t & session & Ht & Hopen & Hs); [|done].
  assert (matches (QEq "_id" (VOid o)) line = true) as Hm.
  { rewrite matches_eq; [|done|by rewrite (get_some _ _ _ Ho)]. rewrite (get_some _ _ _ Ho). cbn. apply String.eqb_refl. }
  destruct (update_one_some (QEq "_id" (VOid o)) (USet fields') (w_db w "count_lines")) as (d & rest & Hp & Hd & Hp' & _); [eauto|].
  assert (d = line) as -> by (eapply (at_most_one_eq _ _ _ _ Hone); try done; rewrite Hp; left).
  exists fields', rest, t, session. split_and!; try done; [by rewrite Hc2, Hc | by rewrite Hc2].
Qed.
End decisions.

Section decision_requests.
Context {C : Type} `{MongoLaws C}.
Context (clock : nat → Z) (strict_mode write_logs : bool) (object_id : string → option string).
Context (sha256 : string → string) (client_count_lines : client_attribute) (cl : client).
Context (parse_flag : Z → Z → doc → option FeatureFlag) (database_bool : outcome bool).
Context (answers : event → outcome unit) (has_activity_log : bool).
Implicit Types (w : world C).

Abbreviation opened := (open_line (C:=C) clock object_id sha256 parse_flag database_bool).

Lemma frame_call P name args : frame P (call (C:=C) answers name args).
Proof. unfold call. solve_frame. Qed.

Lemma frame_broadcast P event sid sids line : frame P (_broadcast_dashboard_refresh (C:=C) clock answers event sid sids line).
Proof. pose proof (frame_call P). unfold _broadcast_dashboard_refresh. repeat first [ done | frame_step ]. Qed.

Lemma frame_activity P user action id : frame P (log_activity (C:=C) answers has_activity_log user action id).
Proof. pose proof (frame_call P). unfold log_activity. repeat first [ done | frame_step ]. Qed.

Lemma frame_notify_rejection P line lid reason u a : frame P (notify_rejection (C:=C) answers line lid reason u a).
Proof. pose proof (frame_call P). unfold notify_rejection. repeat first [ done | frame_step ]. Qed.

Lemma decided_frame {A} line fields w w1 (m : M (world C) A) o w' :
  decided line fields w w1 → frame [] m → m w1 = (o, w') → decided line fields w w'.
Proof.
  intros Hd Hf Hm. unfold decided. by rewrite !(frame_db [] m w1 o w' _ Hf Hm).
Qed.

(** Opening a line leaves the lines as they are and the sessions well-formed. *)
Lemma keeps_pin_sessions s rc m : keeps "sessions" (sessions_ok (C:=C)) (enforce_session_logic clock parse_flag sha256 database_bool s rc m).
Proof.
  assert (∀ s rc m, keeps "sessions" (sessions_ok (C:=C)) (resolve_and_enforce_logic clock parse_flag sha256 database_bool s rc m)) as Hr
    by (intros; apply keeps_reads, frame_resolve_logic).
  unfold enforce_session_logic. apply keeps_try; [|intros; apply keeps_reads, frame_raise].
  apply keeps_seq; [apply Hr|]. intros c. destruct s as [d|]; [|apply keeps_reads, frame_ret].
  destruct m; [|apply keeps_reads, frame_ret]. apply keeps_seq; [|intros; apply keeps_reads, frame_ret].
  unfold persist_pin_if_needed. destruct (negb _); [apply keeps_reads, frame_ret|].
  destruct (_session_identifier d); [|apply keeps_reads, frame_ret].
  apply keeps_seq; [by apply keeps_fields|]. intros. apply keeps_reads, frame_ret.
Qed.

Lemma keeps_open lid hr user op : keeps "sessions" (sessions_ok (C:=C)) (opened lid hr user op).
Proof.
  unfold open_line. apply keeps_seq.
  { apply keeps_reads. unfold _find_count_line. solve_frame. }
  intros [[|kv d]|]; try apply keeps_reads, frame_raise.
  apply keeps_seq; [apply keeps_reads, frame_mutable|]. intros session.
  apply keeps_seq; [|intros; apply keeps_reads, frame_ret].
  unfold _enforce_count_line_logic_from_line. apply keeps_seq; [apply keeps_reads, frame_raise_if|]. intros _.
  apply keeps_seq; [apply keeps_reads, frame_get_session|]. intros s'.
  apply keeps_seq; [|intros; apply keeps_reads, frame_ret].
  unfold _enforce_count_line_session_logic. apply keeps_seq; [apply keeps_pin_sessions|]. intros [c p]. apply keeps_reads, frame_ret.
Qed.

Lemma found_line_in lid w line : found_line object_id lid w = Some line → line ∈ contents (w_db w "count_lines").
Proof.
  unfold found_line, _find_count_line, bind, db_find_one, gets, ret.
  destruct (find_one (QEq "id" (VStr lid)) _) as [[|kv d]|] eqn:E.
  1, 3: destruct (object_id lid); cbn [fst]; [|done]; destruct (find_one (QEq "_id" _) _) as [[|kv d]|] eqn:E2; try done;
    intros [= <-]; by apply find_one_some in E2 as [? _].
  cbn [fst]. intros [= <-]. by apply find_one_some in E as [? _].
Qed.

Lemma opened_ok lid hr user op w line session w' :
  lines_ok (w_db w "count_lines") → sessions_ok (w_db w "sessions") → opened lid hr user op w = (Ok (line, session), w') →
  found_line object_id lid w = Some line ∧ w_db w' "count_lines" = w_db w "count_lines"
  ∧ sessions_ok (w_db w' "sessions") ∧ line ∈ contents (w_db w "count_lines").
Proof.
  intros Hl Hs Ho. assert (found_line object_id lid w = Some line) as Hf by (by apply open_line_ok in Ho as [? _]).
  split; [done|]. split; [by eapply (frame_db _ _ _ _ _ "count_lines" (frame_open clock object_id sha256 parse_flag database_bool lid hr user op))|].
  split; [by apply (keeps_run _ _ _ _ _ _ (keeps_open _ _ _ _) Ho) | by eapply found_line_in].
Qed.

(** What a decision writes on the line. *)
Definition fields_of_decision (a : line_request) (user line : doc) (now : Z) : option doc :=
  match a with
  | Verify _ => Some (verified_fields (get "username" user) now)
  | Unverify _ => Some unverified_fields
  | Approve _ b => Some (approved_fields (get "username" user) now b)
  | RejectLine _ b => Some (rejected_fields (get "username" user) now (rejection_reason_of b) (assignee b line))
  | _ => None
  end.

Lemma internal_ok {A} detail (m : M (world C) A) w a w' : internal_error detail m w = (Ok a, w') → m w = (Ok a, w').
Proof. unfold internal_error, try_except. destruct (m w) as [[x|[]] w1]; intros Hm; by simplify_eq. Qed.

Lemma verification_written_ok result line user lid event action w u w' :
  verification_written clock answers has_activity_log result line user lid event action w = (Ok u, w') →
  ∃ x w1, recompute_session_totals clock (session_of line) w = (Ok x, w1) ∧
    ∃ m : M (world C) unit, frame [] m ∧ m w1 = (Ok u, w').
Proof.
  unfold verification_written. intros Hm.
  apply bind_ok_inv in Hm as (none & w1 & [_ ->]%lift_ok & Hm).
  apply bind_ok_inv in Hm as ([] & w2 & [_ ->]%raise_if_ok_inv & Hm).
  apply bind_ok_inv in Hm as (x & w3 & Hr & Hm). exists x, w3. split; [done|]. eexists. split; [|exact Hm].
  apply frame_bind; [apply frame_broadcast|]. intros _. apply frame_activity.
Qed.

Lemma write_matched_ok p ctx w n w' :
  write_matched clock strict_mode write_logs object_id sha256 client_count_lines cl p ctx w = (Ok n, w') →
  ∃ r, with_service (process_write clock strict_mode write_logs object_id sha256 client_count_lines cl false p ctx) w = (Ok r, w').
Proof.
  unfold write_matched. intros Hm. apply bind_ok_inv in Hm as (d & w1 & [-> _]%read_ok & Hm).
  apply bind_ok_inv in Hm as (r & w2 & Hw & Hm). unfold ret in Hm. simplify_eq. eauto.
Qed.

(** The write of a decision and what follows it, from a world with the lines of
    [w]. *)
Lemma written_decided {A} line id fields w w1 r w2 x w3 (m : M (world C) A) o w' :
  lines_ok (w_db w "count_lines") → w_db w1 "count_lines" = w_db w "count_lines" → sessions_ok (w_db w1 "sessions") →
  line ∈ contents (w_db w "count_lines") → has_key "counted_qty" fields = false → item "_id" line = Ok id →
  with_service (process_write clock strict_mode write_logs object_id sha256 client_count_lines cl false (update_line id fields)
    (mutable_context line)) w1 = (Ok r, w2) →
  recompute_session_totals clock (session_of line) w2 = (Ok x, w3) → frame [] m → m w3 = (o, w') → decided line fields w w'.
Proof.
  intros Hl Hc Hs Hin Hq Hid Hw Hr Hf Hm. eapply decided_frame; [|exact Hf|exact Hm].
  assert (decided line fields w1 w3) as Hd by (eapply marked_decided; try done; by rewrite Hc).
  unfold decided in *. by rewrite Hc in Hd.
Qed.

(** What a request decides. *)
Definition decided_by (a : line_request) (user : doc) (w w' : world C) : Prop :=
  ∃ line now fields, found_line object_id (requested_line a) w = Some line ∧ fields_of_decision a user line now = Some fields
    ∧ decided line fields w w'.

Lemma verify_decided lid user hr w r w' :
  lines_ok (w_db w "count_lines") → sessions_ok (w_db w "sessions") →
  verify_stock clock strict_mode write_logs object_id sha256 client_count_lines cl parse_flag database_bool answers
    has_activity_log lid user hr w = (Ok r, w') → decided_by (Verify lid) user w w'.
Proof.
  intros Hl Hs Hm. unfold verify_stock in Hm. apply bind_ok_inv in Hm as ([] & w0 & [-> _]%supervisor_ok & Hm).
  apply bind_ok_inv in Hm as ([line session] & w1 & Ho & Hm). apply opened_ok in Ho as (Hf & Hc & Hs1 & Hin); [|done..].
  apply bind_ok_inv in Hm as ([] & w2 & [_ ->]%raise_if_ok_inv & Hm).
  apply bind_ok_inv in Hm as (id & w3 & [Hid ->]%lift_ok & Hm).
  apply bind_ok_inv in Hm as (username & w4 & [Hu ->]%lift_ok & Hm). apply item_get in Hu as ->.
  apply bind_ok_inv in Hm as (now & w5 & Hnow & Hm). unfold utc_now in Hnow. simplify_eq.
  apply bind_ok_inv in Hm as (res & w6 & Hw & Hm).
  apply bind_ok_inv in Hm as ([] & w7 & (x & w8 & Hr & m & Hfr & Hrest)%verification_written_ok & Hm). unfold ret in Hm. simplify_eq.
  exists line, (clock (w_tick w1)). eexists. split; [done|]. split; [done|]. by eapply (written_decided _ _ _ w (tick w1)).
Qed.

Lemma unverify_decided lid user hr w r w' :
  lines_ok (w_db w "count_lines") → sessions_ok (w_db w "sessions") →
  unverify_stock clock strict_mode write_logs object_id sha256 client_count_lines cl parse_flag database_bool answers
    has_activity_log lid user hr w = (Ok r, w') → decided_by (Unverify lid) user w w'.
Proof.
  intros Hl Hs Hm. unfold unverify_stock in Hm. apply bind_ok_inv in Hm as ([] & w0 & [-> _]%supervisor_ok & Hm).
  apply bind_ok_inv in Hm as ([line session] & w1 & Ho & Hm). apply opened_ok in Ho as (Hf & Hc & Hs1 & Hin); [|done..].
  apply bind_ok_inv in Hm as (id & w3 & [Hid ->]%lift_ok & Hm).
  apply bind_ok_inv in Hm as (res & w6 & Hw & Hm).
  apply bind_ok_inv in Hm as ([] & w7 & (x & w8 & Hr & m & Hfr & Hrest)%verification_written_ok & Hm). unfold ret in Hm. simplify_eq.
  exists line, 0. eexists. split; [done|]. split; [done|]. by eapply (written_decided _ _ _ w w1).
Qed.

Lemma approve_decided lid b user hr w r w' :
  lines_ok (w_db w "count_lines") → sessions_ok (w_db w "sessions") →
  approve_count_line clock strict_mode write_logs object_id sha256 client_count_lines cl parse_flag database_bool answers
    lid b user hr w = (Ok r, w') → decided_by (Approve lid b) user w w'.
Proof.
  intros Hl Hs Hm. unfold approve_count_line in Hm. apply bind_ok_inv in Hm as (sup & w0 & [_ ->]%lift_ok & Hm).
  apply bind_ok_inv in Hm as ([] & w0' & [_ ->]%raise_if_ok_inv & Hm). apply internal_ok in Hm.
  apply bind_ok_inv in Hm as ([line session] & w1 & Ho & Hm). apply opened_ok in Ho as (Hf & Hc & Hs1 & Hin); [|done..].
  apply bind_ok_inv in Hm as (now & w5 & Hnow & Hm). unfold utc_now in Hnow. simplify_eq.
  apply bind_ok_inv in Hm as (id & w3 & [Hid ->]%lift_ok & Hm).
  apply bind_ok_inv in Hm as (username & w4 & [Hu ->]%lift_ok & Hm). apply item_get in Hu as ->.
  apply bind_ok_inv in Hm as (n & w6 & (res & Hw)%write_matched_ok & Hm).
  apply bind_ok_inv in Hm as ([] & w7 & [_ ->]%raise_if_ok_inv & Hm).
  apply bind_ok_inv in Hm as (x & w8 & Hr & Hm).
  exists line, (clock (w_tick w1)). eexists. split; [done|]. split; [done|].
  eapply (written_decided _ _ _ w (tick w1)); [done..|exact Hid|exact Hw|exact Hr| |exact Hm].
  pose proof (frame_broadcast []) as H1b. pose proof (frame_call []) as H2c.
  repeat first [ apply H1b | apply H2c | frame_step ].
Qed.

Lemma reject_decided lid b user hr w r w' :
  lines_ok (w_db w "count_lines") → sessions_ok (w_db w "sessions") →
  reject_count_line clock strict_mode write_logs object_id sha256 client_count_lines cl parse_flag database_bool answers
    lid b user hr w = (Ok r, w') → decided_by (RejectLine lid b) user w w'.
Proof.
  intros Hl Hs Hm. unfold reject_count_line in Hm. apply bind_ok_inv in Hm as (sup & w0 & [_ ->]%lift_ok & Hm).
  apply bind_ok_inv in Hm as ([] & w0' & [_ ->]%raise_if_ok_inv & Hm). apply internal_ok in Hm.
  apply bind_ok_inv in Hm as ([line session] & w1 & Ho & Hm). apply opened_ok in Ho as (Hf & Hc & Hs1 & Hin); [|done..].
  apply bind_ok_inv in Hm as (now & w5 & Hnow & Hm). unfold utc_now in Hnow. simplify_eq. cbv zeta in Hm.
  apply bind_ok_inv in Hm as (id & w3 & [Hid ->]%lift_ok & Hm).
  apply bind_ok_inv in Hm as (username & w4 & [Hu ->]%lift_ok & Hm). apply item_get in Hu as ->.
  apply bind_ok_inv in Hm as (n & w6 & (res & Hw)%write_matched_ok & Hm).
  apply bind_ok_inv in Hm as ([] & w7 & [_ ->]%raise_if_ok_inv & Hm).
  apply bind_ok_inv in Hm as (x & w8 & Hr & Hm).
  exists line, (clock (w_tick w1)). eexists. split; [done|]. split; [done|].
  eapply (written_decided _ _ _ w (tick w1)); [done..|exact Hid|exact Hw|exact Hr| |exact Hm].
  pose proof (frame_broadcast []) as H1b. pose proof (frame_notify_rejection []) as H2c.
  repeat first [ apply H1b | apply H2c | frame_step ].
Qed.

(** C38: a decision on a line (verification and its removal, approval, rejection) that succeeds changes exactly the line of
    the request, by the fields of the decision, the time being a reading of the clock, and the semantic hash, and leaves the
    stored session of the line open with the totals of exactly the lines as they are then. *)
Theorem decision_stored a user hr w r w' :
  lines_ok (w_db w "count_lines") → sessions_ok (w_db w "sessions") →
  (∃ line now, fields_of_decision a user line now ≠ None) →
  perform_request clock strict_mode write_logs object_id sha256 client_count_lines cl parse_flag database_bool answers
    has_activity_log a user hr w = (Ok r, w') →
  ∃ line now fields, found_line object_id (requested_line a) w = Some line ∧ fields_of_decision a user line now = Some fields
    ∧ decided line fields w w'.
Proof.
  intros Hl Hs Ha Hm. change (decided_by a user w w').
  destruct a; cbn [perform_request] in Hm; try (destruct Ha as (? & ? & Ha); by cbn in Ha);
    eauto using verify_decided, unverify_decided, approve_decided, reject_decided.
Qed.
End decision_requests.

(** ** Bulk decisions *)

(** The operation of a bulk decision is none the write service knows: no bulk
    approval or rejection ever succeeds. *)
Lemma bulk_never_succeeds {C} `{MongoLaws C} clock strict logs oid sha attr cl pf so answers ids user hr op event detail done w o w' :
  bulk_decide (C:=C) clock strict logs oid sha attr cl pf so answers ids user hr op event detail done w = (o, w') → is_ok o = false.
Proof.
  intros Hm. destruct o as [r|]; [|done]. exfalso. unfold bulk_decide in Hm.
  apply bind_ok_inv in Hm as (b & w0 & _ & Hm). apply bind_ok_inv in Hm as ([] & w1 & _ & Hm). unfold try_except in Hm.
  match type of Hm with context [match ?m w1 with _ => _ end] => destruct (m w1) as [[x|e] w2] eqn:E end; [|done].
  apply bind_ok_inv in E as (found & w3 & _ & E). apply bind_ok_inv in E as ([] & w4 & _ & E).
  apply bind_ok_inv in E as ([] & w5 & _ & E). apply bind_ok_inv in E as (res & w6 & (s' & Hw)%with_service_ok & _).
  apply write_ok in Hw as (hs & Hw). unfold _process_write_core in Hw. done.
Qed.

(** ** Concrete requests *)

Definition action_line (id : string) (counted_qty variance : Z) : doc :=
  [("_id", VOid id); ("id", VStr id); ("version", VInt 1); ("status", VStr "pending"); ("variance", VInt variance);
   ("counted_by", VStr "staff1")]
  ++ example_line (VInt counted_qty) [].
Definition action_world : world coll := count_world [action_line "c1" 5 (-4); action_line "c2" 4 (-5)].
Definition supervisor : doc := [("username", VStr "sup1"); ("role", VStr "supervisor")].
Definition staff (name : string) : doc := [("username", VStr name); ("role", VStr "staff")].
Definition example_request (a : line_request) (user : doc) (w : world coll) : outcome doc * world coll :=
  perform_request no_clock false true conflict_ids (fun s => s) ACollection replica_client (fun _ _ _ => None) (Ok true)
    (fun _ => Ok tt) true a user None w.
Definition example_merge (cl : client) (source target : string) (w : world coll) : outcome doc * world coll :=
  merge_count_lines no_clock false true conflict_ids (fun s => s) ACollection cl (fun _ _ _ => None) (Ok true)
    (MergeRequest [source] target true) supervisor None w.

Lemma example_approved : is_ok (fst (example_request (Approve "c1" None) supervisor action_world)) = true.
Proof. vm_compute. reflexivity. Qed.

Lemma example_edit_refused :
  let out := example_request (AddTo "c1" (AddQuantity (of_Z 2) None)) (staff "other") action_world in
  fst out = Raise (http 403 "Not authorized to modify this count line").
Proof. vm_compute. reflexivity. Qed.

Lemma example_found : found_line conflict_ids "c1" action_world = Some (action_line "c1" 5 (-4)).
Proof. vm_compute. reflexivity. Qed.

Lemma action_lines_ok : lines_ok (w_db action_world "count_lines").
Proof.
  intros d Hd. assert (w_db action_world "count_lines" = [action_line "c1" 5 (-4); action_line "c2" 4 (-5)]) as Hc by done.
  rewrite Hc in *. apply elem_of_cons in Hd as [->|[->|[]%not_elem_of_nil]%elem_of_cons];
    (eexists; split; [reflexivity | vm_compute; lia]).
Qed.

(** A counter who did not count the line changes nothing of it. *)
Example line_changes_permitted_witness :
  let out := example_request (AddTo "c1" (AddQuantity (of_Z 2) None)) (staff "other") action_world in
  is_ok (fst out) = false ∧ w_db (snd out) "count_lines" = w_db action_world "count_lines".
Proof.
  cbv zeta. destruct (example_request (AddTo "c1" (AddQuantity (of_Z 2) None)) (staff "other") action_world) as [o w'] eqn:E.
  unfold example_request in E. cbn [fst snd].
  destruct (line_changes_permitted _ _ _ _ _ _ _ _ _ _ _ _ _ _ _ _ _ E) as [(line & Hf & _ & Hmay)|[Ho Hc]].
  - exfalso. assert (line = action_line "c1" 5 (-4)) as -> by (cbn [requested_line] in Hf; rewrite example_found in Hf; congruence). discriminate Hmay.
  - split; [exact Ho|]. by apply Hc.
Defined.

Lemma action_sessions_ok : sessions_ok (w_db action_world "sessions").
Proof. apply (sessions_ok_single example_session). by vm_compute. Qed.

Example decision_stored_witness :
  let out := example_request (Approve "c1" None) supervisor action_world in
  ∃ fields rest, get "approval_status" fields = VStr "APPROVED" ∧ get "approved_by" fields = VStr "sup1"
    ∧ contents (w_db (snd out) "count_lines") ≡ₚ apply_update (USet fields) (action_line "c1" 5 (-4)) :: rest.
Proof.
  pose proof example_approved as Hok. pose proof example_found as Hc1. pose proof action_lines_ok as Hl. pose proof action_sessions_ok as Hs.
  cbv zeta. assert (∃ w, w = action_world) as [w Hw] by eauto. rewrite <- Hw in *.
  destruct (example_request (Approve "c1" None) supervisor w) as [[r|e] w'] eqn:E; [|discriminate Hok].
  unfold example_request in E. cbn [snd].
  assert (∃ line now, fields_of_decision (Approve "c1" None) supervisor line now ≠ None) as Hd by (exists [], 0; discriminate).
  destruct (decision_stored _ _ _ _ _ _ _ _ _ _ _ _ _ _ _ _ _ Hl Hs Hd E) as (line & now & fields & Hf & Hfields & fields' & rest & t & session & Hh & _ & Hc & _).
  cbn [requested_line] in Hf. rewrite Hc1 in Hf. injection Hf as <-. injection Hfields as <-.
  exists fields', rest. destruct Hh as [->|[h ->]]; (split; [reflexivity|]; split; [reflexivity|exact Hc]).
Defined.

(** Nothing commits a merge: with transactions it is undone, and reported as
    done. *)
Lemma merge_not_committed :
  let out := example_merge replica_client "c2" "c1" action_world in
  match fst out with Ok d => get "merged" d = VList [VStr "c2"] | Raise _ => False end
  ∧ w_db (snd out) "count_lines" = w_db action_world "count_lines".
Proof. vm_compute. auto. Qed.

(** Without transactions a merged line is not superseded: its quantity and its variance count once
    for itself and once more in the line it was merged into, and the variance of
    that line stays what it was. *)
Lemma merge_counts_twice :
  let out := example_merge standalone_client "c2" "c1" action_world in
  let lines := w_db (snd out) "count_lines" in
  is_ok (fst out) = true
  ∧ match recompute_lines totals0 lines with Ok t => t_items t = 2 | Raise _ => False end
  ∧ map (fun d => to_float (get "counted_qty" d)) lines = [Ok (of_Z 9); Ok (of_Z 4)]
  ∧ map (get "variance") lines = [VInt (-4); VInt (-5)].
Proof. vm_compute. auto. Qed.

(** The notification follows the write: when it fails the route answers with an
    error, and the approval is stored. *)
Lemma approval_stored_despite_error :
  let out := perform_request no_clock false true conflict_ids (fun s => s) ACollection replica_client (fun _ _ _ => None)
    (Ok true) (fun _ => Raise (RuntimeError "down")) true (Approve "c1" None) supervisor None action_world in
  fst out = Raise (http 500 "Failed to approve count line")
  ∧ get "approval_status" (hd [] (w_db (snd out) "count_lines")) = VStr "APPROVED".
Proof. vm_compute. auto. Qed.
