(* ===== verification/LineCreation.v ===== *)
(** How a count line comes to be, [api/count_lines_routes.py]: the request
    ([CountLineCreate], [api/schemas.py]), the checks on its session, the risk
    flags, the locks, the duplicate or recount it meets, the document, its write
    with the counters' drafts, and what follows; the batch of them; the drafts.

    The ids drawn for a line, its observation and the event of that are
    arguments ([drawn]), as are the services the application has set
    ([has_lock_service], [has_variant_service], [has_activity_log]).  Nested
    models of a request are the dicts they dump to.  What pydantic makes of a
    line of a batch, dumped and validated again, is a parameter ([validate_again]),
    as is its dump for a draft.  The name of a user is a text. *)

From S2P Require Import Prelude PyFloat Py PyTime Store Guard Inventory Uow Frame Lifecycle Quantity Variance Locks CountLines Flags LogicGuard.
From S2P Require Import ApprovalEngine Observations LineActions.

Local Open Scope Z_scope.
Local Open Scope stock_scope.

(** ** The request *)

(** Where the item was counted. *)
Record location_context := Location {
  location_id : option string; floor_id : option string; rack_id : option string;
  floor_no : option string; rack_no : option string;
}.

(** Where it should have been. *)
Record misplacement := Misplaced {
  is_misplaced : option bool; expected_location : option string; found_location : option string;
  relocation_status : option string;
}.

(** The fields that the routes read.  The enums are their values: the models have [use_enum_values]. *)
Record CountLineCreate := LineCreate {
  c_session_id : string;
  c_location : location_context;
  c_item_code : string;
  c_item_name : option string;
  c_idempotency_key : option string;
  c_recount_of_id : option string;
  c_barcode : option string;
  c_batch_id : option string;
  c_batches : option (list doc);
  c_counted_qty : float;
  c_conversion_factor : option float;
  c_damaged_qty : option float;
  c_non_returnable_damaged_qty : option float;
  c_item_condition : option string;
  c_mark_location : option string;
  c_sr_no : option string;
  c_manufacturing_date : option string;
  c_mfg_date_format : option string;
  c_expiry_date : option string;
  c_expiry_date_format : option string;
  c_variance_reason : option string;
  c_variance_note : option string;
  c_remark : option string;
  c_photo_base64 : option string;
  c_mrp_counted : option float;
  c_split_section : option string;
  c_serial_numbers : option (list string);
  c_serial_entries : option (list doc);
  c_correction_reason : option doc;
  c_photo_proofs : option (list doc);
  c_correction_metadata : option doc;
  c_category_correction : option string;
  c_subcategory_correction : option string;
  c_misplacement : misplacement;
}.

(** [str(v).strip() if v else None] *)
Definition stripped_or_none (o : option string) : option string :=
  match o with Some s => if String.eqb s "" then None else Some (strip s) | None => None end.

(** [a], or [b] when only that is given. *)
Definition prefer (a b : option string) : option string := if negb (filled a) && filled b then b else a.

(** What validation makes of the places of a request. *)
Definition normalize_location_context (l : location_context) : location_context :=
  let floor := stripped_or_none (floor_no l) in
  let rack := stripped_or_none (rack_no l) in
  Location (stripped_or_none (location_id l)) (prefer (stripped_or_none (floor_id l)) floor) (prefer (stripped_or_none (rack_id l)) rack) floor rack.

Definition dumped_model (o : option doc) : val := match o with Some d => VDict d | None => VNone end.
Definition opt_docs (o : option (list doc)) : val := match o with Some l => VList (map VDict l) | None => VNone end.
Definition opt_texts (o : option (list string)) : val := match o with Some l => VList (map VStr l) | None => VNone end.
Definition opt_bool (o : option bool) : val := match o with Some b => VBool b | None => VNone end.

(** [a or b], both optional texts. *)
Definition either (a b : option string) : val := por (opt_str a) (opt_str b).

(** The fields of the dump that the search for duplicates reads. *)
Definition line_payload (l : CountLineCreate) : doc :=
  [("session_id", VStr (c_session_id l)); ("item_code", VStr (c_item_code l));
   ("recount_of_id", opt_str (c_recount_of_id l));
   ("floor_no", opt_str (floor_no (c_location l))); ("rack_no", opt_str (rack_no (c_location l)))].

(** An assignment to a request validates it again. *)
Definition with_misplacement (m : misplacement) (l : CountLineCreate) : CountLineCreate :=
  LineCreate (c_session_id l) (normalize_location_context (c_location l)) (c_item_code l) (c_item_name l) (c_idempotency_key l) (c_recount_of_id l)
    (c_barcode l) (c_batch_id l) (c_batches l) (c_counted_qty l) (c_conversion_factor l) (c_damaged_qty l)
    (c_non_returnable_damaged_qty l) (c_item_condition l) (c_mark_location l) (c_sr_no l) (c_manufacturing_date l)
    (c_mfg_date_format l) (c_expiry_date l) (c_expiry_date_format l) (c_variance_reason l) (c_variance_note l)
    (c_remark l) (c_photo_base64 l) (c_mrp_counted l) (c_split_section l) (c_serial_numbers l) (c_serial_entries l)
    (c_correction_reason l) (c_photo_proofs l) (c_correction_metadata l) (c_category_correction l)
    (c_subcategory_correction l) m.

Definition _normalize_idempotency_key (value : option string) : option string :=
  match value with
  | Some s => if String.eqb (strip s) "" then None else Some (strip s)
  | None => None
  end.

(** ** Risk *)

(** An operand of the arithmetic and comparisons: a number. *)
Definition number (v : val) : outcome float :=
  match v with VBool _ | VInt _ | VFloat _ => to_float v | _ => Raise (TypeError "unsupported operand type(s)") end.

(** [line_data.mrp_counted or erp_mrp] *)
Definition counted_mrp (l : CountLineCreate) (erp_mrp : float) : float :=
  match c_mrp_counted l with Some m => if truthy (VFloat m) then m else erp_mrp | None => erp_mrp end.

(** The fields of the request that the rules read. *)
Definition risk_fields (l : CountLineCreate) : doc :=
  [("correction_reason", dumped_model (c_correction_reason l)); ("variance_reason", opt_str (c_variance_reason l));
   ("photo_base64", opt_str (c_photo_base64 l)); ("photo_proofs", opt_docs (c_photo_proofs l));
   ("serial_numbers", opt_texts (c_serial_numbers l))].

(** The rules are those of the write service, [amount_flags], with the stock and
    the price of the ERP item. *)
Definition detect_risk_flags (erp_item : doc) (l : CountLineCreate) (variance : float) : outcome (list string) :=
  obind (number (dget "stock_qty" (VInt 0) erp_item)) (fun erp_qty =>
  obind (number (dget "mrp" (VInt 0) erp_item)) (fun erp_mrp =>
  Ok (amount_flags (risk_fields l) variance (c_counted_qty l) erp_qty erp_mrp (counted_mrp l erp_mrp)))).

Definition calculate_financial_impact (erp_mrp counted_mrp counted_qty erp_qty : float) : float :=
  fsub (fmul counted_mrp counted_qty) (fmul erp_mrp erp_qty).

(** [(v or "").strip().upper()] *)
Definition place_name (v : val) : outcome string :=
  match por v (VStr "") with
  | VStr s => Ok (upper (strip s))
  | _ => Raise (AttributeError "strip")
  end.

(** The flags, and the request with what was found misplaced. *)
Definition _apply_misplaced_stock_flags (erp_item : doc) (l : CountLineCreate) (risk_flags : list string)
  : outcome (list string * bool * CountLineCreate) :=
  let found_floor := upper (strip (default "" (floor_no (c_location l)))) in
  let found_rack := upper (strip (default "" (rack_no (c_location l)))) in
  obind (place_name (get "floor" erp_item)) (fun expected_floor =>
  obind (place_name (get "rack" erp_item)) (fun expected_rack =>
  if place_differs found_floor expected_floor || place_differs found_rack expected_rack
  then Ok (risk_flags ++ ["MISPLACED_ITEM"], true,
           with_misplacement (Misplaced (Some true) (Some (expected_floor +:+ "/" +:+ expected_rack))
                                (Some (found_floor +:+ "/" +:+ found_rack)) (Some "PENDING")) l)
  else Ok (risk_flags, false, l))).

Definition _build_count_line_risk_context (session erp_item : doc) (l : CountLineCreate) (variance erp_qty : float)
  : outcome (list string * bool * float * CountLineCreate) :=
  obind (detect_risk_flags erp_item l variance) (fun risk_flags =>
  obind (_apply_misplaced_stock_flags erp_item l risk_flags) (fun '(risk_flags, misplaced, l) =>
  let risk_flags := add_flag (py_eqb (get "type" session) (VStr "STRICT") && fgt0 (fabs variance))
                      "STRICT_MODE_VARIANCE" risk_flags in
  obind (number (dget "mrp" (VInt 0) erp_item)) (fun erp_mrp =>
  Ok (risk_flags, misplaced,
      calculate_financial_impact erp_mrp (counted_mrp l erp_mrp) (c_counted_qty l) erp_qty, l)))).

(** ** Locks *)

Definition _build_count_line_lock_keys (l : CountLineCreate) (erp_item : doc) : string * option string :=
  let item_id := get "item_id" erp_item in
  let session_variant_lock :=
    if truthy item_id then Some ("session:" +:+ c_session_id l +:+ ":product:" +:+ to_str item_id) else None in
  let place a b := to_str (por (either a b) (VStr "")) in
  (c_session_id l +:+ ":" +:+ c_item_code l
     +:+ ":" +:+ place (floor_id (c_location l)) (floor_no (c_location l))
     +:+ ":" +:+ place (rack_id (c_location l)) (rack_no (c_location l)),
   session_variant_lock).

Record lock_state := LockState {
  lock_key : string;
  session_variant_lock : option string;
  lock_acquired : bool;
  variant_lock_acquired : bool;
}.

Definition lock_error_detail (msg : string) : string :=
  if contains "session" msg
  then "A related SKU/Variant is currently being counted in this session. Please wait."
  else "Item or one of its variants is currently being counted by another user.".

(** ** The document *)

(** [d.value if d else None] of an enum whose value a model keeps. *)
Definition enum_value (o : option string) : outcome val :=
  if filled o then Raise (AttributeError "'str' object has no attribute 'value'") else Ok VNone.

(** [e if e else None] of an optional list. *)
Definition nonempty (v : val) : val := if truthy v then v else VNone.

Definition governed_fields (g : CountLineGovernanceDecision) : doc :=
  [("requires_supervisor_approval", VBool (g_requires_supervisor_approval g)); ("variance_data", VDict (g_variance_data g));
   ("violated_thresholds", VList (map VDict (g_violated_thresholds g)))].

Definition new_line_document (l : CountLineCreate) (erp_item : doc) (username : val) (erp_qty : float) (baseline_hash : string)
    (g : CountLineGovernanceDecision) (risk_flags : list string) (financial_impact : float) (misplaced : bool)
    (id : string) (recount_root_id previous_version_id : val) (version counted_at : Z) (mfg_format expiry_format : val) : doc :=
  let place := c_location l in
  let m := c_misplacement l in
  [("id", VStr id); ("session_id", VStr (c_session_id l)); ("location_id", opt_str (location_id place));
   ("floor_id", opt_str (floor_id place)); ("rack_id", opt_str (rack_id place));
   ("idempotency_key", por (opt_str (_normalize_idempotency_key (c_idempotency_key l))) (VStr id));
   ("recount_of_id", recount_root_id); ("version", VInt version); ("previous_version_id", previous_version_id);
   ("item_code", VStr (c_item_code l)); ("barcode", por (opt_str (c_barcode l)) (get "barcode" erp_item));
   ("item_name", dget "item_name" (VStr "Unknown") erp_item); ("erp_qty", VFloat erp_qty);
   ("baseline_hash", VStr baseline_hash); ("counted_qty", VFloat (c_counted_qty l)); ("variance", VFloat (g_variance g));
   ("variance_reason", opt_str (c_variance_reason l)); ("variance_note", opt_str (c_variance_note l));
   ("remark", opt_str (c_remark l)); ("photo_base64", opt_str (c_photo_base64 l)); ("damaged_qty", opt_float (c_damaged_qty l));
   ("item_condition", opt_str (c_item_condition l)); ("floor_no", either (floor_no place) (floor_id place));
   ("rack_no", either (rack_no place) (rack_id place)); ("mark_location", opt_str (c_mark_location l));
   ("sr_no", opt_str (c_sr_no l)); ("manufacturing_date", opt_str (c_manufacturing_date l));
   ("mfg_date_format", mfg_format); ("expiry_date", opt_str (c_expiry_date l)); ("expiry_date_format", expiry_format);
   ("non_returnable_damaged_qty", opt_float (c_non_returnable_damaged_qty l));
   ("correction_reason", dumped_model (c_correction_reason l)); ("photo_proofs", nonempty (opt_docs (c_photo_proofs l)));
   ("correction_metadata", dumped_model (c_correction_metadata l)); ("approval_status", VStr (g_approval_status g));
   ("approval_by", opt_str (g_approved_by g)); ("approval_at", opt_time (g_approved_at g)); ("rejection_reason", VNone);
   ("is_misplaced", VBool misplaced); ("expected_location", opt_str (expected_location m));
   ("found_location", opt_str (found_location m)); ("relocation_status", opt_str (relocation_status m));
   ("risk_flags", VList (map VStr risk_flags)); ("financial_impact", VFloat financial_impact);
   ("created_by", username); ("counted_by", username); ("counted_at", VTime counted_at); ("updated_at", VTime counted_at);
   ("updated_by", username); ("mrp_erp", dget "mrp" (VInt 0) erp_item); ("mrp_counted", opt_float (c_mrp_counted l));
   ("split_section", opt_str (c_split_section l)); ("category_correction", opt_str (c_category_correction l));
   ("subcategory_correction", opt_str (c_subcategory_correction l))]
  ++ governed_fields g
  ++ [("serial_numbers", nonempty (opt_texts (c_serial_numbers l))); ("serial_entries", nonempty (opt_docs (c_serial_entries l)));
      ("status", VStr (g_status g)); ("verified", VBool false); ("verified_at", VNone); ("verified_by", VNone);
      ("approved_by", opt_str (g_approved_by g)); ("approved_at", opt_time (g_approved_at g)); ("rejected_by", VNone);
      ("rejected_at", VNone); ("recount_requested_at", VNone); ("recount_requested_by", VNone); ("assigned_to", VNone)].

(** ** Drafts *)

Definition _build_draft_line_id (l : CountLineCreate) : string :=
  join "|" (map (fun s => upper (strip s))
    [c_item_code l; default "" (floor_no (c_location l)); default "" (rack_no (c_location l)); default "" (c_mark_location l)]).

Definition _build_count_line_draft_filter (l : CountLineCreate) (username : val) : query :=
  QAnd [QEq "session_id" (VStr (c_session_id l)); QEq "user_id" username; QEq "line_id" (VStr (_build_draft_line_id l))].

Definition _build_legacy_count_line_draft_filter (l : CountLineCreate) (username : val) : query :=
  QAnd [QEq "session_id" (VStr (c_session_id l)); QEq "item_code" (VStr (c_item_code l)); QEq "counted_by" username;
        QEq "floor_no" (opt_str (floor_no (c_location l))); QEq "rack_no" (opt_str (rack_no (c_location l)))].

(** What the observation of the line takes of the request. *)
Definition observed (l : CountLineCreate) : line_data :=
  LineData (c_session_id l) (c_item_code l) (c_split_section l) (c_manufacturing_date l) (c_expiry_date l) (c_batch_id l)
    (floor_no (c_location l)) (rack_no (c_location l)) (c_mark_location l) (location_id (c_location l)) (c_remark l)
    (c_recount_of_id l).

(** The ids drawn: of the line, its observation and the event of that. *)
Record drawn := Drawn { drawn_line : string; drawn_observation : string; drawn_event : string }.

Record CountLineBatchCreate := BatchCreate { b_session_id : string; b_lines : list CountLineCreate }.

(** How a batch answers its lines. *)
Inductive line_answer :=
| Created (index : Z) (id : string)
| Repeated (index : Z) (id : string)
| NotCreated (index : Z).

Definition answer_index (a : line_answer) : Z :=
  match a with Created i _ | Repeated i _ | NotCreated i => i end.
Definition answered_ok (a : line_answer) : bool := match a with NotCreated _ => false | _ => true end.

Definition answer_doc (a : line_answer) : doc :=
  match a with
  | Created i id => [("index", VInt i); ("id", VStr id); ("success", VBool true)]
  | Repeated i id => [("index", VInt i); ("id", VStr id); ("success", VBool true); ("idempotent", VBool true)]
  | NotCreated i => [("index", VInt i); ("error", VStr "Processing failed"); ("error_code", VStr "LINE_PROCESSING_FAILED")]
  end.

Section creation.
Context {C : Type} `{Mongo C}.
Context (clock : nat → Z) (strict_mode write_logs : bool) (object_id : string → option string).
Context (sha256 : string → string) (client_count_lines : client_attribute) (cl : client).
Context (parse_flag : Z → Z → doc → option FeatureFlag) (database_bool : outcome bool).
Context (answers : event → outcome unit) (has_activity_log has_lock_service has_variant_service : bool).
Context (validate_again : string → string → CountLineCreate → outcome CountLineCreate).

(** ** The checks *)

Definition _ensure_session_accepts_counts (session : doc) : M (world C) unit :=
  run raise_if (negb (existsb (py_eqb (get "status" session)) [VStr "OPEN"; VStr "ACTIVE"]))
        (http 400 "Session is not active") ;;
  raise_if (truthy (get "reconciled_at" session)) (http 400 "Session is in reconciliation mode").

(** The line with the key, without its [_id]. *)
Definition _find_idempotent_count_line (l : CountLineCreate) : M (world C) (option doc) :=
  match _normalize_idempotency_key (c_idempotency_key l) with
  | None => ret None
  | Some key =>
      do existing <- db_find_one "count_lines"
        (QAnd [QEq "session_id" (VStr (c_session_id l)); QEq "idempotency_key" (VStr key)]) ;;
      ret (adel "_id" <$> existing)
  end.

Definition _find_erp_item_for_count_line (l : CountLineCreate) : M (world C) (option doc) :=
  do by_barcode <- (if filled (c_barcode l) then db_find_one "erp_items" (QEq "barcode" (opt_str (c_barcode l))) else ret None) ;;
  match by_barcode with
  | Some ((_ :: _) as d) => ret (Some d)
  | _ => db_find_one "erp_items" (QEq "item_code" (VStr (c_item_code l)))
  end.

Definition _get_erp_item_for_count_line (l : CountLineCreate) : M (world C) doc :=
  do erp_item <- _find_erp_item_for_count_line l ;;
  match erp_item with
  | Some ((_ :: _) as d) => ret d
  | _ => raise (http 404 "Item not found in ERP")
  end.

(** A variant lock that was acquired stays when the other is not. *)
Definition _acquire_count_line_locks (l : CountLineCreate) (erp_item : doc) (username : string) : M (world C) lock_state :=
  let '(key, variant) := _build_count_line_lock_keys l erp_item in
  if negb has_lock_service then ret (LockState key variant false false)
  else
    try_except
      (do variant_lock_acquired <- match variant with
                                   | Some v => if has_variant_service then acquire_lock clock v username DEFAULT_LOCK_TTL else ret false
                                   | None => ret false
                                   end ;;
       do lock_acquired <- acquire_lock clock key username DEFAULT_LOCK_TTL ;;
       ret (LockState key variant lock_acquired variant_lock_acquired))
      (fun e => match e with ResourceLockedError msg => raise (http 423 (lock_error_detail msg)) | _ => raise e end).

Definition _release_count_line_locks (s : lock_state) (username : string) : M (world C) unit :=
  when has_lock_service
    (run when (lock_acquired s) (release_lock (lock_key s) username) ;;
     match session_variant_lock s with
     | Some v => when (variant_lock_acquired s) (release_lock v username)
     | None => ret tt
     end).

(** A rejected line that the request recounts; any other line of the place is a
    duplicate. *)
Definition _resolve_recount_target (l : CountLineCreate) : M (world C) (option doc) :=
  do existing_count <- find_duplicate_count_line (line_payload l) None ;;
  match existing_count with
  | Some ((_ :: _) as d) =>
      if can_reuse_rejected_count_line d (line_payload l) then ret (Some d)
      else raise (http 409
        "Duplicate Scan: This item has already been counted in this specific location (Floor/Rack). Use an explicit recount flow to resubmit it.")
  | _ => ret None
  end.

(** The document and when it was counted. *)
Definition _build_count_line_document (l : CountLineCreate) (erp_item : doc) (username : val) (erp_qty : float)
    (baseline_hash : string) (g : CountLineGovernanceDecision) (risk_flags : list string) (financial_impact : float)
    (misplaced : bool) (target : option doc) (id : string) : M (world C) (doc * Z) :=
  let previous_version_id := match target with Some t => opt_str (extract_document_id t) | None => VNone end in
  let recount_root_id := por (opt_str (c_recount_of_id l)) (por (get "recount_of_id" (default [] target)) previous_version_id) in
  let one_more := if given target then 1 else 0 in
  do version <- lift (int_or "version" 1 (default [] target)) ;;
  do counted_at <- utc_now clock ;;
  do mfg_format <- lift (enum_value (c_mfg_date_format l)) ;;
  do expiry_format <- lift (enum_value (c_expiry_date_format l)) ;;
  do recount_iteration <- lift (int_or "recount_iteration" 0 (default [] target)) ;;
  ret (new_line_document l erp_item username erp_qty baseline_hash g risk_flags financial_impact misplaced id recount_root_id
         previous_version_id (version + one_more) counted_at mfg_format expiry_format
       ++ [("recount_iteration", VInt (recount_iteration + one_more))], counted_at).

(** ** The write *)

Abbreviation W := (write_service * world C)%type.

Definition persist_context (session : doc) (username : val) (expected : Z) : doc :=
  [("session", VDict session); ("username", username); ("skip_session_totals_update", VBool true);
   ("expected_session_version", VInt expected)].

Definition superseding_fields (username : val) (counted_at : Z) (count_line : doc) : outcome doc :=
  obind (item "id" count_line) (fun id =>
  Ok [("status", VStr "SUPERSEDED"); ("superseded_at", VTime counted_at); ("superseded_by", username);
      ("superseded_by_version_id", id); ("location_id", get "location_id" count_line); ("floor_id", get "floor_id" count_line);
      ("rack_id", get "rack_id" count_line)]).

Definition submitted_fields (counted_at : Z) (count_line_id : val) : doc :=
  [("status", VStr "submitted"); ("submitted_at", VTime counted_at); ("submitted_count_line_id", count_line_id);
   ("updated_at", VTime counted_at)].

Definition write_line (has_session : bool) (p : payload) (context : doc) : M W write_result :=
  process_write clock strict_mode write_logs object_id sha256 client_count_lines cl has_session p context.

(** The writes of the unit of work: the line, the recounted line, the drafts.
    The line as they leave it. *)
Definition persist_body (l : CountLineCreate) (username : val) (count_line : doc) (counted_at : Z) (target : option doc)
    (session : doc) (has_session : bool) : M W doc :=
  do expected <- lift (coerce_version (get "version" session)) ;;
  let context := persist_context session username expected in
  do result <- write_line has_session (Payload "insert_one" (Some count_line) None None false) context ;;
  let count_line := match result with RDocument d => d | _ => count_line end in
  run match target with
      | Some t =>
          do _id <- lift (item "_id" t) ;;
          do fields <- lift (superseding_fields username counted_at count_line) ;;
          do _ <- write_line has_session (Payload "update_one" None (Some (QEq "_id" _id)) (Some (USet fields)) false) context ;;
          ret tt
      | None => ret tt
      end ;;
  do id <- lift (item "id" count_line) ;;
  do _ <- on_world (db_update_many "count_line_drafts"
    (QOr [_build_count_line_draft_filter l username; _build_legacy_count_line_draft_filter l username])
    (USet (submitted_fields counted_at id))) ;;
  ret count_line.

(** Nothing commits the unit of work. *)
Definition _persist_count_line_document (l : CountLineCreate) (username : val) (count_line : doc) (counted_at : Z)
    (target : option doc) (session : doc) : M W doc :=
  in_uow_uncommitted cl (persist_body l username count_line counted_at target session).

(** [_create_and_persist_count_line], and the same steps in [create_count_line],
    which hands what the write raises to [on_error].  The line, and the decision
    on it. *)
Definition create_and_persist (on_error : exn → M W doc) (session : doc) (l : CountLineCreate) (current_user : doc) (id : string)
  : M W (doc * CountLineGovernanceDecision) :=
  do erp_item <- on_world (_get_erp_item_for_count_line l) ;;
  do username <- lift (item "username" current_user) ;;
  do ' (erp_qty, baseline_hash) <- resolve_baseline (c_session_id l) (c_item_code l) false ;;
  do governance <- evaluate_new_count_line clock (c_counted_qty l) erp_item erp_qty (opt_str (c_variance_reason l))
    (dumped_model (c_correction_reason l)) (opt_str (floor_id (c_location l))) ;;
  do ' (risk_flags, misplaced, financial_impact, l) <-
    lift (_build_count_line_risk_context session erp_item l (g_variance governance) erp_qty) ;;
  do locks <- on_world (_acquire_count_line_locks l erp_item (to_str username)) ;;
  do count_line <- try_finally
    (try_except
       (do target <- on_world (_resolve_recount_target l) ;;
        do ' (count_line, counted_at) <- on_world (_build_count_line_document l erp_item username erp_qty baseline_hash
          governance risk_flags financial_impact misplaced target id) ;;
        _persist_count_line_document l username count_line counted_at target session)
       on_error)
    (on_world (_release_count_line_locks locks (to_str username))) ;;
  ret (count_line, governance).

(** ** What follows *)

Definition _broadcast_scan_created (l : CountLineCreate) (count_line : doc) (variance : float) : M (world C) unit :=
  try_except
    (do code <- lift (item "item_code" count_line) ;;
     do counted_by <- lift (item "counted_by" count_line) ;;
     do qty <- lift (item "counted_qty" count_line) ;;
     do counted_at <- lift (item "counted_at" count_line) ;;
     do timestamp <- match counted_at with
                     | VTime t => ret (VStr (isoformat "T" t))
                     | _ => raise (AttributeError "isoformat")
                     end ;;
     call answers "manager.broadcast_to_session" [VDict [("type", VStr "scan_created"); ("payload", VDict
       [("session_id", VStr (c_session_id l)); ("item_code", code); ("counted_by", counted_by); ("qty", qty);
        ("variance", VFloat variance); ("timestamp", timestamp)])]; VStr (c_session_id l)])
    (fun _ => ret tt).

(** The first barcode counted becomes the one of the session. *)
Definition _maybe_update_session_barcode (l : CountLineCreate) : M (world C) unit :=
  when (filled (c_barcode l))
    (try_except
       (do session_result <- find_session (c_session_id l) ;;
        match session_result with
        | Some ((_ :: _) as d) =>
            when (negb (truthy (get "barcode" d)))
              (Lifecycle.update_session_fields clock (c_session_id l) [("barcode", opt_str (c_barcode l))] None "system")
        | _ => ret tt
        end)
       (fun _ => ret tt)).

Definition _record_high_risk_correction (current_user count_line : doc) (variance financial_impact : float) : M (world C) unit :=
  run when has_activity_log
    (do user <- lift (item "username" current_user) ;;
     do id <- lift (item "id" count_line) ;;
     call answers "activity_log.log_activity" [user; dget "role" (VStr "") current_user; VStr "high_risk_correction"; id]) ;;
  try_except
    (do user <- lift (item "username" current_user) ;;
     do id <- lift (item "id" count_line) ;;
     call answers "audit_service.log_event"
       [VStr "STOCK_VARIANCE_DETECTED"; user; id; get "risk_flags" count_line; VFloat variance; VFloat financial_impact])
    (fun _ => ret tt).

Definition after_creation (l : CountLineCreate) (current_user count_line : doc) (g : CountLineGovernanceDecision) (ids : drawn)
  : M (world C) doc :=
  run _broadcast_scan_created l count_line (g_variance g) ;;
  run _broadcast_dashboard_refresh clock answers "count_line_created" (c_session_id l) [] count_line ;;
  run try_except (do _ <- recompute_session_totals clock (c_session_id l) ;; ret tt) (fun _ => ret tt) ;;
  run _maybe_update_session_barcode l ;;
  do count_line <- _create_and_evaluate_observation clock (drawn_observation ids) (drawn_event ids) (observed l) current_user count_line ;;
  run when (truthy (get "risk_flags" count_line))
        (do variance <- lift (to_float (por (get "variance" count_line) (VFloat (g_variance g)))) ;;
         do impact <- lift (to_float (por (get "financial_impact" count_line) (VFloat f0))) ;;
         _record_high_risk_correction current_user count_line variance impact) ;;
  ret (adel "_id" count_line).

(** A version conflict is one of the request. *)
Definition conflict_response (e : exn) : M W doc :=
  match e with
  | ConcurrencyError _ => raise (http 409 "Session was modified concurrently; reload the session and retry.")
  | _ => raise e
  end.

(** What the request leaves when no line has its key. *)
Definition create_new (session : doc) (l : CountLineCreate) (current_user : doc) (ids : drawn) : M (world C) doc :=
  do ' (count_line, governance) <- with_service (create_and_persist conflict_response session l current_user (drawn_line ids)) ;;
  after_creation l current_user count_line governance ids.

Definition create_count_line (l : CountLineCreate) (current_user : doc) (request : option http_request) (ids : drawn)
  : M (world C) doc :=
  do session <- _get_mutable_session_or_409 (c_session_id l) ;;
  do session <- _enforce_count_line_session_logic clock sha256 parse_flag database_bool session request current_user
    "create_count_line" ;;
  run _ensure_session_accepts_counts session ;;
  do existing_idempotent <- _find_idempotent_count_line l ;;
  match existing_idempotent with
  | Some ((_ :: _) as d) => ret d
  | _ => create_new session l current_user ids
  end.

(** ** A batch *)

(** One line of the batch; the id of the line, and whether it was there. *)
Definition create_batch_line (session : doc) (session_id : string) (l : CountLineCreate) (current_user : doc) (id : string)
  : M W (string * bool) :=
  do batch_id <- match c_batch_id l with
                 | Some b => if String.eqb b "" then do now <- on_world (utc_now clock) ;; ret ("batch_" +:+ isoformat "T" now)
                             else ret b
                 | None => do now <- on_world (utc_now clock) ;; ret ("batch_" +:+ isoformat "T" now)
                 end ;;
  do enriched_line <- lift (validate_again session_id batch_id l) ;;
  do existing <- on_world (_find_idempotent_count_line enriched_line) ;;
  match existing with
  | Some ((_ :: _) as d) => ret (to_str (por (get "id" d) (VStr "")), true)
  | _ =>
      do ' (count_line, _) <- create_and_persist raise session enriched_line current_user id ;;
      ret (to_str (por (get "id" count_line) (VStr "")), false)
  end.

(** The lines from [index] on, each with its id drawn; a line that fails is
    answered as such. *)
Fixpoint create_batch_lines (session : doc) (session_id : string) (current_user : doc) (ids : nat → string) (index : nat)
    (lines : list CountLineCreate) : M W (list line_answer) :=
  match lines with
  | [] => ret []
  | l :: rest =>
      let i := Z.of_nat index in
      do answer <- try_except
        (do ' (id, repeated) <- create_batch_line session session_id l current_user (ids index) ;;
         ret (if repeated : bool then Repeated i id else Created i id))
        (fun _ => ret (NotCreated i)) ;;
      do answers <- create_batch_lines session session_id current_user ids (S index) rest ;;
      ret (answer :: answers)
  end.

Definition batch_response (l : list line_answer) : doc :=
  let results := List.filter answered_ok l in
  let errors := List.filter (fun a => negb (answered_ok a)) l in
  [("success", VBool (negb (match results with [] => true | _ => false end)));
   ("created", VInt (Z.of_nat (length results))); ("failed", VInt (Z.of_nat (length errors)));
   ("results", VList (map (fun a => VDict (answer_doc a)) results));
   ("errors", VList (map (fun a => VDict (answer_doc a)) errors))].

Definition create_count_lines_batch (batch_data : CountLineBatchCreate) (current_user : doc) (request : option http_request)
    (ids : nat → string) : M (world C) doc :=
  run raise_if (1000 <? length (b_lines batch_data))%nat (http 413 "Batch exceeds maximum of 1000 lines") ;;
  do session <- _get_mutable_session_or_409 (b_session_id batch_data) ;;
  do session <- _enforce_count_line_session_logic clock sha256 parse_flag database_bool session request current_user
    "create_count_lines_batch" ;;
  run raise_if (negb (existsb (py_eqb (get "status" session)) [VStr "OPEN"; VStr "ACTIVE"])) (http 400 "Session is not active") ;;
  do answered <- with_service (create_batch_lines session (b_session_id batch_data) current_user ids 0 (b_lines batch_data)) ;;
  do _ <- recompute_session_totals clock (b_session_id batch_data) ;;
  ret (batch_response answered).

(** ** The drafts *)

Definition _resolve_item_name_for_draft (l : CountLineCreate) : M (world C) val :=
  if filled (c_item_name l) then ret (opt_str (c_item_name l))
  else
    do by_barcode <- (if filled (c_barcode l) then db_find_one "erp_items" (QEq "barcode" (opt_str (c_barcode l))) else ret None) ;;
    do erp_item <- match by_barcode with
                   | Some ((_ :: _) as d) => ret (Some d)
                   | _ => if String.eqb (c_item_code l) "" then ret by_barcode
                          else db_find_one "erp_items" (QEq "item_code" (VStr (c_item_code l)))
                   end ;;
    ret (por (get "item_name" (default [] erp_item)) VNone).

(** The draft under its key, or under the key it had before. *)
Definition find_draft (l : CountLineCreate) (username : val) : M (world C) (option doc) :=
  do existing <- db_find_one "count_line_drafts" (_build_count_line_draft_filter l username) ;;
  match existing with
  | Some ((_ :: _) as d) => ret (Some d)
  | _ => db_find_one "count_line_drafts" (_build_legacy_count_line_draft_filter l username)
  end.

Definition overwrite_draft (draft draft_payload : doc) : M (world C) (string * doc) :=
  do _id <- lift (item "_id" draft) ;;
  do _ <- db_update_one "count_line_drafts" (QEq "_id" _id) (USet draft_payload) ;;
  ret (to_str _id, draft_payload).

Definition draft_payload_of (l : CountLineCreate) (dumped : doc) (username item_name : val) (now : Z) : doc :=
  aupd dumped [("item_name", item_name); ("barcode", opt_str (c_barcode l)); ("counted_by", username); ("user_id", username);
               ("line_id", VStr (_build_draft_line_id l)); ("status", VStr "draft"); ("updated_at", VTime now)].

(** The draft of a counter for an item at a place, replaced or added.  [dumped]
    is the dump of the request. *)
Definition save_count_line_draft (l : CountLineCreate) (dumped : doc) (current_user : doc) (request : option http_request)
  : M (world C) doc :=
  do session <- find_session (c_session_id l) ;;
  run match session with
      | Some d =>
          do _ <- _enforce_count_line_session_logic clock sha256 parse_flag database_bool d request current_user
            "save_count_line_draft" ;;
          ret tt
      | None => ret tt
      end ;;
  do now <- utc_now clock ;;
  do username <- lift (item "username" current_user) ;;
  do item_name <- _resolve_item_name_for_draft l ;;
  let draft_payload := draft_payload_of l dumped username item_name now in
  do existing_draft <- find_draft l username ;;
  do ' (draft_id, data) <-
    match existing_draft with
    | Some ((_ :: _) as d) => overwrite_draft d draft_payload
    | _ =>
        let draft_payload := aset "created_at" (VTime now) draft_payload in
        try_except
          (do saved <- db_insert_one "count_line_drafts" draft_payload ;; ret (to_str (get "_id" saved), saved))
          (fun e => if is_duplicate e then
             do conflicting <- find_draft l username ;;
             match conflicting with
             | Some ((_ :: _) as d) => overwrite_draft d draft_payload
             | _ => raise (http 409 "Draft conflict detected")
             end
           else raise e)
    end ;;
  ret [("success", VBool true); ("message", VStr "Draft saved successfully"); ("data", VDict (aupd [("id", VStr draft_id)] data))].
End creation.
