(* ===== verification/LineCreationSpec.v ===== *)
(** What the creation of count lines ([LineCreation]) guarantees: which requests
    are accepted, what an accepted one stores, and that where there are
    transactions nothing is stored at all. *)

From stdpp Require Import sets.
From S2P Require Import Prelude PyFloat Py Json Store ListStore Guard Inventory Uow Frame Lifecycle LifecycleSpec Locks.
From S2P Require Import Quantity Variance CountLines CountLineSpec ApprovalEngine Observations SyncConflictSpec SyncBatchSpec Flags LogicGuard LineActions LineActionSpec LineCreation.

Local Open Scope Z_scope.
Local Open Scope stock_scope.

(** ** The places of a request *)

(** A place as validation leaves it: a text that is stripped, perhaps empty. *)
Lemma stripped_cases o : stripped_or_none o = None ∨ stripped_or_none o = Some "" ∨ ∃ s, s ≠ "" ∧ strip s = s ∧ stripped_or_none o = Some s.
Proof.
  destruct o as [s|]; [|by left]. unfold stripped_or_none. destruct (String.eqb_spec s ""); [by left|].
  destruct (String.eqb_spec (strip s) ""); [right; left; congruence|]. right; right. exists (strip s). by rewrite strip_idem.
Qed.

Lemma stripped_stable s : s ≠ "" → strip s = s → stripped_or_none (Some s) = Some s.
Proof. intros Hs Hi. unfold stripped_or_none. destruct (String.eqb_spec s ""); congruence. Qed.

Lemma filled_stable s : s ≠ "" → filled (Some s) = true.
Proof. intros Hs. unfold filled. cbn. by destruct (String.eqb_spec s ""). Qed.

(** A request that is validated again, as an assignment to it does, keeps its
    places from then on: the first time still turns an empty one into none. *)
Lemma normalize_location_stable l :
  let again := normalize_location_context (normalize_location_context l) in normalize_location_context again = again.
Proof.
  destruct l as [loc fi ri fl rk]. unfold normalize_location_context. cbn [location_id floor_id rack_id floor_no rack_no].
  assert (∀ o, stripped_or_none (stripped_or_none (stripped_or_none o)) = stripped_or_none (stripped_or_none o)) as H3.
  { intros o. destruct (stripped_cases o) as [->|[->|(s & Hs & Hi & ->)]]; [done..|]. by rewrite !stripped_stable. }
  assert (∀ a b, prefer (stripped_or_none (prefer (stripped_or_none (prefer (stripped_or_none a) (stripped_or_none b))) (stripped_or_none (stripped_or_none b))))
    (stripped_or_none (stripped_or_none (stripped_or_none b))) = prefer (stripped_or_none (prefer (stripped_or_none a) (stripped_or_none b))) (stripped_or_none (stripped_or_none b))) as H2.
  { intros a b. rewrite H3. unfold prefer.
    destruct (stripped_cases a) as [->|[->|(s & Hs & Hi & ->)]], (stripped_cases b) as [->|[->|(t & Ht & Hj & ->)]];
      repeat (rewrite ?stripped_stable, ?filled_stable by done;
              change (stripped_or_none (Some "")) with (None : option string); change (stripped_or_none None) with (None : option string);
              change (filled (Some "")) with false; change (filled None) with false; cbn [negb andb]); done. }
  by rewrite !H2, !H3.
Qed.

(** ** Steps *)

(** A step that leaves a part of the state alone. *)
Lemma quiet_bind {S A B X} (part : S → X) (K : Prop) (m : M S A) (f : A → M S B) s o s' :
  (∀ r s1, m s = (r, s1) → part s1 = part s) → bind m f s = (o, s') →
  (∀ a s1, m s = (Ok a, s1) → part s1 = part s → f a s1 = (o, s') → part s' = part s1 ∨ K) →
  part s' = part s ∨ K.
Proof.
  intros Hm Hb Hf. apply bind_cases in Hb as [(e & Hr & _)|(a & s1 & Ha & Hb)]; [left; by eapply Hm|].
  rewrite <- (Hm _ _ Ha). by eapply Hf; [|eapply Hm|].
Qed.

Section creation.
Context {C : Type} `{MongoLaws C}.
Context (clock : nat → Z) (strict_mode write_logs : bool) (object_id : string → option string).
Context (sha256 : string → string) (client_count_lines : client_attribute) (cl : client).
Context (parse_flag : Z → Z → doc → option FeatureFlag) (database_bool : outcome bool).
Context (answers : event → outcome unit) (has_activity_log has_lock_service has_variant_service : bool).
Implicit Types (w : world C) (s : write_service).

Abbreviation create := (create_count_line (C:=C) clock strict_mode write_logs object_id sha256 client_count_lines cl
  parse_flag database_bool answers has_activity_log has_lock_service has_variant_service).
Abbreviation persisted := (create_and_persist (C:=C) clock strict_mode write_logs object_id sha256 client_count_lines cl
  has_lock_service has_variant_service).

(** ** What the steps leave alone *)

Lemma frame_idempotent P l : frame P (_find_idempotent_count_line (C:=C) l).
Proof. unfold _find_idempotent_count_line. solve_frame. Qed.

Lemma frame_erp_item P l : frame P (_get_erp_item_for_count_line (C:=C) l).
Proof. unfold _get_erp_item_for_count_line, _find_erp_item_for_count_line. solve_frame. Qed.

Lemma frame_accepts P d : frame P (_ensure_session_accepts_counts (C:=C) d).
Proof. unfold _ensure_session_accepts_counts. solve_frame. Qed.

Lemma frame_acquire_line_lock P key owner ttl : str_in "locks" P = true → frame P (acquire_lock (C:=C) clock key owner ttl).
Proof. intros Hp. unfold acquire_lock, held_lock. solve_frame. Qed.

Lemma frame_locks P l i u : str_in "locks" P = true →
  frame P (_acquire_count_line_locks (C:=C) clock has_lock_service has_variant_service l i u).
Proof.
  intros Hp. pose proof (fun k o t => frame_acquire_line_lock P k o t Hp). unfold _acquire_count_line_locks. solve_frame; auto.
Qed.

Lemma frame_release_line_locks P (st : lock_state) u : str_in "locks" P = true → frame P (_release_count_line_locks (C:=C) has_lock_service st u).
Proof. intros Hp. unfold _release_count_line_locks, release_lock. solve_frame. Qed.

Lemma frame_target P l : frame P (_resolve_recount_target (C:=C) l).
Proof. unfold _resolve_recount_target, find_duplicate_count_line. solve_frame. Qed.

Lemma frame_document P l i u q h g fl fi mi t id :
  frame P (_build_count_line_document (C:=C) clock l i u q h g fl fi mi t id).
Proof. unfold _build_count_line_document. solve_frame. Qed.

Lemma sframe_evaluate_new P q i e vr cr loc : str_in configs P = true →
  service_frame P (evaluate_new_count_line (C:=C) clock q i e vr cr loc).
Proof.
  intros Hp. pose proof (fun c e i l vr cr b => frame_policy (C:=C) clock P c e i l vr cr b Hp).
  unfold evaluate_new_count_line, assert_session_integrity. solve_sframe.
Qed.

(** What the unit of work of a creation may write. *)
Lemma sframe_persist l u line at' t session hs :
  service_frame ("count_line_drafts" :: write_collections)
    (persist_body (C:=C) clock strict_mode write_logs object_id sha256 client_count_lines cl l u line at' t session hs).
Proof.
  assert (∀ hs p ctx, service_frame ("count_line_drafts" :: write_collections)
    (process_write (C:=C) clock strict_mode write_logs object_id sha256 client_count_lines cl hs p ctx)) as Hw
    by (intros; eapply sframe_weaken; [apply sframe_write | intros n ?; by right]).
  unfold persist_body. repeat first [ apply Hw | sframe_step ].
Qed.

Definition after_creation_collections : list string :=
  ["sessions"; "governance_events"; "approval_decisions"; "count_observations"].

Lemma frame_recompute sid : frame after_creation_collections (recompute_session_totals (C:=C) clock sid).
Proof.
  unfold recompute_session_totals. pose proof (fun t v a b => frame_totals_update (C:=C) clock after_creation_collections sid t v a b eq_refl eq_refl).
  solve_frame; auto.
Qed.

Lemma frame_barcode l : frame after_creation_collections (_maybe_update_session_barcode (C:=C) clock l).
Proof.
  assert (∀ sid f v a, frame after_creation_collections (Lifecycle.update_session_fields (C:=C) clock sid f v a)) as Hf.
  { intros. unfold Lifecycle.update_session_fields, _sync_session_projection.
    pose proof (fun sid d v => frame_occ (C:=C) after_creation_collections sid d v eq_refl).
    pose proof (frame_not_finalized (C:=C) after_creation_collections).
    pose proof (fun a => frame_log_write (C:=C) clock after_creation_collections a eq_refl).
    repeat first [ frame_step | apply frame_assert_valid_write | done ]. }
  unfold _maybe_update_session_barcode, find_session. repeat first [ apply Hf | frame_step ].
Qed.

Lemma frame_after_creation l u line g ids :
  frame after_creation_collections (after_creation (C:=C) clock answers has_activity_log l u line g ids).
Proof.
  pose proof (fun P n a => frame_call (C:=C) answers P n a). pose proof frame_recompute. pose proof frame_barcode.
  pose proof (fun P e a b d => frame_broadcast (C:=C) clock answers P e a b d).
  unfold after_creation, _broadcast_scan_created, _create_and_evaluate_observation, create_observation,
    record_duplicate_governance_event, find_duplicate_count_observation, _record_high_risk_correction.
  repeat first [ frame_step | done ].
Qed.

(** ** Which requests are accepted *)

Definition lines_of (x : write_service * world C) : C := w_db (snd x) "count_lines".

Lemma quiet_service {A} P (m : M (write_service * world C) A) x r x' :
  service_frame P m → str_in "count_lines" P = false → m x = (r, x') → lines_of x' = lines_of x.
Proof. intros Hf Hn Hm. by eapply sframe_db. Qed.

(** The lines of the place of the request. *)
Definition at_place (l : CountLineCreate) (d : doc) : bool := matches (build_count_line_duplicate_filter (line_payload l)) d.

(** No line of the place counts any more, or a rejected one does, that the
    request recounts. *)
Definition place_open (l : CountLineCreate) (c : C) : Prop :=
  (∀ d, d ∈ contents c → at_place l d = true → is_superseded_count_line d = true)
  ∨ ∃ t, t ∈ contents c ∧ at_place l t = true ∧ is_superseded_count_line t = false
      ∧ can_reuse_rejected_count_line t (line_payload l) = true.

Lemma first_kept_some skip l d : first_kept skip l = Some d → d ∈ l ∧ skip d = false.
Proof.
  induction l as [|e l IH]; [done|]. cbn [first_kept]. destruct (skip e) eqn:E.
  - intros [Hd Hs]%IH. split; [by right|done].
  - intros [= ->]. split; [by left|done].
Qed.

Lemma first_kept_none skip l d : first_kept skip l = None → d ∈ l → skip d = true.
Proof.
  induction l as [|e l IH]; intros Hf Hd; [by apply elem_of_nil in Hd|]. cbn [first_kept] in Hf.
  destruct (skip e) eqn:E; [|done]. apply elem_of_cons in Hd as [->|Hd]; [done|by apply IH].
Qed.

(** The line the request would recount, as the search finds it. *)
Definition live_line (l : CountLineCreate) (c : C) : option doc :=
  first_kept (fun d => excluded None (extract_document_id d) || is_superseded_count_line d)
    (find_all (build_count_line_duplicate_filter (line_payload l)) c).

Lemma live_line_some l c d : live_line l c = Some d → d ∈ contents c ∧ at_place l d = true ∧ is_superseded_count_line d = false.
Proof. intros [[Hd Hm]%find_all_in Hs]%first_kept_some. done. Qed.

Lemma live_line_none l c d : live_line l c = None → d ∈ contents c → at_place l d = true → is_superseded_count_line d = true.
Proof. intros Hn Hd Hm. apply (first_kept_none _ _ d Hn), find_all_in. done. Qed.

Lemma no_text k t : matches (QEq k (VStr t)) [] = false.
Proof. by rewrite matches_eq. Qed.

Lemma target_ok l w t w' : _resolve_recount_target l w = (Ok t, w') → w' = w ∧ t = live_line l (w_db w "count_lines")
  ∧ match t with Some d => can_reuse_rejected_count_line d (line_payload l) = true | None => True end.
Proof.
  unfold _resolve_recount_target, find_duplicate_count_line. intros Hm.
  apply bind_ok_inv in Hm as (e & w1 & He & Hm). apply bind_ok_inv in He as (c & w2 & [-> ->]%read_ok & He).
  unfold ret in He. simplify_eq. change (first_kept _ _) with (live_line l (w_db w1 "count_lines")) in Hm.
  destruct (live_line l (w_db w1 "count_lines")) as [[|kv d]|] eqn:E; unfold ret, raise in Hm.
  - apply live_line_some in E as (_ & Hm' & _). unfold at_place, build_count_line_duplicate_filter in Hm'.
    rewrite matches_and in Hm'. apply andb_true_iff in Hm' as [Hm' _]. by rewrite no_text in Hm'.
  - destruct (can_reuse_rejected_count_line _ _) eqn:Ec; simplify_eq; done.
  - simplify_eq; done.
Qed.

Lemma target_place_open l w t w' : _resolve_recount_target l w = (Ok t, w') → place_open l (w_db w "count_lines").
Proof.
  intros (_ & Ht & Hr)%target_ok. destruct t as [t|]; symmetry in Ht.
  - right. exists t. by apply live_line_some in Ht as (? & ? & ?).
  - left. intros d. by apply live_line_none.
Qed.

Lemma uncommitted_lines {A} P (body : bool → M (write_service * world C) A) x r x' :
  (∀ b, service_frame P (body b)) →
  in_uow_uncommitted cl body x = (r, x') → lines_of x' = lines_of x ∨ ¬ transactional cl.
Proof.
  intros Hb Hm. destruct (__aenter__ cl) as [[[] [] []]|e] eqn:E;
    try (right; unfold transactional; congruence).
  left. by apply (uncommitted_undone cl P body x r x').
Qed.

Lemma quiet_finally {S A X} (part : S → X) (m : M S A) fin z o z' :
  (∀ z r z1, fin z = (r, z1) → part z1 = part z) → try_finally m fin z = (o, z') →
  ∃ o1 z1, m z = (o1, z1) ∧ part z' = part z1.
Proof.
  intros Hf Hm. unfold try_finally in Hm. destruct (m z) as [o1 z1] eqn:E. exists o1, z1. split; [done|].
  destruct (fin z1) as [[?|?] z2] eqn:E2; simplify_eq; by eapply Hf.
Qed.

Lemma quiet_try {S A X} (part : S → X) (m : M S A) h z o z' :
  (∀ e z r z1, h e z = (r, z1) → part z1 = part z) → try_except m h z = (o, z') →
  ∃ o1 z1, m z = (o1, z1) ∧ part z' = part z1.
Proof.
  intros Hf Hm. unfold try_except in Hm. destruct (m z) as [[a|e] z1] eqn:E.
  - simplify_eq. eauto.
  - exists (Raise e), z1. split; [done|]. by eapply Hf.
Qed.

Lemma service_quiet {A B} P K (m : M (write_service * world C) A) (f : A → M (write_service * world C) B) x o x' :
  bind m f x = (o, x') → service_frame P m → str_in "count_lines" P = false →
  (∀ a x1, m x = (Ok a, x1) → lines_of x1 = lines_of x → f a x1 = (o, x') → lines_of x' = lines_of x1 ∨ K) →
  lines_of x' = lines_of x ∨ K.
Proof.
  intros Hb Hf Hn Hk. eapply (quiet_bind lines_of); [|exact Hb|exact Hk]. intros r x1. by apply (quiet_service P).
Qed.

Lemma location_value_stripped o : normalize_location_value (opt_str (stripped_or_none o)) = normalize_location_value (opt_str o).
Proof.
  destruct o as [s|]; [|done]. unfold stripped_or_none. destruct (String.eqb_spec s "") as [->|]; [done|].
  unfold normalize_location_value, opt_str. cbn [to_str]. by rewrite strip_idem.
Qed.

Lemma place_filter l :
  build_count_line_duplicate_filter (line_payload l)
  = QAnd [QEq "session_id" (VStr (to_str (por (VStr (c_session_id l)) (VStr ""))));
          QEq "item_code" (VStr (to_str (por (VStr (c_item_code l)) (VStr ""))));
          QEq "floor_no" (opt_str (normalize_location_value (opt_str (floor_no (c_location l)))));
          QEq "rack_no" (opt_str (normalize_location_value (opt_str (rack_no (c_location l)))))].
Proof. reflexivity. Qed.

(** The risk rules leave the place and the recount of the request as they are. *)
Lemma risk_context_place session item l v q flags b i l' :
  _build_count_line_risk_context session item l v q = Ok (flags, b, i, l') →
  build_count_line_duplicate_filter (line_payload l') = build_count_line_duplicate_filter (line_payload l)
  ∧ ∀ d, can_reuse_rejected_count_line d (line_payload l') = can_reuse_rejected_count_line d (line_payload l).
Proof.
  unfold _build_count_line_risk_context, _apply_misplaced_stock_flags. intros Hr.
  apply obind_ok in Hr as (? & _ & Hr). apply obind_ok in Hr as ([[fl m] l2] & Hm & Hr).
  apply obind_ok in Hr as (? & _ & Hr). injection Hr as _ _ _ <-.
  apply obind_ok in Hm as (? & _ & Hm). apply obind_ok in Hm as (? & _ & Hm).
  match type of Hm with context [if ?b then _ else _] => destruct b end; injection Hm as _ _ <-; [|done].
  split; [|done]. rewrite !place_filter.
  cbn [with_misplacement normalize_location_context c_session_id c_item_code c_location floor_no rack_no].
  by rewrite !location_value_stripped.
Qed.

Lemma persisted_lines on_error session l u id x o x' :
  (∀ e x r x1, on_error e x = (r, x1) → lines_of x1 = lines_of x) → persisted on_error session l u id x = (o, x') →
  lines_of x' = lines_of x ∨ (place_open l (lines_of x) ∧ ¬ transactional cl).
Proof.
  intros Herr Hm. unfold create_and_persist in Hm.
  apply (service_quiet [] _ _ _ _ _ _ Hm); [apply sframe_world, frame_erp_item|done|]. clear Hm. intros item x1 _ <- Hm.
  apply (service_quiet [] _ _ _ _ _ _ Hm); [apply sframe_lift|done|]. clear Hm. intros username x2 _ <- Hm.
  apply (service_quiet [] _ _ _ _ _ _ Hm); [apply sframe_baseline|done|]. clear Hm. intros [q h] x3 _ <- Hm.
  apply (service_quiet [configs] _ _ _ _ _ _ Hm); [by apply sframe_evaluate_new|done|]. clear Hm. intros g x4 _ <- Hm.
  apply (service_quiet [] _ _ _ _ _ _ Hm); [apply sframe_lift|done|]. clear Hm. intros [[[flags misplaced] impact] l'] x5 Hr <- Hm.
  apply lift_ok in Hr as [[Hplace Hreuse]%risk_context_place _].
  apply (service_quiet ["locks"] _ _ _ _ _ _ Hm); [by apply sframe_world, frame_locks|done|]. clear Hm. intros locks x6 _ <- Hm.
  assert (∃ o1 x7, try_finally (try_except
       (do target <- on_world (_resolve_recount_target l') ;;
        do ' (count_line, counted_at) <- on_world (_build_count_line_document clock l' item username q h
          g flags impact misplaced target id) ;;
        _persist_count_line_document clock strict_mode write_logs object_id sha256 client_count_lines cl l' username count_line counted_at target session)
       on_error) (on_world (_release_count_line_locks has_lock_service locks (to_str username))) x6 = (o1, x7) ∧ lines_of x' = lines_of x7)
    as (o1 & x7 & Hf & ->).
  { apply bind_cases in Hm as [(e & Hm & _)|(line & x7 & Hm & Hret)]; [eauto|]. unfold ret in Hret. simplify_eq. eauto. }
  apply (quiet_finally lines_of) in Hf as (o2 & x8 & Hf & ->);
    [|intros ? ? ?; apply (quiet_service ["locks"]); [by apply sframe_world, frame_release_line_locks|done]].
  apply (quiet_try lines_of) in Hf as (o3 & x9 & Hf & ->); [|exact Herr].
  apply (service_quiet [] _ _ _ _ _ _ Hf); [apply sframe_world, frame_target|done|]. clear Hf. intros target x10 Ht Hx Hf.
  apply (service_quiet [] _ _ _ _ _ _ Hf); [apply sframe_world, frame_document|done|]. clear Hf. intros [line at'] x11 _ Hx' Hf.
  eapply uncommitted_lines in Hf as [Hf|Hf]; [by left|right|intros b; apply sframe_persist]. split; [|done].
  destruct x6 as [s6 w6], x10 as [s10 w10]. apply on_world_ok in Ht as [Ht _].
  apply target_place_open in Ht. unfold place_open, at_place in *. rewrite Hplace in Ht. by setoid_rewrite Hreuse in Ht.
Qed.

(** ** The request as a whole *)

Lemma quiet_world {A B} P K (m : M (world C) A) (f : A → M (world C) B) w o w' :
  bind m f w = (o, w') → frame P m → str_in "count_lines" P = false →
  (∀ a w1, m w = (Ok a, w1) → w_db w1 "count_lines" = w_db w "count_lines" → f a w1 = (o, w') →
     w_db w' "count_lines" = w_db w1 "count_lines" ∨ K) →
  w_db w' "count_lines" = w_db w "count_lines" ∨ K.
Proof.
  intros Hb Hf Hn Hk. eapply (quiet_bind (fun w => w_db w "count_lines")); [|exact Hb|exact Hk].
  intros r w1 Hm. by apply (frame_db P _ _ _ _ "count_lines" Hf Hm).
Qed.

Lemma frame_session_logic session hr user op :
  frame pin_collections (_enforce_count_line_session_logic (C:=C) clock sha256 parse_flag database_bool session hr user op).
Proof. unfold _enforce_count_line_session_logic. apply frame_bind; [apply frame_enforce|intros [? ?]; apply frame_ret]. Qed.

(** The session keeps what is not of the pin. *)
Lemma session_logic_ok session hr user op w d w' k :
  _enforce_count_line_session_logic (C:=C) clock sha256 parse_flag database_bool session hr user op w = (Ok d, w') →
  k ≠ "logic_version" → k ≠ "logic_scope_source" → get k d = get k session.
Proof.
  intros Hm H1 H2. unfold _enforce_count_line_session_logic in Hm.
  apply bind_ok_inv in Hm as ([c p] & w1 & (w2 & _ & d' & Hp & ->)%enforce_ok & Hm). unfold ret in Hm. simplify_eq. cbn [default].
  unfold persist_pin_if_needed in Hp. destruct (negb _); [unfold ret in Hp; by simplify_eq|].
  destruct (_session_identifier _); [|unfold ret in Hp; by simplify_eq].
  apply bind_ok_inv in Hp as ([] & w3 & _ & Hp). unfold ret in Hp. simplify_eq. unfold pinned. by rewrite !get_aset_ne by (apply String.eqb_neq; congruence).
Qed.

(** The session takes counts. *)
Definition accepts_counts (session : doc) : Prop :=
  is_session_finalized session = false ∧ (get "status" session = VStr "OPEN" ∨ get "status" session = VStr "ACTIVE")
  ∧ truthy (get "reconciled_at" session) = false.

Lemma active_status v : negb (existsb (py_eqb v) [VStr "OPEN"; VStr "ACTIVE"]) = false → v = VStr "OPEN" ∨ v = VStr "ACTIVE".
Proof.
  intros [Hv|[Hv|Hv]%orb_true_iff]%negb_false_iff%orb_true_iff; [left|right|done];
    destruct v; try discriminate Hv; by apply String.eqb_eq in Hv as ->.
Qed.

Lemma accepts_ok session w u w' : _ensure_session_accepts_counts session w = (Ok u, w') →
  w' = w ∧ (get "status" session = VStr "OPEN" ∨ get "status" session = VStr "ACTIVE") ∧ truthy (get "reconciled_at" session) = false.
Proof.
  intros Hm. apply bind_ok_inv in Hm as ([] & w1 & [Ha%active_status ->]%raise_if_ok_inv & Hm).
  by apply raise_if_ok_inv in Hm as [Hr ->].
Qed.

(** No line of the session has the key of the request. *)
Definition key_free (l : CountLineCreate) (c : C) : Prop :=
  ∀ key, _normalize_idempotency_key (c_idempotency_key l) = Some key →
    find_one (QAnd [QEq "session_id" (VStr (c_session_id l)); QEq "idempotency_key" (VStr key)]) c = None.

Lemma idempotent_ok l w e w' : _find_idempotent_count_line l w = (Ok e, w') →
  w' = w ∧ match e with
           | Some ((_ :: _) as d) => ∃ key line, _normalize_idempotency_key (c_idempotency_key l) = Some key
               ∧ find_one (QAnd [QEq "session_id" (VStr (c_session_id l)); QEq "idempotency_key" (VStr key)]) (w_db w "count_lines")
                 = Some line ∧ d = adel "_id" line
           | _ => key_free l (w_db w "count_lines")
           end.
Proof.
  unfold _find_idempotent_count_line, key_free. intros Hm. destruct (_normalize_idempotency_key _) as [key|].
  2: { unfold ret in Hm. by simplify_eq. }
  apply bind_ok_inv in Hm as (existing & w1 & [-> ->]%read_ok & Hm). unfold ret in Hm. simplify_eq. split; [done|].
  destruct (find_one _ _) as [line|] eqn:Ef; cbn [fmap option_fmap option_map]; [|by intros ? [= <-]].
  destruct (adel "_id" line) eqn:Ed; [|by eauto].
  apply find_one_some in Ef as [_ Hm]. rewrite matches_and in Hm. apply andb_true_iff in Hm as [Hm _].
  assert (get "session_id" line = VNone) as Hs.
  { unfold get. assert (aget "session_id" line = aget "session_id" (adel "_id" line)) as -> by (by rewrite aget_adel).
    by rewrite Ed. }
  rewrite matches_eq in Hm by (by rewrite ?Hs). by rewrite Hs in Hm.
Qed.

(** C7: a count line is only created for a request that is accepted. When the count lines are other than before, the session
    was open or active, not finalized and not in reconciliation; no line of it had the idempotency key; the place had no line
    that still counts, or a rejected one that the request says it recounts; and the deployment has no transactions, since
    nothing commits the one the lines are written in. *)
Theorem line_created_if_accepted l user hr ids w o w' :
  create l user hr ids w = (o, w') →
  w_db w' "count_lines" = w_db w "count_lines"
  ∨ (∃ session, find_one (build_session_lookup (c_session_id l)) (w_db w "sessions") = Some session ∧ accepts_counts session)
    ∧ key_free l (w_db w "count_lines") ∧ place_open l (w_db w "count_lines") ∧ ¬ transactional cl.
Proof.
  intros Hm. unfold create_count_line in Hm.
  apply (quiet_world [] _ _ _ _ _ _ Hm); [apply frame_get_session|done|]. clear Hm. intros session w1 Hs _ Hm.
  apply get_session_ok in Hs as (-> & Hs & Hfin).
  apply (quiet_world pin_collections _ _ _ _ _ _ Hm); [apply frame_session_logic|done|]. clear Hm. intros session' w2 Hsl <- Hm.
  apply (quiet_world [] _ _ _ _ _ _ Hm); [apply frame_accepts|done|]. clear Hm. intros [] w3 (-> & Hst & Hrec)%accepts_ok _ Hm.
  apply (quiet_world [] _ _ _ _ _ _ Hm); [apply frame_idempotent|done|]. clear Hm. intros e w4 (-> & He)%idempotent_ok _ Hm.
  rewrite (session_logic_ok _ _ _ _ _ _ _ "status" Hsl) in Hst by done.
  rewrite (session_logic_ok _ _ _ _ _ _ _ "reconciled_at" Hsl) in Hrec by done.
  assert (create_new clock strict_mode write_logs object_id sha256 client_count_lines cl answers has_activity_log has_lock_service
      has_variant_service session' l user ids w2 = (o, w') → key_free l (w_db w2 "count_lines") →
    w_db w' "count_lines" = w_db w2 "count_lines"
    ∨ (∃ session, find_one (build_session_lookup (c_session_id l)) (w_db w "sessions") = Some session ∧ accepts_counts session)
      ∧ key_free l (w_db w2 "count_lines") ∧ place_open l (w_db w2 "count_lines") ∧ ¬ transactional cl) as Hnew.
  { clear Hm He e. intros Hm Hkey. unfold create_new in Hm.
    assert (∃ s1 o1 w1, persisted conflict_response session' l user (drawn_line ids) (WriteService [] [], w2) = (o1, (s1, w1))
      ∧ w_db w' "count_lines" = w_db w1 "count_lines") as (s1 & o1 & w1 & Hp & ->).
    { apply bind_cases in Hm as [(e & Hm & _)|([line g] & w1 & Hp & Hm)].
      - apply with_service_ok in Hm as (s1 & Hm). eauto.
      - apply with_service_ok in Hp as (s1 & Hp). exists s1. do 2 eexists. split; [exact Hp|].
        by apply (frame_db _ _ _ _ _ "count_lines" (frame_after_creation _ _ _ _ _) Hm). }
    apply persisted_lines in Hp as [Hp|[Hplace Htr]]; [by left| |].
    - right. split; [by exists session|]. done.
    - intros e x r x1 Hx. unfold conflict_response in Hx. destruct e; unfold raise in Hx; by simplify_eq. }
  destruct e as [[|kv d]|]; [by apply Hnew|unfold ret in Hm; simplify_eq; by left|by apply Hnew].
Qed.

(** ** What an accepted request stores *)

(** The part of the document that says what was counted, where, by whom, and
    which version of the line it is. *)
Record describes (l : CountLineCreate) (username : val) (id : string) (target : option doc) (line : doc) : Prop := {
  ds_id : get "id" line = VStr id;
  ds_session : get "session_id" line = VStr (c_session_id l);
  ds_item : get "item_code" line = VStr (c_item_code l);
  ds_qty : get "counted_qty" line = VFloat (c_counted_qty l);
  ds_by : get "counted_by" line = username;
  ds_key : get "idempotency_key" line = por (opt_str (_normalize_idempotency_key (c_idempotency_key l))) (VStr id);
  ds_place : ∃ place, (place = c_location l ∨ place = normalize_location_context (c_location l))
    ∧ get "floor_no" line = either (floor_no place) (floor_id place) ∧ get "rack_no" line = either (rack_no place) (rack_id place);
  ds_previous : get "previous_version_id" line = match target with Some t => opt_str (extract_document_id t) | None => VNone end;
  ds_version : ∃ v, int_or "version" 1 (default [] target) = Ok v
    ∧ get "version" line = VInt (v + if given target then 1 else 0);
}.

(** The fields by which a line stands for what it describes. *)
Lemma describes_kept l u id t d line :
  describes l u id t d → (∀ k, str_in k identity_fields = true → k ≠ "erp_qty" → k ≠ "semantic_hash" → aget k line = aget k d) →
  describes l u id t line.
Proof.
  intros [] Hk. assert (∀ k, str_in k identity_fields = true → k ≠ "erp_qty" → k ≠ "semantic_hash" → get k line = get k d) as Hg
    by (intros; unfold get; by rewrite Hk).
  constructor; rewrite ?Hg by done; done.
Qed.

(** The request after the risk rules. *)
Definition same_request (l l' : CountLineCreate) : Prop :=
  c_session_id l' = c_session_id l ∧ c_item_code l' = c_item_code l ∧ c_counted_qty l' = c_counted_qty l
  ∧ c_idempotency_key l' = c_idempotency_key l
  ∧ (c_location l' = c_location l ∨ c_location l' = normalize_location_context (c_location l)).

Lemma risk_context_same session item l v q flags b i l' :
  _build_count_line_risk_context session item l v q = Ok (flags, b, i, l') → same_request l l'.
Proof.
  unfold _build_count_line_risk_context, _apply_misplaced_stock_flags. intros Hr.
  apply obind_ok in Hr as (? & _ & Hr). apply obind_ok in Hr as ([[fl m] l2] & Hm & Hr).
  apply obind_ok in Hr as (? & _ & Hr). injection Hr as _ _ _ <-.
  apply obind_ok in Hm as (? & _ & Hm). apply obind_ok in Hm as (? & _ & Hm).
  match type of Hm with context [if ?b then _ else _] => destruct b end; injection Hm as _ _ <-; unfold same_request; tauto.
Qed.

Lemma document_describes l0 l item u q h g fl fi mi t id w d at' w' :
  same_request l0 l →
  _build_count_line_document (C:=C) clock l item u q h g fl fi mi t id w = (Ok (d, at'), w') →
  w_db w' = w_db w ∧ describes l0 u id t d ∧ aget "_id" d = None ∧ has_key "counted_qty" d = true.
Proof.
  intros (Hs & Hi & Hq & Hk & Hl) Hm. unfold _build_count_line_document in Hm. cbv zeta in Hm.
  apply bind_ok_inv in Hm as (v & w1 & [Hv ->]%lift_ok & Hm). apply bind_ok_inv in Hm as (now & w2 & Hnow & Hm).
  unfold utc_now in Hnow. simplify_eq.
  apply bind_ok_inv in Hm as (mfg & w3 & [_ ->]%lift_ok & Hm). apply bind_ok_inv in Hm as (expiry & w4 & [_ ->]%lift_ok & Hm).
  apply bind_ok_inv in Hm as (iteration & w5 & [_ ->]%lift_ok & Hm). unfold ret in Hm. simplify_eq.
  split; [done|]. split; [|done]. constructor; rewrite <- ?Hs, <- ?Hi, <- ?Hq, <- ?Hk; try reflexivity; [|by exists v].
  exists (c_location l). split; [done|]. done.
Qed.

Lemma insert_describes hs l u id t d ctx s w r s' w' :
  describes l u id t d → aget "_id" d = None → has_key "counted_qty" d = true →
  write_line (C:=C) clock strict_mode write_logs object_id sha256 client_count_lines cl hs (Payload "insert_one" (Some d) None None false)
    ctx (s, w) = (Ok r, (s', w')) →
  ∃ g line i line', r = RDocument line' ∧ get "id" line' = VStr id
    ∧ describes l u id t line ∧ CountLineSpec.decided g (truthy (dget "set_status_from_governance" (VBool true) ctx)) line
    ∧ contents (w_db w' "count_lines") ≡ₚ bson_doc (aset "_id" i line) :: contents (w_db w "count_lines")
    ∧ ∃ o, i = VOid o ∧ ∀ e, e ∈ contents (w_db w "count_lines") → aget "_id" e ≠ Some (VOid o).
Proof.
  intros Hd Hid Hq Hw. eapply (insert_written clock strict_mode write_logs object_id sha256 client_count_lines cl hs _ d) in Hw
    as (mode & session & hash & line & i & _ & _ & (line' & -> & Hv) & Hnew & Hc & _ & Hg); [|done|done|done].
  destruct (Hg Hq) as (g & counted & expected & Hgov). exists g, line, i, line'.
  assert (describes l u id t line) as Hdesc.
  { eapply describes_kept; [exact Hd|]. intros k Hk H1 H2. rewrite (gov_kept _ _ _ _ _ _ Hgov) by done. by rewrite aget_aset_ne. }
  split_and!; try done; [|by apply (gov_stored _ _ _ _ _ _ Hgov)].
  destruct Hv as [->|(code & n & ->)]; [|rewrite get_aupd_notin by reflexivity]; rewrite get_aset_ne by done; apply Hdesc.
Qed.

(** The lines after a request for the line [id]: one more, of what the request
    describes with the decision on it, and the line it recounts superseded. *)
Definition line_stored (l : CountLineCreate) (username : val) (id : string) (c c' : C) : Prop :=
  ∃ line g i, describes l username id (live_line l c) line ∧ CountLineSpec.decided g true line ∧
    match live_line l c with
    | None => contents c' ≡ₚ bson_doc (aset "_id" i line) :: contents c
    | Some t => ∃ fields rest, get "status" fields = VStr "SUPERSEDED" ∧ get "superseded_by_version_id" fields = VStr id
        ∧ contents c ≡ₚ t :: rest ∧ contents c' ≡ₚ bson_doc (aset "_id" i line) :: apply_update (USet fields) t :: rest
    end.

Lemma other_id o (line : doc) : (∀ p, o ≠ p → matches (QEq "_id" (VOid o)) (bson_doc (aset "_id" (VOid p) line)) = false).
Proof.
  intros p Hp. assert (get "_id" (bson_doc (aset "_id" (VOid p) line)) = VOid p) as Hg.
  { unfold get. rewrite aget_bson, aget_aset_eq. cbn. by rewrite to_bson_plain. }
  rewrite matches_eq by (by rewrite ?Hg). rewrite Hg. cbn. by apply String.eqb_neq.
Qed.

(** The update of a line by its id, when another has been added. *)
Lemma supersede_one c c1 t o fields line p :
  lines_ok c → t ∈ contents c → aget "_id" t = Some (VOid o) →
  contents c1 ≡ₚ bson_doc (aset "_id" (VOid p) line) :: contents c →
  (∀ e, e ∈ contents c → aget "_id" e ≠ Some (VOid p)) →
  ∃ rest, contents c ≡ₚ t :: rest
    ∧ contents (snd (update_one (QEq "_id" (VOid o)) (USet fields) c1))
      ≡ₚ bson_doc (aset "_id" (VOid p) line) :: apply_update (USet fields) t :: rest.
Proof.
  intros Hok Ht Ho Hc1 Hnew. assert (o ≠ p) as Hop by (intros ->; by apply (Hnew t Ht)).
  assert (matches (QEq "_id" (VOid o)) t = true) as Hmt.
  { rewrite matches_eq; [|done|by rewrite (get_some _ _ _ Ho)]. rewrite (get_some _ _ _ Ho). cbn. apply String.eqb_refl. }
  destruct (update_one_some (QEq "_id" (VOid o)) (USet fields) c1) as (d & rest & Hp & Hd & Hp' & _).
  { exists t. split; [|done]. rewrite Hc1. by right. }
  assert (d ∈ contents c) as Hdc.
  { assert (d ∈ contents c1) as Hin by (rewrite Hp; left). rewrite Hc1 in Hin. apply elem_of_cons in Hin as [->|Hin]; [|done].
    by rewrite other_id in Hd. }
  assert (d = t) as ->. { destruct (Hok t Ht) as (o' & Ho' & Hone). simplify_eq. by apply (at_most_one_eq _ _ _ _ Hone). }
  apply elem_of_Permutation in Hdc as [rest' Hr]. exists rest'. split; [done|]. rewrite Hp'.
  assert (rest ≡ₚ bson_doc (aset "_id" (VOid p) line) :: rest') as ->; [|by constructor].
  apply (Permutation_cons_inv (a := t)). rewrite <- Hp, Hc1, Hr. by constructor.
Qed.

Lemma persist_ok l l' u id d at' session hs s w r s' w' :
  lines_ok (w_db w "count_lines") → describes l u id (live_line l (w_db w "count_lines")) d →
  aget "_id" d = None → has_key "counted_qty" d = true →
  persist_body (C:=C) clock strict_mode write_logs object_id sha256 client_count_lines cl l' u d at'
    (live_line l (w_db w "count_lines")) session hs (s, w) = (Ok r, (s', w')) →
  line_stored l u id (w_db w "count_lines") (w_db w' "count_lines") ∧ get "id" r = VStr id.
Proof.
  intros Hok Hd Hid Hq Hm. unfold persist_body in Hm.
  apply bind_ok_inv in Hm as (expected & x1 & [_ ->]%lift_ok & Hm). cbv zeta in Hm.
  apply bind_ok_inv in Hm as (result & [s1 w1] & Hw & Hm).
  eapply insert_describes in Hw as (g & line & i & line' & -> & Hid' & Hdesc & Hdec & Hc & o & -> & Hnew); [|done..].
  apply bind_ok_inv in Hm as ([] & [s2 w2] & Ht & Hm). apply bind_ok_inv in Hm as (id2 & x3 & [_ ->]%lift_ok & Hm).
  apply bind_ok_inv in Hm as (n & [s3 w3] & [Hdr ->]%on_world_ok & Hm). unfold ret in Hm. simplify_eq.
  assert (w_db w' "count_lines" = w_db w2 "count_lines") as ->.
  { by apply (frame_db ["count_line_drafts"] _ _ _ _ "count_lines" (frame_update_many ["count_line_drafts"] "count_line_drafts" _ _ eq_refl) Hdr). }
  split; [|done]. exists line, g, (VOid o). split; [done|]. split; [done|].
  destruct (live_line l (w_db w "count_lines")) as [t|] eqn:El; [|unfold ret in Ht; by simplify_eq].
  apply bind_ok_inv in Ht as (tid & x4 & [Htid ->]%lift_ok & Ht). apply bind_ok_inv in Ht as (fields & x5 & [Hf ->]%lift_ok & Ht).
  apply bind_ok_inv in Ht as (r2 & [s4 w4] & Hu & Ht). unfold ret in Ht. simplify_eq.
  apply live_line_some in El as (Hin & _).
  destruct (Hok t Hin) as (to & Hto & _). unfold item in Htid. rewrite Hto in Htid. injection Htid as <-.
  unfold superseding_fields in Hf. apply obind_ok in Hf as (lid & Hlid & Hf). injection Hf as <-.
  apply item_get in Hlid. rewrite Hid' in Hlid. subst lid.
  eapply mark_written in Hu as (fields' & Hfs & -> & _); [|done..].
  destruct (supersede_one _ _ _ _ fields' _ _ Hok Hin Hto Hc Hnew) as (rest & Hr & Hr').
  exists fields', rest. split_and!; try done; destruct Hfs as [->|[h ->]]; reflexivity.
Qed.

(** The deployment has no transactions. *)
Definition not_transactional (cl : client) : Prop := ∃ u, __aenter__ cl = Ok u ∧ u_in_transaction u = false.

Lemma uncommitted_ok {A} (body : bool → M (write_service * world C) A) s w a s' w' :
  not_transactional cl → in_uow_uncommitted cl body (s, w) = (Ok a, (s', w')) → ∃ b, body b (s, w) = (Ok a, (s', w')).
Proof.
  intros (u & Hu & Ht) Hm. unfold in_uow_uncommitted in Hm. rewrite Hu in Hm. cbn [snd] in Hm.
  destruct (body (u_session u) (s, w)) as [o [s1 w1]] eqn:E. unfold __aexit__ in Hm. rewrite Ht, andb_false_r in Hm.
  cbn [andb fst snd] in Hm. simplify_eq. by exists (u_session u).
Qed.

Lemma quiet_service_ok {A} P (m : M (write_service * world C) A) x r x' :
  m x = (r, x') → service_frame P m → str_in "count_lines" P = false → lines_of x' = lines_of x.
Proof. intros Hm Hf Hn. by eapply quiet_service. Qed.

Lemma persisted_ok session l user id x line g x' :
  not_transactional cl → lines_ok (lines_of x) →
  persisted conflict_response session l user id x = (Ok (line, g), x') →
  ∃ username, item "username" user = Ok username ∧ get "id" line = VStr id
    ∧ line_stored l username id (lines_of x) (lines_of x').
Proof.
  intros Hcl Hok Hm. unfold create_and_persist in Hm.
  apply bind_ok_inv in Hm as (erp & x1 & H1 & Hm). apply bind_ok_inv in Hm as (username & x2 & [Hu ->]%lift_ok & Hm).
  apply bind_ok_inv in Hm as ([q h] & x3 & H3 & Hm). apply bind_ok_inv in Hm as (g' & x4 & H4 & Hm).
  apply bind_ok_inv in Hm as ([[[flags misplaced] impact] l'] & x5 & [Hr ->]%lift_ok & Hm).
  apply bind_ok_inv in Hm as (locks & x6 & H6 & Hm). apply bind_ok_inv in Hm as (line' & x7 & Hf & Hm). unfold ret in Hm. simplify_eq.
  assert (lines_of x6 = lines_of x) as Hlines.
  { rewrite (quiet_service_ok ["locks"] _ _ _ _ H6) by (done || by apply sframe_world, frame_locks).
    rewrite (quiet_service_ok [configs] _ _ _ _ H4) by (done || by apply sframe_evaluate_new).
    rewrite (quiet_service_ok [] _ _ _ _ H3) by (done || by apply sframe_baseline).
    by rewrite (quiet_service_ok [] _ _ _ _ H1) by (done || by apply sframe_world, frame_erp_item). }
  exists username. split; [done|]. rewrite <- Hlines in *. clear H1 H3 H4 H6 Hlines.
  unfold try_finally in Hf. destruct (try_except _ _ x6) as [o x8] eqn:E8.
  destruct (on_world _ x8) as [[[]|e] x9] eqn:E9; [|done]. simplify_eq.
  rewrite (quiet_service_ok ["locks"] _ _ _ _ E9) by (done || by apply sframe_world, frame_release_line_locks). clear E9.
  unfold try_except in E8. match type of E8 with context [match ?m x6 with _ => _ end] => destruct (m x6) as [[y|e] x9] eqn:E end.
  2: { unfold conflict_response in E8. destruct e; done. }
  simplify_eq. destruct x6 as [s6 w6].
  apply bind_ok_inv in E as (t & [s7 w7] & [Ht ->]%on_world_ok & Hm).
  apply bind_ok_inv in Hm as ([d at'] & [s9 w9] & [Hd ->]%on_world_ok & Hm).
  apply target_ok in Ht as (-> & -> & _). destruct (risk_context_place _ _ _ _ _ _ _ _ _ Hr) as [Hplace _].
  eapply document_describes in Hd as (Hdb & Hdesc & Hid & Hq); [|by eapply risk_context_same].
  unfold live_line in Hdesc, Hm. rewrite Hplace in Hdesc, Hm.
  change (first_kept _ _) with (live_line l (w_db w6 "count_lines")) in Hdesc, Hm.
  unfold lines_of in *. cbn [snd] in *. rewrite <- Hdb in *. destruct x8 as [s8 w8].
  apply uncommitted_ok in Hm as (hs & Hm); [|done]. eapply persist_ok in Hm as [Hst Hid']; [done|done|exact Hdesc|done|done].
Qed.

(** C8: an accepted request is stored. Where there are no transactions, a request that returns and whose key was not there
    leaves one more count line, under the id drawn for it, that describes what was counted, where, by whom and as which
    version, with the decision on its quantity; the rejected line it recounts is superseded by it; no other line changes. *)
Theorem created_line_stored l user hr ids w r w' :
  not_transactional cl → lines_ok (w_db w "count_lines") → key_free l (w_db w "count_lines") →
  create l user hr ids w = (Ok r, w') →
  ∃ username, item "username" user = Ok username
    ∧ line_stored l username (drawn_line ids) (w_db w "count_lines") (w_db w' "count_lines").
Proof.
  intros Hcl Hok Hkey Hm. unfold create_count_line in Hm.
  apply bind_ok_inv in Hm as (session & w1 & (-> & _)%get_session_ok & Hm).
  apply bind_ok_inv in Hm as (session' & w2 & Hl & Hm). apply bind_ok_inv in Hm as ([] & w3 & (-> & _)%accepts_ok & Hm).
  assert (w_db w2 "count_lines" = w_db w "count_lines") as Hlines
    by apply (frame_db _ _ _ _ _ "count_lines" (frame_session_logic _ _ _ _) Hl eq_refl).
  rewrite <- Hlines in *. clear Hl. apply bind_ok_inv in Hm as (e & w4 & (-> & He)%idempotent_ok & Hm).
  assert (create_new clock strict_mode write_logs object_id sha256 client_count_lines cl answers has_activity_log has_lock_service
      has_variant_service session' l user ids w2 = (Ok r, w')) as Hnew.
  { destruct e as [[|kv d]|]; [done| |done]. destruct He as (key & line & Hk & Hf & _). by rewrite (Hkey key Hk) in Hf. }
  unfold create_new in Hnew. apply bind_ok_inv in Hnew as ([line g] & w3 & (s3 & Hp)%with_service_ok & Ha).
  rewrite (frame_db _ _ _ _ _ "count_lines" (frame_after_creation _ _ _ _ _) Ha eq_refl).
  apply persisted_ok in Hp as (username & Hu & _ & Hst); [|done..]. eauto.
Qed.
End creation.

(** ** Concrete requests *)

Definition example_request_of (place : location_context) (key : option string) (qty : Z) (recount_of : option string) : CountLineCreate :=
  LineCreate "S1" place "I1" None key recount_of None None None (of_Z qty) None None None None None None None None None None
    (Some "shelf") None (Some "ok") None None None None None None None None None None (Misplaced (Some false) None None None).
Definition some_place : location_context := Location (Some "L") (Some "F") (Some "R") (Some "F") (Some "R").
Definition some_request (qty : Z) : CountLineCreate := example_request_of some_place (Some "k1") qty None.
Definition ids_of (id : string) : drawn := Drawn id (id +:+ "-o") (id +:+ "-e").
Definition pinned_session : doc :=
  [("id", VStr "S1"); ("status", VStr "ACTIVE"); ("version", VInt 3); ("logic_version", VStr "v1"); ("logic_scope_source", VStr "global")].
Definition creation_world (lines : list doc) : world coll := set_coll "sessions" [pinned_session] (count_world lines).
Definition example_create (cl : client) (l : CountLineCreate) (id : string) (w : world coll) : outcome doc * world coll :=
  create_count_line no_clock false true conflict_ids (fun s => s) ACollection cl (fun _ _ _ => None) (Ok true)
    (fun _ => Ok tt) true true true l (staff "staff1") None (ids_of id) w.

Lemma example_creates :
  let out := example_create standalone_client (some_request 9) "n1" (creation_world []) in
  is_ok (fst out) = true ∧ length (w_db (snd out) "count_lines") = 1%nat.
Proof. vm_compute. auto. Qed.

(** Nothing commits the unit of work: with transactions the request is answered
    with the line, its observation is stored, and the line is not. *)
Lemma creation_not_committed :
  let out := example_create replica_client (some_request 9) "n1" (creation_world []) in
  match fst out with Ok d => get "id" d = VStr "n1" | Raise _ => False end
  ∧ w_db (snd out) "count_lines" = []
  ∧ map (get "id") (w_db (snd out) "count_observations") = [VStr "n1-o"].
Proof. vm_compute. auto. Qed.

(** The logic of a session that is not pinned is pinned first, which is one more
    version of it than the one the request has read. *)
Lemma unpinned_session_refused :
  let out := example_create standalone_client (some_request 9) "n1" (count_world []) in
  fst out = Raise (http 409 "Session was modified concurrently; reload the session and retry.")
  ∧ map (get "version") (w_db (snd out) "sessions") = [VInt 4].
Proof. vm_compute. auto. Qed.

(** A place given by its ids only is stored as floor and rack, but the search for
    duplicates takes the floor and rack of the request. *)
Lemma place_by_ids_counted_twice :
  let place := Location (Some "L") (Some "F") (Some "R") None None in
  let w1 := snd (example_create standalone_client (example_request_of place (Some "k1") 9 None) "n1" (creation_world [])) in
  let out := example_create standalone_client (example_request_of place (Some "k2") 8 None) "n2" w1 in
  normalize_location_context place = place ∧ is_ok (fst out) = true
  ∧ map (fun d => (get "floor_no" d, get "rack_no" d, is_superseded_count_line d)) (w_db (snd out) "count_lines")
    = [(VStr "F", VStr "R", false); (VStr "F", VStr "R", false)].
Proof. vm_compute. auto. Qed.

(** The request keeps the value of the enum, which the document takes the value
    of once more. *)
Lemma date_format_refused {C} `{Mongo C} clock l item u q h g fl fi mi t id w s :
  c_mfg_date_format l = Some s → s ≠ "" → is_ok (fst (_build_count_line_document (C:=C) clock l item u q h g fl fi mi t id w)) = false.
Proof.
  intros Hs Hne. destruct (_build_count_line_document _ _ _ _ _ _ _ _ _ _ _ _ w) as [[[d at']|e] w'] eqn:Hm; [exfalso|done].
  unfold _build_count_line_document in Hm. cbv zeta in Hm.
  apply bind_ok_inv in Hm as (v & w1 & _ & Hm). apply bind_ok_inv in Hm as (now & w2 & _ & Hm).
  apply bind_ok_inv in Hm as (mfg & w3 & [Hf _]%lift_ok & _). unfold enum_value in Hf. rewrite Hs, filled_stable in Hf by done. done.
Qed.

(** The batches of a request are not in the document. *)
Lemma created_line_without_batches l item u q h g fl fi mi id root prev v at' mf ef :
  has_key "batches" (new_line_document l item u q h g fl fi mi id root prev v at' mf ef) = false.
Proof. reflexivity. Qed.

(** The lock of the variant is kept when the line itself is locked by another. *)
Lemma variant_lock_left :
  let item := [("item_id", VInt 7)] in
  let held := [("_id", VStr "S1:I1:F:R"); ("owner", VStr "staff2"); ("created_at", VTime 0); ("expires_at", VTime 60000000)] in
  let out := _acquire_count_line_locks no_clock true true (some_request 9) item "staff1"
               (set_coll "locks" [held] (creation_world [])) in
  fst out = Raise (http 423 "Item or one of its variants is currently being counted by another user.")
  ∧ map (fun d => (get "_id" d, get "owner" d)) (w_db (snd out) "locks")
    = [(VStr "session:S1:product:7", VStr "staff1"); (VStr "S1:I1:F:R", VStr "staff2")].
Proof. vm_compute. auto. Qed.

Lemma creation_lines_ok : lines_ok (w_db (creation_world []) "count_lines").
Proof. intros d Hd. assert (w_db (creation_world []) "count_lines" = []) as Hc by done. rewrite Hc in Hd. by apply elem_of_nil in Hd. Qed.

Lemma standalone_not_transactional : not_transactional standalone_client.
Proof. by exists (Uow false false false). Qed.

Lemma creation_key_free : key_free (some_request 9) (w_db (creation_world []) "count_lines").
Proof. by intros key _. Qed.

Example line_created_if_accepted_witness :
  let out := example_create standalone_client (some_request 9) "n1" (creation_world []) in
  w_db (snd out) "count_lines" ≠ w_db (creation_world []) "count_lines" ∧ place_open (some_request 9) (w_db (creation_world []) "count_lines").
Proof.
  destruct example_creates as [Hok Hlen]. cbv zeta in *. assert (∃ w, w = creation_world []) as [w Hw] by eauto.
  assert (length (w_db w "count_lines") = 0%nat) as Hzero by (by rewrite Hw). rewrite <- Hw in *.
  destruct (example_create standalone_client (some_request 9) "n1" w) as [o w'] eqn:E. unfold example_create in E. cbn [fst snd] in *.
  assert (w_db w' "count_lines" ≠ w_db w "count_lines") as Hne by (intros Heq; rewrite Heq, Hzero in Hlen; discriminate Hlen).
  split; [exact Hne|]. destruct (line_created_if_accepted _ _ _ _ _ _ _ _ _ _ _ _ _ _ _ _ _ _ _ _ E) as [Heq|(_ & _ & Hp & _)].
  - destruct (Hne Heq).
  - exact Hp.
Defined.

Example created_line_stored_witness :
  let out := example_create standalone_client (some_request 9) "n1" (creation_world []) in
  line_stored (some_request 9) (VStr "staff1") "n1" (w_db (creation_world []) "count_lines") (w_db (snd out) "count_lines").
Proof.
  destruct example_creates as [Hok _]. pose proof creation_lines_ok as Hl. pose proof creation_key_free as Hk. cbv zeta in *.
  assert (∃ w, w = creation_world []) as [w Hw] by eauto. rewrite <- Hw in *.
  destruct (example_create standalone_client (some_request 9) "n1" w) as [[r|e] w'] eqn:E; [|discriminate Hok].
  unfold example_create in E. cbn [snd].
  destruct (created_line_stored _ _ _ _ _ _ _ _ _ _ _ _ _ _ _ _ _ _ _ _ standalone_not_transactional Hl Hk E) as (username & Hu & Hst).
  injection Hu as <-. exact Hst.
Defined.
