(* ===== verification/SessionRoutes.v ===== *)
(** The requests on a session, [api/session_management_api.py]: its creation with
    the snapshot of its place, the heartbeat, the change of its status, its
    finalization, and its ownership (claim, pause, resume, release, takeover), with
    [Session] and [SessionCreate] of [api/schemas.py] and the models of
    [core/schemas/snapshot.py].

    A session is the dict its model dumps to.  What pydantic makes of the types of
    a stored session ([typed]), the JSON text of a snapshot ([items_text]), the order
    of the configurations ([newest]) and the time stamps of naive datetimes
    ([timestamp], in the time zone of the host) are parameters, as are the ids drawn
    for a session and its snapshot.  The name of a user is a text. *)

From Stdlib Require Import Ascii.
From stdpp Require Import base list strings.
From S2P Require Import Prelude PyFloat Py Store Guard Inventory Uow Lifecycle Redis Locks RefreshToken CountLines LineActions SyncBatch.

Local Open Scope Z_scope.
Local Open Scope stock_scope.

(** ** The place of a session *)

Record SessionCreate := SessionRequest {
  sc_warehouse : string;
  sc_type : option string;
  sc_location_type : option string;
  sc_location_name : option string;
  sc_rack_no : option string;
}.

Definition _normalize_location_value (value : option string) : option string :=
  match value with
  | Some s => if String.eqb (strip s) "" then None else Some (strip s)
  | None => None
  end.

(** [s.split(sep)] for a separator that is not empty; [skip] characters of one
    that was found are left. *)
Fixpoint split_text (sep : string) (skip : nat) (part s : string) : list string :=
  match s with
  | EmptyString => [part]
  | String c s' =>
      match skip with
      | S k => split_text sep k part s'
      | O => if startswith sep s then part :: split_text sep (String.length sep - 1) "" s'
             else split_text sep 0 (part +:+ String c "") s'
      end
  end.

Definition either_text (a b : option string) : option string := match a with Some _ => a | None => b end.

Definition _parse_session_location_parts (warehouse : string) (location_type location_name rack_no : option string)
  : option string * option string * option string :=
  let parsed_type := _normalize_location_value location_type in
  let parsed_name := _normalize_location_value location_name in
  let parsed_rack := _normalize_location_value rack_no in
  match parsed_type, parsed_name, parsed_rack with
  | Some _, Some _, Some _ => (parsed_type, parsed_name, parsed_rack)
  | _, _, _ =>
      match List.filter (fun part => negb (String.eqb part "")) (map strip (split_text " - " 0 "" warehouse)) with
      | p0 :: p1 :: p2 :: _ => (either_text parsed_type (Some p0), either_text parsed_name (Some p1), either_text parsed_rack (Some p2))
      | _ => (parsed_type, parsed_name, parsed_rack)
      end
  end.

(** The name of the warehouse and the parts of the place. *)
Definition _validate_session_create_request (session_data : SessionCreate)
  : outcome (string * (option string * option string * option string)) :=
  let warehouse := strip (sc_warehouse session_data) in
  if String.eqb warehouse "" then Raise (http 400 "Warehouse name cannot be empty")
  else Ok (warehouse, _parse_session_location_parts warehouse (sc_location_type session_data)
                        (sc_location_name session_data) (sc_rack_no session_data)).

(** ** What the snapshot of a place looks for *)

Inductive snapshot_query :=
| AtWarehouse (warehouse : string)
| AtNameAndRack (name rack : string)
| AtName (name : string).

#[global] Instance snapshot_query_eq_dec : EqDecision snapshot_query.
Proof. solve_decision. Defined.

Definition at_name (name : string) : query :=
  QOr [QText "floor" name; QText "floor_no" name; QText "warehouse" name].

Definition query_of (q : snapshot_query) : query :=
  match q with
  | AtWarehouse warehouse => QText "warehouse" warehouse
  | AtNameAndRack name rack => QAnd [at_name name; QOr [QText "rack" rack; QText "rack_no" rack]]
  | AtName name => at_name name
  end.

Definition _infer_snapshot_warehouse_aliases (warehouse location_type location_name : option string) : list string :=
  let hints := join " " (omap (fun part : option string =>
    match part with Some s => if String.eqb (strip s) "" then None else Some (lower s) | None => None end)
    [warehouse; location_type; location_name]) in
  if contains "showroom" hints || contains "floor" hints then ["Primary"]
  else if contains "godown" hints || contains "damage" hints then ["Main"]
  else [].

(** The queries in order, each once. *)
Fixpoint unique (seen queries : list snapshot_query) : list snapshot_query :=
  match queries with
  | [] => []
  | q :: rest => if decide (q ∈ seen) then unique seen rest else q :: unique (q :: seen) rest
  end.

Definition _build_snapshot_queries (warehouse : string) (location_type location_name rack_no : option string)
  : list snapshot_query :=
  let '(parsed_type, parsed_name, parsed_rack) :=
    _parse_session_location_parts warehouse location_type location_name rack_no in
  unique []
    ([AtWarehouse warehouse]
     ++ match parsed_name, parsed_rack with Some name, Some rack => [AtNameAndRack name rack] | _, _ => [] end
     ++ match parsed_name with Some name => [AtName name] | None => [] end
     ++ map AtWarehouse (_infer_snapshot_warehouse_aliases (Some warehouse) parsed_type parsed_name)).

(** ** The snapshot *)

Record SnapshotItem := MkItem {
  i_item_code : string; i_stock_qty : float; i_warehouse : string; i_source_data : doc;
}.

Definition SNAPSHOT_FIELDS : list string :=
  ["item_name"; "barcode"; "mrp"; "category"; "subcategory"; "warehouse"; "floor"; "rack"; "floor_no"; "rack_no"; "uom_code"].

Definition _build_snapshot_source_data (item : doc) : doc :=
  omap (fun field => match aget field item with
                     | Some v => if existsb (py_eqb v) [VNone; VStr ""] then None else Some (field, v)
                     | None => None
                     end) SNAPSHOT_FIELDS.

Definition model_error : exn := ValueError "validation error".

Definition text_value (v : val) : outcome string := match v with VStr s => Ok s | _ => Raise model_error end.

Definition snapshot_item (warehouse : string) (item : doc) : outcome SnapshotItem :=
  obind (to_float (dget "stock_qty" (VFloat f0) item)) (fun stock_qty =>
  obind (text_value (dget "item_code" (VStr "") item)) (fun item_code =>
  obind (text_value (por (get "warehouse" item) (VStr warehouse))) (fun place =>
  Ok (MkItem item_code stock_qty place (_build_snapshot_source_data item))))).

Fixpoint snapshot_items (warehouse : string) (items : list doc) : outcome (list SnapshotItem) :=
  match items with
  | [] => Ok []
  | item :: rest =>
      obind (snapshot_item warehouse item) (fun i => obind (snapshot_items warehouse rest) (fun l => Ok (i :: l)))
  end.

(** [snapshot_items.sort(key=lambda item: item.item_code)] *)
Fixpoint insert_item (i : SnapshotItem) (l : list SnapshotItem) : list SnapshotItem :=
  match l with
  | [] => [i]
  | j :: l' => if String.leb (i_item_code i) (i_item_code j) then i :: l else j :: insert_item i l'
  end.
Definition sort_items (l : list SnapshotItem) : list SnapshotItem := fold_right insert_item [] l.

Definition item_doc (i : SnapshotItem) : doc :=
  [("item_code", VStr (i_item_code i)); ("stock_qty", VFloat (i_stock_qty i)); ("warehouse", VStr (i_warehouse i));
   ("source_data", VDict (i_source_data i))].

(** The dump of a [SessionSnapshot]. *)
Definition snapshot_document (id session_id warehouse snapshot_hash : string) (items : list SnapshotItem) (created_at : Z)
    (config_version_id : string) : doc :=
  [("id", VStr id); ("session_id", VStr session_id); ("warehouse", VStr warehouse); ("snapshot_hash", VStr snapshot_hash);
   ("items", VList (map (fun i => VDict (item_doc i)) items)); ("item_count", VInt (Z.of_nat (length items)));
   ("created_at", VTime created_at); ("config_version_id", VStr config_version_id)].

(** ** The session *)

(** [Session]: what its validators make of a stored one, around the types. *)
Definition normalize_empty_datetime_fields (d : doc) : doc :=
  map (fun kv => (fst kv,
    if str_in (fst kv) ["last_heartbeat"; "closed_at"; "completed_at"; "reconciled_at"; "finalized_at"] && py_eqb (snd kv) (VStr "")
    then VNone else snd kv)) d.

Definition normalize_status_field (v : val) : val :=
  match v with VStr s => VStr (if String.eqb (upper s) "RECONCILE" then "ACTIVE" else upper s) | _ => v end.

Definition compute_legacy_status (d : doc) : doc :=
  if py_eqb (get "status" d) (VStr "ACTIVE") && truthy (get "reconciled_at" d) && negb (truthy (get "closed_at" d))
  then aset "status" (VStr "RECONCILE") d else d.

Definition session_model (typed : doc → outcome doc) (d : doc) : outcome doc :=
  let d := normalize_empty_datetime_fields d in
  let d := match aget "status" d with Some v => aset "status" (normalize_status_field v) d | None => d end in
  obind (typed d) (fun d => Ok (compute_legacy_status d)).

Definition _build_new_session (id : string) (now : Z) (session_data : SessionCreate) (current_user : doc) (warehouse : string)
    (location_type location_name rack_no : option string) : outcome doc :=
  obind (item "username" current_user) (fun username =>
  obind (text_value username) (fun staff_user =>
  obind (text_value (dget "full_name" username current_user)) (fun staff_name =>
  Ok [("id", VStr id); ("warehouse", VStr warehouse); ("location_id", VNone); ("location_key", VNone);
      ("location_type", opt_str location_type); ("location_name", opt_str location_name); ("rack_no", opt_str rack_no);
      ("staff_user", VStr staff_user); ("staff_name", VStr staff_name); ("status", VStr "OPEN"); ("approval_status", VNone);
      ("auto_release_reason", VNone); ("approval_summary", VNone); ("blocking_items", VNone);
      ("type", por (opt_str (sc_type session_data)) (VStr "STANDARD")); ("started_at", VTime now); ("last_heartbeat", VTime now);
      ("closed_at", VNone); ("completed_at", VNone); ("reconciled_at", VNone); ("finalized_at", VNone); ("finalized_by", VNone);
      ("finalization_status", VNone); ("total_items", VInt 0); ("total_variance", VFloat f0); ("verified_items", VInt 0);
      ("pending_items", VInt 0); ("damage_items", VInt 0); ("notes", VNone); ("barcode", VNone);
      ("config_version_id", VNone); ("snapshot_hash", VNone); ("snapshot_items_ref", VNone)]))).

(** The id of a session that has only that of the database. *)
Definition with_id (existing_session : doc) : doc :=
  match aget "_id" existing_session, aget "id" existing_session with
  | Some i, None => adel "_id" (aset "id" (VStr (to_str i)) existing_session)
  | _, _ => existing_session
  end.

Definition active_statuses : list val := [VStr "OPEN"; VStr "ACTIVE"; VStr "RECONCILE"].

Definition employee_query (username : val) : query := QAnd [QEq "staff_user" username; QIn "status" active_statuses].

Definition location_query (warehouse : string) (location_type location_name rack_no : option string) : query :=
  let part k (o : option string) := match o with Some s => if String.eqb s "" then [] else [QText k s] | None => [] end in
  QAnd ([QIn "status" active_statuses; QText "warehouse" warehouse]
        ++ part "location_type" location_type ++ part "location_name" location_name ++ part "rack_no" rack_no).

Definition _session_owner (session : doc) : string :=
  to_str (por (get "staff_user" session) (por (get "user_id" session) (VStr ""))).

(** A user id as an argument of a Redis command: the driver refuses the others. *)
Definition redis_text (v : val) : option string :=
  match v with VStr _ | VInt _ | VFloat _ => Some (to_str v) | _ => None end.

(** [session.get("claim_version", 0) or 0) + 1] *)
Definition next_claim_version (session : doc) : outcome val :=
  match por (dget "claim_version" (VInt 0) session) (VInt 0) with
  | VInt n => Ok (VInt (n + 1))
  | VBool b => Ok (VInt ((if b then 1 else 0) + 1))
  | VFloat f => Ok (VFloat (fadd f (of_Z 1)))
  | _ => Raise (TypeError "unsupported operand type(s) for +")
  end.

(** ** Ownership *)

Definition ownership_event (event_type : string) (actor role : val) (now : Z) (claim_version : val) (more : doc) : doc :=
  [("event_type", VStr event_type); ("actor", actor); ("role", role); ("timestamp", VTime now);
   ("claim_version", claim_version)] ++ more.

Definition is_supervisor (role : val) : outcome bool :=
  if negb (hashable role) then Raise (TypeError "unhashable type")
  else Ok (existsb (py_eqb role) [VStr "supervisor"; VStr "admin"]).

(** [session.get("staff_user") != username and current_user.get("role") not in {...}] *)
Definition not_allowed (session : doc) (username : val) (current_user : doc) : outcome bool :=
  if py_eqb (get "staff_user" session) username then Ok false
  else obind (is_supervisor (get "role" current_user)) (fun b => Ok (negb b)).

Definition claim_answer (session_id : string) (username : val) (claimed_at : float) (claim_version : val) : doc :=
  [("session_id", VStr session_id); ("claimed_by", username); ("claimed_at", VFloat claimed_at); ("claim_version", claim_version)].

(** [claim_version - 1] *)
Definition previous_version (claim_version : val) : val :=
  match claim_version with VInt n => VInt (n - 1) | VFloat f => VFloat (fsub f (of_Z 1)) | _ => claim_version end.

(** The fields of [LogoutAllResponse]. *)
Definition LogoutAllResponse : list string := ["success"; "message"; "sessions_closed"].

(** An answer has the fields its response model requires. *)
Definition answers_model (required : list string) (answer : doc) : bool :=
  forallb (fun k => match aget k answer with Some _ => true | None => false end) required.

Section routes.
Context {R C : Type} `{Redis R} `{Mongo C}.
Context (clock : nat → Z) (strict_mode write_logs : bool) (cl : client).
(** the Redis server: its clock, the wall clock, and the faults of the driver *)
Context (redis_clock wall : nat → Z) (faults : nat → fault).
Context (sha256 : string → string) (items_text : list SnapshotItem → outcome string) (typed : doc → outcome doc).
Context (newest : list doc → option doc) (timestamp : Z → float) (unix_time : float).
Context (answers : event → outcome unit).
Abbreviation S := (redis_world R * world C)%type.

Definition in_redis {A} (m : M (redis_world R) A) : M S A := fun s =>
  let '(o, r) := m (fst s) in (o, (r, snd s)).
Definition in_db {A} (m : M (world C) A) : M S A := fun s =>
  let '(o, w) := m (snd s) in (o, (fst s, w)).

(** A document that is found and not empty. *)
Definition found_or {A} (e : exn) (found : option doc) (f : doc → M (world C) A) : M (world C) A :=
  match found with Some ((_ :: _) as d) => f d | _ => raise e end.

(** *** Creation *)

Definition _find_existing_session_for_employee (username : val) : M (world C) (option doc) :=
  do existing_session <- db_find_one "sessions" (employee_query username) ;;
  ret (match existing_session with Some ((_ :: _) as d) => Some (with_id d) | _ => None end).

Definition _find_existing_session_for_location (warehouse : string) (location_type location_name rack_no : option string)
  : M (world C) (option doc) :=
  do existing_session <- db_find_one "sessions" (location_query warehouse location_type location_name rack_no) ;;
  ret (match existing_session with Some ((_ :: _) as d) => Some (with_id d) | _ => None end).

Definition _get_latest_session_config_version_id : M (world C) val :=
  do configs <- db_find "config_versions" (QAnd []) ;;
  match newest configs with
  | Some ((_ :: _) as latest_config) => lift (item "id" latest_config)
  | _ => ret (VStr "LEGACY_NO_VERSION")
  end.

(** The items of the first query that finds some. *)
Fixpoint collect_items (warehouse : string) (queries : list snapshot_query) : M (world C) (list SnapshotItem) :=
  match queries with
  | [] => ret []
  | q :: rest =>
      do items <- db_find "erp_items" (query_of q) ;;
      do found <- lift (snapshot_items warehouse items) ;;
      match found with [] => collect_items warehouse rest | _ => ret found end
  end.

Definition _collect_snapshot_items (warehouse : string) (location_type location_name rack_no : option string)
  : M (world C) (list SnapshotItem) :=
  collect_items warehouse (_build_snapshot_queries warehouse location_type location_name rack_no).

(** The items sorted, and their hash. *)
Definition _build_snapshot_payload_and_hash (items : list SnapshotItem) : outcome (list SnapshotItem * string) :=
  let items := sort_items items in
  obind (items_text items) (fun payload_str => Ok (items, sha256 payload_str)).

(** The session with its hash and the reference to its snapshot. *)
Definition _persist_session_snapshot (snapshot_id : string) (session : doc) (warehouse : string)
    (location_type location_name rack_no : option string) (username : string) : M (world C) doc :=
  do found <- _collect_snapshot_items warehouse location_type location_name rack_no ;;
  do ' (items, snapshot_hash) <- lift (_build_snapshot_payload_and_hash found) ;;
  let session := aset "snapshot_hash" (VStr snapshot_hash) session in
  do created_at <- utc_now clock ;;
  do config_version_id <- lift (text_value (get "config_version_id" session)) ;;
  let session_id := to_str (get "id" session) in
  do _ <- record_session_snapshot clock session_id
            (snapshot_document snapshot_id session_id warehouse snapshot_hash items created_at config_version_id) username ;;
  ret (aset "snapshot_items_ref" (VStr snapshot_id) session).

Definition _insert_session_documents (session : doc) (username : string) : M (world C) unit :=
  do _ <- create_session clock strict_mode write_logs cl false (aset "session_id" (get "id" session) session) username ;;
  do _ <- transition_session clock strict_mode write_logs cl false (to_str (get "id" session)) "ACTIVE" username
            (Some "Session activated on creation") None ;;
  ret tt.

(** [create_session] of the routes; [id] and [snapshot_id] are drawn for it. *)
Definition create_new_session (session_data : SessionCreate) (id snapshot_id : string) (current_user : doc) : M (world C) doc :=
  do ' (warehouse, (location_type, location_name, rack_no)) <- lift (_validate_session_create_request session_data) ;;
  do username <- lift (item "username" current_user) ;;
  do existing_session <- _find_existing_session_for_employee username ;;
  match existing_session with
  | Some d => lift (session_model typed d)
  | None =>
      do warehouse_session <- _find_existing_session_for_location warehouse location_type location_name rack_no ;;
      run raise_if (match warehouse_session with Some _ => true | None => false end)
            (http 409 "This location already has an active session. Claim it after release or pause.") ;;
      do now <- utc_now clock ;;
      do session <- lift (_build_new_session id now session_data current_user warehouse location_type location_name rack_no) ;;
      do config_version_id <- _get_latest_session_config_version_id ;;
      let session := aset "config_version_id" config_version_id session in
      do session <- _persist_session_snapshot snapshot_id session warehouse location_type location_name rack_no (to_str username) ;;
      run _insert_session_documents session (to_str username) ;;
      ret session
  end.

(** *** Heartbeat and status *)

Definition session_not_found (session_id : string) : exn := http 404 ("Session " +:+ session_id +:+ " not found").

(** [session_heartbeat] of the routes *)
Definition heartbeat_of_session (session_id : string) (current_user : doc) : M S doc :=
  do user_id <- lift (item "username" current_user) ;;
  do found <- in_db (find_session session_id) ;;
  do session <- in_db (found_or (session_not_found session_id) found ret) ;;
  run raise_if (negb (py_eqb (VStr (_session_owner session)) user_id)) (http 403 "Not your session") ;;
  run in_redis (update_user_heartbeat redis_clock wall faults (to_str user_id) 90) ;;
  do ' (rack_lock_renewed, lock_ttl_remaining) <-
    (if truthy (get "rack_no" session) then
       let rack_id := to_str (get "rack_no" session) in
       do rack_lock_renewed <- in_redis (renew_rack_lock redis_clock faults rack_id (to_str user_id) 60) ;;
       do lock_ttl_remaining <- (if rack_lock_renewed : bool then in_redis (get_rack_lock_ttl redis_clock faults rack_id) else ret 0) ;;
       ret (rack_lock_renewed, lock_ttl_remaining)
     else ret (false, 0)) ;;
  do heartbeat_at <- in_db (utc_now clock) ;;
  run in_db (update_session_fields clock session_id [("last_heartbeat", VTime heartbeat_at)] None "system") ;;
  ret [("success", VBool true); ("id", VStr session_id); ("rack_lock_renewed", VBool rack_lock_renewed);
       ("user_presence_updated", VBool true); ("lock_ttl_remaining", VInt (Z.max 0 lock_ttl_remaining));
       ("message", VStr "Heartbeat received")].

(** The status a request names, as the route reads it. *)
Definition requested_status (requested : string) : string :=
  let requested_canonical := normalize_status (VStr requested) VNone in
  let requested_canonical := if str_in requested ["RECONCILE"; "REVIEW"] then "REVIEW" else requested_canonical in
  if str_in requested ["COMPLETED"; "CLOSED"; "FINALIZED"] then "FINALIZED" else requested_canonical.

Definition session_message (type : string) (payload : doc) : val := VDict [("type", VStr type); ("payload", VDict payload)].

Definition update_session_status (session_id status : string) (current_user : doc) : M (world C) doc :=
  do user_id <- lift (item "username" current_user) ;;
  do found <- find_session session_id ;;
  do session <- found_or (session_not_found session_id) found ret ;;
  run raise_if (is_session_finalized session) (http 409 "Finalized sessions cannot be modified") ;;
  do role <- lift (item "role" current_user) ;;
  do supervisor <- lift (is_supervisor role) ;;
  run raise_if (negb supervisor && negb (py_eqb (VStr (_session_owner session)) user_id)) (http 403 "Not your session") ;;
  let requested := upper (strip status) in
  let requested_canonical := requested_status requested in
  run raise_if (negb (str_in requested_canonical ["CREATED"; "ACTIVE"; "REVIEW"; "FINALIZED"])
                && negb (str_in requested ["PAUSED"; "RECONCILE"]))
        (http 400 ("Unsupported session status: " +:+ requested)) ;;
  let current_canonical := normalize_status (get "status" session) VNone in
  run (if String.eqb requested_canonical current_canonical then
         do now <- utc_now clock ;;
         update_session_fields clock session_id [("last_heartbeat", VTime now)] None "system"
       else if String.eqb requested_canonical "FINALIZED" then
         raise (http 409 "Use /finalize endpoint for session finalization")
       else
         do _ <- transition_session clock strict_mode write_logs cl false session_id requested_canonical (to_str user_id)
                   (Some "Manual session status update") None ;;
         ret tt) ;;
  run call answers "manager.broadcast_to_session"
        [session_message "session_update" [("session_id", VStr session_id); ("status", VStr requested_canonical);
           ("updated_by", user_id); ("updated_at", VFloat unix_time)]; VStr session_id] ;;
  run (if py_eqb (VStr (_session_owner session)) user_id then ret tt
       else call answers "manager.send_personal_message"
              [session_message "session_update" [("session_id", VStr session_id); ("status", VStr requested_canonical);
                 ("reason", VStr "Supervisor update")]; VStr (_session_owner session)]) ;;
  ret [("success", VBool true); ("id", VStr session_id); ("status", VStr requested_canonical)].

(** *** Finalization *)

(** The errors of the lifecycle that are conflicts. *)
Definition finalization_error {A} (e : exn) : M (world C) A :=
  let message := exn_text e in
  let says needle := contains needle (lower message) in
  if says "cannot be finalized" || says "unresolved count lines" || says "version mismatch" || says "concurrent"
  then raise (http 409 message) else raise e.

(** The lock of the rack is released and the registry says so. *)
Definition release_rack (session : doc) : M S unit :=
  if truthy (get "rack_no" session) then
    let rack_no := get "rack_no" session in
    do _ <- (match redis_text (get "staff_user" session) with
             | Some user => in_redis (release_rack_lock redis_clock faults (to_str rack_no) user)
             | None => ret false
             end) ;;
    in_db (best_effort (db_update_one "rack_registry" (QEq "rack_id" rack_no)
             (USet [("status", VStr "completed"); ("updated_at", VFloat unix_time)])))
  else ret tt.

(** The checks and the finalization proper. *)
Definition finalized_by_route (session_id : string) (current_user : doc) (note : option string) : M (world C) (doc * val * doc) :=
  do found <- find_session session_id ;;
  do session <- found_or (session_not_found session_id) found ret ;;
  do supervisor <- lift (is_supervisor (get "role" current_user)) ;;
  run raise_if (negb supervisor) (http 403 "Supervisor access required") ;;
  run raise_if (is_session_finalized session) (http 409 "Session is already finalized") ;;
  let session_status_raw := upper (strip (to_str (por (get "status" session) (VStr "")))) in
  let session_status_canonical := normalize_status (VStr session_status_raw) VNone in
  run raise_if (negb (String.eqb session_status_canonical "REVIEW") && negb (str_in session_status_raw ["REVIEW"; "RECONCILE"]))
        (http 409 "Session must be in REVIEW before finalization") ;;
  do finalized_by <- lift (item "username" current_user) ;;
  do finalize_result <- try_except (finalize_session_canonical clock true cl false session_id (to_str finalized_by) note)
                          finalization_error ;;
  ret (session, finalized_by, finalize_result).

Definition _finalize_session_canonical (session_id : string) (current_user : doc) (note : option string) : M S doc :=
  do ' (session, finalized_by, finalize_result) <- in_db (finalized_by_route session_id current_user note) ;;
  let finalized_at := match get "finalized_at" finalize_result with VTime t => t | _ => 0 end in
  run release_rack session ;;
  run (fun s => (Ok tt, snd (in_redis (delete_session redis_clock faults session_id) s))) ;;
  run in_db (call answers "manager.broadcast_to_session"
        [session_message "session_completed" [("session_id", VStr session_id); ("completed_by", finalized_by);
           ("completed_at", VFloat (timestamp finalized_at)); ("status", VStr "FINALIZED")]; VStr session_id]) ;;
  ret [("success", VBool true); ("id", VStr session_id); ("status", VStr "FINALIZED");
       ("finalized_at", VStr (isoformat "T" finalized_at)); ("finalized_by", finalized_by);
       ("message", VStr "Session finalized successfully")].

(** *** Paths that are closed *)

Definition _complete_session_legacy_compatible (session_id : string) : M (world C) doc :=
  raise (http 410 "CRITICAL: /complete path is disabled. Use canonical /finalize flow only.").

Definition bulk_close_sessions (session_ids : list string) (force : bool) : M (world C) doc :=
  raise (http 410 "CRITICAL: bulk_close_sessions is disabled. Use per-session canonical /finalize flow.").

Definition logout_all_sessions (current_user : doc) : M (world C) doc :=
  do username <- lift (item "username" current_user) ;;
  do revoked_tokens <- revoke_all_user_tokens clock (to_str username) 0 false ;;
  do active_count <- db_count "sessions" (employee_query username) ;;
  let answer := [("success", VBool true); ("username", username); ("revoked_tokens", VInt revoked_tokens);
    ("active_sessions_remaining", VInt active_count);
    ("message", VStr "Tokens revoked. Session closure must be done via /finalize.")] in
  run raise_if (negb (answers_model LogoutAllResponse answer)) (OtherError "ResponseValidationError") ;;
  ret answer.

(** *** Ownership *)

Definition role_of (default_role : string) (current_user : doc) : val := dget "role" (VStr default_role) current_user.

Definition status_error (prefix : string) (session : doc) (suffix : string) : exn :=
  http 409 (prefix +:+ to_str (get "status" session) +:+ suffix).

(** The session with the id, and its status. *)
Definition owned_session (session_id : string) : M (world C) (doc * string) :=
  do found <- db_find_one "sessions" (QEq "id" (VStr session_id)) ;;
  do session <- found_or (session_not_found session_id) found ret ;;
  ret (session, normalize_status (dget "status" (VStr "") session) VNone).

(** [claim_location_session] up to its write: the fields and the event. *)
Definition claim_checks (session_id device_id : string) (current_user : doc) : M (world C) (doc * doc * (val * Z * val)) :=
  do username <- lift (item "username" current_user) ;;
  let role := role_of "staff" current_user in
  do existing_active <- db_find_one "sessions" (employee_query username) ;;
  run raise_if (match existing_active with Some (_ :: _) => true | _ => false end)
        (http 409 "Employee already has an active session. Pause or release it first.") ;;
  do ' (target, canonical_status) <- owned_session session_id ;;
  run raise_if (negb (str_in canonical_status ["OPEN"; "AVAILABLE"; "RELEASED"; "STALE"]))
        (status_error "Session is in " target " state and cannot be claimed.") ;;
  let staff_user := get "staff_user" target in
  run (if py_eqb staff_user username && str_in canonical_status ["RELEASED"; "STALE"] then ret tt
       else if py_eqb staff_user username && String.eqb canonical_status "CLAIMED"
            then raise (http 409 "Session already claimed by you.")
       else raise_if (negb (is_none staff_user) && negb (String.eqb canonical_status "STALE"))
              (http 409 "Session is already claimed by another employee.")) ;;
  do _ <- lift (is_supervisor role) ;;
  do now <- utc_now clock ;;
  do claim_version <- lift (next_claim_version target) ;;
  ret ([("staff_user", username); ("staff_name", dget "full_name" username current_user); ("status", VStr "CLAIMED");
        ("last_heartbeat", VTime now); ("claim_version", claim_version); ("claimed_at", VTime now); ("claimed_by", username);
        ("claimed_device_id", VStr device_id)],
       [("event_type", VStr "CLAIM"); ("actor", username); ("role", role); ("device_id", VStr device_id); ("timestamp", VTime now);
        ("claim_version", claim_version); ("previous_owner", staff_user)],
       (username, now, claim_version)).

Definition claim_location_session (session_id device_id : string) (current_user : doc) : M (world C) doc :=
  do ' (set_fields, event, (username, now, claim_version)) <- claim_checks session_id device_id current_user ;;
  run apply_ownership_transition session_id set_fields event ;;
  ret (claim_answer session_id username (timestamp now) claim_version).

(** [require_role]; its refusal also names the roles. *)
Definition require_role (roles : list string) (current_user : doc) : outcome unit :=
  let user_role := role_of "" current_user in
  if negb (hashable user_role) then Raise (TypeError "unhashable type")
  else if existsb (fun r => py_eqb user_role (VStr r)) roles then Ok tt
  else Raise (HTTPException 403 (VStr "Insufficient permissions")).

(** What pausing, resuming and releasing share: the session in one of the states
    by its owner or a supervisor, the new fields, the event. *)
Definition owner_action (verb event_type : string) (states : list string) (only : string) (fields : Z → val → val → doc)
    (session_id : string) (current_user : doc) : M (world C) doc :=
  do username <- lift (item "username" current_user) ;;
  do now <- utc_now clock ;;
  do ' (session, canonical) <- owned_session session_id ;;
  run raise_if (negb (str_in canonical states)) (status_error ("Cannot " +:+ verb +:+ " a session in ") session (" state." +:+ only)) ;;
  do refused <- lift (not_allowed session username current_user) ;;
  run raise_if refused (http 403 ("Not your session to " +:+ verb)) ;;
  do claim_version <- lift (next_claim_version session) ;;
  run apply_ownership_transition session_id (fields now claim_version username)
        (ownership_event event_type username (role_of "staff" current_user) now claim_version []) ;;
  ret (claim_answer session_id username (timestamp now) claim_version).

Definition pause_location_session (session_id : string) (current_user : doc) : M (world C) doc :=
  do _ <- lift (require_role ["staff"; "supervisor"; "admin"] current_user) ;;
  owner_action "pause" "PAUSE" ["ACTIVE"; "CLAIMED"] "" (fun now claim_version username =>
    [("status", VStr "PAUSED"); ("last_heartbeat", VTime now); ("claim_version", claim_version); ("paused_at", VTime now);
     ("paused_by", username)]) session_id current_user.

Definition resume_location_session (session_id : string) (current_user : doc) : M (world C) doc :=
  owner_action "resume" "RESUME" ["PAUSED"] " Only PAUSED sessions can be resumed." (fun now claim_version _ =>
    [("status", VStr "CLAIMED"); ("last_heartbeat", VTime now); ("claim_version", claim_version)]) session_id current_user.

Definition release_location_session (session_id : string) (current_user : doc) : M (world C) doc :=
  owner_action "release" "RELEASE" ["ACTIVE"; "CLAIMED"; "PAUSED"] "" (fun now claim_version username =>
    [("status", VStr "RELEASED"); ("last_heartbeat", VTime now); ("claim_version", claim_version); ("released_at", VTime now);
     ("released_by", username); ("release_reason", VStr "manual")]) session_id current_user.

Definition takeover_location_session (session_id device_id reason : string) (current_user : doc) : M (world C) doc :=
  do _ <- lift (require_role ["supervisor"; "admin"] current_user) ;;
  do username <- lift (item "username" current_user) ;;
  do now <- utc_now clock ;;
  do ' (session, canonical) <- owned_session session_id ;;
  run raise_if (negb (str_in canonical ["STALE"; "RELEASED"]))
        (status_error "Cannot take over a session in " session " state. Only STALE or RELEASED sessions can be taken over.") ;;
  do claim_version <- lift (next_claim_version session) ;;
  let staff_user := get "staff_user" session in
  run apply_ownership_transition session_id
        [("staff_user", username); ("staff_name", dget "full_name" username current_user); ("status", VStr "CLAIMED");
         ("last_heartbeat", VTime now); ("claim_version", claim_version); ("claimed_at", VTime now); ("claimed_by", username);
         ("claimed_device_id", VStr device_id); ("takeover_reason", VStr reason); ("previous_owner", staff_user)]
        [("event_type", VStr "TAKEOVER"); ("actor", username); ("role", role_of "admin" current_user);
         ("device_id", VStr device_id); ("timestamp", VTime now); ("claim_version", claim_version);
         ("previous_owner", staff_user); ("reason", VStr reason)] ;;
  ret [("session_id", VStr session_id); ("claimed_by", username); ("claimed_at", VFloat (timestamp now));
       ("previous_claim_version", previous_version claim_version); ("takeover_reason", VStr reason)].
End routes.
