(* ===== verification/SessionRoutesSpec.v ===== *)
(** What the requests on a session ([SessionRoutes]) guarantee: each moves one open
    session as its rule says, by who may; a finalized session stays as it is; a
    session is only opened where its place and its counter have none. *)

From stdpp Require Import sets.
From S2P Require Import Prelude PyFloat Py Json Store ListStore Guard Inventory Uow Frame Lifecycle LifecycleSpec Redis Locks CountLines CountLineSpec LineActions LineCreation SyncBatch SessionRoutes.

Local Open Scope Z_scope.
Local Open Scope stock_scope.

(** ** Requests *)

Inductive session_request :=
| QOpen (session_data : SessionCreate) (id snapshot_id : string)
| QHeartbeat (session_id : string)
| QStatus (session_id status : string)
| QFinalize (session_id : string) (note : option string)
| QClaim (session_id device_id : string)
| QPause (session_id : string)
| QResume (session_id : string)
| QRelease (session_id : string)
| QTakeover (session_id device_id reason : string)
| QComplete (session_id : string)
| QBulkClose (session_ids : list string) (force : bool)
| QLogout.

(** The session a request is about. *)
Definition request_session (r : session_request) : string :=
  match r with
  | QOpen _ id _ => id
  | QHeartbeat s | QStatus s _ | QFinalize s _ | QClaim s _ | QPause s | QResume s | QRelease s | QTakeover s _ _ | QComplete s => s
  | QBulkClose _ _ | QLogout => ""
  end.

Section serve_session.
Context {R C : Type} `{Redis R} `{Mongo C}.
Context (clock : nat → Z) (strict_mode write_logs : bool) (cl : client).
Context (redis_clock wall : nat → Z) (faults : nat → fault).
Context (sha256 : string → string) (items_text : list SnapshotItem → outcome string) (typed : doc → outcome doc).
Context (newest : list doc → option doc) (timestamp : Z → float) (unix_time : float) (answers : event → outcome unit).

Definition serve_session (r : session_request) (user : doc) : M (redis_world R * world C) doc :=
  match r with
  | QOpen d id snapshot => in_db (create_new_session clock strict_mode write_logs cl sha256 items_text typed newest d id snapshot user)
  | QHeartbeat s => heartbeat_of_session clock redis_clock wall faults s user
  | QStatus s st => in_db (update_session_status clock strict_mode write_logs cl unix_time answers s st user)
  | QFinalize s note => _finalize_session_canonical clock cl redis_clock faults timestamp unix_time answers s user note
  | QClaim s dev => in_db (claim_location_session clock timestamp s dev user)
  | QPause s => in_db (pause_location_session clock timestamp s user)
  | QResume s => in_db (resume_location_session clock timestamp s user)
  | QRelease s => in_db (release_location_session clock timestamp s user)
  | QTakeover s dev reason => in_db (takeover_location_session clock timestamp s dev reason user)
  | QComplete s => in_db (_complete_session_legacy_compatible s)
  | QBulkClose l f => in_db (bulk_close_sessions l f)
  | QLogout => in_db (logout_all_sessions clock user)
  end.
End serve_session.

(** ** Statuses *)

(** The status of a session in the sense of the lifecycle, and of the routes. *)
Definition lifecycle_status (d : doc) : string := normalize_session_status (get "status" d).
Definition route_status (d : doc) : string := normalize_status (get "status" d) VNone.

Definition claimable : list string := ["OPEN"; "AVAILABLE"; "RELEASED"; "STALE"].
Definition owned_statuses : list string := claimable ++ ["ACTIVE"; "CLAIMED"; "PAUSED"].

(** A status of the ownership routes is open for the lifecycle. *)
Lemma owned_open d : route_status d ∈ owned_statuses → lifecycle_status d ≠ "FINALIZED".
Proof.
  intros Hin%str_in_spec. unfold route_status, lifecycle_status, normalize_status in *.
  destruct (get "status" d) as [| | | |s| | | |]; try done.
  destruct (String.eqb (strip s) "") eqn:Hs; [done|].
  unfold normalize_session_status. rewrite upper_strip_por by (by apply strip_nonempty).
  revert Hin. generalize (upper (strip s)) as raw. intros raw. cbv zeta. cbn [truthy].
  destruct (String.eqb_spec raw "IN_PROGRESS") as [->|]; [done|].
  destruct (String.eqb_spec raw "RECONCILING") as [->|]; [done|].
  rewrite andb_false_r. intros Hin. apply str_in_spec in Hin. unfold owned_statuses, claimable in Hin.
  cbn [app] in Hin.
  repeat (apply elem_of_cons in Hin as [->|Hin]; [by vm_compute|]). by apply elem_of_nil in Hin.
Qed.

(** ** Moves of one session *)

(** The one session the id names went from [d] to [d']. *)
Definition moves `{Mongo C} (P : doc → doc → Prop) (sid : string) (c c' : C) : Prop :=
  ∃ d d' rest, find_one (_lookup sid) c = Some d ∧ contents c ≡ₚ d :: rest ∧ contents c' ≡ₚ d' :: rest ∧ P d d'.

(** It did, or nothing changed. *)
Definition moved `{Mongo C} (P : doc → doc → Prop) (sid : string) (c c' : C) : Prop :=
  contents c' ≡ₚ contents c ∨ moves P sid c c'.

Definition same_field (k : string) (d d' : doc) : Prop := get k d' = get k d.

(** The user acts on a session of their own, or supervises. *)
Definition supervises (user : doc) : Prop := is_supervisor (get "role" user) = Ok true.

(** A change of ownership: from one of the statuses, to a new one and the next
    version of the claim, with an event that says so. *)
Record ownership_change `{Mongo C} (name : string) (from : list string) (to type : string) (d d' : doc) : Prop := {
  oc_from : route_status d ∈ from;
  oc_to : get "status" d' = VStr to;
  oc_version : ∃ v, next_claim_version d = Ok v ∧ get "claim_version" d' = v;
  oc_event : ∀ l, aget "ownership_events" d = None ∧ l = [] ∨ aget "ownership_events" d = Some (VList l) →
    ∃ e, aget "ownership_events" d' = Some (VList (l ++ [VDict e])) ∧ get "event_type" e = VStr type
      ∧ get "actor" e = VStr name ∧ Ok (get "claim_version" e) = next_claim_version d;
}.

(** Who may move a session, from where to where, by each request. *)
Definition permitted `{Mongo C} (user : doc) (name : string) (r : session_request) (d d' : doc) : Prop :=
  match r with
  | QHeartbeat _ => _session_owner d = name ∧ same_field "staff_user" d d' ∧ same_field "status" d d'
  | QStatus _ _ =>
      (_session_owner d = name ∨ supervises user) ∧ same_field "staff_user" d d' ∧
      (same_field "status" d d'
       ∨ transition_allowed (lifecycle_status d) (lifecycle_status d') = true ∧ lifecycle_status d' ∈ ["ACTIVE"; "REVIEW"])
  | QFinalize _ _ =>
      supervises user ∧ same_field "staff_user" d d' ∧ lifecycle_status d = "REVIEW" ∧ lifecycle_status d' = "FINALIZED"
  | QClaim _ _ =>
      ownership_change name claimable "CLAIMED" "CLAIM" d d' ∧ get "staff_user" d' = VStr name
      ∧ (get "staff_user" d = VNone ∨ get "staff_user" d = VStr name ∧ route_status d = "RELEASED" ∨ route_status d = "STALE")
  | QPause _ =>
      ownership_change name ["ACTIVE"; "CLAIMED"] "PAUSED" "PAUSE" d d' ∧ same_field "staff_user" d d'
      ∧ (get "staff_user" d = VStr name ∨ supervises user)
  | QResume _ =>
      ownership_change name ["PAUSED"] "CLAIMED" "RESUME" d d' ∧ same_field "staff_user" d d'
      ∧ (get "staff_user" d = VStr name ∨ supervises user)
  | QRelease _ =>
      ownership_change name ["ACTIVE"; "CLAIMED"; "PAUSED"] "RELEASED" "RELEASE" d d' ∧ same_field "staff_user" d d'
      ∧ (get "staff_user" d = VStr name ∨ supervises user)
  | QTakeover _ _ _ =>
      ownership_change name ["STALE"; "RELEASED"] "CLAIMED" "TAKEOVER" d d' ∧ get "staff_user" d' = VStr name ∧ supervises user
  | QOpen _ _ _ | QComplete _ | QBulkClose _ _ | QLogout => False
  end.

(** A move leaves the ids of an open session. *)
Definition open_move (P : doc → doc → Prop) (d d' : doc) : Prop :=
  lifecycle_status d ≠ "FINALIZED" ∧ same_field "id" d d' ∧ same_field "session_id" d d' ∧ P d d'.

(** A computation that is answered has moved the session, and one that fails may
    have. *)
Abbreviation moving P sid := (relates (moves (open_move P) sid) (moved (open_move P) sid)).

Section moves.
Context {C : Type} `{MongoLaws C}.
Implicit Types (w : world C) (c : C) (d : doc) (sid : string).

Lemma moved_refl P sid c : moved P sid c c.
Proof. by left. Qed.

Lemma moves_moved P sid c c' : moves P sid c c' → moved P sid c c'.
Proof. by right. Qed.

(** The document that is found by a query of the id is the one the lookup names. *)
Lemma lookup_unique sid c d : sessions_ok c → d ∈ contents c → matches (_lookup sid) d = true → find_one (_lookup sid) c = Some d.
Proof.
  intros [_ Hu] Hd Hm. destruct (find_one_exists _ _ _ Hd Hm) as [e He]. rewrite He. f_equal.
  apply find_one_some in He as [Hein Hem]. by apply (at_most_one_eq (_lookup sid) c).
Qed.

(** A versioned update of the session that was found. *)
Lemma moved_occ {A} P Q sid set_doc v (f : unit → M (world C) A) w d :
  sessions_ok (w_db w "sessions") → session_fields_ok set_doc = true →
  find_one (_lookup sid) (w_db w "sessions") = Some d → is_finalized_session d = false →
  P d (apply_update (occ_update set_doc) d) →
  str_in "sessions" Q = false → (∀ a, frame Q (f a)) →
  moving P sid (bind (_update_session_with_occ sid set_doc v) f) w.
Proof.
  intros Hok Hs Hf Ho HP Hq Hfr. apply (relates_post _ _ (moves_moved _ _) Q); [done| |done].
  intros r w' Hu. apply find_one_some in Hf as [Hd Hm].
  apply occ_cases in Hu as [(-> & e & rest & Hc & He & Hc') | ([msg ->] & Hp & _)]; [|by left].
  apply occ_filter_inv in He as [He _].
  assert (e = d) as -> by (apply (at_most_one_eq (_lookup sid) (w_db w "sessions")); [by apply Hok|rewrite Hc; left|done..]).
  exists d, (apply_update (occ_update set_doc) d), rest.
  split; [by apply lookup_unique|]. split; [done|]. split; [done|].
  destruct (ids_after set_doc d Hs). split_and!; try done.
  unfold is_finalized_session in Ho. bool_hyps. unfold lifecycle_status. congruence.
Qed.

Section lifecycle_moves.
Context (clock : nat → Z) (strict_mode write_logs : bool) (cl : client).

Lemma moved_transition P sid target actor note w :
  sessions_ok (w_db w "sessions") →
  (∀ d now, find_one (_lookup sid) (w_db w "sessions") = Some d →
     transition_allowed (lifecycle_status d) (normalize_session_status (VStr target)) = true →
     P d (apply_update (occ_update (transition_update (normalize_session_status (VStr target)) actor note now)) d)) →
  moving P sid (transition_session clock strict_mode write_logs cl false sid target actor note None) w.
Proof.
  intros Hok HP. apply (relates_uow _ _ (moved_refl (open_move P) sid) cl lifecycle_collections); [intros _; apply frame_transition_core|].
  intros _. unfold _transition_session. cbv zeta.
  pose proof (moved_refl (open_move P) sid) as Hr.
  apply (relates_pre _ _ Hr others); [done|solve_frame|]. intros d w1 (-> & Hf & _)%exists_ok _.
  apply (relates_pre _ _ Hr others); [done|solve_frame|]. intros [] w2 [-> Ht]%assert_valid_transition_spec _.
  apply (relates_pre _ _ Hr others); [done|solve_frame|]. intros d3 w3 (-> & _ & Ho)%lifecycle_guard_ok _.
  apply (relates_pre _ _ Hr others); [done|solve_frame|]. intros [] w4 _ H4.
  apply (relates_pre _ _ Hr others); [done|solve_frame|]. intros now w5 _ H5.
  apply (relates_pre _ _ Hr others); [done|solve_frame|]. intros errs w6 _ H6.
  apply (relates_pre _ _ Hr others); [done|solve_frame|]. intros v w7 _ H7.
  assert (w_db w7 "sessions" = w_db w "sessions") as Hw by congruence.
  apply (moved_occ _ others _ _ _ _ _ d); rewrite ?Hw; try done; [apply transition_fields_ok|by apply HP|].
  intros []. unfold Lifecycle._execute_authorized_write, _sync_session_projection. solve_frame.
Qed.

Lemma moved_fields P sid fields actor w :
  sessions_ok (w_db w "sessions") → fields ≠ [] → session_fields_ok fields = true →
  (∀ d, find_one (_lookup sid) (w_db w "sessions") = Some d → P d (apply_update (occ_update fields) d)) →
  moving P sid (update_session_fields clock sid fields None actor) w.
Proof.
  intros Hok Hne Hs HP. pose proof (moved_refl (open_move P) sid) as Hr.
  unfold update_session_fields. destruct fields as [|kv fields]; [done|]. cbn [is_empty].
  apply (relates_pre _ _ Hr others); [done|solve_frame|]. intros d w1 (-> & Hf & Ho)%not_finalized_ok _.
  apply (relates_pre _ _ Hr others); [done|solve_frame|]. intros d2 w2 _ H2.
  apply (relates_pre _ _ Hr others); [done|solve_frame|]. intros v w3 _ H3.
  assert (w_db w3 "sessions" = w_db w "sessions") as Hw by congruence.
  apply (moved_occ _ others _ _ _ _ _ d); rewrite ?Hw; try done; [by apply HP|].
  intros []. unfold _sync_session_projection. solve_frame.
Qed.

Lemma moved_finalize P sid actor note w :
  sessions_ok (w_db w "sessions") →
  (∀ d now tot t, find_one (_lookup sid) (w_db w "sessions") = Some d → lifecycle_status d = "REVIEW" →
     P d (apply_update (occ_update (finalize_update actor now note (session_update tot t))) d)) →
  moving P sid (finalize_session_canonical clock true cl false sid actor note) w.
Proof.
  intros Hok HP. apply (relates_uow _ _ (moved_refl (open_move P) sid) cl lifecycle_collections); [intros _; apply frame_finalize_core|].
  intros _. unfold _finalize_session_canonical_core.
  pose proof (moved_refl (open_move P) sid) as Hr.
  apply (relates_pre _ _ Hr others); [done|solve_frame|]. intros [d lines] w1 (-> & Hf & Ho & Hrev & _)%checks_ok _.
  apply (relates_pre _ _ Hr others); [done|solve_frame|]. intros now w2 _ H2.
  apply (relates_pre _ _ Hr others); [done|solve_frame|]. intros [] w3 _ H3.
  apply (relates_pre _ _ Hr others); [done|solve_frame|]. intros tot w4 (t & n & -> & _)%totals_ok H4.
  apply (relates_pre _ _ Hr others); [done|solve_frame|]. intros v w5 _ H5.
  assert (w_db w5 "sessions" = w_db w "sessions") as Hw by congruence.
  apply (moved_occ _ others _ _ _ _ _ d); rewrite ?Hw; try done; [apply finalize_fields_ok|by apply HP|].
  intros []. unfold Lifecycle._execute_authorized_write, _sync_session_projection. solve_frame.
Qed.

(** The update of a change of ownership. *)
Definition ownership_update (set_fields event : doc) : update := Upd set_fields [] [("ownership_events", VDict event)] [].

(** The session whose [id] it is, is the one that the id names. *)
Lemma found_by_id sid c d :
  sessions_ok c → find_one (QEq "id" (VStr sid)) c = Some d → d ∈ contents c ∧ find_one (_lookup sid) c = Some d.
Proof.
  intros Hok [Hd Hm]%find_one_some. split; [done|]. apply lookup_unique; [done..|].
  unfold _lookup, session_lookup. rewrite matches_or. cbn [existsb]. by rewrite Hm.
Qed.

Lemma ownership_keys set_fields event k :
  k ∈ update_keys (ownership_update set_fields event) ↔ k ∈ map fst set_fields ∨ k = "ownership_events".
Proof. unfold update_keys, ownership_update. cbn. rewrite elem_of_app, list_elem_of_singleton. done. Qed.

Lemma moved_ownership P sid set_fields event w d :
  sessions_ok (w_db w "sessions") → set_fields ≠ [] → event ≠ [] →
  str_in "id" (map fst set_fields) = false → str_in "session_id" (map fst set_fields) = false →
  find_one (QEq "id" (VStr sid)) (w_db w "sessions") = Some d → route_status d ∈ owned_statuses →
  P d (apply_update (ownership_update set_fields event) d) →
  moving P sid (apply_ownership_transition sid set_fields event) w.
Proof.
  intros Hok Hs He Hid Hsid Hf Hst HP r w' Hm. cut (is_ok r = true ∧ moves (open_move P) sid (w_db w "sessions") (w_db w' "sessions"));
    [by intros [-> ?]|]. apply (found_by_id sid _ _ Hok) in Hf as [Hd Hf].
  unfold apply_ownership_transition in Hm. destruct set_fields as [|kv fields]; [done|]. destruct event as [|kv' ev]; [done|].
  cbv zeta in Hm. cbn [is_empty] in Hm. unfold bind, raise_if, ret in Hm. rewrite authorized_update in Hm. simplify_eq.
  change (set_coll _ _ _) with (set_coll "sessions" (snd (update_one (_lookup sid)
    (ownership_update (kv :: fields) (kv' :: ev)) (w_db w "sessions"))) w). rewrite set_coll_same.
  pose proof (find_one_some _ _ _ Hf) as [_ Hm].
  destruct (update_one_some (_lookup sid) (ownership_update (kv :: fields) (kv' :: ev)) (w_db w "sessions"))
    as (e & rest & Hc & Hem & Hc' & _); [by exists d|].
  assert (e = d) as -> by (apply (at_most_one_eq (_lookup sid) (w_db w "sessions")); [by apply Hok|rewrite Hc; left|done..]).
  split; [done|]. exists d, (apply_update (ownership_update (kv :: fields) (kv' :: ev)) d), rest.
  assert (∀ k, str_in k (map fst (kv :: fields)) = false → k ≠ "ownership_events" →
    same_field k d (apply_update (ownership_update (kv :: fields) (kv' :: ev)) d)) as Hsame.
  { intros k Hk Hne. apply get_apply_other. rewrite ownership_keys. intros [Hin|Hin]; [|done].
    apply str_in_spec in Hin. congruence. }
  unfold open_move. split_and!; try done; [by apply owned_open|by apply Hsame..].
Qed.
End lifecycle_moves.

(** ** What the checks of the ownership routes establish *)

Lemma text_eqb v s : py_eqb v (VStr s) = true → v = VStr s.
Proof. destruct v; try done. cbn. intros ->%String.eqb_eq. done. Qed.

Lemma owned_session_ok sid w d st w' :
  owned_session sid w = (Ok (d, st), w') →
  w' = w ∧ find_one (QEq "id" (VStr sid)) (w_db w "sessions") = Some d ∧ st = route_status d.
Proof.
  unfold owned_session. intros Hm. apply bind_ok_inv in Hm as (found & w1 & [-> ->]%read_ok & Hm).
  destruct (find_one _ _) as [[|kv e]|]; try done. unfold found_or, bind, ret in Hm. simplify_eq. split; [done|]. split; [done|].
  unfold route_status, dget, get. by destruct (aget "status" (kv :: e)).
Qed.

Lemma frame_owned_session P sid : frame P (owned_session (C:=C) sid).
Proof. unfold owned_session. apply frame_bind; [solve_frame|]. intros [[|]|]; unfold found_or; solve_frame. Qed.

Lemma not_allowed_ok d name user :
  not_allowed d (VStr name) user = Ok false → get "staff_user" d = VStr name ∨ supervises user.
Proof.
  unfold not_allowed. destruct (py_eqb _ _) eqn:E; [left; by apply text_eqb|].
  unfold supervises, is_supervisor. destruct (negb _); [done|]. cbn. intros [= Hb%negb_false_iff]. right. by rewrite Hb.
Qed.

Lemma next_version_stored d v : next_claim_version d = Ok v → to_bson v = v ∧ v ≠ VNone.
Proof.
  unfold next_claim_version. intros Hn. destruct (por _ _); simplify_eq; (split; [|done]); try by apply to_bson_plain.
  apply to_bson_float.
Qed.

(** The fields of an ownership update hold what they were set to. *)
Lemma ownership_sets fields event d k x :
  bool_decide (NoDup (map fst fields ++ ["ownership_events"])) = true → aget k fields = Some x →
  get k (apply_update (ownership_update fields event) d) = to_bson x.
Proof. intros Hnd%bool_decide_eq_true Hk. by apply get_apply_set. Qed.

Lemma ownership_keeps fields event d k :
  str_in k (map fst fields) = false → k ≠ "ownership_events" → same_field k d (apply_update (ownership_update fields event) d).
Proof.
  intros Hk Hne. apply get_apply_other. rewrite ownership_keys. intros [Hin%str_in_spec|]; congruence.
Qed.

Lemma ownership_updated name from to type fields event d v :
  route_status d ∈ from → bool_decide (NoDup (map fst fields ++ ["ownership_events"])) = true →
  aget "status" fields = Some (VStr to) → next_claim_version d = Ok v → aget "claim_version" fields = Some v →
  get "event_type" event = VStr type → get "actor" event = VStr name → get "claim_version" event = v →
  aget "$each" event = None →
  ownership_change name from to type d (apply_update (ownership_update fields event) d).
Proof.
  intros Hfrom Hnd Hst Hv Hcv Het Hact Hev Heach. destruct (next_version_stored _ _ Hv) as [Hb Hne]. split; [done| | |].
  - rewrite (ownership_sets _ _ _ _ _ Hnd Hst). by apply to_bson_plain.
  - exists v. split; [done|]. by rewrite (ownership_sets _ _ _ _ _ Hnd Hcv).
  - intros l Hl. exists (bson_doc event). split_and!; [|by apply get_bson_str..|].
    + apply bool_decide_eq_true in Hnd.
      rewrite (apply_push (ownership_update fields event) d "ownership_events" (VDict event) l); [|done|done| |done].
      * by rewrite to_bson_dict.
      * by intros e [= <-].
    + rewrite get_bson by (by rewrite Hev). by rewrite Hev, Hb.
Qed.

Section ownership.
Context (clock : nat → Z) (timestamp : Z → float) (user : doc) (name : string).
Hypothesis Hname : get "username" user = VStr name.

Lemma username_ok v : item "username" user = Ok v → v = VStr name.
Proof. intros Hv%item_get. congruence. Qed.

(** Pausing, resuming and releasing. *)
Lemma moved_owner_action verb type to states only fields sid w :
  sessions_ok (w_db w "sessions") → states ⊆ owned_statuses →
  (∀ now v, let keys := map fst (fields now v (VStr name)) in
     bool_decide (NoDup (keys ++ ["ownership_events"])) = true ∧ str_in "id" keys = false ∧ str_in "session_id" keys = false
     ∧ str_in "staff_user" keys = false ∧ aget "status" (fields now v (VStr name)) = Some (VStr to)
     ∧ aget "claim_version" (fields now v (VStr name)) = Some v) →
  moving (fun d d' => ownership_change name states to type d d' ∧ same_field "staff_user" d d'
                               ∧ (get "staff_user" d = VStr name ∨ supervises user)) sid
    (owner_action clock timestamp verb type states only fields sid user) w.
Proof.
  intros Hok Hsub Hfields. unfold owner_action. set (P := open_move _). pose proof (moved_refl P sid) as Hr.
  apply (relates_pre _ _ Hr []); [done|solve_frame|]. intros username w1 [->%username_ok ->]%lift_ok _.
  apply (relates_pre _ _ Hr []); [done|solve_frame|]. intros now w2 _ H2. rewrite <- H2 in Hok. clear H2.
  apply (relates_pre _ _ Hr []); [done|apply frame_owned_session|]. intros [d st] w3 (-> & Hf & ->)%owned_session_ok _.
  apply (relates_pre _ _ Hr []); [done|solve_frame|]. intros [] w4 [Hst%negb_false_iff%str_in_spec ->]%raise_if_ok_inv _.
  apply (relates_pre _ _ Hr []); [done|solve_frame|]. intros refused w5 [Hall ->]%lift_ok _.
  apply (relates_pre _ _ Hr []); [done|solve_frame|]. intros [] w6 [-> ->]%raise_if_ok_inv _.
  apply (relates_pre _ _ Hr []); [done|solve_frame|]. intros v w7 [Hv ->]%lift_ok _.
  apply (relates_post _ _ (moves_moved _ _) []); [done| |intros; solve_frame].
  destruct (Hfields now v) as (Hnd & Hid & Hsid & Hsu & Hset & Hcv).
  apply (moved_ownership _ _ _ _ _ d); try done.
  - by destruct (fields now v (VStr name)).
  - by apply Hsub.
  - split_and!; [|by apply ownership_keeps|by apply not_allowed_ok]. by apply (ownership_updated _ _ _ _ _ _ _ v).
Qed.

Lemma claimed_states st : str_in st claimable = true → st ∈ owned_statuses.
Proof. intros Hin%str_in_spec. unfold owned_statuses. by apply elem_of_app; left. Qed.

Lemma moved_claim sid dev w :
  sessions_ok (w_db w "sessions") →
  moving (permitted user name (QClaim sid dev)) sid (claim_location_session clock timestamp sid dev user) w.
Proof.
  intros Hok. unfold claim_location_session. set (P := open_move _). pose proof (moved_refl P sid) as Hr.
  assert (frame [] (claim_checks (C:=C) clock sid dev user)) as Hfr.
  { unfold claim_checks. pose proof (frame_owned_session []). repeat first [done | frame_step]; solve_frame. }
  apply (relates_pre _ _ Hr []); [done|done|]. intros [[fields event] [[username now] v]] w1 Hc H1. rewrite <- H1 in Hok.
  unfold claim_checks in Hc. apply bind_ok_inv in Hc as (username' & w2 & [->%username_ok ->]%lift_ok & Hc).
  apply bind_ok_inv in Hc as (e & w3 & [-> ->]%read_ok & Hc). apply bind_ok_inv in Hc as ([] & w4 & [_ ->]%raise_if_ok_inv & Hc).
  apply bind_ok_inv in Hc as ([d st] & w5 & (-> & Hf & ->)%owned_session_ok & Hc).
  apply bind_ok_inv in Hc as ([] & w6 & [Hst%negb_false_iff ->]%raise_if_ok_inv & Hc).
  apply bind_ok_inv in Hc as ([] & w7 & Hown & Hc).
  assert (w7 = w ∧ (get "staff_user" d = VNone ∨ get "staff_user" d = VStr name ∧ route_status d = "RELEASED"
    ∨ route_status d = "STALE")) as [-> Hwho].
  { destruct (py_eqb _ _ && _) eqn:E in Hown.
    - apply andb_true_iff in E as [->%text_eqb Hin%str_in_spec]. unfold ret in Hown. simplify_eq. split; [done|].
      apply elem_of_cons in Hin as [->|Hin]; [tauto|]. apply list_elem_of_singleton in Hin. tauto.
    - destruct (_ && _) in Hown; [done|]. apply raise_if_ok_inv in Hown as [Hn ->]. split; [done|].
      apply andb_false_iff in Hn as [Hn%negb_false_iff|Hn%negb_false_iff%String.eqb_eq]; [|tauto].
      left. by destruct (get "staff_user" d). }
  apply bind_ok_inv in Hc as (b & w8 & [_ ->]%lift_ok & Hc). apply bind_ok_inv in Hc as (t & w9 & Ht & Hc).
  apply bind_ok_inv in Hc as (v' & w10 & [Hv ->]%lift_ok & Hc). unfold ret in Hc. simplify_eq.
  rewrite <- H1 in Hf. apply (relates_post _ _ (moves_moved _ _) []); [done| |intros; solve_frame].
  apply (moved_ownership _ _ _ _ _ d); try done; [by apply claimed_states|].
  split; [by apply (ownership_updated _ _ _ _ _ _ _ v); try done; apply str_in_spec|]. split; [|done].
  rewrite (ownership_sets _ _ _ "staff_user" (VStr name)) by done. by apply to_bson_plain.
Qed.

Lemma moved_takeover sid dev reason w :
  sessions_ok (w_db w "sessions") →
  moving (permitted user name (QTakeover sid dev reason)) sid
    (takeover_location_session clock timestamp sid dev reason user) w.
Proof.
  intros Hok. unfold takeover_location_session. set (P := open_move _). pose proof (moved_refl P sid) as Hr.
  apply (relates_pre _ _ Hr []); [done|solve_frame|]. intros [] w1 [Hrole ->]%lift_ok _.
  apply (relates_pre _ _ Hr []); [done|solve_frame|]. intros username w1 [->%username_ok ->]%lift_ok _.
  apply (relates_pre _ _ Hr []); [done|solve_frame|]. intros now w2 _ H2. rewrite <- H2 in Hok. clear H2.
  apply (relates_pre _ _ Hr []); [done|apply frame_owned_session|]. intros [d st] w3 (-> & Hf & ->)%owned_session_ok _.
  apply (relates_pre _ _ Hr []); [done|solve_frame|]. intros [] w4 [Hst%negb_false_iff ->]%raise_if_ok_inv _.
  apply (relates_pre _ _ Hr []); [done|solve_frame|]. intros v w7 [Hv ->]%lift_ok _.
  apply (relates_post _ _ (moves_moved _ _) []); [done| |intros; solve_frame]. apply str_in_spec in Hst.
  apply (moved_ownership _ _ _ _ _ d); try done.
  - apply elem_of_cons in Hst as [->|Hst]; [by apply str_in_spec|]. apply list_elem_of_singleton in Hst as ->. by apply str_in_spec.
  - split; [by apply (ownership_updated _ _ _ _ _ _ _ v)|]. split.
    + rewrite (ownership_sets _ _ _ "staff_user" (VStr name)) by done. by apply to_bson_plain.
    + unfold require_role, role_of in Hrole. unfold supervises, is_supervisor.
      assert (get "role" user = dget "role" (VStr "") user ∨ dget "role" (VStr "") user = VStr "") as [->|He]
        by (unfold get, dget; destruct (aget "role" user); tauto); [|by rewrite He in Hrole].
      destruct (negb _); [done|]. cbn in *. by destruct (py_eqb _ _), (py_eqb _ _).
Qed.

Lemma moved_pause sid w :
  sessions_ok (w_db w "sessions") →
  moving (permitted user name (QPause sid)) sid (pause_location_session clock timestamp sid user) w.
Proof.
  intros Hok. unfold pause_location_session.
  apply (relates_pre _ _ (moved_refl _ _) []); [done|solve_frame|]. intros [] w1 [_ ->]%lift_ok _.
  apply moved_owner_action; [done| |done]. intros st [->|[->|[]%elem_of_nil]%elem_of_cons]%elem_of_cons; by apply str_in_spec.
Qed.

Lemma moved_resume sid w :
  sessions_ok (w_db w "sessions") →
  moving (permitted user name (QResume sid)) sid (resume_location_session clock timestamp sid user) w.
Proof. intros Hok. apply moved_owner_action; [done| |done]. intros st ->%list_elem_of_singleton. by apply str_in_spec. Qed.

Lemma moved_release sid w :
  sessions_ok (w_db w "sessions") →
  moving (permitted user name (QRelease sid)) sid (release_location_session clock timestamp sid user) w.
Proof.
  intros Hok. apply moved_owner_action; [done| |done].
  intros st [->|[->|[->|[]%elem_of_nil]%elem_of_cons]%elem_of_cons]%elem_of_cons; by apply str_in_spec.
Qed.

(** ** The lifecycle requests *)

Lemma occ_keeps set_doc d k :
  str_in k (map fst set_doc) = false → k ≠ "version" → same_field k d (apply_update (occ_update set_doc) d).
Proof. intros Hk Hne. apply get_apply_other. rewrite occ_keys. intros [Hin%str_in_spec|]; congruence. Qed.

Lemma occ_sets set_doc d k x :
  session_fields_ok set_doc = true → aget k set_doc = Some x → get k (apply_update (occ_update set_doc) d) = to_bson x.
Proof. intros Hs Hk. apply get_apply_set; [by apply occ_nodup|done]. Qed.

(** A status that was written is the one that is read. *)
Lemma written_status s set_doc d :
  session_fields_ok set_doc = true → aget "status" set_doc = Some (VStr (normalize_session_status (VStr s))) →
  lifecycle_status (apply_update (occ_update set_doc) d) = normalize_session_status (VStr s).
Proof.
  intros Hs Hk. unfold lifecycle_status. rewrite (occ_sets _ _ _ _ Hs Hk), to_bson_plain by done.
  apply normalize_session_status_idem.
Qed.

Lemma transition_keeps_owner target actor note t : str_in "staff_user" (map fst (transition_update target actor note t)) = false.
Proof.
  unfold transition_update. by destruct (String.eqb target "REVIEW"), (String.eqb target "FINALIZED"), (truthy (opt_str note)).
Qed.

Lemma finalize_keeps_owner actor t note tot now :
  str_in "staff_user" (map fst (finalize_update actor t note (session_update tot now))) = false.
Proof. unfold finalize_update, session_update. by destruct (t_last tot), (truthy (opt_str note)). Qed.

Lemma requested_statuses r :
  negb (str_in (requested_status r) ["CREATED"; "ACTIVE"; "REVIEW"; "FINALIZED"]) && negb (str_in r ["PAUSED"; "RECONCILE"]) = false →
  requested_status r ∈ ["CREATED"; "ACTIVE"; "REVIEW"; "FINALIZED"; "PAUSED"].
Proof.
  intros [Hin%negb_false_iff|Hin%negb_false_iff]%andb_false_iff; apply str_in_spec in Hin.
  - apply (elem_of_app ["CREATED"; "ACTIVE"; "REVIEW"; "FINALIZED"] ["PAUSED"]). by left.
  - apply str_in_spec. apply elem_of_cons in Hin as [->|Hin]; [done|]. apply list_elem_of_singleton in Hin as ->. done.
Qed.

(** A transition that is not to the end is to work or to review. *)
Lemma status_moves from r :
  requested_status r ∈ ["CREATED"; "ACTIVE"; "REVIEW"; "FINALIZED"; "PAUSED"] → requested_status r ≠ "FINALIZED" →
  transition_allowed from (normalize_session_status (VStr (requested_status r))) = true →
  normalize_session_status (VStr (requested_status r)) ∈ ["ACTIVE"; "REVIEW"].
Proof.
  intros Hin Hne Hc%transition_allowed_cases. apply str_in_spec.
  apply elem_of_cons in Hin as [Hr|Hin]; [rewrite Hr in Hc; by destruct_and?; destruct_or! Hc; destruct Hc|].
  apply elem_of_cons in Hin as [->|Hin]; [done|]. apply elem_of_cons in Hin as [->|Hin]; [done|].
  apply elem_of_cons in Hin as [|Hin]; [done|]. apply list_elem_of_singleton in Hin as ->. done.
Qed.

Section status.
Context (strict_mode write_logs : bool) (cl : client) (unix_time : float) (answers : event → outcome unit).

Lemma frame_found_or {A} P e found (f : doc → M (world C) A) : (∀ d, frame P (f d)) → frame P (found_or e found f).
Proof. intros Hf. destruct found as [[|]|]; cbn [found_or]; [solve_frame|apply Hf|solve_frame]. Qed.

Lemma frame_route_call P n args : frame P (call (C:=C) answers n args).
Proof. unfold call. solve_frame. Qed.

Lemma found_or_ok e found w d w' : found_or (C:=C) e found ret w = (Ok d, w') → w' = w ∧ found = Some d.
Proof. destruct found as [[|kv e']|]; unfold found_or, ret, raise; intros Hm; by simplify_eq. Qed.

Lemma frame_find_session P sid : frame P (find_session (C:=C) sid).
Proof. unfold find_session. solve_frame. Qed.

Lemma moved_status sid st w :
  sessions_ok (w_db w "sessions") →
  moving (permitted user name (QStatus sid st)) sid
    (update_session_status clock strict_mode write_logs cl unix_time answers sid st user) w.
Proof.
  intros Hok. unfold update_session_status. cbv zeta. set (P := open_move _). pose proof (moved_refl P sid) as Hr.
  apply (relates_pre _ _ Hr []); [done|solve_frame|]. intros username w1 [->%username_ok ->]%lift_ok _.
  apply (relates_pre _ _ Hr []); [done|apply frame_find_session|]. intros found w1 [-> ->]%read_ok _.
  apply (relates_pre _ _ Hr []); [done|apply frame_found_or; intros; solve_frame|]. intros d w1 [-> Hf]%found_or_ok _.
  apply (relates_pre _ _ Hr []); [done|solve_frame|]. intros [] w2 [_ ->]%raise_if_ok_inv _.
  apply (relates_pre _ _ Hr []); [done|solve_frame|]. intros role w2 [->%item_get ->]%lift_ok _.
  apply (relates_pre _ _ Hr []); [done|solve_frame|]. intros b w2 [Hb ->]%lift_ok _.
  apply (relates_pre _ _ Hr []); [done|solve_frame|]. intros [] w2 [Hperm ->]%raise_if_ok_inv _.
  apply (relates_pre _ _ Hr []); [done|solve_frame|]. intros [] w2 [Hreq%requested_statuses ->]%raise_if_ok_inv _.
  set (r := requested_status _) in *.
  assert (_session_owner d = name ∨ supervises user) as Hwho.
  { destruct b; [by right|left]. apply negb_false_iff, text_eqb in Hperm. congruence. }
  apply (relates_post _ _ (moves_moved _ _) []); [done| |].
  2:{ intros _. pose proof (frame_route_call []). apply frame_bind; [done|]. intros _. apply frame_bind; [|intros; solve_frame].
      destruct (py_eqb _ _); [solve_frame|done]. }
  destruct (String.eqb_spec r (normalize_status (get "status" d) VNone)) as [|_].
  - apply (relates_pre _ _ Hr []); [done|solve_frame|]. intros now w3 _ H3. apply moved_fields; rewrite ?H3; [done|done|done|].
    intros d' Hd'. assert (d' = d) as -> by (unfold _lookup, session_lookup in Hd'; unfold build_session_lookup in Hf; congruence).
    split; [done|]. split; [by apply occ_keeps|left; by apply occ_keeps].
  - destruct (String.eqb_spec r "FINALIZED") as [|Hne]; [apply relates_raise, Hr|].
    apply (relates_post _ _ (moves_moved _ _) []); [done| |intros; solve_frame]. apply moved_transition; [done|].
    intros d' now Hd' Ht. assert (d' = d) as -> by (unfold _lookup, session_lookup in Hd'; unfold build_session_lookup in Hf; congruence).
    split; [done|].
    split; [by apply occ_keeps; [apply transition_keeps_owner|]|]. right.
    rewrite (written_status r) by (apply transition_fields_ok || apply transition_status). split; [done|].
    by apply (status_moves (lifecycle_status d)).
Qed.

Lemma moved_route_finalize sid note w :
  sessions_ok (w_db w "sessions") →
  moving (permitted user name (QFinalize sid note)) sid (finalized_by_route clock cl sid user note) w.
Proof.
  intros Hok. unfold finalized_by_route. cbv zeta. set (P := open_move _). pose proof (moved_refl P sid) as Hr.
  apply (relates_pre _ _ Hr []); [done|apply frame_find_session|]. intros found w1 [-> ->]%read_ok _.
  apply (relates_pre _ _ Hr []); [done|apply frame_found_or; intros; solve_frame|]. intros d w1 [-> Hf]%found_or_ok _.
  apply (relates_pre _ _ Hr []); [done|solve_frame|]. intros b w2 [Hb ->]%lift_ok _.
  apply (relates_pre _ _ Hr []); [done|solve_frame|]. intros [] w2 [->%negb_false_iff ->]%raise_if_ok_inv _.
  apply (relates_pre _ _ Hr []); [done|solve_frame|]. intros [] w2 [_ ->]%raise_if_ok_inv _.
  apply (relates_pre _ _ Hr []); [done|solve_frame|]. intros [] w2 [_ ->]%raise_if_ok_inv _.
  apply (relates_pre _ _ Hr []); [done|solve_frame|]. intros username w2 [->%username_ok ->]%lift_ok _.
  apply (relates_post _ _ (moves_moved _ _) []); [done| |intros; solve_frame].
  intros r w' Hm. unfold try_except in Hm.
  destruct (finalize_session_canonical _ _ _ _ _ _ _ _) as [o w2] eqn:E.
  assert (w_db w' "sessions" = w_db w2 "sessions" ∧ is_ok r = is_ok o) as [-> ->].
  { destruct o as [a|e']; [by simplify_eq|]. unfold finalization_error in Hm. cbv zeta in Hm. destruct (_ || _); unfold raise in Hm; by simplify_eq. }
  revert E. apply moved_finalize; [done|]. intros d' now tot t Hd' Hst. split; [done|].
  split; [by apply occ_keeps; [apply finalize_keeps_owner|]|]. split; [done|].
  by apply (written_status "FINALIZED"); [apply finalize_fields_ok|apply finalize_status].
Qed.
End status.
End ownership.
End moves.

Definition is_raise {A} (o : outcome A) : Prop := is_ok o = false.

(** Logging out of all sessions revokes the tokens, and then fails: its answer
    lacks a field of its model. *)
Lemma logout_all_fails {C} `{Mongo C} clock user (w : world C) o w' :
  logout_all_sessions clock user w = (o, w') → is_raise o.
Proof.
  unfold is_raise. intros Hm. destruct o as [a|e]; [|done]. exfalso. unfold logout_all_sessions in Hm. cbv zeta in Hm.
  apply bind_ok_inv in Hm as (u & w1 & _ & Hm). apply bind_ok_inv in Hm as (n & w2 & _ & Hm).
  apply bind_ok_inv in Hm as (k & w3 & _ & Hm). by apply bind_ok_inv in Hm as ([] & w4 & [Hb _]%raise_if_ok_inv & _).
Qed.

(** ** The routes as a machine *)

Section machine.
Context {R C : Type} `{Redis R} `{MongoLaws C}.
Context (clock : nat → Z) (strict_mode write_logs : bool) (cl : client).
Context (redis_clock wall : nat → Z) (faults : nat → fault).
Context (sha256 : string → string) (items_text : list SnapshotItem → outcome string) (typed : doc → outcome doc).
Context (newest : list doc → option doc) (timestamp : Z → float) (unix_time : float) (answers : event → outcome unit).
Abbreviation sessions s := (w_db (snd s) "sessions").
Abbreviation routes := (serve_session clock strict_mode write_logs cl redis_clock wall faults sha256 items_text typed newest timestamp unix_time answers).

Section related.
Context (Qok Q : C → C → Prop) (Hrefl : ∀ c, Q c c) (Hsub : ∀ c c', Qok c c' → Q c c').

Definition related {A} (m : M (redis_world R * world C) A) s : Prop :=
  ∀ o s', m s = (o, s') → (if is_ok o then Qok else Q) (sessions s) (sessions s').

(** A computation that leaves the sessions. *)
Definition still {A} (m : M (redis_world R * world C) A) : Prop := ∀ s o s', m s = (o, s') → sessions s' = sessions s.

Lemma related_db {A} (m : M (world C) A) s : relates Qok Q m (snd s) → related (in_db m) s.
Proof. intros Hm o s' Hs. unfold in_db in Hs. destruct (m (snd s)) as [a w] eqn:E. simplify_eq. exact (Hm _ _ E). Qed.

Lemma still_db {A} (m : M (world C) A) : frame [] m → still (in_db m).
Proof.
  intros Hf s o s' Hs. unfold in_db in Hs. destruct (m (snd s)) as [a w] eqn:E. simplify_eq.
  by apply (frame_db _ _ _ _ _ "sessions" Hf E).
Qed.

Lemma still_redis {A} (m : M (redis_world R) A) : still (in_redis m).
Proof. intros s o s' Hs. unfold in_redis in Hs. destruct (m (fst s)). by simplify_eq. Qed.

Lemma still_ret {A} (a : A) : still (ret a).
Proof. intros s o s' Hs. unfold ret in Hs. by injection Hs as <- <-. Qed.

Lemma still_lift {A} (o : outcome A) : still (lift o).
Proof. intros s r s' Hs. unfold lift in Hs. by injection Hs as <- <-. Qed.

Lemma still_raise_if b e : still (raise_if b e).
Proof. intros s r s' Hs. destruct b; unfold raise_if, raise, ret in Hs; by simplify_eq. Qed.

Lemma still_bind {A B} (m : M (redis_world R * world C) A) (f : A → M (redis_world R * world C) B) :
  still m → (∀ a, still (f a)) → still (bind m f).
Proof.
  intros Hm Hf s o s' Hs. unfold bind in Hs. destruct (m s) as [[a|e] s1] eqn:E; [|simplify_eq; by apply (Hm _ _ _ E)].
  rewrite (Hf a _ _ _ Hs). by apply (Hm _ _ _ E).
Qed.

Lemma related_pre {A B} (m : M (redis_world R * world C) A) (f : A → M (redis_world R * world C) B) s :
  still m → (∀ a s1, m s = (Ok a, s1) → sessions s1 = sessions s → related (f a) s1) → related (bind m f) s.
Proof.
  intros Hm Hf o s' Hs. unfold bind in Hs. destruct (m s) as [[a|e] s1] eqn:E; pose proof (Hm _ _ _ E) as Heq.
  - rewrite <- Heq. by apply (Hf a s1 eq_refl Heq o).
  - simplify_eq. rewrite Heq. apply Hrefl.
Qed.

Lemma related_post {A B} (m : M (redis_world R * world C) A) (f : A → M (redis_world R * world C) B) s :
  related m s → (∀ a, still (f a)) → related (bind m f) s.
Proof.
  intros Hm Hf o s' Hs. unfold bind in Hs. destruct (m s) as [[a|e] s1] eqn:E; [|simplify_eq; by apply (Hm (Raise e))].
  rewrite (Hf a _ _ _ Hs). pose proof (Hm _ _ E) as Hok. destruct (is_ok o); [done|by apply Hsub].
Qed.
End related.

Abbreviation requests P sid := (related (moves (open_move P) sid) (moved (open_move P) sid)).

Lemma in_db_ok {A} (m : M (world C) A) (s : redis_world R * world C) a s' :
  in_db m s = (Ok a, s') → m (snd s) = (Ok a, snd s').
Proof. unfold in_db. destruct (m (snd s)) as [o w]. intros. by simplify_eq. Qed.

(** The release of a rack and of the session's lock leave the sessions. *)
Lemma still_release_rack d : still (release_rack (C:=C) redis_clock faults unix_time d).
Proof.
  unfold release_rack. destruct (truthy _); [|apply still_ret]. apply still_bind.
  - destruct (redis_text _); [apply still_redis|apply still_ret].
  - intros _ s o s' Hs. unfold in_db in Hs. destruct (best_effort _ _) as [a w] eqn:E. simplify_eq.
    assert (frame ["rack_registry"] (best_effort (db_update_one (C:=C) "rack_registry" (QEq "rack_id" (get "rack_no" d))
      (USet [("status", VStr "completed"); ("updated_at", VFloat unix_time)])))) as Hf by (apply frame_best_effort; by apply frame_update_one).
    by apply (frame_db _ _ _ _ _ "sessions" Hf E).
Qed.

Lemma related_finalize user name sid note s :
  get "username" user = VStr name → sessions_ok (sessions s) →
  requests (permitted user name (QFinalize sid note)) sid
    (_finalize_session_canonical clock cl redis_clock faults timestamp unix_time answers sid user note) s.
Proof.
  intros Hname Hok. unfold _finalize_session_canonical. apply related_post; [apply moves_moved| |].
  - apply related_db. by apply moved_route_finalize.
  - intros [[d by_user] res]. cbv zeta. apply still_bind; [apply still_release_rack|]. intros _. apply still_bind.
    + intros s1 o s2 Hs. simplify_eq. destruct (in_redis (C:=C) (delete_session redis_clock faults sid) s1) as [o s3] eqn:E.
      by apply still_redis in E.
    + intros _. apply still_bind; [apply still_db; apply frame_route_call|]. intros _. apply still_ret.
Qed.

Lemma related_heartbeat user name sid s :
  get "username" user = VStr name → sessions_ok (sessions s) →
  requests (permitted user name (QHeartbeat sid)) sid
    (heartbeat_of_session clock redis_clock wall faults sid user) s.
Proof.
  intros Hname Hok. unfold heartbeat_of_session. set (P := open_move _). pose proof (moved_refl P sid) as Hr.
  apply (related_pre _ _ Hr); [apply still_lift|]. intros username s1 [Hu ->]%lift_ok _. apply (username_ok _ _ Hname) in Hu as ->.
  apply (related_pre _ _ Hr); [apply still_db, frame_find_session|]. intros found s1 Hf E1. apply in_db_ok, read_ok in Hf as [_ ->].
  apply (related_pre _ _ Hr); [apply still_db, frame_found_or; intros; solve_frame|].
  intros d s2 [Hw2 Hf]%in_db_ok%found_or_ok E2.
  apply (related_pre _ _ Hr); [apply still_raise_if|]. intros [] s3 [Hown%negb_false_iff%text_eqb ->]%raise_if_ok_inv _.
  apply (related_pre _ _ Hr); [apply still_redis|]. intros [] s4 _ E4.
  apply (related_pre _ _ Hr).
  { destruct (truthy _); [|apply still_ret]. apply still_bind; [apply still_redis|]. intros b.
    apply still_bind; [destruct b; [apply still_redis|apply still_ret]|]. intros; apply still_ret. }
  intros [renewed ttl] s5 _ E5. apply (related_pre _ _ Hr); [apply still_db; solve_frame|]. intros now s6 _ E6.
  assert (sessions s6 = sessions s) as Hs6 by congruence.
  apply related_post; [apply moves_moved|apply related_db, moved_fields|intros; apply still_ret]; [by rewrite Hs6|done|done|].
  intros d' Hd'. rewrite Hs6 in Hd'.
  assert (d' = d) as -> by (unfold _lookup, session_lookup in Hd'; unfold build_session_lookup in Hf; congruence).
  split; [congruence|]. split; by apply occ_keeps.
Qed.

Lemma related_refused Qok Q {A} (m : M (redis_world R * world C) A) s :
  (∀ c, Q c c) → still m → (∀ a s', m s ≠ (Ok a, s')) → related Qok Q m s.
Proof. intros Hr Hm Hn o s' Hs. rewrite (Hm _ _ _ Hs). destruct o as [a|e]; [by destruct (Hn a s')|apply Hr]. Qed.

Lemma still_logout user : still (in_db (logout_all_sessions (C:=C) clock user)).
Proof.
  intros s o s' Hs. unfold in_db in Hs. destruct (logout_all_sessions _ _ _) as [a w] eqn:E. simplify_eq.
  assert (frame ["refresh_tokens"] (logout_all_sessions (C:=C) clock user)) as Hf.
  { unfold logout_all_sessions, RefreshToken.revoke_all_user_tokens. solve_frame. }
  by apply (frame_db _ _ _ _ _ "sessions" Hf E).
Qed.

(** A request on a stored session moves it as permitted. *)
Lemma request_moved r user name s :
  get "username" user = VStr name → (∀ d i j, r ≠ QOpen d i j) → sessions_ok (sessions s) →
  requests (permitted user name r) (request_session r) (routes r user) s.
Proof.
  intros Hname Hr Hok. pose proof (moved_refl (open_move (permitted user name r)) (request_session r)) as Hrefl.
  destruct r; cbn [request_session serve_session].
  - by destruct (Hr session_data id snapshot_id).
  - by apply related_heartbeat.
  - apply related_db. by apply moved_status.
  - by apply related_finalize.
  - apply related_db. by apply moved_claim.
  - apply related_db. by apply moved_pause.
  - apply related_db. by apply moved_resume.
  - apply related_db. by apply moved_release.
  - apply related_db. by apply moved_takeover.
  - apply related_refused; [done| |done]. apply still_db. unfold _complete_session_legacy_compatible. solve_frame.
  - apply related_refused; [done| |done]. apply still_db. unfold bulk_close_sessions. solve_frame.
  - apply related_refused; [done|apply still_logout|]. intros a s' Ha%in_db_ok. by apply logout_all_fails in Ha.
Qed.

(** C2: the requests on sessions refine a machine of single moves. A request on a stored session that is answered has moved the
    one session its id names, and one that fails has done so or left the sessions as they were. That session was not finalized,
    keeps its ids, and moves as the rule of the request permits: a heartbeat by the owner and a status by the owner or a
    supervisor, to work or to review, keep the counter; only a supervisor finalizes, and from review; a claim takes a session
    that is free, stale or the user's own and released; pausing, resuming and releasing are for the owner or a supervisor, a
    takeover for a supervisor, each from its statuses, with the next version of the claim and its event. The routes that are
    closed, and the one that ends all sessions of a user, are never answered. *)
Theorem session_routes_refine r user name s o s' :
  get "username" user = VStr name → (∀ d i j, r ≠ QOpen d i j) → sessions_ok (sessions s) → routes r user s = (o, s') →
  let rule := open_move (permitted user name r) in
  moved rule (request_session r) (sessions s) (sessions s')
  ∧ (is_ok o = true → moves rule (request_session r) (sessions s) (sessions s')).
Proof.
  intros Hname Hr Hok Hs. pose proof (request_moved r user name s Hname Hr Hok o s' Hs) as Hm.
  destruct o; split; [by right|done..].
Qed.

(** ** A finalized session through the routes *)

(** Sessions stay well-formed, and the finalized ones as they are. *)
Definition keeps_finalized (c c' : C) : Prop :=
  sessions_ok c → sessions_ok c' ∧ ∀ d, d ∈ contents c → lifecycle_status d = "FINALIZED" → d ∈ contents c'.

Lemma keeps_finalized_refl c : keeps_finalized c c.
Proof. by intros Hok. Qed.

Lemma moved_keeps P sid c c' : moved (open_move P) sid c c' → keeps_finalized c c'.
Proof.
  intros [Hp|(d & d' & rest & Hf & Hc & Hc' & Ho & Hid & Hsid & _)] Hok.
  - split; [by apply (sessions_ok_perm c)|]. intros e He _. by rewrite Hp.
  - destruct Hok as [Hi Hu]. assert (ids_plain d) as Hd by (apply Hi; rewrite Hc; left).
    assert (ids_plain d') as Hd' by (unfold ids_plain; by rewrite Hid, Hsid). split; [split|].
    + intros e He. rewrite Hc' in He. apply elem_of_cons in He as [->|He]; [done|]. apply Hi. rewrite Hc. by right.
    + intros sid'. apply (at_most_one_replace _ c c' d d' rest); [done|done| |apply Hu].
      rewrite !lookup_matches by done. by rewrite Hid, Hsid.
    + intros e He Hfin. rewrite Hc in He. apply elem_of_cons in He as [->|He]; [done|]. rewrite Hc'. by right.
Qed.

Lemma any_step_keeps c c' : any_step c c' → keeps_finalized c c'.
Proof.
  intros Hs Hok. split; [by apply (any_step_ok c)|]. intros d Hd Hfin. apply (any_step_finalized c); [done|done|].
  unfold is_finalized_session. unfold lifecycle_status in Hfin. by rewrite Hfin, orb_true_r.
Qed.

Lemma keeps_finalized_bind {A B} (m : M (world C) A) (f : A → M (world C) B) w :
  relates keeps_finalized keeps_finalized m w → (∀ a w1, m w = (Ok a, w1) → relates keeps_finalized keeps_finalized (f a) w1) →
  relates keeps_finalized keeps_finalized (bind m f) w.
Proof.
  rewrite !relates_same. intros Hm Hf o w' Hs. unfold bind in Hs. destruct (m w) as [[a|e] w1] eqn:E; [|simplify_eq; by apply (Hm _ _ eq_refl)].
  intros Hok. destruct (Hm _ _ eq_refl Hok) as [Hok1 H1k]. specialize (Hf _ _ eq_refl). rewrite relates_same in Hf.
  destruct (Hf _ _ Hs Hok1) as [Hok2 H2k]. split; [done|]. intros d Hd Hfin. auto.
Qed.

(** *** Opening a session *)

Section opening.
Context (session_data : SessionCreate) (id snapshot_id : string) (user : doc) (name : string).
Hypothesis Hname : get "username" user = VStr name.
Abbreviation opened := (create_new_session clock strict_mode write_logs cl sha256 items_text typed newest session_data id snapshot_id user).

(** What is known of the session when it is inserted. *)
Record session_described (d : doc) : Prop := {
  d_id : get "id" d = VStr id;
  d_user : get "staff_user" d = VStr name;
  d_warehouse : get "warehouse" d = VStr (strip (sc_warehouse session_data));
  d_version : aget "version" d = None;
}.

Lemma described_aset k v d : str_in k ["id"; "staff_user"; "warehouse"; "version"] = false → session_described d → session_described (aset k v d).
Proof.
  unfold str_in. cbn [existsb]. rewrite !orb_false_r, !orb_false_iff. intros (H1k & H2k & H3k & H4k) [Hi Hu Hw Hv].
  split; [by rewrite get_aset_ne..|]. by rewrite aget_aset, H4k.
Qed.

Lemma new_session_ok now w lt ln rk d :
  w = strip (sc_warehouse session_data) → _build_new_session id now session_data user w lt ln rk = Ok d → session_described d.
Proof.
  intros -> Hd. unfold _build_new_session in Hd. destruct (item "username" user) as [u|e] eqn:Hu; [|done].
  apply item_get in Hu as ->. rewrite Hname in Hd. cbn [obind text_value] in Hd.
  destruct (dget "full_name" _ user) as [| | | |full| | | |]; cbn [obind text_value] in Hd; try done. injection Hd as <-. done.
Qed.

(** The sessions of the counter and of the place that are active. *)
Definition none_active (c : C) : Prop :=
  (∀ d, d ∈ contents c → matches (employee_query (VStr name)) d = false) ∧
  ∃ place lt ln rk, _validate_session_create_request session_data = Ok (place, (lt, ln, rk))
    ∧ ∀ d, d ∈ contents c → matches (location_query place lt ln rk) d = false.

(** A field of an inserted document. *)
Lemma inserted_field k i d : k ≠ "_id" → get k d ≠ VNone → get k (bson_doc (setdefault "_id" i d)) = to_bson (get k d).
Proof.
  intros Hk Hd. assert (get k (setdefault "_id" i d) = get k d) as He.
  { unfold get. rewrite aget_setdefault. by destruct (String.eqb_spec "_id" k). }
  rewrite get_bson by (by rewrite He). by rewrite He.
Qed.

Lemma inserted_text k i d s : k ≠ "_id" → get k d = VStr s → get k (bson_doc (setdefault "_id" i d)) = VStr s.
Proof. intros Hk Hd. rewrite inserted_field by (by rewrite ?Hd). rewrite Hd. by apply to_bson_plain. Qed.

(** The snapshot that an opened session refers to. *)
Definition snapshot_of (d : doc) (c : C) : Prop :=
  ∃ snap, snap ∈ contents c ∧ get "session_id" snap = VStr id ∧ get "id" snap = get "snapshot_items_ref" d
    ∧ get "snapshot_hash" snap = get "snapshot_hash" d ∧ get "warehouse" snap = get "warehouse" d.

Lemma snapshot_persisted session place lt ln rk w d w' :
  place = strip (sc_warehouse session_data) → session_described session →
  _persist_session_snapshot clock sha256 items_text snapshot_id session place lt ln rk name w = (Ok d, w') →
  session_described d ∧ (∃ hash, get "snapshot_hash" d = VStr hash) ∧ get "snapshot_items_ref" d = VStr snapshot_id
  ∧ snapshot_of d (w_db w' "session_snapshots").
Proof.
  intros -> Hd Hm. unfold _persist_session_snapshot in Hm. cbv zeta in Hm.
  apply bind_ok_inv in Hm as (found & w1 & _ & Hm). apply bind_ok_inv in Hm as ([items hash] & w2 & _ & Hm).
  apply bind_ok_inv in Hm as (now & w3 & _ & Hm). apply bind_ok_inv in Hm as (config & w4 & _ & Hm).
  apply bind_ok_inv in Hm as (snap & w5 & Hs & Hm). unfold ret in Hm. simplify_eq.
  assert (session_described (aset "snapshot_hash" (VStr hash) session)) as Hd' by (by apply described_aset).
  split; [by apply described_aset|]. split; [exists hash; by rewrite get_aset_ne, get_aset_eq by done|].
  split; [by rewrite get_aset_eq|]. rewrite (d_id _ Hd') in Hs. cbn [to_str] in Hs.
  unfold record_session_snapshot in Hs. cbv zeta in Hs.
  apply bind_ok_inv in Hs as ([] & w6 & _ & Hs). apply bind_ok_inv in Hs as (e & w7 & _ & Hs).
  apply bind_ok_inv in Hs as ([] & w8 & _ & Hs). apply bind_ok_inv in Hs as (e' & w9 & _ & Hs).
  apply bind_ok_inv in Hs as ([] & w10 & _ & Hs). apply bind_ok_inv in Hs as (stored & w11 & Hins & Hs).
  apply bind_ok_inv in Hs as ([] & w12 & Hlog & Hs). unfold ret in Hs. simplify_eq.
  assert (w_db w' "session_snapshots" = w_db w11 "session_snapshots") as ->
    by (eapply (frame_db ["governance_events"]); [by apply frame_log_write|exact Hlog|done]).
  apply authority_ok in Hins as (u0 & u1 & _ & Hins & Hdb). rewrite Hdb.
  apply insert_one_ok in Hins as (i & c & Hi & _ & ->). rewrite set_coll_same. apply insert_one_spec in Hi as [Hc _].
  eexists. split; [rewrite Hc; left|]. split_and!.
  - by apply inserted_text.
  - rewrite get_aset_eq. by apply inserted_text.
  - rewrite get_aset_ne, get_aset_eq by done. by apply inserted_text.
  - rewrite get_aset_ne by done. rewrite (d_warehouse _ Hd'). by apply inserted_text.
Qed.

(** *** The session that is stored *)

Lemma create_stored session_doc u w d w' :
  create_session clock strict_mode write_logs cl false session_doc u w = (Ok d, w') →
  w_db w' "session_snapshots" = w_db w "session_snapshots"
  ∧ ∃ i t, contents (w_db w' "sessions") ≡ₚ bson_doc (setdefault "_id" i (created_session session_doc t)) :: contents (w_db w "sessions").
Proof.
  intros [b Hm]%with_uow_ok_inv. unfold _create_session in Hm. cbv zeta in Hm.
  apply bind_ok_inv in Hm as (t & w1 & Ht & Hm). apply bind_ok_inv in Hm as ([] & w2 & [_ ->]%raise_if_ok_inv & Hm).
  apply bind_ok_inv in Hm as (errs & w3 & Hv & Hm). apply bind_ok_inv in Hm as (stored & w4 & Hins & Hm).
  assert (∀ n, str_in n ["validation_logs"] = false → w_db w3 n = w_db w n) as Hw3.
  { intros n Hn. transitivity (w_db w1 n); [|eapply (frame_db []); [|exact Ht|done]; solve_frame].
    eapply (frame_db ["validation_logs"]); [by apply frame_validate|exact Hv|done]. }
  apply authority_ok in Hins as (u0 & u1 & Hu0 & Hins & Hdb). apply insert_one_ok in Hins as (i & c & Hi & _ & ->).
  match type of Hm with ?g _ = _ => assert (frame ["verification_sessions"; "governance_events"] g) as Hf
    by (unfold Lifecycle._execute_authorized_write, _sync_session_projection; solve_frame) end.
  rewrite (frame_db _ _ _ _ _ "sessions" Hf Hm eq_refl), (frame_db _ _ _ _ _ "session_snapshots" Hf Hm eq_refl), Hdb.
  rewrite set_coll_same, set_coll_other, Hu0, Hw3 by done. rewrite Hu0, Hw3 in Hi by done.
  apply insert_one_spec in Hi as [Hc _]. split; [done|]. by exists i, t.
Qed.

Lemma created_field k d t : str_in k ["status"; "id"; "started_at"; "last_heartbeat"; "session_id"; "version"] = false →
  get k (created_session d t) = get k d.
Proof.
  unfold str_in. cbn [existsb]. rewrite !orb_false_iff. intros (H1k & H2k & H3k & H4k & H5k & H6k & _).
  assert (∀ k' v e, String.eqb k k' = false → get k (setdefault k' v e) = get k e) as Hs
    by (intros k' v e Hne; unfold get; rewrite aget_setdefault, String.eqb_sym, Hne; done).
  unfold created_session. cbv zeta. rewrite !Hs by done. by rewrite get_aset_ne by (by rewrite String.eqb_sym).
Qed.

(** What the stored session is. *)
Record stored_session (session s : doc) : Prop := {
  ss_id : get "id" s = VStr id;
  ss_user : get "staff_user" s = VStr name;
  ss_warehouse : get "warehouse" s = VStr (strip (sc_warehouse session_data));
  ss_status : get "status" s = VStr "ACTIVE";
  ss_version : get "version" s = VInt 1;
  ss_hash : get "snapshot_hash" s = get "snapshot_hash" session;
  ss_snapshot : get "snapshot_items_ref" s = get "snapshot_items_ref" session;
}.

(** The session as it is inserted, and as it is then activated. *)
Definition inserted (i : val) (session : doc) (t : Z) : doc :=
  bson_doc (setdefault "_id" i (created_session (aset "session_id" (VStr id) session) t)).
Definition activated (d : doc) (now : Z) : doc :=
  apply_update (occ_update (transition_update "ACTIVE" name (Some "Session activated on creation") now)) d.

Lemma ids_of_request session : session_described session →
  created_id (aset "session_id" (VStr id) session) = VStr id ∧ created_session_id (aset "session_id" (VStr id) session) = VStr id.
Proof.
  intros Hd. split; [|unfold created_session_id; by rewrite aget_aset_eq].
  unfold created_id. pose proof (d_id _ Hd) as Hg. rewrite <- (get_aset_ne "session_id" "id" (VStr id) session) in Hg by done.
  unfold get in Hg. by destruct (aget "id" _).
Qed.

Lemma inserted_ids i session t : session_described session →
  get "id" (inserted i session t) = VStr id ∧ get "session_id" (inserted i session t) = VStr id.
Proof.
  intros [H1c H2c]%ids_of_request. destruct (created_ids (aset "session_id" (VStr id) session) t i) as [Hid Hsid].
  unfold inserted. split; apply get_bson_str; [by rewrite Hid|by rewrite Hsid].
Qed.

Lemma inserted_keeps i session t k s :
  str_in k ["status"; "id"; "started_at"; "last_heartbeat"; "session_id"; "version"; "_id"] = false →
  get k session = VStr s → get k (inserted i session t) = VStr s.
Proof.
  intros Hk Hs. unfold str_in in Hk. cbn [existsb] in Hk. rewrite !orb_false_iff in Hk. destruct Hk as (K1 & K2 & K3 & K4 & K5 & K6 & K7 & _).
  apply inserted_text; [by intros ->|]. rewrite created_field by (unfold str_in; cbn [existsb]; by rewrite K1, K2, K3, K4, K5, K6).
  by rewrite get_aset_ne by (by rewrite String.eqb_sym).
Qed.

Lemma inserted_version i session t : session_described session → aget "version" (inserted i session t) = Some (VInt 0).
Proof.
  intros Hd. unfold inserted. rewrite aget_bson, aget_setdefault. cbn [String.eqb Ascii.eqb Bool.eqb]. unfold created_session. cbv zeta.
  rewrite aget_setdefault. cbn [String.eqb Ascii.eqb Bool.eqb].
  assert (∀ k' x e, String.eqb k' "version" = false → aget "version" (setdefault k' x e) = aget "version" e) as Hs
    by (intros k' x e Hne; by rewrite aget_setdefault, Hne).
  rewrite !Hs by done. rewrite !aget_aset. cbn [String.eqb Ascii.eqb Bool.eqb]. rewrite (d_version _ Hd). cbn.
  f_equal. by apply to_bson_plain.
Qed.

Lemma activated_keeps d now k s :
  str_in k ["status"; "last_heartbeat"; "updated_at"; "updated_by"; "lifecycle_note"] = false → k ≠ "version" →
  get k d = VStr s → get k (activated d now) = VStr s.
Proof. intros Hin Hne Hd. unfold activated. by rewrite (occ_keeps _ d k). Qed.

Lemma activated_stored i session hash t now :
  session_described session → get "snapshot_hash" session = VStr hash → get "snapshot_items_ref" session = VStr snapshot_id →
  stored_session session (activated (inserted i session t) now).
Proof.
  intros Hd Hhash Href. split.
  - by apply activated_keeps; [..|apply inserted_ids].
  - apply activated_keeps; [done..|]. apply inserted_keeps; [done|apply Hd].
  - apply activated_keeps; [done..|]. apply inserted_keeps; [done|apply Hd].
  - unfold activated. rewrite (occ_sets _ _ "status" (VStr "ACTIVE")) by done. by apply to_bson_plain.
  - pose proof (inserted_version i session t Hd) as Hv. unfold activated, get.
    rewrite version_after; [|done|right; exists 0; split; [done|unfold int64_max; lia]]. unfold version_of, get. by rewrite Hv.
  - rewrite Hhash. apply activated_keeps; [done..|]. by apply inserted_keeps.
  - rewrite Href. apply activated_keeps; [done..|]. by apply inserted_keeps.
Qed.

(** The activation of a session that has just been inserted. *)
Lemma activate_ok c i session t w d w' :
  sessions_ok c → (∀ d, d ∈ contents c → matches (_lookup id) d = false) → session_described session →
  contents (w_db w "sessions") ≡ₚ inserted i session t :: contents c →
  _transition_session clock strict_mode write_logs id "ACTIVE" name (Some "Session activated on creation") None w = (Ok d, w') →
  ∃ now, contents (w_db w' "sessions") ≡ₚ activated (inserted i session t) now :: contents c.
Proof.
  intros Hok Hfresh Hd Hc Ht. destruct (inserted_ids i session t Hd) as [Hid Hsid]. set (n := inserted i session t) in *.
  assert (sessions_ok (w_db w "sessions")) as Hok1.
  { apply (any_step_ok c); [|done]. apply (any_create _ _ n id id); [done|done| |done]. auto. }
  apply transition_core_ok in Ht as (d' & now & v & w5 & w6 & Hf & _ & _ & _ & _ & H5 & Hocc & H6 & _).
  assert (d' = n) as ->.
  { apply find_one_some in Hf as [Hd1 Hd2]. rewrite Hc in Hd1. apply elem_of_cons in Hd1 as [|Hd1]; [done|]. by rewrite Hfresh in Hd2. }
  apply occ_cases in Hocc as [(_ & e & rest & Hc5 & He & Hc6)|([msg Hr] & _)]; [|discriminate Hr].
  apply occ_filter_inv in He as [He _]. rewrite H5 in Hc5. apply find_one_some in Hf as [Hn1 Hn2].
  assert (e = n) as -> by (apply (at_most_one_eq (_lookup id) (w_db w "sessions")); [by apply Hok1|rewrite Hc5; left|done..]).
  rewrite Hc in Hc5. apply Permutation_cons_inv in Hc5. exists now. by rewrite H6, Hc6, Hc5.
Qed.

Lemma insert_documents_ok session hash w w' :
  sessions_ok (w_db w "sessions") → (∀ d, d ∈ contents (w_db w "sessions") → matches (_lookup id) d = false) →
  session_described session → get "snapshot_hash" session = VStr hash → get "snapshot_items_ref" session = VStr snapshot_id →
  _insert_session_documents clock strict_mode write_logs cl session name w = (Ok tt, w') →
  w_db w' "session_snapshots" = w_db w "session_snapshots"
  ∧ ∃ s, contents (w_db w' "sessions") ≡ₚ s :: contents (w_db w "sessions") ∧ stored_session session s.
Proof.
  intros Hok Hfresh Hd Hhash Href Hm. unfold _insert_session_documents in Hm. rewrite (d_id _ Hd) in Hm.
  apply bind_ok_inv in Hm as (d1 & w1 & [Hsnap (i & t & Hc)]%create_stored & Hm).
  apply bind_ok_inv in Hm as (d2 & w2 & Ht & Hm). unfold ret in Hm. simplify_eq. cbn [to_str] in Ht.
  split.
  - rewrite <- Hsnap. eapply (frame_db ["sessions"; "verification_sessions"; "governance_events"; "validation_logs"]); [|exact Ht|done].
    apply frame_uow. intros _. unfold _transition_session, Lifecycle._execute_authorized_write, _sync_session_projection. cbv zeta. solve_frame.
  - apply with_uow_ok_inv in Ht as [b Ht]. eapply activate_ok in Ht as [now Hc']; [|done..].
    eexists. split; [exact Hc'|]. by eapply activated_stored.
Qed.

(** *** The whole request *)

Lemma validated_warehouse place parts :
  _validate_session_create_request session_data = Ok (place, parts) → place = strip (sc_warehouse session_data).
Proof. unfold _validate_session_create_request. destruct (String.eqb _ _); [done|]. by intros [= <- _]. Qed.

Lemma frame_config P : frame P (_get_latest_session_config_version_id (C:=C) newest).
Proof. unfold _get_latest_session_config_version_id. apply frame_bind; [solve_frame|]. intros l. destruct (newest l) as [[|]|]; solve_frame. Qed.

Lemma frame_collect P place queries : frame P (collect_items (C:=C) place queries).
Proof.
  induction queries as [|q queries IH]; cbn [collect_items]; [solve_frame|]. apply frame_bind; [solve_frame|]. intros items.
  apply frame_bind; [solve_frame|]. intros [|]; [done|solve_frame].
Qed.

Lemma frame_persist session place lt ln rk u :
  frame others (_persist_session_snapshot (C:=C) clock sha256 items_text snapshot_id session place lt ln rk u).
Proof.
  unfold _persist_session_snapshot. cbv zeta. apply frame_bind; [apply frame_collect|]. intros found.
  apply frame_bind; [solve_frame|]. intros [items hash]. pose proof frame_snapshot. solve_frame.
Qed.

(** A query on the status finds no empty document. *)
Lemma status_found q c d : find_one (QAnd q) c = Some d → (∃ l, QIn "status" (map VStr l) ∈ q) → ∃ kv e, d = kv :: e.
Proof.
  intros [_ Hm]%find_one_some [l Hl]. destruct d as [|kv e]; [|by exists kv, e].
  rewrite matches_and, forallb_forall in Hm. apply list_elem_of_In in Hl. specialize (Hm _ Hl).
  rewrite matches_in in Hm. apply existsb_exists in Hm as (v & Hv & Hm). apply in_map_iff in Hv as (s & <- & _).
  by rewrite matches_eq in Hm.
Qed.

Lemma employee_found w o w' :
  _find_existing_session_for_employee (VStr name) w = (Ok o, w') →
  w' = w ∧ match o with
           | Some _ => ∃ d, d ∈ contents (w_db w "sessions") ∧ matches (employee_query (VStr name)) d = true
           | None => ∀ d, d ∈ contents (w_db w "sessions") → matches (employee_query (VStr name)) d = false
           end.
Proof.
  unfold _find_existing_session_for_employee. intros Hm. apply bind_ok_inv in Hm as (found & w1 & [-> ->]%read_ok & Hm).
  unfold ret in Hm. simplify_eq. split; [done|]. destruct (find_one _ _) as [d|] eqn:Hf; [|by apply find_one_none].
  destruct (status_found _ _ _ Hf) as (kv & e & ->); [|by apply find_one_some in Hf; eauto].
  exists ["OPEN"; "ACTIVE"; "RECONCILE"]. right. left.
Qed.

Lemma location_found place lt ln rk w o w' :
  _find_existing_session_for_location place lt ln rk w = (Ok o, w') →
  w' = w ∧ (o = None → ∀ d, d ∈ contents (w_db w "sessions") → matches (location_query place lt ln rk) d = false).
Proof.
  unfold _find_existing_session_for_location. intros Hm. apply bind_ok_inv in Hm as (found & w1 & [-> ->]%read_ok & Hm).
  unfold ret in Hm. simplify_eq. split; [done|]. destruct (find_one _ _) as [d|] eqn:Hf; [|intros _; by apply find_one_none].
  destruct (status_found _ _ _ Hf) as (kv & e & ->); [|done]. exists ["OPEN"; "ACTIVE"; "RECONCILE"]. left.
Qed.

(** Nothing is added while the counter or the place has an active session. *)
Definition unless_none (c c' : C) : Prop := c' = c ∨ none_active c.

Lemma opening_exclusive w : relates unless_none unless_none opened w.
Proof.
  set (Q := unless_none). assert (∀ c, Q c c) as Hr by (by left). unfold create_new_session.
  apply (relates_pre _ _ Hr []); [done|solve_frame|]. intros [place [[lt ln] rk]] w1 [Hv ->]%lift_ok _.
  apply (relates_pre _ _ Hr []); [done|solve_frame|]. intros u w1 [->%(username_ok _ _ Hname) ->]%lift_ok _.
  apply (relates_pre _ _ Hr []); [done|unfold _find_existing_session_for_employee; solve_frame|].
  intros e w1 [-> He]%employee_found _. destruct e as [d|]; [apply (relates_frame _ _ Hr []); [done|done|solve_frame]|].
  apply (relates_pre _ _ Hr []); [done|unfold _find_existing_session_for_location; solve_frame|].
  intros e w1 [-> Hl]%location_found _.
  apply (relates_pre _ _ Hr []); [done|solve_frame|]. intros [] w1 [Hn ->]%raise_if_ok_inv _. destruct e; [done|].
  apply relates_same. intros o w' _. right. split; [done|]. exists place, lt, ln, rk. auto.
Qed.

(** What an opening that succeeds has done. *)
Lemma new_session_stored w r w' :
  sessions_ok (w_db w "sessions") → (∀ d, d ∈ contents (w_db w "sessions") → matches (_lookup id) d = false) →
  opened w = (Ok r, w') →
  (w' = w ∧ ∃ d, d ∈ contents (w_db w "sessions") ∧ matches (employee_query (VStr name)) d = true)
  ∨ ∃ s, contents (w_db w' "sessions") ≡ₚ s :: contents (w_db w "sessions") ∧ stored_session r s
      ∧ snapshot_of r (w_db w' "session_snapshots").
Proof.
  intros Hok Hfresh Hm. unfold create_new_session in Hm. apply bind_ok_inv in Hm as ([place [[lt ln] rk]] & w1 & [Hv ->]%lift_ok & Hm).
  apply bind_ok_inv in Hm as (u & w1 & [->%(username_ok _ _ Hname) ->]%lift_ok & Hm).
  apply bind_ok_inv in Hm as (e & w1 & [-> He]%employee_found & Hm). destruct e as [d|].
  { apply lift_ok in Hm as [_ ->]. by left. }
  apply bind_ok_inv in Hm as (e & w1 & [-> _]%location_found & Hm). apply bind_ok_inv in Hm as ([] & w1 & [_ ->]%raise_if_ok_inv & Hm).
  apply bind_ok_inv in Hm as (now & w1 & H1t & Hm). apply bind_ok_inv in Hm as (session & w2 & [Hs ->]%lift_ok & Hm).
  apply bind_ok_inv in Hm as (config & w3 & H3c & Hm). cbv zeta in Hm. apply bind_ok_inv in Hm as (session' & w4 & Hp & Hm).
  apply bind_ok_inv in Hm as ([] & w5 & Hi & Hm). unfold ret in Hm. simplify_eq. cbn [to_str] in Hp, Hi.
  apply validated_warehouse in Hv as ->. apply new_session_ok in Hs; [|done].
  assert (w_db w4 "sessions" = w_db w "sessions") as Hw4.
  { rewrite (frame_db _ _ _ _ _ "sessions" (frame_persist _ _ _ _ _ _) Hp eq_refl).
    rewrite (frame_db _ _ _ _ _ "sessions" (frame_config []) H3c eq_refl).
    eapply (frame_db []); [|exact H1t|done]. solve_frame. }
  apply snapshot_persisted in Hp as (Hd & [hash Hh] & Href & Hsnap); [|done|by apply described_aset].
  eapply insert_documents_ok in Hi as [Hsn (s & Hc & Hst)]; [|rewrite Hw4; done..|done|done|done].
  right. exists s. rewrite Hw4 in Hc. split; [done|]. split; [done|]. by rewrite Hsn.
Qed.
(** *** Opening leaves the finalized sessions *)

Lemma insert_keeps session w :
  (∀ d, d ∈ contents (w_db w "sessions") → matches (_lookup id) d = false) → session_described session →
  relates keeps_finalized keeps_finalized (_insert_session_documents clock strict_mode write_logs cl session name) w.
Proof.
  intros Hfresh Hd. unfold _insert_session_documents. rewrite (d_id _ Hd). apply keeps_finalized_bind.
  - apply relates_same. intros o w' Hm. apply any_step_keeps. eapply create_any; [|exact Hm]. destruct (ids_of_request _ Hd) as [H1c H2c].
    exists id, id. split; [done|]. split; [done|]. intros e He. auto.
  - intros d w1 _. apply relates_same. intros o w' Hm Hok. eapply moved_keeps; [|done].
    assert (moving (fun _ _ => True) id (do _ <- transition_session clock strict_mode write_logs cl false (to_str (VStr id)) "ACTIVE" name
      (Some "Session activated on creation") None ;; ret tt) w1) as Hmv
      by (apply (relates_post _ _ (moves_moved _ _) []); [done|by apply moved_transition|intros; solve_frame]).
    specialize (Hmv _ _ Hm). destruct (is_ok o); [by right|done].
Qed.

Lemma opening_keeps w :
  (∀ d, d ∈ contents (w_db w "sessions") → matches (_lookup id) d = false) → relates keeps_finalized keeps_finalized opened w.
Proof.
  intros Hfresh. pose proof keeps_finalized_refl as Hr. unfold create_new_session.
  apply (relates_pre _ _ Hr []); [done|solve_frame|]. intros [place [[lt ln] rk]] w1 [Hv%validated_warehouse ->]%lift_ok _.
  apply (relates_pre _ _ Hr []); [done|solve_frame|]. intros u w1 [->%(username_ok _ _ Hname) ->]%lift_ok _.
  apply (relates_pre _ _ Hr []); [done|unfold _find_existing_session_for_employee; solve_frame|].
  intros e w1 [-> _]%employee_found _. destruct e as [d|]; [apply (relates_frame _ _ Hr []); [done|done|solve_frame]|].
  apply (relates_pre _ _ Hr []); [done|unfold _find_existing_session_for_location; solve_frame|].
  intros e w1 [-> _]%location_found _. apply (relates_pre _ _ Hr []); [done|solve_frame|]. intros [] w1 [_ ->]%raise_if_ok_inv _.
  apply (relates_pre _ _ Hr []); [done|solve_frame|]. intros now w1 _ E1.
  apply (relates_pre _ _ Hr []); [done|solve_frame|]. intros session w2 [Hs ->]%lift_ok _. apply new_session_ok in Hs; [|done].
  apply (relates_pre _ _ Hr []); [done|apply frame_config|]. intros config w3 _ E3. cbv zeta.
  apply (relates_pre _ _ Hr others); [done|apply frame_persist|]. intros session' w4 Hp E4.
  apply snapshot_persisted in Hp as (Hd & _); [|done|by apply described_aset].
  apply (relates_post _ _ (fun _ _ Hk => Hk) []); [done| |intros; solve_frame]. apply insert_keeps; [|done]. rewrite E4, E3, E1. done.
Qed.
End opening.

(** C9: a session is opened only where there is none. A request for a session, whatever its outcome, leaves the sessions as they
    are unless neither the user nor the place it names has one that is open, active or in reconciliation. One that succeeds
    gives back a session the user already has, or has stored one more: active, at version 1, of the user, at the warehouse as
    given without spaces around, with the baseline of the place stored under the hash and the id that the session refers to. *)
Theorem new_session_exclusive session_data id snapshot_id user name w o w' :
  get "username" user = VStr name → sessions_ok (w_db w "sessions") →
  (∀ d, d ∈ contents (w_db w "sessions") → matches (_lookup id) d = false) →
  create_new_session clock strict_mode write_logs cl sha256 items_text typed newest session_data id snapshot_id user w = (o, w') →
  (w_db w' "sessions" = w_db w "sessions" ∨ none_active session_data name (w_db w "sessions"))
  ∧ ∀ r, o = Ok r →
      (w' = w ∧ ∃ d, d ∈ contents (w_db w "sessions") ∧ matches (employee_query (VStr name)) d = true)
      ∨ ∃ s, contents (w_db w' "sessions") ≡ₚ s :: contents (w_db w "sessions")
          ∧ stored_session session_data id name r s ∧ snapshot_of id r (w_db w' "session_snapshots").
Proof.
  intros Hname Hok Hfresh Hm. split.
  - pose proof (opening_exclusive session_data id snapshot_id user name Hname w) as He. rewrite relates_same in He. by apply (He o).
  - intros r ->. by eapply new_session_stored.
Qed.

(** Ids that are drawn are new. *)
Definition fresh (r : session_request) (s : redis_world R * world C) : Prop :=
  match r with QOpen _ id _ => ∀ d, d ∈ contents (sessions s) → matches (_lookup id) d = false | _ => True end.

Inductive route_step (s s' : redis_world R * world C) : Prop :=
| do_route r user name o : get "username" user = VStr name → fresh r s → routes r user s = (o, s') → route_step s s'.

Lemma route_step_keeps s s' : route_step s s' → keeps_finalized (sessions s) (sessions s').
Proof.
  intros [r user name o Hname Hfresh Hs] Hok.
  assert ((∃ d i j, r = QOpen d i j) ∨ ∀ d i j, r ≠ QOpen d i j) as [(d & i & j & ->)|Hr] by (destruct r; eauto).
  - assert (related keeps_finalized keeps_finalized (routes (QOpen d i j) user) s) as Hrel by (apply related_db; by eapply opening_keeps).
    specialize (Hrel _ _ Hs). by destruct (is_ok o); apply Hrel.
  - eapply moved_keeps; [|done]. pose proof (request_moved r user name s Hname Hr Hok o s' Hs) as Hm. destruct (is_ok o); [by right|done].
Qed.

(** C3: no request on sessions touches one that is finalized. Through any sequence of requests of any users (sessions opened,
    heartbeats, statuses, finalizations, claims, pauses, resumptions, releases, takeovers, whatever their outcomes and whatever
    the Redis server does) a session whose status is final for the lifecycle stays as it is, and ids stay unique. *)
Theorem routes_keep_finalized s s' d :
  sessions_ok (sessions s) → d ∈ contents (sessions s) → lifecycle_status d = "FINALIZED" →
  reachable route_step s s' → d ∈ contents (sessions s') ∧ sessions_ok (sessions s').
Proof.
  intros Hok Hd Hfin. apply (reachable_inv _ (fun s => d ∈ contents (sessions s) ∧ sessions_ok (sessions s))); [done|].
  intros a b [Ha Hoka] Hs. destruct (route_step_keeps _ _ Hs Hoka) as [Hokb Hkeep]. auto.
Qed.
End machine.

(** ** Concrete requests *)

Definition example_routes (r : session_request) (user : doc) : M (redis_world RedisMap * world coll) doc :=
  serve_session second_clock true true standalone_client second_clock second_clock quiet (fun s => "hash of " +:+ s)
    (fun items => Ok (join "," (map i_item_code items))) (fun d => Ok d) head (fun _ => f0) f0 (fun _ => Ok tt) r user.

Definition staff_user (name : string) : doc := [("username", VStr name); ("role", VStr "staff")].
Definition boss : doc := [("username", VStr "boss"); ("role", VStr "supervisor")].

Definition empty_floor : redis_world RedisMap * world coll :=
  (empty_server, install_db_write_guards (mkworld [
    ("erp_items", [[("item_code", VStr "I2"); ("warehouse", VStr "main store"); ("stock_qty", VInt 4)];
                   [("item_code", VStr "I1"); ("warehouse", VStr "Main Store"); ("stock_qty", VInt 9)]])])).

Definition example_place : SessionCreate := SessionRequest " Main Store " None None None None.

(** Requests in order; the outcomes and the state in the end. *)
Fixpoint example_run (l : list (session_request * doc)) s : list (outcome doc) * (redis_world RedisMap * world coll) :=
  match l with
  | [] => ([], s)
  | (r, user) :: rest =>
      let '(o, s1) := example_routes r user s in
      let '(os, s2) := example_run rest s1 in (o :: os, s2)
  end.

(** The sessions: id, user, status. *)
Definition row_of_session (d : doc) : val * val * val := (get "id" d, get "staff_user" d, get "status" d).
Definition session_rows (s : redis_world RedisMap * world coll) : list (val * val * val) := map row_of_session (w_db (snd s) "sessions").

Definition alice_opens : list (session_request * doc) := [(QOpen example_place "S1" "P1", staff_user "alice")].
Definition alice_counting : redis_world RedisMap * world coll := snd (example_run alice_opens empty_floor).
Example example_opens :
  session_rows alice_counting = [(VStr "S1", VStr "alice", VStr "ACTIVE")] ∧
  map (fun d => get "item_count" d) (w_db (snd alice_counting) "session_snapshots") = [VInt 2].
Proof. vm_compute. auto. Qed.

(** The answer of an opening still says OPEN. *)
Lemma opening_answers_open :
  map (fun o => match o with Ok d => get "status" d | Raise _ => VNone end) (fst (example_run alice_opens empty_floor)) = [VStr "OPEN"].
Proof. vm_compute. reflexivity. Qed.

(** A session that its user released is not there for others: the claim of
    another employee is refused, since the session still has its user. *)
Lemma released_not_available :
  let '(os, s) := example_run [(QRelease "S1", staff_user "alice"); (QClaim "S1" "tablet", staff_user "bob")] alice_counting in
  nth 1 os (Ok []) = Raise (http 409 "Session is already claimed by another employee.")
  ∧ session_rows s = [(VStr "S1", VStr "alice", VStr "RELEASED")].
Proof. vm_compute. auto. Qed.

(** A session that was paused and resumed takes no counts any more, and the route
    for the status does not make it active again. *)
Lemma resumed_not_counted :
  let '(os, s) := example_run [(QPause "S1", staff_user "alice"); (QResume "S1", staff_user "alice");
                               (QStatus "S1" "ACTIVE", staff_user "alice")] alice_counting in
  session_rows s = [(VStr "S1", VStr "alice", VStr "CLAIMED")]
  ∧ nth 2 os (Ok []) = Raise (GovernanceViolation "CRITICAL: Invalid session transition CLAIMED -> ACTIVE")
  ∧ map (fun d => fst (_ensure_session_accepts_counts d (snd s))) (w_db (snd s) "sessions")
    = [Raise (http 400 "Session is not active")].
Proof. vm_compute. auto. Qed.

(** A claimed session is not an active one for the checks of an opening: its user
    gets a second one, and so does its place. *)
Lemma claimed_not_exclusive :
  let paused := [(QPause "S1", staff_user "alice"); (QResume "S1", staff_user "alice")] in
  let opens place name := (QOpen (SessionRequest place None None None None) "S2" "P2", staff_user name) in
  session_rows (snd (example_run (paused ++ [opens "Main Store" "alice"]) alice_counting))
    = [(VStr "S2", VStr "alice", VStr "ACTIVE"); (VStr "S1", VStr "alice", VStr "CLAIMED")]
  ∧ session_rows (snd (example_run (paused ++ [opens "MAIN STORE" "bob"]) alice_counting))
    = [(VStr "S2", VStr "bob", VStr "ACTIVE"); (VStr "S1", VStr "alice", VStr "CLAIMED")].
Proof. vm_compute. auto. Qed.

(** Pausing through the route for the status: refused for an active session,
    while one that was only created becomes active and the answer says PAUSED. *)
Lemma status_does_not_pause :
  nth 0 (fst (example_run [(QStatus "S1" "PAUSED", staff_user "alice")] alice_counting)) (Ok [])
    = Raise (GovernanceViolation "CRITICAL: Invalid session transition ACTIVE -> ACTIVE")
  ∧ let created := (empty_server, install_db_write_guards (mkworld [("sessions",
      [[("id", VStr "S1"); ("session_id", VStr "S1"); ("staff_user", VStr "alice"); ("status", VStr "CREATED"); ("version", VInt 0)]])])) in
    let '(os, s) := example_run [(QStatus "S1" "PAUSED", staff_user "alice")] created in
    map (fun o => match o with Ok d => get "status" d | Raise _ => VNone end) os = [VStr "PAUSED"]
    ∧ session_rows s = [(VStr "S1", VStr "alice", VStr "ACTIVE")].
Proof. vm_compute. auto. Qed.

(** Two claims that check before either writes both succeed, with the same version
    of the claim; the second takes the session from the first. *)
Lemma claims_race :
  let w := install_db_write_guards (mkworld [("sessions",
    [[("id", VStr "S1"); ("session_id", VStr "S1"); ("status", VStr "AVAILABLE"); ("version", VInt 0)]])]) in
  let checks name := claim_checks second_clock "S1" "tablet" (staff_user name) in
  match fst (checks "alice" w), fst (checks "bob" w) with
  | Ok (fields_a, event_a, (_, _, version_a)), Ok (fields_b, event_b, (_, _, version_b)) =>
      let '(oa, w1) := apply_ownership_transition "S1" fields_a event_a w in
      let '(ob, w2) := apply_ownership_transition "S1" fields_b event_b w1 in
      oa = Ok tt ∧ ob = Ok tt ∧ version_a = version_b
      ∧ map row_of_session (w_db w2 "sessions") = [(VStr "S1", VStr "bob", VStr "CLAIMED")]
  | _, _ => False
  end.
Proof. vm_compute. auto. Qed.

Lemma alice_sessions_ok : sessions_ok (w_db (snd alice_counting) "sessions").
Proof.
  assert (∃ s, w_db (snd alice_counting) "sessions" = [s] ∧ is_list (get "id" s) = false ∧ is_list (get "session_id" s) = false)
    as (s & -> & Hs) by (eexists; split; [vm_compute; reflexivity|done]).
  by apply sessions_ok_single.
Qed.

Lemma alice_pauses : is_ok (fst (example_routes (QPause "S1") (staff_user "alice") alice_counting)) = true.
Proof. vm_compute. reflexivity. Qed.

Example session_routes_refine_witness :
  let '(_, s) := example_routes (QPause "S1") (staff_user "alice") alice_counting in
  moves (open_move (permitted (staff_user "alice") "alice" (QPause "S1"))) "S1"
    (w_db (snd alice_counting) "sessions") (w_db (snd s) "sessions").
Proof.
  pose proof alice_sessions_ok as Hok. pose proof alice_pauses as Ha. assert (∃ s, s = alice_counting) as [s0 Hs] by eauto.
  rewrite <- Hs in *. clear Hs.
  destruct (example_routes (QPause "S1") (staff_user "alice") s0) as [o s] eqn:E. unfold example_routes in E.
  refine (proj2 (session_routes_refine _ _ _ _ _ _ _ _ _ _ _ _ _ _ (QPause "S1") (staff_user "alice") "alice" s0 o s _ _ Hok E) Ha);
    [reflexivity|discriminate].
Defined.

Definition free_floor : world coll := snd empty_floor.

Lemma free_sessions_ok : sessions_ok (w_db free_floor "sessions").
Proof.
  assert (w_db free_floor "sessions" = []) as -> by done. split; [by intros d Hd%elem_of_nil|]. intros sid. unfold at_most_one. cbn. lia.
Qed.

Example new_session_exclusive_witness :
  let '(o, w) := create_new_session second_clock true true standalone_client (fun s => s) (fun _ => Ok "items") (fun d => Ok d) head
    example_place "S1" "P1" (staff_user "alice") free_floor in
  w_db w "sessions" = w_db free_floor "sessions" ∨ none_active example_place "alice" (w_db free_floor "sessions").
Proof.
  pose proof free_sessions_ok as Hok. assert (∀ d, d ∈ contents (w_db free_floor "sessions") → matches (_lookup "S1") d = false) as Hfresh
    by (assert (w_db free_floor "sessions" = []) as -> by done; by intros d Hd%elem_of_nil).
  assert (∃ s, s = free_floor) as [w0 Hs] by eauto. rewrite <- Hs in *. clear Hs.
  destruct (create_new_session second_clock true true standalone_client _ _ _ _ _ _ _ _ w0) as [o w] eqn:E.
  refine (proj1 (new_session_exclusive _ _ _ _ _ _ _ _ example_place "S1" "P1" (staff_user "alice") "alice" w0 o w _ Hok Hfresh E)). reflexivity.
Defined.

Definition closed_session : doc := [("id", VStr "S1"); ("session_id", VStr "S1"); ("staff_user", VStr "alice");
  ("status", VStr " closed "); ("version", VInt 3)].
Definition closed_floor : redis_world RedisMap * world coll :=
  (empty_server, install_db_write_guards (mkworld [("sessions", [closed_session])])).

Example routes_keep_finalized_witness :
  closed_session ∈ contents (w_db (snd (snd (example_routes (QClaim "S1" "tablet") (staff_user "bob") closed_floor))) "sessions").
Proof.
  assert (sessions_ok (w_db (snd closed_floor) "sessions")) as Hok by (by apply sessions_ok_single).
  assert (closed_session ∈ contents (w_db (snd closed_floor) "sessions")) as Hd by (change (closed_session ∈ [closed_session]); left).
  assert (∃ s, s = closed_floor) as [s0 Hs] by eauto. rewrite <- Hs in *. clear Hs.
  destruct (example_routes (QClaim "S1" "tablet") (staff_user "bob") s0) as [o s] eqn:E. cbn [snd]. unfold example_routes in E.
  refine (proj1 (routes_keep_finalized second_clock true true standalone_client second_clock second_clock quiet (fun s => "hash of " +:+ s)
    (fun items => Ok (join "," (map i_item_code items))) (fun d => Ok d) head (fun _ => f0) f0 (fun _ => Ok tt) s0 s closed_session Hok Hd _ _)).
  - vm_compute. reflexivity.
  - apply (reach_step _ _ s0); [apply reach_refl|].
    by apply (do_route _ _ _ _ _ _ _ _ _ _ _ _ _ _ _ _ (QClaim "S1" "tablet") (staff_user "bob") "bob" o).
Defined.
